(* ===== verification/_CoqProject ===== *)
-Q . S2P
Prelude.v
ByteBuffer.v
Floats.v
MovementElements.v
MovementTables.v
MovementInfo.v
MovementCodec.v
MovementSanitize.v
MovementWire.v
MovementProofs.v
MovementWriter.v
MovementSpec.v
Timer.v
EventProcessor.v
Grids.v
InstanceIds.v
RBAC.v
Reputation.v
ReputationProofs.v
MotionMaster.v
MotionProofs.v
Threat.v
ThreatProofs.v
GroupLoot.v
GroupLootProofs.v
Group.v
GroupProofs.v
Text.v
Channel.v
ChannelProofs.v
LfgRoles.v
LfgQueue.v
LfgQueueProofs.v
LfgMgr.v
LfgMgrProofs.v
LfgAnswers.v
Economy.v
EconomyProofs.v
Mail.v
MailProofs.v
Auction.v
AuctionLedger.v
AuctionProofs.v
AuctionCommands.v
AuctionSell.v
AuctionLists.v
AuctionRestart.v
AuctionHouse.v
AuctionMoney.v
AuctionSpec.v
MailHandlers.v
MailboxProofs.v
MailRequests.v
MailSending.v
MailTaking.v
OldMails.v
MailSpec.v
Guild.v
GuildRequests.v
GuildProofs.v
GuildRanks.v
GuildMembers.v
GuildMoney.v
GuildSafety.v
GuildLoading.v
GuildReload.v
GuildSpec.v
