(* ===== verification/Prelude.v ===== *)
(** * MistyWorld: a verification development of the game server core

    MistyWorld is a World of Warcraft server in C++ (src/src/serveur/): a login
    server (authentification), the world server (Mondial, jeu), and the library
    both share (commun).  This development models the parts of the shared
    library and of the world server on which the rest is built and whose state
    is their own, and proves what makes each of them correct.

    ** The parts

    - Every packet is a [ByteBuffer] (commun/Packets): bytes, and bit fields
      that share one cursor.  The movement packets (jeu/Movement, Unit.cpp,
      Player.cpp) are built over it from tables that list, for each opcode, the
      order of the fields; the reputation packets from fixed sequences.
    - Timers (commun/Utilities) and the event queue pace everything else: a
      unit, a spell and a world object owns an [EventProcessor].
    - A map is an array of grids (jeu/Grids, jeu/Maps) that load and unload as
      players come and go, paced by those timers; instances of a map have ids
      handed out by [MapManager].
    - A unit moves as the top of its [MotionMaster]'s movement generators says
      (jeu/Movement), which the map's update drives.
    - A creature fights the unit of its threat list that it hates most
      (jeu/Combat); spells, attacks and the units themselves change the list.
    - Players form parties and raids (jeu/Groups), which share what they loot by
      rolling for it and are kept in the database.
    - Players talk on channels (jeu/Chat/Channels), which a manager of their team
      makes, finds and deletes; every player keeps pointers to his.
    - The dungeon finder (jeu/DungeonFinding) queues players and groups, looks for
      five who fit, proposes a dungeon to them and forms their group; the groups
      call it back.
    - Items, mail and auctions (jeu/Mails, jeu/AuctionHouse) share the players'
      money and bags and the character database: an auction holds an item and a
      bid, and everything that comes out of it goes by mail; a player reads his
      mailbox and writes to others with the requests of MailHandler.cpp, and
      [ObjectMgr] sends old mails back or deletes them.
    - A guild (jeu/Guilds) has members of ranks with rights, a leader, tabs and
      money, which it takes from and gives to its members; its tables follow every
      change, and a restart reads them back and repairs them.
    - An account's permissions (jeu/Accounts) guard the commands; a player's
      reputation (jeu/Reputation) is a part of the player with its own packets
      and database rows.

    ** The files

    - [Prelude]: machine integers ([uint w], [sint w] over [Z]), the monad
      [prog S E] of programs with a state and errors, the proof rules of an
      invariant kept by a program ([keeps]), lists of bytes.
    - [ByteBuffer]: commun/Packets/ByteBuffer.h.  [wrun b bs run] describes a
      buffer being written (the bytes flushed, the pending bits), [rview] and
      [rbits] one being read.
    - [Floats]: binary32 numbers, as bit patterns and as [spec_float].
    - [MovementElements], [MovementTables], [MovementInfo], [MovementCodec]:
      MovementStructures.{h,cpp}, [Unit::WriteMovementInfo],
      [Player::ReadMovementInfo].  [MovementWire] is their specification: what a
      layout means as bytes.  [MovementProofs] (the reader), [MovementWriter]
      (the writer), [MovementSanitize] (the anti-cheat filter) and
      [MovementSpec] (the theorems on the opcodes in use) prove that both sides
      implement it.
    - [Timer]: commun/Utilities/Timer.h.  [EventProcessor]:
      commun/Utilities/EventProcessor.{h,cpp}.
    - [Grids]: jeu/Grids/{GridStates,NGrid,GridDefines}, jeu/Maps/Map.cpp.
    - [InstanceIds]: the instance ids of jeu/Maps/MapManager.cpp.
    - [RBAC]: jeu/Accounts/{RBAC,AccountMgr}.
    - [Reputation] (the model) and [ReputationProofs]: jeu/Reputation.
    - [MotionMaster] and [MotionProofs]: jeu/Movement/MotionMaster.{h,cpp}.
    - [Threat] and [ThreatProofs]: jeu/Combat/ThreatManager.{h,cpp}.
    - [GroupLoot] and [GroupLootProofs]: the loot system of jeu/Groups/Group.cpp.
      [Group] and [GroupProofs]: the rest of Group.cpp, the statements of groups
      in commun/Database and [GroupMgr::LoadGroups]; the rolls are a part of the
      group's state.
    - [Text]: strings as bytes, commun/Utilities/Util.cpp.  [Channel] and
      [ChannelProofs]: jeu/Chat/Channels, jeu/Handlers/ChannelHandler.cpp and the
      channels of jeu/Entities/Player/Player.cpp.
    - [LfgRoles]: [LFGMgr::CheckGroupRoles].  [LfgQueue] and [LfgQueueProofs]:
      LFGQueue.{h,cpp}; what the manager tells a queue is an [LfgView].  [LfgMgr]
      (the model), [LfgMgrProofs] (its invariant) and [LfgAnswers] (what answers
      do): LFGMgr, LFGGroupData, LFGPlayerData, the hooks of LFGScripts and the
      handlers of jeu/Handlers/LFGHandler.cpp; groups, players and the dungeon
      tables are an [LfgWorld].
    - [Economy]: items, money, the tables of the character database and their
      statements and transactions.  [Mail]: jeu/Mails/Mail.{h,cpp} and the mailbox
      of Player.cpp.  [Auction]: jeu/AuctionHouse and
      jeu/Handlers/AuctionHouseHandler.cpp.  [EconomyProofs] and [MailProofs] are
      rules for their operations; [AuctionLedger] is the abstract state (who has
      how much money and which auction), [AuctionProofs] the invariant,
      [AuctionCommands] (bids, cancellations, the update) and [AuctionSell] that
      the operations keep it and change the ledger as they should, [AuctionLists]
      the lists, [AuctionRestart] the loading, [AuctionHouse] the reachable states,
      [AuctionMoney] the sum of the money, and [AuctionSpec] the theorems.
    - [MailHandlers]: jeu/Handlers/MailHandler.cpp, the storing of items and the
      saving of a player that it needs of Player.cpp, and
      [ObjectMgr::ReturnOrDeleteOldMails].  [MailboxProofs] is the invariant that
      ties the mailbox in memory to its rows, and what saving and loading do with
      it; [MailRequests] the requests of a session, each of which is served and
      keeps it; [MailSending] and [MailTaking] are what sending a mail and taking
      an item out of one change, [OldMails] what the clean-up does, and [MailSpec]
      the theorems.
    - [Guild] (the data, the tables, members, ranks and the bank) and
      [GuildRequests] (members that come and go, founding, the handlers, loading):
      jeu/Guilds/{Guild,GuildMgr}.cpp, jeu/Handlers/GuildHandler.cpp and what
      the handlers of petitions and characters do with guilds; a guild is an id
      in the map of the manager, and the money of players is that of [Economy].
      [GuildProofs] is the invariant and the rules for the statements of a
      transaction, [GuildRanks] and [GuildMembers] that the operations on ranks,
      tabs and members keep it, [GuildMoney] what deposits and withdrawals change,
      [GuildSafety] that every request keeps it, [GuildLoading] what the loops of
      [LoadGuilds] read, [GuildReload] what [Validate] repairs, and [GuildSpec] the
      theorems.

    A definition carries the name of the function or type it translates.  The
    state of a class is a [Record] with its fields; a member function is a
    [prog] over it, or a pure function if it changes nothing; what the C++
    leaves undefined (overflow of a signed integer, an index out of range, a
    null or dangling pointer) is an error of the component's error type, never
    a value.  Numbers keep the width of the source.  Containers with an order
    the code depends on are lists, or maps read in the order of their keys.

    ** The theorems

    - Packets: bit and byte fields written to a buffer read back, guids and
      strings included; reads never leave the buffer; a patched placeholder
      holds the new value.
    - Movement: the reader and the writer refine the wire format, for every
      layout in use; a broadcast reads back as the mover's state; the flags the
      server keeps are consistent.
    - Timers and events: no drift, expiry after the period, wrap-around; due
      events run in order of time and then of insertion, once, and shutdown
      aborts each of them.
    - Grids: no grid is unloaded under a player or an active object, and an
      abandoned one is unloaded; ids of instances are unique while in use.
    - Accounts: the permissions in force are the closure of the granted ones.
    - Movement generators: no request or update of a unit that moves goes
      outside the slots or uses a deleted generator, under a condition on what
      the generators ask for while they are called; what the code does without
      that condition, and when a motion master is emptied, is a theorem too.
    - Threat: every operation of a threat manager completes and keeps its lists
      consistent, whatever the order of events; which victim is chosen.
    - Loot rolls: what a vote does and who wins; every operation completes and the
      totals count the votes; two theorems show how a roll is cheated or stalls.
    - Groups: the invariant of every reachable group, with total correctness of
      its operations; the statements sent to the database, executed and loaded,
      give the group back.
    - Channels: every command of every player completes without a dangling
      pointer, the owner of a channel is on it, who hears whom, and the bans and
      settings of a channel survive the database.
    - Dungeon finder: the check of roles finds an assignment exactly if there is
      one; every proposal is five players in roles and a dungeon they chose; no
      command fails in any reachable state, as long as those who accept have a
      dungeon selected; a refusal takes out the one who refused and queues the
      others again.
    - Auction house: in every state that commands, logins and restarts reach, each
      auction has an item of its own that nobody else has, memory and database
      agree, and no command follows a dangling pointer; what a bid, a buyout and a
      sale change, and that bids keep the sum of the money up to 32 bits; what a
      search shows; and that a restart gives every auction back.
    - Mail: whatever a player does with his mailbox, saving and loading give it
      back; the money of a mail is taken once, and an item once it is paid for; a
      mail is refused or sent with all that is in it and paid for; an old mail
      goes back once or is deleted.  Five examples run what the handlers let
      through.
    - Guilds: every request keeps memory, tables and the players who are online in
      step, as long as a member does not decline an invitation and only the lowest
      rank is removed; a restart gives every guild back but for what is repaired;
      who promotes whom; a withdrawal stays within the bank and the daily limit.
      Five more theorems show what goes wrong without those conditions and where
      rights are not looked at.
    - Reputation: bounds, counters, and the round trip through the database, as
      an invariant of every state reachable from a login.

    ** Bounds and fuel

    Loops over a range or a list are structural.  The reader of a C string
    takes the bytes left as fuel; [EventProcessor.Update] takes any number
    above that of the events due, which its theorem shows to be enough; and
    [RBAC.ExpandPermissions] takes the number of permissions plus the number of
    links, each of which is followed once.  The calls between a motion master
    and its generators are re-entrant without a bound in the source: the fuel
    bounds their nesting, running out is an error of its own, and 5 is proved
    to be enough for generators that make no requests.  Threat
    takes the length of the chains of pet owners and the number of units as
    fuel, which its theorem shows to be enough; [EndRoll] one more than the
    number of rolls, of which each turn erases one; [CleanupChannels] the length of the
    player's list.  [CheckGroupRoles] takes the sum of the roles, from which each
    nested call takes one away; [FindNewGroups] the number of groups still to
    try, and [FindGroups] that of the new ones; the theorems show all three to be
    enough.  [level_up] takes the highest level, since each turn is a level.  Theorems on buffers assume fewer
    than 10,000,000 bytes, where the source asserts.

    ** Not modelled

    Left out because they are input and output around the parts above: sockets
    and threads, the database layer, configuration, logging, the loading of DBC
    and map files, the start-up programs.  Left out because they are content
    rather than mechanism: boss and zone scripts, the battleground maps, chat
    commands.  Not reached: loot, quests, achievements, pools and game events, conditions, the
    movement generators themselves and splines, spells and auras, and
    collision; each keeps state of its own to which the same treatment applies.
    Of the parts modelled, what is not: positions as floats on a map and the
    moves of creatures out of an unloading grid ([Grids]); hex dumps and the
    compression of packets ([ByteBuffer]); account creation and passwords
    ([RBAC]); the callbacks from reputation to quests and achievements; the binds
    of groups to instances, and master loot ([Group]); the time a channel was last
    used ([Channel]); the tables of dungeons and rewards, the locks of a player
    (a parameter), teleports and rewards ([LfgMgr]); enchantments, containers, refunds and
    achievements of items, and what decides whether an item may be traded or is
    found by its name (answers of the [EconomyWorld]) ([Economy], [Auction]); the bit
    fields of the mail packets, the text of items and the rows of
    character_inventory, and what decides where an item has room, the levels, teams
    and names of players (answers of the [MailWorld]) ([MailHandlers]);
    the items in the bank of a guild, its logs and news, emblem, achievements and
    perks, and what the roster shows of members (class, zone, activity) ([Guild]). *)

From stdpp Require Export base numbers list gmap sets fin_maps functions.
From stdpp Require Import sorting.
From Stdlib Require Export ZArith Lia Bool.

#[export] Set Default Goal Selector "!".
Local Open Scope Z_scope.

(** ** Machine integers

    A [w]-bit unsigned integer is a [Z] in [[0, 2^w)]; the C++ conversions and
    the wrap-around of unsigned arithmetic are [uint w]; the conversion to a
    [w]-bit two's-complement integer is [sint w]. *)

Definition uint (w v : Z) : Z := v mod 2 ^ w.
Definition sint (w v : Z) : Z := (v + 2 ^ (w - 1)) mod 2 ^ w - 2 ^ (w - 1).
(** The test [flags & flag]. *)
Definition has (flags flag : Z) : bool := negb (Z.land flags flag =? 0).

Lemma has_bit n f : 0 <= n -> has f (2 ^ n) = Z.testbit f n.
Proof.
  intros Hn. unfold has. destruct (Z.testbit f n) eqn:Eb; [apply negb_true_iff|apply negb_false_iff].
  - apply Z.eqb_neq. intros E. apply (f_equal (fun z => Z.testbit z n)) in E.
    by rewrite Z.land_spec, Z.pow2_bits_true, Eb, Z.bits_0 in E.
  - apply Z.eqb_eq. apply Z.bits_inj'. intros m Hm. rewrite Z.land_spec, Z.pow2_bits_eqb, Z.bits_0 by done.
    destruct (Z.eqb_spec n m) as [<-|]; [by rewrite Eb|apply andb_false_r].
Qed.

Abbreviation u8 := (uint 8).
Abbreviation u16 := (uint 16).
Abbreviation u32 := (uint 32).
Abbreviation u64 := (uint 64).
Abbreviation s8 := (sint 8).
Abbreviation s16 := (sint 16).
Abbreviation s32 := (sint 32).
Abbreviation s64 := (sint 64).

Lemma uint_range w v : 0 <= w -> 0 <= uint w v < 2 ^ w.
Proof. intros. apply Z.mod_pos_bound. by apply Z.pow_pos_nonneg; lia. Qed.

Lemma uint_small w v : 0 <= v < 2 ^ w -> uint w v = v.
Proof. intros. by apply Z.mod_small. Qed.

Lemma uint_idemp w v : 0 <= w -> uint w (uint w v) = uint w v.
Proof. intros. apply uint_small. by apply uint_range. Qed.

Lemma u32_u64 v : u32 (u64 v) = u32 v.
Proof. unfold uint. apply Z.mod_mod_divide. by exists (2 ^ 32). Qed.

Lemma sint_range w v : 0 < w -> - 2 ^ (w - 1) <= sint w v < 2 ^ (w - 1).
Proof.
  intros Hw. unfold sint.
  assert (2 ^ w = 2 * 2 ^ (w - 1)) as E
    by (rewrite <- Z.pow_succ_r by lia; f_equal; lia).
  pose proof (Z.mod_pos_bound (v + 2 ^ (w - 1)) (2 ^ w)).
  assert (0 < 2 ^ (w - 1)) by (apply Z.pow_pos_nonneg; lia). lia.
Qed.

Lemma sint_small w v : 0 < w -> - 2 ^ (w - 1) <= v < 2 ^ (w - 1) -> sint w v = v.
Proof.
  intros Hw Hv. unfold sint.
  assert (2 ^ w = 2 * 2 ^ (w - 1)) as E
    by (rewrite <- Z.pow_succ_r by lia; f_equal; lia).
  rewrite Z.mod_small; lia.
Qed.

(** Converting a signed integer to unsigned and back is the identity: what
    makes a signed field survive its trip through a byte buffer. *)
Lemma sint_uint w v : 0 < w -> sint w (uint w v) = sint w v.
Proof.
  intros. unfold sint, uint. by rewrite Z.add_mod_idemp_l by (apply Z.pow_nonzero; lia).
Qed.

(** [len] is [length] in [Z], the type every size and position has here. *)
Abbreviation len l := (Z.of_nat (length l)).

(** ** Results and stateful programs

    C++ code that mutates an object and may throw is a [prog S E A]: it maps
    the object's state to a result together with the state it leaves behind,
    which is kept when an exception is thrown, as in C++. *)

Inductive res (E A : Type) : Type :=
| Ok (a : A)
| Err (e : E).
Arguments Ok {E A} a.
Arguments Err {E A} e.

Definition prog (S E A : Type) : Type := S -> res E A * S.

Section Prog.
Context {S E : Type}.

#[global] Instance prog_ret : MRet (prog S E) := fun A a s => (Ok a, s).
#[global] Instance prog_bind : MBind (prog S E) := fun A B k m s =>
  match m s with
  | (Ok a, s') => k a s'
  | (Err e, s') => (Err e, s')
  end.

Definition throw {A} (e : E) : prog S E A := fun s => (Err e, s).
Definition get : prog S E S := fun s => (Ok s, s).
Definition put (s : S) : prog S E unit := fun _ => (Ok tt, s).
Definition modify (f : S -> S) : prog S E unit := fun s => (Ok tt, f s).
Definition of_res {A} (r : S -> res E A) : prog S E A := fun s => (r s, s).

(** The loop [for (auto x : l) f(x)]. *)
Fixpoint forM {A} (l : list A) (f : A -> prog S E unit) : prog S E unit :=
  match l with
  | [] => mret tt
  | x :: l' => f x;; forM l' f
  end.

Lemma bind_ok {A B} (m : prog S E A) (k : A -> prog S E B) s a s' :
  m s = (Ok a, s') -> (m ≫= k) s = k a s'.
Proof. intros H. unfold mbind, prog_bind. by rewrite H. Qed.

Lemma bind_err {A B} (m : prog S E A) (k : A -> prog S E B) s e s' :
  m s = (Err e, s') -> (m ≫= k) s = (Err e, s').
Proof. intros H. unfold mbind, prog_bind. by rewrite H. Qed.

Lemma forM_app {A} (l1 l2 : list A) f s :
  forM (l1 ++ l2) f s = (forM l1 f;; forM l2 f) s.
Proof.
  revert s. induction l1 as [|x l1 IH]; intros s; [done|].
  simpl. unfold mbind, prog_bind in *. destruct (f x s) as [[[]|e] s1]; [|done].
  apply IH.
Qed.
End Prog.

(** Run a program of a component inside the state of its owner. *)
Definition lift {S T E A} (proj : T -> S) (upd : S -> T -> T) (m : prog S E A)
  : prog T E A :=
  fun t => let '(r, s') := m (proj t) in (r, upd s' t).

Lemma lift_ok {S T E A} (proj : T -> S) (upd : S -> T -> T) (m : prog S E A) t a s' :
  m (proj t) = (Ok a, s') -> lift proj upd m t = (Ok a, upd s' t).
Proof. intros H. unfold lift. by rewrite H. Qed.

(** ** Invariants of programs

    [keeps I p]: a run of [p] that succeeds from a state satisfying [I] ends in
    one.  The rules follow the shape of a program; the components add their
    operations to the hint database [keeps]. *)

Definition keeps {S E A} (I : S -> Prop) (p : prog S E A) : Prop :=
  forall s a s', I s -> p s = (Ok a, s') -> I s'.

Section Keeps.
Context {S E : Type} (I : S -> Prop).
Implicit Types A B : Type.

Lemma keeps_ret {A} (a : A) : keeps (E := E) I (mret a).
Proof. by intros s b s' Hs [= _ <-]. Qed.
Lemma keeps_throw {A} (e : E) : keeps I (@throw S E A e).
Proof. by intros s b s' Hs [=]. Qed.
Lemma keeps_get : keeps (E := E) I get.
Proof. by intros s b s' Hs [= _ <-]. Qed.
Lemma keeps_modify f : (forall s, I s -> I (f s)) -> keeps (E := E) I (modify f).
Proof. intros Hf s b s' Hs [= _ <-]. by apply Hf. Qed.
Lemma keeps_of_res {A} (r : S -> res E A) : keeps I (of_res r).
Proof. by intros s b s' Hs [= _ <-]. Qed.
Lemma keeps_bind {A B} (p : prog S E A) (k : A -> prog S E B) :
  keeps I p -> (forall a, keeps I (k a)) -> keeps I (p ≫= k).
Proof.
  intros Hp Hk s b s' Hs. unfold mbind, prog_bind. destruct (p s) as [[a|e] s1] eqn:Ep; [|by intros [=]].
  apply Hk. by apply (Hp s a s1).
Qed.

(** [get] also tells that the value read satisfies the invariant. *)
Lemma keeps_get_bind {A} (k : S -> prog S E A) :
  (forall s a s', I s -> k s s = (Ok a, s') -> I s') -> keeps I (get ≫= k).
Proof. intros Hk s a s' Hs Er. rewrite (bind_ok get _ s s s eq_refl) in Er. by apply (Hk s a s'). Qed.

Lemma keeps_forM {A} (l : list A) (f : A -> prog S E unit) :
  (forall x, keeps I (f x)) -> keeps I (forM l f).
Proof. intros Hf. induction l; cbn [forM]; [apply keeps_ret|by apply keeps_bind]. Qed.
Lemma keeps_if {A} (b : bool) (p q : prog S E A) : keeps I p -> keeps I q -> keeps I (if b then p else q).
Proof. by destruct b. Qed.
Lemma keeps_case {A B} (o : option B) (p : B -> prog S E A) (q : prog S E A) :
  (forall b, o = Some b -> keeps I (p b)) -> keeps I q ->
  keeps I (match o with Some b => p b | None => q end).
Proof. destruct o; eauto. Qed.

(** A program that, on the states of the invariant, only ever ends in one. *)
Lemma keeps_run {A} (p : prog S E A) : (forall s, I s -> I (p s).2) -> keeps I p.
Proof. intros Hp s a s' Hs Er. specialize (Hp s Hs). by rewrite Er in Hp. Qed.
End Keeps.

(** ** Safety of programs

    [wp allow p s Q]: the run of [p] from [s] ends in [Q], or in an error that
    [allow] permits.  With [allow] empty it is total correctness. *)

Section Wp.
Context {S E : Type} (allow : E -> Prop).
Implicit Types A B : Type.

Definition wp {A} (p : prog S E A) (s : S) (Q : A -> S -> Prop) : Prop :=
  match p s with
  | (Ok a, s') => Q a s'
  | (Err e, _) => allow e
  end.

Lemma wp_ok {A} (p : prog S E A) s a s' (Q : A -> S -> Prop) : p s = (Ok a, s') -> Q a s' -> wp p s Q.
Proof. intros Er HQ. unfold wp. by rewrite Er. Qed.
Lemma wp_ret {A} (a : A) s (Q : A -> S -> Prop) : Q a s -> wp (mret a) s Q.
Proof. done. Qed.
Lemma wp_bind {A B} (p : prog S E A) (k : A -> prog S E B) s Q :
  wp p s (fun a s' => wp (k a) s' Q) -> wp (p ≫= k) s Q.
Proof. unfold wp, mbind, prog_bind. by destruct (p s) as [[a|e] s']. Qed.
Lemma wp_mono {A} (p : prog S E A) s (Q Q' : A -> S -> Prop) :
  wp p s Q -> (forall a s', Q a s' -> Q' a s') -> wp p s Q'.
Proof. unfold wp. destruct (p s) as [[a|e] s']; auto. Qed.
Lemma wp_seq {A B} (p : prog S E A) (k : A -> prog S E B) s a s' Q :
  p s = (Ok a, s') -> wp (k a) s' Q -> wp (p ≫= k) s Q.
Proof. intros Er H. apply wp_bind. by eapply wp_ok. Qed.
Lemma wp_get {B} (k : S -> prog S E B) s Q : wp (k s) s Q -> wp (get ≫= k) s Q.
Proof. by apply wp_seq. Qed.
Lemma wp_modify {B} f (k : unit -> prog S E B) s Q : wp (k tt) (f s) Q -> wp (modify f ≫= k) s Q.
Proof. by apply wp_seq. Qed.
Lemma wp_throw {A} (e : E) s (Q : A -> S -> Prop) : allow e -> wp (throw e) s Q.
Proof. done. Qed.

Lemma wp_and {A} (p : prog S E A) s (Q Q' : A -> S -> Prop) :
  wp p s Q -> wp p s Q' -> wp p s (fun a s' => Q a s' /\ Q' a s').
Proof. unfold wp. destruct (p s) as [[a|e] s']; auto. Qed.

(** A loop that keeps [I]. *)
Lemma wp_forM {X} (l : list X) (f : X -> prog S E unit) (I : S -> Prop) s :
  I s -> (forall x s', x ∈ l -> I s' -> wp (f x) s' (fun _ => I)) -> wp (forM l f) s (fun _ => I).
Proof.
  revert s. induction l as [|x l IH]; intros s Hs Hf; cbn [forM]; [done|].
  apply wp_bind. eapply wp_mono; [apply Hf; [by left|done]|].
  intros [] s' Hs'. apply IH; [done|]. intros y s'' Hy. apply Hf. by right.
Qed.
End Wp.

(** ** Maps

    A [std::map] is read in the order of its keys; [count P F] is the number of
    its values that satisfy [P]. *)

Definition key_order {V} (a b : Z * V) : Prop := a.1 <= b.1.
#[export] Instance key_order_dec {V} : RelDecision (@key_order V).
Proof. intros a b. unfold key_order. apply _. Defined.
Definition in_order {V} (f : gmap Z V) : list (Z * V) := merge_sort key_order (map_to_list f).

(** Sorted lists without duplicates are equal if their elements are. *)
Lemma sorted_NoDup {A} (R : A -> A -> Prop) (l : list A) : (forall x y, R x y -> R y x -> False) -> StronglySorted R l -> NoDup l.
Proof.
  intros Has. induction 1 as [|a l Hs IH Hf]; constructor; [|done]. intros Ha. rewrite Forall_forall in Hf.
  pose proof (Hf a Ha). by eapply Has.
Qed.
Lemma sorted_ext {A} (R : A -> A -> Prop) (l1 l2 : list A) : (forall x y, R x y -> R y x -> False) ->
  StronglySorted R l1 -> StronglySorted R l2 -> (forall x, x ∈ l1 <-> x ∈ l2) -> l1 = l2.
Proof.
  intros Has H1 H2 Hel. apply (StronglySorted_unique_strong R); [|done..|].
  - intros x y _ _ Hxy Hyx. exfalso. by eapply Has.
  - apply NoDup_Permutation; [by eapply sorted_NoDup..|done].
Qed.

Section Maps.
Context {V : Type}.
Implicit Types (P : V -> bool) (F : gmap Z V).

Lemma in_order_spec F k f : (k, f) ∈ in_order F <-> F !! k = Some f.
Proof. unfold in_order. rewrite merge_sort_Permutation. apply elem_of_map_to_list. Qed.
Lemma in_order_NoDup F : NoDup (in_order F).*1.
Proof. unfold in_order. rewrite merge_sort_Permutation. apply NoDup_fst_map_to_list. Qed.
Lemma in_order_sorted F : StronglySorted key_order (in_order F).
Proof.
  apply Sorted_StronglySorted; [intros a b c; unfold key_order; lia|].
  apply Sorted_merge_sort. intros a b. unfold key_order. lia.
Qed.

Definition count P F : Z := Z.of_nat (size (filter (fun kf => P kf.2 = true) F)).

Lemma count_insert P F k f : F !! k = None -> count P (<[k := f]> F) = count P F + Z.b2z (P f).
Proof.
  intros Hk. unfold count. destruct (P f) eqn:HP; cbn [Z.b2z].
  - rewrite map_filter_insert_True by done. rewrite map_size_insert_None; [lia|].
    by apply map_lookup_filter_None; left.
  - rewrite map_filter_insert_not' by (cbn; congruence). lia.
Qed.

Lemma count_replace P F k f g : F !! k = Some f -> count P (<[k := g]> F) = count P F - Z.b2z (P f) + Z.b2z (P g).
Proof.
  intros Hk. rewrite <- (insert_delete_id F k f) at 2 by done.
  rewrite <- (insert_delete_eq F k g). rewrite !count_insert by apply lookup_delete_eq. lia.
Qed.

Lemma count_delete P F k f : F !! k = Some f -> count P (delete k F) = count P F - Z.b2z (P f).
Proof.
  intros Hk. rewrite <- (insert_delete_id F k f) at 2 by done. rewrite count_insert by apply lookup_delete_eq. lia.
Qed.

Lemma count_fmap P (h : V -> V) F : (forall f, P (h f) = P f) -> count P (h <$> F) = count P F.
Proof.
  intros Hh. unfold count. rewrite map_filter_fmap, map_size_fmap. do 2 f_equal.
  apply map_filter_ext. intros k f _. cbn. by rewrite Hh.
Qed.
End Maps.

(** No key comes twice. *)
Definition key_before {V} (a b : Z * V) : Prop := a.1 < b.1.
Lemma in_order_strict {V} (F : gmap Z V) : StronglySorted key_before (in_order F).
Proof.
  pose proof (in_order_sorted F) as Hs. pose proof (in_order_NoDup F) as Hnd. induction Hs as [|e l Hs IH Hf]; [constructor|].
  cbn in Hnd. apply NoDup_cons in Hnd as [He Hnd]. constructor; [by apply IH|]. rewrite Forall_forall in Hf |- *. intros x Hx.
  specialize (Hf x Hx). unfold key_order in Hf. unfold key_before. assert (x.1 <> e.1); [|lia].
  intros E. apply He, list_elem_of_fmap. by exists x.
Qed.

(** ** Little-endian bytes *)

Fixpoint le_bytes (n : nat) (v : Z) : list Z :=
  match n with
  | O => []
  | S n' => v mod 256 :: le_bytes n' (v / 256)
  end.

Fixpoint le_value (bs : list Z) : Z :=
  match bs with
  | [] => 0
  | b :: bs' => b + 256 * le_value bs'
  end.

Definition is_byte (b : Z) : Prop := 0 <= b < 256.
#[global] Instance is_byte_dec b : Decision (is_byte b).
Proof. unfold is_byte. apply _. Defined.

Lemma length_le_bytes n v : length (le_bytes n v) = n.
Proof. revert v. induction n as [|n IH]; intros v; simpl; [done|]. by rewrite IH. Qed.

Lemma le_bytes_byte n v : Forall is_byte (le_bytes n v).
Proof.
  revert v. induction n as [|n IH]; intros v; simpl; constructor; [|apply IH].
  unfold is_byte. apply Z.mod_pos_bound. lia.
Qed.

Lemma le_value_bytes n v : le_value (le_bytes n v) = v mod 2 ^ (8 * Z.of_nat n).
Proof.
  revert v. induction n as [|n IH]; intros v.
  - change (le_value (le_bytes 0 v)) with 0. change (2 ^ (8 * Z.of_nat 0)) with 1.
    by rewrite Z.mod_1_r.
  - cbn [le_bytes le_value]. rewrite IH.
    replace (8 * Z.of_nat (S n)) with (8 + 8 * Z.of_nat n) by lia.
    rewrite Z.pow_add_r by lia. change (2 ^ 8) with 256.
    rewrite Z.rem_mul_r by (try lia; apply Z.pow_nonzero; lia). lia.
Qed.

Lemma le_bytes_value bs : Forall is_byte bs -> le_bytes (length bs) (le_value bs) = bs.
Proof.
  induction 1 as [|b bs Hb _ IH]; [done|]. cbn [length le_bytes le_value].
  unfold is_byte in Hb. f_equal.
  - replace (b + 256 * le_value bs) with (b + le_value bs * 256) by lia.
    rewrite Z.mod_add by lia. apply Z.mod_small. lia.
  - replace (b + 256 * le_value bs) with (b + le_value bs * 256) by lia.
    rewrite Z.div_add by lia. rewrite Z.div_small by lia. by rewrite Z.add_0_l.
Qed.

(** ** Bit facts shared by the codecs *)

Lemma lor_disjoint a b n : 0 <= n -> 0 <= a < 2 ^ n -> Z.lor a (b * 2 ^ n) = a + b * 2 ^ n.
Proof.
  intros Hn Ha. rewrite <- Z.shiftl_mul_pow2 by done.
  assert (Z.land a (Z.shiftl b n) = 0) as Hl.
  { apply Z.bits_inj'. intros i Hi. rewrite Z.land_spec, Z.bits_0, Z.shiftl_spec by lia.
    destruct (decide (i < n)).
    - by rewrite (Z.testbit_neg_r b), andb_false_r by lia.
    - rewrite <- (Z.mod_small a (2 ^ n)), Z.mod_pow2_bits_high by lia. done. }
  by rewrite Z.add_nocarry_lxor, Z.lxor_lor by done.
Qed.

Lemma lor_pow2_disjoint a n : 0 <= n -> 0 <= a < 2 ^ n -> Z.lor a (2 ^ n) = a + 2 ^ n.
Proof. intros. rewrite <- (Z.mul_1_l (2 ^ n)). by apply lor_disjoint. Qed.

Lemma nonzero_bit v : v <> 0 -> exists i, 0 <= i /\ Z.testbit v i = true.
Proof.
  intros Hv. destruct (Z.lt_trichotomy v 0) as [Hn|[->|Hp]]; [|done|].
  - exists (Z.succ (Z.log2 (Z.pred (- v)))). pose proof (Z.log2_nonneg (Z.pred (- v))).
    split; [lia|]. apply Z.bits_above_log2_neg; lia.
  - exists (Z.log2 v). split; [apply Z.log2_nonneg|by apply Z.bit_log2].
Qed.

Lemma land_pow2_testbit a n : 0 <= n -> negb (Z.land a (2 ^ n) =? 0) = Z.testbit a n.
Proof.
  intros Hn. assert (Z.land a (2 ^ n) = Z.b2z (Z.testbit a n) * 2 ^ n) as ->.
  { apply Z.bits_inj'. intros i Hi.
    rewrite Z.land_spec, Z.pow2_bits_eqb by lia.
    destruct (Z.eqb_spec n i) as [->|Hne].
    - rewrite andb_true_r. destruct (Z.testbit a i); simpl Z.b2z.
      + by rewrite Z.mul_1_l, Z.pow2_bits_true by lia.
      + by rewrite Z.mul_0_l, Z.bits_0.
    - rewrite andb_false_r. destruct (Z.testbit a n); simpl Z.b2z.
      + by rewrite Z.mul_1_l, Z.pow2_bits_false by lia.
      + by rewrite Z.mul_0_l, Z.bits_0. }
  assert (0 < 2 ^ n) by (apply Z.pow_pos_nonneg; lia).
  destruct (Z.testbit a n); simpl Z.b2z.
  - destruct (Z.eqb_spec (1 * 2 ^ n) 0); [lia|done].
  - done.
Qed.

(** ** Proof automation shared by the components *)

Create HintDb keeps discriminated.
#[export] Hint Resolve keeps_ret keeps_throw keeps_get keeps_forM keeps_if keeps_case : keeps.
#[export] Hint Resolve keeps_bind | 5 : keeps.
#[export] Hint Extern 1 (forall _, keeps _ _) => intros : keeps.
Create HintDb misty.
Create Rewrite HintDb misty_len.
#[export] Hint Resolve length_le_bytes le_bytes_byte : misty.
#[export] Hint Rewrite @length_app @length_take @length_drop length_le_bytes : misty_len.

(** Split every conditional and match of the goal or of a hypothesis, and
    close the branches that contradict what is known. *)
Ltac split_matches :=
  repeat (case_match; simplify_eq/=; try done).

Ltac bool_lia := repeat match goal with
  | H : (_ =? _) = true |- _ => apply Z.eqb_eq in H
  | H : (_ =? _) = false |- _ => apply Z.eqb_neq in H
  | H : (_ <? _) = true |- _ => apply Z.ltb_lt in H
  | H : (_ <? _) = false |- _ => apply Z.ltb_ge in H
  | H : (_ <=? _) = true |- _ => apply Z.leb_le in H
  | H : (_ <=? _) = false |- _ => apply Z.leb_gt in H
  end; try lia.
