(* ===== verification/ByteBuffer.v ===== *)
(** * The packet buffer (src/src/serveur/commun/Packets/ByteBuffer.h)

    [ByteBuffer] holds the storage, the read and write positions and the bit
    cursor shared by bit reads and bit writes.  Every member function is a
    [prog] over that record; its exceptions are the two C++ exception classes,
    a failed [ASSERT], and [UndefinedBehaviour] for an access outside
    [_storage] that the C++ checks let through.  The second half of the file
    gives the two views the clients reason with: [wrun] (a buffer being
    written) and [rview]/[rbits] (a buffer being read). *)

From S2P Require Import Prelude.
Local Open Scope Z_scope.

Inductive ByteBufferError :=
| ByteBufferPositionException
| ByteBufferSourceException
| AssertionFailure
| UndefinedBehaviour.

#[export] Instance ByteBufferError_eq_dec : EqDecision ByteBufferError.
Proof. solve_decision. Defined.

Record ByteBuffer := mkByteBuffer {
  bb_rpos : Z;
  bb_wpos : Z;
  bb_bitpos : Z;
  bb_curbitval : Z;
  bb_storage : list Z
}.

(** [ByteBuffer()]: the constructors differ only in the reserved capacity. *)
Definition ByteBuffer_new : ByteBuffer := mkByteBuffer 0 0 8 0 [].

(** A received packet: the socket fills the storage ([WorldPacket] read path). *)
Definition ByteBuffer_of_bytes (bs : list Z) : ByteBuffer :=
  mkByteBuffer 0 (len bs) 8 0 bs.

Abbreviation BB := (prog ByteBuffer ByteBufferError).

Definition size (b : ByteBuffer) : Z := len (bb_storage b).
Definition set_rpos (v : Z) (b : ByteBuffer) : ByteBuffer :=
  mkByteBuffer v (bb_wpos b) (bb_bitpos b) (bb_curbitval b) (bb_storage b).
Definition set_wpos (v : Z) (b : ByteBuffer) : ByteBuffer :=
  mkByteBuffer (bb_rpos b) v (bb_bitpos b) (bb_curbitval b) (bb_storage b).
Definition set_bits (bitpos curbitval : Z) (b : ByteBuffer) : ByteBuffer :=
  mkByteBuffer (bb_rpos b) (bb_wpos b) bitpos curbitval (bb_storage b).
Definition set_storage (s : list Z) (b : ByteBuffer) : ByteBuffer :=
  mkByteBuffer (bb_rpos b) (bb_wpos b) (bb_bitpos b) (bb_curbitval b) s.

Definition clear (b : ByteBuffer) : ByteBuffer :=
  mkByteBuffer 0 0 (bb_bitpos b) (bb_curbitval b) [].

(** [std::vector::resize] with value 0. *)
Definition vec_resize (n : Z) (l : list Z) : list Z :=
  take (Z.to_nat n) l ++ replicate (Z.to_nat n - length l) 0.

(** [std::memcpy(&v[pos], src, cnt)] within the bounds of [v]. *)
Definition vec_copy (pos : Z) (src l : list Z) : list Z :=
  take (Z.to_nat pos) l ++ src ++ drop (Z.to_nat pos + length src) l.

(** [void append(const uint8 *src, size_t cnt)]: every caller passes a
    non-null [src] that holds [cnt] bytes. *)
Definition append_raw (src : list Z) : BB unit := fun b =>
  if len src =? 0 then (Err ByteBufferSourceException, b)
  else if negb (size b <? 10000000) then (Err AssertionFailure, b)
  else
    let st := if size b <? bb_wpos b + len src
              then vec_resize (bb_wpos b + len src) (bb_storage b)
              else bb_storage b in
    (Ok tt, set_wpos (bb_wpos b + len src)
              (set_storage (vec_copy (bb_wpos b) src st) b)).

Definition FlushBits : BB unit := fun b =>
  if bb_bitpos b =? 8 then (Ok tt, b)
  else (append_raw [bb_curbitval b];; modify (set_bits 8 0)) b.

(** [template <typename T> void append(T value)] for an [n]-byte integer or
    the bit pattern of a floating-point value. *)
Definition append (n : nat) (value : Z) : BB unit :=
  FlushBits;; append_raw (le_bytes n value).

Definition WriteBit (bit : Z) : BB bool := fun b =>
  let pos := u64 (bb_bitpos b - 1) in
  let cur := if bit =? 0 then bb_curbitval b
             else u8 (Z.lor (bb_curbitval b) (Z.shiftl 1 pos)) in
  let b1 := set_bits pos cur b in
  (if pos =? 0 then
     modify (set_bits 8 cur);;
     append_raw [cur];;
     modify (set_bits 8 0);;
     mret (negb (bit =? 0))
   else mret (negb (bit =? 0))) b1.

(** The bytes of [_storage] from [pos], as [read<T>(pos)] loads them. *)
Definition load (pos n : Z) (b : ByteBuffer) : res ByteBufferError (list Z) :=
  if size b <? u64 (pos + n) then Err ByteBufferPositionException
  else if size b <? pos + n then Err UndefinedBehaviour
  else Ok (take (Z.to_nat n) (drop (Z.to_nat pos) (bb_storage b))).

(** [template <typename T> T read()] for an [n]-byte unsigned integer. *)
Definition read (n : nat) : BB Z :=
  b ← get;
  bs ← of_res (load (bb_rpos b) (Z.of_nat n));
  modify (set_rpos (u64 (bb_rpos b + Z.of_nat n)));;
  mret (le_value bs).

Definition ReadBit : BB bool :=
  b ← get;
  let pos := u64 (bb_bitpos b + 1) in
  modify (set_bits pos (bb_curbitval b));;
  (if 7 <? pos then
     modify (set_bits 0 (bb_curbitval b));;
     v ← read 1;
     modify (set_bits 0 v)
   else mret tt);;
  b' ← get;
  mret (negb (Z.land (Z.shiftr (bb_curbitval b') (7 - bb_bitpos b')) 1 =? 0)).

(** [for (int32 i = bits-1; i >= 0; --i)]: the bit indices of the two loops. *)
Fixpoint bit_indices (bits : nat) : list nat :=
  match bits with
  | O => []
  | S n => n :: bit_indices n
  end.

Definition WriteBits (value : Z) (bits : nat) : BB unit :=
  forM (bit_indices bits) (fun i =>
    WriteBit (Z.land (Z.shiftr value (Z.of_nat i)) 1);; mret tt).

Fixpoint ReadBits_loop (idx : list nat) (value : Z) : BB Z :=
  match idx with
  | [] => mret value
  | i :: idx' =>
      x ← ReadBit;
      ReadBits_loop idx'
        (if (x : bool) then u32 (Z.lor value (Z.shiftl 1 (Z.of_nat i))) else value)
  end.

Definition ReadBits (bits : nat) : BB Z := ReadBits_loop (bit_indices bits) 0.

(** [ReadByteSeq(uint8& b)] returns the new value of the referenced byte. *)
Definition ReadByteSeq (x : Z) : BB Z :=
  if x =? 0 then mret x else v ← read 1; mret (Z.lxor x v).

Definition WriteByteSeq (x : Z) : BB unit :=
  if x =? 0 then mret tt else append 1 (Z.lxor x 1).

(** [put(pos, value)]: overwrite [n] bytes at a position already written. *)
Definition put_raw (pos : Z) (src : list Z) : BB unit := fun b =>
  if size b <? u64 (pos + len src) then (Err ByteBufferPositionException, b)
  else if size b <? pos + len src then (Err UndefinedBehaviour, b)
  else (Ok tt, set_storage (vec_copy pos src (bb_storage b)) b).

Definition put_value (pos : Z) (n : nat) (value : Z) : BB unit :=
  put_raw pos (le_bytes n value).

(** The body of the loop of [PutBits] for bit [i] of [bitCount]. *)
Definition put_one_bit (pos value bitCount : Z) (st : list Z) (i : nat) : list Z :=
  let wp := Z.to_nat ((pos + Z.of_nat i) / 8) in
  let bit := (pos + Z.of_nat i) mod 8 in
  let old := nth wp st 0 in
  if negb (Z.land (Z.shiftr value (bitCount - Z.of_nat i - 1)) 1 =? 0)
  then <[wp := u8 (Z.lor old (Z.shiftl 1 (7 - bit)))]> st
  else <[wp := u8 (Z.ldiff old (Z.shiftl 1 (7 - bit)))]> st.

Definition PutBits (pos value : Z) (bitCount : nat) : BB unit := fun b =>
  if Z.of_nat bitCount =? 0 then (Err ByteBufferSourceException, b)
  else if size b * 8 <? u64 (pos + Z.of_nat bitCount)
  then (Err ByteBufferPositionException, b)
  else if size b * 8 <? pos + Z.of_nat bitCount then (Err UndefinedBehaviour, b)
  else (Ok tt, set_storage
         (fold_left (put_one_bit pos value (Z.of_nat bitCount))
                    (seq 0 bitCount) (bb_storage b)) b).

Definition bitwpos (b : ByteBuffer) : Z := bb_wpos b * 8 + 8 - bb_bitpos b.
Definition rfinish (b : ByteBuffer) : ByteBuffer := set_rpos (bb_wpos b) b.

Definition read_skip (skip : Z) : BB unit := fun b =>
  if size b <? u64 (bb_rpos b + skip) then (Err ByteBufferPositionException, b)
  else (Ok tt, set_rpos (u64 (bb_rpos b + skip)) b).

(** [read(uint8 *dest, size_t len)] *)
Definition read_raw (n : Z) : BB (list Z) :=
  b ← get;
  bs ← of_res (load (bb_rpos b) n);
  modify (set_rpos (u64 (bb_rpos b + n)));;
  mret bs.

(** [operator<<(const std::string&)]: the characters go through the raw
    [append], the terminator through [append<uint8>]. *)
Definition write_cstring (s : list Z) : BB unit :=
  (if len s =? 0 then mret tt else append_raw s);; append 1 0.

(** [operator>>(std::string&)]: [fuel] bounds the loop; the storage that is
    left to read is always enough ([read_cstring]). *)
Fixpoint read_cstring_loop (fuel : nat) (acc : list Z) : BB (list Z) :=
  match fuel with
  | O => mret acc
  | S fuel' =>
      b ← get;
      if bb_rpos b <? size b then
        c ← read 1;
        if c =? 0 then mret acc else read_cstring_loop fuel' (acc ++ [c])
      else mret acc
  end.

Definition read_cstring : BB (list Z) :=
  b ← get; read_cstring_loop (S (length (bb_storage b))) [].

(** [ReadString]: the buffer is null-terminated and turned into a
    [std::string] by its [char*] constructor, which stops at the first 0. *)
Fixpoint until_nul (l : list Z) : list Z :=
  match l with
  | [] => []
  | c :: l' => if c =? 0 then [] else c :: until_nul l'
  end.

Definition ReadString (length : Z) : BB (list Z) :=
  if length =? 0 then mret [] else bs ← read_raw length; mret (until_nul bs).

Definition WriteString (s : list Z) : BB unit :=
  if len s =? 0 then mret tt else append_raw s.

(** [append(const ByteBuffer& buffer)] *)
Definition append_buffer (buffer : ByteBuffer) : BB unit :=
  if bb_wpos buffer =? 0 then mret tt
  else append_raw (take (Z.to_nat (bb_wpos buffer)) (bb_storage buffer)).

Definition resize (newsize : Z) (b : ByteBuffer) : ByteBuffer :=
  let st := vec_resize newsize (bb_storage b) in
  mkByteBuffer 0 (len st) (bb_bitpos b) (bb_curbitval b) st.

(** ** Packed guids *)

(** The loop of [appendPackGUID]: the mask and the non-zero bytes. *)
Fixpoint pack_guid_loop (fuel : nat) (i : Z) (guid mask : Z) (bytes : list Z) : Z * list Z :=
  match fuel with
  | O => (mask, bytes)
  | S fuel' =>
      if guid =? 0 then (mask, bytes) else
      let low := Z.land guid 255 in
      let '(mask', bytes') :=
        if low =? 0 then (mask, bytes)
        else (Z.lor mask (u8 (Z.shiftl 1 i)), bytes ++ [low]) in
      pack_guid_loop fuel' (i + 1) (Z.shiftr guid 8) mask' bytes'
  end.

Definition appendPackGUID (guid : Z) : BB unit :=
  let '(mask, bytes) := pack_guid_loop 8 0 guid 0 [] in
  append_raw (mask :: bytes).

Fixpoint unpack_guid_loop (idx : list nat) (guidmark guid : Z) : BB Z :=
  match idx with
  | [] => mret guid
  | i :: idx' =>
      if negb (Z.land guidmark (u8 (Z.shiftl 1 (Z.of_nat i))) =? 0) then
        b ← get;
        if size b <? u64 (bb_rpos b + 1) then throw ByteBufferPositionException
        else
          bit ← read 1;
          unpack_guid_loop idx' guidmark
            (Z.lor guid (u64 (Z.shiftl bit (Z.of_nat i * 8))))
      else unpack_guid_loop idx' guidmark guid
  end.

Definition readPackGUID : BB Z :=
  b ← get;
  if size b <? u64 (bb_rpos b + 1) then throw ByteBufferPositionException
  else guidmark ← read 1; unpack_guid_loop (seq 0 8) guidmark 0.

(** ** Bits of a byte, most significant first *)

Definition byte_bits (c : Z) : list bool :=
  [Z.testbit c 7; Z.testbit c 6; Z.testbit c 5; Z.testbit c 4;
   Z.testbit c 3; Z.testbit c 2; Z.testbit c 1; Z.testbit c 0].

#[global] Arguments byte_bits : simpl never.

(** [byte_of_bits k l]: the bits [l] placed from position [k - 1] down. *)
Fixpoint byte_of_bits (k : Z) (l : list bool) : Z :=
  match l with
  | [] => 0
  | x :: l' => (if x : bool then 2 ^ (k - 1) else 0) + byte_of_bits (k - 1) l'
  end.

(** A run of bits as bytes; the last byte is padded with zeros. *)
Fixpoint pack (l : list bool) : list Z :=
  match l with
  | a :: b :: c :: d :: e :: f :: g :: h :: l' =>
      byte_of_bits 8 [a; b; c; d; e; f; g; h] :: pack l'
  | [] => []
  | _ => [byte_of_bits 8 l]
  end.

(** The [n] low bits of [v], most significant first: what [WriteBits] sends. *)
Fixpoint low_bits (n : nat) (v : Z) : list bool :=
  match n with
  | O => []
  | S n' => Z.testbit v (Z.of_nat n') :: low_bits n' v
  end.

Lemma length_low_bits n v : length (low_bits n v) = n.
Proof. induction n as [|n IH]; simpl; [done|]. by rewrite IH. Qed.

Lemma testbit_land_1 v i : 0 <= i ->
  negb (Z.land (Z.shiftr v i) 1 =? 0) = Z.testbit v i.
Proof.
  intros Hi. change 1 with (Z.ones 1). rewrite Z.land_ones, Z.shiftr_div_pow2 by lia.
  change (2 ^ 1) with 2. rewrite <- Z.testbit_spec' by lia.
  by destruct (Z.testbit v i).
Qed.

Lemma pack_app_full l r : (length l mod 8 = 0)%nat -> pack (l ++ r) = pack l ++ pack r.
Proof.
  remember (length l) as n eqn:E. revert l E.
  induction n as [n IH] using lt_wf_ind. intros l E Hm.
  destruct l as [|a [|b [|c [|d [|e [|f [|g [|h l]]]]]]]]; simpl in E; subst n;
    try (vm_compute in Hm; discriminate); [done|].
  cbn [app pack]. f_equal. apply (IH (length l)); [lia|done|].
  replace (S (S (S (S (S (S (S (S (length l)))))))))
    with (length l + 1 * 8)%nat in Hm by lia.
  by rewrite Nat.Div0.mod_add in Hm.
Qed.

Lemma pack_short l : (0 < length l < 8)%nat -> pack l = [byte_of_bits 8 l].
Proof.
  intros Hl. destruct l as [|a [|b [|c [|d [|e [|f [|g [|h l]]]]]]]];
    simpl in *; try lia; done.
Qed.

Lemma byte_of_bits_8 l : length l = 8%nat -> byte_bits (byte_of_bits 8 l) = l.
Proof.
  intros Hl. destruct l as [|a [|b [|c [|d [|e [|f [|g [|h [|]]]]]]]]]; try discriminate.
  destruct a, b, c, d, e, f, g, h; reflexivity.
Qed.

Lemma byte_of_bits_pad l : (length l <= 8)%nat ->
  byte_of_bits 8 l = byte_of_bits 8 (l ++ replicate (8 - length l) false).
Proof.
  intros Hl. destruct l as [|a [|b [|c [|d [|e [|f [|g [|h [|]]]]]]]]];
    simpl in Hl; try lia; simpl; lia.
Qed.

Lemma pack_cons8 l : (8 <= length l)%nat ->
  pack l = byte_of_bits 8 (take 8 l) :: pack (drop 8 l).
Proof.
  intros Hl. destruct l as [|a [|b [|c [|d [|e [|f [|g [|h l]]]]]]]];
    simpl in Hl; try lia; done.
Qed.

(** Unpacking gives the bits back, followed by fewer than 8 zero bits. *)
Lemma pack_bits_zero l : exists n, flat_map byte_bits (pack l) = l ++ replicate n false
  /\ (n < 8)%nat.
Proof.
  remember (length l) as n eqn:E. revert l E.
  induction n as [n IH] using lt_wf_ind. intros l E.
  destruct (decide (length l = 0)%nat) as [H0|H0].
  { destruct l; [|done]. exists O. split; [done|lia]. }
  destruct (decide (length l < 8)%nat) as [Hs|Hs].
  - exists (8 - length l)%nat. rewrite pack_short by lia. split; [|lia].
    cbn [flat_map]. rewrite app_nil_r, byte_of_bits_pad by lia.
    apply byte_of_bits_8. rewrite length_app, length_replicate. lia.
  - rewrite pack_cons8 by lia.
    destruct (IH (length (drop 8 l))%nat) with (l := drop 8 l) as (k & Hp & Hl).
    { rewrite length_drop. lia. } { done. }
    exists k. split; [|done]. cbn [flat_map]. rewrite Hp.
    rewrite byte_of_bits_8 by (rewrite length_take; lia).
    by rewrite app_assoc, take_drop.
Qed.

Lemma pack_bits l : exists pad, flat_map byte_bits (pack l) = l ++ pad
  /\ (length pad < 8)%nat.
Proof.
  destruct (pack_bits_zero l) as (n & E & Hn). exists (replicate n false).
  by rewrite length_replicate.
Qed.

Lemma byte_of_bits_range l k : len l <= k ->
  0 <= byte_of_bits k l <= 2 ^ k - 2 ^ (k - len l).
Proof.
  revert k. induction l as [|x l IH]; intros k Hk; cbn [byte_of_bits length] in *.
  - rewrite Z.sub_0_r. lia.
  - specialize (IH (k - 1) ltac:(lia)).
    replace (k - Z.of_nat (S (length l))) with (k - 1 - len l) by lia.
    assert (2 ^ k = 2 * 2 ^ (k - 1)) by (rewrite <- Z.pow_succ_r by lia; f_equal; lia).
    assert (0 < 2 ^ (k - 1 - len l)) by (apply Z.pow_pos_nonneg; lia).
    assert (2 ^ (k - 1 - len l) <= 2 ^ (k - 1)) by (apply Z.pow_le_mono_r; lia).
    destruct x; lia.
Qed.

Lemma byte_of_bits_snoc l k x :
  byte_of_bits k (l ++ [x]) =
  byte_of_bits k l + (if x then 2 ^ (k - len l - 1) else 0).
Proof.
  revert k. induction l as [|y l IH]; intros k; cbn [app byte_of_bits length].
  - rewrite Z.sub_0_r. lia.
  - rewrite IH. replace (k - 1 - len l - 1) with (k - Z.of_nat (S (length l)) - 1) by lia.
    lia.
Qed.

(** [curbitval |= 1 << bitpos] appends one bit to a partial byte. *)
Lemma byte_of_bits_lor l : (length l < 8)%nat ->
  u8 (Z.lor (byte_of_bits 8 l) (Z.shiftl 1 (7 - len l))) = byte_of_bits 8 (l ++ [true]).
Proof.
  intros Hl. destruct l as [|a [|b [|c [|d [|e [|f [|g [|h l]]]]]]]];
    simpl in Hl; try lia;
    repeat match goal with x : bool |- _ => destruct x end; reflexivity.
Qed.

Lemma pack_length l : len (pack l) = (len l + 7) / 8.
Proof.
  remember (length l) as n eqn:E. revert l E.
  induction n as [n IH] using lt_wf_ind. intros l E.
  destruct (decide (length l < 8)%nat) as [Hs|Hs].
  - destruct l as [|a [|b [|c [|d [|e [|f [|g [|h l]]]]]]]];
      simpl in E, Hs; try lia; subst n; reflexivity.
  - rewrite pack_cons8 by lia. cbn [length]. rewrite Nat2Z.inj_succ.
    rewrite (IH (length (drop 8 l))) by (try done; rewrite length_drop; lia).
    rewrite length_drop. subst n.
    replace (Z.of_nat (length l) + 7) with (Z.of_nat (length l - 8) + 7 + 1 * 8) by lia.
    rewrite Z.div_add by lia. lia.
Qed.

(** ** A buffer being written

    [wrun b bs run]: the aligned bytes [bs] are followed by the bit run [run],
    whose complete bytes are in the storage and whose remainder is in
    [_curbitval]. *)

Definition wrun (b : ByteBuffer) (bs : list Z) (run : list bool) : Prop :=
  exists full rem, run = full ++ rem
    /\ (length full mod 8 = 0)%nat /\ (length rem < 8)%nat
    /\ bb_storage b = bs ++ pack full
    /\ bb_wpos b = len (bb_storage b)
    /\ bb_bitpos b = 8 - len rem
    /\ bb_curbitval b = byte_of_bits 8 rem.

(** The bytes the buffer holds once its bits are flushed. *)
Definition room (b : ByteBuffer) : Prop := size b < 10000000.

Lemma wrun_new : wrun ByteBuffer_new [] [].
Proof. exists [], []. repeat split; simpl; lia. Qed.

Lemma wrun_size b bs run : wrun b bs run -> size b <= len (bs ++ pack run).
Proof.
  intros (full & rem & -> & Hf & Hr & Hs & _). unfold size. rewrite Hs.
  rewrite pack_app_full, !length_app by done. lia.
Qed.

Lemma wrun_done b bs : wrun b bs [] -> bb_storage b = bs /\ bb_wpos b = len bs.
Proof.
  intros (full & rem & E & _ & _ & Hs & Hw & _).
  symmetry in E. apply app_nil in E as [-> ->]. simpl in Hs. rewrite app_nil_r in Hs.
  by rewrite Hw, Hs.
Qed.

Lemma vec_append src st :
  vec_copy (len st) src (vec_resize (len st + len src) st) = st ++ src.
Proof.
  unfold vec_copy, vec_resize.
  rewrite take_ge with (l := st) by lia. rewrite !Nat2Z.id.
  rewrite take_app_length, drop_ge; [by rewrite app_nil_r|].
  rewrite length_app, length_replicate. lia.
Qed.

Lemma append_raw_end src b :
  src <> [] -> bb_wpos b = size b -> room b ->
  append_raw src b =
    (Ok tt, set_wpos (size b + len src) (set_storage (bb_storage b ++ src) b)).
Proof.
  intros Hne Hw Hroom. unfold append_raw.
  assert (len src <> 0) by (destruct src; simpl; [done|lia]).
  destruct (Z.eqb_spec (len src) 0); [lia|]. unfold room in Hroom.
  destruct (Z.ltb_spec (size b) 10000000); [cbn [negb]|lia].
  rewrite Hw. destruct (Z.ltb_spec (size b) (size b + len src)); [|lia].
  unfold size at 2 3. by rewrite vec_append.
Qed.

Lemma WriteBit_run b bs run (x : Z) :
  wrun b bs run -> room b ->
  exists b', WriteBit x b = (Ok (negb (x =? 0)), b')
             /\ wrun b' bs (run ++ [negb (x =? 0)]).
Proof.
  intros (full & rem & -> & Hf & Hr & Hs & Hw & Hp & Hc) Hroom.
  unfold WriteBit. rewrite Hp.
  replace (8 - len rem - 1) with (7 - len rem) by lia.
  rewrite (uint_small 64) by lia.
  set (cur := if x =? 0 then _ else _).
  assert (cur = byte_of_bits 8 (rem ++ [negb (x =? 0)])) as Hcur.
  { unfold cur. rewrite Hc. destruct (x =? 0); cbn [negb].
    - rewrite byte_of_bits_snoc. lia.
    - by apply byte_of_bits_lor. }
  clearbody cur. destruct (Z.eqb_spec (7 - len rem) 0) as [E|E].
  - unfold mbind, prog_bind, modify. rewrite append_raw_end; [|done|exact Hw|done].
    eexists. split; [done|]. exists (full ++ rem ++ [negb (x =? 0)]), [].
    assert (length (rem ++ [negb (x =? 0)%Z]) = 8%nat) as H8
      by (rewrite length_app; simpl; lia).
    split_and!; simpl bb_storage; simpl bb_wpos; simpl bb_bitpos; simpl bb_curbitval.
    + by rewrite app_nil_r, app_assoc.
    + rewrite length_app, H8. change 8%nat with (1 * 8)%nat at 1.
      by rewrite Nat.Div0.mod_add.
    + simpl. lia.
    + rewrite Hs, pack_app_full by done.
      rewrite (pack_cons8 (rem ++ _)), take_ge, drop_ge, Hcur by lia.
      by rewrite app_assoc.
    + rewrite length_app. unfold size. simpl. lia.
    + done.
    + done.
  - eexists. split; [done|]. exists full, (rem ++ [negb (x =? 0)]).
    repeat split; simpl; try done.
    + by rewrite app_assoc.
    + rewrite length_app; simpl. lia.
    + rewrite length_app; simpl. lia.
Qed.

Lemma FlushBits_run b bs run :
  wrun b bs run -> room b ->
  exists b', FlushBits b = (Ok tt, b') /\ wrun b' (bs ++ pack run) [].
Proof.
  intros (full & rem & -> & Hf & Hr & Hs & Hw & Hp & Hc) Hroom.
  unfold FlushBits. rewrite Hp.
  destruct (Z.eqb_spec (8 - len rem) 8) as [E|E].
  - destruct rem; [|simpl in E; lia]. eexists. split; [done|].
    exists [], []. split_and!; simpl; try done; try lia.
    by rewrite !app_nil_r in *.
  - unfold mbind, prog_bind, modify. rewrite append_raw_end; [|done|exact Hw|done].
    eexists. split; [done|]. exists [], []. split_and!; simpl; try done; try lia.
    + rewrite app_nil_r, Hs, pack_app_full, (pack_short rem), Hc by (done || lia).
      by rewrite app_assoc.
    + rewrite length_app. unfold size. simpl. lia.
Qed.

Lemma append_run b bs run n v :
  (0 < n)%nat -> wrun b bs run -> len (bs ++ pack run) < 10000000 ->
  exists b', append n v b = (Ok tt, b')
             /\ wrun b' ((bs ++ pack run) ++ le_bytes n v) [].
Proof.
  intros Hn Hrun Hroom. pose proof (wrun_size _ _ _ Hrun) as Hsz.
  destruct (FlushBits_run b bs run) as (b1 & E1 & Hrun1); [done|unfold room; lia|].
  destruct (wrun_done _ _ Hrun1) as [Hst Hw].
  unfold append. erewrite bind_ok by done. rewrite append_raw_end.
  - eexists. split; [done|]. exists [], [].
    destruct Hrun1 as (full & rem & Ef & _ & _ & _ & _ & Hp & Hc).
    symmetry in Ef. apply app_nil in Ef as [-> ->].
    split_and!; simpl; try done; try lia.
    + by rewrite app_nil_r, Hst.
    + rewrite length_app. unfold size. lia.
  - destruct n; [lia|done].
  - unfold size. by rewrite Hw, Hst.
  - unfold room, size. by rewrite Hst.
Qed.

Lemma WriteByteSeq_run b bs run x :
  wrun b bs run -> len (bs ++ pack run) < 10000000 ->
  exists b', WriteByteSeq x b = (Ok tt, b') /\
    if x =? 0 then b' = b
    else wrun b' ((bs ++ pack run) ++ le_bytes 1 (Z.lxor x 1)) [].
Proof.
  intros Hrun Hroom. unfold WriteByteSeq. destruct (x =? 0); [by eexists|].
  apply append_run; [lia|done|done].
Qed.

(** The size of a run never shrinks as bits are added. *)
Lemma pack_mono l r : len (pack l) <= len (pack (l ++ r)).
Proof.
  rewrite !pack_length, length_app. apply Z.div_le_mono; lia.
Qed.

Lemma WriteBits_run b bs run v n :
  wrun b bs run -> len (bs ++ pack (run ++ low_bits n v)) < 10000000 ->
  exists b', WriteBits v n b = (Ok tt, b') /\ wrun b' bs (run ++ low_bits n v).
Proof.
  revert b run. unfold WriteBits. induction n as [|n IH]; intros b run Hrun Hroom.
  - eexists. split; [done|]. by rewrite app_nil_r.
  - cbn [bit_indices forM low_bits] in *. rewrite length_app in Hroom.
    pose proof (wrun_size _ _ _ Hrun) as Hsz. rewrite length_app in Hsz.
    pose proof (pack_mono run (Z.testbit v (Z.of_nat n) :: low_bits n v)).
    destruct (WriteBit_run b bs run (Z.land (Z.shiftr v (Z.of_nat n)) 1))
      as (b1 & E1 & Hrun1); [done|unfold room; lia|].
    rewrite testbit_land_1 in Hrun1 by lia.
    unfold mbind, prog_bind in *. rewrite E1. cbn [mret prog_ret].
    destruct (IH b1 _ Hrun1) as (b2 & E2 & Hrun2).
    { rewrite <- app_assoc. simpl. rewrite length_app. lia. }
    exists b2. rewrite <- app_assoc in Hrun2. split; done.
Qed.

(** ** A buffer being read

    [rview b bs lo]: the bytes [bs] are still to be read, and [lo] are the
    bits of the current byte that [ReadBit] has not consumed.  Byte reads do
    not discard [lo]: that is how the class behaves. *)

Definition rview (b : ByteBuffer) (bs : list Z) (lo : list bool) : Prop :=
  0 <= bb_rpos b /\ bb_rpos b + len bs = size b /\ size b < 2 ^ 62
  /\ drop (Z.to_nat (bb_rpos b)) (bb_storage b) = bs
  /\ 0 <= bb_bitpos b <= 8
  /\ lo = drop (Z.to_nat (bb_bitpos b + 1)) (byte_bits (bb_curbitval b)).

(** [rbits b run tail]: the bits [run] come next, then the bytes [tail]. *)
Definition rbits (b : ByteBuffer) (run : list bool) (tail : list Z) : Prop :=
  exists bs lo pad, rview b (bs ++ tail) lo
    /\ lo ++ flat_map byte_bits bs = run ++ pad /\ (length pad < 8)%nat.

Lemma rview_of_bytes bs : len bs < 2 ^ 62 -> rview (ByteBuffer_of_bytes bs) bs [].
Proof. intros. unfold rview, size. simpl. split_and!; try done; try lia. Qed.

Lemma read_view b ws bs lo n :
  rview b (ws ++ bs) lo -> length ws = n ->
  exists b', read n b = (Ok (le_value ws), b') /\ rview b' bs lo
             /\ bb_storage b' = bb_storage b.
Proof.
  intros (H0 & Hsz & Hmax & Hd & Hbp & Hlo) <-. rewrite length_app in Hsz.
  unfold read, mbind, prog_bind, get, of_res, load, modify, mret, prog_ret.
  rewrite (uint_small 64) by (unfold size in *; lia).
  destruct (Z.ltb_spec (size b) (bb_rpos b + len ws)); [lia|].
  rewrite Nat2Z.id, Hd, take_app_length. eexists. split; [done|].
  unfold rview, size in *; simpl. split_and!; try done; try lia.
  replace (Z.to_nat (bb_rpos b + len ws)) with (Z.to_nat (bb_rpos b) + length ws)%nat by lia.
  by rewrite <- drop_drop, Hd, drop_app_length.
Qed.

Lemma read_byte_view b c bs lo :
  rview b (c :: bs) lo -> exists b', read 1 b = (Ok c, b') /\ rview b' bs lo.
Proof.
  intros Hv. destruct (read_view b [c] bs lo 1 Hv eq_refl) as (b' & E & Hv' & _).
  cbn [le_value] in E. rewrite Z.mul_0_r, Z.add_0_r in E. by exists b'.
Qed.

Lemma read_short b bs lo n :
  rview b bs lo -> len bs < Z.of_nat n -> Z.of_nat n < 2 ^ 62 ->
  read n b = (Err ByteBufferPositionException, b).
Proof.
  intros (H0 & Hsz & Hmax & _) Hn Hn'.
  unfold read, mbind, prog_bind, get, of_res, load.
  rewrite (uint_small 64) by lia.
  destruct (Z.ltb_spec (size b) (bb_rpos b + Z.of_nat n)); [done|lia].
Qed.

Lemma byte_bits_nth c k : (k < 8)%nat ->
  exists rest, drop k (byte_bits c) = Z.testbit c (7 - Z.of_nat k) :: rest
               /\ rest = drop (S k) (byte_bits c).
Proof.
  intros Hk. do 8 (destruct k as [|k]; [by eexists|]). lia.
Qed.

Lemma ReadBit_leftover b bs x lo :
  rview b bs (x :: lo) ->
  exists b', ReadBit b = (Ok x, b') /\ rview b' bs lo.
Proof.
  intros (H0 & Hsz & Hmax & Hd & Hbp & Hlo).
  assert (bb_bitpos b + 1 <= 7) as Hlt.
  { destruct (decide (bb_bitpos b + 1 <= 7)); [done|]. exfalso.
    rewrite drop_ge in Hlo by (unfold byte_bits; simpl; lia). done. }
  unfold ReadBit, mbind, prog_bind, get, modify, mret, prog_ret.
  rewrite (uint_small 64) by lia.
  destruct (Z.ltb_spec 7 (bb_bitpos b + 1)); [lia|]. simpl.
  eexists. rewrite testbit_land_1 by lia.
  destruct (byte_bits_nth (bb_curbitval b) (Z.to_nat (bb_bitpos b + 1))) as (rest & E & Er); [lia|].
  rewrite E in Hlo. simplify_eq. rewrite Z2Nat.id by lia.
  split; [done|]. unfold rview, size in *; simpl. split_and!; try done; try lia.
  by replace (Z.to_nat (bb_bitpos b + 1 + 1)) with (S (Z.to_nat (bb_bitpos b + 1))) by lia.
Qed.

Lemma ReadBit_fresh b c bs :
  rview b (c :: bs) [] ->
  exists b', ReadBit b = (Ok (Z.testbit c 7), b') /\ rview b' bs (drop 1 (byte_bits c)).
Proof.
  intros Hv. destruct (Hv) as (H0 & Hsz & Hmax & Hd & Hbp & Hlo).
  assert (7 < bb_bitpos b + 1) as Hge.
  { destruct (decide (7 < bb_bitpos b + 1)); [done|]. exfalso.
    destruct (byte_bits_nth (bb_curbitval b) (Z.to_nat (bb_bitpos b + 1))) as (rest & E & _); [lia|].
    by rewrite E in Hlo. }
  unfold ReadBit. rewrite (bind_ok get _ b b b) by done. cbv zeta.
  rewrite (uint_small 64) by lia. erewrite bind_ok by done.
  destruct (Z.ltb_spec 7 (bb_bitpos b + 1)); [|lia].
  set (b1 := set_bits 0 (bb_curbitval b) b).
  assert (rview b1 (c :: bs) (drop 1 (byte_bits (bb_curbitval b)))) as Hv1.
  { unfold rview, size in *; simpl in *. split_and!; try done; try lia. }
  destruct (read_byte_view b1 c bs _ Hv1) as (b2 & E2 & Hv2).
  rewrite (bind_ok _ _ _ tt (set_bits 0 c b2)); cycle 1.
  { erewrite bind_ok by done. by rewrite (bind_ok _ _ _ _ _ E2). }
  rewrite (bind_ok get _ _ _ _ eq_refl). eexists.
  cbn [bb_curbitval set_bits bb_bitpos]. rewrite testbit_land_1 by lia. split; [done|].
  destruct Hv2 as (? & ? & ? & ? & ? & ?).
  unfold rview, size in *; simpl in *. split_and!; try done; try lia.
Qed.

Lemma ReadBit_bits b x run tail :
  rbits b (x :: run) tail ->
  exists b', ReadBit b = (Ok x, b') /\ rbits b' run tail.
Proof.
  intros (bs & lo & pad & Hv & E & Hpad). destruct lo as [|y lo].
  - destruct bs as [|c bs]; [done|].
    destruct (ReadBit_fresh _ _ _ Hv) as (b' & Er & Hv'). simpl in E. simplify_eq.
    eexists. split; [exact Er|]. exists bs, (drop 1 (byte_bits c)), pad. split_and!; done.
  - simpl in E. simplify_eq. destruct (ReadBit_leftover _ _ _ _ Hv) as (b' & Er & Hv').
    eexists. split; [exact Er|]. by exists bs, lo, pad.
Qed.

(** A run of bits starts at the first byte that was not touched by bit reads. *)
Lemma rbits_start b run tail : rview b (pack run ++ tail) [] -> rbits b run tail.
Proof.
  intros Hv. destruct (pack_bits run) as (pad & E & Hpad).
  by exists (pack run), [], pad.
Qed.

Lemma rbits_end b tail : rbits b [] tail -> exists lo, rview b tail lo.
Proof.
  intros (bs & lo & pad & Hv & E & Hpad). exists lo.
  destruct bs as [|c bs]; [done|]. exfalso.
  apply (f_equal length) in E. rewrite length_app in E. simpl in E. lia.
Qed.

(** The value [ReadBits] accumulates from the bits of a run. *)
Fixpoint bits_value (l : list bool) : Z :=
  match l with
  | [] => 0
  | x :: l' => (if (x : bool) then 2 ^ len l' else 0) + bits_value l'
  end.

Lemma bits_value_range l : 0 <= bits_value l < 2 ^ len l.
Proof.
  induction l as [|x l IH]; [simpl; lia|]. cbn [bits_value length].
  rewrite Nat2Z.inj_succ, Z.pow_succ_r by lia. destruct x; lia.
Qed.

Lemma lor_pow2_low a n : 0 <= n -> a mod 2 ^ (n + 1) = 0 -> Z.lor a (2 ^ n) = a + 2 ^ n.
Proof.
  intros Hn Ha.
  assert (Z.land a (2 ^ n) = 0) as Hl.
  { apply Z.bits_inj'. intros i Hi. rewrite Z.land_spec, Z.bits_0, Z.pow2_bits_eqb by lia.
    destruct (Z.eqb_spec n i) as [->|]; [|by rewrite andb_false_r].
    rewrite andb_true_r, <- (Z.mod_pow2_bits_low a (i + 1)) by lia.
    by rewrite Ha, Z.bits_0. }
  by rewrite Z.add_nocarry_lxor, Z.lxor_lor by done.
Qed.

Lemma ReadBits_loop_bits run b tail rest acc :
  rbits b (run ++ rest) tail -> (length run <= 32)%nat ->
  0 <= acc < 2 ^ 32 -> acc mod 2 ^ len run = 0 -> acc + 2 ^ len run <= 2 ^ 32 ->
  exists b', ReadBits_loop (bit_indices (length run)) acc b
             = (Ok (acc + bits_value run), b') /\ rbits b' rest tail.
Proof.
  revert b acc. induction run as [|x run IH]; intros b acc Hb Hl Hacc Hmod Hmax.
  - eexists. simpl. rewrite Z.add_0_r. done.
  - cbn [length bit_indices ReadBits_loop bits_value app] in *.
    destruct (ReadBit_bits _ _ _ _ Hb) as (b1 & E1 & Hb1).
    rewrite (bind_ok _ _ _ _ _ E1).
    rewrite Nat2Z.inj_succ, Z.pow_succ_r in Hmod, Hmax by lia.
    assert (0 < 2 ^ len run) by (apply Z.pow_pos_nonneg; lia).
    rewrite Z.shiftl_1_l, lor_pow2_low; [|lia|by rewrite Z.pow_add_r, Z.mul_comm by lia].
    assert (acc mod 2 ^ len run = 0) as Hm'.
    { apply Z.mod_divide; [lia|]. apply Z.mod_divide in Hmod; [|lia].
      destruct Hmod as [k ->]. exists (k * 2). lia. }
    assert ((acc + 2 ^ len run) mod 2 ^ len run = 0) as Hm''.
    { replace (acc + 2 ^ len run) with (acc + 1 * 2 ^ len run) by lia.
      by rewrite Z.mod_add by lia. }
    destruct x.
    + rewrite uint_small by lia.
      destruct (IH b1 (acc + 2 ^ len run)) as (b2 & E2 & Hb2); [done|lia|lia|done|lia|].
      exists b2. rewrite E2. split; [do 2 f_equal; lia|done].
    + destruct (IH b1 acc) as (b2 & E2 & Hb2); [done|lia|lia|done|lia|].
      exists b2. rewrite E2. split; [do 2 f_equal; lia|done].
Qed.

Lemma bits_value_low n v : bits_value (low_bits n v) = v mod 2 ^ Z.of_nat n.
Proof.
  induction n as [|n IH]; [by rewrite Z.mod_1_r|].
  cbn [low_bits bits_value]. rewrite length_low_bits, IH, Nat2Z.inj_succ.
  rewrite <- Z.add_1_r, Z.pow_add_r by lia. change (2 ^ 1) with 2.
  rewrite Z.rem_mul_r by lia. rewrite <- Z.testbit_spec' by lia.
  destruct (Z.testbit v (Z.of_nat n)); simpl Z.b2z; lia.
Qed.

Lemma ReadBits_bits b n v rest tail :
  (n <= 32)%nat -> rbits b (low_bits n v ++ rest) tail ->
  exists b', ReadBits n b = (Ok (v mod 2 ^ Z.of_nat n), b') /\ rbits b' rest tail.
Proof.
  intros Hn Hb. unfold ReadBits.
  assert (2 ^ Z.of_nat n <= 2 ^ 32) by (apply Z.pow_le_mono_r; lia).
  assert (0 < 2 ^ Z.of_nat n) by (apply Z.pow_pos_nonneg; lia).
  destruct (ReadBits_loop_bits (low_bits n v) b tail rest 0) as (b' & E & Hb');
    rewrite ?length_low_bits in *; try done; try lia.
  exists b'. by rewrite E, bits_value_low.
Qed.

(** ** Lemmas for packed guids *)

Fixpoint guid_mask (bs : list Z) : Z :=
  match bs with
  | [] => 0
  | b :: bs' => (if b =? 0 then 0 else 1) + 2 * guid_mask bs'
  end.

Definition nonzero_bytes (bs : list Z) : list Z := List.filter (fun b => negb (b =? 0)) bs.

Lemma guid_mask_range bs : 0 <= guid_mask bs < 2 ^ len bs.
Proof.
  induction bs as [|b bs IH]; [simpl; lia|]. cbn [guid_mask length].
  rewrite Nat2Z.inj_succ, Z.pow_succ_r by lia. destruct (b =? 0); lia.
Qed.

Lemma le_bytes_0 n : le_bytes n 0 = replicate n 0.
Proof.
  induction n as [|n IH]; [done|]. cbn [le_bytes].
  change (0 mod 256) with 0. change (0 / 256) with 0. by rewrite IH.
Qed.

Lemma guid_mask_zeros n : guid_mask (replicate n 0) = 0.
Proof. induction n as [|n IH]; [done|]. simpl. by rewrite IH. Qed.

Lemma nonzero_zeros n : nonzero_bytes (replicate n 0) = [].
Proof. induction n as [|n IH]; [done|]. simpl. by rewrite IH. Qed.

(** The loop of [appendPackGUID] stops at the last non-zero byte; eight
    iterations are enough for any 64-bit guid. *)
Lemma pack_guid_loop_spec n i guid mask bytes :
  0 <= i -> i + Z.of_nat n <= 8 -> 0 <= guid < 2 ^ (8 * Z.of_nat n) -> 0 <= mask < 2 ^ i ->
  pack_guid_loop n i guid mask bytes =
    (mask + 2 ^ i * guid_mask (le_bytes n guid), bytes ++ nonzero_bytes (le_bytes n guid)).
Proof.
  revert i guid mask bytes. induction n as [|n IH]; intros i guid mask bytes Hi Hn Hg Hm.
  - cbn. f_equal; [lia|by rewrite app_nil_r].
  - cbn [pack_guid_loop]. destruct (Z.eqb_spec guid 0) as [->|Hg0].
    { rewrite le_bytes_0, guid_mask_zeros, nonzero_zeros, app_nil_r. f_equal; lia. }
    assert (Z.land guid 255 = guid mod 256) as -> by (change 255 with (Z.ones 8); by rewrite Z.land_ones by lia).
    rewrite Z.shiftr_div_pow2 by lia. change (2 ^ 8) with 256.
    assert (0 < 2 ^ i) by (apply Z.pow_pos_nonneg; lia).
    assert (2 ^ (i + 1) = 2 * 2 ^ i) as Hp by (rewrite Z.pow_add_r by lia; lia).
    assert (0 <= guid / 256 < 2 ^ (8 * Z.of_nat n)) as Hg'.
    { split; [apply Z.div_pos; lia|]. apply Z.div_lt_upper_bound; [lia|].
      change 256 with (2 ^ 8). rewrite <- Z.pow_add_r by lia.
      replace (8 + 8 * Z.of_nat n) with (8 * Z.of_nat (S n)) by lia. lia. }
    cbn [le_bytes guid_mask nonzero_bytes List.filter].
    destruct (Z.eqb_spec (guid mod 256) 0) as [E|E]; cbn [negb].
    + rewrite IH by lia. unfold nonzero_bytes. f_equal. lia.
    + assert (2 ^ i <= 2 ^ 7) by (apply Z.pow_le_mono_r; lia).
      rewrite Z.shiftl_1_l, uint_small by lia.
      rewrite lor_pow2_disjoint by lia.
      rewrite IH by lia. f_equal; [lia|]. by rewrite <- app_assoc.
Qed.

Lemma unpack_guid_loop_spec bs i guidmark guid b rest lo :
  Forall is_byte bs -> (i + length bs <= 8)%nat -> 0 <= guidmark < 256 ->
  guidmark / 2 ^ Z.of_nat i = guid_mask bs -> 0 <= guid < 2 ^ (8 * Z.of_nat i) ->
  rview b (nonzero_bytes bs ++ rest) lo ->
  exists b', unpack_guid_loop (seq i (length bs)) guidmark guid b
             = (Ok (guid + 2 ^ (8 * Z.of_nat i) * le_value bs), b')
             /\ rview b' rest lo.
Proof.
  intros Hbs. revert i guid b. induction Hbs as [|c bs Hc Hbs IH];
    intros i guid b Hi Hgm Hmask Hg Hv.
  - exists b. split; [|done]. cbn [length seq unpack_guid_loop le_value].
    rewrite Z.mul_0_r, Z.add_0_r. done.
  - cbn [length seq unpack_guid_loop le_value guid_mask nonzero_bytes List.filter] in *.
    assert (Z.testbit guidmark (Z.of_nat i) = negb (c =? 0)) as Ht.
    { rewrite Z.testbit_odd, Z.shiftr_div_pow2, Hmask by lia.
      rewrite Z.odd_add, Z.odd_mul. by destruct (c =? 0). }
    assert (guidmark / 2 ^ Z.of_nat (S i) = guid_mask bs) as Hmask'.
    { rewrite Nat2Z.inj_succ, Z.pow_succ_r, Z.mul_comm by lia.
      rewrite <- Z.div_div by (try lia; apply Z.pow_pos_nonneg; lia). rewrite Hmask.
      destruct (c =? 0); [|rewrite (Z.mul_comm 2), Z.div_add by lia; change (1 / 2) with 0; lia].
      rewrite (Z.mul_comm 2), Z.add_0_l, Z.div_mul by lia. done. }
    assert (2 ^ (8 * Z.of_nat (S i)) = 256 * 2 ^ (8 * Z.of_nat i)) as Hp.
    { replace (8 * Z.of_nat (S i)) with (8 + 8 * Z.of_nat i) by lia.
      by rewrite Z.pow_add_r by lia. }
    assert (0 < 2 ^ (8 * Z.of_nat i)) by (apply Z.pow_pos_nonneg; lia).
    assert (2 ^ Z.of_nat i <= 2 ^ 7) by (apply Z.pow_le_mono_r; lia).
    assert (0 < 2 ^ Z.of_nat i) by (apply Z.pow_pos_nonneg; lia).
    rewrite Z.shiftl_1_l, (uint_small 8), land_pow2_testbit, Ht by lia.
    unfold is_byte in Hc.
    destruct (Z.eqb_spec c 0) as [->|Hc0]; cbn [negb].
    + destruct (IH (S i) guid b) as (b' & E & Hv'); [lia|lia|done|lia|done|].
      exists b'. rewrite E. split; [do 2 f_equal; lia|done].
    + destruct (read_byte_view b c (nonzero_bytes bs ++ rest) lo Hv) as (b1 & E1 & Hv1).
      rewrite (bind_ok get _ b b b) by done.
      assert (2 ^ (8 * Z.of_nat i) <= 2 ^ (8 * 7)) by (apply Z.pow_le_mono_r; lia).
      assert (Hv2 := Hv). destruct Hv2 as (Hr0 & Hrsz & Hrmax & _).
      rewrite length_app in Hrsz. simpl in Hrsz.
      rewrite (uint_small 64) by lia.
      destruct (Z.ltb_spec (size b) (bb_rpos b + 1)); [lia|].
      rewrite (bind_ok _ _ _ _ _ E1).
      rewrite Z.shiftl_mul_pow2, (Z.mul_comm (Z.of_nat i) 8) by lia.
      rewrite (uint_small 64) by nia.
      rewrite lor_disjoint by lia.
      destruct (IH (S i) (guid + c * 2 ^ (8 * Z.of_nat i)) b1) as (b' & E & Hv');
        [lia|lia|done|nia|done|].
      exists b'. rewrite E. split; [do 2 f_equal; lia|done].
Qed.

(** ** Messages: a block of bit fields followed by byte fields *)

(** The shape of almost every packet of the protocol: bit fields, a flush,
    then integers.  A field is a width (in bits or bytes) and a value. *)
Definition send_message (bits vals : list (nat * Z)) : BB unit :=
  forM bits (fun f => WriteBits f.2 f.1);; FlushBits;; forM vals (fun f => append f.1 f.2).

Fixpoint recv_bits (ws : list nat) : BB (list Z) :=
  match ws with
  | [] => mret []
  | n :: ws' => v ← ReadBits n; vs ← recv_bits ws'; mret (v :: vs)
  end.

Fixpoint recv_vals (ws : list nat) : BB (list Z) :=
  match ws with
  | [] => mret []
  | n :: ws' => v ← read n; vs ← recv_vals ws'; mret (v :: vs)
  end.

Definition message_bits (bits : list (nat * Z)) : list bool :=
  flat_map (fun f => low_bits f.1 f.2) bits.
Definition message_bytes (vals : list (nat * Z)) : list Z :=
  flat_map (fun f => le_bytes f.1 f.2) vals.

Lemma forM_WriteBits_run bits b bs run :
  wrun b bs run -> len (bs ++ pack (run ++ message_bits bits)) < 10000000 ->
  exists b', forM bits (fun f => WriteBits f.2 f.1) b = (Ok tt, b')
             /\ wrun b' bs (run ++ message_bits bits).
Proof.
  revert b run. induction bits as [|[n v] bits IH]; intros b run Hrun Hroom.
  - eexists. split; [done|]. by rewrite app_nil_r.
  - cbn [forM message_bits flat_map fst snd] in *. rewrite app_assoc in *.
    destruct (WriteBits_run b bs run v n Hrun) as (b1 & E1 & Hrun1).
    { pose proof (pack_mono (run ++ low_bits n v) (message_bits bits)) as Hm.
      rewrite length_app in *. unfold message_bits in Hm. lia. }
    rewrite (bind_ok _ _ _ _ _ E1). by apply IH.
Qed.

Lemma forM_append_run vals b bs :
  Forall (fun f => (0 < f.1)%nat) vals ->
  wrun b bs [] -> len (bs ++ message_bytes vals) < 10000000 ->
  exists b', forM vals (fun f => append f.1 f.2) b = (Ok tt, b')
             /\ wrun b' (bs ++ message_bytes vals) [].
Proof.
  intros Hpos. revert b bs. induction Hpos as [|[n v] vals Hn Hpos IH]; intros b bs Hrun Hroom.
  - eexists. split; [done|]. by rewrite app_nil_r.
  - cbn [forM message_bytes flat_map fst snd] in *. rewrite app_assoc in *.
    destruct (append_run b bs [] n v) as (b1 & E1 & Hrun1); [done|done| |].
    { simpl. rewrite app_nil_r. rewrite !length_app in Hroom. lia. }
    simpl in Hrun1. rewrite app_nil_r in Hrun1.
    rewrite (bind_ok _ _ _ _ _ E1). by apply IH.
Qed.

Lemma send_message_run bits vals :
  Forall (fun f => (0 < f.1)%nat) vals ->
  len (pack (message_bits bits) ++ message_bytes vals) < 10000000 ->
  exists b', send_message bits vals ByteBuffer_new = (Ok tt, b')
             /\ wrun b' (pack (message_bits bits) ++ message_bytes vals) [].
Proof.
  intros Hpos Hroom. rewrite length_app in Hroom. unfold send_message.
  destruct (forM_WriteBits_run bits ByteBuffer_new [] [] wrun_new) as (b1 & E1 & Hrun1).
  { simpl. lia. }
  rewrite (bind_ok _ _ _ _ _ E1).
  destruct (FlushBits_run _ _ _ Hrun1) as (b2 & E2 & Hrun2).
  { pose proof (wrun_size _ _ _ Hrun1). unfold room. simpl in *. lia. }
  rewrite (bind_ok _ _ _ _ _ E2). apply forM_append_run; [done|done|].
  simpl. rewrite length_app. lia.
Qed.

Lemma recv_bits_spec bits b rest tail :
  Forall (fun f => (f.1 <= 32)%nat) bits -> rbits b (message_bits bits ++ rest) tail ->
  exists b', recv_bits bits.*1 b = (Ok ((fun f => f.2 mod 2 ^ Z.of_nat f.1) <$> bits), b')
             /\ rbits b' rest tail.
Proof.
  intros Hle. revert b. induction Hle as [|[n v] bits Hn Hle IH]; intros b Hb.
  - by eexists.
  - cbn [message_bits flat_map fst snd] in Hb. rewrite <- app_assoc in Hb.
    destruct (ReadBits_bits b n v _ tail Hn Hb) as (b1 & E1 & Hb1).
    destruct (IH _ Hb1) as (b2 & E2 & Hb2). exists b2. split; [|done].
    cbn [fmap list_fmap recv_bits fst snd]. rewrite (bind_ok _ _ _ _ _ E1).
    by rewrite (bind_ok _ _ _ _ _ E2).
Qed.

Lemma recv_vals_spec vals b rest lo :
  rview b (message_bytes vals ++ rest) lo ->
  exists b', recv_vals vals.*1 b
             = (Ok ((fun f => f.2 mod 2 ^ (8 * Z.of_nat f.1)) <$> vals), b')
             /\ rview b' rest lo.
Proof.
  revert b. induction vals as [|[n v] vals IH]; intros b Hv.
  - by eexists.
  - cbn [message_bytes flat_map fst snd] in Hv. rewrite <- app_assoc in Hv.
    destruct (read_view b (le_bytes n v) _ lo n Hv) as (b1 & E1 & Hv1 & _);
      [apply length_le_bytes|].
    destruct (IH _ Hv1) as (b2 & E2 & Hv2). exists b2. split; [|done].
    cbn [fmap list_fmap recv_vals fst snd]. rewrite (bind_ok _ _ _ _ _ E1).
    by rewrite (bind_ok _ _ _ _ _ E2), le_value_bytes.
Qed.

Definition recv_message (bws vws : list nat) : BB (list Z * list Z) :=
  xs ← recv_bits bws; ys ← recv_vals vws; mret (xs, ys).

(** ** Overwriting bits in place *)

Definition storage_bits (st : list Z) : list bool := flat_map byte_bits st.

Lemma length_storage_bits st : length (storage_bits st) = (8 * length st)%nat.
Proof. induction st as [|c st IH]; [done|]. simpl. rewrite IH. lia. Qed.

Lemma byte_bits_lookup c j : (j < 8)%nat ->
  byte_bits c !! j = Some (Z.testbit c (7 - Z.of_nat j)).
Proof. intros Hj. do 8 (destruct j as [|j]; [done|]). lia. Qed.

Lemma storage_bits_lookup st k j : (j < 8)%nat ->
  storage_bits st !! (8 * k + j)%nat = (fun c => Z.testbit c (7 - Z.of_nat j)) <$> st !! k.
Proof.
  intros Hj. revert k. induction st as [|c st IH]; intros k.
  - rewrite lookup_nil. by destruct k.
  - cbn [storage_bits flat_map]. destruct k as [|k].
    + rewrite lookup_app_l by (unfold byte_bits; simpl; lia). simpl.
      by rewrite byte_bits_lookup.
    + rewrite lookup_app_r by (unfold byte_bits; simpl; lia).
      rewrite lookup_cons, <- IH. f_equal. unfold byte_bits; simpl. lia.
Qed.

(** Patching the start of a block of bits. *)
Lemma storage_bits_app a b : storage_bits (a ++ b) = storage_bits a ++ storage_bits b.
Proof. apply flat_map_app. Qed.

Lemma pack_same_length l l' : length l = length l' -> exists k,
  storage_bits (pack l) = l ++ replicate k false /\ storage_bits (pack l') = l' ++ replicate k false.
Proof.
  intros Hl. destruct (pack_bits_zero l) as (n & E & Hn), (pack_bits_zero l') as (n' & E' & Hn').
  exists n. split; [done|]. replace n with n'; [done|].
  apply (f_equal length) in E. apply (f_equal length) in E'.
  change (flat_map byte_bits) with storage_bits in E, E'.
  rewrite length_storage_bits, length_app, length_replicate in E, E'. lia.
Qed.

Lemma put_one_bit_spec pos v n st i :
  0 <= pos -> (Z.to_nat pos + i < length (storage_bits st))%nat -> Z.of_nat i < n ->
  storage_bits (put_one_bit pos v n st i) =
    <[(Z.to_nat pos + i)%nat := Z.testbit v (n - Z.of_nat i - 1)]> (storage_bits st).
Proof.
  intros Hpos Hlt Hi. rewrite length_storage_bits in Hlt.
  set (p := (Z.to_nat pos + i)%nat) in *.
  assert (pos + Z.of_nat i = Z.of_nat p) as Ep by lia.
  unfold put_one_bit. rewrite Ep, testbit_land_1 by lia.
  change 8 with (Z.of_nat 8).
  rewrite <- Nat2Z.inj_div, <- Nat2Z.inj_mod, Nat2Z.id.
  set (wp := (p / 8)%nat). set (bit := (p mod 8)%nat).
  assert (p = 8 * wp + bit)%nat as Hp by apply Nat.div_mod_eq.
  assert (bit < 8)%nat as Hbit by (apply Nat.mod_upper_bound; lia).
  clearbody wp bit p. subst p.
  destruct (lookup_lt_is_Some_2 st wp) as [old Hold]; [lia|].
  rewrite (nth_lookup_Some _ _ _ _ Hold).
  set (new := if Z.testbit v (n - Z.of_nat i - 1) then _ else _).
  assert (new = <[wp := u8 (if Z.testbit v (n - Z.of_nat i - 1)
     then Z.lor old (Z.shiftl 1 (7 - Z.of_nat bit))
     else Z.ldiff old (Z.shiftl 1 (7 - Z.of_nat bit)))]> st) as ->.
  { unfold new. by destruct (Z.testbit v _). }
  apply list_eq. intros q.
  pose proof (Nat.div_mod_eq q 8) as Hq.
  pose proof (Nat.mod_upper_bound q 8 ltac:(lia)) as Hqb.
  set (wq := (q / 8)%nat) in *. set (r := (q mod 8)%nat) in *. clearbody wq r. subst q.
  rewrite storage_bits_lookup by done.
  destruct (decide (wq = wp)) as [->|Hw].
  - rewrite list_lookup_insert_eq by lia. cbn [fmap option_fmap option_map].
    unfold uint. rewrite Z.mod_pow2_bits_low by lia.
    destruct (decide (r = bit)) as [->|Hb].
    + rewrite list_lookup_insert_eq by (rewrite length_storage_bits; lia). f_equal.
      destruct (Z.testbit v _).
      * by rewrite Z.lor_spec, Z.shiftl_1_l, Z.pow2_bits_true, orb_true_r by lia.
      * by rewrite Z.ldiff_spec, Z.shiftl_1_l, Z.pow2_bits_true, andb_false_r by lia.
    + rewrite list_lookup_insert_ne, storage_bits_lookup, Hold by (done || lia).
      cbn [fmap option_fmap option_map]. f_equal. destruct (Z.testbit v _).
      * by rewrite Z.lor_spec, Z.shiftl_1_l, Z.pow2_bits_false, orb_false_r by lia.
      * by rewrite Z.ldiff_spec, Z.shiftl_1_l, Z.pow2_bits_false, andb_true_r by lia.
  - rewrite !list_lookup_insert_ne by lia. by rewrite storage_bits_lookup.
Qed.

Lemma insert_take_drop (l xs : list bool) p k b :
  length (take k xs) = k -> (p + k < length l)%nat -> xs !! k = Some b ->
  <[(p + k)%nat := b]> (take p l ++ take k xs ++ drop (p + k) l) =
  take p l ++ take (S k) xs ++ drop (p + S k) l.
Proof.
  intros Hk Hl Hb. rewrite (take_S_r _ _ b Hb).
  rewrite insert_app_r_alt by (rewrite length_take; lia).
  rewrite length_take. replace (p + k - p `min` length l)%nat with k by lia. f_equal.
  rewrite insert_app_r_alt by lia. rewrite Hk, Nat.sub_diag, <- app_assoc. f_equal.
  destruct (lookup_lt_is_Some_2 l (p + k)) as [y Hy]; [lia|].
  rewrite (drop_S _ _ _ Hy). simpl. f_equal. f_equal. lia.
Qed.

Lemma low_bits_lookup n v k : (k < n)%nat ->
  low_bits n v !! k = Some (Z.testbit v (Z.of_nat n - Z.of_nat k - 1)).
Proof.
  revert k. induction n as [|n IH]; intros k Hk; [lia|]. cbn [low_bits].
  destruct k as [|k].
  - cbn. do 2 f_equal. lia.
  - rewrite lookup_cons, IH by lia. do 2 f_equal. lia.
Qed.

Lemma put_bits_fold pos v n st k :
  0 <= pos -> (Z.to_nat pos + n <= 8 * length st)%nat -> (k <= n)%nat ->
  storage_bits (fold_left (put_one_bit pos v (Z.of_nat n)) (seq 0 k) st) =
    take (Z.to_nat pos) (storage_bits st) ++ take k (low_bits n v)
      ++ drop (Z.to_nat pos + k) (storage_bits st).
Proof.
  intros Hpos Hlen. induction k as [|k IH]; intros Hk.
  - simpl. by rewrite Nat.add_0_r, take_drop.
  - rewrite seq_S, fold_left_app. cbn [fold_left].
    specialize (IH ltac:(lia)).
    assert (length (take k (low_bits n v)) = k) as Htk
      by (rewrite length_take, length_low_bits; lia).
    rewrite put_one_bit_spec, IH; [|done| |lia].
    + apply insert_take_drop; [done|rewrite length_storage_bits; lia|].
      rewrite low_bits_lookup by lia. f_equal.
    + rewrite IH, !length_app, length_take, length_drop, length_storage_bits, Htk. lia.
Qed.

(** A field written as a placeholder and patched later is as if it had been
    written with its final value. *)
Lemma PutBits_placeholder pre v v' n rest tail b :
  (0 < n)%nat -> bb_storage b = pre ++ pack (low_bits n v ++ rest) ++ tail -> size b < 2 ^ 60 ->
  exists b', PutBits (8 * len pre) v' n b = (Ok tt, b') /\
    storage_bits (bb_storage b') = storage_bits (pre ++ pack (low_bits n v' ++ rest) ++ tail).
Proof.
  intros Hn Hst Hsz. destruct (pack_same_length (low_bits n v ++ rest) (low_bits n v' ++ rest)) as (k & E & E').
  { by rewrite !length_app, !length_low_bits. }
  assert (8 * len pre + Z.of_nat n <= size b * 8) as Hle.
  { apply (f_equal length) in E. rewrite length_storage_bits, !length_app, length_low_bits in E.
    unfold size. rewrite Hst, !length_app. lia. }
  unfold PutBits. destruct (Z.eqb_spec (Z.of_nat n) 0); [lia|]. rewrite (uint_small 64) by lia.
  destruct (Z.ltb_spec (size b * 8) (8 * len pre + Z.of_nat n)); [lia|].
  eexists. split; [done|]. cbn [bb_storage set_storage].
  rewrite put_bits_fold by (unfold size in *; lia).
  rewrite (take_ge (low_bits n v')) by (rewrite length_low_bits; lia).
  replace (Z.to_nat (8 * len pre)) with (length (storage_bits pre)) by (rewrite length_storage_bits; lia).
  rewrite Hst, !storage_bits_app, E, E'. rewrite take_app_length, <- drop_drop, drop_app_length.
  f_equal. rewrite <- !app_assoc. f_equal.
  replace n with (length (low_bits n v)) at 1 by apply length_low_bits. apply drop_app_length.
Qed.

Lemma read_cstring_loop_spec s b rest lo fuel acc :
  Forall (fun c => c <> 0) s -> (length s < fuel)%nat ->
  rview b (s ++ 0 :: rest) lo ->
  exists b', read_cstring_loop fuel acc b = (Ok (acc ++ s), b') /\ rview b' rest lo.
Proof.
  intros Hs. revert b fuel acc. induction Hs as [|c s Hc Hs IH]; intros b fuel acc Hf Hv;
    (destruct fuel as [|fuel]; [simpl in Hf; lia|]); cbn [read_cstring_loop];
    rewrite (bind_ok get _ b b b) by done;
    destruct (Hv) as (H0 & Hsz & _); cbn [length app] in Hsz;
    (destruct (Z.ltb_spec (bb_rpos b) (size b)); [|lia]).
  - destruct (read_byte_view b 0 rest lo Hv) as (b1 & E1 & Hv1).
    rewrite (bind_ok _ _ _ _ _ E1). exists b1. by rewrite app_nil_r.
  - destruct (read_byte_view b c (s ++ 0 :: rest) lo Hv) as (b1 & E1 & Hv1).
    rewrite (bind_ok _ _ _ _ _ E1). destruct (Z.eqb_spec c 0); [done|].
    destruct (IH b1 fuel (acc ++ [c])) as (b2 & E2 & Hv2); [simpl in Hf; lia|done|].
    exists b2. rewrite E2. split; [|done]. by rewrite <- app_assoc.
Qed.

(** ** Properties *)

(** C30. Any packet made of bit fields (of at most 32 bits), a flush and then
    integers is received as it was sent: reading the storage the writer leaves
    gives every field back, truncated to its width, and consumes it all. *)
Theorem message_roundtrip (bits vals : list (nat * Z)) :
  Forall (fun f => (f.1 <= 32)%nat) bits -> Forall (fun f => (0 < f.1)%nat) vals ->
  len (pack (message_bits bits) ++ message_bytes vals) < 10000000 ->
  exists b b',
    send_message bits vals ByteBuffer_new = (Ok tt, b) /\
    recv_message bits.*1 vals.*1 (ByteBuffer_of_bytes (bb_storage b)) =
      (Ok ((fun f => f.2 mod 2 ^ Z.of_nat f.1) <$> bits,
           (fun f => f.2 mod 2 ^ (8 * Z.of_nat f.1)) <$> vals), b') /\
    bb_rpos b' = size b'.
Proof.
  intros Hb Hv Hroom.
  destruct (send_message_run bits vals Hv Hroom) as (b & E & Hrun).
  destruct (wrun_done _ _ Hrun) as [Hst _].
  set (r0 := ByteBuffer_of_bytes (bb_storage b)).
  assert (rview r0 (pack (message_bits bits) ++ message_bytes vals) []) as Hr0.
  { subst r0. rewrite Hst. apply rview_of_bytes. lia. }
  apply rbits_start in Hr0. rewrite <- (app_nil_r (message_bits bits)) in Hr0.
  destruct (recv_bits_spec bits r0 [] _ Hb Hr0) as (r1 & E1 & Hr1).
  apply rbits_end in Hr1 as [lo Hr1]. rewrite <- (app_nil_r (message_bytes vals)) in Hr1.
  destruct (recv_vals_spec vals r1 [] lo Hr1) as (r2 & E2 & Hr2).
  exists b, r2. split_and!; [done| |].
  - unfold recv_message. rewrite (bind_ok _ _ _ _ _ E1). by rewrite (bind_ok _ _ _ _ _ E2).
  - destruct Hr2 as (_ & Hsz & _). simpl in Hsz. lia.
Qed.

Lemma message_roundtrip_witness :
  exists b b',
    send_message [(3%nat, 5); (22%nat, 9)] [(4%nat, 77)] ByteBuffer_new = (Ok tt, b) /\
    recv_message [3%nat; 22%nat] [4%nat] (ByteBuffer_of_bytes (bb_storage b)) =
      (Ok ([5; 9], [77]), b') /\ bb_rpos b' = size b'.
Proof.
  apply (message_roundtrip [(3%nat, 5); (22%nat, 9)] [(4%nat, 77)]).
  - repeat constructor; simpl; lia.
  - repeat constructor; simpl; lia.
  - vm_compute. reflexivity.
Defined.

(** Packed guids round-trip: what [appendPackGUID] adds to an aligned
    buffer, [readPackGUID] turns back into the same 64-bit guid, whatever
    follows in the packet. *)
Theorem packguid_roundtrip (bs rest : list Z) (guid : Z) (b : ByteBuffer) :
  0 <= guid < 2 ^ 64 -> wrun b bs [] -> len (bs ++ rest) < 9999999 ->
  exists b1 b2 packed,
    appendPackGUID guid b = (Ok tt, b1) /\ bb_storage b1 = bs ++ packed /\
    (len packed <= 9) /\
    readPackGUID (set_rpos (len bs) (ByteBuffer_of_bytes (bs ++ packed ++ rest)))
      = (Ok guid, b2) /\
    rview b2 rest [].
Proof.
  intros Hg Hrun Hlen. destruct (wrun_done _ _ Hrun) as [Hst Hw].
  unfold appendPackGUID.
  rewrite (pack_guid_loop_spec 8 0 guid 0 []) by (simpl; lia). cbn [app].
  rewrite Z.add_0_l, Z.mul_1_l.
  set (mask := guid_mask _). set (bytes := nonzero_bytes _).
  assert (length bytes <= 8)%nat as Hbytes.
  { unfold bytes, nonzero_bytes. rewrite <- (length_le_bytes 8 guid) at 2.
    apply List.filter_length_le. }
  rewrite length_app in Hlen.
  rewrite append_raw_end; [|done|by unfold size; rewrite Hst|unfold room, size; rewrite Hst; lia].
  pose proof (guid_mask_range (le_bytes 8 guid)) as Hm. rewrite length_le_bytes in Hm.
  fold mask in Hm. change (2 ^ Z.of_nat 8) with 256 in Hm.
  set (r0 := set_rpos (len bs) (ByteBuffer_of_bytes (bs ++ (mask :: bytes) ++ rest))).
  assert (rview r0 ([mask] ++ bytes ++ rest) []) as Hr0.
  { unfold r0, rview, size; simpl. rewrite !length_app. simpl. rewrite length_app.
    split_and!; try done; try lia. by rewrite Nat2Z.id, drop_app_length. }
  destruct (read_byte_view r0 mask (bytes ++ rest) [] Hr0) as (r1 & E1 & Hr1).
  destruct (unpack_guid_loop_spec (le_bytes 8 guid) 0 mask 0 r1 rest [])
    as (r2 & E2 & Hr2); rewrite ?length_le_bytes; try done; try lia.
  { apply le_bytes_byte. } { by rewrite Z.div_1_r. }
  rewrite length_le_bytes, le_value_bytes in E2. simpl Z.of_nat in E2.
  rewrite Z.add_0_l, Z.mul_1_l, Z.mod_small in E2 by done.
  eexists _, r2, (mask :: bytes). split_and!; [done|by simpl; rewrite Hst|simpl; lia| |done].
  fold r0. unfold readPackGUID. rewrite (bind_ok get _ r0 r0 r0) by done.
  destruct Hr0 as (? & Hsz & ? & _). rewrite (uint_small 64) by lia.
  rewrite length_app in Hsz. cbn [length] in Hsz.
  destruct (Z.ltb_spec (size r0) (bb_rpos r0 + 1)); [lia|].
  by rewrite (bind_ok _ _ _ _ _ E1).
Qed.

Lemma packguid_roundtrip_witness :
  exists b1 b2 packed,
    appendPackGUID 1311768467463733249 ByteBuffer_new = (Ok tt, b1) /\
    bb_storage b1 = [] ++ packed /\ (len packed <= 9) /\
    readPackGUID (set_rpos 0 (ByteBuffer_of_bytes ([] ++ packed ++ [7; 8])))
      = (Ok 1311768467463733249, b2) /\
    rview b2 [7; 8] [].
Proof.
  apply (packguid_roundtrip [] [7; 8] 1311768467463733249 ByteBuffer_new).
  - lia.
  - exact wrun_new.
  - vm_compute. reflexivity.
Defined.

(** [PutBits] patches exactly the bits it names: in a buffer that holds
    them, the [n] bits from bit position [pos] become the low bits of [v],
    most significant first, and every other bit of the storage is unchanged. *)
Theorem PutBits_patches (pos v : Z) (n : nat) (b : ByteBuffer) :
  0 <= pos -> (0 < n)%nat -> pos + Z.of_nat n <= size b * 8 -> size b < 2 ^ 60 ->
  exists b', PutBits pos v n b = (Ok tt, b') /\
    storage_bits (bb_storage b') =
      take (Z.to_nat pos) (storage_bits (bb_storage b)) ++ low_bits n v
        ++ drop (Z.to_nat pos + n) (storage_bits (bb_storage b)) /\
    bb_rpos b' = bb_rpos b /\ bb_wpos b' = bb_wpos b.
Proof.
  intros Hpos Hn Hle Hsz. unfold PutBits.
  destruct (Z.eqb_spec (Z.of_nat n) 0); [lia|]. rewrite (uint_small 64) by lia.
  destruct (Z.ltb_spec (size b * 8) (pos + Z.of_nat n)); [lia|].
  eexists. split; [done|]. split; [|done]. cbn [bb_storage set_storage].
  rewrite put_bits_fold by (unfold size in *; lia).
  by rewrite (take_ge (low_bits n v)) by (rewrite length_low_bits; lia).
Qed.

Lemma PutBits_patches_witness :
  exists b', PutBits 3 5 6 (ByteBuffer_of_bytes [255; 255]) = (Ok tt, b') /\
    storage_bits (bb_storage b') =
      take 3 (storage_bits [255; 255]) ++ low_bits 6 5
        ++ drop (3 + 6) (storage_bits [255; 255]) /\
    bb_rpos b' = 0 /\ bb_wpos b' = 2.
Proof.
  apply (PutBits_patches 3 5 6 (ByteBuffer_of_bytes [255; 255]));
    unfold size; simpl; lia.
Defined.

(** C31. Reading is bounds-checked: with the read position inside the buffer,
    [read] either returns the little-endian value of the next bytes and
    advances over them, staying inside the buffer, or throws
    [ByteBufferPositionException] and changes nothing, the latter exactly when
    fewer bytes than asked for are left.  No read leaves the storage. *)
Theorem read_bounds_checked (n : nat) (b : ByteBuffer) :
  0 <= bb_rpos b <= size b -> size b < 2 ^ 62 -> Z.of_nat n < 2 ^ 62 ->
  if bb_rpos b + Z.of_nat n <=? size b
  then read n b = (Ok (le_value (take n (drop (Z.to_nat (bb_rpos b)) (bb_storage b)))),
                   set_rpos (bb_rpos b + Z.of_nat n) b)
  else read n b = (Err ByteBufferPositionException, b).
Proof.
  intros Hr Hs Hn.
  unfold read, mbind, prog_bind, get, of_res, load, modify, mret, prog_ret.
  rewrite (uint_small 64) by lia.
  destruct (Z.leb_spec (bb_rpos b + Z.of_nat n) (size b));
    destruct (Z.ltb_spec (size b) (bb_rpos b + Z.of_nat n)); try lia; [|done].
  by rewrite Nat2Z.id.
Qed.

Lemma read_bounds_checked_witness :
  read 4 (ByteBuffer_of_bytes [1; 2; 3]) =
    (Err ByteBufferPositionException, ByteBuffer_of_bytes [1; 2; 3]).
Proof.
  apply (read_bounds_checked 4 (ByteBuffer_of_bytes [1; 2; 3]));
    unfold size; simpl; lia.
Defined.

(** A null-terminated string written on a byte boundary is read back
    character by character up to its terminator, which is consumed. *)
Theorem cstring_roundtrip (s bs rest : list Z) (b : ByteBuffer) :
  Forall (fun c => c <> 0) s -> wrun b bs [] -> len (bs ++ s ++ rest) < 9999999 ->
  exists b1 b2,
    write_cstring s b = (Ok tt, b1) /\ wrun b1 (bs ++ s ++ [0]) [] /\
    read_cstring (set_rpos (len bs) (ByteBuffer_of_bytes (bb_storage b1 ++ rest)))
      = (Ok s, b2) /\
    rview b2 rest [].
Proof.
  intros Hs Hrun Hlen. rewrite !length_app in Hlen.
  destruct (wrun_done _ _ Hrun) as [Hst Hw].
  assert (exists b0, (if len s =? 0 then mret tt else append_raw s : BB unit) b = (Ok tt, b0)
          /\ wrun b0 (bs ++ s) []) as (b0 & E0 & Hrun0).
  { destruct (Z.eqb_spec (len s) 0) as [Es|Es].
    - assert (s = []) as -> by (destruct s; [done|simpl in Es; lia]).
      exists b. by rewrite app_nil_r.
    - rewrite append_raw_end; [|by intros ->|by unfold size; rewrite Hst
        |unfold room, size; rewrite Hst; lia].
      eexists. split; [done|].
      destruct Hrun as (full & rem & Ef & _ & _ & _ & _ & Hp & Hc).
      symmetry in Ef. apply app_nil in Ef as [-> ->].
      exists [], []. split_and!; simpl; try done; try lia.
      + by rewrite app_nil_r, Hst.
      + rewrite length_app. unfold size. lia. }
  destruct (append_run b0 (bs ++ s) [] 1 0) as (b1 & E1 & Hrun1); [lia|done| |].
  { simpl. rewrite app_nil_r, length_app. lia. }
  simpl in Hrun1. rewrite app_nil_r, <- app_assoc in Hrun1. change (0 mod 256) with 0 in Hrun1.
  destruct (wrun_done _ _ Hrun1) as [Hst1 _].
  set (r0 := set_rpos (len bs) (ByteBuffer_of_bytes (bb_storage b1 ++ rest))).
  assert (rview r0 (s ++ 0 :: rest) []) as Hr0.
  { unfold r0, rview, size; simpl. rewrite Hst1, !length_app. simpl.
    split_and!; try done; try lia.
    by rewrite Nat2Z.id, <- app_assoc, drop_app_length, <- app_assoc. }
  destruct (read_cstring_loop_spec s r0 rest [] (S (length (bb_storage r0))) [] Hs)
    as (b2 & E2 & Hr2); [|done|].
  { unfold r0. simpl. rewrite Hst1, !length_app. lia. }
  exists b1, b2. split_and!; [|done| |done].
  - unfold write_cstring. by rewrite (bind_ok _ _ _ _ _ E0).
  - fold r0. unfold read_cstring. by rewrite (bind_ok get _ r0 r0 r0) by done.
Qed.

Lemma cstring_roundtrip_witness :
  exists b1 b2,
    write_cstring [77; 105; 115; 116; 121] ByteBuffer_new = (Ok tt, b1) /\
    wrun b1 ([] ++ [77; 105; 115; 116; 121] ++ [0]) [] /\
    read_cstring (set_rpos 0 (ByteBuffer_of_bytes (bb_storage b1 ++ [9])))
      = (Ok [77; 105; 115; 116; 121], b2) /\
    rview b2 [9] [].
Proof.
  apply (cstring_roundtrip [77; 105; 115; 116; 121] [] [9] ByteBuffer_new).
  - repeat constructor; discriminate.
  - exact wrun_new.
  - vm_compute. reflexivity.
Defined.

(** Strings overtake pending bits: the raw [append] behind
    [operator<<(std::string)] and [WriteString] does not flush, so bits written
    just before a non-empty string land after its characters, in front of its
    terminator, unless the caller flushed first. *)
Theorem cstring_overtakes_bits (x c : Z) (s : list Z) :
  len s < 1000000 ->
  exists b b', WriteBit x ByteBuffer_new = (Ok (negb (x =? 0)), b) /\
    write_cstring (c :: s) b = (Ok tt, b') /\
    bb_storage b' = (c :: s) ++ pack [negb (x =? 0)] ++ [0].
Proof.
  intros Hlen.
  destruct (WriteBit_run ByteBuffer_new [] [] x wrun_new) as (b & E & Hrun).
  { unfold room, size. simpl. lia. }
  destruct Hrun as (full & rem & Ef & Hf & Hr & Hst & Hw & Hp & Hc).
  assert (full = [] /\ rem = [negb (x =? 0)]) as [-> ->].
  { destruct full as [|? [|? full]]; simplify_eq/=; done. }
  set (b1 := set_wpos (len (c :: s)) (set_storage (c :: s) b)).
  assert (append_raw (c :: s) b = (Ok tt, b1)) as E1.
  { rewrite append_raw_end; [|done|exact Hw|unfold room, size; rewrite Hst; simpl; lia].
    unfold size. by rewrite Hst. }
  assert (wrun b1 (c :: s) [negb (x =? 0)]) as Hrun1.
  { exists [], [negb (x =? 0)]. split_and!; simpl; try done; try lia. by rewrite app_nil_r. }
  destruct (append_run b1 (c :: s) [negb (x =? 0)] 1 0) as (b2 & E2 & Hrun2);
    [lia|done|rewrite length_app; cbn [pack length] in *; lia|].
  destruct (wrun_done _ _ Hrun2) as [Hst2 _].
  exists b, b2. split_and!; [done| |by rewrite Hst2, <- app_assoc].
  unfold write_cstring. rewrite (bind_ok _ _ b tt b1); [done|].
  destruct (Z.eqb_spec (len (c :: s)) 0) as [E0|_]; [simpl in E0; lia|done].
Qed.

Lemma cstring_overtakes_bits_witness :
  exists b b', WriteBit 1 ByteBuffer_new = (Ok true, b) /\
    write_cstring [72; 105] b = (Ok tt, b') /\
    bb_storage b' = [72; 105] ++ pack [true] ++ [0].
Proof. apply (cstring_overtakes_bits 1 72 [105]). simpl. lia. Defined.
