(* ===== verification/Floats.v ===== *)
(** * Single-precision floats

    A C++ [float] is its IEEE binary32 bit pattern in a packet or a table, and
    the standard library's [spec_float] where the code computes with it; the
    operations round to nearest at 24 bits. *)

From Stdlib Require Export SpecFloat.
From S2P Require Import Prelude.
Local Open Scope Z_scope.

Definition float32 := Z.

Definition decode32 (bits : float32) : spec_float :=
  let sign := Z.testbit bits 31 in
  let exponent := Z.land (Z.shiftr bits 23) 255 in
  let mantissa := Z.land bits (2 ^ 23 - 1) in
  if exponent =? 255 then (if mantissa =? 0 then S754_infinity sign else S754_nan)
  else if exponent =? 0 then
    match mantissa with Z.pos m => S754_finite sign m (-149) | _ => S754_zero sign end
  else match mantissa + 2 ^ 23 with
       | Z.pos m => S754_finite sign m (exponent - 150)
       | _ => S754_nan
       end.

(** The NaN the code would produce has an unspecified payload: the quiet NaN. *)
Definition encode32 (x : spec_float) : float32 :=
  let sign (s : bool) := if s then 2 ^ 31 else 0 in
  match x with
  | S754_zero s => sign s
  | S754_infinity s => sign s + 255 * 2 ^ 23
  | S754_nan => 2143289344
  | S754_finite s m e =>
      if Z.pos m <? 2 ^ 23 then sign s + Z.pos m
      else sign s + (e + 150) * 2 ^ 23 + (Z.pos m - 2 ^ 23)
  end.

Abbreviation fadd := (SFadd 24 128).
Abbreviation fmul := (SFmul 24 128).
Abbreviation fdiv := (SFdiv 24 128).

(** The integer conversions: [float(v)], the truncation of a cast to an integer
    type, and [floor]. *)
Definition float_of_Z (v : Z) : spec_float := binary_normalize 24 128 v 0 false.

Definition Z_of_float (x : spec_float) : Z :=
  match x with
  | S754_finite s m e =>
      let v := if 0 <=? e then Z.pos m * 2 ^ e else Z.pos m / 2 ^ (- e) in if s then - v else v
  | _ => 0
  end.

(** [int32(x)]: undefined when the truncated value is not an [int32]. *)
Definition int32_of_float (x : spec_float) : option Z :=
  match x with
  | S754_infinity _ | S754_nan => None
  | _ => let v := Z_of_float x in
         if (- 2 ^ 31 <=? v) && (v <? 2 ^ 31) then Some v else None
  end.

(** [uint32(x)] *)
Definition uint32_of_float (x : spec_float) : option Z :=
  match x with
  | S754_infinity _ | S754_nan => None
  | _ => let v := Z_of_float x in if (0 <=? v) && (v <? 2 ^ 32) then Some v else None
  end.

(** [int32(floor(x))] *)
Definition int32_of_floor (x : spec_float) : option Z :=
  match x with
  | S754_infinity _ | S754_nan => None
  | S754_zero _ => Some 0
  | S754_finite s m e =>
      let v := if s then - Z.pos m else Z.pos m in
      let v := if 0 <=? e then v * 2 ^ e else v / 2 ^ (- e) in
      if (- 2 ^ 31 <=? v) && (v <? 2 ^ 31) then Some v else None
  end.

Lemma int32_of_floor_range x v : int32_of_floor x = Some v -> - 2 ^ 31 <= v < 2 ^ 31.
Proof.
  destruct x; cbn [int32_of_floor]; try discriminate; [intros [= <-]; lia|].
  destruct (_ && _) eqn:E; [|discriminate]. intros [= <-]. apply andb_prop in E as [? ?]. bool_lia.
Qed.
