(* ===== verification/MovementElements.v ===== *)
(** * Movement packet elements (src/src/serveur/jeu/Movement/MovementStructures.h)

    The alphabet the movement packet layouts are written in.  The eight
    enumerators of a guid byte are one constructor with the byte's index: the
    C++ computes that index as [element - MSEHasGuidByte0]. *)

From S2P Require Import Prelude.

(** Index of one of the 8 bytes of an [ObjectGuid]. *)
Inductive guid_index := G0 | G1 | G2 | G3 | G4 | G5 | G6 | G7.

#[export] Instance guid_index_eq_dec : EqDecision guid_index.
Proof. solve_decision. Defined.

Definition guid_pos (i : guid_index) : nat :=
  match i with
  | G0 => 0 | G1 => 1 | G2 => 2 | G3 => 3 | G4 => 4 | G5 => 5 | G6 => 6 | G7 => 7
  end.

Definition guid_indices : list guid_index := [G0; G1; G2; G3; G4; G5; G6; G7].

Lemma guid_pos_inj i j : guid_pos i = guid_pos j -> i = j.
Proof. by destruct i, j. Qed.

Lemma guid_pos_lt i : guid_pos i < 8.
Proof. destruct i; simpl; lia. Qed.

Inductive MovementStatusElements :=
| MSEHasGuidByte (i : guid_index)
| MSEHasMovementFlags
| MSEHasMovementFlags2
| MSEHasTimestamp
| MSEHasOrientation
| MSEHasTransportData
| MSEHasTransportGuidByte (i : guid_index)
| MSEHasTransportTime2
| MSEHasTransportTime3
| MSEHasPitch
| MSEHasFallData
| MSEHasFallDirection
| MSEHasSplineElevation
| MSEHasSpline
| MSEGuidByte (i : guid_index)
| MSEMovementFlags
| MSEMovementFlags2
| MSETimestamp
| MSEPositionX
| MSEPositionY
| MSEPositionZ
| MSEOrientation
| MSETransportGuidByte (i : guid_index)
| MSETransportPositionX
| MSETransportPositionY
| MSETransportPositionZ
| MSETransportOrientation
| MSETransportSeat
| MSETransportTime
| MSETransportTime2
| MSETransportTime3
| MSEPitch
| MSEFallTime
| MSEFallVerticalSpeed
| MSEFallCosAngle
| MSEFallSinAngle
| MSEFallHorizontalSpeed
| MSESplineElevation
| MSECounter
| MSECounterCount
| MSEUintCount
| MSEHasUnkTime
| MSEUnkTime
| MSEZeroBit
| MSEOneBit
| MSEEnd
| MSEExtraElement
| MSEExtraFloat
| MSEExtraInt8.

#[export] Instance MovementStatusElements_eq_dec : EqDecision MovementStatusElements.
Proof. solve_decision. Defined.

Abbreviation MSEHasGuidByte0 := (MSEHasGuidByte G0).
Abbreviation MSEHasGuidByte1 := (MSEHasGuidByte G1).
Abbreviation MSEHasGuidByte2 := (MSEHasGuidByte G2).
Abbreviation MSEHasGuidByte3 := (MSEHasGuidByte G3).
Abbreviation MSEHasGuidByte4 := (MSEHasGuidByte G4).
Abbreviation MSEHasGuidByte5 := (MSEHasGuidByte G5).
Abbreviation MSEHasGuidByte6 := (MSEHasGuidByte G6).
Abbreviation MSEHasGuidByte7 := (MSEHasGuidByte G7).
Abbreviation MSEHasTransportGuidByte0 := (MSEHasTransportGuidByte G0).
Abbreviation MSEHasTransportGuidByte1 := (MSEHasTransportGuidByte G1).
Abbreviation MSEHasTransportGuidByte2 := (MSEHasTransportGuidByte G2).
Abbreviation MSEHasTransportGuidByte3 := (MSEHasTransportGuidByte G3).
Abbreviation MSEHasTransportGuidByte4 := (MSEHasTransportGuidByte G4).
Abbreviation MSEHasTransportGuidByte5 := (MSEHasTransportGuidByte G5).
Abbreviation MSEHasTransportGuidByte6 := (MSEHasTransportGuidByte G6).
Abbreviation MSEHasTransportGuidByte7 := (MSEHasTransportGuidByte G7).
Abbreviation MSEGuidByte0 := (MSEGuidByte G0).
Abbreviation MSEGuidByte1 := (MSEGuidByte G1).
Abbreviation MSEGuidByte2 := (MSEGuidByte G2).
Abbreviation MSEGuidByte3 := (MSEGuidByte G3).
Abbreviation MSEGuidByte4 := (MSEGuidByte G4).
Abbreviation MSEGuidByte5 := (MSEGuidByte G5).
Abbreviation MSEGuidByte6 := (MSEGuidByte G6).
Abbreviation MSEGuidByte7 := (MSEGuidByte G7).
Abbreviation MSETransportGuidByte0 := (MSETransportGuidByte G0).
Abbreviation MSETransportGuidByte1 := (MSETransportGuidByte G1).
Abbreviation MSETransportGuidByte2 := (MSETransportGuidByte G2).
Abbreviation MSETransportGuidByte3 := (MSETransportGuidByte G3).
Abbreviation MSETransportGuidByte4 := (MSETransportGuidByte G4).
Abbreviation MSETransportGuidByte5 := (MSETransportGuidByte G5).
Abbreviation MSETransportGuidByte6 := (MSETransportGuidByte G6).
Abbreviation MSETransportGuidByte7 := (MSETransportGuidByte G7).
