(* ===== verification/MovementTables.v ===== *)
(** * Movement packet layouts (src/src/serveur/jeu/Movement/MovementStructures.cpp)

    The layouts [GetMovementStatusElementsSequence] serves, element for
    element, each terminated by [MSEEnd] as in the source.  The file also has
    layouts no opcode reaches (their [case] labels are commented out); those
    are not modelled. *)

From S2P Require Import Prelude.
From S2P Require Import MovementElements.

Definition PlayerMove : list MovementStatusElements := [
  MSEHasPitch; MSEHasGuidByte2; MSEZeroBit; MSEZeroBit; MSEHasGuidByte0; MSEHasOrientation;
  MSEHasFallData; MSEOneBit; MSEHasGuidByte3; MSEHasFallDirection; MSEHasTransportData;
  MSEHasGuidByte4; MSEHasTransportGuidByte5; MSEHasTransportGuidByte4;
  MSEHasTransportGuidByte7; MSEHasTransportGuidByte2; MSEHasTransportGuidByte6;
  MSEHasTransportTime2; MSEHasTransportGuidByte3; MSEHasTransportGuidByte1;
  MSEHasTransportTime3; MSEHasTransportGuidByte0; MSEHasSplineElevation;
  MSEHasMovementFlags; MSEZeroBit; MSEMovementFlags; MSEHasMovementFlags2; MSEHasGuidByte7;
  MSEHasGuidByte1; MSEHasTimestamp; MSEMovementFlags2; MSEHasGuidByte5; MSECounterCount;
  MSEHasGuidByte6; MSEPositionY; MSETransportGuidByte7; MSETransportTime2;
  MSETransportPositionX; MSETransportGuidByte5; MSETransportSeat; MSETransportGuidByte2;
  MSETransportGuidByte0; MSETransportGuidByte3; MSETransportTime; MSETransportGuidByte4;
  MSETransportPositionZ; MSETransportGuidByte1; MSETransportPositionY;
  MSETransportOrientation; MSETransportGuidByte6; MSETransportTime3; MSEGuidByte5;
  MSEGuidByte1; MSEPositionZ; MSETimestamp; MSEOrientation; MSEGuidByte3; MSEFallSinAngle;
  MSEFallHorizontalSpeed; MSEFallCosAngle; MSEFallVerticalSpeed; MSEFallTime; MSEGuidByte0;
  MSEPitch; MSEGuidByte2; MSEGuidByte6; MSESplineElevation; MSEPositionX; MSEGuidByte4;
  MSEGuidByte7; MSEEnd
].

Definition MovementFallLand : list MovementStatusElements := [
  MSEPositionY; MSEPositionZ; MSEPositionX; MSEHasFallData; MSEZeroBit; MSEZeroBit;
  MSEHasTimestamp; MSEHasGuidByte7; MSEZeroBit; MSEHasSplineElevation; MSEHasGuidByte5;
  MSEHasPitch; MSEHasMovementFlags2; MSEHasGuidByte2; MSEHasGuidByte3; MSEHasGuidByte0;
  MSEHasOrientation; MSECounterCount; MSEHasMovementFlags; MSEHasUnkTime; MSEHasGuidByte1;
  MSEHasTransportData; MSEHasGuidByte6; MSEHasGuidByte4; MSEHasTransportGuidByte0;
  MSEHasTransportTime2; MSEHasTransportGuidByte3; MSEHasTransportGuidByte5;
  MSEHasTransportGuidByte1; MSEHasTransportGuidByte7; MSEHasTransportGuidByte4;
  MSEHasTransportGuidByte2; MSEHasTransportGuidByte6; MSEHasTransportTime3;
  MSEMovementFlags2; MSEHasFallDirection; MSEMovementFlags; MSEGuidByte4; MSEGuidByte3;
  MSEGuidByte7; MSEGuidByte0; MSEGuidByte2; MSEGuidByte5; MSEGuidByte1; MSEGuidByte6;
  MSECounter; MSEFallSinAngle; MSEFallHorizontalSpeed; MSEFallCosAngle; MSEFallTime;
  MSEFallVerticalSpeed; MSETransportGuidByte4; MSETransportPositionY;
  MSETransportOrientation; MSETransportPositionZ; MSETransportGuidByte3;
  MSETransportGuidByte6; MSETransportTime2; MSETransportGuidByte2; MSETransportGuidByte1;
  MSETransportGuidByte5; MSETransportTime3; MSETransportTime; MSETransportPositionX;
  MSETransportGuidByte7; MSETransportGuidByte0; MSEUnkTime; MSETimestamp;
  MSESplineElevation; MSEPitch; MSEOrientation; MSEEnd
].

Definition MovementHeartBeat : list MovementStatusElements := [
  MSEPositionZ; MSEPositionX; MSEPositionY; MSECounterCount; MSEHasMovementFlags;
  MSEZeroBit; MSEHasUnkTime; MSEHasGuidByte3; MSEHasGuidByte6; MSEHasPitch; MSEZeroBit;
  MSEZeroBit; MSEHasGuidByte7; MSEHasGuidByte2; MSEHasGuidByte4; MSEHasMovementFlags2;
  MSEHasOrientation; MSEHasTimestamp; MSEHasTransportData; MSEHasFallData; MSEHasGuidByte5;
  MSEHasSplineElevation; MSEHasGuidByte1; MSEHasGuidByte0; MSEHasTransportGuidByte5;
  MSEHasTransportGuidByte3; MSEHasTransportGuidByte6; MSEHasTransportGuidByte0;
  MSEHasTransportGuidByte7; MSEHasTransportTime3; MSEHasTransportGuidByte1;
  MSEHasTransportGuidByte2; MSEHasTransportGuidByte4; MSEHasTransportTime2;
  MSEMovementFlags; MSEHasFallDirection; MSEMovementFlags2; MSEGuidByte2; MSEGuidByte3;
  MSEGuidByte6; MSEGuidByte1; MSEGuidByte4; MSEGuidByte7; MSECounter; MSEGuidByte5;
  MSEGuidByte0; MSEFallSinAngle; MSEFallCosAngle; MSEFallHorizontalSpeed;
  MSEFallVerticalSpeed; MSEFallTime; MSETransportGuidByte1; MSETransportGuidByte3;
  MSETransportGuidByte2; MSETransportGuidByte0; MSETransportTime3; MSETransportGuidByte7;
  MSETransportPositionX; MSETransportGuidByte4; MSETransportTime2; MSETransportPositionY;
  MSETransportGuidByte6; MSETransportGuidByte5; MSETransportPositionZ; MSETransportTime;
  MSETransportOrientation; MSEUnkTime; MSEOrientation; MSEPitch; MSETimestamp;
  MSESplineElevation; MSEEnd
].

Definition MovementJump : list MovementStatusElements := [
  MSEPositionY; MSEPositionX; MSEPositionZ; MSEHasGuidByte1; MSEHasGuidByte7;
  MSEHasMovementFlags2; MSEHasGuidByte5; MSEHasSplineElevation; MSEHasOrientation;
  MSEHasGuidByte6; MSEHasGuidByte4; MSEZeroBit; MSEHasTransportData; MSEZeroBit;
  MSECounterCount; MSEHasPitch; MSEHasMovementFlags; MSEHasTimestamp; MSEHasUnkTime;
  MSEHasGuidByte3; MSEZeroBit; MSEHasFallData; MSEHasGuidByte2; MSEHasGuidByte0;
  MSEHasTransportGuidByte2; MSEHasTransportGuidByte3; MSEHasTransportGuidByte1;
  MSEHasTransportGuidByte4; MSEHasTransportTime2; MSEHasTransportGuidByte5;
  MSEHasTransportGuidByte6; MSEHasTransportGuidByte0; MSEHasTransportGuidByte7;
  MSEHasTransportTime3; MSEMovementFlags; MSEMovementFlags2; MSEHasFallDirection;
  MSEGuidByte7; MSEGuidByte1; MSEGuidByte0; MSECounter; MSEGuidByte2; MSEGuidByte6;
  MSEGuidByte3; MSEGuidByte4; MSEGuidByte5; MSEFallVerticalSpeed; MSEFallSinAngle;
  MSEFallCosAngle; MSEFallHorizontalSpeed; MSEFallTime; MSETransportGuidByte5;
  MSETransportGuidByte7; MSETransportGuidByte4; MSETransportGuidByte0;
  MSETransportPositionZ; MSETransportGuidByte6; MSETransportGuidByte2;
  MSETransportPositionY; MSETransportTime; MSETransportPositionX; MSETransportTime2;
  MSETransportGuidByte1; MSETransportGuidByte3; MSETransportTime3; MSETransportOrientation;
  MSESplineElevation; MSEOrientation; MSEPitch; MSEUnkTime; MSETimestamp; MSEEnd
].

Definition MovementSetFacing : list MovementStatusElements := [
  MSEPositionY; MSEPositionX; MSEPositionZ; MSEHasGuidByte5; MSEHasMovementFlags2;
  MSEHasGuidByte3; MSEHasGuidByte2; MSECounterCount; MSEZeroBit; MSEHasPitch;
  MSEHasGuidByte0; MSEHasOrientation; MSEHasTimestamp; MSEZeroBit; MSEHasUnkTime;
  MSEHasGuidByte4; MSEZeroBit; MSEHasGuidByte1; MSEHasGuidByte6; MSEHasFallData;
  MSEHasMovementFlags; MSEHasSplineElevation; MSEHasTransportData; MSEHasGuidByte7;
  MSEHasTransportGuidByte7; MSEHasTransportGuidByte0; MSEHasTransportTime2;
  MSEHasTransportGuidByte3; MSEHasTransportGuidByte6; MSEHasTransportTime3;
  MSEHasTransportGuidByte2; MSEHasTransportGuidByte5; MSEHasTransportGuidByte1;
  MSEHasTransportGuidByte4; MSEHasFallDirection; MSEMovementFlags2; MSEMovementFlags;
  MSECounter; MSEGuidByte0; MSEGuidByte6; MSEGuidByte3; MSEGuidByte1; MSEGuidByte2;
  MSEGuidByte7; MSEGuidByte4; MSEGuidByte5; MSETransportGuidByte0; MSETransportGuidByte2;
  MSETransportOrientation; MSETransportGuidByte7; MSETransportTime3; MSETransportGuidByte5;
  MSETransportTime; MSETransportPositionX; MSETransportTime2; MSETransportPositionZ;
  MSETransportPositionY; MSETransportGuidByte4; MSETransportGuidByte3;
  MSETransportGuidByte6; MSETransportGuidByte1; MSEFallTime; MSEFallVerticalSpeed;
  MSEFallHorizontalSpeed; MSEFallSinAngle; MSEFallCosAngle; MSEUnkTime; MSETimestamp;
  MSESplineElevation; MSEOrientation; MSEPitch; MSEEnd
].

Definition MovementSetPitch : list MovementStatusElements := [
  MSEPositionZ; MSEPositionX; MSEPositionY; MSEHasMovementFlags; MSEZeroBit;
  MSEHasGuidByte4; MSEHasTransportData; MSEHasGuidByte7; MSEHasTimestamp; MSEHasGuidByte0;
  MSEHasMovementFlags2; MSEHasGuidByte5; MSEHasUnkTime; MSEZeroBit; MSEHasGuidByte2;
  MSECounterCount; MSEHasOrientation; MSEHasPitch; MSEHasSplineElevation; MSEHasGuidByte6;
  MSEHasGuidByte1; MSEZeroBit; MSEHasFallData; MSEHasGuidByte3; MSEHasTransportGuidByte1;
  MSEHasTransportGuidByte3; MSEHasTransportGuidByte5; MSEHasTransportGuidByte7;
  MSEHasTransportGuidByte6; MSEHasTransportTime2; MSEHasTransportGuidByte2;
  MSEHasTransportTime3; MSEHasTransportGuidByte4; MSEHasTransportGuidByte0;
  MSEHasFallDirection; MSEMovementFlags; MSEMovementFlags2; MSEGuidByte2; MSEGuidByte4;
  MSEGuidByte5; MSEGuidByte6; MSEGuidByte0; MSECounter; MSEGuidByte3; MSEGuidByte7;
  MSEGuidByte1; MSESplineElevation; MSETransportPositionZ; MSETransportGuidByte3;
  MSETransportGuidByte2; MSETransportTime3; MSETransportGuidByte5; MSETransportTime2;
  MSETransportGuidByte6; MSETransportTime; MSETransportGuidByte4; MSETransportOrientation;
  MSETransportPositionY; MSETransportGuidByte1; MSETransportGuidByte7;
  MSETransportPositionX; MSETransportGuidByte0; MSEFallHorizontalSpeed; MSEFallSinAngle;
  MSEFallCosAngle; MSEFallTime; MSEFallVerticalSpeed; MSEUnkTime; MSETimestamp;
  MSEOrientation; MSEPitch; MSEEnd
].

Definition MovementStartBackward : list MovementStatusElements := [
  MSEPositionY; MSEPositionZ; MSEPositionX; MSEHasTimestamp; MSEHasOrientation;
  MSEHasGuidByte7; MSEHasGuidByte2; MSECounterCount; MSEHasFallData; MSEZeroBit;
  MSEHasGuidByte5; MSEHasGuidByte3; MSEHasGuidByte6; MSEHasSplineElevation;
  MSEHasGuidByte4; MSEHasTransportData; MSEHasGuidByte0; MSEHasMovementFlags; MSEHasPitch;
  MSEHasUnkTime; MSEHasMovementFlags2; MSEZeroBit; MSEHasGuidByte1; MSEZeroBit;
  MSEHasTransportGuidByte1; MSEHasTransportTime2; MSEHasTransportGuidByte0;
  MSEHasTransportGuidByte7; MSEHasTransportTime3; MSEHasTransportGuidByte3;
  MSEHasTransportGuidByte5; MSEHasTransportGuidByte6; MSEHasTransportGuidByte2;
  MSEHasTransportGuidByte4; MSEMovementFlags2; MSEMovementFlags; MSEHasFallDirection;
  MSECounter; MSEGuidByte1; MSEGuidByte3; MSEGuidByte5; MSEGuidByte2; MSEGuidByte0;
  MSEGuidByte4; MSEGuidByte7; MSEGuidByte6; MSEUnkTime; MSETransportTime;
  MSETransportGuidByte4; MSETransportGuidByte1; MSETransportGuidByte5;
  MSETransportGuidByte3; MSETransportGuidByte6; MSETransportOrientation;
  MSETransportPositionX; MSETransportGuidByte0; MSETransportPositionY; MSETransportTime3;
  MSETransportGuidByte7; MSETransportTime2; MSETransportPositionZ; MSETransportGuidByte2;
  MSEOrientation; MSEFallTime; MSEFallSinAngle; MSEFallCosAngle; MSEFallHorizontalSpeed;
  MSEFallVerticalSpeed; MSEPitch; MSETimestamp; MSESplineElevation; MSEEnd
].

Definition MovementStartForward : list MovementStatusElements := [
  MSEPositionZ; MSEPositionX; MSEPositionY; MSEHasMovementFlags2; MSEZeroBit;
  MSEHasUnkTime; MSEZeroBit; MSEHasGuidByte0; MSEHasOrientation; MSEHasFallData;
  MSECounterCount; MSEHasGuidByte4; MSEHasGuidByte1; MSEHasTimestamp; MSEHasGuidByte7;
  MSEHasPitch; MSEHasTransportData; MSEHasGuidByte5; MSEHasMovementFlags; MSEHasGuidByte3;
  MSEHasSplineElevation; MSEHasGuidByte2; MSEHasGuidByte6; MSEZeroBit;
  MSEHasTransportGuidByte1; MSEHasTransportTime3; MSEHasTransportGuidByte3;
  MSEHasTransportGuidByte4; MSEHasTransportGuidByte2; MSEHasTransportGuidByte5;
  MSEHasTransportGuidByte0; MSEHasTransportGuidByte7; MSEHasTransportGuidByte6;
  MSEHasTransportTime2; MSEHasFallDirection; MSEMovementFlags2; MSEMovementFlags;
  MSEGuidByte1; MSEGuidByte6; MSEGuidByte7; MSECounter; MSEGuidByte5; MSEGuidByte0;
  MSEGuidByte3; MSEGuidByte2; MSEGuidByte4; MSETransportGuidByte3; MSETransportGuidByte1;
  MSETransportGuidByte6; MSETransportPositionZ; MSETransportGuidByte4; MSETransportTime3;
  MSETransportGuidByte7; MSETransportOrientation; MSETransportTime2; MSETransportGuidByte5;
  MSETransportGuidByte2; MSETransportPositionX; MSETransportGuidByte0;
  MSETransportPositionY; MSETransportTime; MSEFallCosAngle; MSEFallSinAngle;
  MSEFallHorizontalSpeed; MSEFallTime; MSEFallVerticalSpeed; MSETimestamp; MSEPitch;
  MSESplineElevation; MSEOrientation; MSEUnkTime; MSEEnd
].

Definition MovementStartStrafeLeft : list MovementStatusElements := [
  MSEPositionY; MSEPositionZ; MSEPositionX; MSEHasGuidByte0; MSEHasTimestamp;
  MSEHasGuidByte3; MSEHasMovementFlags2; MSEHasPitch; MSEZeroBit; MSEHasGuidByte2;
  MSEZeroBit; MSEHasTransportData; MSEHasFallData; MSEHasGuidByte5; MSECounterCount;
  MSEZeroBit; MSEHasGuidByte4; MSEHasOrientation; MSEHasSplineElevation; MSEHasGuidByte7;
  MSEHasUnkTime; MSEHasGuidByte1; MSEHasGuidByte6; MSEHasMovementFlags;
  MSEHasTransportGuidByte0; MSEHasTransportGuidByte2; MSEHasTransportGuidByte1;
  MSEHasTransportGuidByte6; MSEHasTransportGuidByte7; MSEHasTransportGuidByte3;
  MSEHasTransportGuidByte5; MSEHasTransportTime3; MSEHasTransportTime2;
  MSEHasTransportGuidByte4; MSEMovementFlags; MSEHasFallDirection; MSEMovementFlags2;
  MSEGuidByte0; MSEGuidByte2; MSECounter; MSEGuidByte3; MSEGuidByte5; MSEGuidByte1;
  MSEGuidByte7; MSEGuidByte4; MSEGuidByte6; MSETransportGuidByte2; MSETransportPositionZ;
  MSETransportTime3; MSETransportGuidByte6; MSETransportGuidByte3; MSETransportOrientation;
  MSETransportGuidByte5; MSETransportTime2; MSETransportGuidByte1; MSETransportPositionY;
  MSETransportGuidByte4; MSETransportTime; MSETransportPositionX; MSETransportGuidByte0;
  MSETransportGuidByte7; MSEPitch; MSETimestamp; MSEFallTime; MSEFallCosAngle;
  MSEFallHorizontalSpeed; MSEFallSinAngle; MSEFallVerticalSpeed; MSEUnkTime;
  MSESplineElevation; MSEOrientation; MSEEnd
].

Definition MovementStartStrafeRight : list MovementStatusElements := [
  MSEPositionY; MSEPositionX; MSEPositionZ; MSEHasGuidByte0; MSEHasFallData;
  MSECounterCount; MSEHasGuidByte7; MSEHasGuidByte6; MSEHasGuidByte4; MSEHasMovementFlags;
  MSEHasGuidByte5; MSEHasSplineElevation; MSEHasGuidByte3; MSEZeroBit; MSEHasTransportData;
  MSEHasUnkTime; MSEHasGuidByte1; MSEZeroBit; MSEHasGuidByte2; MSEHasPitch;
  MSEHasMovementFlags2; MSEHasOrientation; MSEZeroBit; MSEHasTimestamp;
  MSEHasFallDirection; MSEHasTransportGuidByte1; MSEHasTransportGuidByte6;
  MSEHasTransportGuidByte3; MSEHasTransportGuidByte5; MSEHasTransportGuidByte2;
  MSEHasTransportGuidByte0; MSEHasTransportGuidByte4; MSEHasTransportTime3;
  MSEHasTransportGuidByte7; MSEHasTransportTime2; MSEMovementFlags; MSEMovementFlags2;
  MSEGuidByte6; MSEGuidByte7; MSEGuidByte0; MSEGuidByte4; MSEGuidByte1; MSECounter;
  MSEGuidByte2; MSEGuidByte3; MSEGuidByte5; MSEPitch; MSETransportGuidByte1;
  MSETransportGuidByte3; MSETransportTime2; MSETransportGuidByte7; MSETransportTime3;
  MSETransportGuidByte5; MSETransportGuidByte6; MSETransportGuidByte2;
  MSETransportGuidByte0; MSETransportTime; MSETransportOrientation; MSETransportPositionY;
  MSETransportPositionZ; MSETransportGuidByte4; MSETransportPositionX; MSETimestamp;
  MSEFallVerticalSpeed; MSEFallCosAngle; MSEFallHorizontalSpeed; MSEFallSinAngle;
  MSEFallTime; MSEOrientation; MSEUnkTime; MSESplineElevation; MSEEnd
].

Definition MovementStartTurnLeft : list MovementStatusElements := [
  MSEPositionZ; MSEPositionX; MSEPositionY; MSEHasOrientation; MSEHasGuidByte4;
  MSEHasGuidByte5; MSEZeroBit; MSEHasTimestamp; MSEZeroBit; MSEZeroBit; MSEHasUnkTime;
  MSEHasGuidByte3; MSEHasGuidByte1; MSEHasMovementFlags2; MSEHasMovementFlags;
  MSEHasGuidByte0; MSEHasGuidByte2; MSECounterCount; MSEHasTransportData; MSEHasGuidByte7;
  MSEHasPitch; MSEHasSplineElevation; MSEHasFallData; MSEHasGuidByte6;
  MSEHasTransportTime3; MSEHasTransportGuidByte5; MSEHasTransportGuidByte6;
  MSEHasTransportGuidByte2; MSEHasTransportGuidByte3; MSEHasTransportGuidByte4;
  MSEHasTransportGuidByte7; MSEHasTransportTime2; MSEHasTransportGuidByte0;
  MSEHasTransportGuidByte1; MSEMovementFlags; MSEMovementFlags2; MSEHasFallDirection;
  MSEGuidByte7; MSEGuidByte3; MSEGuidByte6; MSEGuidByte4; MSEGuidByte1; MSECounter;
  MSEGuidByte5; MSEGuidByte0; MSEGuidByte2; MSEFallTime; MSEFallHorizontalSpeed;
  MSEFallCosAngle; MSEFallSinAngle; MSEFallVerticalSpeed; MSEPitch; MSETransportPositionY;
  MSETransportGuidByte3; MSETransportPositionX; MSETransportOrientation;
  MSETransportGuidByte5; MSETransportTime2; MSETransportPositionZ; MSETransportGuidByte2;
  MSETransportGuidByte1; MSETransportGuidByte7; MSETransportGuidByte4;
  MSETransportGuidByte0; MSETransportTime3; MSETransportGuidByte6; MSETransportTime;
  MSEOrientation; MSESplineElevation; MSEUnkTime; MSETimestamp; MSEEnd
].

Definition MovementStartTurnRight : list MovementStatusElements := [
  MSEPositionX; MSEPositionZ; MSEPositionY; MSEZeroBit; MSEZeroBit; MSEHasGuidByte1;
  MSEHasGuidByte0; MSEHasMovementFlags; MSEHasFallData; MSEHasPitch; MSEHasUnkTime;
  MSECounterCount; MSEHasSplineElevation; MSEHasMovementFlags2; MSEHasOrientation;
  MSEHasGuidByte2; MSEHasTimestamp; MSEHasGuidByte4; MSEHasGuidByte6; MSEHasGuidByte5;
  MSEHasGuidByte3; MSEZeroBit; MSEHasTransportData; MSEHasGuidByte7;
  MSEHasTransportGuidByte2; MSEHasTransportTime2; MSEHasTransportGuidByte6;
  MSEHasTransportGuidByte5; MSEHasTransportGuidByte3; MSEHasTransportGuidByte7;
  MSEHasTransportGuidByte4; MSEHasTransportTime3; MSEHasTransportGuidByte0;
  MSEHasTransportGuidByte1; MSEMovementFlags; MSEMovementFlags2; MSEHasFallDirection;
  MSEGuidByte5; MSEGuidByte1; MSEGuidByte3; MSEGuidByte0; MSEGuidByte4; MSEGuidByte2;
  MSEGuidByte6; MSECounter; MSEGuidByte7; MSEFallSinAngle; MSEFallHorizontalSpeed;
  MSEFallCosAngle; MSEFallVerticalSpeed; MSEFallTime; MSEPitch; MSETransportTime3;
  MSETransportGuidByte3; MSETransportTime2; MSETransportGuidByte7; MSETransportGuidByte1;
  MSETransportPositionX; MSETransportGuidByte5; MSETransportGuidByte4;
  MSETransportGuidByte2; MSETransportGuidByte0; MSETransportPositionZ; MSETransportTime;
  MSETransportPositionY; MSETransportGuidByte6; MSETransportOrientation; MSEOrientation;
  MSETimestamp; MSESplineElevation; MSEUnkTime; MSEEnd
].

Definition MovementStop : list MovementStatusElements := [
  MSEPositionX; MSEPositionY; MSEPositionZ; MSEHasGuidByte5; MSEHasGuidByte2;
  MSEHasFallData; MSEHasGuidByte0; MSEZeroBit; MSEZeroBit; MSEHasUnkTime; MSEHasGuidByte1;
  MSECounterCount; MSEHasPitch; MSEHasGuidByte3; MSEHasGuidByte4; MSEHasTransportData;
  MSEZeroBit; MSEHasGuidByte6; MSEHasMovementFlags; MSEHasTimestamp; MSEHasMovementFlags2;
  MSEHasOrientation; MSEHasSplineElevation; MSEHasGuidByte7; MSEHasTransportTime2;
  MSEHasTransportGuidByte7; MSEHasTransportGuidByte4; MSEHasTransportGuidByte1;
  MSEHasTransportGuidByte0; MSEHasTransportGuidByte5; MSEHasTransportGuidByte2;
  MSEHasTransportGuidByte3; MSEHasTransportTime3; MSEHasTransportGuidByte6;
  MSEHasFallDirection; MSEMovementFlags2; MSEMovementFlags; MSEGuidByte0; MSEGuidByte3;
  MSECounter; MSEGuidByte6; MSEGuidByte1; MSEGuidByte4; MSEGuidByte2; MSEGuidByte5;
  MSEGuidByte7; MSEOrientation; MSEFallVerticalSpeed; MSEFallHorizontalSpeed;
  MSEFallSinAngle; MSEFallCosAngle; MSEFallTime; MSESplineElevation; MSETransportPositionX;
  MSETransportTime; MSETransportGuidByte3; MSETransportOrientation; MSETransportPositionY;
  MSETransportGuidByte2; MSETransportGuidByte6; MSETransportGuidByte7;
  MSETransportGuidByte1; MSETransportGuidByte4; MSETransportTime3; MSETransportGuidByte0;
  MSETransportPositionZ; MSETransportGuidByte5; MSETransportTime2; MSEUnkTime; MSEPitch;
  MSETimestamp; MSEEnd
].

Definition MovementStopStrafe : list MovementStatusElements := [
  MSEPositionZ; MSEPositionX; MSEPositionY; MSEHasFallData; MSEHasOrientation;
  MSEHasSplineElevation; MSEHasTimestamp; MSEHasMovementFlags; MSEHasUnkTime;
  MSEHasGuidByte6; MSEHasTransportData; MSEZeroBit; MSEHasMovementFlags2; MSEHasGuidByte4;
  MSEHasPitch; MSEHasGuidByte5; MSEHasGuidByte3; MSEHasGuidByte2; MSECounterCount;
  MSEZeroBit; MSEHasGuidByte7; MSEHasGuidByte0; MSEZeroBit; MSEHasGuidByte1;
  MSEHasTransportGuidByte7; MSEHasTransportTime3; MSEHasTransportGuidByte3;
  MSEHasTransportGuidByte1; MSEHasTransportGuidByte6; MSEHasTransportTime2;
  MSEHasTransportGuidByte2; MSEHasTransportGuidByte5; MSEHasTransportGuidByte4;
  MSEHasTransportGuidByte0; MSEMovementFlags2; MSEHasFallDirection; MSEMovementFlags;
  MSEGuidByte5; MSEGuidByte3; MSECounter; MSEGuidByte2; MSEGuidByte0; MSEGuidByte1;
  MSEGuidByte6; MSEGuidByte4; MSEGuidByte7; MSETransportGuidByte0; MSETransportTime3;
  MSETransportGuidByte1; MSETransportGuidByte6; MSETransportTime; MSETransportPositionY;
  MSETransportPositionZ; MSETransportGuidByte4; MSETransportTime2; MSETransportGuidByte3;
  MSETransportPositionX; MSETransportGuidByte2; MSETransportGuidByte7;
  MSETransportGuidByte5; MSETransportOrientation; MSEOrientation; MSESplineElevation;
  MSETimestamp; MSEFallCosAngle; MSEFallSinAngle; MSEFallHorizontalSpeed; MSEFallTime;
  MSEFallVerticalSpeed; MSEPitch; MSEUnkTime; MSEEnd
].

Definition MovementStopTurn : list MovementStatusElements := [
  MSEPositionX; MSEPositionZ; MSEPositionY; MSEHasTransportData; MSECounterCount;
  MSEZeroBit; MSEHasGuidByte4; MSEHasGuidByte5; MSEHasUnkTime; MSEHasGuidByte3; MSEZeroBit;
  MSEHasFallData; MSEHasGuidByte0; MSEHasGuidByte1; MSEHasPitch; MSEHasGuidByte6;
  MSEHasMovementFlags; MSEHasGuidByte2; MSEZeroBit; MSEHasMovementFlags2;
  MSEHasSplineElevation; MSEHasOrientation; MSEHasGuidByte7; MSEHasTimestamp;
  MSEMovementFlags2; MSEHasTransportGuidByte1; MSEHasTransportTime3; MSEHasTransportTime2;
  MSEHasTransportGuidByte3; MSEHasTransportGuidByte6; MSEHasTransportGuidByte2;
  MSEHasTransportGuidByte0; MSEHasTransportGuidByte5; MSEHasTransportGuidByte7;
  MSEHasTransportGuidByte4; MSEMovementFlags; MSEHasFallDirection; MSEGuidByte2;
  MSEGuidByte3; MSEGuidByte6; MSECounter; MSEGuidByte0; MSEGuidByte5; MSEGuidByte4;
  MSEGuidByte7; MSEGuidByte1; MSETransportTime; MSETransportTime3; MSETransportPositionY;
  MSETransportPositionX; MSETransportTime2; MSETransportGuidByte4; MSETransportGuidByte3;
  MSETransportOrientation; MSETransportGuidByte0; MSETransportPositionZ;
  MSETransportGuidByte6; MSETransportGuidByte7; MSETransportGuidByte5;
  MSETransportGuidByte1; MSETransportGuidByte2; MSEOrientation; MSETimestamp;
  MSEFallSinAngle; MSEFallCosAngle; MSEFallHorizontalSpeed; MSEFallVerticalSpeed;
  MSEFallTime; MSEUnkTime; MSESplineElevation; MSEPitch; MSEEnd
].

Definition MovementStartAscend : list MovementStatusElements := [
  MSEPositionY; MSEPositionX; MSEPositionZ; MSEHasOrientation; MSEHasGuidByte3;
  MSEHasTransportData; MSEHasMovementFlags; MSEZeroBit; MSEHasGuidByte0; MSEHasGuidByte4;
  MSEHasTimestamp; MSEHasGuidByte7; MSEZeroBit; MSEHasPitch; MSEHasGuidByte5;
  MSEHasMovementFlags2; MSEZeroBit; MSEHasGuidByte6; MSEHasGuidByte2; MSEHasUnkTime;
  MSECounterCount; MSEHasGuidByte1; MSEHasSplineElevation; MSEHasFallData;
  MSEHasTransportGuidByte4; MSEHasTransportGuidByte0; MSEHasTransportGuidByte3;
  MSEHasTransportGuidByte5; MSEHasTransportTime2; MSEHasTransportGuidByte1;
  MSEHasTransportTime3; MSEHasTransportGuidByte6; MSEHasTransportGuidByte2;
  MSEHasTransportGuidByte7; MSEHasFallDirection; MSEMovementFlags2; MSEMovementFlags;
  MSEGuidByte2; MSEGuidByte5; MSECounter; MSEGuidByte1; MSEGuidByte0; MSEGuidByte4;
  MSEGuidByte7; MSEGuidByte6; MSEGuidByte3; MSEOrientation; MSETimestamp;
  MSETransportGuidByte3; MSETransportTime; MSETransportPositionY; MSETransportOrientation;
  MSETransportGuidByte6; MSETransportTime3; MSETransportPositionX; MSETransportGuidByte2;
  MSETransportTime2; MSETransportGuidByte1; MSETransportGuidByte7; MSETransportPositionZ;
  MSETransportSeat; MSETransportGuidByte0; MSETransportGuidByte4; MSETransportGuidByte5;
  MSESplineElevation; MSEFallVerticalSpeed; MSEFallSinAngle; MSEFallCosAngle;
  MSEFallHorizontalSpeed; MSEFallTime; MSEPitch; MSEUnkTime; MSEEnd
].

Definition MovementStartDescend : list MovementStatusElements := [
  MSEPositionX; MSEPositionY; MSEPositionZ; MSEHasFallData; MSEHasMovementFlags;
  MSEHasGuidByte7; MSEHasGuidByte0; MSEHasGuidByte4; MSEHasMovementFlags2; MSEHasPitch;
  MSEHasGuidByte6; MSEHasGuidByte2; MSEZeroBit; MSEHasUnkTime; MSECounterCount;
  MSEHasTransportData; MSEHasOrientation; MSEHasGuidByte1; MSEZeroBit; MSEZeroBit;
  MSEHasGuidByte3; MSEHasGuidByte5; MSEHasSplineElevation; MSEHasTimestamp;
  MSEHasTransportGuidByte0; MSEHasTransportTime3; MSEHasTransportGuidByte7;
  MSEHasTransportTime2; MSEHasTransportGuidByte1; MSEHasTransportGuidByte4;
  MSEHasTransportGuidByte5; MSEHasTransportGuidByte3; MSEHasTransportGuidByte6;
  MSEHasTransportGuidByte2; MSEMovementFlags2; MSEMovementFlags; MSEHasFallDirection;
  MSEGuidByte4; MSEGuidByte7; MSEGuidByte1; MSEGuidByte3; MSECounter; MSEGuidByte2;
  MSEGuidByte6; MSEGuidByte0; MSEGuidByte5; MSETransportPositionX; MSETransportGuidByte0;
  MSETransportGuidByte3; MSETransportGuidByte7; MSETransportGuidByte5;
  MSETransportGuidByte1; MSETransportPositionY; MSETransportTime3; MSETransportTime;
  MSETransportGuidByte4; MSETransportTime2; MSETransportOrientation; MSETransportPositionZ;
  MSETransportGuidByte2; MSETransportGuidByte6; MSEFallTime; MSEFallCosAngle;
  MSEFallHorizontalSpeed; MSEFallSinAngle; MSEFallVerticalSpeed; MSEPitch; MSEUnkTime;
  MSESplineElevation; MSEOrientation; MSETimestamp; MSEEnd
].

Definition MovementStartSwim : list MovementStatusElements := [
  MSEPositionX; MSEPositionY; MSEPositionZ; MSEHasSplineElevation; MSEHasTransportData;
  MSEHasGuidByte2; MSEZeroBit; MSEHasMovementFlags2; MSECounterCount; MSEHasPitch;
  MSEHasTimestamp; MSEHasGuidByte3; MSEZeroBit; MSEHasGuidByte6; MSEHasGuidByte1;
  MSEHasFallData; MSEHasUnkTime; MSEZeroBit; MSEHasGuidByte7; MSEHasGuidByte0;
  MSEHasOrientation; MSEHasGuidByte5; MSEHasMovementFlags; MSEHasGuidByte4;
  MSEHasTransportTime2; MSEHasTransportGuidByte2; MSEHasTransportGuidByte7;
  MSEHasTransportGuidByte6; MSEHasTransportGuidByte5; MSEHasTransportGuidByte1;
  MSEHasTransportGuidByte4; MSEHasTransportTime3; MSEHasTransportGuidByte0;
  MSEHasTransportGuidByte3; MSEMovementFlags; MSEHasFallDirection; MSEMovementFlags2;
  MSEGuidByte5; MSEGuidByte0; MSECounter; MSEGuidByte7; MSEGuidByte3; MSEGuidByte4;
  MSEGuidByte1; MSEGuidByte6; MSEGuidByte2; MSETransportGuidByte3; MSETransportPositionX;
  MSETransportGuidByte7; MSETransportGuidByte0; MSETransportPositionY; MSETransportTime2;
  MSETransportGuidByte6; MSETransportGuidByte4; MSETransportGuidByte1;
  MSETransportGuidByte2; MSETransportPositionZ; MSETransportTime; MSETransportOrientation;
  MSETransportTime3; MSETransportGuidByte5; MSEFallCosAngle; MSEFallSinAngle;
  MSEFallHorizontalSpeed; MSEFallTime; MSEFallVerticalSpeed; MSETimestamp;
  MSESplineElevation; MSEOrientation; MSEUnkTime; MSEPitch; MSEEnd
].

Definition MovementStopSwim : list MovementStatusElements := [
  MSEPositionX; MSEPositionZ; MSEPositionY; MSEHasPitch; MSEHasGuidByte6;
  MSEHasOrientation; MSEZeroBit; MSEZeroBit; MSEZeroBit; MSEHasUnkTime; MSEHasGuidByte4;
  MSEHasMovementFlags2; MSEHasTransportData; MSEHasFallData; MSEHasGuidByte1;
  MSECounterCount; MSEHasMovementFlags; MSEHasGuidByte7; MSEHasGuidByte0; MSEHasTimestamp;
  MSEHasGuidByte3; MSEHasGuidByte5; MSEHasSplineElevation; MSEHasGuidByte2;
  MSEHasTransportGuidByte1; MSEHasTransportTime2; MSEHasTransportGuidByte5;
  MSEHasTransportGuidByte2; MSEHasTransportGuidByte4; MSEHasTransportGuidByte6;
  MSEHasTransportGuidByte7; MSEHasTransportGuidByte3; MSEHasTransportTime3;
  MSEHasTransportGuidByte0; MSEHasFallDirection; MSEMovementFlags; MSEMovementFlags2;
  MSEGuidByte7; MSEGuidByte6; MSEGuidByte1; MSEGuidByte5; MSEGuidByte4; MSEGuidByte3;
  MSECounter; MSEGuidByte0; MSEGuidByte2; MSETransportTime; MSETransportGuidByte1;
  MSETransportGuidByte2; MSETransportPositionZ; MSETransportPositionX;
  MSETransportPositionY; MSETransportGuidByte0; MSETransportGuidByte6;
  MSETransportGuidByte3; MSETransportOrientation; MSETransportGuidByte7;
  MSETransportGuidByte4; MSETransportGuidByte5; MSETransportTime2; MSETransportTime3;
  MSEFallCosAngle; MSEFallHorizontalSpeed; MSEFallSinAngle; MSEFallVerticalSpeed;
  MSEFallTime; MSESplineElevation; MSEPitch; MSETimestamp; MSEUnkTime; MSEOrientation;
  MSEEnd
].

Definition MovementStopAscend : list MovementStatusElements := [
  MSEPositionZ; MSEPositionX; MSEPositionY; MSEHasOrientation; MSEHasGuidByte0;
  MSEHasGuidByte3; MSEHasGuidByte7; MSEHasGuidByte2; MSEHasGuidByte6; MSEHasMovementFlags2;
  MSEHasTimestamp; MSEHasUnkTime; MSEHasTransportData; MSEHasPitch; MSEZeroBit; MSEZeroBit;
  MSEHasGuidByte4; MSEZeroBit; MSEHasGuidByte5; MSECounterCount; MSEHasFallData;
  MSEHasMovementFlags; MSEHasGuidByte1; MSEHasSplineElevation; MSEHasTransportTime2;
  MSEHasTransportGuidByte0; MSEHasTransportGuidByte5; MSEHasTransportGuidByte4;
  MSEHasTransportGuidByte6; MSEHasTransportGuidByte2; MSEHasTransportGuidByte1;
  MSEHasTransportTime3; MSEHasTransportGuidByte3; MSEHasTransportGuidByte7;
  MSEMovementFlags2; MSEMovementFlags; MSEHasFallDirection; MSEGuidByte0; MSECounter;
  MSEGuidByte4; MSEGuidByte5; MSEGuidByte1; MSEGuidByte7; MSEGuidByte6; MSEGuidByte3;
  MSEGuidByte2; MSETransportGuidByte5; MSETransportPositionY; MSETransportGuidByte4;
  MSETransportGuidByte7; MSETransportGuidByte1; MSETransportGuidByte3; MSETransportTime2;
  MSETransportPositionX; MSETransportOrientation; MSETransportGuidByte0;
  MSETransportGuidByte2; MSETransportPositionZ; MSETransportTime3; MSETransportTime;
  MSETransportGuidByte6; MSEFallCosAngle; MSEFallHorizontalSpeed; MSEFallSinAngle;
  MSEFallTime; MSEFallVerticalSpeed; MSETimestamp; MSESplineElevation; MSEPitch;
  MSEUnkTime; MSEOrientation; MSEEnd
].

Definition MovementStopPitch : list MovementStatusElements := [
  MSEPositionY; MSEPositionX; MSEPositionZ; MSEHasFallData; MSEHasSplineElevation;
  MSEHasGuidByte0; MSEHasTimestamp; MSEZeroBit; MSEHasGuidByte2; MSECounterCount;
  MSEHasOrientation; MSEHasMovementFlags; MSEHasPitch; MSEHasGuidByte3; MSEHasGuidByte7;
  MSEHasGuidByte5; MSEHasMovementFlags2; MSEZeroBit; MSEHasUnkTime; MSEHasTransportData;
  MSEHasGuidByte6; MSEHasGuidByte4; MSEZeroBit; MSEHasGuidByte1; MSEHasTransportGuidByte4;
  MSEHasTransportGuidByte5; MSEHasTransportTime3; MSEHasTransportGuidByte6;
  MSEHasTransportGuidByte3; MSEHasTransportGuidByte0; MSEHasTransportGuidByte7;
  MSEHasTransportGuidByte1; MSEHasTransportTime2; MSEHasTransportGuidByte2;
  MSEMovementFlags2; MSEMovementFlags; MSEHasFallDirection; MSEGuidByte0; MSEGuidByte6;
  MSEGuidByte7; MSEGuidByte1; MSECounter; MSEGuidByte5; MSEGuidByte3; MSEGuidByte4;
  MSEGuidByte2; MSEFallSinAngle; MSEFallHorizontalSpeed; MSEFallCosAngle; MSEFallTime;
  MSEFallVerticalSpeed; MSETransportGuidByte1; MSETransportPositionX;
  MSETransportPositionZ; MSETransportPositionY; MSETransportGuidByte5;
  MSETransportGuidByte0; MSETransportTime2; MSETransportGuidByte6; MSETransportGuidByte2;
  MSETransportGuidByte3; MSETransportTime3; MSETransportTime; MSETransportGuidByte4;
  MSETransportGuidByte7; MSETransportOrientation; MSEPitch; MSETimestamp;
  MSESplineElevation; MSEOrientation; MSEUnkTime; MSEEnd
].

Definition MovementStartPitchDown : list MovementStatusElements := [
  MSEPositionZ; MSEPositionY; MSEPositionX; MSEHasGuidByte2; MSEHasGuidByte7;
  MSEHasGuidByte3; MSEHasOrientation; MSEHasGuidByte5; MSEZeroBit; MSEHasUnkTime;
  MSEZeroBit; MSEHasMovementFlags; MSEHasGuidByte4; MSEHasGuidByte1; MSEHasSplineElevation;
  MSEHasFallData; MSEZeroBit; MSEHasTransportData; MSEHasTimestamp; MSEHasMovementFlags2;
  MSECounterCount; MSEHasGuidByte6; MSEHasGuidByte0; MSEHasPitch; MSEHasTransportTime2;
  MSEHasTransportGuidByte2; MSEHasTransportGuidByte6; MSEHasTransportGuidByte3;
  MSEHasTransportGuidByte7; MSEHasTransportGuidByte5; MSEHasTransportGuidByte4;
  MSEHasTransportTime3; MSEHasTransportGuidByte1; MSEHasTransportGuidByte0;
  MSEMovementFlags; MSEMovementFlags2; MSEHasFallDirection; MSEGuidByte6; MSEGuidByte3;
  MSEGuidByte5; MSEGuidByte0; MSEGuidByte4; MSECounter; MSEGuidByte7; MSEGuidByte2;
  MSEGuidByte1; MSEFallHorizontalSpeed; MSEFallCosAngle; MSEFallSinAngle; MSEFallTime;
  MSEFallVerticalSpeed; MSETransportOrientation; MSETransportGuidByte4;
  MSETransportGuidByte7; MSETransportPositionZ; MSETransportGuidByte0; MSETransportTime;
  MSETransportGuidByte6; MSETransportGuidByte1; MSETransportGuidByte2;
  MSETransportGuidByte5; MSETransportPositionX; MSETransportTime3; MSETransportPositionY;
  MSETransportGuidByte3; MSETransportTime2; MSEOrientation; MSETimestamp;
  MSESplineElevation; MSEUnkTime; MSEPitch; MSEEnd
].

Definition MovementStartPitchUp : list MovementStatusElements := [
  MSEPositionY; MSEPositionZ; MSEPositionX; MSEHasGuidByte0; MSEHasPitch; MSEHasGuidByte3;
  MSEZeroBit; MSEHasOrientation; MSEHasGuidByte5; MSEZeroBit; MSEHasGuidByte2;
  MSEHasGuidByte7; MSEHasGuidByte1; MSEHasFallData; MSEHasMovementFlags2;
  MSEHasTransportData; MSEHasUnkTime; MSEHasMovementFlags; MSEHasGuidByte6;
  MSECounterCount; MSEHasTimestamp; MSEHasGuidByte4; MSEZeroBit; MSEHasSplineElevation;
  MSEHasTransportGuidByte5; MSEHasTransportGuidByte1; MSEHasTransportTime2;
  MSEHasTransportGuidByte4; MSEHasTransportGuidByte2; MSEHasTransportGuidByte6;
  MSEHasTransportGuidByte0; MSEHasTransportTime3; MSEHasTransportGuidByte7;
  MSEHasTransportGuidByte3; MSEMovementFlags2; MSEMovementFlags; MSEHasFallDirection;
  MSEGuidByte6; MSECounter; MSEGuidByte0; MSEGuidByte5; MSEGuidByte7; MSEGuidByte1;
  MSEGuidByte3; MSEGuidByte4; MSEGuidByte2; MSETransportGuidByte3; MSETransportTime3;
  MSETransportGuidByte2; MSETransportGuidByte7; MSETransportGuidByte0;
  MSETransportPositionY; MSETransportGuidByte4; MSETransportGuidByte5; MSETransportTime2;
  MSETransportGuidByte1; MSETransportPositionX; MSETransportOrientation;
  MSETransportGuidByte6; MSETransportTime; MSETransportPositionZ; MSEPitch; MSEOrientation;
  MSESplineElevation; MSEFallVerticalSpeed; MSEFallHorizontalSpeed; MSEFallSinAngle;
  MSEFallCosAngle; MSEFallTime; MSEUnkTime; MSETimestamp; MSEEnd
].

Definition MoveSetRunSpeed : list MovementStatusElements := [
  MSEHasGuidByte1; MSEHasGuidByte7; MSEHasGuidByte4; MSEHasGuidByte2; MSEHasGuidByte5;
  MSEHasGuidByte3; MSEHasGuidByte6; MSEHasGuidByte0; MSEGuidByte1; MSECounter;
  MSEGuidByte7; MSEGuidByte3; MSEGuidByte0; MSEExtraElement; MSEGuidByte2; MSEGuidByte4;
  MSEGuidByte6; MSEGuidByte5; MSEEnd
].

Definition MoveSetFlightSpeed : list MovementStatusElements := [
  MSEExtraElement; MSEUintCount; MSEHasGuidByte6; MSEHasGuidByte5; MSEHasGuidByte0;
  MSEHasGuidByte4; MSEHasGuidByte1; MSEHasGuidByte7; MSEHasGuidByte3; MSEHasGuidByte2;
  MSEGuidByte0; MSEGuidByte7; MSEGuidByte4; MSEGuidByte5; MSEGuidByte6; MSEGuidByte2;
  MSEGuidByte3; MSEGuidByte1; MSEEnd
].

Definition MoveSetCanFly : list MovementStatusElements := [
  MSEHasGuidByte6; MSEHasGuidByte1; MSEHasGuidByte4; MSEHasGuidByte0; MSEHasGuidByte3;
  MSEHasGuidByte7; MSEHasGuidByte5; MSEHasGuidByte2; MSEGuidByte4; MSEGuidByte2;
  MSEUintCount; MSEGuidByte6; MSEGuidByte3; MSEGuidByte1; MSEGuidByte0; MSEGuidByte7;
  MSEGuidByte5; MSEEnd
].

Definition MoveUnsetCanFly : list MovementStatusElements := [
  MSEHasGuidByte6; MSEHasGuidByte5; MSEHasGuidByte0; MSEHasGuidByte4; MSEHasGuidByte3;
  MSEHasGuidByte7; MSEHasGuidByte2; MSEHasGuidByte1; MSEGuidByte4; MSEGuidByte5;
  MSEGuidByte7; MSECounter; MSEGuidByte6; MSEGuidByte2; MSEGuidByte3; MSEGuidByte1;
  MSEGuidByte0; MSEEnd
].

Definition MoveRoot : list MovementStatusElements := [
  MSEHasGuidByte0; MSEHasGuidByte3; MSEHasGuidByte4; MSEHasGuidByte1; MSEHasGuidByte5;
  MSEHasGuidByte2; MSEHasGuidByte6; MSEHasGuidByte7; MSEGuidByte4; MSEGuidByte7;
  MSEGuidByte1; MSEGuidByte2; MSEGuidByte6; MSEGuidByte5; MSECounter; MSEGuidByte0;
  MSEGuidByte3; MSEEnd
].

Definition MoveUnroot : list MovementStatusElements := [
  MSEHasGuidByte3; MSEHasGuidByte5; MSEHasGuidByte7; MSEHasGuidByte1; MSEHasGuidByte0;
  MSEHasGuidByte2; MSEHasGuidByte4; MSEHasGuidByte6; MSEGuidByte0; MSEGuidByte7;
  MSECounter; MSEGuidByte5; MSEGuidByte4; MSEGuidByte2; MSEGuidByte1; MSEGuidByte3;
  MSEGuidByte6; MSEEnd
].

(** The opcodes the switch names; every other value of the enumeration is
    [OTHER_OPCODE]. *)
Inductive Opcodes :=
| MSG_MOVE_FALL_LAND
| MSG_MOVE_HEARTBEAT
| MSG_MOVE_JUMP
| MSG_MOVE_SET_FACING
| MSG_MOVE_SET_PITCH
| MSG_MOVE_START_ASCEND
| MSG_MOVE_START_BACKWARD
| MSG_MOVE_START_DESCEND
| MSG_MOVE_START_FORWARD
| MSG_MOVE_START_PITCH_DOWN
| MSG_MOVE_START_PITCH_UP
| MSG_MOVE_START_STRAFE_LEFT
| MSG_MOVE_START_STRAFE_RIGHT
| MSG_MOVE_START_SWIM
| MSG_MOVE_START_TURN_LEFT
| MSG_MOVE_START_TURN_RIGHT
| MSG_MOVE_STOP
| MSG_MOVE_STOP_ASCEND
| MSG_MOVE_STOP_PITCH
| MSG_MOVE_STOP_STRAFE
| MSG_MOVE_STOP_SWIM
| MSG_MOVE_STOP_TURN
| SMSG_PLAYER_MOVE
| SMSG_MOVE_SET_RUN_SPEED
| SMSG_MOVE_SET_FLIGHT_SPEED
| SMSG_MOVE_SET_CAN_FLY
| SMSG_MOVE_UNSET_CAN_FLY
| SMSG_MOVE_ROOT
| SMSG_MOVE_UNROOT
| OTHER_OPCODE (value : nat).

#[export] Instance Opcodes_eq_dec : EqDecision Opcodes.
Proof. solve_decision. Defined.

(** [None] is the null pointer. *)
Definition GetMovementStatusElementsSequence (opcode : Opcodes)
  : option (list MovementStatusElements) :=
  match opcode with
  | MSG_MOVE_FALL_LAND => Some MovementFallLand
  | MSG_MOVE_HEARTBEAT => Some MovementHeartBeat
  | MSG_MOVE_JUMP => Some MovementJump
  | MSG_MOVE_SET_FACING => Some MovementSetFacing
  | MSG_MOVE_SET_PITCH => Some MovementSetPitch
  | MSG_MOVE_START_ASCEND => Some MovementStartAscend
  | MSG_MOVE_START_BACKWARD => Some MovementStartBackward
  | MSG_MOVE_START_DESCEND => Some MovementStartDescend
  | MSG_MOVE_START_FORWARD => Some MovementStartForward
  | MSG_MOVE_START_PITCH_DOWN => Some MovementStartPitchDown
  | MSG_MOVE_START_PITCH_UP => Some MovementStartPitchUp
  | MSG_MOVE_START_STRAFE_LEFT => Some MovementStartStrafeLeft
  | MSG_MOVE_START_STRAFE_RIGHT => Some MovementStartStrafeRight
  | MSG_MOVE_START_SWIM => Some MovementStartSwim
  | MSG_MOVE_START_TURN_LEFT => Some MovementStartTurnLeft
  | MSG_MOVE_START_TURN_RIGHT => Some MovementStartTurnRight
  | MSG_MOVE_STOP => Some MovementStop
  | MSG_MOVE_STOP_ASCEND => Some MovementStopAscend
  | MSG_MOVE_STOP_PITCH => Some MovementStopPitch
  | MSG_MOVE_STOP_STRAFE => Some MovementStopStrafe
  | MSG_MOVE_STOP_SWIM => Some MovementStopSwim
  | MSG_MOVE_STOP_TURN => Some MovementStopTurn
  | SMSG_PLAYER_MOVE => Some PlayerMove
  | SMSG_MOVE_SET_RUN_SPEED => Some MoveSetRunSpeed
  | SMSG_MOVE_SET_FLIGHT_SPEED => Some MoveSetFlightSpeed
  | SMSG_MOVE_SET_CAN_FLY => Some MoveSetCanFly
  | SMSG_MOVE_UNSET_CAN_FLY => Some MoveUnsetCanFly
  | SMSG_MOVE_ROOT => Some MoveRoot
  | SMSG_MOVE_UNROOT => Some MoveUnroot
  | OTHER_OPCODE _ => None
  end.
