(* ===== verification/MovementInfo.v ===== *)
(** * Movement state (src/src/serveur/jeu/Entities/Object/Object.h)

    [Position], [MovementInfo] and its nested structs, the movement flags of
    [Unit.h], and [Position::NormalizeOrientation].  A [float] is its IEEE
    binary32 bit pattern, an integer in [[0, 2^32)], which is what the packets
    carry; where the code computes with floats ([NormalizeOrientation]) the
    pattern is decoded and the operation
    rounded to binary32. *)

From S2P Require Import Prelude.
From S2P Require Import Floats.
From S2P Require Import MovementElements.
Local Open Scope Z_scope.

(** ** Orientation *)

Definition fmod32 (x y : spec_float) : spec_float :=
  match x, y with
  | S754_nan, _ | _, S754_nan | S754_infinity _, _ | _, S754_zero _ => S754_nan
  | S754_zero _, _ | _, S754_infinity _ => x
  | S754_finite sx mx ex, S754_finite _ my ey =>
      let e := Z.min ex ey in
      let r := (Z.pos mx * 2 ^ (ex - e)) mod (Z.pos my * 2 ^ (ey - e)) in
      if r =? 0 then S754_zero sx
      else binary_normalize 24 128 (if sx then - r else r) e sx
  end.

(** [2.0f * static_cast<float>(M_PI)] *)
Definition two_pi : spec_float := SFmul 24 128 (decode32 1073741824) (decode32 1078530011).

Definition NormalizeOrientation (o : float32) : float32 :=
  let x := decode32 o in
  if SFltb x (S754_zero false) then
    let m := SFmul 24 128 x (decode32 3212836864) in
    let m := fmod32 m two_pi in
    encode32 (SFadd 24 128 (SFopp m) two_pi)
  else encode32 (fmod32 x two_pi).

(** ** Data *)

Record Position := mkPosition {
  m_positionX : float32;
  m_positionY : float32;
  m_positionZ : float32;
  m_orientation : float32
}.

Definition Position_zero : Position := mkPosition 0 0 0 0.
Definition setX v p := mkPosition v (m_positionY p) (m_positionZ p) (m_orientation p).
Definition setY v p := mkPosition (m_positionX p) v (m_positionZ p) (m_orientation p).
Definition setZ v p := mkPosition (m_positionX p) (m_positionY p) v (m_orientation p).
Definition SetOrientation v p :=
  mkPosition (m_positionX p) (m_positionY p) (m_positionZ p) (NormalizeOrientation v).

Record TransportInfo := mkTransportInfo {
  t_guid : Z;
  t_pos : Position;
  t_seat : Z;
  t_time : Z;
  t_time2 : Z;
  t_time3 : Z
}.

Definition TransportInfo_Reset : TransportInfo := mkTransportInfo 0 Position_zero (-1) 0 0 0.
Definition set_t_guid v t := mkTransportInfo v (t_pos t) (t_seat t) (t_time t) (t_time2 t) (t_time3 t).
Definition upd_t_pos f t := mkTransportInfo (t_guid t) (f (t_pos t)) (t_seat t) (t_time t) (t_time2 t) (t_time3 t).
Definition set_t_seat v t := mkTransportInfo (t_guid t) (t_pos t) v (t_time t) (t_time2 t) (t_time3 t).
Definition set_t_time v t := mkTransportInfo (t_guid t) (t_pos t) (t_seat t) v (t_time2 t) (t_time3 t).
Definition set_t_time2 v t := mkTransportInfo (t_guid t) (t_pos t) (t_seat t) (t_time t) v (t_time3 t).
Definition set_t_time3 v t := mkTransportInfo (t_guid t) (t_pos t) (t_seat t) (t_time t) (t_time2 t) v.

Record JumpInfo := mkJumpInfo {
  j_fallTime : Z;
  j_zspeed : float32;
  j_sinAngle : float32;
  j_cosAngle : float32;
  j_xyspeed : float32
}.

Definition JumpInfo_Reset : JumpInfo := mkJumpInfo 0 0 0 0 0.
Definition set_fallTime v j := mkJumpInfo v (j_zspeed j) (j_sinAngle j) (j_cosAngle j) (j_xyspeed j).
Definition set_zspeed v j := mkJumpInfo (j_fallTime j) v (j_sinAngle j) (j_cosAngle j) (j_xyspeed j).
Definition set_sinAngle v j := mkJumpInfo (j_fallTime j) (j_zspeed j) v (j_cosAngle j) (j_xyspeed j).
Definition set_cosAngle v j := mkJumpInfo (j_fallTime j) (j_zspeed j) (j_sinAngle j) v (j_xyspeed j).
Definition set_xyspeed v j := mkJumpInfo (j_fallTime j) (j_zspeed j) (j_sinAngle j) (j_cosAngle j) v.

Record MovementInfo := mkMovementInfo {
  mi_guid : Z;
  mi_flags : Z;
  mi_flags2 : Z;
  mi_pos : Position;
  mi_time : Z;
  mi_transport : TransportInfo;
  mi_pitch : float32;
  mi_jump : JumpInfo;
  mi_splineElevation : float32
}.

(** The constructor [MovementInfo()]. *)
Definition MovementInfo_new : MovementInfo :=
  mkMovementInfo 0 0 0 Position_zero 0 TransportInfo_Reset 0 JumpInfo_Reset 0.

Definition set_guid v m := mkMovementInfo v (mi_flags m) (mi_flags2 m) (mi_pos m) (mi_time m) (mi_transport m) (mi_pitch m) (mi_jump m) (mi_splineElevation m).
Definition set_flags v m := mkMovementInfo (mi_guid m) v (mi_flags2 m) (mi_pos m) (mi_time m) (mi_transport m) (mi_pitch m) (mi_jump m) (mi_splineElevation m).
Definition set_flags2 v m := mkMovementInfo (mi_guid m) (mi_flags m) v (mi_pos m) (mi_time m) (mi_transport m) (mi_pitch m) (mi_jump m) (mi_splineElevation m).
Definition upd_pos f m := mkMovementInfo (mi_guid m) (mi_flags m) (mi_flags2 m) (f (mi_pos m)) (mi_time m) (mi_transport m) (mi_pitch m) (mi_jump m) (mi_splineElevation m).
Definition set_time v m := mkMovementInfo (mi_guid m) (mi_flags m) (mi_flags2 m) (mi_pos m) v (mi_transport m) (mi_pitch m) (mi_jump m) (mi_splineElevation m).
Definition upd_transport f m := mkMovementInfo (mi_guid m) (mi_flags m) (mi_flags2 m) (mi_pos m) (mi_time m) (f (mi_transport m)) (mi_pitch m) (mi_jump m) (mi_splineElevation m).
Definition set_pitch v m := mkMovementInfo (mi_guid m) (mi_flags m) (mi_flags2 m) (mi_pos m) (mi_time m) (mi_transport m) v (mi_jump m) (mi_splineElevation m).
Definition upd_jump f m := mkMovementInfo (mi_guid m) (mi_flags m) (mi_flags2 m) (mi_pos m) (mi_time m) (mi_transport m) (mi_pitch m) (f (mi_jump m)) (mi_splineElevation m).
Definition set_splineElevation v m := mkMovementInfo (mi_guid m) (mi_flags m) (mi_flags2 m) (mi_pos m) (mi_time m) (mi_transport m) (mi_pitch m) (mi_jump m) v.

Definition HasMovementFlag (flag : Z) (m : MovementInfo) : bool := negb (Z.land (mi_flags m) flag =? 0).
Definition AddMovementFlag (flag : Z) (m : MovementInfo) : MovementInfo := set_flags (Z.lor (mi_flags m) flag) m.
Definition RemoveMovementFlag (flag : Z) (m : MovementInfo) : MovementInfo := set_flags (Z.ldiff (mi_flags m) flag) m.
Definition HasExtraMovementFlag (flag : Z) (m : MovementInfo) : bool := negb (Z.land (mi_flags2 m) flag =? 0).

(** [enum MovementFlags] and the one [MovementFlags2] value the codec uses. *)
Definition MOVEMENTFLAG_FORWARD          := 1.
Definition MOVEMENTFLAG_BACKWARD         := 2.
Definition MOVEMENTFLAG_STRAFE_LEFT      := 4.
Definition MOVEMENTFLAG_STRAFE_RIGHT     := 8.
Definition MOVEMENTFLAG_LEFT             := 16.
Definition MOVEMENTFLAG_RIGHT            := 32.
Definition MOVEMENTFLAG_PITCH_UP         := 64.
Definition MOVEMENTFLAG_PITCH_DOWN       := 128.
Definition MOVEMENTFLAG_DISABLE_GRAVITY  := 512.
Definition MOVEMENTFLAG_ROOT             := 1024.
Definition MOVEMENTFLAG_FALLING          := 2048.
Definition MOVEMENTFLAG_SWIMMING         := 1048576.
Definition MOVEMENTFLAG_ASCENDING        := 2097152.
Definition MOVEMENTFLAG_DESCENDING       := 4194304.
Definition MOVEMENTFLAG_CAN_FLY          := 8388608.
Definition MOVEMENTFLAG_FLYING           := 16777216.
Definition MOVEMENTFLAG_SPLINE_ELEVATION := 33554432.
Definition MOVEMENTFLAG_WATERWALKING     := 67108864.
Definition MOVEMENTFLAG_FALLING_SLOW     := 134217728.
Definition MOVEMENTFLAG_HOVER            := 268435456.
Definition MOVEMENTFLAG2_ALWAYS_ALLOW_PITCHING := 16.

(** ** Guids as bytes ([struct ObjectGuid], little-endian build) *)

Definition ObjectGuid (guid : Z) : list Z := le_bytes 8 guid.
Definition ObjectGuid_value (g : list Z) : Z := le_value g.
Definition guid_byte (i : guid_index) (g : list Z) : Z := nth (guid_pos i) g 0.
Definition set_guid_byte (i : guid_index) (v : Z) (g : list Z) : list Z := <[guid_pos i := v]> g.

Lemma ObjectGuid_roundtrip guid : 0 <= guid < 2 ^ 64 -> ObjectGuid_value (ObjectGuid guid) = guid.
Proof. intros H. unfold ObjectGuid, ObjectGuid_value. rewrite le_value_bytes. by apply Z.mod_small. Qed.

Lemma guid_byte_set i j v g : length g = 8%nat ->
  guid_byte j (set_guid_byte i v g) = if decide (i = j) then v else guid_byte j g.
Proof.
  intros Hg. unfold guid_byte, set_guid_byte. rewrite !nth_lookup.
  pose proof (guid_pos_lt i). case_decide as Hd.
  - subst. by rewrite list_lookup_insert_eq by lia.
  - rewrite list_lookup_insert_ne; [done|]. intros He. by apply Hd, guid_pos_inj.
Qed.

Lemma length_set_guid_byte i v g : length (set_guid_byte i v g) = length g.
Proof. apply length_insert. Qed.

(** Two guids with the same eight bytes are equal. *)
Lemma guid_bytes_eq g h : length g = 8%nat -> length h = 8%nat ->
  (forall i, guid_byte i g = guid_byte i h) -> g = h.
Proof.
  intros Hg Hh H. unfold guid_byte in H.
  do 9 (destruct g as [|? g]; try discriminate). do 9 (destruct h as [|? h]; try discriminate).
  pose proof (H G0). pose proof (H G1). pose proof (H G2). pose proof (H G3).
  pose proof (H G4). pose proof (H G5). pose proof (H G6). pose proof (H G7).
  simpl in *. by subst.
Qed.

Lemma length_ObjectGuid guid : length (ObjectGuid guid) = 8%nat.
Proof. apply length_le_bytes. Qed.

Lemma guid_byte_range guid i : is_byte (guid_byte i (ObjectGuid guid)).
Proof.
  unfold guid_byte. pose proof (le_bytes_byte 8 guid) as H. rewrite Forall_nth in H.
  apply H. rewrite length_ObjectGuid. apply guid_pos_lt.
Qed.
