(* ===== verification/MovementCodec.v ===== *)
(** * Movement packets: the writer and the reader

    [Unit::WriteMovementInfo] (src/src/serveur/jeu/Entities/Unit/Unit.cpp),
    [Player::ReadMovementInfo] (src/src/serveur/jeu/Entities/Player/Player.cpp)
    and [Movement::ExtraMovementStatusElement] (MovementStructures.cpp).  Both
    walk a layout and do what the element says on the packet; the reader ends
    with the anti-cheat checks on the movement flags. *)

From S2P Require Import Prelude.
From S2P Require Import Floats.
From S2P Require Import ByteBuffer.
From S2P Require Import MovementElements.
From S2P Require Import MovementTables.
From S2P Require Import MovementInfo.
Local Open Scope Z_scope.

(** ** ExtraMovementStatusElement *)

Record ExtraMovementStatusElement := mkExtra {
  ex_elements : list MovementStatusElements;
  ex_index : nat;
  ex_guid : list Z;
  ex_floatData : float32;
  ex_byteData : Z
}.

Definition ResetIndex (x : ExtraMovementStatusElement) : ExtraMovementStatusElement :=
  mkExtra (ex_elements x) 0 (ex_guid x) (ex_floatData x) (ex_byteData x).
Definition ex_next (x : ExtraMovementStatusElement) : ExtraMovementStatusElement :=
  mkExtra (ex_elements x) (S (ex_index x)) (ex_guid x) (ex_floatData x) (ex_byteData x).
Definition set_ex_guid g (x : ExtraMovementStatusElement) :=
  mkExtra (ex_elements x) (ex_index x) g (ex_floatData x) (ex_byteData x).
Definition set_ex_float f (x : ExtraMovementStatusElement) :=
  mkExtra (ex_elements x) (ex_index x) (ex_guid x) f (ex_byteData x).
Definition set_ex_byte v (x : ExtraMovementStatusElement) :=
  mkExtra (ex_elements x) (ex_index x) (ex_guid x) (ex_floatData x) v.

(** An extra element together with the packet it reads from or writes to. *)
Record ExtraState := mkExtraState { xs_packet : ByteBuffer; xs_extra : ExtraMovementStatusElement }.
Abbreviation XM := (prog ExtraState ByteBufferError).

Definition xpkt {A} (m : BB A) : XM A :=
  lift xs_packet (fun p s => mkExtraState p (xs_extra s)) m.
Definition xupd (f : ExtraMovementStatusElement -> ExtraMovementStatusElement) : XM unit :=
  modify (fun s => mkExtraState (xs_packet s) (f (xs_extra s))).

(** [_elements[_index++]]; reading past the array is undefined. *)
Definition ex_fetch : XM MovementStatusElements :=
  s ← get;
  match ex_elements (xs_extra s) !! ex_index (xs_extra s) with
  | Some e => xupd ex_next;; mret e
  | None => throw UndefinedBehaviour
  end.

Definition ReadNextElement : XM unit :=
  element ← ex_fetch;
  s ← get;
  match element with
  | MSEHasGuidByte i =>
      x ← xpkt ReadBit;
      xupd (fun e => set_ex_guid (set_guid_byte i (Z.b2z x) (ex_guid e)) e)
  | MSEGuidByte i =>
      v ← xpkt (ReadByteSeq (guid_byte i (ex_guid (xs_extra s))));
      xupd (fun e => set_ex_guid (set_guid_byte i v (ex_guid e)) e)
  | MSEExtraFloat => v ← xpkt (read 4); xupd (set_ex_float v)
  | MSEExtraInt8 => v ← xpkt (read 1); xupd (set_ex_byte (s8 v))
  | _ => throw AssertionFailure
  end.

Definition WriteNextElement : XM unit :=
  element ← ex_fetch;
  s ← get;
  let x := xs_extra s in
  match element with
  | MSEHasGuidByte i => xpkt (WriteBit (guid_byte i (ex_guid x)));; mret tt
  | MSEGuidByte i => xpkt (WriteByteSeq (guid_byte i (ex_guid x)))
  | MSEExtraFloat => xpkt (append 4 (ex_floatData x))
  | MSEExtraInt8 => xpkt (append 1 (ex_byteData x))
  | _ => throw AssertionFailure
  end.

(** ** The local flags both functions compute *)

Inductive presence :=
| hasMovementFlags | hasMovementFlags2 | hasTimestamp | hasOrientation
| hasTransportData | hasTransportTime2 | hasTransportTime3 | hasPitch
| hasFallData | hasFallDirection | hasSplineElevation | hasUnkTime.

#[export] Instance presence_eq_dec : EqDecision presence.
Proof. solve_decision. Defined.

(** ** Writer *)

(** What [WriteMovementInfo] reads of the unit.  [un_position] is the unit's own
    position ([GetPositionX()] ...), [un_transGuid] is [GetTransGUID()]. *)
Record Unit_ := mkUnit {
  un_guid : Z;
  un_transGuid : Z;
  un_position : Position;
  un_movementInfo : MovementInfo;
  un_splineEnabled : bool;
  un_movementCounter : Z
}.

Definition bump_counter (u : Unit_) : Unit_ :=
  mkUnit (un_guid u) (un_transGuid u) (un_position u) (un_movementInfo u)
    (un_splineEnabled u) (u32 (un_movementCounter u + 1)).

Record WriteState := mkWriteState {
  ws_packet : ByteBuffer;
  ws_unit : Unit_;
  ws_extras : option ExtraMovementStatusElement
}.
Abbreviation WM := (prog WriteState ByteBufferError).

Definition wpkt {A} (m : BB A) : WM A :=
  lift ws_packet (fun p s => mkWriteState p (ws_unit s) (ws_extras s)) m.

Definition wextra (m : XM unit) : WM unit := fun s =>
  match ws_extras s with
  | None => (Err UndefinedBehaviour, s)
  | Some x =>
      let '(r, s') := m (mkExtraState (ws_packet s) x) in
      (r, mkWriteState (xs_packet s') (ws_unit s) (Some (xs_extra s')))
  end.

Definition when {S E} (c : bool) (m : prog S E unit) : prog S E unit :=
  if c then m else mret tt.

Section Writer.
(** [G3D::fuzzyEq(GetOrientation(), 0.0f)] (a vendored library) and the value
    [getMSTime()] returns during the call. *)
Context (fuzzyEq0 : float32 -> bool) (now : Z).

Definition writer_has (u : Unit_) (p : presence) : bool :=
  let mi := un_movementInfo u in
  let transport := negb (un_transGuid u =? 0) in
  let fallDirection := HasMovementFlag MOVEMENTFLAG_FALLING mi in
  match p with
  | hasMovementFlags => negb (mi_flags mi =? 0)
  | hasMovementFlags2 => negb (mi_flags2 mi =? 0)
  | hasTimestamp => true
  | hasOrientation => negb (fuzzyEq0 (m_orientation (un_position u)))
  | hasTransportData => transport
  | hasTransportTime2 => transport && negb (t_time2 (mi_transport mi) =? 0)
  | hasTransportTime3 => false
  | hasPitch => HasMovementFlag (Z.lor MOVEMENTFLAG_SWIMMING MOVEMENTFLAG_FLYING) mi
                || HasExtraMovementFlag MOVEMENTFLAG2_ALWAYS_ALLOW_PITCHING mi
  | hasFallDirection => fallDirection
  | hasFallData => fallDirection || negb (j_fallTime (mi_jump mi) =? 0)
  | hasSplineElevation => HasMovementFlag MOVEMENTFLAG_SPLINE_ELEVATION mi
  | hasUnkTime => false
  end.

Definition WriteElement (u : Unit_) (element : MovementStatusElements) : WM unit :=
  let mi := un_movementInfo u in
  let has := writer_has u in
  let guid := ObjectGuid (un_guid u) in
  let tguid := ObjectGuid (if has hasTransportData then un_transGuid u else 0) in
  let bit (x : bool) : WM unit := wpkt (WriteBit (Z.b2z x));; mret tt in
  match element with
  | MSEHasGuidByte i => wpkt (WriteBit (guid_byte i guid));; mret tt
  | MSEHasTransportGuidByte i =>
      when (has hasTransportData) (wpkt (WriteBit (guid_byte i tguid));; mret tt)
  | MSEGuidByte i => wpkt (WriteByteSeq (guid_byte i guid))
  | MSETransportGuidByte i =>
      when (has hasTransportData) (wpkt (WriteByteSeq (guid_byte i tguid)))
  | MSEHasMovementFlags => bit (negb (has hasMovementFlags))
  | MSEHasMovementFlags2 => bit (negb (has hasMovementFlags2))
  | MSEHasTimestamp => bit (negb (has hasTimestamp))
  | MSEHasOrientation => bit (negb (has hasOrientation))
  | MSEHasTransportData => bit (has hasTransportData)
  | MSEHasTransportTime2 => when (has hasTransportData) (bit (has hasTransportTime2))
  | MSEHasTransportTime3 => when (has hasTransportData) (bit (has hasTransportTime3))
  | MSEHasPitch => bit (negb (has hasPitch))
  | MSEHasFallData => bit (has hasFallData)
  | MSEHasFallDirection => when (has hasFallData) (bit (has hasFallDirection))
  | MSEHasSplineElevation => bit (negb (has hasSplineElevation))
  | MSEHasSpline => bit (un_splineEnabled u)
  | MSEMovementFlags => when (has hasMovementFlags) (wpkt (WriteBits (mi_flags mi) 30))
  | MSEMovementFlags2 => when (has hasMovementFlags2) (wpkt (WriteBits (mi_flags2 mi) 13))
  | MSETimestamp => when (has hasTimestamp) (wpkt (append 4 now))
  | MSEPositionX => wpkt (append 4 (m_positionX (un_position u)))
  | MSEPositionY => wpkt (append 4 (m_positionY (un_position u)))
  | MSEPositionZ => wpkt (append 4 (m_positionZ (un_position u)))
  | MSEOrientation => when (has hasOrientation) (wpkt (append 4 (m_orientation (un_position u))))
  | MSETransportPositionX => when (has hasTransportData) (wpkt (append 4 (m_positionX (t_pos (mi_transport mi)))))
  | MSETransportPositionY => when (has hasTransportData) (wpkt (append 4 (m_positionY (t_pos (mi_transport mi)))))
  | MSETransportPositionZ => when (has hasTransportData) (wpkt (append 4 (m_positionZ (t_pos (mi_transport mi)))))
  | MSETransportOrientation => when (has hasTransportData) (wpkt (append 4 (m_orientation (t_pos (mi_transport mi)))))
  | MSETransportSeat => when (has hasTransportData) (wpkt (append 1 (t_seat (mi_transport mi))))
  | MSETransportTime => when (has hasTransportData) (wpkt (append 4 (t_time (mi_transport mi))))
  | MSETransportTime2 =>
      when (has hasTransportData && has hasTransportTime2) (wpkt (append 4 (t_time2 (mi_transport mi))))
  | MSETransportTime3 =>
      when (has hasTransportData && has hasTransportTime3) (wpkt (append 4 (t_time3 (mi_transport mi))))
  | MSEPitch => when (has hasPitch) (wpkt (append 4 (mi_pitch mi)))
  | MSEFallTime => when (has hasFallData) (wpkt (append 4 (j_fallTime (mi_jump mi))))
  | MSEFallVerticalSpeed => when (has hasFallData) (wpkt (append 4 (j_zspeed (mi_jump mi))))
  | MSEFallCosAngle => when (has hasFallData && has hasFallDirection) (wpkt (append 4 (j_cosAngle (mi_jump mi))))
  | MSEFallSinAngle => when (has hasFallData && has hasFallDirection) (wpkt (append 4 (j_sinAngle (mi_jump mi))))
  | MSEFallHorizontalSpeed => when (has hasFallData && has hasFallDirection) (wpkt (append 4 (j_xyspeed (mi_jump mi))))
  | MSESplineElevation => when (has hasSplineElevation) (wpkt (append 4 (mi_splineElevation mi)))
  | MSECounterCount => wpkt (WriteBits 0 22)
  | MSECounter =>
      s ← get;
      modify (fun s => mkWriteState (ws_packet s) (bump_counter (ws_unit s)) (ws_extras s));;
      wpkt (append 4 (un_movementCounter (ws_unit s)))
  | MSEZeroBit => wpkt (WriteBit 0);; mret tt
  | MSEOneBit => wpkt (WriteBit 1);; mret tt
  | MSEExtraElement => wextra WriteNextElement
  | MSEUintCount => wpkt (append 4 0)
  | MSEHasUnkTime | MSEUnkTime | MSEEnd | MSEExtraFloat | MSEExtraInt8 => throw AssertionFailure
  end.

(** [for (; *sequence != MSEEnd; ++sequence)]; the locals are computed once,
    from the unit as it is on entry. *)
Fixpoint write_sequence (u : Unit_) (sequence : list MovementStatusElements) : WM unit :=
  match sequence with
  | [] => throw UndefinedBehaviour
  | MSEEnd :: _ => mret tt
  | element :: sequence' => WriteElement u element;; write_sequence u sequence'
  end.

Definition WriteMovementInfo (opcode : Opcodes) : WM unit :=
  s ← get;
  match GetMovementStatusElementsSequence opcode with
  | None => mret tt
  | Some sequence => write_sequence (ws_unit s) sequence
  end.
End Writer.

(** ** Reader *)

Record ReadState := mkReadState {
  rs_packet : ByteBuffer;
  rs_has : presence -> bool;
  rs_counterCount : Z;
  rs_guid : list Z;
  rs_tguid : list Z;
  rs_mi : MovementInfo;
  rs_extras : option ExtraMovementStatusElement
}.
Abbreviation RM := (prog ReadState ByteBufferError).

Definition rpkt {A} (m : BB A) : RM A :=
  lift rs_packet (fun p s => mkReadState p (rs_has s) (rs_counterCount s) (rs_guid s)
                               (rs_tguid s) (rs_mi s) (rs_extras s)) m.
Definition set_has (p : presence) (v : bool) : RM unit :=
  modify (fun s => mkReadState (rs_packet s) (<[p := v]> (rs_has s)) (rs_counterCount s)
                     (rs_guid s) (rs_tguid s) (rs_mi s) (rs_extras s)).
Definition set_counterCount (v : Z) : RM unit :=
  modify (fun s => mkReadState (rs_packet s) (rs_has s) v (rs_guid s) (rs_tguid s)
                     (rs_mi s) (rs_extras s)).
Definition set_rguid (i : guid_index) (v : Z) : RM unit :=
  modify (fun s => mkReadState (rs_packet s) (rs_has s) (rs_counterCount s)
                     (set_guid_byte i v (rs_guid s)) (rs_tguid s) (rs_mi s) (rs_extras s)).
Definition set_tguid (i : guid_index) (v : Z) : RM unit :=
  modify (fun s => mkReadState (rs_packet s) (rs_has s) (rs_counterCount s) (rs_guid s)
                     (set_guid_byte i v (rs_tguid s)) (rs_mi s) (rs_extras s)).
Definition upd_mi (f : MovementInfo -> MovementInfo) : RM unit :=
  modify (fun s => mkReadState (rs_packet s) (rs_has s) (rs_counterCount s) (rs_guid s)
                     (rs_tguid s) (f (rs_mi s)) (rs_extras s)).

Definition rextra (m : XM unit) : RM unit := fun s =>
  match rs_extras s with
  | None => (Err UndefinedBehaviour, s)
  | Some x =>
      let '(r, s') := m (mkExtraState (rs_packet s) x) in
      (r, mkReadState (xs_packet s') (rs_has s) (rs_counterCount s) (rs_guid s)
            (rs_tguid s) (rs_mi s) (Some (xs_extra s')))
  end.

(** [if (has) ...] on a flag the reader has decoded so far. *)
Definition if_has (ps : list presence) (m : RM unit) : RM unit :=
  s ← get; when (forallb (rs_has s) ps) m.

Section Reader.
(** [G3D::wrap(x, -M_PI, M_PI)] of the vendored library. *)
Context (wrap_pi : float32 -> float32).

Definition read_into (n : nat) (f : Z -> MovementInfo -> MovementInfo) : RM unit :=
  v ← rpkt (read n); upd_mi (f v).

Definition ReadElement (element : MovementStatusElements) : RM unit :=
  match element with
  | MSEHasGuidByte i => x ← rpkt ReadBit; set_rguid i (Z.b2z x)
  | MSEHasTransportGuidByte i =>
      if_has [hasTransportData] (x ← rpkt ReadBit; set_tguid i (Z.b2z x))
  | MSEGuidByte i =>
      s ← get; v ← rpkt (ReadByteSeq (guid_byte i (rs_guid s))); set_rguid i v
  | MSETransportGuidByte i =>
      if_has [hasTransportData]
        (s ← get; v ← rpkt (ReadByteSeq (guid_byte i (rs_tguid s))); set_tguid i v)
  | MSEHasMovementFlags => x ← rpkt ReadBit; set_has hasMovementFlags (negb x)
  | MSEHasMovementFlags2 => x ← rpkt ReadBit; set_has hasMovementFlags2 (negb x)
  | MSEHasTimestamp => x ← rpkt ReadBit; set_has hasTimestamp (negb x)
  | MSEHasOrientation => x ← rpkt ReadBit; set_has hasOrientation (negb x)
  | MSEHasTransportData => x ← rpkt ReadBit; set_has hasTransportData x
  | MSEHasTransportTime2 =>
      if_has [hasTransportData] (x ← rpkt ReadBit; set_has hasTransportTime2 x)
  | MSEHasTransportTime3 =>
      if_has [hasTransportData] (x ← rpkt ReadBit; set_has hasTransportTime3 x)
  | MSEHasPitch => x ← rpkt ReadBit; set_has hasPitch (negb x)
  | MSEHasFallData => x ← rpkt ReadBit; set_has hasFallData x
  | MSEHasFallDirection =>
      if_has [hasFallData] (x ← rpkt ReadBit; set_has hasFallDirection x)
  | MSEHasSplineElevation => x ← rpkt ReadBit; set_has hasSplineElevation (negb x)
  | MSEHasSpline => rpkt ReadBit;; mret tt
  | MSEMovementFlags =>
      if_has [hasMovementFlags] (v ← rpkt (ReadBits 30); upd_mi (set_flags v))
  | MSEMovementFlags2 =>
      if_has [hasMovementFlags2] (v ← rpkt (ReadBits 13); upd_mi (set_flags2 v))
  | MSETimestamp => if_has [hasTimestamp] (read_into 4 set_time)
  | MSEPositionX => read_into 4 (fun v => upd_pos (setX v))
  | MSEPositionY => read_into 4 (fun v => upd_pos (setY v))
  | MSEPositionZ => read_into 4 (fun v => upd_pos (setZ v))
  | MSEOrientation => if_has [hasOrientation] (read_into 4 (fun v => upd_pos (SetOrientation v)))
  | MSETransportPositionX =>
      if_has [hasTransportData] (read_into 4 (fun v => upd_transport (upd_t_pos (setX v))))
  | MSETransportPositionY =>
      if_has [hasTransportData] (read_into 4 (fun v => upd_transport (upd_t_pos (setY v))))
  | MSETransportPositionZ =>
      if_has [hasTransportData] (read_into 4 (fun v => upd_transport (upd_t_pos (setZ v))))
  | MSETransportOrientation =>
      if_has [hasTransportData] (read_into 4 (fun v => upd_transport (upd_t_pos (SetOrientation v))))
  | MSETransportSeat =>
      if_has [hasTransportData] (read_into 1 (fun v => upd_transport (set_t_seat (s8 v))))
  | MSETransportTime =>
      if_has [hasTransportData] (read_into 4 (fun v => upd_transport (set_t_time v)))
  | MSETransportTime2 =>
      if_has [hasTransportData; hasTransportTime2]
        (read_into 4 (fun v => upd_transport (set_t_time2 v)))
  | MSETransportTime3 =>
      if_has [hasTransportData; hasTransportTime3]
        (read_into 4 (fun v => upd_transport (set_t_time3 v)))
  | MSEPitch => if_has [hasPitch] (read_into 4 (fun v => set_pitch (wrap_pi v)))
  | MSEFallTime => if_has [hasFallData] (read_into 4 (fun v => upd_jump (set_fallTime v)))
  | MSEFallVerticalSpeed => if_has [hasFallData] (read_into 4 (fun v => upd_jump (set_zspeed v)))
  | MSEFallCosAngle =>
      if_has [hasFallData; hasFallDirection] (read_into 4 (fun v => upd_jump (set_cosAngle v)))
  | MSEFallSinAngle =>
      if_has [hasFallData; hasFallDirection] (read_into 4 (fun v => upd_jump (set_sinAngle v)))
  | MSEFallHorizontalSpeed =>
      if_has [hasFallData; hasFallDirection] (read_into 4 (fun v => upd_jump (set_xyspeed v)))
  | MSESplineElevation => if_has [hasSplineElevation] (read_into 4 set_splineElevation)
  | MSECounterCount => v ← rpkt (ReadBits 22); set_counterCount v
  | MSECounter =>
      s ← get;
      forM (replicate (Z.to_nat (rs_counterCount s)) tt) (fun _ => rpkt (read_skip 4))
  | MSEHasUnkTime => x ← rpkt ReadBit; set_has hasUnkTime (negb x)
  | MSEUnkTime => if_has [hasUnkTime] (rpkt (read_skip 4))
  | MSEZeroBit | MSEOneBit => rpkt ReadBit;; mret tt
  | MSEExtraElement => rextra ReadNextElement
  | MSEUintCount | MSEEnd | MSEExtraFloat | MSEExtraInt8 => throw AssertionFailure
  end.

Fixpoint read_sequence (sequence : list MovementStatusElements) : RM unit :=
  match sequence with
  | [] => throw UndefinedBehaviour
  | MSEEnd :: _ => mret tt
  | element :: sequence' => ReadElement element;; read_sequence sequence'
  end.

(** What the anti-cheat checks ask of the player: [HasAuraType] on the player
    and on its mover, and [GetSession()->GetSecurity() == SEC_PLAYER]. *)
Record PlayerChecks := mkPlayerChecks {
  pc_hover : bool;
  pc_water_walk : bool;
  pc_feather_fall : bool;
  pc_sec_player : bool;
  pc_mover_fly : bool;
  pc_mover_mounted_flight : bool
}.

(** [REMOVE_VIOLATING_FLAGS(check, maskToRemove)] *)
Definition REMOVE_VIOLATING_FLAGS (check : MovementInfo -> bool) (mask : Z)
    (mi : MovementInfo) : MovementInfo :=
  if check mi then RemoveMovementFlag mask mi else mi.

Context (fuzzyEq0 : float32 -> bool).

Definition both (f g : Z) (mi : MovementInfo) : bool :=
  HasMovementFlag f mi && HasMovementFlag g mi.

Definition sanitize (pc : PlayerChecks) (has : presence -> bool) (mi : MovementInfo) : MovementInfo :=
  let mi := REMOVE_VIOLATING_FLAGS (HasMovementFlag MOVEMENTFLAG_ROOT) MOVEMENTFLAG_ROOT mi in
  let mi := REMOVE_VIOLATING_FLAGS
    (fun mi => HasMovementFlag MOVEMENTFLAG_HOVER mi && negb (pc_hover pc)) MOVEMENTFLAG_HOVER mi in
  let mi := REMOVE_VIOLATING_FLAGS (both MOVEMENTFLAG_ASCENDING MOVEMENTFLAG_DESCENDING)
    (Z.lor MOVEMENTFLAG_ASCENDING MOVEMENTFLAG_DESCENDING) mi in
  let mi := REMOVE_VIOLATING_FLAGS (both MOVEMENTFLAG_LEFT MOVEMENTFLAG_RIGHT)
    (Z.lor MOVEMENTFLAG_LEFT MOVEMENTFLAG_RIGHT) mi in
  let mi := REMOVE_VIOLATING_FLAGS (both MOVEMENTFLAG_STRAFE_LEFT MOVEMENTFLAG_STRAFE_RIGHT)
    (Z.lor MOVEMENTFLAG_STRAFE_LEFT MOVEMENTFLAG_STRAFE_RIGHT) mi in
  let mi := REMOVE_VIOLATING_FLAGS (both MOVEMENTFLAG_PITCH_UP MOVEMENTFLAG_PITCH_DOWN)
    (Z.lor MOVEMENTFLAG_PITCH_UP MOVEMENTFLAG_PITCH_DOWN) mi in
  let mi := REMOVE_VIOLATING_FLAGS (both MOVEMENTFLAG_FORWARD MOVEMENTFLAG_BACKWARD)
    (Z.lor MOVEMENTFLAG_FORWARD MOVEMENTFLAG_BACKWARD) mi in
  let mi := REMOVE_VIOLATING_FLAGS
    (fun mi => HasMovementFlag MOVEMENTFLAG_WATERWALKING mi && negb (pc_water_walk pc))
    MOVEMENTFLAG_WATERWALKING mi in
  let mi := REMOVE_VIOLATING_FLAGS
    (fun mi => HasMovementFlag MOVEMENTFLAG_FALLING_SLOW mi && negb (pc_feather_fall pc))
    MOVEMENTFLAG_FALLING_SLOW mi in
  let mi := REMOVE_VIOLATING_FLAGS
    (fun mi => HasMovementFlag (Z.lor MOVEMENTFLAG_FLYING MOVEMENTFLAG_CAN_FLY) mi
               && pc_sec_player pc && negb (pc_mover_fly pc) && negb (pc_mover_mounted_flight pc))
    (Z.lor MOVEMENTFLAG_FLYING MOVEMENTFLAG_CAN_FLY) mi in
  let mi := REMOVE_VIOLATING_FLAGS
    (both (Z.lor MOVEMENTFLAG_DISABLE_GRAVITY MOVEMENTFLAG_CAN_FLY) MOVEMENTFLAG_FALLING)
    MOVEMENTFLAG_FALLING mi in
  let mi := REMOVE_VIOLATING_FLAGS
    (fun mi => HasMovementFlag MOVEMENTFLAG_FALLING mi
               && (negb (has hasFallData) || negb (has hasFallDirection)))
    MOVEMENTFLAG_FALLING mi in
  let mi := REMOVE_VIOLATING_FLAGS
    (fun mi => HasMovementFlag MOVEMENTFLAG_SPLINE_ELEVATION mi
               && (negb (has hasSplineElevation) || fuzzyEq0 (mi_splineElevation mi)))
    MOVEMENTFLAG_SPLINE_ELEVATION mi in
  if has hasSplineElevation then AddMovementFlag MOVEMENTFLAG_SPLINE_ELEVATION mi else mi.

Definition read_start (packet : ByteBuffer) (mi : MovementInfo)
    (extras : option ExtraMovementStatusElement) : ReadState :=
  mkReadState packet (fun _ => false) 0 (ObjectGuid 0) (ObjectGuid 0) mi extras.

(** The whole of [ReadMovementInfo]: on an exception the packet is dropped by
    the caller, so only the error is reported; otherwise the decoded
    [MovementInfo], the packet and the extras as the call leaves them. *)
Definition ReadMovementInfo (pc : PlayerChecks) (opcode : Opcodes) (packet : ByteBuffer)
    (mi : MovementInfo) (extras : option ExtraMovementStatusElement)
  : res ByteBufferError (MovementInfo * ByteBuffer * option ExtraMovementStatusElement) :=
  match GetMovementStatusElementsSequence opcode with
  | None => Ok (mi, packet, extras)
  | Some sequence =>
      match read_sequence sequence (read_start packet mi extras) with
      | (Ok _, s) =>
          let mi := set_guid (ObjectGuid_value (rs_guid s)) (rs_mi s) in
          let mi := upd_transport (set_t_guid (ObjectGuid_value (rs_tguid s))) mi in
          Ok (sanitize pc (rs_has s) mi, rs_packet s, rs_extras s)
      | (Err e, _) => Err e
      end
  end.
End Reader.
