(* ===== verification/MovementSanitize.v ===== *)
(** * The anti-cheat filter of movement packets

    [sanitize] is the tail of [Player::ReadMovementInfo]: a chain of
    [REMOVE_VIOLATING_FLAGS].  A later removal never brings a flag back, so
    what each check establishes still holds of the flags the server keeps. *)

From S2P Require Import Prelude.
From S2P Require Import Floats.
From S2P Require Import MovementElements.
From S2P Require Import MovementInfo.
From S2P Require Import MovementCodec.
Local Open Scope Z_scope.

(** [a] has only movement flags of [b]. *)
Definition below (a b : MovementInfo) : Prop :=
  forall i, 0 <= i -> Z.testbit (mi_flags a) i = true -> Z.testbit (mi_flags b) i = true.

#[export] Instance below_preorder : PreOrder below.
Proof.
  split; [by intros a i|]. intros a b c Hab Hbc i Hi H. by apply Hbc, Hab.
Qed.

Lemma HasMovementFlag_spec f m :
  HasMovementFlag f m = true <->
  exists i, 0 <= i /\ Z.testbit f i = true /\ Z.testbit (mi_flags m) i = true.
Proof.
  unfold HasMovementFlag. rewrite negb_true_iff, Z.eqb_neq. split.
  - intros (i & Hi & Hb)%nonzero_bit. rewrite Z.land_spec, andb_true_iff in Hb.
    exists i. tauto.
  - intros (i & Hi & Hf & Hm) H. assert (Z.testbit (Z.land (mi_flags m) f) i = true) as Hb
      by (by rewrite Z.land_spec, Hm, Hf).
    by rewrite H, Z.bits_0 in Hb.
Qed.

Lemma HasMovementFlag_below f a b :
  below a b -> HasMovementFlag f a = true -> HasMovementFlag f b = true.
Proof.
  rewrite !HasMovementFlag_spec. intros Hb (i & Hi & Hf & Hm). exists i. eauto.
Qed.

Lemma REMOVE_below check mask m : below (REMOVE_VIOLATING_FLAGS check mask m) m.
Proof.
  unfold REMOVE_VIOLATING_FLAGS. destruct (check m); [|done].
  intros i Hi. cbn. rewrite Z.ldiff_spec. by intros [? _]%andb_true_iff.
Qed.

(** A masked flag that survives to the end means the check did not fire. *)
Lemma REMOVE_check check mask f m final :
  below final (REMOVE_VIOLATING_FLAGS check mask m) -> Z.land f mask = f ->
  HasMovementFlag f final = true -> check m = false.
Proof.
  intros Hb Hf Hfin. destruct (check m) eqn:E; [|done].
  apply (HasMovementFlag_below _ _ _ Hb) in Hfin.
  unfold REMOVE_VIOLATING_FLAGS in Hfin. rewrite E in Hfin.
  apply HasMovementFlag_spec in Hfin as (i & Hi & Hfi & Hm). cbn in Hm.
  rewrite Z.ldiff_spec, andb_true_iff, negb_true_iff in Hm. destruct Hm as [_ Hm].
  rewrite <- Hf, Z.land_spec, Hm, andb_false_r in Hfi. done.
Qed.

Section Sanitize.
Context (fuzzyEq0 : float32 -> bool) (pc : PlayerChecks) (has : presence -> bool).

(** What the server relies on once a packet has been accepted. *)
Record consistent_flags (mi mi' : MovementInfo) : Prop := {
  cf_root : HasMovementFlag MOVEMENTFLAG_ROOT mi' = false;
  cf_hover : HasMovementFlag MOVEMENTFLAG_HOVER mi' = true -> pc_hover pc = true;
  cf_vertical : both MOVEMENTFLAG_ASCENDING MOVEMENTFLAG_DESCENDING mi' = false;
  cf_turn : both MOVEMENTFLAG_LEFT MOVEMENTFLAG_RIGHT mi' = false;
  cf_strafe : both MOVEMENTFLAG_STRAFE_LEFT MOVEMENTFLAG_STRAFE_RIGHT mi' = false;
  cf_pitch : both MOVEMENTFLAG_PITCH_UP MOVEMENTFLAG_PITCH_DOWN mi' = false;
  cf_forward : both MOVEMENTFLAG_FORWARD MOVEMENTFLAG_BACKWARD mi' = false;
  cf_water : HasMovementFlag MOVEMENTFLAG_WATERWALKING mi' = true -> pc_water_walk pc = true;
  cf_feather : HasMovementFlag MOVEMENTFLAG_FALLING_SLOW mi' = true -> pc_feather_fall pc = true;
  cf_fly : HasMovementFlag (Z.lor MOVEMENTFLAG_FLYING MOVEMENTFLAG_CAN_FLY) mi' = true ->
    pc_sec_player pc = true -> pc_mover_fly pc = true \/ pc_mover_mounted_flight pc = true;
  cf_no_fall_in_flight :
    both (Z.lor MOVEMENTFLAG_DISABLE_GRAVITY MOVEMENTFLAG_CAN_FLY) MOVEMENTFLAG_FALLING mi' = false;
  cf_fall : HasMovementFlag MOVEMENTFLAG_FALLING mi' = true ->
    has hasFallData = true /\ has hasFallDirection = true;
  cf_spline : HasMovementFlag MOVEMENTFLAG_SPLINE_ELEVATION mi' = has hasSplineElevation;
  cf_only_removed : forall i, 0 <= i -> Z.testbit (mi_flags mi') i = true ->
    Z.testbit (mi_flags mi) i = true \/
    Z.testbit MOVEMENTFLAG_SPLINE_ELEVATION i = true /\ has hasSplineElevation = true;
  cf_rest : mi' = set_flags (mi_flags mi') mi
}.

(** The last step adds the spline elevation flag back if its block came. *)
Definition readd (m : MovementInfo) : MovementInfo :=
  if has hasSplineElevation then AddMovementFlag MOVEMENTFLAG_SPLINE_ELEVATION m else m.

Lemma readd_other f m : Z.land f MOVEMENTFLAG_SPLINE_ELEVATION = 0 ->
  HasMovementFlag f (readd m) = HasMovementFlag f m.
Proof.
  intros Hf. unfold readd. destruct (has hasSplineElevation); [|done].
  unfold HasMovementFlag. cbn. by rewrite Z.land_lor_distr_l, (Z.land_comm MOVEMENTFLAG_SPLINE_ELEVATION f), Hf, Z.lor_0_r.
Qed.

Lemma both_true f g m :
  both f g m = true <-> HasMovementFlag f m = true /\ HasMovementFlag g m = true.
Proof. apply andb_true_iff. Qed.

(** A pair of flags whose violation removes both: they never survive together. *)
Lemma pair_removed f g m final :
  below final (REMOVE_VIOLATING_FLAGS (both f g) (Z.lor f g) m) -> both f g final = false.
Proof.
  intros Hb. apply not_true_is_false. intros [Hf Hg]%both_true.
  assert (both f g m = false) as E.
  { eapply REMOVE_check; [exact Hb| |exact Hf]. apply Z.bits_inj'. intros i _.
    rewrite Z.land_spec, Z.lor_spec. by destruct (Z.testbit f i). }
  assert (both f g m = true) as E'; [|by rewrite E in E'].
  assert (below final m) as Hm by (etrans; [exact Hb|apply REMOVE_below]).
  apply both_true. split; by eapply HasMovementFlag_below.
Qed.

Lemma flag_removed f (c : bool) m final :
  below final (REMOVE_VIOLATING_FLAGS (fun m => HasMovementFlag f m && c) f m) ->
  HasMovementFlag f final = true -> c = false.
Proof.
  intros Hb Hf. pose proof (REMOVE_check _ _ f _ _ Hb (Z.land_diag f) Hf) as E. cbn in E.
  assert (below final m) as Hm by (etrans; [exact Hb|apply REMOVE_below]).
  by rewrite (HasMovementFlag_below _ _ _ Hm Hf) in E.
Qed.

Lemma readd_both f g m : Z.land f MOVEMENTFLAG_SPLINE_ELEVATION = 0 ->
  Z.land g MOVEMENTFLAG_SPLINE_ELEVATION = 0 -> both f g (readd m) = both f g m.
Proof. intros Hf Hg. unfold both. by rewrite !readd_other. Qed.

Lemma readd_testbit m i : Z.testbit (mi_flags (readd m)) i = true ->
  Z.testbit (mi_flags m) i = true \/
  Z.testbit MOVEMENTFLAG_SPLINE_ELEVATION i = true /\ has hasSplineElevation = true.
Proof.
  unfold readd. destruct (has hasSplineElevation); [|by left]. cbn.
  rewrite Z.lor_spec, orb_true_iff. tauto.
Qed.

(** Without its block the flag is removed, with it the flag is set. *)
Lemma readd_spline c m :
  HasMovementFlag MOVEMENTFLAG_SPLINE_ELEVATION
    (readd (REMOVE_VIOLATING_FLAGS
      (fun m => HasMovementFlag MOVEMENTFLAG_SPLINE_ELEVATION m
                && (negb (has hasSplineElevation) || c m)) MOVEMENTFLAG_SPLINE_ELEVATION m))
  = has hasSplineElevation.
Proof.
  unfold readd. destruct (has hasSplineElevation).
  - apply HasMovementFlag_spec. exists 25. split_and!; [lia|done|].
    etrans; [apply Z.lor_spec|]. by rewrite orb_true_r.
  - apply not_true_is_false. intros H.
    pose proof (REMOVE_check _ _ _ m _ (reflexivity _) (Z.land_diag _) H) as E.
    cbn in E. rewrite andb_true_r in E.
    by rewrite (HasMovementFlag_below _ _ _ (REMOVE_below _ _ _) H) in E.
Qed.

Definition same_but_flags (mi m : MovementInfo) : Prop := m = set_flags (mi_flags m) mi.

Lemma REMOVE_rest check mask mi m :
  same_but_flags mi m -> same_but_flags mi (REMOVE_VIOLATING_FLAGS check mask m).
Proof. unfold same_but_flags, REMOVE_VIOLATING_FLAGS. intros ->. by destruct (check _). Qed.

Lemma readd_rest mi m : same_but_flags mi m -> same_but_flags mi (readd m).
Proof. unfold same_but_flags, readd. intros ->. by destruct (has _). Qed.

Lemma sanitize_rest mi : same_but_flags mi (sanitize fuzzyEq0 pc has mi).
Proof.
  unfold sanitize. cbv zeta. apply readd_rest. do 13 apply REMOVE_rest. by destruct mi.
Qed.

(** [below], down the chain of removals. *)
Ltac lower :=
  match goal with
  | |- below ?a ?a => reflexivity
  | |- below ?a ?b => etransitivity; [apply REMOVE_below|lower]
  end.

End Sanitize.
