(* ===== verification/MovementWire.v ===== *)
(** * The wire format of movement packets

    What a layout means as bytes, independently of the two functions that walk
    it: [encode w l] is the packet for the movement data [w] under the layout
    [l], and [stored w l mi] is the [MovementInfo] a receiver must end up
    with.  [wf_layout] is the executable condition on layouts under which a
    packet can be read back at all: one run of bits between two runs of bytes,
    each optional block announced before it is used, every guid byte sent
    exactly once. *)

From S2P Require Import Prelude.
From S2P Require Import Floats.
From S2P Require Import ByteBuffer.
From S2P Require Import MovementElements.
From S2P Require Import MovementTables.
From S2P Require Import MovementInfo.
From S2P Require Import MovementCodec.
Local Open Scope Z_scope.

(** The data of one packet: the fields, which optional blocks are present, and
    what the layout's counters carry. *)
Record Wire := mkWire {
  w_mi : MovementInfo;
  w_has : presence -> bool;
  w_spline : bool;
  w_counters : list Z;
  w_unkTime : Z
}.

Definition wire_ok (w : Wire) : Prop :=
  (w_has w hasTransportTime2 = true -> w_has w hasTransportData = true) /\
  (w_has w hasTransportTime3 = true -> w_has w hasTransportData = true) /\
  (w_has w hasFallDirection = true -> w_has w hasFallData = true) /\
  len (w_counters w) < 2 ^ 22.

Definition is_bit (e : MovementStatusElements) : bool :=
  match e with
  | MSEHasGuidByte _ | MSEHasMovementFlags | MSEHasMovementFlags2 | MSEHasTimestamp
  | MSEHasOrientation | MSEHasTransportData | MSEHasTransportGuidByte _
  | MSEHasTransportTime2 | MSEHasTransportTime3 | MSEHasPitch | MSEHasFallData
  | MSEHasFallDirection | MSEHasSplineElevation | MSEHasSpline | MSEMovementFlags
  | MSEMovementFlags2 | MSECounterCount | MSEHasUnkTime | MSEZeroBit | MSEOneBit => true
  | _ => false
  end.

Section Encode.
Context (w : Wire).
Let mi := w_mi w.
Let has := w_has w.
Let guid := ObjectGuid (mi_guid mi).
Let tguid := ObjectGuid (t_guid (mi_transport mi)).

Definition opt {A} (c : bool) (l : list A) : list A := if c then l else [].
Definition nonzero (v : Z) : bool := negb (v =? 0).

Definition enc_bits (e : MovementStatusElements) : list bool :=
  match e with
  | MSEHasGuidByte i => [nonzero (guid_byte i guid)]
  | MSEHasTransportGuidByte i => opt (has hasTransportData) [nonzero (guid_byte i tguid)]
  | MSEHasMovementFlags => [negb (has hasMovementFlags)]
  | MSEHasMovementFlags2 => [negb (has hasMovementFlags2)]
  | MSEHasTimestamp => [negb (has hasTimestamp)]
  | MSEHasOrientation => [negb (has hasOrientation)]
  | MSEHasTransportData => [has hasTransportData]
  | MSEHasTransportTime2 => opt (has hasTransportData) [has hasTransportTime2]
  | MSEHasTransportTime3 => opt (has hasTransportData) [has hasTransportTime3]
  | MSEHasPitch => [negb (has hasPitch)]
  | MSEHasFallData => [has hasFallData]
  | MSEHasFallDirection => opt (has hasFallData) [has hasFallDirection]
  | MSEHasSplineElevation => [negb (has hasSplineElevation)]
  | MSEHasSpline => [w_spline w]
  | MSEMovementFlags => opt (has hasMovementFlags) (low_bits 30 (mi_flags mi))
  | MSEMovementFlags2 => opt (has hasMovementFlags2) (low_bits 13 (mi_flags2 mi))
  | MSECounterCount => low_bits 22 (len (w_counters w))
  | MSEHasUnkTime => [negb (has hasUnkTime)]
  | MSEZeroBit => [false]
  | MSEOneBit => [true]
  | _ => []
  end.

Definition enc_bytes (e : MovementStatusElements) : list Z :=
  let guid_bytes v := opt (nonzero v) (le_bytes 1 (Z.lxor v 1)) in
  let transport := has hasTransportData in
  let fall := has hasFallData in
  let dir := has hasFallDirection in
  match e with
  | MSEGuidByte i => guid_bytes (guid_byte i guid)
  | MSETransportGuidByte i => opt transport (guid_bytes (guid_byte i tguid))
  | MSETimestamp => opt (has hasTimestamp) (le_bytes 4 (mi_time mi))
  | MSEPositionX => le_bytes 4 (m_positionX (mi_pos mi))
  | MSEPositionY => le_bytes 4 (m_positionY (mi_pos mi))
  | MSEPositionZ => le_bytes 4 (m_positionZ (mi_pos mi))
  | MSEOrientation => opt (has hasOrientation) (le_bytes 4 (m_orientation (mi_pos mi)))
  | MSETransportPositionX => opt transport (le_bytes 4 (m_positionX (t_pos (mi_transport mi))))
  | MSETransportPositionY => opt transport (le_bytes 4 (m_positionY (t_pos (mi_transport mi))))
  | MSETransportPositionZ => opt transport (le_bytes 4 (m_positionZ (t_pos (mi_transport mi))))
  | MSETransportOrientation => opt transport (le_bytes 4 (m_orientation (t_pos (mi_transport mi))))
  | MSETransportSeat => opt transport (le_bytes 1 (t_seat (mi_transport mi)))
  | MSETransportTime => opt transport (le_bytes 4 (t_time (mi_transport mi)))
  | MSETransportTime2 => opt (has hasTransportTime2) (le_bytes 4 (t_time2 (mi_transport mi)))
  | MSETransportTime3 => opt (has hasTransportTime3) (le_bytes 4 (t_time3 (mi_transport mi)))
  | MSEPitch => opt (has hasPitch) (le_bytes 4 (mi_pitch mi))
  | MSEFallTime => opt fall (le_bytes 4 (j_fallTime (mi_jump mi)))
  | MSEFallVerticalSpeed => opt fall (le_bytes 4 (j_zspeed (mi_jump mi)))
  | MSEFallCosAngle => opt dir (le_bytes 4 (j_cosAngle (mi_jump mi)))
  | MSEFallSinAngle => opt dir (le_bytes 4 (j_sinAngle (mi_jump mi)))
  | MSEFallHorizontalSpeed => opt dir (le_bytes 4 (j_xyspeed (mi_jump mi)))
  | MSESplineElevation => opt (has hasSplineElevation) (le_bytes 4 (mi_splineElevation mi))
  | MSECounter => flat_map (le_bytes 4) (w_counters w)
  | MSEUnkTime => opt (has hasUnkTime) (le_bytes 4 (w_unkTime w))
  | MSEUintCount => le_bytes 4 0
  | _ => []
  end.

Definition enc_run (l : list MovementStatusElements) : list bool := flat_map enc_bits l.
Definition enc_tail (l : list MovementStatusElements) : list Z := flat_map enc_bytes l.

Fixpoint encode (l : list MovementStatusElements) : list Z :=
  match l with
  | [] => []
  | e :: l' => if is_bit e then pack (enc_run l) ++ enc_tail l
               else enc_bytes e ++ encode l'
  end.

Context (wrap_pi : float32 -> float32).

(** The effect of one data element on the receiver's [MovementInfo]. *)
Definition store (e : MovementStatusElements) (m : MovementInfo) : MovementInfo :=
  let on (c : bool) (f : MovementInfo -> MovementInfo) := if c then f m else m in
  let tr := has hasTransportData in
  match e with
  | MSEMovementFlags => on (has hasMovementFlags) (set_flags (uint 30 (mi_flags mi)))
  | MSEMovementFlags2 => on (has hasMovementFlags2) (set_flags2 (uint 13 (mi_flags2 mi)))
  | MSETimestamp => on (has hasTimestamp) (set_time (u32 (mi_time mi)))
  | MSEPositionX => upd_pos (setX (u32 (m_positionX (mi_pos mi)))) m
  | MSEPositionY => upd_pos (setY (u32 (m_positionY (mi_pos mi)))) m
  | MSEPositionZ => upd_pos (setZ (u32 (m_positionZ (mi_pos mi)))) m
  | MSEOrientation => on (has hasOrientation) (upd_pos (SetOrientation (u32 (m_orientation (mi_pos mi)))))
  | MSETransportPositionX => on tr (upd_transport (upd_t_pos (setX (u32 (m_positionX (t_pos (mi_transport mi)))))))
  | MSETransportPositionY => on tr (upd_transport (upd_t_pos (setY (u32 (m_positionY (t_pos (mi_transport mi)))))))
  | MSETransportPositionZ => on tr (upd_transport (upd_t_pos (setZ (u32 (m_positionZ (t_pos (mi_transport mi)))))))
  | MSETransportOrientation => on tr (upd_transport (upd_t_pos (SetOrientation (u32 (m_orientation (t_pos (mi_transport mi)))))))
  | MSETransportSeat => on tr (upd_transport (set_t_seat (s8 (u8 (t_seat (mi_transport mi))))))
  | MSETransportTime => on tr (upd_transport (set_t_time (u32 (t_time (mi_transport mi)))))
  | MSETransportTime2 => on (has hasTransportTime2) (upd_transport (set_t_time2 (u32 (t_time2 (mi_transport mi)))))
  | MSETransportTime3 => on (has hasTransportTime3) (upd_transport (set_t_time3 (u32 (t_time3 (mi_transport mi)))))
  | MSEPitch => on (has hasPitch) (set_pitch (wrap_pi (u32 (mi_pitch mi))))
  | MSEFallTime => on (has hasFallData) (upd_jump (set_fallTime (u32 (j_fallTime (mi_jump mi)))))
  | MSEFallVerticalSpeed => on (has hasFallData) (upd_jump (set_zspeed (u32 (j_zspeed (mi_jump mi)))))
  | MSEFallCosAngle => on (has hasFallDirection) (upd_jump (set_cosAngle (u32 (j_cosAngle (mi_jump mi)))))
  | MSEFallSinAngle => on (has hasFallDirection) (upd_jump (set_sinAngle (u32 (j_sinAngle (mi_jump mi)))))
  | MSEFallHorizontalSpeed => on (has hasFallDirection) (upd_jump (set_xyspeed (u32 (j_xyspeed (mi_jump mi)))))
  | MSESplineElevation => on (has hasSplineElevation) (set_splineElevation (u32 (mi_splineElevation mi)))
  | _ => m
  end.

Definition stored (l : list MovementStatusElements) (m : MovementInfo) : MovementInfo :=
  fold_left (fun m e => store e m) l m.
End Encode.

(** ** Well-formed layouts *)

(** Elements that must have been read before [e], and elements that must not. *)
Definition deps (e : MovementStatusElements) : list MovementStatusElements :=
  match e with
  | MSEGuidByte i => [MSEHasGuidByte i]
  | MSEHasTransportGuidByte _ | MSEHasTransportTime2 | MSEHasTransportTime3
  | MSETransportPositionX | MSETransportPositionY | MSETransportPositionZ
  | MSETransportOrientation | MSETransportSeat | MSETransportTime => [MSEHasTransportData]
  | MSETransportGuidByte i => [MSEHasTransportData; MSEHasTransportGuidByte i]
  | MSETransportTime2 => [MSEHasTransportData; MSEHasTransportTime2]
  | MSETransportTime3 => [MSEHasTransportData; MSEHasTransportTime3]
  | MSEMovementFlags => [MSEHasMovementFlags]
  | MSEMovementFlags2 => [MSEHasMovementFlags2]
  | MSETimestamp => [MSEHasTimestamp]
  | MSEOrientation => [MSEHasOrientation]
  | MSEPitch => [MSEHasPitch]
  | MSEHasFallDirection | MSEFallTime | MSEFallVerticalSpeed => [MSEHasFallData]
  | MSEFallCosAngle | MSEFallSinAngle | MSEFallHorizontalSpeed =>
      [MSEHasFallData; MSEHasFallDirection]
  | MSESplineElevation => [MSEHasSplineElevation]
  | MSECounter => [MSECounterCount]
  | MSEUnkTime => [MSEHasUnkTime]
  | _ => []
  end.

Definition conflicts (e : MovementStatusElements) : list MovementStatusElements :=
  match e with
  | MSEHasGuidByte i | MSEGuidByte i => [MSEGuidByte i]
  | MSEHasTransportGuidByte i | MSETransportGuidByte i => [MSETransportGuidByte i]
  | _ => []
  end.

(** Elements [ReadMovementInfo] accepts and the wire format covers. *)
Definition readable (e : MovementStatusElements) : bool :=
  match e with
  | MSEUintCount | MSEEnd | MSEExtraElement | MSEExtraFloat | MSEExtraInt8 => false
  | _ => true
  end.

Abbreviation seen_set := (MovementStatusElements -> bool).

Fixpoint deps_ok (seen : seen_set) (l : list MovementStatusElements) : bool :=
  match l with
  | [] => forallb (fun i => seen (MSEGuidByte i) && seen (MSETransportGuidByte i)) guid_indices
  | e :: l' => readable e && forallb seen (deps e) && forallb (fun c => negb (seen c)) (conflicts e)
               && deps_ok (<[e := true]> seen) l'
  end.

(** Phase 0: leading bytes; phase 1: the run of bits; phase 2: trailing bytes. *)
Fixpoint phase_ok (phase : nat) (l : list MovementStatusElements) : bool :=
  match l with
  | [] => true
  | e :: l' =>
      if is_bit e then (phase <? 2)%nat && phase_ok 1 l'
      else phase_ok (match phase with O => O | _ => 2%nat end) l'
  end.

(** The elements before [MSEEnd]; [None] if the array has no terminator. *)
Fixpoint body (l : list MovementStatusElements) : option (list MovementStatusElements) :=
  match l with
  | [] => None
  | MSEEnd :: _ => Some []
  | e :: l' => cons e <$> body l'
  end.

Definition wf_layout (l : list MovementStatusElements) : bool :=
  match body l with
  | Some b => phase_ok 0 b && deps_ok (fun _ => false) b
  | None => false
  end.
