(* ===== verification/MovementProofs.v ===== *)
(** * Movement packets: correctness

    The lemmas the movement theorems stand on: the reader's state follows the
    wire data element by element over a well-formed layout, and the flags that
    announce an optional block are read before the block. *)

From S2P Require Import Prelude.
From S2P Require Import Floats.
From S2P Require Import ByteBuffer.
From S2P Require Import MovementElements.
From S2P Require Import MovementTables.
From S2P Require Import MovementInfo.
From S2P Require Import MovementCodec.
From S2P Require Import MovementWire.
Local Open Scope Z_scope.

(** ** The reader's state against the wire data *)

Definition pres_elem (p : presence) : MovementStatusElements :=
  match p with
  | hasMovementFlags => MSEHasMovementFlags | hasMovementFlags2 => MSEHasMovementFlags2
  | hasTimestamp => MSEHasTimestamp | hasOrientation => MSEHasOrientation
  | hasTransportData => MSEHasTransportData | hasTransportTime2 => MSEHasTransportTime2
  | hasTransportTime3 => MSEHasTransportTime3 | hasPitch => MSEHasPitch
  | hasFallData => MSEHasFallData | hasFallDirection => MSEHasFallDirection
  | hasSplineElevation => MSEHasSplineElevation | hasUnkTime => MSEHasUnkTime
  end.

Lemma pres_elem_inj p q : pres_elem p = pres_elem q -> p = q.
Proof. by destruct p, q. Qed.

(** A guid byte while it is being received: unknown, announced, complete. *)
Definition partial_byte (announced complete : bool) (v : Z) : Z :=
  if complete then v else if announced then Z.b2z (nonzero v) else 0.

Record Decoded (w : Wire) (seen : seen_set) (mi : MovementInfo)
    (x : option ExtraMovementStatusElement) (st : ReadState) : Prop := {
  dec_has p : rs_has st p = seen (pres_elem p) && w_has w p;
  dec_count : rs_counterCount st = if seen MSECounterCount then len (w_counters w) else 0;
  dec_guid_len : length (rs_guid st) = 8%nat;
  dec_guid i : guid_byte i (rs_guid st) =
    partial_byte (seen (MSEHasGuidByte i)) (seen (MSEGuidByte i))
      (guid_byte i (ObjectGuid (mi_guid (w_mi w))));
  dec_tguid_len : length (rs_tguid st) = 8%nat;
  dec_tguid i : guid_byte i (rs_tguid st) =
    if w_has w hasTransportData
    then partial_byte (seen (MSEHasTransportGuidByte i)) (seen (MSETransportGuidByte i))
           (guid_byte i (ObjectGuid (t_guid (mi_transport (w_mi w)))))
    else 0;
  dec_mi : rs_mi st = mi;
  dec_extras : rs_extras st = x
}.

Definition with_packet (p : ByteBuffer) (s : ReadState) : ReadState :=
  mkReadState p (rs_has s) (rs_counterCount s) (rs_guid s) (rs_tguid s) (rs_mi s) (rs_extras s).

Definition untracked (e : MovementStatusElements) : bool :=
  match e with
  | MSEHasGuidByte _ | MSEGuidByte _ | MSEHasTransportGuidByte _ | MSETransportGuidByte _
  | MSEHasMovementFlags | MSEHasMovementFlags2 | MSEHasTimestamp | MSEHasOrientation
  | MSEHasTransportData | MSEHasTransportTime2 | MSEHasTransportTime3 | MSEHasPitch
  | MSEHasFallData | MSEHasFallDirection | MSEHasSplineElevation | MSEHasUnkTime
  | MSECounterCount => false
  | _ => true
  end.

Section DecodedSteps.
Context (w : Wire) (seen : seen_set) (mi : MovementInfo)
  (x : option ExtraMovementStatusElement) (st : ReadState).
Hypothesis HD : Decoded w seen mi x st.

Lemma Decoded_packet p : Decoded w seen mi x (with_packet p st).
Proof. destruct HD. by constructor. Qed.

Lemma Decoded_other e : untracked e = true -> Decoded w (<[e := true]> seen) mi x st.
Proof.
  intros He. destruct HD. constructor; try done.
  - intros p. rewrite fn_lookup_insert_ne; [done|]. intros ->. by destruct p.
  - rewrite fn_lookup_insert_ne; [done|]. by intros ->.
  - intros i. rewrite !fn_lookup_insert_ne; [done|by intros ->..].
  - intros i. rewrite !fn_lookup_insert_ne; [done|by intros ->..].
Qed.

Lemma Decoded_mi f : Decoded w seen (f mi) x (upd_mi f st).2.
Proof. destruct HD. constructor; try done. simpl. congruence. Qed.

Lemma Decoded_has p v : v = w_has w p ->
  Decoded w (<[pres_elem p := true]> seen) mi x (set_has p v st).2.
Proof.
  intros ->. destruct HD. constructor; try done; simpl.
  - intros q. destruct (decide (p = q)) as [->|Hne].
    + by rewrite !fn_lookup_insert.
    + rewrite !fn_lookup_insert_ne; [done|by intros ?%pres_elem_inj|done].
  - rewrite fn_lookup_insert_ne; [done|by destruct p].
  - intros i. rewrite !fn_lookup_insert_ne; [done|by destruct p..].
  - intros i. rewrite !fn_lookup_insert_ne; [done|by destruct p..].
Qed.

Lemma Decoded_count :
  Decoded w (<[MSECounterCount := true]> seen) mi x (set_counterCount (len (w_counters w)) st).2.
Proof.
  destruct HD. constructor; try done; simpl.
  intros q. rewrite fn_lookup_insert_ne; [done|by destruct q].
Qed.

Lemma Decoded_rguid (e : MovementStatusElements) i v :
  (e = MSEHasGuidByte i /\ seen (MSEGuidByte i) = false
     /\ v = Z.b2z (nonzero (guid_byte i (ObjectGuid (mi_guid (w_mi w)))))) \/
  (e = MSEGuidByte i /\ v = guid_byte i (ObjectGuid (mi_guid (w_mi w)))) ->
  Decoded w (<[e := true]> seen) mi x (set_rguid i v st).2.
Proof.
  intros He. destruct HD. constructor; try done; simpl.
  - intros q. rewrite fn_lookup_insert_ne; [done|]. destruct He as [(-> & _)|(-> & _)]; by destruct q.
  - rewrite fn_lookup_insert_ne; [done|]. by destruct He as [(-> & _)|(-> & _)].
  - by rewrite length_set_guid_byte.
  - intros j. rewrite guid_byte_set by done. unfold partial_byte.
    destruct He as [(-> & Hs & ->)|(-> & ->)]; case_decide as Hd; subst;
      repeat first [rewrite fn_lookup_insert | rewrite fn_lookup_insert_ne by congruence];
      rewrite ?Hs; try done; apply dec_guid0.
  - intros j. destruct He as [(-> & _)|(-> & _)]; rewrite !fn_lookup_insert_ne by done; done.
Qed.

Lemma Decoded_tguid (e : MovementStatusElements) i v :
  w_has w hasTransportData = true ->
  (e = MSEHasTransportGuidByte i /\ seen (MSETransportGuidByte i) = false
     /\ v = Z.b2z (nonzero (guid_byte i (ObjectGuid (t_guid (mi_transport (w_mi w))))))) \/
  (e = MSETransportGuidByte i /\ v = guid_byte i (ObjectGuid (t_guid (mi_transport (w_mi w))))) ->
  Decoded w (<[e := true]> seen) mi x (set_tguid i v st).2.
Proof.
  intros Ht He. destruct HD. rewrite Ht in *. constructor; try done; simpl.
  - intros q. rewrite fn_lookup_insert_ne; [done|]. destruct He as [(-> & _)|(-> & _)]; by destruct q.
  - rewrite fn_lookup_insert_ne; [done|]. by destruct He as [(-> & _)|(-> & _)].
  - intros j. destruct He as [(-> & _)|(-> & _)]; rewrite !fn_lookup_insert_ne by done; done.
  - by rewrite length_set_guid_byte.
  - intros j. rewrite Ht, guid_byte_set by done. unfold partial_byte.
    destruct He as [(-> & Hs & ->)|(-> & ->)]; case_decide as Hd; subst;
      repeat first [rewrite fn_lookup_insert | rewrite fn_lookup_insert_ne by congruence];
      rewrite ?Hs; try done; apply dec_tguid0.
Qed.

(** Without transport data the transport guid is never touched. *)
Lemma Decoded_tguid_absent e i :
  w_has w hasTransportData = false ->
  e = MSEHasTransportGuidByte i \/ e = MSETransportGuidByte i ->
  Decoded w (<[e := true]> seen) mi x st.
Proof.
  intros Ht He. destruct HD. rewrite Ht in *. constructor; try done; simpl.
  - intros q. rewrite fn_lookup_insert_ne; [done|]. by destruct He as [->| ->]; destruct q.
  - rewrite fn_lookup_insert_ne; [done|]. by destruct He as [->| ->].
  - intros j. destruct He as [->| ->]; rewrite !fn_lookup_insert_ne by done; done.
  - intros j. by rewrite Ht.
Qed.

(** An optional presence bit that is absent leaves its flag false. *)
Lemma Decoded_has_absent p : w_has w p = false ->
  Decoded w (<[pres_elem p := true]> seen) mi x st.
Proof.
  intros Hp. destruct HD. constructor; try done; simpl.
  - intros q. destruct (decide (p = q)) as [->|Hne].
    + rewrite fn_lookup_insert, dec_has0, Hp. by rewrite andb_false_r.
    + rewrite fn_lookup_insert_ne; [done|by intros ?%pres_elem_inj].
  - rewrite fn_lookup_insert_ne; [done|by destruct p].
  - intros i. rewrite !fn_lookup_insert_ne; [done|by destruct p..].
  - intros i. rewrite !fn_lookup_insert_ne; [done|by destruct p..].
Qed.
End DecodedSteps.

(** ** One element of the reader *)

(** [m] succeeds from [st], decoding up to [seen]/[mi] and leaving [Q]. *)
Definition Step w seen mi x (m : RM unit) st (Q : ByteBuffer -> Prop) : Prop :=
  exists st', m st = (Ok tt, st') /\ Decoded w seen mi x st' /\ Q (rs_packet st').

Lemma rpkt_ok {A} (m : BB A) st a p :
  m (rs_packet st) = (Ok a, p) -> rpkt m st = (Ok a, with_packet p st).
Proof. intros H. unfold rpkt. by rewrite (lift_ok _ _ _ _ _ _ H). Qed.

Lemma if_has_eq ps m st :
  if_has ps m st = if forallb (rs_has st) ps then m st else (Ok tt, st).
Proof. unfold if_has, when, mbind, prog_bind, get. by destruct (forallb _ _). Qed.

Section ReadElement.
Context (w : Wire) (Hw : wire_ok w) (seen : seen_set) (mi : MovementInfo)
  (x : option ExtraMovementStatusElement) (st : ReadState).
Hypothesis HD : Decoded w seen mi x st.

Lemma has_seen p : seen (pres_elem p) = true -> rs_has st p = w_has w p.
Proof. intros Hs. by rewrite (dec_has _ _ _ _ _ HD), Hs. Qed.

Lemma step_skip e (Q : ByteBuffer -> Prop) :
  untracked e = true -> Q (rs_packet st) ->
  Step w (<[e := true]> seen) mi x (mret tt) st Q.
Proof. intros He HQ. exists st. split_and!; [done|by apply Decoded_other|done]. Qed.

Lemma step_has p (f : bool -> bool) b B T :
  f b = w_has w p -> rbits (rs_packet st) (b :: B) T ->
  Step w (<[pres_elem p := true]> seen) mi x
    (y ← rpkt ReadBit; set_has p (f y)) st (fun q => rbits q B T).
Proof.
  intros Hf Hr. destruct (ReadBit_bits _ _ _ _ Hr) as (q & E & Hq).
  eexists. split_and!.
  - rewrite (bind_ok _ _ _ _ _ (rpkt_ok _ _ _ _ E)). done.
  - apply (Decoded_has _ _ _ _ _ (Decoded_packet _ _ _ _ _ HD q) p). done.
  - done.
Qed.

Lemma step_ignored_bit e b B T :
  untracked e = true -> rbits (rs_packet st) (b :: B) T ->
  Step w (<[e := true]> seen) mi x (rpkt ReadBit;; mret tt) st (fun q => rbits q B T).
Proof.
  intros He Hr. destruct (ReadBit_bits _ _ _ _ Hr) as (q & E & Hq).
  eexists. split_and!.
  - rewrite (bind_ok _ _ _ _ _ (rpkt_ok _ _ _ _ E)). done.
  - apply Decoded_other; [by apply Decoded_packet|done].
  - done.
Qed.

Lemma step_bits e n v (f : Z -> MovementInfo -> MovementInfo) B T :
  untracked e = true -> (n <= 32)%nat ->
  rbits (rs_packet st) (low_bits n v ++ B) T ->
  Step w (<[e := true]> seen) (f (uint (Z.of_nat n) v) mi) x
    (y ← rpkt (ReadBits n); upd_mi (f y)) st (fun q => rbits q B T).
Proof.
  intros He Hn Hr. destruct (ReadBits_bits _ _ _ _ _ Hn Hr) as (q & E & Hq).
  eexists. split_and!.
  - rewrite (bind_ok _ _ _ _ _ (rpkt_ok _ _ _ _ E)). done.
  - apply (Decoded_mi _ _ _ _ (with_packet q st)).
    apply Decoded_other; [by apply Decoded_packet|done].
  - done.
Qed.

Lemma step_read e n v (f : Z -> MovementInfo -> MovementInfo) bs lo :
  untracked e = true -> rview (rs_packet st) (le_bytes n v ++ bs) lo ->
  Step w (<[e := true]> seen) (f (uint (8 * Z.of_nat n) v) mi) x
    (read_into n f) st (fun q => rview q bs lo).
Proof.
  intros He Hr.
  destruct (read_view _ _ _ _ n Hr (length_le_bytes _ _)) as (q & E & Hq & _).
  rewrite le_value_bytes in E. unfold read_into. eexists. split_and!.
  - rewrite (bind_ok _ _ _ _ _ (rpkt_ok _ _ _ _ E)). done.
  - apply (Decoded_mi _ _ _ _ (with_packet q st)).
    apply Decoded_other; [by apply Decoded_packet|done].
  - done.
Qed.

(** An element behind presence flags: present, or absent and skipped. *)
Lemma step_if ps m seen' mi' (Q : ByteBuffer -> Prop) :
  Forall (fun p => seen (pres_elem p) = true) ps ->
  (forallb (w_has w) ps = true -> Step w seen' mi' x m st Q) ->
  (forallb (w_has w) ps = false -> Decoded w seen' mi' x st /\ Q (rs_packet st)) ->
  Step w seen' mi' x (if_has ps m) st Q.
Proof.
  intros Hseen Hyes Hno.
  assert (forallb (rs_has st) ps = forallb (w_has w) ps) as E.
  { clear Hyes Hno. induction Hseen as [|p ps Hp _ IH]; [done|]. cbn [forallb].
    by rewrite (has_seen p Hp), IH. }
  unfold Step. rewrite if_has_eq, E. destruct (forallb (w_has w) ps).
  - by apply Hyes.
  - destruct (Hno eq_refl) as [Hd HQ]. by exists st.
Qed.
End ReadElement.

Lemma read_skip_view p n v bs lo :
  rview p (le_bytes n v ++ bs) lo ->
  exists q, read_skip (Z.of_nat n) p = (Ok tt, q) /\ rview q bs lo.
Proof.
  intros (H0 & Hsz & Hmax & Hd & Hbp & Hlo). rewrite length_app, length_le_bytes in Hsz.
  exists (set_rpos (bb_rpos p + Z.of_nat n) p). unfold read_skip.
  rewrite (uint_small 64) by lia.
  destruct (Z.ltb_spec (size p) (bb_rpos p + Z.of_nat n)); [lia|]. split; [done|].
  unfold rview, size in *. cbn [bb_rpos bb_storage bb_bitpos bb_curbitval set_rpos].
  split_and!; try done; try lia.
  replace (Z.to_nat (bb_rpos p + Z.of_nat n)) with (Z.to_nat (bb_rpos p) + n)%nat by lia.
  rewrite <- drop_drop, Hd. by rewrite drop_app_length' by (by rewrite length_le_bytes).
Qed.

Lemma skip_read_skip (vals : list Z) st bs lo :
  rview (rs_packet st) (flat_map (le_bytes 4) vals ++ bs) lo ->
  exists q, forM (replicate (length vals) tt) (fun _ => rpkt (read_skip 4)) st
            = (Ok tt, with_packet q st) /\ rview q bs lo.
Proof.
  revert st. induction vals as [|v vals IH]; intros st Hr.
  - exists (rs_packet st). by destruct st.
  - cbn [flat_map length replicate forM] in *. rewrite <- app_assoc in Hr.
    destruct (read_skip_view _ 4 _ _ _ Hr) as (q & E & Hq).
    destruct (IH (with_packet q st) Hq) as (q' & E' & Hq').
    exists q'. split; [|done]. by rewrite (bind_ok _ _ _ _ _ (rpkt_ok _ _ _ _ E)).
Qed.

(** ** Every element, by case *)

Section Elements.
Context (w : Wire) (Hw : wire_ok w) (wrap_pi : float32 -> float32) (seen : seen_set)
  (mi : MovementInfo) (x : option ExtraMovementStatusElement) (st : ReadState).
Hypothesis HD : Decoded w seen mi x st.

Let deps_seen e := forallb seen (deps e) = true.

(** Solve the side conditions of [step_if]. *)
Ltac seen_deps := subst deps_seen; cbn [deps forallb] in *;
  rewrite ?andb_true_iff in *;
  repeat apply Forall_cons_2; try apply Forall_nil_2; cbn [pres_elem]; tauto.

Lemma ReadElement_guid_bit i B T :
  seen (MSEGuidByte i) = false ->
  rbits (rs_packet st) (enc_bits w (MSEHasGuidByte i) ++ B) T ->
  Step w (<[MSEHasGuidByte i := true]> seen) mi x
    (ReadElement wrap_pi (MSEHasGuidByte i)) st (fun q => rbits q B T).
Proof.
  intros Hs Hr. destruct (ReadBit_bits _ _ _ _ Hr) as (q & E & Hq).
  eexists. split_and!.
  - cbn [ReadElement]. rewrite (bind_ok _ _ _ _ _ (rpkt_ok _ _ _ _ E)). done.
  - apply (Decoded_rguid _ _ _ _ _ (Decoded_packet _ _ _ _ _ HD q)). by left.
  - done.
Qed.

Lemma ReadElement_tguid_bit i B T :
  deps_seen (MSEHasTransportGuidByte i) -> seen (MSETransportGuidByte i) = false ->
  rbits (rs_packet st) (enc_bits w (MSEHasTransportGuidByte i) ++ B) T ->
  Step w (<[MSEHasTransportGuidByte i := true]> seen) mi x
    (ReadElement wrap_pi (MSEHasTransportGuidByte i)) st (fun q => rbits q B T).
Proof.
  intros Hdeps Hs Hr. cbn [ReadElement]. apply (step_if w seen mi x st HD); [seen_deps| |];
    simpl; rewrite andb_true_r; intros Ht; cbn [enc_bits] in Hr; rewrite Ht in Hr.
  - destruct (ReadBit_bits _ _ _ _ Hr) as (q & E & Hq). eexists. split_and!.
    + rewrite (bind_ok _ _ _ _ _ (rpkt_ok _ _ _ _ E)). done.
    + apply (Decoded_tguid _ _ _ _ _ (Decoded_packet _ _ _ _ _ HD q)); [done|by left].
    + done.
  - split; [|done]. eapply Decoded_tguid_absent; [done|done|by left].
Qed.

Lemma ReadElement_bit e B T :
  is_bit e = true -> deps_seen e -> forallb (fun c => negb (seen c)) (conflicts e) = true ->
  rbits (rs_packet st) (enc_bits w e ++ B) T ->
  Step w (<[e := true]> seen) (store w wrap_pi e mi) x (ReadElement wrap_pi e) st
    (fun q => rbits q B T).
Proof.
  intros Hbit Hdeps Hconf Hr. destruct Hw as (Ht2 & Ht3 & Hdir & Hcnt).
  destruct e; try discriminate Hbit.
  1: { apply ReadElement_guid_bit; [|done]. simpl in Hconf. by destruct (seen _). }
  6: { apply ReadElement_tguid_bit; [done| |done]. simpl in Hconf. by destruct (seen _). }
  all: try (cbn [ReadElement store enc_bits] in *;
    first
      [ by apply (step_has w seen mi x st HD) with (f := negb) (2 := Hr); apply negb_involutive
      | by apply (step_has w seen mi x st HD) with (f := id) (2 := Hr)
      | by eapply (step_ignored_bit w seen mi x st HD); [|exact Hr]
      | idtac ]).
  - apply (step_if w seen mi x st HD); [seen_deps| |]; simpl; rewrite andb_true_r; intros Hp;
      rewrite Hp in Hr.
    + by apply (step_has w seen mi x st HD hasTransportTime2 id) with (2 := Hr).
    + split; [|done]. apply (Decoded_has_absent _ _ _ _ _ HD hasTransportTime2).
      destruct (w_has w hasTransportTime2); [|done]. by rewrite Ht2 in Hp.
  - apply (step_if w seen mi x st HD); [seen_deps| |]; simpl; rewrite andb_true_r; intros Hp;
      rewrite Hp in Hr.
    + by apply (step_has w seen mi x st HD hasTransportTime3 id) with (2 := Hr).
    + split; [|done]. apply (Decoded_has_absent _ _ _ _ _ HD hasTransportTime3).
      destruct (w_has w hasTransportTime3); [|done]. by rewrite Ht3 in Hp.
  - apply (step_if w seen mi x st HD); [seen_deps| |]; simpl; rewrite andb_true_r; intros Hp;
      rewrite Hp in Hr.
    + by apply (step_has w seen mi x st HD hasFallDirection id) with (2 := Hr).
    + split; [|done]. apply (Decoded_has_absent _ _ _ _ _ HD hasFallDirection).
      destruct (w_has w hasFallDirection); [|done]. by rewrite Hdir in Hp.
  - apply (step_if w seen mi x st HD); [seen_deps| |]; simpl; rewrite andb_true_r; intros Hp;
      rewrite Hp in *.
    + by apply (step_bits w seen mi x st HD); [|lia|].
    + split; [|done]. by apply Decoded_other.
  - apply (step_if w seen mi x st HD); [seen_deps| |]; simpl; rewrite andb_true_r; intros Hp;
      rewrite Hp in *.
    + by apply (step_bits w seen mi x st HD); [|lia|].
    + split; [|done]. by apply Decoded_other.
  - destruct (ReadBits_bits _ 22 _ _ _ ltac:(lia) Hr) as (q & E & Hq).
    rewrite Z.mod_small in E by (simpl; lia).
    eexists. split_and!.
    + rewrite (bind_ok _ _ _ _ _ (rpkt_ok _ _ _ _ E)). done.
    + apply (Decoded_count _ _ _ _ _ (Decoded_packet _ _ _ _ _ HD q)).
    + done.
Qed.

(** [ReadByteSeq] on an announced byte: the sender's [b ^ 1] is undone. *)
Lemma ReadByteSeq_announced p v bs lo :
  is_byte v -> rview p (opt (nonzero v) (le_bytes 1 (Z.lxor v 1)) ++ bs) lo ->
  exists q, ReadByteSeq (Z.b2z (nonzero v)) p = (Ok v, q) /\ rview q bs lo.
Proof.
  unfold is_byte, nonzero, ReadByteSeq. intros Hv Hr.
  destruct (Z.eqb_spec v 0) as [->|Hne]; cbn [negb Z.b2z opt] in *; [by exists p|].
  assert (0 <= Z.lxor v 1 < 2 ^ 8) as Hx.
  { split; [apply Z.lxor_nonneg; lia|].
    destruct (decide (Z.lxor v 1 = 0)); [lia|].
    apply Z.log2_lt_pow2; [pose proof (proj2 (Z.lxor_nonneg v 1)); lia|].
    eapply Z.le_lt_trans; [apply Z.log2_lxor; lia|].
    apply Z.max_lub_lt; [apply Z.log2_lt_pow2; lia|simpl; lia]. }
  destruct (read_view _ _ _ _ 1 Hr (length_le_bytes _ _)) as (q & E & Hq & _).
  rewrite le_value_bytes, Z.mod_small in E by done.
  exists q. split; [|done]. change (1 =? 0) with false. cbv iota.
  rewrite (bind_ok _ _ _ _ _ E).
  by rewrite (Z.lxor_comm v 1), <- Z.lxor_assoc, Z.lxor_nilpotent, Z.lxor_0_l.
Qed.

Lemma ReadElement_guid_byte i bs lo :
  deps_seen (MSEGuidByte i) -> seen (MSEGuidByte i) = false ->
  rview (rs_packet st) (enc_bytes w (MSEGuidByte i) ++ bs) lo ->
  Step w (<[MSEGuidByte i := true]> seen) mi x
    (ReadElement wrap_pi (MSEGuidByte i)) st (fun q => rview q bs lo).
Proof.
  intros Hdeps Hs Hr. subst deps_seen. cbn [deps forallb] in Hdeps.
  rewrite andb_true_r in Hdeps.
  assert (guid_byte i (rs_guid st) = Z.b2z (nonzero (guid_byte i (ObjectGuid (mi_guid (w_mi w))))))
    as Eg by (rewrite (dec_guid _ _ _ _ _ HD); unfold partial_byte; by rewrite Hs, Hdeps).
  destruct (ReadByteSeq_announced _ _ _ _ (guid_byte_range _ _) Hr) as (q & E & Hq).
  eexists. split_and!.
  - cbn [ReadElement]. rewrite (bind_ok get _ st st st eq_refl), Eg.
    rewrite (bind_ok _ _ _ _ _ (rpkt_ok _ _ _ _ E)). done.
  - apply (Decoded_rguid _ _ _ _ _ (Decoded_packet _ _ _ _ _ HD q)). by right.
  - done.
Qed.

Lemma ReadElement_tguid_byte i bs lo :
  deps_seen (MSETransportGuidByte i) -> seen (MSETransportGuidByte i) = false ->
  rview (rs_packet st) (enc_bytes w (MSETransportGuidByte i) ++ bs) lo ->
  Step w (<[MSETransportGuidByte i := true]> seen) mi x
    (ReadElement wrap_pi (MSETransportGuidByte i)) st (fun q => rview q bs lo).
Proof.
  intros Hdeps Hs Hr. cbn [ReadElement].
  apply (step_if w seen mi x st HD); [seen_deps| |]; simpl; rewrite andb_true_r; intros Ht;
    cbn [enc_bytes] in Hr; rewrite Ht in Hr; cbn [opt] in Hr.
  - subst deps_seen. cbn [deps forallb] in Hdeps. rewrite !andb_true_iff in Hdeps.
    destruct Hdeps as (_ & Hh & _).
    assert (guid_byte i (rs_tguid st) =
      Z.b2z (nonzero (guid_byte i (ObjectGuid (t_guid (mi_transport (w_mi w)))))))
      as Eg by (rewrite (dec_tguid _ _ _ _ _ HD), Ht; unfold partial_byte; by rewrite Hs, Hh).
    destruct (ReadByteSeq_announced _ _ _ _ (guid_byte_range _ _) Hr) as (q & E & Hq).
    eexists. split_and!.
    + rewrite (bind_ok get _ st st st eq_refl), Eg.
      rewrite (bind_ok _ _ _ _ _ (rpkt_ok _ _ _ _ E)). done.
    + apply (Decoded_tguid _ _ _ _ _ (Decoded_packet _ _ _ _ _ HD q)); [done|by right].
    + done.
  - split; [|done]. eapply Decoded_tguid_absent; [done|done|by right].
Qed.

(** Read one field with [read_into]. *)
Ltac read_field Hr :=
  cbn [opt] in Hr;
  match goal with |- Step _ (<[?e := true]> _) _ _ (read_into ?n ?f) _ _ =>
    exact (step_read w seen mi x st HD e n _ f _ _ eq_refl Hr) end.

Lemma absent_direction :
  w_has w hasFallData && w_has w hasFallDirection = false -> w_has w hasFallDirection = false.
Proof.
  destruct Hw as (_ & _ & Hdir & _). destruct (w_has w hasFallDirection); [|done].
  by rewrite Hdir.
Qed.

Lemma ReadElement_counter bs lo :
  seen MSECounterCount = true -> rview (rs_packet st) (enc_bytes w MSECounter ++ bs) lo ->
  Step w (<[MSECounter := true]> seen) mi x (ReadElement wrap_pi MSECounter) st
    (fun q => rview q bs lo).
Proof.
  intros Hs Hr. destruct (skip_read_skip _ _ _ _ Hr) as (q & E & Hq).
  exists (with_packet q st). split_and!; [|by apply Decoded_other; [apply Decoded_packet|]|done].
  cbn [ReadElement]. rewrite (bind_ok get _ st st st eq_refl), (dec_count _ _ _ _ _ HD), Hs.
  by rewrite Nat2Z.id.
Qed.

Lemma ReadElement_byte e bs lo :
  is_bit e = false -> readable e = true -> deps_seen e ->
  forallb (fun c => negb (seen c)) (conflicts e) = true ->
  rview (rs_packet st) (enc_bytes w e ++ bs) lo ->
  Step w (<[e := true]> seen) (store w wrap_pi e mi) x (ReadElement wrap_pi e) st
    (fun q => rview q bs lo).
Proof.
  intros Hbit Hread Hdeps Hconf Hr. destruct Hw as (Ht2 & Ht3 & Hdir & Hcnt).
  destruct e; try discriminate Hbit; try discriminate Hread.
  1: { apply ReadElement_guid_byte; [done| |done]. simpl in Hconf. by destruct (seen _). }
  6: { apply ReadElement_tguid_byte; [done| |done]. simpl in Hconf. by destruct (seen _). }
  all: cbn [ReadElement store enc_bytes] in *.
  all: try read_field Hr.
  all: try (apply (step_if w seen mi x st HD); [seen_deps| |]; cbn [forallb];
    rewrite ?andb_true_r; intros Hp).
  all: try (rewrite Hp in Hr |- *; read_field Hr).
  all: try by (rewrite Hp in Hr |- *; split; [apply Decoded_other|]).
  - apply andb_true_iff in Hp as [Hp Hq]. rewrite Hq in *. read_field Hr.
  - replace (w_has w hasTransportTime2) with false in *
      by (destruct (w_has w hasTransportTime2); [by rewrite Ht2 in Hp|done]).
    split; [by apply Decoded_other|done].
  - apply andb_true_iff in Hp as [Hp Hq]. rewrite Hq in *. read_field Hr.
  - replace (w_has w hasTransportTime3) with false in *
      by (destruct (w_has w hasTransportTime3); [by rewrite Ht3 in Hp|done]).
    split; [by apply Decoded_other|done].
  - apply andb_true_iff in Hp as [Hp Hq]. rewrite Hq in *. read_field Hr.
  - split; [|by rewrite absent_direction in Hr]. rewrite absent_direction by done. by apply Decoded_other.
  - apply andb_true_iff in Hp as [Hp Hq]. rewrite Hq in *. read_field Hr.
  - split; [|by rewrite absent_direction in Hr]. rewrite absent_direction by done. by apply Decoded_other.
  - apply andb_true_iff in Hp as [Hp Hq]. rewrite Hq in *. read_field Hr.
  - split; [|by rewrite absent_direction in Hr]. rewrite absent_direction by done. by apply Decoded_other.
  - apply ReadElement_counter; [|done]. subst deps_seen. simpl in Hdeps. by rewrite andb_true_r in Hdeps.
  - rewrite Hp in Hr. cbn [opt] in Hr.
    destruct (read_skip_view _ 4 _ _ _ Hr) as (q & E & Hq).
    exists (with_packet q st). split_and!; [by apply rpkt_ok| |done].
    apply Decoded_other; [by apply Decoded_packet|done].
  - rewrite Hp in Hr. split; [by apply Decoded_other|done].
Qed.
End Elements.

(** ** The reader on a whole layout *)

Lemma enc_bits_byte w e : is_bit e = false -> enc_bits w e = [].
Proof. by destruct e. Qed.

Lemma enc_bytes_bit w e : is_bit e = true -> enc_bytes w e = [].
Proof. by destruct e. Qed.

Lemma enc_run_bytes w l : phase_ok 2 l = true -> enc_run w l = [].
Proof.
  induction l as [|e l IH]; [done|]. cbn [phase_ok enc_run flat_map].
  destruct (is_bit e) eqn:E; [done|]. intros H. rewrite enc_bits_byte by done. by apply IH.
Qed.

(** What the packet holds when the walk is in a phase of the layout. *)
Definition stream (w : Wire) (rest : list Z) (phase : nat)
    (l : list MovementStatusElements) (p : ByteBuffer) : Prop :=
  match phase with
  | O => rview p (encode w l ++ rest) []
  | S O => rbits p (enc_run w l) (enc_tail w l ++ rest)
  | _ => exists lo, rview p (enc_tail w l ++ rest) lo
  end.

Definition seen_after (seen : seen_set) (l : list MovementStatusElements) : seen_set :=
  fold_left (fun s e => <[e := true]> s) l seen.

Lemma stream_bit w rest phase e l p :
  is_bit e = true -> (phase < 2)%nat -> stream w rest phase (e :: l) p ->
  rbits p (enc_bits w e ++ enc_run w l) (enc_tail w l ++ rest).
Proof.
  intros He Hph Hs. destruct phase as [|[|]]; [| |lia]; cbn [stream encode] in Hs.
  - rewrite He in Hs. cbn [enc_run enc_tail flat_map] in Hs.
    rewrite enc_bytes_bit, app_nil_l, <- app_assoc in Hs by done. by apply rbits_start.
  - cbn [enc_run enc_tail flat_map] in Hs. by rewrite enc_bytes_bit, app_nil_l in Hs by done.
Qed.

Lemma stream_byte w rest phase e l p :
  is_bit e = false -> phase_ok phase (e :: l) = true -> stream w rest phase (e :: l) p ->
  let phase' := match phase with O => O | _ => 2%nat end in
  exists bs lo, rview p (enc_bytes w e ++ bs) lo /\
    forall q, rview q bs lo -> stream w rest phase' l q.
Proof.
  intros He Hok Hs phase'. cbn [phase_ok] in Hok. rewrite He in Hok. fold phase' in Hok.
  destruct phase as [|[|]]; cbn [stream encode] in Hs.
  - rewrite He, <- app_assoc in Hs. by exists (encode w l ++ rest), [].
  - cbn [enc_run enc_tail flat_map] in Hs.
    rewrite enc_bits_byte, app_nil_l in Hs by done.
    change (flat_map (enc_bits w) l) with (enc_run w l) in Hs.
    rewrite enc_run_bytes in Hs by done.
    apply rbits_end in Hs as (lo & Hv). exists (enc_tail w l ++ rest), lo.
    split; [by rewrite app_assoc|]. intros q Hq. by exists lo.
  - destruct Hs as (lo & Hv). cbn [enc_tail flat_map] in Hv.
    exists (enc_tail w l ++ rest), lo. split; [by rewrite app_assoc|]. intros q Hq. by exists lo.
Qed.

Lemma stream_end w rest phase p : stream w rest phase [] p -> exists lo, rview p rest lo.
Proof.
  destruct phase as [|[|]]; cbn [stream]; [by eexists|by apply rbits_end|done].
Qed.

(** A layout's elements follow its head. *)
Lemma body_cons e L l : e <> MSEEnd -> body (e :: L) = Some l ->
  exists l', body L = Some l' /\ l = e :: l'.
Proof.
  intros Hne HL. destruct e; try done; cbn [body] in HL;
    (destruct (body L) as [l'|]; [|done]); injection HL as <-; by exists l'.
Qed.

Lemma read_sequence_cons wrap_pi e L : e <> MSEEnd ->
  read_sequence wrap_pi (e :: L) = (ReadElement wrap_pi e;; read_sequence wrap_pi L).
Proof. intros He. destruct e; first [by elim He | cbn [read_sequence]; reflexivity]. Qed.

Lemma read_sequence_wire w wrap_pi rest x L l phase seen mi st :
  wire_ok w -> body L = Some l -> phase_ok phase l = true -> deps_ok seen l = true ->
  Decoded w seen mi x st -> stream w rest phase l (rs_packet st) ->
  exists st' lo, read_sequence wrap_pi L st = (Ok tt, st')
    /\ Decoded w (seen_after seen l) (stored w wrap_pi l mi) x st'
    /\ rview (rs_packet st') rest lo
    /\ forall i, seen_after seen l (MSEGuidByte i) = true
             /\ seen_after seen l (MSETransportGuidByte i) = true.
Proof.
  intros Hw. revert l phase seen mi st.
  induction L as [|e L IH]; intros l phase seen mi st HL Hph Hdeps HD Hs; [done|].
  destruct (decide (e = MSEEnd)) as [->|Hne].
  - injection HL as <-. destruct (stream_end _ _ _ _ Hs) as (lo & Hv).
    exists st, lo. split_and!; [done..|]. cbn [deps_ok] in Hdeps.
    intros i. rewrite forallb_forall in Hdeps.
    apply andb_true_iff, Hdeps. by destruct i; simpl; tauto.
  - destruct (body_cons _ _ _ Hne HL) as (l' & HL' & ->).
    assert (readable e = true /\ forallb seen (deps e) = true
      /\ forallb (fun c => negb (seen c)) (conflicts e) = true
      /\ deps_ok (<[e := true]> seen) l' = true) as (Hr & Hd & Hc & Hrest).
    { cbn [deps_ok] in Hdeps. rewrite !andb_true_iff in Hdeps. tauto. }
    assert (exists phase' st1, ReadElement wrap_pi e st = (Ok tt, st1)
      /\ Decoded w (<[e := true]> seen) (store w wrap_pi e mi) x st1
      /\ stream w rest phase' l' (rs_packet st1) /\ phase_ok phase' l' = true)
      as (phase' & st1 & E & HD1 & Hs1 & Hph1).
    { destruct (is_bit e) eqn:Hb.
      - cbn [phase_ok] in Hph. rewrite Hb, andb_true_iff, Nat.ltb_lt in Hph.
        destruct Hph as [Hlt Hph]. exists 1%nat.
        destruct (ReadElement_bit w Hw wrap_pi seen mi x st HD e _ _ Hb Hd Hc
          (stream_bit _ _ _ _ _ _ Hb Hlt Hs)) as (st1 & E & HD1 & Hq).
        by exists st1.
      - destruct (stream_byte _ _ _ _ _ _ Hb Hph Hs) as (bs & lo & Hv & Hnext).
        cbn [phase_ok] in Hph. rewrite Hb in Hph. eexists.
        destruct (ReadElement_byte w Hw wrap_pi seen mi x st HD e _ _ Hb Hr Hd Hc Hv)
          as (st1 & E & HD1 & Hq).
        exists st1. split_and!; [done..|by apply Hnext|done]. }
    destruct (IH l' phase' _ _ st1 HL' Hph1 Hrest HD1 Hs1) as (st' & lo & E' & H').
    exists st', lo. split; [|done].
    rewrite read_sequence_cons by done. by rewrite (bind_ok _ _ _ _ _ E).
Qed.
