(* ===== verification/MovementWriter.v ===== *)
(** * The movement packet writer against the wire format

    [WriteMovementInfo] lays a unit's state out as [MovementWire.encode] says,
    for every layout that is one run of bits between two runs of bytes. *)

From S2P Require Import Prelude.
From S2P Require Import Floats.
From S2P Require Import ByteBuffer.
From S2P Require Import MovementElements.
From S2P Require Import MovementTables.
From S2P Require Import MovementInfo.
From S2P Require Import MovementCodec.
From S2P Require Import MovementWire.
From S2P Require Import MovementProofs.
Local Open Scope Z_scope.

(** Elements the writer accepts without an [ExtraMovementStatusElement]. *)
Definition writable (e : MovementStatusElements) : bool :=
  match e with
  | MSEHasUnkTime | MSEUnkTime | MSEEnd | MSEExtraElement | MSEExtraFloat | MSEExtraInt8 => false
  | _ => true
  end.

(** Elements that always put bytes on the wire. *)
Definition solid (e : MovementStatusElements) : bool :=
  match e with
  | MSEPositionX | MSEPositionY | MSEPositionZ | MSEUintCount | MSECounter => true
  | _ => false
  end.

(** Whether bits may be left in the bit accumulator after the elements [l]. *)
Definition pending (b : bool) (l : list MovementStatusElements) : bool :=
  fold_left (fun b e => if is_bit e then true else if solid e then false else b) l b.

Definition occurs (e : MovementStatusElements) (l : list MovementStatusElements) : nat :=
  length (filter (e =.) l).

Section Writer.
Context (fuzzyEq0 : float32 -> bool) (now : Z) (u : Unit_) (counters : list Z).

(** What a unit sends. *)
Definition wire_of_unit : Wire :=
  let mi := un_movementInfo u in
  let has := writer_has fuzzyEq0 u in
  let tguid := if has hasTransportData then un_transGuid u else 0 in
  mkWire
    (mkMovementInfo (un_guid u) (mi_flags mi) (mi_flags2 mi) (un_position u) now
       (set_t_guid tguid (mi_transport mi)) (mi_pitch mi) (mi_jump mi) (mi_splineElevation mi))
    has (un_splineEnabled u) counters 0.
Let w := wire_of_unit.

Lemma wire_of_unit_ok : len counters < 2 ^ 22 -> wire_ok w.
Proof.
  intros Hlen. unfold wire_ok, w, wire_of_unit; simpl. split_and!.
  - by intros [? _]%andb_true_iff.
  - done.
  - by intros ->.
  - done.
Qed.

Lemma wpkt_ok {A} (m : BB A) s a p :
  m (ws_packet s) = (Ok a, p) -> wpkt m s = (Ok a, mkWriteState p (ws_unit s) (ws_extras s)).
Proof. intros H. unfold wpkt. by rewrite (lift_ok _ _ _ _ _ _ H). Qed.

Definition room_for (bs : list Z) (run : list bool) : Prop := len (bs ++ pack run) < 10000000.

(** [m] puts [bits] after the run, or [bytes] after the flushed run. *)
Definition puts_bits (m : WM unit) bits := forall s bs run,
  wrun (ws_packet s) bs run -> room_for bs (run ++ bits) ->
  exists s', m s = (Ok tt, s') /\ wrun (ws_packet s') bs (run ++ bits)
    /\ ws_unit s' = ws_unit s /\ ws_extras s' = ws_extras s.

Definition puts_bytes (m : WM unit) bytes := forall s bs run,
  wrun (ws_packet s) bs run -> room_for bs run ->
  exists s', m s = (Ok tt, s')
    /\ (bytes = [] /\ wrun (ws_packet s') bs run
        \/ wrun (ws_packet s') ((bs ++ pack run) ++ bytes) [])
    /\ ws_unit s' = ws_unit s /\ ws_extras s' = ws_extras s.

Lemma puts_bit x b : negb (x =? 0) = b -> puts_bits (wpkt (WriteBit x);; mret tt) [b].
Proof.
  intros <- s bs run Hrun Hroom. pose proof (pack_mono run [negb (x =? 0)]).
  unfold room_for in Hroom. rewrite length_app in Hroom.
  pose proof (wrun_size _ _ _ Hrun) as Hsz. rewrite length_app in Hsz.
  destruct (WriteBit_run _ _ _ x Hrun) as (p & E & Hp); [unfold room; lia|].
  eexists. rewrite (bind_ok _ _ _ _ _ (wpkt_ok _ _ _ _ E)). done.
Qed.

Lemma puts_flag c : puts_bits (wpkt (WriteBit (Z.b2z c));; mret tt) [c].
Proof. apply puts_bit. by destruct c. Qed.

Lemma puts_low_bits n v : puts_bits (wpkt (WriteBits v n)) (low_bits n v).
Proof.
  intros s bs run Hrun Hroom.
  destruct (WriteBits_run _ _ _ v n Hrun Hroom) as (p & E & Hp).
  eexists. by rewrite (wpkt_ok _ _ _ _ E).
Qed.

Lemma puts_when_bits c m bits : puts_bits m bits -> puts_bits (when c m) (opt c bits).
Proof.
  intros Hm. destruct c; [done|]. intros s bs run Hrun Hroom. exists s.
  by rewrite app_nil_r.
Qed.

Lemma puts_append n v : (0 < n)%nat -> puts_bytes (wpkt (append n v)) (le_bytes n v).
Proof.
  intros Hn s bs run Hrun Hroom.
  destruct (append_run _ _ _ n v Hn Hrun Hroom) as (p & E & Hp).
  eexists. rewrite (wpkt_ok _ _ _ _ E). split_and!; [done|by right|done..].
Qed.

Lemma puts_byte_seq v :
  puts_bytes (wpkt (WriteByteSeq v)) (opt (nonzero v) (le_bytes 1 (Z.lxor v 1))).
Proof.
  intros s bs run Hrun Hroom.
  destruct (WriteByteSeq_run _ _ _ v Hrun Hroom) as (p & E & Hp).
  eexists. rewrite (wpkt_ok _ _ _ _ E). split_and!; [done| |done..]. unfold nonzero.
  destruct (v =? 0); [subst p; by left|by right].
Qed.

Lemma puts_when_bytes c m bytes : puts_bytes m bytes -> puts_bytes (when c m) (opt c bytes).
Proof.
  intros Hm. destruct c; [done|]. intros s bs run Hrun Hroom. exists s.
  split_and!; [done|by left|done..].
Qed.
Lemma WriteElement_bit e :
  is_bit e = true -> writable e = true -> (e = MSECounterCount -> counters = []) ->
  puts_bits (WriteElement fuzzyEq0 now u e) (enc_bits w e).
Proof.
  intros Hb Hw Hc. destruct e; try discriminate Hb; try discriminate Hw;
    cbn [WriteElement enc_bits]; try apply puts_when_bits; try apply puts_flag;
    try apply puts_low_bits; try (by apply puts_bit).
  cbn [w wire_of_unit w_counters]. rewrite Hc by done. apply puts_low_bits.
Qed.

Lemma enc_dir (c d : bool) (l : list Z) : (d = true -> c = true) -> opt d l = opt (c && d) l.
Proof. intros H. destruct d; [by rewrite H|by rewrite andb_false_r]. Qed.

Lemma WriteElement_byte e :
  is_bit e = false -> writable e = true -> e <> MSECounter ->
  puts_bytes (WriteElement fuzzyEq0 now u e) (enc_bytes w e).
Proof.
  intros Hb Hw Hc.
  assert (w_has w hasTransportTime2 = true -> w_has w hasTransportData = true) as Ht2
    by (cbn; by intros [? _]%andb_true_iff).
  assert (w_has w hasFallDirection = true -> w_has w hasFallData = true) as Hdir
    by (cbn; by intros ->).
  destruct e; try discriminate Hb; try discriminate Hw; try done;
    cbn [WriteElement enc_bytes].
  all: try (by apply puts_append; lia).
  all: try (by apply puts_byte_seq).
  all: try (by apply puts_when_bytes, puts_append; lia).
  all: try (by apply puts_when_bytes, puts_byte_seq).
  all: match goal with |- puts_bytes (when (?c && ?d) _) _ =>
    change (w_has w _) with d; rewrite (enc_dir c d) by done end.
  all: by apply puts_when_bytes, puts_append; lia.
Qed.

Lemma write_sequence_cons e L : e <> MSEEnd ->
  write_sequence fuzzyEq0 now u (e :: L) =
    (WriteElement fuzzyEq0 now u e;; write_sequence fuzzyEq0 now u L).
Proof. intros He. destruct e; first [by elim He | cbn [write_sequence]; reflexivity]. Qed.

(** What the elements [l] add to a packet, in a phase of the layout. *)
Definition written (phase : nat) (bs : list Z) (run : list bool)
    (l : list MovementStatusElements) : list Z :=
  match phase with
  | O => bs ++ encode w l
  | _ => bs ++ pack (run ++ enc_run w l) ++ enc_tail w l
  end.

Definition wstate (phase : nat) (b : bool) (run : list bool) : Prop :=
  (phase = O \/ b = false) -> run = [].

Lemma written_bit phase bs run b e l :
  is_bit e = true -> (phase < 2)%nat -> wstate phase b run ->
  written phase bs run (e :: l) = written 1 bs (run ++ enc_bits w e) l.
Proof.
  intros Hb Hlt Hst. destruct phase as [|phase]; cbn [written encode];
    cbn [enc_run enc_tail flat_map]; rewrite enc_bytes_bit, app_nil_l by done.
  - rewrite (Hst (or_introl eq_refl)), Hb. by cbn [app].
  - by rewrite <- app_assoc.
Qed.

Lemma written_byte phase b bs run e l :
  is_bit e = false -> phase_ok phase (e :: l) = true -> wstate phase b run ->
  written phase bs run (e :: l) =
    (bs ++ pack run) ++ enc_bytes w e ++ match phase with O => encode w l | _ => enc_tail w l end.
Proof.
  intros Hb Hph Hst. cbn [phase_ok] in Hph. rewrite Hb in Hph.
  destruct phase as [|phase]; cbn [written encode].
  - rewrite (Hst (or_introl eq_refl)), Hb. cbn. by rewrite app_nil_r.
  - cbn [enc_run enc_tail flat_map]. rewrite enc_bits_byte by done.
    change (flat_map (enc_bits w) l) with (enc_run w l).
    rewrite enc_run_bytes by done. by rewrite app_nil_r, <- app_assoc.
Qed.

Lemma WriteElement_emits e s bs run :
  is_bit e = false -> writable e = true ->
  (e = MSECounter -> counters = [un_movementCounter (ws_unit s)]) ->
  wrun (ws_packet s) bs run -> room_for bs run ->
  exists s', WriteElement fuzzyEq0 now u e s = (Ok tt, s')
    /\ (enc_bytes w e = [] /\ wrun (ws_packet s') bs run
        \/ wrun (ws_packet s') ((bs ++ pack run) ++ enc_bytes w e) [])
    /\ (e <> MSECounter -> ws_unit s' = ws_unit s) /\ ws_extras s' = ws_extras s.
Proof.
  intros Hb Hw Hct Hrun Hroom. destruct (decide (e = MSECounter)) as [->|Hne].
  - cbn [WriteElement enc_bytes w wire_of_unit w_counters flat_map].
    rewrite Hct by done. cbn [flat_map]. rewrite app_nil_r.
    rewrite (bind_ok get _ s s s eq_refl).
    erewrite bind_ok by done.
    destruct (puts_append 4 (un_movementCounter (ws_unit s)) ltac:(lia)
      (mkWriteState (ws_packet s) (bump_counter (ws_unit s)) (ws_extras s)) _ _ Hrun Hroom)
      as (s' & E & Hr & _ & Hx).
    by exists s'.
  - destruct (WriteElement_byte e Hb Hw Hne s bs run Hrun Hroom) as (s' & E & Hr & Hu & Hx).
    by exists s'.
Qed.

(** One element: the packet grows by its encoding, or the bits wait. *)
Lemma WriteElement_step e l phase b s bs run :
  writable e = true -> phase_ok phase (e :: l) = true ->
  (e = MSECounterCount -> counters = []) ->
  (e = MSECounter -> counters = [un_movementCounter (ws_unit s)]) ->
  wstate phase b run -> wrun (ws_packet s) bs run ->
  len (written phase bs run (e :: l)) < 10000000 ->
  exists s' phase' bs' run', WriteElement fuzzyEq0 now u e s = (Ok tt, s')
    /\ phase_ok phase' l = true /\ wrun (ws_packet s') bs' run'
    /\ wstate phase' (pending b [e]) run'
    /\ written phase' bs' run' l = written phase bs run (e :: l)
    /\ (e <> MSECounter -> ws_unit s' = ws_unit s) /\ ws_extras s' = ws_extras s.
Proof.
  intros Hw Hph Hcc Hct Hst Hrun Hlen.
  destruct (is_bit e) eqn:Hb.
  - cbn [phase_ok] in Hph. rewrite Hb, andb_true_iff, Nat.ltb_lt in Hph. destruct Hph as [Hlt Hph].
    rewrite (written_bit _ _ _ b) in Hlen by done.
    destruct (WriteElement_bit e Hb Hw Hcc s bs run Hrun) as (s' & E & Hr & Hu & Hx).
    { unfold room_for. pose proof (pack_mono (run ++ enc_bits w e) (enc_run w l)).
      cbn [written] in Hlen. rewrite !length_app in *. lia. }
    exists s', 1%nat, bs, (run ++ enc_bits w e).
    split_and!; try done.
    + intros [?|?]; [done|]. unfold pending in *; cbn in *. by rewrite Hb in *.
    + by rewrite (written_bit _ _ _ b).
  - rewrite (written_byte phase b) in Hlen |- * by done.
    destruct (WriteElement_emits e s bs run) as (s' & E & Hr & Hu & Hx); try done.
    { unfold room_for. rewrite !length_app in *. lia. }
    exists s', (match phase with O => O | _ => 2%nat end).
    assert (phase_ok (match phase with O => O | _ => 2%nat end) l = true) as Hph'
      by (cbn [phase_ok] in Hph; by rewrite Hb in Hph).
    destruct Hr as [[He Hr]|Hr].
    + exists bs, run. split_and!; try done.
      * intros Hor. apply Hst. destruct Hor as [Hor|Hor]; [left; by destruct phase|].
        right. unfold pending in Hor; cbn in Hor. rewrite Hb in Hor.
        destruct e; cbn in Hor, He; try done. by rewrite Hct in He.
      * rewrite He, app_nil_l. destruct phase; cbn [written].
        -- rewrite (Hst (or_introl eq_refl)). by rewrite app_nil_r.
        -- by rewrite enc_run_bytes, app_nil_r, <- app_assoc.
    + eexists _, []. split_and!; try done.
      destruct phase; cbn [written]; rewrite <- ?app_assoc; [done|].
      by rewrite enc_run_bytes.
Qed.
Lemma write_sequence_wire L l phase b s bs run :
  body L = Some l -> forallb writable l = true -> phase_ok phase l = true ->
  (MSECounterCount ∈ l -> counters = []) ->
  (MSECounter ∈ l -> counters = [un_movementCounter (ws_unit s)]) ->
  (occurs MSECounter l <= 1)%nat ->
  wstate phase b run -> wrun (ws_packet s) bs run ->
  len (written phase bs run l) < 10000000 ->
  exists s' phase' bs' run', write_sequence fuzzyEq0 now u L s = (Ok tt, s')
    /\ wrun (ws_packet s') bs' run' /\ wstate phase' (pending b l) run'
    /\ bs' ++ pack run' = written phase bs run l /\ ws_extras s' = ws_extras s.
Proof.
  revert l phase b s bs run. induction L as [|e L IH];
    intros l phase b s bs run HL Hw Hph Hcc Hct Hone Hst Hrun Hlen; [done|].
  destruct (decide (e = MSEEnd)) as [->|Hne].
  - injection HL as <-. exists s, phase, bs, run. split_and!; try done.
    destruct phase; cbn [written encode enc_run enc_tail flat_map]; rewrite ?app_nil_r; [|done].
    rewrite (Hst (or_introl eq_refl)). by rewrite app_nil_r.
  - destruct (body_cons _ _ _ Hne HL) as (l' & HL' & ->).
    cbn [forallb] in Hw. apply andb_true_iff in Hw as [Hwe Hw].
    destruct (WriteElement_step e l' phase b s bs run Hwe Hph)
      as (s1 & phase1 & bs1 & run1 & E & Hph1 & Hrun1 & Hst1 & Hwr & Hu & Hx); try done.
    { intros ->. apply Hcc. left. }
    { intros ->. apply Hct. left. }
    rewrite <- Hwr in Hlen |- *.
    destruct (IH l' phase1 (pending b [e]) s1 bs1 run1)
      as (s' & phase' & bs' & run' & E' & H'); try done.
    { intros Hin. apply Hcc. by right. }
    { intros Hin. destruct (decide (e = MSECounter)) as [->|Hc].
      - exfalso. unfold occurs in Hone. rewrite filter_cons_True in Hone by done.
        assert (MSECounter ∈ filter (MSECounter =.) l') as Hf by by apply list_elem_of_filter.
        apply list_elem_of_split in Hf as (l1 & l2 & Hf). rewrite Hf in Hone.
        simpl in Hone. rewrite length_app in Hone. simpl in Hone. lia.
      - rewrite Hu by done. apply Hct. by right. }
    { unfold occurs in *. rewrite filter_cons in Hone. case_decide; simpl in Hone; lia. }
    exists s', phase', bs', run'. rewrite write_sequence_cons by done.
    rewrite (bind_ok _ _ _ _ _ E). destruct H' as (? & ? & ? & Hx').
    split_and!; try done. by rewrite Hx', Hx.
Qed.
End Writer.

(** The counters a layout carries: the server always announces none, and sends
    its own movement counter where the layout has [MSECounter] alone. *)
Definition counters_of (l : list MovementStatusElements) (u : Unit_) : list Z :=
  if bool_decide (MSECounter ∈ l) then [un_movementCounter u] else [].

Definition counter_ok (l : list MovementStatusElements) : bool :=
  (occurs MSECounter l =? 0)%nat
  || (occurs MSECounter l =? 1)%nat && (occurs MSECounterCount l =? 0)%nat.

Definition writable_layout (l : list MovementStatusElements) : bool :=
  forallb writable l && phase_ok 0 l && negb (pending false l) && counter_ok l.

Lemma occurs_0 e l : occurs e l = 0%nat -> e ∉ l.
Proof.
  intros H Hin. assert (e ∈ filter (e =.) l) as Hf by by apply list_elem_of_filter.
  unfold occurs in H. apply length_zero_iff_nil in H. rewrite H in Hf.
  by apply not_elem_of_nil in Hf.
Qed.

Lemma WriteMovementInfo_run fuzzyEq0 now opcode L l s bs :
  GetMovementStatusElementsSequence opcode = Some L -> body L = Some l ->
  writable_layout l = true -> wrun (ws_packet s) bs [] ->
  let w := wire_of_unit fuzzyEq0 now (ws_unit s) (counters_of l (ws_unit s)) in
  len (bs ++ encode w l) < 10000000 ->
  exists s', WriteMovementInfo fuzzyEq0 now opcode s = (Ok tt, s')
    /\ wrun (ws_packet s') (bs ++ encode w l) [] /\ ws_extras s' = ws_extras s.
Proof.
  intros HL Hl Hok Hrun w Hlen. unfold writable_layout in Hok.
  rewrite !andb_true_iff, negb_true_iff in Hok. destruct Hok as [[[Hw Hph] Hpend] Hc].
  unfold counter_ok in Hc. rewrite orb_true_iff, andb_true_iff, !Nat.eqb_eq in Hc.
  destruct (write_sequence_wire fuzzyEq0 now (ws_unit s) (counters_of l (ws_unit s))
    L l 0 false s bs []) as (s' & phase' & bs' & run' & E & Hrun' & Hst & Hbs & Hx); try done.
  - intros Hin. unfold counters_of. rewrite bool_decide_eq_false_2; [done|].
    destruct Hc as [Hc|[_ Hc]]; [by apply occurs_0|]. by apply occurs_0 in Hc.
  - intros Hin. unfold counters_of. by rewrite bool_decide_eq_true_2.
  - lia.
  - exists s'. rewrite (Hst (or_intror Hpend)), app_nil_r in *. cbn [written] in Hbs.
    unfold WriteMovementInfo. rewrite (bind_ok get _ s s s eq_refl), HL, E. by subst bs'.
Qed.
