(* ===== verification/MovementSpec.v ===== *)
(** * Movement packets: what the server accepts and what it broadcasts

    The reader and the writer against the wire format of [MovementWire]. *)

From S2P Require Import Prelude.
From S2P Require Import Floats.
From S2P Require Import ByteBuffer.
From S2P Require Import MovementElements.
From S2P Require Import MovementTables.
From S2P Require Import MovementInfo.
From S2P Require Import MovementCodec.
From S2P Require Import MovementSanitize.
From S2P Require Import MovementWire.
From S2P Require Import MovementProofs.
From S2P Require Import MovementWriter.
Local Open Scope Z_scope.

(** ** The reader *)

(** The presence flags a reader of the layout [l] ends with. *)
Definition announced (w : Wire) (l : list MovementStatusElements) (p : presence) : bool :=
  seen_after (fun _ => false) l (pres_elem p) && w_has w p.

(** The receiver's [MovementInfo] once the two guids are copied into it. *)
Definition received (w : Wire) (wrap_pi : float32 -> float32)
    (l : list MovementStatusElements) (mi : MovementInfo) : MovementInfo :=
  upd_transport
    (set_t_guid (if w_has w hasTransportData then u64 (t_guid (mi_transport (w_mi w))) else 0))
    (set_guid (u64 (mi_guid (w_mi w))) (stored w wrap_pi l mi)).

Lemma sanitize_ext fuzzyEq0 pc h h' mi : (forall p, h p = h' p) ->
  sanitize fuzzyEq0 pc h mi = sanitize fuzzyEq0 pc h' mi.
Proof. intros H. unfold sanitize. by rewrite !H. Qed.

Lemma Decoded_start w p mi x : Decoded w (fun _ => false) mi x (read_start p mi x).
Proof.
  constructor; try done.
  - intros i. by destruct i.
  - intros i. by destruct (w_has w hasTransportData), i.
Qed.

Lemma ObjectGuid_value_bytes v : ObjectGuid_value (ObjectGuid v) = u64 v.
Proof. unfold ObjectGuid_value, ObjectGuid. by rewrite le_value_bytes. Qed.

(** Once every byte is in, the received guids are the sender's. *)
Lemma Decoded_guids w seen mi x st :
  Decoded w seen mi x st ->
  (forall i, seen (MSEGuidByte i) = true /\ seen (MSETransportGuidByte i) = true) ->
  ObjectGuid_value (rs_guid st) = u64 (mi_guid (w_mi w)) /\
  ObjectGuid_value (rs_tguid st) =
    (if w_has w hasTransportData then u64 (t_guid (mi_transport (w_mi w))) else 0).
Proof.
  intros HD Hall. split.
  - rewrite <- ObjectGuid_value_bytes. f_equal.
    apply guid_bytes_eq; [apply (dec_guid_len _ _ _ _ _ HD)|apply length_ObjectGuid|].
    intros i. rewrite (dec_guid _ _ _ _ _ HD). unfold partial_byte.
    by rewrite (proj1 (Hall i)).
  - transitivity (ObjectGuid_value
      (ObjectGuid (if w_has w hasTransportData then t_guid (mi_transport (w_mi w)) else 0))).
    2: { rewrite ObjectGuid_value_bytes. by destruct (w_has w hasTransportData). }
    f_equal. apply guid_bytes_eq; [apply (dec_tguid_len _ _ _ _ _ HD)|apply length_ObjectGuid|].
    intros i. rewrite (dec_tguid _ _ _ _ _ HD). unfold partial_byte.
    rewrite (proj2 (Hall i)). destruct (w_has w hasTransportData); [done|by destruct i].
Qed.

Lemma read_wire wrap_pi fuzzyEq0 pc opcode L l w rest packet mi x :
  GetMovementStatusElementsSequence opcode = Some L -> wf_layout L = true ->
  body L = Some l -> wire_ok w -> rview packet (encode w l ++ rest) [] ->
  exists packet' lo, ReadMovementInfo wrap_pi fuzzyEq0 pc opcode packet mi x =
      Ok (sanitize fuzzyEq0 pc (announced w l) (received w wrap_pi l mi), packet', x)
    /\ rview packet' rest lo.
Proof.
  intros HL Hwf Hl Hw Hv. unfold wf_layout in Hwf.
  rewrite Hl, andb_true_iff in Hwf. destruct Hwf as [Hph Hdeps].
  destruct (read_sequence_wire w wrap_pi rest x L l 0 _ mi (read_start packet mi x)
    Hw Hl Hph Hdeps (Decoded_start _ _ _ _) Hv) as (st & lo & E & HD & Hv' & Hall).
  destruct (Decoded_guids _ _ _ _ _ HD Hall) as [Hg Htg].
  unfold ReadMovementInfo. rewrite HL, E, Hg, Htg.
  rewrite (dec_mi _ _ _ _ _ HD), (dec_extras _ _ _ _ _ HD).
  exists (rs_packet st), lo. split; [|done]. unfold received. do 3 f_equal.
  apply sanitize_ext. apply (dec_has _ _ _ _ _ HD).
Qed.

(** C15. Reading a movement packet recovers what the wire format says: for every
    opcode with a well-formed layout, [ReadMovementInfo] on the packet's bytes
    succeeds, yields exactly the transmitted fields and guids passed through
    the anti-cheat filter, and stops at the end of the packet. *)
Theorem ReadMovementInfo_decodes wrap_pi fuzzyEq0 pc opcode L l w rest mi x :
  GetMovementStatusElementsSequence opcode = Some L -> wf_layout L = true ->
  body L = Some l -> wire_ok w -> len (encode w l ++ rest) < 2 ^ 62 ->
  exists packet', ReadMovementInfo wrap_pi fuzzyEq0 pc opcode
      (ByteBuffer_of_bytes (encode w l ++ rest)) mi x =
      Ok (sanitize fuzzyEq0 pc (announced w l) (received w wrap_pi l mi), packet', x)
    /\ drop (Z.to_nat (bb_rpos packet')) (bb_storage packet') = rest.
Proof.
  intros HL Hwf Hl Hw Hlen.
  destruct (read_wire wrap_pi fuzzyEq0 pc opcode L l w rest _ mi x HL Hwf Hl Hw
    (rview_of_bytes _ Hlen)) as (packet' & lo & E & _ & _ & _ & Hd & _).
  by exists packet'.
Qed.

(** A rider of transport 7 turning while falling, with a 2-entry counter. *)
Definition sample_wire : Wire :=
  mkWire
    (mkMovementInfo 81985529216486895 2049 16 (mkPosition 1065353216 1073741824 1077936128 0) 99
       (mkTransportInfo 7 (mkPosition 0 1065353216 0 0) 1 5 6 0) 0
       (mkJumpInfo 12 0 0 1065353216 1073741824) 0)
    (fun p => match p with
              | hasTransportTime3 | hasPitch | hasSplineElevation | hasUnkTime => false
              | _ => true end)
    false [17; 18] 0.

Definition no_checks : PlayerChecks := mkPlayerChecks true true true false true true.

Lemma ReadMovementInfo_decodes_witness :
  exists packet', ReadMovementInfo id (fun v => v =? 0) no_checks MSG_MOVE_FALL_LAND
      (ByteBuffer_of_bytes (encode sample_wire (take 71 MovementFallLand) ++ [1; 2])) MovementInfo_new None =
      Ok (sanitize (fun v => v =? 0) no_checks (announced sample_wire (take 71 MovementFallLand))
            (received sample_wire id (take 71 MovementFallLand) MovementInfo_new), packet', None)
    /\ drop (Z.to_nat (bb_rpos packet')) (bb_storage packet') = [1; 2].
Proof.
  apply (ReadMovementInfo_decodes id _ _ _ MovementFallLand).
  - reflexivity.
  - vm_compute. reflexivity.
  - vm_compute. reflexivity.
  - split_and!; vm_compute; done.
  - vm_compute. reflexivity.
Defined.

(** ** The layouts in use *)

(** Opcodes whose packets [ReadMovementInfo] can read back. *)
Definition reads_back (opcode : Opcodes) : bool :=
  match opcode with
  | SMSG_MOVE_SET_RUN_SPEED | SMSG_MOVE_SET_FLIGHT_SPEED | SMSG_MOVE_SET_CAN_FLY
  | SMSG_MOVE_UNSET_CAN_FLY | SMSG_MOVE_ROOT | SMSG_MOVE_UNROOT => false
  | _ => true
  end.

(** Opcodes the server sends without an [ExtraMovementStatusElement]. *)
Definition server_sends (opcode : Opcodes) : bool :=
  match opcode with
  | SMSG_PLAYER_MOVE | SMSG_MOVE_SET_CAN_FLY | SMSG_MOVE_UNSET_CAN_FLY
  | SMSG_MOVE_ROOT | SMSG_MOVE_UNROOT => true
  | _ => false
  end.

(** Every layout in use is terminated; the client's layouts and the
    broadcast one are well formed for reading; the server's plain layouts are
    exactly the ones that can be written. *)
Theorem live_layouts_wf opcode L :
  GetMovementStatusElementsSequence opcode = Some L ->
  exists l, body L = Some l /\ wf_layout L = reads_back opcode
    /\ writable_layout l = server_sends opcode.
Proof.
  intros H. destruct opcode; try discriminate H; injection H as <-;
    eexists; (split; [vm_compute; reflexivity|split; vm_compute; reflexivity]).
Qed.

Lemma live_layouts_wf_witness :
  exists l, body PlayerMove = Some l /\ wf_layout PlayerMove = true /\ writable_layout l = true.
Proof. exact (live_layouts_wf SMSG_PLAYER_MOVE PlayerMove eq_refl). Defined.

(** ** The writer *)

(** [WriteMovementInfo] lays the unit out as the wire format says: from a
    packet holding the bytes [bs] it succeeds, appends exactly the encoding of
    the unit under the opcode's layout, and leaves no bits unflushed. *)
Theorem WriteMovementInfo_wire fuzzyEq0 now opcode L l s bs :
  GetMovementStatusElementsSequence opcode = Some L -> body L = Some l ->
  writable_layout l = true -> wrun (ws_packet s) bs [] ->
  let w := wire_of_unit fuzzyEq0 now (ws_unit s) (counters_of l (ws_unit s)) in
  len (bs ++ encode w l) < 10000000 ->
  exists s', WriteMovementInfo fuzzyEq0 now opcode s = (Ok tt, s')
    /\ bb_storage (ws_packet s') = bs ++ encode w l
    /\ wrun (ws_packet s') (bs ++ encode w l) [].
Proof.
  intros HL Hl Hok Hrun w Hlen.
  destruct (WriteMovementInfo_run fuzzyEq0 now opcode L l s bs HL Hl Hok Hrun Hlen)
    as (s' & E & Hrun' & _).
  exists s'. split_and!; [done| |done]. by apply wrun_done.
Qed.

Definition sample_unit : Unit_ :=
  mkUnit 513 7 (mkPosition 1065353216 0 1073741824 0)
    (mkMovementInfo 0 2049 0 Position_zero 0 (mkTransportInfo 0 Position_zero 2 30 0 0) 0
       (mkJumpInfo 40 0 0 0 0) 0) false 5.

Lemma WriteMovementInfo_wire_witness :
  let l := take 17 MoveRoot in
  let w := wire_of_unit (fun v => v =? 0) 99 sample_unit (counters_of l sample_unit) in
  exists s', WriteMovementInfo (fun v => v =? 0) 99 SMSG_MOVE_ROOT
      (mkWriteState ByteBuffer_new sample_unit None) = (Ok tt, s')
    /\ bb_storage (ws_packet s') = [] ++ encode w l
    /\ wrun (ws_packet s') ([] ++ encode w l) [].
Proof.
  apply (WriteMovementInfo_wire _ _ SMSG_MOVE_ROOT MoveRoot (take 17 MoveRoot)).
  - reflexivity.
  - vm_compute. reflexivity.
  - vm_compute. reflexivity.
  - apply wrun_new.
  - vm_compute. reflexivity.
Defined.

(** ** From the server's broadcast back to a movement state *)

Lemma opt_length {A} c (l : list A) k : (length l <= k)%nat -> (length (opt c l) <= k)%nat.
Proof. destruct c; simpl; lia. Qed.

Lemma enc_bits_length w e : (length (enc_bits w e) <= 30)%nat.
Proof.
  destruct e; cbn [enc_bits]; repeat apply opt_length; rewrite ?length_low_bits; simpl; lia.
Qed.

Lemma enc_bytes_length w e : (length (enc_bytes w e) <= 4 * S (length (w_counters w)))%nat.
Proof.
  destruct e; cbn [enc_bytes]; repeat apply opt_length; rewrite ?length_le_bytes;
    try (cbn [length]; lia).
  induction (w_counters w) as [|c cs IH]; [cbn [flat_map length]; lia|].
  cbn [flat_map length]. rewrite length_app, length_le_bytes. lia.
Qed.

Lemma flat_map_length_le {A B} (f : A -> list B) k l :
  (forall x, length (f x) <= k)%nat -> (length (flat_map f l) <= k * length l)%nat.
Proof.
  intros H. induction l as [|x l IH]; [simpl; lia|].
  cbn [flat_map length]. rewrite length_app. specialize (H x). lia.
Qed.

Lemma encode_length w l :
  len (encode w l) <= (34 + 4 * len (w_counters w)) * len l.
Proof.
  induction l as [|e l IH]; [simpl; lia|]. cbn [encode]. destruct (is_bit e).
  - rewrite length_app.
    pose proof (flat_map_length_le (enc_bits w) 30 (e :: l) (enc_bits_length w)) as Hb.
    pose proof (flat_map_length_le (enc_bytes w) _ (e :: l) (enc_bytes_length w)) as Ht.
    fold (enc_run w (e :: l)) in *. fold (enc_tail w (e :: l)) in *.
    pose proof (pack_length (enc_run w (e :: l))) as Hp.
    assert (len (pack (enc_run w (e :: l))) <= len (enc_run w (e :: l))) as Hp'.
    { rewrite Hp. destruct (enc_run w (e :: l)) as [|x r]; [done|].
      apply Z.div_le_upper_bound; simpl; lia. }
    simpl in *. nia.
  - rewrite length_app. pose proof (enc_bytes_length w e). simpl. nia.
Qed.

(** The movement state a client rebuilds from a broadcast of the unit [u]:
    what the packet carries replaces the old fields, the rest stays. *)
Definition relayed (has : presence -> bool) (wrap_pi : float32 -> float32) (now : Z)
    (u : Unit_) (mi : MovementInfo) : MovementInfo :=
  let src := un_movementInfo u in
  let t := mi_transport src in
  let t0 := mi_transport mi in
  let j := mi_jump src in
  let j0 := mi_jump mi in
  let on {A} (p : presence) (new old : A) : A := if has p then new else old in
  mkMovementInfo
    (u64 (un_guid u))
    (on hasMovementFlags (uint 30 (mi_flags src)) (mi_flags mi))
    (on hasMovementFlags2 (uint 13 (mi_flags2 src)) (mi_flags2 mi))
    (mkPosition (u32 (m_positionX (un_position u))) (u32 (m_positionY (un_position u)))
       (u32 (m_positionZ (un_position u)))
       (on hasOrientation (NormalizeOrientation (u32 (m_orientation (un_position u))))
          (m_orientation (mi_pos mi))))
    (u32 now)
    (mkTransportInfo
       (on hasTransportData (u64 (un_transGuid u)) 0)
       (mkPosition
          (on hasTransportData (u32 (m_positionX (t_pos t))) (m_positionX (t_pos t0)))
          (on hasTransportData (u32 (m_positionY (t_pos t))) (m_positionY (t_pos t0)))
          (on hasTransportData (u32 (m_positionZ (t_pos t))) (m_positionZ (t_pos t0)))
          (on hasTransportData (NormalizeOrientation (u32 (m_orientation (t_pos t))))
             (m_orientation (t_pos t0))))
       (on hasTransportData (s8 (u8 (t_seat t))) (t_seat t0))
       (on hasTransportData (u32 (t_time t)) (t_time t0))
       (on hasTransportTime2 (u32 (t_time2 t)) (t_time2 t0))
       (t_time3 t0))
    (on hasPitch (wrap_pi (u32 (mi_pitch src))) (mi_pitch mi))
    (mkJumpInfo
       (on hasFallData (u32 (j_fallTime j)) (j_fallTime j0))
       (on hasFallData (u32 (j_zspeed j)) (j_zspeed j0))
       (on hasFallDirection (u32 (j_sinAngle j)) (j_sinAngle j0))
       (on hasFallDirection (u32 (j_cosAngle j)) (j_cosAngle j0))
       (on hasFallDirection (u32 (j_xyspeed j)) (j_xyspeed j0)))
    (on hasSplineElevation (u32 (mi_splineElevation src)) (mi_splineElevation mi)).

Definition PlayerMove_body : list MovementStatusElements := take 70 PlayerMove.

(** [store], field by field: only the fields depend on the presence flags. *)
Definition store_fields (w : Wire) (wrap_pi : float32 -> float32)
    (e : MovementStatusElements) (m : MovementInfo) : MovementInfo :=
  let mi := w_mi w in
  let on {A} (p : presence) (new old : A) : A := if w_has w p then new else old in
  let td {A} := @on A hasTransportData in
  let s := mi_pos mi in let p := mi_pos m in
  let st := mi_transport mi in let t := mi_transport m in
  let sp := t_pos st in let tp := t_pos t in
  let sj := mi_jump mi in let j := mi_jump m in
  mkMovementInfo (mi_guid m)
    match e with
    | MSEMovementFlags => on hasMovementFlags (uint 30 (mi_flags mi)) (mi_flags m)
    | _ => mi_flags m end
    match e with
    | MSEMovementFlags2 => on hasMovementFlags2 (uint 13 (mi_flags2 mi)) (mi_flags2 m)
    | _ => mi_flags2 m end
    (mkPosition
      match e with MSEPositionX => u32 (m_positionX s) | _ => m_positionX p end
      match e with MSEPositionY => u32 (m_positionY s) | _ => m_positionY p end
      match e with MSEPositionZ => u32 (m_positionZ s) | _ => m_positionZ p end
      match e with
      | MSEOrientation =>
          on hasOrientation (NormalizeOrientation (u32 (m_orientation s))) (m_orientation p)
      | _ => m_orientation p end)
    match e with MSETimestamp => on hasTimestamp (u32 (mi_time mi)) (mi_time m) | _ => mi_time m end
    (mkTransportInfo (t_guid t)
      (mkPosition
        match e with MSETransportPositionX => td (u32 (m_positionX sp)) (m_positionX tp) | _ => m_positionX tp end
        match e with MSETransportPositionY => td (u32 (m_positionY sp)) (m_positionY tp) | _ => m_positionY tp end
        match e with MSETransportPositionZ => td (u32 (m_positionZ sp)) (m_positionZ tp) | _ => m_positionZ tp end
        match e with
        | MSETransportOrientation =>
            td (NormalizeOrientation (u32 (m_orientation sp))) (m_orientation tp)
        | _ => m_orientation tp end)
      match e with MSETransportSeat => td (s8 (u8 (t_seat st))) (t_seat t) | _ => t_seat t end
      match e with MSETransportTime => td (u32 (t_time st)) (t_time t) | _ => t_time t end
      match e with MSETransportTime2 => on hasTransportTime2 (u32 (t_time2 st)) (t_time2 t) | _ => t_time2 t end
      match e with MSETransportTime3 => on hasTransportTime3 (u32 (t_time3 st)) (t_time3 t) | _ => t_time3 t end)
    match e with MSEPitch => on hasPitch (wrap_pi (u32 (mi_pitch mi))) (mi_pitch m) | _ => mi_pitch m end
    (mkJumpInfo
      match e with MSEFallTime => on hasFallData (u32 (j_fallTime sj)) (j_fallTime j) | _ => j_fallTime j end
      match e with MSEFallVerticalSpeed => on hasFallData (u32 (j_zspeed sj)) (j_zspeed j) | _ => j_zspeed j end
      match e with MSEFallSinAngle => on hasFallDirection (u32 (j_sinAngle sj)) (j_sinAngle j) | _ => j_sinAngle j end
      match e with MSEFallCosAngle => on hasFallDirection (u32 (j_cosAngle sj)) (j_cosAngle j) | _ => j_cosAngle j end
      match e with MSEFallHorizontalSpeed => on hasFallDirection (u32 (j_xyspeed sj)) (j_xyspeed j) | _ => j_xyspeed j end)
    match e with
    | MSESplineElevation => on hasSplineElevation (u32 (mi_splineElevation mi)) (mi_splineElevation m)
    | _ => mi_splineElevation m end.

Lemma store_fields_eq w wrap_pi e m : store w wrap_pi e m = store_fields w wrap_pi e m.
Proof.
  destruct m as [g f f2 [x y z o] tm [tg [tx ty tz to_] ts t1 t2 t3] pi [jf jz js jc jx] se].
  destruct e; unfold store_fields; cbv beta iota zeta delta [store];
    try match goal with |- context [w_has w ?p] => destruct (w_has w p) end; reflexivity.
Qed.

Lemma received_PlayerMove fuzzyEq0 now wrap_pi u mi :
  received (wire_of_unit fuzzyEq0 now u []) wrap_pi PlayerMove_body mi
  = relayed (writer_has fuzzyEq0 u) wrap_pi now u mi.
Proof.
  assert (stored (wire_of_unit fuzzyEq0 now u []) wrap_pi PlayerMove_body mi =
    fold_left (fun m e => store_fields (wire_of_unit fuzzyEq0 now u []) wrap_pi e m)
      PlayerMove_body mi) as E.
  { unfold stored. generalize PlayerMove_body mi. intros l.
    induction l as [|e l IH]; intros m; [done|]. cbn [fold_left].
    by rewrite store_fields_eq, IH. }
  unfold received. rewrite E. clear E.
  destruct u as [ug ut up um us uc].
  cbv beta iota zeta delta [PlayerMove_body PlayerMove take fold_left store_fields relayed
    wire_of_unit w_has w_mi mi_guid mi_flags mi_flags2 mi_pos mi_time mi_transport mi_pitch mi_jump
    mi_splineElevation m_positionX m_positionY m_positionZ m_orientation t_guid t_pos t_seat t_time
    t_time2 t_time3 j_fallTime j_zspeed j_sinAngle j_cosAngle j_xyspeed upd_transport set_t_guid
    set_guid un_guid un_transGuid un_position un_movementInfo].
  by destruct (writer_has _ _ hasTransportData).
Qed.

(** C18. What the server broadcasts of a unit's movement reads back: for every
    unit, [SMSG_PLAYER_MOVE] is written without an error, and a reader of its
    bytes consumes all of them and rebuilds the guid, the position, the low 30
    movement flags, the low 13 extra flags, the transport, pitch, jump and
    elevation blocks that are present, up to the anti-cheat filter. *)
Theorem movement_broadcast_roundtrip fuzzyEq0 now wrap_pi pc u mi x :
  exists s' packet',
    WriteMovementInfo fuzzyEq0 now SMSG_PLAYER_MOVE (mkWriteState ByteBuffer_new u None) = (Ok tt, s')
    /\ ReadMovementInfo wrap_pi fuzzyEq0 pc SMSG_PLAYER_MOVE
         (ByteBuffer_of_bytes (bb_storage (ws_packet s'))) mi x =
       Ok (sanitize fuzzyEq0 pc (writer_has fuzzyEq0 u)
             (relayed (writer_has fuzzyEq0 u) wrap_pi now u mi), packet', x)
    /\ bb_rpos packet' = size packet'.
Proof.
  set (w := wire_of_unit fuzzyEq0 now u []).
  assert (counters_of PlayerMove_body u = []) as Hc by done.
  pose proof (encode_length w PlayerMove_body) as Hlen.
  change (len (w_counters w)) with 0 in Hlen. change (len PlayerMove_body) with 70 in Hlen.
  destruct (WriteMovementInfo_run fuzzyEq0 now SMSG_PLAYER_MOVE PlayerMove PlayerMove_body
    (mkWriteState ByteBuffer_new u None) [] eq_refl eq_refl eq_refl wrun_new) as (s' & E & Hrun & _).
  { cbn [ws_unit app]. rewrite Hc. fold w. lia. }
  cbn [ws_unit app] in Hrun. rewrite Hc in Hrun. fold w in Hrun.
  destruct (wrun_done _ _ Hrun) as [Hst _].
  destruct (read_wire wrap_pi fuzzyEq0 pc SMSG_PLAYER_MOVE PlayerMove PlayerMove_body w []
    (ByteBuffer_of_bytes (encode w PlayerMove_body)) mi x eq_refl eq_refl eq_refl) as (p' & lo & Er & Hv).
  { by apply wire_of_unit_ok. }
  { rewrite app_nil_r. apply rview_of_bytes. lia. }
  exists s', p'. rewrite Hst, Er. split_and!; [done| |].
  - rewrite <- received_PlayerMove. fold w. by do 3 f_equal.
  - destruct Hv as (_ & Hsz & _). simpl in Hsz. lia.
Qed.

(** ** The transport seat *)

Definition seat (s : ReadState) : Z := t_seat (mi_transport (rs_mi s)).

(** [m] leaves the decoded transport seat alone, whatever it returns. *)
Definition keeps_seat {A} (m : RM A) : Prop := forall s, seat (m s).2 = seat s.

Lemma seat_ret {A} (a : A) : keeps_seat (mret a).
Proof. done. Qed.

Lemma seat_throw {A} e : keeps_seat (throw e : RM A).
Proof. done. Qed.

Lemma seat_get : keeps_seat get.
Proof. done. Qed.

Lemma seat_bind {A B} (m : RM A) (k : A -> RM B) :
  keeps_seat m -> (forall a, keeps_seat (k a)) -> keeps_seat (m ≫= k).
Proof.
  intros Hm Hk s. specialize (Hm s). unfold mbind, prog_bind.
  destruct (m s) as [[a|e] s']; [|done]. by rewrite Hk.
Qed.

Lemma seat_rpkt {A} (m : BB A) : keeps_seat (rpkt m).
Proof. intros s. unfold rpkt, lift. by destruct (m (rs_packet s)). Qed.

Lemma seat_if_has ps m : keeps_seat m -> keeps_seat (if_has ps m).
Proof. intros Hm s. rewrite if_has_eq. by destruct (forallb _ _). Qed.

Lemma seat_upd f : (forall mi, t_seat (mi_transport (f mi)) = t_seat (mi_transport mi)) ->
  keeps_seat (upd_mi f).
Proof. intros Hf s. apply Hf. Qed.

Lemma seat_forM {A} (l : list A) f : (forall a, keeps_seat (f a)) -> keeps_seat (forM l f).
Proof.
  intros Hf. induction l as [|a l IH]; [done|]. apply seat_bind; [apply Hf|by intros _].
Qed.

Lemma seat_rextra m : keeps_seat (rextra m).
Proof. intros s. unfold rextra. destruct (rs_extras s); [|done]. by destruct (m _). Qed.

Create HintDb seat.
#[local] Hint Resolve seat_ret seat_throw seat_get seat_bind seat_rpkt seat_if_has
  seat_upd seat_forM seat_rextra : seat.

Lemma seat_read_into n f :
  (forall v mi, t_seat (mi_transport (f v mi)) = t_seat (mi_transport mi)) ->
  keeps_seat (read_into n f).
Proof. intros Hf. apply seat_bind; [apply seat_rpkt|]. intros v. apply seat_upd, Hf. Qed.
#[local] Hint Resolve seat_read_into : seat.

Lemma ReadElement_keeps_seat wrap_pi e : e <> MSETransportSeat -> keeps_seat (ReadElement wrap_pi e).
Proof.
  intros He. destruct e; cbn [ReadElement]; try (by elim He); auto 6 with seat.
Qed.

Lemma read_sequence_keeps_seat wrap_pi L :
  MSETransportSeat ∉ L -> keeps_seat (read_sequence wrap_pi L).
Proof.
  induction L as [|e L IH]; [done|]. intros [Hne HL]%not_elem_of_cons.
  destruct (decide (e = MSEEnd)) as [->|He]; [done|].
  rewrite read_sequence_cons by done.
  apply seat_bind; [by apply ReadElement_keeps_seat|]. intros _. by apply IH.
Qed.

(** The opcodes whose layout has the transport seat. *)
Definition has_seat (opcode : Opcodes) : bool :=
  match opcode with SMSG_PLAYER_MOVE | MSG_MOVE_START_ASCEND => true | _ => false end.

(** The transport seat is lost: whatever bytes a client sends, a movement
    packet other than [MSG_MOVE_START_ASCEND] leaves the seat of the server's
    [MovementInfo] as it was, because no other layout of the client has
    [MSETransportSeat]. *)
Theorem client_packets_drop_seat wrap_pi fuzzyEq0 pc opcode packet mi x mi' packet' x' :
  has_seat opcode = false ->
  ReadMovementInfo wrap_pi fuzzyEq0 pc opcode packet mi x = Ok (mi', packet', x') ->
  t_seat (mi_transport mi') = t_seat (mi_transport mi).
Proof.
  intros Hop Hread. unfold ReadMovementInfo in Hread.
  destruct (GetMovementStatusElementsSequence opcode) as [L|] eqn:HL; [|by simplify_eq].
  pose proof (read_sequence_keeps_seat wrap_pi L) as HLk.
  assert (bool_decide (MSETransportSeat ∈ L) = false) as Hno.
  { destruct opcode; try discriminate Hop; try discriminate HL; injection HL as <-; by vm_compute. }
  apply bool_decide_eq_false in Hno. specialize (HLk Hno (read_start packet mi x)).
  destruct (read_sequence _ _ _) as [[[]|e] s]; [|done]. injection Hread as <- _ _.
  rewrite sanitize_rest. exact HLk.
Qed.

Lemma client_packets_drop_seat_witness :
  exists mi' packet', ReadMovementInfo id (fun v => v =? 0) no_checks MSG_MOVE_FALL_LAND
      (ByteBuffer_of_bytes (encode sample_wire (take 71 MovementFallLand))) MovementInfo_new None
      = Ok (mi', packet', None)
    /\ t_seat (mi_transport mi') = -1.
Proof.
  eexists _, _. split; [vm_compute; reflexivity|].
  eapply (client_packets_drop_seat id (fun v => v =? 0) no_checks MSG_MOVE_FALL_LAND
    (ByteBuffer_of_bytes (encode sample_wire (take 71 MovementFallLand))) MovementInfo_new None);
    vm_compute; reflexivity.
Defined.
