(* ===== verification/Timer.v ===== *)
(** * Timers (src/src/serveur/commun/Utilities/Timer.h)

    [getMSTimeDiff] and the four timer structs every subsystem paces itself
    with.  [time_t] is a signed 64-bit integer: the timers that use it return
    [None] where the C++ overflows a signed integer or divides by zero, which
    is undefined behaviour; the 32-bit ones convert through [uint32] and are
    modelled with that wrap-around. *)

From S2P Require Import Prelude.
Local Open Scope Z_scope.

(** ** getMSTimeDiff *)

Definition getMSTimeDiff (oldMSTime newMSTime : Z) : Z :=
  if newMSTime <? oldMSTime then u32 ((4294967295 - oldMSTime) + newMSTime)
  else newMSTime - oldMSTime.

(** Milliseconds between two readings of the 32-bit clock: exact while the
    clock has not wrapped; one millisecond short across the wrap. *)
Theorem getMSTimeDiff_spec (old elapsed : Z) :
  0 <= old < 2 ^ 32 -> 0 <= elapsed < 2 ^ 32 ->
  getMSTimeDiff old (u32 (old + elapsed)) =
  if old + elapsed <? 2 ^ 32 then elapsed else elapsed - 1.
Proof.
  intros Ho He. unfold getMSTimeDiff, uint. destruct (Z.ltb_spec (old + elapsed) (2 ^ 32)).
  - rewrite Z.mod_small by lia. destruct (Z.ltb_spec (old + elapsed) old); lia.
  - assert ((old + elapsed) mod 2 ^ 32 = old + elapsed - 2 ^ 32) as ->.
    { symmetry. apply Z.mod_unique with 1; lia. }
    destruct (Z.ltb_spec (old + elapsed - 2 ^ 32) old); [|lia].
    rewrite Z.mod_small; lia.
Qed.

Lemma getMSTimeDiff_spec_witness : getMSTimeDiff 4294967290 (u32 (4294967290 + 10)) = 9.
Proof. apply (getMSTimeDiff_spec 4294967290 10); lia. Defined.

(** ** IntervalTimer *)

Definition time_t_ok (v : Z) : bool := (- 2 ^ 63 <=? v) && (v <? 2 ^ 63).

(** A signed 64-bit result; [None] is the undefined overflow. *)
Definition time_t (v : Z) : option Z := if time_t_ok v then Some v else None.

Lemma time_t_small v : - 2 ^ 63 <= v < 2 ^ 63 -> time_t v = Some v.
Proof.
  intros Hv. unfold time_t, time_t_ok.
  by rewrite (proj2 (Z.leb_le _ _)), (proj2 (Z.ltb_lt _ _)) by lia.
Qed.

Record IntervalTimer := mkIntervalTimer { it_interval : Z; it_current : Z }.

Definition IntervalTimer_new : IntervalTimer := mkIntervalTimer 0 0.
Definition SetCurrent (current : Z) (t : IntervalTimer) : IntervalTimer :=
  mkIntervalTimer (it_interval t) current.
Definition SetInterval (interval : Z) (t : IntervalTimer) : IntervalTimer :=
  mkIntervalTimer interval (it_current t).

Definition IntervalTimer_Update (diff : Z) (t : IntervalTimer) : option IntervalTimer :=
  current ← time_t (it_current t + diff);
  Some (SetCurrent (if current <? 0 then 0 else current) t).

Definition IntervalTimer_Passed (t : IntervalTimer) : bool := it_interval t <=? it_current t.

Definition IntervalTimer_Reset (t : IntervalTimer) : option IntervalTimer :=
  if it_interval t <=? it_current t then
    if it_interval t =? 0 then None
    else Some (SetCurrent (Z.rem (it_current t) (it_interval t)) t)
  else Some t.

(** One turn of the loops that own an [IntervalTimer] ([World::Update] and
    others): advance, and if the interval has passed, reset and run the job. *)
Definition IntervalTimer_turn (diff : Z) (t : IntervalTimer) : option (bool * IntervalTimer) :=
  t ← IntervalTimer_Update diff t;
  if IntervalTimer_Passed t then t ← IntervalTimer_Reset t; Some (true, t) else Some (false, t).

Fixpoint IntervalTimer_turns (diffs : list Z) (t : IntervalTimer)
  : option (list bool * IntervalTimer) :=
  match diffs with
  | [] => Some ([], t)
  | diff :: diffs' =>
      '(fired, t) ← IntervalTimer_turn diff t;
      '(rest, t) ← IntervalTimer_turns diffs' t;
      Some (fired :: rest, t)
  end.

Definition it_ok (t : IntervalTimer) : Prop :=
  0 < it_interval t < 2 ^ 62 /\ 0 <= it_current t < it_interval t.

Lemma IntervalTimer_turn_spec diff t :
  it_ok t -> 0 <= diff < 2 ^ 62 ->
  IntervalTimer_turn diff t =
    Some (it_interval t <=? it_current t + diff,
          SetCurrent ((it_current t + diff) mod it_interval t) t).
Proof.
  intros [Hi Hc] Hd. unfold IntervalTimer_turn, IntervalTimer_Update.
  rewrite time_t_small by lia. simpl.
  destruct (Z.ltb_spec (it_current t + diff) 0); [lia|].
  unfold IntervalTimer_Passed, IntervalTimer_Reset. simpl.
  destruct (Z.leb_spec (it_interval t) (it_current t + diff)).
  - destruct (Z.eqb_spec (it_interval t) 0); [lia|]. simpl.
    by rewrite Z.rem_mod_nonneg by lia.
  - by rewrite Z.mod_small by lia.
Qed.

(** The turns in which the absolute elapsed time crosses a multiple of the
    interval: what a timer is for. *)
Fixpoint crossings (interval elapsed : Z) (diffs : list Z) : list bool :=
  match diffs with
  | [] => []
  | d :: diffs' => (elapsed / interval <? (elapsed + d) / interval)
                   :: crossings interval (elapsed + d) diffs'
  end.

(** Only the remainder of the elapsed time matters. *)
Lemma crossings_mod interval elapsed diffs : 0 < interval ->
  crossings interval (elapsed mod interval) diffs = crossings interval elapsed diffs.
Proof.
  intros Hi. rewrite (Z.mod_eq elapsed interval) by lia.
  generalize (elapsed / interval) as q. intros q.
  revert elapsed. induction diffs as [|d diffs IH]; intros elapsed; [done|].
  cbn [crossings].
  replace (elapsed - interval * q + d) with (elapsed + d - interval * q) by lia.
  rewrite IH. f_equal.
  replace (elapsed - interval * q) with (elapsed + (- q) * interval) by lia.
  replace (elapsed + d - interval * q) with (elapsed + d + (- q) * interval) by lia.
  rewrite !Z.div_add by lia. apply Bool.eq_iff_eq_true. rewrite !Z.ltb_lt. lia.
Qed.

(** An [IntervalTimer] does not drift: through any sequence of updates it
    stays below its interval, never overflows or divides by zero, its remainder
    is the whole elapsed time modulo the interval, and it fires in exactly the
    turns that cross a multiple of the interval. *)
Theorem IntervalTimer_no_drift (diffs : list Z) (t : IntervalTimer) :
  it_ok t -> Forall (fun d => 0 <= d < 2 ^ 62) diffs ->
  exists t', IntervalTimer_turns diffs t =
      Some (crossings (it_interval t) (it_current t) diffs, t')
    /\ it_ok t' /\ it_interval t' = it_interval t
    /\ it_current t' = (it_current t + foldr Z.add 0 diffs) mod it_interval t.
Proof.
  intros Hok Hd. revert t Hok. induction Hd as [|d diffs Hd _ IH]; intros t Hok.
  - exists t. destruct Hok as [? ?]. split_and!; try done; simpl; [lia..|].
    by rewrite Z.add_0_r, Z.mod_small.
  - cbn [IntervalTimer_turns]. rewrite IntervalTimer_turn_spec by done. simpl.
    destruct Hok as [Hi Hc].
    set (t1 := SetCurrent ((it_current t + d) mod it_interval t) t).
    destruct (IH t1) as (t' & E & Hok' & Hi' & Hc').
    { split; [done|]. simpl. by apply Z.mod_pos_bound; lia. }
    simpl in E, Hi', Hc'. rewrite E. simpl. exists t'. split_and!; try done; [|].
    + rewrite crossings_mod by lia. do 3 f_equal. rewrite (Z.div_small (it_current t)) by lia.
      apply Bool.eq_iff_eq_true. rewrite Z.ltb_lt, Z.leb_le.
      split; intros; [apply Z.div_str_pos; lia|].
      destruct (Z.le_gt_cases (it_interval t) (it_current t + d)); [done|].
      rewrite Z.div_small in * by lia. lia.
    + rewrite Hc', Z.add_mod_idemp_l by lia. f_equal. lia.
Qed.

Lemma IntervalTimer_no_drift_witness :
  exists t', IntervalTimer_turns [40; 70; 250] (mkIntervalTimer 100 0) =
      Some ([false; true; true], t')
    /\ it_ok t' /\ it_interval t' = 100 /\ it_current t' = 60.
Proof.
  apply (IntervalTimer_no_drift [40; 70; 250] (mkIntervalTimer 100 0)).
  - split; simpl; lia.
  - repeat apply Forall_cons_2; try apply Forall_nil_2; lia.
Defined.

(** ** TimeTracker and TimeTrackerSmall *)

Definition TimeTracker_Update (diff expiryTime : Z) : option Z := time_t (expiryTime - diff).
Definition TimeTracker_Passed (expiryTime : Z) : bool := expiryTime <=? 0.

(** [int32 -= int32]; [None] on overflow. *)
Definition int32 (v : Z) : option Z :=
  if (- 2 ^ 31 <=? v) && (v <? 2 ^ 31) then Some v else None.
Definition TimeTrackerSmall_new (expiry : Z) : Z := s32 expiry.
Definition TimeTrackerSmall_Update (diff expiryTime : Z) : option Z := int32 (expiryTime - diff).
Definition TimeTrackerSmall_Passed (expiryTime : Z) : bool := expiryTime <=? 0.
Definition TimeTrackerSmall_Reset (interval : Z) : Z := s32 interval.

(** ** PeriodicTimer *)

Record PeriodicTimer := mkPeriodicTimer { pt_period : Z; pt_expireTime : Z }.

(** [diff] is a [uint32]: both updates are computed in [uint32] and converted
    back to [int32]; so is the conditional, whose arms are [int32] and
    [uint32]. *)
Definition PeriodicTimer_Update (diff : Z) (t : PeriodicTimer) : bool * PeriodicTimer :=
  let expire := s32 (u32 (pt_expireTime t) - diff) in
  if 0 <? expire then (false, mkPeriodicTimer (pt_period t) expire)
  else
    let step := if s32 diff <? pt_period t then u32 (pt_period t) else diff in
    (true, mkPeriodicTimer (pt_period t) (s32 (u32 expire + step))).

Definition SetPeriodic (period start_time : Z) (t : PeriodicTimer) : PeriodicTimer :=
  mkPeriodicTimer period start_time.

Definition TPassed (t : PeriodicTimer) : bool := pt_expireTime t <=? 0.
Definition TUpdate (diff : Z) (t : PeriodicTimer) : option PeriodicTimer :=
  mkPeriodicTimer (pt_period t) <$> int32 (pt_expireTime t - diff).
Definition TReset (diff period : Z) (t : PeriodicTimer) : option PeriodicTimer :=
  mkPeriodicTimer (pt_period t)
    <$> int32 (pt_expireTime t + (if diff <? period then period else diff)).

Lemma s32_u32_add a b : s32 (u32 a + b) = s32 (a + b).
Proof.
  unfold sint, uint. f_equal. rewrite <- !Z.add_assoc.
  by rewrite Z.add_mod_idemp_l by lia.
Qed.

(** A [PeriodicTimer] fires exactly when the elapsed time reaches what is
    left of its period, and is then armed for what the period leaves over (or,
    after a stall longer than the period, for what was left before): the time
    left always stays within one period. *)
Theorem PeriodicTimer_Update_spec (diff : Z) (t : PeriodicTimer) :
  0 < pt_expireTime t <= pt_period t -> pt_period t < 2 ^ 31 -> 0 <= diff < 2 ^ 31 ->
  PeriodicTimer_Update diff t =
    (pt_expireTime t <=? diff,
     mkPeriodicTimer (pt_period t)
       (if diff <? pt_expireTime t then pt_expireTime t - diff
        else if diff <? pt_period t then pt_expireTime t - diff + pt_period t
        else pt_expireTime t))
  /\ 0 < pt_expireTime (PeriodicTimer_Update diff t).2 <= pt_period t.
Proof.
  intros He Hp Hd.
  assert (PeriodicTimer_Update diff t =
    (pt_expireTime t <=? diff,
     mkPeriodicTimer (pt_period t)
       (if diff <? pt_expireTime t then pt_expireTime t - diff
        else if diff <? pt_period t then pt_expireTime t - diff + pt_period t
        else pt_expireTime t))) as E.
  { unfold PeriodicTimer_Update. rewrite <- Z.add_opp_r, s32_u32_add.
    rewrite (sint_small 32 (_ + _)), (sint_small 32 diff), (uint_small 32 (pt_period t)) by lia.
    destruct (Z.ltb_spec diff (pt_expireTime t)).
    - destruct (Z.ltb_spec 0 (pt_expireTime t + - diff)); [|lia].
      destruct (Z.leb_spec (pt_expireTime t) diff); [lia|]. do 2 f_equal. 
    - destruct (Z.ltb_spec 0 (pt_expireTime t + - diff)); [lia|].
      destruct (Z.leb_spec (pt_expireTime t) diff); [|lia]. do 2 f_equal. rewrite s32_u32_add.
      destruct (Z.ltb_spec diff (pt_period t)); rewrite sint_small; lia. }
  split; [done|]. rewrite E. simpl.
  destruct (Z.ltb_spec diff (pt_expireTime t)), (Z.ltb_spec diff (pt_period t)); lia.
Qed.

Lemma PeriodicTimer_Update_spec_witness :
  PeriodicTimer_Update 70 (mkPeriodicTimer 100 40) = (true, mkPeriodicTimer 100 70)
  /\ 0 < 70 <= 100.
Proof. apply (PeriodicTimer_Update_spec 70 (mkPeriodicTimer 100 40)); simpl; lia. Defined.
