(* ===== verification/EventProcessor.v ===== *)
(** * The event queue (src/src/serveur/commun/Utilities/EventProcessor.{h,cpp})

    Every unit, spell and world object schedules its delayed work in an
    [EventProcessor]: a [std::multimap] from due time to an event object that
    the queue owns.  The event objects live in a store of their own, indexed by
    their address, so that a pointer used after [delete] is visible as an
    error.  The derived classes of [BasicEvent] are a parameter: what their
    [Execute] and [Abort] do to the rest of the world, and which events
    [Execute] queues. *)

From stdpp Require Import sorting.
From S2P Require Import Prelude.
Local Open Scope Z_scope.

Inductive EventError := UseAfterFree | OutOfFuel.

(** [BasicEvent]; [ev_body] is the state of the derived class. *)
Record BasicEvent (P : Type) := mkBasicEvent {
  ev_body : P;
  to_Abort : bool;
  m_addTime : Z;
  m_execTime : Z
}.
Arguments mkBasicEvent {P}.
Arguments ev_body {P}.
Arguments to_Abort {P}.
Arguments m_addTime {P}.
Arguments m_execTime {P}.

(** What an [Execute] asks of the processor that runs it: [AddEvent] on itself
    or on a newly allocated event. *)
Inductive event_action (P : Type) :=
| AddSelf (e_time : Z) (set_addtime : bool)
| AddNew (body : P) (e_time : Z) (set_addtime : bool).
Arguments AddSelf {P}.
Arguments AddNew {P}.

(** The virtual methods of the event classes, over the state [W] of the rest of
    the world. *)
Class EventClass (P W : Type) := {
  Execute : Z -> P -> Z -> Z -> W -> bool * W * list (event_action P);
  IsDeletable : Z -> P -> W -> bool;
  Abort : Z -> P -> Z -> W -> W
}.

(** [std::multimap::insert]: after the entries with the same key. *)
Fixpoint multimap_insert {V} (k : Z) (v : V) (l : list (Z * V)) : list (Z * V) :=
  match l with
  | [] => [(k, v)]
  | (k', v') :: l' => if k <? k' then (k, v) :: l else (k', v') :: multimap_insert k v l'
  end.

Section EventProcessor.
Context {P W : Type} `{EventClass P W}.

Record EventProcessor := mkEventProcessor {
  m_time : Z;
  m_events : list (Z * Z);
  m_aborting : bool;
  ep_objects : gmap Z (BasicEvent P);
  ep_next : Z;
  ep_world : W
}.
Abbreviation EPM := (prog EventProcessor EventError).

Definition EventProcessor_new (w : W) : EventProcessor := mkEventProcessor 0 [] false ∅ 0 w.

Definition set_time (t : Z) (s : EventProcessor) : EventProcessor :=
  mkEventProcessor t (m_events s) (m_aborting s) (ep_objects s) (ep_next s) (ep_world s).
Definition set_events (l : list (Z * Z)) (s : EventProcessor) : EventProcessor :=
  mkEventProcessor (m_time s) l (m_aborting s) (ep_objects s) (ep_next s) (ep_world s).
Definition set_aborting (b : bool) (s : EventProcessor) : EventProcessor :=
  mkEventProcessor (m_time s) (m_events s) b (ep_objects s) (ep_next s) (ep_world s).
Definition set_objects (o : gmap Z (BasicEvent P)) (s : EventProcessor) : EventProcessor :=
  mkEventProcessor (m_time s) (m_events s) (m_aborting s) o (ep_next s) (ep_world s).
Definition set_world (w : W) (s : EventProcessor) : EventProcessor :=
  mkEventProcessor (m_time s) (m_events s) (m_aborting s) (ep_objects s) (ep_next s) w.

(** [*Event] *)
Definition deref (id : Z) : EPM (BasicEvent P) :=
  of_res (fun s => match ep_objects s !! id with Some e => Ok e | None => Err UseAfterFree end).

Definition store_event (id : Z) (e : BasicEvent P) : EPM unit :=
  modify (fun s => set_objects (<[id := e]> (ep_objects s)) s).

(** [delete Event] *)
Definition delete_event (id : Z) : EPM unit :=
  deref id;; modify (fun s => set_objects (delete id (ep_objects s)) s).

(** [new DerivedEvent(body)] *)
Definition new_event (body : P) : EPM Z :=
  s ← get;
  put (mkEventProcessor (m_time s) (m_events s) (m_aborting s)
         (<[ep_next s := mkBasicEvent body false 0 0]> (ep_objects s)) (ep_next s + 1)
         (ep_world s));;
  mret (ep_next s).

Definition CalculateTime (t_offset : Z) (s : EventProcessor) : Z := u64 (m_time s + t_offset).

Definition AddEvent (id e_time : Z) (set_addtime : bool) : EPM unit :=
  e ← deref id;
  s ← get;
  store_event id
    (mkBasicEvent (ev_body e) (to_Abort e) (if set_addtime then m_time s else m_addTime e) e_time);;
  modify (fun s => set_events (multimap_insert e_time id (m_events s)) s).

Definition run_action (id : Z) (a : event_action P) : EPM unit :=
  match a with
  | AddSelf e_time set_addtime => AddEvent id e_time set_addtime
  | AddNew body e_time set_addtime => id' ← new_event body; AddEvent id' e_time set_addtime
  end.

(** The virtual calls. *)
Definition execute_event (id : Z) (e : BasicEvent P) (p_time : Z) : EPM bool :=
  s ← get;
  let '(del, w, acts) := Execute id (ev_body e) (m_time s) p_time (ep_world s) in
  modify (set_world w);;
  forM acts (run_action id);;
  mret del.

Definition abort_event (id : Z) (e : BasicEvent P) : EPM unit :=
  modify (fun s => set_world (Abort id (ev_body e) (m_time s) (ep_world s)) s).

(** "completely destroy event if it is not re-added" *)
Definition delete_if (del : bool) (id : Z) : EPM unit :=
  if del then delete_event id else mret tt.

(** The body of the loop of [Update], on the event just taken off the queue. *)
Definition run_event (id p_time : Z) : EPM unit :=
  e ← deref id;
  if negb (to_Abort e) then
    del ← execute_event id e p_time;
    delete_if del id
  else
    abort_event id e;; delete_event id.

Fixpoint Update_loop (fuel : nat) (p_time : Z) : EPM unit :=
  match fuel with
  | O => throw OutOfFuel
  | S fuel' =>
      s ← get;
      match m_events s with
      | [] => mret tt
      | (k, id) :: rest =>
          if k <=? m_time s then
            modify (set_events rest);; run_event id p_time;; Update_loop fuel' p_time
          else mret tt
      end
  end.

Definition Update (fuel : nat) (p_time : Z) : EPM unit :=
  modify (fun s => set_time (u64 (m_time s + p_time)) s);; Update_loop fuel p_time.

(** The loop of [KillAllEvents]; returns the entries left in the queue. *)
Fixpoint kill_loop (force : bool) (l : list (Z * Z)) : EPM (list (Z * Z)) :=
  match l with
  | [] => mret []
  | (k, id) :: l' =>
      e ← deref id;
      let e := mkBasicEvent (ev_body e) true (m_addTime e) (m_execTime e) in
      store_event id e;;
      abort_event id e;;
      s ← get;
      if force || IsDeletable id (ev_body e) (ep_world s) then
        delete_event id;; kill_loop force l'
      else
        rest ← kill_loop force l'; mret ((k, id) :: rest)
  end.

Definition KillAllEvents (force : bool) : EPM unit :=
  modify (set_aborting true);;
  s ← get;
  kept ← kill_loop force (m_events s);
  modify (set_events (if force then [] else kept)).
End EventProcessor.
Arguments EventProcessor : clear implicits.

(** ** The multimap *)

Definition key_le {V} (a b : Z * V) : Prop := a.1 <= b.1.
Abbreviation sorted_queue := (StronglySorted key_le).

Lemma multimap_insert_perm {V} k (v : V) l : multimap_insert k v l ≡ₚ (k, v) :: l.
Proof.
  induction l as [|[k' v'] l IH]; [done|]. cbn [multimap_insert].
  destruct (k <? k'); [done|]. rewrite IH. apply Permutation_swap.
Qed.

Lemma multimap_insert_sorted {V} k (v : V) l :
  sorted_queue l -> sorted_queue (multimap_insert k v l).
Proof.
  intros Hs. induction Hs as [|[k' v'] l Hs IH Hall]; [by repeat constructor|].
  cbn [multimap_insert]. destruct (Z.ltb_spec k k').
  - constructor; [by constructor|]. constructor; [unfold key_le; simpl; lia|].
    eapply Forall_impl; [|exact Hall]. intros [k2 v2]. unfold key_le; simpl. lia.
  - constructor; [done|]. rewrite multimap_insert_perm. constructor; [unfold key_le; simpl; lia|done].
Qed.

Lemma sorted_sublist {V} (k l : list (Z * V)) : sublist k l -> sorted_queue l -> sorted_queue k.
Proof.
  induction 1 as [|e k l Hs IH|e k l Hs IH]; [done|..]; intros [Hl Hall]%StronglySorted_inv.
  - constructor; [by apply IH|]. clear IH Hl. induction Hs; inversion Hall; eauto.
  - by apply IH.
Qed.

Definition due {V} (now : Z) (l : list (Z * V)) : list (Z * V) := filter (fun e => e.1 <= now) l.

Lemma due_insert_later {V} now k (v : V) l : now < k -> due now (multimap_insert k v l) = due now l.
Proof.
  intros Hk. unfold due. induction l as [|[k' v'] l IH]; cbn [multimap_insert].
  - by rewrite filter_cons_False by (simpl; lia).
  - destruct (k <? k').
    + by rewrite filter_cons_False by (simpl; lia).
    + rewrite !filter_cons, IH. done.
Qed.

(** In a sorted queue an entry goes after everything due at its own time. *)
Lemma multimap_insert_fifo {V} k (v : V) l : sorted_queue l ->
  multimap_insert k v l = due k l ++ (k, v) :: filter (fun e => k < e.1) l.
Proof.
  unfold due. induction 1 as [|[k' v'] l Hs IH Hall]; [done|]. cbn [multimap_insert].
  rewrite !filter_cons. cbn [fst].
  destruct (Z.ltb_spec k k').
  - rewrite decide_False, decide_True by lia.
    assert (Forall (fun e : Z * V => k < e.1) l) as Hall'.
    { eapply Forall_impl; [|exact Hall]. intros [k2 v2]. unfold key_le; simpl. lia. }
    assert (filter (fun e : Z * V => e.1 <= k) l = []) as ->.
    { clear -Hall'. induction Hall'; [done|]. rewrite filter_cons_False by lia. done. }
    cbn [app]. do 2 f_equal. clear -Hall'.
    induction Hall' as [|x l Hx _ IH]; [done|]. rewrite filter_cons_True by done. by f_equal.
  - rewrite decide_True, decide_False by lia. cbn [app]. by rewrite IH.
Qed.

(** ** The contract of the event classes *)

Definition action_time {P} (a : event_action P) : Z :=
  match a with AddSelf t _ | AddNew _ t _ => t end.

Definition is_self_add {P} (a : event_action P) : bool :=
  match a with AddSelf _ _ => true | AddNew _ _ _ => false end.

Definition self_adds {P} (acts : list (event_action P)) : nat :=
  length (filter (fun a => is_self_add a = true) acts).

(** [Execute] queues nothing for a time that has come, re-adds itself at most
    once, and then answers [false]; [log] is a history of which events ran. *)
Class WellBehaved (P W : Type) `{EventClass P W} (log : W -> list Z) : Prop := {
  wb_execute id body now p_time w :
    let '(del, w', acts) := Execute id body now p_time w in
    log w' = log w ++ [id]
    /\ Forall (fun a => now < action_time a) acts
    /\ (self_adds acts <= if del then 0 else 1)%nat;
  wb_abort id body now w : log (Abort id body now w) = log w ++ [id]
}.

(** The queue is sorted, holds every event at most once, and every event it
    holds is alive. *)
Record queue_ok {P W} (s : EventProcessor P W) : Prop := {
  qo_sorted : sorted_queue (m_events s);
  qo_nodup : NoDup (m_events s).*2;
  qo_live id : id ∈ (m_events s).*2 -> is_Some (ep_objects s !! id);
  qo_next id : is_Some (ep_objects s !! id) -> id < ep_next s
}.

Section Correct.
Context {P W : Type} `{EventClass P W} {log : W -> list Z} `{!WellBehaved P W log}.
Implicit Types s : EventProcessor P W.

Lemma deref_ok id s e : ep_objects s !! id = Some e -> deref id s = (Ok e, s).
Proof. intros Hs. unfold deref, of_res. by rewrite Hs. Qed.

Lemma insert_live id e s : queue_ok s -> is_Some (ep_objects s !! id) ->
  queue_ok (set_objects (<[id := e]> (ep_objects s)) s).
Proof.
  intros [] Hid. constructor; try done; simpl; intros id'; rewrite lookup_insert_is_Some'.
  - intros Hin. right. by apply qo_live0.
  - intros [->|?]; by apply qo_next0.
Qed.

Lemma AddEvent_ok id t b s :
  queue_ok s -> is_Some (ep_objects s !! id) -> id ∉ (m_events s).*2 ->
  exists s', AddEvent id t b s = (Ok tt, s') /\ queue_ok s'
    /\ m_events s' = multimap_insert t id (m_events s)
    /\ m_time s' = m_time s /\ ep_world s' = ep_world s
    /\ (forall id', is_Some (ep_objects s !! id') -> is_Some (ep_objects s' !! id'))
    /\ m_execTime <$> ep_objects s' !! id = Some t.
Proof.
  intros Hok [e He] Hid. unfold AddEvent. rewrite (bind_ok _ _ _ _ _ (deref_ok _ _ _ He)).
  eexists. split; [reflexivity|]. simpl. split_and!; try done.
  - destruct (insert_live id (mkBasicEvent (ev_body e) (to_Abort e)
      (if b then m_time s else m_addTime e) t) s Hok (mk_is_Some _ _ He)) as [].
    constructor; simpl in *; try done.
    + by apply multimap_insert_sorted.
    + rewrite multimap_insert_perm. simpl. by constructor.
    + intros id'. rewrite multimap_insert_perm. simpl. rewrite elem_of_cons.
      intros [->|Hin]; [rewrite lookup_insert_eq; by eexists|by apply qo_live0].
  - intros id' Hid'. rewrite lookup_insert_is_Some'. by right.
  - by rewrite lookup_insert_eq.
Qed.

(** What one event may do to the queue: nothing that is already due changes. *)
Record quiet (now : Z) (id : Z) (s s' : EventProcessor P W) : Prop := {
  q_ok : queue_ok s';
  q_time : m_time s' = m_time s;
  q_due : due now (m_events s') = due now (m_events s);
  q_live id' : is_Some (ep_objects s !! id') -> is_Some (ep_objects s' !! id')
}.

Lemma run_action_ok id a s now :
  queue_ok s -> now < action_time a -> is_Some (ep_objects s !! id) ->
  (is_self_add a = true -> id ∉ (m_events s).*2) ->
  exists s', run_action id a s = (Ok tt, s') /\ quiet now id s s' /\ ep_world s' = ep_world s
    /\ (is_self_add a = false -> id ∉ (m_events s).*2 -> id ∉ (m_events s').*2).
Proof.
  intros Hok Ht Hid Hself. destruct a as [t b|body t b]; simpl in *.
  - destruct (AddEvent_ok id t b s Hok Hid (Hself eq_refl)) as (s' & E & Hok' & Hev & Htm & Hw & Hl & _).
    exists s'. split_and!; try done. constructor; try done. by rewrite Hev, due_insert_later.
  - set (s1 := mkEventProcessor (m_time s) (m_events s) (m_aborting s)
      (<[ep_next s := mkBasicEvent body false 0 0]> (ep_objects s)) (ep_next s + 1) (ep_world s)).
    assert (forall id', is_Some (ep_objects s !! id') -> is_Some (ep_objects s1 !! id')) as Hs1.
    { intros id' Hid'. simpl. rewrite lookup_insert_is_Some'. by right. }
    assert (queue_ok s1) as Hok1.
    { destruct Hok. constructor; try done; simpl; intros id'.
      - intros Hin. apply Hs1. by apply qo_live0.
      - rewrite lookup_insert_is_Some'. intros [<-|Hi]; [lia|]. apply qo_next0 in Hi. lia. }
    destruct (AddEvent_ok (ep_next s) t b s1 Hok1) as (s' & E & Hok' & Hev & Htm & Hw & Hl & _).
    { simpl. rewrite lookup_insert_eq. by eexists. }
    { simpl. intros Hin. apply (qo_live _ Hok), (qo_next _ Hok) in Hin. lia. }
    exists s'. split; [exact E|]. split; [|split; [done|]].
    + constructor; [done..| |by auto]. by rewrite Hev, due_insert_later.
    + intros _ Hni. rewrite Hev. simpl. rewrite multimap_insert_perm. simpl.
      rewrite elem_of_cons. intros [->|?]; [|done].
      apply (qo_next _ Hok) in Hid. lia.
Qed.

Lemma quiet_trans now id s1 s2 s3 : quiet now id s1 s2 -> quiet now id s2 s3 -> quiet now id s1 s3.
Proof. intros [] []. constructor; [done|congruence|congruence|auto]. Qed.

Lemma run_actions_ok id acts s now :
  queue_ok s -> is_Some (ep_objects s !! id) -> Forall (fun a => now < action_time a) acts ->
  (self_adds acts <= 1)%nat -> (self_adds acts <> 0%nat -> id ∉ (m_events s).*2) ->
  exists s', forM acts (run_action id) s = (Ok tt, s') /\ quiet now id s s' /\ ep_world s' = ep_world s
    /\ (self_adds acts = 0%nat -> id ∉ (m_events s).*2 -> id ∉ (m_events s').*2).
Proof.
  intros Hok Hid Ht. revert s Hok Hid. induction Ht as [|a acts Ha Ht IH]; intros s Hok Hid Hone Hself.
  - exists s. split_and!; done.
  - assert (self_adds (a :: acts) = (Nat.b2n (is_self_add a) + self_adds acts)%nat) as Es.
    { unfold self_adds. rewrite filter_cons. by destruct (is_self_add a). }
    rewrite Es in Hone, Hself |- *.
    destruct (run_action_ok id a s now Hok Ha Hid) as (s1 & E1 & Hq1 & Hw1 & Hni1).
    { intros Hs. apply Hself. rewrite Hs. simpl. lia. }
    destruct (IH s1) as (s2 & E2 & Hq2 & Hw2 & Hni2).
    { apply (q_ok _ _ _ _ Hq1). }
    { by apply (q_live _ _ _ _ Hq1). }
    { lia. }
    { intros Hne. destruct (is_self_add a) eqn:Hs; simpl in *; [lia|]. apply Hni1; [done|].
      apply Hself. done. }
    exists s2. cbn [forM]. rewrite (bind_ok _ _ _ _ _ E1). split_and!; [done| | |].
    + by eapply quiet_trans.
    + congruence.
    + intros H0 Hni. destruct (is_self_add a) eqn:Hs; simpl in *; [lia|]. apply Hni2; [lia|].
      by apply Hni1.
Qed.

Lemma delete_event_ok id s : queue_ok s -> is_Some (ep_objects s !! id) -> id ∉ (m_events s).*2 ->
  exists s', delete_event id s = (Ok tt, s') /\ queue_ok s' /\ m_events s' = m_events s
    /\ m_time s' = m_time s /\ ep_world s' = ep_world s.
Proof.
  intros [] [e He] Hni. unfold delete_event. rewrite (bind_ok _ _ _ _ _ (deref_ok _ _ _ He)).
  eexists. split; [reflexivity|]. split_and!; try done. constructor; try done; simpl; intros id'.
  - intros Hin. rewrite lookup_delete_ne; [by apply qo_live0|]. by intros ->.
  - intros Hi. apply qo_next0. by apply lookup_delete_is_Some in Hi as [_ ?].
Qed.

Lemma world_ok w s : queue_ok s -> queue_ok (set_world w s).
Proof. by intros []. Qed.

(** Running the event taken off the queue. *)
Lemma run_event_ok id p_time s :
  queue_ok s -> is_Some (ep_objects s !! id) -> id ∉ (m_events s).*2 ->
  exists s', run_event id p_time s = (Ok tt, s') /\ queue_ok s' /\ m_time s' = m_time s
    /\ due (m_time s) (m_events s') = due (m_time s) (m_events s)
    /\ log (ep_world s') = log (ep_world s) ++ [id].
Proof.
  intros Hok Hid Hni. destruct Hid as [e He] eqn:E0. clear E0.
  unfold run_event. rewrite (bind_ok _ _ _ _ _ (deref_ok _ _ _ He)).
  destruct (to_Abort e); cbn [negb].
  - unfold abort_event. erewrite bind_ok by done.
    destruct (delete_event_ok id (set_world (Abort id (ev_body e) (m_time s) (ep_world s)) s))
      as (s' & E & Hok' & Hev & Ht & Hw); [by apply world_ok|done|done|].
    exists s'. split_and!; try done; [by rewrite Hev|]. rewrite Hw. simpl. apply wb_abort.
  - pose proof (wb_execute id (ev_body e) (m_time s) p_time (ep_world s)) as Hwb.
    unfold execute_event.
    destruct (Execute id (ev_body e) (m_time s) p_time (ep_world s)) as [[del w'] acts] eqn:Ex.
    destruct Hwb as (Hlog & Ht & Hself).
    destruct (run_actions_ok id acts (set_world w' s) (m_time s)) as (s1 & E1 & Hq & Hw & Hni1).
    { by apply world_ok. }
    { done. }
    { done. }
    { destruct del; lia. }
    { done. }
    assert (execute_event id e p_time s = (Ok del, s1)) as Ee.
    { unfold execute_event. rewrite (bind_ok get _ s s s eq_refl), Ex.
      erewrite bind_ok by done. by rewrite (bind_ok _ _ _ _ _ E1). }
    fold (execute_event (W := W) id e p_time). rewrite (bind_ok _ _ _ _ _ Ee).
    unfold delete_if. destruct del.
    + destruct (delete_event_ok id s1) as (s' & E & Hok' & Hev & Htm & Hw').
      { apply (q_ok _ _ _ _ Hq). }
      { by apply (q_live _ _ _ _ Hq). }
      { apply Hni1; [lia|done]. }
      exists s'. split_and!; try done.
      * by rewrite Htm, (q_time _ _ _ _ Hq).
      * by rewrite Hev, (q_due _ _ _ _ Hq).
      * by rewrite Hw', Hw.
    + exists s1. split_and!; try done.
      * apply (q_ok _ _ _ _ Hq).
      * apply (q_time _ _ _ _ Hq).
      * apply (q_due _ _ _ _ Hq).
      * by rewrite Hw.
Qed.

Lemma due_sorted_nil now (l : list (Z * Z)) : sorted_queue l ->
  due now l = [] -> Forall (fun e => now < e.1) l.
Proof.
  intros _ Hd. unfold due in Hd. induction l as [|x l IH]; [done|].
  rewrite filter_cons in Hd. case_decide; [done|]. constructor; [lia|by apply IH].
Qed.

Lemma Update_loop_ok p_time fuel s :
  queue_ok s -> (length (due (m_time s) (m_events s)) < fuel)%nat ->
  exists s', Update_loop fuel p_time s = (Ok tt, s') /\ queue_ok s' /\ m_time s' = m_time s
    /\ Forall (fun e => m_time s < e.1) (m_events s')
    /\ log (ep_world s') = log (ep_world s) ++ (due (m_time s) (m_events s)).*2.
Proof.
  revert s. induction fuel as [|fuel IH]; intros s Hok Hf; [lia|].
  cbn [Update_loop]. rewrite (bind_ok get _ s s s eq_refl).
  destruct (m_events s) as [|[k id] rest] eqn:Hev.
  - exists s. rewrite Hev. split_and!; try done. by rewrite app_nil_r.
  - pose proof (qo_sorted _ Hok) as Hsort. rewrite Hev in Hsort.
    apply StronglySorted_inv in Hsort as [Hsort Hall].
    destruct (Z.leb_spec k (m_time s)) as [Hk|Hk].
    + unfold due in Hf |- *. rewrite filter_cons_True in Hf |- * by done. simpl in Hf.
      fold (due (m_time s) rest) in Hf |- *.
      pose proof (qo_nodup _ Hok) as Hnd. rewrite Hev in Hnd. simpl in Hnd.
      pose proof (NoDup_cons_1_1 _ _ Hnd) as Hni. apply NoDup_cons_1_2 in Hnd.
      assert (queue_ok (set_events rest s)) as Hok1.
      { destruct Hok. constructor; try done. simpl. intros id' Hin. apply qo_live0.
        rewrite Hev. simpl. by right. }
      erewrite bind_ok by done.
      destruct (run_event_ok id p_time (set_events rest s) Hok1) as (s1 & E1 & Hok2 & Ht & Hd & Hl).
      { apply (qo_live _ Hok). rewrite Hev. simpl. by left. }
      { done. }
      simpl in Ht, Hd, Hl. rewrite (bind_ok _ _ _ _ _ E1).
      destruct (IH s1 Hok2) as (s' & E & Hok' & Ht' & Hlate & Hl').
      { rewrite Ht, Hd. lia. }
      rewrite Ht in *. exists s'. split_and!; try done.
      by rewrite Hl', Hl, Hd, <- app_assoc.
    + exists s. assert (Forall (fun e : Z * Z => m_time s < e.1) ((k, id) :: rest)) as Hlate.
      { constructor; [done|]. eapply Forall_impl; [|exact Hall]. intros [k2 v2].
        unfold key_le; simpl. lia. }
      rewrite Hev. split_and!; try done.
      assert (due (m_time s) ((k, id) :: rest) = []) as ->; [|by rewrite app_nil_r].
      clear -Hlate. unfold due. induction Hlate; [done|]. by rewrite filter_cons_False by lia.
Qed.

(** What the loop of [KillAllEvents] does to a part [l] of the queue. *)
Record killed (force : bool) (l kept : list (Z * Z)) (s s' : EventProcessor P W) : Prop := {
  k_kept : sublist kept l;
  k_force : force = true -> kept = [];
  k_same : m_events s' = m_events s /\ m_time s' = m_time s /\ ep_next s' = ep_next s;
  k_log : log (ep_world s') = log (ep_world s) ++ l.*2;
  k_other id : id ∉ l.*2 -> ep_objects s' !! id = ep_objects s !! id;
  k_left id : id ∈ kept.*2 -> exists e, ep_objects s' !! id = Some e /\ to_Abort e = true;
  k_gone id : id ∈ l.*2 -> id ∉ kept.*2 -> ep_objects s' !! id = None
}.

Lemma sublist_fst_snd (l k : list (Z * Z)) id : sublist k l -> id ∈ k.*2 -> id ∈ l.*2.
Proof.
  intros Hs. induction Hs as [|e k l _ IH|e k l _ IH]; [done|..]; simpl; rewrite ?elem_of_cons; tauto.
Qed.

Lemma kill_loop_ok force l s :
  NoDup l.*2 -> (forall id, id ∈ l.*2 -> is_Some (ep_objects s !! id)) ->
  exists kept s', kill_loop force l s = (Ok kept, s') /\ killed force l kept s s'.
Proof.
  revert s. induction l as [|[k id] l IH]; intros s Hnd Hlive.
  - exists [], s. split; [done|]. constructor; try done; [by rewrite app_nil_r|].
    intros id Hin. by apply not_elem_of_nil in Hin.
  - simpl in Hnd, Hlive. pose proof (NoDup_cons_1_1 _ _ Hnd) as Hni. apply NoDup_cons_1_2 in Hnd.
    destruct (Hlive id) as [e He]; [by left|].
    cbn [kill_loop]. rewrite (bind_ok _ _ _ _ _ (deref_ok _ _ _ He)).
    set (e' := mkBasicEvent (ev_body e) true (m_addTime e) (m_execTime e)).
    set (s1 := set_world (Abort id (ev_body e) (m_time s) (ep_world s))
      (set_objects (<[id := e']> (ep_objects s)) s)).
    assert (log (ep_world s1) = log (ep_world s) ++ [id]) as Hlog1 by apply wb_abort.
    rewrite (bind_ok (store_event id e') _ s tt _ eq_refl).
    rewrite (bind_ok (abort_event id e') _ _ tt s1 eq_refl), (bind_ok get _ s1 s1 s1 eq_refl).
    destruct (force || IsDeletable id (ev_body e') (ep_world s1)) eqn:Hdel.
    + set (s2 := set_objects (delete id (ep_objects s1)) s1).
      assert (delete_event id s1 = (Ok tt, s2)) as Ed.
      { unfold delete_event. assert (ep_objects s1 !! id = Some e') as Hs1 by apply lookup_insert_eq.
        by rewrite (bind_ok _ _ _ _ _ (deref_ok _ _ _ Hs1)). }
      rewrite (bind_ok _ _ _ _ _ Ed).
      assert (forall id', id' <> id -> ep_objects s2 !! id' = ep_objects s !! id') as Hs2.
      { intros id' Hne. simpl. by rewrite lookup_delete_ne, lookup_insert_ne. }
      destruct (IH s2 Hnd) as (kept & s' & E & []).
      { intros id' Hin. rewrite Hs2; [apply Hlive; by right|]. by intros ->. }
      exists kept, s'. split; [exact E|]. constructor; simpl; try done.
      * by apply sublist_cons.
      * change (ep_world s2) with (ep_world s1) in k_log0. by rewrite k_log0, Hlog1, <- app_assoc.
      * intros id' [Hne Hnl]%not_elem_of_cons. by rewrite k_other0, Hs2.
      * intros id' [->|Hin]%elem_of_cons Hnk; [|by apply k_gone0].
        rewrite k_other0 by done. simpl. apply lookup_delete_eq.
    + apply orb_false_iff in Hdel as [-> _].
      assert (forall id', id' <> id -> ep_objects s1 !! id' = ep_objects s !! id') as Hs1.
      { intros id' Hne. simpl. by rewrite lookup_insert_ne. }
      destruct (IH s1 Hnd) as (kept & s' & E & []).
      { intros id' Hin. rewrite Hs1; [apply Hlive; by right|]. by intros ->. }
      exists ((k, id) :: kept), s'. split; [by rewrite (bind_ok _ _ _ _ _ E)|].
      constructor; simpl; try done.
      * by apply sublist_skip.
      * rewrite k_log0, Hlog1. by rewrite <- app_assoc.
      * intros id' [Hne Hnl]%not_elem_of_cons. by rewrite k_other0, Hs1.
      * intros id' [->|Hin]%elem_of_cons; [|by apply k_left0].
        exists e'. rewrite k_other0 by done. split; [apply lookup_insert_eq|done].
      * intros id' [->|Hin]%elem_of_cons [Hne Hnk]%not_elem_of_cons; [done|by apply k_gone0].
Qed.
End Correct.

(** ** Properties *)


(** [EventProcessor::KillAllEvents] aborts every queued event exactly once
    in queue order and frees no event twice: forced, the queue ends empty with
    all its events freed; unforced, exactly the undeletable events stay, alive
    and flagged [to_Abort], and the rest is freed. *)
Theorem KillAllEvents_spec {P W} `{EventClass P W} (log : W -> list Z) `{!WellBehaved P W log}
    (force : bool) (s : EventProcessor P W) :
  queue_ok s ->
  exists s', KillAllEvents force s = (Ok tt, s') /\ queue_ok s'
    /\ sublist (m_events s') (m_events s)
    /\ (force = true -> m_events s' = [])
    /\ log (ep_world s') = log (ep_world s) ++ (m_events s).*2
    /\ (forall id, id ∈ (m_events s).*2 ->
          if bool_decide (id ∈ (m_events s').*2)
          then exists e, ep_objects s' !! id = Some e /\ to_Abort e = true
          else ep_objects s' !! id = None).
Proof.
  intros Hok. unfold KillAllEvents. erewrite bind_ok by done. erewrite (bind_ok get) by done.
  destruct (kill_loop_ok force (m_events s) (set_aborting true s) (qo_nodup _ Hok) (qo_live _ Hok))
    as (kept & s' & E & [Hsub Hforce (_ & _ & Hnext) Hlog Hother Hleft Hgone]).
  rewrite (bind_ok _ _ _ _ _ E).
  replace (if force then [] else kept) with kept by (destruct force; [by rewrite Hforce|done]).
  eexists. split; [reflexivity|]. simpl. split_and!; try done.
  - destruct Hok. constructor; simpl; try done.
    + by eapply sorted_sublist.
    + eapply sublist_NoDup; [done|]. by apply fmap_sublist.
    + intros id Hin. destruct (Hleft id Hin) as (e & He & _). by eexists.
    + intros id Hi. rewrite Hnext. simpl. apply qo_next0.
      destruct (decide (id ∈ (m_events s).*2)) as [Hin|Hni]; [by apply qo_live0|].
      specialize (Hother id Hni). simpl in Hother. by rewrite <- Hother.
  - intros id Hin. case_bool_decide as Hk; [by apply Hleft|by apply Hgone].
Qed.

(** [EventProcessor::AddEvent] keeps the queue sorted and fair: the event
    goes behind everything already queued for its time or earlier and before
    everything later, and is planned for that time. *)
Theorem AddEvent_fifo {P W} `{EventClass P W} (id e_time : Z) (set_addtime : bool)
    (s : EventProcessor P W) :
  queue_ok s -> is_Some (ep_objects s !! id) -> id ∉ (m_events s).*2 ->
  exists s', AddEvent id e_time set_addtime s = (Ok tt, s') /\ queue_ok s'
    /\ m_events s' = due e_time (m_events s) ++ (e_time, id)
                     :: filter (fun e => e_time < e.1) (m_events s)
    /\ m_execTime <$> ep_objects s' !! id = Some e_time.
Proof.
  intros Hok [e He] Hni.
  destruct (AddEvent_ok id e_time set_addtime s Hok (mk_is_Some _ _ He) Hni)
    as (s' & E & Hok' & Hev & _ & _ & _ & Hx).
  exists s'. split_and!; try done. rewrite Hev. apply multimap_insert_fifo, (qo_sorted _ Hok).
Qed.

(** ** Witnesses: events that log their address and may repeat *)

(** A one-shot event ([period <= 0]) or one that comes back after [period]. *)
#[local] Instance RepeatingEvents : EventClass Z (list Z) := {
  Execute id period now p_time w :=
    if period <=? 0 then (true, w ++ [id], []) else (false, w ++ [id], [AddSelf (now + period) true]);
  IsDeletable id period w := negb (id =? 1);
  Abort id period now w := w ++ [id]
}.

#[local] Instance RepeatingEvents_ok : WellBehaved Z (list Z) id.
Proof.
  constructor; [|done]. intros id period now p w. simpl. destruct (Z.leb_spec period 0).
  - split_and!; [done|constructor|done].
  - split_and!; [done| |done]. repeat constructor. simpl. lia.
Qed.

Definition sample_queue : EventProcessor Z (list Z) :=
  mkEventProcessor 0 [(5, 0); (5, 1); (9, 2)] false
    {[0 := mkBasicEvent 0 false 0 5; 1 := mkBasicEvent 10 false 0 5; 2 := mkBasicEvent 0 false 0 9]}
    3 [].

Lemma sample_queue_ok : queue_ok sample_queue.
Proof.
  constructor.
  - repeat constructor; unfold key_le; simpl; lia.
  - apply (bool_decide_unpack _). by vm_compute.
  - intros id. simpl. rewrite !elem_of_cons.
    intros [->|[->|[->|[]%not_elem_of_nil]]]; vm_compute; by eexists.
  - intros id. simpl. rewrite !lookup_insert_is_Some', lookup_singleton_is_Some. lia.
Qed.


Lemma KillAllEvents_spec_witness :
  exists s', KillAllEvents false sample_queue = (Ok tt, s') /\ queue_ok s'
    /\ sublist (m_events s') (m_events sample_queue)
    /\ (false = true -> m_events s' = [])
    /\ ep_world s' = [] ++ [0; 1; 2]
    /\ (forall id, id ∈ [0; 1; 2] ->
          if bool_decide (id ∈ (m_events s').*2)
          then exists e, ep_objects s' !! id = Some e /\ to_Abort e = true
          else ep_objects s' !! id = None).
Proof. exact (KillAllEvents_spec id false sample_queue sample_queue_ok). Defined.

Lemma AddEvent_fifo_witness :
  exists s', AddEvent 3 5 true (set_objects (<[3 := mkBasicEvent 0 false 0 0]> (ep_objects sample_queue))
      (mkEventProcessor 0 [(5, 0); (5, 1); (9, 2)] false (ep_objects sample_queue) 4 ([] : list Z))) = (Ok tt, s')
    /\ queue_ok s' /\ m_events s' = [(5, 0); (5, 1)] ++ (5, 3) :: [(9, 2)]
    /\ m_execTime <$> ep_objects s' !! 3 = Some 5.
Proof.
  apply (AddEvent_fifo 3 5 true).
  - destruct sample_queue_ok as [Hs Hn Hl Hx]. constructor; simpl in *; try done.
    + intros id Hin. rewrite lookup_insert_is_Some'. right. by apply Hl.
    + intros id. rewrite lookup_insert_is_Some'. intros [<-|Hi]; [lia|]. apply Hx in Hi. simpl in Hi. lia.
  - by eexists.
  - apply (bool_decide_unpack _). by vm_compute.
Defined.
