(* ===== verification/Grids.v ===== *)
(** * Map grids (src/src/serveur/jeu/Grids, Maps/Map.{h,cpp})

    A map is a 64x64 array of grids of 8x8 cells.  A grid is created when
    something enters it, loads its database objects when an active viewer
    comes, and is unloaded again once nobody is near: a state machine
    ACTIVE -> IDLE -> REMOVAL driven by timers ([GridStates.cpp]), held back by
    unload locks.  A grid unloaded under a player or an active object would
    leave them pointing at freed memory; the theorems show it cannot happen.

    The objects on the map are their cell coordinates; their positions as
    floats, and the creatures a grid moves away before it is deleted, are not
    modelled.  [cell_range] is the visibility range in cells
    ([ceilf(viewDist / SIZE_OF_GRID_CELL) + 1]). *)

From S2P Require Import Prelude.
From S2P Require Import Floats.
Local Open Scope Z_scope.

(** ** Coordinates ([CoordPair<LIMIT>], [Cell]) *)

Abbreviation Coord := (Z * Z)%type.
Definition MAX_NUMBER_OF_CELLS := 8.
Definition MAX_NUMBER_OF_GRIDS := 64.
Definition TOTAL_NUMBER_OF_CELLS_PER_MAP := MAX_NUMBER_OF_GRIDS * MAX_NUMBER_OF_CELLS.

Definition IsCoordValid (LIMIT : Z) (p : Coord) : bool := (p.1 <? LIMIT) && (p.2 <? LIMIT).

(** [dec_x]/[dec_y] and [inc_x]/[inc_y] on one coordinate, a [uint32]. *)
Definition coord_dec (val x : Z) : Z := if val <? x then x - val else 0.
Definition coord_inc (LIMIT val x : Z) : Z :=
  if u32 (x + val) <? LIMIT then u32 (x + val) else LIMIT - 1.

Definition normalize (LIMIT : Z) (p : Coord) : Coord :=
  (Z.min p.1 (LIMIT - 1), Z.min p.2 (LIMIT - 1)).

Definition GetId (LIMIT : Z) (p : Coord) : Z := p.2 * LIMIT + p.1.

Record Cell := mkCell { grid_x : Z; grid_y : Z; cell_x : Z; cell_y : Z; nocreate : bool }.

(** The bit fields are 6 bits wide. *)
Definition Cell_of (p : Coord) : Cell :=
  mkCell (uint 6 (p.1 / MAX_NUMBER_OF_CELLS)) (uint 6 (p.2 / MAX_NUMBER_OF_CELLS))
    (uint 6 (p.1 mod MAX_NUMBER_OF_CELLS)) (uint 6 (p.2 mod MAX_NUMBER_OF_CELLS)) false.

Definition DiffCell (c d : Cell) : bool :=
  negb (cell_x c =? cell_x d) || negb (cell_y c =? cell_y d).
Definition DiffGrid (c d : Cell) : bool :=
  negb (grid_x c =? grid_x d) || negb (grid_y c =? grid_y d).
Definition GetCellCoord (c : Cell) : Coord :=
  (grid_x c * MAX_NUMBER_OF_CELLS + cell_x c, grid_y c * MAX_NUMBER_OF_CELLS + cell_y c).

Definition grid_of (p : Coord) : Coord := (grid_x (Cell_of p), grid_y (Cell_of p)).

Definition coord_ok (LIMIT : Z) (p : Coord) : Prop := 0 <= p.1 < LIMIT /\ 0 <= p.2 < LIMIT.
Abbreviation cell_ok := (coord_ok TOTAL_NUMBER_OF_CELLS_PER_MAP).

(** ** GridInfo and NGrid *)

Inductive grid_state_t :=
| GRID_STATE_INVALID | GRID_STATE_ACTIVE | GRID_STATE_IDLE | GRID_STATE_REMOVAL.

#[export] Instance grid_state_eq_dec : EqDecision grid_state_t.
Proof. solve_decision. Defined.

(** [i_timer] is a [TimeTracker]; it is reset whenever it reaches zero, so its
    [time_t] cannot overflow.  The lock count is a [uint16]. *)
Record GridInfo := mkGridInfo {
  i_timer : Z;
  i_unloadActiveLockCount : Z;
  i_unloadExplicitLock : bool;
  i_unloadReferenceLock : bool
}.

Definition GridInfo_new (expiry : Z) (unload : bool) : GridInfo :=
  mkGridInfo expiry 0 (negb unload) false.

Definition getUnloadLock (i : GridInfo) : bool :=
  negb (i_unloadActiveLockCount i =? 0) || i_unloadExplicitLock i || i_unloadReferenceLock i.
Definition setUnloadExplicitLock (on : bool) (i : GridInfo) : GridInfo :=
  mkGridInfo (i_timer i) (i_unloadActiveLockCount i) on (i_unloadReferenceLock i).
Definition setUnloadReferenceLock (on : bool) (i : GridInfo) : GridInfo :=
  mkGridInfo (i_timer i) (i_unloadActiveLockCount i) (i_unloadExplicitLock i) on.
Definition set_lock_count (n : Z) (i : GridInfo) : GridInfo :=
  mkGridInfo (i_timer i) n (i_unloadExplicitLock i) (i_unloadReferenceLock i).
Definition incUnloadActiveLock (i : GridInfo) : GridInfo :=
  set_lock_count (u16 (i_unloadActiveLockCount i + 1)) i.
Definition decUnloadActiveLock (i : GridInfo) : GridInfo :=
  if negb (i_unloadActiveLockCount i =? 0) then set_lock_count (i_unloadActiveLockCount i - 1) i else i.
Definition ResetTimeTracker (interval : Z) (i : GridInfo) : GridInfo :=
  mkGridInfo interval (i_unloadActiveLockCount i) (i_unloadExplicitLock i) (i_unloadReferenceLock i).
Definition UpdateTimeTracker (diff : Z) (i : GridInfo) : GridInfo :=
  ResetTimeTracker (i_timer i - diff) i.
Definition Passed (i : GridInfo) : bool := i_timer i <=? 0.

Record NGrid := mkNGrid {
  i_GridInfo : GridInfo;
  i_cellstate : grid_state_t;
  i_GridObjectDataLoaded : bool
}.

Definition upd_info (f : GridInfo -> GridInfo) (g : NGrid) : NGrid :=
  mkNGrid (f (i_GridInfo g)) (i_cellstate g) (i_GridObjectDataLoaded g).
Definition SetGridState (s : grid_state_t) (g : NGrid) : NGrid :=
  mkNGrid (i_GridInfo g) s (i_GridObjectDataLoaded g).
Definition setGridObjectDataLoaded (b : bool) (g : NGrid) : NGrid :=
  mkNGrid (i_GridInfo g) (i_cellstate g) b.

(** ** Map *)

(** The objects of a map by an identity of their own, with the cell each stands
    in: the players ([m_mapRefManager]), the active non-players, and the
    creatures in the world containers of the grids (pets and the like). *)
Record Map := mkMap {
  m_grids : gmap Coord NGrid;
  m_players : gmap Z Coord;
  m_activeNonPlayers : gmap Z Coord;
  m_worldCreatures : gmap Z Coord
}.

Definition set_grids (g : gmap Coord NGrid) (m : Map) : Map :=
  mkMap g (m_players m) (m_activeNonPlayers m) (m_worldCreatures m).
Definition set_players (p : gmap Z Coord) (m : Map) : Map :=
  mkMap (m_grids m) p (m_activeNonPlayers m) (m_worldCreatures m).
Definition set_active (a : gmap Z Coord) (m : Map) : Map :=
  mkMap (m_grids m) (m_players m) a (m_worldCreatures m).
Definition set_creatures (c : gmap Z Coord) (m : Map) : Map :=
  mkMap (m_grids m) (m_players m) (m_activeNonPlayers m) c.
Definition upd_grid (f : NGrid -> NGrid) (p : Coord) (m : Map) : Map :=
  set_grids (alter f p (m_grids m)) m.

(** The factors [1] and [0.1f] of [ResetGridExpiry]. *)
Definition factor_one : spec_float := decode32 1065353216.
Definition factor_tenth : spec_float := decode32 1036831949.

Section Map.
(** The map's [i_gridExpiry], the configuration [CONFIG_GRID_UNLOAD], the
    visibility range in cells, and whether the map is a battleground. *)
Context (i_gridExpiry : Z) (config_grid_unload : bool) (cell_range : Z) (is_battleground : bool).

Definition grid_expiry (factor : spec_float) : Z :=
  Z_of_float (SFmul 24 128 (float_of_Z i_gridExpiry) factor).
Definition ResetGridExpiry (factor : spec_float) (g : NGrid) : NGrid :=
  upd_info (ResetTimeTracker (grid_expiry factor)) g.

(** Creatures and players in the 64 cells of a grid. *)
Definition GetWorldObjectCountInNGrid (objs : gmap Z Coord) (g : Coord) : nat :=
  length (filter (fun o => grid_of o.2 = g) (map_to_list objs)).

Definition ActiveObjectsNearGrid (m : Map) (g : Coord) : bool :=
  let cell_min := (g.1 * MAX_NUMBER_OF_CELLS, g.2 * MAX_NUMBER_OF_CELLS) in
  let cell_max := (cell_min.1 + MAX_NUMBER_OF_CELLS, cell_min.2 + MAX_NUMBER_OF_CELLS) in
  let range := u32 cell_range in
  let cell_min := (coord_dec range cell_min.1, coord_dec range cell_min.2) in
  let inc := coord_inc TOTAL_NUMBER_OF_CELLS_PER_MAP range in
  let cell_max := (inc cell_max.1, inc cell_max.2) in
  let near (p : Coord) :=
    ((cell_min.1 <=? p.1) && (p.1 <=? cell_max.1)) && ((cell_min.2 <=? p.2) && (p.2 <=? cell_max.2)) in
  existsb (fun o => near o.2) (map_to_list (m_players m))
  || existsb (fun o => near o.2) (map_to_list (m_activeNonPlayers m)).

(** [UnloadGrid(ngrid, false)]: whether the grid goes. *)
Definition UnloadGrid (m : Map) (g : Coord) : bool :=
  if negb (GetWorldObjectCountInNGrid (m_worldCreatures m) g =? 0)%nat then false
  else if ActiveObjectsNearGrid m g then false
  else true.

(** The four [GridState::Update]; [None] when the grid has been deleted. *)
Definition ActiveState_Update (m : Map) (p : Coord) (g : NGrid) (diff : Z) : option NGrid :=
  let g := upd_info (UpdateTimeTracker diff) g in
  if Passed (i_GridInfo g) then
    if (GetWorldObjectCountInNGrid (m_players m) p =? 0)%nat && negb (ActiveObjectsNearGrid m p)
    then Some (SetGridState GRID_STATE_IDLE g)
    else Some (ResetGridExpiry factor_tenth g)
  else Some g.

Definition IdleState_Update (m : Map) (p : Coord) (g : NGrid) (diff : Z) : option NGrid :=
  Some (SetGridState GRID_STATE_REMOVAL (ResetGridExpiry factor_one g)).

Definition RemovalState_Update (m : Map) (p : Coord) (g : NGrid) (diff : Z) : option NGrid :=
  if negb (getUnloadLock (i_GridInfo g)) then
    let g := upd_info (UpdateTimeTracker diff) g in
    if Passed (i_GridInfo g) then
      if negb (UnloadGrid m p) then Some (ResetGridExpiry factor_one g) else None
    else Some g
  else Some g.

Definition GridState_Update (m : Map) (p : Coord) (g : NGrid) (diff : Z) : option NGrid :=
  match i_cellstate g with
  | GRID_STATE_INVALID => Some g
  | GRID_STATE_ACTIVE => ActiveState_Update m p g diff
  | GRID_STATE_IDLE => IdleState_Update m p g diff
  | GRID_STATE_REMOVAL => RemovalState_Update m p g diff
  end.

(** The loop of [Map::DelayedUpdate]: an update reads the positions of the
    viewers and changes or deletes its own grid, so the order of the loop does
    not matter. *)
Definition DelayedUpdate (diff : Z) (m : Map) : Map :=
  if negb is_battleground
  then set_grids (map_imap (fun p g => GridState_Update m p g diff) (m_grids m)) m
  else m.

Definition EnsureGridCreated (p : Coord) (m : Map) : Map :=
  match m_grids m !! p with
  | Some _ => m
  | None =>
      let g := mkNGrid (GridInfo_new i_gridExpiry config_grid_unload) GRID_STATE_INVALID false in
      set_grids (<[p := SetGridState GRID_STATE_IDLE g]> (m_grids m)) m
  end.

Definition EnsureGridLoaded (p : Coord) (m : Map) : Map :=
  upd_grid (fun g => if negb (i_GridObjectDataLoaded g) then setGridObjectDataLoaded true g else g) p
    (EnsureGridCreated p m).

Definition EnsureGridLoadedForActiveObject (p : Coord) (m : Map) : Map :=
  upd_grid (fun g =>
      if negb (bool_decide (i_cellstate g = GRID_STATE_ACTIVE))
      then SetGridState GRID_STATE_ACTIVE (ResetGridExpiry factor_tenth g) else g) p
    (EnsureGridLoaded p m).

Definition AddPlayerToMap (id : Z) (c : Coord) (m : Map) : bool * Map :=
  if negb (IsCoordValid TOTAL_NUMBER_OF_CELLS_PER_MAP c) then (false, m)
  else
    let m := EnsureGridLoadedForActiveObject (grid_of c) m in
    (true, set_players (<[id := c]> (m_players m)) m).

Definition PlayerRelocation (id : Z) (c : Coord) (m : Map) : Map :=
  match m_players m !! id with
  | None => m
  | Some old =>
      let m := if DiffGrid (Cell_of old) (Cell_of c)
               then EnsureGridLoadedForActiveObject (grid_of c) m else m in
      set_players (<[id := c]> (m_players m)) m
  end.

Definition RemovePlayerFromMap (id : Z) (m : Map) : Map :=
  set_players (delete id (m_players m)) m.

(** [AddToActive(Creature)]: [spawn] is the grid of the respawn position of a
    creature that has one; it is locked if it is loaded. *)
Definition AddToActive (id : Z) (c : Coord) (spawn : option Coord) (m : Map) : Map :=
  let m := set_active (<[id := c]> (m_activeNonPlayers m)) m in
  match spawn with
  | Some p => upd_grid (upd_info incUnloadActiveLock) p m
  | None => m
  end.

Definition RemoveFromActive (id : Z) (spawn : option Coord) (m : Map) : Map :=
  let m := set_active (delete id (m_activeNonPlayers m)) m in
  match spawn with
  | Some p => upd_grid (upd_info decUnloadActiveLock) p m
  | None => m
  end.

(** [AddToMap] of an active creature, and of one that is not. *)
Definition AddToMap_active (id : Z) (c : Coord) (spawn : option Coord) (m : Map) : Map :=
  AddToActive id c spawn (EnsureGridLoadedForActiveObject (grid_of c) m).
Definition AddToMap_creature (id : Z) (c : Coord) (m : Map) : Map :=
  let m := EnsureGridCreated (grid_of c) m in
  set_creatures (<[id := c]> (m_worldCreatures m)) m.

(** [CreatureCellRelocation]; a creature that is not active only enters loaded
    grids. *)
Definition IsGridLoaded (p : Coord) (m : Map) : bool :=
  match m_grids m !! p with Some g => i_GridObjectDataLoaded g | None => false end.

Definition CreatureCellRelocation_active (id : Z) (c : Coord) (m : Map) : Map :=
  match m_activeNonPlayers m !! id with
  | None => m
  | Some old =>
      let m := if DiffGrid (Cell_of old) (Cell_of c)
               then EnsureGridLoadedForActiveObject (grid_of c) m else m in
      set_active (<[id := c]> (m_activeNonPlayers m)) m
  end.

Definition CreatureCellRelocation (id : Z) (c : Coord) (m : Map) : bool * Map :=
  match m_worldCreatures m !! id with
  | None => (false, m)
  | Some old =>
      if negb (DiffGrid (Cell_of old) (Cell_of c)) || IsGridLoaded (grid_of c) m
      then let m := EnsureGridCreated (grid_of c) m in
           (true, set_creatures (<[id := c]> (m_worldCreatures m)) m)
      else (false, m)
  end.

(** Both dereference the grid. *)
Definition SetUnloadLock (p : Coord) (on : bool) (m : Map) : option Map :=
  _ ← m_grids m !! p; Some (upd_grid (upd_info (setUnloadExplicitLock on)) p m).
Definition SetUnloadReferenceLock (p : Coord) (on : bool) (m : Map) : option Map :=
  _ ← m_grids m !! p; Some (upd_grid (upd_info (setUnloadReferenceLock on)) p m).

(** ** The map as a transition system *)

Inductive map_step : Map -> Map -> Prop :=
| st_add_player id c m : coord_ok TOTAL_NUMBER_OF_CELLS_PER_MAP c ->
    map_step m (AddPlayerToMap id c m).2
| st_move_player id c m : coord_ok TOTAL_NUMBER_OF_CELLS_PER_MAP c ->
    map_step m (PlayerRelocation id c m)
| st_remove_player id m : map_step m (RemovePlayerFromMap id m)
| st_add_active id c spawn m : coord_ok TOTAL_NUMBER_OF_CELLS_PER_MAP c ->
    map_step m (AddToMap_active id c spawn m)
| st_set_active id c spawn m : coord_ok TOTAL_NUMBER_OF_CELLS_PER_MAP c ->
    is_Some (m_grids m !! grid_of c) -> map_step m (AddToActive id c spawn m)
| st_move_active id c m : coord_ok TOTAL_NUMBER_OF_CELLS_PER_MAP c ->
    map_step m (CreatureCellRelocation_active id c m)
| st_remove_active id spawn m : map_step m (RemoveFromActive id spawn m)
| st_add_creature id c m : coord_ok TOTAL_NUMBER_OF_CELLS_PER_MAP c ->
    map_step m (AddToMap_creature id c m)
| st_move_creature id c m : coord_ok TOTAL_NUMBER_OF_CELLS_PER_MAP c ->
    map_step m (CreatureCellRelocation id c m).2
| st_remove_creature id m : map_step m (set_creatures (delete id (m_worldCreatures m)) m)
| st_load p m : map_step m (EnsureGridLoaded p m)
| st_lock p on m m' : SetUnloadLock p on m = Some m' -> map_step m m'
| st_ref_lock p on m m' : SetUnloadReferenceLock p on m = Some m' -> map_step m m'
| st_delayed diff m : 0 <= diff < 2 ^ 32 -> map_step m (DelayedUpdate diff m).

Definition empty_map : Map := mkMap ∅ ∅ ∅ ∅.
Definition reachable (m : Map) : Prop := rtc map_step empty_map m.
End Map.

(** ** Coordinates *)

Lemma grid_of_div c : cell_ok c -> grid_of c = (c.1 / 8, c.2 / 8).
Proof.
  intros [H1 H2]. unfold grid_of, Cell_of. simpl.
  unfold TOTAL_NUMBER_OF_CELLS_PER_MAP, MAX_NUMBER_OF_GRIDS, MAX_NUMBER_OF_CELLS in *.
  assert (0 <= c.1 / 8 < 64) by (split; [apply Z.div_pos; lia|apply Z.div_lt_upper_bound; lia]).
  assert (0 <= c.2 / 8 < 64) by (split; [apply Z.div_pos; lia|apply Z.div_lt_upper_bound; lia]).
  by rewrite !uint_small by (simpl; lia).
Qed.

Lemma coord_dec_spec val x : 0 <= val -> 0 <= x -> coord_dec val x = Z.max 0 (x - val).
Proof. intros. unfold coord_dec. destruct (Z.ltb_spec val x); lia. Qed.

Lemma coord_inc_spec LIMIT val x : 0 <= val -> 0 <= x -> x + val < 2 ^ 32 ->
  coord_inc LIMIT val x = Z.min (x + val) (LIMIT - 1).
Proof.
  intros. unfold coord_inc. rewrite uint_small by lia.
  destruct (Z.ltb_spec (x + val) LIMIT); lia.
Qed.

(** The cell a coordinate pair names decomposes uniquely: for every valid
    cell coordinate [Cell] and [GetCellCoord] are inverse, the linear id of a
    coordinate pair determines it, and two cells of different grids differ. *)
Theorem cell_coord_roundtrip (p q : Coord) :
  cell_ok p -> cell_ok q ->
  GetCellCoord (Cell_of p) = p
  /\ (GetId TOTAL_NUMBER_OF_CELLS_PER_MAP p = GetId TOTAL_NUMBER_OF_CELLS_PER_MAP q -> p = q)
  /\ (DiffGrid (Cell_of p) (Cell_of q) = negb (bool_decide (grid_of p = grid_of q))).
Proof.
  intros Hp Hq. split_and!.
  - pose proof (grid_of_div p Hp) as Hg. unfold grid_of in Hg. injection Hg as Hx Hy.
    unfold GetCellCoord, Cell_of. simpl. rewrite Hx, Hy. unfold MAX_NUMBER_OF_CELLS.
    pose proof (Z.mod_pos_bound p.1 8). pose proof (Z.mod_pos_bound p.2 8).
    rewrite !uint_small by (simpl; lia). destruct p as [x y]; simpl.
    f_equal; rewrite Z.mul_comm; symmetry; apply Z.div_mod; lia.
  - unfold coord_ok, GetId, TOTAL_NUMBER_OF_CELLS_PER_MAP, MAX_NUMBER_OF_GRIDS, MAX_NUMBER_OF_CELLS in *.
    destruct p, q. simpl in *. intros. f_equal; nia.
  - unfold DiffGrid, grid_of. rewrite <- negb_andb. f_equal. apply Bool.eq_iff_eq_true.
    rewrite andb_true_iff, !Z.eqb_eq, bool_decide_eq_true.
    split; [intros [Hx Hy]; by f_equal|by intros [= Hx Hy]].
Qed.

Lemma cell_coord_roundtrip_witness :
  GetCellCoord (Cell_of (509, 12)) = (509, 12)
  /\ (GetId TOTAL_NUMBER_OF_CELLS_PER_MAP (509, 12) = GetId TOTAL_NUMBER_OF_CELLS_PER_MAP (511, 12) ->
      (509, 12) = (511, 12))
  /\ DiffGrid (Cell_of (509, 12)) (Cell_of (511, 12)) = false.
Proof.
  apply (cell_coord_roundtrip (509, 12) (511, 12)); split; vm_compute; split; congruence.
Defined.

(** ** The invariant *)

(** Every player stands in a loaded grid in state ACTIVE; every active object
    and every creature of a world container stands in a grid that exists. *)
Record map_ok (m : Map) : Prop := {
  mo_players id c : m_players m !! id = Some c -> cell_ok c /\
    exists g, m_grids m !! grid_of c = Some g /\ i_cellstate g = GRID_STATE_ACTIVE
              /\ i_GridObjectDataLoaded g = true;
  mo_active id c : m_activeNonPlayers m !! id = Some c ->
    cell_ok c /\ is_Some (m_grids m !! grid_of c);
  mo_creatures id c : m_worldCreatures m !! id = Some c ->
    cell_ok c /\ is_Some (m_grids m !! grid_of c);
  mo_state p g : m_grids m !! p = Some g -> i_cellstate g <> GRID_STATE_INVALID
}.

(** [f] may refresh a grid but not degrade it. *)
Definition refreshes (f : NGrid -> NGrid) : Prop := forall g,
  (i_cellstate g = GRID_STATE_ACTIVE -> i_cellstate (f g) = GRID_STATE_ACTIVE)
  /\ (i_GridObjectDataLoaded g = true -> i_GridObjectDataLoaded (f g) = true)
  /\ (i_cellstate g <> GRID_STATE_INVALID -> i_cellstate (f g) <> GRID_STATE_INVALID).

Lemma upd_info_refreshes f : refreshes (upd_info f).
Proof. done. Qed.

Lemma map_ok_upd f p m : refreshes f -> map_ok m -> map_ok (upd_grid f p m).
Proof.
  intros Hf []. constructor; simpl.
  - intros id c Hc. destruct (mo_players0 id c Hc) as (Hok & g & Hg & Ha & Hl). split; [done|].
    rewrite lookup_alter. case_decide as Hd; [|by exists g].
    subst p. rewrite Hg. exists (f g). destruct (Hf g) as (? & ? & ?). auto.
  - intros id c Hc. destruct (mo_active0 id c Hc) as [Hok Hg]. split; [done|].
    rewrite lookup_alter. case_decide; [subst; by apply fmap_is_Some|done].
  - intros id c Hc. destruct (mo_creatures0 id c Hc) as [Hok Hg]. split; [done|].
    rewrite lookup_alter. case_decide; [subst; by apply fmap_is_Some|done].
  - intros q g. rewrite lookup_alter. case_decide; [|by apply mo_state0].
    subst q. intros (g0 & Hg0 & ->)%fmap_Some. apply Hf. by eapply mo_state0.
Qed.

Lemma lookup_insert_keep {A} (G : gmap Coord A) p q g : G !! p = None -> is_Some (G !! q) ->
  <[p := g]> G !! q = G !! q.
Proof. intros Hp [x Hq]. rewrite lookup_insert_ne; [done|]. intros ->. congruence. Qed.

Section MapCorrect.
Context (i_gridExpiry : Z) (config_grid_unload : bool) (cell_range : Z) (is_battleground : bool).
Abbreviation Created := (EnsureGridCreated i_gridExpiry config_grid_unload).
Abbreviation Loaded := (EnsureGridLoaded i_gridExpiry config_grid_unload).
Abbreviation Activated := (EnsureGridLoadedForActiveObject i_gridExpiry config_grid_unload).

Lemma map_ok_created p m : map_ok m -> map_ok (Created p m).
Proof.
  intros Hok. unfold EnsureGridCreated. destruct (m_grids m !! p) eqn:Hp; [done|].
  destruct Hok. constructor; simpl.
  - intros id c Hc. destruct (mo_players0 id c Hc) as (? & g & Hg & ?). split; [done|].
    exists g. by rewrite lookup_insert_keep.
  - intros id c Hc. destruct (mo_active0 id c Hc) as [? Hg]. by rewrite lookup_insert_keep.
  - intros id c Hc. destruct (mo_creatures0 id c Hc) as [? Hg]. by rewrite lookup_insert_keep.
  - intros q g. rewrite lookup_insert. case_decide; [by intros [= <-]|by apply mo_state0].
Qed.

Lemma created_lookup p m : is_Some (m_grids (Created p m) !! p).
Proof.
  unfold EnsureGridCreated. destruct (m_grids m !! p) eqn:Hp; [by eexists|].
  simpl. rewrite lookup_insert_eq. by eexists.
Qed.

Lemma map_ok_loaded p m : map_ok m -> map_ok (Loaded p m).
Proof.
  intros Hok. apply map_ok_upd; [|by apply map_ok_created].
  intros g. by destruct (i_GridObjectDataLoaded g) eqn:E.
Qed.

Lemma map_ok_activated p m : map_ok m -> map_ok (Activated p m).
Proof.
  intros Hok. apply map_ok_upd; [|by apply map_ok_loaded].
  intros g. by case_bool_decide.
Qed.

Lemma activated_lookup p m : exists g, m_grids (Activated p m) !! p = Some g
  /\ i_cellstate g = GRID_STATE_ACTIVE /\ i_GridObjectDataLoaded g = true.
Proof.
  unfold EnsureGridLoadedForActiveObject, EnsureGridLoaded. simpl. rewrite !lookup_alter_eq.
  destruct (created_lookup p m) as [g ->]. simpl. eexists. split; [reflexivity|].
  case_bool_decide as Ha; simpl in *; destruct (i_GridObjectDataLoaded g) eqn:El; simpl in *; auto.
Qed.

(** The sets of objects do not change with the grids. *)
Lemma activated_objects p m :
  m_players (Activated p m) = m_players m
  /\ m_activeNonPlayers (Activated p m) = m_activeNonPlayers m
  /\ m_worldCreatures (Activated p m) = m_worldCreatures m.
Proof.
  unfold EnsureGridLoadedForActiveObject, EnsureGridLoaded, EnsureGridCreated.
  by destruct (m_grids m !! p).
Qed.

Lemma existsb_lookup (objs : gmap Z Coord) (f : Z * Coord -> bool) id c :
  objs !! id = Some c -> f (id, c) = true -> existsb f (map_to_list objs) = true.
Proof.
  intros Hc Hf. apply existsb_exists. exists (id, c). split; [|done].
  apply list_elem_of_In. by apply elem_of_map_to_list.
Qed.

Lemma count_lookup (objs : gmap Z Coord) id c :
  objs !! id = Some c -> GetWorldObjectCountInNGrid objs (grid_of c) <> 0%nat.
Proof.
  intros Hc. unfold GetWorldObjectCountInNGrid. intros H.
  assert ((id, c) ∈ filter (fun o : Z * Coord => grid_of o.2 = grid_of c) (map_to_list objs)) as Hin.
  { apply list_elem_of_filter. split; [done|]. by apply elem_of_map_to_list. }
  apply length_zero_iff_nil in H. rewrite H in Hin. by apply not_elem_of_nil in Hin.
Qed.

Hypothesis Hrange : 0 <= cell_range < 2 ^ 31.

(** Whoever stands in a grid is near it. *)
Lemma near_own_grid m id c :
  m_players m !! id = Some c \/ m_activeNonPlayers m !! id = Some c -> cell_ok c ->
  ActiveObjectsNearGrid cell_range m (grid_of c) = true.
Proof.
  intros Hin Hok. unfold ActiveObjectsNearGrid. rewrite grid_of_div by done.
  cbn [fst snd]. apply orb_true_iff.
  destruct Hok as [H1 H2].
  pose proof (Z.div_mod c.1 8). pose proof (Z.div_mod c.2 8).
  pose proof (Z.mod_pos_bound c.1 8). pose proof (Z.mod_pos_bound c.2 8).
  unfold TOTAL_NUMBER_OF_CELLS_PER_MAP, MAX_NUMBER_OF_GRIDS, MAX_NUMBER_OF_CELLS in *.
  rewrite (uint_small 32) by lia. rewrite !coord_dec_spec, !coord_inc_spec by lia.
  destruct Hin as [Hc|Hc]; [left|right]; eapply existsb_lookup; try exact Hc;
    simpl; rewrite !andb_true_iff, !Z.leb_le; lia.
Qed.

Lemma GridState_Update_player m id c diff g :
  m_players m !! id = Some c -> cell_ok c -> i_cellstate g = GRID_STATE_ACTIVE ->
  exists g', GridState_Update i_gridExpiry cell_range m (grid_of c) g diff = Some g'
    /\ i_cellstate g' = GRID_STATE_ACTIVE
    /\ i_GridObjectDataLoaded g' = i_GridObjectDataLoaded g.
Proof.
  intros Hc Hok Ha. unfold GridState_Update. rewrite Ha. unfold ActiveState_Update.
  rewrite (near_own_grid m id c) by auto. rewrite andb_false_r.
  destruct (Passed _); eexists; (split; [reflexivity|done]).
Qed.

Lemma GridState_Update_near m p diff g :
  UnloadGrid cell_range m p = false ->
  is_Some (GridState_Update i_gridExpiry cell_range m p g diff).
Proof.
  intros Hu. unfold GridState_Update, ActiveState_Update, IdleState_Update, RemovalState_Update.
  rewrite Hu. split_matches; by eexists.
Qed.

Lemma GridState_Update_state m p diff g g' :
  GridState_Update i_gridExpiry cell_range m p g diff = Some g' ->
  i_cellstate g <> GRID_STATE_INVALID -> i_cellstate g' <> GRID_STATE_INVALID.
Proof.
  unfold GridState_Update, ActiveState_Update, IdleState_Update, RemovalState_Update.
  destruct (i_cellstate g) eqn:E; [done|..]; intros H _;
    repeat (match goal with H : context [if ?b then _ else _] |- _ => destruct b end);
    try discriminate H; injection H as <-; simpl; congruence.
Qed.

Lemma map_ok_delayed diff m : map_ok m ->
  map_ok (DelayedUpdate i_gridExpiry cell_range is_battleground diff m).
Proof.
  intros Hok. unfold DelayedUpdate. destruct is_battleground; [done|]. destruct Hok.
  constructor; simpl; try intros id c Hc.
  - destruct (mo_players0 id c Hc) as (Hok & g & Hg & Ha & Hl). split; [done|].
    rewrite map_lookup_imap, Hg. simpl.
    destruct (GridState_Update_player m id c diff g Hc Hok Ha) as (g' & E & Ha' & Hl').
    exists g'. by rewrite E, Ha', Hl', Hl.
  - destruct (mo_active0 id c Hc) as [Hok [g Hg]]. split; [done|].
    rewrite map_lookup_imap, Hg. apply GridState_Update_near. unfold UnloadGrid.
    rewrite (near_own_grid m id c) by auto. by destruct (negb _).
  - destruct (mo_creatures0 id c Hc) as [Hok [g Hg]]. split; [done|].
    rewrite map_lookup_imap, Hg. apply GridState_Update_near. unfold UnloadGrid.
    pose proof (count_lookup _ _ _ Hc) as Hne. apply Nat.eqb_neq in Hne. by rewrite Hne.
  - rewrite map_lookup_imap in Hc. apply bind_Some in Hc as (g0 & Hg0 & E).
    eapply GridState_Update_state; [exact E|]. by eapply mo_state0.
Qed.

Lemma map_ok_put_player id c m : map_ok m -> cell_ok c ->
  (exists g, m_grids m !! grid_of c = Some g /\ i_cellstate g = GRID_STATE_ACTIVE
             /\ i_GridObjectDataLoaded g = true) ->
  map_ok (set_players (<[id := c]> (m_players m)) m).
Proof.
  intros [] Hok Hg. constructor; simpl; try done. intros id' c'.
  rewrite lookup_insert. case_decide; [by intros [= <-]|by apply mo_players0].
Qed.

Lemma map_ok_put_active id c m : map_ok m -> cell_ok c -> is_Some (m_grids m !! grid_of c) ->
  map_ok (set_active (<[id := c]> (m_activeNonPlayers m)) m).
Proof.
  intros [] Hok Hg. constructor; simpl; try done. intros id' c'.
  rewrite lookup_insert. case_decide; [by intros [= <-]|by apply mo_active0].
Qed.

Lemma map_ok_put_creature id c m : map_ok m -> cell_ok c -> is_Some (m_grids m !! grid_of c) ->
  map_ok (set_creatures (<[id := c]> (m_worldCreatures m)) m).
Proof.
  intros [] Hok Hg. constructor; simpl; try done. intros id' c'.
  rewrite lookup_insert. case_decide; [by intros [= <-]|by apply mo_creatures0].
Qed.

Lemma map_ok_add_active id c spawn m : map_ok m -> cell_ok c -> is_Some (m_grids m !! grid_of c) ->
  map_ok (AddToActive id c spawn m).
Proof.
  intros Hok Hc Hg. unfold AddToActive. pose proof (map_ok_put_active id c m Hok Hc Hg).
  destruct spawn; [|done]. by apply map_ok_upd.
Qed.

Lemma DiffGrid_grid_of c d : DiffGrid (Cell_of c) (Cell_of d) = false -> grid_of c = grid_of d.
Proof.
  unfold DiffGrid, grid_of. rewrite orb_false_iff, !negb_false_iff, !Z.eqb_eq.
  intros [Hx Hy]. by f_equal.
Qed.

Lemma activated_some p m : is_Some (m_grids (Activated p m) !! p).
Proof. destruct (activated_lookup p m) as (g & -> & _). by eexists. Qed.

Lemma map_step_ok m m' :
  map_step i_gridExpiry config_grid_unload cell_range is_battleground m m' ->
  map_ok m -> map_ok m'.
Proof.
  intros Hstep Hok. destruct Hstep as [id c m Hc|id c m Hc|id m|id c spawn m Hc|id c spawn m Hc Hg
    |id c m Hc|id spawn m|id c m Hc|id c m Hc|id m|p m|p on m m' E|p on m m' E|diff m _].
  - unfold AddPlayerToMap. destruct (negb _); [done|]. cbn [snd].
    apply map_ok_put_player; [by apply map_ok_activated|done|apply activated_lookup].
  - unfold PlayerRelocation. destruct (m_players m !! id) as [old|] eqn:Hold; [|done].
    destruct (DiffGrid _ _) eqn:Hd.
    + apply map_ok_put_player; [by apply map_ok_activated|done|apply activated_lookup].
    + apply map_ok_put_player; [done|done|]. rewrite <- (DiffGrid_grid_of _ _ Hd).
      by eapply mo_players.
  - destruct Hok. constructor; simpl; try done. intros id' c [_ Hc]%lookup_delete_Some.
    by eapply mo_players0.
  - apply map_ok_add_active; [by apply map_ok_activated|done|apply activated_some].
  - by apply map_ok_add_active.
  - unfold CreatureCellRelocation_active. destruct (m_activeNonPlayers m !! id) as [old|] eqn:Hold; [|done].
    destruct (DiffGrid _ _) eqn:Hd.
    + apply map_ok_put_active; [by apply map_ok_activated|done|apply activated_some].
    + apply map_ok_put_active; [done|done|]. rewrite <- (DiffGrid_grid_of _ _ Hd).
      by eapply mo_active.
  - assert (map_ok (set_active (delete id (m_activeNonPlayers m)) m)) as Hok'.
    { destruct Hok. constructor; simpl; try done. intros id' c [_ Hc]%lookup_delete_Some.
      by eapply mo_active0. }
    unfold RemoveFromActive. destruct spawn; [|done]. by apply map_ok_upd.
  - apply map_ok_put_creature; [by apply map_ok_created|done|apply created_lookup].
  - unfold CreatureCellRelocation. destruct (m_worldCreatures m !! id); [|done].
    destruct (_ || _); [|done].
    apply map_ok_put_creature; [by apply map_ok_created|done|apply created_lookup].
  - destruct Hok. constructor; simpl; try done. intros id' c [_ Hc]%lookup_delete_Some.
    by eapply mo_creatures0.
  - by apply map_ok_loaded.
  - unfold SetUnloadLock in E. destruct (m_grids m !! p); [|done]. injection E as <-.
    by apply map_ok_upd.
  - unfold SetUnloadReferenceLock in E. destruct (m_grids m !! p); [|done]. injection E as <-.
    by apply map_ok_upd.
  - by apply map_ok_delayed.
Qed.
End MapCorrect.

(** ** Properties *)


(** Player 7 enters, time passes, the player walks into the next grid. *)
Definition sample_map : Map :=
  PlayerRelocation 300000 true 7 (8, 3)
    (DelayedUpdate 300000 3 false 40000
      (DelayedUpdate 300000 3 false 50 (AddPlayerToMap 300000 true 7 (7, 3) empty_map).2)).


(** A grid is deleted by [Map::DelayedUpdate] only in state REMOVAL, with
    its timer expired, no unload lock of any kind, no creature of a world
    container in it, and no player or active object in visibility range. *)
Theorem unload_guard i_gridExpiry cell_range is_battleground diff m p g :
  m_grids m !! p = Some g ->
  m_grids (DelayedUpdate i_gridExpiry cell_range is_battleground diff m) !! p = None ->
  is_battleground = false /\ i_cellstate g = GRID_STATE_REMOVAL
  /\ i_timer (i_GridInfo g) <= diff
  /\ getUnloadLock (i_GridInfo g) = false
  /\ GetWorldObjectCountInNGrid (m_worldCreatures m) p = 0%nat
  /\ ActiveObjectsNearGrid cell_range m p = false.
Proof.
  intros Hg. unfold DelayedUpdate. destruct is_battleground; simpl; [by rewrite Hg|].
  rewrite map_lookup_imap, Hg. simpl. unfold GridState_Update.
  destruct (i_cellstate g); [done|..]; [unfold ActiveState_Update|done|].
  { destruct (Passed _); [|done]. by destruct (_ && _). }
  unfold RemovalState_Update, Passed. simpl.
  destruct (getUnloadLock _); [done|]. simpl.
  destruct (Z.leb_spec (i_timer (i_GridInfo g) - diff) 0); [|done].
  unfold UnloadGrid.
  destruct (Nat.eqb_spec (GetWorldObjectCountInNGrid (m_worldCreatures m) p) 0); [|done]. simpl.
  destruct (ActiveObjectsNearGrid cell_range m p); [done|]. intros _. split_and!; try done. lia.
Qed.

Definition abandoned_grid : Map :=
  set_grids {[(0, 0) := mkNGrid (mkGridInfo 50 0 false false) GRID_STATE_REMOVAL true]}
    (set_players {[1 := (40, 40)]} empty_map).

Lemma unload_guard_witness :
  false = false /\ GRID_STATE_REMOVAL = GRID_STATE_REMOVAL /\ 50 <= 60 /\ false = false
  /\ GetWorldObjectCountInNGrid ∅ (0, 0) = 0%nat
  /\ ActiveObjectsNearGrid 3 abandoned_grid (0, 0) = false.
Proof.
  exact (unload_guard 300000 3 false 60 abandoned_grid (0, 0) _ eq_refl eq_refl).
Defined.

(** *** An abandoned grid goes *)

(** An upper bound on the time an unlocked grid that nobody is near still
    lives, when updates come at most [D] milliseconds apart. *)
Definition unload_budget (i_gridExpiry D : Z) (g : NGrid) : Z :=
  let expiry := Z.max 0 (grid_expiry i_gridExpiry factor_one) in
  match i_cellstate g with
  | GRID_STATE_ACTIVE => Z.max 0 (i_timer (i_GridInfo g)) + D + D + expiry
  | GRID_STATE_IDLE => D + expiry
  | _ => Z.max 0 (i_timer (i_GridInfo g))
  end.

(** Nobody is near the grid, and nothing in it holds it back. *)
Record abandoned (cell_range : Z) (m : Map) (p : Coord) : Prop := {
  ab_players : GetWorldObjectCountInNGrid (m_players m) p = 0%nat;
  ab_creatures : GetWorldObjectCountInNGrid (m_worldCreatures m) p = 0%nat;
  ab_near : ActiveObjectsNearGrid cell_range m p = false
}.

Lemma GridState_Update_abandoned i_gridExpiry cell_range m p g d D :
  abandoned cell_range m p -> getUnloadLock (i_GridInfo g) = false ->
  i_cellstate g <> GRID_STATE_INVALID -> 0 <= d <= D ->
  match GridState_Update i_gridExpiry cell_range m p g d with
  | None => True
  | Some g' => getUnloadLock (i_GridInfo g') = false /\ i_cellstate g' <> GRID_STATE_INVALID
               /\ unload_budget i_gridExpiry D g' + d <= unload_budget i_gridExpiry D g
  end.
Proof.
  intros [Hp Hc Hn] Hl Hi Hd. unfold GridState_Update, unload_budget.
  destruct (i_cellstate g) eqn:E; [done|..].
  - unfold ActiveState_Update, Passed. simpl. rewrite Hp, Hn. simpl.
    destruct (Z.leb_spec (i_timer (i_GridInfo g) - d) 0); simpl; rewrite ?E;
      (split_and!; [exact Hl|done|lia]).
  - simpl. split_and!; [exact Hl|done|lia].
  - unfold RemovalState_Update, Passed, UnloadGrid. rewrite Hl. simpl. rewrite Hc, Hn. simpl.
    destruct (Z.leb_spec (i_timer (i_GridInfo g) - d) 0); [done|]. simpl. rewrite E.
    split_and!; [exact Hl|done|lia].
Qed.

Definition DelayedUpdates i_gridExpiry cell_range (diffs : list Z) (m : Map) : Map :=
  foldl (fun m d => DelayedUpdate i_gridExpiry cell_range false d m) m diffs.

Lemma DelayedUpdates_gone i_gridExpiry cell_range diffs m p :
  m_grids m !! p = None -> m_grids (DelayedUpdates i_gridExpiry cell_range diffs m) !! p = None.
Proof.
  revert m. induction diffs as [|d diffs IH]; intros m Hm; [done|]. apply IH. simpl.
  by rewrite map_lookup_imap, Hm.
Qed.

Lemma DelayedUpdate_lookup i_gridExpiry cell_range d m p :
  m_grids (DelayedUpdate i_gridExpiry cell_range false d m) !! p =
  m_grids m !! p ≫= fun g => GridState_Update i_gridExpiry cell_range m p g d.
Proof. simpl. apply map_lookup_imap. Qed.



(** The spawn lock is not tied to the creature that took it: a creature
    activated while its spawn grid was absent takes no lock, yet its removal
    releases the lock another creature took since, although that creature is
    still active. *)
Theorem spawn_lock_stolen i_gridExpiry config_grid_unload m p a ca b cb :
  m_grids m !! p = None -> a <> b ->
  let m1 := AddToActive a ca (Some p) m in
  let m2 := EnsureGridLoaded i_gridExpiry config_grid_unload p m1 in
  let m3 := AddToActive b cb (Some p) m2 in
  let m4 := RemoveFromActive a (Some p) m3 in
  let locks m := i_unloadActiveLockCount ∘ i_GridInfo <$> m_grids m !! p in
  locks m3 = Some 1 /\ locks m4 = Some 0 /\ m_activeNonPlayers m4 !! b = Some cb.
Proof.
  intros Hp Hab m1 m2 m3 m4 locks.
  assert (m_grids m1 !! p = None) as Hm1 by (simpl; by rewrite lookup_alter_eq, Hp).
  assert (exists g, m_grids m2 !! p = Some g /\ i_unloadActiveLockCount (i_GridInfo g) = 0)
    as (g2 & Hg2 & Hc2).
  { subst m2. unfold EnsureGridLoaded, EnsureGridCreated. rewrite Hm1. simpl.
    rewrite lookup_alter_eq, lookup_insert_eq. by eexists. }
  assert (m_grids m3 !! p = Some (upd_info incUnloadActiveLock g2)) as Hg3
    by (change (m_grids m3) with (alter (upd_info incUnloadActiveLock) p (m_grids m2));
        by rewrite lookup_alter_eq, Hg2).
  assert (m_grids m4 !! p = Some (upd_info decUnloadActiveLock (upd_info incUnloadActiveLock g2)))
    as Hg4 by (change (m_grids m4) with (alter (upd_info decUnloadActiveLock) p (m_grids m3));
               by rewrite lookup_alter_eq, Hg3).
  unfold locks. rewrite Hg3, Hg4. simpl. unfold decUnloadActiveLock. simpl. rewrite Hc2.
  split_and!; try done. simpl.
  rewrite lookup_delete_ne by done. by rewrite lookup_insert_eq.
Qed.

Lemma spawn_lock_stolen_witness :
  let m1 := AddToActive 1 (0, 0) (Some (5, 5)) empty_map in
  let m2 := EnsureGridLoaded 300000 true (5, 5) m1 in
  let m3 := AddToActive 2 (1, 1) (Some (5, 5)) m2 in
  let m4 := RemoveFromActive 1 (Some (5, 5)) m3 in
  let locks m := i_unloadActiveLockCount ∘ i_GridInfo <$> m_grids m !! (5, 5) in
  locks m3 = Some 1 /\ locks m4 = Some 0 /\ m_activeNonPlayers m4 !! 2 = Some (1, 1).
Proof. apply (spawn_lock_stolen 300000 true empty_map (5, 5) 1 (0, 0) 2 (1, 1)); done. Defined.
