(* ===== verification/InstanceIds.v ===== *)
(** * Instance ids (src/src/serveur/jeu/Maps/MapManager.cpp)

    [MapManager] hands out the ids of dungeon and battleground instances from a
    [std::vector<bool>] of ids in use and the lowest free id.  [InstanceIds] is
    that part of its state; [load_instances] is the loop of
    [InstanceSaveManager::LoadResetTimes] that registers the saved instances.
    Indexing the vector past its end is undefined behaviour ([OutOfRange]).
    How far a [vector<bool>] grows is up to the implementation: [grow] is a
    parameter, with the law every implementation obeys. *)

From S2P Require Import Prelude.
From stdpp Require Import sorting.
Local Open Scope Z_scope.

Inductive IdError := OutOfRange | ServerStopped.

(** [capacity()] after a reallocation, from the old capacity and the size
    asked for. *)
Class BitVectorGrowth := grow : Z -> Z -> Z.
Class BitVectorGrowthLaws `{BitVectorGrowth} : Prop := grow_enough c n : n <= grow c n.

Record InstanceIds := mkInstanceIds {
  ids : list bool;
  capacity : Z;
  nextInstanceId : Z
}.

Section InstanceIds.
Context `{BitVectorGrowth}.

Abbreviation IdM := (prog InstanceIds IdError).

Definition set_ids (l : list bool) (s : InstanceIds) : InstanceIds :=
  mkInstanceIds l (capacity s) (nextInstanceId s).
Definition SetNextInstanceId (n : Z) (s : InstanceIds) : InstanceIds :=
  mkInstanceIds (ids s) (capacity s) n.

(** [_instanceIds.resize(n)]; it never shrinks the capacity. *)
Definition resize_ids (n : Z) (s : InstanceIds) : InstanceIds :=
  mkInstanceIds (take (Z.to_nat n) (ids s) ++ replicate (Z.to_nat n - length (ids s)) false)
    (if n <=? capacity s then capacity s else grow (capacity s) n) (nextInstanceId s).

(** [_instanceIds[i] = b] *)
Definition assign_id (i : Z) (b : bool) : IdM unit :=
  s ← get;
  if i <? len (ids s) then put (set_ids (<[Z.to_nat i := b]> (ids s)) s) else throw OutOfRange.

(** The size in whole words of 32 the code computes for an id. *)
Definition words32 (id : Z) : Z := (id / 32) * 32 + (if 0 <? id mod 32 then 32 else 0).

(** [maxId]: the row of "SELECT MAX(id) FROM instance", if there is one. *)
Definition InitInstanceIds (maxId : option Z) : IdM unit :=
  modify (SetNextInstanceId 1);;
  match maxId with
  | Some maxId => modify (resize_ids (words32 maxId))
  | None => mret tt
  end.

Definition RegisterInstanceId (instanceId : Z) : IdM unit := assign_id instanceId true.

(** One row of the loop in [LoadResetTimes]. *)
Definition load_instance (instanceId : Z) : IdM unit :=
  s ← get;
  (if nextInstanceId s =? instanceId
   then put (SetNextInstanceId (u32 (instanceId + 1)) s) else mret tt);;
  RegisterInstanceId instanceId.

Definition load_instances (rows : list Z) : IdM unit := forM rows load_instance.

(** [for (i = ...; i < 0xFFFFFFFF; ++i) if (...) { _nextInstanceId = i; break; }]:
    the [i] of the [break], if any.  Past the end of the vector the condition
    holds, so one more step than there are ids is enough fuel. *)
Fixpoint find_free (fuel : nat) (l : list bool) (i : Z) : option Z :=
  match fuel with
  | O => None
  | S fuel' =>
      if i <? 4294967295 then
        if (i <? len l) && negb (nth (Z.to_nat i) l false) || (len l <=? i) then Some i
        else find_free fuel' l (i + 1)
      else None
  end.

Definition GenerateInstanceId : IdM Z :=
  s ← get;
  let newInstanceId := nextInstanceId s in
  let start := u32 (newInstanceId + 1) in
  let next :=
    match find_free (S (length (ids s))) (ids s) start with Some i => i | None => start end in
  put (SetNextInstanceId next s);;
  (if newInstanceId =? next then throw ServerStopped else mret tt);;
  (if len (ids s) <=? newInstanceId then
     if len (ids s) <? capacity s then modify (fun s => resize_ids (capacity s) s)
     else modify (resize_ids (words32 newInstanceId))
   else mret tt);;
  assign_id newInstanceId true;;
  mret newInstanceId.

Definition FreeInstanceId (instanceId : Z) : IdM unit :=
  s ← get;
  (if instanceId <? nextInstanceId s then put (SetNextInstanceId instanceId s) else mret tt);;
  assign_id instanceId false.

(** ** The invariant *)

Definition used (s : InstanceIds) (i : Z) : Prop := 0 <= i /\ ids s !! Z.to_nat i = Some true.

(** Id 0 is never in use, every id from 1 up to the next one is, the next one
    is not; an empty vector has allocated nothing. *)
Record ids_ok (s : InstanceIds) : Prop := {
  io_next : 1 <= nextInstanceId s;
  io_zero : ~ used s 0;
  io_low i : 1 <= i < nextInstanceId s -> used s i;
  io_free : ~ used s (nextInstanceId s);
  io_cap : len (ids s) <= capacity s;
  io_empty : ids s = [] -> capacity s = 0
}.

Lemma used_lt s i : used s i -> 0 <= i < len (ids s).
Proof. intros [H0 Hi]. apply lookup_lt_Some in Hi. lia. Qed.

Lemma io_next_le s : ids_ok s -> nextInstanceId s <= Z.max 1 (len (ids s)).
Proof.
  intros []. destruct (decide (nextInstanceId s = 1)); [lia|].
  assert (used s (nextInstanceId s - 1)) as Hu by (apply io_low0; lia).
  apply used_lt in Hu. lia.
Qed.

Lemma find_free_spec fuel l i :
  0 <= i -> len l - i < Z.of_nat fuel -> (0 < fuel)%nat -> Z.max i (len l) < 4294967295 ->
  exists j, find_free fuel l i = Some j /\ i <= j /\ l !! Z.to_nat j <> Some true
    /\ (forall k, i <= k < j -> l !! Z.to_nat k = Some true) /\ j <= Z.max i (len l).
Proof.
  revert i. induction fuel as [|fuel IH]; intros i Hi Hf Hpos Hmax; [lia|]. cbn [find_free].
  destruct (Z.ltb_spec i 4294967295); [|lia].
  destruct (Z.leb_spec (len l) i) as [Hge|Hlt].
  - rewrite orb_true_r. exists i. split_and!; try lia; [done|].
    rewrite lookup_ge_None_2 by lia. done.
  - destruct (lookup_lt_is_Some_2 l (Z.to_nat i)) as [b Hb]; [lia|].
    rewrite (nth_lookup_Some _ _ _ _ Hb). destruct (Z.ltb_spec i (len l)); [|lia]. simpl.
    rewrite orb_false_r. destruct b; simpl.
    + destruct (IH (i + 1)) as (j & E & Hij & Hj & Hall & Hle); try lia.
      exists j. split_and!; try done; try lia. intros k Hk.
      destruct (decide (k = i)) as [->|]; [done|]. apply Hall. lia.
    + exists i. split_and!; try done; try lia. congruence.
Qed.

Lemma resize_ids_grow n s : len (ids s) <= n ->
  ids (resize_ids n s) = ids s ++ replicate (Z.to_nat n - length (ids s)) false.
Proof. intros Hn. simpl. by rewrite take_ge by lia. Qed.

Lemma used_resize n s i : len (ids s) <= n -> used (resize_ids n s) i <-> used s i.
Proof.
  intros Hn. unfold used. rewrite resize_ids_grow by done. split; intros [Hi H']; split; try done.
  - apply lookup_app_Some in H' as [?|[_ [? _]%lookup_replicate]]; done.
  - by apply lookup_app_l_Some.
Qed.

Lemma len_resize n s : len (ids s) <= n -> len (ids (resize_ids n s)) = n.
Proof. intros Hn. rewrite resize_ids_grow by done. rewrite length_app, length_replicate. lia. Qed.

Lemma assign_id_ok i b s : 0 <= i < len (ids s) ->
  assign_id i b s = (Ok tt, set_ids (<[Z.to_nat i := b]> (ids s)) s).
Proof.
  intros Hi. unfold assign_id. rewrite (bind_ok get _ s s s eq_refl).
  by destruct (Z.ltb_spec i (len (ids s))); [|lia].
Qed.

Lemma assign_id_err i b s : len (ids s) <= i -> assign_id i b s = (Err OutOfRange, s).
Proof.
  intros Hi. unfold assign_id. rewrite (bind_ok get _ s s s eq_refl).
  by destruct (Z.ltb_spec i (len (ids s))); [lia|].
Qed.

Lemma used_assign i b s k : 0 <= i < len (ids s) ->
  used (set_ids (<[Z.to_nat i := b]> (ids s)) s) k <-> if decide (k = i) then b = true else used s k.
Proof.
  intros Hi. unfold used. simpl. destruct (decide (k = i)) as [->|Hne].
  - rewrite list_lookup_insert_eq by lia. split; [by intros [_ [= ->]]|intros ->; split; [lia|done]].
  - split; intros [Hk Hl]; (split; [done|]).
    + rewrite list_lookup_insert_ne in Hl by lia. done.
    + by rewrite list_lookup_insert_ne by lia.
Qed.

Lemma words32_spec id : 0 <= id -> id <= words32 id /\ (id < words32 id <-> id mod 32 <> 0).
Proof.
  intros Hi. unfold words32. pose proof (Z.div_mod id 32). pose proof (Z.mod_pos_bound id 32).
  destruct (Z.ltb_spec 0 (id mod 32)); lia.
Qed.

(** The vector is full up to a word boundary and the next id lies just past it. *)
Definition at_word_boundary (s : InstanceIds) : bool :=
  (len (ids s) <=? nextInstanceId s) && negb (len (ids s) <? capacity s)
  && (nextInstanceId s mod 32 =? 0).

(** What a successful call leaves behind. *)
Record generated (s : InstanceIds) (n : Z) (s' : InstanceIds) : Prop := {
  g_id : n = nextInstanceId s;
  g_ok : ids_ok s';
  g_used i : used s' i <-> used s i \/ i = n
}.

Lemma set_id_ok s0 s next n :
  ids_ok s0 -> (forall i, used s i <-> used s0 i) -> nextInstanceId s = next ->
  n = nextInstanceId s0 -> n < next -> ~ used s0 next ->
  (forall i, n < i < next -> used s0 i) -> n < len (ids s) <= capacity s ->
  let s' := set_ids (<[Z.to_nat n := true]> (ids s)) s in
  ids_ok s' /\ forall i, used s' i <-> used s0 i \/ i = n.
Proof.
  intros [] Hu Hnext -> Hlt Hfree Hlow Hcap s'.
  assert (forall i, used s' i <-> used s0 i \/ i = nextInstanceId s0) as Hs'.
  { intros i. unfold s'. rewrite used_assign by lia. specialize (Hu i).
    destruct (decide (i = nextInstanceId s0)); tauto. }
  split; [|done]. assert (nextInstanceId s' = next) as Hn' by done.
  constructor; rewrite ?Hn', ?Hs'.
  - lia.
  - intros [?|?]; [done|lia].
  - intros i Hi. rewrite Hs'. destruct (decide (i = nextInstanceId s0)); [by right|left].
    destruct (decide (i < nextInstanceId s0)); [apply io_low0; lia|apply Hlow; lia].
  - intros [?|?]; [congruence|lia].
  - simpl. rewrite length_insert. lia.
  - simpl. intros He. apply (f_equal length) in He. rewrite length_insert in He. simpl in He. lia.
Qed.

Lemma GenerateInstanceId_ok `{!BitVectorGrowthLaws} s :
  ids_ok s -> len (ids s) < 2 ^ 31 ->
  if at_word_boundary s
  then exists s', GenerateInstanceId s = (Err OutOfRange, s')
  else exists s', GenerateInstanceId s = (Ok (nextInstanceId s), s') /\ generated s (nextInstanceId s) s'.
Proof.
  intros Hok Hsmall. pose proof (io_next _ Hok) as Hn1. pose proof (io_next_le _ Hok) as Hn2.
  set (n := nextInstanceId s) in *.
  destruct (find_free_spec (S (length (ids s))) (ids s) (n + 1)) as (j & E & Hij & Hj & Hlow & _); [lia..|].
  assert (~ used s j) as Hfree by (by intros [_ ?]).
  assert (forall i, n < i < j -> used s i) as Hlow'.
  { intros i Hi. split; [lia|]. apply Hlow. lia. }
  unfold GenerateInstanceId. rewrite (bind_ok get _ s s s eq_refl). fold n.
  rewrite (uint_small 32 (n + 1)) by lia. rewrite E.
  rewrite (bind_ok (put _) _ _ tt (SetNextInstanceId j s) eq_refl).
  destruct (Z.eqb_spec n j) as [|_]; [lia|]. rewrite (bind_ok (mret tt) _ _ tt _ eq_refl).
  set (s1 := SetNextInstanceId j s). unfold at_word_boundary. fold n.
  destruct (Z.leb_spec (len (ids s)) n) as [Hge|Hlt]; cbn [andb].
  - destruct (Z.ltb_spec (len (ids s)) (capacity s)) as [Hc|Hc]; cbn [negb andb].
    + rewrite (bind_ok (modify (fun s => resize_ids (capacity s) s)) _ s1 tt
        (resize_ids (capacity s) s1) eq_refl).
      assert (n < capacity s).
      { destruct (nil_or_length_pos (ids s)) as [Hi|Hi]; [|lia].
        pose proof (io_empty _ Hok Hi). lia. }
      assert (len (ids (resize_ids (capacity s) s1)) = capacity s) as Hlen by (apply len_resize; simpl; lia).
      rewrite (bind_ok _ _ _ _ _ (assign_id_ok n true (resize_ids (capacity s) s1) ltac:(lia))).
      assert (n < len (ids (resize_ids (capacity s) s1)) <= capacity (resize_ids (capacity s) s1)) as Hc'
        by (rewrite Hlen; simpl; rewrite Z.leb_refl; lia).
      eexists. split; [done|].
      destruct (set_id_ok s (resize_ids (capacity s) s1) j n Hok
        (fun i => used_resize (capacity s) s1 i ltac:(simpl; lia)) eq_refl eq_refl ltac:(lia)
        Hfree Hlow' Hc') as [Hok' Hu'].
      by constructor.
    + rewrite (bind_ok (modify _) _ _ tt (resize_ids (words32 n) s1) eq_refl).
      destruct (words32_spec n) as [Hw1 Hw2]; [lia|].
      assert (len (ids (resize_ids (words32 n) s1)) = words32 n) as Hlen by (apply len_resize; simpl; lia).
      destruct (Z.eqb_spec (n mod 32) 0) as [Hm|Hm].
      * eexists. rewrite (bind_err _ _ _ _ _ (assign_id_err n true (resize_ids (words32 n) s1) ltac:(lia))). done.
      * rewrite (bind_ok _ _ _ _ _ (assign_id_ok n true (resize_ids (words32 n) s1) ltac:(lia))).
        assert (n < len (ids (resize_ids (words32 n) s1)) <= capacity (resize_ids (words32 n) s1)) as Hc'.
        { rewrite Hlen. simpl. pose proof (grow_enough (capacity s) (words32 n)).
          destruct (Z.leb_spec (words32 n) (capacity s)); lia. }
        eexists. split; [done|].
        destruct (set_id_ok s (resize_ids (words32 n) s1) j n Hok
          (fun i => used_resize (words32 n) s1 i ltac:(simpl; lia)) eq_refl eq_refl ltac:(lia)
          Hfree Hlow' Hc') as [Hok' Hu'].
        by constructor.
  - rewrite (bind_ok (mret tt) _ _ tt s1 eq_refl).
    rewrite (bind_ok _ _ _ _ _ (assign_id_ok n true s1 ltac:(simpl; lia))).
    eexists. split; [done|]. pose proof (io_cap _ Hok).
    destruct (set_id_ok s s1 j n Hok (fun i => iff_refl _) eq_refl eq_refl ltac:(lia)
      Hfree Hlow' ltac:(simpl; lia)) as [Hok' Hu'].
    by constructor.
Qed.

Lemma FreeInstanceId_ok i s : ids_ok s -> used s i ->
  exists s', FreeInstanceId i s = (Ok tt, s') /\ ids_ok s'
    /\ forall k, used s' k <-> used s k /\ k <> i.
Proof.
  intros Hok Hi. pose proof (used_lt _ _ Hi) as Hlt.
  assert (i <> 0) as Hi0 by (intros ->; by apply (io_zero _ Hok)).
  set (next := Z.min i (nextInstanceId s)).
  set (s1 := SetNextInstanceId next s).
  assert (FreeInstanceId i s = assign_id i false s1) as ->.
  { unfold FreeInstanceId. rewrite (bind_ok get _ s s s eq_refl).
    destruct (Z.ltb_spec i (nextInstanceId s)).
    - rewrite (bind_ok (put _) _ _ tt (SetNextInstanceId i s) eq_refl).
      unfold s1, next. by rewrite Z.min_l by lia.
    - rewrite (bind_ok (mret tt) _ _ tt s eq_refl). unfold s1, next.
      rewrite Z.min_r by lia. by destruct s. }
  rewrite (assign_id_ok i false s1) by done. eexists. split; [done|].
  assert (forall k, used (set_ids (<[Z.to_nat i := false]> (ids s1)) s1) k <-> used s k /\ k <> i) as Hu.
  { intros k. rewrite used_assign by done.
    change (used s1 k) with (used s k). destruct (decide (k = i)); [|tauto].
    split; [discriminate|tauto]. }
  split; [|exact Hu]. destruct Hok. constructor; rewrite ?Hu; simpl.
  - unfold next. lia.
  - tauto.
  - intros k Hk. apply Hu. unfold next in Hk. split; [apply io_low0; lia|lia].
  - unfold next. destruct (Z.min_spec i (nextInstanceId s)) as [[_ ->]|[_ ->]]; tauto.
  - by rewrite length_insert.
  - intros He. apply (f_equal length) in He. rewrite length_insert in He.
    destruct (ids s); [simpl in Hlt; lia|done].
Qed.

(** ** Loading the saved instances *)

(** What the loop of [LoadResetTimes] maintains: the vector has its final size,
    the next id is the lowest one that is not in the rows seen. *)
Record loading (n : Z) (seen : list Z) (s : InstanceIds) : Prop := {
  ld_len : len (ids s) = n;
  ld_cap : len (ids s) <= capacity s;
  ld_empty : ids s = [] -> capacity s = 0;
  ld_used i : used s i <-> i ∈ seen;
  ld_next : 1 <= nextInstanceId s;
  ld_low i : 1 <= i < nextInstanceId s -> i ∈ seen;
  ld_free : nextInstanceId s ∉ seen
}.

Lemma load_instance_ok n seen i s :
  loading n seen s -> (forall k, k ∈ seen -> k < i) -> 1 <= i < n -> i + 1 < 2 ^ 32 ->
  exists s', load_instance i s = (Ok tt, s') /\ loading n (seen ++ [i]) s'.
Proof.
  intros [] Hseen Hi Hmax.
  set (next := if nextInstanceId s =? i then i + 1 else nextInstanceId s).
  set (s1 := SetNextInstanceId next s).
  assert (load_instance i s = assign_id i true s1) as ->.
  { unfold load_instance. rewrite (bind_ok get _ s s s eq_refl). unfold s1, next.
    destruct (Z.eqb_spec (nextInstanceId s) i).
    - by rewrite uint_small by lia.
    - rewrite (bind_ok (mret tt) _ _ tt s eq_refl). by destruct s. }
  rewrite (assign_id_ok i true s1) by (simpl; lia). eexists. split; [done|].
  assert (forall k, used (set_ids (<[Z.to_nat i := true]> (ids s1)) s1) k <-> k ∈ seen ++ [i]) as Hu.
  { intros k. rewrite used_assign by (simpl; lia). change (used s1 k) with (used s k).
    specialize (ld_used0 k). rewrite elem_of_app, list_elem_of_singleton.
    destruct (decide (k = i)); tauto. }
  constructor; simpl; rewrite ?length_insert; try done.
  - intros He. apply (f_equal length) in He. rewrite length_insert in He. simpl in He. lia.
  - unfold next. destruct (_ =? _); lia.
  - intros k Hk. rewrite elem_of_app, list_elem_of_singleton. unfold next in Hk.
    destruct (decide (k = i)); [by right|left]. apply ld_low0.
    destruct (Z.eqb_spec (nextInstanceId s) i); lia.
  - unfold next. rewrite elem_of_app, list_elem_of_singleton.
    destruct (Z.eqb_spec (nextInstanceId s) i) as [|Hne].
    + intros [Hin|Hin]; [apply Hseen in Hin|]; lia.
    + intros [?|?]; [done|congruence].
Qed.

Lemma load_instances_ok n rows seen s :
  loading n seen s -> StronglySorted Z.lt (seen ++ rows) ->
  Forall (fun i => 1 <= i < n /\ i + 1 < 2 ^ 32) rows ->
  exists s', load_instances rows s = (Ok tt, s') /\ loading n (seen ++ rows) s'.
Proof.
  revert seen s. induction rows as [|i rows IH]; intros seen s Hl Hs Hall.
  - exists s. by rewrite app_nil_r.
  - apply Forall_cons in Hall as [[Hi Hi'] Hall].
    destruct (load_instance_ok n seen i s Hl) as (s1 & E & Hl1); [|done..|].
    { intros k Hk. by eapply (StronglySorted_app_1_elem_of Z.lt seen (i :: rows)); [|done|left]. }
    destruct (IH (seen ++ [i]) s1 Hl1) as (s' & E' & Hl').
    { by rewrite <- app_assoc. }
    { done. }
    exists s'. unfold load_instances in *. cbn [forM]. rewrite (bind_ok _ _ _ _ _ E).
    by rewrite <- app_assoc in Hl'.
Qed.

Definition fresh_ids : InstanceIds := mkInstanceIds [] 0 0.

(** The server's start: size the storage by the highest saved id, then mark
    the saved ids, which come in ascending order. *)
Definition startup (rows : list Z) : IdM unit :=
  InitInstanceIds (last rows);; load_instances rows.
End InstanceIds.

(** ** Properties *)

Section Startup.
Context `{BitVectorGrowthLaws}.

Lemma init_loading n maxId :
  0 <= maxId -> n = words32 maxId ->
  exists s, InitInstanceIds (Some maxId) fresh_ids = (Ok tt, s) /\ loading n [] s.
Proof.
  intros Hm ->. destruct (words32_spec maxId Hm) as [Hw _].
  set (s0 := SetNextInstanceId 1 fresh_ids).
  assert (len (ids s0) <= words32 maxId) as Hle by (simpl; lia).
  pose proof (len_resize _ _ Hle) as Hlen.
  exists (resize_ids (words32 maxId) s0). split; [done|]. constructor; try done.
  - rewrite Hlen. simpl. pose proof (grow_enough 0 (words32 maxId)).
    destruct (Z.leb_spec (words32 maxId) 0); lia.
  - intros He. rewrite He in Hlen. simpl in *. destruct (Z.leb_spec (words32 maxId) 0); [done|lia].
  - intros i. rewrite used_resize by done. split.
    + by intros [_ Hi].
    + by intros ?%not_elem_of_nil.
  - simpl. lia.
  - apply not_elem_of_nil.
Qed.

Lemma loading_ok n rows s : loading n rows s -> Forall (fun i => 1 <= i) rows -> ids_ok s.
Proof.
  intros [] Hall. rewrite Forall_forall in Hall. constructor; try done.
  - intros Hu%ld_used0. apply Hall in Hu. lia.
  - intros i Hi. by apply ld_used0, ld_low0.
  - by intros Hu%ld_used0.
Qed.
End Startup.

(** At startup the storage ends up holding exactly the saved instance ids,
    with the lowest free id next, provided the highest saved id is not a
    multiple of 32; if it is, registering it indexes the vector past its end. *)
Theorem startup_spec `{BitVectorGrowthLaws} (rows : list Z) (maxId : Z) :
  last rows = Some maxId -> StronglySorted Z.lt rows -> Forall (fun i => 1 <= i) rows ->
  maxId + 32 < 2 ^ 32 ->
  if maxId mod 32 =? 0
  then exists s, startup rows fresh_ids = (Err OutOfRange, s)
  else exists s, startup rows fresh_ids = (Ok tt, s) /\ ids_ok s /\ forall i, used s i <-> i ∈ rows.
Proof.
  intros Hlast Hs Hall Hmax.
  apply last_Some in Hlast as (front & ->).
  assert (1 <= maxId) as Hm1 by (rewrite Forall_forall in Hall; apply Hall, elem_of_app; right; left).
  assert (forall i, i ∈ front -> 1 <= i < maxId) as Hfront.
  { intros i Hi. split.
    - rewrite Forall_forall in Hall. apply Hall. apply elem_of_app. by left.
    - apply (StronglySorted_app_1_elem_of Z.lt front [maxId]); [done..|]. by left. }
  destruct (init_loading (words32 maxId) maxId) as (s0 & E0 & Hl0); [lia|done|].
  destruct (words32_spec maxId) as [Hw1 Hw2]; [lia|].
  unfold startup. rewrite last_snoc, (bind_ok _ _ _ _ _ E0).
  destruct (Z.eqb_spec (maxId mod 32) 0) as [Hm|Hm].
  - destruct (load_instances_ok (words32 maxId) front [] s0 Hl0) as (s1 & E1 & Hl1).
    { by eapply StronglySorted_app_1_l. }
    { apply Forall_forall. intros i Hi. apply Hfront in Hi. lia. }
    unfold load_instances in *. rewrite forM_app, (bind_ok _ _ _ _ _ E1). cbn [forM].
    assert (exists s, load_instance maxId s1 = (Err OutOfRange, s)) as (s & E).
    { unfold load_instance. rewrite (bind_ok get _ s1 s1 s1 eq_refl).
      pose proof (ld_len _ _ _ Hl1). destruct (_ =? maxId).
      - rewrite (bind_ok (put _) _ _ tt _ eq_refl). eexists. apply assign_id_err. simpl. lia.
      - rewrite (bind_ok (mret tt) _ _ tt _ eq_refl). eexists. apply assign_id_err. lia. }
    exists s. by rewrite (bind_err _ _ _ _ _ E).
  - destruct (load_instances_ok (words32 maxId) (front ++ [maxId]) [] s0 Hl0 Hs) as (s1 & E1 & Hl1).
    { apply Forall_forall. intros i. rewrite elem_of_app, list_elem_of_singleton.
      intros [Hi| ->]; [apply Hfront in Hi|]; lia. }
    exists s1. split_and!; [done| |apply (ld_used _ _ _ Hl1)]. by eapply loading_ok.
Qed.

(** ** The ids in circulation *)

Section System.
Context `{BitVectorGrowth}.

(** The live instances: one is created with a generated id, and one that is
    destroyed gives its id back.  [None] is a crash. *)
Inductive id_step : option (InstanceIds * gset Z) -> option (InstanceIds * gset Z) -> Prop :=
| step_create s s' live n : len (ids s) < 2 ^ 31 ->
    GenerateInstanceId s = (Ok n, s') -> id_step (Some (s, live)) (Some (s', {[n]} ∪ live))
| step_create_crash s s' live e : len (ids s) < 2 ^ 31 ->
    GenerateInstanceId s = (Err e, s') -> id_step (Some (s, live)) None
| step_destroy s s' live n : n ∈ live ->
    FreeInstanceId n s = (Ok tt, s') -> id_step (Some (s, live)) (Some (s', live ∖ {[n]}))
| step_destroy_crash s s' live n e : n ∈ live ->
    FreeInstanceId n s = (Err e, s') -> id_step (Some (s, live)) None.

Definition live_ok (s : InstanceIds) (live : gset Z) : Prop :=
  ids_ok s /\ forall i, used s i <-> i ∈ live.
End System.

Section SystemCorrect.
Context `{BitVectorGrowthLaws}.

Lemma GenerateInstanceId_generated s n s' :
  ids_ok s -> len (ids s) < 2 ^ 31 -> GenerateInstanceId s = (Ok n, s') -> generated s n s'.
Proof.
  intros Hok Hsm E. pose proof (GenerateInstanceId_ok s Hok Hsm) as Hg.
  destruct (at_word_boundary s).
  - destruct Hg as (s1 & E1). by rewrite E in E1.
  - destruct Hg as (s1 & E1 & Hg). rewrite E in E1. by simplify_eq.
Qed.

(** What a state of the system satisfies; a crash has a culprit. *)
Definition system_ok (culprit : InstanceIds -> gset Z -> Prop)
    (x : option (InstanceIds * gset Z)) : Prop :=
  match x with
  | Some (s, live) => live_ok s live
  | None => exists s live, culprit s live /\ at_word_boundary s = true
  end.

Lemma id_step_ok s live y : live_ok s live -> id_step (Some (s, live)) y ->
  system_ok (fun s' live' => s' = s /\ live' = live) y.
Proof.
  intros [Hok Hu] Hstep. inversion Hstep as [? s' ? n Hsm E|? s' ? e Hsm E|? s' ? n Hin E|? s' ? n e Hin E];
    subst; simpl.
  - destruct (GenerateInstanceId_generated _ _ _ Hok Hsm E) as [-> Hok' Hu'].
    split; [done|]. intros i. rewrite Hu', Hu, elem_of_union, elem_of_singleton. tauto.
  - pose proof (GenerateInstanceId_ok s Hok Hsm) as Hg.
    destruct (at_word_boundary s) eqn:Hb; [by exists s, live|].
    destruct Hg as (s1 & E1 & _). by rewrite E in E1.
  - destruct (FreeInstanceId_ok n s Hok) as (s1 & E1 & Hok' & Hu'); [by apply Hu|].
    rewrite E in E1. simplify_eq. split; [done|]. intros i.
    rewrite Hu', Hu, elem_of_difference, elem_of_singleton. tauto.
  - destruct (FreeInstanceId_ok n s Hok) as (s1 & E1 & _); [by apply Hu|]. by rewrite E in E1.
Qed.

Lemma system_reachable s0 live0 y : live_ok s0 live0 -> rtc id_step (Some (s0, live0)) y ->
  system_ok (fun s live => rtc id_step (Some (s0, live0)) (Some (s, live))) y.
Proof.
  intros Hstart Hy. revert y Hy.
  apply (rtc_ind_r (system_ok (fun s live => rtc id_step (Some (s0, live0)) (Some (s, live)))));
    [done|].
  intros x y Hx Hxy IH. destruct x as [[s live]|]; [|by inversion Hxy].
  pose proof (id_step_ok s live y IH Hxy) as Hstep.
  destruct y as [[s' live']|]; [done|].
  destruct Hstep as (? & ? & [-> ->] & Hb). by exists s, live.
Qed.
End SystemCorrect.


(** ** Witnesses: growth as in libstdc++, by doubling in words of 64 bits *)

#[local] Instance libstdcxx_growth : BitVectorGrowth :=
  fun c n => 64 * ((Z.max n (2 * c) + 63) / 64).

#[local] Instance libstdcxx_growth_laws : BitVectorGrowthLaws.
Proof.
  intros c n. unfold grow, libstdcxx_growth.
  pose proof (Z.div_mod (Z.max n (2 * c) + 63) 64).
  pose proof (Z.mod_pos_bound (Z.max n (2 * c) + 63) 64). lia.
Qed.

Lemma startup_spec_witness :
  exists s, startup [1; 2; 4; 9] fresh_ids = (Ok tt, s) /\ ids_ok s
    /\ forall i, used s i <-> i ∈ [1; 2; 4; 9].
Proof.
  apply (startup_spec [1; 2; 4; 9] 9).
  - reflexivity.
  - repeat constructor; lia.
  - repeat constructor; lia.
  - lia.
Defined.

Definition started : InstanceIds := mkInstanceIds [] 0 1.

Lemma started_ok : live_ok started ∅.
Proof.
  assert (forall i, ~ used started i) as Hu by (by intros i [_ Hi]).
  split; [|intros i; split; [by intros ?%Hu|by intros ?%not_elem_of_empty]].
  constructor; try done; simpl; try lia; apply Hu.
Qed.


(** The 64th instance of a fresh server corrupts memory: with no saved
    instances, and a [vector<bool>] that allocates whole 64-bit words, the ids
    1 to 63 are handed out, and the 64th request writes past the vector. *)
Theorem instance_64_out_of_range :
  exists s, (InitInstanceIds None;; forM (seq 1 63) (fun _ => GenerateInstanceId;; mret tt)) fresh_ids
      = (Ok tt, s)
    /\ nextInstanceId s = 64 /\ len (ids s) = 64
    /\ (GenerateInstanceId s).1 = Err OutOfRange.
Proof. eexists. split; [vm_compute; reflexivity|]. vm_compute. done. Qed.
