(* ===== verification/RBAC.v ===== *)
(** * Role based access control (src/src/serveur/jeu/Accounts/{RBAC,AccountMgr}.cpp)

    Every command of the server is guarded by a permission.  [AccountMgr] loads
    the permissions with their links and the default permissions of each
    security level; [RBACData] keeps the permissions granted and denied to an
    account and the computed set of [RBACData::HasPermission].  The rows of the
    database are inputs, the statements sent to it are recorded. *)

From stdpp Require Import strings.
From S2P Require Import Prelude.
From stdpp Require Import sorting.
Local Open Scope Z_scope.
#[local] Set Warnings "-clear-no-such-hyp".

Abbreviation RBACPermissionContainer := (gset Z).

Inductive RBACError := NullDereference | OutOfFuel.

Inductive RBACCommandResult :=
| RBAC_OK | RBAC_CANT_ADD_ALREADY_ADDED | RBAC_CANT_REVOKE_NOT_IN_LIST
| RBAC_IN_GRANTED_LIST | RBAC_IN_DENIED_LIST | RBAC_ID_DOES_NOT_EXISTS.

Record RBACPermission := mkRBACPermission {
  perm_id : Z;
  perm_name : string;
  perm_perms : RBACPermissionContainer
}.

Definition AddLinkedPermission (id : Z) (p : RBACPermission) : RBACPermission :=
  mkRBACPermission (perm_id p) (perm_name p) ({[ id ]} ∪ perm_perms p).

(** ** AccountMgr *)

(** [_permissions] maps to pointers: [operator[]] on a missing id stores NULL. *)
Record AccountMgr := mkAccountMgr {
  am_permissions : gmap Z (option RBACPermission);
  am_defaultPermissions : gmap Z RBACPermissionContainer
}.

Abbreviation AM := (prog AccountMgr RBACError).

Definition ClearRBAC (m : AccountMgr) : AccountMgr := mkAccountMgr ∅ ∅.

Definition GetRBACPermission (m : AccountMgr) (permissionId : Z) : option RBACPermission :=
  m_permission ← am_permissions m !! permissionId; m_permission.

(** [_defaultPermissions[secLevel]] *)
Definition GetRBACDefaultPermissions (m : AccountMgr) (secLevel : Z) : RBACPermissionContainer :=
  default ∅ (am_defaultPermissions m !! secLevel).

Definition set_permissions (p : gmap Z (option RBACPermission)) (m : AccountMgr) : AccountMgr :=
  mkAccountMgr p (am_defaultPermissions m).

(** The row loops of [LoadRBAC].  The linked rows come with the cursor of the
    loop: the last id and the permission it names, [None] for the initial
    [permissionId = 0, permission = NULL]. *)
Definition load_permission (row : Z * string) : AM unit :=
  modify (fun m =>
    set_permissions (<[row.1 := Some (mkRBACPermission row.1 row.2 ∅)]> (am_permissions m)) m).

Definition add_link (id linkedId : Z) : AM unit :=
  m ← get;
  match GetRBACPermission m id with
  | Some p => put (set_permissions (<[id := Some (AddLinkedPermission linkedId p)]> (am_permissions m)) m)
  | None => throw NullDereference
  end.

(** [permission = _permissions[newId]] *)
Definition select_permission (newId : Z) : AM unit :=
  modify (fun m =>
    match am_permissions m !! newId with
    | Some _ => m
    | None => set_permissions (<[newId := None]> (am_permissions m)) m
    end).

Fixpoint load_links (permissionId : Z) (is_null : bool) (rows : list (Z * Z)) : AM unit :=
  match rows with
  | [] => mret tt
  | (newId, linkedPermissionId) :: rows' =>
      let changed := negb (permissionId =? newId) in
      (if changed then select_permission newId else mret tt);;
      let is_null := if changed then false else is_null in
      if linkedPermissionId =? newId then load_links newId is_null rows'
      else
        (if is_null then throw NullDereference else add_link newId linkedPermissionId);;
        load_links newId is_null rows'
  end.

Definition add_default (secId permissionId : Z) : AM unit :=
  modify (fun m => mkAccountMgr (am_permissions m)
    (<[secId := {[ permissionId ]} ∪ GetRBACDefaultPermissions m secId]> (am_defaultPermissions m))).

(** [secId] is a [uint8], 255 at first with [permissions == NULL]; the row's
    level is a [uint32]. *)
Fixpoint load_defaults (secId : Z) (is_null : bool) (rows : list (Z * Z)) : AM unit :=
  match rows with
  | [] => mret tt
  | (newId, permissionId) :: rows' =>
      let changed := negb (secId =? newId) in
      let secId := if changed then u8 newId else secId in
      let is_null := if changed then false else is_null in
      (if is_null then throw NullDereference else add_default secId permissionId);;
      load_defaults secId is_null rows'
  end.

(** An empty table ends the load early. *)
Definition LoadRBAC (permissions : list (Z * string)) (links defaults : list (Z * Z)) : AM unit :=
  modify ClearRBAC;;
  match permissions with
  | [] => mret tt
  | _ =>
      forM permissions load_permission;;
      match links with
      | [] => mret tt
      | _ => load_links 0 true links;; load_defaults 255 true defaults
      end
  end.

(** ** RBACData *)

(** The statements an account sends to the login database. *)
Inductive RBACStatement :=
| LOGIN_INS_RBAC_ACCOUNT_PERMISSION (id permission : Z) (granted : bool) (realmId : Z)
| LOGIN_DEL_RBAC_ACCOUNT_PERMISSION (id permission realmId : Z).

Record RBACData := mkRBACData {
  rb_id : Z;
  rb_realmId : Z;
  rb_secLevel : Z;
  rb_grantedPerms : RBACPermissionContainer;
  rb_deniedPerms : RBACPermissionContainer;
  rb_globalPerms : RBACPermissionContainer;
  rb_statements : list RBACStatement
}.

Definition RBACData_new (id realmId secLevel : Z) : RBACData :=
  mkRBACData id realmId secLevel ∅ ∅ ∅ [].

Definition set_granted (g : RBACPermissionContainer) (d : RBACData) : RBACData :=
  mkRBACData (rb_id d) (rb_realmId d) (rb_secLevel d) g (rb_deniedPerms d) (rb_globalPerms d)
    (rb_statements d).
Definition set_denied (g : RBACPermissionContainer) (d : RBACData) : RBACData :=
  mkRBACData (rb_id d) (rb_realmId d) (rb_secLevel d) (rb_grantedPerms d) g (rb_globalPerms d)
    (rb_statements d).
Definition set_global (g : RBACPermissionContainer) (d : RBACData) : RBACData :=
  mkRBACData (rb_id d) (rb_realmId d) (rb_secLevel d) (rb_grantedPerms d) (rb_deniedPerms d) g
    (rb_statements d).
Definition execute (st : RBACStatement) (d : RBACData) : RBACData :=
  mkRBACData (rb_id d) (rb_realmId d) (rb_secLevel d) (rb_grantedPerms d) (rb_deniedPerms d)
    (rb_globalPerms d) (rb_statements d ++ [st]).

(** [*toCheck.begin()]: a [std::set] is ordered. *)
Definition set_begin (s : RBACPermissionContainer) : option Z :=
  head (merge_sort Z.le (elements s)).

Section RBAC.
(** [sAccountMgr], and the configuration [CONFIG_RBAC_FREE_PERMISSION_MODE]. *)
Context (mgr : AccountMgr) (free_mode : bool).

Abbreviation RB := (prog RBACData RBACError).

Definition HasPermission (permission : Z) (d : RBACData) : bool :=
  if free_mode then true else bool_decide (permission ∈ rb_globalPerms d).

(** The inner loop of [ExpandPermissions]: linked permissions not expanded yet
    join the permissions to check. *)
Definition add_linked (permissions linked toCheck : RBACPermissionContainer) : RBACPermissionContainer :=
  foldr (fun l t => if decide (l ∈ permissions) then t else {[ l ]} ∪ t) toCheck (elements linked).

Fixpoint expand_loop (fuel : nat) (toCheck permissions : RBACPermissionContainer)
  : option RBACPermissionContainer :=
  match fuel with
  | O => None
  | S fuel' =>
      match set_begin toCheck with
      | None => Some permissions
      | Some permissionId =>
          let toCheck := toCheck ∖ {[ permissionId ]} in
          match GetRBACPermission mgr permissionId with
          | None => expand_loop fuel' toCheck permissions
          | Some permission =>
              let permissions := {[ permissionId ]} ∪ permissions in
              expand_loop fuel' (add_linked permissions (perm_perms permission) toCheck) permissions
          end
      end
  end.

(** Every permission is expanded once, and puts at most its links on the list:
    the links of all permissions bound the steps. *)
Definition link_count (p : option RBACPermission) : nat :=
  match p with Some p => size (perm_perms p) | None => O end.
Definition all_links : nat := map_fold (fun _ p n => link_count p + n)%nat O (am_permissions mgr).
Definition expand_fuel (permissions : RBACPermissionContainer) : nat := S (size permissions + all_links).

Definition ExpandPermissions (permissions : RBACPermissionContainer) : option RBACPermissionContainer :=
  expand_loop (expand_fuel permissions) permissions ∅.

(** The second argument is the one that changes. *)
Definition RemovePermissions (permsFrom permsTo : RBACPermissionContainer) : RBACPermissionContainer :=
  foldr (fun p t => t ∖ {[ p ]}) permsTo (elements permsFrom).

Definition expand (permissions : RBACPermissionContainer) : RB RBACPermissionContainer :=
  match ExpandPermissions permissions with Some p => mret p | None => throw OutOfFuel end.

Definition CalculateNewPermissions : RB unit :=
  d ← get;
  globalPerms ← expand (rb_grantedPerms d);
  modify (set_global globalPerms);;
  revoked ← expand (rb_deniedPerms d);
  let revoked := RemovePermissions globalPerms revoked in
  mret tt.

Definition GrantPermission (permissionId realmId : Z) : RB RBACCommandResult :=
  match GetRBACPermission mgr permissionId with
  | None => mret RBAC_ID_DOES_NOT_EXISTS
  | Some _ =>
      d ← get;
      if decide (permissionId ∈ rb_deniedPerms d) then mret RBAC_IN_DENIED_LIST
      else if decide (permissionId ∈ rb_grantedPerms d) then mret RBAC_CANT_ADD_ALREADY_ADDED
      else
        put (set_granted ({[ permissionId ]} ∪ rb_grantedPerms d) d);;
        (if negb (realmId =? 0) then
           modify (execute (LOGIN_INS_RBAC_ACCOUNT_PERMISSION (rb_id d) permissionId true realmId));;
           CalculateNewPermissions
         else mret tt);;
        mret RBAC_OK
  end.

Definition DenyPermission (permissionId realmId : Z) : RB RBACCommandResult :=
  match GetRBACPermission mgr permissionId with
  | None => mret RBAC_ID_DOES_NOT_EXISTS
  | Some _ =>
      d ← get;
      if decide (permissionId ∈ rb_grantedPerms d) then mret RBAC_IN_GRANTED_LIST
      else if decide (permissionId ∈ rb_deniedPerms d) then mret RBAC_CANT_ADD_ALREADY_ADDED
      else
        put (set_denied ({[ permissionId ]} ∪ rb_deniedPerms d) d);;
        (if negb (realmId =? 0) then
           modify (execute (LOGIN_INS_RBAC_ACCOUNT_PERMISSION (rb_id d) permissionId false realmId));;
           CalculateNewPermissions
         else mret tt);;
        mret RBAC_OK
  end.

Definition RevokePermission (permissionId realmId : Z) : RB RBACCommandResult :=
  d ← get;
  if decide (permissionId ∉ rb_grantedPerms d /\ permissionId ∉ rb_deniedPerms d)
  then mret RBAC_CANT_REVOKE_NOT_IN_LIST
  else
    modify (fun d => set_granted (rb_grantedPerms d ∖ {[ permissionId ]}) d);;
    modify (fun d => set_denied (rb_deniedPerms d ∖ {[ permissionId ]}) d);;
    (if negb (realmId =? 0) then
       modify (execute (LOGIN_DEL_RBAC_ACCOUNT_PERMISSION (rb_id d) permissionId realmId));;
       CalculateNewPermissions
     else mret tt);;
    mret RBAC_OK.

Definition ClearData (d : RBACData) : RBACData := set_global ∅ (set_denied ∅ (set_granted ∅ d)).

Definition load_row (row : Z * bool) : RB unit :=
  (if row.2 then GrantPermission row.1 0 else DenyPermission row.1 0);; mret tt.

(** [rows]: what LOGIN_SEL_RBAC_ACCOUNT_PERMISSIONS returns, in its order. *)
Definition LoadFromDB (rows : list (Z * bool)) : RB unit :=
  modify ClearData;;
  forM rows load_row;;
  d ← get;
  forM (merge_sort Z.le (elements (GetRBACDefaultPermissions mgr (rb_secLevel d))))
    (fun p => GrantPermission p 0;; mret tt);;
  CalculateNewPermissions.

Definition SetSecurityLevel (id : Z) (rows : list (Z * bool)) : RB unit :=
  modify (fun d => mkRBACData (rb_id d) (rb_realmId d) id (rb_grantedPerms d) (rb_deniedPerms d)
                     (rb_globalPerms d) (rb_statements d));;
  LoadFromDB rows.
End RBAC.

(** The statements of [AccountMgr::UpdateAccountAccess] on the access table. *)
Inductive AccessStatement :=
| LOGIN_DEL_ACCOUNT_ACCESS (accountId : Z)
| LOGIN_DEL_ACCOUNT_ACCESS_BY_REALM (accountId realmId : Z)
| LOGIN_INS_ACCOUNT_ACCESS (accountId securityLevel realmId : Z).

(** [rbac] is NULL for an account that is not online; [rows] are the account's
    rows should it be reloaded. *)
Definition UpdateAccountAccess (mgr : AccountMgr) (accountId securityLevel realmId : Z)
    (rows : list (Z * bool)) (rbac : option RBACData)
  : option RBACData * list AccessStatement :=
  (match rbac with
   | Some d =>
       if securityLevel =? rb_secLevel d then Some (SetSecurityLevel mgr securityLevel rows d).2
       else Some d
   | None => None
   end,
   (if realmId =? -1 then [LOGIN_DEL_ACCOUNT_ACCESS accountId]
    else [LOGIN_DEL_ACCOUNT_ACCESS_BY_REALM accountId (u32 realmId)])
   ++ (if negb (securityLevel =? 0)
       then [LOGIN_INS_ACCOUNT_ACCESS accountId securityLevel realmId] else [])).

(** ** What a set of permissions implies

    [grants mgr S q]: [q] is a defined permission of [S], or is linked from one
    through defined permissions. *)

Definition defined (mgr : AccountMgr) (p : Z) : Prop := is_Some (GetRBACPermission mgr p).
Definition linked (mgr : AccountMgr) (p q : Z) : Prop :=
  exists P, GetRBACPermission mgr p = Some P /\ q ∈ perm_perms P /\ defined mgr q.
Definition grants (mgr : AccountMgr) (S : RBACPermissionContainer) (q : Z) : Prop :=
  exists p, p ∈ S /\ defined mgr p /\ rtc (linked mgr) p q.

#[export] Instance defined_dec mgr p : Decision (defined mgr p).
Proof. unfold defined. apply _. Defined.

Lemma set_begin_spec (s : gset Z) :
  match set_begin s with Some x => x ∈ s | None => s = ∅ end.
Proof.
  unfold set_begin. pose proof (merge_sort_Permutation Z.le (elements s)) as HP.
  destruct (merge_sort Z.le (elements s)) as [|x l] eqn:E; cbn.
  - symmetry in HP. apply Permutation_nil_r in HP. apply leibniz_equiv. by apply elements_empty_inv.
  - apply elem_of_elements. rewrite <- HP. left.
Qed.

Lemma add_linked_union (p l t : gset Z) : add_linked p l t = (l ∖ p) ∪ t.
Proof.
  unfold add_linked. apply set_eq. intros x.
  rewrite elem_of_union, elem_of_difference, <- (elem_of_elements l).
  induction (elements l) as [|y ys IH]; cbn; [set_solver|].
  destruct (decide (y ∈ p)); rewrite ?elem_of_union, IH; set_solver.
Qed.

Lemma size_add_linked (p l t : gset Z) : (size (add_linked p l t) <= size l + size t)%nat.
Proof.
  rewrite add_linked_union.
  assert (size ((l ∖ p) ∪ t) <= size (l ∖ p) + size t)%nat.
  { rewrite size_union_alt. assert (size (t ∖ (l ∖ p)) <= size t)%nat; [|lia].
    apply subseteq_size. set_solver. }
  assert (size (l ∖ p) <= size l)%nat by (apply subseteq_size; set_solver). lia.
Qed.

Lemma RemovePermissions_difference (p t : gset Z) : RemovePermissions p t = t ∖ p.
Proof.
  unfold RemovePermissions. apply set_eq. intros x.
  rewrite elem_of_difference, <- (elem_of_elements p).
  induction (elements p) as [|y ys IH]; cbn; [set_solver|].
  rewrite elem_of_difference, IH. set_solver.
Qed.

(** The links of the permissions not expanded yet. *)
Definition links_left (mgr : AccountMgr) (permissions : gset Z) : nat :=
  map_fold (fun _ p n => link_count p + n)%nat O
    (filter (fun kp => kp.1 ∉ permissions) (am_permissions mgr)).

Lemma links_left_expand mgr permissions x P :
  x ∉ permissions -> GetRBACPermission mgr x = Some P ->
  links_left mgr permissions =
    (size (perm_perms P) + links_left mgr ({[ x ]} ∪ permissions))%nat.
Proof.
  intros Hx HP. unfold GetRBACPermission in HP. apply bind_Some in HP as (o & Hm & ->).
  unfold links_left. rewrite (map_fold_delete_L _ _ x (Some P)); cycle 1.
  - intros. lia.
  - by apply map_lookup_filter_Some.
  - cbn [link_count]. do 2 f_equal. apply map_eq. intros j.
    destruct (decide (j = x)) as [->|Hj].
    + rewrite lookup_delete_eq. symmetry. apply map_lookup_filter_None. right. set_solver.
    + rewrite lookup_delete_ne by done. apply option_eq. intros v.
      rewrite !map_lookup_filter_Some. set_solver.
Qed.

Record expanded (mgr : AccountMgr) (t p E : gset Z) : Prop := {
  ex_done : p ⊆ E;
  ex_seed x : x ∈ t -> defined mgr x -> x ∈ E;
  ex_closed x y : x ∈ E -> linked mgr x y -> y ∈ E;
  ex_least (Q : Z -> Prop) :
    (forall x, x ∈ p -> Q x) -> (forall x, x ∈ t -> defined mgr x -> Q x) ->
    (forall x y, Q x -> linked mgr x y -> Q y) -> forall x, x ∈ E -> Q x
}.

Lemma expand_loop_ok mgr fuel t p :
  (size t + links_left mgr p < fuel)%nat -> p ## t ->
  (forall x y, x ∈ p -> linked mgr x y -> y ∈ p ∪ t) ->
  exists E, expand_loop mgr fuel t p = Some E /\ expanded mgr t p E.
Proof.
  revert t p. induction fuel as [|fuel IH]; intros t p Hf Hd Hc; [lia|]. cbn [expand_loop].
  pose proof (set_begin_spec t) as Hb. destruct (set_begin t) as [x|].
  2:{ subst t. exists p. split; [done|]. split; [done|set_solver| |set_solver].
      intros a b Ha Hab. specialize (Hc a b Ha Hab). set_solver. }
  assert (size t = S (size (t ∖ {[ x ]}))) as Hs.
  { rewrite (union_difference_singleton_L x t) at 1 by done.
    rewrite size_union by set_solver. by rewrite size_singleton. }
  destruct (GetRBACPermission mgr x) as [P|] eqn:HP.
  - set (p' := {[ x ]} ∪ p). pose proof (size_add_linked p' (perm_perms P) (t ∖ {[ x ]})) as Hl.
    rewrite (links_left_expand mgr p x P) in Hf by (done || set_solver). fold p' in Hf.
    destruct (IH (add_linked p' (perm_perms P) (t ∖ {[ x ]})) p') as (E & HE & [H1 H2 H3 H4]);
      [lia| | |].
    + rewrite add_linked_union. set_solver.
    + intros a b Ha Hab. rewrite add_linked_union. unfold p' in Ha.
      apply elem_of_union in Ha as [->%elem_of_singleton|Ha].
      * destruct Hab as (P' & HP' & Hb' & _). simplify_eq.
        destruct (decide (b ∈ p')) as [|Hn]; apply elem_of_union; [by left|].
        right. apply elem_of_union_l, elem_of_difference. by split.
      * specialize (Hc a b Ha Hab). unfold p'. clear -Hc.
        destruct (decide (b = x)); set_solver.
    + exists E. split; [done|]. rewrite add_linked_union in H2, H4. split.
      * set_solver.
      * intros a Ha Hda. destruct (decide (a ∈ p')); [set_solver|]. apply H2; set_solver.
      * done.
      * intros Q Hp Ht Hcl. apply H4; [|intros a Ha Hda|done].
        -- intros a [->%elem_of_singleton|Ha]%elem_of_union; [|by apply Hp].
           apply Ht; [done|by exists P].
        -- apply elem_of_union in Ha as [Ha|Ha]; [|apply Ht; set_solver].
           apply (Hcl x); [apply Ht; [done|by exists P]|]. exists P. set_solver.
  - destruct (IH (t ∖ {[ x ]}) p) as (E & HE & [H1 H2 H3 H4]); [lia|set_solver| |].
    + intros a b Ha Hab. specialize (Hc a b Ha Hab). destruct Hab as (_ & _ & _ & Hdb).
      destruct (decide (b = x)) as [->|]; [|set_solver].
      unfold defined in Hdb. rewrite HP in Hdb. by destruct Hdb.
    + assert (forall a, defined mgr a -> a <> x) as Hne.
      { intros a Hda ->. unfold defined in Hda. rewrite HP in Hda. by destruct Hda. }
      exists E. split; [done|]. split; [done| |done|].
      * intros a Ha Hda. apply H2; [|done]. specialize (Hne a Hda). set_solver.
      * intros Q Hp Ht Hcl. apply H4; [done| |done]. intros a Ha. apply Ht. set_solver.
Qed.

Lemma expand_ok mgr S : exists E, ExpandPermissions mgr S = Some E /\
  forall q, q ∈ E <-> grants mgr S q.
Proof.
  destruct (expand_loop_ok mgr (expand_fuel mgr S) S ∅) as (E & HE & [H1 H2 H3 H4]).
  - unfold expand_fuel. replace (links_left mgr ∅) with (all_links mgr); [lia|].
    unfold links_left, all_links. f_equal. symmetry. apply map_filter_id. set_solver.
  - set_solver.
  - set_solver.
  - exists E. split; [done|]. intros q. split.
    + apply (H4 (grants mgr S)); [set_solver| |].
      * intros x Hx Hdx. exists x. by split_and!.
      * intros x y (p & Hp & Hdp & Hr) Hl. exists p. split_and!; [done|done|]. by eapply rtc_r.
    + intros (p & Hp & Hdp & Hr). assert (p ∈ E) as HpE by eauto. clear Hp Hdp.
      induction Hr as [|x y z Hxy _ IH]; [done|]. apply IH. by eapply H3.
Qed.

(** ** The operations on an account *)

Lemma expand_prog_ok mgr S d : exists E, expand mgr S d = (Ok E, d) /\
  forall q, q ∈ E <-> grants mgr S q.
Proof. unfold expand. destruct (expand_ok mgr S) as (E & -> & H). by exists E. Qed.

(** The account with the permission set its granted permissions imply. *)
Definition computed (mgr : AccountMgr) (d d' : RBACData) : Prop :=
  exists E, d' = set_global E d /\ forall q, q ∈ E <-> grants mgr (rb_grantedPerms d) q.

Lemma CalculateNewPermissions_ok mgr d :
  exists d', CalculateNewPermissions mgr d = (Ok tt, d') /\ computed mgr d d'.
Proof.
  destruct (expand_prog_ok mgr (rb_grantedPerms d) d) as (E & HE & Hspec).
  destruct (expand_prog_ok mgr (rb_deniedPerms d) (set_global E d)) as (E' & HE' & _).
  exists (set_global E d). split; [|by exists E]. unfold CalculateNewPermissions.
  rewrite (bind_ok get _ d d d eq_refl), (bind_ok _ _ d E d HE).
  rewrite (bind_ok (modify _) _ d tt (set_global E d) eq_refl).
  by rewrite (bind_ok _ _ _ E' _ HE').
Qed.

(** The tail shared by the three commands. *)
Lemma store_ok mgr (realmId : Z) st d :
  exists d',
    ((if negb (realmId =? 0) then modify (execute st);; CalculateNewPermissions mgr else mret tt);;
     mret RBAC_OK) d = (Ok RBAC_OK, d')
    /\ (if realmId =? 0 then d' = d else computed mgr (execute st d) d').
Proof.
  destruct (Z.eqb_spec realmId 0) as [->|Hr]; cbn [negb]; [by exists d|].
  destruct (CalculateNewPermissions_ok mgr (execute st d)) as (d' & Hd' & Hc).
  exists d'. split; [|done].
  assert ((modify (execute st);; CalculateNewPermissions mgr) d = (Ok tt, d')) as E.
  { by rewrite (bind_ok (modify _) _ d tt (execute st d) eq_refl). }
  by rewrite (bind_ok _ _ d tt d' E).
Qed.

(** A successful command gives the new lists; one that fails changes nothing. *)
Definition lists_are (d : RBACData) (g dn : gset Z) : Prop :=
  rb_grantedPerms d = g /\ rb_deniedPerms d = dn.

Lemma computed_lists mgr d d' : computed mgr d d' ->
  lists_are d' (rb_grantedPerms d) (rb_deniedPerms d) /\ rb_secLevel d' = rb_secLevel d /\
  forall q, q ∈ rb_globalPerms d' <-> grants mgr (rb_grantedPerms d) q.
Proof. intros (E & -> & H). by split_and!. Qed.

(** What a command did: its result, and the account after it. *)
Definition command_effect (mgr : AccountMgr) (realmId : Z) (g dn : gset Z) (d d' : RBACData) : Prop :=
  lists_are d' g dn /\ rb_secLevel d' = rb_secLevel d /\
  (if realmId =? 0 then rb_globalPerms d' = rb_globalPerms d
   else forall q, q ∈ rb_globalPerms d' <-> grants mgr g q).

Lemma store_effect mgr realmId st d :
  exists d',
    ((if negb (realmId =? 0) then modify (execute st);; CalculateNewPermissions mgr else mret tt);;
     mret RBAC_OK) d = (Ok RBAC_OK, d')
    /\ command_effect mgr realmId (rb_grantedPerms d) (rb_deniedPerms d) d d'.
Proof.
  destruct (store_ok mgr realmId st d) as (d' & E & H). exists d'. split; [done|].
  unfold command_effect. destruct (realmId =? 0); [by subst|].
  by apply computed_lists in H.
Qed.

Lemma undefined_perm mgr p : ~ defined mgr p -> GetRBACPermission mgr p = None.
Proof. intros Hn. by apply eq_None_not_Some. Qed.

Lemma GrantPermission_ok mgr p r d :
  let result :=
    if decide (defined mgr p) then
      if decide (p ∈ rb_deniedPerms d) then RBAC_IN_DENIED_LIST
      else if decide (p ∈ rb_grantedPerms d) then RBAC_CANT_ADD_ALREADY_ADDED
      else RBAC_OK
    else RBAC_ID_DOES_NOT_EXISTS in
  exists d', GrantPermission mgr p r d = (Ok result, d')
    /\ (if result is RBAC_OK
        then command_effect mgr r ({[ p ]} ∪ rb_grantedPerms d) (rb_deniedPerms d) d d' else d' = d).
Proof.
  unfold GrantPermission. destruct (decide (defined mgr p)) as [[P ->]|Hn].
  2:{ rewrite (undefined_perm mgr p Hn). by exists d. }
  rewrite (bind_ok get _ d d d eq_refl).
  destruct (decide (p ∈ rb_deniedPerms d)); [by exists d|].
  destruct (decide (p ∈ rb_grantedPerms d)); [by exists d|].
  match goal with |- context [put ?s] => rewrite (bind_ok (put s) _ d tt s eq_refl); apply (store_effect mgr r _ s) end.
Qed.

Lemma DenyPermission_ok mgr p r d :
  let result :=
    if decide (defined mgr p) then
      if decide (p ∈ rb_grantedPerms d) then RBAC_IN_GRANTED_LIST
      else if decide (p ∈ rb_deniedPerms d) then RBAC_CANT_ADD_ALREADY_ADDED
      else RBAC_OK
    else RBAC_ID_DOES_NOT_EXISTS in
  exists d', DenyPermission mgr p r d = (Ok result, d')
    /\ (if result is RBAC_OK
        then command_effect mgr r (rb_grantedPerms d) ({[ p ]} ∪ rb_deniedPerms d) d d' else d' = d).
Proof.
  unfold DenyPermission. destruct (decide (defined mgr p)) as [[P ->]|Hn].
  2:{ rewrite (undefined_perm mgr p Hn). by exists d. }
  rewrite (bind_ok get _ d d d eq_refl).
  destruct (decide (p ∈ rb_grantedPerms d)); [by exists d|].
  destruct (decide (p ∈ rb_deniedPerms d)); [by exists d|].
  match goal with |- context [put ?s] => rewrite (bind_ok (put s) _ d tt s eq_refl); apply (store_effect mgr r _ s) end.
Qed.

Lemma RevokePermission_ok mgr p r d :
  let result := if decide (p ∈ rb_grantedPerms d \/ p ∈ rb_deniedPerms d) then RBAC_OK
                else RBAC_CANT_REVOKE_NOT_IN_LIST in
  exists d', RevokePermission mgr p r d = (Ok result, d')
    /\ (if result is RBAC_OK
        then command_effect mgr r (rb_grantedPerms d ∖ {[ p ]}) (rb_deniedPerms d ∖ {[ p ]}) d d'
        else d' = d).
Proof.
  unfold RevokePermission. rewrite (bind_ok get _ d d d eq_refl).
  destruct (decide (p ∉ rb_grantedPerms d /\ p ∉ rb_deniedPerms d)).
  - rewrite decide_False by tauto. by exists d.
  - rewrite decide_True by (destruct (decide (p ∈ rb_grantedPerms d)); [by left|];
      destruct (decide (p ∈ rb_deniedPerms d)); [by right|tauto]).
    repeat match goal with |- context [(modify ?f ≫= _) ?s] =>
      rewrite (bind_ok (modify f) _ s tt (f s) eq_refl) end.
    exact (store_effect mgr r (LOGIN_DEL_RBAC_ACCOUNT_PERMISSION (rb_id d) p r)
      (set_denied (rb_deniedPerms d ∖ {[p]})
      (set_granted (rb_grantedPerms d ∖ {[p]}) d))).
Qed.

(** *** Loading *)

(** The first row about a permission decides: a later one is refused. *)
Fixpoint first_row (rows : list (Z * bool)) (p : Z) : option bool :=
  match rows with
  | [] => None
  | (q, granted) :: rows' => if p =? q then Some granted else first_row rows' p
  end.

(** Membership after a row, and after the row and the ones that follow it. *)
Lemma load_row_ok mgr row d :
  exists d', load_row mgr row d = (Ok tt, d') /\ rb_secLevel d' = rb_secLevel d /\
    (forall p, p ∈ rb_grantedPerms d' <-> p ∈ rb_grantedPerms d \/
       (row.2 = true /\ p = row.1 /\ defined mgr p /\ p ∉ rb_deniedPerms d)) /\
    (forall p, p ∈ rb_deniedPerms d' <-> p ∈ rb_deniedPerms d \/
       (row.2 = false /\ p = row.1 /\ defined mgr p /\ p ∉ rb_grantedPerms d)).
Proof.
  destruct row as [p [|]]; unfold load_row; cbn [fst snd].
  - destruct (GrantPermission_ok mgr p 0 d) as (d' & E & H).
    rewrite (bind_ok _ _ d _ d' E). exists d'. split; [done|].
    repeat destruct decide; try destruct H as ([Hg Hd] & ? & _); subst;
      (split; [done|]); split; intros q; rewrite ?Hg, ?Hd; set_solver.
  - destruct (DenyPermission_ok mgr p 0 d) as (d' & E & H).
    rewrite (bind_ok _ _ d _ d' E). exists d'. split; [done|].
    repeat destruct decide; try destruct H as ([Hg Hd] & ? & _); subst;
      (split; [done|]); split; intros q; rewrite ?Hg, ?Hd; set_solver.
Qed.

(** [A], [B]: the permission is granted, denied; [A'], [B'] after a row about
    it; [F]: the rest of the rows decide so too. *)
Lemma verdict_step (A B D F A' B' : Prop) (b c : bool) : Decision A -> Decision B ->
  (A' <-> A \/ (b = c /\ D /\ ~ B)) -> (B' <-> B \/ (b = negb c /\ D /\ ~ A)) ->
  (A' \/ (~ B' /\ D /\ F)) <-> A \/ (~ B /\ D /\ Some b = Some c).
Proof. intros [HA|HA] [HB|HB] H1 H2; destruct b, c; cbn in H2; rewrite H1, H2; naive_solver. Qed.

Lemma load_rows_ok mgr rows d :
  exists d', forM rows (load_row mgr) d = (Ok tt, d') /\ rb_secLevel d' = rb_secLevel d /\
    (forall p, p ∈ rb_grantedPerms d' <-> p ∈ rb_grantedPerms d \/
       (p ∉ rb_deniedPerms d /\ defined mgr p /\ first_row rows p = Some true)) /\
    (forall p, p ∈ rb_deniedPerms d' <-> p ∈ rb_deniedPerms d \/
       (p ∉ rb_grantedPerms d /\ defined mgr p /\ first_row rows p = Some false)).
Proof.
  revert d. induction rows as [|[q b] rows IH]; intros d; cbn [forM first_row].
  { exists d. split_and!; [done|done| |]; intros p; naive_solver. }
  destruct (load_row_ok mgr (q, b) d) as (d1 & E1 & Hs1 & Hg1 & Hd1). cbn [fst snd] in Hg1, Hd1.
  rewrite (bind_ok _ _ d tt d1 E1). destruct (IH d1) as (d' & E & Hs & Hg & Hd).
  exists d'. split; [done|]. split; [congruence|].
  split; intros p; [rewrite Hg|rewrite Hd]; specialize (Hg1 p); specialize (Hd1 p);
    (destruct (Z.eqb_spec p q) as [->|Hne]; [|rewrite Hg1, Hd1; clear - Hne; tauto]).
  - eapply verdict_step; [apply _..|rewrite Hg1; naive_solver|rewrite Hd1; naive_solver].
  - eapply verdict_step; [apply _..|rewrite Hd1; naive_solver|rewrite Hg1; naive_solver].
Qed.

Lemma grant_all_ok mgr ps d :
  exists d', forM ps (fun p => GrantPermission mgr p 0;; mret tt) d = (Ok tt, d') /\
    rb_secLevel d' = rb_secLevel d /\ rb_deniedPerms d' = rb_deniedPerms d /\
    forall p, p ∈ rb_grantedPerms d' <-> p ∈ rb_grantedPerms d \/
       (p ∉ rb_deniedPerms d /\ defined mgr p /\ p ∈ ps).
Proof.
  revert d. induction ps as [|q ps IH]; intros d; cbn [forM].
  { exists d. split_and!; [done..|]. set_solver. }
  destruct (load_row_ok mgr (q, true) d) as (d1 & E1 & Hs1 & Hg1 & Hd1). cbn [fst snd] in Hg1, Hd1.
  unfold load_row in E1. cbn [fst snd] in E1. rewrite (bind_ok _ _ d tt d1 E1).
  assert (rb_deniedPerms d1 = rb_deniedPerms d) as Hdn1
    by (apply set_eq; intros p; rewrite Hd1; naive_solver).
  destruct (IH d1) as (d' & E & Hs & Hdn & Hg).
  exists d'. split; [done|]. do 2 (split; [congruence|]). intros p.
  rewrite Hg, Hg1, Hdn1, elem_of_cons. clear. naive_solver.
Qed.

(** What an account may do after a load: what the rows grant, and the defaults
    of its level the rows do not deny. *)
Definition row_grants (mgr : AccountMgr) (rows : list (Z * bool)) (secLevel p : Z) : Prop :=
  defined mgr p /\ (first_row rows p = Some true \/
    (first_row rows p = None /\ p ∈ GetRBACDefaultPermissions mgr secLevel)).

Lemma LoadFromDB_ok mgr rows d :
  exists d', LoadFromDB mgr rows d = (Ok tt, d') /\ rb_secLevel d' = rb_secLevel d /\
    (forall p, p ∈ rb_grantedPerms d' <-> row_grants mgr rows (rb_secLevel d) p) /\
    (forall p, p ∈ rb_deniedPerms d' <-> defined mgr p /\ first_row rows p = Some false) /\
    (forall q, q ∈ rb_globalPerms d' <-> grants mgr (rb_grantedPerms d') q).
Proof.
  unfold LoadFromDB. rewrite (bind_ok (modify ClearData) _ d tt (ClearData d) eq_refl).
  destruct (load_rows_ok mgr rows (ClearData d)) as (d1 & E1 & Hs1 & Hg1 & Hd1).
  rewrite (bind_ok _ _ _ tt d1 E1), (bind_ok get _ d1 d1 d1 eq_refl).
  match goal with |- context [forM ?l _] => destruct (grant_all_ok mgr l d1) as (d2 & E2 & Hs2 & Hd2 & Hg2) end.
  rewrite (bind_ok _ _ d1 tt d2 E2).
  destruct (CalculateNewPermissions_ok mgr d2) as (d3 & E3 & Hc3).
  apply computed_lists in Hc3 as ([Hg3 Hd3] & Hs3 & Hq3). exists d3.
  split; [done|]. split; [by rewrite Hs3, Hs2, Hs1|]. rewrite Hg3, Hd3, Hd2.
  assert (forall p, p ∈ rb_deniedPerms d1 <-> defined mgr p /\ first_row rows p = Some false) as Hdn
    by (intros p; rewrite Hd1; set_solver).
  split_and!; [|done|done]. intros p. rewrite Hg2, Hdn, Hg1, merge_sort_Permutation, elem_of_elements, Hs1.
  unfold row_grants. cbn. destruct (first_row rows p) as [[|]|]; clear; set_solver.
Qed.

(** *** The account as a transition system *)

(** The commands only reach the account with a realm ([cs_rbac.cpp] refuses
    realm 0). *)
Inductive rbac_step (mgr : AccountMgr) : RBACData -> RBACData -> Prop :=
| rs_load rows d : rbac_step mgr d (LoadFromDB mgr rows d).2
| rs_level id rows d : rbac_step mgr d (SetSecurityLevel mgr id rows d).2
| rs_grant p r d : r <> 0 -> rbac_step mgr d (GrantPermission mgr p r d).2
| rs_deny p r d : r <> 0 -> rbac_step mgr d (DenyPermission mgr p r d).2
| rs_revoke p r d : r <> 0 -> rbac_step mgr d (RevokePermission mgr p r d).2.

(** An account after the load every session and command starts with. *)
Definition reachable_account (mgr : AccountMgr) (d : RBACData) : Prop :=
  exists id realmId secLevel rows,
    rtc (rbac_step mgr) (LoadFromDB mgr rows (RBACData_new id realmId secLevel)).2 d.

Record account_ok (mgr : AccountMgr) (d : RBACData) : Prop := {
  ac_disjoint : rb_grantedPerms d ## rb_deniedPerms d;
  ac_defined p : p ∈ rb_grantedPerms d ∪ rb_deniedPerms d -> defined mgr p;
  ac_global q : q ∈ rb_globalPerms d <-> grants mgr (rb_grantedPerms d) q
}.

Lemma account_ok_loaded mgr rows d : account_ok mgr (LoadFromDB mgr rows d).2.
Proof.
  destruct (LoadFromDB_ok mgr rows d) as (d' & -> & _ & Hg & Hd & Hq). cbn. split; [| |done].
  - intros p. rewrite Hg, Hd. unfold row_grants. naive_solver.
  - intros p [H|H]%elem_of_union; [apply Hg in H|apply Hd in H]; by destruct H.
Qed.

Lemma account_ok_effect mgr r g dn d d' : r <> 0 -> command_effect mgr r g dn d d' ->
  g ## dn -> (forall p, p ∈ g ∪ dn -> defined mgr p) -> account_ok mgr d'.
Proof.
  intros Hr ([Hg Hd] & _ & Hq) Hdis Hdef. rewrite (proj2 (Z.eqb_neq r 0) Hr) in Hq.
  split; by rewrite ?Hg, ?Hd.
Qed.

Lemma rbac_step_ok mgr d d' : account_ok mgr d -> rbac_step mgr d d' -> account_ok mgr d'.
Proof.
  intros [Hdis Hdef Hq] Hstep. destruct Hstep as [rows d|id rows d|p r d Hr|p r d Hr|p r d Hr].
  - apply account_ok_loaded.
  - apply account_ok_loaded.
  - destruct (GrantPermission_ok mgr p r d) as (d' & -> & H). cbn.
    repeat destruct decide; try (subst; by split).
    eapply account_ok_effect; [done..|set_solver|]. set_solver.
  - destruct (DenyPermission_ok mgr p r d) as (d' & -> & H). cbn.
    repeat destruct decide; try (subst; by split).
    eapply account_ok_effect; [done..|set_solver|]. set_solver.
  - destruct (RevokePermission_ok mgr p r d) as (d' & -> & H). cbn.
    repeat destruct decide; try (subst; by split).
    eapply account_ok_effect; [done..|set_solver|]. set_solver.
Qed.

Lemma reachable_account_ok mgr d : reachable_account mgr d -> account_ok mgr d.
Proof.
  intros (id & realmId & secLevel & rows & Hr).
  pose proof (account_ok_loaded mgr rows (RBACData_new id realmId secLevel)) as H0.
  induction Hr as [|a b c Hab _ IH]; [done|]. apply IH. by eapply rbac_step_ok.
Qed.

(** ** Loading the definitions *)

Lemma get_permission_insert m id p j :
  GetRBACPermission (set_permissions (<[id := Some p]> (am_permissions m)) m) j =
  if decide (j = id) then Some p else GetRBACPermission m j.
Proof.
  unfold GetRBACPermission. cbn. destruct (decide (j = id)) as [->|].
  - by rewrite lookup_insert_eq.
  - by rewrite lookup_insert_ne.
Qed.

Lemma load_permissions_ok rows m : NoDup rows.*1 ->
  exists m', forM rows load_permission m = (Ok tt, m')
    /\ am_defaultPermissions m' = am_defaultPermissions m
    /\ (forall id name, (id, name) ∈ rows -> GetRBACPermission m' id = Some (mkRBACPermission id name ∅))
    /\ (forall id, id ∉ rows.*1 -> GetRBACPermission m' id = GetRBACPermission m id).
Proof.
  revert m. induction rows as [|[id name] rows IH]; intros m Hnd; cbn [forM].
  { exists m. split_and!; [done..| |done]. intros ? ? ?%not_elem_of_nil. done. }
  apply NoDup_cons in Hnd as [Hn Hnd].
  rewrite (bind_ok (load_permission (id, name)) _ m tt _ eq_refl).
  match goal with |- context [forM _ _ ?s] => destruct (IH s Hnd) as (m' & E & Hdef & H1 & H2) end.
  exists m'. split; [done|]. split; [done|]. cbn [fst snd] in *. split.
  - intros j nm [[= -> ->]|Hj]%elem_of_cons; [|by apply H1].
    rewrite H2, get_permission_insert by done. by rewrite decide_True.
  - intros j [Hj Hj']%not_elem_of_cons. rewrite H2, get_permission_insert by done.
    by rewrite decide_False.
Qed.

(** The links a list of rows gives a permission. *)
Definition links_of (rows : list (Z * Z)) (id : Z) : gset Z :=
  list_to_set (snd <$> filter (fun r => r.1 = id /\ r.2 <> id) rows).

Lemma elem_of_links_of rows id l : l ∈ links_of rows id <-> (id, l) ∈ rows /\ l <> id.
Proof.
  unfold links_of. rewrite elem_of_list_to_set, list_elem_of_fmap. split.
  - intros ([a b] & -> & H%list_elem_of_filter). cbn in *. destruct H as [[-> ?] ?]. done.
  - intros [H Hne]. exists (id, l). split; [done|]. by apply list_elem_of_filter.
Qed.

Definition with_links (L : gset Z) (P : RBACPermission) : RBACPermission :=
  mkRBACPermission (perm_id P) (perm_name P) (perm_perms P ∪ L).

(** A row that links to a permission that is not defined. *)
Definition orphan (m : AccountMgr) (r : Z * Z) : Prop := r.2 <> r.1 /\ ~ defined m r.1.
#[export] Instance orphan_dec m r : Decision (orphan m r).
Proof. unfold orphan. apply _. Defined.

Lemma get_select m id : forall j, GetRBACPermission (select_permission id m).2 j = GetRBACPermission m j.
Proof.
  intros j. unfold select_permission, GetRBACPermission, modify. cbn.
  destruct (am_permissions m !! id) as [o|] eqn:E; [done|]. cbn.
  destruct (decide (j = id)) as [->|]; [|by rewrite lookup_insert_ne].
  by rewrite lookup_insert_eq, E.
Qed.

Lemma select_defaults m id :
  am_defaultPermissions (select_permission id m).2 = am_defaultPermissions m.
Proof. unfold select_permission, modify. cbn. by destruct (am_permissions m !! id). Qed.

(** The effect of the rest of the rows. *)
Definition links_loaded (rows : list (Z * Z)) (m : AccountMgr) (r : res RBACError unit * AccountMgr) : Prop :=
  if decide (Exists (orphan m) rows) then r.1 = Err NullDereference
  else r.1 = Ok tt /\ am_defaultPermissions r.2 = am_defaultPermissions m /\
    forall id, GetRBACPermission r.2 id = with_links (links_of rows id) <$> GetRBACPermission m id.

Lemma links_loaded_same rows m m1 r :
  (forall j, GetRBACPermission m1 j = GetRBACPermission m j) ->
  am_defaultPermissions m1 = am_defaultPermissions m ->
  links_loaded rows m1 r -> links_loaded rows m r.
Proof.
  intros Hg Hd. unfold links_loaded.
  assert (forall row, orphan m1 row <-> orphan m row) as Ho
    by (intros row; unfold orphan, defined; by rewrite Hg).
  assert (Exists (orphan m1) rows <-> Exists (orphan m) rows) as He
    by (split; intros HE; (eapply Exists_impl; [exact HE|]); intros row; apply Ho).
  destruct (decide (Exists (orphan m1) rows)), (decide (Exists (orphan m) rows)); try tauto.
  intros (? & ? & H). split_and!; [done|congruence|]. intros id. by rewrite H, Hg.
Qed.

Lemma links_loaded_skip id rows m r :
  links_loaded rows m r -> links_loaded ((id, id) :: rows) m r.
Proof.
  unfold links_loaded. intros H.
  assert (Exists (orphan m) ((id, id) :: rows) <-> Exists (orphan m) rows) as He.
  { rewrite Exists_cons. unfold orphan at 1. cbn. tauto. }
  destruct (decide (Exists _ (_ :: rows))), (decide (Exists _ rows)); try tauto.
  destruct H as (? & ? & H). split_and!; [done..|]. intros j. rewrite H. f_equal. f_equal.
  apply set_eq. intros x. rewrite !elem_of_links_of, elem_of_cons. naive_solver.
Qed.

Lemma links_loaded_add id l rows m P r : l <> id -> GetRBACPermission m id = Some P ->
  links_loaded rows (set_permissions (<[id := Some (AddLinkedPermission l P)]> (am_permissions m)) m) r ->
  links_loaded ((id, l) :: rows) m r.
Proof.
  intros Hne HP. unfold links_loaded.
  set (m1 := set_permissions _ m).
  assert (forall row, orphan m1 row <-> orphan m row) as Ho.
  { intros row. unfold orphan, defined, m1. rewrite get_permission_insert.
    destruct (decide (row.1 = id)) as [->|]; [|done]. rewrite HP. naive_solver. }
  assert (Exists (orphan m) ((id, l) :: rows) <-> Exists (orphan m1) rows) as He.
  { rewrite Exists_cons. split.
    - intros [[_ []]|HE]; [by exists P|]. eapply Exists_impl; [exact HE|]. intros row. apply Ho.
    - intros HE. right. eapply Exists_impl; [exact HE|]. intros row. apply Ho. }
  destruct (decide (Exists _ (_ :: rows))), (decide (Exists _ rows)); try tauto.
  intros (? & ? & H). split_and!; [done..|]. intros j. rewrite H. unfold m1.
  rewrite get_permission_insert. destruct (decide (j = id)) as [->|Hj].
  - rewrite HP. cbn [fmap option_fmap option_map]. unfold with_links, AddLinkedPermission.
    cbn [perm_id perm_name perm_perms]. do 2 f_equal. apply set_eq.
    intros x. rewrite !elem_of_union, elem_of_singleton, !elem_of_links_of, elem_of_cons. naive_solver.
  - replace (links_of ((id, l) :: rows) j) with (links_of rows j); [done|].
    apply set_eq. intros x. rewrite !elem_of_links_of, elem_of_cons. naive_solver.
Qed.

Lemma add_link_run id l m : add_link id l m =
  match GetRBACPermission m id with
  | Some P => (Ok tt, set_permissions (<[id := Some (AddLinkedPermission l P)]> (am_permissions m)) m)
  | None => (Err NullDereference, m)
  end.
Proof. unfold add_link. rewrite (bind_ok get _ m m m eq_refl). by destruct GetRBACPermission. Qed.

Lemma load_links_ok pid is_null rows m :
  (is_null = true -> Forall (fun r => r.1 <> pid) rows) ->
  links_loaded rows m (load_links pid is_null rows m).
Proof.
  revert pid is_null m. induction rows as [|[id l] rows IH]; intros pid is_null m Hn; cbn [load_links].
  { unfold links_loaded. rewrite decide_False by (intros []%Exists_nil). split_and!; [done..|].
    intros id. change (GetRBACPermission m id = with_links (links_of [] id) <$> GetRBACPermission m id).
    destruct (GetRBACPermission m id) as [[]|]; [|done]. cbn. unfold with_links. cbn.
    by rewrite union_empty_r_L. }
  assert ((if negb (pid =? id) then false else is_null) = false) as ->.
  { destruct (Z.eqb_spec pid id) as [<-|]; [|done]. cbn. destruct is_null; [|done].
    apply Forall_cons in Hn as [[] _]; done. }
  set (m1 := if negb (pid =? id) then (select_permission id m).2 else m).
  assert ((if negb (pid =? id) then select_permission id else mret tt) m = (Ok tt, m1)) as E1
    by (unfold m1; by destruct (pid =? id)).
  rewrite (bind_ok _ _ m tt m1 E1).
  apply (links_loaded_same _ m m1).
  { unfold m1. destruct (negb _); [apply get_select|done]. }
  { unfold m1. destruct (negb _); [apply select_defaults|done]. }
  destruct (Z.eqb_spec l id) as [->|Hl]; [by apply links_loaded_skip, IH|].
  pose proof (add_link_run id l m1) as Ha. destruct (GetRBACPermission m1 id) as [P|] eqn:HP.
  - rewrite (bind_ok _ _ m1 tt _ Ha). by eapply links_loaded_add, IH.
  - rewrite (bind_err _ _ m1 NullDereference m1 Ha). unfold links_loaded.
    rewrite decide_True; [done|]. left. split; [done|]. unfold defined. cbn [fst]. rewrite HP. by intros [].
Qed.

Lemma load_defaults_ok sec is_null rows m :
  Forall (fun r => 0 <= r.1 < 255) rows -> (is_null = true -> sec = 255) ->
  exists m', load_defaults sec is_null rows m = (Ok tt, m') /\ am_permissions m' = am_permissions m /\
    forall s p, p ∈ GetRBACDefaultPermissions m' s <-> p ∈ GetRBACDefaultPermissions m s \/ (s, p) ∈ rows.
Proof.
  revert sec is_null m. induction rows as [|[id p] rows IH]; intros sec is_null m Hr Hn; cbn [load_defaults].
  { exists m. split_and!; [done..|]. set_solver. }
  apply Forall_cons in Hr as [Hid Hr]. cbn in Hid.
  assert ((if negb (sec =? id) then false else is_null) = false) as ->.
  { destruct (Z.eqb_spec sec id) as [<-|]; [|done]. cbn. destruct is_null; [|done].
    specialize (Hn eq_refl). lia. }
  assert ((if negb (sec =? id) then u8 id else sec) = id) as ->.
  { destruct (Z.eqb_spec sec id) as [<-|]; [done|]. cbn. apply uint_small. lia. }
  unfold add_default.
  match goal with |- context [modify ?f] => rewrite (bind_ok (modify f) _ m tt (f m) eq_refl) end.
  match goal with |- context [load_defaults _ _ _ ?s] =>
    destruct (IH id false s Hr) as (m' & E & Hp & Hm); [done|] end.
  exists m'. split_and!; [done..|]. intros s q. rewrite Hm. unfold GetRBACDefaultPermissions. cbn.
  destruct (decide (s = id)) as [->|].
  - rewrite lookup_insert_eq. cbn. set_solver.
  - rewrite lookup_insert_ne by done. set_solver.
Qed.

(** ** Properties *)

(** C34. Expanding a set of permissions terminates and yields
    exactly the defined permissions it contains or reaches through the links:
    the work list of [ExpandPermissions] computes a transitive closure, on
    cyclic links too. *)
Theorem ExpandPermissions_closure mgr permissions :
  exists expanded, ExpandPermissions mgr permissions = Some expanded /\
    forall q, q ∈ expanded <-> grants mgr permissions q.
Proof. apply expand_ok. Qed.

(** A denied permission is still held: in every state an
    account can reach, denying a permission succeeds, records it in the denied
    list and sends it to the database, yet [HasPermission] answers as before
    for every permission.  [CalculateNewPermissions] removes the granted
    permissions from the denied ones instead of the converse, so what an
    account may do is always exactly what its granted list implies. *)
Theorem denied_permission_still_held mgr permissionId realmId d d' :
  reachable_account mgr d -> realmId <> 0 ->
  DenyPermission mgr permissionId realmId d = (Ok RBAC_OK, d') ->
  permissionId ∈ rb_deniedPerms d'
  /\ (forall q, HasPermission false q d' = HasPermission false q d)
  /\ (forall q, HasPermission false q d' = true <-> grants mgr (rb_grantedPerms d') q).
Proof.
  intros Hd Hr Hdeny. apply reachable_account_ok in Hd as [_ _ Hq].
  destruct (DenyPermission_ok mgr permissionId realmId d) as (d1 & E & H).
  rewrite Hdeny in E. injection E as Hres <-.
  repeat destruct decide; try discriminate Hres.
  destruct H as ([Hg Hdn] & _ & Hq'). rewrite (proj2 (Z.eqb_neq realmId 0) Hr) in Hq'.
  split; [rewrite Hdn; set_solver|]. unfold HasPermission. split; intros q.
  - apply bool_decide_ext. by rewrite Hq, Hq'.
  - by rewrite bool_decide_eq_true, Hg.
Qed.

(** Loading an account: the first row about a permission
    decides whether it is granted or denied, whatever later rows say; the
    default permissions of the security level are granted unless a row denies
    them; ids that are not defined are ignored; and the permission set is
    computed afresh. *)
Theorem LoadFromDB_spec mgr rows d :
  exists d', LoadFromDB mgr rows d = (Ok tt, d') /\
    (forall p, p ∈ rb_grantedPerms d' <-> defined mgr p /\
       (first_row rows p = Some true \/
        (first_row rows p = None /\ p ∈ GetRBACDefaultPermissions mgr (rb_secLevel d)))) /\
    (forall p, p ∈ rb_deniedPerms d' <-> defined mgr p /\ first_row rows p = Some false) /\
    (forall q, HasPermission false q d' = true <-> grants mgr (rb_grantedPerms d') q).
Proof.
  destruct (LoadFromDB_ok mgr rows d) as (d' & E & _ & Hg & Hd & Hq).
  exists d'. split; [done|]. split; [done|]. split; [done|]. intros q.
  unfold HasPermission. by rewrite bool_decide_eq_true.
Qed.

(** Loading the definitions: with rows in all three tables,
    every permission ends up with its name and the permissions its rows link
    to, itself excepted, and every level with its default permissions; but a
    row that links from an id that is not a permission dereferences the NULL
    pointer [operator[]] has just created. *)
Theorem LoadRBAC_spec permissions links defaults m :
  permissions <> [] -> links <> [] -> NoDup permissions.*1 ->
  Forall (fun r => r.1 <> 0) links -> Forall (fun r => 0 <= r.1 < 255) defaults ->
  if decide (Exists (fun r => r.2 <> r.1 /\ r.1 ∉ permissions.*1) links)
  then (LoadRBAC permissions links defaults m).1 = Err NullDereference
  else exists m', LoadRBAC permissions links defaults m = (Ok tt, m') /\
    (forall id name, (id, name) ∈ permissions -> exists L,
       GetRBACPermission m' id = Some (mkRBACPermission id name L) /\
       forall l, l ∈ L <-> (id, l) ∈ links /\ l <> id) /\
    (forall id, id ∉ permissions.*1 -> GetRBACPermission m' id = None) /\
    (forall s p, p ∈ GetRBACDefaultPermissions m' s <-> (s, p) ∈ defaults).
Proof.
  intros Hp Hl Hnd Hnz Hdef. unfold LoadRBAC.
  rewrite (bind_ok (modify ClearRBAC) _ m tt (ClearRBAC m) eq_refl).
  destruct permissions as [|P0 ps]; [done|]. destruct links as [|L0 ls]; [done|].
  destruct (load_permissions_ok (P0 :: ps) (ClearRBAC m) Hnd) as (m1 & E1 & Hd1 & Hin & Hout).
  rewrite (bind_ok _ _ _ tt m1 E1).
  assert (forall id, defined m1 id <-> id ∈ (P0 :: ps).*1) as Hdf.
  { intros id. destruct (decide (id ∈ (P0 :: ps).*1)) as [Hid|Hid].
    - apply list_elem_of_fmap in Hid as ([j nm] & -> & Hj).
      unfold defined. cbn [fst]. rewrite (Hin _ _ Hj). split; [|by eexists]. intros _.
      apply list_elem_of_fmap. by exists (j, nm).
    - unfold defined. rewrite Hout by done. split; [by intros []|done]. }
  pose proof (load_links_ok 0 true (L0 :: ls) m1 (fun _ => Hnz)) as Hll. unfold links_loaded in Hll.
  assert (Exists (orphan m1) (L0 :: ls) <->
          Exists (fun r => r.2 <> r.1 /\ r.1 ∉ (P0 :: ps).*1) (L0 :: ls)) as He
    by (split; intros HE; (eapply Exists_impl; [exact HE|]); intros r; unfold orphan; by rewrite Hdf).
  destruct (load_links 0 true (L0 :: ls) m1) as [[[]|e] m2] eqn:E2; cbn [fst snd] in Hll;
    destruct (decide (Exists (orphan m1) _)) as [HE|HE]; rewrite He in HE;
    [done|rewrite decide_False by done|rewrite decide_True by done|by destruct Hll].
  - rewrite (bind_ok _ _ m1 tt m2 E2). destruct Hll as (_ & Hd2 & Hget).
    destruct (load_defaults_ok 255 true defaults m2 Hdef ltac:(done)) as (m3 & E3 & Hp3 & Hm3).
    assert (forall id, GetRBACPermission m3 id = GetRBACPermission m2 id) as H32
      by (intros id; unfold GetRBACPermission; by rewrite Hp3).
    exists m3. split; [done|]. split_and!.
    + intros id name Hid. exists (∅ ∪ links_of (L0 :: ls) id).
      rewrite H32, Hget, (Hin id name Hid). split; [done|].
      intros l. by rewrite union_empty_l_L, elem_of_links_of.
    + intros id Hid. by rewrite H32, Hget, Hout.
    + intros s p. rewrite Hm3. unfold GetRBACDefaultPermissions at 1. rewrite Hd2, Hd1. cbn. set_solver.
  - by rewrite (bind_err _ _ m1 e m2 E2).
Qed.

(** The security level of an account that is logged in never changes:
    [UpdateAccountAccess] only calls [SetSecurityLevel] with the level the
    account already has. *)
Lemma UpdateAccountAccess_keeps_level mgr accountId securityLevel realmId rows d d' :
  (UpdateAccountAccess mgr accountId securityLevel realmId rows (Some d)).1 = Some d' ->
  rb_secLevel d' = rb_secLevel d.
Proof.
  unfold UpdateAccountAccess. cbn [fst]. destruct (Z.eqb_spec securityLevel (rb_secLevel d)) as [->|];
    intros [= <-]; [|done]. unfold SetSecurityLevel.
  match goal with |- context [modify ?f] => rewrite (bind_ok (modify f) _ d tt (f d) eq_refl) end.
  match goal with |- context [LoadFromDB _ _ ?s] =>
    destruct (LoadFromDB_ok mgr rows s) as (d' & -> & Hs & _) end. exact Hs.
Qed.

(** *** Witnesses *)

(** A role, permission 192, that implies the command 217; the default of
    level 0. *)
Definition sample_mgr : AccountMgr :=
  (LoadRBAC [(192, "Role: Sec Level 3"%string); (217, "Command: account"%string)]
     [(192, 217)] [(0, 192)] (mkAccountMgr ∅ ∅)).2.
Definition sample_account : RBACData := (LoadFromDB sample_mgr [] (RBACData_new 1 1 0)).2.

Lemma denied_permission_still_held_witness :
  let d' := (DenyPermission sample_mgr 217 1 sample_account).2 in
  217 ∈ rb_deniedPerms d' /\ HasPermission false 217 d' = HasPermission false 217 sample_account
  /\ HasPermission false 217 sample_account = true.
Proof.
  destruct (denied_permission_still_held sample_mgr 217 1 sample_account
    (DenyPermission sample_mgr 217 1 sample_account).2) as (H1 & H2 & _).
  - exists 1, 1, 0, []. apply rtc_refl.
  - lia.
  - vm_compute. reflexivity.
  - split; [exact H1|]. split; [apply (H2 217)|vm_compute; reflexivity].
Defined.

Lemma LoadRBAC_spec_witness :
  GetRBACPermission sample_mgr 217 = Some (mkRBACPermission 217 "Command: account" ∅)
  /\ (LoadRBAC [(192, "Role"%string)] [(192, 217); (300, 192)] [] (mkAccountMgr ∅ ∅)).1
     = Err NullDereference.
Proof.
  split; [vm_compute; reflexivity|].
  pose proof (LoadRBAC_spec [(192, "Role"%string)] [(192, 217); (300, 192)] [] (mkAccountMgr ∅ ∅)) as H.
  specialize (H ltac:(discriminate) ltac:(discriminate)).
  specialize (H ltac:(apply NoDup_singleton) ltac:(repeat constructor; cbn; lia) ltac:(constructor)).
  destruct (decide _) as [HE|HE]; [exact H|]. exfalso. apply HE. right. left. cbn. split; [lia|].
  intros [[=]|[]%elem_of_nil]%elem_of_cons.
Defined.
