(* ===== verification/Reputation.v ===== *)
(** * Reputation (src/src/serveur/jeu/Reputation/ReputationMgr.{h,cpp})

    A player's standing with every faction, relative to a base that depends on
    race and class, with the counters the achievements read, the spillover of a
    change to related factions, and the packets that report it.  The faction
    table, the spillover templates, the reputation rate and the player's race
    and class are parameters.  The callbacks to the rest of the player (quests,
    achievements, scripts) do not touch the manager and are left out. *)

From S2P Require Import Prelude.
From S2P Require Import Floats.
From S2P Require Import ByteBuffer.
Local Open Scope Z_scope.

Inductive RepError := UndefinedInt | NullFaction | PacketError.

(** ** Ranks *)

Definition REP_HOSTILE := 1.
Definition REP_HONORED := 5.
Definition REP_REVERED := 6.
Definition REP_EXALTED := 7.
Definition PointsInRank : list Z := [36000; 3000; 3000; 3000; 6000; 12000; 21000; 1000].
Definition Reputation_Cap := 42999.
Definition Reputation_Bottom := -42000.

(** The loop of [ReputationToRank], from rank [i - 1] down. *)
Fixpoint rank_loop (i : nat) (limit standing : Z) : Z :=
  match i with
  | O => 0
  | S i' =>
      let limit := limit - nth i' PointsInRank 0 in
      if limit <=? standing then Z.of_nat i' else rank_loop i' limit standing
  end.

Definition ReputationToRank (standing : Z) : Z := rank_loop 8 (Reputation_Cap + 1) standing.

(** ** The data *)

Definition FACTION_FLAG_VISIBLE := 1.
Definition FACTION_FLAG_AT_WAR := 2.
Definition FACTION_FLAG_HIDDEN := 4.
Definition FACTION_FLAG_INVISIBLE_FORCED := 8.
Definition FACTION_FLAG_PEACE_FORCED := 16.
Definition FACTION_FLAG_INACTIVE := 32.
Definition FACTION_FLAG_SPECIAL := 128.

(** A row of Faction.dbc; the four alternatives of the base reputation are the
    race mask, class mask, value and flags. *)
Record FactionBase := mkFactionBase {
  BaseRepRaceMask : Z;
  BaseRepClassMask : Z;
  BaseRepValue : Z;
  ReputationFlags : Z
}.
Record FactionEntry := mkFactionEntry {
  fe_ID : Z;
  reputationListID : Z;
  fe_bases : list FactionBase;
  fe_team : Z;
  spilloverRateIn : spec_float;
  spilloverRateOut : spec_float;
  spilloverMaxRankIn : Z
}.

(** One of the five columns of a [RepSpilloverTemplate]. *)
Record Spillover := mkSpillover {
  sp_faction : Z;
  sp_faction_rate : spec_float;
  sp_faction_rank : Z
}.

Record FactionState := mkFactionState {
  fs_ID : Z;
  fs_ReputationListID : Z;
  fs_Standing : Z;
  fs_Flags : Z;
  fs_needSend : bool;
  fs_needSave : bool
}.

Definition has_flag (flag : Z) (f : FactionState) : bool := negb (Z.land (fs_Flags f) flag =? 0).
Definition set_Standing (v : Z) (f : FactionState) : FactionState :=
  mkFactionState (fs_ID f) (fs_ReputationListID f) v (fs_Flags f) (fs_needSend f) (fs_needSave f).
Definition set_Flags (v : Z) (f : FactionState) : FactionState :=
  mkFactionState (fs_ID f) (fs_ReputationListID f) (fs_Standing f) v (fs_needSend f) (fs_needSave f).
Definition set_need (b : bool) (f : FactionState) : FactionState :=
  mkFactionState (fs_ID f) (fs_ReputationListID f) (fs_Standing f) (fs_Flags f) b b.
Definition set_needSend (b : bool) (f : FactionState) : FactionState :=
  mkFactionState (fs_ID f) (fs_ReputationListID f) (fs_Standing f) (fs_Flags f) b (fs_needSave f).
Definition set_needSave (b : bool) (f : FactionState) : FactionState :=
  mkFactionState (fs_ID f) (fs_ReputationListID f) (fs_Standing f) (fs_Flags f) (fs_needSend f) b.

Inductive RepPacket :=
| SMSG_SET_FACTION_STANDING (bytes : list Z)
| SMSG_SET_FACTION_VISIBLE (bytes : list Z)
| SMSG_INITIALIZE_FACTIONS (bytes : list Z)
| SMSG_SET_FORCED_REACTIONS (bytes : list Z).

Record ReputationMgr := mkReputationMgr {
  rm_factions : gmap Z FactionState;
  rm_forcedReactions : gmap Z Z;
  rm_visibleFactionCount : Z;
  rm_honoredFactionCount : Z;
  rm_reveredFactionCount : Z;
  rm_exaltedFactionCount : Z;
  rm_sendFactionIncreased : bool;
  rm_sent : list RepPacket
}.

Definition set_factions (f : gmap Z FactionState) (m : ReputationMgr) : ReputationMgr :=
  mkReputationMgr f (rm_forcedReactions m) (rm_visibleFactionCount m) (rm_honoredFactionCount m)
    (rm_reveredFactionCount m) (rm_exaltedFactionCount m) (rm_sendFactionIncreased m) (rm_sent m).
Definition set_forced (r : gmap Z Z) (m : ReputationMgr) : ReputationMgr :=
  mkReputationMgr (rm_factions m) r (rm_visibleFactionCount m) (rm_honoredFactionCount m)
    (rm_reveredFactionCount m) (rm_exaltedFactionCount m) (rm_sendFactionIncreased m) (rm_sent m).
Definition set_counts (v h r e : Z) (m : ReputationMgr) : ReputationMgr :=
  mkReputationMgr (rm_factions m) (rm_forcedReactions m) v h r e (rm_sendFactionIncreased m) (rm_sent m).
Definition set_increased (b : bool) (m : ReputationMgr) : ReputationMgr :=
  mkReputationMgr (rm_factions m) (rm_forcedReactions m) (rm_visibleFactionCount m)
    (rm_honoredFactionCount m) (rm_reveredFactionCount m) (rm_exaltedFactionCount m) b (rm_sent m).
Definition send (p : RepPacket) (m : ReputationMgr) : ReputationMgr :=
  mkReputationMgr (rm_factions m) (rm_forcedReactions m) (rm_visibleFactionCount m)
    (rm_honoredFactionCount m) (rm_reveredFactionCount m) (rm_exaltedFactionCount m)
    (rm_sendFactionIncreased m) (rm_sent m ++ [p]).

Abbreviation RM := (prog ReputationMgr RepError).

(** Signed 32-bit arithmetic, undefined on overflow. *)
Definition int_op (v : Z) : RM Z :=
  if (- 2 ^ 31 <=? v) && (v <? 2 ^ 31) then mret v else throw UndefinedInt.
Definition of_option {A} (o : option A) (e : RepError) : RM A :=
  match o with Some a => mret a | None => throw e end.

(** A faction state through a pointer into the map. *)
Definition faction (key : Z) : RM FactionState :=
  m ← get; of_option (rm_factions m !! key) NullFaction.
Definition store_state (key : Z) (f : FactionState) : RM unit :=
  modify (fun m => set_factions (<[key := f]> (rm_factions m)) m).

(** Building a packet in a buffer of its own. *)
Definition build (p : prog ByteBuffer ByteBufferError unit) : RM (list Z) :=
  match p ByteBuffer_new with
  | (Ok _, b) => mret (bb_storage b)
  | (Err _, _) => throw PacketError
  end.

Definition UpdateRankCounters (old_rank new_rank : Z) : RM unit :=
  let step (limit c : Z) :=
    let c := if limit <=? old_rank then u8 (c - 1) else c in
    if limit <=? new_rank then u8 (c + 1) else c in
  modify (fun m => set_counts (rm_visibleFactionCount m)
    (step REP_HONORED (rm_honoredFactionCount m)) (step REP_REVERED (rm_reveredFactionCount m))
    (step REP_EXALTED (rm_exaltedFactionCount m)) m).

Definition ApplyForceReaction (faction_id rank : Z) (apply : bool) : RM unit :=
  modify (fun m => set_forced (if apply then <[faction_id := rank]> (rm_forcedReactions m)
                               else delete faction_id (rm_forcedReactions m)) m).

Definition GetForcedRankIfAny (m : ReputationMgr) (template_faction : Z) : option Z :=
  rm_forcedReactions m !! template_faction.

(** ** Packets *)

Definition append_faction (f : FactionState) : prog ByteBuffer ByteBufferError unit :=
  append 4 (u32 (fs_ReputationListID f));; append 4 (u32 (fs_Standing f)).

Definition standing_packet (increased : bool) (f : FactionState) (others : list FactionState)
  : prog ByteBuffer ByteBufferError unit :=
  append 4 0;; append 4 0;;
  b ← get;
  let countPos := bitwpos b in
  WriteBits 1 21;; WriteBit (Z.b2z increased);; FlushBits;;
  append_faction f;;
  forM others append_faction;;
  PutBits countPos (1 + len others) 21.

(** [SendState]: the factions whose change has not been sent ride along. *)
Definition SendState (key : Z) : RM unit :=
  f ← faction key;
  m ← get;
  let increased := rm_sendFactionIncreased m in
  let others := filter (fun g => fs_ReputationListID g <> fs_ReputationListID f)
    (filter (fun g => fs_needSend g = true) (in_order (rm_factions m)).*2) in
  modify (set_increased false);;
  packet ← build (standing_packet increased f others);
  modify (fun m => set_factions (fmap (set_needSend false) (rm_factions m)) m);;
  modify (send (SMSG_SET_FACTION_STANDING packet)).

Definition SendStates : RM unit :=
  m ← get; forM (in_order (rm_factions m)).*1 SendState.

Section Player.
(** The faction table and its size, the spillover templates of the database,
    the rate of reputation gains, and the player. *)
Context (sFactionStore : gmap Z FactionEntry) (NumRows : Z).
Context (GetRepSpilloverTemplate : Z -> option (list Spillover)) (RATE_REPUTATION_GAIN : spec_float).
Context (raceMask classMask : Z) (PlayerLoading : bool).

(** The alternative of a faction that applies to the player. *)
Fixpoint base_loop (bases : list FactionBase) : option FactionBase :=
  match bases with
  | [] => None
  | b :: bases' =>
      if (negb (Z.land (BaseRepRaceMask b) raceMask =? 0)
          || ((BaseRepRaceMask b =? 0) && negb (BaseRepClassMask b =? 0)))
         && (negb (Z.land (BaseRepClassMask b) classMask =? 0) || (BaseRepClassMask b =? 0))
      then Some b else base_loop bases'
  end.

Definition GetBaseReputation (e : FactionEntry) : Z :=
  match base_loop (fe_bases e) with Some b => BaseRepValue b | None => 0 end.
Definition GetDefaultStateFlags (e : FactionEntry) : Z :=
  match base_loop (fe_bases e) with Some b => ReputationFlags b | None => 0 end.
Definition GetBaseRank (e : FactionEntry) : Z := ReputationToRank (GetBaseReputation e).

(** [CanHaveReputation]; the list id as a key is a [uint32]. *)
Definition list_key (e : FactionEntry) : Z := u32 (reputationListID e).
Definition GetState (m : ReputationMgr) (e : FactionEntry) : option FactionState :=
  if 0 <=? reputationListID e then rm_factions m !! list_key e else None.

Definition IsAtWar (m : ReputationMgr) (e : FactionEntry) : bool :=
  match GetState m e with Some f => has_flag FACTION_FLAG_AT_WAR f | None => false end.

Definition GetReputation (e : option FactionEntry) : RM Z :=
  m ← get;
  match e with
  | None => mret 0
  | Some e =>
      match GetState m e with
      | Some f => int_op (GetBaseReputation e + fs_Standing f)
      | None => mret 0
      end
  end.
Definition GetRank (e : option FactionEntry) : RM Z :=
  reputation ← GetReputation e; mret (ReputationToRank reputation).

(** *** Flags *)

Definition SendVisible (f : FactionState) : RM unit :=
  if PlayerLoading then mret tt
  else
    packet ← build (append 4 (u32 (fs_ReputationListID f)));
    modify (send (SMSG_SET_FACTION_VISIBLE packet)).

Definition SetVisible_state (key : Z) : RM unit :=
  f ← faction key;
  if has_flag (Z.lor FACTION_FLAG_INVISIBLE_FORCED FACTION_FLAG_HIDDEN) f
     && negb (has_flag FACTION_FLAG_SPECIAL f) then mret tt
  else if has_flag FACTION_FLAG_VISIBLE f then mret tt
  else
    let f := set_need true (set_Flags (Z.lor (fs_Flags f) FACTION_FLAG_VISIBLE) f) in
    store_state key f;;
    modify (fun m => set_counts (u8 (rm_visibleFactionCount m + 1)) (rm_honoredFactionCount m)
                       (rm_reveredFactionCount m) (rm_exaltedFactionCount m) m);;
    SendVisible f.

Definition SetVisible (e : FactionEntry) : RM unit :=
  m ← get;
  if reputationListID e <? 0 then mret tt
  else match rm_factions m !! list_key e with
       | None => mret tt
       | Some _ => SetVisible_state (list_key e)
       end.

(** [SetVisible] of a faction template, whose faction is an id or 0. *)
Definition SetVisible_template (template_faction : Z) : RM unit :=
  if template_faction =? 0 then mret tt
  else match sFactionStore !! template_faction with
       | Some e =>
           let b := nth 1 (fe_bases e) (mkFactionBase 0 0 0 0) in
           if negb (negb (Z.land (BaseRepRaceMask b) raceMask =? 0) && (BaseRepValue b =? Reputation_Bottom))
           then SetVisible e else mret tt
       | None => mret tt
       end.

Definition set_flag (flag : Z) (on : bool) (f : FactionState) : FactionState :=
  set_need true (set_Flags (if on then Z.lor (fs_Flags f) flag else Z.ldiff (fs_Flags f) flag) f).

Definition SetAtWar_state (key : Z) (atWar : bool) : RM unit :=
  f ← faction key;
  if atWar && has_flag FACTION_FLAG_PEACE_FORCED f then mret tt
  else if Bool.eqb (has_flag FACTION_FLAG_AT_WAR f) atWar then mret tt
  else store_state key (set_flag FACTION_FLAG_AT_WAR atWar f).

Definition SetAtWar (repListID : Z) (on : bool) : RM unit :=
  m ← get;
  match rm_factions m !! repListID with
  | None => mret tt
  | Some f =>
      if has_flag (Z.lor FACTION_FLAG_INVISIBLE_FORCED FACTION_FLAG_HIDDEN) f then mret tt
      else SetAtWar_state repListID on
  end.

Definition SetInactive_state (key : Z) (inactive : bool) : RM unit :=
  f ← faction key;
  if inactive && (has_flag (Z.lor FACTION_FLAG_INVISIBLE_FORCED FACTION_FLAG_HIDDEN) f
                  || negb (has_flag FACTION_FLAG_VISIBLE f)) then mret tt
  else if Bool.eqb (has_flag FACTION_FLAG_INACTIVE f) inactive then mret tt
  else store_state key (set_flag FACTION_FLAG_INACTIVE inactive f).

Definition SetInactive (repListID : Z) (on : bool) : RM unit :=
  m ← get;
  match rm_factions m !! repListID with
  | None => mret tt
  | Some _ => SetInactive_state repListID on
  end.

(** *** Changing a standing *)

Definition clamp (standing : Z) : Z :=
  if Reputation_Cap <? standing then Reputation_Cap
  else if standing <? Reputation_Bottom then Reputation_Bottom
  else standing.

(** [int32(floor((float)standing * rate + 0.5f))] *)
Definition gain (standing : Z) : RM Z :=
  of_option (int32_of_floor
    (fadd (fmul (float_of_Z standing) RATE_REPUTATION_GAIN) (S754_finite false 1 (-1)))) UndefinedInt.

Definition new_standing (f : FactionState) (BaseRep standing : Z) (incremental : bool) : RM Z :=
  if incremental then
    gained ← gain standing;
    current ← int_op (fs_Standing f + BaseRep);
    int_op (gained + current)
  else mret standing.

Definition SetOneFactionReputation (e : FactionEntry) (standing : Z) (incremental : bool) : RM bool :=
  m ← get;
  match rm_factions m !! list_key e with
  | None => mret false
  | Some f =>
      let BaseRep := GetBaseReputation e in
      standing ← new_standing f BaseRep standing incremental;
      let standing := clamp standing in
      current ← int_op (fs_Standing f + BaseRep);
      let old_rank := ReputationToRank current in
      let new_rank := ReputationToRank standing in
      relative ← int_op (standing - BaseRep);
      store_state (list_key e) (set_need true (set_Standing relative f));;
      SetVisible_state (list_key e);;
      (if new_rank <=? REP_HOSTILE then SetAtWar_state (list_key e) true else mret tt);;
      (if old_rank <? new_rank then modify (set_increased true) else mret tt);;
      UpdateRankCounters old_rank new_rank;;
      mret true
  end.

(** [GetFactionTeamList] (DBCStores.cpp): the factions of a team in the order
    of the table, NULL if there are none. *)
Definition GetFactionTeamList (team : Z) : option (list Z) :=
  let members := List.filter (fun i => match sFactionStore !! i with
                                       | Some e => negb (fe_team e =? 0) && (fe_team e =? team)
                                       | None => false
                                       end) (seqZ 0 NumRows) in
  match members with [] => None | _ => Some members end.

(** The columns of a spillover template. *)
Definition spill_template (standing : Z) (incremental : bool) (c : Spillover) : RM unit :=
  if sp_faction c =? 0 then mret tt
  else
    rank ← GetRank (sFactionStore !! sp_faction c);
    if rank <=? sp_faction_rank c then
      spilloverRep ← of_option
        (int32_of_float (fmul (float_of_Z standing) (sp_faction_rate c))) UndefinedInt;
      e ← of_option (sFactionStore !! sp_faction c) NullFaction;
      SetOneFactionReputation e spilloverRep incremental;; mret tt
    else mret tt.

(** The affiliated factions; the result is that of the last one changed. *)
Fixpoint spill_team (e : FactionEntry) (spillOverRepOut : spec_float) (incremental : bool)
    (flist : list Z) (result : bool) : RM bool :=
  match flist with
  | [] => mret result
  | id :: flist' =>
      match sFactionStore !! id with
      | None => spill_team e spillOverRepOut incremental flist' result
      | Some calc =>
          rank ← GetRank (Some calc);
          if (id =? fe_ID e) || (spilloverMaxRankIn calc <? rank)
          then spill_team e spillOverRepOut incremental flist' result
          else
            spilloverRep ← of_option
              (int32_of_float (fmul spillOverRepOut (spilloverRateIn calc))) UndefinedInt;
            if negb (spilloverRep =? 0) || negb incremental then
              result ← SetOneFactionReputation calc spilloverRep incremental;
              spill_team e spillOverRepOut incremental flist' result
            else spill_team e spillOverRepOut incremental flist' result
      end
  end.

(** The faction whose team a change of [e] spills to when [e] has no members of
    its own: its parent, or the parent's members. *)
Definition spill_parent (e : FactionEntry) (spillOverRepOut : spec_float) (incremental : bool)
  : RM (option (list Z)) :=
  m ← get;
  match sFactionStore !! fe_team e with
  | None => mret None
  | Some parent =>
      match rm_factions m !! list_key parent with
      | Some f =>
          if has_flag FACTION_FLAG_SPECIAL f then
            rep ← of_option (int32_of_float spillOverRepOut) UndefinedInt;
            SetOneFactionReputation parent rep incremental;; mret None
          else mret (GetFactionTeamList (fe_team e))
      | None => mret (GetFactionTeamList (fe_team e))
      end
  end.

Definition spillover (e : FactionEntry) (standing : Z) (incremental : bool) : RM bool :=
  match GetRepSpilloverTemplate (fe_ID e) with
  | Some columns => forM columns (spill_template standing incremental);; mret false
  | None =>
      let out := float_of_Z standing in
      match GetFactionTeamList (fe_ID e) with
      | Some flist => spill_team e out incremental flist false
      | None =>
          if negb (fe_team e =? 0) && negb (SFeqb (spilloverRateOut e) (S754_zero false)) then
            let out := fmul out (spilloverRateOut e) in
            flist ← spill_parent e out incremental;
            match flist with
            | Some flist => spill_team e out incremental flist false
            | None => mret false
            end
          else mret false
      end
  end.

Definition SetReputation (e : FactionEntry) (standing : Z) (incremental : bool) : RM bool :=
  result ← spillover e standing incremental;
  m ← get;
  match rm_factions m !! list_key e with
  | Some _ =>
      result ← SetOneFactionReputation e standing incremental;
      SendState (list_key e);;
      mret result
  | None => mret result
  end.

(** *** Loading and saving *)

Definition initial_state (e : FactionEntry) : FactionState :=
  mkFactionState (fe_ID e) (list_key e) 0 (u8 (GetDefaultStateFlags e)) true true.

Definition init_faction (i : Z) : RM unit :=
  match sFactionStore !! i with
  | Some e =>
      if 0 <=? reputationListID e then
        let newFaction := initial_state e in
        (if has_flag FACTION_FLAG_VISIBLE newFaction then
           modify (fun m => set_counts (u8 (rm_visibleFactionCount m + 1)) (rm_honoredFactionCount m)
                              (rm_reveredFactionCount m) (rm_exaltedFactionCount m) m)
         else mret tt);;
        UpdateRankCounters REP_HOSTILE (GetBaseRank e);;
        store_state (list_key e) newFaction
      else mret tt
  | None => mret tt
  end.

Definition Initialize : RM unit :=
  modify (fun m => mkReputationMgr ∅ (rm_forcedReactions m) 0 0 0 0 false (rm_sent m));;
  forM (seqZ 1 (NumRows - 1)) init_faction.

(** [&_factions[id]]: a new entry is all zero. *)
Definition faction_or_new (key : Z) : RM unit :=
  m ← get;
  match rm_factions m !! key with
  | Some _ => mret tt
  | None => store_state key (mkFactionState 0 0 0 0 false false)
  end.

(** The flags of a row, subject to the checks of the setters; the marks are
    cleared if the faction is as it was saved. *)
Definition load_flags (e : FactionEntry) (dbFactionFlags : Z) : RM unit :=
  (if negb (Z.land dbFactionFlags FACTION_FLAG_VISIBLE =? 0)
   then SetVisible_state (list_key e) else mret tt);;
  (if negb (Z.land dbFactionFlags FACTION_FLAG_INACTIVE =? 0)
   then SetInactive_state (list_key e) true else mret tt);;
  f ← faction (list_key e);
  (if negb (Z.land dbFactionFlags FACTION_FLAG_AT_WAR =? 0) then SetAtWar_state (list_key e) true
   else if has_flag FACTION_FLAG_VISIBLE f then SetAtWar_state (list_key e) false else mret tt);;
  rank ← GetRank (Some e);
  (if rank <=? REP_HOSTILE then SetAtWar_state (list_key e) true else mret tt);;
  f ← faction (list_key e);
  if fs_Flags f =? dbFactionFlags then store_state (list_key e) (set_need false f) else mret tt.

(** A row of character_reputation: faction, standing, flags. *)
Definition load_standing (row : Z * Z * Z) : RM unit :=
  let '(id, standing, dbFactionFlags) := row in
  match sFactionStore !! id with
  | Some e =>
      if 0 <=? reputationListID e then
        let key := list_key e in
        faction_or_new key;;
        f ← faction key;
        store_state key (set_Standing standing f);;
        let BaseRep := GetBaseReputation e in
        let old_rank := ReputationToRank BaseRep in
        current ← int_op (BaseRep + standing);
        UpdateRankCounters old_rank (ReputationToRank current);;
        load_flags e dbFactionFlags
      else mret tt
  | None => mret tt
  end.

Definition LoadFromDB (rows : list (Z * Z * Z)) : RM unit :=
  Initialize;; forM rows load_standing.
End Player.

(** The statements of [SaveToDB]. *)
Inductive RepStatement :=
| CHAR_DEL_CHAR_REPUTATION_BY_FACTION (faction : Z)
| CHAR_INS_CHAR_REPUTATION_BY_FACTION (faction standing flags : Z).

(** What the two statements do to the player's rows of character_reputation
    (their SQL is in CharacterDatabase.cpp). *)
Definition execute_row (table : list (Z * Z * Z)) (st : RepStatement) : list (Z * Z * Z) :=
  match st with
  | CHAR_DEL_CHAR_REPUTATION_BY_FACTION id => List.filter (fun r => negb (r.1.1 =? id)) table
  | CHAR_INS_CHAR_REPUTATION_BY_FACTION id standing flags => table ++ [(id, standing, flags)]
  end.
Definition execute_rows (table : list (Z * Z * Z)) (sts : list RepStatement) : list (Z * Z * Z) :=
  fold_left execute_row sts table.

Definition save_faction (f : FactionState) : list RepStatement :=
  [CHAR_DEL_CHAR_REPUTATION_BY_FACTION (u16 (fs_ID f));
   CHAR_INS_CHAR_REPUTATION_BY_FACTION (u16 (fs_ID f)) (fs_Standing f) (u16 (fs_Flags f))].

Definition SaveToDB (m : ReputationMgr) : list RepStatement * ReputationMgr :=
  (flat_map (fun kf => if fs_needSave kf.2 then save_faction kf.2 else []) (in_order (rm_factions m)),
   set_factions (fmap (fun f => if fs_needSave f then set_needSave false f else f) (rm_factions m)) m).

Definition SendForceReactions : RM unit :=
  m ← get;
  let l := in_order (rm_forcedReactions m) in
  packet ← build
    (WriteBits (len l) 6;; FlushBits;;
     forM l (fun r => append 4 (u32 r.1);; append 4 (u32 r.2)));
  modify (send (SMSG_SET_FORCED_REACTIONS packet)).

(** [SendInitialReputations]: the flags and standings of the 256 list ids in
    one buffer, a bonus bit for each in another.  [absent a target] is the loop
    [for (; a != target; ++a)]. *)
Abbreviation InitM := (prog (ByteBuffer * ByteBuffer) ByteBufferError).
Definition on_data {A} (p : prog ByteBuffer ByteBufferError A) : InitM A :=
  lift fst (fun b s => (b, s.2)) p.
Definition on_bits {A} (p : prog ByteBuffer ByteBufferError A) : InitM A :=
  lift snd (fun b s => (s.1, b)) p.

Definition initial_entry (flags standing : Z) : InitM unit :=
  on_data (append 1 flags);; on_data (append 4 (u32 standing));; on_bits (WriteBit 0);; mret tt.
Definition absent (a target : Z) : InitM unit :=
  forM (replicate (Z.to_nat (u32 (target - a))) tt) (fun _ => initial_entry 0 0).

Fixpoint initial_loop (a : Z) (l : list (Z * FactionState)) : InitM Z :=
  match l with
  | [] => mret a
  | (key, f) :: l' =>
      absent a key;; initial_entry (fs_Flags f) (fs_Standing f);; initial_loop (u32 (key + 1)) l'
  end.

Definition initial_packet (l : list (Z * FactionState)) : InitM unit :=
  a ← initial_loop 0 l;
  absent a 256;;
  on_bits FlushBits;;
  s ← get;
  on_data (append_buffer s.2).

Definition SendInitialReputations : RM unit :=
  m ← get;
  packet ← (match initial_packet (in_order (rm_factions m)) (ByteBuffer_new, ByteBuffer_new) with
            | (Ok _, (b, _)) => mret (bb_storage b)
            | (Err _, _) => throw PacketError
            end);
  modify (fun m => set_factions (fmap (set_needSend false) (rm_factions m)) m);;
  modify (send (SMSG_INITIALIZE_FACTIONS packet)).

