(* ===== verification/ReputationProofs.v ===== *)
(** * Reputation: correctness

    What a change does to a faction's state, the invariant that ties the
    counters, the bounds and the saved table to the states, the bytes of the
    standing packet, and the round trip through the database. *)

From S2P Require Import Prelude.
From S2P Require Import Floats.
From S2P Require Import ByteBuffer.
From S2P Require Import Reputation.
From stdpp Require Import sorting.
Local Open Scope Z_scope.

(** ** Ranks *)

(** The lowest standing of a rank. *)
Definition rank_floor (rank : Z) : Z :=
  Reputation_Cap + 1 - fold_right Z.add 0 (drop (Z.to_nat rank) PointsInRank).

Lemma ReputationToRank_le limit s : 1 <= limit <= 7 ->
  (limit <=? ReputationToRank s) = (rank_floor limit <=? s).
Proof.
  intros Hl. unfold ReputationToRank.
  assert (limit = 1 \/ limit = 2 \/ limit = 3 \/ limit = 4 \/ limit = 5 \/ limit = 6 \/ limit = 7)
    as H by lia.
  repeat destruct H as [->|H]; subst;
    match goal with |- context [rank_floor ?l] =>
      let v := eval vm_compute in (rank_floor l) in change (rank_floor l) with v end;
    cbn [rank_loop nth PointsInRank]; unfold Reputation_Cap;
    repeat match goal with |- context [if ?b then _ else _] => destruct b eqn:?; bool_lia end;
    (match goal with |- _ = (?v <=? _) => destruct (Z.leb_spec v s) end;
     [apply Z.leb_le|apply Z.leb_gt]; lia).
Qed.

(** ** Running the operations *)

Lemma build_run p bs b : p ByteBuffer_new = (Ok tt, b) -> wrun b bs [] -> forall m, build p m = (Ok bs, m).
Proof. intros E Hw m. unfold build. rewrite E. by rewrite (proj1 (wrun_done b bs Hw)). Qed.

Lemma append_new_run n v : (0 < n)%nat ->
  exists b, append n v ByteBuffer_new = (Ok tt, b) /\ wrun b (le_bytes n v) [].
Proof.
  intros Hn. destruct (append_run ByteBuffer_new [] [] n v Hn wrun_new ltac:(cbn; lia)) as (b & E & H).
  by exists b.
Qed.

(** What the operations that do not count do to the rest of the manager. *)
Definition with_factions (m : ReputationMgr) (F : gmap Z FactionState) (m' : ReputationMgr) : Prop :=
  exists i sent, m' = mkReputationMgr F (rm_forcedReactions m) (rm_visibleFactionCount m)
    (rm_honoredFactionCount m) (rm_reveredFactionCount m) (rm_exaltedFactionCount m) i sent.

(** The flags a faction gets when it is shown. *)
Definition showable (f : FactionState) : bool :=
  negb (has_flag (Z.lor FACTION_FLAG_INVISIBLE_FORCED FACTION_FLAG_HIDDEN) f)
  || has_flag FACTION_FLAG_SPECIAL f.
Definition visible := has_flag FACTION_FLAG_VISIBLE.
Definition shown (f : FactionState) : FactionState :=
  if showable f && negb (visible f)
  then set_need true (set_Flags (Z.lor (fs_Flags f) FACTION_FLAG_VISIBLE) f) else f.

Lemma faction_run key f m : rm_factions m !! key = Some f -> faction key m = (Ok f, m).
Proof. intros H. unfold faction. rewrite (bind_ok get _ m m m eq_refl). by rewrite H. Qed.

Lemma store_state_eq key f m : store_state key f m = (Ok tt, set_factions (<[key := f]> (rm_factions m)) m).
Proof. done. Qed.

Lemma SendVisible_run PlayerLoading f m :
  exists sent, SendVisible PlayerLoading f m =
    (Ok tt, mkReputationMgr (rm_factions m) (rm_forcedReactions m) (rm_visibleFactionCount m)
      (rm_honoredFactionCount m) (rm_reveredFactionCount m) (rm_exaltedFactionCount m)
      (rm_sendFactionIncreased m) sent).
Proof.
  unfold SendVisible. destruct PlayerLoading; [exists (rm_sent m); by destruct m|].
  destruct (append_new_run 4 (u32 (fs_ReputationListID f)) ltac:(lia)) as (b & E & Hw).
  rewrite (bind_ok _ _ m _ m (build_run _ _ b E Hw m)). by eexists.
Qed.

Lemma SetVisible_run PlayerLoading key f m : rm_factions m !! key = Some f ->
  exists sent, SetVisible_state PlayerLoading key m =
    (Ok tt, mkReputationMgr (<[key := shown f]> (rm_factions m)) (rm_forcedReactions m)
      (if showable f && negb (visible f) then u8 (rm_visibleFactionCount m + 1)
       else rm_visibleFactionCount m)
      (rm_honoredFactionCount m) (rm_reveredFactionCount m) (rm_exaltedFactionCount m)
      (rm_sendFactionIncreased m) sent).
Proof.
  intros Hf. unfold SetVisible_state. rewrite (bind_ok _ _ m f m (faction_run key f m Hf)).
  unfold shown, showable, visible.
  destruct (has_flag (Z.lor _ _) f), (has_flag FACTION_FLAG_SPECIAL f),
    (has_flag FACTION_FLAG_VISIBLE f); cbn [andb negb orb];
    try (exists (rm_sent m); rewrite insert_id by done; by destruct m).
  all: rewrite (bind_ok (store_state _ _) _ m tt _ (store_state_eq _ _ m));
    match goal with |- context [(modify ?g ≫= _) ?s] =>
      rewrite (bind_ok (modify g) _ s tt (g s) eq_refl) end;
    match goal with |- context [SendVisible _ ?g ?s] =>
      destruct (SendVisible_run PlayerLoading g s) as (sent & ->) end;
    by exists sent.
Qed.

Definition at_war := has_flag FACTION_FLAG_AT_WAR.
Definition war (on : bool) (f : FactionState) : FactionState :=
  if (on && has_flag FACTION_FLAG_PEACE_FORCED f) || Bool.eqb (at_war f) on then f
  else set_flag FACTION_FLAG_AT_WAR on f.

Lemma SetAtWar_run key on f m : rm_factions m !! key = Some f ->
  SetAtWar_state key on m = (Ok tt, set_factions (<[key := war on f]> (rm_factions m)) m).
Proof.
  intros Hf. unfold SetAtWar_state. rewrite (bind_ok _ _ m f m (faction_run key f m Hf)).
  unfold war, at_war. destruct (on && _); cbn [orb]; [rewrite insert_id by done; by destruct m|].
  destruct (Bool.eqb _ _); [rewrite insert_id by done; by destruct m|]. apply store_state_eq.
Qed.

Definition inactive_able (f : FactionState) : bool :=
  negb (has_flag (Z.lor FACTION_FLAG_INVISIBLE_FORCED FACTION_FLAG_HIDDEN) f) && visible f.
Definition inactivated (on : bool) (f : FactionState) : FactionState :=
  if (on && negb (inactive_able f)) || Bool.eqb (has_flag FACTION_FLAG_INACTIVE f) on then f
  else set_flag FACTION_FLAG_INACTIVE on f.

Lemma SetInactive_run key on f m : rm_factions m !! key = Some f ->
  SetInactive_state key on m = (Ok tt, set_factions (<[key := inactivated on f]> (rm_factions m)) m).
Proof.
  intros Hf. unfold SetInactive_state. rewrite (bind_ok _ _ m f m (faction_run key f m Hf)).
  unfold inactivated, inactive_able, visible.
  replace (negb (negb (has_flag (Z.lor _ _) f) && has_flag FACTION_FLAG_VISIBLE f))
    with (has_flag (Z.lor FACTION_FLAG_INVISIBLE_FORCED FACTION_FLAG_HIDDEN) f
          || negb (has_flag FACTION_FLAG_VISIBLE f))
    by (by destruct (has_flag (Z.lor _ _) f), (has_flag FACTION_FLAG_VISIBLE f)).
  destruct (on && _); cbn [orb]; [rewrite insert_id by done; by destruct m|].
  destruct (Bool.eqb _ _); [rewrite insert_id by done; by destruct m|]. apply store_state_eq.
Qed.

(** *** Flag facts *)


Lemma visible_testbit f : visible f = Z.testbit (fs_Flags f) 0.
Proof. apply (land_pow2_testbit (fs_Flags f) 0). lia. Qed.
Lemma at_war_testbit f : at_war f = Z.testbit (fs_Flags f) 1.
Proof. apply (land_pow2_testbit (fs_Flags f) 1). lia. Qed.

Lemma visible_shown f : visible (shown f) = visible f || showable f.
Proof.
  unfold shown. destruct (showable f), (visible f) eqn:E; cbn [andb negb orb]; try done.
  rewrite visible_testbit. cbn [fs_Flags set_need set_Flags]. rewrite Z.lor_spec. apply orb_true_r.
Qed.

Lemma visible_war on f : visible (war on f) = visible f.
Proof.
  unfold war. destruct (_ || _); [done|]. rewrite !visible_testbit. unfold set_flag.
  cbn [fs_Flags set_need set_Flags]. destruct on; [rewrite Z.lor_spec|rewrite Z.ldiff_spec]; change (Z.testbit FACTION_FLAG_AT_WAR 0) with false;
    [apply orb_false_r|apply andb_true_r].
Qed.

Lemma visible_inactivated on f : visible (inactivated on f) = visible f.
Proof.
  unfold inactivated. destruct (_ || _); [done|]. rewrite !visible_testbit. unfold set_flag.
  cbn [fs_Flags set_need set_Flags]. destruct on; [rewrite Z.lor_spec|rewrite Z.ldiff_spec]; change (Z.testbit FACTION_FLAG_INACTIVE 0) with false;
    [apply orb_false_r|apply andb_true_r].
Qed.

(** ** The saved rows *)

Abbreviation table := (list (Z * Z * Z)).

(** The standing a row gives a faction. *)
Fixpoint row_standing (rows : list (Z * Z * Z)) (i : Z) : option Z :=
  match rows with
  | [] => None
  | (j, standing, _) :: rows' => if i =? j then Some standing else row_standing rows' i
  end.

Lemma row_standing_None rows i : i ∉ rows.*1.*1 -> row_standing rows i = None.
Proof.
  induction rows as [|[[j st] fl] rows IH]; [done|]. cbn. intros [Hne Hn]%not_elem_of_cons.
  rewrite (proj2 (Z.eqb_neq _ _) Hne). by apply IH.
Qed.

Lemma row_standing_Some rows i st fl : NoDup rows.*1.*1 -> (i, st, fl) ∈ rows ->
  row_standing rows i = Some st.
Proof.
  induction rows as [|[[j st'] fl'] rows IH]; [by intros _ ?%elem_of_nil|]. cbn.
  intros [Hn Hnd]%NoDup_cons [[= -> -> ->]|Hin]%elem_of_cons; [by rewrite Z.eqb_refl|].
  destruct (Z.eqb_spec i j) as [->|]; [|by apply IH]. exfalso. apply Hn.
  apply list_elem_of_fmap. exists (j, st). split; [done|]. apply list_elem_of_fmap.
  by exists (j, st, fl).
Qed.

Lemma row_standing_app a b i :
  row_standing (a ++ b) i = match row_standing a i with Some s => Some s | None => row_standing b i end.
Proof. induction a as [|[[j s] fl] a IH]; [done|]. cbn. destruct (i =? j); [done|apply IH]. Qed.

Lemma row_standing_filter T id i :
  row_standing (List.filter (fun r => negb (r.1.1 =? id)) T) i = if i =? id then None else row_standing T i.
Proof.
  induction T as [|[[j s] fl] T IH]; cbn; [by destruct (i =? id)|].
  destruct (Z.eqb_spec j id) as [->|Hj]; cbn; rewrite IH; [by destruct (i =? id)|].
  destruct (Z.eqb_spec i j), (Z.eqb_spec i id); congruence.
Qed.

Lemma save_faction_row T f i : 0 <= fs_ID f < 65536 ->
  row_standing (execute_rows T (save_faction f)) i =
  if i =? fs_ID f then Some (fs_Standing f) else row_standing T i.
Proof.
  intros Hid. cbn. rewrite uint_small by lia. rewrite row_standing_app, row_standing_filter.
  cbn. destruct (i =? fs_ID f); [done|]. by destruct (row_standing T i).
Qed.

Lemma NoDup_filter_ids (T : list (Z * Z * Z)) id : NoDup T.*1.*1 ->
  NoDup (List.filter (fun r => negb (r.1.1 =? id)) T).*1.*1
  /\ forall r, r ∈ List.filter (fun r => negb (r.1.1 =? id)) T -> r ∈ T /\ r.1.1 <> id.
Proof.
  intros Hnd. split.
  - eapply sublist_NoDup; [exact Hnd|]. do 2 apply fmap_sublist.
    clear. induction T as [|r T IH]; cbn; [constructor|]. destruct (negb _); by constructor.
  - intros r Hr. apply list_elem_of_In, filter_In in Hr as [Hr Hne]. split; [by apply list_elem_of_In|].
    apply negb_true_iff, Z.eqb_neq in Hne. done.
Qed.

(** ** The invariant of the counters *)

Lemma u8_add a b : u8 (u8 a + b) = u8 (a + b).
Proof. unfold uint. by rewrite Z.add_mod_idemp_l by lia. Qed.

Lemma u8_add_assoc a b c : u8 (u8 a + b + c) = u8 (a + b + c).
Proof. by rewrite <- !Z.add_assoc, u8_add. Qed.

Lemma rank_step_ok limit old_rank new_rank n :
  (let c := if limit <=? old_rank then u8 (u8 n - 1) else u8 n in
   if limit <=? new_rank then u8 (c + 1) else c) =
  u8 (n - Z.b2z (limit <=? old_rank) + Z.b2z (limit <=? new_rank)).
Proof.
  cbv zeta. destruct (limit <=? old_rank), (limit <=? new_rank); cbn [Z.b2z].
  - rewrite <- Z.add_opp_r, u8_add, <- Z.add_assoc, u8_add. f_equal. lia.
  - rewrite <- Z.add_opp_r, u8_add. f_equal. lia.
  - rewrite u8_add. f_equal. lia.
  - f_equal. lia.
Qed.

Section Invariant.
Context (sFactionStore : gmap Z FactionEntry) (NumRows : Z) (raceMask classMask : Z).

Abbreviation base := (GetBaseReputation raceMask classMask).

(** What the faction table guarantees: an entry is found at its id, no two
    factions share a list id, and the base reputations are reputations. *)
Record factions_ok : Prop := {
  so_id i e : sFactionStore !! i = Some e -> fe_ID e = i /\ 1 <= i < NumRows;
  so_list i e : sFactionStore !! i = Some e -> - 2 ^ 31 <= reputationListID e < 2 ^ 31;
  so_inj i e j e' : sFactionStore !! i = Some e -> sFactionStore !! j = Some e' ->
    0 <= reputationListID e -> reputationListID e = reputationListID e' -> i = j;
  so_base i e : sFactionStore !! i = Some e -> Reputation_Bottom <= base e <= Reputation_Cap
}.

(** The reputation a faction state stands for. *)
Definition total (f : FactionState) : Z :=
  match sFactionStore !! fs_ID f with Some e => base e | None => 0 end + fs_Standing f.
Definition rank_from (limit : Z) (f : FactionState) : bool := limit <=? ReputationToRank (total f).

(** The invariant, for the saved rows [T] and the faction ids [D] that have been
    set up: a state with nothing to save has its standing in [T]. *)
Record mgr_ok (T : table) (D : list Z) (m : ReputationMgr) : Prop := {
  mo_state key f : rm_factions m !! key = Some f -> exists e, sFactionStore !! fs_ID f = Some e
    /\ 0 <= reputationListID e /\ list_key e = key /\ fs_ReputationListID f = key;
  mo_range key f : rm_factions m !! key = Some f -> Reputation_Bottom <= total f <= Reputation_Cap;
  mo_present i e : i ∈ D -> sFactionStore !! i = Some e -> 0 <= reputationListID e ->
    is_Some (rm_factions m !! list_key e);
  mo_saved key f : rm_factions m !! key = Some f -> fs_needSave f = false ->
    row_standing T (fs_ID f) = Some (fs_Standing f);
  mo_visible : rm_visibleFactionCount m = u8 (count visible (rm_factions m));
  mo_honored : rm_honoredFactionCount m = u8 (count (rank_from REP_HONORED) (rm_factions m));
  mo_revered : rm_reveredFactionCount m = u8 (count (rank_from REP_REVERED) (rm_factions m));
  mo_exalted : rm_exaltedFactionCount m = u8 (count (rank_from REP_EXALTED) (rm_factions m))
}.

#[local] Arguments mo_state {T D} m _.
#[local] Arguments mo_range {T D} m _.
#[local] Arguments mo_present {T D} m _.
#[local] Arguments mo_saved {T D} m _.
#[local] Arguments mo_visible {T D} m _.
#[local] Arguments mo_honored {T D} m _.
#[local] Arguments mo_revered {T D} m _.
#[local] Arguments mo_exalted {T D} m _.

Lemma list_key_pos i e : factions_ok -> sFactionStore !! i = Some e ->
  0 <= reputationListID e -> list_key e = reputationListID e.
Proof. intros Hs He H0. pose proof (so_list Hs i e He). apply uint_small. lia. Qed.

(** The saved rows and the ids set up stay fixed, except when loading and
    saving. *)
Section Kept.
Context {T : table} {D : list Z}.
Abbreviation ok := (mgr_ok T D).

(** The state a faction table entry finds is its own. *)
Lemma entry_state m i e f : factions_ok -> ok m -> sFactionStore !! i = Some e ->
  rm_factions m !! list_key e = Some f ->
  0 <= reputationListID e /\ fs_ID f = i /\ total f = base e + fs_Standing f.
Proof.
  intros Hs Hm He Hf. destruct (mo_state m Hm _ f Hf) as (e' & He' & H0 & Hk & _).
  pose proof (so_list Hs _ e He). rewrite (list_key_pos _ _ Hs He' H0) in Hk.
  assert (0 <= reputationListID e) as H0'.
  { destruct (decide (0 <= reputationListID e)); [done|]. exfalso.
    pose proof (so_list Hs _ e' He'). unfold list_key, uint in Hk.
    rewrite <- (Z.mod_add _ 1), Z.mod_small in Hk by lia. lia. }
  rewrite (list_key_pos _ _ Hs He H0') in Hk.
  assert (fs_ID f = i) as Hi by (by eapply (so_inj Hs)).
  split_and!; [done|done|]. unfold total. by rewrite Hi, He.
Qed.

Lemma mgr_ok_replace m key f g v h r e i sent : ok m -> rm_factions m !! key = Some f ->
  fs_ID g = fs_ID f -> fs_ReputationListID g = fs_ReputationListID f ->
  Reputation_Bottom <= total g <= Reputation_Cap ->
  (fs_needSave g = false -> row_standing T (fs_ID g) = Some (fs_Standing g)) ->
  v = u8 (count visible (rm_factions m) - Z.b2z (visible f) + Z.b2z (visible g)) ->
  h = u8 (count (rank_from REP_HONORED) (rm_factions m)
          - Z.b2z (rank_from REP_HONORED f) + Z.b2z (rank_from REP_HONORED g)) ->
  r = u8 (count (rank_from REP_REVERED) (rm_factions m)
          - Z.b2z (rank_from REP_REVERED f) + Z.b2z (rank_from REP_REVERED g)) ->
  e = u8 (count (rank_from REP_EXALTED) (rm_factions m)
          - Z.b2z (rank_from REP_EXALTED f) + Z.b2z (rank_from REP_EXALTED g)) ->
  ok (mkReputationMgr (<[key := g]> (rm_factions m)) (rm_forcedReactions m) v h r e i sent).
Proof.
  intros Hm Hf Hid Hl Hr Hsv -> -> -> ->. split; cbn; rewrite ?(count_replace _ _ _ f) by done; try done.
  - intros k g' Hg. destruct (decide (k = key)) as [->|Hk].
    + rewrite lookup_insert_eq in Hg. injection Hg as <-. rewrite Hid, Hl. by apply (mo_state m Hm).
    + rewrite lookup_insert_ne in Hg by done. by apply (mo_state m Hm).
  - intros k g' Hg. destruct (decide (k = key)) as [->|Hk].
    + rewrite lookup_insert_eq in Hg. by injection Hg as <-.
    + rewrite lookup_insert_ne in Hg by done. by apply (mo_range m Hm k).
  - intros i' e' Hi He H0. destruct (decide (list_key e' = key)) as [->|Hk].
    + by rewrite lookup_insert_eq.
    + rewrite lookup_insert_ne by done. by eapply (mo_present m Hm).
  - intros k g' Hg. destruct (decide (k = key)) as [->|Hk].
    + rewrite lookup_insert_eq in Hg. by injection Hg as <-.
    + rewrite lookup_insert_ne in Hg by done. by apply (mo_saved m Hm k).
Qed.

(** A change that keeps the standing, and does not mark the state as saved. *)
Definition same_standing (g f : FactionState) : Prop :=
  fs_ID g = fs_ID f /\ fs_ReputationListID g = fs_ReputationListID f /\ fs_Standing g = fs_Standing f
  /\ (fs_needSave g = false -> fs_needSave f = false).

Lemma mgr_ok_flags m key f g v i sent : ok m -> rm_factions m !! key = Some f ->
  same_standing g f ->
  v = u8 (rm_visibleFactionCount m - Z.b2z (visible f) + Z.b2z (visible g)) ->
  ok (mkReputationMgr (<[key := g]> (rm_factions m)) (rm_forcedReactions m) v
    (rm_honoredFactionCount m) (rm_reveredFactionCount m) (rm_exaltedFactionCount m) i sent).
Proof.
  intros Hm Hf (Hid & Hl & Hst & Hsv) Hv.
  assert (total g = total f) as Ht by (unfold total; by rewrite Hid, Hst).
  assert (forall limit, rank_from limit g = rank_from limit f) as Hrk
    by (intros limit; unfold rank_from; by rewrite Ht).
  apply (mgr_ok_replace m key f); try done; rewrite ?Ht, ?Hrk.
  - by apply (mo_range m Hm key).
  - rewrite Hid, Hst. intros H. by apply (mo_saved m Hm key); [|apply Hsv].
  - rewrite Hv, (mo_visible m Hm). unfold uint.
    rewrite <- !Z.add_opp_r, <- !Z.add_assoc. by rewrite Z.add_mod_idemp_l by lia.
  - rewrite (mo_honored m Hm). f_equal. lia.
  - rewrite (mo_revered m Hm). f_equal. lia.
  - rewrite (mo_exalted m Hm). f_equal. lia.
Qed.

(** *** The functional behaviour of a change *)

Definition int32_ok (v : Z) : bool := (- 2 ^ 31 <=? v) && (v <? 2 ^ 31).
Definition checked (v : Z) : option Z := if int32_ok v then Some v else None.

(** The standing asked for, before it is clamped: [None] where the arithmetic of
    the code is undefined. *)
Definition wanted (RATE_REPUTATION_GAIN : spec_float) (current standing : Z) (incremental : bool)
  : option Z :=
  if incremental then
    gained ← int32_of_floor
      (fadd (fmul (float_of_Z standing) RATE_REPUTATION_GAIN) (S754_finite false 1 (-1)));
    checked (gained + current)
  else Some standing.

(** The state of a faction after a change to [relative], of rank [rank]. *)
Definition updated (f : FactionState) (relative rank : Z) : FactionState :=
  let g := shown (set_need true (set_Standing relative f)) in
  if rank <=? REP_HOSTILE then war true g else g.

Lemma clamp_range v : Reputation_Bottom <= clamp v <= Reputation_Cap.
Proof.
  unfold clamp, Reputation_Bottom, Reputation_Cap.
  destruct (Z.ltb_spec 42999 v); [lia|]. destruct (Z.ltb_spec v (-42000)); lia.
Qed.

Lemma int_op_ok v m : - 2 ^ 31 <= v < 2 ^ 31 -> int_op v m = (Ok v, m).
Proof.
  intros Hv. unfold int_op. by rewrite (proj2 (Z.leb_le _ _)), (proj2 (Z.ltb_lt _ _)) by lia.
Qed.

Lemma int_op_checked v m : int_op v m =
  match checked v with Some w => (Ok w, m) | None => (Err UndefinedInt, m) end.
Proof. unfold int_op, checked, int32_ok. by destruct (_ && _). Qed.

Lemma new_standing_run RATE f B standing incremental m :
  - 2 ^ 31 <= fs_Standing f + B < 2 ^ 31 ->
  new_standing RATE f B standing incremental m =
    match wanted RATE (fs_Standing f + B) standing incremental with
    | Some w => (Ok w, m)
    | None => (Err UndefinedInt, m)
    end.
Proof.
  intros Hr. unfold new_standing, wanted. destruct incremental; [|done]. unfold gain.
  destruct (int32_of_floor _) as [g|]; cbn [of_option mbind option_bind]; [|done].
  rewrite (bind_ok (mret g) _ m g m eq_refl), (bind_ok _ _ m _ m (int_op_ok _ m Hr)).
  apply int_op_checked.
Qed.

Lemma same_refl f : same_standing f f.
Proof. done. Qed.
Lemma same_shown f : same_standing (shown f) f.
Proof. unfold shown. by destruct (_ && _). Qed.
Lemma same_war on f : same_standing (war on f) f.
Proof. unfold war. by destruct (_ || _). Qed.
Lemma same_inactivated on f : same_standing (inactivated on f) f.
Proof. unfold inactivated. by destruct (_ || _). Qed.
Hint Resolve same_refl same_shown same_war same_inactivated : core.

Lemma fields_updated f relative rank : fs_ID (updated f relative rank) = fs_ID f
  /\ fs_ReputationListID (updated f relative rank) = fs_ReputationListID f
  /\ fs_Standing (updated f relative rank) = relative
  /\ fs_needSave (updated f relative rank) = true
  /\ visible (updated f relative rank) = visible f || showable f.
Proof.
  unfold updated. set (g := set_need true _).
  destruct (same_shown g) as (H1 & H2 & H3 & Ha), (same_war true (shown g)) as (H4 & H5 & H6 & Hb).
  pose proof (visible_shown g) as H7. pose proof (visible_war true (shown g)) as H8.
  change (fs_ID g) with (fs_ID f) in H1. change (fs_ReputationListID g) with (fs_ReputationListID f) in H2.
  change (fs_Standing g) with relative in H3. change (visible g || showable g) with (visible f || showable f) in H7.
  assert (fs_needSave (shown g) = true) as H9 by (destruct (fs_needSave (shown g)); [done|by discriminate Ha]).
  destruct (rank <=? REP_HOSTILE); split_and!; try congruence.
  by destruct (fs_needSave (war true (shown g))); [|rewrite Hb in H9 by done].
Qed.

Definition rank_step (limit old_rank new_rank c : Z) : Z :=
  let c := if limit <=? old_rank then u8 (c - 1) else c in
  if limit <=? new_rank then u8 (c + 1) else c.

(** The counters and flags around a change. *)
Definition after_change (m : ReputationMgr) (key : Z) (f : FactionState) (B w : Z) (i : bool)
    (sent : list RepPacket) : ReputationMgr :=
  let old_rank := ReputationToRank (fs_Standing f + B) in
  let new_rank := ReputationToRank w in
  mkReputationMgr (<[key := updated f (w - B) new_rank]> (rm_factions m)) (rm_forcedReactions m)
    (if showable f && negb (visible f) then u8 (rm_visibleFactionCount m + 1)
     else rm_visibleFactionCount m)
    (rank_step REP_HONORED old_rank new_rank (rm_honoredFactionCount m))
    (rank_step REP_REVERED old_rank new_rank (rm_reveredFactionCount m))
    (rank_step REP_EXALTED old_rank new_rank (rm_exaltedFactionCount m)) i sent.

Lemma SetOne_run RATE PlayerLoading e f standing incremental m :
  rm_factions m !! list_key e = Some f ->
  - 2 ^ 30 <= base e < 2 ^ 30 -> - 2 ^ 31 <= fs_Standing f + base e < 2 ^ 31 ->
  match wanted RATE (fs_Standing f + base e) standing incremental with
  | None => SetOneFactionReputation RATE raceMask classMask PlayerLoading e standing incremental m
            = (Err UndefinedInt, m)
  | Some w => exists sent,
      SetOneFactionReputation RATE raceMask classMask PlayerLoading e standing incremental m =
      (Ok true, after_change m (list_key e) f (base e) (clamp w)
         (if ReputationToRank (fs_Standing f + base e) <? ReputationToRank (clamp w) then true
          else rm_sendFactionIncreased m) sent)
  end.
Proof.
  intros Hf Hb Hr. unfold SetOneFactionReputation. rewrite (bind_ok get _ m m m eq_refl), Hf.
  pose proof (new_standing_run RATE f (base e) standing incremental m Hr) as Hn.
  destruct (wanted _ _ _ _) as [w|]; [|by apply bind_err].
  rewrite (bind_ok _ _ m w m Hn). pose proof (clamp_range w) as Hw.
  unfold Reputation_Bottom, Reputation_Cap in Hw.
  rewrite (bind_ok _ _ m _ m (int_op_ok _ m Hr)).
  rewrite (bind_ok _ _ m (clamp w - base e) m (int_op_ok (clamp w - base e) m ltac:(lia))).
  rewrite (bind_ok (store_state _ _) _ m tt _ (store_state_eq _ _ m)).
  match goal with |- context [(SetVisible_state _ _ ≫= _) ?s] =>
    destruct (SetVisible_run PlayerLoading (list_key e) (set_need true (set_Standing (clamp w - base e) f)) s)
      as (sent & Ev); [cbn; apply lookup_insert_eq|]; rewrite (bind_ok _ _ s tt _ Ev) end.
  cbn [rm_factions set_factions]. rewrite insert_insert_eq.
  exists sent. unfold after_change, updated. set (g := shown _).
  match goal with |- (_ ≫= _) ?s = _ =>
    assert ((if ReputationToRank (clamp w) <=? REP_HOSTILE then SetAtWar_state (list_key e) true
             else mret tt) s =
      (Ok tt, set_factions (<[list_key e := if ReputationToRank (clamp w) <=? REP_HOSTILE
                                            then war true g else g]> (rm_factions m)) s)) as Ew end.
  { destruct (_ <=? REP_HOSTILE); [|done].
    rewrite (SetAtWar_run _ true g) by (cbn; apply lookup_insert_eq). cbn [rm_factions].
    by rewrite insert_insert_eq. }
  rewrite (bind_ok _ _ _ tt _ Ew). by destruct (_ <? _).
Qed.

(** *** What keeps the invariant *)

Abbreviation keeps := (@Prelude.keeps ReputationMgr RepError _ ok).

Lemma keeps_of_option {A} (o : option A) e : keeps (of_option o e).
Proof. destruct o; [apply keeps_ret|apply keeps_throw]. Qed.
Lemma keeps_bind_some {A B} (o : option A) e (k : A -> RM B) :
  (forall a, o = Some a -> keeps (k a)) -> keeps (of_option o e ≫= k).
Proof.
  intros Hk. destruct o as [a|]; cbn [of_option].
  - intros m b m' Hm. rewrite (bind_ok (mret a) _ m a m eq_refl). by apply Hk.
  - intros m b m' Hm. by rewrite (bind_err (throw e) _ m e m eq_refl).
Qed.
Lemma keeps_int_op v : keeps (int_op v).
Proof. unfold int_op. destruct (_ && _); [apply keeps_ret|apply keeps_throw]. Qed.
Lemma keeps_build p : keeps (build p).
Proof. unfold build. destruct (p _) as [[]]; [apply keeps_ret|apply keeps_throw]. Qed.
Hint Resolve keeps_of_option keeps_int_op keeps_build : keeps.

Lemma keeps_GetRank e : keeps (GetRank raceMask classMask e).
Proof.
  apply keeps_bind; [|intros; apply keeps_ret]. apply keeps_bind; [apply keeps_get|]. intros m.
  destruct e as [e|]; [|apply keeps_ret]. destruct (GetState m e); [apply keeps_int_op|apply keeps_ret].
Qed.

(** Steps that only touch the marks and the packets. *)
Definition same_but_marks (h : FactionState -> FactionState) : Prop := forall f,
  fs_ID (h f) = fs_ID f /\ fs_ReputationListID (h f) = fs_ReputationListID f
  /\ fs_Standing (h f) = fs_Standing f /\ fs_Flags (h f) = fs_Flags f.

Lemma mgr_ok_marks T' m (h : FactionState -> FactionState) i sent : same_but_marks h ->
  (forall key f, rm_factions m !! key = Some f -> fs_needSave (h f) = false ->
     row_standing T' (fs_ID f) = Some (fs_Standing f)) -> ok m ->
  mgr_ok T' D (mkReputationMgr (h <$> rm_factions m) (rm_forcedReactions m) (rm_visibleFactionCount m)
    (rm_honoredFactionCount m) (rm_reveredFactionCount m) (rm_exaltedFactionCount m) i sent).
Proof.
  intros Hh HT Hm. assert (forall f, total (h f) = total f) as Ht
    by (intros f; destruct (Hh f) as (H1 & _ & H3 & _); unfold total; by rewrite H1, H3).
  assert (forall f, visible (h f) = visible f) as Hv
    by (intros f; destruct (Hh f) as (_ & _ & _ & H4); unfold visible, has_flag; by rewrite H4).
  split; cbn; rewrite ?count_fmap by (intros; unfold rank_from; by rewrite ?Ht, ?Hv); try by destruct Hm.
  - intros key f Hf. rewrite lookup_fmap in Hf. apply fmap_Some in Hf as (g & Hg & ->).
    destruct (Hh g) as (-> & -> & _). by apply (mo_state m Hm).
  - intros key f Hf. rewrite lookup_fmap in Hf. apply fmap_Some in Hf as (g & Hg & ->).
    rewrite Ht. by apply (mo_range m Hm key).
  - intros j e Hj He H0. rewrite lookup_fmap. apply fmap_is_Some. by eapply (mo_present m Hm).
  - intros key f Hf Hsv. rewrite lookup_fmap in Hf. apply fmap_Some in Hf as (g & Hg & ->).
    destruct (Hh g) as (-> & _ & -> & _). by apply (HT key).
Qed.

Lemma mgr_ok_same m forced i sent : ok m ->
  ok (mkReputationMgr (rm_factions m) forced (rm_visibleFactionCount m)
    (rm_honoredFactionCount m) (rm_reveredFactionCount m) (rm_exaltedFactionCount m) i sent).
Proof. by intros []. Qed.

Lemma keeps_sent : keeps (modify (fun m => set_factions (set_needSend false <$> rm_factions m) m)).
Proof.
  apply keeps_modify. intros m Hm. apply mgr_ok_marks; [by intros []| |done].
  intros key f Hf Hsv. by apply (mo_saved m Hm key).
Qed.

Lemma keeps_SendState key : keeps (SendState key).
Proof.
  apply keeps_bind; [apply keeps_bind; [apply keeps_get|intros; apply keeps_of_option]|]. intros f.
  apply keeps_bind; [apply keeps_get|]. intros m0.
  apply keeps_bind; [apply keeps_modify; intros m; apply mgr_ok_same|]. intros _.
  apply keeps_bind; [apply keeps_build|]. intros packet.
  apply keeps_bind; [apply keeps_sent|]. intros _.
  apply keeps_modify. intros m. apply mgr_ok_same.
Qed.

Lemma keeps_SendStates : keeps SendStates.
Proof. apply keeps_bind; [apply keeps_get|]. intros m. apply keeps_forM, keeps_SendState. Qed.

Lemma keeps_SendInitialReputations : keeps SendInitialReputations.
Proof.
  repeat (apply keeps_bind; [|intros]); try apply keeps_get.
  - destruct (initial_packet _ _) as [[]  []]; [apply keeps_ret|apply keeps_throw].
  - apply keeps_sent.
  - apply keeps_modify. intros m. apply mgr_ok_same.
Qed.

Lemma keeps_SendForceReactions : keeps SendForceReactions.
Proof.
  repeat (apply keeps_bind; [|intros]); try first [apply keeps_get|apply keeps_build].
  apply keeps_modify. intros m. apply mgr_ok_same.
Qed.

Lemma keeps_ApplyForceReaction id rank apply : keeps (ApplyForceReaction id rank apply).
Proof. apply keeps_modify. intros m. apply mgr_ok_same. Qed.

(** The flag changes. *)
Lemma keeps_flags key (p : RM unit) :
  (forall m, rm_factions m !! key = None -> exists e, p m = (Err e, m)) ->
  (forall m f, ok m -> rm_factions m !! key = Some f -> exists m', p m = (Ok tt, m') /\ ok m') ->
  keeps p.
Proof.
  intros HN HS m a m' Hm E. destruct (rm_factions m !! key) as [f|] eqn:Hf.
  - destruct (HS m f Hm Hf) as (m1 & E1 & Hm1). congruence.
  - destruct (HN m Hf) as (e & E1). congruence.
Qed.

Lemma faction_none key m : rm_factions m !! key = None -> faction key m = (Err NullFaction, m).
Proof. intros H. unfold faction. rewrite (bind_ok get _ m m m eq_refl). by rewrite H. Qed.

Lemma keeps_SetVisible_state PlayerLoading key : keeps (SetVisible_state PlayerLoading key).
Proof.
  apply (keeps_flags key).
  { intros m Hn. exists NullFaction. apply bind_err, faction_none, Hn. }
  intros m f Hm Hf. destruct (SetVisible_run PlayerLoading key f m Hf) as (sent & E).
  eexists. split; [exact E|].
  apply (mgr_ok_flags m key f (shown f)); try done. rewrite visible_shown.
  rewrite (mo_visible m Hm). destruct (showable f), (visible f); cbn [andb orb negb Z.b2z];
    rewrite <- ?Z.add_opp_r, ?u8_add, <- ?Z.add_assoc, ?u8_add; f_equal; lia.
Qed.

Lemma keeps_SetAtWar_state key on : keeps (SetAtWar_state key on).
Proof.
  apply (keeps_flags key).
  { intros m Hn. exists NullFaction. apply bind_err, faction_none, Hn. }
  intros m f Hm Hf. eexists. split; [apply (SetAtWar_run key on f m Hf)|].
  apply (mgr_ok_flags m key f (war on f)); try done. rewrite visible_war, (mo_visible m Hm).
  rewrite <- Z.add_opp_r, u8_add_assoc. f_equal. lia.
Qed.

Lemma keeps_SetInactive_state key on : keeps (SetInactive_state key on).
Proof.
  apply (keeps_flags key).
  { intros m Hn. exists NullFaction. apply bind_err, faction_none, Hn. }
  intros m f Hm Hf. eexists. split; [apply (SetInactive_run key on f m Hf)|].
  apply (mgr_ok_flags m key f (inactivated on f)); try done. rewrite visible_inactivated, (mo_visible m Hm).
  rewrite <- Z.add_opp_r, u8_add_assoc. f_equal. lia.
Qed.

Lemma keeps_SetVisible PlayerLoading e : keeps (SetVisible PlayerLoading e).
Proof.
  apply keeps_bind; [apply keeps_get|]. intros m. apply keeps_if; [apply keeps_ret|].
  destruct (_ !! _); [apply keeps_SetVisible_state|apply keeps_ret].
Qed.
Lemma keeps_SetVisible_template PlayerLoading id :
  keeps (SetVisible_template sFactionStore raceMask PlayerLoading id).
Proof.
  apply keeps_if; [apply keeps_ret|]. destruct (_ !! _); [|apply keeps_ret].
  apply keeps_if; [apply keeps_SetVisible|apply keeps_ret].
Qed.
Lemma keeps_SetAtWar id on : keeps (SetAtWar id on).
Proof.
  apply keeps_bind; [apply keeps_get|]. intros m. destruct (_ !! _); [|apply keeps_ret].
  apply keeps_if; [apply keeps_ret|apply keeps_SetAtWar_state].
Qed.
Lemma keeps_SetInactive id on : keeps (SetInactive id on).
Proof.
  apply keeps_bind; [apply keeps_get|]. intros m.
  destruct (_ !! _); [apply keeps_SetInactive_state|apply keeps_ret].
Qed.

Lemma mgr_ok_after_change m i e f w inc sent : factions_ok -> ok m -> sFactionStore !! i = Some e ->
  rm_factions m !! list_key e = Some f -> Reputation_Bottom <= w <= Reputation_Cap ->
  ok (after_change m (list_key e) f (base e) w inc sent).
Proof.
  intros Hs Hm He Hf Hw. destruct (entry_state m i e f Hs Hm He Hf) as (H0 & Hid & Ht).
  destruct (fields_updated f (w - base e) (ReputationToRank w)) as (H1 & H2 & H3 & Hsv & H4).
  assert (total (updated f (w - base e) (ReputationToRank w)) = w) as Htw.
  { unfold total. rewrite H1, Hid, He, H3. lia. }
  unfold after_change. apply (mgr_ok_replace m _ f); try done; rewrite ?Htw; try done.
  - by rewrite Hsv.
  - rewrite H4, (mo_visible m Hm). destruct (showable f), (visible f); cbn [andb orb negb Z.b2z];
      rewrite ?u8_add; f_equal; lia.
  - unfold rank_from. rewrite (mo_honored m Hm), Htw, Ht, Z.add_comm. apply rank_step_ok.
  - unfold rank_from. rewrite (mo_revered m Hm), Htw, Ht, Z.add_comm. apply rank_step_ok.
  - unfold rank_from. rewrite (mo_exalted m Hm), Htw, Ht, Z.add_comm. apply rank_step_ok.
Qed.

Lemma keeps_SetOne RATE PlayerLoading i e standing incremental : factions_ok -> sFactionStore !! i = Some e ->
  keeps (SetOneFactionReputation RATE raceMask classMask PlayerLoading e standing incremental).
Proof.
  intros Hs He m a m' Hm E. destruct (rm_factions m !! list_key e) as [f|] eqn:Hf.
  2:{ unfold SetOneFactionReputation in E. rewrite (bind_ok get _ m m m eq_refl), Hf in E.
      by injection E as _ <-. }
  destruct (entry_state m i e f Hs Hm He Hf) as (_ & _ & Ht).
  pose proof (so_base Hs i e He) as Hb. pose proof (mo_range m Hm _ f Hf) as Hr.
  unfold Reputation_Bottom, Reputation_Cap in Hb, Hr.
  pose proof (SetOne_run RATE PlayerLoading e f standing incremental m Hf ltac:(lia) ltac:(lia)) as Hrun.
  destruct (wanted _ _ _ _) as [w|]; [|congruence]. destruct Hrun as (sent & Hrun).
  rewrite Hrun in E. injection E as _ <-. eapply mgr_ok_after_change; [done..|apply clamp_range].
Qed.

Section Spillover.
Context (Hs : factions_ok) (GetRepSpilloverTemplate : Z -> option (list Spillover)).
Context (RATE_REPUTATION_GAIN : spec_float) (PlayerLoading : bool).

Abbreviation SetOne := (SetOneFactionReputation RATE_REPUTATION_GAIN raceMask classMask PlayerLoading).

Lemma keeps_spill_template standing incremental c :
  keeps (spill_template sFactionStore RATE_REPUTATION_GAIN raceMask classMask PlayerLoading
           standing incremental c).
Proof.
  apply keeps_if; [apply keeps_ret|]. apply keeps_bind; [apply keeps_GetRank|]. intros rank.
  apply keeps_if; [|apply keeps_ret]. apply keeps_bind; [apply keeps_of_option|]. intros rep.
  apply keeps_bind_some. intros e He. apply keeps_bind; [by eapply keeps_SetOne|]. intros. apply keeps_ret.
Qed.

Lemma keeps_spill_team e out incremental flist result :
  keeps (spill_team sFactionStore RATE_REPUTATION_GAIN raceMask classMask PlayerLoading
           e out incremental flist result).
Proof.
  revert result. induction flist as [|id flist IH]; intros result; cbn [spill_team]; [apply keeps_ret|].
  destruct (sFactionStore !! id) as [calc|] eqn:He; [|apply IH].
  apply keeps_bind; [apply keeps_GetRank|]. intros rank. apply keeps_if; [apply IH|].
  apply keeps_bind; [apply keeps_of_option|]. intros rep. apply keeps_if; [|apply IH].
  apply keeps_bind; [by eapply keeps_SetOne|]. intros. apply IH.
Qed.

Lemma keeps_spill_parent e out incremental :
  keeps (spill_parent sFactionStore NumRows RATE_REPUTATION_GAIN raceMask classMask PlayerLoading
           e out incremental).
Proof.
  apply keeps_bind; [apply keeps_get|]. intros m.
  destruct (sFactionStore !! fe_team e) as [parent|] eqn:He; [|apply keeps_ret].
  destruct (_ !! list_key parent); [|apply keeps_ret]. apply keeps_if; [|apply keeps_ret].
  apply keeps_bind; [apply keeps_of_option|]. intros rep.
  apply keeps_bind; [by eapply keeps_SetOne|]. intros. apply keeps_ret.
Qed.

Lemma keeps_spillover e standing incremental :
  keeps (spillover sFactionStore NumRows GetRepSpilloverTemplate RATE_REPUTATION_GAIN raceMask classMask
           PlayerLoading e standing incremental).
Proof.
  unfold spillover. destruct (GetRepSpilloverTemplate _).
  { apply keeps_bind; [|intros; apply keeps_ret]. apply keeps_forM. intros. apply keeps_spill_template. }
  destruct (GetFactionTeamList _ _ _); [apply keeps_spill_team|].
  apply keeps_if; [|apply keeps_ret]. apply keeps_bind; [apply keeps_spill_parent|].
  intros [flist|]; [apply keeps_spill_team|apply keeps_ret].
Qed.

Lemma keeps_SetReputation i e standing incremental : sFactionStore !! i = Some e ->
  keeps (SetReputation sFactionStore NumRows GetRepSpilloverTemplate RATE_REPUTATION_GAIN raceMask classMask
           PlayerLoading e standing incremental).
Proof.
  intros He. apply keeps_bind; [apply keeps_spillover|]. intros result.
  apply keeps_bind; [apply keeps_get|]. intros m. destruct (_ !! list_key e); [|apply keeps_ret].
  apply keeps_bind; [by eapply keeps_SetOne|]. intros result'.
  apply keeps_bind; [apply keeps_SendState|]. intros. apply keeps_ret.
Qed.
End Spillover.

End Kept.

(** *** Loading *)

Abbreviation init := (init_faction sFactionStore raceMask classMask).

(** After the factions [done] have been set up. *)
Record initial (T : table) (D : list Z) (m : ReputationMgr) : Prop := {
  in_ok : mgr_ok T D m;
  in_fresh key f : rm_factions m !! key = Some f ->
    fs_Standing f = 0 /\ fs_ID f ∈ D /\ fs_needSave f = true
}.

Lemma mgr_ok_ids T D D' m : mgr_ok T D m ->
  (forall i e, i ∈ D' -> sFactionStore !! i = Some e -> 0 <= reputationListID e ->
     is_Some (rm_factions m !! list_key e)) -> mgr_ok T D' m.
Proof. by intros [] H. Qed.

Lemma initial_skip T D i m : initial T D m ->
  (forall e, sFactionStore !! i = Some e -> ~ 0 <= reputationListID e) -> initial T (i :: D) m.
Proof.
  intros [H1 H2] Hn. split.
  - apply (mgr_ok_ids T D); [done|]. intros j e [->|Hj]%elem_of_cons He H0; [by destruct (Hn e He)|].
    by eapply (mo_present m H1).
  - intros key f Hf. destruct (H2 key f Hf) as (? & ? & ?). split_and!; [done|by right|done].
Qed.

(** [UpdateRankCounters] from REP_HOSTILE only counts up. *)
Lemma first_rank limit B n g : REP_HOSTILE < limit -> ReputationToRank (total g) = GetBaseRank raceMask classMask B ->
  (let c := if limit <=? REP_HOSTILE then u8 (u8 n - 1) else u8 n in
   if limit <=? GetBaseRank raceMask classMask B then u8 (c + 1) else c)
  = u8 (n + Z.b2z (rank_from limit g)).
Proof.
  intros Hl Hg. rewrite rank_step_ok. unfold rank_from. rewrite Hg, (proj2 (Z.leb_gt _ _) Hl).
  f_equal. cbn [Z.b2z]. lia.
Qed.

Lemma init_faction_ok T D i m : factions_ok -> initial T D m -> i ∉ D ->
  exists m', init i m = (Ok tt, m') /\ initial T (i :: D) m'.
Proof.
  intros Hs Hin Hi. unfold init_faction. destruct (sFactionStore !! i) as [e|] eqn:He.
  2:{ exists m. split; [done|]. apply initial_skip; [done|]. intros e' He'. congruence. }
  destruct (Z.leb_spec 0 (reputationListID e)) as [H0|H0].
  2:{ exists m. split; [done|]. apply initial_skip; [done|]. intros e' He'. simplify_eq. lia. }
  destruct (Hin) as [Hm Hfr]. destruct (so_id Hs i e He) as [Hid _].
  assert (rm_factions m !! list_key e = None) as Hnone.
  { destruct (rm_factions m !! list_key e) as [f|] eqn:Hf; [|done].
    destruct (entry_state m i e f Hs Hm He Hf) as (_ & <- & _). by destruct (Hfr _ f Hf) as (_ & ? & _). }
  set (g := initial_state raceMask classMask e).
  assert (total g = base e) as Ht by (unfold total; cbn; rewrite Hid, He; lia).
  match goal with |- context [(?p ≫= _) m] =>
    assert (p m = (Ok tt, set_counts (u8 (rm_visibleFactionCount m + Z.b2z (visible g)))
      (rm_honoredFactionCount m) (rm_reveredFactionCount m) (rm_exaltedFactionCount m) m)) as E end.
  { unfold visible. destruct (has_flag _ g); [done|]. cbn [Z.b2z].
    rewrite Z.add_0_r, (mo_visible m Hm), uint_idemp, <- (mo_visible m Hm) by lia. by destruct m. }
  rewrite (bind_ok _ _ m tt _ E). eexists. split; [reflexivity|].
  split; [split|..]; cbn [set_factions set_counts rm_factions rm_visibleFactionCount rm_honoredFactionCount
    rm_reveredFactionCount rm_exaltedFactionCount]; rewrite ?count_insert by done.
  - intros key f Hf. cbn in Hf. destruct (decide (key = list_key e)) as [->|Hk].
    + rewrite lookup_insert_eq in Hf. injection Hf as <-. exists e. cbn. rewrite Hid. by split_and!.
    + rewrite lookup_insert_ne in Hf by done. by apply (mo_state m Hm).
  - intros key f Hf. cbn in Hf. destruct (decide (key = list_key e)) as [->|Hk].
    + rewrite lookup_insert_eq in Hf. injection Hf as <-. rewrite Ht. by apply (so_base Hs i).
    + rewrite lookup_insert_ne in Hf by done. by apply (mo_range m Hm key).
  - intros j e' Hj He' H0'. destruct (decide (list_key e' = list_key e)) as [->|Hk].
    + rewrite lookup_insert_eq. done.
    + rewrite lookup_insert_ne by done. apply elem_of_cons in Hj as [->|Hj]; [|by eapply (mo_present m Hm)].
      congruence.
  - intros key f Hf. cbn in Hf. destruct (decide (key = list_key e)) as [->|Hk].
    + rewrite lookup_insert_eq in Hf. by injection Hf as <-.
    + rewrite lookup_insert_ne in Hf by done. by apply (mo_saved m Hm key).
  - by rewrite (mo_visible m Hm), u8_add.
  - rewrite (mo_honored m Hm). apply (first_rank REP_HONORED e); [unfold REP_HOSTILE, REP_HONORED; lia|by rewrite Ht].
  - rewrite (mo_revered m Hm). apply (first_rank REP_REVERED e); [unfold REP_HOSTILE, REP_REVERED; lia|by rewrite Ht].
  - rewrite (mo_exalted m Hm). apply (first_rank REP_EXALTED e); [unfold REP_HOSTILE, REP_EXALTED; lia|by rewrite Ht].
  - intros key f Hf. cbn in Hf. destruct (decide (key = list_key e)) as [->|Hk].
    + rewrite lookup_insert_eq in Hf. injection Hf as <-. cbn. rewrite Hid. split_and!; [done|by left|done].
    + rewrite lookup_insert_ne in Hf by done. destruct (Hfr key f Hf) as (? & ? & ?).
      split_and!; [done|by right|done].
Qed.

Lemma init_all_ok T l D m : factions_ok -> initial T D m -> NoDup l -> (forall i, i ∈ l -> i ∉ D) ->
  exists m', forM l init m = (Ok tt, m') /\ initial T (rev l ++ D) m'.
Proof.
  intros Hs. revert D m. induction l as [|i l IH]; intros D m Hin Hnd Hd; cbn [forM rev app].
  { by exists m. }
  apply NoDup_cons in Hnd as [Hil Hnd].
  destruct (init_faction_ok T D i m Hs Hin (Hd i ltac:(by left))) as (m1 & E1 & Hin1).
  rewrite (bind_ok _ _ m tt m1 E1).
  destruct (IH (i :: D) m1 Hin1 Hnd) as (m' & E & Hin').
  { intros j Hj [->|Hj']%elem_of_cons; [done|]. apply (Hd j); [by right|done]. }
  exists m'. split; [done|]. by rewrite <- app_assoc.
Qed.

(** Every id of the table. *)
Definition all_ids : list Z := rev (seqZ 1 (NumRows - 1)).

Lemma elem_of_all_ids i e : factions_ok -> sFactionStore !! i = Some e -> i ∈ all_ids.
Proof.
  intros Hs He. unfold all_ids. rewrite list_elem_of_In, <- in_rev, <- list_elem_of_In.
  apply elem_of_seqZ. destruct (so_id Hs i e He). lia.
Qed.

Lemma Initialize_ok T m : factions_ok ->
  exists m', Initialize sFactionStore NumRows raceMask classMask m = (Ok tt, m')
    /\ initial T all_ids m'.
Proof.
  intros Hs. unfold Initialize.
  match goal with |- context [modify ?f] => rewrite (bind_ok (modify f) _ m tt (f m) eq_refl) end.
  match goal with |- context [forM ?l _ ?s] =>
    destruct (init_all_ok T l [] s Hs) as (m' & E & Hin) end.
  - split; [split; cbn|..]; cbn; try done; intros ? ? H; try by rewrite lookup_empty in H.
    by apply elem_of_nil in H.
  - apply NoDup_seqZ.
  - intros i _ H. by apply elem_of_nil in H.
  - exists m'. split; [done|]. unfold all_ids. by rewrite app_nil_r in Hin.
Qed.

Abbreviation load := (load_standing sFactionStore raceMask classMask).

(** Operations on the flags and marks of one faction, which has its saved
    standing. *)
Section Flags.
Context {T : table} {D : list Z}.

Definition flag_op_at (key : Z) (p : RM unit) (m : ReputationMgr) (f : FactionState) : Prop :=
  exists m' g, p m = (Ok tt, m') /\ mgr_ok T D m'
    /\ rm_factions m' = <[key := g]> (rm_factions m) /\ fs_ID g = fs_ID f /\ fs_Standing g = fs_Standing f.
Definition flag_op (key : Z) (p : RM unit) : Prop := forall m f,
  mgr_ok T D m -> rm_factions m !! key = Some f -> row_standing T (fs_ID f) = Some (fs_Standing f) ->
  flag_op_at key p m f.

Lemma flag_op_ret key : flag_op key (mret tt).
Proof. intros m f Hm Hf _. exists m, f. split_and!; try done. by rewrite insert_id. Qed.

Lemma flag_op_bind key p q : flag_op key p -> flag_op key q -> flag_op key (p;; q).
Proof.
  intros Hp Hq m f Hm Hf Hr. destruct (Hp m f Hm Hf Hr) as (m1 & g & E1 & Hm1 & HF1 & Hid1 & Hst1).
  destruct (Hq m1 g Hm1) as (m2 & h & E2 & Hm2 & HF2 & Hid2 & Hst2).
  { by rewrite HF1, lookup_insert_eq. }
  { congruence. }
  exists m2, h. rewrite (bind_ok _ _ m tt m1 E1). split_and!; try congruence.
  by rewrite HF2, HF1, insert_insert_eq.
Qed.

Lemma flag_op_if key (b : bool) p q : flag_op key p -> flag_op key q -> flag_op key (if b then p else q).
Proof. by destruct b. Qed.

Lemma flag_op_faction key (k : FactionState -> RM unit) :
  (forall m f, mgr_ok T D m -> rm_factions m !! key = Some f ->
     row_standing T (fs_ID f) = Some (fs_Standing f) -> flag_op_at key (k f) m f) ->
  flag_op key (f ← faction key; k f).
Proof.
  intros Hk m f Hm Hf Hr. unfold flag_op_at. rewrite (bind_ok _ _ m f m (faction_run key f m Hf)).
  by apply Hk.
Qed.

Lemma flag_op_rank i e (k : Z -> RM unit) : factions_ok -> sFactionStore !! i = Some e ->
  (forall rank, flag_op (list_key e) (k rank)) ->
  flag_op (list_key e) (rank ← GetRank raceMask classMask (Some e); k rank).
Proof.
  intros Hs He Hk m f Hm Hf Hsv. destruct (entry_state m i e f Hs Hm He Hf) as (H0 & _ & Ht).
  pose proof (mo_range m Hm _ f Hf) as Hr. unfold Reputation_Bottom, Reputation_Cap in Hr.
  assert (GetRank raceMask classMask (Some e) m = (Ok (ReputationToRank (total f)), m)) as E.
  { unfold GetRank, GetReputation. unfold mbind at 2, prog_bind at 2. cbn [get].
    unfold mbind at 1, prog_bind at 1. unfold get. unfold GetState.
    rewrite (proj2 (Z.leb_le _ _) H0), Hf, <- Ht, int_op_ok by lia. done. }
  unfold flag_op_at. rewrite (bind_ok _ _ m _ m E). by apply Hk.
Qed.

Lemma flag_op_SetVisible PlayerLoading key : flag_op key (SetVisible_state PlayerLoading key).
Proof.
  intros m f Hm Hf _. destruct (SetVisible_run PlayerLoading key f m Hf) as (sent & E).
  eexists _, (shown f). split; [exact E|]. destruct (same_shown f) as (H1 & H2 & H3 & _).
  split; [|done]. by apply (keeps_SetVisible_state PlayerLoading key m tt).
Qed.
Lemma flag_op_SetAtWar key on : flag_op key (SetAtWar_state key on).
Proof.
  intros m f Hm Hf _. pose proof (SetAtWar_run key on f m Hf) as E.
  eexists _, (war on f). split; [exact E|]. destruct (same_war on f) as (H1 & H2 & H3 & _).
  split; [|done]. by apply (keeps_SetAtWar_state key on m tt).
Qed.
Lemma flag_op_SetInactive key on : flag_op key (SetInactive_state key on).
Proof.
  intros m f Hm Hf _. pose proof (SetInactive_run key on f m Hf) as E.
  eexists _, (inactivated on f). split; [exact E|]. destruct (same_inactivated on f) as (H1 & H2 & H3 & _).
  split; [|done]. by apply (keeps_SetInactive_state key on m tt).
Qed.
Lemma flag_op_need key (b : FactionState -> bool) (c : bool) :
  flag_op key (f ← faction key; if b f then store_state key (set_need c f) else mret tt).
Proof.
  apply flag_op_faction. intros m f Hm Hf Hr. destruct (b f); [|by apply flag_op_ret].
  eexists _, (set_need c f). split; [apply store_state_eq|]. split; [|done].
  assert (total (set_need c f) = total f) as Ht by done.
  assert (visible (set_need c f) = visible f) as Hv by done.
  apply (mgr_ok_replace m key f (set_need c f)); unfold rank_from; rewrite ?Ht, ?Hv; try done.
  - by apply (mo_range m Hm key).
  - cbn [rm_visibleFactionCount set_factions]. rewrite (mo_visible m Hm). f_equal. lia.
  - cbn [rm_honoredFactionCount set_factions]. rewrite (mo_honored m Hm). unfold rank_from. f_equal. lia.
  - cbn [rm_reveredFactionCount set_factions]. rewrite (mo_revered m Hm). unfold rank_from. f_equal. lia.
  - cbn [rm_exaltedFactionCount set_factions]. rewrite (mo_exalted m Hm). unfold rank_from. f_equal. lia.
Qed.

(** *** Rows *)

Lemma flag_op_load_flags PlayerLoading i e flags : factions_ok -> sFactionStore !! i = Some e ->
  flag_op (list_key e) (load_flags raceMask classMask PlayerLoading e flags).
Proof.
  intros Hs He. unfold load_flags.
  repeat first
    [ apply flag_op_bind | apply flag_op_if | apply flag_op_ret | apply flag_op_SetVisible
    | apply flag_op_SetInactive | apply flag_op_SetAtWar ].
  apply flag_op_faction. intros m f Hm Hf Hr. match goal with |- flag_op_at _ ?p _ _ =>
    assert (flag_op (list_key e) p) as Hop end; [|by apply Hop].
  repeat first [apply flag_op_bind | apply flag_op_if | apply flag_op_ret | apply flag_op_SetAtWar].
  eapply flag_op_rank; [done..|]. intros rank.
  repeat first [apply flag_op_bind | apply flag_op_if | apply flag_op_ret | apply flag_op_SetAtWar].
  apply (flag_op_need _ (fun f => fs_Flags f =? flags) false).
Qed.

(** A faction that has its initial standing takes the one of its row. *)
Lemma load_standing_ok PlayerLoading i e standing flags m f : factions_ok -> mgr_ok T D m ->
  row_standing T i = Some standing ->
  sFactionStore !! i = Some e -> rm_factions m !! list_key e = Some f -> fs_Standing f = 0 ->
  Reputation_Bottom <= base e + standing <= Reputation_Cap ->
  exists m' g, load PlayerLoading (i, standing, flags) m = (Ok tt, m') /\ mgr_ok T D m'
    /\ rm_factions m' = <[list_key e := g]> (rm_factions m) /\ fs_ID g = fs_ID f /\ fs_Standing g = standing.
Proof.
  intros Hs Hm Hrow He Hf H0st Hr. destruct (entry_state m i e f Hs Hm He Hf) as (H0 & Hid & Ht).
  unfold load_standing. rewrite He, (proj2 (Z.leb_le _ _) H0).
  assert (faction_or_new (list_key e) m = (Ok tt, m)) as E1
    by (unfold faction_or_new; rewrite (bind_ok get _ m m m eq_refl); by rewrite Hf).
  rewrite (bind_ok _ _ m tt m E1), (bind_ok _ _ m f m (faction_run _ f m Hf)).
  rewrite (bind_ok (store_state _ _) _ m tt _ (store_state_eq _ _ m)). cbv zeta.
  match goal with |- context [(int_op ?v ≫= _) ?s] =>
    rewrite (bind_ok _ _ s v s (int_op_ok v s ltac:(unfold Reputation_Bottom, Reputation_Cap in Hr; lia))) end.
  match goal with |- context [(UpdateRankCounters ?o ?n ≫= _) ?s] =>
    rewrite (bind_ok (UpdateRankCounters o n) _ s tt _ eq_refl) end.
  set (g := set_Standing standing f).
  assert (total g = base e + standing) as Htg by (unfold total; cbn; rewrite Hid, He; lia).
  match goal with |- context [load_flags _ _ _ _ _ ?s] =>
    assert (mgr_ok T D s) as Hm1; [|assert (rm_factions s !! list_key e = Some g) as Hg by apply lookup_insert_eq;
      assert (rm_factions s = <[list_key e := g]> (rm_factions m)) as HF by done; revert Hm1 Hg HF; generalize s] end.
  { apply (mgr_ok_replace m _ f g); try done; rewrite ?Htg; try done.
    - intros _. cbn. by rewrite Hid.
    - change (visible g) with (visible f). cbn [rm_visibleFactionCount set_factions].
      rewrite (mo_visible m Hm). f_equal. lia.
    - unfold rank_from. rewrite Htg, Ht, H0st, Z.add_0_r. cbn [rm_honoredFactionCount set_factions].
      rewrite (mo_honored m Hm). apply rank_step_ok.
    - unfold rank_from. rewrite Htg, Ht, H0st, Z.add_0_r. cbn [rm_reveredFactionCount set_factions].
      rewrite (mo_revered m Hm). apply rank_step_ok.
    - unfold rank_from. rewrite Htg, Ht, H0st, Z.add_0_r. cbn [rm_exaltedFactionCount set_factions].
      rewrite (mo_exalted m Hm). apply rank_step_ok. }
  intros m1 Hm1 Hg HF.
  pose proof (flag_op_load_flags PlayerLoading i e flags Hs He) as Hop.
  destruct (Hop m1 g Hm1 Hg ltac:(cbn; by rewrite Hid)) as (m' & h & E & Hm' & HF' & Hidh & Hsth).
  exists m', h. split_and!; try done. by rewrite HF', HF, insert_insert_eq.
Qed.

End Flags.

(** One row for each faction, with a standing in range. *)
Record rows_ok (rows : list (Z * Z * Z)) : Prop := {
  ro_unique : NoDup rows.*1.*1;
  ro_range i st fl e : (i, st, fl) ∈ rows -> sFactionStore !! i = Some e -> 0 <= reputationListID e ->
    Reputation_Bottom <= base e + st <= Reputation_Cap
}.

(** The states after some rows, from those before: [st] is the standing a row
    gives, if one does. *)
Definition rows_loaded (T : table) (st : Z -> option Z) (m m' : ReputationMgr) : Prop :=
  mgr_ok T all_ids m' /\ forall i e f', sFactionStore !! i = Some e ->
    rm_factions m' !! list_key e = Some f' -> exists f, rm_factions m !! list_key e = Some f
    /\ fs_Standing f' = default (fs_Standing f) (st i).

Lemma rows_loaded_none T st m : mgr_ok T all_ids m -> (forall i e, sFactionStore !! i = Some e ->
  0 <= reputationListID e -> st i = None) -> factions_ok -> rows_loaded T st m m.
Proof.
  intros Hm Hn Hs. split; [done|]. intros i e f He Hf. exists f. split; [done|].
  destruct (entry_state m i e f Hs Hm He Hf) as (H0 & _). by rewrite (Hn i e).
Qed.

Lemma rep_row_ok T PlayerLoading i st fl m : factions_ok -> mgr_ok T all_ids m ->
  row_standing T i = Some st ->
  (forall e, sFactionStore !! i = Some e -> 0 <= reputationListID e ->
     Reputation_Bottom <= base e + st <= Reputation_Cap) ->
  (forall e f, sFactionStore !! i = Some e -> rm_factions m !! list_key e = Some f -> fs_Standing f = 0) ->
  exists m', load PlayerLoading (i, st, fl) m = (Ok tt, m')
    /\ rows_loaded T (fun j => if j =? i then Some st else None) m m'.
Proof.
  intros Hs Hm Hrow Hr Hz.
  destruct (sFactionStore !! i) as [e|] eqn:He; [destruct (Z.leb_spec 0 (reputationListID e)) as [H0|H0]|].
  - destruct (mo_present m Hm i e (elem_of_all_ids i e Hs He) He H0) as [f Hf].
    destruct (load_standing_ok PlayerLoading i e st fl m f Hs Hm Hrow He Hf) as (m1 & g & E1 & Hm1 & HF1 & _ & Hst1);
      [by eapply Hz|by apply Hr|].
    destruct (entry_state m i e f Hs Hm He Hf) as (_ & Hid & _).
    exists m1. split; [done|]. split; [done|].
    intros j e' f' He' Hf'. rewrite HF1 in Hf'. destruct (decide (list_key e' = list_key e)) as [Hk|Hk].
      * rewrite Hk, lookup_insert_eq in Hf'. injection Hf' as <-. rewrite <- Hk in Hf. exists f.
        split; [done|]. destruct (entry_state m j e' f Hs Hm He' Hf) as (_ & Hj' & _).
        assert (j = i) as -> by congruence. by rewrite Z.eqb_refl.
      * rewrite lookup_insert_ne in Hf' by done. exists f'. split; [done|].
        by destruct (Z.eqb_spec j i) as [->|]; [congruence|].
  - exists m. split; [unfold load_standing; by rewrite He, (proj2 (Z.leb_gt _ _) H0)|].
    apply rows_loaded_none; [done..| |done]. intros j e' He' H0'.
    destruct (Z.eqb_spec j i) as [->|]; [|done]. simplify_eq. lia.
  - exists m. split; [unfold load_standing; by rewrite He|].
    apply rows_loaded_none; [done..| |done]. intros j e' He' H0'.
    destruct (Z.eqb_spec j i) as [->|]; [|done]. congruence.
Qed.

Lemma rep_rows_ok T PlayerLoading rows m : factions_ok -> rows_ok rows -> mgr_ok T all_ids m ->
  (forall i st fl, (i, st, fl) ∈ rows -> row_standing T i = Some st) ->
  (forall i e f, i ∈ rows.*1.*1 -> sFactionStore !! i = Some e ->
     rm_factions m !! list_key e = Some f -> fs_Standing f = 0) ->
  exists m', forM rows (load PlayerLoading) m = (Ok tt, m') /\ rows_loaded T (row_standing rows) m m'.
Proof.
  intros Hs. revert m. induction rows as [|[[i st] fl] rows IH]; intros m [Hu Hr] Hm HT Hz; cbn [forM].
  { exists m. split; [done|]. by apply rows_loaded_none. }
  cbn [fmap list_fmap fst] in Hu. apply NoDup_cons in Hu as [Hi Hu].
  destruct (rep_row_ok T PlayerLoading i st fl m Hs Hm) as (m1 & E1 & Hm1 & Hst1).
  { apply (HT _ _ fl). by left. }
  { intros e He H0. eapply Hr; [by left|done|done]. }
  { intros e f. apply Hz. left. }
  rewrite (bind_ok _ _ m tt m1 E1).
  destruct (IH m1) as (m' & E & Hm' & Hst'); [|done|..].
  { split; [done|]. intros j s' fl' e Hj. eapply Hr. by right. }
  { intros j s' fl' Hj. apply (HT _ _ fl'). by right. }
  { intros j e f Hj He Hf. destruct (Hst1 j e f He Hf) as (f0 & Hf0 & ->).
    rewrite (proj2 (Z.eqb_neq j i)) by (intros ->; done). apply (Hz j e f0); [by right|done|done]. }
  exists m'. split; [done|]. split; [done|]. intros j e f' He Hf'.
  destruct (Hst' j e f' He Hf') as (f1 & Hf1 & ->). destruct (Hst1 j e f1 He Hf1) as (f & Hf & Hs1).
  exists f. split; [done|]. rewrite Hs1. cbn [row_standing].
  destruct (Z.eqb_spec j i) as [->|]; [|done]. by rewrite row_standing_None.
Qed.

Lemma rep_load_ok PlayerLoading rows m : factions_ok -> rows_ok rows ->
  exists m', LoadFromDB sFactionStore NumRows raceMask classMask PlayerLoading rows m = (Ok tt, m')
    /\ mgr_ok rows all_ids m' /\ forall i e f, sFactionStore !! i = Some e ->
      rm_factions m' !! list_key e = Some f -> fs_Standing f = default 0 (row_standing rows i).
Proof.
  intros Hs Hr. unfold LoadFromDB. destruct (Initialize_ok rows m Hs) as (m1 & E1 & [Hm1 Hfr]).
  rewrite (bind_ok _ _ m tt m1 E1).
  destruct (rep_rows_ok rows PlayerLoading rows m1 Hs Hr Hm1) as (m' & E & Hm' & Hst).
  - intros i st fl. apply row_standing_Some, ro_unique, Hr.
  - intros i e f _ He Hf. by apply (Hfr _ f Hf).
  - exists m'. split_and!; [done..|]. intros i e f He Hf. destruct (Hst i e f He Hf) as (f0 & Hf0 & ->).
    by rewrite (proj1 (Hfr _ f0 Hf0)).
Qed.

(** *** Saving *)

Lemma save_faction_ok T f : rows_ok T -> 0 <= fs_ID f < 65536 ->
  (forall e, sFactionStore !! fs_ID f = Some e -> Reputation_Bottom <= base e + fs_Standing f <= Reputation_Cap) ->
  rows_ok (execute_rows T (save_faction f)).
Proof.
  intros [Hu Hr] Hid Hrf. cbn. rewrite uint_small by lia.
  destruct (NoDup_filter_ids T (fs_ID f) Hu) as [Hu' Hin]. split.
  - rewrite !fmap_app. cbn. apply NoDup_app. split_and!; [done| |apply NoDup_singleton].
    intros j Hj Hj'%list_elem_of_singleton. apply list_elem_of_fmap in Hj as (x & Hx1 & Hx).
    apply list_elem_of_fmap in Hx as (y & Hy1 & Hy). apply Hin in Hy as [_ Hy]. congruence.
  - intros i st fl e [Hi|Hi]%elem_of_app He H0.
    + apply Hin in Hi as [Hi _]. by eapply Hr.
    + apply list_elem_of_singleton in Hi. simplify_eq. by apply Hrf.
Qed.

Definition save_statements (l : list (Z * FactionState)) : list RepStatement :=
  flat_map (fun kf => if fs_needSave kf.2 then save_faction kf.2 else []) l.

Lemma save_all_ok l T : rows_ok T -> NoDup ((fun kf => fs_ID kf.2) <$> l) ->
  (forall k f, (k, f) ∈ l -> 0 <= fs_ID f < 65536 /\ forall e, sFactionStore !! fs_ID f = Some e ->
     Reputation_Bottom <= base e + fs_Standing f <= Reputation_Cap) ->
  rows_ok (execute_rows T (save_statements l)) /\ forall i,
    (forall k f, (k, f) ∈ l -> fs_needSave f = true -> fs_ID f = i ->
       row_standing (execute_rows T (save_statements l)) i = Some (fs_Standing f)) /\
    ((forall k f, (k, f) ∈ l -> fs_needSave f = true -> fs_ID f <> i) ->
       row_standing (execute_rows T (save_statements l)) i = row_standing T i).
Proof.
  revert T. induction l as [|[k f] l IH]; intros T HT Hnd Hl.
  { split; [done|]. intros i. split; [|done]. by intros ? ? ?%elem_of_nil. }
  cbn in Hnd. apply NoDup_cons in Hnd as [Hn Hnd].
  destruct (Hl k f ltac:(by left)) as [Hid Hrf].
  assert (forall k' f', (k', f') ∈ l -> fs_ID f' <> fs_ID f) as Hne.
  { intros k' f' Hin Heq. apply Hn. apply list_elem_of_fmap. by exists (k', f'). }
  set (T1 := if fs_needSave f then execute_rows T (save_faction f) else T).
  assert (execute_rows T (save_statements ((k, f) :: l)) = execute_rows T1 (save_statements l)) as ->.
  { unfold T1, save_statements, execute_rows. cbn [flat_map snd].
    destruct (fs_needSave f); [by rewrite fold_left_app|done]. }
  destruct (IH T1) as [HT' Hrow].
  { unfold T1. destruct (fs_needSave f); [by apply save_faction_ok|done]. }
  { done. }
  { intros k' f' Hin. apply (Hl k' f'). by right. }
  split; [done|]. intros i. destruct (Hrow i) as [H1 H2]. split.
  - intros k' f' [[= -> ->]|Hin]%elem_of_cons Hsave Hi; [|by eapply H1].
    rewrite H2 by (intros k' f' Hin _; rewrite <- Hi; by eapply Hne).
    unfold T1. rewrite Hsave, save_faction_row, <- Hi by done. by rewrite Z.eqb_refl.
  - intros Hno. rewrite H2 by (intros k' f' Hin; apply (Hno k' f'); by right).
    unfold T1. destruct (fs_needSave f) eqn:Hsave; [|done]. rewrite save_faction_row by done.
    specialize (Hno k f ltac:(by left) Hsave). by rewrite (proj2 (Z.eqb_neq i (fs_ID f))) by congruence.
Qed.

Lemma in_order_ids T D m : factions_ok -> mgr_ok T D m -> NoDup ((fun kf => fs_ID kf.2) <$> in_order (rm_factions m)).
Proof.
  intros Hs Hm. apply NoDup_fmap_2_strong.
  - intros [k f] [k' f'] Hk%in_order_spec Hk'%in_order_spec Heq. cbn in Heq.
    destruct (mo_state m Hm k f Hk) as (e & He & _ & <- & _).
    destruct (mo_state m Hm k' f' Hk') as (e' & He' & _ & <- & _).
    assert (e = e') as <- by congruence. congruence.
  - unfold in_order. rewrite merge_sort_Permutation. apply NoDup_map_to_list.
Qed.

(** Two maps that agree on what a counter counts. *)
Lemma count_agree P (F G : gmap Z FactionState) : (forall k, P <$> F !! k = P <$> G !! k) -> count P F = count P G.
Proof.
  intros Hfg. assert (forall F' : gmap Z FactionState, size (filter (fun kf => P kf.2 = true) F')
      = size (filter (fun kb : Z * bool => kb.2 = true) (P <$> F'))) as E
    by (intros F'; by rewrite map_filter_fmap, map_size_fmap).
  unfold count. rewrite !E. do 3 f_equal. apply map_eq. intros k. by rewrite !lookup_fmap.
Qed.

(** Saving brings the rows up to date with the states. *)
Lemma SaveToDB_ok T D m : factions_ok -> NumRows <= 65536 -> rows_ok T -> mgr_ok T D m ->
  let (sts, m') := SaveToDB m in
  rows_ok (execute_rows T sts) /\ mgr_ok (execute_rows T sts) D m'
  /\ forall key f, rm_factions m !! key = Some f ->
       row_standing (execute_rows T sts) (fs_ID f) = Some (fs_Standing f).
Proof.
  intros Hs HN HT Hm. unfold SaveToDB. fold (save_statements (in_order (rm_factions m))).
  destruct (save_all_ok (in_order (rm_factions m)) T HT (in_order_ids T D m Hs Hm)) as [HT' Hrow].
  { intros k f Hf%in_order_spec. destruct (mo_state m Hm k f Hf) as (e & He & _).
    destruct (so_id Hs _ e He) as [_ Hid]. split; [lia|]. intros e' He'.
    pose proof (mo_range m Hm k f Hf) as Hr. unfold total in Hr. by rewrite He' in Hr. }
  assert (forall key f, rm_factions m !! key = Some f ->
    row_standing (execute_rows T (save_statements (in_order (rm_factions m)))) (fs_ID f)
    = Some (fs_Standing f)) as Hall.
  { intros key f Hf. destruct (Hrow (fs_ID f)) as [H1 H2]. destruct (fs_needSave f) eqn:Hsv.
    - by apply (H1 key f); [apply in_order_spec|..].
    - rewrite H2; [by apply (mo_saved m Hm key)|]. intros k g Hg%in_order_spec Hsv' Hid.
      destruct (mo_state m Hm key f Hf) as (e & He & _ & Hk & _).
      destruct (mo_state m Hm k g Hg) as (e' & He' & _ & Hk' & _). congruence. }
  split_and!; [done| |done].
  apply (mgr_ok_marks (T := T)); [|by intros key f Hf _; apply (Hall key)|done].
  intros f. by destruct (fs_needSave f).
Qed.

(** *** The manager as a transition system *)

Section System.
Context (GetRepSpilloverTemplate : Z -> option (list Spillover)) (RATE_REPUTATION_GAIN : spec_float).

(** The operations the server performs on a player and the saved rows, with the
    success of each. *)
Inductive rep_op : ReputationMgr -> ReputationMgr -> Prop :=
| op_reputation loading i e standing incremental b m m' : sFactionStore !! i = Some e ->
    SetReputation sFactionStore NumRows GetRepSpilloverTemplate RATE_REPUTATION_GAIN raceMask classMask
      loading e standing incremental m = (Ok b, m') -> rep_op m m'
| op_one loading i e standing incremental b m m' : sFactionStore !! i = Some e ->
    SetOneFactionReputation RATE_REPUTATION_GAIN raceMask classMask loading e standing incremental m
      = (Ok b, m') -> rep_op m m'
| op_visible loading e m m' : SetVisible loading e m = (Ok tt, m') -> rep_op m m'
| op_template loading id m m' :
    SetVisible_template sFactionStore raceMask loading id m = (Ok tt, m') -> rep_op m m'
| op_at_war id on m m' : SetAtWar id on m = (Ok tt, m') -> rep_op m m'
| op_inactive id on m m' : SetInactive id on m = (Ok tt, m') -> rep_op m m'
| op_force id rank apply m m' : ApplyForceReaction id rank apply m = (Ok tt, m') -> rep_op m m'
| op_states m m' : SendStates m = (Ok tt, m') -> rep_op m m'
| op_initial m m' : SendInitialReputations m = (Ok tt, m') -> rep_op m m'
| op_forced m m' : SendForceReactions m = (Ok tt, m') -> rep_op m m'.

Inductive rep_step : table * ReputationMgr -> table * ReputationMgr -> Prop :=
| step_op T m m' : rep_op m m' -> rep_step (T, m) (T, m')
| step_save T m sts m' : SaveToDB m = (sts, m') -> rep_step (T, m) (execute_rows T sts, m').

(** From a login onwards. *)
Definition reachable_mgr (T : table) (m : ReputationMgr) : Prop := exists loading rows m0 m1,
  rows_ok rows
  /\ LoadFromDB sFactionStore NumRows raceMask classMask loading rows m0 = (Ok tt, m1)
  /\ rtc rep_step (rows, m1) (T, m).

Lemma rep_op_ok T D m m' : factions_ok -> mgr_ok T D m -> rep_op m m' -> mgr_ok T D m'.
Proof.
  intros Hs Hm H. destruct H.
  - by eapply keeps_SetReputation.
  - by eapply keeps_SetOne.
  - by eapply keeps_SetVisible.
  - by eapply keeps_SetVisible_template.
  - by eapply keeps_SetAtWar.
  - by eapply keeps_SetInactive.
  - by eapply keeps_ApplyForceReaction.
  - by eapply keeps_SendStates.
  - by eapply keeps_SendInitialReputations.
  - by eapply keeps_SendForceReactions.
Qed.

Lemma reachable_mgr_ok T m : factions_ok -> NumRows <= 65536 -> reachable_mgr T m ->
  rows_ok T /\ mgr_ok T all_ids m.
Proof.
  intros Hs HN (loading & rows & m0 & m1 & Hr & E & Hsteps).
  destruct (rep_load_ok loading rows m0 Hs Hr) as (m1' & E' & Hm1 & _).
  assert (m1' = m1) as -> by congruence. clear E E'.
  remember (rows, m1) as a eqn:Ha. remember (T, m) as b eqn:Hb. revert rows m1 Ha Hr Hm1.
  induction Hsteps as [|a a1 b Hstep _ IH]; intros rows m1 -> Hr Hm1; [by simplify_eq|].
  inversion Hstep; subst.
  - eapply IH; [done..|]. by eapply rep_op_ok.
  - pose proof (SaveToDB_ok _ all_ids m1 Hs HN Hr Hm1) as Hsave. rewrite H2 in Hsave.
    destruct Hsave as (HT & Hm' & _). by eapply IH.
Qed.
End System.
End Invariant.

(** ** The standing packet *)

Definition faction_bytes (f : FactionState) : list Z :=
  le_bytes 4 (u32 (fs_ReputationListID f)) ++ le_bytes 4 (u32 (fs_Standing f)).

Lemma append_end b bs n v : (0 < n)%nat -> wrun b bs [] -> len bs < 10000000 ->
  exists b', append n v b = (Ok tt, b') /\ wrun b' (bs ++ le_bytes n v) [].
Proof.
  intros Hn Hw Hl. destruct (append_run b bs [] n v Hn Hw) as (b' & E & H).
  { change (pack []) with (@nil Z). by rewrite app_nil_r. }
  exists b'. split; [done|]. change (pack []) with (@nil Z) in H. by rewrite app_nil_r in H.
Qed.

Lemma length_faction_bytes f : length (faction_bytes f) = 8%nat.
Proof. unfold faction_bytes. by rewrite length_app, !length_le_bytes. Qed.

Lemma append_factions_run l b bs : wrun b bs [] -> len bs + 8 * len l < 10000000 ->
  exists b', forM l append_faction b = (Ok tt, b') /\ wrun b' (bs ++ flat_map faction_bytes l) [].
Proof.
  revert b bs. induction l as [|f l IH]; intros b bs Hw Hl; cbn [forM flat_map].
  { exists b. by rewrite app_nil_r. }
  cbn [length] in Hl.
  destruct (append_end b bs 4 (u32 (fs_ReputationListID f)) ltac:(lia) Hw ltac:(lia)) as (b1 & E1 & H1).
  destruct (append_end b1 _ 4 (u32 (fs_Standing f)) ltac:(lia) H1) as (b2 & E2 & H2).
  { rewrite length_app, length_le_bytes. lia. }
  rewrite <- app_assoc in H2. fold (faction_bytes f) in H2.
  destruct (IH b2 _ H2) as (b' & E & H). { rewrite length_app, length_faction_bytes. lia. }
  exists b'. rewrite app_assoc. split; [|done].
  rewrite (bind_ok _ _ b tt b2); [done|]. unfold append_faction. by rewrite (bind_ok _ _ b tt b1 E1).
Qed.

(** The bytes of the packet: two floats, the number of factions and the
    increase bit, and the factions. *)
Definition standing_bytes (count : Z) (increased : bool) (l : list FactionState) : list Z :=
  (le_bytes 4 0 ++ le_bytes 4 0) ++ pack (low_bits 21 count ++ [increased]) ++ flat_map faction_bytes l.

Lemma length_flat_faction_bytes l : len (flat_map faction_bytes l) = 8 * len l.
Proof.
  induction l as [|f l IH]; [done|]. cbn [flat_map length]. rewrite length_app, length_faction_bytes. lia.
Qed.

Lemma standing_packet_run increased f others : len others < 2 ^ 20 ->
  exists b, standing_packet increased f others ByteBuffer_new = (Ok tt, b)
    /\ storage_bits (bb_storage b) = storage_bits (standing_bytes (1 + len others) increased (f :: others)).
Proof.
  intros Hl. unfold standing_packet. pose proof wrun_new as H0.
  destruct (append_end _ _ 4 0 ltac:(lia) H0 ltac:(cbn; lia)) as (b1 & E1 & H1). cbn [app] in H1.
  rewrite (bind_ok _ _ _ tt b1 E1).
  destruct (append_end b1 _ 4 0 ltac:(lia) H1 ltac:(rewrite length_le_bytes; lia)) as (b2 & E2 & H2).
  rewrite (bind_ok _ _ _ tt b2 E2), (bind_ok get _ b2 b2 b2 eq_refl). cbv zeta.
  destruct (WriteBits_run b2 _ [] 1 21 H2) as (b3 & E3 & H3); [cbn; lia|]. cbn [app] in H3.
  rewrite (bind_ok _ _ _ tt b3 E3).
  destruct (WriteBit_run b3 _ _ (Z.b2z increased) H3) as (b4 & E4 & H4).
  { apply wrun_size in H3. unfold room. revert H3. cbn. lia. }
  replace (negb (Z.b2z increased =? 0)) with increased in E4, H4 by (by destruct increased).
  rewrite (bind_ok _ _ _ _ b4 E4).
  destruct (FlushBits_run b4 _ _ H4) as (b5 & E5 & H5).
  { apply wrun_size in H4. unfold room. revert H4. destruct increased; cbn; lia. }
  rewrite (bind_ok _ _ _ tt b5 E5).
  assert (forall g l (k : unit -> prog ByteBuffer ByteBufferError unit) s,
    (append_faction g ≫= fun _ => forM l append_faction ≫= k) s = (forM (g :: l) append_faction ≫= k) s) as Hcons.
  { intros g l k s. cbn [forM]. unfold mbind, prog_bind. by destruct (append_faction g s) as [[] ?]. }
  rewrite Hcons.
  assert (len (((le_bytes 4 0 ++ le_bytes 4 0) ++ pack (low_bits 21 1 ++ [increased]))) = 11) as Hpl
    by (by destruct increased).
  destruct (append_factions_run (f :: others) b5 _ H5) as (b6 & E6 & H6).
  { rewrite Hpl. cbn [length]. lia. }
  rewrite (bind_ok _ _ _ tt b6 E6). rewrite <- app_assoc in H6.
  destruct (wrun_done b6 _ H6) as [Hst _].
  assert (bitwpos b2 = 8 * len (le_bytes 4 0 ++ le_bytes 4 0)) as ->.
  { destruct H2 as (full & rem & Hfr & _ & _ & Hs2 & Hw2 & Hb2 & _). symmetry in Hfr.
    apply app_eq_nil in Hfr as [-> ->]. unfold bitwpos. rewrite Hw2, Hb2, Hs2. done. }
  destruct (PutBits_placeholder _ 1 (1 + len others) 21 [increased] _ b6 ltac:(lia) Hst) as (b' & E & H).
  { unfold ByteBuffer.size. rewrite Hst, app_assoc, length_app, Nat2Z.inj_add, Hpl, length_flat_faction_bytes.
    cbn [length]. lia. }
  exists b'. split; [exact E|]. exact H.
Qed.

(** ** What a change does *)

Lemma at_war_shown f : at_war (shown f) = at_war f.
Proof.
  unfold shown. destruct (_ && _); [|done]. rewrite !at_war_testbit.
  cbn [fs_Flags set_need set_Flags]. rewrite Z.lor_spec. apply orb_false_r.
Qed.

Lemma peace_shown f : has_flag FACTION_FLAG_PEACE_FORCED (shown f) = has_flag FACTION_FLAG_PEACE_FORCED f.
Proof.
  unfold shown. destruct (_ && _); [|done]. unfold has_flag.
  rewrite !(land_pow2_testbit _ 4) by lia. cbn [fs_Flags set_need set_Flags].
  rewrite Z.lor_spec. apply orb_false_r.
Qed.

Lemma at_war_war f : at_war (war true f) = at_war f || negb (has_flag FACTION_FLAG_PEACE_FORCED f).
Proof.
  unfold war. destruct (has_flag _ f); cbn [andb orb negb]; [by rewrite orb_false_r|].
  destruct (at_war f) eqn:E; cbn [Bool.eqb orb]; [done|]. rewrite at_war_testbit. unfold set_flag.
  cbn [fs_Flags set_need set_Flags]. rewrite Z.lor_spec. apply orb_true_r.
Qed.

Lemma at_war_updated f relative rank : at_war (updated f relative rank) =
  at_war f || (rank <=? REP_HOSTILE) && negb (has_flag FACTION_FLAG_PEACE_FORCED f).
Proof.
  unfold updated. set (g := set_need true _). change (at_war f) with (at_war g).
  change (has_flag FACTION_FLAG_PEACE_FORCED f) with (has_flag FACTION_FLAG_PEACE_FORCED g).
  destruct (rank <=? REP_HOSTILE); [rewrite at_war_war, peace_shown|];
    by rewrite at_war_shown, ?orb_false_r.
Qed.

Lemma needSend_updated f relative rank : fs_needSend (updated f relative rank) = true.
Proof.
  unfold updated. set (g := set_need true _). assert (fs_needSend (shown g) = true) as H
    by (unfold shown; by destruct (_ && _)).
  destruct (rank <=? REP_HOSTILE); [|done]. unfold war. by destruct (_ || _).
Qed.

(** Two managers with the states of the same factions, one with the standings
    of the other. *)
Lemma loaded_agrees store NumRows raceMask classMask T T' m m' :
  factions_ok store NumRows raceMask classMask ->
  mgr_ok store raceMask classMask T (all_ids NumRows) m ->
  mgr_ok store raceMask classMask T' (all_ids NumRows) m' ->
  (forall key f, rm_factions m !! key = Some f -> row_standing T' (fs_ID f) = Some (fs_Standing f)) ->
  (forall i e f, store !! i = Some e -> rm_factions m' !! list_key e = Some f ->
     fs_Standing f = default 0 (row_standing T' i)) ->
  (forall key, fs_Standing <$> rm_factions m' !! key = fs_Standing <$> rm_factions m !! key)
  /\ rm_honoredFactionCount m' = rm_honoredFactionCount m
  /\ rm_reveredFactionCount m' = rm_reveredFactionCount m
  /\ rm_exaltedFactionCount m' = rm_exaltedFactionCount m.
Proof.
  intros Hs Hm Hm' Hrow Hst.
  assert (forall key, (fun f => (fs_ID f, fs_Standing f)) <$> rm_factions m' !! key
                      = (fun f => (fs_ID f, fs_Standing f)) <$> rm_factions m !! key) as Hagree.
  { intros key. destruct (rm_factions m' !! key) as [g|] eqn:Hg, (rm_factions m !! key) as [f|] eqn:Hf; cbn.
    - destruct (mo_state _ _ _ _ _ m' Hm' key g Hg) as (e & He & H0 & <- & _).
      destruct (entry_state _ _ _ _ m _ e f Hs Hm He Hf) as (_ & Hid & _).
      specialize (Hst _ e g He Hg). rewrite <- Hid, (Hrow _ f Hf) in Hst. cbn in Hst. by rewrite Hid, Hst.
    - destruct (mo_state _ _ _ _ _ m' Hm' key g Hg) as (e & He & H0 & <- & _).
      destruct (mo_present _ _ _ _ _ m Hm _ e (elem_of_all_ids _ _ _ _ _ e Hs He) He H0) as [f' Hf'].
      congruence.
    - destruct (mo_state _ _ _ _ _ m Hm key f Hf) as (e & He & H0 & <- & _).
      destruct (mo_present _ _ _ _ _ m' Hm' _ e (elem_of_all_ids _ _ _ _ _ e Hs He) He H0) as [f' Hf'].
      congruence.
    - done. }
  assert (forall limit, count (rank_from store raceMask classMask limit) (rm_factions m')
                        = count (rank_from store raceMask classMask limit) (rm_factions m)) as Hc.
  { intros limit. apply count_agree. intros key. specialize (Hagree key).
    destruct (rm_factions m' !! key) as [g|], (rm_factions m !! key) as [f|]; try done.
    cbn in Hagree. injection Hagree as Hid Hst'. cbn. unfold rank_from, total. by rewrite Hid, Hst'. }
  split_and!.
  - intros key. specialize (Hagree key).
    destruct (rm_factions m' !! key), (rm_factions m !! key); try done. cbn in *. congruence.
  - by rewrite (mo_honored _ _ _ _ _ m Hm), (mo_honored _ _ _ _ _ m' Hm'), Hc.
  - by rewrite (mo_revered _ _ _ _ _ m Hm), (mo_revered _ _ _ _ _ m' Hm'), Hc.
  - by rewrite (mo_exalted _ _ _ _ _ m Hm), (mo_exalted _ _ _ _ _ m' Hm'), Hc.
Qed.

(** ** A small table *)

(** Two factions of a team, friendly and at war from the start, and their
    parent, which has no standing of its own. *)
Definition sample_store : gmap Z FactionEntry :=
  <[1 := mkFactionEntry 1 0 [mkFactionBase 1 0 3100 17] 3 (float_of_Z 1) (float_of_Z 1) 7]>
  (<[2 := mkFactionEntry 2 1 [mkFactionBase 2 0 0 0; mkFactionBase 0 1 (-3500) 2] 3
            (float_of_Z 1) (float_of_Z 1) 5]>
  (<[3 := mkFactionEntry 3 (-1) [] 0 (S754_zero false) (S754_zero false) 0]> ∅)).

Definition sample_set : RM bool :=
  SetReputation sample_store 4 (fun _ => None) (float_of_Z 1) 1 1 false
    (mkFactionEntry 3 (-1) [] 0 (S754_zero false) (S754_zero false) 0) 7000 true.
Definition sample_empty : ReputationMgr := mkReputationMgr ∅ ∅ 0 0 0 0 false [].
Definition sample_loaded : ReputationMgr :=
  (LoadFromDB sample_store 4 1 1 false [(1, 4000, 1)] sample_empty).2.
Definition sample_rep : ReputationMgr := (sample_set sample_loaded).2.

Lemma sample_store_ok : factions_ok sample_store 4 1 1.
Proof.
  split; intros i e; [| |intros j e'|]; unfold sample_store;
    rewrite !lookup_insert_Some, lookup_empty; intuition; subst; cbn in *; try lia; try done;
    vm_compute; intuition discriminate.
Qed.

Lemma sample_reachable :
  reachable_mgr sample_store 4 1 1 (fun _ => None) (float_of_Z 1) [(1, 4000, 1)] sample_rep.
Proof.
  exists false, [(1, 4000, 1)], sample_empty, sample_loaded. split_and!.
  - split; [apply NoDup_singleton|]. intros i st fl e [= -> -> ->]%list_elem_of_singleton He _.
    vm_compute in He. injection He as <-. vm_compute. intuition discriminate.
  - vm_compute. reflexivity.
  - apply rtc_once, step_op. eapply (op_reputation _ _ _ _ _ _ false 3 _ 7000 true true); [reflexivity|].
    vm_compute. reflexivity.
Qed.

(** ** Properties *)

(** The bands of standing, from Unfriendly up (below the first, Hated): the
    seven thresholds a player passes. *)
Definition bands : list Z := [-6000; -3000; 0; 3000; 9000; 21000; 42000].
Definition reference_rank (standing : Z) : Z :=
  len (List.filter (fun floor => floor <=? standing) bands).

(** [ReputationToRank], which walks the widths of the ranks down from the
    cap, computes for every standing the number of band thresholds the standing
    reaches: the rank table [PointsInRank] and the published bands agree. *)
Theorem ReputationToRank_reference (s : Z) :
  ReputationToRank s = reference_rank s.
Proof.
  unfold ReputationToRank, reference_rank, bands. cbn [rank_loop nth PointsInRank List.filter].
  unfold Reputation_Cap.
  destruct (Z.leb_spec (-6000) s), (Z.leb_spec (-3000) s), (Z.leb_spec 0 s), (Z.leb_spec 3000 s),
    (Z.leb_spec 9000 s), (Z.leb_spec 21000 s), (Z.leb_spec 42000 s); try lia;
    repeat (match goal with |- context [if ?c <=? s then _ else _] =>
      destruct (Z.leb_spec c s) end; try lia); done.
Qed.

(** Changing the standing of one faction ([SetOneFactionReputation]): the
    change is refused exactly where the arithmetic of the code is undefined;
    otherwise the faction's reputation becomes the standing asked for, clamped
    to [-42000, 42999], it is marked to be sent and saved, shown if its flags
    allow, and put at war if the new rank is hostile or worse and the faction is
    not forced to peace; a rise in rank sets the increase mark; and every other
    faction is as before. *)
Theorem SetOneFactionReputation_spec (raceMask classMask : Z) (RATE : spec_float) (loading : bool)
    (e : FactionEntry) (standing : Z) (incremental : bool) (m : ReputationMgr) (f : FactionState)
    (Hf : rm_factions m !! list_key e = Some f)
    (Hb : Reputation_Bottom <= GetBaseReputation raceMask classMask e <= Reputation_Cap)
    (Hr : Reputation_Bottom <= fs_Standing f + GetBaseReputation raceMask classMask e <= Reputation_Cap) :
  let B := GetBaseReputation raceMask classMask e in
  let run := SetOneFactionReputation RATE raceMask classMask loading e standing incremental m in
  match wanted RATE (fs_Standing f + B) standing incremental with
  | None => run = (Err UndefinedInt, m)
  | Some w => exists m' g, run = (Ok true, m')
      /\ rm_factions m' = <[list_key e := g]> (rm_factions m)
      /\ fs_Standing g + B = clamp w /\ fs_ID g = fs_ID f /\ fs_needSend g = true /\ fs_needSave g = true
      /\ visible g = visible f || showable f
      /\ at_war g = at_war f || (ReputationToRank (clamp w) <=? REP_HOSTILE)
                                && negb (has_flag FACTION_FLAG_PEACE_FORCED f)
      /\ rm_sendFactionIncreased m' = (ReputationToRank (fs_Standing f + B) <? ReputationToRank (clamp w))
                                      || rm_sendFactionIncreased m
  end.
Proof.
  cbv zeta. unfold Reputation_Bottom, Reputation_Cap in Hb, Hr.
  pose proof (SetOne_run raceMask classMask RATE loading e f standing incremental m Hf
    ltac:(lia) ltac:(lia)) as H.
  destruct (wanted _ _ _ _) as [w|]; [|done]. destruct H as (sent & H). eexists _, _. split; [exact H|].
  split; [reflexivity|].
  destruct (fields_updated f (clamp w - GetBaseReputation raceMask classMask e)
    (ReputationToRank (clamp w))) as (H1 & _ & H3 & H4 & H5).
  rewrite H3. split_and!; [lia|done|apply needSend_updated|done|done|apply at_war_updated|].
  cbn. by destruct (_ <? _).
Qed.

Lemma SetOneFactionReputation_spec_witness :
  exists m' g, SetOneFactionReputation (float_of_Z 1) 1 1 false
      (mkFactionEntry 2 1 [mkFactionBase 2 0 0 0; mkFactionBase 0 1 (-3500) 2] 3
         (float_of_Z 1) (float_of_Z 1) 5) (-9000) true sample_loaded = (Ok true, m')
    /\ rm_factions m' = <[1 := g]> (rm_factions sample_loaded)
    /\ fs_Standing g = -9000 /\ at_war g = true /\ visible g = true.
Proof.
  pose proof (SetOneFactionReputation_spec 1 1 (float_of_Z 1) false
    (mkFactionEntry 2 1 [mkFactionBase 2 0 0 0; mkFactionBase 0 1 (-3500) 2] 3
       (float_of_Z 1) (float_of_Z 1) 5) (-9000) true sample_loaded
    (mkFactionState 2 1 0 2 true true) ltac:(vm_compute; reflexivity)
    ltac:(vm_compute; intuition discriminate) ltac:(vm_compute; intuition discriminate)) as H.
  cbv zeta in H. match type of H with context [GetBaseReputation 1 1 ?e] =>
    change (GetBaseReputation 1 1 e) with (-3500) in H end.
  assert (wanted (float_of_Z 1) (fs_Standing (mkFactionState 2 1 0 2 true true) + -3500) (-9000) true
          = Some (-12500)) as Hw by (vm_compute; reflexivity).
  rewrite Hw in H. destruct H as (m' & g & H1 & H2 & H3 & _ & _ & _ & H4 & H5 & _). exists m', g.
  change (clamp (-12500)) with (-12500) in H3. split_and!; [exact H1|exact H2|lia|..].
  - rewrite H5. reflexivity.
  - rewrite H4. reflexivity.
Defined.

(** [SendState] builds one packet that holds the number of factions in 21
    bits (written as 1 and patched when it is known), the increase mark and, for
    the changed faction and every other one waiting, its list id and standing;
    after it nothing waits and the increase mark is cleared. *)
Theorem SendState_sends (m : ReputationMgr) (key : Z) (f : FactionState)
    (Hf : rm_factions m !! key = Some f) (Hsz : Z.of_nat (size (rm_factions m)) < 2 ^ 20) :
  exists packet others,
    SendState key m = (Ok tt, mkReputationMgr (set_needSend false <$> rm_factions m)
      (rm_forcedReactions m) (rm_visibleFactionCount m) (rm_honoredFactionCount m)
      (rm_reveredFactionCount m) (rm_exaltedFactionCount m) false
      (rm_sent m ++ [SMSG_SET_FACTION_STANDING packet]))
    /\ others ≡ₚ filter (fun g => fs_ReputationListID g <> fs_ReputationListID f)
         (filter (fun g => fs_needSend g = true) (map_to_list (rm_factions m)).*2)
    /\ storage_bits packet = storage_bits
         (standing_bytes (1 + len others) (rm_sendFactionIncreased m) (f :: others)).
Proof.
  unfold SendState. rewrite (bind_ok _ _ m f m (faction_run key f m Hf)), (bind_ok get _ m m m eq_refl).
  cbv zeta. set (others := filter _ _).
  assert (others ≡ₚ filter (fun g => fs_ReputationListID g <> fs_ReputationListID f)
    (filter (fun g => fs_needSend g = true) (map_to_list (rm_factions m)).*2)) as Hp.
  { unfold others, in_order. by rewrite merge_sort_Permutation. }
  assert (len others < 2 ^ 20) as Hl.
  { rewrite Hp. eapply Z.le_lt_trans; [|exact Hsz]. apply inj_le.
    do 2 (etrans; [apply length_filter|]). by rewrite length_fmap, length_map_to_list. }
  match goal with |- context [modify (set_increased false)] =>
    rewrite (bind_ok (modify (set_increased false)) _ m tt (set_increased false m) eq_refl) end.
  destruct (standing_packet_run (rm_sendFactionIncreased m) f others Hl) as (b & E & H).
  assert (build (standing_packet (rm_sendFactionIncreased m) f others) (set_increased false m)
    = (Ok (bb_storage b), set_increased false m)) as Eb by (unfold build; by rewrite E).
  rewrite (bind_ok _ _ _ _ _ Eb). 
  exists (bb_storage b), others. split; [reflexivity|]. by split; [exact Hp|exact H].
Qed.

Lemma SendState_sends_witness :
  exists (packet : list Z) (others : list FactionState) m', SendState 0 sample_loaded = (Ok tt, m') /\ length others = 1%nat
    /\ length (storage_bits packet) = 216%nat.
Proof.
  destruct (SendState_sends sample_loaded 0 (mkFactionState 1 0 4000 17 true true)
    ltac:(vm_compute; reflexivity) ltac:(vm_compute; reflexivity)) as (packet & others & H1 & H2 & H3).
  exists packet, others. eexists. split; [exact H1|].
  assert (length others = 1%nat) as Hl by (rewrite H2; vm_compute; reflexivity). split; [done|].
  rewrite H3, length_storage_bits. unfold standing_bytes. rewrite !length_app.
  pose proof (length_flat_faction_bytes (mkFactionState 1 0 4000 17 true true :: others)) as Hb.
  cbn [length] in Hb. rewrite Hl in Hb |- *.
  assert (length (flat_map faction_bytes (mkFactionState 1 0 4000 17 true true :: others)) = 16%nat) as -> by lia.
  vm_compute. reflexivity.
Defined.

(** C17. The invariant of a player's reputation: in every state reachable from
    a login, whatever changes, flag settings, packets and saves happened since,
    each faction's reputation stays within [-42000, 42999], the four 8-bit
    counters are the numbers (mod 256) of visible factions and of factions
    honored, revered and exalted or better, and a faction not marked to be
    saved has its standing in the saved rows. *)
Theorem reputation_invariant (sFactionStore : gmap Z FactionEntry) (NumRows raceMask classMask : Z)
    (templates : Z -> option (list Spillover)) (RATE : spec_float) (T : list (Z * Z * Z)) (m : ReputationMgr)
    (Hs : factions_ok sFactionStore NumRows raceMask classMask) (HN : NumRows <= 65536)
    (Hm : reachable_mgr sFactionStore NumRows raceMask classMask templates RATE T m) :
  let total := total sFactionStore raceMask classMask in
  let at_least rank := count (fun f => rank <=? ReputationToRank (total f)) (rm_factions m) in
  (forall key f, rm_factions m !! key = Some f -> Reputation_Bottom <= total f <= Reputation_Cap
     /\ (fs_needSave f = false -> row_standing T (fs_ID f) = Some (fs_Standing f)))
  /\ rm_visibleFactionCount m = u8 (count visible (rm_factions m))
  /\ rm_honoredFactionCount m = u8 (at_least REP_HONORED)
  /\ rm_reveredFactionCount m = u8 (at_least REP_REVERED)
  /\ rm_exaltedFactionCount m = u8 (at_least REP_EXALTED).
Proof.
  destruct (reachable_mgr_ok _ _ _ _ _ _ T m Hs HN Hm) as [_ []]. by split_and!; eauto.
Qed.

Lemma reputation_invariant_witness :
  (forall key f, rm_factions sample_rep !! key = Some f ->
     Reputation_Bottom <= total sample_store 1 1 f <= Reputation_Cap)
  /\ rm_honoredFactionCount sample_rep = 1.
Proof.
  destruct (reputation_invariant sample_store 4 1 1 (fun _ => None) (float_of_Z 1) [(1, 4000, 1)] sample_rep
    sample_store_ok ltac:(lia) sample_reachable) as (H & _ & H1 & _).
  split; [intros key f Hf; apply (H key f Hf)|]. rewrite H1. vm_compute. reflexivity.
Defined.

(** C21. The round trip through the database: from any reachable state, saving
    and then loading the saved rows into any manager (the player's next login)
    gives every faction back its standing, and the counters of honored, revered
    and exalted factions their values. *)
Theorem save_load_roundtrip (sFactionStore : gmap Z FactionEntry) (NumRows raceMask classMask : Z)
    (templates : Z -> option (list Spillover)) (RATE : spec_float) (T : list (Z * Z * Z))
    (m m0 : ReputationMgr) (loading : bool)
    (Hs : factions_ok sFactionStore NumRows raceMask classMask) (HN : NumRows <= 65536)
    (Hm : reachable_mgr sFactionStore NumRows raceMask classMask templates RATE T m) :
  exists m', LoadFromDB sFactionStore NumRows raceMask classMask loading
      (execute_rows T (SaveToDB m).1) m0 = (Ok tt, m')
    /\ (forall key, fs_Standing <$> rm_factions m' !! key = fs_Standing <$> rm_factions m !! key)
    /\ rm_honoredFactionCount m' = rm_honoredFactionCount m
    /\ rm_reveredFactionCount m' = rm_reveredFactionCount m
    /\ rm_exaltedFactionCount m' = rm_exaltedFactionCount m.
Proof.
  destruct (reachable_mgr_ok _ _ _ _ _ _ T m Hs HN Hm) as [HT Hok].
  pose proof (SaveToDB_ok _ _ _ _ T _ m Hs HN HT Hok) as Hsv.
  destruct (SaveToDB m) as [sts m1]. destruct Hsv as (HT' & _ & Hrow). cbn [fst].
  destruct (rep_load_ok sFactionStore NumRows raceMask classMask loading _ m0 Hs HT')
    as (m' & E & Hm' & Hst). exists m'. split; [done|]. by eapply loaded_agrees.
Qed.

Lemma save_load_roundtrip_witness :
  exists m', LoadFromDB sample_store 4 1 1 true (execute_rows [(1, 4000, 1)] (SaveToDB sample_rep).1)
      sample_empty = (Ok tt, m')
    /\ fs_Standing <$> rm_factions m' !! 1 = Some 7000 /\ rm_honoredFactionCount m' = 1.
Proof.
  destruct (save_load_roundtrip sample_store 4 1 1 (fun _ => None) (float_of_Z 1) [(1, 4000, 1)] sample_rep
    sample_empty true sample_store_ok ltac:(lia) sample_reachable) as (m' & E & H & H1 & _).
  exists m'. split; [exact E|]. rewrite H, H1. vm_compute. split; reflexivity.
Defined.
