(* ===== verification/MotionMaster.v ===== *)
(** * Movement generators of a unit (src/src/serveur/jeu/Movement/MotionMaster.{h,cpp})

    A unit moves as its top movement generator says: a random walk, a chase, a
    point to reach.  [MotionMaster] keeps one generator for each of three
    priorities (idle, active, controlled), the highest one in use being the
    top, and calls a generator when it starts, resumes, updates and ends.  These
    calls come back: a generator that ends starts the next movement from its
    [Finalize].  A generator is its address, so that a deleted one is visible;
    what the calls do to the motion master is a parameter, a list of requests
    each of which may look at the state it finds.  The rest of the unit is the
    [Owner] that comes with a request; splines and paths are not modelled. *)

From S2P Require Import Prelude.
Local Open Scope Z_scope.

Inductive MovementGeneratorType :=
| IDLE_MOTION_TYPE | RANDOM_MOTION_TYPE | WAYPOINT_MOTION_TYPE | ANIMAL_RANDOM_MOTION_TYPE
| CONFUSED_MOTION_TYPE | CHASE_MOTION_TYPE | HOME_MOTION_TYPE | FLIGHT_MOTION_TYPE
| POINT_MOTION_TYPE | FLEEING_MOTION_TYPE | DISTRACT_MOTION_TYPE | ASSISTANCE_MOTION_TYPE
| ASSISTANCE_DISTRACT_MOTION_TYPE | TIMED_FLEEING_MOTION_TYPE | FOLLOW_MOTION_TYPE
| ROTATE_MOTION_TYPE | EFFECT_MOTION_TYPE | NULL_MOTION_TYPE.
#[export] Instance MovementGeneratorType_eq_dec : EqDecision MovementGeneratorType.
Proof. solve_decision. Defined.

Inductive MovementSlot := MOTION_SLOT_IDLE | MOTION_SLOT_ACTIVE | MOTION_SLOT_CONTROLLED.
#[export] Instance MovementSlot_eq_dec : EqDecision MovementSlot.
Proof. solve_decision. Defined.
Definition slot_index (s : MovementSlot) : Z :=
  match s with MOTION_SLOT_IDLE => 0 | MOTION_SLOT_ACTIVE => 1 | MOTION_SLOT_CONTROLLED => 2 end.

Definition MMCF_UPDATE := 1.
Definition MMCF_RESET := 2.

Inductive MMError := OutOfBounds | NullGenerator | FreedGenerator | AssertFailed | OutOfFuel.

(** The address of the idle generator all units share. *)
Definition si_idleMovement : Z := 0.
Definition isStatic (mv : Z) : bool := mv =? si_idleMovement.

(** The virtual calls on a generator. *)
Inductive Call :=
| Initialize_call (mg : Z)
| Finalize_call (mg : Z)
| Reset_call (mg : Z)
| Update_call (mg : Z)
| unitSpeedChanged_call (mg : Z).

(** The fields, the generators that exist, the next address and the calls made. *)
Record MotionMaster := mkMotionMaster {
  mm_expList : option (list Z);
  mm_Impl : list (option Z);
  mm_top : Z;
  mm_needInit : list bool;
  mm_cleanFlag : Z;
  mm_heap : gmap Z MovementGeneratorType;
  mm_next : Z;
  mm_calls : list Call
}.

Definition set_expList v m := mkMotionMaster v (mm_Impl m) (mm_top m) (mm_needInit m) (mm_cleanFlag m) (mm_heap m) (mm_next m) (mm_calls m).
Definition set_Impl v m := mkMotionMaster (mm_expList m) v (mm_top m) (mm_needInit m) (mm_cleanFlag m) (mm_heap m) (mm_next m) (mm_calls m).
Definition set_top v m := mkMotionMaster (mm_expList m) (mm_Impl m) v (mm_needInit m) (mm_cleanFlag m) (mm_heap m) (mm_next m) (mm_calls m).
Definition set_needInit v m := mkMotionMaster (mm_expList m) (mm_Impl m) (mm_top m) v (mm_cleanFlag m) (mm_heap m) (mm_next m) (mm_calls m).
Definition set_cleanFlag v m := mkMotionMaster (mm_expList m) (mm_Impl m) (mm_top m) (mm_needInit m) v (mm_heap m) (mm_next m) (mm_calls m).
Definition set_heap v m := mkMotionMaster (mm_expList m) (mm_Impl m) (mm_top m) (mm_needInit m) (mm_cleanFlag m) v (mm_next m) (mm_calls m).
Definition add_call c m := mkMotionMaster (mm_expList m) (mm_Impl m) (mm_top m) (mm_needInit m) (mm_cleanFlag m) (mm_heap m) (mm_next m) (mm_calls m ++ [c]).
Definition allocate k m := mkMotionMaster (mm_expList m) (mm_Impl m) (mm_top m) (mm_needInit m) (mm_cleanFlag m) (<[mm_next m := k]> (mm_heap m)) (mm_next m + 1) (mm_calls m).

Abbreviation MMP := (prog MotionMaster MMError).

Definition MotionMaster_new : MotionMaster :=
  mkMotionMaster None [None; None; None] (-1) [true; true; true] 0 ∅ 1 [].

Definition empty (m : MotionMaster) : bool := mm_top m <? 0.
Definition size (m : MotionMaster) : Z := mm_top m + 1.
Definition has_clean (flag : Z) (m : MotionMaster) : bool := negb (Z.land (mm_cleanFlag m) flag =? 0).

(** ** The arrays and the generators *)

Definition in_slots (i : Z) : bool := (0 <=? i) && (i <? 3).

(** [Impl[i]] and [_needInit[i]]. *)
Definition Impl_at (i : Z) : MMP (option Z) :=
  m ← get; if in_slots i then mret (nth (Z.to_nat i) (mm_Impl m) None) else throw OutOfBounds.
Definition set_Impl_at (i : Z) (v : option Z) : MMP unit :=
  if in_slots i then modify (fun m => set_Impl (<[Z.to_nat i := v]> (mm_Impl m)) m) else throw OutOfBounds.
Definition needInit_at (i : Z) : MMP bool :=
  m ← get; if in_slots i then mret (nth (Z.to_nat i) (mm_needInit m) false) else throw OutOfBounds.
Definition set_needInit_at (i : Z) (v : bool) : MMP unit :=
  if in_slots i then modify (fun m => set_needInit (<[Z.to_nat i := v]> (mm_needInit m)) m) else throw OutOfBounds.

Definition top : MMP (option Z) := m ← get; Impl_at (mm_top m).
Definition needInitTop : MMP bool := m ← get; needInit_at (mm_top m).

Definition exists_generator (m : MotionMaster) (mg : Z) : bool :=
  isStatic mg || bool_decide (is_Some (mm_heap m !! mg)).

(** A pointer that is about to be used. *)
Definition deref_mg (p : option Z) : MMP Z :=
  m ← get;
  match p with
  | None => throw NullGenerator
  | Some mg => if exists_generator m mg then mret mg else throw FreedGenerator
  end.

Definition GetMovementGeneratorType (mg : Z) : MMP MovementGeneratorType :=
  m ← get; mret (if isStatic mg then IDLE_MOTION_TYPE else default NULL_MOTION_TYPE (mm_heap m !! mg)).

Definition new_generator (k : MovementGeneratorType) : MMP Z :=
  m ← get; modify (allocate k);; mret (mm_next m).

(** [while (!top()) --_top]. *)
Fixpoint skip_empty (fuel : nat) : MMP unit :=
  match fuel with
  | O => throw OutOfFuel
  | S fuel' =>
      t ← top;
      match t with
      | Some _ => mret tt
      | None => modify (fun m => set_top (mm_top m - 1) m);; skip_empty fuel'
      end
  end.
(** At most three slots and the index before the first. *)
Definition skip_fuel : nat := 5.

Definition pop : MMP unit :=
  m ← get; set_Impl_at (mm_top m) None;; skip_empty skip_fuel.

Definition DelayedDelete (curr : option Z) : MMP unit :=
  mg ← deref_mg curr;
  if isStatic mg then mret tt
  else modify (fun m => set_expList (Some (default [] (mm_expList m) ++ [mg])) m).

Definition DelayedExpire : MMP unit :=
  m ← get;
  (if 1 <? size m then curr ← top; pop;; DelayedDelete curr else mret tt);;
  skip_empty skip_fuel.

(** ** The requests *)

(** What a request reads of the unit. *)
Record Owner := mkOwner {
  ow_player : bool;
  ow_charmed : bool;
  ow_charmer : bool;
  ow_disable_move : bool;
  ow_prevents_fleeing : bool;
  ow_default : option MovementGeneratorType
}.

(** The [Move*] functions with the conditions on their arguments. *)
Inductive Move :=
| MoveIdle | MoveRandom | MoveTargetedHome | MoveConfused
| MoveChase (valid : bool) | MoveFollow (valid : bool) (slot : MovementSlot)
| MovePoint | MoveLand | MoveTakeoff | MoveKnockbackFrom | MoveJumpTo | MoveJump
| MoveFall (falls : bool) | MoveCharge | MoveSeekAssistance | MoveSeekAssistanceDistract
| MoveFleeing (enemy : bool) (time : Z) | MoveTaxiFlight (path_exists : bool)
| MoveDistract | MovePath (path_id : Z) | MoveRotate (time : Z).

#[export] Instance Move_eq_dec : EqDecision Move.
Proof. solve_decision. Defined.

Inductive Op :=
| op_Move (o : Owner) (mv : Move)
| op_Clear (reset : bool)
| op_MovementExpired (o : Owner) (reset : bool)
| op_InitDefault (o : Owner)
| op_Initialize (o : Owner)
| op_propagateSpeedChange.

(** The movement a request starts, if it starts one: the class of the generator,
    [None] for the idle one, and its slot. *)
Abbreviation Movement := (option (option MovementGeneratorType * MovementSlot)).
Definition start_if (b : bool) (k : MovementGeneratorType) (slot : MovementSlot) : Movement :=
  if b then Some (Some k, slot) else None.
Definition creature (o : Owner) : bool := negb (ow_player o).
Definition controlled (m : MotionMaster) : option Z := nth 2 (mm_Impl m) None.

Definition start_MoveIdle (m : MotionMaster) : Movement :=
  let t := nth (Z.to_nat (mm_top m)) (mm_Impl m) None in
  if empty m || negb (match t with Some mg => isStatic mg | None => false end)
  then Some (None, MOTION_SLOT_IDLE) else None.
Definition start_MoveRandom (o : Owner) : Movement := start_if (creature o) RANDOM_MOTION_TYPE MOTION_SLOT_IDLE.
Definition start_MoveTargetedHome (o : Owner) : Movement :=
  if creature o && negb (ow_charmed o) then Some (Some HOME_MOTION_TYPE, MOTION_SLOT_ACTIVE)
  else if creature o && ow_charmed o then start_if (ow_charmer o) FOLLOW_MOTION_TYPE MOTION_SLOT_ACTIVE
  else None.
Definition start_MoveConfused : Movement := Some (Some CONFUSED_MOTION_TYPE, MOTION_SLOT_CONTROLLED).
Definition start_MoveChase (o : Owner) (valid : bool) : Movement :=
  start_if (valid && negb (ow_disable_move o)) CHASE_MOTION_TYPE MOTION_SLOT_ACTIVE.
Definition start_MoveFollow (o : Owner) (valid : bool) (slot : MovementSlot) : Movement :=
  start_if (valid && negb (ow_disable_move o)) FOLLOW_MOTION_TYPE slot.
Definition start_MovePoint : Movement := Some (Some POINT_MOTION_TYPE, MOTION_SLOT_ACTIVE).
Definition start_MoveLand : Movement := Some (Some EFFECT_MOTION_TYPE, MOTION_SLOT_ACTIVE).
Definition start_MoveTakeoff : Movement := Some (Some EFFECT_MOTION_TYPE, MOTION_SLOT_ACTIVE).
Definition start_MoveJump : Movement := Some (Some EFFECT_MOTION_TYPE, MOTION_SLOT_CONTROLLED).
Definition start_MoveKnockbackFrom (o : Owner) : Movement :=
  if ow_player o then None else Some (Some EFFECT_MOTION_TYPE, MOTION_SLOT_CONTROLLED).
Definition start_MoveJumpTo (o : Owner) : Movement := if ow_player o then None else start_MoveJump.
Definition start_MoveFall (falls : bool) : Movement := start_if falls EFFECT_MOTION_TYPE MOTION_SLOT_CONTROLLED.
Definition start_MoveCharge (m : MotionMaster) : Movement :=
  start_if (match controlled m with
            | None => true
            | Some mg => bool_decide (mm_heap m !! mg = Some DISTRACT_MOTION_TYPE)
            end) POINT_MOTION_TYPE MOTION_SLOT_CONTROLLED.
Definition start_MoveSeekAssistance (o : Owner) : Movement :=
  start_if (creature o) ASSISTANCE_MOTION_TYPE MOTION_SLOT_ACTIVE.
Definition start_MoveSeekAssistanceDistract (o : Owner) : Movement :=
  start_if (creature o) ASSISTANCE_DISTRACT_MOTION_TYPE MOTION_SLOT_ACTIVE.
Definition start_MoveFleeing (o : Owner) (enemy : bool) (time : Z) : Movement :=
  if negb enemy then None
  else if ow_prevents_fleeing o then None
  else if ow_player o then Some (Some FLEEING_MOTION_TYPE, MOTION_SLOT_CONTROLLED)
  else if negb (time =? 0) then Some (Some TIMED_FLEEING_MOTION_TYPE, MOTION_SLOT_CONTROLLED)
  else Some (Some FLEEING_MOTION_TYPE, MOTION_SLOT_CONTROLLED).
Definition start_MoveTaxiFlight (o : Owner) (path_exists : bool) : Movement :=
  start_if (ow_player o && path_exists) FLIGHT_MOTION_TYPE MOTION_SLOT_CONTROLLED.
Definition start_MoveDistract (m : MotionMaster) : Movement :=
  start_if (match controlled m with None => true | Some _ => false end) DISTRACT_MOTION_TYPE MOTION_SLOT_CONTROLLED.
Definition start_MovePath (path_id : Z) : Movement :=
  start_if (negb (path_id =? 0)) WAYPOINT_MOTION_TYPE MOTION_SLOT_IDLE.
Definition start_MoveRotate (time : Z) : Movement :=
  start_if (negb (time =? 0)) ROTATE_MOTION_TYPE MOTION_SLOT_ACTIVE.

Definition movement_of (o : Owner) (mv : Move) (m : MotionMaster) : Movement :=
  match mv with
  | MoveIdle => start_MoveIdle m
  | MoveRandom => start_MoveRandom o
  | MoveTargetedHome => start_MoveTargetedHome o
  | MoveConfused => start_MoveConfused
  | MoveChase valid => start_MoveChase o valid
  | MoveFollow valid slot => start_MoveFollow o valid slot
  | MovePoint => start_MovePoint
  | MoveLand => start_MoveLand
  | MoveTakeoff => start_MoveTakeoff
  | MoveKnockbackFrom => start_MoveKnockbackFrom o
  | MoveJumpTo => start_MoveJumpTo o
  | MoveJump => start_MoveJump
  | MoveFall falls => start_MoveFall falls
  | MoveCharge => start_MoveCharge m
  | MoveSeekAssistance => start_MoveSeekAssistance o
  | MoveSeekAssistanceDistract => start_MoveSeekAssistanceDistract o
  | MoveFleeing enemy time => start_MoveFleeing o enemy time
  | MoveTaxiFlight path_exists => start_MoveTaxiFlight o path_exists
  | MoveDistract => start_MoveDistract m
  | MovePath path_id => start_MovePath path_id
  | MoveRotate time => start_MoveRotate time
  end.

(** A pointer a request reads: [MoveCharge] asks the controlled generator its
    type. *)
Definition read_controlled (mv : Move) : MMP unit :=
  match mv with
  | MoveCharge =>
      p ← Impl_at 2;
      match p with Some mg => deref_mg (Some mg);; mret tt | None => mret tt end
  | _ => mret tt
  end.

Section Generators.
(** What a generator does to the motion master when it is called, and whether
    its [Update] asks to go on. *)
Context (reaction : Call -> list (MotionMaster -> option Op)) (goes_on : MotionMaster -> Z -> bool).

Section Core.
Context (notify : Call -> MMP unit).

Definition call (c : Z -> Call) (p : option Z) : MMP unit := mg ← deref_mg p; notify (c mg).

Definition DirectDelete (curr : option Z) : MMP unit :=
  match curr with
  | Some mg =>
      if isStatic mg then mret tt
      else
        call Finalize_call curr;;
        mg ← deref_mg curr;
        modify (fun m => set_heap (delete mg (mm_heap m)) m)
  | None => throw NullGenerator
  end.

Definition InitTop : MMP unit :=
  t ← top; call Initialize_call t;; m ← get; set_needInit_at (mm_top m) false.

(** What ends every change: the new top starts or resumes. *)
Definition settle (reset : bool) : MMP unit :=
  need ← needInitTop;
  if need : bool then InitTop
  else if reset then t ← top; call Reset_call t else mret tt.

(** [while (size() > 1) { curr = top(); pop(); if (curr) del(curr); }] *)
Fixpoint clean_loop (fuel : nat) (del : option Z -> MMP unit) : MMP unit :=
  match fuel with
  | O => throw OutOfFuel
  | S fuel' =>
      m ← get;
      if 1 <? size m then
        curr ← top;
        pop;;
        (match curr with Some _ => del curr | None => mret tt end);;
        clean_loop fuel' del
      else mret tt
  end.

Definition DirectClean (fuel : nat) (reset : bool) : MMP unit :=
  clean_loop fuel DirectDelete;; settle reset.
Definition DelayedClean (fuel : nat) : MMP unit := clean_loop fuel DelayedDelete.

Definition Mutate (mg : Z) (slot : MovementSlot) : MMP unit :=
  let s := slot_index slot in
  curr ← Impl_at s;
  (match curr with
   | Some _ =>
       set_Impl_at s None;;
       m ← get;
       if (mm_top m =? s) && has_clean MMCF_UPDATE m then DelayedDelete curr else DirectDelete curr
   | None => modify (fun m => if mm_top m <? s then set_top s m else m)
   end);;
  set_Impl_at s (Some mg);;
  m ← get;
  if s <? mm_top m then set_needInit_at s true
  else set_needInit_at s false;; call Initialize_call (Some mg).

(** The default movement; a player's is to stand idle. *)
Definition InitDefault (o : Owner) : MMP unit :=
  match (if ow_player o then None else ow_default o) with
  | Some k => mg ← new_generator k; Mutate mg MOTION_SLOT_IDLE
  | None => Mutate si_idleMovement MOTION_SLOT_IDLE
  end.

(** [while (!empty()) { curr = top(); pop(); if (curr) DirectDelete(curr); }],
    which is also the whole of the destructor. *)
Fixpoint clear_all (fuel : nat) : MMP unit :=
  match fuel with
  | O => throw OutOfFuel
  | S fuel' =>
      m ← get;
      if empty m then mret tt
      else
        curr ← top;
        pop;;
        (match curr with Some _ => DirectDelete curr | None => mret tt end);;
        clear_all fuel'
  end.

Definition Initialize (fuel : nat) (o : Owner) : MMP unit := clear_all fuel;; InitDefault o.

Definition DirectExpire (fuel : nat) (o : Owner) (reset : bool) : MMP unit :=
  m ← get;
  (if 1 <? size m then curr ← top; pop;; DirectDelete curr else mret tt);;
  skip_empty skip_fuel;;
  m ← get;
  if empty m then Initialize fuel o else settle reset.

(** [_cleanFlag |= MMCF_RESET] or its opposite. *)
Definition mark_reset (reset : bool) : MMP unit :=
  modify (fun m => set_cleanFlag (if reset then Z.lor (mm_cleanFlag m) MMCF_RESET
                                  else Z.ldiff (mm_cleanFlag m) MMCF_RESET) m).

Definition Clear (fuel : nat) (reset : bool) : MMP unit :=
  m ← get;
  if has_clean MMCF_UPDATE m then mark_reset reset;; DelayedClean fuel else DirectClean fuel reset.
Definition MovementExpired (fuel : nat) (o : Owner) (reset : bool) : MMP unit :=
  m ← get;
  if has_clean MMCF_UPDATE m then mark_reset reset;; DelayedExpire else DirectExpire fuel o reset.

Definition start (fuel : nat) (o : Owner) (mv : Move) : MMP unit :=
  (match mv with MoveTargetedHome => Clear fuel false | _ => mret tt end);;
  read_controlled mv;;
  m ← get;
  match movement_of o mv m with
  | None => mret tt
  | Some (None, slot) => Mutate si_idleMovement slot
  | Some (Some k, slot) => mg ← new_generator k; Mutate mg slot
  end.

(** Up to the top of the moment. *)
Fixpoint speed_loop (i : list Z) : MMP unit :=
  match i with
  | [] => mret tt
  | j :: i' =>
      m ← get;
      if j <=? mm_top m then
        p ← Impl_at j;
        (match p with Some _ => call unitSpeedChanged_call p | None => mret tt end);;
        speed_loop i'
      else mret tt
  end.
Definition propagateSpeedChange : MMP unit := speed_loop [0; 1; 2; 3].

Definition perform (fuel : nat) (op : Op) : MMP unit :=
  match op with
  | op_Move o mv => start fuel o mv
  | op_Clear reset => Clear fuel reset
  | op_MovementExpired o reset => MovementExpired fuel o reset
  | op_InitDefault o => InitDefault o
  | op_Initialize o => Initialize fuel o
  | op_propagateSpeedChange => propagateSpeedChange
  end.

(** The generators to delete after an update, by index. *)
Fixpoint expire_loop (fuel : nat) (i : nat) : MMP unit :=
  match fuel with
  | O => throw OutOfFuel
  | S fuel' =>
      m ← get;
      match default [] (mm_expList m) !! i with
      | Some mg => DirectDelete (Some mg);; expire_loop fuel' (S i)
      | None => mret tt
      end
  end.

Definition finish_update (fuel : nat) (o : Owner) : MMP unit :=
  m ← get;
  match mm_expList m with
  | None => mret tt
  | Some _ =>
      expire_loop fuel 0;;
      modify (set_expList None);;
      m ← get;
      (if empty m then Initialize fuel o else settle (has_clean MMCF_RESET m));;
      modify (fun m => set_cleanFlag (Z.ldiff (mm_cleanFlag m) MMCF_RESET) m)
  end.

(** [UpdateMotion]; [held] is the test for a rooted or stunned unit.  The object
    whose [Update] runs must outlive it.  The unit's underwater state, updated
    last, is not modelled. *)
Definition UpdateMotion (fuel : nat) (o : Owner) (held : bool) : MMP unit :=
  if held then mret tt
  else
    m ← get;
    if empty m then throw AssertFailed
    else
      modify (fun m => set_cleanFlag (Z.lor (mm_cleanFlag m) MMCF_UPDATE) m);;
      t ← top;
      call Update_call t;;
      mg ← deref_mg t;
      m ← get;
      modify (fun m => set_cleanFlag (Z.ldiff (mm_cleanFlag m) MMCF_UPDATE) m);;
      (if goes_on m mg then mret tt else MovementExpired fuel o true);;
      finish_update fuel o.
End Core.

(** A call runs its requests, whose calls run theirs. *)
Fixpoint notify (fuel : nat) (c : Call) : MMP unit :=
  match fuel with
  | O => throw OutOfFuel
  | S fuel' =>
      modify (add_call c);;
      forM (reaction c) (fun choose =>
        m ← get;
        match choose m with
        | Some op => perform (notify fuel') fuel' op
        | None => mret tt
        end)
  end.
End Generators.

Definition GetCurrentMovementGeneratorType : MMP MovementGeneratorType :=
  m ← get;
  if empty m then mret IDLE_MOTION_TYPE
  else t ← top; mg ← deref_mg t; GetMovementGeneratorType mg.
Definition GetMotionSlotType (slot : Z) : MMP MovementGeneratorType :=
  p ← Impl_at slot;
  match p with
  | None => mret NULL_MOTION_TYPE
  | Some mg => mg ← deref_mg (Some mg); GetMovementGeneratorType mg
  end.
