(* ===== verification/MotionProofs.v ===== *)
(** * Movement generators: correctness

    The invariant of a motion master and its re-entrant calls: with generators
    that start movements when they begin and end, and that while updating start
    them no lower than the top, no request reads outside the slots, follows a
    null pointer or touches a deleted generator. *)

From S2P Require Import Prelude.
From stdpp Require Import list.
From S2P Require Import MotionMaster.
Local Open Scope Z_scope.

(** ** The state *)

Definition slot_at (i : Z) (m : MotionMaster) : option Z := nth (Z.to_nat i) (mm_Impl m) None.
Definition filled (i : Z) (m : MotionMaster) : Prop := is_Some (slot_at i m).
Definition is_slot (i : Z) : Prop := 0 <= i < 3.
Definition updating (m : MotionMaster) : bool := has_clean MMCF_UPDATE m.
Definition exists_mg (m : MotionMaster) (mg : Z) : Prop := mg = si_idleMovement \/ is_Some (mm_heap m !! mg).

(** [mg] is in a slot or waits in [pend] to be deleted. *)
Definition owned (pend : list Z) (m : MotionMaster) (mg : Z) : Prop :=
  (exists i, is_slot i /\ slot_at i m = Some mg) \/ mg ∈ pend.
(** [mg] exists but is in no slot: it is being started or ended. *)
Definition limbo (pend : list Z) (m : MotionMaster) (mg : Z) : Prop :=
  is_Some (mm_heap m !! mg) /\ ~ owned pend m mg.

(** The invariant; of the generators to delete after the update, [dn] are gone
    and [pend] are left. *)
Record winv (dn pend : list Z) (m : MotionMaster) : Prop := {
  wi_len : length (mm_Impl m) = 3%nat;
  wi_top : is_slot (mm_top m);
  wi_above i : is_slot i -> mm_top m < i -> slot_at i m = None;
  wi_alive mg : owned pend m mg -> exists_mg m mg;
  wi_once i j mg : is_slot i -> is_slot j -> slot_at i m = Some mg -> slot_at j m = Some mg ->
    mg <> si_idleMovement -> i = j;
  wi_pend : NoDup pend;
  wi_pend_slot i mg : is_slot i -> slot_at i m = Some mg -> mg ∉ pend;
  wi_list : default [] (mm_expList m) = dn ++ pend;
  wi_heap mg : is_Some (mm_heap m !! mg) -> si_idleMovement < mg < mm_next m;
  wi_static : si_idleMovement ∉ pend;
  wi_next : si_idleMovement < mm_next m
}.

(** Between requests the idle slot and the top are filled. *)
Definition minv (dn pend : list Z) (m : MotionMaster) : Prop :=
  winv dn pend m /\ filled 0 m /\ filled (mm_top m) m.

(** ** Running a program *)

(** Running out of fuel is allowed unless [total]. *)
Definition may_run_out (total : Prop) (e : MMError) : Prop := e = OutOfFuel /\ ~ total.
Abbreviation wp total := (Prelude.wp (may_run_out total)).

Lemma wp_fuel (total : Prop) {A} m (Q : A -> MotionMaster -> Prop) : ~ total -> wp total (throw OutOfFuel) m Q.
Proof. by intros H. Qed.

(** *** The primitives *)

Lemma in_slots_true i : is_slot i -> in_slots i = true.
Proof. intros [H1 H2]. unfold in_slots. by rewrite (proj2 (Z.leb_le _ _)), (proj2 (Z.ltb_lt _ _)). Qed.

Lemma Impl_at_ok i m : is_slot i -> Impl_at i m = (Ok (slot_at i m), m).
Proof. intros H. unfold Impl_at. rewrite (bind_ok get _ m m m eq_refl). by rewrite in_slots_true. Qed.
Lemma top_ok m : is_slot (mm_top m) -> top m = (Ok (slot_at (mm_top m) m), m).
Proof. intros H. unfold top. rewrite (bind_ok get _ m m m eq_refl). by apply Impl_at_ok. Qed.
Lemma needInitTop_ok m : is_slot (mm_top m) ->
  exists b, needInitTop m = (Ok b, m).
Proof.
  intros H. eexists. unfold needInitTop, needInit_at. rewrite (bind_ok get _ m m m eq_refl).
  rewrite (bind_ok get _ m m m eq_refl). by rewrite in_slots_true.
Qed.

Definition with_slot (i : Z) (v : option Z) (m : MotionMaster) : MotionMaster :=
  set_Impl (<[Z.to_nat i := v]> (mm_Impl m)) m.
Lemma set_Impl_at_ok i v m : is_slot i -> set_Impl_at i v m = (Ok tt, with_slot i v m).
Proof. intros H. unfold set_Impl_at. by rewrite in_slots_true. Qed.

Lemma slot_at_with i j v m : length (mm_Impl m) = 3%nat -> is_slot i -> is_slot j ->
  slot_at j (with_slot i v m) = if decide (i = j) then v else slot_at j m.
Proof.
  intros Hl [Hi1 Hi2] [Hj1 Hj2]. unfold slot_at, with_slot. cbn [mm_Impl set_Impl].
  destruct (decide (i = j)) as [->|Hne].
  - rewrite nth_lookup, list_lookup_insert_eq by lia. done.
  - rewrite !nth_lookup, list_lookup_insert_ne by lia. done.
Qed.

Lemma deref_mg_ok m mg : exists_mg m mg -> deref_mg (Some mg) m = (Ok mg, m).
Proof.
  intros H. unfold deref_mg. rewrite (bind_ok get _ m m m eq_refl). unfold exists_generator.
  destruct H as [->|H]; [done|]. by rewrite (bool_decide_eq_true_2 _ H), orb_true_r.
Qed.

Lemma isStatic_spec mg : isStatic mg = true <-> mg = si_idleMovement.
Proof. apply Z.eqb_eq. Qed.

(** ** Steps of the invariant *)

Lemma winv_same dn pend m m' : mm_Impl m' = mm_Impl m -> mm_top m' = mm_top m ->
  mm_expList m' = mm_expList m -> mm_heap m' = mm_heap m -> mm_next m' = mm_next m ->
  winv dn pend m -> winv dn pend m'.
Proof.
  intros H1 H2 H3 H4 H5 []. unfold owned, exists_mg, slot_at in *.
  split; unfold owned, exists_mg, slot_at; rewrite ?H1, ?H2, ?H3, ?H4, ?H5; auto.
Qed.

Lemma limbo_same pend m m' mg : mm_Impl m' = mm_Impl m -> mm_heap m' = mm_heap m ->
  limbo pend m mg -> limbo pend m' mg.
Proof. intros H1 H2. unfold limbo, owned, slot_at. by rewrite H1, H2. Qed.

Lemma limbo_alive pend m mg : limbo pend m mg -> exists_mg m mg.
Proof. intros [H _]. by right. Qed.

Lemma slot_owned pend i m mg : is_slot i -> slot_at i m = Some mg -> owned pend m mg.
Proof. intros Hi H. left. eauto. Qed.

Lemma owned_with pend s v m mg : length (mm_Impl m) = 3%nat -> is_slot s ->
  owned pend (with_slot s v m) mg -> owned pend m mg \/ v = Some mg.
Proof.
  intros Hl Hs [(i & Hi & H)|H]; [|by left; right].
  rewrite slot_at_with in H by done. destruct (decide (s = i)); [by right|]. left. left. eauto.
Qed.

Lemma winv_unset dn pend s m : is_slot s -> winv dn pend m -> winv dn pend (with_slot s None m).
Proof.
  intros Hs Hm. pose proof (wi_len _ _ _ Hm) as Hl.
  assert (forall i mg, is_slot i -> slot_at i (with_slot s None m) = Some mg -> slot_at i m = Some mg) as Hsub.
  { intros i mg Hi. rewrite slot_at_with by done. by destruct (decide (s = i)). }
  destruct Hm. split; auto.
  - unfold with_slot. cbn. by rewrite length_insert.
  - intros i Hi Hlt. rewrite slot_at_with by done. destruct (decide (s = i)); auto.
  - intros mg Ho. apply wi_alive0. destruct (owned_with _ _ _ _ _ Hl Hs Ho); [done|discriminate].
  - intros i j mg Hi Hj H1 H2. apply (wi_once0 i j mg); auto.
  - intros i mg Hi H. apply (wi_pend_slot0 i); auto.
Qed.

Lemma limbo_unset dn pend s m mg : is_slot s -> winv dn pend m -> slot_at s m = Some mg ->
  mg <> si_idleMovement -> limbo pend (with_slot s None m) mg.
Proof.
  intros Hs Hm H Hst. split.
  - destruct (wi_alive _ _ _ Hm mg (slot_owned pend s m mg Hs H)); [done|by cbn].
  - intros [(i & Hi & H')|H'].
    + rewrite slot_at_with in H' by (done || apply Hm). destruct (decide (s = i)) as [|Hne]; [done|].
      apply Hne. by apply (wi_once _ _ _ Hm s i mg).
    + by apply (wi_pend_slot _ _ _ Hm s mg).
Qed.

Lemma limbo_unset_other dn pend s m mg : is_slot s -> winv dn pend m ->
  limbo pend m mg -> limbo pend (with_slot s None m) mg.
Proof.
  intros Hs Hm [H1 H2]. split; [done|]. intros Ho. apply H2.
  destruct (owned_with _ _ _ _ _ (wi_len _ _ _ Hm) Hs Ho); [done|discriminate].
Qed.

(** A generator that may be put in a slot. *)
Definition free_mg (pend : list Z) (m : MotionMaster) (mg : Z) : Prop :=
  mg = si_idleMovement \/ limbo pend m mg.

Lemma winv_set dn pend s m mg : is_slot s -> winv dn pend m -> s <= mm_top m -> free_mg pend m mg ->
  winv dn pend (with_slot s (Some mg) m).
Proof.
  intros Hs Hm Ht Hfree. pose proof (wi_len _ _ _ Hm) as Hl.
  assert (forall i g, is_slot i -> slot_at i (with_slot s (Some mg) m) = Some g ->
    (i = s /\ g = mg) \/ (i <> s /\ slot_at i m = Some g)) as Hsub.
  { intros i g Hi. rewrite slot_at_with by done. destruct (decide (s = i)) as [->|]; [|by right].
    intros [= ->]. by left. }
  assert (mg <> si_idleMovement -> forall i, is_slot i -> slot_at i m <> Some mg) as Hno.
  { intros Hst i Hi H. destruct Hfree as [|[_ Hlim]]; [done|]. apply Hlim. left. eauto. }
  destruct Hm. split; auto.
  - unfold with_slot. cbn. by rewrite length_insert.
  - intros i Hi Hlt. change (mm_top (with_slot s (Some mg) m)) with (mm_top m) in Hlt.
    rewrite slot_at_with by done. destruct (decide (s = i)); [lia|auto].
  - intros g Ho. destruct (owned_with _ _ _ _ _ Hl Hs Ho) as [|[= ->]]; [by apply wi_alive0|].
    destruct Hfree as [->|[H _]]; [by left|by right].
  - intros i j g Hi Hj H1 H2 Hst.
    destruct (Hsub i g Hi H1) as [[Ei Eg]|[Hi' H1']], (Hsub j g Hj H2) as [[Ej Eg']|[Hj' H2']].
    + congruence.
    + subst g. by destruct (Hno Hst j Hj).
    + subst g. by destruct (Hno Hst i Hi).
    + by apply (wi_once0 i j g).
  - intros i g Hi H Hin. destruct (Hsub i g Hi H) as [[-> ->]|[_ H']]; [|by apply (wi_pend_slot0 i g)].
    destruct Hfree as [->|[_ Hlim]]; [done|]. apply Hlim. by right.
Qed.

Lemma winv_set_top dn pend t m : is_slot t -> winv dn pend m ->
  (forall i, is_slot i -> t < i -> slot_at i m = None) -> winv dn pend (set_top t m).
Proof. by intros Ht [] Habove; split; cbn. Qed.

Lemma winv_free dn pend m mg : winv dn pend m -> limbo pend m mg ->
  winv dn pend (set_heap (delete mg (mm_heap m)) m).
Proof.
  intros [] [H1 H2]. split; auto; cbn.
  - intros g Ho. destruct (wi_alive0 g Ho) as [|H]; [by left|]. right. cbn.
    rewrite lookup_delete_ne; [done|]. intros ->. by apply H2.
  - intros g Hg. apply wi_heap0. destruct (decide (g = mg)) as [->|]; [by rewrite lookup_delete_eq in Hg|].
    by rewrite lookup_delete_ne in Hg.
Qed.

Lemma limbo_free pend m mg g : g <> mg -> limbo pend m g ->
  limbo pend (set_heap (delete mg (mm_heap m)) m) g.
Proof. intros Hne [H1 H2]. split; [|done]. cbn. by rewrite lookup_delete_ne. Qed.

Lemma winv_allocate dn pend k m : winv dn pend m ->
  winv dn pend (allocate k m) /\ limbo pend (allocate k m) (mm_next m).
Proof.
  intros Hm. assert (mm_heap m !! mm_next m = None) as Hfresh.
  { destruct (mm_heap m !! mm_next m) eqn:E; [|done].
    destruct (wi_heap _ _ _ Hm (mm_next m) ltac:(by rewrite E)). lia. }
  assert (forall g, exists_mg m g -> exists_mg (allocate k m) g) as Hex.
  { intros g [->|Hg]; [by left|]. right. cbn. destruct (decide (mm_next m = g)) as [->|].
    - by rewrite lookup_insert_eq.
    - by rewrite lookup_insert_ne. }
  split; [destruct Hm; split; auto; cbn|split].
  - intros g Hg. destruct (decide (mm_next m = g)) as [<-|]; [lia|].
    rewrite lookup_insert_ne in Hg by done. specialize (wi_heap0 g Hg). lia.
  - lia.
  - cbn. by rewrite lookup_insert_eq.
  - intros Ho. destruct (wi_alive _ _ _ Hm _ Ho) as [H|H]; [pose proof (wi_next _ _ _ Hm); lia|].
    rewrite Hfresh in H. by destruct H.
Qed.

Lemma limbo_allocate dn pend k m mg : winv dn pend m -> limbo pend m mg ->
  limbo pend (allocate k m) mg /\ mg <> mm_next m.
Proof.
  intros Hm [H1 H2]. pose proof (wi_heap _ _ _ Hm mg H1). split; [|lia]. split; [|done]. cbn.
  by rewrite lookup_insert_ne by lia.
Qed.

(** Handing a generator over to the list of those to delete, and taking it
    from there. *)
Lemma winv_delay dn pend m mg : winv dn pend m -> limbo pend m mg ->
  winv dn (pend ++ [mg]) (set_expList (Some (default [] (mm_expList m) ++ [mg])) m).
Proof.
  intros Hm [H1 H2]. pose proof (wi_heap _ _ _ Hm mg H1) as Hh. destruct Hm. split; auto; cbn.
  - intros g [Ho|Ho%elem_of_app]; [by apply wi_alive0; left|].
    destruct Ho as [Ho|Ho%list_elem_of_singleton]; [by apply wi_alive0; right|]. subst. by right.
  - apply NoDup_app. split_and!; [done| |apply NoDup_singleton].
    intros g Hg ->%list_elem_of_singleton. apply H2. by right.
  - intros i g Hi Hs Hin%elem_of_app. destruct Hin as [Hin|Hin%list_elem_of_singleton].
    + by apply (wi_pend_slot0 i g).
    + subst. apply H2. left. eauto.
  - by rewrite wi_list0, app_assoc.
  - intros Hin%elem_of_app. destruct Hin as [Hin|Hin%list_elem_of_singleton]; [done|]. lia.
Qed.

Lemma winv_next dn pend m mg : winv dn (mg :: pend) m ->
  winv (dn ++ [mg]) pend m /\ limbo pend m mg /\ mg <> si_idleMovement.
Proof.
  intros Hm. assert (mg <> si_idleMovement) as Hst.
  { intros ->. apply (wi_static _ _ _ Hm). by left. }
  assert (owned (mg :: pend) m mg) as Ho by (right; by left).
  split_and!; [|split|done].
  - destruct Hm. apply NoDup_cons in wi_pend0 as [Hn Hnd]. split; auto.
    + intros g Hg. apply wi_alive0. destruct Hg as [|Hg]; [by left|]. right. by right.
    + intros i g Hi Hs Hin. apply (wi_pend_slot0 i g Hi Hs). by right.
    + by rewrite wi_list0, <- app_assoc.
    + intros Hin. apply wi_static0. by right.
  - by destruct (wi_alive _ _ _ Hm mg Ho).
  - intros [(i & Hi & Hs)|Hin].
    + apply (wi_pend_slot _ _ _ Hm i mg Hi Hs). by left.
    + pose proof (wi_pend _ _ _ Hm) as Hnd. by apply NoDup_cons in Hnd as [? _].
Qed.

(** *** Finding the new top *)

Lemma skip_empty_ok fuel m : length (mm_Impl m) = 3%nat -> is_slot (mm_top m) -> filled 0 m ->
  mm_top m < Z.of_nat fuel -> exists t, skip_empty fuel m = (Ok tt, set_top t m) /\ is_slot t
    /\ t <= mm_top m /\ filled t m /\ forall i, is_slot i -> t < i <= mm_top m -> slot_at i m = None.
Proof.
  revert m. induction fuel as [|fuel IH]; intros m Hl Ht H0 Hf; [destruct Ht; lia|]. cbn [skip_empty].
  rewrite (bind_ok _ _ m _ m (top_ok m Ht)). destruct (slot_at (mm_top m) m) as [g|] eqn:E.
  { exists (mm_top m). split_and!; [by destruct m|done|lia|by eexists|lia]. }
  match goal with |- context [modify ?f] => rewrite (bind_ok (modify f) _ m tt (f m) eq_refl) end.
  assert (mm_top m <> 0) as Hne by (intros Hz; rewrite Hz in E; by destruct H0; congruence).
  destruct (IH (set_top (mm_top m - 1) m)) as (t & Er & Hts & Hle & Hfl & Hab);
    [done|destruct Ht; split; cbn; lia|done|cbn; lia|].
  cbn in Hle, Hab. exists t. split_and!; [done|done|lia|done|].
  intros i Hi Hlt. destruct (decide (i = mm_top m)) as [->|]; [done|]. apply (Hab i Hi). lia.
Qed.

Lemma skip_empty_top dn pend m : minv dn pend m -> skip_empty skip_fuel m = (Ok tt, m).
Proof.
  intros (Hm & _ & [g Hg]). unfold skip_fuel. cbn [skip_empty].
  rewrite (bind_ok _ _ m _ m (top_ok m (wi_top _ _ _ Hm))). by rewrite Hg.
Qed.

Definition popped (t : Z) (m : MotionMaster) : MotionMaster := set_top t (with_slot (mm_top m) None m).

Lemma pop_ok dn pend m g : minv dn pend m -> 0 < mm_top m -> slot_at (mm_top m) m = Some g ->
  exists t, pop m = (Ok tt, popped t m) /\ minv dn pend (popped t m) /\ t < mm_top m
    /\ free_mg pend (popped t m) g.
Proof.
  intros (Hm & H0 & Htop) Hpos Hg. pose proof (wi_top _ _ _ Hm) as Ht.
  set (m1 := with_slot (mm_top m) None m).
  assert (winv dn pend m1) as Hm1 by (by apply winv_unset).
  assert (forall i, is_slot i -> i <> mm_top m -> slot_at i m1 = slot_at i m) as Hother.
  { intros i Hi Hne. unfold m1. rewrite slot_at_with by (done || apply Hm).
    destruct (decide (mm_top m = i)); [congruence|done]. }
  assert (filled 0 m1) as H01 by (unfold filled; rewrite Hother; [done|split; lia|lia]).
  assert (slot_at (mm_top m) m1 = None) as Hnone.
  { unfold m1. rewrite slot_at_with by (done || apply Hm). by rewrite decide_True. }
  destruct (skip_empty_ok skip_fuel m1) as (t & E & Hts & Hle & Hfl & Hab); [apply Hm1|done|done| |].
  { unfold skip_fuel. destruct Ht. change (mm_top m1) with (mm_top m). lia. }
  change (mm_top m1) with (mm_top m) in Hle, Hab. exists t. split_and!.
  - unfold pop. rewrite (bind_ok get _ m m m eq_refl), (bind_ok _ _ m tt m1 (set_Impl_at_ok _ _ _ Ht)).
    exact E.
  - split; [|done]. apply winv_set_top; [done..|]. intros i Hi Hlt.
    destruct (decide (i <= mm_top m)); [apply Hab; [done|lia]|].
    rewrite Hother by (done || lia). apply (wi_above _ _ _ Hm i); [done|lia].
  - assert (t <> mm_top m) by (intros ->; destruct Hfl as [? Hfl]; congruence). lia.
  - destruct (decide (g = si_idleMovement)); [by left|right].
    apply (limbo_same pend m1); [done..|]. by apply (limbo_unset dn).
Qed.

(** ** What a call outside an update may do *)

Record evolve (gone dn pend : list Z) (m m' : MotionMaster) : Prop := {
  ev_inv : winv dn pend m';
  ev_flag : mm_cleanFlag m' = mm_cleanFlag m;
  ev_filled i : is_slot i -> filled i m -> filled i m';
  ev_top : mm_top m' = mm_top m \/ (mm_top m < mm_top m' /\ filled (mm_top m') m');
  ev_frame mg : mg ∉ gone -> limbo pend m mg -> limbo pend m' mg
}.

Lemma evolve_refl dn pend m : winv dn pend m -> evolve [] dn pend m m.
Proof. intros Hm. split; auto. Qed.

Lemma evolve_same dn pend m m' : mm_Impl m' = mm_Impl m -> mm_top m' = mm_top m ->
  mm_expList m' = mm_expList m -> mm_heap m' = mm_heap m -> mm_next m' = mm_next m ->
  mm_cleanFlag m' = mm_cleanFlag m -> winv dn pend m -> evolve [] dn pend m m'.
Proof.
  intros H1 H2 H3 H4 H5 H6 Hm. split; auto.
  - by apply (winv_same dn pend m).
  - intros i _. unfold filled, slot_at. by rewrite H1.
  - intros mg _. by apply limbo_same.
Qed.

Lemma evolve_trans gone gone' dn pend m1 m2 m3 : evolve gone dn pend m1 m2 ->
  evolve gone' dn pend m2 m3 -> evolve (gone ++ gone') dn pend m1 m3.
Proof.
  intros H1 H2. split.
  - apply H2.
  - etrans; [apply H2|apply H1].
  - intros i Hi H. by apply (ev_filled _ _ _ _ _ H2), (ev_filled _ _ _ _ _ H1).
  - pose proof (wi_top _ _ _ (ev_inv _ _ _ _ _ H1)) as Ht.
    destruct (ev_top _ _ _ _ _ H1) as [E1|[L1 F1]], (ev_top _ _ _ _ _ H2) as [E2|[L2 F2]].
    + left. congruence.
    + right. split; [lia|done].
    + right. rewrite E2. split; [lia|]. by apply (ev_filled _ _ _ _ _ H2).
    + right. split; [lia|done].
  - intros mg Hn Hl. rewrite elem_of_app in Hn. apply (ev_frame _ _ _ _ _ H2); [tauto|].
    apply (ev_frame _ _ _ _ _ H1); [tauto|done].
Qed.

Lemma evolve_weaken gone gone' dn pend m m' : (forall mg, limbo pend m mg -> mg ∈ gone -> mg ∈ gone') ->
  evolve gone dn pend m m' -> evolve gone' dn pend m m'.
Proof. intros Hg []. split; auto. Qed.

Lemma evolve_minv gone dn pend m m' : evolve gone dn pend m m' -> minv dn pend m -> minv dn pend m'.
Proof.
  intros H (Hm & H0 & Ht). split_and!; [apply H|apply (ev_filled _ _ _ _ _ H); [split; lia|done]|].
  destruct (ev_top _ _ _ _ _ H) as [->|[_ ?]]; [|done].
  apply (ev_filled _ _ _ _ _ H); [apply Hm|done].
Qed.

Lemma evolve_updating gone dn pend m m' : evolve gone dn pend m m' -> updating m' = updating m.
Proof. intros H. unfold updating, has_clean. by rewrite (ev_flag _ _ _ _ _ H). Qed.

(** ** The operations outside an update *)

Definition quiet_call (c : Call) : Prop := forall mg, c <> Update_call mg.

Section Outside.
Context (total : Prop) (N : Call -> MMP unit).

(** What is known of the calls. *)
Definition outside_calls : Prop := forall c dn pend m, quiet_call c -> winv dn pend m ->
  updating m = false ->
  wp total (N c) m (fun _ m' => evolve [] dn pend m m' /\ (total -> mm_top m' = mm_top m)).
Context (HN : outside_calls).

Lemma call_ok c dn pend m g : quiet_call (c g) -> winv dn pend m -> updating m = false -> exists_mg m g ->
  wp total (call N c (Some g)) m (fun _ m' => evolve [] dn pend m m' /\ (total -> mm_top m' = mm_top m)).
Proof. intros Hq Hm Hu Hg. unfold call. eapply wp_seq; [by apply deref_mg_ok|]. by apply HN. Qed.

Lemma DirectDelete_ok dn pend m g : winv dn pend m -> updating m = false -> free_mg pend m g ->
  wp total (DirectDelete N (Some g)) m
    (fun _ m' => evolve [g] dn pend m m' /\ (total -> mm_top m' = mm_top m)).
Proof.
  intros Hm Hu Hg. unfold DirectDelete. destruct (isStatic g) eqn:Est.
  { eapply wp_ok; [done|]. split; [|done]. eapply evolve_weaken; [|by apply evolve_refl].
    by intros mg _ ?%elem_of_nil. }
  destruct Hg as [->|Hg]; [done|]. apply wp_bind.
  eapply wp_mono; [apply (call_ok Finalize_call dn pend m); try done; by eapply limbo_alive|].
  intros _ m1 [Hev Htop]. pose proof (ev_frame _ _ _ _ _ Hev g ltac:(apply not_elem_of_nil) Hg) as Hg1.
  eapply wp_seq; [apply deref_mg_ok; by eapply limbo_alive|]. eapply wp_ok; [reflexivity|].
  split; [|done].
  apply (evolve_trans [] [g] dn pend m m1); [done|]. split; auto.
  - apply winv_free; [apply Hev|done].
  - intros mg Hn. apply limbo_free. intros ->. apply Hn. by left.
Qed.

Lemma set_needInit_at_ok i v m : is_slot i ->
  set_needInit_at i v m = (Ok tt, set_needInit (<[Z.to_nat i := v]> (mm_needInit m)) m).
Proof. intros Hi. unfold set_needInit_at. by rewrite in_slots_true. Qed.

Lemma slot_index_slot s : is_slot (slot_index s).
Proof. destruct s; split; cbn; lia. Qed.

(** Clearing the slot, or raising the top to it. *)
Lemma Mutate_clear dn pend m mg slot : winv dn pend m -> updating m = false -> free_mg pend m mg ->
  wp total
    (match slot_at (slot_index slot) m with
     | Some c => set_Impl_at (slot_index slot) None;;
         m ← get;
         if (mm_top m =? slot_index slot) && has_clean MMCF_UPDATE m then DelayedDelete (Some c)
         else DirectDelete N (Some c)
     | None => modify (fun m => if mm_top m <? slot_index slot then set_top (slot_index slot) m else m)
     end) m
    (fun _ m' => winv dn pend m' /\ free_mg pend m' mg /\ slot_index slot <= mm_top m'
       /\ mm_cleanFlag m' = mm_cleanFlag m
       /\ (forall i, is_slot i -> i <> slot_index slot -> filled i m -> filled i m')
       /\ (mm_top m' = mm_top m \/ mm_top m < mm_top m' /\ (mm_top m' = slot_index slot \/ filled (mm_top m') m'))
       /\ (forall g, limbo pend m g -> limbo pend m' g)).
Proof.
  intros Hm Hu Hfree. set (s := slot_index slot). assert (is_slot s) as Hs by apply slot_index_slot.
  destruct (slot_at s m) as [c|] eqn:Ec.
  - eapply wp_seq; [by apply set_Impl_at_ok|]. apply wp_get. set (m1 := with_slot s None m).
    assert (has_clean MMCF_UPDATE m1 = false) as -> by exact Hu. rewrite andb_false_r.
    assert (winv dn pend m1) as Hm1 by (by apply winv_unset).
    assert (s <= mm_top m) as Hle.
    { destruct (decide (s <= mm_top m)); [done|]. rewrite (wi_above _ _ _ Hm s) in Ec by (done || lia). done. }
    eapply wp_mono; [apply (DirectDelete_ok dn pend m1 c); [done|exact Hu|]|].
    { destruct (decide (c = si_idleMovement)); [by left|right]. by apply (limbo_unset dn). }
    intros _ m2 [Hev _].
    assert (forall g, limbo pend m g -> limbo pend m2 g) as Hframe.
    { intros g Hg. apply (ev_frame _ _ _ _ _ Hev); [|by apply (limbo_unset_other dn)].
      intros ->%list_elem_of_singleton. apply Hg. left. eauto. }
    split_and!; [apply Hev|destruct Hfree as [|Hfree]; [by left|right; by apply Hframe]| |apply Hev| | |done].
    + destruct (ev_top _ _ _ _ _ Hev) as [E|[E _]]; change (mm_top m1) with (mm_top m) in E; lia.
    + intros i Hi Hne Hf. apply (ev_filled _ _ _ _ _ Hev); [done|]. unfold filled, m1.
      rewrite slot_at_with by (done || apply Hm). by destruct (decide (s = i)).
    + change (mm_top m) with (mm_top m1). destruct (ev_top _ _ _ _ _ Hev) as [|[? ?]]; [by left|right].
      split; [done|by right].
  - eapply wp_ok; [reflexivity|]. cbv beta. destruct (Z.ltb_spec (mm_top m) s) as [Hlt|Hge].
    + split_and!; try done.
      * apply winv_set_top; [exact Hs|exact Hm|]. intros i Hi Hsi. apply (wi_above _ _ _ Hm i); [done|lia].
      * right. split; [done|by left].
    + split_and!; try done. by left.
Qed.

Lemma Mutate_ok dn pend m mg slot : winv dn pend m -> updating m = false -> free_mg pend m mg ->
  wp total (Mutate N mg slot) m
    (fun _ m' => evolve [mg] dn pend m m' /\ filled (slot_index slot) m').
Proof.
  intros Hm Hu Hfree. unfold Mutate. cbv zeta. set (s := slot_index slot).
  assert (is_slot s) as Hs by apply slot_index_slot.
  eapply wp_seq; [by apply Impl_at_ok|]. apply wp_bind.
  eapply wp_mono; [pose proof (Mutate_clear dn pend m mg slot Hm Hu Hfree) as Hc; fold s in Hc;
    destruct (slot_at s m); exact Hc|].
  intros _ m1 (Hm1 & Hfree1 & Hle & Hflag & Hfill & Htop & Hframe). fold s in Hle, Hfill, Htop.
  eapply wp_seq; [by apply set_Impl_at_ok|]. set (m2 := with_slot s (Some mg) m1).
  assert (winv dn pend m2) as Hm2 by (by apply winv_set).
  assert (slot_at s m2 = Some mg) as Hs2
    by (unfold m2; rewrite slot_at_with by (done || apply Hm1); by rewrite decide_True).
  assert (forall i, is_slot i -> i <> s -> slot_at i m2 = slot_at i m1) as Hother.
  { intros i Hi Hne. unfold m2. rewrite slot_at_with by (done || apply Hm1).
    by destruct (decide (s = i)). }
  assert (evolve [mg] dn pend m m2) as Hev2.
  { split; [done|exact Hflag| | |].
    - intros i Hi Hf. destruct (decide (i = s)) as [->|Hne]; [by eexists|].
      unfold filled. rewrite Hother by done. by apply Hfill.
    - change (mm_top m2) with (mm_top m1). destruct Htop as [|[Hlt Hor]]; [by left|right].
      split; [done|]. destruct (decide (mm_top m1 = s)) as [->|Hne]; [by eexists|].
      destruct Hor as [|Hf]; [done|]. unfold filled. by rewrite Hother by (done || apply Hm1).
    - intros g Hg Hl. pose proof (Hframe g Hl) as [H1 H2]. split; [done|]. intros Ho.
      destruct (owned_with _ _ _ _ _ (wi_len _ _ _ Hm1) Hs Ho) as [|[= ->]]; [done|].
      apply Hg. by left. }
  apply wp_get. destruct (s <? mm_top m2).
  - eapply wp_ok; [by apply set_needInit_at_ok|]. split; [|by eexists].
    rewrite <- (app_nil_r [mg]). eapply evolve_trans; [exact Hev2|]. by apply evolve_same.
  - eapply wp_seq; [by apply set_needInit_at_ok|].
    match goal with |- wp _ _ ?m3 _ => assert (evolve [] dn pend m2 m3) as Hev3 by (by apply evolve_same) end.
    pose proof (evolve_trans _ _ _ _ _ _ _ Hev2 Hev3) as Hev. rewrite app_nil_r in Hev.
    eapply wp_mono; [apply (call_ok Initialize_call dn pend); [done|apply Hev| |]|].
    + rewrite (evolve_updating _ _ _ _ _ Hev). exact Hu.
    + apply (wi_alive _ _ _ Hm2). left. by exists s.
    + intros _ m4 [Hev4 _]. split; [rewrite <- (app_nil_r [mg]); by eapply evolve_trans|].
      apply (ev_filled _ _ _ _ _ Hev4 s Hs). by eexists.
Qed.

(** Starting a movement, as a generator does when it begins or ends. *)
Lemma mutate_new_ok dn pend m k slot : winv dn pend m -> updating m = false ->
  wp total (mg ← new_generator k; Mutate N mg slot) m
    (fun _ m' => evolve [] dn pend m m' /\ filled (slot_index slot) m').
Proof.
  intros Hm Hu. destruct (winv_allocate dn pend k m Hm) as [Hm1 Hl].
  eapply (wp_seq _ (new_generator k) _ _ (mm_next m) (allocate k m)); [done|].
  eapply wp_mono; [apply (Mutate_ok dn pend); [done|exact Hu|by right]|].
  intros _ m' [Hev Hf]. split; [|done]. split; try apply Hev.
  intros g _ Hg. destruct (limbo_allocate dn pend k m g Hm Hg) as [Hg' Hne].
  apply (ev_frame _ _ _ _ _ Hev); [|done]. by intros ?%list_elem_of_singleton.
Qed.

Lemma mutate_static_ok dn pend m slot : winv dn pend m -> updating m = false ->
  wp total (Mutate N si_idleMovement slot) m
    (fun _ m' => evolve [] dn pend m m' /\ filled (slot_index slot) m').
Proof.
  intros Hm Hu. eapply wp_mono; [apply (Mutate_ok dn pend); [done..|by left]|].
  intros _ m' [Hev Hf]. split; [|done]. eapply evolve_weaken; [|exact Hev].
  intros mg [Hh _] ->%list_elem_of_singleton. pose proof (wi_heap _ _ _ Hm _ Hh). lia.
Qed.

Lemma InitDefault_ok dn pend m o : winv dn pend m -> updating m = false ->
  wp total (InitDefault N o) m (fun _ m' => evolve [] dn pend m m' /\ filled 0 m').
Proof.
  intros Hm Hu. unfold InitDefault. destruct (if ow_player o then None else ow_default o).
  - by apply (mutate_new_ok _ _ _ _ MOTION_SLOT_IDLE).
  - by apply (mutate_static_ok _ _ _ MOTION_SLOT_IDLE).
Qed.

Lemma read_controlled_ok dn pend m mv : winv dn pend m -> read_controlled mv m = (Ok tt, m).
Proof.
  intros Hm. destruct mv; try done. unfold read_controlled. assert (is_slot 2) as H2 by (split; lia).
  rewrite (bind_ok _ _ m _ m (Impl_at_ok 2 m H2)). destruct (slot_at 2 m) as [g|] eqn:E; [|done].
  rewrite (bind_ok _ _ m g m); [done|]. apply deref_mg_ok, (wi_alive _ _ _ Hm). by apply (slot_owned pend 2).
Qed.

Lemma start_ok dn pend m fuel o mv : mv <> MoveTargetedHome -> winv dn pend m -> updating m = false ->
  wp total (start N fuel o mv) m (fun _ m' => evolve [] dn pend m m').
Proof.
  intros Hmv Hm Hu. unfold start. eapply (wp_seq _ _ _ m tt m); [by destruct mv|].
  eapply wp_seq; [by eapply read_controlled_ok|]. apply wp_get.
  destruct (movement_of o mv m) as [[[k|] slot]|].
  - eapply wp_mono; [by apply mutate_new_ok|]. by intros _ m' [? _].
  - eapply wp_mono; [by apply mutate_static_ok|]. by intros _ m' [? _].
  - eapply wp_ok; [done|]. by apply evolve_refl.
Qed.

Lemma speed_loop_ok l dn pend m : (forall j, j ∈ l -> 0 <= j) -> winv dn pend m -> updating m = false ->
  wp total (speed_loop N l) m (fun _ m' => evolve [] dn pend m m').
Proof.
  revert m. induction l as [|j l IH]; intros m Hl Hm Hu; cbn [speed_loop].
  { eapply wp_ok; [done|]. by apply evolve_refl. }
  apply wp_get. destruct (Z.leb_spec j (mm_top m)) as [Hj|Hj]; [|eapply wp_ok; [done|]; by apply evolve_refl].
  assert (is_slot j) as Hjs by (split; [apply Hl; by left|]; pose proof (wi_top _ _ _ Hm) as []; lia).
  eapply wp_seq; [by apply Impl_at_ok|]. apply wp_bind.
  eapply (wp_mono _ _ _ (fun _ m' => evolve [] dn pend m m')).
  - destruct (slot_at j m) as [g|] eqn:E; [|eapply wp_ok; [done|]; by apply evolve_refl].
    eapply wp_mono; [apply (call_ok unitSpeedChanged_call dn pend m); try done|by intros _ m' [? _]].
    apply (wi_alive _ _ _ Hm). by apply (slot_owned pend j).
  - intros _ m1 Hev. eapply wp_mono; [apply IH|].
    + intros j' Hj'. apply Hl. by right.
    + apply Hev.
    + by rewrite (evolve_updating _ _ _ _ _ Hev).
    + intros [] m2 Hev2. by eapply (evolve_trans [] []).
Qed.
End Outside.

(** ** The operations inside an update *)

(** Nothing is deleted; [new] joins the generators to delete afterwards. *)
Record grown (dn pend new : list Z) (m m' : MotionMaster) : Prop := {
  gr_inv : minv dn (pend ++ new) m';
  gr_updating : updating m' = true;
  gr_heap mg : exists_mg m mg -> exists_mg m' mg
}.
Definition grows (dn pend : list Z) (m m' : MotionMaster) : Prop := exists new, grown dn pend new m m'.

Lemma grows_refl dn pend m : minv dn pend m -> updating m = true -> grows dn pend m m.
Proof. intros Hm Hu. exists []. by split; rewrite ?app_nil_r. Qed.

Lemma grows_trans dn pend new m m1 m' : grown dn pend new m m1 -> grows dn (pend ++ new) m1 m' ->
  grows dn pend m m'.
Proof.
  intros [H1 H2 H3] (new' & [H4 H5 H6]). exists (new ++ new'). split; auto. by rewrite app_assoc.
Qed.

Section Inside.
Context (total : Prop) (Hnt : ~ total) (N : Call -> MMP unit).

Definition inside_calls : Prop := forall c dn pend m, (forall mg, c <> Finalize_call mg) ->
  minv dn pend m -> updating m = true ->
  wp total (N c) m (fun _ m' => grows dn pend m m').
Context (HN : inside_calls).

Lemma DelayedDelete_ok dn pend m g : winv dn pend m -> free_mg pend m g ->
  exists m', DelayedDelete (Some g) m = (Ok tt, m') /\ mm_Impl m' = mm_Impl m /\ mm_top m' = mm_top m
    /\ mm_cleanFlag m' = mm_cleanFlag m /\ mm_heap m' = mm_heap m
    /\ exists new, winv dn (pend ++ new) m' /\ forall mg, mg <> g -> limbo pend m mg -> limbo (pend ++ new) m' mg.
Proof.
  intros Hm Hg. unfold DelayedDelete. rewrite (bind_ok _ _ m g m).
  2:{ apply deref_mg_ok. destruct Hg as [->|Hg]; [by left|by eapply limbo_alive]. }
  destruct (isStatic g) eqn:Est.
  { exists m. split_and!; try done. exists []. by rewrite app_nil_r. }
  destruct Hg as [->|Hg]; [done|]. eexists. split; [reflexivity|]. split_and!; try done.
  exists [g]. split; [by apply winv_delay|]. intros mg Hne [H1 H2]. split; [done|].
  intros [Ho|Ho%elem_of_app]; [by apply H2; left|].
  destruct Ho as [Ho|Ho%list_elem_of_singleton]; [|done]. apply H2. by right.
Qed.

Lemma minv_same dn pend m m' : mm_Impl m' = mm_Impl m -> mm_top m' = mm_top m -> winv dn pend m' ->
  minv dn pend m -> minv dn pend m'.
Proof.
  intros H1 H2 H3 (_ & H4 & H5). unfold minv, filled, slot_at in *. by rewrite H1, H2.
Qed.

(** Clearing the top slot or raising the top; the slot is not below the top. *)
Lemma Mutate_inside dn pend m mg slot : minv dn pend m -> updating m = true ->
  mm_top m <= slot_index slot -> free_mg pend m mg ->
  wp total (Mutate N mg slot) m (fun _ m' => grows dn pend m m').
Proof.
  intros (Hm & H0 & Htop) Hu Hle Hfree. unfold Mutate. cbv zeta. set (s := slot_index slot) in *.
  assert (is_slot s) as Hs by apply slot_index_slot. assert (is_slot 0) as Hs0 by (split; lia).
  eapply wp_seq; [by apply Impl_at_ok|]. apply wp_bind.
  eapply (wp_mono _ _ _ (fun _ m1 => exists new, winv dn (pend ++ new) m1 /\ mm_top m1 = s
    /\ free_mg (pend ++ new) m1 mg /\ updating m1 = true /\ mm_heap m1 = mm_heap m
    /\ (s <> 0 -> filled 0 m1))).
  - destruct (slot_at s m) as [c|] eqn:Ec.
    + assert (mm_top m = s) as Hts.
      { destruct (decide (mm_top m = s)); [done|]. rewrite (wi_above _ _ _ Hm s) in Ec by (done || lia). done. }
      eapply wp_seq; [by apply set_Impl_at_ok|]. apply wp_get. set (m1 := with_slot s None m).
      assert (has_clean MMCF_UPDATE m1 = true) as -> by exact Hu.
      change (mm_top m1) with (mm_top m). rewrite Hts, Z.eqb_refl. cbn [andb].
      assert (winv dn pend m1) as Hm1 by (by apply winv_unset).
      destruct (DelayedDelete_ok dn pend m1 c Hm1) as (m2 & E & Ei & Et & Ef & Eh & new & Hm2 & Hlim).
      { destruct (decide (c = si_idleMovement)); [by left|right]. by apply (limbo_unset dn). }
      eapply wp_ok; [exact E|]. exists new. split_and!; [done|by rewrite Et| | |by rewrite Eh|].
      * destruct Hfree as [|Hfree]; [by left|right]. apply Hlim; [|by apply (limbo_unset_other dn)].
        intros ->. apply Hfree. by apply (slot_owned pend s).
      * unfold updating, has_clean. rewrite Ef. exact Hu.
      * intros Hne. unfold filled, slot_at. rewrite Ei. change (filled 0 m1). unfold filled, m1.
        rewrite slot_at_with by (done || apply Hm). by rewrite decide_False.
    + assert (mm_top m < s) as Hlt.
      { destruct (decide (mm_top m = s)) as [E|]; [|lia]. rewrite E in Htop. destruct Htop. congruence. }
      eapply wp_ok; [reflexivity|]. cbv beta. rewrite (proj2 (Z.ltb_lt _ _) Hlt). exists [].
      rewrite app_nil_r. split_and!; try done. apply winv_set_top; [done..|].
      intros i Hi Hsi. apply (wi_above _ _ _ Hm i); [done|lia].
  - intros _ m1 (new & Hm1 & Ht1 & Hfree1 & Hu1 & Hh1 & H01).
    eapply wp_seq; [by apply set_Impl_at_ok|]. set (m2 := with_slot s (Some mg) m1).
    assert (slot_at s m2 = Some mg) as Hs2
      by (unfold m2; rewrite slot_at_with by (done || apply Hm1); by rewrite decide_True).
    apply wp_get. change (mm_top m2) with (mm_top m1). rewrite Ht1, Z.ltb_irrefl.
    eapply wp_seq; [by apply set_needInit_at_ok|].
    match goal with |- wp _ _ ?m3 _ => set (m3' := m3) end.
    assert (winv dn (pend ++ new) m3') as Hm3.
    { apply (winv_same _ _ m2); try done. apply winv_set; [done..|lia|done]. }
    assert (grown dn pend new m m3') as Hg3.
    { split; [split_and!; [done| |]|done|].
      - destruct (decide (s = 0)) as [E|E]; [rewrite <- E; by eexists|].
        change (filled 0 m2). unfold filled, m2. rewrite slot_at_with by (done || apply Hm1).
        rewrite decide_False by done. by apply H01.
      - change (mm_top m3') with (mm_top m1). rewrite Ht1. by eexists.
      - intros g. unfold exists_mg. change (mm_heap m3') with (mm_heap m1). by rewrite Hh1. }
    unfold call. eapply wp_seq.
    { apply deref_mg_ok. apply (wi_alive _ _ _ Hm3). left. by exists s. }
    eapply wp_mono; [apply (HN _ dn (pend ++ new)); [done|apply Hg3|apply Hg3]|].
    intros [] m4 H4. by eapply grows_trans.
Qed.

Lemma free_allocate dn pend k m : minv dn pend m ->
  minv dn pend (allocate k m) /\ free_mg pend (allocate k m) (mm_next m).
Proof.
  intros Hm. destruct (winv_allocate dn pend k m (proj1 Hm)) as [Hm1 Hl].
  split; [by apply (minv_same _ _ m)|by right].
Qed.

Lemma start_mutate_inside dn pend m (k : option MovementGeneratorType) slot : minv dn pend m ->
  updating m = true -> mm_top m <= slot_index slot ->
  wp total (match k with
            | Some k => mg ← new_generator k; Mutate N mg slot
            | None => Mutate N si_idleMovement slot
            end) m (fun _ m' => grows dn pend m m').
Proof.
  intros Hm Hu Hle. destruct k as [k|]; [|apply Mutate_inside; [done..|by left]].
  destruct (free_allocate dn pend k m Hm) as [Hm1 Hf].
  eapply (wp_seq _ (new_generator k) _ _ (mm_next m) (allocate k m)); [done|].
  eapply wp_mono; [by apply Mutate_inside|]. intros [] m' Hg.
  eapply (grows_trans dn pend [] m (allocate k m)); [|by rewrite app_nil_r].
  split; [by rewrite app_nil_r|done|]. intros mg [->|H]; [by left|]. right. cbn.
  destruct (decide (mm_next m = mg)) as [->|]; [by rewrite lookup_insert_eq|by rewrite lookup_insert_ne].
Qed.

Lemma InitDefault_inside dn pend m o : minv dn pend m -> updating m = true -> mm_top m = 0 ->
  wp total (InitDefault N o) m (fun _ m' => grows dn pend m m').
Proof.
  intros Hm Hu Ht. unfold InitDefault.
  pose proof (start_mutate_inside dn pend m (if ow_player o then None else ow_default o)
    MOTION_SLOT_IDLE Hm Hu) as H. destruct (if ow_player o then _ else _); apply H; cbn; lia.
Qed.

(** The start of the [pop]s in [DelayedClean] and [DelayedExpire]. *)
Lemma pop_delayed dn pend m : minv dn pend m -> updating m = true -> 0 < mm_top m ->
  exists g t m', slot_at (mm_top m) m = Some g /\ pop m = (Ok tt, popped t m) /\
    DelayedDelete (Some g) (popped t m) = (Ok tt, m') /\ mm_top m' < mm_top m
    /\ grows dn pend m m'.
Proof.
  intros Hm Hu Hpos. destruct Hm as (Hw & H0 & [g Hg]).
  destruct (pop_ok dn pend m g) as (t & E & Hm1 & Ht & Hf); [by split_and!; [..|eexists]|done|done|].
  destruct (DelayedDelete_ok dn pend (popped t m) g (proj1 Hm1) Hf)
    as (m' & E' & Ei & Et & Ef & Eh & new & Hm' & _).
  exists g, t, m'. split_and!; try done; [by rewrite Et|]. exists new. split.
  - destruct Hm1 as (_ & H1 & H2). unfold minv, filled, slot_at in *. by rewrite Ei, Et.
  - unfold updating, has_clean in *. by rewrite Ef.
  - intros mg. unfold exists_mg. by rewrite Eh.
Qed.

Lemma clean_inside fuel dn pend m : minv dn pend m -> updating m = true ->
  wp total (clean_loop fuel DelayedDelete) m (fun _ m' => grows dn pend m m' /\ mm_top m' = 0).
Proof.
  revert pend m. induction fuel as [|fuel IH]; intros pend m Hm Hu; cbn [clean_loop]; [by apply wp_fuel|].
  apply wp_get. unfold size. destruct (Z.ltb_spec 1 (mm_top m + 1)) as [Hlt|Hge].
  2:{ eapply wp_ok; [done|]. split; [by apply grows_refl|].
      destruct (wi_top _ _ _ (proj1 Hm)). lia. }
  destruct (pop_delayed dn pend m Hm Hu ltac:(lia)) as (g & t & m1 & Hg & Ep & Ed & _ & new & Hgr).
  eapply wp_seq; [apply top_ok, Hm|]. eapply wp_seq; [exact Ep|]. rewrite Hg.
  eapply wp_seq; [exact Ed|]. eapply wp_mono; [apply (IH (pend ++ new)); apply Hgr|].
  intros [] m2 [H2 Ht]. split; [by eapply grows_trans|done].
Qed.

Lemma DelayedExpire_inside dn pend m : minv dn pend m -> updating m = true ->
  wp total DelayedExpire m (fun _ m' => grows dn pend m m').
Proof.
  intros Hm Hu. unfold DelayedExpire. apply wp_get. unfold size.
  apply wp_bind. eapply (wp_mono _ _ _ (fun _ m1 => grows dn pend m m1)).
  - destruct (Z.ltb_spec 1 (mm_top m + 1)) as [Hlt|Hge]; [|eapply wp_ok; [done|by apply grows_refl]].
    destruct (pop_delayed dn pend m Hm Hu ltac:(lia)) as (g & t & m1 & Hg & Ep & Ed & _ & Hgr).
    eapply wp_seq; [apply top_ok, Hm|]. eapply wp_seq; [exact Ep|]. rewrite Hg.
    by eapply wp_ok.
  - intros [] m1 (new & Hgr). eapply wp_ok; [eapply skip_empty_top, Hgr|]. by exists new.
Qed.

Lemma mark_reset_inside reset dn pend m : minv dn pend m -> updating m = true ->
  exists m', mark_reset reset m = (Ok tt, m') /\ grown dn pend [] m m' /\ mm_top m' = mm_top m.
Proof.
  intros Hm Hu. eexists. split; [reflexivity|]. split; [|done]. split.
  - rewrite app_nil_r. apply (minv_same _ _ m); try done. apply (winv_same _ _ m); try done. apply Hm.
  - revert Hu. unfold updating, has_clean. cbn [mm_cleanFlag set_cleanFlag].
    rewrite !(land_pow2_testbit _ 0) by lia.
    destruct reset; [rewrite Z.lor_spec; intros ->; done|rewrite Z.ldiff_spec; intros ->; done].
  - done.
Qed.

Lemma Clear_inside fuel reset dn pend m : minv dn pend m -> updating m = true ->
  wp total (Clear N fuel reset) m (fun _ m' => grows dn pend m m' /\ mm_top m' = 0).
Proof.
  intros Hm Hu. unfold Clear. apply wp_get. unfold updating in Hu. rewrite Hu.
  destruct (mark_reset_inside reset dn pend m Hm Hu) as (m1 & E & Hgr & _).
  eapply wp_seq; [exact E|]. eapply wp_mono; [apply (clean_inside _ dn (pend ++ [])); apply Hgr|].
  intros [] m2 [H2 Ht]. split; [by eapply grows_trans|done].
Qed.

Lemma MovementExpired_inside fuel o reset dn pend m : minv dn pend m -> updating m = true ->
  wp total (MovementExpired N fuel o reset) m (fun _ m' => grows dn pend m m').
Proof.
  intros Hm Hu. unfold MovementExpired. apply wp_get. unfold updating in Hu. rewrite Hu.
  destruct (mark_reset_inside reset dn pend m Hm Hu) as (m1 & E & Hgr & _).
  eapply wp_seq; [exact E|]. eapply wp_mono; [apply (DelayedExpire_inside dn (pend ++ [])); apply Hgr|].
  intros [] m2 H2. by eapply grows_trans.
Qed.

Lemma speed_inside l dn pend m : (forall j, j ∈ l -> 0 <= j) -> minv dn pend m -> updating m = true ->
  wp total (speed_loop N l) m (fun _ m' => grows dn pend m m').
Proof.
  revert pend m. induction l as [|j l IH]; intros pend m Hl Hm Hu; cbn [speed_loop].
  { eapply wp_ok; [done|]. by apply grows_refl. }
  apply wp_get. destruct (Z.leb_spec j (mm_top m)) as [Hj|Hj]; [|eapply wp_ok; [done|]; by apply grows_refl].
  assert (is_slot j) as Hjs
    by (split; [apply Hl; by left|]; pose proof (wi_top _ _ _ (proj1 Hm)) as []; lia).
  eapply wp_seq; [by apply Impl_at_ok|]. apply wp_bind.
  eapply (wp_mono _ _ _ (fun _ m' => grows dn pend m m')).
  - destruct (slot_at j m) as [g|] eqn:E; [|eapply wp_ok; [done|]; by apply grows_refl].
    unfold call. eapply wp_seq; [apply deref_mg_ok|by apply HN; [done|..]].
    apply (wi_alive _ _ _ (proj1 Hm)). by apply (slot_owned pend j).
  - intros [] m1 (new & Hgr). eapply wp_mono; [apply (IH (pend ++ new)); [|apply Hgr..]|].
    + intros j' Hj'. apply Hl. by right.
    + intros [] m2 H2. by eapply grows_trans.
Qed.

End Inside.

(** ** Generators that behave *)

(** A request a generator may make from the call [c] in the state [m]: outside
    [Update] only to start a movement, and while an update runs none below the
    top ([Finalize] is never called then). *)
Definition polite (c : Call) (m : MotionMaster) (op : Op) : Prop :=
  match op with
  | op_Initialize _ => False
  | op_Clear _ | op_MovementExpired _ _ | op_Move _ MoveTargetedHome => exists mg, c = Update_call mg
  | op_Move o mv => (forall mg, c <> Finalize_call mg) -> updating m = true -> forall k slot, movement_of o mv m = Some (k, slot) ->
      mm_top m <= slot_index slot
  | op_InitDefault _ => (forall mg, c <> Finalize_call mg) -> updating m = true -> mm_top m = 0
  | op_propagateSpeedChange => True
  end.

Lemma slots_nonneg (j : Z) : j ∈ [0; 1; 2; 3] -> 0 <= j.
Proof. rewrite !elem_of_cons, elem_of_nil. lia. Qed.

Lemma perform_inside total N fuel c dn pend m op : ~ total -> inside_calls total N ->
  (forall mg, c <> Finalize_call mg) -> minv dn pend m ->
  updating m = true -> polite c m op -> wp total (perform N fuel op) m (fun _ m' => grows dn pend m m').
Proof.
  intros Hnt HN Hc Hm Hu Hp. destruct op as [o mv|reset|o reset|o|o|]; cbn [perform].
  - destruct (decide (mv = MoveTargetedHome)) as [->|Hmv].
    + unfold start. apply wp_bind. eapply wp_mono; [by apply Clear_inside|].
      intros [] m1 [(new & Hgr) Ht]. eapply (wp_seq _ _ _ m1 tt m1); [done|]. apply wp_get.
      destruct (movement_of _ _ _) as [[k slot]|]; [|eapply wp_ok; [done|]; by exists new].
      pose proof (start_mutate_inside total N HN dn (pend ++ new) m1 k slot) as H.
      destruct Hgr as [H1 H2 H3]. specialize (H H1 H2).
      eapply wp_mono; [destruct k; apply H; destruct slot; cbn; lia|].
      intros [] m2 H4. by eapply grows_trans.
    + assert (forall k slot, movement_of o mv m = Some (k, slot) -> mm_top m <= slot_index slot) as Hle
        by (destruct mv; try done; apply Hp; done).
      unfold start. eapply (wp_seq _ _ _ m tt m); [by destruct mv|].
      eapply wp_seq; [eapply read_controlled_ok, Hm|]. apply wp_get.
      destruct (movement_of o mv m) as [[k slot]|] eqn:E; [|eapply wp_ok; [done|]; by apply grows_refl].
      pose proof (start_mutate_inside total N HN dn pend m k slot Hm Hu (Hle k slot eq_refl)) as H.
      by destruct k.
  - eapply wp_mono; [by apply Clear_inside|]. by intros [] m' [? _].
  - by apply MovementExpired_inside.
  - apply InitDefault_inside; auto.
  - done.
  - apply speed_inside; try done. apply slots_nonneg.
Qed.

Lemma perform_outside total N fuel c dn pend m op : outside_calls total N -> quiet_call c -> winv dn pend m ->
  updating m = false -> polite c m op -> wp total (perform N fuel op) m (fun _ m' => evolve [] dn pend m m').
Proof.
  intros HN Hq Hm Hu Hp. assert (~ exists mg, c = Update_call mg) as Hno by (intros [mg Hc]; by apply (Hq mg)).
  destruct op as [o mv|reset|o reset|o|o|]; cbn [perform]; try done.
  - apply start_ok; try done. by intros ->.
  - eapply wp_mono; [by apply InitDefault_ok|]. by intros [] m' [? _].
  - apply speed_loop_ok; try done. apply slots_nonneg.
Qed.

Section Behaved.
Context (reaction : Call -> list (MotionMaster -> option Op)) (total : Prop).

(** Every request is polite; if [total], there are none. *)
Record behaved : Prop := {
  be_polite c choose m op : is_slot (mm_top m) -> choose ∈ reaction c -> choose m = Some op -> polite c m op;
  be_quiet : total -> forall c, reaction c = []
}.
Context (Hb : behaved).

Lemma not_total c choose l : (forall x, x ∈ choose :: l -> x ∈ reaction c) -> ~ total.
Proof. intros Hl Ht. pose proof (Hl choose ltac:(by left)) as Hin. rewrite (be_quiet Hb Ht) in Hin. by apply elem_of_nil in Hin. Qed.

Lemma notify_outside fuel : (total -> (0 < fuel)%nat) -> outside_calls total (notify reaction fuel).
Proof.
  induction fuel as [|fuel IH]; intros Hf c dn pend m Hq Hm Hu; cbn [notify].
  { apply wp_fuel. intros Ht. specialize (Hf Ht). lia. }
  apply wp_modify. set (m0 := add_call c m).
  assert (evolve [] dn pend m m0) as Hev0 by (by apply evolve_same).
  assert (total -> mm_top m0 = mm_top m) as Ht0 by done. revert Hev0 Ht0.
  assert (forall x, x ∈ reaction c -> x ∈ reaction c) as Hl by done. revert Hl.
  generalize m0. generalize (reaction c) at 1 3. intros l. clear m0.
  induction l as [|choose l IHl]; intros m1 Hl Hev Ht1; cbn [forM]; [by eapply wp_ok|].
  pose proof (not_total c choose l Hl) as Hnt. apply wp_bind, wp_get.
  eapply (wp_mono _ _ _ (fun _ m2 => evolve [] dn pend m1 m2)).
  - destruct (choose m1) as [op|] eqn:Eop; [|eapply wp_ok; [done|]; apply evolve_refl, Hev].
    apply (perform_outside _ _ _ c); [by apply IH|done|apply Hev| |].
    + by rewrite (evolve_updating _ _ _ _ _ Hev).
    + apply (be_polite Hb c choose); [apply (ev_inv _ _ _ _ _ Hev)|apply Hl; by left|done].
  - intros [] m2 Hev2. apply IHl; [|by eapply (evolve_trans [] [])|done].
    intros x Hx. apply Hl. by right.
Qed.

Lemma notify_inside fuel : (total -> (0 < fuel)%nat) -> inside_calls total (notify reaction fuel).
Proof.
  induction fuel as [|fuel IH]; intros Hf c dn pend m Hc Hm Hu; cbn [notify].
  { apply wp_fuel. intros Ht. specialize (Hf Ht). lia. }
  apply wp_modify. set (m0 := add_call c m).
  assert (grows dn pend m m0) as Hg0.
  { exists []. split; rewrite ?app_nil_r; [|done|done]. apply (minv_same _ _ m); try done.
    apply (winv_same _ _ m); try done. apply Hm. }
  revert Hg0. assert (forall x, x ∈ reaction c -> x ∈ reaction c) as Hl by done. revert Hl.
  generalize m0. generalize (reaction c) at 1 3. intros l. clear m0.
  induction l as [|choose l IHl]; intros m1 Hl Hg; cbn [forM]; [by eapply wp_ok|].
  pose proof (not_total c choose l Hl) as Hnt. apply wp_bind, wp_get. destruct Hg as [new Hg].
  eapply (wp_mono _ _ _ (fun _ m2 => grows dn (pend ++ new) m1 m2)).
  - destruct (choose m1) as [op|] eqn:Eop; [|eapply wp_ok; [done|]; apply grows_refl; apply Hg].
    apply (perform_inside _ _ _ c); [done|by apply IH|done|apply Hg|apply Hg|].
    apply (be_polite Hb c choose); [apply (gr_inv _ _ _ _ _ Hg)|apply Hl; by left|done].
  - intros [] m2 Hg2. apply IHl; [|by eapply grows_trans]. intros x Hx. apply Hl. by right.
Qed.

(** A call that makes no requests changes nothing else. *)
Lemma notify_total fuel c m : total -> (0 < fuel)%nat -> notify reaction fuel c m = (Ok tt, add_call c m).
Proof. intros Ht Hf. destruct fuel; [lia|]. cbn [notify]. by rewrite (be_quiet Hb Ht c). Qed.

(** ** The requests of the server *)

Context (fuel : nat) (Hfuel : total -> (5 <= fuel)%nat).
Abbreviation N := (notify reaction fuel).

Lemma N_outside : outside_calls total N.
Proof. apply notify_outside. intros Ht. specialize (Hfuel Ht). lia. Qed.
Lemma N_inside : inside_calls total N.
Proof. apply notify_inside. intros Ht. specialize (Hfuel Ht). lia. Qed.
Hint Resolve N_outside N_inside : core.

Definition kept (dn pend : list Z) (m m' : MotionMaster) : Prop :=
  minv dn pend m' /\ mm_cleanFlag m' = mm_cleanFlag m.

Lemma kept_refl dn pend m : minv dn pend m -> kept dn pend m m.
Proof. by intros H. Qed.
Lemma kept_trans dn pend m1 m2 m3 : kept dn pend m1 m2 -> kept dn pend m2 m3 -> kept dn pend m1 m3.
Proof. intros [_ H1] [H2 H3]. split; [done|congruence]. Qed.
Lemma kept_evolve gone dn pend m m' : minv dn pend m -> evolve gone dn pend m m' -> kept dn pend m m'.
Proof. intros Hm H. split; [by eapply evolve_minv|apply H]. Qed.
Lemma kept_updating dn pend m m' : kept dn pend m m' -> updating m' = updating m.
Proof. intros [_ H]. unfold updating, has_clean. by rewrite H. Qed.

Lemma top_alive dn pend m : minv dn pend m ->
  exists g, slot_at (mm_top m) m = Some g /\ exists_mg m g.
Proof.
  intros (Hm & _ & [g Hg]). exists g. split; [done|]. apply (wi_alive _ _ _ Hm).
  apply (slot_owned pend (mm_top m)); [apply Hm|done].
Qed.

Lemma call_top_ok c dn pend m : (forall g, quiet_call (c g)) -> minv dn pend m -> updating m = false ->
  wp total (t ← top; call N c t) m (fun _ m' => kept dn pend m m').
Proof.
  intros Hq Hm Hu. destruct (top_alive dn pend m Hm) as (g & Hg & Ha).
  eapply wp_seq; [apply top_ok, Hm|]. rewrite Hg.
  eapply wp_mono; [apply (call_ok total N N_outside c dn pend m); [done|apply Hm|done|done]|].
  intros [] m' [Hev _]. by eapply kept_evolve.
Qed.

Lemma settle_ok reset dn pend m : minv dn pend m -> updating m = false ->
  wp total (settle N reset) m (fun _ m' => kept dn pend m m').
Proof.
  intros Hm Hu. unfold settle. destruct (needInitTop_ok m (wi_top _ _ _ (proj1 Hm))) as [need E].
  eapply wp_seq; [exact E|]. destruct need; [|destruct reset; [|by eapply wp_ok]].
  - unfold InitTop. destruct (top_alive dn pend m Hm) as (g & Hg & Ha).
    eapply wp_seq; [apply top_ok, Hm|]. rewrite Hg. apply wp_bind.
    eapply wp_mono; [apply (call_ok total N N_outside Initialize_call dn pend m); [done|apply Hm|done|done]|].
    intros [] m1 [Hev _]. pose proof (kept_evolve _ _ _ _ _ Hm Hev) as Hk.
    apply wp_get. eapply wp_ok; [apply set_needInit_at_ok, Hk|]. eapply kept_trans; [exact Hk|].
    eapply kept_evolve; [apply Hk|]. apply evolve_same; try done. apply Hk.
  - by apply call_top_ok.
Qed.

Lemma pop_delete dn pend m : minv dn pend m -> updating m = false -> 0 < mm_top m ->
  exists g t, slot_at (mm_top m) m = Some g /\ pop m = (Ok tt, popped t m) /\
    wp total (DirectDelete N (Some g)) (popped t m)
      (fun _ m' => kept dn pend m m' /\ (total -> mm_top m' < mm_top m)).
Proof.
  intros Hm Hu Hpos. destruct (Hm) as (Hw & H0 & [g Hg]).
  destruct (pop_ok dn pend m g Hm Hpos Hg) as (t & E & Hm1 & Ht & Hf). exists g, t.
  split_and!; [done..|].
  eapply wp_mono; [apply (DirectDelete_ok total N N_outside dn pend); [apply Hm1|done|done]|].
  intros [] m' [Hev Htop]. split; [split; [by eapply evolve_minv|apply Hev]|].
  intros Htot. rewrite (Htop Htot). exact Ht.
Qed.

Lemma clean_outside n dn pend m : minv dn pend m -> updating m = false ->
  (total -> mm_top m < Z.of_nat n) ->
  wp total (clean_loop n (DirectDelete N)) m (fun _ m' => kept dn pend m m').
Proof.
  revert m. induction n as [|n IH]; intros m Hm Hu Hn; cbn [clean_loop].
  { apply wp_fuel. intros Ht. specialize (Hn Ht). destruct (wi_top _ _ _ (proj1 Hm)). lia. }
  apply wp_get. unfold size. destruct (Z.ltb_spec 1 (mm_top m + 1)) as [Hlt|Hge]; [|by eapply wp_ok].
  destruct (pop_delete dn pend m Hm Hu ltac:(lia)) as (g & t & Hg & Ep & Hd).
  eapply wp_seq; [apply top_ok, Hm|]. eapply wp_seq; [exact Ep|]. rewrite Hg.
  apply wp_bind. eapply wp_mono; [exact Hd|]. intros [] m1 [Hk Ht].
  eapply wp_mono; [apply IH; [apply Hk|by rewrite (kept_updating _ _ _ _ Hk)|]|].
  - intros Htot. specialize (Ht Htot). specialize (Hn Htot). lia.
  - intros [] m2 Hk2. by eapply kept_trans.
Qed.

Lemma fuel_top dn pend m : minv dn pend m -> total -> mm_top m < Z.of_nat fuel.
Proof. intros Hm Ht. specialize (Hfuel Ht). destruct (wi_top _ _ _ (proj1 Hm)). lia. Qed.

Lemma Clear_ok reset dn pend m : minv dn pend m -> updating m = false ->
  wp total (Clear N fuel reset) m (fun _ m' => kept dn pend m m').
Proof.
  intros Hm Hu. unfold Clear. apply wp_get. unfold updating in Hu. rewrite Hu. unfold DirectClean.
  apply wp_bind. eapply wp_mono; [apply clean_outside; [done..|by apply (fuel_top dn pend)]|].
  intros [] m1 Hk. eapply wp_mono; [apply settle_ok; [apply Hk|by rewrite (kept_updating _ _ _ _ Hk)]|].
  intros [] m2 Hk2. by eapply kept_trans.
Qed.

Lemma MovementExpired_ok o reset dn pend m : minv dn pend m -> updating m = false ->
  wp total (MovementExpired N fuel o reset) m (fun _ m' => kept dn pend m m').
Proof.
  intros Hm Hu. unfold MovementExpired. apply wp_get. unfold updating in Hu. rewrite Hu.
  unfold DirectExpire. apply wp_get. unfold size. apply wp_bind.
  eapply (wp_mono _ _ _ (fun _ m1 => kept dn pend m m1)).
  - destruct (Z.ltb_spec 1 (mm_top m + 1)) as [Hlt|Hge]; [|by eapply wp_ok].
    destruct (pop_delete dn pend m Hm Hu ltac:(lia)) as (g & t & Hg & Ep & Hd).
    eapply wp_seq; [apply top_ok, Hm|]. eapply wp_seq; [exact Ep|]. rewrite Hg.
    eapply wp_mono; [exact Hd|]. by intros [] m1 [? _].
  - intros [] m1 Hk. eapply wp_seq; [eapply skip_empty_top, Hk|]. apply wp_get.
    unfold empty. destruct (Z.ltb_spec (mm_top m1) 0) as [Hneg|_].
    { destruct (wi_top _ _ _ (proj1 (proj1 Hk))). lia. }
    eapply wp_mono; [apply settle_ok; [apply Hk|by rewrite (kept_updating _ _ _ _ Hk)]|].
    intros [] m2 Hk2. by eapply kept_trans.
Qed.

Lemma perform_ok op dn pend m : (forall o, op <> op_Initialize o) -> minv dn pend m -> updating m = false ->
  wp total (perform N fuel op) m (fun _ m' => kept dn pend m m').
Proof.
  intros Hop Hm Hu. destruct op as [o mv|reset|o reset|o|o|]; cbn [perform].
  - destruct (decide (mv = MoveTargetedHome)) as [->|Hmv].
    + unfold start. apply wp_bind. eapply wp_mono; [by apply Clear_ok|].
      intros [] m1 Hk. assert (updating m1 = false) as Hu1 by (by rewrite (kept_updating _ _ _ _ Hk)).
      eapply (wp_seq _ _ _ m1 tt m1); [done|]. apply wp_get.
      destruct (movement_of _ _ _) as [[[k|] slot]|]; [| |by eapply wp_ok].
      * eapply wp_mono; [apply (mutate_new_ok total N N_outside dn pend); [apply Hk|done]|].
        intros [] m2 [Hev _]. eapply kept_trans; [exact Hk|]. eapply kept_evolve; [apply Hk|done].
      * eapply wp_mono; [apply (mutate_static_ok total N N_outside dn pend); [apply Hk|done]|].
        intros [] m2 [Hev _]. eapply kept_trans; [exact Hk|]. eapply kept_evolve; [apply Hk|done].
    + eapply wp_mono; [apply (start_ok total N N_outside dn pend); [done|apply Hm|done]|].
      intros [] m1 Hev. by eapply kept_evolve.
  - by apply Clear_ok.
  - by apply MovementExpired_ok.
  - eapply wp_mono; [apply (InitDefault_ok total N N_outside dn pend); [apply Hm|done]|].
    intros [] m1 [Hev _]. by eapply kept_evolve.
  - by destruct (Hop o).
  - eapply wp_mono; [apply (speed_loop_ok total N N_outside _ dn pend); [apply slots_nonneg|apply Hm|done]|].
    intros [] m1 Hev. by eapply kept_evolve.
Qed.

Lemma minv_flag dn pend v m : minv dn pend m -> minv dn pend (set_cleanFlag v m).
Proof. intros Hm. apply (minv_same _ _ m); try done. apply (winv_same _ _ m); try done. apply Hm. Qed.

Lemma updating_bit m : updating m = Z.testbit (mm_cleanFlag m) 0.
Proof. apply (land_pow2_testbit (mm_cleanFlag m) 0). lia. Qed.

Lemma expire_ok n o dn pend m : minv dn pend m -> updating m = false -> o = length dn ->
  (total -> (length pend < n)%nat) ->
  wp total (expire_loop N n o) m (fun _ m' => (exists dn', minv dn' [] m') /\ mm_cleanFlag m' = mm_cleanFlag m).
Proof.
  revert o dn pend m. induction n as [|n IH]; intros o dn pend m Hm Hu -> Hn; cbn [expire_loop].
  { apply wp_fuel. intros Ht. specialize (Hn Ht). lia. }
  apply wp_get. rewrite (wi_list _ _ _ (proj1 Hm)). rewrite lookup_app_r by lia. rewrite Nat.sub_diag.
  destruct pend as [|g pend]; cbn [lookup list_lookup]; [eapply wp_ok; [done|]; eauto|].
  destruct (winv_next dn pend m g (proj1 Hm)) as (Hm1 & Hlim & _).
  assert (minv (dn ++ [g]) pend m) as Hm1' by (split; [done|apply Hm]).
  apply wp_bind. eapply wp_mono; [apply (DirectDelete_ok total N N_outside (dn ++ [g]) pend); [done|done|by right]|].
  intros [] m1 [Hev _]. pose proof (kept_evolve _ _ _ _ _ Hm1' Hev) as Hk.
  eapply wp_mono; [apply (IH _ (dn ++ [g]) pend); [apply Hk|by rewrite (kept_updating _ _ _ _ Hk)| |]|].
  - rewrite length_app. cbn. lia.
  - intros Ht. specialize (Hn Ht). cbn in Hn. lia.
  - intros [] m2 [H2 Hf]. split; [done|]. etrans; [exact Hf|apply Hk].
Qed.

(** Between updates: nothing waits to be deleted. *)
Definition rest (m : MotionMaster) : Prop := minv [] [] m /\ updating m = false.

Lemma finish_update_ok o pend m : minv [] pend m -> updating m = false -> (total -> (length pend < fuel)%nat) ->
  wp total (finish_update N fuel o) m (fun _ m' => rest m').
Proof.
  intros Hm Hu Hn. unfold finish_update. apply wp_get. destruct (mm_expList m) as [l|] eqn:El.
  2:{ eapply wp_ok; [done|]. pose proof (wi_list _ _ _ (proj1 Hm)) as Hl. rewrite El in Hl. cbn in Hl.
      by subst pend. }
  apply wp_bind. eapply wp_mono; [by apply (expire_ok fuel 0 [] pend)|].
  intros [] m1 [[dn' Hm1] Hf]. apply wp_modify. set (m2 := set_expList None m1).
  assert (minv [] [] m2) as Hm2.
  { destruct Hm1 as ([] & H0 & Ht). split; [by split|done]. }
  assert (updating m2 = false) as Hu2 by (unfold updating, has_clean in *; cbn; by rewrite Hf).
  apply wp_get. unfold empty. destruct (Z.ltb_spec (mm_top m2) 0) as [Hneg|_].
  { destruct (wi_top _ _ _ (proj1 Hm2)). lia. }
  apply wp_bind. eapply wp_mono; [by apply (settle_ok _ [] [])|].
  intros [] m3 Hk. eapply wp_ok; [reflexivity|]. split; [apply minv_flag, Hk|].
  rewrite <- (kept_updating _ _ _ _ Hk), updating_bit in Hu2. rewrite updating_bit. cbn [mm_cleanFlag set_cleanFlag].
  by rewrite Z.ldiff_spec, Hu2.
Qed.

Lemma wp_total c m Q : wp total (N c) m Q ->
  wp total (N c) m (fun a m' => Q a m' /\ (total -> m' = add_call c m)).
Proof.
  unfold Prelude.wp. destruct (N c m) as [[a|e] m'] eqn:E; [|done]. intros HQ. split; [done|]. intros Ht.
  rewrite notify_total in E by (done || (specialize (Hfuel Ht); lia)). congruence.
Qed.

Lemma UpdateMotion_ok goes_on o held m : rest m ->
  wp total (UpdateMotion goes_on N fuel o held) m (fun _ m' => rest m').
Proof.
  intros [Hm Hu]. unfold UpdateMotion. destruct held; [by eapply wp_ok|]. apply wp_get.
  unfold empty. destruct (Z.ltb_spec (mm_top m) 0) as [Hneg|_].
  { destruct (wi_top _ _ _ (proj1 Hm)). lia. }
  apply wp_modify. set (m1 := set_cleanFlag _ m).
  assert (minv [] [] m1) as Hm1 by by apply minv_flag.
  assert (updating m1 = true) as Hu1 by (rewrite updating_bit; cbn [mm_cleanFlag set_cleanFlag m1]; by rewrite Z.lor_spec, orb_true_r).
  destruct (top_alive _ _ m1 Hm1) as (g & Hg & Ha).
  eapply wp_seq; [apply top_ok, Hm1|]. rewrite Hg. unfold call. apply wp_bind.
  eapply wp_seq; [by apply deref_mg_ok|].
  eapply wp_mono; [apply wp_total, (N_inside (Update_call g) [] []); done|].
  intros [] m2 [(new & [Hm2 Hu2 Hh]) Ht]. cbn [app] in Hm2.
  eapply wp_seq; [by apply deref_mg_ok, Hh|]. apply wp_get, wp_modify.
  set (m3 := set_cleanFlag _ m2).
  assert (minv [] new m3) as Hm3 by by apply minv_flag.
  assert (updating m3 = false) as Hu3
    by (rewrite updating_bit; cbn [mm_cleanFlag set_cleanFlag m3]; rewrite Z.ldiff_spec; apply andb_false_r).
  apply wp_bind. eapply (wp_mono _ _ _ (fun _ m4 => kept [] new m3 m4)).
  { destruct (goes_on m2 g); [by eapply wp_ok|]. by apply MovementExpired_ok. }
  intros [] m4 Hk. apply (finish_update_ok _ new).
  - apply Hk.
  - by rewrite (kept_updating _ _ _ _ Hk).
  - intros Htot. specialize (Ht Htot). pose proof (wi_list _ _ _ (proj1 Hm2)) as Hl. subst m2. cbn in Hl.
    rewrite (wi_list _ _ _ (proj1 Hm)) in Hl. cbn in Hl. subst new. specialize (Hfuel Htot). cbn. lia.
Qed.
End Behaved.

(** ** Creation and destruction *)

Definition silent (reaction : Call -> list (MotionMaster -> option Op)) : Prop := forall c, reaction c = [].
Definition all_polite (reaction : Call -> list (MotionMaster -> option Op)) : Prop :=
  forall c choose m op, is_slot (mm_top m) -> choose ∈ reaction c -> choose m = Some op -> polite c m op.

Lemma polite_behaved reaction : all_polite reaction -> behaved reaction (silent reaction).
Proof. intros H. by split. Qed.

(** The state in which the first generator is told to start. *)
Definition started_idle (mg : Z) (m : MotionMaster) : MotionMaster :=
  set_needInit (false :: tl (mm_needInit m)) (set_top 0 (set_Impl [Some mg; None; None] m)).

Lemma Mutate_first total N m mg : outside_calls total N ->
  mm_Impl m = [None; None; None] -> mm_top m = -1 -> minv [] [] (started_idle mg m) ->
  mm_needInit m = [true; true; true] -> updating m = false ->
  wp total (Mutate N mg MOTION_SLOT_IDLE) m (fun _ m' => rest m').
Proof.
  intros HN Hi Ht Hm Hn Hu. assert (is_slot 0) as H0 by (split; lia).
  assert (forall v m1, wp total (call N Initialize_call (Some mg)) (started_idle mg m) v ->
    m1 = started_idle mg m -> wp total (call N Initialize_call (Some mg)) m1 v) as Hcall by (by intros ? ? ? ->).
  unfold Mutate. cbn [slot_index]. eapply wp_seq; [by apply Impl_at_ok|].
  unfold slot_at. rewrite Hi. cbn [nth Z.to_nat]. apply wp_modify. rewrite Ht. change (-1 <? 0) with true.
  eapply wp_seq; [by apply set_Impl_at_ok|]. apply wp_get.
  change (mm_top (with_slot 0 (Some mg) (set_top 0 m))) with 0. rewrite Z.ltb_irrefl.
  eapply wp_seq; [by apply set_needInit_at_ok|]. apply Hcall.
  - eapply wp_mono; [apply (call_ok total N HN Initialize_call [] []); try done; [apply Hm|]|].
    + apply (wi_alive _ _ _ (proj1 Hm)). left. by exists 0.
    + intros [] m' [Hev _]. split; [by eapply evolve_minv|].
      by rewrite (evolve_updating _ _ _ _ _ Hev).
  - unfold started_idle, with_slot, set_needInit, set_Impl, set_top. cbn. by rewrite Hi, Hn.
Qed.

Lemma started_idle_ok mg m : mm_expList m = None ->
  (forall g, is_Some (mm_heap m !! g) -> si_idleMovement < g < mm_next m) -> si_idleMovement < mm_next m ->
  exists_mg m mg -> minv [] [] (started_idle mg m).
Proof.
  intros He Hh Hn Hg. assert (forall i, is_slot i -> slot_at i (started_idle mg m) =
    if decide (i = 0) then Some mg else None) as Hs.
  { intros i [H1 H2]. assert (i = 0 \/ i = 1 \/ i = 2) as [->|[->| ->]] by lia; reflexivity. }
  split; [split|split; by eexists]; try done.
  - intros i Hi Hlt. rewrite Hs by done. cbn in Hlt. destruct (decide (i = 0)); [lia|done].
  - intros g [(i & Hi & Hg')|Hin]; [|by apply elem_of_nil in Hin].
    rewrite Hs in Hg' by done. destruct (decide (i = 0)); [by simplify_eq|done].
  - intros i j g Hi Hj. rewrite !Hs by done. destruct (decide (i = 0)), (decide (j = 0)); intros; congruence.
  - apply NoDup_nil_2.
  - intros i g _ _. apply not_elem_of_nil.
  - cbn. by rewrite He.
  - apply not_elem_of_nil.
Qed.

Lemma InitDefault_first total N o : outside_calls total N ->
  wp total (InitDefault N o) MotionMaster_new (fun _ m' => rest m').
Proof.
  intros HN. unfold InitDefault. destruct (if ow_player o then None else ow_default o) as [k|].
  - eapply (wp_seq _ (new_generator k) _ _ 1 (allocate k MotionMaster_new)); [done|].
    apply Mutate_first; try done. apply started_idle_ok; try done.
    + intros g [x Hx]. cbn [mm_heap allocate MotionMaster_new mm_next] in Hx |- *.
      apply lookup_insert_Some in Hx as [[<- _]|[_ Hx]]; [unfold si_idleMovement; lia|].
      by rewrite lookup_empty in Hx.
    + right. cbn [mm_heap allocate MotionMaster_new mm_next]. by rewrite lookup_insert_eq.
  - apply Mutate_first; try done. apply started_idle_ok; try done.
    + intros g [x Hx]. cbn [mm_heap MotionMaster_new] in Hx. by rewrite lookup_empty in Hx.
    + by left.
Qed.

Lemma clear_all_fails reaction total fuel n m : behaved reaction total -> (total -> (5 <= fuel)%nat) ->
  minv [] [] m -> updating m = false -> (total -> mm_top m < Z.of_nat n) ->
  exists e m', clear_all (notify reaction fuel) n m = (Err e, m')
    /\ (e = OutOfBounds \/ e = OutOfFuel /\ ~ total).
Proof.
  intros Hb Hf. revert m. induction n as [|n IH]; intros m Hm Hu Hn; cbn [clear_all].
  { exists OutOfFuel, m. split; [done|]. right. split; [done|]. intros Ht. specialize (Hn Ht).
    destruct (wi_top _ _ _ (proj1 Hm)). lia. }
  rewrite (bind_ok get _ m m m eq_refl). pose proof (wi_top _ _ _ (proj1 Hm)) as [Ht0 Ht3]. unfold empty.
  destruct (Z.ltb_spec (mm_top m) 0); [lia|].
  rewrite (bind_ok _ _ m _ m (top_ok m (wi_top _ _ _ (proj1 Hm)))).
  destruct (decide (mm_top m = 0)) as [Hz|Hnz].
  - assert (exists a b c, mm_Impl m = [a; b; c]) as (a & b & c & Hi).
    { destruct Hm as [[] _]. destruct (mm_Impl m) as [|a [|b [|c []]]]; try done. by exists a, b, c. }
    destruct m as [exp imp tp ni cf hp nx cl]. cbn in Hz, Hi. subst.
    exists OutOfBounds. by eexists; split; [reflexivity|left].
  - destruct (pop_delete reaction total Hb fuel Hf [] [] m Hm Hu ltac:(lia)) as (g & t & Hg & Ep & Hd).
    rewrite Hg, (bind_ok _ _ m tt _ Ep). unfold Prelude.wp in Hd.
    destruct (DirectDelete _ (Some g) (popped t m)) as [[[]|e] m1] eqn:Ed.
    + rewrite (bind_ok _ _ _ tt m1 Ed). destruct Hd as [Hk Hlt]. apply IH.
      * apply Hk.
      * by rewrite (kept_updating _ _ _ _ Hk).
      * intros Ht. specialize (Hlt Ht). specialize (Hn Ht). lia.
    + exists e, m1. split; [by apply bind_err|]. by right.
Qed.

(** ** The motion master of a living unit *)

Section System.
Context (reaction : Call -> list (MotionMaster -> option Op)) (goes_on : MotionMaster -> Z -> bool).

(** A request from outside, or the update of the world's tick. *)
Inductive mm_step : MotionMaster -> MotionMaster -> Prop :=
| step_request fuel op m m' : (forall o, op <> op_Initialize o) ->
    perform (notify reaction fuel) fuel op m = (Ok tt, m') -> mm_step m m'
| step_update fuel o held m m' :
    UpdateMotion goes_on (notify reaction fuel) fuel o held m = (Ok tt, m') -> mm_step m m'.

(** From the first [InitDefault] on. *)
Definition reachable_mm (m : MotionMaster) : Prop := exists fuel o m0,
  InitDefault (notify reaction fuel) o MotionMaster_new = (Ok tt, m0) /\ rtc mm_step m0 m.

Lemma any_behaved : all_polite reaction -> behaved reaction False.
Proof. intros H. by split. Qed.

Lemma mm_step_rest m m' : all_polite reaction -> rest m -> mm_step m m' -> rest m'.
Proof.
  intros Hp [Hm Hu] Hstep. pose proof (any_behaved Hp) as Hb.
  destruct Hstep as [fuel op m1 m1' Hop E|fuel o held m1 m1' E].
  - pose proof (perform_ok reaction False Hb fuel ltac:(done) op [] [] m1 Hop Hm Hu) as H.
    unfold Prelude.wp in H. rewrite E in H. split; [apply H|]. by rewrite (kept_updating _ _ _ _ H).
  - pose proof (UpdateMotion_ok reaction False Hb fuel ltac:(done) goes_on o held m1 (conj Hm Hu)) as H.
    unfold Prelude.wp in H. by rewrite E in H.
Qed.

Lemma reachable_rest m : all_polite reaction -> reachable_mm m -> rest m.
Proof.
  intros Hp (fuel & o & m0 & E & Hsteps). pose proof (any_behaved Hp) as Hb.
  assert (rest m0) as H0.
  { pose proof (InitDefault_first False (notify reaction fuel) o) as H. unfold Prelude.wp in H. rewrite E in H.
    apply H, notify_outside; done. }
  clear E. induction Hsteps as [|a b c Hab _ IH]; [done|]. apply IH. by eapply mm_step_rest.
Qed.
End System.

(** Generators that walk to get help: the one that arrives starts the next. *)
Definition sample_owner : Owner := mkOwner false false false false false (Some RANDOM_MOTION_TYPE).
Definition sample_reaction (c : Call) : list (MotionMaster -> option Op) :=
  match c with
  | Finalize_call mg => [fun m => if bool_decide (mm_heap m !! mg = Some ASSISTANCE_MOTION_TYPE)
                                  then Some (op_Move sample_owner MoveSeekAssistanceDistract) else None]
  | Update_call mg => [fun m => if bool_decide (mm_heap m !! mg = Some RANDOM_MOTION_TYPE)
                                then Some (op_Move sample_owner MoveConfused) else None]
  | _ => []
  end.
Definition sample_mm : MotionMaster :=
  (perform (notify sample_reaction 9) 9 (op_Move sample_owner MoveSeekAssistance)
     (InitDefault (notify sample_reaction 9) sample_owner MotionMaster_new).2).2.

Lemma sample_polite : all_polite sample_reaction.
Proof.
  intros c choose m op [_ Ht] Hin Hch. destruct c as [mg|mg|mg|mg|mg]; cbn in Hin; try by apply elem_of_nil in Hin.
  - apply list_elem_of_singleton in Hin as ->. destruct (bool_decide _); [|done]. injection Hch as <-.
    intros Hc. by destruct (Hc mg).
  - apply list_elem_of_singleton in Hin as ->. destruct (bool_decide _); [|done]. injection Hch as <-.
    intros _ _ k slot [= _ <-]. cbn. lia.
Qed.

Lemma sample_reachable_mm : reachable_mm sample_reaction (fun _ _ => false) sample_mm.
Proof.
  exists 9%nat, sample_owner. eexists. split; [vm_compute; reflexivity|].
  apply rtc_once, (step_request _ _ 9 (op_Move sample_owner MoveSeekAssistance)); [done|].
  vm_compute. reflexivity.
Qed.

(** What is not allowed: a generator that, when updated, is overtaken by a
    movement of higher priority and then replaced. *)
Definition overtaken_reaction (c : Call) : list (MotionMaster -> option Op) :=
  match c with
  | Update_call 2 => [fun _ => Some (op_Move sample_owner MoveConfused);
                      fun _ => Some (op_Move sample_owner (MoveChase true))]
  | _ => []
  end.
Definition chasing_mm : MotionMaster :=
  (perform (notify overtaken_reaction 9) 9 (op_Move sample_owner (MoveChase true))
     (InitDefault (notify overtaken_reaction 9) sample_owner MotionMaster_new).2).2.

(** ** Properties *)



(** Emptying a motion master in use reads before the start of the slots:
    [Initialize] and the destructor pop the last generator, after which [pop]
    looks for a new top below slot 0.  Whatever the state, they never complete
    (the server survives only by what happens to lie before the array). *)
Theorem emptying_reads_out_of_bounds (reaction : Call -> list (MotionMaster -> option Op))
    (goes_on : MotionMaster -> Z -> bool) (m : MotionMaster) (fuel : nat) (o : Owner)
    (Hp : all_polite reaction) (Hm : reachable_mm reaction goes_on m) (Hf : (5 <= fuel)%nat) :
  let fails (p : prog MotionMaster MMError unit) := exists e m', p m = (Err e, m')
    /\ (e = OutOfBounds \/ e = OutOfFuel /\ ~ silent reaction) in
  fails (clear_all (notify reaction fuel) fuel) /\ fails (Initialize (notify reaction fuel) fuel o).
Proof.
  destruct (reachable_rest _ _ m Hp Hm) as [Hr Hu]. cbv zeta.
  destruct (clear_all_fails reaction (silent reaction) fuel fuel m (polite_behaved _ Hp) ltac:(done) Hr Hu)
    as (e & m' & E & He).
  { intros _. destruct (wi_top _ _ _ (proj1 Hr)). lia. }
  split; exists e, m'; (split; [|done]); [done|]. by apply bind_err.
Qed.

Lemma emptying_reads_out_of_bounds_witness :
  (clear_all (notify sample_reaction 9) 9 sample_mm).1 = Err OutOfBounds
  /\ exists e m', Initialize (notify sample_reaction 9) 9 sample_owner sample_mm = (Err e, m').
Proof.
  destruct (emptying_reads_out_of_bounds sample_reaction (fun _ _ => false) sample_mm 9 sample_owner
    sample_polite sample_reachable_mm ltac:(lia)) as [_ (e & m' & E & _)].
  split; [vm_compute; reflexivity|]. exists e, m'. exact E.
Defined.

(** The generator whose [Update] runs is protected only while it is the
    top: if it starts a movement above itself and then one in its own slot,
    [Mutate] deletes it at once and the update goes on in a freed object.  Here
    a chasing creature is confused and told to chase again by its own update. *)
Theorem update_frees_running_generator :
  reachable_mm overtaken_reaction (fun _ _ => true) chasing_mm
  /\ GetCurrentMovementGeneratorType chasing_mm = (Ok CHASE_MOTION_TYPE, chasing_mm)
  /\ (UpdateMotion (fun _ _ => true) (notify overtaken_reaction 9) 9 sample_owner false chasing_mm).1
     = Err FreedGenerator.
Proof.
  split; [|split; vm_compute; reflexivity].
  exists 9%nat, sample_owner. eexists. split; [vm_compute; reflexivity|].
  apply rtc_once, (step_request _ _ 9 (op_Move sample_owner (MoveChase true))); [done|].
  vm_compute. reflexivity.
Qed.
