(* ===== verification/Threat.v ===== *)
(** * Threat lists (src/src/serveur/jeu/Combat/{ThreatManager,HostileRefManager}.{h,cpp})

    A creature fights the unit it hates most.  Its [ThreatManager] owns a
    [HostileReference] per hated unit, in one of two lists: the online one, of
    the units it could attack, and the offline one.  A reference tells its
    manager of every change through [processThreatEvent], which moves it between
    the lists.  A reference is its address, a unit its guid; what the code asks
    of the units is the [World] that comes with an operation.  The owner of the
    manager is a creature (every caller checks it); the opcodes sent to clients
    are recorded. *)

From stdpp Require Import sorting.
From S2P Require Import Prelude.
From S2P Require Import Floats.
Local Open Scope Z_scope.

Inductive ThreatError := FreedReference | NullTarget | AssertTarget | EmptyThreatList | ThreatFuel.

Abbreviation fdiv := (SFdiv 24 128).
Abbreviation fsub := (SFsub 24 128).
Definition fzero : spec_float := S754_zero false.
(** [1.1f] and [1.3f] *)
Definition f1_1 : spec_float := decode32 1066192077.
Definition f1_3 : spec_float := decode32 1067869798.
Definition nonzero (x : spec_float) : bool := negb (SFeqb x fzero).
Definition CalculatePct (base : spec_float) (pct : Z) : spec_float :=
  fdiv (fmul base (float_of_Z pct)) (float_of_Z 100).

(** The threat modifiers of a spell. *)
Record ThreatSpell := mkThreatSpell {
  ts_Id : Z;
  ts_no_threat : bool;
  ts_pctMod : option spec_float;
  ts_energize : bool
}.

Record World := mkWorld {
  w_owner : Z;
  w_exists : Z -> bool;
  w_alive : Z -> bool;
  w_gm : Z -> bool;
  w_in_flight : Z -> bool;
  w_same_map_phase : Z -> bool;
  w_accessible : Z -> bool;
  w_combat_range : Z -> bool;
  w_charmer : Z -> option Z;
  w_redirect_pct : Z -> Z;
  w_redirect_target : Z -> option Z;
  w_spell_mod : Z -> Z -> spec_float -> spec_float;
  w_mod_threat_aura : Z -> bool;
  w_threatModifier : Z -> Z -> spec_float;
  w_second_choice : Z -> bool;
  w_can_attack : Z -> bool;
  w_melee : Z -> bool
}.

Record HostileReference := mkHostileReference {
  iThreat : spec_float;
  iTempThreatModifier : spec_float;
  iUnitGuid : Z;
  iOnline : bool;
  iAccessible : bool;
  hr_valid : bool
}.
Definition set_iThreat v r := mkHostileReference v (iTempThreatModifier r) (iUnitGuid r) (iOnline r) (iAccessible r) (hr_valid r).
Definition set_iTemp v r := mkHostileReference (iThreat r) v (iUnitGuid r) (iOnline r) (iAccessible r) (hr_valid r).
Definition set_iOnline v r := mkHostileReference (iThreat r) (iTempThreatModifier r) (iUnitGuid r) v (iAccessible r) (hr_valid r).
Definition set_iAccessible v r := mkHostileReference (iThreat r) (iTempThreatModifier r) (iUnitGuid r) (iOnline r) v (hr_valid r).
Definition set_valid v r := mkHostileReference (iThreat r) (iTempThreatModifier r) (iUnitGuid r) (iOnline r) (iAccessible r) v.

Inductive ThreatOpcode := ChangeCurrentVictim (guid : Z) | RemoveFromThreatList (guid : Z).

Record ThreatManager := mkThreatManager {
  tm_refs : gmap Z HostileReference;
  tm_next : Z;
  iThreatContainer : list Z;
  iThreatOfflineContainer : list Z;
  iDirty : bool;
  iCurrentVictim : option Z;
  iUpdateTimer : Z;
  tm_opcodes : list ThreatOpcode
}.
Definition set_refs v m := mkThreatManager v (tm_next m) (iThreatContainer m) (iThreatOfflineContainer m) (iDirty m) (iCurrentVictim m) (iUpdateTimer m) (tm_opcodes m).
Definition set_online v m := mkThreatManager (tm_refs m) (tm_next m) v (iThreatOfflineContainer m) (iDirty m) (iCurrentVictim m) (iUpdateTimer m) (tm_opcodes m).
Definition set_offline v m := mkThreatManager (tm_refs m) (tm_next m) (iThreatContainer m) v (iDirty m) (iCurrentVictim m) (iUpdateTimer m) (tm_opcodes m).
Definition setDirty v m := mkThreatManager (tm_refs m) (tm_next m) (iThreatContainer m) (iThreatOfflineContainer m) v (iCurrentVictim m) (iUpdateTimer m) (tm_opcodes m).
Definition set_victim v m := mkThreatManager (tm_refs m) (tm_next m) (iThreatContainer m) (iThreatOfflineContainer m) (iDirty m) v (iUpdateTimer m) (tm_opcodes m).
Definition set_timer v m := mkThreatManager (tm_refs m) (tm_next m) (iThreatContainer m) (iThreatOfflineContainer m) (iDirty m) (iCurrentVictim m) v (tm_opcodes m).
Definition send_opcode o m := mkThreatManager (tm_refs m) (tm_next m) (iThreatContainer m) (iThreatOfflineContainer m) (iDirty m) (iCurrentVictim m) (iUpdateTimer m) (tm_opcodes m ++ [o]).

Definition THREAT_UPDATE_INTERVAL := 1000.
Definition ThreatManager_new : ThreatManager := mkThreatManager ∅ 1 [] [] false None THREAT_UPDATE_INTERVAL [].

Abbreviation TM := (prog ThreatManager ThreatError).

(** A reference through its address, and a write through it. *)
Definition ref (a : Z) : TM HostileReference :=
  m ← get; match tm_refs m !! a with Some r => mret r | None => throw FreedReference end.
Definition update_ref (a : Z) (f : HostileReference -> HostileReference) : TM unit :=
  r ← ref a; modify (fun m => set_refs (<[a := f r]> (tm_refs m)) m).
Definition getThreat_ref (a : Z) : TM spec_float := r ← ref a; mret (iThreat r).

(** ** Which threat counts *)

Definition isValidProcess (w : World) (hatedUnit : option Z) (threatSpell : option ThreatSpell) : bool :=
  match hatedUnit with
  | None => false
  | Some hated =>
      if hated =? w_owner w then false
      else if w_gm w hated then false
      else if negb (w_alive w hated) || negb (w_alive w (w_owner w)) then false
      else if negb (w_same_map_phase w hated) then false
      else match threatSpell with Some s => negb (ts_no_threat s) | None => true end
  end.

Definition GetFirstSchoolInMask (mask : Z) : Z :=
  default 0 (List.find (fun i => negb (Z.land mask (Z.shiftl 1 i) =? 0)) [0; 1; 2; 3; 4; 5; 6]).

Definition ApplyTotalThreatModifier (w : World) (unit : Z) (fThreat : spec_float) (schoolMask : Z) : spec_float :=
  if negb (w_mod_threat_aura w unit) || SFltb fThreat fzero then fThreat
  else fmul fThreat (w_threatModifier w unit (GetFirstSchoolInMask schoolMask)).

Definition calcThreat (w : World) (hated : Z) (threat : spec_float) (school : Z) (threatSpell : option ThreatSpell)
  : spec_float :=
  match threatSpell with
  | None => ApplyTotalThreatModifier w hated threat school
  | Some s =>
      let threat := match ts_pctMod s with
                    | Some p => if SFeqb p (float_of_Z 1) then threat else fmul threat p
                    | None => threat
                    end in
      if ts_energize s then threat
      else ApplyTotalThreatModifier w hated (w_spell_mod w hated (ts_Id s) threat) school
  end.

(** ** The lists *)

Definition getReferenceByTarget (m : ThreatManager) (l : list Z) (guid : Z) : option Z :=
  List.find (fun a => match tm_refs m !! a with Some r => iUnitGuid r =? guid | None => false end) l.

Definition remove (a : Z) (l : list Z) : list Z := List.filter (fun b => negb (b =? a)) l.
Definition addReference_online (a : Z) : TM unit := modify (fun m => set_online (iThreatContainer m ++ [a]) m).
Definition addReference_offline (a : Z) : TM unit := modify (fun m => set_offline (iThreatOfflineContainer m ++ [a]) m).
Definition remove_online (a : Z) : TM unit := modify (fun m => set_online (remove a (iThreatContainer m)) m).
Definition remove_offline (a : Z) : TM unit := modify (fun m => set_offline (remove a (iThreatOfflineContainer m)) m).

(** [setCurrentVictim]; the opcode goes out when the victim changes. *)
Definition setCurrentVictim (v : option Z) : TM unit :=
  m ← get;
  (match v with
   | Some a => if bool_decide (iCurrentVictim m = Some a) then mret tt
               else r ← ref a; modify (send_opcode (ChangeCurrentVictim (iUnitGuid r)))
   | None => mret tt
   end);;
  modify (set_victim v).

Inductive ThreatEvent :=
| UEV_THREAT_REF_THREAT_CHANGE (fValue : spec_float)
| UEV_THREAT_REF_ONLINE_STATUS
| UEV_THREAT_REF_ASSECCIBLE_STATUS
| UEV_THREAT_REF_REMOVE_FROM_LIST.

(** The victim that goes away is forgotten. *)
Definition drop_victim (a : Z) : TM unit :=
  m ← get;
  if bool_decide (iCurrentVictim m = Some a) then setCurrentVictim None;; modify (setDirty true) else mret tt.

Definition processThreatEvent (a : Z) (event : ThreatEvent) : TM unit :=
  m ← get;
  match event with
  | UEV_THREAT_REF_THREAT_CHANGE v =>
      let current := bool_decide (iCurrentVictim m = Some a) in
      if (current && SFltb v fzero) || (negb current && SFltb fzero v)
      then modify (setDirty true) else mret tt
  | UEV_THREAT_REF_ONLINE_STATUS =>
      r ← ref a;
      if negb (iOnline r) then
        drop_victim a;;
        modify (send_opcode (RemoveFromThreatList (iUnitGuid r)));;
        remove_online a;;
        addReference_offline a
      else
        (match iCurrentVictim m with
         | Some c => threat ← getThreat_ref c;
                     if SFltb (fmul f1_1 threat) (iThreat r) then modify (setDirty true) else mret tt
         | None => mret tt
         end);;
        addReference_online a;;
        remove_offline a
  | UEV_THREAT_REF_ASSECCIBLE_STATUS => mret tt
  | UEV_THREAT_REF_REMOVE_FROM_LIST =>
      drop_victim a;;
      r ← ref a;
      modify (send_opcode (RemoveFromThreatList (iUnitGuid r)));;
      if iOnline r then remove_online a else remove_offline a
  end.

(** ** References *)

Definition setAccessibleState (a : Z) (isAccessible : bool) : TM unit :=
  r ← ref a;
  if Bool.eqb (iAccessible r) isAccessible then mret tt
  else update_ref a (set_iAccessible isAccessible);; processThreatEvent a UEV_THREAT_REF_ASSECCIBLE_STATUS.

Definition setOnlineOfflineState (a : Z) (isOnline : bool) : TM unit :=
  r ← ref a;
  if Bool.eqb (iOnline r) isOnline then mret tt
  else
    update_ref a (set_iOnline isOnline);;
    (if isOnline then mret tt else setAccessibleState a false);;
    processThreatEvent a UEV_THREAT_REF_ONLINE_STATUS.

Definition updateOnlineStatus (w : World) (a : Z) : TM unit :=
  r ← ref a;
  (if hr_valid r then mret tt
   else if w_exists w (iUnitGuid r) then update_ref a (set_valid true) else mret tt);;
  r ← ref a;
  let target := iUnitGuid r in
  let fights := hr_valid r && negb (w_gm w target) && negb (w_in_flight w target) && w_same_map_phase w target in
  let accessible := fights && w_accessible w target in
  let online := fights && (w_accessible w target || w_combat_range w target) in
  setAccessibleState a accessible;;
  setOnlineOfflineState a online.

(** [removeReference], called by the target, which deletes the reference
    next. *)
Definition removeReference (a : Z) : TM unit :=
  setOnlineOfflineState a false;;
  update_ref a (set_valid false);;
  processThreatEvent a UEV_THREAT_REF_REMOVE_FROM_LIST.
Definition delete_reference (a : Z) : TM unit :=
  removeReference a;; modify (fun m => set_refs (delete a (tm_refs m)) m).

(** ** Adding threat *)

Section Recursion.
(** [ThreatManager::addThreat], for the owner of a charmed unit. *)
Context (w : World) (rec : Z -> spec_float -> TM unit).

Definition addThreat_ref (a : Z) (modThreat : spec_float) : TM unit :=
  update_ref a (fun r => set_iThreat (fadd (iThreat r) modThreat) r);;
  r ← ref a;
  (if iOnline r then mret tt else updateOnlineStatus w a);;
  (if nonzero modThreat then processThreatEvent a (UEV_THREAT_REF_THREAT_CHANGE modThreat) else mret tt);;
  r ← ref a;
  if hr_valid r && SFleb fzero modThreat then
    match w_charmer w (iUnitGuid r) with
    | Some victimOwner => if w_alive w victimOwner then rec victimOwner fzero else mret tt
    | None => mret tt
    end
  else mret tt.

Definition setThreat (a : Z) (threat : spec_float) : TM unit :=
  r ← ref a; addThreat_ref a (fsub threat (iThreat r)).
Definition addThreatPercent (a : Z) (percent : Z) : TM unit :=
  r ← ref a;
  let tmpThreat := fadd (iThreat r) (CalculatePct (iThreat r) percent) in
  addThreat_ref a (fsub tmpThreat (iThreat r)).
Definition addTempThreat (a : Z) (threat : spec_float) : TM unit :=
  update_ref a (set_iTemp threat);;
  if nonzero threat then addThreat_ref a threat else mret tt.
Definition setTempThreat (a : Z) (threat : spec_float) : TM unit :=
  r ← ref a; addTempThreat a (fsub threat (iThreat r)).
Definition resetTempThreat (a : Z) : TM unit :=
  r ← ref a;
  if nonzero (iTempThreatModifier r) then
    addThreat_ref a (SFopp (iTempThreatModifier r));; update_ref a (set_iTemp fzero)
  else mret tt.

(** [new HostileReference], linked to its unit. *)
Definition new_reference (victim : Z) : TM Z :=
  m ← get;
  let a := tm_next m in
  modify (fun m => mkThreatManager (<[a := mkHostileReference fzero fzero victim true true true]> (tm_refs m))
    (a + 1) (iThreatContainer m) (iThreatOfflineContainer m) (iDirty m) (iCurrentVictim m) (iUpdateTimer m)
    (tm_opcodes m));;
  mret a.

Definition _addThreat (victim : Z) (threat : spec_float) : TM unit :=
  m ← get;
  match getReferenceByTarget m (iThreatContainer m) victim with
  | Some a => addThreat_ref a threat
  | None =>
      match getReferenceByTarget m (iThreatOfflineContainer m) victim with
      | Some a => addThreat_ref a threat
      | None =>
          a ← new_reference victim;
          addReference_online a;;
          addThreat_ref a threat;;
          if w_gm w victim then setOnlineOfflineState a false else mret tt
      end
  end.

Definition doAddThreat (victim : Z) (threat : spec_float) : TM unit :=
  let redirectThreadPct := w_redirect_pct w victim in
  match (if SFltb fzero threat && negb (redirectThreadPct =? 0) then w_redirect_target w victim else None) with
  | Some redirectTarget =>
      let redirectThreat := CalculatePct threat redirectThreadPct in
      let threat := fsub threat redirectThreat in
      _addThreat redirectTarget redirectThreat;; _addThreat victim threat
  | None => _addThreat victim threat
  end.
End Recursion.

Definition SPELL_SCHOOL_MASK_NORMAL := 1.

(** [addThreat] without a spell, as a charmed unit's attack calls it. *)
Fixpoint addThreat_rec (w : World) (fuel : nat) (victim : Z) (threat : spec_float) : TM unit :=
  match fuel with
  | O => throw ThreatFuel
  | S fuel' =>
      if isValidProcess w (Some victim) None then
        doAddThreat w (addThreat_rec w fuel') victim
          (calcThreat w victim threat SPELL_SCHOOL_MASK_NORMAL None)
      else mret tt
  end.

Section Operations.
(** The charm links an attack may follow. *)
Context (w : World) (fuel : nat).
Let rec := addThreat_rec w fuel.

Definition addThreat (victim : option Z) (threat : spec_float) (schoolMask : Z) (threatSpell : option ThreatSpell)
  : TM unit :=
  match victim with
  | Some v => if isValidProcess w victim threatSpell
              then doAddThreat w rec v (calcThreat w v threat schoolMask threatSpell) else mret tt
  | None => mret tt
  end.

Definition modifyThreatPercent (victim : option Z) (percent : Z) : TM unit :=
  m ← get;
  match victim ≫= getReferenceByTarget m (iThreatContainer m) with
  | Some a => addThreatPercent w rec a percent
  | None => mret tt
  end.

Definition getThreat (victim : option Z) (alsoSearchOfflineList : bool) : TM spec_float :=
  m ← get;
  match victim ≫= getReferenceByTarget m (iThreatContainer m) with
  | Some a => getThreat_ref a
  | None =>
      match (if alsoSearchOfflineList then victim ≫= getReferenceByTarget m (iThreatOfflineContainer m) else None) with
      | Some a => getThreat_ref a
      | None => mret fzero
      end
  end.

Definition tauntApply (taunter : option Z) : TM unit :=
  m ← get;
  match iCurrentVictim m, taunter ≫= getReferenceByTarget m (iThreatContainer m) with
  | Some c, Some a =>
      r ← ref a; rc ← ref c;
      if SFltb (iThreat r) (iThreat rc) && negb (nonzero (iTempThreatModifier r))
      then setTempThreat w rec a (iThreat rc) else mret tt
  | _, _ => mret tt
  end.
Definition tauntFadeOut (taunter : option Z) : TM unit :=
  m ← get;
  match taunter ≫= getReferenceByTarget m (iThreatContainer m) with
  | Some a => resetTempThreat w rec a
  | None => mret tt
  end.

(** The loops of [resetAllAggro] and [resetAggro]: an iterator is the address
    it points at; it moves in the list as it is by then. *)
Fixpoint successor (a : Z) (l : list Z) : option (option Z) :=
  match l with
  | [] => None
  | b :: l' => if b =? a then Some (head l') else successor a l'
  end.

Fixpoint reset_loop (body : Z -> TM unit) (steps : nat) (a : Z) : TM unit :=
  match steps with
  | O => throw ThreatFuel
  | S steps' =>
      body a;;
      m ← get;
      match successor a (iThreatContainer m) with
      | None => throw FreedReference
      | Some None => mret tt
      | Some (Some b) => reset_loop body steps' b
      end
  end.

Definition resetAggro (steps : nat) (predicate : option Z -> bool) : TM unit :=
  m ← get;
  match iThreatContainer m with
  | [] => mret tt
  | first :: _ =>
      reset_loop (fun a =>
        r ← ref a;
        if predicate (if hr_valid r then Some (iUnitGuid r) else None)
        then setThreat w rec a fzero;; modify (setDirty true) else mret tt) steps first
  end.

Definition resetAllAggro (steps : nat) : TM unit :=
  m ← get;
  match iThreatContainer m with
  | [] => mret tt
  | first :: _ => reset_loop (fun a => setThreat w rec a fzero) steps first;; modify (setDirty true)
  end.
End Operations.

(** ** Choosing the victim *)

Definition threat_at (m : ThreatManager) (a : Z) : spec_float :=
  match tm_refs m !! a with Some r => iThreat r | None => S754_nan end.
(** [ThreatOrderPred]: [a] goes before [b] if it has more threat; the sort of
    [std::list] is stable. *)
Definition ThreatOrderPred (m : ThreatManager) (a b : Z) : bool := SFltb (threat_at m b) (threat_at m a).
Definition not_after (m : ThreatManager) (a b : Z) : Prop := ThreatOrderPred m b a = false.
#[global] Instance not_after_dec m a b : Decision (not_after m a b).
Proof. unfold not_after. apply _. Defined.

Definition update : TM unit :=
  m ← get;
  (if iDirty m && (1 <? len (iThreatContainer m)) then
     forM (iThreatContainer m) (fun a => ref a;; mret tt);;
     modify (set_online (merge_sort (not_after m) (iThreatContainer m)))
   else mret tt);;
  modify (setDirty false).

Inductive Selection :=
| Found (a : Z)
| NotFound
| Restart (currentVictim : option Z).

Section Select.
Context (w : World).

(** A pass of the loop over the list. *)
Fixpoint select_pass (noPriorityTargetFound : bool) (l : list Z) (currentVictim : option Z) : TM Selection :=
  match l with
  | [] => mret NotFound
  | a :: l' =>
      r ← ref a;
      let target := iUnitGuid r in
      if negb (hr_valid r) then throw AssertTarget
      else if negb noPriorityTargetFound && w_second_choice w target then
        match l' with
        | [] => mret (Restart currentVictim)
        | _ => select_pass noPriorityTargetFound l' (if bool_decide (currentVictim = Some a) then None else currentVictim)
        end
      else if w_can_attack w target then
        match currentVictim with
        | None => mret (Found a)
        | Some c =>
            rc ← ref c;
            if (c =? a) || SFleb (iThreat r) (fmul f1_1 (iThreat rc)) then
              if c =? a then mret (Found a)
              else if negb (hr_valid rc) then throw NullTarget
              else mret (Found (if w_can_attack w (iUnitGuid rc) then c else a))
            else if SFltb (fmul f1_3 (iThreat rc)) (iThreat r)
                    || (SFltb (fmul f1_1 (iThreat rc)) (iThreat r) && w_melee w target)
            then mret (Found a)
            else select_pass noPriorityTargetFound l' currentVictim
        end
      else select_pass noPriorityTargetFound l' currentVictim
  end.

Definition selectNextVictim (currentVictim : option Z) : TM (option Z) :=
  m ← get;
  if bool_decide (iThreatContainer m = []) then throw EmptyThreatList
  else
    s ← select_pass false (iThreatContainer m) currentVictim;
    s ← match s with
        | Restart c => select_pass true (iThreatContainer m) c
        | _ => mret s
        end;
    mret (match s with Found a => Some a | _ => None end).

Definition getHostilTarget : TM (option Z) :=
  update;;
  m ← get;
  nextVictim ← selectNextVictim (iCurrentVictim m);
  setCurrentVictim nextVictim;;
  match nextVictim with
  | Some a => r ← ref a; mret (if hr_valid r then Some (iUnitGuid r) else None)
  | None => mret None
  end.
End Select.

(** ** The rest *)

Definition isThreatListEmpty (m : ThreatManager) : bool := bool_decide (iThreatContainer m = []).

(** [getMostHated] *)
Definition getMostHated (m : ThreatManager) : option Z := head (iThreatContainer m).

Definition isNeedUpdateToClient (time : Z) : TM bool :=
  m ← get;
  if isThreatListEmpty m then mret false
  else if iUpdateTimer m <=? time then modify (set_timer THREAT_UPDATE_INTERVAL);; mret true
  else modify (set_timer (u32 (iUpdateTimer m - time)));; mret false.

(** [unlink] and [delete] of each reference. *)
Definition clear_container (l : list Z) : TM unit :=
  forM l (fun a => r ← ref a;
    if hr_valid r then modify (fun m => set_refs (delete a (tm_refs m)) m) else throw NullTarget).
Definition clearReferences : TM unit :=
  m ← get;
  clear_container (iThreatContainer m);;
  modify (set_online []);;
  clear_container (iThreatOfflineContainer m);;
  modify (set_offline []);;
  modify (set_victim None);;
  modify (set_timer THREAT_UPDATE_INTERVAL).
