(* ===== verification/ThreatProofs.v ===== *)
(** * Threat lists: correctness

    The invariant of a threat manager, kept by each operation, whatever the
    units do in between; with it no operation touches a freed reference or fails
    its assertion, and every loop and chain of owners ends. *)

From S2P Require Import Prelude.
From stdpp Require Import list sorting.
From S2P Require Import Floats.
From S2P Require Import Threat.
Local Open Scope Z_scope.
#[local] Set Warnings "-clear-no-such-hyp".

(** ** The invariant *)

Abbreviation on := iThreatContainer.
Abbreviation off := iThreatOfflineContainer.

(** Every reference is in one list, once, the one its flag tells; no unit has
    two; all hated units are among [units]. *)
Record tm_ok (units : gset Z) (m : ThreatManager) : Prop := {
  ok_nodup : NoDup (on m ++ off m);
  ok_listed a : a ∈ on m ++ off m <-> is_Some (tm_refs m !! a);
  ok_online a r : tm_refs m !! a = Some r -> (a ∈ on m <-> iOnline r = true);
  ok_next a : is_Some (tm_refs m !! a) -> a < tm_next m;
  ok_guid a b r r' : tm_refs m !! a = Some r -> tm_refs m !! b = Some r' -> iUnitGuid r = iUnitGuid r' -> a = b;
  ok_valid a r : tm_refs m !! a = Some r -> hr_valid r = true;
  ok_units a r : tm_refs m !! a = Some r -> iUnitGuid r ∈ units;
  ok_victim c : iCurrentVictim m = Some c -> c ∈ on m
}.

(** References stay, with their units, and the online list only gains at its
    end. *)
Definition refs_stay (m m' : ThreatManager) : Prop :=
  forall a r, tm_refs m !! a = Some r -> exists r', tm_refs m' !! a = Some r' /\ iUnitGuid r' = iUnitGuid r.
Definition grows (m m' : ThreatManager) : Prop := refs_stay m m' /\ on m `prefix_of` on m'.

#[export] Instance refs_stay_preorder : PreOrder refs_stay.
Proof.
  split.
  - intros m a r Hr. by exists r.
  - intros m1 m2 m3 H1 H2 a r Hr. destruct (H1 a r Hr) as (r2 & Hr2 & E2).
    destruct (H2 a r2 Hr2) as (r3 & Hr3 & E3). exists r3. by rewrite E3, E2.
Qed.
#[export] Instance grows_preorder : PreOrder grows.
Proof.
  split.
  - by intros m.
  - intros m1 m2 m3 [H1 P1] [H2 P2]. split; by etrans.
Qed.

Definition no_error (e : ThreatError) : Prop := False.
Abbreviation wp := (Prelude.wp no_error).

(** ** The primitives *)

Lemma wp_ref {B} a r (k : HostileReference -> TM B) m Q :
  tm_refs m !! a = Some r -> wp (k r) m Q -> wp (ref a ≫= k) m Q.
Proof. intros Hr. apply wp_seq. unfold ref, get, mbind, prog_bind, mret, prog_ret. by rewrite Hr. Qed.
Lemma run_update_ref a r f m :
  tm_refs m !! a = Some r -> update_ref a f m = (Ok tt, set_refs (<[a := f r]> (tm_refs m)) m).
Proof. intros Hr. unfold update_ref, ref, get, modify, mbind, prog_bind, mret, prog_ret. by rewrite Hr. Qed.
Lemma wp_update_ref {B} a r f (k : unit -> TM B) m Q :
  tm_refs m !! a = Some r -> wp (k tt) (set_refs (<[a := f r]> (tm_refs m)) m) Q -> wp (update_ref a f ≫= k) m Q.
Proof. intros Hr. apply wp_seq. by apply run_update_ref. Qed.
Lemma wp_getThreat_ref {B} a r (k : spec_float -> TM B) m Q :
  tm_refs m !! a = Some r -> wp (k (iThreat r)) m Q -> wp (getThreat_ref a ≫= k) m Q.
Proof. intros Hr Hk. apply wp_bind. unfold getThreat_ref. apply (wp_ref a r); [done|]. by apply wp_ret. Qed.

Lemma elem_of_remove a b l : b ∈ remove a l <-> b ∈ l /\ b <> a.
Proof.
  unfold remove. rewrite !list_elem_of_In, List.filter_In.
  destruct (Z.eqb_spec b a); simpl; intuition congruence.
Qed.
Lemma remove_notin a l : a ∉ l -> remove a l = l.
Proof.
  induction l as [|b l IH]; intros Ha; [done|]. apply not_elem_of_cons in Ha as [Hb Ha]. cbn.
  destruct (Z.eqb_spec b a); [congruence|]. cbn. f_equal. by apply IH.
Qed.
Lemma remove_app a l k : remove a (l ++ k) = remove a l ++ remove a k.
Proof. apply List.filter_app. Qed.
Lemma remove_last a l : a ∉ l -> remove a (l ++ [a]) = l.
Proof.
  intros Ha. rewrite remove_app, remove_notin by done. unfold remove; cbn. rewrite Z.eqb_refl. cbn. apply app_nil_r.
Qed.
Lemma remove_NoDup a l : NoDup l -> NoDup (remove a l).
Proof.
  induction 1 as [|b l Hb _ IH]; [constructor|]. unfold remove; cbn [List.filter].
  destruct (negb (b =? a)); [|done]. constructor; [|done]. intros H. by apply (elem_of_remove a b) in H as [].
Qed.
Lemma remove_prefix a l k : a ∉ l -> l `prefix_of` k -> l `prefix_of` remove a k.
Proof. intros Ha [x ->]. rewrite remove_app, (remove_notin a l) by done. apply prefix_app_r. done. Qed.

(** ** Changes of state that keep the invariant *)

(** Only the flags, the timer, the opcodes, or the victim forgotten. *)
Record same_lists (m m' : ThreatManager) : Prop := {
  sl_refs : tm_refs m' = tm_refs m;
  sl_on : on m' = on m;
  sl_off : off m' = off m;
  sl_next : tm_next m' = tm_next m;
  sl_victim : iCurrentVictim m' = iCurrentVictim m \/ iCurrentVictim m' = None
}.

Lemma same_lists_ok units m m' : same_lists m m' -> tm_ok units m -> tm_ok units m'.
Proof.
  intros [R N F X V] []. constructor; rewrite ?R, ?N, ?F, ?X; try done.
  intros c Hc. destruct V as [V|V]; rewrite V in Hc; [auto|done].
Qed.
Lemma same_lists_grows m m' : same_lists m m' -> grows m m'.
Proof. intros [R N _ _ _]. unfold grows, refs_stay. rewrite R, N. split; [|done]. intros a r Hr. by exists r. Qed.
Lemma same_lists_dirty m v : same_lists m (setDirty v m).
Proof. constructor; auto. Qed.
Lemma same_lists_timer m v : same_lists m (set_timer v m).
Proof. constructor; auto. Qed.

(** Reference [a] becomes [r'], in the list its flag tells; the others stay. *)
Lemma put_ok units m m' a r' :
  tm_ok units m -> tm_refs m' = <[a := r']> (tm_refs m) ->
  hr_valid r' = true -> iUnitGuid r' ∈ units ->
  (forall b rb, tm_refs m !! b = Some rb -> iUnitGuid rb = iUnitGuid r' -> b = a) ->
  tm_next m <= tm_next m' -> a < tm_next m' ->
  NoDup (on m' ++ off m') -> a ∈ on m' ++ off m' -> (a ∈ on m' <-> iOnline r' = true) ->
  (forall b, b <> a -> (b ∈ on m' <-> b ∈ on m) /\ (b ∈ off m' <-> b ∈ off m)) ->
  (forall c, iCurrentVictim m' = Some c -> c ∈ on m') ->
  tm_ok units m'.
Proof.
  intros [nd li onl nx gu va un vi] ER Hv Hu Hg Hnx Ha nd' Hla Hoa Hb vi'.
  assert (forall b rb, tm_refs m' !! b = Some rb -> (b = a /\ rb = r') \/ (b <> a /\ tm_refs m !! b = Some rb)) as Hl.
  { intros b rb H. rewrite ER in H. destruct (decide (b = a)) as [->|Hne].
    - rewrite lookup_insert_eq in H. left. by simplify_eq.
    - rewrite lookup_insert_ne in H by done. by right. }
  constructor; try done.
  - intros b. rewrite ER, lookup_insert_is_Some. destruct (decide (b = a)) as [->|Hne]; [split; auto|].
    destruct (Hb b Hne) as [Hn Hf]. pose proof (li b) as Hlb. rewrite elem_of_app in Hlb.
    rewrite elem_of_app, Hn, Hf, Hlb.
    split; [by right|]. by intros [E|[_ H]]; [destruct Hne|].
  - intros b rb H. destruct (Hl b rb H) as [[-> ->]|[Hne H']]; [done|].
    destruct (Hb b Hne) as [-> _]. by apply onl.
  - intros b [rb H]. destruct (Hl b rb H) as [[-> ->]|[Hne H']]; [done|].
    assert (b < tm_next m) by (apply nx; by exists rb). lia.
  - intros b c rb rc H1 H2 E.
    destruct (Hl b rb H1) as [[-> ->]|[Hne1 H1']]; destruct (Hl c rc H2) as [[-> ->]|[Hne2 H2']]; try done.
    + symmetry. by apply (Hg c rc).
    + by apply (Hg b rb).
    + by apply (gu b c rb rc).
  - intros b rb H. destruct (Hl b rb H) as [[-> ->]|[Hne H']]; [done|]. by apply (va b).
  - intros b rb H. destruct (Hl b rb H) as [[-> ->]|[Hne H']]; [done|]. by apply (un b).
Qed.

Lemma put_refs_stay m m' a r r' :
  tm_refs m !! a = Some r -> tm_refs m' = <[a := r']> (tm_refs m) -> iUnitGuid r' = iUnitGuid r -> refs_stay m m'.
Proof.
  intros Hr ER Eg b rb H. rewrite ER. destruct (decide (a = b)) as [<-|Hne].
  - rewrite lookup_insert_eq. exists r'. split; [done|]. congruence.
  - rewrite lookup_insert_ne by done. by exists rb.
Qed.

Section Put.
Context (units : gset Z) (m : ThreatManager) (a : Z) (r r' : HostileReference).
Context (Hm : tm_ok units m) (Hr : tm_refs m !! a = Some r).
Context (Eg : iUnitGuid r' = iUnitGuid r) (Ev : hr_valid r' = hr_valid r).

Lemma put_same m' :
  tm_refs m' = <[a := r']> (tm_refs m) -> tm_next m <= tm_next m' ->
  NoDup (on m' ++ off m') -> a ∈ on m' ++ off m' -> (a ∈ on m' <-> iOnline r' = true) ->
  (forall b, b <> a -> (b ∈ on m' <-> b ∈ on m) /\ (b ∈ off m' <-> b ∈ off m)) ->
  (forall c, iCurrentVictim m' = Some c -> c ∈ on m') ->
  tm_ok units m' /\ refs_stay m m'.
Proof.
  destruct Hm as [nd li onl nx gu va un vi]. intros ER Hnx nd' Hla Hoa Hb vi'.
  split; [|by apply (put_refs_stay m m' a r r')].
  apply (put_ok units m m' a r'); try done.
  - rewrite Ev. by apply (va a).
  - rewrite Eg. by apply (un a).
  - intros b rb H E. apply (gu b a rb r); congruence.
  - assert (a < tm_next m) by (apply nx; by exists r). lia.
Qed.

(** The reference is written and stays in its list. *)
Lemma write_ok m' :
  iOnline r' = iOnline r -> same_lists (set_refs (<[a := r']> (tm_refs m)) m) m' -> tm_ok units m' /\ grows m m'.
Proof.
  intros Eo [ER EN EF EX EV]. cbn in *. pose proof Hm as [nd li onl nx gu va un vi].
  destruct (put_same m') as [Hok Hs]; [done|lia|by rewrite EN, EF|..].
  - rewrite EN, EF. apply li. by exists r.
  - rewrite EN, Eo. by apply onl.
  - intros b _. by rewrite EN, EF.
  - intros c Hc. rewrite EN. destruct EV as [EV|EV]; rewrite EV in Hc; [by apply vi|done].
  - split; [done|]. split; [done|]. by rewrite EN.
Qed.

Lemma offline_ok m' :
  iOnline r = true -> iOnline r' = false ->
  tm_refs m' = <[a := r']> (tm_refs m) -> tm_next m' = tm_next m ->
  on m' = remove a (on m) -> off m' = off m ++ [a] ->
  (iCurrentVictim m' = iCurrentVictim m \/ iCurrentVictim m' = None) -> iCurrentVictim m' <> Some a ->
  tm_ok units m' /\ refs_stay m m'.
Proof.
  intros Eo Eo' ER EX EN EF EV Hne. pose proof Hm as [nd li onl nx gu va un vi].
  assert (a ∈ on m) as Hin by (by apply (onl a r)).
  apply NoDup_app in nd as (nd1 & nd2 & nd3).
  assert (a ∉ off m) as Hnin by (by apply nd2).
  apply put_same; [done|lia|..]; rewrite ?EN, ?EF.
  - apply NoDup_app. split_and!.
    + by apply remove_NoDup.
    + intros b [H1 H2]%elem_of_remove. rewrite elem_of_app, list_elem_of_singleton. intros [H|H]; [|done].
      by apply (nd2 b).
    + apply NoDup_app. split_and!; [done| |apply NoDup_singleton].
      intros b Hb. rewrite list_elem_of_singleton. by intros ->.
  - rewrite !elem_of_app, list_elem_of_singleton. by right; right.
  - rewrite elem_of_remove, Eo'. naive_solver.
  - intros b Hb. rewrite elem_of_remove, elem_of_app, list_elem_of_singleton. naive_solver.
  - intros c Hc. rewrite elem_of_remove. destruct EV as [EV|EV]; [|congruence].
    split; [apply vi; congruence|]. congruence.
Qed.

Lemma online_ok m' :
  iOnline r = false -> iOnline r' = true ->
  tm_refs m' = <[a := r']> (tm_refs m) -> tm_next m' = tm_next m ->
  on m' = on m ++ [a] -> off m' = remove a (off m) -> iCurrentVictim m' = iCurrentVictim m ->
  tm_ok units m' /\ refs_stay m m'.
Proof.
  intros Eo Eo' ER EX EN EF EV. pose proof Hm as [nd li onl nx gu va un vi].
  assert (a ∉ on m) as Hnin by (rewrite (onl a r Hr), Eo; done).
  apply NoDup_app in nd as (nd1 & nd2 & nd3).
  apply put_same; [done|lia|..]; rewrite ?EN, ?EF.
  - apply NoDup_app. split_and!.
    + apply NoDup_app. split_and!; [done| |apply NoDup_singleton].
      intros b Hb. rewrite list_elem_of_singleton. by intros ->.
    + intros b. rewrite elem_of_app, list_elem_of_singleton, elem_of_remove. intros [H| ->]; [|naive_solver].
      intros [H' _]. by apply (nd2 b).
    + by apply remove_NoDup.
  - rewrite !elem_of_app, list_elem_of_singleton. by left; right.
  - rewrite elem_of_app, list_elem_of_singleton, Eo'. naive_solver.
  - intros b Hb. rewrite elem_of_remove, elem_of_app, list_elem_of_singleton. naive_solver.
  - intros c Hc. apply elem_of_app. left. apply vi. congruence.
Qed.
End Put.

(** A reference deleted. *)
Lemma deleted_ok units m m' a r :
  tm_ok units m -> tm_refs m !! a = Some r -> tm_refs m' = delete a (tm_refs m) -> tm_next m' = tm_next m ->
  on m' = remove a (on m) -> off m' = remove a (off m) ->
  (iCurrentVictim m' = iCurrentVictim m \/ iCurrentVictim m' = None) -> iCurrentVictim m' <> Some a ->
  tm_ok units m'.
Proof.
  intros [nd li onl nx gu va un vi] Hr ER EX EN EF EV Hne.
  assert (forall b rb, tm_refs m' !! b = Some rb -> b <> a /\ tm_refs m !! b = Some rb) as Hl.
  { intros b rb H. rewrite ER, lookup_delete_Some in H. naive_solver. }
  constructor; rewrite ?EN, ?EF, ?EX.
  - rewrite <- remove_app. by apply remove_NoDup.
  - intros b. rewrite <- remove_app, elem_of_remove, li, ER, lookup_delete_is_Some. naive_solver.
  - intros b rb H. destruct (Hl b rb H) as [Hn H']. rewrite elem_of_remove, (onl b rb H'). naive_solver.
  - intros b [rb H]. destruct (Hl b rb H) as [Hn H']. apply nx. by exists rb.
  - intros b c rb rc H1 H2. destruct (Hl b rb H1), (Hl c rc H2). by apply gu.
  - intros b rb H. destruct (Hl b rb H). by apply (va b).
  - intros b rb H. destruct (Hl b rb H). by apply (un b).
  - intros c Hc. rewrite elem_of_remove. destruct EV as [EV|EV]; [|congruence]. split; [apply vi|]; congruence.
Qed.

(** ** Status changes *)

Lemma write_same a r m : tm_refs m !! a = Some r -> set_refs (<[a := r]> (tm_refs m)) m = m.
Proof. intros Hr. rewrite insert_id by done. by destruct m. Qed.

Lemma run_setAccessibleState a v r m :
  tm_refs m !! a = Some r ->
  setAccessibleState a v m = (Ok tt, set_refs (<[a := set_iAccessible v r]> (tm_refs m)) m).
Proof.
  intros Hr. unfold setAccessibleState.
  rewrite (bind_ok (ref a) _ m r m) by (unfold ref, get, mbind, prog_bind, mret, prog_ret; by rewrite Hr).
  destruct (Bool.eqb (iAccessible r) v) eqn:Ev.
  - apply eqb_prop in Ev as <-. replace (set_iAccessible (iAccessible r) r) with r by by destruct r.
    by rewrite write_same.
  - by rewrite (bind_ok _ _ _ _ _ (run_update_ref a r (set_iAccessible v) m Hr)).
Qed.

(** The victim that leaves is forgotten. *)
Lemma run_drop_victim a m : exists m',
  drop_victim a m = (Ok tt, m') /\ same_lists m m' /\ iCurrentVictim m' <> Some a.
Proof.
  unfold drop_victim, get, mbind, prog_bind. destruct (bool_decide (iCurrentVictim m = Some a)) eqn:E.
  - eexists. split; [done|]. split; [|done]. constructor; auto.
  - exists m. apply bool_decide_eq_false in E. split; [done|]. split; [|done]. constructor; auto.
Qed.

Section Status.
Context (units : gset Z) (a : Z) (r : HostileReference) (m : ThreatManager).
Context (Hm : tm_ok units m) (Hr : tm_refs m !! a = Some r).

Lemma victim_reference c : iCurrentVictim m = Some c -> exists rc, tm_refs m !! c = Some rc.
Proof. intros Hc. apply (ok_listed _ _ Hm). apply elem_of_app. left. by apply (ok_victim _ _ Hm). Qed.

(** What [setOnlineOfflineState] does to the lists. *)
Definition state_set (v : bool) (m' : ThreatManager) : Prop :=
  refs_stay m m' /\ (exists r', tm_refs m' !! a = Some r' /\ iOnline r' = v) /\
  on m' = if v then (if bool_decide (a ∈ on m) then on m else on m ++ [a]) else remove a (on m).

Lemma online_moved m' :
  iOnline r = false -> same_lists (set_refs (<[a := set_iOnline true r]> (tm_refs m)) m) m' ->
  iCurrentVictim m' = iCurrentVictim m ->
  wp (addReference_online a;; remove_offline a) m' (fun _ m' => tm_ok units m' /\ state_set true m').
Proof.
  intros Eo [ER EN EF EX _] EV. cbn in *. apply wp_modify. eapply (wp_ok no_error); [reflexivity|].
  match goal with |- tm_ok _ ?x /\ _ =>
    assert (tm_ok units x /\ refs_stay m x) as [Hok Hs] end.
  { apply (online_ok units m a r (set_iOnline true r)); cbn; rewrite ?ER, ?EN, ?EF, ?EX; done. }
  split; [done|]. split_and!; [done| |].
  - exists (set_iOnline true r). cbn. rewrite ER. split; [apply lookup_insert_eq|done].
  - cbn. rewrite EN, bool_decide_false; [done|]. rewrite (ok_online _ _ Hm a r Hr). congruence.
Qed.

Lemma event_online :
  iOnline r = false ->
  wp (processThreatEvent a UEV_THREAT_REF_ONLINE_STATUS) (set_refs (<[a := set_iOnline true r]> (tm_refs m)) m)
    (fun _ m' => tm_ok units m' /\ state_set true m').
Proof.
  intros Eo. unfold processThreatEvent. apply wp_get.
  apply (wp_ref a (set_iOnline true r)); [apply lookup_insert_eq|]. cbn [iOnline set_iOnline negb].
  cbn [iCurrentVictim set_refs]. destruct (iCurrentVictim m) as [c|] eqn:Ec; apply wp_bind.
  - destruct (victim_reference c Ec) as [rc Hrc].
    assert (is_Some (<[a := set_iOnline true r]> (tm_refs m) !! c)) as [rc' Hrc'].
    { apply lookup_insert_is_Some'. right. by exists rc. }
    apply (wp_getThreat_ref c rc'); [done|]. destruct (SFltb _ _).
    + eapply (wp_ok no_error); [reflexivity|]. apply online_moved; [done|by constructor; auto|by cbn].
    + apply wp_ret. apply online_moved; [done|by constructor; auto|by cbn].
  - apply wp_ret. apply online_moved; [done|by constructor; auto|by cbn].
Qed.

Lemma event_offline r' :
  iOnline r = true -> iOnline r' = false -> iUnitGuid r' = iUnitGuid r -> hr_valid r' = hr_valid r ->
  wp (processThreatEvent a UEV_THREAT_REF_ONLINE_STATUS) (set_refs (<[a := r']> (tm_refs m)) m)
    (fun _ m' => tm_ok units m' /\ state_set false m').
Proof.
  intros Eo Eo' Eg Ev. unfold processThreatEvent. apply wp_get.
  apply (wp_ref a r'); [apply lookup_insert_eq|]. rewrite Eo'. cbn [negb].
  destruct (run_drop_victim a (set_refs (<[a := r']> (tm_refs m)) m)) as (m1 & Er & [ER EN EF EX EV] & Hne).
  apply (wp_seq no_error _ _ _ _ _ _ Er). apply wp_modify, wp_modify.
  eapply (wp_ok no_error); [reflexivity|]. cbn [tm_refs on off tm_next iCurrentVictim set_refs] in *.
  match goal with |- tm_ok _ ?x /\ _ =>
    assert (tm_ok units x /\ refs_stay m x) as [Hok Hs] end.
  { apply (offline_ok units m a r r'); cbn; rewrite ?ER, ?EN, ?EF, ?EX; done. }
  split; [done|]. split_and!; [done| |by cbn; rewrite EN].
  exists r'. cbn. rewrite ER. split; [apply lookup_insert_eq|done].
Qed.

Lemma setOnlineOfflineState_ok v :
  wp (setOnlineOfflineState a v) m (fun _ m' => tm_ok units m' /\ state_set v m').
Proof.
  pose proof (ok_online _ _ Hm a r Hr) as Hon. unfold setOnlineOfflineState.
  apply (wp_ref a r); [done|]. destruct (Bool.eqb (iOnline r) v) eqn:Ev.
  - apply eqb_prop in Ev. apply wp_ret. split; [done|]. split_and!; [done|by exists r|].
    destruct v; [by rewrite bool_decide_true by by apply Hon|]. rewrite remove_notin; [done|].
    by rewrite Hon, Ev.
  - apply eqb_false_iff in Ev. apply (wp_update_ref a r); [done|]. destruct v.
    + apply not_true_is_false in Ev. apply wp_bind, wp_ret. by apply event_online.
    + apply not_false_is_true in Ev. eapply (wp_seq no_error).
      { apply (run_setAccessibleState a false (set_iOnline false r)). apply lookup_insert_eq. }
      cbn [tm_refs set_refs]. rewrite insert_insert_eq. by apply event_offline.
Qed.
End Status.

Lemma state_set_grows units a r m v m' :
  tm_ok units m -> tm_refs m !! a = Some r -> iOnline r = false -> state_set a m v m' -> grows m m'.
Proof.
  intros Hm Hr Eo (Hs & _ & EN). split; [done|]. rewrite EN.
  assert (a ∉ on m) as Hn by (rewrite (ok_online _ _ Hm a r Hr); congruence).
  destruct v; [|by rewrite remove_notin]. rewrite bool_decide_false by done. by apply prefix_app_r.
Qed.

Lemma updateOnlineStatus_ok units w a r m :
  tm_ok units m -> tm_refs m !! a = Some r ->
  wp (updateOnlineStatus w a) m (fun _ m' =>
    tm_ok units m' /\ refs_stay m m' /\ (iOnline r = false -> grows m m')).
Proof.
  intros Hm Hr. unfold updateOnlineStatus. apply (wp_ref a r); [done|].
  rewrite (ok_valid _ _ Hm a r Hr). apply wp_bind, wp_ret. apply (wp_ref a r); [done|].
  eapply (wp_seq no_error); [by apply (run_setAccessibleState a _ r)|].
  set (r1 := set_iAccessible _ r). set (m1 := set_refs _ _).
  destruct (write_ok units m a r r1 Hm Hr eq_refl eq_refl m1) as [Hm1 Hg]; [done|by constructor; auto|].
  eapply wp_mono; [apply (setOnlineOfflineState_ok units a r1 m1 Hm1)|].
  - apply lookup_insert_eq.
  - intros [] m2 [Hm2 Hs]. split; [done|]. split.
    + etrans; [apply Hg|apply Hs].
    + intros Eo. etrans; [apply Hg|]. apply (state_set_grows units a r1 _ _ _ Hm1 (lookup_insert_eq _ _ _) Eo Hs).
Qed.

Lemma delete_reference_ok units a r m :
  tm_ok units m -> tm_refs m !! a = Some r ->
  wp (delete_reference a) m (fun _ m' => tm_ok units m' /\ tm_refs m' !! a = None).
Proof.
  intros Hm Hr. unfold delete_reference, removeReference. apply wp_bind, wp_bind.
  eapply wp_mono; [by apply (setOnlineOfflineState_ok units a r m Hm Hr false)|].
  intros [] m1 (Hm1 & _ & (r1 & Hr1 & Eo) & _). apply (wp_update_ref a r1); [done|].
  set (m2 := set_refs _ m1). unfold processThreatEvent. apply wp_get.
  destruct (run_drop_victim a m2) as (m3 & Er & [ER EN EF EX EV] & Hne).
  apply (wp_seq no_error _ _ _ _ _ _ Er).
  apply (wp_ref a (set_valid false r1)); [rewrite ER; apply lookup_insert_eq|].
  apply wp_modify. cbn [iOnline set_valid]. rewrite Eo.
  eapply (wp_ok no_error); [reflexivity|]. eapply (wp_ok no_error); [reflexivity|].
  split.
  - assert (a ∉ on m1) as Hn by (rewrite (ok_online _ _ Hm1 a r1 Hr1); congruence).
    apply (deleted_ok units m1 _ a r1 Hm1 Hr1); cbn; rewrite ?ER, ?EN, ?EF, ?EX; try done.
    + apply delete_insert_eq.
    + by rewrite remove_notin.
  - apply lookup_delete_eq.
Qed.

(** ** Adding threat *)

(** The changes of threat leave the lists. *)
Lemma event_change_ok a v m :
  wp (processThreatEvent a (UEV_THREAT_REF_THREAT_CHANGE v)) m (fun _ m' => same_lists m m').
Proof.
  unfold processThreatEvent. apply wp_get. destruct (_ || _).
  - eapply (wp_ok no_error); [reflexivity|]. apply same_lists_dirty.
  - apply wp_ret. constructor; auto.
Qed.

Section Adding.
Context (units : gset Z) (w : World) (rank : Z -> nat).
Implicit Types m : ThreatManager.

(** The owners of a unit are units, and their chain ends. *)
Record owners_end : Prop := {
  oe_charmer v o : v ∈ units -> w_charmer w v = Some o -> o ∈ units /\ (rank o < rank v)%nat;
  oe_redirect v t : v ∈ units -> w_redirect_target w v = Some t -> t ∈ units
}.
Context (Hw : owners_end).

(** An operation that keeps the invariant and removes no reference. *)
Definition extends {A} (p : TM A) : Prop :=
  forall m, tm_ok units m -> wp p m (fun _ m' => tm_ok units m' /\ grows m m').

Lemma extends_ret {A} (x : A) : extends (mret x).
Proof. by intros m Hm. Qed.
Lemma extends_bind {A B} (p : TM A) (k : A -> TM B) : extends p -> (forall x, extends (k x)) -> extends (p ≫= k).
Proof.
  intros Hp Hk m Hm. apply wp_bind. eapply wp_mono; [by apply Hp|]. intros x m1 [Hm1 G1].
  eapply wp_mono; [by apply Hk|]. intros y m2 [Hm2 G2]. split; [done|]. by etrans.
Qed.

Section Level.
(** [rec] serves the owners of rank below [n]. *)
Context (rec : Z -> spec_float -> TM unit) (n : nat).
Context (Hrec : forall o, o ∈ units -> (rank o < n)%nat -> extends (rec o fzero)).

Lemma addThreat_ref_ok a r x m :
  tm_ok units m -> tm_refs m !! a = Some r -> (rank (iUnitGuid r) <= n)%nat ->
  wp (addThreat_ref w rec a x) m (fun _ m' => tm_ok units m' /\ grows m m').
Proof.
  intros Hm Hr Hn. unfold addThreat_ref. apply (wp_update_ref a r); [done|].
  set (r1 := set_iThreat _ r). set (m1 := set_refs _ m).
  destruct (write_ok units m a r r1 Hm Hr eq_refl eq_refl m1) as [Hm1 G1]; [done|by constructor; auto|].
  assert (tm_refs m1 !! a = Some r1) as Hr1 by apply lookup_insert_eq.
  apply (wp_ref a r1); [done|]. apply wp_bind.
  apply (wp_mono no_error _ _ (fun _ m' => tm_ok units m' /\ grows m m')).
  { destruct (iOnline r1) eqn:Eo; [by apply wp_ret|].
    eapply wp_mono; [by apply (updateOnlineStatus_ok units w a r1 m1)|].
    intros [] m2 (Hm2 & _ & G2). split; [done|]. etrans; [done|]. by apply G2. }
  intros [] m2 [Hm2 G2]. apply wp_bind.
  apply (wp_mono no_error _ _ (fun _ m' => tm_ok units m' /\ grows m m')).
  { destruct (nonzero x); [|by apply wp_ret]. eapply wp_mono; [apply event_change_ok|].
    intros [] m3 Hs. split; [by apply (same_lists_ok _ m2)|]. etrans; [done|by apply same_lists_grows]. }
  intros [] m3 [Hm3 G3]. destruct (proj1 G3 a r Hr) as (r3 & Hr3 & Eg).
  apply (wp_ref a r3); [done|]. destruct (_ && _); [|by apply wp_ret].
  destruct (w_charmer w (iUnitGuid r3)) as [o|] eqn:Eo; [|by apply wp_ret].
  destruct (w_alive w o); [|by apply wp_ret].
  destruct (oe_charmer Hw (iUnitGuid r3) o) as [Hou Hor]; [by apply (ok_units _ _ Hm3 a)|done|].
  eapply wp_mono; [apply Hrec; [done|rewrite Eg in Hor; lia|done]|]. intros [] m4 [Hm4 G4]. split; [done|]. by etrans.
Qed.

Lemma getReferenceByTarget_Some m l v a :
  getReferenceByTarget m l v = Some a -> a ∈ l /\ exists r, tm_refs m !! a = Some r /\ iUnitGuid r = v.
Proof.
  intros H. apply List.find_some in H as [Hin H]. split; [by apply list_elem_of_In|].
  destruct (tm_refs m !! a) as [r|] eqn:Hr; [|done]. exists r. split; [done|]. by apply Z.eqb_eq.
Qed.
Lemma getReferenceByTarget_None m l v a r :
  getReferenceByTarget m l v = None -> a ∈ l -> tm_refs m !! a = Some r -> iUnitGuid r <> v.
Proof.
  intros H Ha%list_elem_of_In Hr. apply (List.find_none _ _ H) in Ha. rewrite Hr in Ha. by apply Z.eqb_neq.
Qed.

(** A unit of neither list gets a reference of its own, online. *)
Lemma new_reference_ok v m :
  tm_ok units m -> v ∈ units ->
  (forall a r, tm_refs m !! a = Some r -> iUnitGuid r <> v) ->
  wp (new_reference v ≫= (fun a => (addReference_online a;; mret a))) m (fun a m' =>
    tm_ok units m' /\ grows m m' /\ (a ∉ on m) /\ exists r, tm_refs m' !! a = Some r /\ iUnitGuid r = v).
Proof.
  intros Hm Hv Hnew. eapply (wp_ok no_error); [reflexivity|]. cbn.
  pose proof Hm as [nd li onl nx gu va un vi].
  set (a := tm_next m). set (r := mkHostileReference _ _ _ _ _ _).
  assert (tm_refs m !! a = None) as Hfree.
  { apply eq_None_not_Some. intros H. pose proof (nx a H). unfold a in *. lia. }
  assert (a ∉ on m ++ off m) as Hn by (rewrite li, Hfree; apply is_Some_None).
  split_and!.
  - rewrite not_elem_of_app in Hn. destruct Hn. apply (put_ok units m _ a r); cbn; try done; try lia.
    + intros b rb Hb E. by destruct (Hnew b rb Hb).
    + apply (NoDup_Permutation_proper (a :: (on m ++ off m))).
      * rewrite <- (app_assoc (on m)). apply Permutation_middle.
      * constructor; [by rewrite elem_of_app; tauto|done].
    + apply elem_of_app. left. apply elem_of_app. right. by left.
    + split; [done|]. intros _. apply elem_of_app. right. by left.
    + intros b Hb. rewrite elem_of_app, list_elem_of_singleton. naive_solver.
    + intros c Hc. apply elem_of_app. left. by apply vi.
  - split; [|cbn; by apply prefix_app_r]. intros b rb Hb. exists rb. cbn.
    rewrite lookup_insert_ne by congruence. done.
  - rewrite not_elem_of_app in Hn. tauto.
  - exists r. split; [apply lookup_insert_eq|done].
Qed.

Lemma _addThreat_ok v x : v ∈ units -> (rank v <= n)%nat -> extends (_addThreat w rec v x).
Proof.
  intros Hv Hn m Hm. unfold _addThreat. apply wp_get.
  destruct (getReferenceByTarget m (on m) v) as [a|] eqn:E1.
  { apply getReferenceByTarget_Some in E1 as (_ & r & Hr & <-). by apply (addThreat_ref_ok a r). }
  destruct (getReferenceByTarget m (off m) v) as [a|] eqn:E2.
  { apply getReferenceByTarget_Some in E2 as (_ & r & Hr & <-). by apply (addThreat_ref_ok a r). }
  change (wp ((new_reference v ≫= (fun a => addReference_online a;; mret a)) ≫= (fun a =>
    addThreat_ref w rec a x;; if w_gm w v then setOnlineOfflineState a false else mret tt)) m
    (fun _ m' => tm_ok units m' /\ grows m m')).
  apply wp_bind. eapply wp_mono; [apply new_reference_ok; [done|done|]|].
  { intros a r Hr. assert (a ∈ on m ++ off m) as [H|H]%elem_of_app by (apply (ok_listed _ _ Hm); by exists r).
    - by apply (getReferenceByTarget_None m (on m) v a r).
    - by apply (getReferenceByTarget_None m (off m) v a r). }
  intros a m1 (Hm1 & G1 & Ha & r1 & Hr1 & Eg). apply wp_bind.
  eapply wp_mono; [apply (addThreat_ref_ok a r1); [done|done|by rewrite Eg]|].
  intros [] m2 [Hm2 G2]. destruct (w_gm w v); [|apply wp_ret; split; [done|by etrans]].
  destruct (proj1 G2 a r1 Hr1) as (r2 & Hr2 & _).
  eapply wp_mono; [by apply (setOnlineOfflineState_ok units a r2 m2 Hm2 Hr2)|].
  intros [] m3 [Hm3 (Hs & _ & EN)]. split; [done|]. split.
  - etrans; [apply G1|]. etrans; [apply G2|done].
  - rewrite EN. apply remove_prefix; [done|]. etrans; [apply G1|apply G2].
Qed.

Lemma doAddThreat_ok v x :
  v ∈ units -> (rank v <= n)%nat -> (SFltb fzero x = true -> forall t, t ∈ units -> (rank t <= n)%nat) ->
  extends (doAddThreat w rec v x).
Proof.
  intros Hv Hn Hall. unfold doAddThreat. destruct (SFltb fzero x) eqn:Ex; cbn [andb]; [|by apply _addThreat_ok].
  destruct (negb _); [|by apply _addThreat_ok].
  destruct (w_redirect_target w v) as [t|] eqn:Et; [|by apply _addThreat_ok].
  pose proof (oe_redirect Hw v t Hv Et). apply extends_bind; [by apply _addThreat_ok; auto|].
  intros []. by apply _addThreat_ok.
Qed.
End Level.

(** No threat stays no threat, whatever the modifiers: what the comment in
    [doAddThreat] asks for. *)
Lemma fmul_fzero x : SFltb fzero (fmul fzero x) = false.
Proof. by destruct x as [[]|[]| |[]]. Qed.
Lemma ApplyTotalThreatModifier_fzero v school : SFltb fzero (ApplyTotalThreatModifier w v fzero school) = false.
Proof. unfold ApplyTotalThreatModifier. destruct (_ || _); [done|apply fmul_fzero]. Qed.

Lemma addThreat_rec_ok n v : v ∈ units -> (rank v < n)%nat -> extends (addThreat_rec w n v fzero).
Proof.
  revert v. induction n as [|n IH]; intros v Hv Hn; [lia|]. cbn [addThreat_rec].
  destruct (isValidProcess _ _ _); [|apply extends_ret].
  apply (doAddThreat_ok _ n); [intros; by apply IH|done|lia|].
  unfold calcThreat. by rewrite ApplyTotalThreatModifier_fzero.
Qed.
End Adding.

(** ** The loops over the list *)

Lemma successor_lookup l i a : NoDup l -> l !! i = Some a -> successor a l = Some (l !! S i).
Proof.
  revert i. induction l as [|b l IH]; intros i Hnd Hi; [done|]. apply NoDup_cons in Hnd as [Hb Hnd].
  cbn [successor]. destruct i as [|i]; cbn in Hi.
  - simplify_eq. rewrite Z.eqb_refl. by destruct l.
  - destruct (Z.eqb_spec b a) as [->|_]; [|by apply IH].
    destruct Hb. by apply (list_elem_of_lookup_2 _ i).
Qed.

(** No more references than units. *)
Lemma online_bound units m : tm_ok units m -> (length (on m) <= size units)%nat.
Proof.
  intros Hm. pose (guid a := from_option iUnitGuid 0 (tm_refs m !! a)).
  assert (forall a, a ∈ on m -> exists r, tm_refs m !! a = Some r) as Hin.
  { intros a Ha. apply (ok_listed _ _ Hm), elem_of_app. by left. }
  rewrite <- (length_fmap guid (on m)). apply submseteq_length, NoDup_submseteq.
  - apply NoDup_fmap_2_strong; [|by apply (NoDup_app (on m) (off m)), (ok_nodup _ _ Hm)].
    intros a b Ha Hb E. destruct (Hin a Ha) as [ra Hra], (Hin b Hb) as [rb Hrb].
    unfold guid in E. rewrite Hra, Hrb in E. by apply (ok_guid _ _ Hm a b ra rb).
  - intros g (a & -> & Ha)%list_elem_of_fmap. apply elem_of_elements.
    destruct (Hin a Ha) as [ra Hra]. unfold guid. rewrite Hra. by apply (ok_units _ _ Hm a).
Qed.

Section Operations.
Context (units : gset Z) (w : World) (rank : Z -> nat) (fuel : nat).
Context (Hw : owners_end units w rank) (Hfuel : forall v, v ∈ units -> (rank v <= fuel)%nat).
Abbreviation extends := (extends units).
Abbreviation rec := (addThreat_rec w fuel).

(** An operation of a listed reference. *)
Definition extends_at {A} (p : Z -> TM A) : Prop :=
  forall a r m, tm_ok units m -> tm_refs m !! a = Some r -> wp (p a) m (fun _ m' => tm_ok units m' /\ grows m m').

Lemma rec_ok o : o ∈ units -> (rank o < fuel)%nat -> extends (rec o fzero).
Proof. by apply addThreat_rec_ok. Qed.

Lemma add_ok x : extends_at (fun a => addThreat_ref w rec a x).
Proof.
  intros a r m Hm Hr. apply (addThreat_ref_ok units w rank Hw _ fuel rec_ok a r); [done|done|].
  apply Hfuel. by apply (ok_units _ _ Hm a).
Qed.
Lemma add_of_ok f : extends_at (fun a => r ← ref a; addThreat_ref w rec a (f r)).
Proof. intros a r m Hm Hr. apply (wp_ref a r); [done|]. by apply (add_ok _ a r). Qed.

Lemma addTempThreat_ok x : extends_at (fun a => addTempThreat w rec a x).
Proof.
  intros a r m Hm Hr. unfold addTempThreat. apply (wp_update_ref a r); [done|].
  set (m1 := set_refs _ m).
  destruct (write_ok units m a r (set_iTemp x r) Hm Hr eq_refl eq_refl m1) as [Hm1 G1];
    [done|by constructor; auto|].
  destruct (nonzero x); [|by apply wp_ret].
  eapply wp_mono; [by apply (add_ok _ a (set_iTemp x r)), lookup_insert_eq|].
  intros [] m2 [Hm2 G2]. split; [done|]. by etrans.
Qed.
Lemma setTempThreat_ok x : extends_at (fun a => setTempThreat w rec a x).
Proof. intros a r m Hm Hr. apply (wp_ref a r); [done|]. by apply (addTempThreat_ok _ a r). Qed.

Lemma resetTempThreat_ok : extends_at (resetTempThreat w rec).
Proof.
  intros a r m Hm Hr. unfold resetTempThreat. apply (wp_ref a r); [done|].
  destruct (nonzero _); [|by apply wp_ret]. apply wp_bind.
  eapply wp_mono; [by apply (add_ok _ a r)|]. intros [] m1 [Hm1 G1].
  destruct (proj1 G1 a r Hr) as (r1 & Hr1 & Eg).
  eapply (wp_ok no_error); [by apply (run_update_ref a r1)|].
  edestruct (write_ok units m1 a r1 (set_iTemp fzero r1) Hm1 Hr1) as [Hm2 G2]; [done|done|done|by constructor; auto|].
  split; [done|]. by etrans.
Qed.

Lemma extends_get {A} (k : ThreatManager -> TM A) :
  (forall m, tm_ok units m -> wp (k m) m (fun _ m' => tm_ok units m' /\ grows m m')) -> extends (get ≫= k).
Proof. intros Hk m Hm. apply wp_get. by apply Hk. Qed.

(** The operations that look a unit up in the online list. *)
Lemma on_target_ok {A} (v : option Z) (p : Z -> TM A) (x : A) m :
  tm_ok units m -> extends_at p ->
  wp (match v ≫= getReferenceByTarget m (on m) with Some a => p a | None => mret x end) m
    (fun _ m' => tm_ok units m' /\ grows m m').
Proof.
  intros Hm Hp. destruct (v ≫= _) as [a|] eqn:E; [|by apply wp_ret].
  apply bind_Some in E as (u & _ & (_ & r & Hr & _)%getReferenceByTarget_Some). by apply (Hp a r).
Qed.

Lemma addThreat_ok v x school s : (forall u, v = Some u -> u ∈ units) -> extends (addThreat w fuel v x school s).
Proof.
  intros Hv. unfold addThreat. destruct v as [u|]; [|apply extends_ret].
  destruct (isValidProcess _ _ _); [|apply extends_ret].
  apply (doAddThreat_ok units w rank Hw _ fuel rec_ok); [by apply Hv|by apply Hfuel, Hv|]. intros _. apply Hfuel.
Qed.

Lemma modifyThreatPercent_ok v pct : extends (modifyThreatPercent w fuel v pct).
Proof.
  apply extends_get. intros m Hm. apply on_target_ok; [done|].
  apply (add_of_ok (fun r => fsub (fadd (iThreat r) (CalculatePct (iThreat r) pct)) (iThreat r))).
Qed.

Lemma tauntFadeOut_ok v : extends (tauntFadeOut w fuel v).
Proof. apply extends_get. intros m Hm. apply on_target_ok; [done|]. apply resetTempThreat_ok. Qed.

Lemma tauntApply_ok v : extends (tauntApply w fuel v).
Proof.
  apply extends_get. intros m Hm. destruct (iCurrentVictim m) as [c|] eqn:Ec; [|by apply wp_ret].
  destruct (v ≫= _) as [a|] eqn:E; [|by apply wp_ret].
  apply bind_Some in E as (u & _ & (_ & r & Hr & _)%getReferenceByTarget_Some).
  destruct (victim_reference units m Hm c Ec) as [rc Hrc].
  apply (wp_ref a r); [done|]. apply (wp_ref c rc); [done|]. destruct (_ && _); [|by apply wp_ret].
  by apply (setTempThreat_ok _ a r).
Qed.

(** *** Resetting *)

Lemma reset_loop_ok body steps m i a :
  (forall b m, tm_ok units m -> b ∈ on m -> wp (body b) m (fun _ m' => tm_ok units m' /\ grows m m')) ->
  tm_ok units m -> on m !! i = Some a -> (size units <= i + steps)%nat ->
  wp (reset_loop body steps a) m (fun _ m' => tm_ok units m' /\ grows m m').
Proof.
  intros Hbody. revert m i a. induction steps as [|steps IH]; intros m i a Hm Hi Hs; cbn [reset_loop].
  { pose proof (online_bound units m Hm). apply lookup_lt_Some in Hi. lia. }
  apply wp_bind. eapply wp_mono; [apply Hbody; [done|by apply (list_elem_of_lookup_2 _ i)]|].
  intros [] m1 [Hm1 G1]. apply wp_get.
  assert (on m1 !! i = Some a) as Hi1 by (destruct G1 as [_ [l ->]]; by apply lookup_app_l_Some).
  rewrite (successor_lookup _ i a) by (try apply (NoDup_app (on m1) (off m1)), (ok_nodup _ _ Hm1); done).
  destruct (on m1 !! S i) as [b|] eqn:Hb; [|by apply wp_ret].
  eapply wp_mono; [apply (IH m1 (S i) b); [done|done|lia]|]. intros [] m2 [Hm2 G2]. split; [done|]. by etrans.
Qed.

Lemma online_reference m a : tm_ok units m -> a ∈ on m -> exists r, tm_refs m !! a = Some r.
Proof. intros Hm Ha. apply (ok_listed _ _ Hm), elem_of_app. by left. Qed.

Lemma extends_dirty v : extends (modify (setDirty v)).
Proof.
  intros m Hm. eapply (wp_ok no_error); [reflexivity|].
  split; [by apply (same_lists_ok _ m), Hm; apply same_lists_dirty|apply same_lists_grows, same_lists_dirty].
Qed.

Lemma resetAllAggro_ok steps : (size units <= steps)%nat -> extends (resetAllAggro w fuel steps).
Proof.
  intros Hs. apply extends_get. intros m Hm. destruct (on m) as [|a l] eqn:El; [by apply wp_ret|].
  apply wp_bind. eapply wp_mono.
  - apply (reset_loop_ok _ steps m 0 a); [|done|by rewrite El|lia].
    intros b m1 Hm1 Hb. destruct (online_reference m1 b Hm1 Hb) as [r Hr].
    by apply (add_of_ok (fun r => fsub fzero (iThreat r)) b r).
  - intros [] m1 [Hm1 G1]. eapply wp_mono; [by apply extends_dirty|].
    intros [] m2 [Hm2 G2]. split; [done|]. by etrans.
Qed.

Lemma resetAggro_ok steps p : (size units <= steps)%nat -> extends (resetAggro w fuel steps p).
Proof.
  intros Hs. apply extends_get. intros m Hm. destruct (on m) as [|a l] eqn:El; [by apply wp_ret|].
  apply (reset_loop_ok _ steps m 0 a); [|done|by rewrite El|lia].
  intros b m1 Hm1 Hb. destruct (online_reference m1 b Hm1 Hb) as [r Hr].
  apply (wp_ref b r); [done|]. destruct (p _); [|by apply wp_ret].
  apply wp_bind. eapply wp_mono; [by apply (add_of_ok (fun r => fsub fzero (iThreat r)) b r)|].
  intros [] m2 [Hm2 G2]. eapply wp_mono; [by apply extends_dirty|].
  intros [] m3 [Hm3 G3]. split; [done|]. by etrans.
Qed.
End Operations.

(** *** Clearing *)

Lemma clear_container_run l m :
  NoDup l -> (forall a, a ∈ l -> exists r, tm_refs m !! a = Some r /\ hr_valid r = true) ->
  exists m', clear_container l m = (Ok tt, m') /\ m' = set_refs (tm_refs m') m /\
    (forall a r, tm_refs m' !! a = Some r <-> (a ∉ l) /\ tm_refs m !! a = Some r).
Proof.
  revert m. induction l as [|a l IH]; intros m Hnd Hl.
  { exists m. split; [done|]. split; [by destruct m|]. intros b r. split; [|tauto]. split; [apply not_elem_of_nil|done]. }
  apply NoDup_cons in Hnd as [Ha Hnd]. destruct (Hl a) as (r & Hr & Hv); [by left|].
  destruct (IH (set_refs (delete a (tm_refs m)) m) Hnd) as (m' & Er & Em & Hm').
  { intros b Hb. cbn. rewrite lookup_delete_ne by by intros ->. apply Hl. by right. }
  exists m'. split.
  - unfold clear_container in *. cbn [forM]. unfold ref, get, mbind, prog_bind, mret, prog_ret. rewrite Hr, Hv. exact Er.
  - split; [by rewrite Em|]. intros b rb. rewrite Hm'. cbn. rewrite lookup_delete_Some, not_elem_of_cons. naive_solver.
Qed.

Lemma clearReferences_ok units m :
  tm_ok units m ->
  wp clearReferences m (fun _ m' => tm_ok units m' /\ tm_refs m' = ∅ /\ on m' = [] /\ off m' = [] /\ iCurrentVictim m' = None).
Proof.
  intros Hm. pose proof Hm as [nd li onl nx gu va un vi]. apply NoDup_app in nd as (nd1 & nd2 & nd3).
  assert (forall a, a ∈ on m ++ off m -> exists r, tm_refs m !! a = Some r /\ hr_valid r = true) as Hin.
  { intros a [r Hr]%li. exists r. split; [done|by apply (va a)]. }
  unfold clearReferences. apply wp_get.
  destruct (clear_container_run (on m) m nd1) as (m1 & Er1 & Em1 & H1).
  { intros a Ha. apply Hin, elem_of_app. by left. }
  apply (wp_seq no_error _ _ _ _ _ _ Er1). apply wp_modify.
  destruct (clear_container_run (off m) (set_online [] m1) nd3) as (m2 & Er2 & Em2 & H2).
  { intros a Ha. destruct (Hin a) as (r & Hr & Hv); [apply elem_of_app; by right|]. exists r. split; [|done].
    cbn. apply H1. split; [|done]. intros Hn. by apply (nd2 a). }
  apply (wp_seq no_error _ _ _ _ _ _ Er2). apply wp_modify, wp_modify. eapply (wp_ok no_error); [reflexivity|].
  assert (tm_refs m2 = ∅) as Hemp.
  { apply map_empty. intros a. apply eq_None_not_Some. intros [r [Hn [Hf Hr]%H1]%H2].
    assert (a ∈ on m ++ off m) as [?|?]%elem_of_app by (apply li; by exists r); done. }
  assert (on m2 = []) as Eon by by rewrite Em2. split; [|done].
  constructor; cbn; rewrite ?Hemp, ?Eon; try done.
  - constructor.
  - intros a. rewrite lookup_empty. split; [by intros ?%not_elem_of_nil|by intros [? ?]].
  - intros a [r Hr]. by rewrite lookup_empty in Hr.
Qed.

(** ** Choosing the victim *)

(** The list sorted: the same references in another order. *)
Lemma permuted_ok units m m' l :
  tm_ok units m -> l ≡ₚ on m -> same_lists (set_online l m) m' -> tm_ok units m'.
Proof.
  intros [nd li onl nx gu va un vi] Hp Hs. apply (same_lists_ok _ _ _ Hs).
  constructor; cbn; try done; try (by rewrite Hp).
  - intros a. rewrite Hp. apply li.
  - intros a r Hr. rewrite Hp. by apply onl.
  - intros c Hc. rewrite Hp. by apply vi.
Qed.

Lemma SFltb_asym x y : SFltb x y = true -> SFltb y x = false.
Proof.
  destruct x as [sx|sx| |sx mx ex], y as [sy|sy| |sy my ey]; unfold SFltb; cbn;
    try (destruct sx, sy; done); try done.
  change (Pos.compare_cont Eq my mx) with (my ?= mx)%positive.
  change (Pos.compare_cont Eq mx my) with (mx ?= my)%positive.
  rewrite (Z.compare_antisym ex ey), (Pos.compare_antisym mx my).
  destruct sx, sy; try done; destruct (ex ?= ey); try done; cbn; by destruct (mx ?= my)%positive.
Qed.
#[export] Instance not_after_total m : Total (not_after m).
Proof.
  intros a b. unfold not_after, ThreatOrderPred.
  destruct (SFltb (threat_at m a) (threat_at m b)) eqn:E; [|by left].
  right. by apply SFltb_asym.
Qed.

Lemma update_ok units m :
  tm_ok units m ->
  wp update m (fun _ m' => tm_ok units m' /\ tm_refs m' = tm_refs m /\ on m' ≡ₚ on m /\
    iCurrentVictim m' = iCurrentVictim m /\
    (iDirty m = true -> Sorted (not_after m) (on m'))).
Proof.
  intros Hm. unfold update. apply wp_get, wp_bind.
  destruct (iDirty m && _) eqn:Ed.
  - apply wp_bind. eapply wp_mono; [apply (wp_forM no_error _ _ (eq m)); [done|]|].
    + intros a m' Ha <-. destruct (online_reference units m a Hm Ha) as [r Hr].
      apply (wp_ref a r); [done|]. by apply wp_ret.
    + intros [] m' <-. eapply (wp_ok no_error); [reflexivity|]. eapply (wp_ok no_error); [reflexivity|].
      pose proof (merge_sort_Permutation (not_after m) (on m)) as Hp.
      split_and!; [apply (permuted_ok units m _ _ Hm Hp); by constructor; auto|done|done|done|].
      intros _. apply Sorted_merge_sort. apply _.
  - apply wp_ret. eapply (wp_ok no_error); [reflexivity|].
    split_and!; [apply (same_lists_ok _ m); [apply same_lists_dirty|done]|done|done|done|].
    intros Hd. rewrite Hd in Ed. cbn in Ed. apply Z.ltb_ge in Ed. cbn. destruct (on m) as [|a [|b l]].
    + constructor.
    + by repeat constructor.
    + cbn in Ed. lia.
Qed.

(** A unit that overtakes the victim: it may be attacked now, and has 130% of
    the victim's threat, or 110% in melee. *)
Definition overtakes (w : World) (m : ThreatManager) (c a : Z) : Prop :=
  exists rc r, tm_refs m !! c = Some rc /\ tm_refs m !! a = Some r /\ w_can_attack w (iUnitGuid r) = true /\
    (SFltb (fmul f1_3 (iThreat rc)) (iThreat r) = true \/
     SFltb (fmul f1_1 (iThreat rc)) (iThreat r) = true /\ w_melee w (iUnitGuid r) = true).

Section Select.
Context (units : gset Z) (w : World) (m : ThreatManager) (Hm : tm_ok units m).

Definition chosen_online (s : Selection) : Prop := match s with Found a => a ∈ on m | _ => True end.

Lemma select_pass_safe np l cur :
  l ⊆ on m -> (forall c, cur = Some c -> c ∈ on m) ->
  wp (select_pass w np l cur) m (fun s m' => m' = m /\ chosen_online s /\
    (forall c, s = Restart (Some c) -> cur = Some c)).
Proof.
  revert cur. induction l as [|a l IH]; intros cur Hl Hc; cbn [select_pass]; [by apply wp_ret|].
  assert (a ∈ on m) as Ha by (apply Hl; by left).
  assert (l ⊆ on m) as Hl' by (intros b Hb; apply Hl; by right).
  destruct (online_reference units m a Hm Ha) as [r Hr]. apply (wp_ref a r); [done|].
  rewrite (ok_valid _ _ Hm a r Hr). cbn [negb]. destruct (negb np && _).
  { destruct l as [|b l']; [apply wp_ret; naive_solver|].
    case_bool_decide; [|by apply IH]. eapply wp_mono; [by apply (IH None)|].
    intros s m' (-> & Hs & Hr'). split_and!; [done|done|]. intros c ->. by specialize (Hr' c eq_refl). }
  destruct (w_can_attack w (iUnitGuid r)); [|by apply IH].
  destruct cur as [c|]; [|by apply wp_ret].
  assert (c ∈ on m) as Hcin by by apply Hc.
  destruct (online_reference units m c Hm Hcin) as [rc Hrc]. apply (wp_ref c rc); [done|].
  rewrite (ok_valid _ _ Hm c rc Hrc). cbn [negb].
  destruct (_ || _); [destruct (c =? a); apply wp_ret; [done|by destruct (w_can_attack _ _)]|].
  destruct (_ || _); [by apply wp_ret|by apply IH].
Qed.

(** With a victim that is no second choice and can be attacked, the pass ends at
    the victim or at a unit that overtakes it. *)
Lemma select_pass_victim l c rc :
  l ⊆ on m -> c ∈ l -> tm_refs m !! c = Some rc ->
  w_second_choice w (iUnitGuid rc) = false -> w_can_attack w (iUnitGuid rc) = true ->
  wp (select_pass w false l (Some c)) m (fun s m' => m' = m /\ exists a, s = Found a /\ (a = c \/ overtakes w m c a)).
Proof.
  intros Hl Hc Hrc Hns Hca. induction l as [|a l IH]; [by apply not_elem_of_nil in Hc|]. cbn [select_pass].
  assert (a ∈ on m) as Ha by (apply Hl; by left).
  assert (l ⊆ on m) as Hl' by (intros b Hb; apply Hl; by right).
  destruct (online_reference units m a Hm Ha) as [r Hr]. apply (wp_ref a r); [done|].
  rewrite (ok_valid _ _ Hm a r Hr). cbn [negb andb].
  assert (a <> c -> c ∈ l) as Hcl by (intros Hne; apply elem_of_cons in Hc as [->|]; done).
  destruct (w_second_choice w (iUnitGuid r)) eqn:Es.
  { assert (a <> c) as Hne by (intros ->; congruence). specialize (IH Hl' (Hcl Hne)).
    destruct l as [|b l']; [by apply not_elem_of_nil in Hcl|]. by rewrite bool_decide_false by congruence. }
  destruct (w_can_attack w (iUnitGuid r)) eqn:Ea; [|apply IH; [done|apply Hcl; congruence]].
  apply (wp_ref c rc); [done|]. rewrite (ok_valid _ _ Hm c rc Hrc), Hca. cbn [negb].
  destruct (Z.eqb_spec c a) as [<-|Hne]; cbn [orb]; [apply wp_ret; eauto|].
  destruct (SFleb _ _); [apply wp_ret; eauto|].
  destruct (_ || _) eqn:Eo; [|by apply IH, Hcl].
  apply wp_ret. split; [done|]. exists a. split; [done|]. right. exists rc, r. split_and!; [done..|].
  apply orb_prop in Eo as [?|[? ?]%andb_prop]; auto.
Qed.
End Select.

Section Hostil.
Context (units : gset Z) (w : World).

Lemma setCurrentVictim_ok v m :
  tm_ok units m -> (forall a, v = Some a -> a ∈ on m) ->
  wp (setCurrentVictim v) m (fun _ m' =>
    tm_ok units m' /\ iCurrentVictim m' = v /\ tm_refs m' = tm_refs m /\ on m' = on m).
Proof.
  intros Hm Hv. assert (forall m1, same_lists m m1 -> tm_ok units (set_victim v m1)) as Hset.
  { intros m1 Hs. pose proof (same_lists_ok _ _ _ Hs Hm) as []. destruct Hs as [ER EN EF EX _].
    constructor; cbn; try done. rewrite EN. exact Hv. }
  unfold setCurrentVictim. apply wp_get. destruct v as [a|]; [case_bool_decide|].
  - eapply (wp_ok no_error); [reflexivity|]. split; [|done]. apply Hset. constructor; auto.
  - destruct (online_reference units m a Hm (Hv a eq_refl)) as [r Hr].
    apply wp_bind, (wp_ref a r); [done|]. eapply (wp_ok no_error); [reflexivity|].
    eapply (wp_ok no_error); [reflexivity|]. split; [|done]. apply Hset. constructor; auto.
  - eapply (wp_ok no_error); [reflexivity|]. split; [|done]. apply Hset. constructor; auto.
Qed.

Lemma selectNextVictim_safe m cur :
  tm_ok units m -> on m <> [] -> (forall c, cur = Some c -> c ∈ on m) ->
  wp (selectNextVictim w cur) m (fun v m' => m' = m /\ forall a, v = Some a -> a ∈ on m).
Proof.
  intros Hm Hne Hc. unfold selectNextVictim. apply wp_get. rewrite bool_decide_false by done. apply wp_bind.
  eapply wp_mono; [by apply (select_pass_safe units w m Hm)|]. intros s m' (-> & Hs & Hr). apply wp_bind.
  apply (wp_mono no_error _ _ (fun s m' => m' = m /\ chosen_online m s)).
  - destruct s as [a| |c]; [by apply wp_ret..|].
    eapply wp_mono; [apply (select_pass_safe units w m Hm true (on m) c); [done|]|naive_solver].
    intros c' ->. apply Hc. by apply Hr.
  - intros s' m' [-> Hs']. apply wp_ret. split; [done|]. intros a. by destruct s'; intros [= <-].
Qed.

(** The choice made, the victim is set and its unit returned. *)
Lemma getHostilTarget_ok m (P : list Z -> option Z -> Prop) :
  tm_ok units m -> (forall l v, P l v -> forall a, v = Some a -> a ∈ l) ->
  (forall m', tm_ok units m' -> tm_refs m' = tm_refs m -> on m' ≡ₚ on m -> iCurrentVictim m' = iCurrentVictim m ->
    wp (selectNextVictim w (iCurrentVictim m')) m' (fun v m'' => m'' = m' /\ P (on m') v)) ->
  wp (getHostilTarget w) m (fun t m' => tm_ok units m' /\ tm_refs m' = tm_refs m /\ on m' ≡ₚ on m /\
    (iDirty m = true -> Sorted (not_after m) (on m')) /\ P (on m') (iCurrentVictim m') /\
    t = (a ← iCurrentVictim m'; iUnitGuid <$> tm_refs m' !! a)).
Proof.
  intros Hm HP Hsel. unfold getHostilTarget. apply wp_bind. eapply wp_mono; [by apply (update_ok units)|].
  intros [] m1 (Hm1 & ER1 & Hp1 & Ev1 & Hsort). apply wp_get, wp_bind. eapply wp_mono; [by apply Hsel|].
  intros v m' (-> & Hv). apply wp_bind.
  eapply wp_mono; [apply (setCurrentVictim_ok v m1 Hm1); by apply HP|].
  intros [] m2 (Hm2 & Ev2 & ER2 & EN2). rewrite <- EN2 in Hv, Hsort, Hp1. destruct v as [a|].
  - destruct (online_reference units m2 a Hm2) as [r Hr]; [by apply (HP _ _ Hv)|].
    apply (wp_ref a r); [done|]. rewrite (ok_valid _ _ Hm2 a r Hr). apply wp_ret. rewrite Ev2. cbn. rewrite Hr.
    by rewrite ER2, ER1.
  - apply wp_ret. rewrite Ev2. by rewrite ER2, ER1.
Qed.

Lemma getHostilTarget_safe m :
  tm_ok units m -> on m <> [] -> wp (getHostilTarget w) m (fun _ m' => tm_ok units m').
Proof.
  intros Hm Hne. eapply wp_mono; [apply (getHostilTarget_ok m (fun l v => forall a, v = Some a -> a ∈ l) Hm)|].
  - done.
  - intros m' Hm' ER Hp Ev. apply selectNextVictim_safe; [done| |by apply (ok_victim _ _ Hm')].
    intros E. apply Hne, Permutation_nil. by rewrite <- E, Hp.
  - by intros t m' [Hm' _].
Qed.

Lemma getHostilTarget_victim m c rc :
  tm_ok units m -> iCurrentVictim m = Some c -> tm_refs m !! c = Some rc ->
  w_second_choice w (iUnitGuid rc) = false -> w_can_attack w (iUnitGuid rc) = true ->
  wp (getHostilTarget w) m (fun t m' => exists a r, iCurrentVictim m' = Some a /\ tm_refs m !! a = Some r /\
    t = Some (iUnitGuid r) /\ (a = c \/ overtakes w m c a)).
Proof.
  intros Hm Hc Hrc Hns Hca. eapply wp_mono.
  - apply (getHostilTarget_ok m (fun l v => exists a, v = Some a /\ a ∈ l /\ (a = c \/ overtakes w m c a)) Hm).
    + intros l v (a & -> & Hin & _) b. by intros [= <-].
    + intros m' Hm' ER Hp Ev. unfold selectNextVictim. rewrite Ev, Hc. apply wp_get.
      assert (c ∈ on m') as Hcin by (apply (ok_victim _ _ Hm'); congruence).
      rewrite bool_decide_false by (intros E; rewrite E in Hcin; by apply not_elem_of_nil in Hcin).
      apply wp_bind. eapply wp_mono.
      * apply wp_and; [apply (select_pass_victim units w m' Hm' (on m') c rc); [done|done|congruence|done|done]|].
        apply (select_pass_safe units w m' Hm'); [done|]. by intros c' [= <-].
      * intros s m'' ((-> & a & -> & Ha) & _ & Hin & _). apply wp_bind, wp_ret, wp_ret. split; [done|].
        exists a. unfold overtakes in *. by rewrite ER in Ha.
  - intros t m' (Hm' & ER & _ & _ & (a & Ha & Hin & Hov) & ->).
    destruct (online_reference units m' a Hm' Hin) as [r Hr]. exists a, r. rewrite Ha. cbn. rewrite Hr.
    by rewrite <- ER.
Qed.

(** *** Without a victim *)

Definition second_choice (m : ThreatManager) (a : Z) : bool :=
  match tm_refs m !! a with Some r => w_second_choice w (iUnitGuid r) | None => false end.
Definition attackable (m : ThreatManager) (a : Z) : bool :=
  match tm_refs m !! a with Some r => w_can_attack w (iUnitGuid r) | None => false end.
(** The first unit that may be attacked; units of second choice count when
    there is no other and the last of the list is one. *)
Definition first_target (m : ThreatManager) (l : list Z) : option Z :=
  match List.find (fun a => negb (second_choice m a) && attackable m a) l with
  | Some a => Some a
  | None => if from_option (second_choice m) false (last l) then List.find (attackable m) l else None
  end.

Lemma select_pass_first m np l :
  tm_ok units m -> l ⊆ on m ->
  wp (select_pass w np l None) m (fun s m' => m' = m /\
    s = match List.find (fun a => (np || negb (second_choice m a)) && attackable m a) l with
        | Some a => Found a
        | None => if negb np && from_option (second_choice m) false (last l) then Restart None else NotFound
        end).
Proof.
  intros Hm. induction l as [|a l IH]; intros Hl; cbn [select_pass].
  { apply wp_ret. cbn. by rewrite andb_false_r. }
  assert (a ∈ on m) as Ha by (apply Hl; by left).
  specialize (IH ltac:(intros b Hb; apply Hl; by right)).
  destruct (online_reference units m a Hm Ha) as [r Hr]. apply (wp_ref a r); [done|].
  rewrite (ok_valid _ _ Hm a r Hr). cbn [negb List.find].
  assert (second_choice m a = w_second_choice w (iUnitGuid r)) as Es by (unfold second_choice; by rewrite Hr).
  assert (attackable m a = w_can_attack w (iUnitGuid r)) as Ea by (unfold attackable; by rewrite Hr).
  assert (from_option (second_choice m) false (last (a :: l)) =
    if decide (l = []) then w_second_choice w (iUnitGuid r) else from_option (second_choice m) false (last l)) as El.
  { destruct (decide (l = [])) as [->|Hne]; [exact Es|]. by destruct l. }
  rewrite Es, Ea, El. clear Es Ea El.
  destruct np, (w_second_choice w (iUnitGuid r)), (w_can_attack w (iUnitGuid r)); cbn [negb andb orb] in *;
    try (apply wp_ret; done); destruct l; try (apply wp_ret; done); apply IH.
Qed.

Lemma getHostilTarget_first m :
  tm_ok units m -> on m <> [] -> iCurrentVictim m = None ->
  wp (getHostilTarget w) m (fun t m' => iCurrentVictim m' = first_target m (on m') /\
    t = (a ← iCurrentVictim m'; iUnitGuid <$> tm_refs m !! a) /\ on m' ≡ₚ on m /\
    (iDirty m = true -> Sorted (not_after m) (on m'))).
Proof.
  intros Hm Hne Hv. eapply wp_mono.
  - apply (getHostilTarget_ok m (fun l v => v = first_target m l) Hm).
    + intros l v -> a. unfold first_target.
      destruct (List.find _ l) eqn:E; [intros [= <-]; by apply List.find_some in E as [?%list_elem_of_In _]|].
      destruct (from_option _ _ _); [|done]. intros E'. by apply List.find_some in E' as [?%list_elem_of_In _].
    + intros m' Hm' ER Hp Ev. unfold selectNextVictim. rewrite Ev, Hv. apply wp_get.
      rewrite bool_decide_false by (intros E; by apply Hne, Permutation_nil; rewrite <- E, Hp).
      apply wp_bind. eapply wp_mono; [by apply (select_pass_first m')|]. intros s m'' [-> ->].
      unfold first_target, second_choice, attackable. rewrite ER. fold (second_choice m).
      destruct (List.find _ _) as [a|]; [by apply wp_ret|]. cbn [negb andb].
      destruct (from_option _ _ _); [|by apply wp_ret].
      apply wp_bind. eapply wp_mono; [by apply (select_pass_first m')|]. intros s m'' [-> ->].
      unfold attackable. rewrite ER. cbn [orb andb negb].
      destruct (List.find _ _) as [a|]; by apply wp_ret.
  - intros t m' (_ & ER & Hp & Hs & Ha & Ht). by rewrite <- ER.
Qed.
End Hostil.

(** ** Every reachable manager *)

(** What is done to a manager: by the creature and its spells, and, through
    their lists of references, by the units it hates. *)
Inductive ThreatOp :=
| OpAddThreat (victim : option Z) (threat : spec_float) (school : Z) (spell : option ThreatSpell)
| OpModifyThreatPercent (victim : option Z) (percent : Z)
| OpTauntApply (taunter : option Z)
| OpTauntFadeOut (taunter : option Z)
| OpAttackMe (caster : Z)
| OpGetHostilTarget
| OpResetAggro (predicate : option Z -> bool)
| OpResetAllAggro
| OpNeedUpdate (time : Z)
| OpClearReferences
| OpUpdateOnlineStatus (a : Z)
| OpSetOnlineOfflineState (a : Z) (isOnline : bool)
| OpAddTempThreat (a : Z) (threat : spec_float)
| OpResetTempThreat (a : Z)
| OpAddThreatPercent (a : Z) (percent : Z)
| OpDeleteReference (a : Z).

Definition run_op (w : World) (fuel : nat) (op : ThreatOp) : TM unit :=
  let rec := addThreat_rec w fuel in
  match op with
  | OpAddThreat victim threat school spell => addThreat w fuel victim threat school spell
  | OpModifyThreatPercent victim percent => modifyThreatPercent w fuel victim percent
  | OpTauntApply taunter => tauntApply w fuel taunter
  | OpTauntFadeOut taunter => tauntFadeOut w fuel taunter
  | OpAttackMe caster =>
      m ← get;
      match getReferenceByTarget m (iThreatContainer m) caster with
      | Some a => setCurrentVictim (Some a)
      | None => mret tt
      end
  | OpGetHostilTarget => getHostilTarget w;; mret tt
  | OpResetAggro predicate => resetAggro w fuel fuel predicate
  | OpResetAllAggro => resetAllAggro w fuel fuel
  | OpNeedUpdate time => isNeedUpdateToClient time;; mret tt
  | OpClearReferences => clearReferences
  | OpUpdateOnlineStatus a => updateOnlineStatus w a
  | OpSetOnlineOfflineState a isOnline => setOnlineOfflineState a isOnline
  | OpAddTempThreat a threat => addTempThreat w rec a threat
  | OpResetTempThreat a => resetTempThreat w rec a
  | OpAddThreatPercent a percent => addThreatPercent w rec a percent
  | OpDeleteReference a => delete_reference a
  end.

(** What the callers see to: units passed exist, the victim is asked for when
    there is one, the references are those of the list. *)
Definition enabled (units : gset Z) (m : ThreatManager) (op : ThreatOp) : Prop :=
  match op with
  | OpAddThreat victim _ _ _ => forall u, victim = Some u -> u ∈ units
  | OpGetHostilTarget => isThreatListEmpty m = false
  | OpUpdateOnlineStatus a | OpSetOnlineOfflineState a _ | OpAddTempThreat a _ | OpResetTempThreat a
  | OpAddThreatPercent a _ | OpDeleteReference a => is_Some (tm_refs m !! a)
  | _ => True
  end.

(** The world at an operation: finitely many units, the hated ones among them,
    chains of owners that end, and fuel for both. *)
Record world_ok (units : gset Z) (w : World) (rank : Z -> nat) (fuel : nat) (m : ThreatManager) : Prop := {
  wo_owners : owners_end units w rank;
  wo_rank v : v ∈ units -> (rank v <= fuel)%nat;
  wo_size : (size units <= fuel)%nat;
  wo_hated a r : tm_refs m !! a = Some r -> iUnitGuid r ∈ units
}.

Inductive reachable : ThreatManager -> Prop :=
| reachable_new : reachable ThreatManager_new
| reachable_op m units w rank fuel op r m' :
    reachable m -> world_ok units w rank fuel m -> enabled units m op -> run_op w fuel op m = (r, m') ->
    reachable m'.

Definition consistent (m : ThreatManager) : Prop := exists units, tm_ok units m.

Lemma consistent_units units m :
  consistent m -> (forall a r, tm_refs m !! a = Some r -> iUnitGuid r ∈ units) -> tm_ok units m.
Proof. intros [u []] Hu. by constructor. Qed.

Lemma isNeedUpdateToClient_ok units t : extends units (isNeedUpdateToClient t).
Proof.
  apply extends_get. intros m Hm. destruct (isThreatListEmpty m); [by apply wp_ret|].
  destruct (_ <=? _); eapply (wp_ok no_error); try reflexivity;
    (split; [apply (same_lists_ok _ m); [apply same_lists_timer|done]|apply same_lists_grows, same_lists_timer]).
Qed.

Lemma wp_extends {A} units m (p : TM A) : extends units p -> tm_ok units m -> wp p m (fun _ m' => tm_ok units m').
Proof. intros Hp Hm. eapply wp_mono; [by apply Hp|]. by intros x m' []. Qed.
Lemma wp_discard {A} (p : TM A) m (P : ThreatManager -> Prop) :
  wp p m (fun _ => P) -> wp (p;; mret tt) m (fun _ => P).
Proof. intros H. apply wp_bind. eapply wp_mono; [done|]. intros x m' Hm'. by apply wp_ret. Qed.

Lemma run_op_ok units w rank fuel op m :
  tm_ok units m -> world_ok units w rank fuel m -> enabled units m op ->
  wp (run_op w fuel op) m (fun _ m' => tm_ok units m').
Proof.
  intros Hm [Hw Hf Hs _] He. destruct op; cbn [run_op enabled] in *;
    match type of He with is_Some _ => destruct He as [r Hr] | _ => idtac end.
  - apply wp_extends; [|done]. by apply (addThreat_ok units w rank).
  - apply wp_extends; [|done]. by apply (modifyThreatPercent_ok units w rank).
  - apply wp_extends; [|done]. by apply (tauntApply_ok units w rank).
  - apply wp_extends; [|done]. by apply (tauntFadeOut_ok units w rank).
  - apply wp_get. destruct (getReferenceByTarget _ _ _) as [a|] eqn:E; [|by apply wp_ret].
    apply getReferenceByTarget_Some in E as [Ha _].
    eapply wp_mono; [apply (setCurrentVictim_ok units); [done|by intros b [= <-]]|]. by intros [] m' [].
  - apply wp_discard, getHostilTarget_safe; [done|]. by apply bool_decide_eq_false in He.
  - apply wp_extends; [|done]. by apply (resetAggro_ok units w rank).
  - apply wp_extends; [|done]. by apply (resetAllAggro_ok units w rank).
  - apply wp_discard, wp_extends; [apply isNeedUpdateToClient_ok|done].
  - eapply wp_mono; [by apply clearReferences_ok|]. by intros [] m' [].
  - eapply wp_mono; [by apply (updateOnlineStatus_ok units)|]. by intros [] m' [].
  - eapply wp_mono; [by apply (setOnlineOfflineState_ok units _ r)|]. by intros [] m' [].
  - eapply wp_mono; [by apply (addTempThreat_ok units w rank fuel Hw Hf threat a r)|]. by intros [] m' [].
  - eapply wp_mono; [by apply (resetTempThreat_ok units w rank fuel Hw Hf a r)|]. by intros [] m' [].
  - eapply wp_mono; [by apply (add_of_ok units w rank fuel Hw Hf
      (fun r => fsub (fadd (iThreat r) (CalculatePct (iThreat r) percent)) (iThreat r)) a r)|].
    by intros [] m' [].
  - eapply wp_mono; [by apply (delete_reference_ok units a r)|]. by intros [] m' [].
Qed.

Lemma wp_run {A} (p : TM A) m Q : wp p m Q -> exists x m', p m = (Ok x, m') /\ Q x m'.
Proof. unfold Prelude.wp. destruct (p m) as [[x|e] m']; [eauto|done]. Qed.

Lemma consistent_new : consistent ThreatManager_new.
Proof.
  exists ∅. constructor; try done; cbn.
  - constructor.
  - intros a. rewrite lookup_empty. split; [by intros ?%not_elem_of_nil|by intros [? ?]].
  - intros a [r Hr]. by rewrite lookup_empty in Hr.
Qed.

Lemma reachable_consistent m : reachable m -> consistent m.
Proof.
  induction 1 as [|m units w rank fuel op r m' _ IH Hw He Er]; [apply consistent_new|].
  pose proof (consistent_units units m IH (wo_hated _ _ _ _ _ Hw)) as Hm.
  destruct (wp_run _ _ _ (run_op_ok units w rank fuel op m Hm Hw He)) as ([] & m1 & Er1 & Hm1).
  rewrite Er in Er1. simplify_eq. by exists units.
Qed.

(** C14. Whatever the order of attacks, heals, taunts, resets, status changes
    and deaths, every operation of a threat manager completes: no freed
    reference is used, no assertion fails, the chains of pet owners and the loop
    over the growing list end.  After it every reference is in exactly the list
    of its status, once, no unit has two, and the victim is online. *)
Theorem threat_manager_safe m units w rank fuel op :
  reachable m -> world_ok units w rank fuel m -> enabled units m op ->
  exists m', run_op w fuel op m = (Ok tt, m') /\ consistent m'.
Proof.
  intros Hm Hw He. apply reachable_consistent in Hm.
  pose proof (consistent_units units m Hm (wo_hated _ _ _ _ _ Hw)) as Hok.
  destruct (wp_run _ _ _ (run_op_ok units w rank fuel op m Hok Hw He)) as ([] & m' & Er & Hm').
  exists m'. split; [done|]. by exists units.
Qed.


(** ** A small world *)

(** Creature 100; player 1 with pet 2; players 3 and 4. *)
Definition sample_world : World := {|
  w_owner := 100; w_exists := fun _ => true; w_alive := fun _ => true; w_gm := fun _ => false;
  w_in_flight := fun _ => false; w_same_map_phase := fun _ => true; w_accessible := fun _ => true;
  w_combat_range := fun _ => true; w_charmer := fun v => if v =? 2 then Some 1 else None;
  w_redirect_pct := fun _ => 0; w_redirect_target := fun _ => None; w_spell_mod := fun _ _ x => x;
  w_mod_threat_aura := fun _ => false; w_threatModifier := fun _ _ => float_of_Z 1;
  w_second_choice := fun _ => false; w_can_attack := fun _ => true; w_melee := fun _ => true
|}.
Definition sample_units : gset Z := {[1; 2; 3; 4]}.
Definition sample_rank (v : Z) : nat := if v =? 2 then 1%nat else O.

Definition run_ops (w : World) (ops : list ThreatOp) (m : ThreatManager) : ThreatManager :=
  fold_left (fun m op => (run_op w 10 op m).2) ops m.
(** The pet attacks, then player 3, harder. *)
Definition sample_manager : ThreatManager :=
  run_ops sample_world
    [OpAddThreat (Some 2) (float_of_Z 10) 1 None; OpAddThreat (Some 3) (float_of_Z 20) 1 None]
    ThreatManager_new.

Lemma sample_owners w : w_charmer w = w_charmer sample_world -> w_redirect_target w = (fun _ => None) ->
  owners_end sample_units w sample_rank.
Proof.
  intros Ec Er. constructor; rewrite ?Ec, ?Er; [|done]. intros v o _. cbn.
  destruct (Z.eqb_spec v 2) as [->|]; [|done]. intros [= <-]. split; [|by vm_compute; lia].
  by apply (bool_decide_unpack _); vm_compute.
Qed.

Lemma sample_ok m : Forall (fun p => p.2.(iUnitGuid) ∈ sample_units) (map_to_list (tm_refs m)) ->
  world_ok sample_units sample_world sample_rank 10 m.
Proof.
  intros Hf. constructor.
  - by apply sample_owners.
  - intros v _. unfold sample_rank. destruct (v =? 2); lia.
  - by vm_compute; lia.
  - intros a r Hr%elem_of_map_to_list. rewrite Forall_forall in Hf. by apply (Hf (a, r)).
Qed.

Lemma sample_manager_reachable : reachable sample_manager.
Proof.
  eapply (reachable_op (run_ops sample_world [OpAddThreat (Some 2) (float_of_Z 10) 1 None] ThreatManager_new)
    sample_units sample_world sample_rank 10 (OpAddThreat (Some 3) (float_of_Z 20) 1 None)).
  - eapply (reachable_op ThreatManager_new sample_units sample_world sample_rank 10
      (OpAddThreat (Some 2) (float_of_Z 10) 1 None)).
    + constructor.
    + by apply sample_ok.
    + intros u [= <-]. by apply (bool_decide_unpack _); vm_compute.
    + apply surjective_pairing.
  - apply sample_ok. apply (bool_decide_unpack _). by vm_compute.
  - intros u [= <-]. by apply (bool_decide_unpack _); vm_compute.
  - apply surjective_pairing.
Qed.

Lemma threat_manager_safe_witness :
  exists m', run_op sample_world 10 OpResetAllAggro sample_manager = (Ok tt, m') /\ consistent m'.
Proof.
  apply (threat_manager_safe sample_manager sample_units sample_world sample_rank 10 OpResetAllAggro).
  - apply sample_manager_reachable.
  - apply sample_ok. apply (bool_decide_unpack _). by vm_compute.
  - exact I.
Defined.

(** The creature fights player 3. *)
Definition sample_fighting : ThreatManager := run_ops sample_world [OpGetHostilTarget] sample_manager.

Lemma fighting_reachable : reachable sample_fighting.
Proof.
  eapply (reachable_op sample_manager sample_units sample_world sample_rank 10 OpGetHostilTarget).
  - apply sample_manager_reachable.
  - apply sample_ok. apply (bool_decide_unpack _). by vm_compute.
  - by vm_compute.
  - apply surjective_pairing.
Qed.


(** *** What the selection leaves out *)

Definition sample_players (first second : Z) : ThreatManager :=
  run_ops sample_world
    [OpAddThreat (Some first) (float_of_Z 20) 1 None; OpAddThreat (Some second) (float_of_Z 10) 1 None]
    ThreatManager_new.
Definition with_targets (second can melee : Z -> bool) : World := {|
  w_owner := 100; w_exists := fun _ => true; w_alive := fun _ => true; w_gm := fun _ => false;
  w_in_flight := fun _ => false; w_same_map_phase := fun _ => true; w_accessible := fun _ => true;
  w_combat_range := fun _ => true; w_charmer := fun _ => None;
  w_redirect_pct := fun _ => 0; w_redirect_target := fun _ => None; w_spell_mod := fun _ _ x => x;
  w_mod_threat_aura := fun _ => false; w_threatModifier := fun _ _ => float_of_Z 1;
  w_second_choice := second; w_can_attack := can; w_melee := melee
|}.

(** Player 3 is of second choice, player 4 cannot be attacked: player 3 is the
    target if the list ends with it, and is not if it starts with it. *)
Example second_choice_forgotten :
  let w := with_targets (fun v => v =? 3) (fun v => v =? 3) (fun _ => true) in
  (getHostilTarget w (sample_players 4 3)).1 = Ok (Some 3) /\
  (getHostilTarget w (sample_players 3 4)).1 = Ok None.
Proof. by vm_compute. Qed.

(** A victim that can no longer be attacked still holds off player 4, who has
    120% of its threat at range: the creature has no target. *)
Example unattackable_victim_holds_off :
  let m := run_ops sample_world
    [OpAddThreat (Some 3) (float_of_Z 20) 1 None; OpGetHostilTarget; OpAddThreat (Some 4) (float_of_Z 24) 1 None]
    ThreatManager_new in
  (getHostilTarget (with_targets (fun _ => false) (fun v => v =? 4) (fun _ => false)) m).1 = Ok None.
Proof. by vm_compute. Qed.

(** "Reset all aggro without modifying the threatlist": a pet without threat
    puts its owner on it. *)
Example resetAllAggro_adds_owner :
  let m := run_ops sample_world
    [OpAddThreat (Some 2) (float_of_Z 10) 1 None; OpDeleteReference 2; OpResetAllAggro] ThreatManager_new in
  len (on m) = 1 /\ len (on (run_ops sample_world [OpResetAllAggro] m)) = 2.
Proof. by vm_compute. Qed.
