(* ===== verification/GroupLoot.v ===== *)
(** * Rolling for loot (src/src/serveur/jeu/Groups/Group.cpp, loot system)

    When a group opens a corpse, a [Roll] is started for each item worth it, with
    a vote per member nearby.  Members vote need, greed, disenchant or pass; when
    all have, or when the timer ends, the dice decide.  The loots the rolls are
    about outlive them or not: a roll is valid while its loot exists. *)

From S2P Require Import Prelude.
Local Open Scope Z_scope.

Inductive RollError := BadIterator | LootSlotOutOfRange | NullTemplate | RollFuel.

Inductive RollVote := PASS | NEED | GREED | DISENCHANT | NOT_EMITED_YET | NOT_VALID.
#[export] Instance RollVote_eq_dec : EqDecision RollVote.
Proof. solve_decision. Defined.
Definition vote_value (v : RollVote) : Z :=
  match v with PASS => 0 | NEED => 1 | GREED => 2 | DISENCHANT => 3 | NOT_EMITED_YET => 4 | NOT_VALID => 5 end.

(** [RollType] *)
Definition ROLL_PASS := 0.
Definition ROLL_NEED := 1.
Definition ROLL_GREED := 2.
Definition ROLL_DISENCHANT := 3.
Definition MAX_ROLL_TYPE := 4.
Definition ROLL_FLAG_TYPE_NEED := 2.
Definition ROLL_FLAG_TYPE_DISENCHANT := 8.
Definition ROLL_ALL_TYPE_NO_DISENCHANT := 7.
Definition ITEM_FLAGS_EXTRA_NEED_ROLL_DISABLED := 256.

Record LootItem := mkLootItem {
  li_itemid : Z;
  li_freeforall : bool;
  li_follow_loot_rules : bool;
  li_is_looted : bool;
  li_is_blocked : bool;
  li_is_underthreshold : bool
}.
Definition set_looted v i := mkLootItem (li_itemid i) (li_freeforall i) (li_follow_loot_rules i) v (li_is_blocked i) (li_is_underthreshold i).
Definition set_blocked v i := mkLootItem (li_itemid i) (li_freeforall i) (li_follow_loot_rules i) (li_is_looted i) v (li_is_underthreshold i).
Definition set_underthreshold v i := mkLootItem (li_itemid i) (li_freeforall i) (li_follow_loot_rules i) (li_is_looted i) (li_is_blocked i) v.

Record Loot := mkLoot { lt_items : list LootItem; lt_quest_items : list LootItem; lt_unlootedCount : Z }.

Record ItemTemplate := mkItemTemplate {
  it_Quality : Z;
  it_DisenchantID : Z;
  it_RequiredDisenchantSkill : Z;
  it_Flags2 : Z
}.

(** [totalPlayersRolling] and the other totals are bytes. *)
Record Roll := mkRoll {
  r_itemGUID : Z;
  r_itemid : Z;
  playerVote : gmap Z RollVote;
  totalPlayersRolling : Z;
  totalNeed : Z;
  totalGreed : Z;
  totalPass : Z;
  r_itemSlot : Z;
  rollVoteMask : Z;
  r_loot : Z
}.

Inductive RollMessage :=
| MsgLootRoll (item target number type : Z)
| MsgLootRollWon (item target number type : Z)
| MsgAllPassed (item : Z)
| MsgStartRoll (item : Z)
| MsgStartRollTo (item player : Z) (canNeed : bool)
| MsgStoreItem (player itemid : Z)
| MsgDisenchantLoot (player disenchantId : Z)
| MsgEquipError (player itemid : Z).

Record Rolls := mkRolls {
  RollId : list Roll;
  rs_loots : gmap Z Loot;
  rs_next_item : Z;
  rs_sent : list RollMessage
}.
Definition set_rolls v s := mkRolls v (rs_loots s) (rs_next_item s) (rs_sent s).
Definition set_loots v s := mkRolls (RollId s) v (rs_next_item s) (rs_sent s).
Definition set_next_item v s := mkRolls (RollId s) (rs_loots s) v (rs_sent s).
Definition roll_send l s := mkRolls (RollId s) (rs_loots s) (rs_next_item s) (rs_sent s ++ l).

(** What the rolls ask of the players and of the item tables. *)
Record RollWorld := mkRollWorld {
  rw_online : Z -> bool;
  rw_session : Z -> bool;
  rw_near : Z -> bool;
  rw_passes : Z -> bool;
  rw_allowed : LootItem -> Z -> bool;
  rw_can_need : Z -> Z -> bool;
  rw_can_store : Z -> Z -> bool;
  rw_item : Z -> option ItemTemplate;
  rw_urand : Z -> Z -> Z
}.

Abbreviation RP := (prog Rolls RollError).

Definition send_rolls (l : list RollMessage) : RP unit := modify (roll_send l).

(** [roll->isValid()]: its loot still exists. *)
Definition roll_valid (s : Rolls) (r : Roll) : bool := bool_decide (is_Some (rs_loots s !! r_loot r)).

(** ** Starting rolls *)

Definition new_roll (guid : Z) (i : LootItem) : Roll :=
  mkRoll guid (li_itemid i) ∅ 0 0 0 0 0 ROLL_ALL_TYPE_NO_DISENCHANT 0.

(** The loop over the members; quest items take no automatic passes. *)
Fixpoint add_rollers (w : RollWorld) (auto_pass : bool) (i : LootItem) (members : list Z) (r : Roll) : Roll :=
  match members with
  | [] => r
  | g :: members' =>
      add_rollers w auto_pass i members'
        (if rw_session w g && rw_allowed w i g && rw_near w g then
           let passes := auto_pass && rw_passes w g in
           mkRoll (r_itemGUID r) (r_itemid r) (<[g := if passes then PASS else NOT_EMITED_YET]> (playerVote r))
             (u8 (totalPlayersRolling r + 1)) (totalNeed r) (totalGreed r)
             (if passes then u8 (totalPass r + 1) else totalPass r) (r_itemSlot r) (rollVoteMask r) (r_loot r)
         else r)
  end.

Definition loot_item (l : Loot) (slot : Z) : option LootItem :=
  if len (lt_items l) <=? slot then lt_quest_items l !! Z.to_nat (slot - len (lt_items l))
  else lt_items l !! Z.to_nat slot.
Definition upd_loot_item (f : LootItem -> LootItem) (slot : Z) (l : Loot) : Loot :=
  if len (lt_items l) <=? slot
  then mkLoot (lt_items l) (alter f (Z.to_nat (slot - len (lt_items l))) (lt_quest_items l)) (lt_unlootedCount l)
  else mkLoot (alter f (Z.to_nat slot) (lt_items l)) (lt_quest_items l) (lt_unlootedCount l).
Definition upd_loot (f : Loot -> Loot) (loot : Z) : RP unit :=
  modify (fun s => set_loots (alter f loot (rs_loots s)) s).

(** [GenerateLowGuid(HIGHGUID_ITEM)] *)
Definition GenerateLowGuid : RP Z :=
  s ← get; modify (set_next_item (rs_next_item s + 1));; mret (rs_next_item s).

Definition SendLootRoll_passes (w : RollWorld) (r : Roll) : list RollMessage :=
  flat_map (fun gv => if rw_online w gv.1 && bool_decide (gv.2 = PASS)
                      then [MsgLootRoll (r_itemGUID r) gv.1 128 ROLL_PASS] else []) (in_order (playerVote r)).

Section Starting.
Context (w : RollWorld) (members : list Z) (maxEnchantingLevel : Z) (loot : Z).

(** The roll is set up for [slot] and registered if somebody rolls. *)
Definition start_roll (auto_pass : bool) (mask : Z -> Z) (announce : Roll -> list RollMessage) (slot : Z) (i : LootItem)
  : RP unit :=
  newitemGUID ← GenerateLowGuid;
  let r := add_rollers w auto_pass i members (new_roll newitemGUID i) in
  if 0 <? totalPlayersRolling r then
    let r := mkRoll (r_itemGUID r) (r_itemid r) (playerVote r) (totalPlayersRolling r) (totalNeed r) (totalGreed r)
               (totalPass r) slot (mask (rollVoteMask r)) loot in
    upd_loot (upd_loot_item (set_blocked true) slot) loot;;
    send_rolls (announce r);;
    modify (fun s => set_rolls (RollId s ++ [r]) s)
  else mret tt.

Definition disenchant_mask (t : ItemTemplate) (mask : Z) : Z :=
  if negb (it_DisenchantID t =? 0) && (it_RequiredDisenchantSkill t <=? maxEnchantingLevel)
  then Z.lor mask ROLL_FLAG_TYPE_DISENCHANT else mask.
Definition need_mask (t : ItemTemplate) (mask : Z) : Z :=
  if negb (Z.land (it_Flags2 t) ITEM_FLAGS_EXTRA_NEED_ROLL_DISABLED =? 0)
  then Z.ldiff mask ROLL_FLAG_TYPE_NEED else mask.

Definition group_announce (r : Roll) : list RollMessage :=
  (if negb (totalPass r =? 0) then SendLootRoll_passes w r else []) ++ [MsgStartRoll (r_itemGUID r)].
Definition need_announce (r : Roll) : list RollMessage :=
  flat_map (fun gv => if rw_online w gv.1 then
                        if bool_decide (gv.2 = PASS) then [MsgLootRoll (r_itemGUID r) gv.1 128 ROLL_PASS]
                        else [MsgStartRollTo (r_itemGUID r) gv.1 (rw_can_need w gv.1 (r_itemid r))]
                      else []) (in_order (playerVote r)).

(** The loops over [items] and [quest_items]; [itemSlot] is a byte. *)
Fixpoint roll_items (missing : RP unit) (threshold : Z) (mask : ItemTemplate -> Z -> Z) (announce : Roll -> list RollMessage)
  (itemSlot : Z) (items : list LootItem) : RP unit :=
  match items with
  | [] => mret tt
  | i :: items' =>
      (if li_freeforall i then mret tt
       else match rw_item w (li_itemid i) with
            | None => missing
            | Some t =>
                if threshold <=? it_Quality t then start_roll true (mask t) announce itemSlot i
                else upd_loot (upd_loot_item (set_underthreshold true) itemSlot) loot
            end);;
      roll_items missing threshold mask announce (u8 (itemSlot + 1)) items'
  end.
Fixpoint roll_quest_items (need_template : bool) (announce : Roll -> list RollMessage) (itemSlot : Z) (items : list LootItem) : RP unit :=
  match items with
  | [] => mret tt
  | i :: items' =>
      (if negb (li_follow_loot_rules i) then mret tt
       else if need_template && bool_decide (rw_item w (li_itemid i) = None) then mret tt
       else start_roll false id announce itemSlot i);;
      roll_quest_items need_template announce (u8 (itemSlot + 1)) items'
  end.

Definition with_loot (f : Loot -> RP unit) : RP unit :=
  s ← get; match rs_loots s !! loot with None => mret tt | Some l => f l end.

(** An item without template is passed over by [GroupLoot]; [NeedBeforeGreed]
    follows the null pointer, but for a quest item. *)
Definition GroupLoot (threshold : Z) : RP unit :=
  with_loot (fun l =>
    roll_items (mret tt) threshold disenchant_mask group_announce 0 (lt_items l);;
    roll_quest_items true group_announce (u8 (len (lt_items l))) (lt_quest_items l)).
Definition NeedBeforeGreed (threshold : Z) : RP unit :=
  with_loot (fun l =>
    roll_items (throw NullTemplate) threshold (fun t mask => need_mask t (disenchant_mask t mask)) need_announce 0
      (lt_items l);;
    roll_quest_items false need_announce (u8 (len (lt_items l))) (lt_quest_items l)).
End Starting.

(** ** Deciding *)

(** The loop over the votes: the highest number, the first to get it. *)
Definition best_roll (w : RollWorld) (r : Roll) (wanted : RollVote -> bool) : Z * Z * RollVote :=
  fold_left (fun '(maxresul, maxguid, rollvote) '(g, v) =>
    if wanted v then
      let randomN := rw_urand w (r_itemGUID r) g in
      if maxresul <? randomN then (randomN, g, v) else (maxresul, maxguid, rollvote)
    else (maxresul, maxguid, rollvote))
    (in_order (playerVote r)) (0, from_option fst 0 (head (in_order (playerVote r))), NOT_VALID).
Definition roll_numbers (w : RollWorld) (r : Roll) (wanted : RollVote -> bool) : list RollMessage :=
  flat_map (fun '(g, v) =>
    if wanted v then [MsgLootRoll (r_itemGUID r) g (rw_urand w (r_itemGUID r) g) (vote_value v)] else [])
    (in_order (playerVote r)).
Definition is_need (v : RollVote) : bool := match v with NEED => true | _ => false end.
Definition is_greed (v : RollVote) : bool := match v with GREED | DISENCHANT => true | _ => false end.
Definition is_pass (v : RollVote) : bool := match v with PASS => true | _ => false end.

(** [loot->items[itemSlot]] or [quest_items[itemSlot - items.size()]]. *)
Definition need_slot (r : Roll) : RP unit :=
  s ← get;
  match rs_loots s !! r_loot r ≫= fun l => loot_item l (r_itemSlot r) with
  | Some _ => mret tt
  | None => throw LootSlotOutOfRange
  end.
Definition upd_slot (f : LootItem -> LootItem) (r : Roll) : RP unit :=
  need_slot r;; upd_loot (upd_loot_item f (r_itemSlot r)) (r_loot r).

Definition take_item (r : Roll) : RP unit :=
  upd_slot (set_looted true) r;;
  upd_loot (fun l => mkLoot (lt_items l) (lt_quest_items l) (u8 (lt_unlootedCount l - 1))) (r_loot r).
Definition store_item (w : RollWorld) (player : Z) (r : Roll) : RP unit :=
  need_slot r;;
  if rw_can_store w player (r_itemid r) then take_item r;; send_rolls [MsgStoreItem player (r_itemid r)]
  else upd_slot (set_blocked false) r;; send_rolls [MsgEquipError player (r_itemid r)].
Definition disenchant_item (w : RollWorld) (player : Z) (r : Roll) : RP unit :=
  take_item r;;
  match rw_item w (r_itemid r) with
  | Some t => send_rolls [MsgDisenchantLoot player (it_DisenchantID t)]
  | None => throw NullTemplate
  end.

Definition need_won (w : RollWorld) (r : Roll) : RP unit :=
  let '(maxresul, maxguid, _) := best_roll w r is_need in
  send_rolls (roll_numbers w r is_need ++ [MsgLootRollWon (r_itemGUID r) maxguid maxresul ROLL_NEED]);;
  if rw_online w maxguid then store_item w maxguid r else mret tt.
Definition greed_won (w : RollWorld) (r : Roll) : RP unit :=
  let '(maxresul, maxguid, rollvote) := best_roll w r is_greed in
  send_rolls (roll_numbers w r is_greed ++ [MsgLootRollWon (r_itemGUID r) maxguid maxresul (vote_value rollvote)]);;
  if rw_online w maxguid then
    need_slot r;;
    match rollvote with
    | GREED => store_item w maxguid r
    | DISENCHANT => disenchant_item w maxguid r
    | _ => mret tt
    end
  else mret tt.
Definition all_passed (r : Roll) : RP unit :=
  send_rolls [MsgAllPassed (r_itemGUID r)];; upd_slot (set_blocked false) r.

Definition erase_roll (i : nat) : RP unit := modify (fun s => set_rolls (delete i (RollId s)) s).

Definition CountTheRoll (w : RollWorld) (i : nat) : RP unit :=
  s ← get;
  match RollId s !! i with
  | None => throw BadIterator
  | Some r =>
      (if negb (roll_valid s r) then mret tt
       else if 0 <? totalNeed r then
         (if bool_decide (playerVote r = ∅) then mret tt else need_won w r)
       else if 0 <? totalGreed r then
         (if bool_decide (playerVote r = ∅) then mret tt else greed_won w r)
       else all_passed r);;
      erase_roll i
  end.

(** ** Voting *)

Definition GetRoll (s : Rolls) (guid : Z) : option nat :=
  fst <$> list_find (fun r => (r_itemGUID r =? guid) && roll_valid s r = true) (RollId s).

Definition set_votes (votes : gmap Z RollVote) (need greed pass : Z) (r : Roll) : Roll :=
  mkRoll (r_itemGUID r) (r_itemid r) votes (totalPlayersRolling r) need greed pass (r_itemSlot r) (rollVoteMask r)
    (r_loot r).
(** The switch of [CountRollVote]. *)
Definition cast_vote (playerGUID choice : Z) (r : Roll) : Roll :=
  if choice =? ROLL_PASS then
    set_votes (<[playerGUID := PASS]> (playerVote r)) (totalNeed r) (totalGreed r) (u8 (totalPass r + 1)) r
  else if choice =? ROLL_NEED then
    set_votes (<[playerGUID := NEED]> (playerVote r)) (u8 (totalNeed r + 1)) (totalGreed r) (totalPass r) r
  else if choice =? ROLL_GREED then
    set_votes (<[playerGUID := GREED]> (playerVote r)) (totalNeed r) (u8 (totalGreed r + 1)) (totalPass r) r
  else if choice =? ROLL_DISENCHANT then
    set_votes (<[playerGUID := DISENCHANT]> (playerVote r)) (totalNeed r) (u8 (totalGreed r + 1)) (totalPass r) r
  else r.
Definition vote_messages (playerGUID choice : Z) (r : Roll) : list RollMessage :=
  if choice =? ROLL_NEED then [MsgLootRoll (r_itemGUID r) playerGUID 0 0]
  else if (choice =? ROLL_PASS) || (choice =? ROLL_GREED) || (choice =? ROLL_DISENCHANT)
  then [MsgLootRoll (r_itemGUID r) playerGUID 128 choice] else [].

Definition all_voted (r : Roll) : bool := totalPlayersRolling r <=? totalPass r + totalNeed r + totalGreed r.

Definition CountRollVote (w : RollWorld) (playerGUID guid choice : Z) : RP unit :=
  s ← get;
  match GetRoll s guid with
  | None => mret tt
  | Some i =>
      match RollId s !! i with
      | None => throw BadIterator
      | Some r =>
          match playerVote r !! playerGUID with
          | None => mret tt
          | Some _ =>
              if match rs_loots s !! r_loot r with Some l => bool_decide (lt_items l = []) | None => false end
              then mret tt
              else
                let r' := cast_vote playerGUID choice r in
                send_rolls (vote_messages playerGUID choice r);;
                modify (fun s => set_rolls (<[i := r']> (RollId s)) s);;
                if all_voted r' then CountTheRoll w i else mret tt
          end
      end
  end.

(** Each roll found is erased, and the search starts again. *)
Fixpoint EndRoll (w : RollWorld) (fuel : nat) (loot : Z) : RP unit :=
  match fuel with
  | O => throw RollFuel
  | S fuel' =>
      s ← get;
      match list_find (fun r => (r_loot r =? loot) && roll_valid s r = true) (RollId s) with
      | None => mret tt
      | Some (i, _) => CountTheRoll w i;; EndRoll w fuel' loot
      end
  end.

(** ** Leaving *)

(** [RemoveMember]: the vote of a member that leaves is taken back. *)
Definition drop_vote (guid : Z) (r : Roll) : Roll :=
  match playerVote r !! guid with
  | None => r
  | Some v =>
      mkRoll (r_itemGUID r) (r_itemid r) (delete guid (playerVote r))
        (if bool_decide (v = NOT_VALID) then totalPlayersRolling r else u8 (totalPlayersRolling r - 1))
        (if is_need v then u8 (totalNeed r - 1) else totalNeed r)
        (if is_greed v then u8 (totalGreed r - 1) else totalGreed r)
        (if is_pass v then u8 (totalPass r - 1) else totalPass r)
        (r_itemSlot r) (rollVoteMask r) (r_loot r)
  end.

Definition leave_rolls (w : RollWorld) (guid : Z) : RP unit :=
  s ← get;
  forM (seq 0 (length (RollId s))) (fun i =>
    s ← get;
    match RollId s !! i with
    | None => throw BadIterator
    | Some r =>
        match playerVote r !! guid with
        | None => mret tt
        | Some _ =>
            modify (fun s => set_rolls (<[i := drop_vote guid r]> (RollId s)) s);;
            CountRollVote w guid (r_itemGUID r) MAX_ROLL_TYPE
        end
    end).
