(* ===== verification/GroupLootProofs.v ===== *)
(** * Rolling for loot: correctness

    The totals of a roll count its votes; a roll is decided when everybody has
    voted, for the highest number among those who need, or else among those who
    would take or disenchant the item.  Then what a client that votes twice, and
    a member that leaves, do to it. *)

From S2P Require Import Prelude.
From stdpp Require Import list sorting.
From S2P Require Import GroupLoot.
Local Open Scope Z_scope.
#[local] Set Warnings "-clear-no-such-hyp".

Definition no_error (e : RollError) : Prop := False.
Abbreviation wp := (Prelude.wp no_error).

(** ** The totals *)

Definition is_open (v : RollVote) : bool := match v with NOT_EMITED_YET => true | _ => false end.

Record roll_ok (r : Roll) : Prop := {
  ro_need : totalNeed r = count is_need (playerVote r);
  ro_greed : totalGreed r = count is_greed (playerVote r);
  ro_pass : totalPass r = count is_pass (playerVote r);
  ro_rolling : totalPlayersRolling r = Z.of_nat (size (playerVote r));
  ro_valid g : playerVote r !! g <> Some NOT_VALID;
  ro_bytes : (size (playerVote r) < 256)%nat
}.

Lemma count_nonneg (P : RollVote -> bool) F : 0 <= count P F.
Proof. unfold count. lia. Qed.
Lemma count_empty (P : RollVote -> bool) : count P ∅ = 0.
Proof. unfold count. by rewrite map_filter_empty, map_size_empty. Qed.
Lemma size_delete_Z (F : gmap Z RollVote) g v :
  F !! g = Some v -> Z.of_nat (size F) = Z.of_nat (size (delete g F)) + 1.
Proof.
  intros Hg. rewrite <- (insert_delete_id F g v) at 1 by done. rewrite map_size_insert_None by apply lookup_delete_eq. lia.
Qed.

Lemma size_replace (F : gmap Z RollVote) g v v' : F !! g = Some v -> size (<[g := v']> F) = size F.
Proof. intros Hg. apply map_size_insert_Some. by exists v. Qed.

(** Every vote is of one kind. *)
Lemma count_kinds (F : gmap Z RollVote) :
  (forall g, F !! g <> Some NOT_VALID) ->
  Z.of_nat (size F) = count is_need F + count is_greed F + count is_pass F + count is_open F.
Proof.
  induction F as [|g v F Hg IH] using map_ind; intros Hv.
  { by rewrite !count_empty, map_size_empty. }
  assert (forall g', F !! g' <> Some NOT_VALID) as Hv'.
  { intros g' Hg'. apply (Hv g'). rewrite lookup_insert_ne; [done|]. intros <-. congruence. }
  specialize (IH Hv'). rewrite map_size_insert_None, !count_insert by done.
  assert (v <> NOT_VALID) by (intros ->; apply (Hv g); apply lookup_insert_eq).
  destruct v; cbn; try done; lia.
Qed.

Lemma count_zero (P : RollVote -> bool) F : count P F = 0 <-> forall g v, F !! g = Some v -> P v = false.
Proof.
  induction F as [|g v F Hg IH] using map_ind.
  { rewrite count_empty. split; [|done]. intros _ g v H. by rewrite lookup_empty in H. }
  rewrite count_insert by done. pose proof (count_nonneg P F). split.
  - intros H' g' v' Hl. destruct (P v) eqn:E; cbn in H'; [lia|].
    rewrite lookup_insert_Some in Hl. destruct Hl as [[-> ->]|[_ Hl]]; [done|]. apply (proj1 IH) with g'; [lia|done].
  - intros Ha. rewrite (Ha g v) by apply lookup_insert_eq. cbn. rewrite Z.add_0_r. apply IH.
    intros g' v' Hl. apply (Ha g'). rewrite lookup_insert_ne; [done|]. intros <-. congruence.
Qed.

Lemma roll_ok_bounds r : roll_ok r ->
  0 <= totalNeed r < 256 /\ 0 <= totalGreed r < 256 /\ 0 <= totalPass r < 256 /\
  totalPlayersRolling r = totalNeed r + totalGreed r + totalPass r + count is_open (playerVote r).
Proof.
  intros [n gr p t va b]. rewrite n, gr, p, t. pose proof (count_kinds _ va).
  pose proof (count_nonneg is_need (playerVote r)). pose proof (count_nonneg is_greed (playerVote r)).
  pose proof (count_nonneg is_pass (playerVote r)). pose proof (count_nonneg is_open (playerVote r)). lia.
Qed.

(** Everybody has voted when the totals say so. *)
Lemma all_voted_spec r : roll_ok r ->
  all_voted r = true <-> forall g, playerVote r !! g <> Some NOT_EMITED_YET.
Proof.
  intros Hr. destruct (roll_ok_bounds r Hr) as (_ & _ & _ & Et). unfold all_voted. rewrite Z.leb_le, Et.
  pose proof (count_nonneg is_open (playerVote r)).
  transitivity (count is_open (playerVote r) = 0); [lia|]. rewrite count_zero. split.
  - intros Ha g Hg. by specialize (Ha g _ Hg).
  - intros Ha g v Hg. destruct v; try done. by apply (Ha g) in Hg.
Qed.

(** The choices of a vote. *)
Definition choice_vote (choice : Z) : option RollVote :=
  if choice =? ROLL_PASS then Some PASS else if choice =? ROLL_NEED then Some NEED
  else if choice =? ROLL_GREED then Some GREED else if choice =? ROLL_DISENCHANT then Some DISENCHANT else None.

Lemma cast_vote_eq g choice v r : choice_vote choice = Some v ->
  cast_vote g choice r = set_votes (<[g := v]> (playerVote r))
    (if is_need v then u8 (totalNeed r + 1) else totalNeed r)
    (if is_greed v then u8 (totalGreed r + 1) else totalGreed r)
    (if is_pass v then u8 (totalPass r + 1) else totalPass r) r.
Proof.
  unfold choice_vote, cast_vote. intros H.
  destruct (choice =? ROLL_PASS); [by simplify_eq|]. destruct (choice =? ROLL_NEED); [by simplify_eq|].
  destruct (choice =? ROLL_GREED); [by simplify_eq|]. destruct (choice =? ROLL_DISENCHANT); by simplify_eq.
Qed.

Lemma u8_small v : 0 <= v < 256 -> u8 v = v.
Proof. intros. by apply uint_small. Qed.

Lemma cast_vote_ok g choice v r :
  roll_ok r -> playerVote r !! g = Some NOT_EMITED_YET -> choice_vote choice = Some v -> roll_ok (cast_vote g choice r).
Proof.
  intros Hr Hg Hc. pose proof (roll_ok_bounds r Hr) as (Bn & Bg & Bp & Et). destruct Hr as [n gr p t va b].
  assert (0 < count is_open (playerVote r)) as Ho.
  { pose proof (count_nonneg is_open (playerVote r)).
    destruct (decide (count is_open (playerVote r) = 0)) as [E|]; [|lia].
    by pose proof (proj1 (count_zero is_open (playerVote r)) E g _ Hg). }
  rewrite (cast_vote_eq g choice v) by done.
  constructor; cbn; rewrite ?(count_replace _ _ g NOT_EMITED_YET) by done.
  - destruct (is_need v); cbn; rewrite ?u8_small; lia.
  - destruct (is_greed v); cbn; rewrite ?u8_small; lia.
  - destruct (is_pass v); cbn; rewrite ?u8_small; lia.
  - rewrite t. by rewrite (size_replace _ _ _ _ Hg).
  - intros g'. rewrite lookup_insert_Some. intros [[<- ->]|[_ H]]; [|by apply (va g')].
    unfold choice_vote in Hc. by repeat case_match.
  - by rewrite (size_replace _ _ _ _ Hg).
Qed.

Lemma drop_vote_ok g r : roll_ok r -> roll_ok (drop_vote g r).
Proof.
  intros Hr. unfold drop_vote. destruct (playerVote r !! g) as [v|] eqn:Hg; [|done].
  pose proof (roll_ok_bounds r Hr) as (Bn & Bg & Bp & Et). destruct Hr as [n gr p t va b].
  assert (v <> NOT_VALID) as Hv by (intros ->; by apply (va g)).
  pose proof (size_delete_Z _ _ _ Hg) as Es.
  assert (forall P, count P (delete g (playerVote r)) = count P (playerVote r) - Z.b2z (P v)) as Ed
    by (intros P; by apply count_delete).
  assert (forall P, P v = true -> 0 < count P (playerVote r)) as Hp.
  { intros P HP. pose proof (count_nonneg P (playerVote r)).
    destruct (decide (count P (playerVote r) = 0)) as [E|]; [|lia].
    pose proof (proj1 (count_zero P (playerVote r)) E g _ Hg). congruence. }
  constructor; cbn; rewrite ?Ed.
  - destruct (is_need v) eqn:E; cbn; [|lia]. specialize (Hp is_need E). rewrite u8_small; lia.
  - destruct (is_greed v) eqn:E; cbn; [|lia]. specialize (Hp is_greed E). rewrite u8_small; lia.
  - destruct (is_pass v) eqn:E; cbn; [|lia]. specialize (Hp is_pass E). rewrite u8_small; lia.
  - rewrite bool_decide_false by done. rewrite u8_small; lia.
  - intros g' H. rewrite lookup_delete_Some in H. apply (va g'), H.
  - lia.
Qed.

(** ** The rolls of a group *)

(** The rolls have ids of their own, and a place in their loot. *)
Record rolls_ok (s : Rolls) : Prop := {
  rk_roll i r : RollId s !! i = Some r -> roll_ok r;
  rk_guid i j r r' : RollId s !! i = Some r -> RollId s !! j = Some r' -> r_itemGUID r = r_itemGUID r' -> i = j;
  rk_next i r : RollId s !! i = Some r -> r_itemGUID r < rs_next_item s;
  rk_slot i r l : RollId s !! i = Some r -> rs_loots s !! r_loot r = Some l -> is_Some (loot_item l (r_itemSlot r))
}.

(** The loots keep their items, up to the flags of each. *)
Definition same_shape (l l' : Loot) : Prop :=
  length (lt_items l) = length (lt_items l') /\ length (lt_quest_items l) = length (lt_quest_items l').

Lemma loot_item_shape l l' slot : same_shape l l' -> is_Some (loot_item l slot) <-> is_Some (loot_item l' slot).
Proof.
  intros [Hi Hq]. unfold loot_item. rewrite Hi. destruct (_ <=? slot); rewrite !lookup_lt_is_Some; lia.
Qed.
Lemma upd_loot_item_shape f slot l : same_shape l (upd_loot_item f slot l).
Proof. unfold upd_loot_item, same_shape. destruct (_ <=? slot); cbn; by rewrite length_alter. Qed.

(** A state with the loots changed in place, and messages sent. *)
Record loots_changed (s s' : Rolls) : Prop := {
  lc_rolls : RollId s' = RollId s;
  lc_next : rs_next_item s' = rs_next_item s;
  lc_loots k : option_Forall2 same_shape (rs_loots s !! k) (rs_loots s' !! k)
}.

#[export] Instance same_shape_preorder : PreOrder same_shape.
Proof. split; [done|]. intros x y z [] []. split; congruence. Qed.
#[export] Instance loots_changed_preorder : PreOrder loots_changed.
Proof.
  split.
  - intros s. constructor; [done..|]. intros k. reflexivity.
  - intros s1 s2 s3 [R1 N1 L1] [R2 N2 L2]. constructor; [congruence..|].
    intros k. specialize (L1 k). specialize (L2 k). inversion L1 as [l1 l2 S1 E1 E2|E1 E2]; rewrite <- E2 in L2;
      inversion L2 as [? ? S2|]; subst; constructor. by etrans.
Qed.

Lemma loots_changed_ok s s' : loots_changed s s' -> rolls_ok s -> rolls_ok s'.
Proof.
  intros [R N L] [ro gu nx sl]. constructor; rewrite ?R, ?N; try done.
  intros i r l' Hi Hl'. specialize (L (r_loot r)). rewrite Hl' in L.
  destruct (rs_loots s !! r_loot r) as [l|] eqn:Hl; [|by inversion L]. inversion L as [? ? Ls|]; subst.
  apply (loot_item_shape l l' _ Ls). by apply (sl i r l).
Qed.

Lemma loots_changed_valid s s' r : loots_changed s s' -> roll_valid s' r = roll_valid s r.
Proof.
  intros [_ _ L]. unfold roll_valid. apply bool_decide_ext. specialize (L (r_loot r)).
  destruct (rs_loots s !! r_loot r), (rs_loots s' !! r_loot r); inversion L; split; intros [? ?]; try done; eauto.
Qed.

Lemma send_rolls_run l s : send_rolls l s = (Ok tt, roll_send l s) /\ loots_changed s (roll_send l s).
Proof. split; [done|]. constructor; [done..|]. intros k. reflexivity. Qed.
Lemma upd_loot_changed f loot s : (forall l, same_shape l (f l)) -> loots_changed s (set_loots (alter f loot (rs_loots s)) s).
Proof.
  intros Hf. constructor; [done..|]. intros k. cbn. destruct (decide (loot = k)) as [<-|Hne].
  - rewrite lookup_alter_eq. destruct (rs_loots s !! loot); constructor. apply Hf.
  - rewrite lookup_alter_ne by done. reflexivity.
Qed.

(** ** Deciding a roll *)

(** The loots changed in place and [l] sent. *)
Definition did (l : list RollMessage) (s s' : Rolls) : Prop := loots_changed s s' /\ rs_sent s' = rs_sent s ++ l.

Lemma did_refl s : did [] s s.
Proof. split; [done|]. by rewrite app_nil_r. Qed.
Lemma did_trans l l' s1 s2 s3 : did l s1 s2 -> did l' s2 s3 -> did (l ++ l') s1 s3.
Proof. intros [C1 E1] [C2 E2]. split; [by etrans|]. by rewrite E2, E1, app_assoc. Qed.

Definition in_place (s : Rolls) (r : Roll) : Prop :=
  exists l, rs_loots s !! r_loot r = Some l /\ is_Some (loot_item l (r_itemSlot r)).

Lemma in_place_changed s s' r : loots_changed s s' -> in_place s r -> in_place s' r.
Proof.
  intros [_ _ L] (l & Hl & Hs). specialize (L (r_loot r)). rewrite Hl in L. inversion L as [? l' Ls E1 E2|]; subst.
  exists l'. split; [done|]. by apply (loot_item_shape l l').
Qed.

(** The rule for a step that does [l], before the rest. *)
Lemma wp_did {B} (p : RP unit) l (k : unit -> RP B) s (Q : B -> Rolls -> Prop) :
  wp p s (fun _ s' => did l s s') -> (forall s', did l s s' -> wp (k tt) s' Q) -> wp (p ≫= k) s Q.
Proof. intros Hp Hk. apply wp_bind. eapply wp_mono; [done|]. intros [] s' Hs'. by apply Hk. Qed.

Lemma wp_send l s : wp (send_rolls l) s (fun _ s' => did l s s').
Proof. split; [apply send_rolls_run|done]. Qed.

Lemma wp_need_slot r s : in_place s r -> wp (need_slot r) s (fun _ s' => did [] s s').
Proof.
  intros (l & Hl & [i Hi]). unfold need_slot. apply wp_get. rewrite Hl. cbn. rewrite Hi. apply wp_ret, did_refl.
Qed.
Lemma wp_upd_loot f loot s : (forall l, same_shape l (f l)) -> wp (upd_loot f loot) s (fun _ s' => did [] s s').
Proof. intros Hf. split; [by apply upd_loot_changed|]. symmetry. apply app_nil_r. Qed.

Lemma wp_did_mono (p : RP unit) l l' s :
  wp p s (fun _ s' => did l s s') -> l = l' -> wp p s (fun _ s' => did l' s s').
Proof. by intros H <-. Qed.

(** Two steps in a row. *)
Lemma wp_did_seq (p q : RP unit) l l' r s :
  in_place s r -> wp p s (fun _ s' => did l s s') -> (forall s', in_place s' r -> wp q s' (fun _ s'' => did l' s' s'')) ->
  wp (p;; q) s (fun _ s' => did (l ++ l') s s').
Proof.
  intros Hs Hp Hq. apply (wp_did p l); [done|]. intros s1 H1. eapply wp_mono.
  - apply Hq. apply (in_place_changed s); [apply H1|done].
  - intros [] s2 H2. by apply (did_trans l l' s s1 s2).
Qed.

Lemma wp_upd_slot f r s : in_place s r -> wp (upd_slot f r) s (fun _ s' => did [] s s').
Proof.
  intros Hs. apply (wp_did_seq _ _ [] [] r); [done|by apply wp_need_slot|].
  intros s' _. apply wp_upd_loot. intros l. apply upd_loot_item_shape.
Qed.

Lemma wp_take_item r s : in_place s r -> wp (take_item r) s (fun _ s' => did [] s s').
Proof. intros Hs. apply (wp_did_seq _ _ [] [] r); [done|by apply wp_upd_slot|]. intros s' _. by apply wp_upd_loot. Qed.

Definition stored (w : RollWorld) (player : Z) (r : Roll) : RollMessage :=
  if rw_can_store w player (r_itemid r) then MsgStoreItem player (r_itemid r) else MsgEquipError player (r_itemid r).

Lemma wp_store_item w g r s : in_place s r -> wp (store_item w g r) s (fun _ s' => did [stored w g r] s s').
Proof.
  intros Hs. apply (wp_did_seq _ _ [] [_] r); [done|by apply wp_need_slot|]. intros s1 H1. unfold stored.
  destruct (rw_can_store w g (r_itemid r)); (apply (wp_did_seq _ _ [] [_] r); [done| |intros s2 _; apply wp_send]).
  - by apply wp_take_item.
  - by apply wp_upd_slot.
Qed.

(** *** The dice *)

Definition picked (w : RollWorld) (r : Roll) (wanted : RollVote -> bool) (n g : Z) (v : RollVote) : Prop :=
  playerVote r !! g = Some v /\ wanted v = true /\ n = rw_urand w (r_itemGUID r) g /\
  forall g' v', playerVote r !! g' = Some v' -> wanted v' = true ->
    rw_urand w (r_itemGUID r) g' < n \/ rw_urand w (r_itemGUID r) g' = n /\ g <= g'.

Definition dice (w : RollWorld) : Prop := forall item g, 1 <= rw_urand w item g <= 100.

(** The loop so far: nobody yet, or the best of the votes passed. *)
Definition best_of (w : RollWorld) (item : Z) (wanted : RollVote -> bool) (l : list (Z * RollVote)) (n g : Z) (v : RollVote)
  : Prop :=
  if existsb (fun gv => wanted gv.2) l then
    (g, v) ∈ l /\ wanted v = true /\ n = rw_urand w item g /\
    forall g' v', (g', v') ∈ l -> wanted v' = true ->
      rw_urand w item g' < n \/ rw_urand w item g' = n /\ g <= g'
  else n = 0.

Lemma best_of_snoc w item wanted l g0 v0 n g v :
  dice w -> (forall g' v', (g', v') ∈ l -> g' <= g0) -> best_of w item wanted l n g v ->
  best_of w item wanted (l ++ [(g0, v0)])
    (if wanted v0 && (n <? rw_urand w item g0) then rw_urand w item g0 else n)
    (if wanted v0 && (n <? rw_urand w item g0) then g0 else g)
    (if wanted v0 && (n <? rw_urand w item g0) then v0 else v).
Proof.
  intros Hd Hle Hb. unfold best_of in *. rewrite existsb_app. cbn [existsb snd]. rewrite orb_false_r.
  pose proof (Hd item g0). destruct (wanted v0) eqn:Hw0; cbn [andb].
  - rewrite orb_true_r. destruct (Z.ltb_spec n (rw_urand w item g0)) as [Hlt|Hge].
    + split_and!; [apply elem_of_app; right; by left|done|done|].
      intros g' v' [Hin|Hin%list_elem_of_singleton]%elem_of_app Hw'; [|right; simplify_eq; lia].
      destruct (existsb _ l) eqn:Ex.
      * destruct Hb as (_ & _ & _ & Hb). specialize (Hb g' v' Hin Hw'). lia.
      * exfalso. apply Is_true_false in Ex. apply Ex, Is_true_true, existsb_exists. exists (g', v').
        split; [by apply list_elem_of_In|done].
    + destruct (existsb _ l); [|lia]. destruct Hb as (Hin & Hw & En & Hb).
      split_and!; [apply elem_of_app; by left|done|done|].
      intros g' v' [Hin'|Hin'%list_elem_of_singleton]%elem_of_app Hw'; [by apply (Hb g' v')|].
      simplify_eq. pose proof (Hle g v Hin). lia.
  - rewrite orb_false_r. destruct (existsb _ l); [|done]. destruct Hb as (Hin & Hw & En & Hb).
    split_and!; [apply elem_of_app; by left|done|done|].
    intros g' v' [Hin'|Hin'%list_elem_of_singleton]%elem_of_app Hw'; [by apply (Hb g' v')|]. simplify_eq. congruence.
Qed.

Lemma best_roll_spec w r wanted :
  dice w -> let '(n, g, v) := best_roll w r wanted in best_of w (r_itemGUID r) wanted (in_order (playerVote r)) n g v.
Proof.
  intros Hd. unfold best_roll. generalize (from_option fst 0 (head (in_order (playerVote r)))) as g0.
  pose proof (in_order_sorted (playerVote r)) as Hs. revert Hs.
  induction (in_order (playerVote r)) as [|[g1 v1] l IH] using List.rev_ind; intros Hs g0; [done|].
  rewrite fold_left_app. apply StronglySorted_app in Hs as (Hle & Hs & _). specialize (IH Hs g0).
  destruct (fold_left _ l _) as [[n g] v]. cbn [fold_left].
  assert (forall g' v', (g', v') ∈ l -> g' <= g1) as Hle'.
  { intros g' v' Hin. apply (Hle (g', v') (g1, v1) Hin). by left. }
  pose proof (best_of_snoc w (r_itemGUID r) wanted l g1 v1 n g v Hd Hle' IH) as Hb.
  destruct (wanted v1); cbn [andb] in Hb; [|done]. by destruct (n <? _).
Qed.

(** Somebody who wants it gets the highest number. *)
Lemma best_roll_picked w r wanted :
  dice w -> 0 < count wanted (playerVote r) ->
  let '(n, g, v) := best_roll w r wanted in picked w r wanted n g v.
Proof.
  intros Hd Hc. pose proof (best_roll_spec w r wanted Hd) as Hb. destruct (best_roll w r wanted) as [[n g] v].
  unfold best_of in Hb. destruct (existsb _ _) eqn:Ex.
  - destruct Hb as (Hin & Hw & En & Hb). apply in_order_spec in Hin. split_and!; [done..|].
    intros g' v' Hg'. apply Hb. by apply in_order_spec.
  - exfalso. assert (count wanted (playerVote r) = 0); [|lia]. apply count_zero. intros g' v' Hg'.
    destruct (wanted v') eqn:Hw'; [|done]. exfalso. apply Is_true_false in Ex. apply Ex, Is_true_true, existsb_exists.
    exists (g', v'). split; [by apply list_elem_of_In, in_order_spec|done].
Qed.

(** What is sent when a roll is decided. *)
Definition decided (w : RollWorld) (r : Roll) : list RollMessage :=
  if 0 <? totalNeed r then
    let '(n, g, _) := best_roll w r is_need in
    roll_numbers w r is_need ++ [MsgLootRollWon (r_itemGUID r) g n ROLL_NEED] ++
    (if rw_online w g then [stored w g r] else [])
  else if 0 <? totalGreed r then
    let '(n, g, v) := best_roll w r is_greed in
    roll_numbers w r is_greed ++ [MsgLootRollWon (r_itemGUID r) g n (vote_value v)] ++
    (if rw_online w g then
       match v with
       | GREED => [stored w g r]
       | DISENCHANT => [MsgDisenchantLoot g (from_option it_DisenchantID 0 (rw_item w (r_itemid r)))]
       | _ => []
       end
     else [])
  else [MsgAllPassed (r_itemGUID r)].

Definition items_known (w : RollWorld) : Prop := forall i, rw_item w i <> None.
Definition has_template (w : RollWorld) (r : Roll) : Prop := rw_item w (r_itemid r) <> None.

Lemma wp_decide w r s :
  in_place s r -> has_template w r ->
  wp (if 0 <? totalNeed r then need_won w r else if 0 <? totalGreed r then greed_won w r else all_passed r) s
    (fun _ s' => did (decided w r) s s').
Proof.
  intros Hs Ht. unfold decided. destruct (0 <? totalNeed r).
  { unfold need_won. destruct (best_roll w r is_need) as [[n g] v].
    rewrite app_assoc. apply (wp_did_seq _ _ _ _ r); [done|apply wp_send|]. intros s1 H1.
    destruct (rw_online w g); [by apply wp_store_item|]. apply wp_ret, did_refl. }
  destruct (0 <? totalGreed r).
  - unfold greed_won. destruct (best_roll w r is_greed) as [[n g] v].
    rewrite app_assoc. apply (wp_did_seq _ _ _ _ r); [done|apply wp_send|]. intros s1 H1.
    destruct (rw_online w g); [|apply wp_ret, did_refl].
    apply (wp_did_mono _ ([] ++ match v with GREED => [stored w g r]
      | DISENCHANT => [MsgDisenchantLoot g (from_option it_DisenchantID 0 (rw_item w (r_itemid r)))] | _ => [] end));
      [|done].
    apply (wp_did_seq _ _ _ _ r); [done|by apply wp_need_slot|]. intros s2 H2.
    destruct v; try (apply wp_ret, did_refl); [by apply wp_store_item|].
    apply (wp_did_seq _ _ [] [_] r); [done|by apply wp_take_item|]. intros s3 _.
    unfold has_template in Ht. destruct (rw_item w (r_itemid r)); [apply wp_send|done].
  - apply (wp_did_mono _ ([MsgAllPassed (r_itemGUID r)] ++ [])); [|done].
    apply (wp_did_seq _ _ _ _ r); [done|apply wp_send|]. intros s1 H1. by apply wp_upd_slot.
Qed.

Lemma lookup_delete_list {A} (l : list A) i j : delete i l !! j = if decide (j < i)%nat then l !! j else l !! S j.
Proof.
  destruct (decide (j < i)%nat); [by apply list_lookup_delete_lt|]. apply list_lookup_delete_ge. lia.
Qed.

Lemma delete_insert_list {A} (l : list A) i x : delete i (<[i := x]> l) = delete i l.
Proof. revert i. induction l as [|y l IH]; intros [|i]; try done. cbn. f_equal. apply IH. Qed.

Lemma erase_ok s i : rolls_ok s -> rolls_ok (set_rolls (delete i (RollId s)) s).
Proof.
  intros [ro gu nx sl].
  assert (forall j r, delete i (RollId s) !! j = Some r -> exists k, RollId s !! k = Some r /\
    k = if decide (j < i)%nat then j else S j) as Hl.
  { intros j r. rewrite lookup_delete_list. destruct (decide (j < i)%nat); eauto. }
  constructor; cbn.
  - intros j r Hj. destruct (Hl j r Hj) as (k & Hk & _). by apply (ro k).
  - intros j j' r r' Hj Hj' E. destruct (Hl j r Hj) as (k & Hk & Ek). destruct (Hl j' r' Hj') as (k' & Hk' & Ek').
    pose proof (gu k k' r r' Hk Hk' E). destruct (decide (j < i)%nat), (decide (j' < i)%nat); lia.
  - intros j r Hj. destruct (Hl j r Hj) as (k & Hk & _). by apply (nx k).
  - intros j r l Hj. destruct (Hl j r Hj) as (k & Hk & _). by apply (sl k).
Qed.

(** The roll at [i] is decided and erased. *)
Lemma CountTheRoll_valid w s i r :
  items_known w -> RollId s !! i = Some r -> in_place s r ->
  (playerVote r = ∅ -> totalNeed r <= 0 /\ totalGreed r <= 0) ->
  wp (CountTheRoll w i) s (fun _ s' => exists s1, did (decided w r) s s1 /\ s' = set_rolls (delete i (RollId s1)) s1).
Proof.
  intros Hw Hr Hp Hne. unfold CountTheRoll. apply wp_get. rewrite Hr. apply wp_bind.
  assert (roll_valid s r = true) as -> by (apply bool_decide_eq_true; destruct Hp as (l & Hl & _); by exists l).
  cbn [negb]. pose proof (wp_decide w r s Hp (Hw _)) as Hd.
  assert ((if 0 <? totalNeed r then (if bool_decide (playerVote r = ∅) then mret tt else need_won w r)
    else if 0 <? totalGreed r then (if bool_decide (playerVote r = ∅) then mret tt else greed_won w r)
    else all_passed r) =
    if 0 <? totalNeed r then need_won w r else if 0 <? totalGreed r then greed_won w r else all_passed r) as ->.
  { case_bool_decide as E; [|done]. destruct (Hne E). destruct (Z.ltb_spec 0 (totalNeed r)); [lia|].
    destruct (Z.ltb_spec 0 (totalGreed r)); [lia|done]. }
  eapply wp_mono; [exact Hd|]. intros [] s1 H1. eapply (wp_ok no_error); [reflexivity|]. by exists s1.
Qed.

Lemma CountTheRoll_ok w s i r :
  rolls_ok s -> items_known w -> RollId s !! i = Some r ->
  wp (CountTheRoll w i) s (fun _ s' => rolls_ok s' /\ RollId s' = delete i (RollId s) /\
    rs_sent s' = rs_sent s ++ if roll_valid s r then decided w r else []).
Proof.
  intros Hs Hw Hr. destruct (roll_valid s r) eqn:Ev.
  - apply bool_decide_eq_true in Ev as [l Hl]. pose proof (rk_roll _ Hs i r Hr) as Ho.
    eapply wp_mono; [apply CountTheRoll_valid; [done|done| |]|].
    + exists l. split; [done|by apply (rk_slot _ Hs i r l)].
    + intros E. by rewrite (ro_need _ Ho), (ro_greed _ Ho), E, !count_empty.
    + intros [] s' (s1 & [Hc Es] & ->). split; [by apply erase_ok, (loots_changed_ok s)|]. cbn.
      by rewrite (lc_rolls _ _ Hc).
  - unfold CountTheRoll. apply wp_get. rewrite Hr, Ev. apply wp_bind, wp_ret.
    eapply (wp_ok no_error); [reflexivity|]. split; [by apply erase_ok|]. cbn. by rewrite app_nil_r.
Qed.

(** ** Voting *)

Definition unique_at (s : Rolls) (i : nat) (r : Roll) : Prop :=
  forall j r', RollId s !! j = Some r' -> r_itemGUID r' = r_itemGUID r -> j = i.

Lemma GetRoll_spec s i r :
  unique_at s i r -> RollId s !! i = Some r -> roll_valid s r = true -> GetRoll s (r_itemGUID r) = Some i.
Proof.
  intros Hs Hr Hv. unfold GetRoll.
  rewrite (proj2 (list_find_Some (fun r0 => (r_itemGUID r0 =? r_itemGUID r) && roll_valid s r0 = true) (RollId s) i r)); [done|].
  split_and!; [done|by rewrite Z.eqb_refl|]. intros j r' Hj Hlt [Eg _]%andb_prop. apply Z.eqb_eq in Eg.
  pose proof (Hs j r' Hj Eg). lia.
Qed.

Lemma put_roll_ok s i r r' :
  rolls_ok s -> RollId s !! i = Some r -> roll_ok r' ->
  r_itemGUID r' = r_itemGUID r -> r_loot r' = r_loot r -> r_itemSlot r' = r_itemSlot r ->
  rolls_ok (set_rolls (<[i := r']> (RollId s)) s).
Proof.
  intros [ro gu nx sl] Hr Hr' Eg El Es.
  assert (forall j r0, <[i := r']> (RollId s) !! j = Some r0 -> exists r1, RollId s !! j = Some r1 /\
    roll_ok r0 /\ r_itemGUID r0 = r_itemGUID r1 /\ r_loot r0 = r_loot r1 /\ r_itemSlot r0 = r_itemSlot r1) as Hl.
  { intros j r0 [(<- & <- & _)|[Hne Hj]]%list_lookup_insert_Some; [by exists r|]. exists r0. split_and!; eauto. }
  constructor; cbn.
  - intros j r0 Hj. by destruct (Hl j r0 Hj) as (r1 & _ & H & _).
  - intros j k r0 r1 Hj Hk E. destruct (Hl j r0 Hj) as (r0' & Hj' & _ & E0 & _).
    destruct (Hl k r1 Hk) as (r1' & Hk' & _ & E1 & _). apply (gu j k r0' r1'); congruence.
  - intros j r0 Hj. destruct (Hl j r0 Hj) as (r0' & Hj' & _ & -> & _). by apply (nx j).
  - intros j r0 l Hj Hl0. destruct (Hl j r0 Hj) as (r0' & Hj' & _ & _ & E1 & E2). rewrite E2.
    apply (sl j r0'); congruence.
Qed.

Definition votable (s : Rolls) (r : Roll) : Prop := exists l, rs_loots s !! r_loot r = Some l /\ lt_items l <> [].
Lemma votable_valid s r : votable s r -> roll_valid s r = true.
Proof. intros (l & Hl & _). apply bool_decide_eq_true. by exists l. Qed.

(** What a vote does, by a member with or without an earlier one. *)
Lemma unique_ok s i r : rolls_ok s -> RollId s !! i = Some r -> unique_at s i r.
Proof. intros Hs Hr j r' Hj E. by apply (rk_guid _ Hs j i r' r). Qed.

Lemma CountRollVote_run w s i r g choice v :
  unique_at s i r -> RollId s !! i = Some r -> votable s r -> is_Some (playerVote r !! g) -> choice_vote choice = Some v ->
  let r' := cast_vote g choice r in
  let s' := set_rolls (<[i := r']> (RollId s)) (roll_send (vote_messages g choice r) s) in
  CountRollVote w g (r_itemGUID r) choice s = (if all_voted r' then CountTheRoll w i else mret tt) s'.
Proof.
  intros Hs Hr Hv [v0 Hg] Hc. pose proof (votable_valid s r Hv) as Hval. destruct Hv as (l & Hl & Hne).
  unfold CountRollVote. rewrite (bind_ok get _ s s s eq_refl), (GetRoll_spec s i r), Hr, Hg, Hl by done.
  by rewrite bool_decide_false by done.
Qed.

Lemma cast_vote_same g choice r :
  r_itemGUID (cast_vote g choice r) = r_itemGUID r /\ r_loot (cast_vote g choice r) = r_loot r /\
  r_itemSlot (cast_vote g choice r) = r_itemSlot r /\ totalPlayersRolling (cast_vote g choice r) = totalPlayersRolling r.
Proof. unfold cast_vote. by repeat case_match. Qed.

(** ** Starting and leaving *)

Lemma add_rollers_ok w auto i members r :
  roll_ok r -> NoDup members -> (forall g, g ∈ members -> playerVote r !! g = None) ->
  (size (playerVote r) + length members < 256)%nat ->
  let r' := add_rollers w auto i members r in
  roll_ok r' /\ r_itemGUID r' = r_itemGUID r.
Proof.
  revert r. induction members as [|g members IH]; intros r Hr Hnd Hno Hsz; cbn [add_rollers]; [done|].
  apply NoDup_cons in Hnd as [Hg Hnd]. cbn [length] in Hsz.
  destruct (_ && _ && _); [|apply IH; [done|done|intros g' Hg'; apply Hno; by right|lia]].
  assert (playerVote r !! g = None) as Hfree by (apply Hno; by left).
  pose proof (roll_ok_bounds r Hr) as (_ & _ & Bp & _). destruct Hr as [n gr p t va b].
  set (v := if auto && rw_passes w g then PASS else NOT_EMITED_YET).
  edestruct IH as [Hok Eg]; [| | | |split; [exact Hok|exact Eg]]; cbn; [|done| |].
  - assert (count is_pass (playerVote r) <= Z.of_nat (size (playerVote r))) as Hle.
    { pose proof (count_kinds _ va). pose proof (count_nonneg is_need (playerVote r)).
      pose proof (count_nonneg is_greed (playerVote r)). pose proof (count_nonneg is_open (playerVote r)). lia. }
    constructor; cbn; rewrite ?count_insert, ?map_size_insert_None by done.
    + unfold v. destruct (auto && _); cbn; lia.
    + unfold v. destruct (auto && _); cbn; lia.
    + unfold v. destruct (auto && _); cbn; rewrite ?u8_small; lia.
    + rewrite u8_small; lia.
    + intros g'. rewrite lookup_insert_Some. intros [[_ Hv]|[_ Hv]]; [|by apply (va g')].
      unfold v in Hv. by destruct (auto && _).
    + lia.
  - intros g' Hg'. rewrite lookup_insert_ne by (intros ->; done). apply Hno. by right.
  - rewrite map_size_insert_None by done. lia.
Qed.

(** The members to roll are those linked to the group, each once. *)
Definition members_ok (members : list Z) : Prop := NoDup members /\ (length members < 256)%nat.

Lemma new_roll_ok guid i : roll_ok (new_roll guid i).
Proof.
  constructor; cbn; rewrite ?count_empty, ?map_size_empty; try done; lia.
Qed.

(** A loot with a place [slot], whatever the flags of its items. *)
Definition has_slot (loot slot : Z) (s : Rolls) : Prop :=
  forall l, rs_loots s !! loot = Some l -> is_Some (loot_item l slot).

Lemma has_slot_changed loot slot s s' : loots_changed s s' -> has_slot loot slot s -> has_slot loot slot s'.
Proof.
  intros [_ _ L] Hs l' Hl'. specialize (L loot). rewrite Hl' in L. inversion L as [l ? Ls E|]; subst.
  apply (loot_item_shape l l' _ Ls). by apply Hs.
Qed.

(** The state of the loots is kept up to flags; rolls are added. *)
Definition keeps_loots (s s' : Rolls) : Prop := forall k, option_Forall2 same_shape (rs_loots s !! k) (rs_loots s' !! k).
#[export] Instance keeps_loots_preorder : PreOrder keeps_loots.
Proof.
  split; [intros s k; reflexivity|]. intros s1 s2 s3 L1 L2 k. specialize (L1 k). specialize (L2 k).
  inversion L1 as [l1 l2 S1 E1 E2|E1 E2]; rewrite <- E2 in L2; inversion L2 as [? ? S2|]; subst; constructor. by etrans.
Qed.
Lemma has_slot_keeps loot slot s s' : keeps_loots s s' -> has_slot loot slot s -> has_slot loot slot s'.
Proof.
  intros L Hs l' Hl'. specialize (L loot). rewrite Hl' in L. inversion L as [l ? Ls E|]; subst.
  apply (loot_item_shape l l' _ Ls). by apply Hs.
Qed.

Definition starts (p : RP unit) : Prop :=
  forall s, rolls_ok s -> wp p s (fun _ s' => rolls_ok s' /\ keeps_loots s s').

Lemma starts_changed (p : RP unit) l :
  (forall s, wp p s (fun _ s' => did l s s')) -> starts p.
Proof.
  intros Hp s Hs. eapply wp_mono; [apply Hp|]. intros [] s' [Hc _]. split; [by apply (loots_changed_ok s)|exact (lc_loots _ _ Hc)].
Qed.

Section Start.
Context (w : RollWorld) (members : list Z) (level loot : Z) (Hmem : members_ok members).

Lemma start_roll_ok auto mask announce slot i s :
  rolls_ok s -> has_slot loot slot s ->
  wp (start_roll w members loot auto mask announce slot i) s (fun _ s' => rolls_ok s' /\ keeps_loots s s').
Proof.
  intros Hs Hslot. unfold start_roll. set (s1 := set_next_item (rs_next_item s + 1) s).
  apply (wp_seq no_error _ _ s (rs_next_item s) s1); [done|].
  assert (rolls_ok s1) as Hs1.
  { destruct Hs as [ro gu nx sl]. constructor; cbn; try done. intros j r Hj. pose proof (nx j r Hj). lia. }
  destruct (add_rollers_ok w auto i members (new_roll (rs_next_item s) i)) as [Hr Eg].
  { apply new_roll_ok. } { apply Hmem. } { intros g _. apply lookup_empty. }
  { cbn. rewrite map_size_empty. apply Hmem. }
  cbn in Eg. set (r := add_rollers _ _ _ _ _) in *. destruct (0 <? _); [|apply wp_ret; split; [done|intros k; reflexivity]].
  apply (wp_did _ []); [apply wp_upd_loot; intros l; apply upd_loot_item_shape|]. intros s2 [C2 _].
  eapply wp_did; [apply wp_send|]. intros s3 [C3 _]. eapply (wp_ok no_error); [reflexivity|].
  assert (loots_changed s1 s3) as C by by etrans. destruct (loots_changed_ok _ _ C Hs1) as [ro gu nx sl].
  assert (rs_next_item s3 = rs_next_item s + 1) as En by apply C.
  split; [|exact (lc_loots _ _ C)].
  assert (forall j r0, RollId s3 !! j = Some r0 -> r_itemGUID r0 < rs_next_item s) as Hold.
  { intros j r0 Hj. rewrite (lc_rolls _ _ C) in Hj. by apply (rk_next _ Hs j). }
  constructor; cbn; try rewrite En.
  - intros j r0 [Hj|[_ Hj]]%lookup_app_Some; [by apply (ro j)|].
    apply list_lookup_singleton_Some in Hj as [_ <-]. destruct Hr. by constructor.
  - intros j j' r0 r0' Hj Hj' E.
    apply lookup_app_Some in Hj as [Hj|[Hlj Hj]]; apply lookup_app_Some in Hj' as [Hj'|[Hlj' Hj']].
    + by apply (gu j j' r0 r0').
    + apply list_lookup_singleton_Some in Hj' as [_ <-]. cbn in E. pose proof (Hold j r0 Hj). lia.
    + apply list_lookup_singleton_Some in Hj as [_ <-]. cbn in E. pose proof (Hold j' r0' Hj'). lia.
    + apply list_lookup_singleton_Some in Hj as [? _]. apply list_lookup_singleton_Some in Hj' as [? _]. lia.
  - intros j r0 [Hj|[_ Hj]]%lookup_app_Some; [pose proof (Hold j r0 Hj); lia|].
    apply list_lookup_singleton_Some in Hj as [_ <-]. cbn. lia.
  - intros j r0 l [Hj|[_ Hj]]%lookup_app_Some Hl; [by apply (sl j r0)|].
    apply list_lookup_singleton_Some in Hj as [_ <-]. cbn in *.
    apply (has_slot_changed loot slot s1 s3 C Hslot l Hl).
Qed.

Lemma roll_items_ok missing threshold mask announce items slot s :
  starts missing \/ items_known w -> rolls_ok s ->
  (forall k, (k < length items)%nat -> has_slot loot (slot + Z.of_nat k) s) -> 0 <= slot -> slot + len items < 256 ->
  wp (roll_items w members loot missing threshold mask announce slot items) s
    (fun _ s' => rolls_ok s' /\ keeps_loots s s').
Proof.
  intros Hmiss. revert slot s. induction items as [|i items IH]; intros slot s Hs Hslot H0 Hlen; cbn [roll_items].
  { by apply wp_ret. }
  cbn [length] in *. apply wp_bind.
  apply (wp_mono no_error _ _ (fun _ s' => rolls_ok s' /\ keeps_loots s s')).
  { destruct (li_freeforall i); [by apply wp_ret|]. destruct (rw_item w (li_itemid i)) as [t|] eqn:Et.
    2: { destruct Hmiss as [Hmiss|Hw]; [by apply Hmiss|by destruct (Hw (li_itemid i))]. }
    destruct (_ <=? _).
    - apply start_roll_ok; [done|]. specialize (Hslot O). rewrite Z.add_0_r in Hslot. apply Hslot. lia.
    - apply (starts_changed _ []); [|done]. intros s'. apply wp_upd_loot. intros l. apply upd_loot_item_shape. }
  intros [] s1 [Hs1 K1]. rewrite u8_small by lia. eapply wp_mono; [apply IH|].
  - done.
  - intros k Hk. apply (has_slot_keeps _ _ s s1 K1). replace (slot + 1 + Z.of_nat k) with (slot + Z.of_nat (S k)) by lia.
    apply Hslot. lia.
  - lia.
  - lia.
  - intros [] s2 [Hs2 K2]. split; [done|]. by etrans.
Qed.

Lemma roll_quest_items_ok need announce items slot s :
  rolls_ok s -> (forall k, (k < length items)%nat -> has_slot loot (slot + Z.of_nat k) s) ->
  0 <= slot -> slot + len items < 256 ->
  wp (roll_quest_items w members loot need announce slot items) s (fun _ s' => rolls_ok s' /\ keeps_loots s s').
Proof.
  revert slot s. induction items as [|i items IH]; intros slot s Hs Hslot H0 Hlen; cbn [roll_quest_items].
  { by apply wp_ret. }
  cbn [length] in *. apply wp_bind.
  apply (wp_mono no_error _ _ (fun _ s' => rolls_ok s' /\ keeps_loots s s')).
  { destruct (negb _); [by apply wp_ret|]. destruct (_ && _); [by apply wp_ret|].
    apply start_roll_ok; [done|]. specialize (Hslot O). rewrite Z.add_0_r in Hslot. apply Hslot. lia. }
  intros [] s1 [Hs1 K1]. rewrite u8_small by lia. eapply wp_mono; [apply IH|].
  - done.
  - intros k Hk. apply (has_slot_keeps _ _ s s1 K1). replace (slot + 1 + Z.of_nat k) with (slot + Z.of_nat (S k)) by lia.
    apply Hslot. lia.
  - lia.
  - lia.
  - intros [] s2 [Hs2 K2]. split; [done|]. by etrans.
Qed.

(** A loot small enough for its slots to be bytes. *)
Definition loot_ok (l : Loot) : Prop := len (lt_items l) + len (lt_quest_items l) < 256.

Lemma loot_has_slot s l k :
  rs_loots s !! loot = Some l -> (k < length (lt_items l) + length (lt_quest_items l))%nat ->
  has_slot loot (Z.of_nat k) s.
Proof.
  intros Hl Hk l' Hl'. rewrite Hl in Hl'. simplify_eq. unfold loot_item.
  destruct (Z.leb_spec (len (lt_items l')) (Z.of_nat k)); apply lookup_lt_is_Some; lia.
Qed.

Lemma roll_loot_ok missing threshold mask announce need announce' s :
  starts missing \/ items_known w -> rolls_ok s -> (forall l, rs_loots s !! loot = Some l -> loot_ok l) ->
  wp (with_loot loot (fun l =>
    roll_items w members loot missing threshold mask announce 0 (lt_items l);;
    roll_quest_items w members loot need announce' (u8 (len (lt_items l))) (lt_quest_items l))) s
    (fun _ s' => rolls_ok s' /\ keeps_loots s s').
Proof.
  intros Hmiss Hs Hl. unfold with_loot. apply wp_get. destruct (rs_loots s !! loot) as [l|] eqn:El; [|by apply wp_ret].
  specialize (Hl l eq_refl). unfold loot_ok in Hl. apply wp_bind.
  eapply wp_mono; [apply roll_items_ok; [done|done| |done|lia]|].
  { intros k Hk. apply (loot_has_slot s l); [done|lia]. }
  intros [] s1 [Hs1 K1]. rewrite u8_small by lia. eapply wp_mono; [apply roll_quest_items_ok; [done| |lia|lia]|].
  - intros k Hk. apply (has_slot_keeps _ _ s s1 K1).
    replace (len (lt_items l) + Z.of_nat k) with (Z.of_nat (length (lt_items l) + k)) by lia.
    apply (loot_has_slot s l); [done|lia].
  - intros [] s2 [Hs2 K2]. split; [done|]. by etrans.
Qed.
End Start.

(** ** Leaving *)

Definition leave_body (w : RollWorld) (guid : Z) (i : nat) : RP unit :=
  s ← get;
  match RollId s !! i with
  | None => throw BadIterator
  | Some r =>
      match playerVote r !! guid with
      | None => mret tt
      | Some _ =>
          modify (fun s => set_rolls (<[i := drop_vote guid r]> (RollId s)) s);;
          CountRollVote w guid (r_itemGUID r) MAX_ROLL_TYPE
      end
  end.

Lemma drop_vote_same g r :
  r_itemGUID (drop_vote g r) = r_itemGUID r /\ r_loot (drop_vote g r) = r_loot r /\
  r_itemSlot (drop_vote g r) = r_itemSlot r /\ playerVote (drop_vote g r) = delete g (playerVote r).
Proof.
  unfold drop_vote. destruct (playerVote r !! g) eqn:Hg; [done|]. split_and!; try done. by rewrite delete_id.
Qed.

(** The vote is already gone when [CountRollVote] looks for it. *)
Lemma CountRollVote_gone w g choice s i r :
  rolls_ok s -> RollId s !! i = Some r -> playerVote r !! g = None ->
  CountRollVote w g (r_itemGUID r) choice s = (Ok tt, s).
Proof.
  intros Hs Hr Hg. unfold CountRollVote. rewrite (bind_ok get _ s s s eq_refl).
  destruct (GetRoll s (r_itemGUID r)) as [j|] eqn:Ej; [|done].
  apply fmap_Some in Ej as ([j' r'] & (Hj & [Eg _]%andb_prop & _)%list_find_Some & Ej). cbn in Ej. subst j'.
  apply Z.eqb_eq in Eg. assert (j = i) as -> by (by apply (rk_guid _ Hs j i r' r)).
  rewrite Hr, Hg. done.
Qed.

Lemma leave_body_run w g i r s :
  rolls_ok s -> RollId s !! i = Some r ->
  let s' := set_rolls (<[i := drop_vote g r]> (RollId s)) s in
  leave_body w g i s = (Ok tt, s') /\ rolls_ok s'.
Proof.
  intros Hs Hr s'. destruct (drop_vote_same g r) as (Eg & El & Es & Ev).
  assert (rolls_ok s') as Hs' by (by apply (put_roll_ok s i r); [| |apply drop_vote_ok, (rk_roll _ Hs i)|..]).
  split; [|done]. unfold leave_body. rewrite (bind_ok get _ s s s eq_refl), Hr.
  destruct (playerVote r !! g) as [v|] eqn:Hg.
  - change (CountRollVote w g (r_itemGUID r) MAX_ROLL_TYPE s' = (Ok tt, s')). rewrite <- Eg.
    apply (CountRollVote_gone _ _ _ s' i (drop_vote g r)); [done| |].
    + apply list_lookup_insert_eq. by apply lookup_lt_Some in Hr.
    + rewrite Ev. apply lookup_delete_eq.
  - unfold s'. assert (drop_vote g r = r) as -> by (unfold drop_vote; by rewrite Hg).
    rewrite list_insert_id by done. by destruct s.
Qed.

Lemma leave_loop_run w g k n R s :
  rolls_ok s -> RollId s = (drop_vote g <$> take k R) ++ drop k R -> (k + n = length R)%nat ->
  forM (seq k n) (leave_body w g) s = (Ok tt, set_rolls (drop_vote g <$> R) s) /\
  rolls_ok (set_rolls (drop_vote g <$> R) s).
Proof.
  revert k s. induction n as [|n IH]; intros k s Hs HR Hk; cbn [seq forM].
  { rewrite take_ge, drop_ge, app_nil_r in HR by lia. rewrite <- HR.
    assert (set_rolls (RollId s) s = s) as -> by by destruct s. done. }
  destruct (lookup_lt_is_Some_2 R k) as [r Hr]; [lia|].
  assert (RollId s !! k = Some r) as Hrk.
  { rewrite HR, lookup_app_r; rewrite length_fmap, length_take, Nat.min_l by lia; [|done].
    by rewrite Nat.sub_diag, lookup_drop, Nat.add_0_r. }
  destruct (leave_body_run w g k r s Hs Hrk) as [Er Hs1]. rewrite (bind_ok _ _ _ _ _ Er).
  refine (IH (S k) (set_rolls (<[k := drop_vote g r]> (RollId s)) s) Hs1 _ _); [|lia]. cbn [RollId set_rolls].
  rewrite HR, (take_S_r _ _ _ Hr), fmap_app, (drop_S _ _ _ Hr), <- app_assoc. cbn.
  rewrite insert_app_r_alt by (rewrite length_fmap, length_take; lia).
  rewrite length_fmap, length_take, Nat.min_l, Nat.sub_diag by lia. done.
Qed.

Lemma leave_rolls_run w g s :
  rolls_ok s ->
  leave_rolls w g s = (Ok tt, set_rolls (drop_vote g <$> RollId s) s) /\
  rolls_ok (set_rolls (drop_vote g <$> RollId s) s).
Proof.
  intros Hs. unfold leave_rolls. rewrite (bind_ok get _ s s s eq_refl).
  by apply (leave_loop_run w g 0 (length (RollId s)) (RollId s)).
Qed.

(** ** Ending *)

Lemma EndRoll_ok w fuel loot s :
  rolls_ok s -> items_known w -> (length (RollId s) < fuel)%nat -> wp (EndRoll w fuel loot) s (fun _ s' => rolls_ok s').
Proof.
  intros Hs Hw. revert s Hs. induction fuel as [|fuel IH]; intros s Hs Hf; [lia|]. cbn [EndRoll]. apply wp_get.
  destruct (list_find _ _) as [[i r]|] eqn:Ef; [|by apply wp_ret].
  apply list_find_Some in Ef as (Hr & _ & _). apply wp_bind.
  eapply wp_mono; [by apply (CountTheRoll_ok w s i r)|]. intros [] s' (Hs' & ER & _). apply IH; [done|].
  rewrite ER. pose proof (lookup_lt_Some _ _ _ Hr). rewrite length_delete by by eexists. lia.
Qed.

(** ** Every reachable state *)

Inductive RollOp :=
| OpGroupLoot (members : list Z) (level loot threshold : Z)
| OpNeedBeforeGreed (members : list Z) (level loot threshold : Z)
| OpVote (player item choice : Z)
| OpEndRoll (loot : Z)
| OpLeave (player : Z)
| OpNewLoot (loot : Z) (l : Loot)
| OpLootGone (loot : Z).

Definition run_roll_op (w : RollWorld) (op : RollOp) : RP unit :=
  match op with
  | OpGroupLoot members level loot threshold => GroupLoot w members level loot threshold
  | OpNeedBeforeGreed members level loot threshold => NeedBeforeGreed w members level loot threshold
  | OpVote player item choice => CountRollVote w player item choice
  | OpEndRoll loot => s ← get; EndRoll w (S (length (RollId s))) loot
  | OpLeave player => leave_rolls w player
  | OpNewLoot loot l => modify (fun s => set_loots (<[loot := l]> (rs_loots s)) s)
  | OpLootGone loot => modify (fun s => set_loots (delete loot (rs_loots s)) s)
  end.

(** A client votes once; a new loot has an address of its own. *)
Definition roll_enabled (s : Rolls) (op : RollOp) : Prop :=
  match op with
  | OpGroupLoot members _ loot _ | OpNeedBeforeGreed members _ loot _ =>
      members_ok members /\ forall l, rs_loots s !! loot = Some l -> loot_ok l
  | OpVote player item choice =>
      forall i r v, RollId s !! i = Some r -> r_itemGUID r = item -> playerVote r !! player = Some v ->
        v = NOT_EMITED_YET /\ is_Some (choice_vote choice)
  | OpNewLoot loot _ => forall i r, RollId s !! i = Some r -> r_loot r <> loot
  | _ => True
  end.

Definition Rolls_new : Rolls := mkRolls [] ∅ 1 [].

Inductive rolls_reachable : Rolls -> Prop :=
| rolls_new : rolls_reachable Rolls_new
| rolls_op s w op r s' :
    rolls_reachable s -> items_known w -> roll_enabled s op -> run_roll_op w op s = (r, s') -> rolls_reachable s'.

Lemma first_vote_ok w s g item choice :
  rolls_ok s -> items_known w -> roll_enabled s (OpVote g item choice) ->
  wp (CountRollVote w g item choice) s (fun _ s' => rolls_ok s').
Proof.
  intros Hs Hw He. destruct (GetRoll s item) as [i|] eqn:Ei.
  2: { unfold CountRollVote. apply wp_get. rewrite Ei. by apply wp_ret. }
  pose proof Ei as H. apply fmap_Some in H as ([i' r] & (Hi & [Eg Ev]%andb_prop & _)%list_find_Some & Ep).
  cbn in Ep. subst i'.
  apply Z.eqb_eq in Eg. destruct (playerVote r !! g) as [v0|] eqn:Hg.
  2: { subst item. unfold Prelude.wp. by rewrite (CountRollVote_gone w g choice s i r Hs Hi Hg). }
  destruct (He i r v0 Hi Eg Hg) as (-> & v & Hc). pose proof Ev as [l Hl]%bool_decide_eq_true.
  destruct (decide (lt_items l = [])) as [E0|Hne].
  { unfold CountRollVote. apply wp_get. rewrite Ei, Hi, Hg, Hl, bool_decide_true by done. by apply wp_ret. }
  unfold Prelude.wp. subst item. rewrite (CountRollVote_run w s i r g choice v) by (try done; try (by apply unique_ok); by exists l).
  set (s1 := set_rolls _ _). destruct (cast_vote_same g choice r) as (E1 & E2 & E3 & _).
  assert (rolls_ok s1) as Hs1.
  { apply (put_roll_ok (roll_send (vote_messages g choice r) s) i r); try done.
    - apply (loots_changed_ok s); [apply send_rolls_run|done].
    - apply (cast_vote_ok g choice v); [by apply (rk_roll _ Hs i)|done..]. }
  destruct (all_voted _); [|done].
  assert (RollId s1 !! i = Some (cast_vote g choice r)) as Hi1.
  { apply list_lookup_insert_eq. by apply lookup_lt_Some in Hi. }
  pose proof (CountTheRoll_ok w s1 i _ Hs1 Hw Hi1) as H. unfold Prelude.wp in H.
  destruct (CountTheRoll w i s1) as [[[]|e] s2]; [apply H|done].
Qed.

Lemma starts_missing : starts (mret tt).
Proof. intros s Hs. by apply wp_ret. Qed.

Lemma roll_op_ok w op s :
  rolls_ok s -> items_known w -> roll_enabled s op -> wp (run_roll_op w op) s (fun _ s' => rolls_ok s').
Proof.
  intros Hs Hw He. destruct op as [members level loot threshold|members level loot threshold|g item choice|loot|g|loot l|loot];
    cbn [run_roll_op].
  - destruct He as [Hm Hl]. eapply wp_mono; [by apply (roll_loot_ok w members loot Hm); [right|..]|]. by intros [] s' [].
  - destruct He as [Hm Hl]. eapply wp_mono; [by apply (roll_loot_ok w members loot Hm); [right|..]|]. by intros [] s' [].
  - by apply first_vote_ok.
  - apply wp_get, EndRoll_ok; [done|done|lia].
  - unfold Prelude.wp. destruct (leave_rolls_run w g s Hs) as [-> Hs']. done.
  - eapply (wp_ok no_error); [reflexivity|]. destruct Hs as [ro gu nx sl]. constructor; cbn; try done.
    intros i r l' Hr Hl'. rewrite lookup_insert_ne in Hl' by (intros E; by apply (He i r Hr)). by apply (sl i r).
  - eapply (wp_ok no_error); [reflexivity|]. destruct Hs as [ro gu nx sl]. constructor; cbn; try done.
    intros i r l' Hr [_ Hl']%lookup_delete_Some. by apply (sl i r).
Qed.

Lemma Rolls_new_ok : rolls_ok Rolls_new.
Proof. by constructor. Qed.

Lemma run_ends {A} (p : RP A) s Q : wp p s Q -> exists x s', p s = (Ok x, s') /\ Q x s'.
Proof. unfold Prelude.wp. destruct (p s) as [[x|e] s']; [eauto|done]. Qed.

Lemma rolls_reachable_ok s : rolls_reachable s -> rolls_ok s.
Proof.
  induction 1 as [|s w op r s' _ IH Hw He Er]; [apply Rolls_new_ok|].
  destruct (run_ends _ _ _ (roll_op_ok w op s IH Hw He)) as ([] & s1 & Er1 & H1). rewrite Er in Er1. by simplify_eq.
Qed.

(** ** The theorems *)

(** What a decision must announce: the highest number among those who need the
    item, or among those who would take or disenchant it, or that all passed. *)
Definition winner_of (w : RollWorld) (r : Roll) (l : list RollMessage) : Prop :=
  ((exists g, playerVote r !! g = Some NEED) -> exists n g rest,
    l = roll_numbers w r is_need ++ MsgLootRollWon (r_itemGUID r) g n ROLL_NEED :: rest /\ picked w r is_need n g NEED) /\
  ((forall g, playerVote r !! g <> Some NEED) -> (exists g v, playerVote r !! g = Some v /\ is_greed v = true) ->
    exists n g v rest,
      l = roll_numbers w r is_greed ++ MsgLootRollWon (r_itemGUID r) g n (vote_value v) :: rest /\
      picked w r is_greed n g v) /\
  ((forall g v, playerVote r !! g = Some v -> v = PASS) -> l = [MsgAllPassed (r_itemGUID r)]).

Lemma count_pos (P : RollVote -> bool) F : (exists g v, F !! g = Some v /\ P v = true) <-> 0 < count P F.
Proof.
  pose proof (count_nonneg P F). split.
  - intros (g & v & Hg & Hv). destruct (decide (count P F = 0)) as [E|]; [|lia].
    pose proof (proj1 (count_zero P F) E g v Hg). congruence.
  - intros Hc. destruct (decide (Exists (fun gv => P gv.2 = true) (map_to_list F))) as [He|He].
    + apply Exists_exists in He as ([g v] & Hin & Hv). exists g, v. by apply elem_of_map_to_list in Hin.
    + exfalso. assert (count P F = 0); [|lia]. apply count_zero. intros g v Hg.
      destruct (P v) eqn:E; [|done]. destruct He. apply Exists_exists. exists (g, v).
      split; [by apply elem_of_map_to_list|done].
Qed.

Lemma decided_winner w r : dice w -> roll_ok r -> winner_of w r (decided w r).
Proof.
  intros Hd Hr. destruct Hr as [n gr p t va b]. unfold decided. rewrite n, gr. split_and!.
  - intros (g0 & Hg0). assert (0 < count is_need (playerVote r)) as Hc by (apply count_pos; by exists g0, NEED).
    rewrite (proj2 (Z.ltb_lt _ _) Hc). pose proof (best_roll_picked w r is_need Hd Hc) as Hp.
    destruct (best_roll w r is_need) as [[m g] v]. pose proof Hp as (_ & Hv & _). destruct v; try done.
    by exists m, g, (if rw_online w g then [stored w g r] else []).
  - intros Hno (g0 & v0 & Hg0 & Hv0).
    assert (count is_need (playerVote r) = 0) as ->.
    { apply count_zero. intros g v Hg. destruct v; try done. by destruct (Hno g). }
    assert (0 < count is_greed (playerVote r)) as Hc by (apply count_pos; by exists g0, v0).
    rewrite (proj2 (Z.ltb_lt _ _) Hc). pose proof (best_roll_picked w r is_greed Hd Hc) as Hp.
    destruct (best_roll w r is_greed) as [[m g] v]. cbn. by eexists m, g, v, _.
  - intros Hall. assert (count is_need (playerVote r) = 0) as ->.
    { apply count_zero. intros g v Hg. by rewrite (Hall g v Hg). }
    assert (count is_greed (playerVote r) = 0) as ->; [|done].
    apply count_zero. intros g v Hg. by rewrite (Hall g v Hg).
Qed.

Lemma in_place_put s i r r' x :
  in_place s r -> r_loot r' = r_loot r -> r_itemSlot r' = r_itemSlot r -> in_place (set_rolls (<[i := r']> x) s) r'.
Proof. intros (l & Hl & Hs) El Es. exists l. rewrite El, Es. done. Qed.

Lemma votable_place s i r : rolls_ok s -> RollId s !! i = Some r -> votable s r -> in_place s r.
Proof. intros Hs Hr (l & Hl & _). exists l. split; [done|]. by apply (rk_slot _ Hs i r l). Qed.


(** The vote of a member who had none is counted.  While somebody is still to
    vote the roll stays open; with the last vote it is decided and removed: the
    highest number wins, among those who need the item, or else those who would
    take or disenchant it, the lowest guid on a tie; or all have passed. *)
Theorem vote_decides s w i r g choice v :
  rolls_reachable s -> items_known w -> dice w -> RollId s !! i = Some r -> votable s r ->
  playerVote r !! g = Some NOT_EMITED_YET -> choice_vote choice = Some v ->
  let r' := cast_vote g choice r in
  exists s', CountRollVote w g (r_itemGUID r) choice s = (Ok tt, s') /\ playerVote r' = <[g := v]> (playerVote r) /\
    ((exists g', playerVote r' !! g' = Some NOT_EMITED_YET) ->
      RollId s' = <[i := r']> (RollId s) /\ rs_sent s' = rs_sent s ++ vote_messages g choice r) /\
    ((forall g', playerVote r' !! g' <> Some NOT_EMITED_YET) ->
      RollId s' = delete i (RollId s) /\
      exists l, rs_sent s' = (rs_sent s ++ vote_messages g choice r) ++ l /\ winner_of w r' l).
Proof.
  intros Hs Hw Hd Hr Hv Hg Hc r'. apply rolls_reachable_ok in Hs.
  pose proof (cast_vote_ok g choice v r (rk_roll _ Hs i r Hr) Hg Hc) as Hr'. fold r' in Hr'.
  pose proof (CountRollVote_run w s i r g choice v (unique_ok s i r Hs Hr) Hr Hv ltac:(by eexists) Hc) as Hrun.
  cbn in Hrun. fold r' in Hrun. destruct (cast_vote_same g choice r) as (_ & El & Es & _).
  assert (playerVote r' = <[g := v]> (playerVote r)) as Ev by (unfold r'; by rewrite (cast_vote_eq g choice v)).
  pose proof (all_voted_spec r' Hr') as Hav. destruct (all_voted r').
  - destruct (run_ends _ _ _ (CountTheRoll_valid w (set_rolls (<[i := r']> (RollId s))
      (roll_send (vote_messages g choice r) s)) i r' Hw ltac:(apply list_lookup_insert_eq; by apply lookup_lt_Some in Hr)
      ltac:(by apply (in_place_put (roll_send _ s) i r); [apply (votable_place s i)|..])
      ltac:(rewrite Ev; intros E; by apply insert_non_empty in E)))
      as ([] & s' & Er & s1 & [Hch Esent] & ->).
    eexists. split; [by rewrite Hrun, Er|]. split; [done|]. split.
    + intros [g' Hg']. by apply (proj1 Hav eq_refl) in Hg'.
    + intros _. cbn. rewrite (lc_rolls _ _ Hch). split.
      * cbn. apply delete_insert_list.
      * exists (decided w r'). split; [done|]. by apply decided_winner.
  - eexists. split; [by rewrite Hrun|]. split; [done|]. split; [done|]. intros Hall. by apply Hav in Hall.
Qed.

(** *** A client that repeats its vote *)

Fixpoint vote_again (w : RollWorld) (g item choice : Z) (times : nat) : RP unit :=
  match times with
  | O => mret tt
  | S times' => CountRollVote w g item choice;; vote_again w g item choice times'
  end.

Definition missing_votes (r : Roll) : Z := totalPlayersRolling r - (totalPass r + totalNeed r + totalGreed r).

(** The only vote for need is [g]'s, if any. *)
Record lone_need (s : Rolls) (i : nat) (r : Roll) (g : Z) : Prop := {
  ln_roll : RollId s !! i = Some r;
  ln_unique : unique_at s i r;
  ln_votable : votable s r;
  ln_place : in_place s r;
  ln_voter : is_Some (playerVote r !! g);
  ln_others g' : g' <> g -> playerVote r !! g' <> Some NEED;
  ln_bytes : 0 <= totalNeed r /\ 0 <= totalGreed r /\ 0 <= totalPass r /\ totalPlayersRolling r < 256
}.

Lemma lone_need_vote s i r g :
  lone_need s i r g -> 0 < missing_votes r ->
  let r' := cast_vote g ROLL_NEED r in
  lone_need (set_rolls (<[i := r']> (RollId s)) (roll_send (vote_messages g ROLL_NEED r) s)) i r' g /\
  missing_votes r' = missing_votes r - 1 /\ playerVote r' = <[g := NEED]> (playerVote r) /\ 0 < totalNeed r'.
Proof.
  intros [Hr Hu Hv Hp Hg Ho Hb] Hm r'. unfold missing_votes in *.
  assert (r' = set_votes (<[g := NEED]> (playerVote r)) (totalNeed r + 1) (totalGreed r) (totalPass r) r) as ->.
  { unfold r'. rewrite (cast_vote_eq g ROLL_NEED NEED) by done. cbn. by rewrite u8_small by lia. }
  split; [|cbn; split_and!; [lia|done|lia]]. constructor; cbn.
  - apply list_lookup_insert_eq. by apply lookup_lt_Some in Hr.
  - intros j r0 [(-> & _)|[_ Hj]]%list_lookup_insert_Some E; [done|]. by apply (Hu j r0).
  - exact Hv.
  - exact Hp.
  - rewrite lookup_insert_eq. by eexists.
  - intros g' Hne. rewrite lookup_insert_ne by done. by apply Ho.
  - lia.
Qed.

Lemma vote_again_ok w g i k s r :
  items_known w -> dice w -> lone_need s i r g -> missing_votes r = Z.of_nat (S k) ->
  wp (vote_again w g (r_itemGUID r) ROLL_NEED (S k)) s (fun _ s' =>
    RollId s' = delete i (RollId s) /\
    MsgLootRollWon (r_itemGUID r) g (rw_urand w (r_itemGUID r) g) ROLL_NEED ∈ rs_sent s').
Proof.
  intros Hw Hd. revert s r. induction k as [|k IH]; intros s r Hl Hm; cbn [vote_again].
  all: destruct (lone_need_vote s i r g Hl ltac:(lia)) as (Hl' & Hm' & Ev & Hn).
  all: pose proof (CountRollVote_run w s i r g ROLL_NEED NEED (ln_unique _ _ _ _ Hl) (ln_roll _ _ _ _ Hl)
    (ln_votable _ _ _ _ Hl) (ln_voter _ _ _ _ Hl) eq_refl) as Hrun; cbn zeta in Hrun.
  all: destruct (cast_vote_same g ROLL_NEED r) as (Eg & _ & _ & _).
  all: set (r' := cast_vote g ROLL_NEED r) in *; set (s1 := set_rolls _ _) in *.
  - assert (all_voted r' = true) as Ha by (unfold all_voted; apply Z.leb_le; unfold missing_votes in *; lia).
    rewrite Ha in Hrun. apply wp_bind. unfold Prelude.wp at 1. rewrite Hrun.
    pose proof (CountTheRoll_valid w s1 i r' Hw (ln_roll _ _ _ _ Hl') (ln_place _ _ _ _ Hl')) as Hct.
    destruct (run_ends _ _ _ (Hct ltac:(rewrite Ev; intros E; by apply insert_non_empty in E)))
      as ([] & s2 & Er & s3 & [Hch Esent] & ->).
    rewrite Er. apply wp_ret. cbn. rewrite (lc_rolls _ _ Hch), Esent. split; [apply delete_insert_list|].
    apply elem_of_app. right. unfold decided. rewrite (proj2 (Z.ltb_lt _ _) Hn).
    assert (0 < count is_need (playerVote r')) as Hc.
    { apply count_pos. exists g, NEED. rewrite Ev, lookup_insert_eq. done. }
    pose proof (best_roll_picked w r' is_need Hd Hc) as Hp. destruct (best_roll w r' is_need) as [[n g0] v].
    destruct Hp as (Hg0 & Hv & -> & _). destruct v; try done.
    assert (g0 = g) as ->.
    { destruct (decide (g0 = g)) as [|Hne]; [done|]. by apply (ln_others _ _ _ _ Hl' g0 Hne) in Hg0. }
    rewrite Eg. apply elem_of_app. right. by left.
  - assert (all_voted r' = false) as Ha by (unfold all_voted; apply Z.leb_gt; unfold missing_votes in *; lia).
    rewrite Ha in Hrun. apply (wp_seq no_error _ _ s tt s1 _ Hrun).
    assert (RollId s1 = <[i := r']> (RollId s)) as E1 by done. rewrite <- Eg.
    eapply wp_mono; [apply (IH s1 r' Hl'); lia|]. intros [] s' [ER Hwon]. split; [|done].
    rewrite ER, E1. apply delete_insert_list.
Qed.

(** [CountRollVote] does not look at an earlier vote: a member who sends need
    as often as votes are missing ends the roll before the others have voted,
    and takes the item if nobody else has needed it. *)
Theorem repeated_votes_decide s w i r g :
  rolls_reachable s -> items_known w -> dice w -> RollId s !! i = Some r -> votable s r ->
  is_Some (playerVote r !! g) -> (forall g', g' <> g -> playerVote r !! g' <> Some NEED) -> 0 < missing_votes r ->
  exists s', vote_again w g (r_itemGUID r) ROLL_NEED (Z.to_nat (missing_votes r)) s = (Ok tt, s') /\
    RollId s' = delete i (RollId s) /\
    MsgLootRollWon (r_itemGUID r) g (rw_urand w (r_itemGUID r) g) ROLL_NEED ∈ rs_sent s'.
Proof.
  intros Hs Hw Hd Hr Hv Hg Ho Hm. apply rolls_reachable_ok in Hs.
  destruct (Z.to_nat (missing_votes r)) as [|k] eqn:Ek; [lia|].
  pose proof (rk_roll _ Hs i r Hr) as Hok. destruct (roll_ok_bounds r Hok) as (? & ? & ? & _).
  pose proof (ro_rolling _ Hok). pose proof (ro_bytes _ Hok).
  destruct (run_ends _ _ _ (vote_again_ok w g i k s r Hw Hd
    ltac:(constructor; [done|by apply unique_ok|done|by apply (votable_place s i)|done|done|lia]) ltac:(lia)))
    as ([] & s' & Er & Hs'). by exists s'.
Qed.

(** *** A member that leaves *)

(** When the only member still to vote leaves the group, everybody left has
    voted and the roll is not decided: the vote is erased before
    [CountRollVote] looks for it.  It waits for the timer. *)
Theorem leaver_stalls_roll s w i r g :
  rolls_reachable s -> RollId s !! i = Some r -> playerVote r !! g = Some NOT_EMITED_YET ->
  (forall g', g' <> g -> playerVote r !! g' <> Some NOT_EMITED_YET) ->
  exists s' r', leave_rolls w g s = (Ok tt, s') /\ RollId s' !! i = Some r' /\ all_voted r' = true /\
    playerVote r' = delete g (playerVote r) /\ rs_sent s' = rs_sent s.
Proof.
  intros Hs Hr Hg Ho. apply rolls_reachable_ok in Hs. destruct (leave_rolls_run w g s Hs) as [Er Hs'].
  destruct (drop_vote_same g r) as (_ & _ & _ & Ev).
  eexists _, (drop_vote g r). split; [exact Er|]. split; [cbn; by rewrite list_lookup_fmap, Hr|].
  split_and!; [|done|done]. apply all_voted_spec; [apply drop_vote_ok, (rk_roll _ Hs i r Hr)|].
  intros g'. rewrite Ev. destruct (decide (g' = g)) as [->|Hne]; [by rewrite lookup_delete_eq|].
  rewrite lookup_delete_ne by done. by apply Ho.
Qed.

(** ** A small group *)

Definition loot_world : RollWorld := {|
  rw_online := fun _ => true; rw_session := fun _ => true; rw_near := fun _ => true; rw_passes := fun _ => false;
  rw_allowed := fun _ _ => true; rw_can_need := fun _ _ => true; rw_can_store := fun _ _ => true;
  rw_item := fun _ => Some (mkItemTemplate 3 0 0 0); rw_urand := fun _ g => 1 + (10 * g) mod 100
|}.
Definition loot_piece (id : Z) : LootItem := mkLootItem id false true false false false.
Definition run_roll_ops (ops : list RollOp) (s : Rolls) : Rolls :=
  fold_left (fun s op => (run_roll_op loot_world op s).2) ops s.

(** Members 1, 2 and 3 roll for item 50. *)
Definition sample_rolls : Rolls :=
  run_roll_ops [OpNewLoot 7 (mkLoot [loot_piece 50] [] 1); OpGroupLoot [1; 2; 3] 0 7 2] Rolls_new.

Lemma loot_world_dice : dice loot_world.
Proof. intros item g. cbn. pose proof (Z.mod_pos_bound (10 * g) 100). lia. Qed.
Lemma loot_world_items : items_known loot_world.
Proof. by intros i. Qed.

Lemma sample_rolls_reachable : rolls_reachable sample_rolls.
Proof.
  eapply (rolls_op (run_roll_ops [OpNewLoot 7 (mkLoot [loot_piece 50] [] 1)] Rolls_new) loot_world
    (OpGroupLoot [1; 2; 3] 0 7 2)); [|apply loot_world_items| |apply surjective_pairing].
  - eapply (rolls_op Rolls_new loot_world (OpNewLoot 7 (mkLoot [loot_piece 50] [] 1)));
      [constructor|apply loot_world_items|by intros i r|apply surjective_pairing].
  - split.
    + split; [apply (bool_decide_unpack _); by vm_compute|cbn; lia].
    + intros l [= <-]. by vm_compute.
Qed.


Definition sample_roll : Roll :=
  mkRoll 1 50 (<[1 := NOT_EMITED_YET]> (<[2 := NOT_EMITED_YET]> (<[3 := NOT_EMITED_YET]> ∅))) 3 0 0 0 0 7 7.

Lemma sample_roll_votable : votable sample_rolls sample_roll.
Proof. by eexists (mkLoot [_] [] 1). Qed.

Lemma vote_decides_witness :
  exists s', CountRollVote loot_world 2 1 ROLL_NEED sample_rolls = (Ok tt, s') /\
    RollId s' = [cast_vote 2 ROLL_NEED sample_roll].
Proof.
  destruct (vote_decides sample_rolls loot_world 0 sample_roll 2 ROLL_NEED NEED sample_rolls_reachable loot_world_items
    loot_world_dice eq_refl sample_roll_votable eq_refl eq_refl) as (s' & Er & _ & Hopen & _).
  exists s'. split; [exact Er|]. apply Hopen. by exists 1.
Defined.

Lemma repeated_votes_decide_witness :
  exists s', vote_again loot_world 2 1 ROLL_NEED 3 sample_rolls = (Ok tt, s') /\ RollId s' = [] /\
    MsgLootRollWon 1 2 21 ROLL_NEED ∈ rs_sent s'.
Proof.
  apply (repeated_votes_decide sample_rolls loot_world 0 sample_roll 2 sample_rolls_reachable loot_world_items
    loot_world_dice eq_refl sample_roll_votable).
  - by eexists.
  - intros g' _. unfold sample_roll; cbn. rewrite !lookup_insert_Some, lookup_empty. naive_solver.
  - by vm_compute.
Defined.

(** Players 1 and 2 have voted. *)
Definition waiting_for_3 : Rolls := run_roll_ops [OpVote 1 1 ROLL_GREED; OpVote 2 1 ROLL_NEED] sample_rolls.

Lemma waiting_reachable : rolls_reachable waiting_for_3.
Proof.
  eapply (rolls_op (run_roll_ops [OpVote 1 1 ROLL_GREED] sample_rolls) loot_world (OpVote 2 1 ROLL_NEED));
    [|apply loot_world_items| |apply surjective_pairing].
  - eapply (rolls_op sample_rolls loot_world (OpVote 1 1 ROLL_GREED));
      [apply sample_rolls_reachable|apply loot_world_items| |apply surjective_pairing].
    intros [|i] r v [= <-] _ [= <-]. split; [done|by eexists].
  - intros [|i] r v [= <-] _ [= <-]. split; [done|by eexists].
Qed.

Lemma leaver_stalls_roll_witness :
  exists s' r', leave_rolls loot_world 3 waiting_for_3 = (Ok tt, s') /\ RollId s' !! 0%nat = Some r' /\
    all_voted r' = true.
Proof.
  edestruct (leaver_stalls_roll waiting_for_3 loot_world 0 (cast_vote 2 ROLL_NEED (cast_vote 1 ROLL_GREED sample_roll)) 3
    waiting_reachable) as (s' & r' & H1 & H2 & H3 & _).
  - by vm_compute.
  - by vm_compute.
  - intros g' Hne. change (playerVote (cast_vote 2 ROLL_NEED (cast_vote 1 ROLL_GREED sample_roll))) with
      (<[2 := NEED]> (<[1 := GREED]> (playerVote sample_roll))). cbn.
    rewrite !lookup_insert_Some, lookup_empty. naive_solver.
  - exists s', r'. done.
Defined.

(** Player 2 needs twice and leaves; player 1 passes, and as the first of those
    left is given the item. *)
Example pass_wins :
  let sent := rs_sent
    (run_roll_ops [OpVote 2 1 ROLL_NEED; OpVote 2 1 ROLL_NEED; OpLeave 2; OpVote 1 1 ROLL_PASS] sample_rolls) in
  drop (length sent - 2) sent = [MsgLootRollWon 1 1 0 ROLL_NEED; MsgStoreItem 1 50].
Proof. by vm_compute. Qed.

(** In a loot of quest items alone votes are not counted at all. *)
Example quest_loot_takes_no_votes :
  let s := run_roll_ops [OpNewLoot 7 (mkLoot [] [loot_piece 50] 1); OpGroupLoot [1; 2] 0 7 2] Rolls_new in
  length (RollId s) = 1%nat /\ run_roll_ops [OpVote 1 1 ROLL_NEED; OpVote 2 1 ROLL_NEED] s = s.
Proof. by vm_compute. Qed.
