(* ===== verification/Group.v ===== *)
(** * Groups (src/src/serveur/jeu/Groups/Group.cpp)

    A party or a raid: its members in their subgroups, the counter of each
    subgroup, the leader, the marks on targets, the rolls for loot, and the rows
    that keep it in the database.  [m_memberMgr] links the members that are
    online.  Players and maps are the [GroupWorld] of an operation.  Names,
    packets and the binds to instances are left out; the statements sent to the
    database are recorded. *)

From S2P Require Import Prelude.
From S2P Require Import GroupLoot.
Local Open Scope Z_scope.

Inductive GroupError :=
| SubGroupOutOfRange
| GroupAssert
| Uninitialised
| GroupRoll (e : RollError).

Definition MAXGROUPSIZE := 5.
Definition MAXRAIDSIZE := 40.
Definition MAX_RAID_SUBGROUPS := MAXRAIDSIZE / MAXGROUPSIZE.
Definition TARGETICONCOUNT := 8.
Definition MEMBER_FLAG_ASSISTANT := 1.
Definition MEMBER_FLAG_MAINTANK := 2.
Definition MEMBER_FLAG_MAINASSIST := 4.
Definition GROUPTYPE_NORMAL := 0.
Definition GROUPTYPE_BGRAID := 3.
Definition GROUPTYPE_RAID := 2.
Definition GROUPTYPE_UNK1 := 4.
Definition GROUPTYPE_LFG := 8.
Definition FREE_FOR_ALL := 0.
Definition MASTER_LOOT := 2.
Definition GROUP_LOOT := 3.
Definition NEED_BEFORE_GREED := 4.
Definition ITEM_QUALITY_UNCOMMON := 2.
Definition MAX_DUNGEON_DIFFICULTY := 3.
Definition MAX_RAID_DIFFICULTY := 6.

Inductive RemoveMethod :=
  GROUP_REMOVEMETHOD_DEFAULT | GROUP_REMOVEMETHOD_KICK | GROUP_REMOVEMETHOD_LEAVE | GROUP_REMOVEMETHOD_KICK_LFG.

(** [readyCheckHasResponded] is not set when a member is added. *)
Record MemberSlot := mkMemberSlot {
  ms_guid : Z;
  ms_group : Z;
  ms_flags : Z;
  ms_roles : Z;
  ms_responded : option bool
}.
Definition set_group v m := mkMemberSlot (ms_guid m) v (ms_flags m) (ms_roles m) (ms_responded m).
Definition set_flags v m := mkMemberSlot (ms_guid m) (ms_group m) v (ms_roles m) (ms_responded m).
Definition set_roles v m := mkMemberSlot (ms_guid m) (ms_group m) (ms_flags m) v (ms_responded m).
Definition set_responded v m := mkMemberSlot (ms_guid m) (ms_group m) (ms_flags m) (ms_roles m) v.

(** A row of [groups] without its key. *)
Record GroupRow := mkGroupRow {
  gr_leaderGuid : Z;
  gr_lootMethod : Z;
  gr_looterGuid : Z;
  gr_lootThreshold : Z;
  gr_icons : list Z;
  gr_groupType : Z;
  gr_difficulty : Z;
  gr_raiddifficulty : Z
}.
Inductive GroupStatement :=
| CHAR_INS_GROUP (guid : Z) (row : GroupRow)
| CHAR_INS_GROUP_MEMBER (guid memberGuid memberFlags subgroup roles : Z)
| CHAR_DEL_GROUP_MEMBER (memberGuid : Z)
| CHAR_UPD_GROUP_LEADER (leaderGuid guid : Z)
| CHAR_UPD_GROUP_TYPE (groupType guid : Z)
| CHAR_UPD_GROUP_MEMBER_SUBGROUP (subgroup memberGuid : Z)
| CHAR_UPD_GROUP_MEMBER_FLAG (memberFlags memberGuid : Z)
| CHAR_UPD_GROUP_ROLE (roles memberGuid : Z)
| CHAR_UPD_GROUP_DIFFICULTY (difficulty guid : Z)
| CHAR_UPD_GROUP_RAID_DIFFICULTY (difficulty guid : Z)
| CHAR_DEL_GROUP (guid : Z)
| CHAR_DEL_GROUP_MEMBER_ALL (guid : Z)
| CHAR_DEL_LFG_DATA (guid : Z).

Record Group := mkGroup {
  m_memberSlots : list MemberSlot;
  m_memberMgr : list Z;
  m_invitees : gset Z;
  m_leaderGuid : Z;
  m_groupType : Z;
  m_dungeonDifficulty : Z;
  m_raidDifficulty : Z;
  m_bgGroup : bool;
  m_bfGroup : bool;
  m_targetIcons : list Z;
  m_lootMethod : Z;
  m_lootThreshold : Z;
  m_looterGuid : Z;
  g_rolls : Rolls;
  m_subGroupsCounts : option (list Z);
  m_maxEnchantingLevel : Z;
  m_dbStoreId : Z;
  readyCheckInProgress : bool;
  g_deleted : bool;
  g_statements : list GroupStatement
}.
Definition set_slots v g := mkGroup v (m_memberMgr g) (m_invitees g) (m_leaderGuid g) (m_groupType g)
  (m_dungeonDifficulty g) (m_raidDifficulty g) (m_bgGroup g) (m_bfGroup g) (m_targetIcons g) (m_lootMethod g)
  (m_lootThreshold g) (m_looterGuid g) (g_rolls g) (m_subGroupsCounts g) (m_maxEnchantingLevel g) (m_dbStoreId g)
  (readyCheckInProgress g) (g_deleted g) (g_statements g).
Definition set_mgr v g := mkGroup (m_memberSlots g) v (m_invitees g) (m_leaderGuid g) (m_groupType g)
  (m_dungeonDifficulty g) (m_raidDifficulty g) (m_bgGroup g) (m_bfGroup g) (m_targetIcons g) (m_lootMethod g)
  (m_lootThreshold g) (m_looterGuid g) (g_rolls g) (m_subGroupsCounts g) (m_maxEnchantingLevel g) (m_dbStoreId g)
  (readyCheckInProgress g) (g_deleted g) (g_statements g).
Definition set_invitees v g := mkGroup (m_memberSlots g) (m_memberMgr g) v (m_leaderGuid g) (m_groupType g)
  (m_dungeonDifficulty g) (m_raidDifficulty g) (m_bgGroup g) (m_bfGroup g) (m_targetIcons g) (m_lootMethod g)
  (m_lootThreshold g) (m_looterGuid g) (g_rolls g) (m_subGroupsCounts g) (m_maxEnchantingLevel g) (m_dbStoreId g)
  (readyCheckInProgress g) (g_deleted g) (g_statements g).
Definition set_leader v g := mkGroup (m_memberSlots g) (m_memberMgr g) (m_invitees g) v (m_groupType g)
  (m_dungeonDifficulty g) (m_raidDifficulty g) (m_bgGroup g) (m_bfGroup g) (m_targetIcons g) (m_lootMethod g)
  (m_lootThreshold g) (m_looterGuid g) (g_rolls g) (m_subGroupsCounts g) (m_maxEnchantingLevel g) (m_dbStoreId g)
  (readyCheckInProgress g) (g_deleted g) (g_statements g).
Definition set_type v g := mkGroup (m_memberSlots g) (m_memberMgr g) (m_invitees g) (m_leaderGuid g) v
  (m_dungeonDifficulty g) (m_raidDifficulty g) (m_bgGroup g) (m_bfGroup g) (m_targetIcons g) (m_lootMethod g)
  (m_lootThreshold g) (m_looterGuid g) (g_rolls g) (m_subGroupsCounts g) (m_maxEnchantingLevel g) (m_dbStoreId g)
  (readyCheckInProgress g) (g_deleted g) (g_statements g).
Definition set_dungeon v g := mkGroup (m_memberSlots g) (m_memberMgr g) (m_invitees g) (m_leaderGuid g) (m_groupType
  g) v (m_raidDifficulty g) (m_bgGroup g) (m_bfGroup g) (m_targetIcons g) (m_lootMethod g) (m_lootThreshold g)
  (m_looterGuid g) (g_rolls g) (m_subGroupsCounts g) (m_maxEnchantingLevel g) (m_dbStoreId g) (readyCheckInProgress
  g) (g_deleted g) (g_statements g).
Definition set_raid v g := mkGroup (m_memberSlots g) (m_memberMgr g) (m_invitees g) (m_leaderGuid g) (m_groupType g)
  (m_dungeonDifficulty g) v (m_bgGroup g) (m_bfGroup g) (m_targetIcons g) (m_lootMethod g) (m_lootThreshold g)
  (m_looterGuid g) (g_rolls g) (m_subGroupsCounts g) (m_maxEnchantingLevel g) (m_dbStoreId g) (readyCheckInProgress
  g) (g_deleted g) (g_statements g).
Definition set_icons v g := mkGroup (m_memberSlots g) (m_memberMgr g) (m_invitees g) (m_leaderGuid g) (m_groupType
  g) (m_dungeonDifficulty g) (m_raidDifficulty g) (m_bgGroup g) (m_bfGroup g) v (m_lootMethod g) (m_lootThreshold g)
  (m_looterGuid g) (g_rolls g) (m_subGroupsCounts g) (m_maxEnchantingLevel g) (m_dbStoreId g) (readyCheckInProgress
  g) (g_deleted g) (g_statements g).
Definition set_method v g := mkGroup (m_memberSlots g) (m_memberMgr g) (m_invitees g) (m_leaderGuid g) (m_groupType
  g) (m_dungeonDifficulty g) (m_raidDifficulty g) (m_bgGroup g) (m_bfGroup g) (m_targetIcons g) v (m_lootThreshold
  g) (m_looterGuid g) (g_rolls g) (m_subGroupsCounts g) (m_maxEnchantingLevel g) (m_dbStoreId g)
  (readyCheckInProgress g) (g_deleted g) (g_statements g).
Definition set_threshold v g := mkGroup (m_memberSlots g) (m_memberMgr g) (m_invitees g) (m_leaderGuid g)
  (m_groupType g) (m_dungeonDifficulty g) (m_raidDifficulty g) (m_bgGroup g) (m_bfGroup g) (m_targetIcons g)
  (m_lootMethod g) v (m_looterGuid g) (g_rolls g) (m_subGroupsCounts g) (m_maxEnchantingLevel g) (m_dbStoreId g)
  (readyCheckInProgress g) (g_deleted g) (g_statements g).
Definition set_looter v g := mkGroup (m_memberSlots g) (m_memberMgr g) (m_invitees g) (m_leaderGuid g) (m_groupType
  g) (m_dungeonDifficulty g) (m_raidDifficulty g) (m_bgGroup g) (m_bfGroup g) (m_targetIcons g) (m_lootMethod g)
  (m_lootThreshold g) v (g_rolls g) (m_subGroupsCounts g) (m_maxEnchantingLevel g) (m_dbStoreId g)
  (readyCheckInProgress g) (g_deleted g) (g_statements g).
Definition set_group_rolls v g := mkGroup (m_memberSlots g) (m_memberMgr g) (m_invitees g) (m_leaderGuid g)
  (m_groupType g) (m_dungeonDifficulty g) (m_raidDifficulty g) (m_bgGroup g) (m_bfGroup g) (m_targetIcons g)
  (m_lootMethod g) (m_lootThreshold g) (m_looterGuid g) v (m_subGroupsCounts g) (m_maxEnchantingLevel g)
  (m_dbStoreId g) (readyCheckInProgress g) (g_deleted g) (g_statements g).
Definition set_counts v g := mkGroup (m_memberSlots g) (m_memberMgr g) (m_invitees g) (m_leaderGuid g) (m_groupType
  g) (m_dungeonDifficulty g) (m_raidDifficulty g) (m_bgGroup g) (m_bfGroup g) (m_targetIcons g) (m_lootMethod g)
  (m_lootThreshold g) (m_looterGuid g) (g_rolls g) v (m_maxEnchantingLevel g) (m_dbStoreId g) (readyCheckInProgress
  g) (g_deleted g) (g_statements g).
Definition set_enchanting v g := mkGroup (m_memberSlots g) (m_memberMgr g) (m_invitees g) (m_leaderGuid g)
  (m_groupType g) (m_dungeonDifficulty g) (m_raidDifficulty g) (m_bgGroup g) (m_bfGroup g) (m_targetIcons g)
  (m_lootMethod g) (m_lootThreshold g) (m_looterGuid g) (g_rolls g) (m_subGroupsCounts g) v (m_dbStoreId g)
  (readyCheckInProgress g) (g_deleted g) (g_statements g).
Definition set_store v g := mkGroup (m_memberSlots g) (m_memberMgr g) (m_invitees g) (m_leaderGuid g) (m_groupType
  g) (m_dungeonDifficulty g) (m_raidDifficulty g) (m_bgGroup g) (m_bfGroup g) (m_targetIcons g) (m_lootMethod g)
  (m_lootThreshold g) (m_looterGuid g) (g_rolls g) (m_subGroupsCounts g) (m_maxEnchantingLevel g) v
  (readyCheckInProgress g) (g_deleted g) (g_statements g).
Definition set_ready_check v g := mkGroup (m_memberSlots g) (m_memberMgr g) (m_invitees g) (m_leaderGuid g)
  (m_groupType g) (m_dungeonDifficulty g) (m_raidDifficulty g) (m_bgGroup g) (m_bfGroup g) (m_targetIcons g)
  (m_lootMethod g) (m_lootThreshold g) (m_looterGuid g) (g_rolls g) (m_subGroupsCounts g) (m_maxEnchantingLevel g)
  (m_dbStoreId g) v (g_deleted g) (g_statements g).
Definition set_deleted v g := mkGroup (m_memberSlots g) (m_memberMgr g) (m_invitees g) (m_leaderGuid g) (m_groupType
  g) (m_dungeonDifficulty g) (m_raidDifficulty g) (m_bgGroup g) (m_bfGroup g) (m_targetIcons g) (m_lootMethod g)
  (m_lootThreshold g) (m_looterGuid g) (g_rolls g) (m_subGroupsCounts g) (m_maxEnchantingLevel g) (m_dbStoreId g)
  (readyCheckInProgress g) v (g_statements g).
Definition set_statements v g := mkGroup (m_memberSlots g) (m_memberMgr g) (m_invitees g) (m_leaderGuid g)
  (m_groupType g) (m_dungeonDifficulty g) (m_raidDifficulty g) (m_bgGroup g) (m_bfGroup g) (m_targetIcons g)
  (m_lootMethod g) (m_lootThreshold g) (m_looterGuid g) (g_rolls g) (m_subGroupsCounts g) (m_maxEnchantingLevel g)
  (m_dbStoreId g) (readyCheckInProgress g) (g_deleted g) v.

(** What a group asks of players, maps and the dungeon finder. *)
Record GroupWorld := mkGroupWorld {
  gw_rolls : RollWorld;
  gw_online : Z -> bool;
  gw_exists : Z -> bool;
  gw_near : Z -> bool;
  gw_alive : Z -> bool;
  gw_map : Z -> Z;
  gw_enchanting : Z -> Z;
  gw_difficulty : Z -> Z;
  gw_raid_difficulty : Z -> Z;
  gw_lfg_map : Z;
  gw_new_store : Z
}.

Abbreviation GP := (prog Group GroupError).

Definition Group_new (bg bf : bool) : Group :=
  mkGroup [] [] ∅ 0 GROUPTYPE_NORMAL 0 0 bg bf (repeat 0 8) FREE_FOR_ALL ITEM_QUALITY_UNCOMMON 0 (mkRolls [] ∅ 1 [])
    None 0 0 false false [].

Definition isRaidGroup (g : Group) : bool := negb (Z.land (m_groupType g) GROUPTYPE_RAID =? 0).
Definition isLFGGroup (g : Group) : bool := negb (Z.land (m_groupType g) GROUPTYPE_LFG =? 0).
(** [isBGGroup() || isBFGroup()] *)
Definition transient (g : Group) : bool := m_bgGroup g || m_bfGroup g.
Definition GetMembersCount (g : Group) : Z := len (m_memberSlots g).
Definition IsFull (g : Group) : bool :=
  if isRaidGroup g then MAXRAIDSIZE <=? GetMembersCount g else MAXGROUPSIZE <=? GetMembersCount g.

Definition execute (st : GroupStatement) : GP unit := modify (fun g => set_statements (g_statements g ++ [st]) g).
(** A statement that battleground and battlefield groups leave out. *)
Definition persist (st : Group -> GroupStatement) : GP unit :=
  g ← get; if transient g then mret tt else execute (st g).

(** The rolls of the group. *)
Definition lift_rolls {A} (p : prog Rolls RollError A) : GP A := fun g =>
  let '(r, s) := p (g_rolls g) in
  (match r with Ok a => Ok a | Err e => Err (GroupRoll e) end, set_group_rolls s g).

(** [GroupLoot] and [NeedBeforeGreed], for the members that are linked. *)
Definition group_loot (w : GroupWorld) (loot : Z) : GP unit :=
  g ← get; lift_rolls (GroupLoot (gw_rolls w) (m_memberMgr g) (m_maxEnchantingLevel g) loot (m_lootThreshold g)).
Definition group_need (w : GroupWorld) (loot : Z) : GP unit :=
  g ← get; lift_rolls (NeedBeforeGreed (gw_rolls w) (m_memberMgr g) (m_maxEnchantingLevel g) loot (m_lootThreshold g)).

(** ** Members and subgroups *)

(** [_getMemberCSlot] and [_getMemberWSlot]: the position of the member. *)
Definition _getMemberSlot (g : Group) (guid : Z) : option nat :=
  fst <$> list_find (fun m => ms_guid m = guid) (m_memberSlots g).
Definition IsMember (g : Group) (guid : Z) : bool := bool_decide (is_Some (_getMemberSlot g guid)).
Definition IsLeader (g : Group) (guid : Z) : bool := m_leaderGuid g =? guid.
Definition member_slot (g : Group) (guid : Z) : option MemberSlot := _getMemberSlot g guid ≫= fun i => m_memberSlots g !! i.
Definition IsAssistant (g : Group) (guid : Z) : bool :=
  match member_slot g guid with
  | Some m => negb (Z.land (ms_flags m) MEMBER_FLAG_ASSISTANT =? 0)
  | None => false
  end.
Definition GetMemberGroup (g : Group) (guid : Z) : Z := from_option ms_group (MAX_RAID_SUBGROUPS + 1) (member_slot g guid).
Definition GetMemberRole (g : Group) (guid : Z) : Z := from_option ms_roles 0 (member_slot g guid).
Definition SameSubGroup (g : Group) (guid1 guid2 : Z) : bool :=
  match member_slot g guid1, member_slot g guid2 with
  | Some m1, Some m2 => ms_group m1 =? ms_group m2
  | _, _ => false
  end.
Definition upd_slot_at (f : MemberSlot -> MemberSlot) (i : nat) : GP unit :=
  modify (fun g => set_slots (alter f i (m_memberSlots g)) g).

(** [++m_subGroupsCounts[subgroup]] and [--]: a [uint8]. *)
Definition bump (delta subgroup : Z) (l : list Z) : option (list Z) :=
  if (0 <=? subgroup) && (subgroup <? MAX_RAID_SUBGROUPS)
  then Some (alter (fun c => u8 (c + delta)) (Z.to_nat subgroup) l) else None.
Definition SubGroupCounter (delta subgroup : Z) : GP unit :=
  g ← get;
  match m_subGroupsCounts g with
  | None => mret tt
  | Some l => match bump delta subgroup l with
              | Some l' => modify (set_counts (Some l'))
              | None => throw SubGroupOutOfRange
              end
  end.
Definition SubGroupCounterIncrease : Z -> GP unit := SubGroupCounter 1.
Definition SubGroupCounterDecrease : Z -> GP unit := SubGroupCounter (-1).

Fixpoint count_subgroups (slots : list MemberSlot) (l : list Z) : option (list Z) :=
  match slots with
  | [] => Some l
  | m :: slots' => l' ← bump 1 (ms_group m) l; count_subgroups slots' l'
  end.
Definition _initRaidSubGroupsCounter : GP unit :=
  g ← get;
  match count_subgroups (m_memberSlots g) (repeat 0 8) with
  | Some l => modify (set_counts (Some l))
  | None => throw SubGroupOutOfRange
  end.
Definition HasFreeSlotSubGroup (g : Group) (subgroup : Z) : bool :=
  match m_subGroupsCounts g with
  | Some l => match l !! Z.to_nat subgroup with Some c => c <? MAXGROUPSIZE | None => false end
  | None => false
  end.

Definition ResetMaxEnchantingLevel (w : GroupWorld) : GP unit :=
  modify (fun g => set_enchanting
    (fold_left (fun level m => if gw_online w (ms_guid m) && (level <? gw_enchanting w (ms_guid m))
                               then gw_enchanting w (ms_guid m) else level) (m_memberSlots g) 0) g).

Definition LinkMember (guid : Z) : GP unit := modify (fun g => set_mgr (guid :: m_memberMgr g) g).

Definition AddMember (w : GroupWorld) (guid : Z) : GP bool :=
  g ← get;
  match (match m_subGroupsCounts g with
         | Some l => fst <$> list_find (fun c => c < MAXGROUPSIZE) l
         | None => Some O
         end) with
  | None => mret false
  | Some subGroup =>
      modify (fun g => set_slots (m_memberSlots g ++ [mkMemberSlot guid (Z.of_nat subGroup) 0 0 None]) g);;
      SubGroupCounterIncrease (Z.of_nat subGroup);;
      LinkMember guid;;
      g ← get;
      (if isRaidGroup g then mret tt else modify (set_icons (repeat 0 8)));;
      persist (fun g => CHAR_INS_GROUP_MEMBER (m_dbStoreId g) guid 0 (Z.of_nat subGroup) 0);;
      modify (fun g => if m_maxEnchantingLevel g <? gw_enchanting w guid then set_enchanting (gw_enchanting w guid) g else g);;
      mret true
  end.

Definition Create (w : GroupWorld) (leader : Z) : GP bool :=
  modify (set_leader leader);;
  g ← get;
  (if transient g then modify (set_type GROUPTYPE_BGRAID) else mret tt);;
  g ← get;
  (if isRaidGroup g then _initRaidSubGroupsCounter else mret tt);;
  (if isLFGGroup g then mret tt else modify (set_method GROUP_LOOT));;
  modify (set_threshold ITEM_QUALITY_UNCOMMON);;
  modify (set_looter leader);;
  modify (set_dungeon 0);;
  modify (set_raid 0);;
  if transient g then AddMember w leader
  else
    modify (set_dungeon (gw_difficulty w leader));;
    modify (set_raid (gw_raid_difficulty w leader));;
    modify (set_store (gw_new_store w));;
    g ← get;
    execute (CHAR_INS_GROUP (m_dbStoreId g) (mkGroupRow (m_leaderGuid g) (m_lootMethod g) (m_looterGuid g)
      (m_lootThreshold g) (u32 <$> m_targetIcons g) (u8 (m_groupType g)) (u8 (m_dungeonDifficulty g))
      (u8 (m_raidDifficulty g))));;
    AddMember w leader ≫= (fun added : bool => if added then mret true else throw GroupAssert).

(** ** Loading *)

Definition LoadGroupFromDB (w : GroupWorld) (guid : Z) (row : GroupRow) : GP unit :=
  modify (set_store guid);;
  modify (set_leader (gr_leaderGuid row));;
  if negb (gw_exists w (gr_leaderGuid row)) then mret tt
  else
    modify (set_method (gr_lootMethod row));;
    modify (set_looter (gr_looterGuid row));;
    modify (set_threshold (gr_lootThreshold row));;
    modify (set_icons (gr_icons row));;
    modify (set_type (gr_groupType row));;
    g ← get;
    (if isRaidGroup g then _initRaidSubGroupsCounter else mret tt);;
    modify (set_dungeon (if MAX_DUNGEON_DIFFICULTY <=? gr_difficulty row then 0 else gr_difficulty row));;
    modify (set_raid (if MAX_RAID_DIFFICULTY <=? gr_raiddifficulty row then 0 else gr_raiddifficulty row)).

Definition LoadMemberFromDB (w : GroupWorld) (guidLow memberFlags subgroup roles : Z) : GP unit :=
  if negb (gw_exists w guidLow) then execute (CHAR_DEL_GROUP_MEMBER guidLow)
  else
    modify (fun g => set_slots (m_memberSlots g ++ [mkMemberSlot guidLow subgroup memberFlags roles None]) g);;
    SubGroupCounterIncrease subgroup.

(** ** The tables *)

(** A row of [group_member] without its key, the member's guid. *)
Record MemberRow := mkMemberRow { mr_guid : Z; mr_flags : Z; mr_subgroup : Z; mr_roles : Z }.
Record GroupTables := mkGroupTables { db_groups : gmap Z GroupRow; db_members : gmap Z MemberRow }.
Definition upd_groups (f : gmap Z GroupRow -> gmap Z GroupRow) t := mkGroupTables (f (db_groups t)) (db_members t).
Definition upd_members (f : gmap Z MemberRow -> gmap Z MemberRow) t := mkGroupTables (db_groups t) (f (db_members t)).
Definition insert_row {V} (k : Z) (v : V) (m : gmap Z V) : gmap Z V :=
  match m !! k with Some _ => m | None => <[k := v]> m end.

Definition exec_statement (t : GroupTables) (st : GroupStatement) : GroupTables :=
  match st with
  | CHAR_INS_GROUP guid row => upd_groups (insert_row guid row) t
  | CHAR_INS_GROUP_MEMBER guid member flags subgroup roles =>
      upd_members (insert_row member (mkMemberRow guid flags subgroup roles)) t
  | CHAR_DEL_GROUP_MEMBER member => upd_members (delete member) t
  | CHAR_UPD_GROUP_LEADER leader guid =>
      upd_groups (alter (fun r => mkGroupRow leader (gr_lootMethod r) (gr_looterGuid r) (gr_lootThreshold r) (gr_icons r)
        (gr_groupType r) (gr_difficulty r) (gr_raiddifficulty r)) guid) t
  | CHAR_UPD_GROUP_TYPE type guid =>
      upd_groups (alter (fun r => mkGroupRow (gr_leaderGuid r) (gr_lootMethod r) (gr_looterGuid r) (gr_lootThreshold r)
        (gr_icons r) type (gr_difficulty r) (gr_raiddifficulty r)) guid) t
  | CHAR_UPD_GROUP_MEMBER_SUBGROUP subgroup member =>
      upd_members (alter (fun r => mkMemberRow (mr_guid r) (mr_flags r) subgroup (mr_roles r)) member) t
  | CHAR_UPD_GROUP_MEMBER_FLAG flags member =>
      upd_members (alter (fun r => mkMemberRow (mr_guid r) flags (mr_subgroup r) (mr_roles r)) member) t
  | CHAR_UPD_GROUP_ROLE roles member =>
      upd_members (alter (fun r => mkMemberRow (mr_guid r) (mr_flags r) (mr_subgroup r) roles) member) t
  | CHAR_UPD_GROUP_DIFFICULTY difficulty guid =>
      upd_groups (alter (fun r => mkGroupRow (gr_leaderGuid r) (gr_lootMethod r) (gr_looterGuid r) (gr_lootThreshold r)
        (gr_icons r) (gr_groupType r) difficulty (gr_raiddifficulty r)) guid) t
  | CHAR_UPD_GROUP_RAID_DIFFICULTY difficulty guid =>
      upd_groups (alter (fun r => mkGroupRow (gr_leaderGuid r) (gr_lootMethod r) (gr_looterGuid r) (gr_lootThreshold r)
        (gr_icons r) (gr_groupType r) (gr_difficulty r) difficulty) guid) t
  | CHAR_DEL_GROUP guid => upd_groups (delete guid) t
  | CHAR_DEL_GROUP_MEMBER_ALL guid => upd_members (filter (fun kr => mr_guid kr.2 <> guid)) t
  | CHAR_DEL_LFG_DATA _ => t
  end.
Definition exec_statements (l : list GroupStatement) (t : GroupTables) : GroupTables := fold_left exec_statement l t.

(** [GroupMgr::LoadGroups]: the tables are cleaned first. *)
Definition rows_of (t : GroupTables) (guid : Z) : gmap Z MemberRow := filter (fun kr => mr_guid kr.2 = guid) (db_members t).
Definition clean_groups (exists_ : Z -> bool) (t : GroupTables) : GroupTables :=
  upd_groups (fun G => filter (fun kr => (1 < size (rows_of t kr.1))%nat)
                         (filter (fun kr => exists_ (gr_leaderGuid kr.2) = true) G)) t.
Definition clean_members (exists_ : Z -> bool) (t : GroupTables) : GroupTables :=
  upd_members (fun M => filter (fun kr => exists_ kr.1 = true)
                          (filter (fun kr => is_Some (db_groups t !! mr_guid kr.2)) M)) t.

(** One group of [LoadGroups]; [rows] lists its members in the order the
    database returns them. *)
Definition load_rows (w : GroupWorld) (guid : Z) (row : GroupRow) (rows : list (Z * MemberRow)) : GP unit :=
  LoadGroupFromDB w guid row;;
  forM rows (fun kr => LoadMemberFromDB w kr.1 (mr_flags kr.2) (mr_subgroup kr.2) (mr_roles kr.2)).

(** ** Conversions *)

Definition ConvertToLFG : GP unit :=
  modify (fun g => set_type (Z.lor (Z.lor (m_groupType g) GROUPTYPE_LFG) GROUPTYPE_UNK1) g);;
  modify (set_method NEED_BEFORE_GREED);;
  persist (fun g => CHAR_UPD_GROUP_TYPE (u8 (m_groupType g)) (m_dbStoreId g)).
Definition ConvertToRaid : GP unit :=
  modify (fun g => set_type (Z.lor (m_groupType g) GROUPTYPE_RAID) g);;
  _initRaidSubGroupsCounter;;
  persist (fun g => CHAR_UPD_GROUP_TYPE (u8 (m_groupType g)) (m_dbStoreId g)).
Definition ConvertToGroup : GP unit :=
  g ← get;
  if 5 <? GetMembersCount g then mret tt
  else
    modify (set_type GROUPTYPE_NORMAL);;
    modify (set_counts None);;
    persist (fun g => CHAR_UPD_GROUP_TYPE (u8 (m_groupType g)) (m_dbStoreId g)).

(** ** Leaving *)

Definition ToggleGroupMemberFlag (flag : Z) (apply : bool) (m : MemberSlot) : MemberSlot :=
  set_flags (if apply then Z.lor (ms_flags m) flag else Z.ldiff (ms_flags m) flag) m.

Definition ChangeLeader (w : GroupWorld) (newLeaderGuid : Z) : GP unit :=
  g ← get;
  match _getMemberSlot g newLeaderGuid with
  | None => mret tt
  | Some slot =>
      if negb (gw_online w newLeaderGuid) then mret tt
      else
        persist (fun g => CHAR_UPD_GROUP_LEADER newLeaderGuid (m_dbStoreId g));;
        modify (set_leader newLeaderGuid);;
        upd_slot_at (ToggleGroupMemberFlag MEMBER_FLAG_ASSISTANT false) slot
  end.

Definition RemoveInvite (guid : Z) : GP unit := modify (fun g => set_invitees (m_invitees g ∖ {[ guid ]}) g).
Definition RemoveAllInvites : GP unit := modify (set_invitees ∅).
(** The player has no invitation and no group of his own. *)
Definition AddInvite (guid : Z) (free : bool) : GP bool :=
  if negb free then mret false
  else RemoveInvite guid;; modify (fun g => set_invitees ({[ guid ]} ∪ m_invitees g) g);; mret true.
Definition AddLeaderInvite (guid : Z) (free : bool) : GP bool :=
  AddInvite guid free ≫= (fun added : bool => if added then modify (set_leader guid);; mret true else mret false).

Definition unlink (guid : Z) : GP unit := modify (fun g => set_mgr (filter (fun x => x <> guid) (m_memberMgr g)) g).

Definition Disband (w : GroupWorld) : GP unit :=
  g ← get;
  forM (m_memberSlots g) (fun m => if gw_online w (ms_guid m) then unlink (ms_guid m) else mret tt);;
  modify (fun g => set_group_rolls (set_rolls [] (g_rolls g)) g);;
  modify (set_slots []);;
  RemoveAllInvites;;
  persist (fun g => CHAR_DEL_GROUP (m_dbStoreId g));;
  persist (fun g => CHAR_DEL_GROUP_MEMBER_ALL (m_dbStoreId g));;
  persist (fun g => CHAR_DEL_LFG_DATA (m_dbStoreId g));;
  modify (set_deleted true).

(** The slot of a member that leaves. *)
Definition erase_slot (guid : Z) : GP unit :=
  g ← get;
  match _getMemberSlot g guid with
  | None => mret tt
  | Some i =>
      match m_memberSlots g !! i with
      | None => mret tt
      | Some m => SubGroupCounterDecrease (ms_group m);; modify (fun g => set_slots (delete i (m_memberSlots g)) g)
      end
  end.

(** The first member online takes over from a leader that left. *)
Definition pick_leader (w : GroupWorld) (guid : Z) : GP unit :=
  g ← get;
  if negb (m_leaderGuid g =? guid) then mret tt
  else match list_find (fun m => gw_online w (ms_guid m) = true) (m_memberSlots g) with
       | Some (_, m) => ChangeLeader w (ms_guid m)
       | None => mret tt
       end.

Definition lfg_alone (w : GroupWorld) (g : Group) : bool :=
  isLFGGroup g && (GetMembersCount g =? 1) &&
  ((gw_lfg_map w =? 0) || negb (gw_online w (m_leaderGuid g)) ||
   (gw_alive w (m_leaderGuid g) && negb (gw_map w (m_leaderGuid g) =? gw_lfg_map w))).

Definition is_kick (m : RemoveMethod) : bool := match m with GROUP_REMOVEMETHOD_KICK => true | _ => false end.

Definition RemoveMember (w : GroupWorld) (guid : Z) (method : RemoveMethod) : GP bool :=
  g ← get;
  if isLFGGroup g && is_kick method then mret (negb (GetMembersCount g =? 0))
  else if (if transient g || isLFGGroup g then 1 else 2) <? GetMembersCount g then
    (if gw_online w guid then unlink guid else mret tt);;
    persist (fun _ => CHAR_DEL_GROUP_MEMBER guid);;
    (if transient g then mret tt else unlink guid);;
    (if gw_online w guid && (gw_enchanting w guid =? 0) then mret tt else ResetMaxEnchantingLevel w);;
    lift_rolls (leave_rolls (gw_rolls w) guid);;
    erase_slot guid;;
    pick_leader w guid;;
    g ← get;
    if lfg_alone w g then Disband w;; mret false
    else
      (if len (m_memberMgr g) <? (if isLFGGroup g || m_bgGroup g then 1 else 2) then Disband w else mret tt);;
      mret true
  else Disband w;; mret false.

(** ** Arranging *)

(** Dead code: it would count the member twice. *)
Definition _setMembersGroup (guid group : Z) : GP bool :=
  g ← get;
  match _getMemberSlot g guid with
  | None => mret false
  | Some i =>
      upd_slot_at (set_group group) i;; SubGroupCounterIncrease group;;
      persist (fun _ => CHAR_UPD_GROUP_MEMBER_SUBGROUP group guid);; mret true
  end.

Definition ChangeMembersGroup (guid group : Z) : GP unit :=
  g ← get;
  if negb (isRaidGroup g) then mret tt
  else match _getMemberSlot g guid with
       | None => mret tt
       | Some i =>
           let prevSubGroup := GetMemberGroup g guid in
           if prevSubGroup =? group then mret tt
           else
             upd_slot_at (set_group group) i;;
             SubGroupCounterIncrease group;;
             SubGroupCounterDecrease prevSubGroup;;
             persist (fun _ => CHAR_UPD_GROUP_MEMBER_SUBGROUP group guid)
       end.

Definition RemoveUniqueGroupMemberFlag (flag : Z) : GP unit :=
  modify (fun g => set_slots ((fun m => if Z.land (ms_flags m) flag =? 0 then m else set_flags (Z.ldiff (ms_flags m) flag) m)
    <$> m_memberSlots g) g).

Definition SetGroupMemberFlag (guid : Z) (apply : bool) (flag : Z) : GP unit :=
  g ← get;
  if negb (isRaidGroup g) then mret tt
  else match _getMemberSlot g guid with
       | None => mret tt
       | Some i =>
           if (flag =? MEMBER_FLAG_MAINASSIST) || (flag =? MEMBER_FLAG_MAINTANK) || (flag =? MEMBER_FLAG_ASSISTANT) then
             (if flag =? MEMBER_FLAG_ASSISTANT then mret tt else RemoveUniqueGroupMemberFlag flag);;
             upd_slot_at (ToggleGroupMemberFlag flag apply) i;;
             g ← get;
             match m_memberSlots g !! i with
             | Some m => execute (CHAR_UPD_GROUP_MEMBER_FLAG (ms_flags m) guid)
             | None => mret tt
             end
           else mret tt
       end.

Definition upd_member (guid : Z) (f : MemberSlot -> MemberSlot) : GP unit :=
  g ← get; match _getMemberSlot g guid with Some i => upd_slot_at f i | None => mret tt end.
Definition SetLfgRoles (guid roles : Z) : GP unit := upd_member guid (set_roles (u8 roles)).
Definition SetMemberRole (guid role : Z) : GP unit :=
  g ← get;
  match _getMemberSlot g guid with
  | Some i => upd_slot_at (set_roles (u8 role)) i;; execute (CHAR_UPD_GROUP_ROLE (u8 role) guid)
  | None => mret tt
  end.

Definition SetTargetIcon (id targetGuid : Z) : GP unit :=
  if TARGETICONCOUNT <=? id then mret tt
  else
    modify (fun g => if targetGuid =? 0 then g
                     else set_icons ((fun t => if t =? targetGuid then 0 else t) <$> m_targetIcons g) g);;
    modify (fun g => set_icons (<[Z.to_nat id := targetGuid]> (m_targetIcons g)) g).

Definition SetLootMethod (method : Z) : GP unit := modify (set_method method).
Definition SetLooterGuid (guid : Z) : GP unit := modify (set_looter guid).
Definition SetLootThreshold (threshold : Z) : GP unit := modify (set_threshold threshold).
Definition SetDungeonDifficulty (difficulty : Z) : GP unit :=
  modify (set_dungeon difficulty);;
  persist (fun g => CHAR_UPD_GROUP_DIFFICULTY (u8 (m_dungeonDifficulty g)) (m_dbStoreId g)).
Definition SetRaidDifficulty (difficulty : Z) : GP unit :=
  modify (set_raid difficulty);;
  persist (fun g => CHAR_UPD_GROUP_RAID_DIFFICULTY (u8 (m_raidDifficulty g)) (m_dbStoreId g)).

(** The next member in turn, from [start] around, that is near. *)
Definition next_looter (w : GroupWorld) (slots : list MemberSlot) (start : nat) : option Z :=
  let near m := gw_online w (ms_guid m) && gw_near w (ms_guid m) = true in
  match list_find near (drop start slots) with
  | Some (_, m) => Some (ms_guid m)
  | None => (fun p => ms_guid p.2) <$> list_find near (take start slots)
  end.
Definition UpdateLooterGuid (w : GroupWorld) (ifneed : bool) : GP unit :=
  g ← get;
  if (m_lootMethod g =? MASTER_LOOT) || (m_lootMethod g =? FREE_FOR_ALL) then mret tt
  else
    let old := m_looterGuid g in
    let at_ := _getMemberSlot g old in
    if ifneed && bool_decide (is_Some at_) && gw_online w old && gw_near w old then mret tt
    else
      match next_looter w (m_memberSlots g) (from_option S (length (m_memberSlots g)) at_) with
      | Some guid => if old =? guid then mret tt else SetLooterGuid guid
      | None => SetLooterGuid 0
      end.

(** ** Ready checks *)

Definition ReadyCheck (state : bool) : GP unit := modify (set_ready_check state).
Definition ReadyCheckMemberHasResponded (guid : Z) : GP unit := upd_member guid (set_responded (Some true)).
Definition ReadyCheckResetResponded : GP unit :=
  modify (fun g => set_slots (set_responded (Some false) <$> m_memberSlots g) g).
Fixpoint all_responded (slots : list MemberSlot) : GP bool :=
  match slots with
  | [] => mret true
  | m :: slots' => match ms_responded m with
                   | None => throw Uninitialised
                   | Some true => all_responded slots'
                   | Some false => mret false
                   end
  end.
Definition ReadyCheckAllResponded : GP bool := g ← get; all_responded (m_memberSlots g).
(** [OfflineReadyCheck] answers for the members that are offline. *)
Definition OfflineReadyCheck (w : GroupWorld) : GP unit :=
  g ← get;
  forM (m_memberSlots g) (fun m =>
    if gw_online w (ms_guid m) then mret tt else ReadyCheckMemberHasResponded (ms_guid m)).
