(* ===== verification/GroupProofs.v ===== *)
(** * Groups: the invariant and the database (model in Group.v)

    [group_ok] ties the members, their subgroups, the counters, the links to the
    players online, the leader, the marks and the rolls together; [holds] is
    what the tables hold of a group.  Both are kept by every operation. *)

From S2P Require Import Prelude.
From S2P Require Import GroupLoot.
From S2P Require Import GroupLootProofs.
From S2P Require Import Group.
From stdpp Require Import list sorting.
Local Open Scope Z_scope.
#[local] Set Warnings "-clear-no-such-hyp".

Definition no_error (e : GroupError) : Prop := False.
Abbreviation wp := (Prelude.wp no_error).

(** ** Places

    Where a member is: its guid and its subgroup. *)

Definition place (m : MemberSlot) : Z * Z := (ms_guid m, ms_group m).
Definition places (g : Group) : list (Z * Z) := place <$> m_memberSlots g.
Definition in_subgroup (ps : list (Z * Z)) (i : Z) : Z := len (filter (fun p => p.2 = i) ps).
Definition counts_of (ps : list (Z * Z)) (l : list Z) : Prop :=
  length l = 8%nat /\ forall i, 0 <= i < 8 -> l !! Z.to_nat i = Some (in_subgroup ps i).
Definition small_subgroups (ps : list (Z * Z)) : Prop := forall i, in_subgroup ps i <= 5.
Definition valid_subgroups (ps : list (Z * Z)) : Prop := Forall (fun p => 0 <= p.2 < 8) ps.

Lemma in_subgroup_app ps ps' i : in_subgroup (ps ++ ps') i = in_subgroup ps i + in_subgroup ps' i.
Proof. unfold in_subgroup. rewrite filter_app, length_app. lia. Qed.
Lemma in_subgroup_cons p ps i : in_subgroup (p :: ps) i = Z.b2z (bool_decide (p.2 = i)) + in_subgroup ps i.
Proof. unfold in_subgroup. rewrite filter_cons. case_decide; case_bool_decide; cbn [length Z.b2z]; lia. Qed.
Lemma in_subgroup_nil i : in_subgroup [] i = 0.
Proof. done. Qed.
Lemma in_subgroup_nonneg ps i : 0 <= in_subgroup ps i.
Proof. unfold in_subgroup. lia. Qed.
Lemma in_subgroup_le ps i : in_subgroup ps i <= len ps.
Proof. unfold in_subgroup. pose proof (length_filter (fun p : Z * Z => p.2 = i) ps). lia. Qed.
Lemma in_subgroup_perm ps ps' i : ps ≡ₚ ps' -> in_subgroup ps i = in_subgroup ps' i.
Proof. intros H. unfold in_subgroup. by rewrite H. Qed.

(** A raid is its eight subgroups. *)
Lemma places_sum ps : valid_subgroups ps ->
  len ps = in_subgroup ps 0 + in_subgroup ps 1 + in_subgroup ps 2 + in_subgroup ps 3 +
           in_subgroup ps 4 + in_subgroup ps 5 + in_subgroup ps 6 + in_subgroup ps 7.
Proof.
  induction 1 as [|[x i] ps Hi _ IH]; [done|]. cbn in Hi. rewrite !in_subgroup_cons. cbn [length snd].
  repeat case_bool_decide; cbn [Z.b2z]; lia.
Qed.
Lemma places_small ps : valid_subgroups ps -> small_subgroups ps -> len ps <= 40.
Proof.
  intros Hv Hs. rewrite (places_sum ps Hv). pose proof (Hs 0). pose proof (Hs 1). pose proof (Hs 2). pose proof (Hs 3).
  pose proof (Hs 4). pose proof (Hs 5). pose proof (Hs 6). pose proof (Hs 7). lia.
Qed.

(** A counter goes up and down with its subgroup. *)
Lemma bump_counts ps ps' l i delta :
  counts_of ps l -> 0 <= i < 8 -> (forall k, in_subgroup ps' k <= 255) ->
  (forall k, in_subgroup ps' k = in_subgroup ps k + Z.b2z (bool_decide (i = k)) * delta) ->
  exists l', bump delta i l = Some l' /\ counts_of ps' l'.
Proof.
  intros [Hl Hc] Hi Hm Hd. unfold bump. change MAX_RAID_SUBGROUPS with 8.
  destruct (Z.leb_spec 0 i), (Z.ltb_spec i 8); try lia. cbn. eexists; split; [done|].
  split; [by rewrite length_alter|]. intros k Hk. destruct (decide (i = k)) as [<-|Hne].
  - rewrite list_lookup_alter_eq, (Hc i Hi). cbn. f_equal. specialize (Hd i). rewrite bool_decide_eq_true_2 in Hd by done.
    cbn in Hd. pose proof (in_subgroup_nonneg ps' i). specialize (Hm i). rewrite uint_small; lia.
  - rewrite list_lookup_alter_ne by lia. rewrite (Hc k Hk). f_equal. specialize (Hd k).
    rewrite bool_decide_eq_false_2 in Hd by done. cbn in Hd. lia.
Qed.

Lemma bump_add ps l x i :
  counts_of ps l -> 0 <= i < 8 -> small_subgroups (ps ++ [(x, i)]) ->
  exists l', bump 1 i l = Some l' /\ counts_of (ps ++ [(x, i)]) l'.
Proof.
  intros Hc Hi Hs. apply (bump_counts ps); [done|done|intros k; specialize (Hs k); lia|].
  intros k. rewrite in_subgroup_app, in_subgroup_cons, in_subgroup_nil. cbn [snd]. lia.
Qed.

Lemma small_app_l ps ps' : small_subgroups (ps ++ ps') -> small_subgroups ps.
Proof. intros Hs i. specialize (Hs i). rewrite in_subgroup_app in Hs. pose proof (in_subgroup_nonneg ps' i). lia. Qed.

Lemma counts_none : counts_of [] (repeat 0 8).
Proof.
  split; [done|]. intros i Hi. assert (Z.to_nat i < 8)%nat by lia.
  change (repeat 0 8) with (replicate 8 0). by apply lookup_replicate_2.
Qed.
Lemma counts_unique ps ps' l l' : ps ≡ₚ ps' -> counts_of ps l -> counts_of ps' l' -> l = l'.
Proof.
  intros Hp [Hl Hc] [Hl' Hc']. apply list_eq. intros i. destruct (decide (i < 8)%nat) as [Hi|Hi].
  - specialize (Hc (Z.of_nat i)). specialize (Hc' (Z.of_nat i)). rewrite Nat2Z.id in *.
    rewrite Hc, Hc' by lia. by rewrite (in_subgroup_perm _ _ _ Hp).
  - rewrite !lookup_ge_None_2; [done|lia|lia].
Qed.

Lemma count_subgroups_ok slots ps l :
  counts_of ps l -> valid_subgroups (place <$> slots) -> small_subgroups (ps ++ (place <$> slots)) ->
  exists l', count_subgroups slots l = Some l' /\ counts_of (ps ++ (place <$> slots)) l'.
Proof.
  revert ps l. induction slots as [|m slots IH]; intros ps l Hc Hv Hs; cbn [count_subgroups].
  { exists l. by rewrite fmap_nil, app_nil_r. }
  rewrite fmap_cons in *. inversion_clear Hv as [|?? Hm Hv']. rewrite (cons_middle (place m)), app_assoc in *.
  destruct (bump_add ps l (ms_guid m) (ms_group m) Hc Hm (small_app_l _ _ Hs)) as (l1 & -> & Hc1). cbn [mbind option_bind].
  by apply IH.
Qed.

(** ** One slot among the others *)

Lemma slot_split {A} (l : list A) i m : l !! i = Some m ->
  exists l1 l2, l = l1 ++ m :: l2 /\ length l1 = i /\ (forall f, alter f i l = l1 ++ f m :: l2) /\ delete i l = l1 ++ l2.
Proof.
  intros Hi. exists (take i l), (drop (S i) l). pose proof (lookup_lt_Some _ _ _ Hi).
  pose proof (take_drop_middle l i m Hi) as E. assert (length (take i l) = i) as El by (rewrite length_take; lia).
  split; [done|]. split; [done|]. split.
  - intros f. rewrite <- E at 1. rewrite <- El at 1. by rewrite alter_app_r_alt, Nat.sub_diag by lia.
  - by rewrite delete_take_drop.
Qed.

Lemma _getMemberSlot_Some g x i : _getMemberSlot g x = Some i ->
  exists m, m_memberSlots g !! i = Some m /\ ms_guid m = x.
Proof.
  unfold _getMemberSlot. intros ([i' m] & (Hm & Hx & _)%list_find_Some & E)%fmap_Some. cbn in E. subst i'. by exists m.
Qed.
Lemma _getMemberSlot_None g x : _getMemberSlot g x = None -> x ∉ (places g).*1.
Proof.
  unfold _getMemberSlot, places. intros H%fmap_None. rewrite list_find_None in H. rewrite <- list_fmap_compose.
  intros (m & -> & Hm)%list_elem_of_fmap. rewrite Forall_forall in H. by apply (H m Hm).
Qed.
Lemma _getMemberSlot_member g x : x ∈ (places g).*1 -> exists i m, _getMemberSlot g x = Some i /\ m_memberSlots g !! i = Some m /\ ms_guid m = x.
Proof.
  intros Hx. destruct (_getMemberSlot g x) as [i|] eqn:E; [|by apply _getMemberSlot_None in E].
  destruct (_getMemberSlot_Some _ _ _ E) as (m & Hm & Em). eauto.
Qed.

(** ** Flags that one member has *)

Definition has_flag (flag : Z) (m : MemberSlot) : bool := negb (Z.land (ms_flags m) flag =? 0).
Definition unique_flag (flag : Z) (slots : list MemberSlot) : Prop := (length (filter (fun m => has_flag flag m = true) slots) <= 1)%nat.

Lemma unique_flag_app flag l1 l2 : unique_flag flag (l1 ++ l2) <->
  (length (filter (fun m => has_flag flag m = true) l1) + length (filter (fun m => has_flag flag m = true) l2) <= 1)%nat.
Proof. unfold unique_flag. by rewrite filter_app, length_app. Qed.
Lemma unique_flag_alter flag f i slots m : slots !! i = Some m ->
  (has_flag flag (f m) = true -> has_flag flag m = true) -> unique_flag flag slots -> unique_flag flag (alter f i slots).
Proof.
  intros Hi Hf Hu. destruct (slot_split _ _ _ Hi) as (l1 & l2 & -> & _ & Ea & _). rewrite Ea. rewrite unique_flag_app in *.
  rewrite !filter_cons in *. repeat case_decide; cbn [length] in *; naive_solver lia.
Qed.
Lemma unique_flag_delete flag i slots m : slots !! i = Some m -> unique_flag flag slots -> unique_flag flag (delete i slots).
Proof.
  intros Hi Hu. destruct (slot_split _ _ _ Hi) as (l1 & l2 & -> & _ & _ & Ed). rewrite Ed. rewrite unique_flag_app in *.
  rewrite !filter_cons in *. case_decide; cbn [length] in *; lia.
Qed.
(** A flag taken from everybody and given to one member. *)
Lemma unique_flag_given flag f i slots :
  Forall (fun m => has_flag flag m = false) slots -> unique_flag flag (alter f i slots).
Proof.
  intros Hn. assert (forall l, Forall (fun m => has_flag flag m = false) l -> filter (fun m => has_flag flag m = true) l = []) as He.
  { induction 1 as [|m l Hm _ IH]; [done|]. by rewrite filter_cons_False by congruence. }
  destruct (slots !! i) as [m|] eqn:Hi.
  - destruct (slot_split _ _ _ Hi) as (l1 & l2 & -> & _ & Ea & _). rewrite Ea, unique_flag_app.
    apply Forall_app in Hn as [H1 H2]. inversion_clear H2 as [|?? _ H3]. rewrite filter_cons, (He l1 H1).
    case_decide; cbn [length]; rewrite (He l2 H3); cbn; lia.
  - unfold unique_flag. rewrite (list_alter_ext f id slots slots i), list_alter_id, He; naive_solver.
Qed.

(** ** The invariant *)

Definition distinct_icons (icons : list Z) : Prop :=
  length icons = 8%nat /\ forall i j t, icons !! i = Some t -> icons !! j = Some t -> t <> 0 -> i = j.

Lemma distinct_zero : distinct_icons (repeat 0 8).
Proof.
  split; [done|]. intros i j t Hi _ Ht. change (repeat 0 8) with (replicate 8 0) in Hi.
  by apply lookup_replicate_1 in Hi as [-> _].
Qed.

Record group_ok (g : Group) : Prop := {
  go_nodup : NoDup (places g).*1;
  go_valid : valid_subgroups (places g);
  go_small : small_subgroups (places g);
  go_counts : match m_subGroupsCounts g with
              | Some l => isRaidGroup g = true /\ counts_of (places g) l
              | None => isRaidGroup g = false /\ len (places g) <= 5
              end;
  go_type : m_groupType g ∈ [0; 2; 3; 12; 14; 15];
  go_mgr : NoDup (m_memberMgr g);
  go_linked : m_memberMgr g ⊆ (places g).*1;
  go_tank : unique_flag MEMBER_FLAG_MAINTANK (m_memberSlots g);
  go_assist : unique_flag MEMBER_FLAG_MAINASSIST (m_memberSlots g);
  go_icons : distinct_icons (m_targetIcons g);
  go_dungeon : 0 <= m_dungeonDifficulty g < 3;
  go_raid : 0 <= m_raidDifficulty g < 6;
  go_rolls : rolls_ok (g_rolls g)
}.
Definition led (g : Group) : Prop := places g = [] \/ m_leaderGuid g ∈ (places g).*1.

(** What the tables hold of a group that is in them ([created]) or not yet. *)
Definition row_place (r : MemberRow) : Z * Z := (mr_guid r, mr_subgroup r).
Record holds (created : bool) (store leader type dungeon raid : Z) (ps : list (Z * Z)) (t : GroupTables) : Prop := {
  ho_row : if created then
             exists row, db_groups t = {[ store := row ]} /\ gr_leaderGuid row = leader /\ gr_groupType row = u8 type /\
               gr_difficulty row = u8 dungeon /\ gr_raiddifficulty row = u8 raid
           else db_groups t = ∅;
  ho_members x d i : row_place <$> db_members t !! x = Some (d, i) <-> d = store /\ (x, i) ∈ ps
}.
Definition tables (g : Group) : GroupTables := exec_statements (g_statements g) (mkGroupTables ∅ ∅).
Definition created (g : Group) : bool := match m_memberSlots g with [] => false | _ => true end.
Definition stored_as (c : bool) (g : Group) : Prop :=
  transient g = false ->
  holds c (m_dbStoreId g) (m_leaderGuid g) (m_groupType g) (m_dungeonDifficulty g) (m_raidDifficulty g) (places g) (tables g).
Definition stored (g : Group) : Prop := stored_as (created g) g.

Record live (g : Group) : Prop := {
  lv_ok : group_ok g;
  lv_led : led g;
  lv_stored : stored g;
  lv_alive : g_deleted g = false
}.
Definition kept (g : Group) : Prop := g_deleted g = true \/ live g.

(** *** Statements *)

Section Holds.
Context (c : bool) (store leader type dungeon raid : Z) (ps : list (Z * Z)) (t : GroupTables).
Hypothesis Hh : holds c store leader type dungeon raid ps t.

Ltac upd_row := destruct Hh as [Hr Hm]; constructor; [|exact Hm]; cbn; destruct c;
  [destruct Hr as (row & -> & ? & ? & ? & ?); rewrite alter_singleton_eq; eexists; split; [reflexivity|]; cbn; repeat split; done
  |rewrite Hr; apply alter_empty].

Lemma holds_leader v : holds c store v type dungeon raid ps (exec_statement t (CHAR_UPD_GROUP_LEADER v store)).
Proof using Hh. upd_row. Qed.
Lemma holds_type v : holds c store leader v dungeon raid ps (exec_statement t (CHAR_UPD_GROUP_TYPE (u8 v) store)).
Proof using Hh. upd_row. Qed.
Lemma holds_dungeon v : holds c store leader type v raid ps (exec_statement t (CHAR_UPD_GROUP_DIFFICULTY (u8 v) store)).
Proof using Hh. upd_row. Qed.
Lemma holds_raid v : holds c store leader type dungeon v ps (exec_statement t (CHAR_UPD_GROUP_RAID_DIFFICULTY (u8 v) store)).
Proof using Hh. upd_row. Qed.

(** A statement on a member that leaves his place alone. *)
Lemma holds_keep f x : (forall r, row_place (f r) = row_place r) ->
  holds c store leader type dungeon raid ps (upd_members (alter f x) t).
Proof using Hh.
  intros Hf. destruct Hh as [Hr Hm]. constructor; [done|]. intros y d i. rewrite <- Hm. cbn. rewrite lookup_alter.
  case_decide as E; [|done]. subst y. destruct (db_members t !! x) as [r|]; [|done]. cbn. by rewrite Hf.
Qed.
Lemma holds_perm ps' : (forall p, p ∈ ps' <-> p ∈ ps) -> holds c store leader type dungeon raid ps' t.
Proof using Hh. intros Hp. destruct Hh as [Hr Hm]. constructor; [done|]. intros x d i. by rewrite Hm, Hp. Qed.

Lemma holds_subgroup x k ps' :
  x ∈ ps.*1 -> (forall y i, (y, i) ∈ ps' <-> if decide (y = x) then i = k else (y, i) ∈ ps) ->
  holds c store leader type dungeon raid ps' (exec_statement t (CHAR_UPD_GROUP_MEMBER_SUBGROUP k x)).
Proof using Hh.
  intros ([y i] & -> & Hx)%list_elem_of_fmap Hp. cbn [fst] in *. destruct Hh as [Hr Hm]. constructor; [done|].
  intros z d j. rewrite Hp. cbn. rewrite lookup_alter. destruct (decide (y = z)) as [<-|Hn].
  - rewrite decide_True by done. pose proof (proj2 (Hm y store i) (conj eq_refl Hx)) as Hy.
    destruct (db_members t !! y) as [r|]; [|done]. cbn in *. injection Hy as E _. unfold row_place; cbn. rewrite E. naive_solver.
  - rewrite decide_False by congruence. by rewrite Hm.
Qed.
Lemma holds_insert x i flags roles : x ∉ ps.*1 ->
  holds c store leader type dungeon raid (ps ++ [(x, i)]) (exec_statement t (CHAR_INS_GROUP_MEMBER store x flags i roles)).
Proof using Hh.
  intros Hx. destruct Hh as [Hr Hm]. constructor; [done|]. intros y d j. rewrite elem_of_app, list_elem_of_singleton.
  assert (db_members t !! x = None) as Ex.
  { destruct (db_members t !! x) as [r|] eqn:E; [|done]. exfalso. apply Hx, list_elem_of_fmap.
    exists (x, mr_subgroup r). split; [done|]. apply (Hm x (mr_guid r)). by rewrite E. }
  cbn. unfold insert_row. rewrite Ex. destruct (decide (x = y)) as [<-|Hn].
  - rewrite lookup_insert_eq. cbn. unfold row_place; cbn.
    assert ((x, j) ∉ ps) by (intros H; apply Hx, list_elem_of_fmap; by exists (x, j)). naive_solver.
  - rewrite lookup_insert_ne by done. rewrite Hm. naive_solver.
Qed.
Lemma holds_delete x ps' : (forall y i, (y, i) ∈ ps' <-> y <> x /\ (y, i) ∈ ps) ->
  holds c store leader type dungeon raid ps' (exec_statement t (CHAR_DEL_GROUP_MEMBER x)).
Proof using Hh.
  intros Hp. destruct Hh as [Hr Hm]. constructor; [done|]. intros y d i. rewrite Hp. cbn. rewrite lookup_delete.
  case_decide as E; [naive_solver|]. rewrite Hm. naive_solver.
Qed.
End Holds.

Lemma holds_create store leader type dungeon raid t s0 l0 t0 d0 r0 row :
  holds false s0 l0 t0 d0 r0 [] t -> gr_leaderGuid row = leader -> gr_groupType row = u8 type ->
  gr_difficulty row = u8 dungeon -> gr_raiddifficulty row = u8 raid ->
  holds true store leader type dungeon raid [] (exec_statement t (CHAR_INS_GROUP store row)).
Proof.
  intros [Hr Hm] ????. constructor.
  - cbn. rewrite Hr. unfold insert_row. rewrite lookup_empty. by exists row.
  - intros x d i. cbn. split; [|by intros [_ ?%elem_of_nil]]. intros Hv. exfalso.
    destruct (db_members t !! x) as [r|] eqn:E; [|done]. specialize (Hm x (mr_guid r) (mr_subgroup r)). rewrite E in Hm.
    destruct (proj1 Hm eq_refl) as [_ Hz]. by apply elem_of_nil in Hz.
Qed.

Lemma tables_exec g st : tables (set_statements (g_statements g ++ [st]) g) = exec_statement (tables g) st.
Proof. unfold tables, exec_statements. cbn. by rewrite fold_left_app. Qed.

(** ** Framing *)

(** The fields the invariant reads. *)
Definition mem (g : Group) := (m_memberSlots g, m_memberMgr g, m_groupType g, m_subGroupsCounts g, m_targetIcons g,
  m_dungeonDifficulty g, m_raidDifficulty g, g_rolls g).
Lemma group_ok_mem g g' : mem g = mem g' -> group_ok g -> group_ok g'.
Proof.
  destruct g, g'. unfold mem; cbn. intros [= -> -> -> -> -> -> -> ->] []. by constructor.
Qed.

Definition core (g : Group) := (mem g, m_leaderGuid g, m_bgGroup g, m_bfGroup g, m_dbStoreId g, g_deleted g, g_statements g).
Lemma live_core g g' : core g = core g' -> live g -> live g'.
Proof.
  intros E [Hok L S A]. assert (mem g = mem g') as Em by (unfold core in E; congruence).
  constructor; [by apply (group_ok_mem g)|..]; destruct g, g'; unfold core, mem in E; cbn in E; by simplify_eq.
Qed.

Definition persisted (st : Group -> GroupStatement) (g : Group) : Group :=
  set_statements (if transient g then g_statements g else g_statements g ++ [st g]) g.
Lemma persist_run st g : persist st g = (Ok tt, persisted st g).
Proof.
  unfold persist. rewrite (bind_ok get _ g g g eq_refl). unfold persisted. destruct (transient g); [|done].
  by destruct g.
Qed.
Lemma wp_persist st g (Q : unit -> Group -> Prop) : Q tt (persisted st g) -> wp (persist st) g Q.
Proof. intros HQ. by apply (wp_ok no_error _ _ _ _ _ (persist_run st g)). Qed.
Lemma wp_persist_seq {B} st (k : unit -> GP B) g Q : wp (k tt) (persisted st g) Q -> wp (persist st ≫= k) g Q.
Proof. intros HQ. by apply (wp_seq no_error _ _ _ _ _ _ (persist_run st g)). Qed.

(** A state whose last statement is [st]. *)
Lemma stored_step c c' st g g' :
  stored_as c g -> transient g' = transient g ->
  g_statements g' = (if transient g then g_statements g else g_statements g ++ [st]) ->
  (forall t, holds c (m_dbStoreId g) (m_leaderGuid g) (m_groupType g) (m_dungeonDifficulty g) (m_raidDifficulty g) (places g) t ->
    holds c' (m_dbStoreId g') (m_leaderGuid g') (m_groupType g') (m_dungeonDifficulty g') (m_raidDifficulty g') (places g')
      (exec_statement t st)) ->
  stored_as c' g'.
Proof.
  intros Hs Et Es Hh Ht. rewrite Et in Ht. rewrite Ht in Es. unfold tables. rewrite Es. unfold exec_statements.
  rewrite fold_left_app. cbn. by apply Hh, Hs.
Qed.

Lemma kept_core g g' : core g = core g' -> live g -> kept g'.
Proof. intros E H. right. by apply (live_core g). Qed.
Lemma keep_modify f g : core g = core (f g) -> live g -> wp (modify f) g (fun _ => kept).
Proof. intros E H. eapply (wp_ok no_error); [reflexivity|]. by apply (kept_core g). Qed.
Lemma keep_ret {A} (a : A) g : live g -> wp (mret a) g (fun _ => kept).
Proof. intros H. apply wp_ret. by right. Qed.

(** ** Types *)

Lemma group_type_cases v : v ∈ [0; 2; 3; 12; 14; 15] -> v = 0 \/ v = 2 \/ v = 3 \/ v = 12 \/ v = 14 \/ v = 15.
Proof. rewrite !elem_of_cons, elem_of_nil. tauto. Qed.

Lemma ConvertToLFG_ok g : live g -> wp ConvertToLFG g (fun _ => kept).
Proof.
  intros [Hok L S A]. unfold ConvertToLFG. apply wp_modify, wp_modify, wp_persist. right. constructor; [|done| |done].
  - apply (group_ok_mem (set_type (Z.lor (Z.lor (m_groupType g) GROUPTYPE_LFG) GROUPTYPE_UNK1) g)); [done|].
    assert (isRaidGroup (set_type (Z.lor (Z.lor (m_groupType g) GROUPTYPE_LFG) GROUPTYPE_UNK1) g) = isRaidGroup g) as Er.
    { unfold isRaidGroup. cbn. destruct (group_type_cases _ (go_type _ Hok)) as [->|[->|[->|[->|[->| ->]]]]]; done. }
    destruct Hok as [nd va sm co ty]. constructor; try done; [by rewrite Er|]. cbn.
    destruct (group_type_cases _ ty) as [->|[->|[->|[->|[->| ->]]]]]; cbn; set_solver.
  - eapply (stored_step _ _ _ g); [exact S|done|reflexivity|]. intros t Ht. by eapply holds_type.
Qed.

Lemma init_counters_run g :
  valid_subgroups (places g) -> small_subgroups (places g) ->
  exists l, _initRaidSubGroupsCounter g = (Ok tt, set_counts (Some l) g) /\ counts_of (places g) l.
Proof.
  intros Hv Hs. unfold _initRaidSubGroupsCounter. rewrite (bind_ok get _ g g g eq_refl).
  destruct (count_subgroups_ok (m_memberSlots g) [] (repeat 0 8) counts_none Hv Hs) as (l & -> & Hl).
  by exists l.
Qed.

Lemma ConvertToRaid_ok g : live g -> wp ConvertToRaid g (fun _ => kept).
Proof.
  intros [Hok L S A]. unfold ConvertToRaid. apply wp_modify.
  set (g1 := set_type (Z.lor (m_groupType g) GROUPTYPE_RAID) g).
  destruct (init_counters_run g1 (go_valid _ Hok) (go_small _ Hok)) as (l & Er & Hl).
  apply (wp_seq no_error _ _ _ _ _ _ Er), wp_persist. right. constructor; [|done| |done].
  - apply (group_ok_mem (set_counts (Some l) g1)); [done|]. destruct Hok as [nd va sm co ty]. constructor; try done.
    + cbn. split; [|exact Hl]. unfold isRaidGroup. cbn.
      destruct (group_type_cases _ ty) as [->|[->|[->|[->|[->| ->]]]]]; done.
    + cbn. destruct (group_type_cases _ ty) as [->|[->|[->|[->|[->| ->]]]]]; cbn; set_solver.
  - eapply (stored_step _ _ _ g); [exact S|done|reflexivity|]. intros t Ht. by eapply holds_type.
Qed.

Lemma len_places g : len (places g) = GetMembersCount g.
Proof. unfold places, GetMembersCount. by rewrite length_fmap. Qed.

Lemma ConvertToGroup_ok g : live g -> wp ConvertToGroup g (fun _ => kept).
Proof.
  intros Hg. pose proof Hg as [Hok L S A]. unfold ConvertToGroup. apply wp_get.
  destruct (Z.ltb_spec 5 (GetMembersCount g)); [by apply keep_ret|].
  apply wp_modify, wp_modify, wp_persist. right. constructor; [|done| |done].
  - apply (group_ok_mem (set_counts None (set_type GROUPTYPE_NORMAL g))); [done|]. destruct Hok as [nd va sm co ty].
    constructor; try done; cbn; [|set_solver]. split; [done|]. change (len (places g) <= 5). by rewrite len_places.
  - eapply (stored_step _ _ _ g); [exact S|done|reflexivity|]. intros t Ht. by eapply holds_type.
Qed.

(** ** Joining *)

Definition counted (ps : list (Z * Z)) (o : option (list Z)) : Prop :=
  match o with Some l => counts_of ps l | None => True end.

Lemma SubGroupCounter_run delta i ps ps' g :
  counted ps (m_subGroupsCounts g) -> 0 <= i < 8 -> (forall k, in_subgroup ps' k <= 255) ->
  (forall k, in_subgroup ps' k = in_subgroup ps k + Z.b2z (bool_decide (i = k)) * delta) ->
  exists v, SubGroupCounter delta i g = (Ok tt, set_counts v g) /\ counted ps' v /\ (v = None <-> m_subGroupsCounts g = None).
Proof.
  intros Hc Hi Hm Hd. unfold SubGroupCounter. rewrite (bind_ok get _ g g g eq_refl).
  destruct (m_subGroupsCounts g) as [l|] eqn:E.
  - destruct (bump_counts ps ps' l i delta Hc Hi Hm Hd) as (l' & -> & Hl'). by exists (Some l').
  - exists None. split; [|done]. rewrite <- E. by destruct g.
Qed.

Lemma go_counted g : group_ok g -> counted (places g) (m_subGroupsCounts g).
Proof. intros Hok. pose proof (go_counts _ Hok) as H. unfold counted. destruct (m_subGroupsCounts g); [apply H|done]. Qed.

(** The counters go with the kind of group. *)
Lemma go_raid_counts g : group_ok g -> m_subGroupsCounts g = None <-> isRaidGroup g = false.
Proof. intros Hok. pose proof (go_counts _ Hok) as H. destruct (m_subGroupsCounts g), (isRaidGroup g); naive_solver. Qed.

Lemma go_counts_intro g : counted (places g) (m_subGroupsCounts g) ->
  (m_subGroupsCounts g = None <-> isRaidGroup g = false) -> (isRaidGroup g = false -> len (places g) <= 5) ->
  match m_subGroupsCounts g with
  | Some l => isRaidGroup g = true /\ counts_of (places g) l
  | None => isRaidGroup g = false /\ len (places g) <= 5
  end.
Proof. intros Hc Hr Hl. destruct (m_subGroupsCounts g), (isRaidGroup g); naive_solver. Qed.

Definition new_member (guid : Z) (i : nat) : MemberSlot := mkMemberSlot guid (Z.of_nat i) 0 0 None.

Lemma unique_flag_new flag slots guid i : unique_flag flag slots -> unique_flag flag (slots ++ [new_member guid i]).
Proof.
  rewrite unique_flag_app, filter_cons. unfold has_flag at 3. cbn. rewrite decide_False by done. cbn. unfold unique_flag. lia.
Qed.

Lemma group_ok_added g g' guid i :
  group_ok g -> guid ∉ (places g).*1 -> (i < 8)%nat -> small_subgroups (places g ++ [(guid, Z.of_nat i)]) ->
  (isRaidGroup g = false -> len (places g) < 5) ->
  m_memberSlots g' = m_memberSlots g ++ [new_member guid i] -> m_memberMgr g' = guid :: m_memberMgr g ->
  m_groupType g' = m_groupType g -> counted (places g') (m_subGroupsCounts g') ->
  (m_subGroupsCounts g' = None <-> m_subGroupsCounts g = None) ->
  (m_targetIcons g' = m_targetIcons g \/ m_targetIcons g' = repeat 0 8) ->
  m_dungeonDifficulty g' = m_dungeonDifficulty g -> m_raidDifficulty g' = m_raidDifficulty g -> g_rolls g' = g_rolls g ->
  group_ok g'.
Proof.
  intros Hok Hx Hi Hs Hr Es Em Et Hc Hn Eic Ed1 Ed2 Ero.
  assert (places g' = places g ++ [(guid, Z.of_nat i)]) as Ep by (unfold places; by rewrite Es, fmap_app).
  assert (isRaidGroup g' = isRaidGroup g) as Er by (unfold isRaidGroup; by rewrite Et).
  pose proof (go_raid_counts _ Hok) as Hrc.
  destruct Hok as [nd va sm co ty mg li ta asi ic du ra ro].
  constructor; rewrite ?Es, ?Em, ?Et, ?Ed1, ?Ed2, ?Ero; try done.
  - rewrite Ep, fmap_app. apply NoDup_app. split; [done|]. split; [|apply NoDup_singleton].
    intros y Hy ->%list_elem_of_singleton. done.
  - rewrite Ep. apply Forall_app. split; [done|]. apply Forall_singleton. cbn. lia.
  - by rewrite Ep.
  - apply go_counts_intro; [done|by rewrite Hn, Er|]. rewrite Er, Ep, length_app. intros H. specialize (Hr H). cbn. lia.
  - apply NoDup_cons. split; [|done]. intros H. by apply Hx, li.
  - rewrite Ep, fmap_app. intros y [->|Hy]%elem_of_cons; apply elem_of_app; [right; by left|left; by apply li].
  - by apply unique_flag_new.
  - by apply unique_flag_new.
  - destruct Eic as [->| ->]; [done|]. exact distinct_zero.
Qed.

Lemma first_free_subgroup g l :
  group_ok g -> m_subGroupsCounts g = Some l ->
  match fst <$> list_find (fun c => c < MAXGROUPSIZE) l with
  | Some i => (i < 8)%nat /\ in_subgroup (places g) (Z.of_nat i) < 5
  | None => places g <> []
  end.
Proof.
  intros Hok El. pose proof (go_counted _ Hok) as Hc. rewrite El in Hc. destruct Hc as [Hl Hc].
  destruct (list_find _ l) as [[i c]|] eqn:E; cbn.
  - apply list_find_Some in E as (Hi & Hlt & _). pose proof (lookup_lt_Some _ _ _ Hi).
    split; [lia|]. specialize (Hc (Z.of_nat i)). rewrite Nat2Z.id, Hi in Hc. injection (Hc ltac:(lia)) as ->. exact Hlt.
  - intros E0. rewrite E0 in Hc. rewrite list_find_None in E. rewrite Forall_lookup in E.
    by apply (E 0%nat 0 (Hc 0 ltac:(lia))).
Qed.

Lemma small_added ps x i : small_subgroups ps -> in_subgroup ps i < 5 -> small_subgroups (ps ++ [(x, i)]).
Proof.
  intros Hs Hi k. rewrite in_subgroup_app, in_subgroup_cons, in_subgroup_nil. cbn [snd]. specialize (Hs k).
  case_bool_decide; subst; cbn [Z.b2z]; lia.
Qed.

Lemma add_slot_run w guid g i :
  group_ok g -> guid ∉ (places g).*1 -> (i < 8)%nat -> in_subgroup (places g) (Z.of_nat i) < 5 ->
  (isRaidGroup g = false -> len (places g) < 5) -> (places g = [] -> m_leaderGuid g = guid) -> led g ->
  stored_as true g -> g_deleted g = false ->
  wp (modify (fun g => set_slots (m_memberSlots g ++ [new_member guid i]) g);;
      SubGroupCounterIncrease (Z.of_nat i);;
      LinkMember guid;;
      g ← get;
      (if isRaidGroup g then mret tt else modify (set_icons (repeat 0 8)));;
      persist (fun g => CHAR_INS_GROUP_MEMBER (m_dbStoreId g) guid 0 (Z.of_nat i) 0);;
      modify (fun g => if m_maxEnchantingLevel g <? gw_enchanting w guid then set_enchanting (gw_enchanting w guid) g else g);;
      mret true) g (fun a g' => a = true /\ live g').
Proof.
  intros Hok Hx Hi Hlt Hr Hl L S A. pose proof (small_added _ guid _ (go_small _ Hok) Hlt) as Hs.
  apply wp_modify.
  destruct (SubGroupCounter_run 1 (Z.of_nat i) (places g) (places g ++ [(guid, Z.of_nat i)])
              (set_slots (m_memberSlots g ++ [new_member guid i]) g)) as (v & Er & Hv & Hn).
  { exact (go_counted _ Hok). }
  { lia. }
  { intros k. specialize (Hs k). lia. }
  { intros k. rewrite in_subgroup_app, in_subgroup_cons, in_subgroup_nil. cbn [snd]. lia. }
  apply (wp_seq no_error _ _ _ _ _ _ Er). unfold LinkMember. apply wp_modify, wp_get.
  set (g2 := set_mgr _ _). set (g3 := if isRaidGroup g2 then g2 else set_icons (repeat 0 8) g2).
  assert ((if isRaidGroup g2 then mret tt else modify (set_icons (repeat 0 8))) g2 = (Ok tt : res GroupError unit, g3)) as E3
    by (unfold g3; by destruct (isRaidGroup g2)).
  apply (wp_seq no_error _ _ _ _ _ _ E3), wp_persist_seq, wp_modify, wp_ret. split; [done|].
  set (g4 := if m_maxEnchantingLevel _ <? _ then _ else _).
  assert (core g4 = core (persisted (fun g => CHAR_INS_GROUP_MEMBER (m_dbStoreId g) guid 0 (Z.of_nat i) 0) g3)) as E4
    by (unfold g4; by destruct (_ <? _)).
  assert (places g3 = places g ++ [(guid, Z.of_nat i)]) as Ep.
  { unfold places, g3. assert (m_memberSlots (if isRaidGroup g2 then g2 else set_icons (repeat 0 8) g2) = m_memberSlots g ++ [new_member guid i])
      as -> by (by destruct (isRaidGroup g2)). by rewrite fmap_app. }
  symmetry in E4. apply (live_core _ _ E4). constructor.
  - apply (group_ok_added g _ guid i); try done; unfold persisted, g3; destruct (isRaidGroup g2); cbn; try done; try (by left); try (by right);
      unfold places; cbn; by rewrite fmap_app.
  - right. change (m_leaderGuid g3 ∈ (places g3).*1). rewrite Ep, fmap_app. apply elem_of_app.
    assert (m_leaderGuid g3 = m_leaderGuid g) as -> by (unfold g3; by destruct (isRaidGroup g2)).
    destruct L as [L|L]; [right; apply list_elem_of_singleton; by apply Hl|by left].
  - assert (created (persisted (fun g => CHAR_INS_GROUP_MEMBER (m_dbStoreId g) guid 0 (Z.of_nat i) 0) g3) = true) as Ec.
    { unfold created, persisted. cbn. unfold g3; destruct (isRaidGroup g2); cbn; by destruct (m_memberSlots g). }
    unfold stored. rewrite Ec.
    eapply (stored_step true true (CHAR_INS_GROUP_MEMBER (m_dbStoreId g) guid 0 (Z.of_nat i) 0) g); [exact S|..].
    + unfold g3. by destruct (isRaidGroup g2).
    + unfold g3. by destruct (isRaidGroup g2).
    + intros t Ht. unfold persisted. change (places (set_statements ?x g3)) with (places g3). rewrite Ep.
      unfold g3; destruct (isRaidGroup g2); cbn; by eapply holds_insert.
  - unfold g3; by destruct (isRaidGroup g2).
Qed.

Lemma AddMember_run w guid g :
  group_ok g -> guid ∉ (places g).*1 -> (isRaidGroup g = false -> len (places g) < 5) ->
  (places g = [] -> m_leaderGuid g = guid) -> led g -> stored_as true g -> g_deleted g = false ->
  wp (AddMember w guid) g (fun a g' => if a then live g' else g' = g /\ places g <> []).
Proof.
  intros Hok Hx Hr Hl L S A. unfold AddMember. apply wp_get.
  destruct (m_subGroupsCounts g) as [l|] eqn:El.
  - pose proof (first_free_subgroup g l Hok El) as Hf. destruct (fst <$> list_find _ l) as [i|].
    + destruct Hf as [Hi Hlt]. eapply wp_mono; [by apply (add_slot_run w guid g i)|]. by intros a g' [-> ?].
    + by apply wp_ret.
  - assert (isRaidGroup g = false) as Er by (by apply go_raid_counts).
    eapply wp_mono; [apply (add_slot_run w guid g 0); try done; [lia|]|].
    + specialize (Hr Er). pose proof (in_subgroup_le (places g) (Z.of_nat 0)). lia.
    + by intros a g' [-> ?].
Qed.

(** ** Creating *)

Lemma group_ok_empty g g' :
  group_ok g -> m_memberSlots g = [] -> m_memberSlots g' = [] -> m_memberMgr g' = m_memberMgr g ->
  m_groupType g' ∈ [0; 2; 3; 12; 14; 15] ->
  match m_subGroupsCounts g' with Some l => isRaidGroup g' = true /\ counts_of [] l | None => isRaidGroup g' = false end ->
  m_targetIcons g' = m_targetIcons g -> 0 <= m_dungeonDifficulty g' < 3 -> 0 <= m_raidDifficulty g' < 6 ->
  g_rolls g' = g_rolls g -> group_ok g'.
Proof.
  intros Hok E0 E1 Em Ht Hc Eic Hd Hr Ero.
  assert (places g = []) as P0 by (unfold places; by rewrite E0). assert (places g' = []) as P1 by (unfold places; by rewrite E1).
  destruct Hok as [nd va sm co ty mg li ta asi ic du ra ro].
  constructor; rewrite ?P1, ?E1, ?Em, ?Eic, ?Ero; try done.
  - constructor.
  - constructor.
  - destruct (m_subGroupsCounts g'); [done|]. by split.
  - by rewrite P0 in li.
  - unfold unique_flag. cbn. lia.
  - unfold unique_flag. cbn. lia.
Qed.

Lemma create_counters g :
  places g = [] -> (isRaidGroup g = false -> m_subGroupsCounts g = None) ->
  wp (if isRaidGroup g then _initRaidSubGroupsCounter else mret tt) g (fun _ g' => exists v, g' = set_counts v g /\
    match v with Some l => isRaidGroup g = true /\ counts_of [] l | None => isRaidGroup g = false end).
Proof.
  intros Ep Hc. destruct (isRaidGroup g) eqn:Er.
  - destruct (init_counters_run g) as (l & El & Hl); [rewrite Ep; constructor|by rewrite Ep|].
    apply (wp_ok no_error _ _ _ _ _ El). exists (Some l). by rewrite Ep in Hl.
  - apply wp_ret. exists None. split; [|done]. rewrite <- Hc by done. by destruct g.
Qed.

Definition group_world_ok (w : GroupWorld) (g : Group) : Prop :=
  (forall x, x ∈ m_memberMgr g -> gw_online w x = true) /\ items_known (gw_rolls w).

Lemma places_nil g : places g = [] -> m_memberSlots g = [].
Proof. unfold places. by intros ?%fmap_nil_inv. Qed.

(** The group as [Create] leaves it before the leader joins. *)
Lemma prepared_joins w leader g g' v :
  live g -> places g = [] -> m_memberSlots g' = [] -> m_memberMgr g' = m_memberMgr g -> m_leaderGuid g' = leader ->
  m_groupType g' ∈ [0; 2; 3; 12; 14; 15] -> m_subGroupsCounts g' = v ->
  match v with Some l => isRaidGroup g' = true /\ counts_of [] l | None => isRaidGroup g' = false end ->
  m_targetIcons g' = m_targetIcons g -> 0 <= m_dungeonDifficulty g' < 3 -> 0 <= m_raidDifficulty g' < 6 ->
  g_rolls g' = g_rolls g -> g_deleted g' = g_deleted g -> stored_as true g' ->
  wp (AddMember w leader) g' (fun a g'' => a = true /\ live g'').
Proof.
  intros Hg Ep E1 Em El Ht Ev Hc Eic Hd Hr Ero Ede S. assert (places g' = []) as Ep' by (unfold places; by rewrite E1).
  eapply wp_mono; [apply AddMember_run; rewrite ?Ep'; try done|].
  - apply (group_ok_empty g); try done; [apply Hg|by apply places_nil|by rewrite Ev].
  - by apply not_elem_of_nil.
  - by left.
  - rewrite Ede. apply Hg.
  - intros [] g''; [done|]. by intros [_ []].
Qed.

Lemma Create_ok w leader g :
  live g -> places g = [] -> 0 <= gw_difficulty w leader < 3 -> 0 <= gw_raid_difficulty w leader < 6 ->
  wp (Create w leader) g (fun _ => kept).
Proof.
  intros Hg Ep Hd Hr. pose proof Hg as [Hok L S A]. pose proof (places_nil _ Ep) as Es.
  unfold Create. apply wp_modify, wp_get. change (transient (set_leader leader g)) with (transient g).
  set (g1 := if transient g then set_type GROUPTYPE_BGRAID (set_leader leader g) else set_leader leader g).
  apply (wp_seq no_error _ _ _ tt g1); [by unfold g1; destruct (transient g)|]. apply wp_get.
  assert (m_memberSlots g1 = []) as E1 by (unfold g1; by destruct (transient g)).
  assert (places g1 = []) as Ep1 by (unfold places; by rewrite E1).
  assert (m_groupType g1 ∈ [0; 2; 3; 12; 14; 15]) as Ht1.
  { unfold g1. destruct (transient g); [cbn; set_solver|]. apply Hok. }
  apply wp_bind. eapply wp_mono; [apply create_counters; [done|]|].
  { unfold g1. destruct (transient g); [done|]. intros Er. by apply (go_raid_counts _ Hok). }
  intros [] g2 (v & -> & Hv).
  set (g3 := set_counts v g1).
  apply (wp_seq no_error _ _ _ tt (if isLFGGroup g1 then g3 else set_method GROUP_LOOT g3)); [by destruct (isLFGGroup g1)|].
  set (g4 := if isLFGGroup g1 then g3 else set_method GROUP_LOOT g3). do 4 apply wp_modify.
  assert (m_memberSlots g4 = [] /\ m_memberMgr g4 = m_memberMgr g /\ m_leaderGuid g4 = leader /\
    m_groupType g4 = m_groupType g1 /\ m_subGroupsCounts g4 = v /\ m_targetIcons g4 = m_targetIcons g /\
    g_rolls g4 = g_rolls g /\ g_deleted g4 = g_deleted g /\ g_statements g4 = g_statements g /\
    transient g4 = transient g /\ transient g1 = transient g) as (F1 & F2 & F3 & F4 & F5 & F6 & F7 & F8 & F9 & F10 & F11).
  { unfold g4, g3. destruct (isLFGGroup g1); unfold g1; destruct (transient g) eqn:Etr; repeat split; first [done|exact Etr]. }
  clearbody g4. rewrite F11.
  assert (isRaidGroup g4 = isRaidGroup g1) as Er4 by (unfold isRaidGroup; by rewrite F4).
  rewrite <- F4 in Ht1. rewrite <- Er4 in Hv. clear g3 Er4.
  destruct (transient g) eqn:Etr.
  - eapply wp_mono; [eapply (prepared_joins w leader g _ v); try done|].
    + intros H. change (transient g4 = false) in H. congruence.
    + intros a g'' [_ ?]. by right.
  - do 3 apply wp_modify. apply wp_get, wp_modify, wp_bind.
    eapply wp_mono; [eapply (prepared_joins w leader g _ v); try done|].
    + intros _. unfold tables. cbn. rewrite F9. unfold exec_statements. rewrite fold_left_app. cbn.
      assert (created g = false) as Ec by (unfold created; by rewrite Es).
      specialize (S Etr). rewrite Ec, Ep in S.
      match goal with |- holds _ _ _ _ _ _ ?ps _ => replace ps with (@nil (Z * Z)) by (unfold places; cbn; by rewrite F1) end.
      eapply holds_create; [exact S|done..].
    + intros a g'' [-> ?]. apply wp_ret. by right.
Qed.

(** ** Changing a slot *)

Lemma created_places g : created g = match places g with [] => false | _ => true end.
Proof. unfold created, places. by destruct (m_memberSlots g). Qed.

Lemma group_ok_slots g slots :
  group_ok g -> place <$> slots = places g -> unique_flag MEMBER_FLAG_MAINTANK slots -> unique_flag MEMBER_FLAG_MAINASSIST slots ->
  group_ok (set_slots slots g).
Proof.
  intros [nd va sm co ty mg li ta asi ic du ra ro] Ep H1 H2.
  assert (places (set_slots slots g) = places g) as E by exact Ep.
  constructor; rewrite ?E; done.
Qed.

Lemma live_slots g slots :
  live g -> place <$> slots = places g -> unique_flag MEMBER_FLAG_MAINTANK slots -> unique_flag MEMBER_FLAG_MAINASSIST slots ->
  live (set_slots slots g).
Proof.
  intros [Hok L S A] Ep H1 H2. assert (places (set_slots slots g) = places g) as E by exact Ep. constructor; [|..|done].
  - by apply group_ok_slots.
  - unfold led. by rewrite E.
  - unfold stored, stored_as in *. by rewrite created_places, E, <- created_places.
Qed.

(** A statement about a member that does not move him. *)
Lemma live_statement g st f x :
  live g -> (forall t, exec_statement t st = upd_members (alter f x) t) -> (forall r, row_place (f r) = row_place r) ->
  live (set_statements (g_statements g ++ [st]) g).
Proof.
  intros [Hok L S A] He Hf. constructor; [|done| |done]; [by apply (group_ok_mem g)|].
  intros Ht. rewrite tables_exec, He. apply holds_keep; [by apply S|done].
Qed.

Lemma places_alter (slots : list MemberSlot) (i : nat) m f : slots !! i = Some m -> place (f m) = place m -> place <$> alter f i slots = place <$> slots.
Proof.
  intros Hi Hf. destruct (slot_split _ _ _ Hi) as (l1 & l2 & -> & _ & Ea & _). by rewrite Ea, !fmap_app, !fmap_cons, Hf.
Qed.

(** The slot of a member is changed in place, without a new main tank or assistant. *)
Lemma live_alter g i m f :
  live g -> m_memberSlots g !! i = Some m -> place (f m) = place m ->
  (forall flag, has_flag flag (f m) = true -> flag = MEMBER_FLAG_MAINTANK \/ flag = MEMBER_FLAG_MAINASSIST -> has_flag flag m = true) ->
  live (set_slots (alter f i (m_memberSlots g)) g).
Proof.
  intros Hg Hi Hp Hf. apply live_slots; [done|by apply (places_alter _ _ m)|..];
    (apply (unique_flag_alter _ _ _ _ m Hi); [intros H; apply (Hf _ H); auto|apply (lv_ok _ Hg)]).
Qed.

Lemma upd_member_ok guid f g :
  live g -> (forall m, place (f m) = place m /\ ms_flags (f m) = ms_flags m) -> wp (upd_member guid f) g (fun _ => live).
Proof.
  intros Hg Hf. unfold upd_member. apply wp_get. destruct (_getMemberSlot g guid) as [i|] eqn:Ei; [|by apply wp_ret].
  destruct (_getMemberSlot_Some _ _ _ Ei) as (m & Hm & _). eapply (wp_ok no_error); [reflexivity|].
  apply (live_alter _ _ m); [done|done|apply Hf|]. intros flag H _. unfold has_flag in *. by rewrite (proj2 (Hf m)) in H.
Qed.

Lemma SetMemberRole_ok guid role g : live g -> wp (SetMemberRole guid role) g (fun _ => kept).
Proof.
  intros Hg. unfold SetMemberRole. apply wp_get. destruct (_getMemberSlot g guid) as [i|] eqn:Ei; [|by apply keep_ret].
  destruct (_getMemberSlot_Some _ _ _ Ei) as (m & Hm & _). unfold upd_slot_at, execute. apply wp_modify.
  eapply (wp_ok no_error); [reflexivity|]. right.
  apply (live_statement (set_slots (alter (set_roles (u8 role)) i (m_memberSlots g)) g) _
    (fun r => mkMemberRow (mr_guid r) (mr_flags r) (mr_subgroup r) (u8 role)) guid); [|done|done].
  by apply (live_alter g i m).
Qed.

(** *** Flags *)

Lemma has_flag_cleared flag other m :
  Z.land (Z.lnot other) flag = flag -> has_flag flag (set_flags (Z.ldiff (ms_flags m) other) m) = has_flag flag m.
Proof. intros H. unfold has_flag. cbn. by rewrite Z.ldiff_land, <- Z.land_assoc, H. Qed.
Lemma has_flag_set flag other m :
  Z.land other flag = 0 -> has_flag flag (set_flags (Z.lor (ms_flags m) other) m) = has_flag flag m.
Proof. intros H. unfold has_flag. cbn. by rewrite Z.land_lor_distr_l, H, Z.lor_0_r. Qed.
Lemma has_flag_gone flag m : has_flag flag (set_flags (Z.ldiff (ms_flags m) flag) m) = false.
Proof. unfold has_flag. cbn. by rewrite Z.land_ldiff. Qed.

Lemma has_flag_toggle flag other apply m :
  Z.land (Z.lnot other) flag = flag -> Z.land other flag = 0 ->
  has_flag flag (ToggleGroupMemberFlag other apply m) = has_flag flag m.
Proof. intros H1 H2. unfold ToggleGroupMemberFlag. destruct apply; [by apply has_flag_set|by apply has_flag_cleared]. Qed.

Definition is_main (flag : Z) : Prop := flag = MEMBER_FLAG_MAINTANK \/ flag = MEMBER_FLAG_MAINASSIST.
Definition strip_flag (flag : Z) (m : MemberSlot) : MemberSlot :=
  if Z.land (ms_flags m) flag =? 0 then m else set_flags (Z.ldiff (ms_flags m) flag) m.

Lemma strip_flag_gone flag m : has_flag flag (strip_flag flag m) = false.
Proof.
  unfold strip_flag. destruct (Z.land (ms_flags m) flag =? 0) eqn:E; [|apply has_flag_gone]. unfold has_flag. by rewrite E.
Qed.
Lemma strip_flag_other flag other m : is_main flag -> is_main other -> flag <> other ->
  has_flag flag (strip_flag other m) = has_flag flag m.
Proof.
  intros Hf Ho Hn. unfold strip_flag. destruct (_ =? 0); [done|]. apply has_flag_cleared.
  destruct Hf as [->| ->], Ho as [->| ->]; done.
Qed.
Lemma place_strip flag m : place (strip_flag flag m) = place m.
Proof. unfold strip_flag. by destruct (_ =? 0). Qed.
Lemma place_toggle flag apply m : place (ToggleGroupMemberFlag flag apply m) = place m.
Proof. by destruct apply. Qed.

Lemma unique_flag_fmap flag f slots : (forall m, has_flag flag (f m) = has_flag flag m) ->
  unique_flag flag slots -> unique_flag flag (f <$> slots).
Proof.
  intros Hf. unfold unique_flag. enough (forall l, length (filter (fun m => has_flag flag m = true) (f <$> l)) =
    length (filter (fun m => has_flag flag m = true) l)) as -> by done.
  induction l as [|m l IH]; [done|]. rewrite fmap_cons, !filter_cons, Hf. by case_decide; cbn [length]; rewrite IH.
Qed.

(** The main tank and the main assistant are one member each. *)
Lemma main_given flag other apply i m slots :
  is_main flag -> is_main other -> slots !! i = Some m -> unique_flag flag slots ->
  unique_flag flag (alter (ToggleGroupMemberFlag other apply) i (strip_flag other <$> slots)).
Proof.
  intros Hf Ho Hi Hu. destruct (decide (flag = other)) as [<-|Hn].
  - apply unique_flag_given. apply Forall_fmap, Forall_true. intros m'. apply strip_flag_gone.
  - apply (unique_flag_alter _ _ _ _ (strip_flag other m)).
    + by rewrite list_lookup_fmap, Hi.
    + intros H. rewrite has_flag_toggle in H; [done|..]; destruct Hf as [->| ->], Ho as [->| ->]; done.
    + apply unique_flag_fmap; [|done]. intros m'. by apply strip_flag_other.
Qed.

Lemma SetGroupMemberFlag_ok guid apply flag g : live g -> wp (SetGroupMemberFlag guid apply flag) g (fun _ => kept).
Proof.
  intros Hg. unfold SetGroupMemberFlag. apply wp_get. destruct (negb (isRaidGroup g)); [by apply keep_ret|].
  destruct (_getMemberSlot g guid) as [i|] eqn:Ei; [|by apply keep_ret].
  destruct (_getMemberSlot_Some _ _ _ Ei) as (m & Hm & _).
  destruct ((flag =? _) || _ || _) eqn:Ef; [|by apply keep_ret].
  assert (forall g1 m1, live (set_slots (alter (ToggleGroupMemberFlag flag apply) i (m_memberSlots g1)) g1) ->
    m_memberSlots g1 !! i = Some m1 ->
    wp (upd_slot_at (ToggleGroupMemberFlag flag apply) i;; g ← get;
        match m_memberSlots g !! i with
        | Some m => execute (CHAR_UPD_GROUP_MEMBER_FLAG (ms_flags m) guid)
        | None => mret tt
        end) g1 (fun _ => kept)) as Hend.
  { intros g1 m1 H1 Hi1. unfold upd_slot_at. apply wp_modify, wp_get. cbn [set_slots m_memberSlots].
    rewrite list_lookup_alter_eq, Hi1. cbn [fmap option_fmap option_map]. eapply (wp_ok no_error); [reflexivity|]. right.
    by eapply (live_statement _ _ (fun r => mkMemberRow (mr_guid r) _ (mr_subgroup r) (mr_roles r)) guid); [|done|]. }
  destruct (flag =? MEMBER_FLAG_ASSISTANT) eqn:Ea.
  - apply Z.eqb_eq in Ea as ->. apply (wp_seq no_error _ _ _ tt g _ eq_refl). apply (Hend g m); [|done].
    apply (live_alter _ _ m); [done|done|apply place_toggle|].
    intros fl H [->| ->]; by rewrite has_flag_toggle in H.
  - apply wp_modify. apply (Hend _ (strip_flag flag m)); [|cbn; by rewrite list_lookup_fmap, Hm].
    assert (is_main flag) as Hmain.
    { unfold is_main. apply orb_prop in Ef as [[Ef|Ef]%orb_prop|Ef]; [right|left|congruence]; by apply Z.eqb_eq in Ef. }
    cbn [m_memberSlots set_slots]. change (live (set_slots (alter (ToggleGroupMemberFlag flag apply) i (strip_flag flag <$> m_memberSlots g)) g)).
    apply live_slots; [done|..].
    + rewrite (places_alter _ _ (strip_flag flag m)); [|by rewrite list_lookup_fmap, Hm|apply place_toggle].
      rewrite <- list_fmap_compose. apply list_fmap_ext. intros k x _. apply place_strip.
    + by apply (main_given _ _ _ _ m); [left| |..|apply (lv_ok _ Hg)].
    + by apply (main_given _ _ _ _ m); [right| |..|apply (lv_ok _ Hg)].
Qed.

(** ** The leader *)

(** The state after [ChangeLeader] made [x] the leader. *)
Definition with_leader (x : Z) (i : nat) (g : Group) : Group :=
  set_slots (alter (ToggleGroupMemberFlag MEMBER_FLAG_ASSISTANT false) i (m_memberSlots g))
    (set_leader x (persisted (fun g => CHAR_UPD_GROUP_LEADER x (m_dbStoreId g)) g)).

Lemma ChangeLeader_run w x i g :
  _getMemberSlot g x = Some i -> gw_online w x = true -> ChangeLeader w x g = (Ok tt, with_leader x i g).
Proof.
  intros Ei Ho. unfold ChangeLeader. rewrite (bind_ok get _ g g g eq_refl), Ei, Ho. cbn [negb].
  by rewrite (bind_ok (persist _) _ _ _ _ (persist_run _ g)).
Qed.

(** Whoever leads before: the new leader is a member. *)
Lemma with_leader_live x i m g :
  group_ok g -> stored g -> g_deleted g = false -> _getMemberSlot g x = Some i -> m_memberSlots g !! i = Some m -> ms_guid m = x ->
  live (with_leader x i g).
Proof.
  intros Hok S A Ei Hm Ex.
  assert (place <$> alter (ToggleGroupMemberFlag MEMBER_FLAG_ASSISTANT false) i (m_memberSlots g) = places g) as Ep
    by (by apply (places_alter _ _ m); [|apply place_toggle]).
  assert (places (with_leader x i g) = places g) as Ep' by exact Ep.
  constructor; [| | |done].
  - apply (group_ok_mem (set_slots (alter (ToggleGroupMemberFlag MEMBER_FLAG_ASSISTANT false) i (m_memberSlots g)) g)); [done|].
    apply group_ok_slots; [done|done|..]; (apply (unique_flag_alter _ _ _ _ m Hm); [by rewrite has_flag_toggle|apply Hok]).
  - right. rewrite Ep'. cbn. rewrite <- Ex. apply list_elem_of_fmap. exists (place m). split; [done|].
    apply list_elem_of_fmap. exists m. split; [done|]. by eapply list_elem_of_lookup_2.
  - unfold stored. rewrite created_places, Ep', <- created_places.
    eapply (stored_step _ _ _ g); [exact S|done|reflexivity|]. intros t Ht. rewrite Ep'. by eapply holds_leader.
Qed.

Lemma ChangeLeader_ok w x g : live g -> wp (ChangeLeader w x) g (fun _ => kept).
Proof.
  intros Hg. destruct (_getMemberSlot g x) as [i|] eqn:Ei.
  - destruct (_getMemberSlot_Some _ _ _ Ei) as (m & Hm & Ex). destruct (gw_online w x) eqn:Ho.
    + apply (wp_ok no_error _ _ _ _ _ (ChangeLeader_run w x i g Ei Ho)). right. destruct Hg. by apply (with_leader_live x i m).
    + unfold ChangeLeader. apply wp_get. rewrite Ei, Ho. by apply keep_ret.
  - unfold ChangeLeader. apply wp_get. rewrite Ei. by apply keep_ret.
Qed.

(** ** Subgroups *)

Lemma places_split g i m : m_memberSlots g !! i = Some m ->
  exists l1 l2, places g = l1 ++ place m :: l2 /\ length l1 = i /\
    (forall f, place <$> alter f i (m_memberSlots g) = l1 ++ place (f m) :: l2) /\
    place <$> delete i (m_memberSlots g) = l1 ++ l2.
Proof.
  intros Hm. destruct (slot_split _ _ _ Hm) as (l1 & l2 & E & El & Ea & Ed).
  exists (place <$> l1), (place <$> l2). split; [unfold places; by rewrite E, fmap_app|].
  split; [by rewrite length_fmap|]. split; [intros f; by rewrite Ea, fmap_app|by rewrite Ed, fmap_app].
Qed.

Lemma in_subgroup_mid l1 l2 p k : in_subgroup (l1 ++ p :: l2) k = Z.b2z (bool_decide (p.2 = k)) + in_subgroup (l1 ++ l2) k.
Proof. rewrite !in_subgroup_app, in_subgroup_cons. lia. Qed.

Definition moved (i : nat) (group : Z) (v : option (list Z)) (g : Group) : Group :=
  set_counts v (set_slots (alter (set_group group) i (m_memberSlots g)) g).

Lemma moved_ok g i m group v :
  group_ok g -> m_memberSlots g !! i = Some m -> 0 <= group < 8 -> ms_group m <> group -> in_subgroup (places g) group < 5 ->
  counted (place <$> alter (set_group group) i (m_memberSlots g)) v -> (v = None <-> m_subGroupsCounts g = None) ->
  group_ok (moved i group v g).
Proof.
  intros Hok Hm Hk Hn Hlt Hv Hvn. pose proof (go_raid_counts _ Hok) as Hrc.
  destruct (places_split _ _ _ Hm) as (l1 & l2 & Ep & _ & Ea & _). specialize (Ea (set_group group)).
  assert (places (moved i group v g) = l1 ++ place (set_group group m) :: l2) as Ep' by exact Ea.
  assert ((places (moved i group v g)).*1 = (places g).*1) as Eg by (by rewrite Ep', Ep, !fmap_app, !fmap_cons).
  assert (len (places g) <= 5 -> len (places (moved i group v g)) <= 5) as Hlen
    by (rewrite Ep', Ep, !length_app; cbn; lia).
  pose proof (go_counts _ Hok) as Hco.
  destruct Hok as [nd va sm co ty mg li ta asi ic du ra ro].
  constructor; rewrite ?Eg; try done.
  - rewrite Ep'. unfold valid_subgroups in *. rewrite Ep in va. apply Forall_app in va as [H1 H2]. inversion_clear H2.
    apply Forall_app. by split; [|constructor].
  - rewrite Ep'. intros k. specialize (sm k). rewrite Ep, in_subgroup_mid in sm, Hlt. rewrite in_subgroup_mid. cbn [snd place set_group ms_group] in *.
    repeat case_bool_decide; subst; cbn [Z.b2z] in *; try lia.
  - apply go_counts_intro; [exact Hv|by rewrite <- Hrc, <- Hvn|].
    intros H. apply Hlen. change (isRaidGroup g = false) in H. apply Hrc in H. rewrite H in Hco. by destruct Hco.
  - by apply (unique_flag_alter _ _ _ _ m Hm).
  - by apply (unique_flag_alter _ _ _ _ m Hm).
Qed.

Lemma places_fst_unique l1 l2 (p : Z * Z) y i :
  NoDup (l1 ++ p :: l2).*1 -> (y, i) ∈ l1 ++ l2 <-> y <> p.1 /\ (y, i) ∈ l1 ++ p :: l2.
Proof.
  rewrite fmap_app, fmap_cons. intros [H1 [H2 [H3 H4]%NoDup_cons]]%NoDup_app. rewrite !elem_of_app, elem_of_cons. split.
  - intros [H|H].
    + split; [|by left]. intros E. apply (H2 y); [by apply list_elem_of_fmap; exists (y, i)|]. rewrite E. by left.
    + split; [|by right; right]. intros E. apply H3. rewrite <- E. by apply list_elem_of_fmap; exists (y, i).
  - intros [Hn [H|[H|H]]]; [by left| |by right]. subst p. done.
Qed.

Lemma places_replaced l1 l2 (p : Z * Z) k y j :
  NoDup (l1 ++ p :: l2).*1 ->
  (y, j) ∈ l1 ++ (p.1, k) :: l2 <-> if decide (y = p.1) then j = k else (y, j) ∈ l1 ++ p :: l2.
Proof.
  intros nd. assert (NoDup (l1 ++ (p.1, k) :: l2).*1) as nd' by (rewrite fmap_app in *; exact nd).
  pose proof (places_fst_unique l1 l2 p y j nd) as P1. pose proof (places_fst_unique l1 l2 (p.1, k) y j nd') as P2.
  cbn [fst] in P2. rewrite elem_of_app, elem_of_cons in *. case_decide as Ey; [|naive_solver].
  split; [|naive_solver]. intros [H|[H|H]]; [|congruence|]; exfalso; apply (proj1 P1); auto.
Qed.

Definition subgroup_statement (group guid : Z) (_ : Group) : GroupStatement := CHAR_UPD_GROUP_MEMBER_SUBGROUP group guid.

Lemma moved_live g i m group v :
  live g -> m_memberSlots g !! i = Some m -> 0 <= group < 8 -> ms_group m <> group -> in_subgroup (places g) group < 5 ->
  counted (place <$> alter (set_group group) i (m_memberSlots g)) v -> (v = None <-> m_subGroupsCounts g = None) ->
  live (persisted (subgroup_statement group (ms_guid m)) (moved i group v g)).
Proof.
  intros [Hok L S A] Hm Hk Hn Hlt Hv Hvn.
  destruct (places_split _ _ _ Hm) as (l1 & l2 & Ep & _ & Ea & _). specialize (Ea (set_group group)).
  assert (places (persisted (subgroup_statement group (ms_guid m)) (moved i group v g)) = l1 ++ place (set_group group m) :: l2)
    as Ep' by exact Ea.
  constructor; [| | |done].
  - apply (group_ok_mem (moved i group v g)); [done|]. by apply (moved_ok g i m).
  - destruct L as [L|L]; [rewrite L in Ep; by destruct l1|]. right. rewrite Ep', fmap_app. rewrite Ep, fmap_app in L. exact L.
  - unfold stored. rewrite created_places, Ep'.
    replace (match l1 ++ place (set_group group m) :: l2 with [] => false | _ => true end) with true by (by destruct l1).
    eapply (stored_step true _ _ g); [|done|reflexivity|].
    + unfold stored in S. rewrite created_places, Ep in S. by destruct l1.
    + intros t Ht. rewrite Ep'.
      eapply (holds_subgroup _ _ _ _ _ _ (places g)); [exact Ht|rewrite Ep, fmap_app; apply elem_of_app; right; by left|].
      intros y j. pose proof (go_nodup _ Hok) as nd. rewrite Ep in *. exact (places_replaced l1 l2 (place m) group y j nd).
Qed.

Lemma HasFreeSlot_spec g group :
  group_ok g -> 0 <= group < 8 -> HasFreeSlotSubGroup g group = true -> in_subgroup (places g) group < 5.
Proof.
  intros Hok Hk Hfree. unfold HasFreeSlotSubGroup in Hfree. pose proof (go_counted _ Hok) as Hc.
  destruct (m_subGroupsCounts g) as [l|]; [|done]. cbn in Hc. destruct Hc as [_ Hc]. rewrite (Hc group Hk) in Hfree.
  by apply Z.ltb_lt in Hfree.
Qed.

Lemma member_subgroup g i m : group_ok g -> m_memberSlots g !! i = Some m -> 0 <= ms_group m < 8.
Proof.
  intros Hok Hm. pose proof (go_valid _ Hok) as va. unfold valid_subgroups in va. rewrite Forall_lookup in va.
  apply (va i (place m)). unfold places. by rewrite list_lookup_fmap, Hm.
Qed.

Lemma ChangeMembersGroup_ok guid group g :
  live g -> 0 <= group < 8 -> HasFreeSlotSubGroup g group = true -> wp (ChangeMembersGroup guid group) g (fun _ => kept).
Proof.
  intros Hg Hk Hfree. pose proof Hg as [Hok L S A]. unfold ChangeMembersGroup. apply wp_get.
  destruct (negb (isRaidGroup g)); [by apply keep_ret|].
  destruct (_getMemberSlot g guid) as [i|] eqn:Ei; [|by apply keep_ret].
  destruct (_getMemberSlot_Some _ _ _ Ei) as (m & Hm & Ex).
  assert (GetMemberGroup g guid = ms_group m) as -> by (unfold GetMemberGroup, member_slot; rewrite Ei; cbn; by rewrite Hm).
  destruct (Z.eqb_spec (ms_group m) group) as [|Hn]; [by apply keep_ret|].
  destruct (places_split _ _ _ Hm) as (l1 & l2 & Ep & _ & Ea & _). specialize (Ea (set_group group)).
  pose proof (go_small _ Hok) as sm. unfold upd_slot_at. apply wp_modify.
  destruct (SubGroupCounter_run 1 group (places g) ((guid, group) :: places g)
    (set_slots (alter (set_group group) i (m_memberSlots g)) g)) as (v1 & Er1 & Hv1 & Hn1);
    [exact (go_counted _ Hok)|done|intros k; rewrite in_subgroup_cons; specialize (sm k); case_bool_decide; cbn; lia
    |intros k; rewrite in_subgroup_cons; cbn [snd]; lia|].
  apply (wp_seq no_error _ _ _ _ _ _ Er1).
  destruct (SubGroupCounter_run (-1) (ms_group m) ((guid, group) :: places g) (l1 ++ place (set_group group m) :: l2)
    (set_counts v1 (set_slots (alter (set_group group) i (m_memberSlots g)) g))) as (v2 & Er2 & Hv2 & Hn2);
    [done|by apply (member_subgroup g i)| | |].
  { intros k. specialize (sm k). rewrite Ep, in_subgroup_mid in sm. rewrite in_subgroup_mid.
    repeat case_bool_decide; cbn [Z.b2z] in *; lia. }
  { intros k. rewrite in_subgroup_cons, Ep, !in_subgroup_mid. cbn [snd place set_group ms_group]. lia. }
  apply (wp_seq no_error _ _ _ _ _ _ Er2), wp_persist. right. rewrite <- Ex.
  apply (moved_live g i m); try done; [by apply HasFreeSlot_spec|by rewrite Ea|rewrite Hn2; exact Hn1].
Qed.

(** ** Marks *)

Lemma distinct_icons_set icons id target :
  distinct_icons icons -> distinct_icons (<[id := target]> (if target =? 0 then icons else (fun t => if t =? target then 0 else t) <$> icons)).
Proof.
  intros [Hl Hd]. set (l := if target =? 0 then _ else _).
  assert (length l = 8%nat) as Hl' by (unfold l; destruct (target =? 0); by rewrite ?length_fmap).
  assert (forall i t, l !! i = Some t -> t <> 0 -> icons !! i = Some t /\ t <> target) as Hlt.
  { intros i t. unfold l. destruct (Z.eqb_spec target 0) as [->|]; [done|].
    rewrite list_lookup_fmap. intros (t' & Ht & ->)%fmap_Some. destruct (Z.eqb_spec t' target); done. }
  split; [by rewrite length_insert|]. intros i j t. rewrite !list_lookup_insert_Some.
  intros [(<- & -> & _)|[Hi Ha]] [(<- & Et & _)|[Hj Hb]] Hn; [done|..].
  - by destruct (Hlt j t Hb Hn).
  - destruct (Hlt i t Ha Hn). congruence.
  - destruct (Hlt i t Ha Hn), (Hlt j t Hb Hn). by apply (Hd i j t).
Qed.

Lemma live_icons icons g : live g -> distinct_icons icons -> live (set_icons icons g).
Proof. intros [Hok L S A] Hi. constructor; [|done..]. destruct Hok. by constructor. Qed.

Lemma SetTargetIcon_ok id target g : live g -> wp (SetTargetIcon id target) g (fun _ => kept).
Proof.
  intros Hg. unfold SetTargetIcon. destruct (TARGETICONCOUNT <=? id); [by apply keep_ret|]. apply wp_modify.
  eapply (wp_ok no_error); [reflexivity|]. right.
  pose proof (distinct_icons_set (m_targetIcons g) (Z.to_nat id) target (go_icons _ (lv_ok _ Hg))) as Hi.
  destruct (target =? 0); [by apply live_icons|].
  by apply (live_core (set_icons (<[Z.to_nat id := target]> ((fun t => if t =? target then 0 else t) <$> m_targetIcons g)) g));
    [|apply live_icons].
Qed.

(** ** Links *)

Lemma live_mgr l g : live g -> NoDup l -> l ⊆ (places g).*1 -> live (set_mgr l g).
Proof. intros [Hok L S A] Hn Hl. constructor; [|done..]. destruct Hok. by constructor. Qed.

Definition unlinked (guid : Z) (g : Group) : Group := set_mgr (filter (fun x => x <> guid) (m_memberMgr g)) g.

Lemma unlink_ok guid g : live g -> wp (unlink guid) g (fun _ => kept).
Proof.
  intros Hg. eapply (wp_ok no_error); [reflexivity|]. right. apply live_mgr; [done|..].
  - apply NoDup_filter, Hg.
  - intros x [_ Hx]%list_elem_of_filter. by apply (go_linked _ (lv_ok _ Hg)).
Qed.

Lemma LinkMember_ok guid g :
  live g -> guid ∈ (places g).*1 -> guid ∉ m_memberMgr g -> wp (LinkMember guid) g (fun _ => kept).
Proof.
  intros Hg Hx Hn. eapply (wp_ok no_error); [reflexivity|]. right. apply live_mgr; [done|..].
  - apply NoDup_cons. split; [done|]. apply Hg.
  - intros x [->|Hy]%elem_of_cons; [done|]. by apply (go_linked _ (lv_ok _ Hg)).
Qed.

(** ** Disbanding *)

Lemma Disband_ok w g : wp (Disband w) g (fun _ g' => g_deleted g' = true).
Proof.
  unfold Disband. apply wp_get, wp_bind. eapply wp_mono.
  { apply (wp_forM no_error _ _ (fun _ => True)); [done|]. intros m g' _ _. by destruct (gw_online w (ms_guid m)). }
  intros [] g' _. unfold RemoveAllInvites. do 3 apply wp_modify. do 3 apply wp_persist_seq. by eapply (wp_ok no_error).
Qed.

Lemma Disband_then {A} (a : A) w g : wp (Disband w;; mret a) g (fun _ => kept).
Proof. apply wp_bind. eapply wp_mono; [apply Disband_ok|]. intros [] g' Hd. apply wp_ret. by left. Qed.

(** ** Leaving *)

Lemma filter_all_ne (x : Z) (l : list Z) : x ∉ l -> filter (fun y => y <> x) l = l.
Proof.
  induction l as [|y l IH]; [done|]. intros [Hn Hx]%not_elem_of_cons. rewrite filter_cons_True by congruence. by rewrite IH.
Qed.

Definition dropped (guid : Z) (g : Group) : Group := unlinked guid (persisted (fun _ => CHAR_DEL_GROUP_MEMBER guid) g).

(** Up to the rolls: the player is unlinked and deleted from the table. *)
Lemma leave_links_run {A} w guid g (k : unit -> GP A) Q :
  (gw_online w guid = false -> guid ∉ m_memberMgr g) ->
  (forall g1, core g1 = core (dropped guid g) -> wp (k tt) g1 Q) ->
  wp ((if gw_online w guid then unlink guid else mret tt);;
      persist (fun _ => CHAR_DEL_GROUP_MEMBER guid);;
      (if transient g then mret tt else unlink guid);;
      (if gw_online w guid && (gw_enchanting w guid =? 0) then mret tt else ResetMaxEnchantingLevel w) ≫= k) g Q.
Proof.
  intros Hoff Hk.
  apply (wp_seq no_error _ _ _ tt (if gw_online w guid then unlinked guid g else g)); [by destruct (gw_online w guid)|].
  apply wp_persist_seq.
  set (g1 := persisted _ _). apply (wp_seq no_error _ _ _ tt (if transient g then g1 else unlinked guid g1)); [by destruct (transient g)|].
  set (g2 := if transient g then g1 else unlinked guid g1).
  assert (core g2 = core (dropped guid g)) as E.
  { assert (filter (fun x => x <> guid) (filter (fun x => x <> guid) (m_memberMgr g)) = filter (fun x => x <> guid) (m_memberMgr g)) as Ef.
    { apply filter_all_ne. intros [H _]%list_elem_of_filter. done. }
    destruct (gw_online w guid) eqn:Eo.
    - unfold g2, g1. destruct (transient g); [done|]. unfold core, mem. cbn. by rewrite Ef.
    - specialize (Hoff eq_refl). unfold g2, g1. destruct (transient g); [|done].
      unfold core, mem. cbn. by rewrite filter_all_ne. }
  destruct (_ && _).
  - apply (wp_seq no_error _ _ _ tt g2 _ eq_refl). by apply Hk.
  - apply wp_modify. apply Hk. rewrite <- E. by unfold core, mem.
Qed.

Definition roll_left (guid : Z) (g : Group) : Group :=
  set_group_rolls (set_rolls (drop_vote guid <$> RollId (g_rolls g)) (g_rolls g)) g.
Lemma leave_rolls_lifted w guid g :
  rolls_ok (g_rolls g) -> lift_rolls (leave_rolls (gw_rolls w) guid) g = (Ok tt, roll_left guid g) /\ rolls_ok (g_rolls (roll_left guid g)).
Proof.
  intros Hr. destruct (leave_rolls_run (gw_rolls w) guid _ Hr) as [E Hk]. unfold lift_rolls. by rewrite E.
Qed.

(** What is left of the group without the member at [i]. *)
Definition left_group (i : nat) (v : option (list Z)) (guid : Z) (g : Group) : Group :=
  set_slots (delete i (m_memberSlots g)) (set_counts v (roll_left guid (dropped guid g))).

Lemma left_group_ok g i m v :
  group_ok g -> m_memberSlots g !! i = Some m ->
  counted (place <$> delete i (m_memberSlots g)) v -> (v = None <-> m_subGroupsCounts g = None) ->
  rolls_ok (g_rolls (roll_left (ms_guid m) g)) -> group_ok (left_group i v (ms_guid m) g).
Proof.
  intros Hok Hm Hv Hvn Hro. pose proof (go_raid_counts _ Hok) as Hrc. pose proof (go_counts _ Hok) as Hco.
  destruct (places_split _ _ _ Hm) as (l1 & l2 & Ep & _ & _ & Ed).
  assert (places (left_group i v (ms_guid m) g) = l1 ++ l2) as Ep' by exact Ed.
  assert (NoDup (l1 ++ place m :: l2).*1) as nd by (rewrite <- Ep; apply Hok).
  destruct Hok as [_ va sm co ty mg li ta asi ic du ra ro].
  constructor; rewrite ?Ep'; try done.
  - rewrite fmap_app in *. rewrite fmap_cons in nd. apply NoDup_app in nd as (H1 & H2 & H3%NoDup_cons). apply NoDup_app.
    split; [done|]. split; [|apply H3]. intros x Hx Hy. by apply (H2 x Hx); right.
  - unfold valid_subgroups in *. rewrite Ep in va. apply Forall_app in va as [H1 H2]. inversion_clear H2. by apply Forall_app.
  - intros k. specialize (sm k). rewrite Ep, in_subgroup_mid in sm. case_bool_decide; cbn in sm; lia.
  - rewrite <- Ep'. apply go_counts_intro; [exact Hv|by rewrite <- Hrc, <- Hvn|].
    intros H. change (isRaidGroup g = false) in H. apply Hrc in H. rewrite H in Hco. destruct Hco as [_ Hco].
    rewrite Ep', length_app. rewrite Ep, length_app in Hco. cbn in Hco. lia.
  - by apply NoDup_filter.
  - intros x [Hn Hx]%list_elem_of_filter. specialize (li x Hx). rewrite Ep, fmap_app, elem_of_app, fmap_cons, elem_of_cons in li.
    rewrite fmap_app, elem_of_app. cbn in li. naive_solver.
  - by apply (unique_flag_delete _ _ _ m).
  - by apply (unique_flag_delete _ _ _ m).
Qed.

Lemma left_group_stored g i m v :
  stored g -> NoDup (places g).*1 -> m_memberSlots g !! i = Some m -> 1 < len (places g) -> stored (left_group i v (ms_guid m) g).
Proof.
  intros S nd Hm Hl. destruct (places_split _ _ _ Hm) as (l1 & l2 & Ep & _ & _ & Ed).
  assert (places (left_group i v (ms_guid m) g) = l1 ++ l2) as Ep' by exact Ed.
  assert (created (left_group i v (ms_guid m) g) = true) as Ec.
  { rewrite created_places, Ep'. rewrite Ep, length_app in Hl. destruct l1, l2; cbn in *; try done; lia. }
  assert (created g = true) as Ec0 by (rewrite created_places, Ep; by destruct l1).
  unfold stored in *. rewrite Ec0 in S. rewrite Ec. eapply (stored_step _ _ _ g); [exact S|done|reflexivity|].
  intros t Ht. eapply holds_delete; [exact Ht|]. intros y k. rewrite Ep'. rewrite Ep in *. by apply (places_fst_unique l1 l2 (place m)).
Qed.

Lemma stored_core g g' : core g = core g' -> stored g -> stored g'.
Proof. intros E S. destruct g, g'; unfold core, mem in E; cbn in E; by simplify_eq. Qed.
Lemma group_ok_core g g' : core g = core g' -> group_ok g -> group_ok g'.
Proof. intros E. apply group_ok_mem. unfold core in E. congruence. Qed.

Lemma erase_slot_run guid g i m :
  group_ok g -> _getMemberSlot g guid = Some i -> m_memberSlots g !! i = Some m ->
  exists v, erase_slot guid g = (Ok tt, set_slots (delete i (m_memberSlots g)) (set_counts v g)) /\
    counted (place <$> delete i (m_memberSlots g)) v /\ (v = None <-> m_subGroupsCounts g = None).
Proof.
  intros Hok Ei Hm. unfold erase_slot. rewrite (bind_ok get _ g g g eq_refl), Ei, Hm.
  destruct (places_split _ _ _ Hm) as (l1 & l2 & Ep & _ & _ & Ed). pose proof (go_small _ Hok) as sm.
  destruct (SubGroupCounter_run (-1) (ms_group m) (places g) (l1 ++ l2) g) as (v & Er & Hv & Hn).
  - by apply go_counted.
  - by apply (member_subgroup g i).
  - intros k. specialize (sm k). rewrite Ep, in_subgroup_mid in sm. case_bool_decide; cbn in sm; lia.
  - intros k. rewrite Ep, in_subgroup_mid. cbn [snd place]. lia.
  - exists v. unfold SubGroupCounterDecrease. rewrite (bind_ok _ _ _ _ _ Er). by rewrite Ed.
Qed.

(** The group after [RemoveMember] erased the slot. *)
Lemma leave_run {X} w guid i m g (k : unit -> GP X) Q :
  live g -> group_world_ok w g -> _getMemberSlot g guid = Some i -> m_memberSlots g !! i = Some m -> 1 < len (places g) ->
  (forall g', group_ok g' -> stored g' -> g_deleted g' = false -> m_leaderGuid g' = m_leaderGuid g ->
    (forall x, x ∈ (places g).*1 -> x <> guid -> x ∈ (places g').*1) -> m_memberMgr g' ⊆ m_memberMgr g -> wp (k tt) g' Q) ->
  wp ((if gw_online w guid then unlink guid else mret tt);;
      persist (fun _ => CHAR_DEL_GROUP_MEMBER guid);;
      (if transient g then mret tt else unlink guid);;
      (if gw_online w guid && (gw_enchanting w guid =? 0) then mret tt else ResetMaxEnchantingLevel w);;
      lift_rolls (leave_rolls (gw_rolls w) guid);;
      erase_slot guid ≫= k) g Q.
Proof.
  intros Hg [Hon Hit] Ei Hm Hl Hk. pose proof Hg as [Hok L S A].
  destruct (_getMemberSlot_Some _ _ _ Ei) as (m' & Hm' & Ex). assert (m' = m) as -> by congruence.
  apply leave_links_run. { intros Hoff Hin. specialize (Hon guid Hin). congruence. }
  intros g1 E1.
  assert (group_ok g1) as Hok1.
  { symmetry in E1. apply (group_ok_core _ _ E1). destruct Hok. constructor; try done.
    - by apply NoDup_filter.
    - intros x [_ Hx]%list_elem_of_filter. auto. }
  destruct (leave_rolls_lifted w guid g1 (go_rolls _ Hok1)) as [Er Hr]. apply (wp_seq no_error _ _ _ _ _ _ Er).
  assert (group_ok (roll_left guid g1)) as Hok2 by (destruct Hok1; by constructor).
  assert (m_memberSlots (roll_left guid g1) = m_memberSlots g) as Es.
  { change (m_memberSlots g1 = m_memberSlots g). assert (mem g1 = mem (dropped guid g)) as Em by (unfold core in E1; congruence).
    unfold mem in Em. cbn in Em. congruence. }
  destruct (erase_slot_run guid (roll_left guid g1) i m) as (v & Ee & Hv & Hn); [done| |by rewrite Es|].
  { unfold _getMemberSlot in *. by rewrite Es. }
  apply (wp_seq no_error _ _ _ _ _ _ Ee).
  set (g2 := set_slots _ _).
  assert (core (left_group i v (ms_guid m) g) = core g2) as E2.
  { clear -E1 Ex. subst guid. unfold g2, left_group. destruct g, g1. unfold core, mem in *. cbn in *. by simplify_eq. }
  apply Hk; clearbody g2.
  - apply (group_ok_core _ _ E2), left_group_ok; [done|done|by rewrite Es in Hv| |].
    + rewrite Hn. change (m_subGroupsCounts g1 = None <-> m_subGroupsCounts g = None).
      assert (mem g1 = mem (dropped guid g)) as Em by (unfold core in E1; congruence). unfold mem in Em. cbn in Em.
      assert (m_subGroupsCounts g1 = m_subGroupsCounts g) as -> by congruence. done.
    + destruct (leave_rolls_lifted w (ms_guid m) g (go_rolls _ Hok)) as [_ H]. exact H.
  - apply (stored_core _ _ E2), left_group_stored; try done. apply Hok.
  - assert (g_deleted (left_group i v (ms_guid m) g) = g_deleted g2) as <- by (unfold core in E2; congruence). exact A.
  - assert (m_leaderGuid (left_group i v (ms_guid m) g) = m_leaderGuid g2) as <- by (unfold core in E2; congruence). done.
  - assert (m_memberSlots (left_group i v (ms_guid m) g) = m_memberSlots g2) as E3 by (unfold core, mem in E2; congruence).
    destruct (places_split _ _ _ Hm) as (l1 & l2 & Ep & _ & _ & Ed). intros x Hx Hne. unfold places at 1. rewrite <- E3.
    change (x ∈ (place <$> delete i (m_memberSlots g)).*1). rewrite Ed. rewrite Ep in Hx.
    rewrite fmap_app, elem_of_app, ?fmap_cons, ?elem_of_cons in *. cbn [place fst] in Hx. rewrite Ex in Hx. tauto.
  - assert (m_memberMgr (left_group i v (ms_guid m) g) = m_memberMgr g2) as <- by (unfold core, mem in E2; congruence).
    intros x [_ Hx]%list_elem_of_filter. done.
Qed.

Lemma pick_leader_ok w guid g :
  group_ok g -> stored g -> g_deleted g = false -> m_leaderGuid g = guid \/ m_leaderGuid g ∈ (places g).*1 ->
  (forall x, x ∈ m_memberMgr g -> gw_online w x = true) ->
  wp (pick_leader w guid) g (fun _ g' => live g' \/ m_memberMgr g' = []).
Proof.
  intros Hok S A L Hon. unfold pick_leader. apply wp_get. destruct (Z.eqb_spec (m_leaderGuid g) guid) as [El|Hne].
  - cbn [negb]. destruct (list_find _ (m_memberSlots g)) as [[k m]|] eqn:Ef.
    + apply list_find_Some in Ef as (Hm & Ho & _).
      assert (ms_guid m ∈ (places g).*1) as Hin.
      { apply list_elem_of_fmap. exists (place m). split; [done|]. apply list_elem_of_fmap. exists m.
        split; [done|]. by eapply list_elem_of_lookup_2. }
      destruct (_getMemberSlot_member g _ Hin) as (i & m' & Ei & Hm' & Ex).
      apply (wp_ok no_error _ _ _ _ _ (ChangeLeader_run w _ i g Ei Ho)). left. by apply (with_leader_live _ i m').
    + apply wp_ret. right. destruct (m_memberMgr g) as [|x l] eqn:Em; [done|]. exfalso.
      pose proof (go_linked _ Hok x) as Hx. rewrite Em in Hx. specialize (Hx (list_elem_of_here _ _)).
      apply list_elem_of_fmap in Hx as (p & -> & (m & -> & Hm)%list_elem_of_fmap).
      rewrite list_find_None, Forall_forall in Ef. apply (Ef m Hm). apply Hon. by left.
  - apply wp_ret. left. destruct L as [L|L]; [done|]. constructor; try done. by right.
Qed.

Lemma RemoveMember_ok w guid method g :
  live g -> group_world_ok w g -> guid ∈ (places g).*1 -> wp (RemoveMember w guid method) g (fun _ => kept).
Proof.
  intros Hg Hw Hx. pose proof Hg as [Hok L S A]. unfold RemoveMember. apply wp_get.
  destruct (isLFGGroup g && is_kick method); [by apply keep_ret|].
  destruct (Z.ltb_spec (if transient g || isLFGGroup g then 1 else 2) (GetMembersCount g)) as [Hl|_];
    [|apply Disband_then].
  destruct (_getMemberSlot_member g guid Hx) as (i & m & Ei & Hm & Ex).
  assert (1 < len (places g)) as Hl1 by (rewrite len_places; destruct (_ || _); lia).
  eapply (leave_run w guid i m); [done|done|done|done|done|]. intros g1 Hok1 S1 A1 El Hpl Hmg.
  apply wp_bind. eapply wp_mono; [apply pick_leader_ok; try done|].
  - rewrite El. destruct (decide (m_leaderGuid g = guid)); [by left|]. right. apply Hpl; [|done].
    destruct L as [L|L]; [|done]. rewrite L in Hl1. done.
  - intros x Hin. apply Hw. by apply Hmg.
  - intros [] g2 H2. apply wp_get. destruct (lfg_alone w g2); [apply Disband_then|].
    destruct (Z.ltb_spec (len (m_memberMgr g2)) (if isLFGGroup g2 || m_bgGroup g2 then 1 else 2)) as [_|Hge];
      [apply Disband_then|]. destruct H2 as [H2|H2]; [by apply wp_ret; right|]. rewrite H2 in Hge. cbn in Hge. destruct (isLFGGroup g2 || m_bgGroup g2); lia.
Qed.

(** ** The rolls of the group *)

Lemma live_rolls s g : live g -> rolls_ok s -> live (set_group_rolls s g).
Proof. intros [Hok L S A] Hr. constructor; [|done..]. destruct Hok. by constructor. Qed.

Lemma lift_rolls_ok {A} (p : prog Rolls RollError A) g :
  live g -> Prelude.wp GroupLootProofs.no_error p (g_rolls g) (fun _ s => rolls_ok s) -> wp (lift_rolls p) g (fun _ => kept).
Proof.
  intros Hg Hp. unfold Prelude.wp, lift_rolls in *. destruct (p (g_rolls g)) as [[a|e] s]; [|done].
  right. by apply live_rolls.
Qed.

Lemma NoDup_subseteq_length (l l' : list Z) : NoDup l -> l ⊆ l' -> (length l <= length l')%nat.
Proof. intros Hn Hs. by apply submseteq_length, NoDup_submseteq. Qed.

Lemma linked_few g : group_ok g -> members_ok (m_memberMgr g).
Proof.
  intros Hok. split; [apply Hok|]. pose proof (NoDup_subseteq_length _ _ (go_mgr _ Hok) (go_linked _ Hok)) as H.
  rewrite length_fmap in H. pose proof (places_small _ (go_valid _ Hok) (go_small _ Hok)). lia.
Qed.

(** ** Operations *)

Inductive GroupOp :=
| OpCreate (leader : Z)
| OpAddMember (guid : Z)
| OpRemoveMember (guid : Z) (method : RemoveMethod)
| OpChangeLeader (guid : Z)
| OpDisband
| OpConvertToLFG
| OpConvertToRaid
| OpConvertToGroup
| OpAddInvite (guid : Z) (free : bool)
| OpAddLeaderInvite (guid : Z) (free : bool)
| OpRemoveInvite (guid : Z)
| OpRemoveAllInvites
| OpChangeMembersGroup (guid group : Z)
| OpSetGroupMemberFlag (guid : Z) (apply : bool) (flag : Z)
| OpSetLfgRoles (guid roles : Z)
| OpSetMemberRole (guid role : Z)
| OpSetTargetIcon (id target : Z)
| OpSetLootMethod (method : Z)
| OpSetLooterGuid (guid : Z)
| OpSetLootThreshold (threshold : Z)
| OpUpdateLooterGuid (ifneed : bool)
| OpSetDungeonDifficulty (difficulty : Z)
| OpSetRaidDifficulty (difficulty : Z)
| OpResetMaxEnchantingLevel
| OpReadyCheck (state : bool)
| OpReadyCheckMemberHasResponded (guid : Z)
| OpReadyCheckResetResponded
| OpOfflineReadyCheck
| OpLogin (guid : Z)
| OpLogout (guid : Z)
| OpStartGroupLoot (loot : Z)
| OpStartNeedBeforeGreed (loot : Z)
| OpRollVote (player item choice : Z)
| OpRollsEnd (loot : Z)
| OpLootOpened (loot : Z) (l : Loot)
| OpLootClosed (loot : Z).

Definition run_group_op (w : GroupWorld) (op : GroupOp) : GP unit :=
  match op with
  | OpCreate leader => Create w leader;; mret tt
  | OpAddMember guid => AddMember w guid;; mret tt
  | OpRemoveMember guid method => RemoveMember w guid method;; mret tt
  | OpChangeLeader guid => ChangeLeader w guid
  | OpDisband => Disband w
  | OpConvertToLFG => ConvertToLFG
  | OpConvertToRaid => ConvertToRaid
  | OpConvertToGroup => ConvertToGroup
  | OpAddInvite guid free => AddInvite guid free;; mret tt
  | OpAddLeaderInvite guid free => AddLeaderInvite guid free;; mret tt
  | OpRemoveInvite guid => RemoveInvite guid
  | OpRemoveAllInvites => RemoveAllInvites
  | OpChangeMembersGroup guid group => ChangeMembersGroup guid group
  | OpSetGroupMemberFlag guid apply flag => SetGroupMemberFlag guid apply flag
  | OpSetLfgRoles guid roles => SetLfgRoles guid roles
  | OpSetMemberRole guid role => SetMemberRole guid role
  | OpSetTargetIcon id target => SetTargetIcon id target
  | OpSetLootMethod method => SetLootMethod method
  | OpSetLooterGuid guid => SetLooterGuid guid
  | OpSetLootThreshold threshold => SetLootThreshold threshold
  | OpUpdateLooterGuid ifneed => UpdateLooterGuid w ifneed
  | OpSetDungeonDifficulty difficulty => SetDungeonDifficulty difficulty
  | OpSetRaidDifficulty difficulty => SetRaidDifficulty difficulty
  | OpResetMaxEnchantingLevel => ResetMaxEnchantingLevel w
  | OpReadyCheck state => ReadyCheck state
  | OpReadyCheckMemberHasResponded guid => ReadyCheckMemberHasResponded guid
  | OpReadyCheckResetResponded => ReadyCheckResetResponded
  | OpOfflineReadyCheck => OfflineReadyCheck w
  | OpLogin guid => LinkMember guid
  | OpLogout guid => unlink guid
  | OpStartGroupLoot loot => group_loot w loot
  | OpStartNeedBeforeGreed loot => group_need w loot
  | OpRollVote player item choice => lift_rolls (CountRollVote (gw_rolls w) player item choice)
  | OpRollsEnd loot => lift_rolls (s ← get; EndRoll (gw_rolls w) (S (length (RollId s))) loot)
  | OpLootOpened loot l => lift_rolls (modify (fun s => set_loots (<[loot := l]> (rs_loots s)) s))
  | OpLootClosed loot => lift_rolls (modify (fun s => set_loots (delete loot (rs_loots s)) s))
  end.

(** What the callers check: a new group is created first; a player joins a group
    that is not full, and once, and leaves one he is in; the subgroup a member is moved to has a free
    slot; difficulties exist; the rules of the rolls. *)
Definition group_enabled (w : GroupWorld) (g : Group) (op : GroupOp) : Prop :=
  match op with
  | OpCreate leader => places g = [] /\ 0 <= gw_difficulty w leader < MAX_DUNGEON_DIFFICULTY /\
      0 <= gw_raid_difficulty w leader < MAX_RAID_DIFFICULTY
  | OpAddLeaderInvite _ _ => places g = []
  | OpAddMember guid => places g <> [] /\ IsMember g guid = false /\ IsFull g = false
  | OpRemoveMember guid _ => IsMember g guid = true
  | OpChangeMembersGroup _ group => 0 <= group < MAX_RAID_SUBGROUPS /\ HasFreeSlotSubGroup g group = true
  | OpSetDungeonDifficulty difficulty => 0 <= difficulty < MAX_DUNGEON_DIFFICULTY
  | OpSetRaidDifficulty difficulty => 0 <= difficulty < MAX_RAID_DIFFICULTY
  | OpLogin guid => IsMember g guid = true /\ guid ∉ m_memberMgr g
  | OpStartGroupLoot loot | OpStartNeedBeforeGreed loot => forall l, rs_loots (g_rolls g) !! loot = Some l -> loot_ok l
  | OpRollVote player item choice => roll_enabled (g_rolls g) (OpVote player item choice)
  | OpLootOpened loot l => roll_enabled (g_rolls g) (OpNewLoot loot l)
  | _ => True
  end.

Inductive group_reachable : Group -> Prop :=
| group_new bg bf : group_reachable (Group_new bg bf)
| group_op g w op r g' :
    group_reachable g -> g_deleted g = false -> group_world_ok w g -> group_enabled w g op ->
    run_group_op w op g = (r, g') -> group_reachable g'.

Lemma Group_new_live bg bf : live (Group_new bg bf).
Proof.
  constructor; [|by left| |done].
  - constructor; cbn; try done; try lia; try constructor; try (unfold unique_flag; cbn; lia); try done.
    exact (proj2 distinct_zero).
  - intros _. constructor; [done|]. intros x d i. cbn. split; [done|]. by intros [_ H%elem_of_nil].
Qed.

Lemma IsMember_spec g x : IsMember g x = true <-> x ∈ (places g).*1.
Proof.
  unfold IsMember. rewrite bool_decide_eq_true. split.
  - intros [i Ei]. destruct (_getMemberSlot_Some _ _ _ Ei) as (m & Hm & <-). apply list_elem_of_fmap.
    exists (place m). split; [done|]. apply list_elem_of_fmap. exists m. split; [done|]. by eapply list_elem_of_lookup_2.
  - intros Hx. destruct (_getMemberSlot_member g x Hx) as (i & m & -> & _). by eexists.
Qed.

Lemma SetDungeonDifficulty_ok d g : live g -> 0 <= d < 3 -> wp (SetDungeonDifficulty d) g (fun _ => kept).
Proof.
  intros [Hok L S A] Hd. unfold SetDungeonDifficulty. apply wp_modify, wp_persist. right. constructor; [|done| |done].
  - apply (group_ok_mem (set_dungeon d g)); [done|]. destruct Hok. by constructor.
  - eapply (stored_step _ _ _ g); [exact S|done|reflexivity|]. intros t Ht. by eapply holds_dungeon.
Qed.
Lemma SetRaidDifficulty_ok d g : live g -> 0 <= d < 6 -> wp (SetRaidDifficulty d) g (fun _ => kept).
Proof.
  intros [Hok L S A] Hd. unfold SetRaidDifficulty. apply wp_modify, wp_persist. right. constructor; [|done| |done].
  - apply (group_ok_mem (set_raid d g)); [done|]. destruct Hok. by constructor.
  - eapply (stored_step _ _ _ g); [exact S|done|reflexivity|]. intros t Ht. by eapply holds_raid.
Qed.

Lemma UpdateLooterGuid_ok w ifneed g : live g -> wp (UpdateLooterGuid w ifneed) g (fun _ => kept).
Proof.
  intros Hg. unfold UpdateLooterGuid. apply wp_get. destruct (_ || _); [by apply keep_ret|].
  destruct (_ && _); [by apply keep_ret|]. destruct (next_looter _ _ _) as [x|]; [|by apply keep_modify].
  destruct (m_looterGuid g =? x); [by apply keep_ret|by apply keep_modify].
Qed.

Lemma ReadyCheckResetResponded_ok g : live g -> wp ReadyCheckResetResponded g (fun _ => kept).
Proof.
  intros Hg. eapply (wp_ok no_error); [reflexivity|]. right. apply live_slots; [done|..].
  - rewrite <- list_fmap_compose. by apply list_fmap_ext.
  - by apply unique_flag_fmap, Hg.
  - by apply unique_flag_fmap, Hg.
Qed.

Lemma live_kept {A} (p : GP A) g : wp p g (fun _ => live) -> wp p g (fun _ => kept).
Proof. intros H. eapply wp_mono; [exact H|]. intros a g' Hg. by right. Qed.
Lemma then_tt {A} (p : GP A) g : wp p g (fun _ => kept) -> wp (p;; mret tt) g (fun _ => kept).
Proof. intros H. apply wp_bind. eapply wp_mono; [exact H|]. intros a g' Hg. by apply wp_ret. Qed.

Lemma OfflineReadyCheck_ok w g : live g -> wp (OfflineReadyCheck w) g (fun _ => kept).
Proof.
  intros Hg. unfold OfflineReadyCheck. apply wp_get, live_kept, wp_forM; [done|]. intros m g' _ Hg'.
  destruct (gw_online w (ms_guid m)); [by apply wp_ret|]. by apply upd_member_ok.
Qed.

Lemma AddMember_ok w guid g :
  live g -> places g <> [] -> IsMember g guid = false -> IsFull g = false -> wp (AddMember w guid) g (fun _ => kept).
Proof.
  intros Hg Hne Hx Hf. pose proof Hg as [Hok L S A]. eapply wp_mono; [apply AddMember_run; try done|].
  - rewrite <- IsMember_spec. congruence.
  - intros Hr. unfold IsFull in Hf. rewrite Hr in Hf. apply Z.leb_gt in Hf. by rewrite len_places.
  - assert (created g = true) as Ec by (rewrite created_places; by destruct (places g)). unfold stored in S. by rewrite Ec in S.
  - intros [] g' H; [by right|]. destruct H as [-> _]. by right.
Qed.

Lemma AddLeaderInvite_ok guid free g : live g -> places g = [] -> wp (AddLeaderInvite guid free) g (fun _ => kept).
Proof.
  intros Hg Ep. destruct free; [|by apply (keep_ret false)]. eapply (wp_ok no_error); [reflexivity|]. right.
  pose proof Hg as [Hok L S A]. constructor; [|by left| |done].
  - by apply (group_ok_mem g).
  - intros Ht. specialize (S Ht). assert (created g = false) as Ec by (by rewrite created_places, Ep). rewrite Ec in S.
    match goal with |- holds (created ?g') _ _ _ _ _ _ _ => assert (created g' = false) as -> by exact Ec end.
    destruct S as [Hr Hm]. by constructor.
Qed.

Lemma group_op_ok w op g :
  live g -> group_world_ok w g -> group_enabled w g op -> wp (run_group_op w op) g (fun _ => kept).
Proof.
  intros Hg Hw He. destruct op; cbn [run_group_op group_enabled] in *; try (by apply keep_modify); try apply then_tt.
  - destruct He as (Ep & Hd & Hr). by apply Create_ok.
  - destruct He as (Hn & Hx & Hf). by apply AddMember_ok.
  - apply RemoveMember_ok; [done|done|]. by apply IsMember_spec.
  - by apply ChangeLeader_ok.
  - eapply wp_mono; [apply Disband_ok|]. intros [] g' H. by left.
  - by apply ConvertToLFG_ok.
  - by apply ConvertToRaid_ok.
  - by apply ConvertToGroup_ok.
  - destruct free; [|by apply (keep_ret false)]. eapply (wp_ok no_error); [reflexivity|]. by apply (kept_core g).
  - by apply AddLeaderInvite_ok.
  - destruct He. by apply ChangeMembersGroup_ok.
  - by apply SetGroupMemberFlag_ok.
  - by apply live_kept, upd_member_ok.
  - by apply SetMemberRole_ok.
  - by apply SetTargetIcon_ok.
  - by apply UpdateLooterGuid_ok.
  - by apply SetDungeonDifficulty_ok.
  - by apply SetRaidDifficulty_ok.
  - by apply live_kept, upd_member_ok.
  - by apply ReadyCheckResetResponded_ok.
  - by apply OfflineReadyCheck_ok.
  - destruct He as [Hx Hn]. apply LinkMember_ok; [done| |done]. by apply IsMember_spec.
  - by apply unlink_ok.
  - unfold group_loot. apply wp_get, lift_rolls_ok; [done|].
    apply (roll_op_ok (gw_rolls w) (OpGroupLoot (m_memberMgr g) (m_maxEnchantingLevel g) loot (m_lootThreshold g)));
      [apply Hg|apply Hw|]. split; [by apply linked_few, Hg|exact He].
  - unfold group_need. apply wp_get, lift_rolls_ok; [done|].
    apply (roll_op_ok (gw_rolls w) (OpNeedBeforeGreed (m_memberMgr g) (m_maxEnchantingLevel g) loot (m_lootThreshold g)));
      [apply Hg|apply Hw|]. split; [by apply linked_few, Hg|exact He].
  - apply lift_rolls_ok; [done|]. apply (roll_op_ok (gw_rolls w) (OpVote player item choice)); [apply Hg|apply Hw|exact He].
  - apply lift_rolls_ok; [done|]. apply (roll_op_ok (gw_rolls w) (OpEndRoll loot)); [apply Hg|apply Hw|done].
  - apply lift_rolls_ok; [done|]. apply (roll_op_ok (gw_rolls w) (OpNewLoot loot l)); [apply Hg|apply Hw|exact He].
  - apply lift_rolls_ok; [done|]. apply (roll_op_ok (gw_rolls w) (GroupLootProofs.OpLootGone loot)); [apply Hg|apply Hw|done].
Qed.

Lemma group_reachable_kept g : group_reachable g -> kept g.
Proof.
  induction 1 as [bg bf|g w op r g' _ IH A Hw He Er]; [right; apply Group_new_live|].
  destruct IH as [IH|IH]; [congruence|]. pose proof (group_op_ok w op g IH Hw He) as H. unfold Prelude.wp in H.
  rewrite Er in H. by destruct r.
Qed.
Lemma reachable_live g : group_reachable g -> g_deleted g = false -> live g.
Proof. intros Hr A. destruct (group_reachable_kept g Hr) as [H|H]; [congruence|done]. Qed.


(** ** Loading what was stored *)

Definition row_at (kr : Z * MemberRow) : Z * Z := (kr.1, mr_subgroup kr.2).

Lemma rows_of_lookup t store x r : rows_of t store !! x = Some r <-> db_members t !! x = Some r /\ mr_guid r = store.
Proof. unfold rows_of. by rewrite map_lookup_filter_Some. Qed.

Lemma rows_places store leader type dungeon raid ps t :
  holds true store leader type dungeon raid ps t -> NoDup ps.*1 -> row_at <$> map_to_list (rows_of t store) ≡ₚ ps.
Proof.
  intros [_ Hm] nd. apply NoDup_Permutation.
  - apply (NoDup_fmap_1 fst). rewrite <- list_fmap_compose. apply NoDup_fst_map_to_list.
  - by apply (NoDup_fmap_1 fst).
  - intros [x i]. rewrite list_elem_of_fmap. transitivity (row_place <$> db_members t !! x = Some (store, i)); [|rewrite Hm; tauto]. split.
    + intros ([x' r] & [= -> ->] & [Hr Hs]%elem_of_map_to_list%rows_of_lookup). rewrite Hr. cbn. by rewrite <- Hs.
    + intros (r & Hr & [= -> ->])%fmap_Some. exists (x, r). split; [done|]. by apply elem_of_map_to_list, rows_of_lookup.
Qed.

Lemma rows_count store leader type dungeon raid ps t :
  holds true store leader type dungeon raid ps t -> NoDup ps.*1 -> size (rows_of t store) = length ps.
Proof.
  intros Hh nd. rewrite <- (rows_places _ _ _ _ _ _ _ Hh nd), length_fmap. by rewrite <- length_map_to_list.
Qed.

(** Cleaning leaves alone a group of several members that all exist. *)
Lemma clean_row (ex : Z -> bool) store leader type dungeon raid ps t :
  holds true store leader type dungeon raid ps t -> NoDup ps.*1 -> (1 < length ps)%nat -> ex leader = true ->
  exists row, db_groups (clean_groups ex t) = {[ store := row ]} /\ gr_leaderGuid row = leader /\ gr_groupType row = u8 type /\
    gr_difficulty row = u8 dungeon /\ gr_raiddifficulty row = u8 raid.
Proof.
  intros Hh nd Hl Hex. pose proof (rows_count _ _ _ _ _ _ _ Hh nd) as Hs. destruct Hh as [(row & Er & H1 & H2 & H3 & H4) _].
  exists row. split; [|done]. unfold clean_groups. cbn. rewrite Er.
  rewrite !map_filter_singleton_True; [done|..]; cbn; first [by rewrite H1|by rewrite Hs].
Qed.

Lemma clean_rows (ex : Z -> bool) store leader type dungeon raid ps t :
  holds true store leader type dungeon raid ps t -> NoDup ps.*1 -> (1 < length ps)%nat -> ex leader = true ->
  Forall (fun p => ex p.1 = true) ps ->
  rows_of (clean_members ex (clean_groups ex t)) store = rows_of t store.
Proof.
  intros Hh nd Hl Hex Hps. destruct (clean_row ex _ _ _ _ _ _ _ Hh nd Hl Hex) as (row & Er & _). destruct Hh as [_ Hm].
  apply map_eq. intros x. apply option_eq. intros r. rewrite !rows_of_lookup. unfold clean_members. cbn [db_members upd_members].
  rewrite !map_lookup_filter_Some. cbn [fst snd]. split; [naive_solver|]. intros [Hr Hs]. repeat split; try done.
  - rewrite Hs, Er, lookup_singleton_eq. by eexists.
  - rewrite Forall_forall in Hps. apply (Hps (x, mr_subgroup r)). apply (Hm x (mr_guid r)). by rewrite Hr.
Qed.

Lemma valid_subgroups_app ps ps' : valid_subgroups (ps ++ ps') <-> valid_subgroups ps /\ valid_subgroups ps'.
Proof. apply Forall_app. Qed.

(** What loading the members leaves alone. *)
Definition head (g : Group) := (m_leaderGuid g, m_groupType g, m_dungeonDifficulty g, m_raidDifficulty g, m_dbStoreId g).

Lemma load_members_run w rows g :
  Forall (fun p => gw_exists w p.1 = true) (row_at <$> rows) -> valid_subgroups (row_at <$> rows) ->
  small_subgroups (places g ++ (row_at <$> rows)) -> counted (places g) (m_subGroupsCounts g) ->
  exists g', forM rows (fun kr => LoadMemberFromDB w kr.1 (mr_flags kr.2) (mr_subgroup kr.2) (mr_roles kr.2)) g = (Ok tt, g') /\
    places g' = places g ++ (row_at <$> rows) /\ counted (places g') (m_subGroupsCounts g') /\
    (m_subGroupsCounts g' = None <-> m_subGroupsCounts g = None) /\ head g' = head g.
Proof.
  revert g. induction rows as [|[x r] rows IH]; intros g Hex Hv Hs Hc; cbn [forM].
  { exists g. by rewrite fmap_nil, app_nil_r. }
  rewrite fmap_cons in *. inversion_clear Hex as [|?? Hx Hex']. inversion_clear Hv as [|?? Hx8 Hv'].
  rewrite (cons_middle (row_at (x, r))), app_assoc in *.
  set (g1 := set_slots (m_memberSlots g ++ [mkMemberSlot x (mr_subgroup r) (mr_flags r) (mr_roles r) None]) g).
  assert (places g1 = places g ++ [row_at (x, r)]) as Ep by (unfold places, g1; cbn; by rewrite fmap_app).
  destruct (SubGroupCounter_run 1 (mr_subgroup r) (places g) (places g ++ [row_at (x, r)]) g1) as (v & Er & Hv1 & Hn).
  { exact Hc. }
  { exact Hx8. }
  { intros k. pose proof (small_app_l _ _ Hs k). lia. }
  { intros k. rewrite in_subgroup_app, in_subgroup_cons, in_subgroup_nil. cbn [row_at snd fst]. lia. }
  assert (LoadMemberFromDB w x (mr_flags r) (mr_subgroup r) (mr_roles r) g = (Ok tt, set_counts v g1)) as El.
  { unfold LoadMemberFromDB. cbn in Hx. rewrite Hx. cbn [negb]. unfold SubGroupCounterIncrease.
    exact Er. }
  cbn [fst snd]. rewrite (bind_ok _ _ _ _ _ El).
  destruct (IH (set_counts v g1)) as (g' & Eg & Ep' & Hc' & Hn' & Eh); try done.
  { change (places (set_counts v g1)) with (places g1). by rewrite Ep. }
  { change (counted (places g1) v). by rewrite Ep. }
  exists g'. split; [exact Eg|]. change (places (set_counts v g1)) with (places g1) in Ep'. rewrite Ep in Ep'.
  split; [done|]. split; [done|]. split; [rewrite Hn'; exact Hn|]. rewrite Eh. done.
Qed.

Lemma group_type_byte g : group_ok g -> u8 (m_groupType g) = m_groupType g.
Proof. intros Hok. by destruct (group_type_cases _ (go_type _ Hok)) as [->|[->|[->|[->|[->| ->]]]]]. Qed.

Lemma load_group_run w g row :
  group_ok g -> gw_exists w (m_leaderGuid g) = true ->
  gr_leaderGuid row = m_leaderGuid g -> gr_groupType row = u8 (m_groupType g) ->
  gr_difficulty row = u8 (m_dungeonDifficulty g) -> gr_raiddifficulty row = u8 (m_raidDifficulty g) ->
  exists g1, LoadGroupFromDB w (m_dbStoreId g) row (Group_new false false) = (Ok tt, g1) /\ head g1 = head g /\ places g1 = [] /\
    counted [] (m_subGroupsCounts g1) /\ (m_subGroupsCounts g1 = None <-> m_subGroupsCounts g = None).
Proof.
  intros Hok Hex El Et Ed Er. rewrite (group_type_byte g Hok) in Et. pose proof (go_dungeon _ Hok). pose proof (go_raid _ Hok).
  rewrite u8_small in Ed, Er by lia. unfold LoadGroupFromDB. rewrite El, Hex. cbn [negb].
  pose proof (go_raid_counts _ Hok) as Hrc.
  set (g0 := set_type (gr_groupType row) (set_icons (gr_icons row) (set_threshold (gr_lootThreshold row)
    (set_looter (gr_looterGuid row) (set_method (gr_lootMethod row) (set_leader (m_leaderGuid g)
    (set_store (m_dbStoreId g) (Group_new false false)))))))).
  set (v := if isRaidGroup g then Some (repeat 0 8) else None).
  set (k := fun _ : unit => modify (set_dungeon _);; modify (set_raid _)).
  assert ((get ≫= fun g => (if isRaidGroup g then _initRaidSubGroupsCounter else mret tt) ≫= k) g0 = k tt (set_counts v g0)) as Ek.
  { rewrite (bind_ok get _ g0 g0 g0 eq_refl).
    assert (isRaidGroup g0 = isRaidGroup g) as -> by (unfold isRaidGroup, g0; cbn; by rewrite Et).
    apply (bind_ok _ _ _ tt). unfold v. by destruct (isRaidGroup g). }
  eexists. split.
  { exact Ek. }
  split.
  { unfold head. cbn. rewrite Et, Ed, Er. change MAX_DUNGEON_DIFFICULTY with 3. change MAX_RAID_DIFFICULTY with 6.
    destruct (Z.leb_spec 3 (m_dungeonDifficulty g)), (Z.leb_spec 6 (m_raidDifficulty g)); by (try lia). }
  split; [done|]. cbn. unfold v. destruct (isRaidGroup g); split; try done.
  - apply counts_none.
  - split; [done|]. intros H1. by apply Hrc in H1.
  - split; [|done]. intros _. by apply Hrc.
Qed.

(** C20. A restart gives a party or raid back.  For every group that is not a
    battleground's, with at least two members, all of whom still exist: the
    statements the group sent to the database, executed from the empty tables,
    leave rows that survive the clean-up of [LoadGroups], and loading those rows,
    in whatever order the database returns them, gives a group with the same
    members in the same subgroups, the same leader, type and difficulties, and
    the same subgroup counters. *)
Theorem members_persist g w :
  group_reachable g -> g_deleted g = false -> transient g = false -> 1 < GetMembersCount g ->
  Forall (fun m => gw_exists w (ms_guid m) = true) (m_memberSlots g) ->
  let cleaned := clean_groups (gw_exists w) (tables g) in
  exists row, db_groups cleaned = {[ m_dbStoreId g := row ]} /\
    forall rows, rows ≡ₚ map_to_list (rows_of (clean_members (gw_exists w) cleaned) (m_dbStoreId g)) ->
      exists g', load_rows w (m_dbStoreId g) row rows (Group_new false false) = (Ok tt, g') /\
        places g' ≡ₚ places g /\ head g' = head g /\ m_subGroupsCounts g' = m_subGroupsCounts g.
Proof.
  intros Hr A Ht Hl Hex. pose proof (reachable_live g Hr A) as Hg. pose proof (lv_ok _ Hg) as Hok. pose proof (go_nodup _ Hok) as nd.
  rewrite <- len_places in Hl. assert (1 < length (places g))%nat as Hl' by lia.
  assert (Forall (fun p => gw_exists w p.1 = true) (places g)) as Hexp by (by apply Forall_fmap).
  assert (gw_exists w (m_leaderGuid g) = true) as Hexl.
  { destruct (lv_led _ Hg) as [E|Hin]; [by rewrite E in Hl|].
    apply list_elem_of_fmap in Hin as (p & -> & Hp). rewrite Forall_forall in Hexp. by apply Hexp. }
  assert (holds true (m_dbStoreId g) (m_leaderGuid g) (m_groupType g) (m_dungeonDifficulty g) (m_raidDifficulty g) (places g) (tables g)) as Hh.
  { pose proof (lv_stored _ Hg Ht) as Hh. assert (created g = true) as Ec; [|by rewrite Ec in Hh].
    rewrite created_places. by destruct (places g). }
  destruct (clean_row (gw_exists w) _ _ _ _ _ _ _ Hh nd Hl' Hexl) as (row & Erow & H1 & H2 & H3 & H4).
  exists row. split; [exact Erow|]. intros rows. rewrite (clean_rows (gw_exists w) _ _ _ _ _ _ _ Hh nd Hl' Hexl Hexp). intros Hrows.
  assert (row_at <$> rows ≡ₚ places g) as Hp by (rewrite Hrows; by apply (rows_places _ _ _ _ _ _ _ Hh)).
  destruct (load_group_run w g row Hok Hexl H1 H2 H3 H4) as (g1 & E1 & Eh1 & Ep1 & Hc1 & Hn1).
  destruct (load_members_run w rows g1) as (g' & E' & Ep' & Hc' & Hn' & Eh').
  - by rewrite Hp.
  - unfold valid_subgroups. rewrite Hp. apply Hok.
  - rewrite Ep1. cbn. intros k. rewrite (in_subgroup_perm _ _ k Hp). by apply Hok.
  - by rewrite Ep1.
  - rewrite Ep1 in Ep'. cbn in Ep'. exists g'. split; [unfold load_rows; by rewrite (bind_ok _ _ _ _ _ E1)|].
    split; [by rewrite Ep'|]. split; [congruence|]. pose proof (go_counted _ Hok) as Hcg. rewrite Hn1 in Hn'.
    destruct (m_subGroupsCounts g') as [l'|] eqn:E1', (m_subGroupsCounts g) as [l|] eqn:E2'; [|naive_solver..].
    f_equal. apply (counts_unique (places g') (places g)); [by rewrite Ep'|done|done].
Qed.

(** ** A raid *)

Definition group_world : GroupWorld := {|
  gw_rolls := loot_world; gw_online := fun _ => true; gw_exists := fun _ => true; gw_near := fun _ => true;
  gw_alive := fun _ => true; gw_map := fun _ => 0; gw_enchanting := fun guid => if guid =? 1 then 300 else 0;
  gw_difficulty := fun _ => 1; gw_raid_difficulty := fun _ => 5; gw_lfg_map := 0; gw_new_store := 77
|}.
Definition run_group_ops (ops : list GroupOp) (g : Group) : Group :=
  fold_left (fun g op => (run_group_op group_world op g).2) ops g.

Lemma group_world_fine g : group_world_ok group_world g.
Proof. split; [done|apply loot_world_items]. Qed.

Fixpoint enabled_ops (ops : list GroupOp) (g : Group) : Prop :=
  match ops with
  | [] => True
  | op :: ops' => g_deleted g = false /\ group_enabled group_world g op /\ enabled_ops ops' (run_group_op group_world op g).2
  end.
Lemma reach_ops ops g : group_reachable g -> enabled_ops ops g -> group_reachable (run_group_ops ops g).
Proof.
  revert g. induction ops as [|op ops IH]; intros g Hr He; [done|]. destruct He as (A & He & Hrest).
  apply IH; [|done]. eapply group_op; [exact Hr|exact A|apply group_world_fine|exact He|apply surjective_pairing].
Qed.

(** Player 1 makes a raid with 2 and 3, moves 3, makes 2 main tank and leaves;
    2 leads from then on. *)
Definition raid_ops : list GroupOp :=
  [OpCreate 1; OpAddMember 2; OpConvertToRaid; OpAddMember 3; OpChangeMembersGroup 3 4;
   OpSetGroupMemberFlag 2 true MEMBER_FLAG_MAINTANK; OpRemoveMember 1 GROUP_REMOVEMETHOD_LEAVE].
Definition sample_raid : Group := run_group_ops raid_ops (Group_new false false).

Lemma sample_raid_reachable : group_reachable sample_raid.
Proof.
  apply reach_ops; [constructor|]. vm_compute. by repeat split.
Qed.


Lemma members_persist_witness :
  exists row g', load_rows group_world 77 row [(3, mkMemberRow 77 0 4 0); (2, mkMemberRow 77 2 0 0)] (Group_new false false) = (Ok tt, g') /\
    places g' ≡ₚ [(2, 0); (3, 4)] /\ head g' = (2, 2, 1, 5, 77) /\ m_subGroupsCounts g' = Some [1; 0; 0; 0; 1; 0; 0; 0].
Proof.
  destruct (members_persist sample_raid group_world sample_raid_reachable ltac:(by vm_compute) ltac:(by vm_compute)
    ltac:(by vm_compute) ltac:(by vm_compute; repeat constructor)) as (row & _ & Hload).
  destruct (Hload [(3, mkMemberRow 77 0 4 0); (2, mkMemberRow 77 2 0 0)]) as (g' & Hg'); [by vm_compute; constructor|].
  exists row, g'. exact Hg'.
Defined.

(** ** What groups do wrong *)

(** The members left after 1 left have no enchanting, but the group still has
    his: the level is computed before his slot is erased. *)
Example leaver_lends_his_enchanting :
  let g := run_group_ops [OpCreate 1; OpAddMember 2; OpAddMember 3; OpRemoveMember 1 GROUP_REMOVEMETHOD_LEAVE]
             (Group_new false false) in
  (m_maxEnchantingLevel g, ms_guid <$> m_memberSlots g) = (300, [2; 3]).
Proof. by vm_compute. Qed.

(** The main tank is one member in memory, but the table keeps both rows. *)
Example two_main_tanks_in_the_table :
  let g := run_group_ops [OpCreate 1; OpAddMember 2; OpConvertToRaid; OpSetGroupMemberFlag 1 true MEMBER_FLAG_MAINTANK;
             OpSetGroupMemberFlag 2 true MEMBER_FLAG_MAINTANK] (Group_new false false) in
  ((ms_flags <$> m_memberSlots g), (mr_flags <$> db_members (tables g) !! 1), (mr_flags <$> db_members (tables g) !! 2)) =
  ([0; 2], Some 2, Some 2).
Proof. by vm_compute. Qed.

(** A battleground raid writes flags to the table, where the member's row is that
    of his own group. *)
Example battleground_writes_flags :
  g_statements (run_group_ops [OpCreate 1; OpSetGroupMemberFlag 1 true MEMBER_FLAG_MAINTANK] (Group_new true false)) =
  [CHAR_UPD_GROUP_MEMBER_FLAG 2 1].
Proof. by vm_compute. Qed.

(** A member that joins during a ready check has an answer nobody wrote. *)
Example ready_check_reads_garbage :
  (ReadyCheckAllResponded (run_group_ops [OpCreate 1; OpReadyCheckResetResponded; OpAddMember 2;
    OpReadyCheckMemberHasResponded 1] (Group_new false false))).1 = Err Uninitialised.
Proof. by vm_compute. Qed.

(** A battlefield raid of two is disbanded when one leaves, a battleground raid
    is not. *)
Example battlefield_of_two_disbands :
  let left bg bf := g_deleted (run_group_ops [OpCreate 1; OpAddMember 2; OpRemoveMember 2 GROUP_REMOVEMETHOD_LEAVE]
                                 (Group_new bg bf)) in
  (left true false, left false true) = (false, true).
Proof. by vm_compute. Qed.

(** The way loot is shared does not survive a restart. *)
Example loot_method_forgotten :
  let g := run_group_ops [OpCreate 1; OpAddMember 2; OpSetLootMethod MASTER_LOOT; OpSetLootThreshold 4] (Group_new false false) in
  (m_lootMethod g, m_lootThreshold g, (fun r => (gr_lootMethod r, gr_lootThreshold r)) <$> db_groups (tables g) !! 77) =
  (MASTER_LOOT, 4, Some (GROUP_LOOT, 2)).
Proof. by vm_compute. Qed.
