(* ===== verification/Text.v ===== *)
(** * Text (src/src/serveur/commun/Utilities/Util.cpp)

    Strings as lists of bytes: numbers printed in decimal by [operator<<] and
    read back by [atol], and the [Tokenizer] that splits a string.  A type with a
    text form is a [TextForm], whose law is the round trip. *)

From S2P Require Import Prelude.
From Stdlib Require Import String Ascii.
Local Open Scope Z_scope.

Definition bytes_of_string (s : string) : list Z := (fun c => Z.of_nat (nat_of_ascii c)) <$> list_ascii_of_string s.
(** A string in a packet. *)
Definition cstr (s : list Z) : list Z := s ++ [0].

(** ** Splitting *)

(** The loop of [Tokenizer]; [tok] is the text from [posold] to [posnew]. *)
Fixpoint tokens (sep : Z) (tok src : list Z) : list (list Z) :=
  match src with
  | [] => if bool_decide (tok = []) then [] else [tok]
  | c :: src' =>
      if c =? sep then tok :: tokens sep [] src'
      else if c =? 0 then (if bool_decide (tok = []) then [] else [tok])
      else tokens sep (tok ++ [c]) src'
  end.
Definition Tokenizer (src : list Z) (sep : Z) : list (list Z) := tokens sep [] src.

(** ** Numbers *)

Definition is_digit (c : Z) : bool := (48 <=? c) && (c <=? 57).
Definition is_space (c : Z) : bool := (c =? 32) || ((9 <=? c) && (c <=? 13)).

(** [os << v] for an unsigned [v], most significant digit first; [fuel] is at
    least the number of digits. *)
Fixpoint digits (fuel : nat) (v : Z) (rest : list Z) : list Z :=
  match fuel with
  | O => rest
  | S fuel' => if v <? 10 then 48 + v :: rest else digits fuel' (v / 10) (48 + v mod 10 :: rest)
  end.
Definition print_u64 (v : Z) : list Z := digits 20 v [].

(** [os << std::hex << v]. *)
Fixpoint hex_digits (fuel : nat) (v : Z) (rest : list Z) : list Z :=
  let d := fun c => if c <? 10 then 48 + c else 87 + c in
  match fuel with
  | O => rest
  | S fuel' => if v <? 16 then d v :: rest else hex_digits fuel' (v / 16) (d (v mod 16) :: rest)
  end.
Definition print_hex (v : Z) : list Z := hex_digits 16 v [].
(** [os.width(n)] with [std::right]. *)
Definition pad_left (n : nat) (s : list Z) : list Z := replicate (n - List.length s) 32 ++ s.

Fixpoint scan_digits (acc : Z) (s : list Z) : Z :=
  match s with
  | [] => acc
  | c :: s' => if is_digit c then scan_digits (10 * acc + (c - 48)) s' else acc
  end.
Fixpoint skip_spaces (s : list Z) : list Z :=
  match s with
  | c :: s' => if is_space c then skip_spaces s' else s
  | [] => []
  end.
(** [atol], undefined if the number is not a [long]. *)
Definition atol (s : list Z) : option Z :=
  let v := match skip_spaces s with
           | c :: s' => if c =? 45 then - scan_digits 0 s' else if c =? 43 then scan_digits 0 s' else scan_digits 0 (c :: s')
           | [] => 0
           end in
  if (- 2 ^ 63 <=? v) && (v <? 2 ^ 63) then Some v else None.

(** ** Text forms *)

Class TextForm (A : Type) (valid : A -> Prop) := {
  print : A -> list Z;
  scan : list Z -> option A;
  scan_print a : valid a -> scan (print a) = Some a
}.

Lemma scan_digits_app acc s t : Forall (fun c => is_digit c = true) s -> scan_digits acc (s ++ t) = scan_digits (scan_digits acc s) t.
Proof. intros Hs. revert acc. induction Hs as [|c s Hc _ IH]; intros acc; [done|]. cbn. by rewrite Hc, IH. Qed.

Lemma is_digit_spec d : 0 <= d < 10 -> is_digit (48 + d) = true.
Proof. intros Hd. unfold is_digit. apply andb_true_intro. split; apply Z.leb_le; lia. Qed.

Lemma digits_spec fuel v rest : 0 <= v < 10 ^ Z.of_nat fuel -> (0 < fuel)%nat ->
  exists ds, digits fuel v rest = ds ++ rest /\ ds <> [] /\ Forall (fun c => is_digit c = true) ds /\ scan_digits 0 ds = v.
Proof.
  revert v rest. induction fuel as [|fuel IH]; intros v rest Hv Hf; [lia|]. cbn [digits].
  destruct (Z.ltb_spec v 10) as [Hlt|Hge].
  - exists [48 + v]. assert (is_digit (48 + v) = true) as Hd by (apply is_digit_spec; lia).
    split; [done|]. split; [done|]. split; [by repeat constructor|]. cbn. rewrite Hd. lia.
  - assert (0 <= v / 10 < 10 ^ Z.of_nat fuel) as Hq.
    { rewrite Nat2Z.inj_succ, Z.pow_succ_r in Hv by lia. split; [apply Z.div_pos; lia|]. apply Z.div_lt_upper_bound; lia. }
    destruct fuel as [|fuel]; [cbn in Hq; pose proof (Z.div_le_lower_bound v 10 1); lia|].
    destruct (IH (v / 10) (48 + v mod 10 :: rest) Hq ltac:(lia)) as (ds & E & Hne & Hd & Es).
    pose proof (Z.mod_pos_bound v 10). assert (is_digit (48 + v mod 10) = true) as Hl by (apply is_digit_spec; lia).
    exists (ds ++ [48 + v mod 10]). split; [by rewrite E, <- app_assoc|]. split; [by destruct ds|].
    split; [apply Forall_app; by split; [|constructor]|].
    rewrite scan_digits_app, Es by done. cbn. rewrite Hl. pose proof (Z.div_mod v 10). lia.
Qed.

Lemma print_u64_spec v : 0 <= v < 2 ^ 64 ->
  print_u64 v <> [] /\ Forall (fun c => is_digit c = true) (print_u64 v) /\ scan_digits 0 (print_u64 v) = v.
Proof.
  intros Hv. destruct (digits_spec 20 v []) as (ds & E & H); [split; [lia|]; transitivity (2 ^ 64); [lia|done]|lia|].
  unfold print_u64. by rewrite E, app_nil_r.
Qed.

Lemma digit_bounds c : is_digit c = true -> 48 <= c <= 57.
Proof. unfold is_digit. intros [H1%Z.leb_le H2%Z.leb_le]%andb_prop. lia. Qed.

Lemma atol_print v : 0 <= v < 2 ^ 63 -> atol (print_u64 v) = Some v.
Proof.
  intros Hv. destruct (print_u64_spec v) as (Hne & Hd & Es); [lia|]. unfold atol.
  destruct (print_u64 v) as [|c s]; [done|]. inversion_clear Hd as [|?? Hc Hs]. pose proof (digit_bounds c Hc) as Hb.
  cbn [skip_spaces]. assert (is_space c = false) as ->.
  { unfold is_space. apply orb_false_intro; [apply Z.eqb_neq; lia|]. apply andb_false_intro2, Z.leb_gt. lia. }
  destruct (Z.eqb_spec c 45), (Z.eqb_spec c 43); try lia. rewrite Es.
  destruct (Z.leb_spec (- 2 ^ 63) v), (Z.ltb_spec v (2 ^ 63)); try lia. done.
Qed.

#[export] Instance u63_text : TextForm Z (fun v => 0 <= v < 2 ^ 63) := {| print := print_u64; scan := atol; scan_print := atol_print |}.

(** Words followed by a separator each, as the list of banned players is written. *)
Definition print_words (sep : Z) (l : list (list Z)) : list Z := flat_map (fun t => t ++ [sep]) l.
Definition word (sep : Z) (t : list Z) : Prop := Forall (fun c => c <> sep /\ c <> 0) t.

Lemma tokens_word sep tok t src : word sep t -> tokens sep tok (t ++ src) = tokens sep (tok ++ t) src.
Proof.
  intros Ht. revert tok. induction Ht as [|c t [Hs H0] _ IH]; intros tok; [by rewrite app_nil_r|].
  cbn. destruct (Z.eqb_spec c sep), (Z.eqb_spec c 0); try done. by rewrite IH, <- app_assoc.
Qed.

Lemma Tokenizer_words sep l : Forall (word sep) l -> Tokenizer (print_words sep l) sep = l.
Proof.
  unfold Tokenizer. induction 1 as [|t l Ht _ IH]; [done|]. cbn. rewrite <- app_assoc, tokens_word by done. cbn.
  rewrite Z.eqb_refl. f_equal. exact IH.
Qed.

Lemma print_u64_word v : 0 <= v < 2 ^ 64 -> word 32 (print_u64 v).
Proof.
  intros Hv. destruct (print_u64_spec v Hv) as (_ & Hd & _). unfold word. revert Hd.
  generalize (print_u64 v). induction 1 as [|c l Hc _ IH]; constructor; [|done]. pose proof (digit_bounds c Hc). lia.
Qed.
