(* ===== verification/Channel.v ===== *)
(** * Chat channels (src/src/serveur/jeu/Chat/Channels)

    A channel has players with flags, an owner, a password and a list of banned
    players; [ChannelMgr] finds channels by name, makes them when somebody joins
    and deletes the custom ones that are empty; every player keeps a list of
    pointers to the channels he is on.  A pointer to a channel is a number, and
    following one to a deleted channel is an error.  The world, the sessions and
    their permissions are the [ChannelWorld] of an operation; the [channels]
    table is a part of the state. *)

From S2P Require Import Prelude.
From S2P Require Import Text.
From Stdlib Require Import (notations) String.
From stdpp Require Import sorting.
Local Open Scope Z_scope.

Inductive ChannelError := DanglingChannel | BadNumber | BadFormat | ChannelFuel.

Definition ALLIANCE := 469.
Definition HORDE := 67.
Definition LANG_UNIVERSAL := 0.

Definition CHANNEL_FLAG_CUSTOM := 1.
Definition CHANNEL_FLAG_TRADE := 4.
Definition CHANNEL_FLAG_NOT_LFG := 8.
Definition CHANNEL_FLAG_GENERAL := 16.
Definition CHANNEL_FLAG_CITY := 32.
Definition CHANNEL_FLAG_LFG := 64.
Definition CHANNEL_DBC_FLAG_ZONE_DEP := 2.
Definition CHANNEL_DBC_FLAG_GLOBAL := 4.
Definition CHANNEL_DBC_FLAG_TRADE := 8.
Definition CHANNEL_DBC_FLAG_CITY_ONLY := 16.
Definition CHANNEL_DBC_FLAG_CITY_ONLY2 := 32.
Definition CHANNEL_DBC_FLAG_GUILD_REQ := 131072.
Definition CHANNEL_DBC_FLAG_LFG := 262144.
Definition AREA_FLAG_SLAVE_CAPITAL := 8.
Definition AREA_FLAG_ARENA_INSTANCE := 65536.
Definition MEMBER_FLAG_OWNER := 1.
Definition MEMBER_FLAG_MODERATOR := 2.
Definition MEMBER_FLAG_MUTED := 8.

Definition with_flag (flag : Z) (state : bool) (flags : Z) : Z := if state then Z.lor flags flag else Z.ldiff flags flag.

Record PlayerInfo := mkPlayerInfo { pi_player : Z; pi_flags : Z }.
Definition IsOwner (i : PlayerInfo) : bool := has (pi_flags i) MEMBER_FLAG_OWNER.
Definition IsModerator (i : PlayerInfo) : bool := has (pi_flags i) MEMBER_FLAG_MODERATOR.
Definition IsMuted (i : PlayerInfo) : bool := has (pi_flags i) MEMBER_FLAG_MUTED.
Definition SetFlag (flag : Z) (state : bool) (i : PlayerInfo) : PlayerInfo :=
  mkPlayerInfo (pi_player i) (with_flag flag state (pi_flags i)).
(** What [std::map::operator[]] inserts. *)
Definition no_player : PlayerInfo := mkPlayerInfo 0 0.

Record Channel := mkChannel {
  _announce : bool;
  _ownership : bool;
  _IsSaved : bool;
  _flags : Z;
  _channelId : Z;
  _Team : Z;
  _ownerGUID : Z;
  _name : list Z;
  _password : list Z;
  playersStore : gmap Z PlayerInfo;
  bannedStore : gset Z
}.
Definition set_announce v c := mkChannel v (_ownership c) (_IsSaved c) (_flags c) (_channelId c) (_Team c) (_ownerGUID c) (_name c)
  (_password c) (playersStore c) (bannedStore c).
Definition set_owner v c := mkChannel (_announce c) (_ownership c) (_IsSaved c) (_flags c) (_channelId c) (_Team c) v (_name c)
  (_password c) (playersStore c) (bannedStore c).
Definition set_password v c := mkChannel (_announce c) (_ownership c) (_IsSaved c) (_flags c) (_channelId c) (_Team c) (_ownerGUID c)
  (_name c) v (playersStore c) (bannedStore c).
Definition set_players v c := mkChannel (_announce c) (_ownership c) (_IsSaved c) (_flags c) (_channelId c) (_Team c) (_ownerGUID c)
  (_name c) (_password c) v (bannedStore c).
Definition set_banned v c := mkChannel (_announce c) (_ownership c) (_IsSaved c) (_flags c) (_channelId c) (_Team c) (_ownerGUID c)
  (_name c) (_password c) (playersStore c) v.

(** A row of [channels] without its key. *)
Record ChannelRow := mkChannelRow { cr_announce : bool; cr_ownership : bool; cr_password : list Z; cr_bannedList : option (list Z) }.

(** *** Messages *)

Inductive ChatNotify :=
| CHAT_JOINED_NOTICE (guid : Z)
| CHAT_LEFT_NOTICE (guid : Z)
| CHAT_YOU_JOINED_NOTICE (flags channelId : Z)
| CHAT_YOU_LEFT_NOTICE (channelId : Z) (constant : bool)
| CHAT_WRONG_PASSWORD_NOTICE
| CHAT_NOT_MEMBER_NOTICE
| CHAT_NOT_MODERATOR_NOTICE
| CHAT_PASSWORD_CHANGED_NOTICE (guid : Z)
| CHAT_OWNER_CHANGED_NOTICE (guid : Z)
| CHAT_PLAYER_NOT_FOUND_NOTICE (name : list Z)
| CHAT_NOT_OWNER_NOTICE
| CHAT_CHANNEL_OWNER_NOTICE (name : list Z)
| CHAT_MODE_CHANGE_NOTICE (guid oldflags newflags : Z)
| CHAT_ANNOUNCEMENTS_ON_NOTICE (guid : Z)
| CHAT_ANNOUNCEMENTS_OFF_NOTICE (guid : Z)
| CHAT_MUTED_NOTICE
| CHAT_PLAYER_KICKED_NOTICE (bad good : Z)
| CHAT_BANNED_NOTICE
| CHAT_PLAYER_BANNED_NOTICE (bad good : Z)
| CHAT_PLAYER_UNBANNED_NOTICE (bad good : Z)
| CHAT_PLAYER_ALREADY_MEMBER_NOTICE (guid : Z)
| CHAT_INVITE_NOTICE (guid : Z)
| CHAT_INVITE_WRONG_FACTION_NOTICE
| CHAT_PLAYER_INVITED_NOTICE (name : list Z)
| CHAT_PLAYER_INVITE_BANNED_NOTICE (name : list Z)
| CHAT_NOT_IN_LFG_NOTICE.

Definition notify_type (n : ChatNotify) : Z :=
  match n with
  | CHAT_JOINED_NOTICE _ => 0 | CHAT_LEFT_NOTICE _ => 1 | CHAT_YOU_JOINED_NOTICE _ _ => 2 | CHAT_YOU_LEFT_NOTICE _ _ => 3
  | CHAT_WRONG_PASSWORD_NOTICE => 4 | CHAT_NOT_MEMBER_NOTICE => 5 | CHAT_NOT_MODERATOR_NOTICE => 6
  | CHAT_PASSWORD_CHANGED_NOTICE _ => 7 | CHAT_OWNER_CHANGED_NOTICE _ => 8 | CHAT_PLAYER_NOT_FOUND_NOTICE _ => 9
  | CHAT_NOT_OWNER_NOTICE => 10 | CHAT_CHANNEL_OWNER_NOTICE _ => 11 | CHAT_MODE_CHANGE_NOTICE _ _ _ => 12
  | CHAT_ANNOUNCEMENTS_ON_NOTICE _ => 13 | CHAT_ANNOUNCEMENTS_OFF_NOTICE _ => 14 | CHAT_MUTED_NOTICE => 17
  | CHAT_PLAYER_KICKED_NOTICE _ _ => 18 | CHAT_BANNED_NOTICE => 19 | CHAT_PLAYER_BANNED_NOTICE _ _ => 20
  | CHAT_PLAYER_UNBANNED_NOTICE _ _ => 21 | CHAT_PLAYER_ALREADY_MEMBER_NOTICE _ => 23 | CHAT_INVITE_NOTICE _ => 24
  | CHAT_INVITE_WRONG_FACTION_NOTICE => 25 | CHAT_PLAYER_INVITED_NOTICE _ => 29 | CHAT_PLAYER_INVITE_BANNED_NOTICE _ => 30
  | CHAT_NOT_IN_LFG_NOTICE => 33
  end.
(** What follows the type and the name of the channel. *)
Definition notify_body (n : ChatNotify) : list Z :=
  match n with
  | CHAT_JOINED_NOTICE g | CHAT_LEFT_NOTICE g | CHAT_PASSWORD_CHANGED_NOTICE g | CHAT_OWNER_CHANGED_NOTICE g
  | CHAT_ANNOUNCEMENTS_ON_NOTICE g | CHAT_ANNOUNCEMENTS_OFF_NOTICE g | CHAT_PLAYER_ALREADY_MEMBER_NOTICE g
  | CHAT_INVITE_NOTICE g => le_bytes 8 g
  | CHAT_YOU_JOINED_NOTICE flags id => le_bytes 1 flags ++ le_bytes 4 id ++ le_bytes 4 0
  | CHAT_YOU_LEFT_NOTICE id constant => le_bytes 4 id ++ le_bytes 1 (Z.b2z constant)
  | CHAT_PLAYER_NOT_FOUND_NOTICE name | CHAT_CHANNEL_OWNER_NOTICE name | CHAT_PLAYER_INVITED_NOTICE name
  | CHAT_PLAYER_INVITE_BANNED_NOTICE name => cstr name
  | CHAT_MODE_CHANGE_NOTICE g old new => le_bytes 8 g ++ le_bytes 1 old ++ le_bytes 1 new
  | CHAT_PLAYER_KICKED_NOTICE bad good | CHAT_PLAYER_BANNED_NOTICE bad good | CHAT_PLAYER_UNBANNED_NOTICE bad good =>
      le_bytes 8 bad ++ le_bytes 8 good
  | _ => []
  end.
Definition MakeNotifyPacket (name : list Z) (n : ChatNotify) : list Z := le_bytes 1 (notify_type n) ++ cstr name ++ notify_body n.

Inductive ChannelMessage :=
| MsgNotify (packet : list Z)
| MsgUserlist (constant : bool) (packet : list Z)
| MsgUserlistRemove (packet : list Z)
| MsgChannelList (packet : list Z)
| MsgMemberCount (packet : list Z)
| MsgChat (packet : list Z).

(** *** The world *)

(** A row of ChatChannels.dbc. *)
Record ChatChannelsEntry := mkChatChannelsEntry { ce_ChannelID : Z; ce_flags : Z; ce_pattern : list Z }.
Record AreaTableEntry := mkAreaTableEntry { ae_flags : Z; ae_name : list Z }.

Record ChannelWorld := mkChannelWorld {
  cw_online : Z -> bool;
  cw_find : list Z -> option Z;
  cw_name : Z -> list Z;
  cw_stored_name : Z -> option (list Z);
  cw_team : Z -> Z;
  cw_guild : Z -> Z;
  cw_silent : Z -> bool;
  cw_not_moderator : Z -> bool;
  cw_two_side : Z -> bool;
  cw_see_all : Z -> bool;
  cw_security : Z -> Z;
  cw_player_account : Z -> bool;
  cw_in_group : Z -> bool;
  cw_visible : Z -> Z -> bool;
  cw_gm_visible : Z -> bool;
  cw_ignores : Z -> Z -> bool;
  cw_chat_tag : Z -> Z;
  cw_zone : Z -> option AreaTableEntry;
  cw_loading : Z -> bool;
  cw_gm_level_in_who : Z;
  cw_restricted_lfg : bool;
  cw_two_side_channels : bool;
  cw_preserve : bool;
  cw_channels : list ChatChannelsEntry;
  cw_city : list Z;
  cw_key : list Z -> option (list Z);
  cw_collate : list Z -> list Z;
  cw_like : list Z -> list Z -> bool;
  cw_normalize : list Z -> option (list Z)
}.

(** [m_channels] of every player, the channels, the two managers and the table. *)
Record Chat := mkChat {
  c_heap : gmap Z Channel;
  c_next : Z;
  c_mgrs : gmap (Z * list Z) Z;
  c_mgr_team : gmap Z Z;
  c_joined : gmap Z (list Z);
  c_rows : gmap (list Z * Z) ChannelRow;
  c_sent : list (Z * ChannelMessage)
}.
Definition set_heap v s := mkChat v (c_next s) (c_mgrs s) (c_mgr_team s) (c_joined s) (c_rows s) (c_sent s).
Definition set_next v s := mkChat (c_heap s) v (c_mgrs s) (c_mgr_team s) (c_joined s) (c_rows s) (c_sent s).
Definition set_mgrs v s := mkChat (c_heap s) (c_next s) v (c_mgr_team s) (c_joined s) (c_rows s) (c_sent s).
Definition set_mgr_team v s := mkChat (c_heap s) (c_next s) (c_mgrs s) v (c_joined s) (c_rows s) (c_sent s).
Definition set_joined v s := mkChat (c_heap s) (c_next s) (c_mgrs s) (c_mgr_team s) v (c_rows s) (c_sent s).
Definition set_rows v s := mkChat (c_heap s) (c_next s) (c_mgrs s) (c_mgr_team s) (c_joined s) v (c_sent s).
Definition chat_send l s := mkChat (c_heap s) (c_next s) (c_mgrs s) (c_mgr_team s) (c_joined s) (c_rows s) (c_sent s ++ l).

Abbreviation CP := (prog Chat ChannelError).

Definition m_channels (s : Chat) (player : Z) : list Z := default [] (c_joined s !! player).
(** [Player::JoinedChannel] and [Player::LeftChannel]. *)
Definition JoinedChannel (player c : Z) : CP unit :=
  modify (fun s => set_joined (<[player := m_channels s player ++ [c]]> (c_joined s)) s).
Definition Player_LeftChannel (player c : Z) : CP unit :=
  modify (fun s => set_joined (<[player := filter (fun x => x <> c) (m_channels s player)]> (c_joined s)) s).

Definition deref (c : Z) : CP Channel :=
  s ← get; match c_heap s !! c with Some ch => mret ch | None => throw DanglingChannel end.
Definition upd (c : Z) (f : Channel -> Channel) : CP unit :=
  deref c;; modify (fun s => set_heap (alter f c (c_heap s)) s).

(** ** A channel *)

Definition IsConstant (ch : Channel) : bool := negb (_channelId ch =? 0).
Definition IsOn (ch : Channel) (who : Z) : bool := bool_decide (is_Some (playersStore ch !! who)).
Definition IsBanned (ch : Channel) (guid : Z) : bool := bool_decide (guid ∈ bannedStore ch).
Definition GetPlayerFlags (ch : Channel) (guid : Z) : Z := from_option pi_flags 0 (playersStore ch !! guid).
Definition GetNumPlayers (ch : Channel) : Z := Z.of_nat (size (playersStore ch)).
(** [playersStore[guid]] *)
Definition player_at (ch : Channel) (guid : Z) : PlayerInfo := default no_player (playersStore ch !! guid).
Definition upd_player (guid : Z) (f : PlayerInfo -> PlayerInfo) (ch : Channel) : Channel :=
  set_players (<[guid := f (player_at ch guid)]> (playersStore ch)) ch.

Section Channel.
Context (w : ChannelWorld) (c : Z).

Definition SendToOne (msg : ChannelMessage) (who : Z) : CP unit :=
  if cw_online w who then modify (chat_send [(who, msg)]) else mret tt.
(** The players of [SendToAll], and of [SendToAllButOne]. *)
Definition audience (ch : Channel) (guid : Z) : list Z :=
  filter (fun x => cw_online w x && ((guid =? 0) || negb (cw_ignores w x guid)) = true) ((in_order (playersStore ch)).*1).
Definition SendToAll (msg : ChannelMessage) (guid : Z) : CP unit :=
  ch ← deref c; modify (chat_send ((fun x => (x, msg)) <$> audience ch guid)).
Definition SendToAllButOne (msg : ChannelMessage) (who : Z) : CP unit :=
  ch ← deref c; modify (chat_send ((fun x => (x, msg)) <$> filter (fun x => x <> who) (audience ch 0))).
Definition notify_one (n : ChatNotify) (who : Z) : CP unit :=
  ch ← deref c; SendToOne (MsgNotify (MakeNotifyPacket (_name ch) n)) who.
Definition notify_all (n : ChatNotify) : CP unit :=
  ch ← deref c; SendToAll (MsgNotify (MakeNotifyPacket (_name ch) n)) 0.

Definition print_bans (l : gset Z) : list Z := print_words 32 (print <$> merge_sort Z.le (elements l)).
Definition UpdateChannelInDB : CP unit :=
  ch ← deref c;
  if _IsSaved ch
  then modify (fun s => set_rows (alter (fun _ => mkChannelRow (_announce ch) (_ownership ch) (_password ch)
                 (Some (print_bans (bannedStore ch)))) (cw_collate w (_name ch), _Team ch) (c_rows s)) s)
  else mret tt.

Definition JoinNotify (guid : Z) : CP unit :=
  ch ← deref c;
  let packet := le_bytes 8 guid ++ le_bytes 1 (GetPlayerFlags ch guid) ++ le_bytes 1 (_flags ch) ++
                le_bytes 4 (GetNumPlayers ch) ++ cstr (_name ch) in
  if IsConstant ch then SendToAllButOne (MsgUserlist true packet) guid else SendToAll (MsgUserlist false packet) 0.
Definition LeaveNotify (guid : Z) : CP unit :=
  ch ← deref c;
  let packet := le_bytes 8 guid ++ le_bytes 1 (_flags ch) ++ le_bytes 4 (GetNumPlayers ch) ++ cstr (_name ch) in
  if IsConstant ch then SendToAllButOne (MsgUserlistRemove packet) guid else SendToAll (MsgUserlistRemove packet) 0.

(** [SetOwner(guid, exclaim)] *)
Definition SetOwner (guid : Z) (exclaim : bool) : CP unit :=
  ch ← deref c;
  (if negb (_ownerGUID ch =? 0) && IsOn ch (_ownerGUID ch)
   then upd c (upd_player (_ownerGUID ch) (SetFlag MEMBER_FLAG_OWNER false)) else mret tt);;
  upd c (set_owner guid);;
  if guid =? 0 then mret tt
  else
    ch ← deref c;
    let oldFlag := GetPlayerFlags ch guid in
    upd c (upd_player guid (SetFlag MEMBER_FLAG_MODERATOR true));;
    upd c (upd_player guid (SetFlag MEMBER_FLAG_OWNER true));;
    ch ← deref c;
    notify_all (CHAT_MODE_CHANGE_NOTICE guid oldFlag (GetPlayerFlags ch guid));;
    (if exclaim then notify_all (CHAT_OWNER_CHANGED_NOTICE guid) else mret tt);;
    UpdateChannelInDB.

(** Whether [pass] opens the channel to [player]. *)
Definition may_join (ch : Channel) (player : Z) (pass : list Z) : option ChatNotify :=
  if IsBanned ch player then Some CHAT_BANNED_NOTICE
  else if negb (bool_decide (_password ch = [])) && negb (bool_decide (pass = _password ch)) then Some CHAT_WRONG_PASSWORD_NOTICE
  else if has (_flags ch) CHANNEL_FLAG_LFG && cw_restricted_lfg w && cw_player_account w player && cw_in_group w player
  then Some CHAT_NOT_IN_LFG_NOTICE else None.

Definition JoinChannel (player : Z) (pass : list Z) : CP unit :=
  ch ← deref c;
  if IsOn ch player then (if IsConstant ch then mret tt else notify_one (CHAT_PLAYER_ALREADY_MEMBER_NOTICE player) player)
  else match may_join ch player pass with
  | Some n => notify_one n player
  | None =>
      JoinedChannel player c;;
      (if _announce ch && negb (cw_silent w player) then notify_all (CHAT_JOINED_NOTICE player) else mret tt);;
      upd c (fun ch => set_players (<[player := mkPlayerInfo player 0]> (playersStore ch)) ch);;
      notify_one (CHAT_YOU_JOINED_NOTICE (_flags ch) (_channelId ch)) player;;
      JoinNotify player;;
      if IsConstant ch then mret tt
      else
        ch ← deref c;
        if (_ownerGUID ch =? 0) && _ownership ch then
          SetOwner player (1 <? GetNumPlayers ch);;
          upd c (upd_player player (SetFlag MEMBER_FLAG_MODERATOR true))
        else mret tt
  end.

Definition LeaveChannel (player : Z) (send : bool) : CP unit :=
  ch ← deref c;
  if negb (IsOn ch player) then (if send then notify_one CHAT_NOT_MEMBER_NOTICE player else mret tt)
  else
    (if send then notify_one (CHAT_YOU_LEFT_NOTICE (_channelId ch) (IsConstant ch)) player;; Player_LeftChannel player c
     else mret tt);;
    let changeowner := IsOwner (player_at ch player) in
    upd c (fun ch => set_players (delete player (playersStore ch)) ch);;
    (if _announce ch && negb (cw_silent w player) then notify_all (CHAT_LEFT_NOTICE player) else mret tt);;
    LeaveNotify player;;
    if IsConstant ch then mret tt
    else
      ch ← deref c;
      if changeowner && _ownership ch then
        match head (in_order (playersStore ch)) with
        | None => mret tt
        | Some (_, i) =>
            upd c (upd_player (pi_player i) (SetFlag MEMBER_FLAG_MODERATOR true));;
            SetOwner (pi_player i) true
        end
      else mret tt.

(** What every command of a player asks first. *)
Definition as_member (player : Z) (k : Channel -> CP unit) : CP unit :=
  ch ← deref c; if IsOn ch player then k ch else notify_one CHAT_NOT_MEMBER_NOTICE player.
Definition as_moderator (player : Z) (k : Channel -> CP unit) : CP unit :=
  as_member player (fun ch =>
    if negb (IsModerator (player_at ch player)) && negb (cw_not_moderator w player)
    then notify_one CHAT_NOT_MODERATOR_NOTICE player else k ch).

Definition KickOrBan (good : Z) (badname : list Z) (ban : bool) : CP unit :=
  as_moderator good (fun ch =>
    match cw_find w badname with
    | None => notify_one (CHAT_PLAYER_NOT_FOUND_NOTICE badname) good
    | Some victim =>
        if negb (IsOn ch victim) then notify_one (CHAT_PLAYER_NOT_FOUND_NOTICE badname) good
        else
          let changeowner := _ownerGUID ch =? victim in
          if negb (cw_not_moderator w good) && changeowner && negb (good =? _ownerGUID ch)
          then notify_one CHAT_NOT_OWNER_NOTICE good
          else
            (if ban && negb (IsBanned ch victim) then
               upd c (fun ch => set_banned ({[ victim ]} ∪ bannedStore ch) ch);;
               UpdateChannelInDB;;
               (if cw_silent w good then mret tt else notify_all (CHAT_PLAYER_BANNED_NOTICE victim good))
             else if cw_silent w good then mret tt else notify_all (CHAT_PLAYER_KICKED_NOTICE victim good));;
            upd c (fun ch => set_players (delete victim (playersStore ch)) ch);;
            Player_LeftChannel victim c;;
            ch ← deref c;
            if changeowner && _ownership ch && negb (bool_decide (playersStore ch = ∅)) then
              upd c (upd_player good (SetFlag MEMBER_FLAG_MODERATOR true));; SetOwner good true
            else mret tt
    end).
Definition Kick (player : Z) (badname : list Z) : CP unit := KickOrBan player badname false.
Definition Ban (player : Z) (badname : list Z) : CP unit := KickOrBan player badname true.

Definition UnBan (good : Z) (badname : list Z) : CP unit :=
  as_moderator good (fun ch =>
    match cw_find w badname with
    | None => notify_one (CHAT_PLAYER_NOT_FOUND_NOTICE badname) good
    | Some victim =>
        if negb (IsBanned ch victim) then notify_one (CHAT_PLAYER_NOT_FOUND_NOTICE badname) good
        else
          upd c (fun ch => set_banned (bannedStore ch ∖ {[ victim ]}) ch);;
          notify_all (CHAT_PLAYER_UNBANNED_NOTICE victim good);;
          UpdateChannelInDB
    end).

Definition Password (player : Z) (pass : list Z) : CP unit :=
  as_moderator player (fun _ =>
    upd c (set_password pass);; notify_all (CHAT_PASSWORD_CHANGED_NOTICE player);; UpdateChannelInDB).

(** [SetModerator(guid, set)] and [SetMute(guid, set)] *)
Definition set_member_flag (flag guid : Z) (set : bool) : CP unit :=
  ch ← deref c;
  if Bool.eqb (has (pi_flags (player_at ch guid)) flag) set then mret tt
  else
    let oldFlag := GetPlayerFlags ch guid in
    upd c (upd_player guid (SetFlag flag set));;
    ch ← deref c;
    notify_all (CHAT_MODE_CHANGE_NOTICE guid oldFlag (GetPlayerFlags ch guid)).

Definition two_sides (player other : Z) : bool :=
  negb (cw_team w player =? cw_team w other) && (negb (cw_two_side w player) || negb (cw_two_side w other)).

Definition SetMode (player : Z) (p2n : list Z) (mod_ set : bool) : CP unit :=
  as_moderator player (fun ch =>
    if (player =? _ownerGUID ch) && bool_decide (p2n = cw_name w player) && mod_ then mret tt
    else match cw_find w p2n with
    | None => notify_one (CHAT_PLAYER_NOT_FOUND_NOTICE p2n) player
    | Some victim =>
        if negb (IsOn ch victim) || two_sides player victim then notify_one (CHAT_PLAYER_NOT_FOUND_NOTICE p2n) player
        else if (_ownerGUID ch =? victim) && negb (_ownerGUID ch =? player) then notify_one CHAT_NOT_OWNER_NOTICE player
        else set_member_flag (if mod_ then MEMBER_FLAG_MODERATOR else MEMBER_FLAG_MUTED) victim set
    end).

(** [SetOwner(player, newname)] *)
Definition SetOwner_by (player : Z) (newname : list Z) : CP unit :=
  as_member player (fun ch =>
    if negb (cw_not_moderator w player) && negb (player =? _ownerGUID ch) then notify_one CHAT_NOT_OWNER_NOTICE player
    else match cw_find w newname with
    | None => notify_one (CHAT_PLAYER_NOT_FOUND_NOTICE newname) player
    | Some victim =>
        if negb (IsOn ch victim) || two_sides player victim then notify_one (CHAT_PLAYER_NOT_FOUND_NOTICE newname) player
        else upd c (upd_player victim (SetFlag MEMBER_FLAG_MODERATOR true));; SetOwner victim true
    end).

Definition MakeChannelOwner (ch : Channel) : ChatNotify :=
  CHAT_CHANNEL_OWNER_NOTICE
    (if IsConstant ch || (_ownerGUID ch =? 0) then bytes_of_string "Nobody"
     else match cw_stored_name w (_ownerGUID ch) with
          | None | Some [] => bytes_of_string "PLAYER_NOT_FOUND"
          | Some name => name
          end).
Definition SendWhoOwner (guid : Z) : CP unit :=
  ch ← deref c; notify_one (if IsOn ch guid then MakeChannelOwner ch else CHAT_NOT_MEMBER_NOTICE) guid.

Definition listed (player : Z) (ch : Channel) : list (Z * Z) :=
  flat_map (fun '(x, i) =>
    if cw_online w x && (cw_see_all w player || (cw_security w x <=? cw_gm_level_in_who w)) && cw_visible w x player
    then [(x, pi_flags i)] else []) (in_order (playersStore ch)).
Definition List_ (player : Z) : CP unit :=
  as_member player (fun ch =>
    SendToOne (MsgChannelList (le_bytes 1 1 ++ cstr (_name ch) ++ le_bytes 1 (_flags ch) ++ le_bytes 4 (len (listed player ch)) ++
      flat_map (fun '(x, flags) => le_bytes 8 x ++ le_bytes 1 flags) (listed player ch))) player).

Definition Announce (player : Z) : CP unit :=
  as_moderator player (fun _ =>
    upd c (fun ch => set_announce (negb (_announce ch)) ch);;
    ch ← deref c;
    notify_all ((if _announce ch then CHAT_ANNOUNCEMENTS_ON_NOTICE else CHAT_ANNOUNCEMENTS_OFF_NOTICE) player);;
    UpdateChannelInDB).

Definition chat_packet (ch : Channel) (guid : Z) (what : list Z) (lang : Z) : list Z :=
  le_bytes 1 17 ++ le_bytes 4 lang ++ le_bytes 8 guid ++ le_bytes 4 0 ++ cstr (_name ch) ++ le_bytes 8 guid ++
  le_bytes 4 (len what + 1) ++ cstr what ++ le_bytes 1 (if cw_online w guid then cw_chat_tag w guid else 0).
Definition Say (guid : Z) (what : list Z) (lang : Z) : CP unit :=
  if bool_decide (what = []) then mret tt
  else
    let lang := if cw_two_side_channels w then LANG_UNIVERSAL else lang in
    as_member guid (fun ch =>
      if IsMuted (player_at ch guid) then notify_one CHAT_MUTED_NOTICE guid
      else SendToAll (MsgChat (chat_packet ch guid what lang)) (if IsModerator (player_at ch guid) then 0 else guid)).

Definition Invite (player : Z) (newname : list Z) : CP unit :=
  as_member player (fun ch =>
    match cw_find w newname with
    | None => notify_one (CHAT_PLAYER_NOT_FOUND_NOTICE newname) player
    | Some newp =>
        if negb (cw_gm_visible w newp) then notify_one (CHAT_PLAYER_NOT_FOUND_NOTICE newname) player
        else if IsBanned ch newp then notify_one (CHAT_PLAYER_INVITE_BANNED_NOTICE newname) player
        else if two_sides newp player then notify_one CHAT_INVITE_WRONG_FACTION_NOTICE player
        else if IsOn ch newp then notify_one (CHAT_PLAYER_ALREADY_MEMBER_NOTICE newp) player
        else
          (if cw_ignores w newp player then mret tt else notify_one (CHAT_INVITE_NOTICE player) newp);;
          notify_one (CHAT_PLAYER_INVITED_NOTICE (cw_name w newp)) player
    end).
End Channel.

(** ** The managers *)

Section Managers.
Context (w : ChannelWorld).

Definition LookupEntry (channelId : Z) : option ChatChannelsEntry := find (fun e => ce_ChannelID e =? channelId) (cw_channels w).

Definition dbc_flags (e : ChatChannelsEntry) : Z :=
  let flags := CHANNEL_FLAG_GENERAL in
  let flags := if has (ce_flags e) CHANNEL_DBC_FLAG_TRADE then Z.lor flags CHANNEL_FLAG_TRADE else flags in
  let flags := if has (ce_flags e) CHANNEL_DBC_FLAG_CITY_ONLY2 then Z.lor flags CHANNEL_FLAG_CITY else flags in
  if has (ce_flags e) CHANNEL_DBC_FLAG_LFG then Z.lor flags CHANNEL_FLAG_LFG else Z.lor flags CHANNEL_FLAG_NOT_LFG.

(** [bannedStore] from the words of a row. *)
Fixpoint scan_bans (tokens : list (list Z)) : option (gset Z) :=
  match tokens with
  | [] => Some ∅
  | t :: tokens' =>
      guid ← scan t; banned ← scan_bans tokens';
      Some (if guid =? 0 then banned else {[ guid mod 2 ^ 64 ]} ∪ banned)
  end.
Definition load_bans (bannedList : option (list Z)) : option (gset Z) :=
  match bannedList with None => Some ∅ | Some l => scan_bans (Tokenizer l 32) end.

Definition Channel_new (name : list Z) (channelId team : Z) : CP Channel :=
  match LookupEntry channelId with
  | Some e => mret (mkChannel false false false (dbc_flags e) channelId team 0 name [] ∅ ∅)
  | None =>
      if cw_preserve w then
        s ← get;
        match c_rows s !! (cw_collate w name, team) with
        | Some row =>
            match load_bans (cr_bannedList row) with
            | Some banned =>
                mret (mkChannel (cr_announce row) (cr_ownership row) true CHANNEL_FLAG_CUSTOM channelId team 0 name (cr_password row) ∅ banned)
            | None => throw BadNumber
            end
        | None =>
            modify (fun s => set_rows (<[(cw_collate w name, team) := mkChannelRow true true [] None]> (c_rows s)) s);;
            mret (mkChannel true true true CHANNEL_FLAG_CUSTOM channelId team 0 name [] ∅ ∅)
        end
      else mret (mkChannel true true false CHANNEL_FLAG_CUSTOM channelId team 0 name [] ∅ ∅)
  end.

(** The manager of a team; the alliance's is also the one of everybody. *)
Definition forTeam (team : Z) : option Z :=
  if cw_two_side_channels w then Some ALLIANCE
  else if team =? ALLIANCE then Some ALLIANCE else if team =? HORDE then Some HORDE else None.
Definition setTeam (mgr newTeam : Z) : CP unit := modify (fun s => set_mgr_team (<[mgr := newTeam]> (c_mgr_team s)) s).

Definition GetJoinChannel (mgr : Z) (name : list Z) (channelId : Z) : CP (option Z) :=
  match cw_key w name with
  | None => mret None
  | Some wname =>
      s ← get;
      match c_mgrs s !! (mgr, wname) with
      | Some c => mret (Some c)
      | None =>
          nchan ← Channel_new name channelId (default 0 (c_mgr_team s !! mgr));
          s ← get;
          let c := c_next s in
          modify (fun s => set_next (c + 1) (set_heap (<[c := nchan]> (c_heap s)) s));;
          modify (fun s => set_mgrs (<[(mgr, wname) := c]> (c_mgrs s)) s);;
          mret (Some c)
      end
  end.

Definition MakeNotOnPacket (name : list Z) : list Z := le_bytes 1 5 ++ cstr name.
(** [pkt] is always true. *)
Definition GetChannel (mgr : Z) (name : list Z) (player : Z) : CP (option Z) :=
  match cw_key w name with
  | None => mret None
  | Some wname =>
      s ← get;
      match c_mgrs s !! (mgr, wname) with
      | Some c => mret (Some c)
      | None => modify (chat_send [(player, MsgNotify (MakeNotOnPacket name))]);; mret None
      end
  end.

Definition LeftChannel (mgr : Z) (name : list Z) : CP unit :=
  match cw_key w name with
  | None => mret tt
  | Some wname =>
      s ← get;
      match c_mgrs s !! (mgr, wname) with
      | None => mret tt
      | Some c =>
          ch ← deref c;
          if (GetNumPlayers ch =? 0) && negb (IsConstant ch) then
            modify (fun s => set_mgrs (delete (mgr, wname) (c_mgrs s)) s);;
            modify (fun s => set_heap (delete c (c_heap s)) s)
          else mret tt
      end
  end.

(** ** The commands of a player *)

Definition CanJoinConstantChannelInZone (player : Z) (channel : ChatChannelsEntry) (zone : AreaTableEntry) : bool :=
  if has (ce_flags channel) CHANNEL_DBC_FLAG_ZONE_DEP && has (ae_flags zone) AREA_FLAG_ARENA_INSTANCE then false
  else if has (ce_flags channel) CHANNEL_DBC_FLAG_CITY_ONLY && negb (has (ae_flags zone) AREA_FLAG_SLAVE_CAPITAL) then false
  else if has (ce_flags channel) CHANNEL_DBC_FLAG_GUILD_REQ && negb (cw_guild w player =? 0) then false
  else true.

Definition may_join_constant (player channelId : Z) : bool :=
  (channelId =? 0) ||
  match LookupEntry channelId, cw_zone w player with
  | Some channel, Some zone => CanJoinConstantChannelInZone player channel zone
  | _, _ => false
  end.
Definition HandleJoinChannel (player channelId : Z) (channelName password : list Z) : CP unit :=
  if negb (may_join_constant player channelId) || bool_decide (channelName = []) then mret tt
  else match forTeam (cw_team w player) with
  | None => mret tt
  | Some mgr =>
      setTeam mgr (cw_team w player);;
      channel ← GetJoinChannel mgr channelName channelId;
      match channel with Some c => JoinChannel w c player password | None => mret tt end
  end.

Definition HandleLeaveChannel (player : Z) (channelName : list Z) : CP unit :=
  if bool_decide (channelName = []) then mret tt
  else match forTeam (cw_team w player) with
  | None => mret tt
  | Some mgr =>
      channel ← GetChannel mgr channelName player;
      match channel with Some c => LeaveChannel w c player true | None => mret tt end;;
      LeftChannel mgr channelName
  end.

(** What the other handlers do with the channel they find. *)
Definition on_channel (player : Z) (channelName : list Z) (k : Z -> CP unit) : CP unit :=
  match forTeam (cw_team w player) with
  | None => mret tt
  | Some mgr =>
      channel ← GetChannel mgr channelName player;
      match channel with Some c => k c | None => mret tt end
  end.
Definition on_channel_named (player : Z) (channelName targetName : list Z) (k : Z -> list Z -> CP unit) : CP unit :=
  match cw_normalize w targetName with
  | None => mret tt
  | Some target => on_channel player channelName (fun c => k c target)
  end.

Definition HandleChannelList (player : Z) (channelName : list Z) : CP unit :=
  on_channel player channelName (fun c => List_ w c player).
Definition HandleChannelPassword (player : Z) (channelName password : list Z) : CP unit :=
  on_channel player channelName (fun c => Password w c player password).
Definition HandleChannelSetOwner (player : Z) (channelName targetName : list Z) : CP unit :=
  on_channel_named player channelName targetName (fun c target => SetOwner_by w c player target).
Definition HandleChannelOwner (player : Z) (channelName : list Z) : CP unit :=
  on_channel player channelName (fun c => SendWhoOwner w c player).
Definition HandleChannelModerator (player : Z) (channelName targetName : list Z) : CP unit :=
  on_channel_named player channelName targetName (fun c target => SetMode w c player target true true).
Definition HandleChannelUnmoderator (player : Z) (channelName targetName : list Z) : CP unit :=
  on_channel_named player channelName targetName (fun c target => SetMode w c player target true false).
Definition HandleChannelMute (player : Z) (channelName targetName : list Z) : CP unit :=
  on_channel_named player channelName targetName (fun c target => SetMode w c player target false true).
Definition HandleChannelUnmute (player : Z) (channelName targetName : list Z) : CP unit :=
  on_channel_named player channelName targetName (fun c target => SetMode w c player target false false).
Definition HandleChannelInvite (player : Z) (channelName targetName : list Z) : CP unit :=
  on_channel_named player channelName targetName (fun c target => Invite w c player target).
Definition HandleChannelKick (player : Z) (channelName targetName : list Z) : CP unit :=
  on_channel_named player channelName targetName (fun c target => Kick w c player target).
Definition HandleChannelBan (player : Z) (channelName targetName : list Z) : CP unit :=
  on_channel_named player channelName targetName (fun c target => Ban w c player target).
Definition HandleChannelUnban (player : Z) (channelName targetName : list Z) : CP unit :=
  on_channel_named player channelName targetName (fun c target => UnBan w c player target).
Definition HandleChannelAnnouncements (player : Z) (channelName : list Z) : CP unit :=
  on_channel player channelName (fun c => Announce w c player).
Definition HandleGetChannelMemberCount (player : Z) (channelName : list Z) : CP unit :=
  on_channel player channelName (fun c =>
    ch ← deref c;
    modify (chat_send [(player, MsgMemberCount (cstr (_name ch) ++ le_bytes 1 (_flags ch) ++ le_bytes 4 (GetNumPlayers ch)))])).
(** [HandleMessagechatOpcode] for a channel, once the level is high enough. *)
Definition HandleChannelMessage (player : Z) (channelName msg : list Z) (lang : Z) : CP unit :=
  on_channel player channelName (fun c => Say w c player msg lang).

(** The command of a game master. *)
Definition HandleChannelSetOwnership (player : Z) (channelStr : list Z) (on : bool) : CP unit :=
  on_channel player channelStr (fun c =>
    upd c (fun ch => mkChannel (_announce ch) on (_IsSaved ch) (_flags ch) (_channelId ch) (_Team ch) (_ownerGUID ch) (_name ch)
      (_password ch) (playersStore ch) (bannedStore ch)));;
  modify (fun s => set_rows (map_imap (fun '(name, _) row =>
    Some (if cw_like w name channelStr then mkChannelRow (cr_announce row) on (cr_password row) (cr_bannedList row) else row)) (c_rows s)) s).

(** ** The channels of a player *)

Fixpoint CleanupChannels_loop (fuel : nat) (player : Z) : CP unit :=
  s ← get;
  match m_channels s player with
  | [] => mret tt
  | c :: rest =>
      match fuel with
      | O => throw ChannelFuel
      | S fuel =>
          modify (fun s => set_joined (<[player := rest]> (c_joined s)) s);;
          LeaveChannel w c player false;;
          match forTeam (cw_team w player) with
          | Some mgr => ch ← deref c; LeftChannel mgr (_name ch)
          | None => mret tt
          end;;
          CleanupChannels_loop fuel player
      end
  end.
Definition CleanupChannels (player : Z) : CP unit :=
  s ← get; CleanupChannels_loop (length (m_channels s player)) player.

(** [snprintf(buf, size, pattern, ext)] for a pattern with at most one directive, [%s]. *)
Fixpoint format_s (pattern : list Z) (ext : option (list Z)) : option (list Z) :=
  match pattern with
  | [] => Some []
  | c :: rest =>
      if c =? 37 then
        match rest with
        | d :: rest' =>
            if d =? 37 then cons 37 <$> format_s rest' ext
            else if d =? 115 then match ext with Some e => app e <$> format_s rest' None | None => None end
            else None
        | [] => None
        end
      else cons c <$> format_s rest ext
  end.
Definition snprintf_s (size : nat) (pattern ext : list Z) : CP (list Z) :=
  match format_s pattern (Some ext) with Some l => mret (take (size - 1) l) | None => throw BadFormat end.

(** The first channel of the list with that id. *)
Fixpoint find_used (l : list Z) (channelId : Z) : CP (option Z) :=
  match l with
  | [] => mret None
  | c :: l' => ch ← deref c; if _channelId ch =? channelId then mret (Some c) else find_used l' channelId
  end.

Definition opt_run {A} (o : option A) (k : A -> CP unit) : CP unit := match o with Some x => k x | None => mret tt end.

(** The tail of the loop body of [UpdateLocalChannels]. *)
Definition switch_channel (mgr player : Z) (joinChannel removeChannel : option Z) (sendRemove : bool) : CP unit :=
  opt_run joinChannel (fun c => JoinChannel w c player []);;
  opt_run removeChannel (fun c =>
    LeaveChannel w c player sendRemove;;
    ch ← deref c;
    Player_LeftChannel player c;;
    LeftChannel mgr (_name ch)).

Definition update_local_channel (mgr player : Z) (zone : AreaTableEntry) (channel : ChatChannelsEntry) : CP unit :=
  s ← get;
  usedChannel ← find_used (m_channels s player) (ce_ChannelID channel);
  if CanJoinConstantChannelInZone player channel zone then
    if negb (has (ce_flags channel) CHANNEL_DBC_FLAG_GLOBAL) then
      let city := has (ce_flags channel) CHANNEL_DBC_FLAG_CITY_ONLY in
      if city && bool_decide (is_Some usedChannel) then mret tt
      else
        name ← snprintf_s 100 (ce_pattern channel) (if city then cw_city w else ae_name zone);
        joinChannel ← GetJoinChannel mgr name (ce_ChannelID channel);
        match usedChannel with
        | Some used =>
            if bool_decide (joinChannel = Some used) then switch_channel mgr player None None true
            else switch_channel mgr player joinChannel (Some used) false
        | None => switch_channel mgr player joinChannel None true
        end
    else
      joinChannel ← GetJoinChannel mgr (ce_pattern channel) (ce_ChannelID channel);
      switch_channel mgr player joinChannel None true
  else switch_channel mgr player None usedChannel true.

(** [newZone] is where the player is; [far] is [IsBeingTeleportedFar]. *)
Definition UpdateLocalChannels (player : Z) (far : bool) : CP unit :=
  if cw_loading w player && negb far then mret tt
  else match cw_zone w player, forTeam (cw_team w player) with
  | Some zone, Some mgr => forM (cw_channels w) (update_local_channel mgr player zone)
  | _, _ => mret tt
  end.

(** [LeaveLFGChannel] *)
Fixpoint find_lfg (l : list Z) : CP (option Z) :=
  match l with
  | [] => mret None
  | c :: l' => ch ← deref c; if has (_flags ch) CHANNEL_FLAG_LFG then mret (Some c) else find_lfg l'
  end.
Definition LeaveLFGChannel (player : Z) : CP unit :=
  s ← get; channel ← find_lfg (m_channels s player); opt_run channel (fun c => LeaveChannel w c player true).
End Managers.

(** ** Commands *)

Inductive ChatCommand :=
| CmdJoin (channelId : Z) (channelName password : list Z)
| CmdLeave (channelName : list Z)
| CmdList (channelName : list Z)
| CmdPassword (channelName password : list Z)
| CmdSetOwner (channelName targetName : list Z)
| CmdOwner (channelName : list Z)
| CmdModerator (channelName targetName : list Z)
| CmdUnmoderator (channelName targetName : list Z)
| CmdMute (channelName targetName : list Z)
| CmdUnmute (channelName targetName : list Z)
| CmdInvite (channelName targetName : list Z)
| CmdKick (channelName targetName : list Z)
| CmdBan (channelName targetName : list Z)
| CmdUnban (channelName targetName : list Z)
| CmdAnnouncements (channelName : list Z)
| CmdMemberCount (channelName : list Z)
| CmdMessage (channelName msg : list Z) (lang : Z)
| CmdSetOwnership (channelStr : list Z) (on : bool)
| CmdCleanup
| CmdUpdateLocal (far : bool).

#[export] Instance ChatCommand_eq_dec : EqDecision ChatCommand.
Proof. solve_decision. Defined.

Definition run_command (w : ChannelWorld) (player : Z) (cmd : ChatCommand) : CP unit :=
  match cmd with
  | CmdJoin channelId name password => HandleJoinChannel w player channelId name password
  | CmdLeave name => HandleLeaveChannel w player name
  | CmdList name => HandleChannelList w player name
  | CmdPassword name password => HandleChannelPassword w player name password
  | CmdSetOwner name target => HandleChannelSetOwner w player name target
  | CmdOwner name => HandleChannelOwner w player name
  | CmdModerator name target => HandleChannelModerator w player name target
  | CmdUnmoderator name target => HandleChannelUnmoderator w player name target
  | CmdMute name target => HandleChannelMute w player name target
  | CmdUnmute name target => HandleChannelUnmute w player name target
  | CmdInvite name target => HandleChannelInvite w player name target
  | CmdKick name target => HandleChannelKick w player name target
  | CmdBan name target => HandleChannelBan w player name target
  | CmdUnban name target => HandleChannelUnban w player name target
  | CmdAnnouncements name => HandleChannelAnnouncements w player name
  | CmdMemberCount name => HandleGetChannelMemberCount w player name
  | CmdMessage name msg lang => HandleChannelMessage w player name msg lang
  | CmdSetOwnership name on => HandleChannelSetOwnership w player name on
  | CmdCleanup => CleanupChannels w player
  | CmdUpdateLocal far => UpdateLocalChannels w player far
  end.
