(* ===== verification/ChannelProofs.v ===== *)
(** * Chat channels: the invariant, the owner, the bans (model in Channel.v)

    [acts p c ch ch' g] says what a program does to the channel it works on and
    to the lists of the players; it turns every operation of a channel into a
    function of its fields.  [chat_ok] ties the channels, the managers, the
    players' lists and the table together. *)

From S2P Require Import Prelude.
From S2P Require Import Text.
From S2P Require Import Channel.
From stdpp Require Import list sorting.
Local Open Scope Z_scope.
#[local] Set Warnings "-clear-no-such-hyp".

Definition no_error (e : ChannelError) : Prop := False.
Abbreviation wp := (Prelude.wp no_error).

(** ** The list of bans *)

Definition ban_ids (b : gset Z) : Prop := forall g, g ∈ b -> 0 < g < 2 ^ 63.
Definition row_ok (row : ChannelRow) : Prop := exists b, load_bans (cr_bannedList row) = Some b /\ ban_ids b.
Definition rows_ok (s : Chat) : Prop := forall k row, c_rows s !! k = Some row -> row_ok row.

Lemma scan_print_bans (l : list Z) : Forall (fun g => 0 < g < 2 ^ 63) l -> scan_bans (print <$> l) = Some (list_to_set l).
Proof.
  induction 1 as [|g l Hg _ IH]; [done|]. change (print <$> g :: l) with (print g :: (print <$> l)). cbn [scan_bans].
  rewrite scan_print by lia. cbn [mbind option_bind]. rewrite IH. cbn. destruct (Z.eqb_spec g 0); [lia|].
  by rewrite Z.mod_small by lia.
Qed.

Lemma load_print_bans b : ban_ids b -> load_bans (Some (print_bans b)) = Some b.
Proof.
  intros Hb. unfold load_bans, print_bans.
  assert (Forall (fun g => 0 < g < 2 ^ 63) (merge_sort Z.le (elements b))) as Hl.
  { rewrite merge_sort_Permutation. apply Forall_forall. intros g Hg. by apply Hb, elem_of_elements. }
  rewrite Tokenizer_words.
  - rewrite scan_print_bans by done. f_equal. apply set_eq. intros g.
    by rewrite elem_of_list_to_set, merge_sort_Permutation, elem_of_elements.
  - apply Forall_fmap. eapply Forall_impl; [exact Hl|]. intros g Hg. apply (print_u64_word g). destruct Hg; lia.
Qed.

(** ** Acting on one channel *)

Record at_chan (c : Z) (ch : Channel) (j : gmap Z (list Z)) (s0 s : Chat) : Prop := {
  at_heap : c_heap s = <[c := ch]> (c_heap s0);
  at_next : c_next s = c_next s0;
  at_mgrs : c_mgrs s = c_mgrs s0;
  at_joined : c_joined s = j;
  at_rows : rows_ok s
}.

Lemma at_start c ch s : c_heap s !! c = Some ch -> rows_ok s -> at_chan c ch (c_joined s) s s.
Proof. intros Hc Hr. split; try done. by rewrite insert_id. Qed.

Definition acts {A} (p : prog Chat ChannelError A) (c : Z) (ch ch' : Channel) (g : gmap Z (list Z) -> gmap Z (list Z)) : Prop :=
  forall j s0 s, at_chan c ch j s0 s -> wp p s (fun _ => at_chan c ch' (g j) s0).
Definition quiet (p : prog Chat ChannelError unit) (c : Z) (ch : Channel) : Prop := acts p c ch ch id.

Section Acts.
Context (c : Z).
Implicit Types ch : Channel.

Lemma acts_ret {A} (a : A) ch : acts (mret a) c ch ch id.
Proof. by intros j s0 s Hs. Qed.
Lemma acts_deref {A} (k : Channel -> prog Chat ChannelError A) ch ch' g : acts (k ch) c ch ch' g -> acts (deref c ≫= k) c ch ch' g.
Proof.
  intros Hk j s0 s Hs. apply (wp_seq no_error _ _ _ ch s); [|by apply Hk].
  unfold deref, mbind, prog_bind, get. cbn. by rewrite (at_heap _ _ _ _ _ Hs), lookup_insert_eq.
Qed.
Lemma acts_seq {A B} (p : prog Chat ChannelError A) (k : A -> prog Chat ChannelError B) ch ch1 ch2 g1 g2 :
  acts p c ch ch1 g1 -> (forall a, acts (k a) c ch1 ch2 g2) -> acts (p ≫= k) c ch ch2 (fun j => g2 (g1 j)).
Proof. intros Hp Hk j s0 s Hs. apply wp_bind. eapply wp_mono; [by apply Hp|]. intros a s' Hs'. by apply Hk. Qed.
Lemma acts_quiet {A} (p : prog Chat ChannelError unit) (k : unit -> prog Chat ChannelError A) ch ch' g :
  quiet p c ch -> acts (k tt) c ch ch' g -> acts (p ≫= k) c ch ch' g.
Proof. intros Hp Hk. apply (acts_seq _ _ _ _ _ _ _ Hp). by intros []. Qed.
Lemma acts_upd f ch : acts (upd c f) c ch (f ch) id.
Proof.
  apply acts_deref. intros j s0 s Hs. destruct Hs as [Hh Hn Hm Hj Hr]. split; try done. cbn. rewrite Hh.
  apply map_eq. intros x. destruct (decide (x = c)) as [->|Hx].
  - by rewrite lookup_alter_eq, !lookup_insert_eq.
  - by rewrite lookup_alter_ne, !lookup_insert_ne.
Qed.
Lemma acts_upd_then {A} f (k : unit -> prog Chat ChannelError A) ch ch' g :
  acts (k tt) c (f ch) ch' g -> acts (upd c f ≫= k) c ch ch' g.
Proof. intros Hk. apply (acts_seq _ _ _ _ _ _ _ (acts_upd f ch)). by intros []. Qed.
Lemma acts_if {A} (b : bool) (p q : prog Chat ChannelError A) ch ch1 ch2 g :
  acts p c ch ch1 g -> acts q c ch ch2 g -> acts (if b then p else q) c ch (if b then ch1 else ch2) g.
Proof. by destruct b. Qed.
Lemma quiet_if (b : bool) (p q : prog Chat ChannelError unit) ch : quiet p c ch -> quiet q c ch -> quiet (if b then p else q) c ch.
Proof. by destruct b. Qed.
Lemma quiet_ret ch : quiet (mret tt) c ch.
Proof. apply acts_ret. Qed.
Lemma quiet_send l ch : quiet (modify (chat_send l)) c ch.
Proof. intros j s0 s []. by split. Qed.

Context (w : ChannelWorld).
Lemma quiet_one msg who ch : quiet (SendToOne w msg who) c ch.
Proof. apply quiet_if; [apply quiet_send|apply quiet_ret]. Qed.
Lemma quiet_all msg guid ch : quiet (SendToAll w c msg guid) c ch.
Proof. apply acts_deref, quiet_send. Qed.
Lemma quiet_all_but msg who ch : quiet (SendToAllButOne w c msg who) c ch.
Proof. apply acts_deref, quiet_send. Qed.
Lemma quiet_notify_one n who ch : quiet (notify_one w c n who) c ch.
Proof. apply acts_deref, quiet_one. Qed.
Lemma quiet_notify_all n ch : quiet (notify_all w c n) c ch.
Proof. apply acts_deref, quiet_all. Qed.
Lemma quiet_join guid ch : quiet (JoinNotify w c guid) c ch.
Proof. apply acts_deref, quiet_if; [apply quiet_all_but|apply quiet_all]. Qed.
Lemma quiet_leave guid ch : quiet (LeaveNotify w c guid) c ch.
Proof. apply acts_deref, quiet_if; [apply quiet_all_but|apply quiet_all]. Qed.
Lemma quiet_db ch : ban_ids (bannedStore ch) -> quiet (UpdateChannelInDB w c) c ch.
Proof.
  intros Hb. apply acts_deref, quiet_if; [|apply quiet_ret]. intros j s0 s [? ? ? ? Hr]. split; try done.
  intros k row. cbn. destruct (decide (k = (cw_collate w (_name ch), _Team ch))) as [->|Hk].
  - rewrite lookup_alter_eq. intros (r & _ & ->)%fmap_Some. exists (bannedStore ch). by split; [apply load_print_bans|].
  - rewrite lookup_alter_ne by done. apply Hr.
Qed.
End Acts.

Create HintDb quiet.
#[export] Hint Resolve quiet_ret quiet_send quiet_one quiet_all quiet_all_but quiet_notify_one quiet_notify_all quiet_join
  quiet_leave : quiet.
#[export] Hint Resolve quiet_if : quiet.

(** ** Flags *)

Lemma has_with n m b f : 0 <= n -> 0 <= m -> has (with_flag (2 ^ n) b f) (2 ^ m) = if n =? m then b else has f (2 ^ m).
Proof.
  intros Hn Hm. rewrite !has_bit by done. unfold with_flag. destruct b.
  - rewrite Z.lor_spec, Z.pow2_bits_eqb by done. destruct (n =? m); [apply orb_true_r|apply orb_false_r].
  - rewrite Z.ldiff_spec, Z.pow2_bits_eqb by done. destruct (n =? m); [apply andb_false_r|apply andb_true_r].
Qed.

Lemma owner_with n b i : 0 <= n -> IsOwner (SetFlag (2 ^ n) b i) = if n =? 0 then b else IsOwner i.
Proof. intros Hn. by apply (has_with n 0). Qed.
Lemma moderator_with n b i : 0 <= n -> IsModerator (SetFlag (2 ^ n) b i) = if n =? 1 then b else IsModerator i.
Proof. intros Hn. by apply (has_with n 1). Qed.

(** ** A well formed channel *)

Lemma IsOn_spec ch p : IsOn ch p = true <-> is_Some (playersStore ch !! p).
Proof. apply bool_decide_eq_true. Qed.

Record base_ok (ch : Channel) : Prop := {
  base_player : forall p i, playersStore ch !! p = Some i -> pi_player i = p /\ 0 < p < 2 ^ 63;
  base_owner : forall p i, playersStore ch !! p = Some i -> IsOwner i = true -> p = _ownerGUID ch;
  base_ids : ban_ids (bannedStore ch);
  base_banned : forall p, p ∈ bannedStore ch -> playersStore ch !! p = None
}.
(** The owner is on the channel, with both flags. *)
Definition owner_on (ch : Channel) : Prop :=
  exists i, playersStore ch !! _ownerGUID ch = Some i /\ IsOwner i = true /\ IsModerator i = true.
Definition owned (ch : Channel) : Prop :=
  _channelId ch = 0 -> _ownership ch = true -> playersStore ch <> ∅ -> owner_on ch.

Definition upd_flag (flag : Z) (state : bool) (guid : Z) : Channel -> Channel := upd_player guid (SetFlag flag state).

Lemma upd_lookup ch g f p : playersStore (upd_player g f ch) !! p = if decide (p = g) then Some (f (player_at ch g)) else playersStore ch !! p.
Proof. cbn. case_decide; [subst; by rewrite lookup_insert_eq|by rewrite lookup_insert_ne]. Qed.
Lemma upd_on ch g f p : IsOn ch g = true -> IsOn (upd_player g f ch) p = IsOn ch p.
Proof.
  intros Hg%IsOn_spec. unfold IsOn. rewrite upd_lookup. case_decide as E; [subst|done].
  rewrite !bool_decide_true; [done|done|by eexists].
Qed.
Lemma player_at_on ch g i : playersStore ch !! g = Some i -> player_at ch g = i.
Proof. intros E. unfold player_at. by rewrite E. Qed.

(** A flag of a player who is on the channel; nobody but the owner may get the owner's. *)
Lemma base_flag ch n b g : base_ok ch -> 0 <= n -> IsOn ch g = true -> (n = 0 -> b = true -> g = _ownerGUID ch) ->
  base_ok (upd_player g (SetFlag (2 ^ n) b) ch).
Proof.
  intros [Hp Ho Hi Hb] Hn Hg%IsOn_spec Hf. destruct Hg as [i Hg]. split; try done.
  - intros p i'. rewrite upd_lookup, (player_at_on _ _ _ Hg). case_decide; [intros [= <-]; subst; by apply (Hp g i)|by apply Hp].
  - intros p i'. rewrite upd_lookup, (player_at_on _ _ _ Hg). case_decide; [|by apply Ho]. intros [= <-]. subst.
    rewrite owner_with by done. destruct (Z.eqb_spec n 0) as [->|]; [by apply Hf|by apply (Ho g i)].
  - intros p Hpb. rewrite upd_lookup. case_decide; [subst; by rewrite (Hb g Hpb) in Hg|by apply Hb].
Qed.

(** ** What [SetOwner] does *)

Definition drop_owner (ch : Channel) : Channel :=
  if negb (_ownerGUID ch =? 0) && IsOn ch (_ownerGUID ch) then upd_player (_ownerGUID ch) (SetFlag MEMBER_FLAG_OWNER false) ch else ch.
Definition make_owner (g : Z) (ch : Channel) : Channel :=
  upd_player g (SetFlag MEMBER_FLAG_OWNER true) (upd_player g (SetFlag MEMBER_FLAG_MODERATOR true) (set_owner g (drop_owner ch))).

Lemma acts_SetOwner w c g e ch : g <> 0 -> ban_ids (bannedStore ch) -> acts (SetOwner w c g e) c ch (make_owner g ch) id.
Proof.
  intros Hg Hb. unfold SetOwner. apply acts_deref.
  apply (acts_seq c _ _ _ (drop_owner ch) _ id id); [unfold drop_owner; apply acts_if; [apply acts_upd|apply acts_ret]|intros _].
  apply acts_upd_then. destruct (Z.eqb_spec g 0); [done|]. apply acts_deref, acts_upd_then, acts_upd_then, acts_deref.
  apply acts_quiet; [auto with quiet|]. apply acts_quiet; [auto with quiet|]. apply quiet_db. revert Hb. cbn. unfold drop_owner.
  by case_match.
Qed.

Lemma drop_owner_ok ch : base_ok ch ->
  base_ok (drop_owner ch) /\ (forall p, IsOn (drop_owner ch) p = IsOn ch p) /\
  (forall p i, playersStore (drop_owner ch) !! p = Some i -> IsOwner i = false \/ p = 0).
Proof.
  intros Hch. unfold drop_owner. destruct (negb _ && _) eqn:E.
  - apply andb_prop in E as [_ Ho]. split_and!.
    + apply (base_flag ch 0 false); done.
    + intros p. by apply upd_on.
    + intros p i. rewrite upd_lookup. case_decide as Ep.
      * intros [= <-]. left. by apply (owner_with 0 false).
      * intros Hi. left. destruct (IsOwner i) eqn:Eo; [|done]. by apply (base_owner ch Hch) in Hi.
  - split_and!; [done|done|]. intros p i Hi. left. destruct (IsOwner i) eqn:Eo; [|done].
    pose proof (base_owner ch Hch p i Hi Eo) as ->. pose proof (proj2 (base_player ch Hch _ i Hi)).
    apply andb_false_iff in E as [E|E]; [apply negb_false_iff, Z.eqb_eq in E; lia|].
    unfold IsOn in E. by rewrite Hi in E.
Qed.

Lemma make_owner_ok g ch : base_ok ch -> IsOn ch g = true ->
  base_ok (make_owner g ch) /\ (forall p, IsOn (make_owner g ch) p = IsOn ch p) /\ owner_on (make_owner g ch).
Proof.
  intros Hch Hg. destruct (drop_owner_ok ch Hch) as (Hd & Hon & Hno).
  assert (base_ok (set_owner g (drop_owner ch))) as H1.
  { destruct Hd as [Hp Ho Hi Hb]. split; try done. cbn. intros p i Hpi Eo. pose proof (proj2 (Hp p i Hpi)).
    destruct (Hno p i Hpi) as [En| ->]; [congruence|lia]. }
  assert (forall p, IsOn (set_owner g (drop_owner ch)) p = IsOn ch p) as Hon1 by apply Hon.
  pose proof (base_flag _ 1 true g H1 ltac:(lia) ltac:(by rewrite Hon1) ltac:(done)) as H2.
  assert (forall p, IsOn (upd_player g (SetFlag MEMBER_FLAG_MODERATOR true) (set_owner g (drop_owner ch))) p = IsOn ch p) as Hon2.
  { intros p. rewrite upd_on; [apply Hon1|by rewrite Hon1]. }
  split_and!.
  - apply (base_flag _ 0 true g H2); [lia|by rewrite Hon2|done].
  - intros p. unfold make_owner. rewrite upd_on; [apply Hon2|by rewrite Hon2].
  - exists (SetFlag MEMBER_FLAG_OWNER true (SetFlag MEMBER_FLAG_MODERATOR true (player_at (set_owner g (drop_owner ch)) g))).
    split_and!.
    + cbn. rewrite lookup_insert_eq. unfold player_at. cbn. by rewrite lookup_insert_eq.
    + by apply (owner_with 0 true).
    + change (IsModerator (SetFlag (2 ^ 0) true (SetFlag (2 ^ 1) true (player_at (set_owner g (drop_owner ch)) g))) = true).
      by rewrite moderator_with, moderator_with.
Qed.

(** ** The operations of a channel

    [strict] is whether nobody changes the ownership of a channel. *)

Lemma players_on ch p : IsOn ch p = true -> playersStore ch <> ∅.
Proof. intros [i Hi]%IsOn_spec E. by rewrite E, lookup_empty in Hi. Qed.

Lemma owned_flag ch n b g : owned ch -> 0 <= n -> IsOn ch g = true -> (g <> _ownerGUID ch \/ 2 <= n \/ b = true) ->
  owned (upd_player g (SetFlag (2 ^ n) b) ch).
Proof.
  intros Ho Hn Hg Hf Hc Hw _. destruct (Ho Hc Hw (players_on ch g Hg)) as (i & Ei & H0 & H1). unfold owner_on. rewrite upd_lookup.
  cbn [_ownerGUID upd_player set_players]. case_decide as E; [|by exists i]. subst g. rewrite (player_at_on _ _ _ Ei). eexists. split; [done|].
  rewrite owner_with, moderator_with by done.
  split; case_match eqn:E; try done; apply Z.eqb_eq in E; subst; destruct Hf as [?|[?|?]]; done || lia.
Qed.

Section Operations.
Context (strict : bool) (w : ChannelWorld) (c : Z).
Implicit Types ch : Channel.

Record good_chan (ch : Channel) : Prop := { good_base : base_ok ch; good_owned : strict = true -> owned ch }.
(** An empty channel waits for its owner. *)
Definition vacant ch : Prop := strict = true -> _channelId ch = 0 -> _ownership ch = true -> playersStore ch = ∅ -> _ownerGUID ch = 0.
Definition same_id ch ch' : Prop := _name ch' = _name ch /\ _channelId ch' = _channelId ch.

(** A command that leaves the members alone. *)
Definition minds (p : prog Chat ChannelError unit) ch : Prop :=
  exists ch', acts p c ch ch' id /\ good_chan ch' /\ vacant ch' /\ same_id ch ch' /\ forall q, IsOn ch' q = IsOn ch q.

Lemma minds_quiet p ch : good_chan ch -> vacant ch -> quiet p c ch -> minds p ch.
Proof. intros Hg Hv Hp. by exists ch. Qed.
Lemma vacant_on ch p : IsOn ch p = true -> vacant ch.
Proof. intros Hp%players_on _ _ _ E. done. Qed.
Lemma minds_member ch player k : good_chan ch -> vacant ch -> (IsOn ch player = true -> minds (k ch) ch) -> minds (as_member w c player k) ch.
Proof.
  intros Hg Hv Hk. destruct (IsOn ch player) eqn:Ho.
  - destruct (Hk eq_refl) as (ch' & Ha & H). exists ch'. split; [|done]. apply acts_deref. by rewrite Ho.
  - apply minds_quiet; [done|done|]. apply acts_deref. rewrite Ho. apply quiet_notify_one.
Qed.
Lemma minds_moderator ch player k : good_chan ch -> vacant ch -> (IsOn ch player = true -> minds (k ch) ch) ->
  minds (as_moderator w c player k) ch.
Proof.
  intros Hg Hv Hk. apply minds_member; [done|done|]. intros Ho. case_match; [|by apply Hk].
  apply minds_quiet; auto with quiet.
Qed.
(** A change that keeps the members, followed by messages. *)
Lemma minds_change p ch ch' : (exists q, IsOn ch q = true) -> acts p c ch ch' id -> (forall q, IsOn ch' q = IsOn ch q) -> same_id ch ch' ->
  good_chan ch' -> minds p ch.
Proof.
  intros [q Hq] Ha Ho Hid Hg. exists ch'. split_and!; try done. apply (vacant_on _ q). by rewrite Ho.
Qed.

Lemma good_flag ch n b g : good_chan ch -> 0 < n -> IsOn ch g = true -> (g <> _ownerGUID ch \/ 2 <= n \/ b = true) ->
  good_chan (upd_player g (SetFlag (2 ^ n) b) ch).
Proof.
  intros [Hb Ho] Hn Hg Hf. split; [apply base_flag; [done|lia|done|lia]|]. intros Hs. apply owned_flag; [auto|lia|done|done].
Qed.
Lemma good_make_owner ch g : base_ok ch -> IsOn ch g = true ->
  good_chan (make_owner g ch) /\ (forall q, IsOn (make_owner g ch) q = IsOn ch q) /\ same_id ch (make_owner g ch).
Proof.
  intros Hb Hg. destruct (make_owner_ok g ch Hb Hg) as (H1 & H2 & H3). split_and!; [|done|].
  - split; [done|]. intros _ _ _ _. apply H3.
  - unfold make_owner, drop_owner. by case_match.
Qed.

(** The new owner is made a moderator first. *)
Lemma good_promote ch g : base_ok ch -> IsOn ch g = true ->
  let ch' := make_owner g (upd_player g (SetFlag MEMBER_FLAG_MODERATOR true) ch) in
  good_chan ch' /\ (forall q, IsOn ch' q = IsOn ch q) /\ same_id ch ch'.
Proof.
  intros Hb Hg. pose proof (base_flag ch 1 true g Hb ltac:(lia) Hg ltac:(lia)) as H1.
  destruct (good_make_owner (upd_player g (SetFlag MEMBER_FLAG_MODERATOR true) ch) g H1 ltac:(by rewrite upd_on)) as (H2 & H3 & H4).
  split_and!; [done| |done]. intros q. by rewrite H3, upd_on.
Qed.
Lemma acts_promote ch g : base_ok ch -> IsOn ch g = true ->
  acts (upd c (upd_player g (SetFlag MEMBER_FLAG_MODERATOR true));; SetOwner w c g true) c ch
    (make_owner g (upd_player g (SetFlag MEMBER_FLAG_MODERATOR true) ch)) id.
Proof.
  intros Hb Hg. apply acts_upd_then, acts_SetOwner; [|apply Hb]. apply IsOn_spec in Hg as [i Hi].
  pose proof (proj2 (base_player ch Hb g i Hi)). lia.
Qed.

Lemma minds_set_flag ch n set g : 0 < n -> good_chan ch -> vacant ch -> IsOn ch g = true -> (g <> _ownerGUID ch \/ 2 <= n \/ set = true) ->
  minds (set_member_flag w c (2 ^ n) g set) ch.
Proof.
  intros Hn Hg Hv Ho Hf. destruct (Bool.eqb (has (pi_flags (player_at ch g)) (2 ^ n)) set) eqn:Es.
  { apply minds_quiet; [done|done|]. apply acts_deref. rewrite Es. apply acts_ret. }
  apply (minds_change _ _ (upd_player g (SetFlag (2 ^ n) set) ch)); [by exists g| |by intros q; apply upd_on|done|by apply good_flag].
  apply acts_deref. rewrite Es. apply acts_upd_then, acts_deref. apply quiet_notify_all.
Qed.

Lemma minds_SetMode ch player p2n mod_ set : good_chan ch -> vacant ch -> (forall v, cw_find w p2n = Some v -> cw_name w v = p2n) ->
  minds (SetMode w c player p2n mod_ set) ch.
Proof.
  intros Hg Hv Hname. apply minds_moderator; [done|done|]. intros Ho. case_match eqn:Eself; [apply minds_quiet; auto with quiet|].
  destruct (cw_find w p2n) as [victim|] eqn:Ef; [|apply minds_quiet; auto with quiet].
  case_match eqn:Eon; [apply minds_quiet; auto with quiet|]. case_match eqn:Eown; [apply minds_quiet; auto with quiet|].
  apply orb_false_iff in Eon as [Eon%negb_false_iff _].
  destruct mod_; [apply (minds_set_flag ch 1)|apply (minds_set_flag ch 3)]; try done; [|lia]. left. intros ->.
  rewrite Z.eqb_refl in Eown. cbn in Eown. apply negb_false_iff, Z.eqb_eq in Eown. subst player.
  rewrite Z.eqb_refl, (Hname _ eq_refl), bool_decide_true in Eself; done.
Qed.

Lemma minds_SetOwner_by ch player newname : good_chan ch -> vacant ch -> minds (SetOwner_by w c player newname) ch.
Proof.
  intros Hg Hv. apply minds_member; [done|done|]. intros Ho. case_match; [apply minds_quiet; auto with quiet|].
  destruct (cw_find w newname) as [victim|]; [|apply minds_quiet; auto with quiet].
  case_match eqn:Eon; [apply minds_quiet; auto with quiet|]. apply orb_false_iff in Eon as [Eon%negb_false_iff _].
  destruct (good_promote ch victim (good_base ch Hg) Eon) as (H1 & H2 & H3).
  apply (minds_change _ _ _ ltac:(by exists player) (acts_promote ch victim (good_base ch Hg) Eon)); done.
Qed.

Lemma minds_UnBan ch good badname : good_chan ch -> vacant ch -> minds (UnBan w c good badname) ch.
Proof.
  intros Hg Hv. apply minds_moderator; [done|done|]. intros Ho.
  destruct (cw_find w badname) as [victim|]; [|apply minds_quiet; auto with quiet].
  case_match; [apply minds_quiet; auto with quiet|]. destruct Hg as [[Hp Hof Hi Hb] How].
  assert (good_chan (set_banned (bannedStore ch ∖ {[ victim ]}) ch)) as Hg'.
  { split; [|exact How]. split; try done; intros p [Hp' _]%elem_of_difference; [by apply Hi|by apply Hb]. }
  apply (minds_change _ _ (set_banned (bannedStore ch ∖ {[ victim ]}) ch)); try done; [by exists good|].
  apply acts_upd_then, acts_quiet; [auto with quiet|]. apply quiet_db. apply Hg'.
Qed.

Lemma minds_Password ch player pass : good_chan ch -> vacant ch -> minds (Password w c player pass) ch.
Proof.
  intros Hg Hv. apply minds_moderator; [done|done|]. intros Ho.
  apply (minds_change _ _ (set_password pass ch)); try done; [by exists player| |].
  - apply acts_upd_then, acts_quiet; [auto with quiet|]. apply quiet_db. apply Hg.
  - destruct Hg as [[] How]. by split; [split|exact How].
Qed.

Lemma minds_Announce ch player : good_chan ch -> vacant ch -> minds (Announce w c player) ch.
Proof.
  intros Hg Hv. apply minds_moderator; [done|done|]. intros Ho.
  apply (minds_change _ _ (set_announce (negb (_announce ch)) ch)); try done; [by exists player| |].
  - apply (acts_upd_then c (fun ch => set_announce (negb (_announce ch)) ch)), acts_deref, acts_quiet; [auto with quiet|].
    apply quiet_db. apply Hg.
  - destruct Hg as [[] How]. by split; [split|exact How].
Qed.

Lemma minds_Say ch guid what lang : good_chan ch -> vacant ch -> minds (Say w c guid what lang) ch.
Proof.
  intros Hg Hv. unfold Say. case_bool_decide; [apply minds_quiet; auto with quiet|].
  apply minds_member; [done|done|]. intros _. case_match; apply minds_quiet; auto with quiet.
Qed.
Lemma minds_List ch player : good_chan ch -> vacant ch -> minds (List_ w c player) ch.
Proof. intros Hg Hv. apply minds_member; [done|done|]. intros _. apply minds_quiet; auto with quiet. Qed.
Lemma minds_WhoOwner ch player : good_chan ch -> vacant ch -> minds (SendWhoOwner w c player) ch.
Proof. intros Hg Hv. apply minds_quiet; [done|done|]. apply acts_deref. apply quiet_notify_one. Qed.
Lemma minds_Invite ch player newname : good_chan ch -> vacant ch -> minds (Invite w c player newname) ch.
Proof.
  intros Hg Hv. apply minds_member; [done|done|]. intros _. case_match; [|apply minds_quiet; auto with quiet].
  do 4 (case_match; [apply minds_quiet; auto with quiet|]). apply minds_quiet; [done|done|].
  apply acts_quiet; [apply quiet_if|]; auto with quiet. apply quiet_notify_one.
Qed.

(** *** Coming and going *)

Definition joins_of (j : gmap Z (list Z)) (p : Z) : list Z := default [] (j !! p).
Definition add_join (p : Z) (j : gmap Z (list Z)) : gmap Z (list Z) := <[p := joins_of j p ++ [c]]> j.
Definition del_join (p : Z) (j : gmap Z (list Z)) : gmap Z (list Z) := <[p := filter (fun x => x <> c) (joins_of j p)]> j.

Lemma acts_JoinedChannel p ch : acts (JoinedChannel p c) c ch ch (add_join p).
Proof. intros j s0 s [? ? ? Hj ?]. split; try done. cbn. unfold m_channels. by rewrite Hj. Qed.
Lemma acts_Player_LeftChannel p ch : acts (Player_LeftChannel p c) c ch ch (del_join p).
Proof. intros j s0 s [? ? ? Hj ?]. split; try done. cbn. unfold m_channels. by rewrite Hj. Qed.

(** A command after which [q] is on the channel or not, and his list is changed by [g]. *)
Definition moves (p : prog Chat ChannelError unit) ch (q : Z) (b : bool) (g : gmap Z (list Z) -> gmap Z (list Z)) : Prop :=
  exists ch', acts p c ch ch' g /\ good_chan ch' /\ same_id ch ch' /\ forall x, IsOn ch' x = if x =? q then b else IsOn ch x.

Lemma on_insert ch p i x : IsOn (set_players (<[p := i]> (playersStore ch)) ch) x = if x =? p then true else IsOn ch x.
Proof.
  unfold IsOn. cbn. destruct (Z.eqb_spec x p) as [->|]; [|by rewrite lookup_insert_ne].
  rewrite lookup_insert_eq. by apply bool_decide_true.
Qed.
Lemma on_delete ch p x : IsOn (set_players (delete p (playersStore ch)) ch) x = if x =? p then false else IsOn ch x.
Proof.
  unfold IsOn. cbn. destruct (Z.eqb_spec x p) as [->|]; [|by rewrite lookup_delete_ne].
  rewrite lookup_delete_eq. apply bool_decide_false. by intros [? ?].
Qed.

Lemma base_insert ch p : base_ok ch -> IsBanned ch p = false -> 0 < p < 2 ^ 63 ->
  base_ok (set_players (<[p := mkPlayerInfo p 0]> (playersStore ch)) ch).
Proof.
  intros [Hp Ho Hi Hb] Hban%bool_decide_eq_false Hpos. split; try done; cbn.
  - intros q i [[<- <-]|[_ Hq]]%lookup_insert_Some; [done|by apply Hp].
  - intros q i [[<- <-]|[_ Hq]]%lookup_insert_Some; [done|by apply Ho].
  - intros q Hq. rewrite lookup_insert_ne; [by apply Hb|by intros ->].
Qed.
Lemma base_delete ch p : base_ok ch -> base_ok (set_players (delete p (playersStore ch)) ch).
Proof.
  intros [Hp Ho Hi Hb]. split; try done; cbn.
  - intros q i [_ Hq]%lookup_delete_Some. by apply Hp.
  - intros q i [_ Hq]%lookup_delete_Some. by apply Ho.
  - intros q Hq. apply lookup_delete_None. right. by apply Hb.
Qed.

(** Somebody on a channel that keeps its owner. *)
Lemma owned_insert ch p : owned ch -> vacant ch -> strict = true -> IsOn ch p = false ->
  (_ownerGUID ch =? 0) && _ownership ch = false -> owned (set_players (<[p := mkPlayerInfo p 0]> (playersStore ch)) ch).
Proof.
  intros Ho Hv Hs Hp E Hc Hw _. cbn in Hc, Hw. rewrite Hw, andb_true_r in E. apply Z.eqb_neq in E.
  destruct (decide (playersStore ch = ∅)) as [Ee|Hne]; [by rewrite (Hv Hs Hc Hw Ee) in E|].
  destruct (Ho Hc Hw Hne) as (i & Hi & H01). exists i. split; [|done]. cbn. rewrite lookup_insert_ne; [done|].
  intros ->. unfold IsOn in Hp. by rewrite Hi in Hp.
Qed.

Lemma join_new ch player pass : good_chan ch -> vacant ch -> 0 < player < 2 ^ 63 ->
  IsOn ch player = false -> may_join w ch player pass = None -> moves (JoinChannel w c player pass) ch player true (add_join player).
Proof.
  intros [Hb How] Hv Hp Hon Hmay. set (ch1 := set_players (<[player := mkPlayerInfo player 0]> (playersStore ch)) ch).
  assert (IsBanned ch player = false) as Hban by (unfold may_join in Hmay; by destruct (IsBanned ch player)).
  pose proof (base_insert ch player Hb Hban Hp) as Hb1. pose proof (on_insert ch player (mkPlayerInfo player 0)) as Hon1.
  fold ch1 in Hb1, Hon1. assert (IsOn ch1 player = true) as Hin by (by rewrite Hon1, Z.eqb_refl).
  assert (forall ch', acts (if IsConstant ch then mret tt else ch ← deref c;
      if (_ownerGUID ch =? 0) && _ownership ch
      then SetOwner w c player (1 <? GetNumPlayers ch);; upd c (upd_player player (SetFlag MEMBER_FLAG_MODERATOR true)) else mret tt) c ch1 ch' id ->
      acts (JoinChannel w c player pass) c ch ch' (add_join player)) as Hacts.
  { intros ch' Ht. apply acts_deref. rewrite Hon, Hmay. apply (acts_seq c _ _ _ _ _ (add_join player) id (acts_JoinedChannel player ch)).
    intros _. apply acts_quiet; [apply quiet_if; auto with quiet|]. apply acts_upd_then. do 2 (apply acts_quiet; [auto with quiet|]). exact Ht. }
  destruct (IsConstant ch) eqn:Ec.
  - exists ch1. split; [apply Hacts, acts_ret|]. split_and!; [|done|exact Hon1]. split; [done|]. intros Hs Hc. cbn in Hc.
    unfold IsConstant in Ec. by rewrite Hc in Ec.
  - destruct ((_ownerGUID ch =? 0) && _ownership ch) eqn:Eo.
    + destruct (good_make_owner ch1 player Hb1 Hin) as (H1 & H2 & H3).
      exists (upd_player player (SetFlag (2 ^ 1) true) (make_owner player ch1)). split_and!; [|apply good_flag; [done|lia|by rewrite H2|auto]|done|].
      * apply Hacts, acts_deref. cbn [_ownerGUID _ownership ch1 set_players]. rewrite Eo.
        apply (acts_seq c _ _ _ (make_owner player ch1) _ id id); [apply acts_SetOwner; [lia|apply Hb1]|intros _; apply acts_upd].
      * intros x. rewrite upd_on, H2; [by rewrite Hon1|by rewrite H2].
    + exists ch1. split; [apply Hacts, acts_deref; cbn [_ownerGUID _ownership ch1 set_players]; rewrite Eo; apply acts_ret|].
      split_and!; [|done|exact Hon1]. split; [done|]. intros Hs. apply owned_insert; auto.
Qed.

(** A join that is refused only sends. *)
Lemma join_refused ch player pass : IsOn ch player = true \/ is_Some (may_join w ch player pass) -> quiet (JoinChannel w c player pass) c ch.
Proof.
  intros H. apply acts_deref. destruct (IsOn ch player); [apply quiet_if; auto with quiet|].
  destruct H as [[=]|[n ->]]. apply quiet_notify_one.
Qed.

Lemma owned_delete ch p : (strict = true -> owned ch) -> strict = true -> p <> _ownerGUID ch ->
  owned (set_players (delete p (playersStore ch)) ch).
Proof.
  intros Ho Hs Hp Hc Hw Hne. cbn in Hc, Hw, Hne. destruct (Ho Hs Hc Hw) as (i & Hi & H01).
  { intros E. apply Hne. by rewrite E, delete_empty. }
  exists i. split; [|done]. cbn. by rewrite lookup_delete_ne.
Qed.

Lemma head_in_order (f : gmap Z PlayerInfo) : match head (in_order f) with Some (k, i) => f !! k = Some i | None => f = ∅ end.
Proof.
  destruct (in_order f) as [|[k i] l] eqn:E; cbn.
  - apply map_empty. intros k. apply eq_None_not_Some. intros [i Hi%in_order_spec]. rewrite E in Hi. by apply elem_of_nil in Hi.
  - apply in_order_spec. rewrite E. by left.
Qed.

(** Whoever leaves while he is the owner is followed by the first of those who stay. *)
Definition left_tail (player : Z) (ch1 : Channel) (changeowner : bool) : prog Chat ChannelError unit :=
  if changeowner && _ownership ch1 then
    match head (in_order (playersStore ch1)) with
    | None => mret tt
    | Some (_, i) => upd c (upd_player (pi_player i) (SetFlag MEMBER_FLAG_MODERATOR true));; SetOwner w c (pi_player i) true
    end
  else mret tt.
Lemma left_tail_ok ch player b : good_chan ch -> _channelId ch = 0 -> IsOn ch player = true -> b = IsOwner (player_at ch player) ->
  let ch1 := set_players (delete player (playersStore ch)) ch in
  exists ch', acts (left_tail player ch1 b) c ch1 ch' id /\ good_chan ch' /\ same_id ch ch' /\ forall x, IsOn ch' x = IsOn ch1 x.
Proof.
  intros [Hb How] Hc Hon -> ch1. pose proof (base_delete ch player Hb) as Hb1. fold ch1 in Hb1. unfold left_tail.
  destruct (IsOwner (player_at ch player) && _ownership ch1) eqn:E.
  - pose proof (head_in_order (playersStore ch1)) as Hh. destruct (head (in_order (playersStore ch1))) as [[k i]|].
    + destruct (base_player ch1 Hb1 k i Hh) as [Hk _]. assert (IsOn ch1 (pi_player i) = true) as Hki by (apply IsOn_spec; rewrite Hk; by eexists).
      destruct (good_promote ch1 (pi_player i) Hb1 Hki) as (H1 & H2 & H3). eexists. split_and!; [by apply acts_promote|done|done|done].
    + exists ch1. split_and!; [apply acts_ret| |done|done]. split; [done|]. by intros _ _ _ [].
  - exists ch1. split_and!; [apply acts_ret| |done|done]. split; [done|]. intros Hs.
    intros Hc1 Hw. cbn in Hw. apply andb_false_iff in E as [E|E]; [|cbn in E; congruence].
    apply owned_delete; try done. intros Hpl. subst player.
    destruct (How Hs Hc Hw (players_on ch _ Hon)) as (i & Hi & H0 & _). rewrite (player_at_on _ _ _ Hi) in E. congruence.
Qed.

Lemma leave_on ch player send : good_chan ch -> IsOn ch player = true ->
  moves (LeaveChannel w c player send) ch player false (if send then del_join player else id).
Proof.
  intros Hg Hon. pose proof Hg as [Hb How]. set (ch1 := set_players (delete player (playersStore ch)) ch).
  pose proof (on_delete ch player) as Hon1. fold ch1 in Hon1.
  assert (forall ch', acts (if IsConstant ch then mret tt else left_tail player ch1 (IsOwner (player_at ch player))) c ch1 ch' id ->
      acts (LeaveChannel w c player send) c ch ch' (if send then del_join player else id)) as Hacts.
  { intros ch' Ht. apply acts_deref. rewrite Hon. cbn [negb].
    apply (acts_seq c _ _ _ ch _ (if send then del_join player else id) id).
    - destruct send; [|apply acts_ret]. apply acts_quiet; [auto with quiet|]. apply acts_Player_LeftChannel.
    - intros _. apply acts_upd_then. apply acts_quiet; [apply quiet_if; auto with quiet|]. apply acts_quiet; [auto with quiet|].
      destruct (IsConstant ch); [exact Ht|]. apply acts_deref. exact Ht. }
  destruct (IsConstant ch) eqn:Ec.
  - exists ch1. split; [apply Hacts, acts_ret|]. split_and!; [|done|exact Hon1]. split; [by apply base_delete|]. intros Hs Hc. cbn in Hc.
    unfold IsConstant in Ec. by rewrite Hc in Ec.
  - apply negb_false_iff, Z.eqb_eq in Ec. destruct (left_tail_ok ch player _ Hg Ec Hon eq_refl) as (ch' & Ha & H1 & H2 & H3).
    exists ch'. split_and!; [by apply Hacts|done|done|]. intros x. by rewrite H3.
Qed.
Lemma leave_off ch player send : IsOn ch player = false -> quiet (LeaveChannel w c player send) c ch.
Proof. intros Ho. apply acts_deref. rewrite Ho. cbn [negb]. apply quiet_if; auto with quiet. Qed.

(** *** Kicks and bans *)

Lemma kick_ban_step ch victim good ban : good_chan ch -> IsOn ch victim = true -> 0 < victim < 2 ^ 63 ->
  exists ch1, acts (if ban && negb (IsBanned ch victim) then
      upd c (fun ch => set_banned ({[ victim ]} ∪ bannedStore ch) ch);; UpdateChannelInDB w c;;
      (if cw_silent w good then mret tt else notify_all w c (CHAT_PLAYER_BANNED_NOTICE victim good))
    else if cw_silent w good then mret tt else notify_all w c (CHAT_PLAYER_KICKED_NOTICE victim good)) c ch ch1 id /\
    ch1 = set_banned (bannedStore ch1) ch /\ ban_ids (bannedStore ch1) /\ (forall x, x ∈ bannedStore ch1 -> x = victim \/ x ∈ bannedStore ch).
Proof.
  intros [[Hp Ho Hi Hb] _] Hon Hv. case_match.
  - assert (ban_ids ({[ victim ]} ∪ bannedStore ch)) as Hb1.
    { intros g [->%elem_of_singleton|Hg]%elem_of_union; [done|by apply Hi]. }
    eexists (set_banned ({[ victim ]} ∪ bannedStore ch) ch). split_and!.
    + apply (acts_upd_then c (fun ch => set_banned ({[ victim ]} ∪ bannedStore ch) ch)), acts_quiet; [by apply quiet_db|].
      apply quiet_if; auto with quiet.
    + done.
    + exact Hb1.
    + intros x [->%elem_of_singleton|Hx]%elem_of_union; auto.
  - exists ch. split_and!; [apply quiet_if; auto with quiet|by destruct ch|done|auto].
Qed.

(** The new owner after a kick, and what the channel becomes. *)
Definition kick_tail (good victim : Z) (changeowner : bool) : prog Chat ChannelError unit :=
  ch ← deref c;
  if changeowner && _ownership ch && negb (bool_decide (playersStore ch = ∅)) then
    upd c (upd_player good (SetFlag MEMBER_FLAG_MODERATOR true));; SetOwner w c good true
  else mret tt.
Lemma kick_tail_ok ch ch1 good victim b : good_chan ch -> IsOn ch good = true -> IsOn ch victim = true -> good <> victim ->
  b = (_ownerGUID ch =? victim) -> base_ok ch1 -> ch1 = set_players (delete victim (playersStore ch)) (set_banned (bannedStore ch1) ch) ->
  exists ch', acts (kick_tail good victim b) c ch1 ch' id /\ good_chan ch' /\ same_id ch ch' /\
    forall x, IsOn ch' x = if x =? victim then false else IsOn ch x.
Proof.
  intros [Hb How] Hon Hvic Hne -> Hb1 E1.
  assert (forall x, IsOn ch1 x = if x =? victim then false else IsOn ch x) as Hon1 by (intros x; rewrite E1; apply (on_delete ch victim x)).
  assert (IsOn ch1 good = true) as Hg1 by (rewrite Hon1; by destruct (Z.eqb_spec good victim)).
  destruct ((_ownerGUID ch =? victim) && _ownership ch1) eqn:E.
  - destruct (good_promote ch1 good Hb1 Hg1) as (H1 & H2 & H3). eexists. split_and!; [|exact H1| |by intros x; rewrite H2].
    + apply acts_deref. rewrite E, bool_decide_false by (by eapply players_on). by apply acts_promote.
    + unfold same_id in *. by rewrite E1 in H3 |- *.
  - exists ch1. split_and!; [apply acts_deref; rewrite E; apply acts_ret| |by rewrite E1|done]. split; [done|]. intros Hs.
    rewrite E1 in E |- *. intros Hc Hw. cbn in E, Hc, Hw. rewrite Hw, andb_true_r in E. apply Z.eqb_neq in E.
    by apply (owned_delete ch victim How Hs (not_eq_sym E) Hc Hw).
Qed.

Lemma kicked ch good badname ban : good_chan ch -> cw_find w badname <> Some good ->
  quiet (KickOrBan w c good badname ban) c ch \/
  exists victim, moves (KickOrBan w c good badname ban) ch victim false (del_join victim) /\ IsOn ch victim = true /\
    good <> victim /\ IsOn ch good = true.
Proof.
  intros Hg Hself. pose proof Hg as [Hb How]. unfold KickOrBan, as_moderator, as_member.
  destruct (IsOn ch good) eqn:Hon; [|left; apply acts_deref; rewrite Hon; apply quiet_notify_one].
  case_eq (negb (IsModerator (player_at ch good)) && negb (cw_not_moderator w good)); intros Em.
  { left. apply acts_deref. rewrite Hon, Em. apply quiet_notify_one. }
  destruct (cw_find w badname) as [victim|] eqn:Ef; [|left; apply acts_deref; rewrite Hon, Em; apply quiet_notify_one].
  destruct (IsOn ch victim) eqn:Hvic; [|left; apply acts_deref; rewrite Hon, Em, Hvic; apply quiet_notify_one].
  case_eq (negb (cw_not_moderator w good) && (_ownerGUID ch =? victim) && negb (good =? _ownerGUID ch)); intros Eo.
  { left. apply acts_deref. rewrite Hon, Em, Hvic, Eo. apply quiet_notify_one. }
  right. exists victim. assert (good <> victim) as Hne by congruence. split; [|done].
  assert (0 < victim < 2 ^ 63) as Hpos by (apply IsOn_spec in Hvic as [i Hi]; by apply (base_player ch Hb victim i)).
  destruct (kick_ban_step ch victim good ban Hg Hvic Hpos) as (ch1 & Ha1 & E1 & Hi1 & Hx1).
  set (ch2 := set_players (delete victim (playersStore ch1)) ch1).
  assert (base_ok ch2) as Hb2.
  { subst ch2. rewrite E1. cbn. destruct (base_delete ch victim Hb) as [Hp Ho _ Hbn]. split; [exact Hp|exact Ho|exact Hi1|]. cbn.
    intros p [->|Hp1]%Hx1; [apply lookup_delete_eq|by apply Hbn]. }
  destruct (kick_tail_ok ch ch2 good victim _ Hg Hon Hvic Hne eq_refl Hb2) as (ch' & Ha & H1 & H2 & H3).
  { subst ch2. by rewrite E1. }
  exists ch'. split_and!; [|done|done|done]. apply acts_deref. rewrite Hon, Em, Hvic, Eo. cbn [negb].
  apply (acts_seq c _ _ _ _ _ id (del_join victim) Ha1). intros _. apply acts_upd_then. fold ch2.
  apply (acts_seq c _ _ _ ch2 _ (del_join victim) id); [apply acts_Player_LeftChannel|intros _; exact Ha].
Qed.
End Operations.

(** ** The channels, the managers and the players *)

Section Invariant.
Context (strict : bool) (mgr : Z -> option Z) (key : list Z -> option (list Z)).

(** [but] is a channel that a command has not finished with. *)
Record chat_but (but : option Z) (s : Chat) : Prop := {
  cb_heap : forall a c, c_mgrs s !! a = Some c -> is_Some (c_heap s !! c);
  cb_reg : forall m k c ch, c_mgrs s !! (m, k) = Some c -> c_heap s !! c = Some ch ->
    key (_name ch) = Some k /\ forall p, IsOn ch p = true -> mgr p = Some m;
  cb_once : forall a b c, c_mgrs s !! a = Some c -> c_mgrs s !! b = Some c -> a = b;
  cb_known : forall c ch, c_heap s !! c = Some ch -> exists a, c_mgrs s !! a = Some c;
  cb_next : forall c ch, c_heap s !! c = Some ch -> c < c_next s;
  cb_joined : forall p c, c ∈ joins_of (c_joined s) p <-> exists ch, c_heap s !! c = Some ch /\ IsOn ch p = true;
  cb_nodup : forall p, NoDup (joins_of (c_joined s) p);
  cb_good : forall c ch, c_heap s !! c = Some ch -> good_chan strict ch;
  cb_vacant : forall c ch, c_heap s !! c = Some ch -> but <> Some c -> vacant strict ch;
  cb_rows : rows_ok s
}.
Definition chat_ok : Chat -> Prop := chat_but None.

(** A command that only works on the channel [c]. *)
Record joins_to (c : Z) (j j' : gmap Z (list Z)) (ch' : Channel) : Prop := {
  jt_other : forall p x, x <> c -> x ∈ joins_of j' p <-> x ∈ joins_of j p;
  jt_this : forall p, c ∈ joins_of j' p <-> IsOn ch' p = true;
  jt_nodup : forall p, NoDup (joins_of j' p)
}.

Lemma acted but but' s s' c ch ch' j' : chat_but but s -> c_heap s !! c = Some ch -> at_chan c ch' j' s s' ->
  good_chan strict ch' -> same_id ch ch' -> joins_to c (c_joined s) j' ch' ->
  (forall m k p, c_mgrs s !! (m, k) = Some c -> IsOn ch' p = true -> mgr p = Some m) ->
  (but' = Some c \/ vacant strict ch') -> (forall x, x <> c -> but = Some x -> but' = Some x) -> chat_but but' s'.
Proof.
  intros [Hheap Hreg Honce Hknown Hnext Hjoin Hnd Hgood Hvac Hrows] Hc [Eh En Em Ej Hr] Hg [Enm Eid] [Jo Jt Jn] Hm Hv Hb.
  split; try done.
  - intros a x. rewrite Em, Eh. intros Ha. destruct (decide (x = c)) as [->|Hx]; [rewrite lookup_insert_eq; by eexists|].
    rewrite lookup_insert_ne by done. by apply (Hheap a).
  - intros m k x chx. rewrite Em, Eh. intros Ha [[<- <-]|[Hx Hxc]]%lookup_insert_Some; [|by apply (Hreg m k x)].
    split; [rewrite Enm; apply (Hreg m k c ch Ha Hc)|]. intros p. by apply (Hm m k).
  - intros a b x. rewrite Em. apply Honce.
  - intros x chx. rewrite Eh, Em. intros [[<- <-]|[Hx Hxc]]%lookup_insert_Some; eauto.
  - intros x chx. rewrite Eh, En. intros [[<- <-]|[Hx Hxc]]%lookup_insert_Some; eauto.
  - intros p x. rewrite Ej, Eh. destruct (decide (x = c)) as [->|Hx].
    + rewrite Jt, lookup_insert_eq. split; [by eexists|]. by intros (? & [= <-] & ?).
    + rewrite Jo, lookup_insert_ne by done. apply Hjoin.
  - intros p. rewrite Ej. apply Jn.
  - intros x chx. rewrite Eh. intros [[<- <-]|[Hx Hxc]]%lookup_insert_Some; eauto.
  - intros x chx. rewrite Eh. intros [[<- <-]|[Hx Hxc]]%lookup_insert_Some Hne.
    + by destruct Hv.
    + apply (Hvac x chx Hxc). intros Ex. by apply Hne, Hb.
Qed.

Lemma joins_same but s c ch ch' : chat_but but s -> c_heap s !! c = Some ch -> (forall p, IsOn ch' p = IsOn ch p) ->
  joins_to c (c_joined s) (c_joined s) ch'.
Proof.
  intros Hs Hc Ho. split; [done| |apply Hs]. intros p. rewrite Ho, (cb_joined _ _ Hs). split.
  - intros (ch0 & E & H). congruence.
  - intros H. by exists ch.
Qed.

Lemma joins_of_insert j q l p : joins_of (<[q := l]> j) p = if decide (p = q) then l else joins_of j p.
Proof. unfold joins_of. case_decide; [subst; by rewrite lookup_insert_eq|by rewrite lookup_insert_ne]. Qed.

Lemma joins_add but s c ch ch' q : chat_but but s -> c_heap s !! c = Some ch -> IsOn ch q = false ->
  (forall p, IsOn ch' p = if p =? q then true else IsOn ch p) -> joins_to c (c_joined s) (add_join c q (c_joined s)) ch'.
Proof.
  intros Hs Hc Hq Ho. destruct (joins_same _ _ _ _ ch Hs Hc ltac:(done)) as [_ Jt Jn].
  split.
  - intros p x Hx. unfold add_join. rewrite joins_of_insert. case_decide; [subst|done].
    rewrite elem_of_app, list_elem_of_singleton. naive_solver.
  - intros p. unfold add_join. rewrite joins_of_insert, Ho. case_decide as E.
    + subst. rewrite Z.eqb_refl, elem_of_app, list_elem_of_singleton. naive_solver.
    + destruct (Z.eqb_spec p q); [done|]. apply Jt.
  - intros p. unfold add_join. rewrite joins_of_insert. case_decide; [subst|done]. apply NoDup_app. split_and!; [done| |].
    + intros x Hx ->%list_elem_of_singleton. apply Jt in Hx. congruence.
    + apply NoDup_singleton.
Qed.

(** Whatever still names [c] for [q] only. *)
Lemma joins_del but s c ch ch' q j : chat_but but s -> c_heap s !! c = Some ch ->
  (forall p, IsOn ch' p = if p =? q then false else IsOn ch p) ->
  (forall p, p <> q -> joins_of j p = joins_of (c_joined s) p) -> joins_of j q = filter (fun x => x <> c) (joins_of (c_joined s) q) ->
  joins_to c (c_joined s) j ch'.
Proof.
  intros Hs Hc Ho Hj Hjq. destruct (joins_same _ _ _ _ ch Hs Hc ltac:(done)) as [_ Jt Jn]. split.
  - intros p x Hx. destruct (decide (p = q)) as [->|E]; [|by rewrite Hj]. rewrite Hjq, list_elem_of_filter. naive_solver.
  - intros p. rewrite Ho. destruct (Z.eqb_spec p q) as [->|E].
    + rewrite Hjq, list_elem_of_filter. naive_solver.
    + rewrite Hj by done. apply Jt.
  - intros p. destruct (decide (p = q)) as [->|E]; [|by rewrite Hj]. rewrite Hjq. by apply NoDup_filter.
Qed.
Lemma joins_del_join but s c ch ch' q : chat_but but s -> c_heap s !! c = Some ch ->
  (forall p, IsOn ch' p = if p =? q then false else IsOn ch p) -> joins_to c (c_joined s) (del_join c q (c_joined s)) ch'.
Proof.
  intros Hs Hc Ho. apply (joins_del _ _ _ _ _ _ _ Hs Hc Ho); intros; unfold del_join; rewrite joins_of_insert; by case_decide.
Qed.

(** *** Commands *)

Record world_ok (w : ChannelWorld) : Prop := {
  wo_mgr : forall p, forTeam w (cw_team w p) = mgr p;
  wo_key : forall n, cw_key w n = key n;
  wo_name : forall n n' v, cw_normalize w n = Some n' -> cw_find w n' = Some v -> cw_name w v = n';
  wo_pattern : forall e, e ∈ cw_channels w -> is_Some (format_s (ce_pattern e) (Some []))
}.

Lemma chat_sent but l s : chat_but but s -> chat_but but (chat_send l s).
Proof. by intros []. Qed.
Lemma chat_weaken but c s : chat_but but s -> but = None \/ but = Some c -> chat_but (Some c) s.
Proof. intros [] Hb. split; try done. intros x chx Hx Hne. eapply cb_vacant0; [exact Hx|]. destruct Hb as [->| ->]; done. Qed.

Lemma at_of but s c ch : chat_but but s -> c_heap s !! c = Some ch -> at_chan c ch (c_joined s) s s.
Proof. intros Hs Hc. apply at_start; [done|apply Hs]. Qed.

Lemma run_minds p c ch s : chat_ok s -> c_heap s !! c = Some ch -> minds strict c p ch -> wp p s (fun _ => chat_ok).
Proof.
  intros Hs Hc (ch' & Ha & Hg & Hv & Hid & Ho). eapply wp_mono; [by apply Ha, (at_of None)|]. intros a s' Hat.
  apply (acted _ _ _ _ _ _ _ _ Hs Hc Hat Hg Hid); [by eapply joins_same| |by right|done].
  intros m k q Hm. rewrite Ho. by apply (cb_reg _ _ Hs m k c ch).
Qed.
Lemma run_quiet p c ch s : chat_ok s -> c_heap s !! c = Some ch -> quiet p c ch -> wp p s (fun _ => chat_ok).
Proof.
  intros Hs Hc Hq. apply (run_minds p c ch s Hs Hc). apply minds_quiet; [by eapply Hs|by eapply Hs|done].
Qed.

(** After a player has left, the channel may be empty. *)
Lemma run_leaves p c ch q s g : chat_ok s -> c_heap s !! c = Some ch -> moves strict c p ch q false g ->
  joins_of (g (c_joined s)) q = filter (fun x => x <> c) (joins_of (c_joined s) q) ->
  (forall x, x <> q -> joins_of (g (c_joined s)) x = joins_of (c_joined s) x) ->
  wp p s (fun _ s' => chat_but (Some c) s' /\ c_mgrs s' = c_mgrs s /\
    exists ch', c_heap s' !! c = Some ch' /\ same_id ch ch' /\ forall x, IsOn ch' x = if x =? q then false else IsOn ch x).
Proof.
  intros Hs Hc (ch' & Ha & Hg & Hid & Ho) Hgq Hgo. eapply wp_mono; [by apply Ha, (at_of None)|]. intros a s' Hat. split_and!.
  - apply (acted _ _ _ _ _ _ _ _ Hs Hc Hat Hg Hid); [by eapply joins_del| |by left|done].
    intros m k x Hm. rewrite Ho. case_match; [done|]. by apply (cb_reg _ _ Hs m k c ch).
  - apply Hat.
  - exists ch'. split; [by rewrite (at_heap _ _ _ _ _ Hat), lookup_insert_eq|done].
Qed.

Lemma run_kick w good badname ban c ch s : chat_ok s -> c_heap s !! c = Some ch -> cw_find w badname <> Some good ->
  wp (KickOrBan w c good badname ban) s (fun _ => chat_ok).
Proof.
  intros Hs Hc Hself. destruct (kicked strict w c ch good badname ban (cb_good _ _ Hs c ch Hc) Hself)
    as [Hq|(victim & (ch' & Ha & Hg & Hid & Ho) & Hvic & Hne & Hon)]; [by eapply run_quiet|].
  eapply wp_mono; [by apply Ha, (at_of None)|]. intros a s' Hat.
  apply (acted _ _ _ _ _ _ _ _ Hs Hc Hat Hg Hid); [by eapply joins_del_join| | |done].
  - intros m k x Hm. rewrite Ho. case_match; [done|]. by apply (cb_reg _ _ Hs m k c ch).
  - right. apply (vacant_on strict ch' good). rewrite Ho. by destruct (Z.eqb_spec good victim).
Qed.

Lemma run_join w player pass m k c ch s : chat_ok s -> c_mgrs s !! (m, k) = Some c -> c_heap s !! c = Some ch -> mgr player = Some m ->
  0 < player < 2 ^ 63 ->
  wp (JoinChannel w c player pass) s (fun _ s' => chat_ok s' /\ forall x, x ∈ joins_of (c_joined s) player -> x ∈ joins_of (c_joined s') player).
Proof.
  intros Hs Hm Hc Hp Hpos. destruct (decide (IsOn ch player = true \/ is_Some (may_join w ch player pass))) as [Hq|Hq].
  - pose proof (join_refused w c ch player pass Hq) as Hqq. apply wp_and; [by eapply run_quiet|].
    eapply wp_mono; [by apply Hqq, (at_of None)|]. intros a s' Hat. by rewrite (at_joined _ _ _ _ _ Hat).
  - assert (IsOn ch player = false) as Hon by (apply not_true_is_false; tauto).
    assert (may_join w ch player pass = None) as Hmay by (apply eq_None_not_Some; tauto).
    destruct (join_new strict w c ch player pass (cb_good _ _ Hs c ch Hc) (cb_vacant _ _ Hs c ch Hc ltac:(done)) Hpos Hon Hmay) as (ch' & Ha & Hg & Hid & Ho).
    eapply wp_mono; [by apply Ha, (at_of None)|]. intros a s' Hat. split.
    + apply (acted _ _ _ _ _ _ _ _ Hs Hc Hat Hg Hid); [by eapply joins_add| | |done].
      * intros m' k' x Hm'. rewrite Ho. destruct (Z.eqb_spec x player) as [->|]; [|by apply (cb_reg _ _ Hs m' k' c ch)].
        pose proof (cb_once _ _ Hs _ _ _ Hm Hm') as [= <- <-]. done.
      * right. apply (vacant_on strict ch' player). by rewrite Ho, Z.eqb_refl.
    + intros x Hx. rewrite (at_joined _ _ _ _ _ Hat). unfold add_join. rewrite joins_of_insert, decide_True by done.
      apply elem_of_app. by left.
Qed.

(** *** The managers *)

Lemma wp_deref c ch {A} (k : Channel -> prog Chat ChannelError A) s Q :
  c_heap s !! c = Some ch -> wp (k ch) s Q -> wp (deref c ≫= k) s Q.
Proof.
  intros Hc Hk. apply (wp_seq no_error _ _ _ ch s); [|done]. unfold deref, mbind, prog_bind, get. cbn. by rewrite Hc.
Qed.

Lemma delete_channel but s m k c ch : chat_but but s -> c_mgrs s !! (m, k) = Some c -> c_heap s !! c = Some ch -> playersStore ch = ∅ ->
  (but = None \/ but = Some c) -> chat_ok (set_heap (delete c (c_heap s)) (set_mgrs (delete (m, k) (c_mgrs s)) s)).
Proof.
  intros Hs Hm Hc He Hb. destruct Hs as [Hheap Hreg Honce Hknown Hnext Hjoin Hnd Hgood Hvac Hrows]. split; cbn; try done.
  - intros a x [Ha Hx]%lookup_delete_Some. rewrite lookup_delete_ne; [by apply (Hheap a)|]. intros ->. apply Ha. eauto.
  - intros m' k' x chx [Ha Hx]%lookup_delete_Some [_ Hcx]%lookup_delete_Some. by apply (Hreg m' k' x).
  - intros a b x [_ Ha]%lookup_delete_Some [_ Hx]%lookup_delete_Some. eauto.
  - intros x chx [Hne Hx]%lookup_delete_Some. destruct (Hknown x chx Hx) as [a Ha]. exists a. rewrite lookup_delete_ne; [done|].
    intros <-. congruence.
  - intros x chx [Hne Hx]%lookup_delete_Some. eauto.
  - intros p x. rewrite Hjoin. split; intros (chx & Hx & Ho); exists chx; (split; [|done]).
    + rewrite lookup_delete_ne; [done|]. intros <-. assert (chx = ch) as -> by congruence.
      apply IsOn_spec in Ho as [i Hi]. by rewrite He, lookup_empty in Hi.
    + by apply lookup_delete_Some in Hx as [_ Hx].
  - intros x chx [Hne Hx]%lookup_delete_Some. eauto.
  - intros x chx [Hne Hx]%lookup_delete_Some _. apply (Hvac x chx Hx). destruct Hb as [->| ->]; congruence.
Qed.

Lemma run_LeftChannel w m name k but s : world_ok w -> chat_but but s -> key name = Some k ->
  (forall c, but = Some c -> c_mgrs s !! (m, k) = Some c) ->
  wp (LeftChannel w m name) s (fun _ s' => chat_ok s' /\ c_joined s' = c_joined s).
Proof.
  intros Hw Hs Hk Hb. unfold LeftChannel. rewrite (wo_key w Hw), Hk. apply wp_get.
  destruct (c_mgrs s !! (m, k)) as [c|] eqn:Hm.
  - destruct (cb_heap _ _ Hs _ _ Hm) as [ch Hc]. apply (wp_deref c ch); [done|].
    assert (but = None \/ but = Some c) as Hb' by (destruct but as [x|]; [right; by rewrite (Hb x eq_refl)|by left]).
    destruct ((GetNumPlayers ch =? 0) && negb (IsConstant ch)) eqn:E.
    + apply andb_prop in E as [E%Z.eqb_eq _]. unfold GetNumPlayers in E. apply wp_modify.
      split; [|done]. apply (delete_channel but s m k c ch Hs Hm Hc); [|done]. apply map_size_empty_inv. lia.
    + apply wp_ret. split; [|done]. destruct Hs. split; try done. intros x chx Hx _. destruct (decide (but = Some x)) as [->|Hne].
      * assert (x = c) as -> by (destruct Hb'; congruence). assert (chx = ch) as -> by congruence.
        intros _ Hid _ He. exfalso. unfold GetNumPlayers, IsConstant in E. by rewrite He, map_size_empty, Hid in E.
      * by apply (cb_vacant0 x).
  - apply wp_ret. split; [|done]. destruct but as [x|]; [by specialize (Hb x eq_refl)|done].
Qed.

Lemma run_on_channel w player name kk s : world_ok w -> chat_ok s ->
  (forall m k c ch, mgr player = Some m -> key name = Some k -> c_mgrs s !! (m, k) = Some c -> c_heap s !! c = Some ch ->
     wp (kk c) s (fun _ => chat_ok)) ->
  wp (on_channel w player name kk) s (fun _ => chat_ok).
Proof.
  intros Hw Hs Hk. unfold on_channel, GetChannel. rewrite (wo_mgr w Hw), (wo_key w Hw).
  destruct (mgr player) as [m|]; [|by apply wp_ret]. destruct (key name) as [k|] eqn:Ek; [|by apply wp_ret].
  destruct (c_mgrs s !! (m, k)) as [c|] eqn:Em.
  - destruct (cb_heap _ _ Hs _ _ Em) as [ch Hc]. apply (wp_seq no_error _ _ _ (Some c) s); [|by eapply Hk].
    unfold mbind, prog_bind, get. cbn. by rewrite Em.
  - apply (wp_seq no_error _ _ _ None (chat_send [(player, MsgNotify (MakeNotOnPacket name))] s)); [|apply wp_ret, chat_sent, Hs].
    unfold mbind, prog_bind, get. cbn. by rewrite Em.
Qed.

(** *** A new channel *)

Lemma good_new flags ann own saved id team name pass banned : ban_ids banned ->
  let ch := mkChannel ann own saved flags id team 0 name pass ∅ banned in
  good_chan strict ch /\ vacant strict ch.
Proof.
  intros Hb ch. split; [split|done].
  - split; [| |exact Hb|done]; cbn; intros p i Hi; by rewrite lookup_empty in Hi.
  - by intros _ _ _ [].
Qed.
Lemma no_bans : ban_ids ∅.
Proof. intros g Hg. by apply elem_of_empty in Hg. Qed.

Lemma run_Channel_new w name id team s : rows_ok s ->
  wp (Channel_new w name id team) s (fun ch s' => (good_chan strict ch /\ vacant strict ch) /\ playersStore ch = ∅ /\ _name ch = name /\
    rows_ok s' /\ s' = set_rows (c_rows s') s).
Proof.
  intros Hr. unfold Channel_new. assert (s = set_rows (c_rows s) s) as Hs by (by destruct s).
  destruct (LookupEntry w id); [apply wp_ret; split; [apply good_new, no_bans|done]|].
  destruct (cw_preserve w); [|apply wp_ret; split; [apply good_new, no_bans|done]].
  apply wp_get. destruct (c_rows s !! _) as [row|] eqn:Er.
  - destruct (Hr _ _ Er) as (b & -> & Hb). apply wp_ret. split; [by apply good_new|done].
  - apply wp_modify, wp_ret. split; [apply good_new, no_bans|]. split_and!; try done. intros k row. cbn.
    intros [[_ <-]|[_ Hrow]]%lookup_insert_Some; [|by apply (Hr k)]. exists ∅. split; [done|apply no_bans].
Qed.

Lemma insert_channel s s' m k ch : chat_ok s -> c_mgrs s !! (m, k) = None -> good_chan strict ch -> vacant strict ch ->
  playersStore ch = ∅ -> key (_name ch) = Some k -> rows_ok s' ->
  c_heap s' = <[c_next s := ch]> (c_heap s) -> c_next s' = c_next s + 1 -> c_mgrs s' = <[(m, k) := c_next s]> (c_mgrs s) ->
  c_joined s' = c_joined s -> chat_ok s'.
Proof.
  intros [Hheap Hreg Honce Hknown Hnext Hjoin Hnd Hgood Hvac _] Hm Hg Hv He Hk Hr Eh En Em Ej.
  assert (c_heap s !! c_next s = None) as Hfresh.
  { apply eq_None_not_Some. intros [x Hx]. apply Hnext in Hx. lia. }
  assert (forall a, c_mgrs s !! a <> Some (c_next s)) as Hnew.
  { intros a Ha. apply Hheap in Ha as [x Hx]. congruence. }
  split; try done.
  - intros a x. rewrite Em, Eh. intros [[<- <-]|[_ Ha]]%lookup_insert_Some; [rewrite lookup_insert_eq; by eexists|].
    rewrite lookup_insert_ne; [by apply (Hheap a)|]. intros <-. by apply (Hnew a).
  - intros m' k' x chx. rewrite Em, Eh. intros [[[= <- <-] <-]|[Hne Ha]]%lookup_insert_Some.
    + rewrite lookup_insert_eq. intros [= <-]. split; [done|]. intros p [i Hi]%IsOn_spec. by rewrite He, lookup_empty in Hi.
    + rewrite lookup_insert_ne; [by apply (Hreg m' k')|]. intros <-. by apply (Hnew (m', k')).
  - intros a b x. rewrite Em. intros [[<- <-]|[_ Ha]]%lookup_insert_Some [[<- Hx]|[_ Hb]]%lookup_insert_Some; [done| | |eauto].
    + by apply Hnew in Hb.
    + subst x. by apply Hnew in Ha.
  - intros x chx. rewrite Eh, Em. intros [[<- <-]|[Hne Hx]]%lookup_insert_Some; [exists (m, k); apply lookup_insert_eq|].
    destruct (Hknown x chx Hx) as [a Ha]. exists a. rewrite lookup_insert_ne; [done|]. intros <-. congruence.
  - intros x chx. rewrite Eh, En. intros [[<- <-]|[Hne Hx]]%lookup_insert_Some; [lia|]. apply Hnext in Hx. lia.
  - intros p x. rewrite Ej, Hjoin, Eh. split; intros (chx & Hx & Ho); exists chx; (split; [|done]).
    + rewrite lookup_insert_ne; [done|]. intros <-. congruence.
    + apply lookup_insert_Some in Hx as [[<- <-]|[_ Hx]]; [|done]. apply IsOn_spec in Ho as [i Hi].
      by rewrite He, lookup_empty in Hi.
  - intros p. rewrite Ej. apply Hnd.
  - intros x chx. rewrite Eh. intros [[<- <-]|[Hne Hx]]%lookup_insert_Some; eauto.
  - intros x chx. rewrite Eh. intros [[<- <-]|[Hne Hx]]%lookup_insert_Some _; [done|]. by apply (Hvac x).
Qed.

Lemma run_GetJoinChannel w m name id s : world_ok w -> chat_ok s ->
  wp (GetJoinChannel w m name id) s (fun r s' => chat_ok s' /\ c_joined s' = c_joined s /\
    forall c, r = Some c -> exists k ch, c_mgrs s' !! (m, k) = Some c /\ c_heap s' !! c = Some ch).
Proof.
  intros Hw Hs. unfold GetJoinChannel. rewrite (wo_key w Hw). destruct (key name) as [k|] eqn:Ek; [|by apply wp_ret].
  apply wp_get. destruct (c_mgrs s !! (m, k)) as [c|] eqn:Em.
  - apply wp_ret. split_and!; [done|done|]. intros x [= <-]. destruct (cb_heap _ _ Hs _ _ Em) as [ch Hc]. eauto.
  - apply wp_bind. eapply wp_mono; [by apply run_Channel_new, Hs|]. cbn beta. intros ch s1 ([Hg Hv] & He & Hn & Hr & E1).
    apply wp_get. do 2 apply wp_modify. apply wp_ret. rewrite E1. split_and!.
    + by apply (insert_channel s _ m k ch); rewrite ?Hn.
    + done.
    + intros x [= <-]. exists k, ch. split; cbn; apply lookup_insert_eq.
Qed.

(** *** The commands *)

Context (w : ChannelWorld) (Hw : world_ok w).

Lemma run_HandleJoinChannel player id name pass s : chat_ok s -> 0 < player < 2 ^ 63 ->
  wp (HandleJoinChannel w player id name pass) s (fun _ => chat_ok).
Proof.
  intros Hs Hp. unfold HandleJoinChannel. case_match; [by apply wp_ret|]. rewrite (wo_mgr w Hw).
  destruct (mgr player) as [m|] eqn:Em; [|by apply wp_ret]. apply wp_modify, wp_bind.
  eapply wp_mono; [by apply run_GetJoinChannel; destruct Hs|]. intros [c|] s1 (H1 & _ & Hc); [|by apply wp_ret].
  destruct (Hc c eq_refl) as (k & ch & Hm & Hch). eapply wp_mono; [by eapply run_join|]. by intros _ s2 [H2 _].
Qed.

(** A player leaves a channel he is on: the channel may be left behind, empty. *)
Lemma run_LeaveChannel c ch player s : chat_ok s -> c_heap s !! c = Some ch ->
  wp (LeaveChannel w c player true) s (fun _ s' => chat_but (Some c) s' /\ c_mgrs s' = c_mgrs s).
Proof.
  intros Hs Hc. destruct (IsOn ch player) eqn:Ho.
  - eapply wp_mono; [eapply (run_leaves _ c ch player s (del_join c player) Hs Hc)|].
    + by apply (leave_on strict w c ch player true (cb_good _ _ Hs c ch Hc)).
    + unfold del_join. by rewrite joins_of_insert, decide_True.
    + intros x Hx. unfold del_join. by rewrite joins_of_insert, decide_False.
    + by intros a s' (H1 & H2 & _).
  - pose proof (leave_off w c ch player true Ho) as Hq. apply wp_and.
    + eapply wp_mono; [by eapply run_quiet|]. intros a s' H. apply (chat_weaken None); auto.
    + eapply wp_mono; [by apply Hq, (at_of None)|]. intros a s' Hat. apply Hat.
Qed.

Lemma run_HandleLeaveChannel player name s : chat_ok s -> wp (HandleLeaveChannel w player name) s (fun _ => chat_ok).
Proof.
  intros Hs. unfold HandleLeaveChannel. case_match; [by apply wp_ret|]. rewrite (wo_mgr w Hw).
  destruct (mgr player) as [m|] eqn:Em; [|by apply wp_ret]. unfold GetChannel. rewrite (wo_key w Hw).
  destruct (key name) as [k|] eqn:Ek.
  - destruct (c_mgrs s !! (m, k)) as [c|] eqn:Hm.
    + destruct (cb_heap _ _ Hs _ _ Hm) as [ch Hc]. apply (wp_seq no_error _ _ _ (Some c) s).
      { unfold mbind, prog_bind, get. cbn. by rewrite Hm. }
      apply wp_bind. eapply wp_mono; [by eapply run_LeaveChannel|]. intros a s1 [H1 E1].
      eapply wp_mono; [eapply (run_LeftChannel w m name k _ s1 Hw H1 Ek)|]; [|by intros _ s2 [H2 _]].
      intros x [= <-]. by rewrite E1.
    + apply (wp_seq no_error _ _ _ None (chat_send [(player, MsgNotify (MakeNotOnPacket name))] s)).
      { unfold mbind, prog_bind, get. cbn. by rewrite Hm. }
      apply (wp_seq no_error _ _ _ tt _ _ eq_refl).
      eapply wp_mono; [eapply (run_LeftChannel w m name k None _ Hw ltac:(apply chat_sent, Hs) Ek); done|]. by intros _ s2 [H2 _].
  - apply (wp_seq no_error _ _ _ None s _ eq_refl), (wp_seq no_error _ _ _ tt s _ eq_refl). unfold LeftChannel.
    rewrite (wo_key w Hw), Ek. by apply wp_ret.
Qed.

Lemma run_channel player name p s : chat_ok s ->
  (forall c ch, good_chan strict ch -> vacant strict ch -> minds strict c (p c) ch) ->
  wp (on_channel w player name p) s (fun _ => chat_ok).
Proof.
  intros Hs Hp. apply run_on_channel; [done|done|]. intros m k c ch _ _ _ Hc. apply (run_minds _ c ch _ Hs Hc).
  apply Hp; [by eapply Hs|by eapply Hs].
Qed.
Lemma run_channel_named player name target p s : chat_ok s ->
  (forall c ch t, cw_normalize w target = Some t -> good_chan strict ch -> vacant strict ch -> minds strict c (p c t) ch) ->
  wp (on_channel_named w player name target p) s (fun _ => chat_ok).
Proof.
  intros Hs Hp. unfold on_channel_named. destruct (cw_normalize w target) as [t|]; [|by apply wp_ret].
  apply run_channel; [done|]. intros c ch. by apply Hp.
Qed.
Lemma run_kick_named player name target ban s : chat_ok s ->
  (forall t, cw_normalize w target = Some t -> cw_find w t <> Some player) ->
  wp (on_channel_named w player name target (fun c t => KickOrBan w c player t ban)) s (fun _ => chat_ok).
Proof.
  intros Hs Hself. unfold on_channel_named. destruct (cw_normalize w target) as [t|]; [|by apply wp_ret].
  apply run_on_channel; [done|done|]. intros m k c ch _ _ _ Hc. eapply run_kick; [done|done|by apply Hself].
Qed.

Lemma filter_absent (c : Z) (l : list Z) : c ∉ l -> filter (fun x => x <> c) l = l.
Proof.
  induction l as [|x l IH]; intros Hc; [done|]. rewrite elem_of_cons in Hc. rewrite filter_cons_True by (intros ->; tauto).
  f_equal. apply IH. tauto.
Qed.

(** The player's list while it is taken down. *)
Lemma run_Cleanup_loop fuel player s : chat_ok s -> (length (joins_of (c_joined s) player) <= fuel)%nat ->
  wp (CleanupChannels_loop w fuel player) s (fun _ s' => chat_ok s' /\ joins_of (c_joined s') player = []).
Proof.
  revert s. induction fuel as [|fuel IH]; intros s Hs Hf; cbn [CleanupChannels_loop]; apply wp_get;
    fold (joins_of (c_joined s) player); change (m_channels s player) with (joins_of (c_joined s) player);
    destruct (joins_of (c_joined s) player) as [|c rest] eqn:Ej; [by apply wp_ret|cbn in Hf; lia|by apply wp_ret|].
  apply wp_modify. set (j := <[player := rest]> (c_joined s)). fold j.
  assert (c ∈ joins_of (c_joined s) player) as Hin by (rewrite Ej; by left).
  apply (cb_joined _ _ Hs) in Hin as (ch & Hc & Hon). pose proof (cb_nodup _ _ Hs player) as Hnd. rewrite Ej in Hnd.
  apply NoDup_cons in Hnd as [Hni Hnd].
  destruct (leave_on strict w c ch player false (cb_good _ _ Hs c ch Hc) Hon) as (ch' & Ha & Hg & Hid & Ho).
  apply wp_bind. eapply wp_mono.
  { apply (Ha j s). destruct (at_of None s c ch Hs Hc). by split. }
  intros a s1 Hat.
  assert (chat_but (Some c) s1) as H1.
  { apply (acted _ _ _ _ _ _ _ _ Hs Hc Hat Hg Hid); [eapply joins_del; [exact Hs|exact Hc|exact Ho| |]| |by left|done].
    - intros p Hp. unfold j, id. rewrite joins_of_insert. by case_decide.
    - unfold j, id. rewrite joins_of_insert, decide_True, Ej by done. rewrite filter_cons_False by tauto.
      symmetry. by apply filter_absent.
    - intros m k q Hm. rewrite Ho. case_match; [done|]. by apply (cb_reg _ _ Hs m k c ch). }
  destruct (cb_known _ _ Hs c ch Hc) as [[m k] Hm]. destruct (cb_reg _ _ Hs m k c ch Hm Hc) as [Hk Hmgr].
  rewrite (wo_mgr w Hw), (Hmgr player Hon).
  assert (c_heap s1 !! c = Some ch') as Hc1 by (rewrite (at_heap _ _ _ _ _ Hat); apply lookup_insert_eq).
  apply wp_bind, (wp_deref c ch' _ _ _ Hc1). eapply wp_mono.
  { apply (run_LeftChannel w m (_name ch') k _ s1 Hw H1); [by rewrite (proj1 Hid)|]. intros x [= <-]. by rewrite (at_mgrs _ _ _ _ _ Hat). }
  intros _ s2 [H2 Ej2]. apply IH; [done|]. rewrite Ej2, (at_joined _ _ _ _ _ Hat). unfold j, id.
  rewrite joins_of_insert, decide_True by done. cbn in Hf. lia.
Qed.
Lemma run_CleanupChannels player s : chat_ok s -> wp (CleanupChannels w player) s (fun _ s' => chat_ok s' /\ joins_of (c_joined s') player = []).
Proof. intros Hs. apply wp_get. by apply run_Cleanup_loop. Qed.

Lemma format_any pattern e e' : is_Some (format_s pattern (Some e)) -> is_Some (format_s pattern (Some e')).
Proof.
  remember (length pattern) as n eqn:En. assert (length pattern <= n)%nat as Hn by lia. clear En.
  revert pattern Hn. induction n as [|n IH]; intros [|c rest] Hn; cbn in *; try (done || lia).
  destruct (c =? 37); [destruct rest as [|d rest']; [done|]; destruct (d =? 37); [|destruct (d =? 115); [by rewrite !fmap_is_Some|done]]|];
    rewrite !fmap_is_Some; apply IH; cbn in *; lia.
Qed.

Lemma run_remove player c sendRemove m s : chat_ok s -> mgr player = Some m -> c ∈ joins_of (c_joined s) player ->
  wp (LeaveChannel w c player sendRemove;; ch ← deref c; Player_LeftChannel player c;; LeftChannel w m (_name ch)) s (fun _ => chat_ok).
Proof.
  intros Hs Hp (ch & Hc & Hon)%(cb_joined _ _ Hs).
  destruct (leave_on strict w c ch player sendRemove (cb_good _ _ Hs c ch Hc) Hon) as (ch' & Ha & Hg & Hid & Ho).
  apply wp_bind. eapply wp_mono; [by apply Ha, (at_of None)|]. intros a s1 Hat1.
  apply (wp_deref c ch'); [by rewrite (at_heap _ _ _ _ _ Hat1), lookup_insert_eq|]. apply wp_bind.
  eapply wp_mono; [exact (acts_Player_LeftChannel c player ch' _ s s1 Hat1)|]. intros b s2 Hat.
  destruct (cb_known _ _ Hs c ch Hc) as [[m' k] Hm]. destruct (cb_reg _ _ Hs m' k c ch Hm Hc) as [Hk Hmgr].
  assert (m' = m) as -> by (pose proof (Hmgr player Hon); congruence).
  eapply wp_mono; [eapply (run_LeftChannel w m (_name ch') k (Some c) s2 Hw)|by intros ? s3 [H3 _]].
  - apply (acted _ _ _ _ _ _ _ _ Hs Hc Hat Hg Hid); [eapply joins_del; [exact Hs|exact Hc|exact Ho| |]| |by left|done].
    + intros p Hne. unfold del_join, id. destruct sendRemove; rewrite ?joins_of_insert; by case_decide.
    + unfold del_join, id. destruct sendRemove; rewrite !joins_of_insert, !decide_True by done; [|done].
      apply filter_absent. by intros [? _]%list_elem_of_filter.
    + intros m' k' q Hm'. rewrite Ho. destruct (q =? player); [by intros [=]|]. by apply (cb_reg _ _ Hs m' k' c ch).
  - by rewrite (proj1 Hid).
  - intros x [= <-]. by rewrite (at_mgrs _ _ _ _ _ Hat).
Qed.

Lemma run_switch player jc rc sendRemove m s : chat_ok s -> mgr player = Some m -> 0 < player < 2 ^ 63 ->
  (forall c, jc = Some c -> exists k ch, c_mgrs s !! (m, k) = Some c /\ c_heap s !! c = Some ch) ->
  (forall c, rc = Some c -> c ∈ joins_of (c_joined s) player) ->
  wp (switch_channel w m player jc rc sendRemove) s (fun _ => chat_ok).
Proof.
  intros Hs Hm Hp Hj Hr. apply wp_bind.
  assert (wp (opt_run jc (fun c => JoinChannel w c player [])) s
            (fun _ s' => chat_ok s' /\ forall x, x ∈ joins_of (c_joined s) player -> x ∈ joins_of (c_joined s') player)) as H1.
  { destruct jc as [c|]; [|by apply wp_ret]. destruct (Hj c eq_refl) as (k & ch & Hk & Hc). by eapply run_join. }
  eapply wp_mono; [exact H1|]. intros [] s1 [Hs1 Hsub]. destruct rc as [c|]; [|by apply wp_ret].
  by apply run_remove; auto.
Qed.

Lemma find_used_ok l id s : (forall c, c ∈ l -> is_Some (c_heap s !! c)) ->
  exists r, find_used l id s = (Ok r, s) /\ forall c, r = Some c -> c ∈ l.
Proof.
  induction l as [|c l IH]; intros Hl; [by exists None|]. cbn [find_used]. destruct (Hl c ltac:(by left)) as [ch Hc].
  assert (deref c s = (Ok ch, s)) as Hd by (unfold deref, mbind, prog_bind, get; cbn; by rewrite Hc).
  destruct IH as (r & Er & Hr); [intros x Hx; apply Hl; by right|].
  destruct (_channelId ch =? id) eqn:E.
  - exists (Some c). rewrite (bind_ok _ _ _ _ _ Hd), E. split; [done|]. intros x [= <-]. by left.
  - exists r. rewrite (bind_ok _ _ _ _ _ Hd), E. split; [done|]. intros x Hx. right. by apply Hr.
Qed.

Lemma run_update_local m player zone e s : chat_ok s -> mgr player = Some m -> 0 < player < 2 ^ 63 -> e ∈ cw_channels w ->
  wp (update_local_channel w m player zone e) s (fun _ => chat_ok).
Proof.
  intros Hs Hm Hp He. apply wp_get. change (m_channels s player) with (joins_of (c_joined s) player).
  destruct (find_used_ok (joins_of (c_joined s) player) (ce_ChannelID e) s) as (used & Eu & Hu).
  { intros c (ch & Hc & _)%(cb_joined _ _ Hs). by eexists. }
  apply (wp_seq no_error _ _ _ _ _ _ Eu). destruct (CanJoinConstantChannelInZone w player e zone); [|by apply run_switch].
  destruct (negb (has (ce_flags e) CHANNEL_DBC_FLAG_GLOBAL)); cycle 1.
  { apply wp_bind. eapply wp_mono; [by apply run_GetJoinChannel|]. intros r s1 (H1 & _ & Hr). by apply run_switch. }
  cbv zeta. destruct (has (ce_flags e) CHANNEL_DBC_FLAG_CITY_ONLY && bool_decide (is_Some used)); [by apply wp_ret|].
  assert (forall ext, exists name, snprintf_s 100 (ce_pattern e) ext s = (Ok name, s)) as Hf.
  { intros ext. unfold snprintf_s. destruct (format_any _ [] ext (wo_pattern w Hw e He)) as [l ->]. by eexists. }
  match goal with |- wp (snprintf_s _ _ ?x ≫= _) _ _ => destruct (Hf x) as [name Ef] end.
  apply (wp_seq no_error _ _ _ _ _ _ Ef), wp_bind. eapply wp_mono; [by apply run_GetJoinChannel|]. intros r s1 (H1 & Ej & Hr).
  destruct used as [u|]; [destruct (bool_decide (r = Some u))|]; apply run_switch; try done. intros c [= <-]. rewrite Ej. by apply Hu.
Qed.

Lemma run_UpdateLocalChannels player far s : chat_ok s -> 0 < player < 2 ^ 63 -> wp (UpdateLocalChannels w player far) s (fun _ => chat_ok).
Proof.
  intros Hs Hp. unfold UpdateLocalChannels. case_match; [by apply wp_ret|]. rewrite (wo_mgr w Hw).
  destruct (cw_zone w player) as [zone|]; [|by apply wp_ret]. destruct (mgr player) as [m|] eqn:Em; [|by apply wp_ret].
  apply wp_forM; [done|]. intros e s' He Hs'. by apply run_update_local.
Qed.

Lemma run_SetOwnership player name on s : strict = false -> chat_ok s -> wp (HandleChannelSetOwnership w player name on) s (fun _ => chat_ok).
Proof.
  intros Hst Hs. apply wp_bind. eapply wp_mono.
  - apply run_channel; [done|]. intros c ch [[Hp Ho Hi Hb] _] Hv. eexists. split_and!; [apply acts_upd| | |done|done].
    + split; [done|by rewrite Hst].
    + by intros Hs'; rewrite Hst in Hs'.
  - intros [] s1 [? ? ? ? ? ? ? ? ? Hr]. split; try done. intros k row. cbn. rewrite map_lookup_imap.
    destruct (c_rows s1 !! k) as [r|] eqn:Er; cbn; [|done]. destruct k as [n t]. intros [= <-]. specialize (Hr _ _ Er).
    by case_match.
Qed.

(** What a command asks: a player with a proper guid, no kick of oneself, and the
    ownership of channels only changes if the run is not [strict]. *)
Definition enabled (player : Z) (cmd : ChatCommand) : Prop :=
  0 < player < 2 ^ 63 /\
  match cmd with
  | CmdKick _ target | CmdBan _ target => forall n, cw_normalize w target = Some n -> cw_find w n <> Some player
  | CmdSetOwnership _ _ => strict = false
  | _ => True
  end.

Lemma run_command_ok player cmd s : chat_ok s -> enabled player cmd ->
  wp (run_command w player cmd) s (fun _ s' => chat_ok s' /\ (cmd = CmdCleanup -> joins_of (c_joined s') player = [])).
Proof.
  intros Hs [Hp He]. destruct (decide (cmd = CmdCleanup)) as [->|Hc].
  { eapply wp_mono; [by apply run_CleanupChannels|]. by intros a s' [H1 H2]. }
  eapply (wp_mono _ _ _ (fun _ => chat_ok)); [|by intros a s' H].
  destruct cmd; cbn [run_command]; try done.
  - by apply run_HandleJoinChannel.
  - by apply run_HandleLeaveChannel.
  - apply run_channel; [done|]. intros. by apply minds_List.
  - apply run_channel; [done|]. intros. by apply minds_Password.
  - apply run_channel_named; [done|]. intros. by apply minds_SetOwner_by.
  - apply run_channel; [done|]. intros. by apply minds_WhoOwner.
  - apply run_channel_named; [done|]. intros. apply minds_SetMode; [done|done|]. intros v. by eapply wo_name.
  - apply run_channel_named; [done|]. intros. apply minds_SetMode; [done|done|]. intros v. by eapply wo_name.
  - apply run_channel_named; [done|]. intros. apply minds_SetMode; [done|done|]. intros v. by eapply wo_name.
  - apply run_channel_named; [done|]. intros. apply minds_SetMode; [done|done|]. intros v. by eapply wo_name.
  - apply run_channel_named; [done|]. intros. by apply minds_Invite.
  - by apply run_kick_named.
  - by apply run_kick_named.
  - apply run_channel_named; [done|]. intros. by apply minds_UnBan.
  - apply run_channel; [done|]. intros. by apply minds_Announce.
  - apply run_channel; [done|]. intros. apply minds_quiet; [done|done|]. apply acts_deref, quiet_send.
  - apply run_channel; [done|]. intros. by apply minds_Say.
  - by apply run_SetOwnership.
  - by apply run_UpdateLocalChannels.
Qed.
End Invariant.

(** ** Runs *)

(** The states of the server: it starts with a table of channels and no channel. *)
Inductive reachable (strict : bool) (mgr : Z -> option Z) (key : list Z -> option (list Z)) : Chat -> Prop :=
| reach_start rows : (forall k row, rows !! k = Some row -> row_ok row) -> reachable strict mgr key (mkChat ∅ 0 ∅ ∅ ∅ rows [])
| reach_step s w player cmd s' : reachable strict mgr key s -> world_ok mgr key w -> enabled strict w player cmd ->
    run_command w player cmd s = (Ok tt, s') -> reachable strict mgr key s'.

Lemma reachable_ok strict mgr key s : reachable strict mgr key s -> chat_ok strict mgr key s.
Proof.
  induction 1 as [rows Hr|s w player cmd s' _ IH Hw He Er].
  - split; cbn; try done; try (by intros; simplify_map_eq).
    + intros p c. unfold joins_of. rewrite lookup_empty. cbn. split; [by intros ?%elem_of_nil|]. intros (ch & Hc & _). by rewrite lookup_empty in Hc.
    + intros p. unfold joins_of. rewrite lookup_empty. constructor.
  - pose proof (run_command_ok strict mgr key w Hw player cmd s IH He) as H. unfold Prelude.wp in H. rewrite Er in H. apply H.
Qed.

Lemma mgrs_of_channel strict mgr key s c ch : chat_ok strict mgr key s -> c_heap s !! c = Some ch ->
  exists m k, c_mgrs s !! (m, k) = Some c /\ key (_name ch) = Some k /\ forall p, IsOn ch p = true -> mgr p = Some m.
Proof.
  intros Hs Hc. destruct (cb_known _ _ _ _ _ Hs c ch Hc) as [[m k] Hm]. exists m, k. split; [done|]. by apply (cb_reg _ _ _ _ _ Hs m k c ch).
Qed.



(** ** Who hears whom *)

Lemma chat_send_nil s : chat_send [] s = s.
Proof. destruct s. unfold chat_send. cbn. by rewrite app_nil_r. Qed.
Lemma deref_live c ch s : c_heap s !! c = Some ch -> deref c s = (Ok ch, s).
Proof. intros Hc. unfold deref, mbind, prog_bind, get. cbn. by rewrite Hc. Qed.

Lemma audience_spec w ch g x : x ∈ audience w ch g <-> IsOn ch x = true /\ cw_online w x = true /\ (g = 0 \/ cw_ignores w x g = false).
Proof.
  unfold audience. rewrite list_elem_of_filter, andb_true_iff, orb_true_iff, Z.eqb_eq, negb_true_iff, IsOn_spec, list_elem_of_fmap.
  split.
  - intros [[H1 H2] ([k i] & -> & Hi%in_order_spec)]. split; [by exists i|done].
  - intros ([i Hi] & H1 & H2). split; [done|]. exists (x, i). split; [done|]. by apply in_order_spec.
Qed.

Lemma notify_one_spec w c n g s ch : c_heap s !! c = Some ch ->
  exists l, notify_one w c n g s = (Ok tt, chat_send l s) /\
    forall x msg, (x, msg) ∈ l <-> x = g /\ cw_online w x = true /\ msg = MsgNotify (MakeNotifyPacket (_name ch) n).
Proof.
  intros Hc. unfold notify_one. rewrite (bind_ok _ _ _ _ _ (deref_live c ch s Hc)). unfold SendToOne. destruct (cw_online w g) eqn:Eo.
  - eexists. split; [done|]. intros x msg. rewrite list_elem_of_singleton. naive_solver.
  - exists []. split; [by rewrite chat_send_nil|]. intros x msg. rewrite elem_of_nil. naive_solver congruence.
Qed.
Lemma SendToAll_spec w c msg g s ch : c_heap s !! c = Some ch ->
  exists l, SendToAll w c msg g s = (Ok tt, chat_send l s) /\ forall x m, (x, m) ∈ l <-> x ∈ audience w ch g /\ m = msg.
Proof.
  intros Hc. eexists. split; [unfold SendToAll; rewrite (bind_ok _ _ _ _ _ (deref_live c ch s Hc)); done|].
  intros x m. rewrite list_elem_of_fmap. split; [intros (y & [= -> ->] & Hy); done|intros [Hx ->]; by exists x].
Qed.

(** A player who speaks on a channel: without a message nothing happens; if he is
    not on the channel or muted, he is told so and nobody hears him; else exactly
    the players of the channel who are online hear him, less, if he is not a
    moderator, those who ignore him.  Nothing but the packets changes. *)
Theorem Say_spec w c guid what lang s ch : c_heap s !! c = Some ch -> 0 < guid ->
  exists l, Say w c guid what lang s = (Ok tt, chat_send l s) /\
    forall x msg, (x, msg) ∈ l <->
      what <> [] /\ cw_online w x = true /\
      match playersStore ch !! guid with
      | None => x = guid /\ msg = MsgNotify (MakeNotifyPacket (_name ch) CHAT_NOT_MEMBER_NOTICE)
      | Some i =>
          if IsMuted i then x = guid /\ msg = MsgNotify (MakeNotifyPacket (_name ch) CHAT_MUTED_NOTICE)
          else IsOn ch x = true /\ (IsModerator i = true \/ cw_ignores w x guid = false) /\
               msg = MsgChat (chat_packet w ch guid what (if cw_two_side_channels w then LANG_UNIVERSAL else lang))
      end.
Proof.
  intros Hc Hpos. unfold Say. case_bool_decide as E.
  { exists []. split; [by rewrite chat_send_nil|]. intros x msg. rewrite elem_of_nil. naive_solver. }
  unfold as_member. rewrite (bind_ok _ _ _ _ _ (deref_live c ch s Hc)). unfold IsOn at 1, player_at.
  destruct (playersStore ch !! guid) as [i|]; cbn [default].
  - rewrite bool_decide_true by (by eexists). cbn [from_option]. unfold id. destruct (IsMuted i).
    + destruct (notify_one_spec w c CHAT_MUTED_NOTICE guid s ch Hc) as (l & El & Hl). exists l. split; [done|]. intros x msg. rewrite Hl. naive_solver.
    + destruct (SendToAll_spec w c (MsgChat (chat_packet w ch guid what (if cw_two_side_channels w then LANG_UNIVERSAL else lang)))
        (if IsModerator i then 0 else guid) s ch Hc) as (l & El & Hl).
      exists l. split; [done|]. intros x msg. rewrite Hl, audience_spec. destruct (IsModerator i); [naive_solver|].
      split; [intros ((? & ? & [?|?]) & ?); [lia|naive_solver]|naive_solver].
  - rewrite bool_decide_false by (by intros []). destruct (notify_one_spec w c CHAT_NOT_MEMBER_NOTICE guid s ch Hc) as (l & El & Hl).
    exists l. split; [done|]. intros x msg. rewrite Hl. naive_solver.
Qed.

(** ** The table *)

(** What [UpdateChannelInDB] stores of a saved channel, the next channel of that
    name and team gets back: announcements, ownership, password and bans. *)
Theorem channel_row_roundtrip w c s ch id : c_heap s !! c = Some ch -> _IsSaved ch = true -> ban_ids (bannedStore ch) ->
  cw_preserve w = true -> LookupEntry w id = None -> is_Some (c_rows s !! (cw_collate w (_name ch), _Team ch)) ->
  exists s', (UpdateChannelInDB w c;; Channel_new w (_name ch) id (_Team ch)) s =
    (Ok (mkChannel (_announce ch) (_ownership ch) true CHANNEL_FLAG_CUSTOM id (_Team ch) 0 (_name ch) (_password ch) ∅ (bannedStore ch)), s').
Proof.
  intros Hc Hsv Hb Hp Hl [row Hr]. set (k := (cw_collate w (_name ch), _Team ch)).
  set (row' := mkChannelRow (_announce ch) (_ownership ch) (_password ch) (Some (print_bans (bannedStore ch)))).
  set (s1 := set_rows (alter (fun _ => row') k (c_rows s)) s). exists s1.
  rewrite (bind_ok _ _ _ tt s1); [|unfold UpdateChannelInDB; by rewrite (bind_ok _ _ _ _ _ (deref_live c ch s Hc)), Hsv].
  unfold Channel_new. rewrite Hl, Hp, (bind_ok get _ s1 s1 s1 eq_refl). fold k.
  assert (c_rows s1 !! k = Some row') as -> by (unfold s1; cbn; rewrite lookup_alter_eq; unfold k; by rewrite Hr).
  unfold row'. cbn [cr_bannedList cr_announce cr_ownership cr_password]. by rewrite load_print_bans.
Qed.

(** ** An owner who kicks himself *)

(** The owner of a custom channel kicks himself while others are on it: he stays on
    the channel and its owner, as a player without a guid, and the channel is no
    longer in his list, so that he will not leave it when he logs out. *)
Lemma owner_kick_haunts w c s ch good i other name : c_heap s !! c = Some ch -> base_ok ch -> rows_ok s -> playersStore ch !! good = Some i ->
  IsModerator i = true -> _ownerGUID ch = good -> _ownership ch = true -> other <> good -> IsOn ch other = true ->
  cw_find w name = Some good ->
  exists s' ch' i', Kick w c good name s = (Ok tt, s') /\ c_heap s' !! c = Some ch' /\ playersStore ch' !! good = Some i' /\
    pi_player i' = 0 /\ _ownerGUID ch' = good /\ c ∉ m_channels s' good.
Proof.
  intros Hc Hb Hr Hi Hmod Ho Hw Hne Hother Hf. destruct (base_player ch Hb good i Hi) as [Hpi Hpos].
  assert (IsOn ch good = true) as Hon by (apply IsOn_spec; by eexists).
  set (ch2 := set_players (delete good (playersStore ch)) ch). set (ch3 := upd_player good (SetFlag MEMBER_FLAG_MODERATOR true) ch2).
  assert (acts (Kick w c good name) c ch (make_owner good ch3) (del_join c good)) as Ha.
  { apply acts_deref. rewrite Hon. unfold player_at. rewrite Hi. cbn [default negb]. unfold id. rewrite Hmod. cbn [negb andb].
    rewrite Hf, Hon. cbn [negb]. rewrite Ho, Z.eqb_refl, andb_true_r, andb_false_r.
    apply acts_quiet; [apply quiet_if; auto with quiet|]. apply acts_upd_then.
    apply (acts_seq c _ _ _ ch2 _ (del_join c good) id); [apply acts_Player_LeftChannel|intros _].
    apply acts_deref. cbn [_ownership ch2 set_players]. rewrite Hw. cbn [andb].
    rewrite bool_decide_false by (apply (players_on _ other); unfold ch2; rewrite on_delete; by destruct (Z.eqb_spec other good)).
    apply acts_upd_then. apply acts_SetOwner; [lia|apply Hb]. }
  pose proof (Ha _ _ _ (at_start c ch s Hc Hr)) as H. unfold Prelude.wp in H. destruct (Kick w c good name s) as [[[]|e] s']; [|done].
  destruct H as [Eh _ _ Ej _]. exists s', (make_owner good ch3). eexists. split_and!; [done|by rewrite Eh, lookup_insert_eq| | | |].
  - unfold make_owner. by rewrite upd_lookup, decide_True.
  - unfold make_owner, player_at. cbn. rewrite lookup_insert_eq. cbn. unfold player_at, drop_owner, ch3. cbn. rewrite Ho.
    unfold IsOn. cbn. rewrite lookup_insert_eq.
    assert (negb (good =? 0) = true) as -> by (apply negb_true_iff, Z.eqb_neq; lia). cbn. rewrite lookup_insert_eq. cbn.
    unfold player_at. cbn. rewrite lookup_insert_eq. cbn. unfold player_at. cbn. by rewrite lookup_delete_eq.
  - done.
  - unfold m_channels. rewrite Ej. unfold del_join. rewrite lookup_insert_eq. cbn. by intros [? _]%list_elem_of_filter.
Qed.

(** ** Witnesses *)

Fixpoint run_list (w : ChannelWorld) (l : list (Z * ChatCommand)) (s : Chat) : option Chat :=
  match l with
  | [] => Some s
  | (player, cmd) :: l' => match run_command w player cmd s with (Ok tt, s') => run_list w l' s' | _ => None end
  end.
Lemma reachable_list strict mgr key w l s s' : world_ok mgr key w -> Forall (fun '(p, cmd) => enabled strict w p cmd) l ->
  reachable strict mgr key s -> run_list w l s = Some s' -> reachable strict mgr key s'.
Proof.
  intros Hw Hl. revert s. induction Hl as [|[p cmd] l He _ IH]; intros s Hs; cbn; [by intros [= <-]|].
  destruct (run_command w p cmd s) as [[[]|] s1] eqn:E; [|done]. apply IH. by eapply reach_step.
Qed.

(** Players 1, 2 and 3 are [A], [B] and [C]; one built-in channel. *)
Definition w0 : ChannelWorld := {|
  cw_online p := negb (p =? 3);
  cw_find n := match n with [a] => Some (a - 64) | _ => None end;
  cw_name p := [64 + p]; cw_stored_name p := Some [64 + p];
  cw_team _ := ALLIANCE; cw_guild _ := 0; cw_silent _ := false; cw_not_moderator _ := false; cw_two_side _ := false;
  cw_see_all _ := false; cw_security _ := 0; cw_player_account _ := true; cw_in_group _ := false; cw_visible _ _ := true;
  cw_gm_visible _ := true; cw_ignores p q := (p =? 2) && (q =? 3); cw_chat_tag _ := 0;
  cw_zone _ := Some (mkAreaTableEntry 0 [69]); cw_loading _ := false; cw_gm_level_in_who := 0; cw_restricted_lfg := false;
  cw_two_side_channels := false; cw_preserve := true;
  cw_channels := [mkChatChannelsEntry 1 CHANNEL_DBC_FLAG_ZONE_DEP [71; 37; 115]];
  cw_city := [67]; cw_key n := Some n; cw_collate n := n; cw_like n m := bool_decide (n = m); cw_normalize n := Some n |}.
Definition start0 : Chat := mkChat ∅ 0 ∅ ∅ ∅ ∅ [].

Lemma w0_ok : world_ok (fun _ => Some ALLIANCE) Some w0.
Proof.
  split; try done.
  - intros n n' v [= ->]. cbn. destruct n' as [|a [|]]; try done. intros [= <-]. f_equal. lia.
  - intros e ->%list_elem_of_singleton. by eexists.
Qed.

(** [A] opens the channel [X] and enters a zone, [B] and [C] follow; [A] bans [B]. *)
Definition scenario : list (Z * ChatCommand) :=
  [(1, CmdJoin 0 [88] []); (1, CmdUpdateLocal false); (2, CmdJoin 0 [88] []); (3, CmdJoin 0 [88] []); (2, CmdUpdateLocal false);
   (1, CmdBan [88] [66]); (1, CmdModerator [88] [67]); (1, CmdLeave [88]); (1, CmdJoin 0 [88] [])].
Definition state0 : Chat := default start0 (run_list w0 scenario start0).
Lemma state0_run : run_list w0 scenario start0 = Some state0.
Proof. vm_compute. reflexivity. Qed.
Lemma state0_reachable strict : reachable strict (fun _ => Some ALLIANCE) Some state0.
Proof.
  eapply (reachable_list _ _ _ w0 scenario start0 state0 w0_ok); [|by apply reach_start|exact state0_run].
  repeat constructor; try done; cbn; by intros n [= <-].
Qed.


Definition channel0 : Channel := default (mkChannel false false false 0 0 0 0 [] [] ∅ ∅) (c_heap state0 !! 0).
Lemma channel0_heap : c_heap state0 !! 0 = Some channel0.
Proof. vm_compute. reflexivity. Qed.
Lemma channel0_fields : exists players, channel0 = mkChannel true true true CHANNEL_FLAG_CUSTOM 0 ALLIANCE 3 [88] [] players {[ 2 ]} /\
  bool_decide (players = ∅) = false.
Proof. eexists. split; vm_compute; reflexivity. Qed.


Lemma Say_spec_witness : exists l, Say w0 0 3 [72; 105] 7 state0 = (Ok tt, chat_send l state0) /\ (1, MsgChat (chat_packet w0 channel0 3 [72; 105] 7)) ∈ l.
Proof.
  destruct (Say_spec w0 0 3 [72; 105] 7 state0 channel0 channel0_heap ltac:(lia)) as (l & El & Hl). exists l. split; [exact El|].
  apply Hl. split; [done|]. split; [done|]. vm_compute. split; [done|]. split; [by left|done].
Defined.

Lemma channel_row_roundtrip_witness : exists s', (UpdateChannelInDB w0 0;; Channel_new w0 [88] 0 ALLIANCE) state0 =
  (Ok (mkChannel true true true CHANNEL_FLAG_CUSTOM 0 ALLIANCE 0 [88] [] ∅ {[ 2 ]}), s').
Proof.
  destruct channel0_fields as (players & E & _).
  assert (is_Some (c_rows state0 !! ([88], ALLIANCE))) as Hrow by (eexists; vm_compute; reflexivity).
  pose proof channel0_heap as Hc. rewrite E in Hc.
  destruct (channel_row_roundtrip w0 0 state0 _ 0 Hc eq_refl) as [s' H]; [|reflexivity|reflexivity|exact Hrow|by exists s'].
  cbn. intros g ->%elem_of_singleton. lia.
Defined.
