(* ===== verification/LfgRoles.v ===== *)
(** * Roles of a dungeon group (src/src/serveur/jeu/DungeonFinding)

    [LFGMgr::CheckGroupRoles] looks for one role for each player, out of those he
    chose, such that there are at most one tank, one healer and three damage
    dealers; it changes the map it is given as it goes.  A map of roles is the
    list of its entries in the order of the guids. *)

From S2P Require Import Prelude.
From stdpp Require Import list.
Local Open Scope Z_scope.

Definition PLAYER_ROLE_NONE := 0.
Definition PLAYER_ROLE_LEADER := 1.
Definition PLAYER_ROLE_TANK := 2.
Definition PLAYER_ROLE_HEALER := 4.
Definition PLAYER_ROLE_DAMAGE := 8.
Definition LFG_TANKS_NEEDED := 1.
Definition LFG_HEALERS_NEEDED := 1.
Definition LFG_DPS_NEEDED := 3.

Abbreviation LfgRolesMap := (list (Z * Z)).
Definition role_at (i : nat) (l : LfgRolesMap) : Z := default 0 (snd <$> l !! i).
Definition set_role (i : nat) (role : Z) (l : LfgRolesMap) : LfgRolesMap := alter (fun e => (e.1, role)) i l.
Definition remove_leader (l : LfgRolesMap) : LfgRolesMap := (fun e => (e.1, Z.ldiff e.2 PLAYER_ROLE_LEADER)) <$> l.

(** Where a step of the loop goes on: out of the function, or to the next step
    with the counter of its role. *)
Inductive outcome := Return (b : bool) (l : LfgRolesMap) | Continue (l : LfgRolesMap) (count : Z).

Section Check.
Context (rec : LfgRolesMap -> option (bool * LfgRolesMap)).

(** One of the three [if]s of the loop; [rec] is the recursive call. *)
Definition role_step (role needed : Z) (i : nat) (l : LfgRolesMap) (count : Z) : option outcome :=
  let second := role_at i l in
  if has second role then
    if negb (second =? role) then
      match rec (set_role i (second - role) l) with
      | Some (true, l') => Some (Return true l')
      | Some (false, l') => Some (Continue (set_role i (role_at i l' + role) l') count)
      | None => None
      end
    else if count =? needed then Some (Return false l)
    else Some (Continue l (count + 1))
  else Some (Continue l count).

(** The loop over the entries from [i], [n] of them. *)
Fixpoint check_loop (n i : nat) (l : LfgRolesMap) (damage healer tank : Z) : option (bool * LfgRolesMap) :=
  match n with
  | O => Some (tank + healer + damage =? uint 8 (len l), l)
  | S n' =>
      if role_at i l =? PLAYER_ROLE_NONE then Some (false, l)
      else
        match role_step PLAYER_ROLE_DAMAGE LFG_DPS_NEEDED i l damage with
        | Some (Continue l damage) =>
            match role_step PLAYER_ROLE_HEALER LFG_HEALERS_NEEDED i l healer with
            | Some (Continue l healer) =>
                match role_step PLAYER_ROLE_TANK LFG_TANKS_NEEDED i l tank with
                | Some (Continue l tank) => check_loop n' (S i) l damage healer tank
                | Some (Return b l) => Some (b, l)
                | None => None
                end
            | Some (Return b l) => Some (b, l)
            | None => None
            end
        | Some (Return b l) => Some (b, l)
        | None => None
        end
  end.
End Check.

(** [CheckGroupRoles(groles, removeLeaderFlag)]; each recursive call has a role less. *)
Fixpoint check_roles (fuel : nat) (removeLeaderFlag : bool) (groles : LfgRolesMap) : option (bool * LfgRolesMap) :=
  match fuel with
  | O => None
  | S fuel' =>
      match groles with
      | [] => Some (false, groles)
      | _ =>
          let l := if removeLeaderFlag then remove_leader groles else groles in
          check_loop (check_roles fuel' false) (length l) 0 l 0 0 0
      end
  end.
Definition roles_fuel (groles : LfgRolesMap) : nat := S (Z.to_nat (foldr (fun e n => e.2 + n) 0 groles)).
Definition CheckGroupRoles (groles : LfgRolesMap) : bool * LfgRolesMap :=
  default (false, groles) (check_roles (roles_fuel groles) true groles).

Example trinity : CheckGroupRoles [(1, 14); (2, 6); (3, 9); (4, 12); (5, 10)] = (true, [(1, 2); (2, 4); (3, 8); (4, 8); (5, 8)]).
Proof. reflexivity. Qed.
Example two_tanks : CheckGroupRoles [(1, 2); (2, 2); (3, 8)] = (false, [(1, 2); (2, 2); (3, 8)]).
Proof. reflexivity. Qed.

(** ** What the roles have to be *)

Definition the_roles : list Z := [PLAYER_ROLE_TANK; PLAYER_ROLE_HEALER; PLAYER_ROLE_DAMAGE].
Definition needed (role : Z) : Z :=
  if role =? PLAYER_ROLE_TANK then LFG_TANKS_NEEDED else if role =? PLAYER_ROLE_HEALER then LFG_HEALERS_NEEDED else LFG_DPS_NEEDED.
Definition count_role (role : Z) (l : LfgRolesMap) : Z := len (filter (fun e => e.2 = role) l).
Definition within_needs (l : LfgRolesMap) : Prop := forall role, role ∈ the_roles -> count_role role l <= needed role.

(** [chosen] picks for each player one of his roles; a role the finder does not
    know cannot be filled. *)
Definition picks (e c : Z * Z) : Prop := c.1 = e.1 /\ c.2 ∈ the_roles /\ has e.2 c.2 = true /\ Z.shiftr e.2 4 = 0.
Definition assignment (groles chosen : LfgRolesMap) : Prop := Forall2 picks groles chosen /\ within_needs chosen.
Definition feasible (groles : LfgRolesMap) : Prop := exists chosen, assignment groles chosen.

(** ** Roles as bits *)

Lemma the_roles_bits role : role ∈ the_roles -> exists n, 1 <= n <= 3 /\ role = 2 ^ n.
Proof.
  unfold the_roles. rewrite !elem_of_cons, elem_of_nil. intros [->|[->|[->|[]]]]; [exists 1|exists 2|exists 3]; done.
Qed.
Lemma sub_role r role : role ∈ the_roles -> has r role = true -> r - role = Z.ldiff r role.
Proof.
  intros (n & Hn & ->)%the_roles_bits Hr. rewrite has_bit in Hr by lia. apply Z.sub_nocarry_ldiff, Z.bits_inj'. intros m Hm.
  rewrite Z.ldiff_spec, Z.pow2_bits_eqb, Z.bits_0 by lia. destruct (Z.eqb_spec n m) as [<-|]; [by rewrite Hr|done].
Qed.
Lemma has_ldiff r role m : 0 <= m -> has (Z.ldiff r role) (2 ^ m) = has r (2 ^ m) && negb (Z.testbit role m).
Proof. intros Hm. by rewrite !has_bit, Z.ldiff_spec. Qed.
Lemma shiftr_ldiff r role : 0 <= role < 16 -> Z.shiftr (Z.ldiff r role) 4 = Z.shiftr r 4.
Proof.
  intros Hr. rewrite Z.shiftr_ldiff. assert (Z.shiftr role 4 = 0) as -> by (rewrite Z.shiftr_div_pow2 by lia; apply Z.div_small; lia).
  apply Z.ldiff_0_r.
Qed.
Lemma role_small role : role ∈ the_roles -> 0 < role < 16.
Proof. intros (n & Hn & ->)%the_roles_bits. assert (n = 1 \/ n = 2 \/ n = 3) as [->|[->| ->]] by lia; done. Qed.

(** Taking away a role leaves the choices that did not use it. *)
Lemma picks_without g r role c : role ∈ the_roles -> has r role = true ->
  picks (g, r - role) c <-> picks (g, r) c /\ c.2 <> role.
Proof.
  intros Hrole Hr. unfold picks. cbn [fst snd]. rewrite (sub_role r role Hrole Hr), shiftr_ldiff by (pose proof (role_small role Hrole); lia).
  assert (c.2 ∈ the_roles -> has (Z.ldiff r role) c.2 = true <-> has r c.2 = true /\ c.2 <> role) as H; [|tauto].
  intros (m & Hm & ->)%the_roles_bits. destruct (the_roles_bits role Hrole) as (n & Hn & ->).
  rewrite has_ldiff, Z.pow2_bits_eqb, andb_true_iff, negb_true_iff, Z.eqb_neq by lia. split; intros [H1 H2]; (split; [done|]).
  - by intros ->%Z.pow_inj_r; try lia.
  - by intros ->.
Qed.

(** What the roles of a map look like in the recursive calls. *)
Definition role_ok (r : Z) : Prop := 0 <= r < 256 /\ Z.testbit r 0 = false.
Definition roles_ok (l : LfgRolesMap) : Prop := Forall (fun e => role_ok e.2) l.

Lemma role_ok_without r role : role ∈ the_roles -> has r role = true -> role_ok r -> role_ok (r - role).
Proof.
  intros Hrole Hr [Hb H0]. pose proof (role_small role Hrole). rewrite (sub_role r role Hrole Hr). split.
  - rewrite <- (sub_role r role Hrole Hr). split; [|lia]. rewrite (sub_role r role Hrole Hr). apply Z.ldiff_nonneg. lia.
  - by rewrite Z.ldiff_spec, H0.
Qed.

(** A role of several, or with an unknown part, has another choice or none. *)
Lemma other_role r x : role_ok r -> x ∈ the_roles -> has r x = true -> Z.shiftr r 4 = 0 -> r <> x ->
  exists y, y ∈ the_roles /\ has r y = true /\ y <> x.
Proof.
  intros [Hr H0] Hx Hh Hs Hne. rewrite Z.shiftr_div_pow2 in Hs by lia. apply Z.div_small_iff in Hs; [|lia].
  change (2 ^ 4) with 16 in Hs. assert (Hr' : 0 <= r < 16) by lia. clear Hr Hs.
  unfold the_roles in *. rewrite !elem_of_cons, elem_of_nil in Hx.
  assert (r = 0 \/ r = 2 \/ r = 4 \/ r = 6 \/ r = 8 \/ r = 10 \/ r = 12 \/ r = 14 \/ Z.testbit r 0 = true) as Hcases.
  { assert (r = 0 \/ r = 1 \/ r = 2 \/ r = 3 \/ r = 4 \/ r = 5 \/ r = 6 \/ r = 7 \/ r = 8 \/ r = 9 \/ r = 10 \/ r = 11 \/ r = 12 \/ r = 13 \/ r = 14 \/ r = 15)
      as Hall by lia. clear - Hall. destruct_or! Hall; subst; cbn; tauto. }
  clear Hr'. destruct_or! Hcases; destruct_or! Hx; subst; try done; try (by vm_compute in Hh); try (by destruct Hne); try congruence;
    first [exists 2; by split; [left|split]|exists 4; by split; [right; left|split]|exists 8; by split; [right; right; left|split]].
Qed.

(** ** The search is complete *)

Definition sum_roles (l : LfgRolesMap) : Z := foldr (fun e n => e.2 + n) 0 l.
Lemma sum_roles_app l l' : sum_roles (l ++ l') = sum_roles l + sum_roles l'.
Proof. induction l as [|e l IH]; [done|]. cbn. unfold sum_roles in *. lia. Qed.
Lemma sum_roles_nonneg l : roles_ok l -> 0 <= sum_roles l.
Proof. induction 1 as [|e l [He _] _ IH]; cbn; [done|]. unfold sum_roles in IH. lia. Qed.

Lemma role_at_mid pre g r suf : role_at (length pre) (pre ++ (g, r) :: suf) = r.
Proof. unfold role_at. by rewrite list_lookup_middle. Qed.
Lemma set_role_mid pre g r x suf : set_role (length pre) x (pre ++ (g, r) :: suf) = pre ++ (g, x) :: suf.
Proof. unfold set_role. rewrite <- (Nat.add_0_r (length pre)). by rewrite alter_app_r. Qed.

Lemma count_role_app role l l' : count_role role (l ++ l') = count_role role l + count_role role l'.
Proof. unfold count_role. rewrite filter_app, length_app. lia. Qed.
Lemma count_role_single role e : count_role role [e] = Z.b2z (bool_decide (e.2 = role)).
Proof. unfold count_role. rewrite filter_cons. case_bool_decide; case_decide; done. Qed.
Lemma count_role_cons role e l : count_role role (e :: l) = Z.b2z (bool_decide (e.2 = role)) + count_role role l.
Proof. change (e :: l) with ([e] ++ l). by rewrite count_role_app, count_role_single. Qed.

Lemma picks_single g role c : role ∈ the_roles -> picks (g, role) c -> c.2 = role.
Proof.
  intros (n & Hn & ->)%the_roles_bits (_ & (m & Hm & Ec)%the_roles_bits & Hh & _). rewrite Ec in *. cbn in Hh.
  rewrite has_bit, Z.pow2_bits_eqb in Hh by lia. apply Z.eqb_eq in Hh. by subst.
Qed.
Lemma count_picks role l c : role ∈ the_roles -> Forall2 picks l c -> count_role role l <= count_role role c.
Proof.
  intros Hr. induction 1 as [|[g r] x l c Hx _ IH]; [done|]. rewrite !count_role_cons. cbn [snd].
  case_bool_decide as E; [|by case_bool_decide; cbn [Z.b2z]; lia]. subst r. rewrite (picks_single _ _ _ Hr Hx).
  rewrite bool_decide_true by done. cbn [Z.b2z]. lia.
Qed.
Lemma too_many role pre suf : role ∈ the_roles -> needed role < count_role role pre -> ~ feasible (pre ++ suf).
Proof.
  intros Hr Hc (c & Hp & Hn). specialize (Hn role Hr). pose proof (count_picks role _ _ Hr Hp) as H.
  rewrite count_role_app in H. unfold count_role at 2 in H. lia.
Qed.

(** Three kinds of roles fill the whole list, or somebody has no single role. *)
Lemma counts_sum l : 
  count_role PLAYER_ROLE_TANK l + count_role PLAYER_ROLE_HEALER l + count_role PLAYER_ROLE_DAMAGE l <= len l /\
  (count_role PLAYER_ROLE_TANK l + count_role PLAYER_ROLE_HEALER l + count_role PLAYER_ROLE_DAMAGE l = len l <->
   Forall (fun e => e.2 ∈ the_roles) l).
Proof.
  induction l as [|e l [IH1 IH2]]; [by split|]. rewrite !count_role_cons, Forall_cons. cbn [length]. rewrite Nat2Z.inj_succ.
  unfold the_roles at 1. rewrite !elem_of_cons, elem_of_nil.
  repeat case_bool_decide; cbn [Z.b2z]; try (exfalso; unfold PLAYER_ROLE_TANK, PLAYER_ROLE_HEALER, PLAYER_ROLE_DAMAGE in *; lia);
    (split; [lia|]); split; intros H'; first [lia|split; [tauto|apply IH2; lia]|apply proj2, IH2 in H'; lia|tauto].
Qed.

Lemma swap_mid pre g r r' suf role : role ∈ the_roles -> has r role = true -> r' = r - role ->
  forall chosen, assignment (pre ++ (g, r') :: suf) chosen <->
    assignment (pre ++ (g, r) :: suf) chosen /\ forall c, chosen !! length pre = Some c -> c.2 <> role.
Proof.
  intros Hrole Hr -> chosen. unfold assignment. split.
  - intros [Hp Hn]. apply Forall2_app_inv_l in Hp as (c1 & c2 & H1 & H2 & ->). inversion H2 as [|? x ? c3 Hx Hs]; subst.
    apply picks_without in Hx as [Hx Hne]; [|done|done]. split; [split; [|done]|].
    + apply Forall2_app; [done|]. by constructor.
    + intros c. rewrite (Forall2_length _ _ _ H1), lookup_app_r, Nat.sub_diag by lia. by intros [= <-].
  - intros [[Hp Hn] Hne]. split; [|done]. apply Forall2_app_inv_l in Hp as (c1 & c2 & H1 & H2 & ->).
    inversion H2 as [|? x ? c3 Hx Hs]; subst. apply Forall2_app; [done|]. constructor; [|done]. apply picks_without; [done|done|].
    split; [done|]. apply Hne. by rewrite (Forall2_length _ _ _ H1), lookup_app_r, Nat.sub_diag by lia.
Qed.

Definition good_result (l : LfgRolesMap) (r : option (bool * LfgRolesMap)) : Prop :=
  exists b l', r = Some (b, l') /\ if b then assignment l l' else l' = l /\ ~ feasible l.

Section Loop.
Context (rec : LfgRolesMap -> option (bool * LfgRolesMap)) (l0 : LfgRolesMap).
Hypothesis Hrec : forall l, sum_roles l < sum_roles l0 -> length l = length l0 -> roles_ok l -> good_result l (rec l).
Hypothesis Hok : roles_ok l0.

(** One of the three steps at the entry after [pre]. *)
Lemma role_step_ok role pre g r suf : l0 = pre ++ (g, r) :: suf -> role ∈ the_roles -> count_role role pre <= needed role ->
  match role_step rec role (needed role) (length pre) l0 (count_role role pre) with
  | Some (Return b l') => good_result l0 (Some (b, l'))
  | Some (Continue l' count) => l' = l0 /\ count = count_role role (pre ++ [(g, r)]) /\ count <= needed role /\
      (has r role = true -> r <> role -> ~ exists c, assignment l0 c /\ forall x, c !! length pre = Some x -> x.2 <> role)
  | None => False
  end.
Proof.
  intros E Hr Hc. unfold role_step. rewrite E, role_at_mid. rewrite count_role_app, count_role_single. cbn [snd].
  destruct (has r role) eqn:Hh.
  - destruct (Z.eqb_spec r role) as [->|Hne]; cbn [negb].
    + rewrite bool_decide_true by done. cbn [Z.b2z]. destruct (Z.eqb_spec (count_role role pre) (needed role)) as [En|En].
      * exists false, (pre ++ (g, role) :: suf). split; [done|]. split; [done|].
        rewrite cons_middle, app_assoc. apply (too_many role); [done|]. rewrite count_role_app, count_role_single, bool_decide_true by done.
        cbn [Z.b2z]. lia.
      * split_and!; [done|done|lia|done].
    + rewrite set_role_mid, bool_decide_false by done. cbn [Z.b2z].
      pose proof (swap_mid pre g r (r - role) suf role Hr Hh eq_refl) as Hs. unfold roles_ok in Hok.
      rewrite E, Forall_app, Forall_cons in Hok. destruct Hok as (Hp & Hx & Hsu).
      destruct (Hrec (pre ++ (g, r - role) :: suf)) as (b & l' & -> & Hb).
      * rewrite E, !sum_roles_app. cbn. pose proof (role_small role Hr). lia.
      * by rewrite E, !length_app.
      * apply Forall_app. split; [done|]. apply Forall_cons. split; [by apply role_ok_without|done].
      * destruct b; [exists true, l'; split; [done|]; by apply Hs|]. destruct Hb as [-> Hinf].
        rewrite role_at_mid, set_role_mid. split_and!; [do 3 f_equal; lia|lia|lia|]. intros _ _ (c & Hcc & Hne').
        apply Hinf. exists c. by apply Hs.
  - assert (r <> role) as Hne.
    { intros ->. destruct (the_roles_bits role Hr) as (n & Hn & ->). by rewrite has_bit, Z.pow2_bits_true in Hh by lia. }
    rewrite bool_decide_false by done. cbn [Z.b2z]. split_and!; [done|lia|lia|done].
Qed.

Lemma role_step_some role needed_ i l count : 
  match role_step rec role needed_ i l count with None => False | _ => True end -> is_Some (role_step rec role needed_ i l count).
Proof. destruct (role_step _ _ _ _ _ _); [by eexists|done]. Qed.

(** Who can do several things leaves a choice open. *)
Lemma single_role pre g r suf : l0 = pre ++ (g, r) :: suf -> feasible l0 ->
  (forall role, role ∈ the_roles -> has r role = true -> r <> role ->
     ~ exists c, assignment l0 c /\ forall x, c !! length pre = Some x -> x.2 <> role) ->
  r ∈ the_roles.
Proof.
  intros E [c Hc] Hf. destruct (decide (r ∈ the_roles)) as [|Hn]; [done|]. exfalso. pose proof Hc as [Hp _]. rewrite E in Hp.
  apply Forall2_app_inv_l in Hp as (c1 & c2 & H1 & H2 & Ec). inversion H2 as [|? x ? c3 (_ & Hx & Hh & Hs) _]; subst c2. cbn in Hh, Hs.
  pose proof Hok as Hok'. rewrite E in Hok'. unfold roles_ok in Hok'. rewrite Forall_app, Forall_cons in Hok'. destruct Hok' as (_ & Hr & _). cbn in Hr.
  destruct (other_role r x.2 Hr Hx Hh Hs) as (y & Hy & Hhy & Hne); [by intros ->|].
  apply (Hf y Hy Hhy); [by intros ->|]. exists c. split; [done|]. intros x'. rewrite Ec, (Forall2_length _ _ _ H1), lookup_app_r, Nat.sub_diag by lia.
  by intros [= <-].
Qed.

Lemma check_loop_ok suf pre : l0 = pre ++ suf -> (feasible l0 -> Forall (fun e => e.2 ∈ the_roles) pre) -> len l0 < 256 ->
  (forall role, role ∈ the_roles -> count_role role pre <= needed role) ->
  good_result l0 (check_loop rec (length suf) (length pre) l0 (count_role PLAYER_ROLE_DAMAGE pre) (count_role PLAYER_ROLE_HEALER pre)
    (count_role PLAYER_ROLE_TANK pre)).
Proof.
  revert pre. induction suf as [|[g r] suf IH]; intros pre E Hpre Hlen Hneed; cbn [check_loop length].
  - rewrite app_nil_r in E. subst pre. destruct (counts_sum l0) as [Hle Hall]. rewrite uint_small by (unfold count_role in *; lia).
    eexists _, _. split; [done|]. destruct (Z.eqb_spec (count_role PLAYER_ROLE_TANK l0 + count_role PLAYER_ROLE_HEALER l0 + count_role PLAYER_ROLE_DAMAGE l0) (len l0)) as [Es|Es].
    + split; [|exact Hneed]. apply Hall in Es. clear - Es. induction Es as [|[g r] l Hr _ IHl]; [constructor|].
      constructor; [|exact IHl]. split_and!; [done|done| |]; cbn in *; destruct (the_roles_bits r Hr) as (n & Hn & ->).
      * by rewrite has_bit, Z.pow2_bits_true by lia.
      * assert (n = 1 \/ n = 2 \/ n = 3) as [->|[->| ->]] by lia; done.
    + split; [done|]. intros Hf. by apply Es, Hall, Hpre.
  - assert (role_at (length pre) l0 = r) as -> by (rewrite E; apply role_at_mid). destruct (Z.eqb_spec r PLAYER_ROLE_NONE) as [->|Hr0].
    { exists false, l0. split; [done|]. split; [done|]. rewrite E. intros (c & Hp & _). apply Forall2_app_inv_l in Hp as (c1 & c2 & _ & H2 & _).
      inversion H2 as [|? x ? ? (_ & (n & Hn & Ex)%the_roles_bits & Hh & _)]; subst. cbn in Hh. unfold PLAYER_ROLE_NONE in Hh.
      by rewrite Ex, has_bit, Z.bits_0 in Hh by lia. }
    pose proof (role_step_ok PLAYER_ROLE_DAMAGE pre g r suf E ltac:(by right; right; left) (Hneed _ ltac:(by right; right; left))) as H8.
    pose proof (role_step_ok PLAYER_ROLE_HEALER pre g r suf E ltac:(by right; left) (Hneed _ ltac:(by right; left))) as H4.
    pose proof (role_step_ok PLAYER_ROLE_TANK pre g r suf E ltac:(by left) (Hneed _ ltac:(by left))) as H2.
    change (needed PLAYER_ROLE_DAMAGE) with LFG_DPS_NEEDED in H8. change (needed PLAYER_ROLE_HEALER) with LFG_HEALERS_NEEDED in H4.
    change (needed PLAYER_ROLE_TANK) with LFG_TANKS_NEEDED in H2.
    destruct (role_step _ PLAYER_ROLE_DAMAGE _ _ _ _) as [[b l'|l' d]|]; [exact H8| |done]. destruct H8 as (-> & -> & N8 & F8).
    destruct (role_step _ PLAYER_ROLE_HEALER _ _ _ _) as [[b l'|l' h]|]; [exact H4| |done]. destruct H4 as (-> & -> & N4 & F4).
    destruct (role_step _ PLAYER_ROLE_TANK _ _ _ _) as [[b l'|l' t]|]; [exact H2| |done]. destruct H2 as (-> & -> & N2 & F2).
    specialize (IH (pre ++ [(g, r)])). rewrite length_app, Nat.add_1_r in IH. apply IH; [by rewrite <- app_assoc| |done|].
    + intros Hf. apply Forall_app. split; [by apply Hpre|]. apply Forall_singleton. apply (single_role pre g r suf E Hf).
      intros role Hrole. unfold the_roles in Hrole. rewrite !elem_of_cons, elem_of_nil in Hrole. destruct Hrole as [->|[->|[->|[]]]]; done.
    + intros role Hrole. unfold the_roles in Hrole. rewrite !elem_of_cons, elem_of_nil in Hrole. destruct Hrole as [->|[->|[->|[]]]]; done.
Qed.
End Loop.

Lemma check_roles_ok fuel l : roles_ok l -> len l < 256 -> l <> [] -> sum_roles l < Z.of_nat fuel -> good_result l (check_roles fuel false l).
Proof.
  revert l. induction fuel as [|fuel IH]; intros l Hok Hlen Hne Hf; [pose proof (sum_roles_nonneg l Hok); lia|].
  cbn [check_roles]. destruct l as [|e l']; [done|]. set (l := e :: l') in *.
  apply (check_loop_ok (check_roles fuel false) l) with (pre := []); try done.
  - intros l1 Hs Hl1 Hok1. apply IH; [done|lia|by destruct l1|lia].
  - intros role Hr. unfold count_role, needed. cbn. repeat case_match; done.
Qed.

Lemma picks_leader e c : picks (e.1, Z.ldiff e.2 PLAYER_ROLE_LEADER) c <-> picks e c.
Proof.
  unfold picks. cbn [fst snd]. rewrite shiftr_ldiff by done.
  assert (c.2 ∈ the_roles -> has (Z.ldiff e.2 PLAYER_ROLE_LEADER) c.2 = has e.2 c.2) as H.
  { intros (n & Hn & ->)%the_roles_bits. rewrite has_ldiff by lia. change PLAYER_ROLE_LEADER with (2 ^ 0).
    rewrite Z.pow2_bits_eqb by lia. destruct (Z.eqb_spec 0 n); [lia|]. apply andb_true_r. }
  split; intros (H1 & H2 & H3 & H4); (split_and!; [done|done|by rewrite H in *|done]).
Qed.
Lemma assignment_leader groles chosen : assignment (remove_leader groles) chosen <-> assignment groles chosen.
Proof.
  unfold assignment, remove_leader. rewrite Forall2_fmap_l. split; intros [Hp Hn]; (split; [|done]);
    (eapply Forall2_impl; [exact Hp|]; intros e c; apply picks_leader).
Qed.

Lemma drop_leader r : 0 <= r -> 0 <= Z.ldiff r PLAYER_ROLE_LEADER <= r.
Proof.
  intros Hr. change PLAYER_ROLE_LEADER with (Z.ones 1). rewrite Z.ldiff_ones_r, Z.shiftl_mul_pow2, Z.shiftr_div_pow2 by lia.
  change (2 ^ 1) with 2. pose proof (Z.div_mod r 2). pose proof (Z.mod_pos_bound r 2). lia.
Qed.

(** C25. [CheckGroupRoles] answers whether everybody can have one of the roles he chose
    with at most one tank, one healer and three damage dealers.  If so the map holds
    such a choice afterwards, else only the leader flags were removed from it. *)
Theorem CheckGroupRoles_spec groles : groles <> [] -> len groles < 256 -> Forall (fun e => 0 <= e.2 < 256) groles ->
  let '(ok, l) := CheckGroupRoles groles in
  if ok then assignment groles l else l = remove_leader groles /\ forall chosen, ~ assignment groles chosen.
Proof.
  intros Hne Hlen Hr. unfold CheckGroupRoles, roles_fuel. set (l := remove_leader groles). fold (sum_roles groles).
  assert (roles_ok l) as Hok.
  { apply Forall_fmap. eapply Forall_impl; [exact Hr|]. intros [g r] Hb. cbn in *. split; [|by rewrite Z.ldiff_spec, andb_false_r].
    pose proof (drop_leader r). lia. }
  assert (0 <= sum_roles l <= sum_roles groles) as Hsum.
  { split; [by apply sum_roles_nonneg|]. clear - Hr. induction Hr as [|[g r] gs Hb _ IH]; [done|]. cbn in *. fold (sum_roles gs).
    fold (sum_roles (remove_leader gs)). pose proof (drop_leader r ltac:(lia)). unfold remove_leader, sum_roles in *. lia. }
  assert (length l = length groles) as Hl by apply length_fmap.
  assert (good_result l (check_loop (check_roles (Z.to_nat (sum_roles groles)) false) (length l) 0 l 0 0 0)) as H.
  { apply (check_loop_ok _ l) with (pre := []); try done; [|lia|].
    - intros l1 Hs Hl1 Hok1. apply check_roles_ok; [done|lia|by destruct l1, groles|lia].
    - intros role _. unfold count_role, needed. cbn. repeat case_match; done. }
  assert (check_roles (S (Z.to_nat (sum_roles groles))) true groles =
    check_loop (check_roles (Z.to_nat (sum_roles groles)) false) (length l) 0 l 0 0 0) as -> by (by destruct groles).
  destruct H as (b & l' & -> & Hb). cbn [default]. destruct b; [by apply assignment_leader|]. destruct Hb as [-> Hi].
  split; [done|]. intros chosen Hc. apply Hi. exists chosen. by apply assignment_leader.
Qed.

Lemma CheckGroupRoles_spec_witness : assignment [(1, 14); (2, 6); (3, 9)] [(1, 2); (2, 4); (3, 8)].
Proof.
  pose proof (CheckGroupRoles_spec [(1, 14); (2, 6); (3, 9)] ltac:(done) ltac:(done) ltac:(repeat constructor; done)) as H.
  vm_compute (CheckGroupRoles _) in H. exact H.
Defined.
