(* ===== verification/LfgQueue.v ===== *)
(** * The queues of the dungeon finder (src/src/serveur/jeu/DungeonFinding/LFGQueue.{h,cpp})

    Players and groups wait in [QueueDataStore]; [FindGroups] tries each new one
    with those before it, remembers in [CompatibleMapStore] what it found, under
    the guids joined to a string, and makes a proposal of every five players who
    fit.  What the manager of the dungeon finder knows of players and groups, and
    the random choices, are the [LfgView] of an operation; the proposals are a part
    of the state, as [LFGMgr::AddProposal] keeps them. *)

From S2P Require Import Prelude.
From S2P Require Import Text.
From S2P Require Import LfgRoles.
From stdpp Require Import list sorting.
Local Open Scope Z_scope.

Inductive LfgQueueError := EndIterator | EmptyDungeonSet | QueueFuel.

Definition MAXGROUPSIZE := 5.
Definition LFG_TIME_PROPOSAL := 45.

Definition HIGHGUID_CORPSE := 0xF101.
Definition HIGHGUID_AREATRIGGER := 0xF102.
Definition HIGHGUID_GROUP := 0x1F5.
Definition GUID_HIPART (guid : Z) : Z :=
  let t := Z.land (Z.shiftr guid 48) 0xFFFF in
  if (t =? HIGHGUID_CORPSE) || (t =? HIGHGUID_AREATRIGGER) then t else Z.land (Z.shiftr t 4) 0xFFF.
Definition GUID_LOPART (guid : Z) : Z := Z.land guid 0xFFFFFFFF.
Definition IS_GROUP_GUID (guid : Z) : bool := GUID_HIPART guid =? HIGHGUID_GROUP.

(** In the order of the source. *)
Inductive LfgCompatibility :=
| LFG_COMPATIBILITY_PENDING
| LFG_INCOMPATIBLES_WRONG_GROUP_SIZE
| LFG_INCOMPATIBLES_TOO_MUCH_PLAYERS
| LFG_INCOMPATIBLES_MULTIPLE_LFG_GROUPS
| LFG_INCOMPATIBLES_HAS_IGNORES
| LFG_INCOMPATIBLES_NO_ROLES
| LFG_INCOMPATIBLES_NO_DUNGEONS
| LFG_COMPATIBLES_WITH_LESS_PLAYERS
| LFG_COMPATIBLES_BAD_STATES
| LFG_COMPATIBLES_MATCH.
#[export] Instance LfgCompatibility_eq_dec : EqDecision LfgCompatibility.
Proof. solve_decision. Defined.
(** Below [LFG_COMPATIBLES_WITH_LESS_PLAYERS]. *)
Definition not_compatible (c : LfgCompatibility) : bool :=
  match c with LFG_COMPATIBLES_WITH_LESS_PLAYERS | LFG_COMPATIBLES_BAD_STATES | LFG_COMPATIBLES_MATCH => false | _ => true end.

Inductive LfgState :=
| LFG_STATE_NONE | LFG_STATE_ROLECHECK | LFG_STATE_QUEUED | LFG_STATE_PROPOSAL | LFG_STATE_BOOT | LFG_STATE_DUNGEON
| LFG_STATE_FINISHED_DUNGEON | LFG_STATE_RAIDBROWSER.
#[export] Instance LfgState_eq_dec : EqDecision LfgState.
Proof. solve_decision. Defined.
Inductive LfgAnswer := LFG_ANSWER_PENDING | LFG_ANSWER_DENY | LFG_ANSWER_AGREE.
#[export] Instance LfgAnswer_eq_dec : EqDecision LfgAnswer.
Proof. solve_decision. Defined.
Inductive LfgProposalState := LFG_PROPOSAL_INITIATING | LFG_PROPOSAL_FAILED | LFG_PROPOSAL_SUCCESS.
#[export] Instance LfgProposalState_eq_dec : EqDecision LfgProposalState.
Proof. solve_decision. Defined.

(** ** Data *)

Record LfgCompatibilityData := mkCompatibilityData { cd_compatibility : LfgCompatibility; cd_roles : gmap Z Z }.
Record LfgQueueData := mkQueueData {
  joinTime : Z;
  tanks : Z;
  healers : Z;
  dps : Z;
  dungeons : gset Z;
  roles : gmap Z Z;
  bestCompatible : list Z
}.
Definition LfgQueueData_new (joinTime : Z) (dungeons : gset Z) (roles : gmap Z Z) : LfgQueueData :=
  mkQueueData joinTime LFG_TANKS_NEEDED LFG_HEALERS_NEEDED LFG_DPS_NEEDED dungeons roles [].
Definition set_best (best : list Z) (t h d : Z) (q : LfgQueueData) : LfgQueueData :=
  mkQueueData (joinTime q) t h d (dungeons q) (roles q) best.
Record LfgWaitTime := mkWaitTime { wt_time : Z; wt_number : Z }.

Record LfgProposalPlayer := mkProposalPlayer { pp_role : Z; pp_accept : LfgAnswer; pp_group : Z }.
Record LfgProposal := mkProposal {
  p_id : Z;
  p_dungeonId : Z;
  p_state : LfgProposalState;
  p_group : Z;
  p_leader : Z;
  p_cancelTime : Z;
  p_isNew : bool;
  p_queues : list Z;
  p_players : gmap Z LfgProposalPlayer
}.

(** What [LFGMgr] tells a queue: the time, the states of players and groups, who is
    in the world, whom a player's list of ignored names holds (by the low part of
    the guid), and the random choices of the proposal with an id. *)
Record LfgView := mkLfgView {
  lv_time : Z;
  lv_state : Z -> LfgState;
  lv_old_state : Z -> LfgState;
  lv_online : Z -> bool;
  lv_ignores : Z -> Z -> bool;
  lv_pick : Z -> gset Z -> Z;
  lv_coin : Z -> Z -> bool
}.
Definition IsLfgGroup (v : LfgView) (guid : Z) : bool :=
  negb (guid =? 0) && IS_GROUP_GUID guid && negb (bool_decide (lv_old_state v guid = LFG_STATE_NONE)).
Definition HasIgnore (v : LfgView) (guid1 guid2 : Z) : bool :=
  let low1 := GUID_LOPART guid1 in
  let low2 := GUID_LOPART guid2 in
  lv_online v guid1 && lv_online v guid2 && (lv_ignores v guid1 low2 || lv_ignores v guid2 low1).
Definition AllQueued (v : LfgView) (check : list Z) : bool :=
  negb (bool_decide (check = [])) && forallb (fun g => bool_decide (lv_state v g = LFG_STATE_QUEUED)) check.

(** A queue, and the proposals of [LFGMgr]. *)
Record LFGQueue := mkLFGQueue {
  QueueDataStore : gmap Z LfgQueueData;
  CompatibleMapStore : gmap (list Z) LfgCompatibilityData;
  waitTimesAvgStore : gmap Z LfgWaitTime;
  waitTimesTankStore : gmap Z LfgWaitTime;
  waitTimesHealerStore : gmap Z LfgWaitTime;
  waitTimesDpsStore : gmap Z LfgWaitTime;
  currentQueueStore : list Z;
  newToQueueStore : list Z;
  m_lfgProposalId : Z;
  ProposalsStore : gmap Z LfgProposal
}.
Definition set_data v q := mkLFGQueue v (CompatibleMapStore q) (waitTimesAvgStore q) (waitTimesTankStore q) (waitTimesHealerStore q)
  (waitTimesDpsStore q) (currentQueueStore q) (newToQueueStore q) (m_lfgProposalId q) (ProposalsStore q).
Definition set_compatibles v q := mkLFGQueue (QueueDataStore q) v (waitTimesAvgStore q) (waitTimesTankStore q) (waitTimesHealerStore q)
  (waitTimesDpsStore q) (currentQueueStore q) (newToQueueStore q) (m_lfgProposalId q) (ProposalsStore q).
Definition set_waits a t h d q := mkLFGQueue (QueueDataStore q) (CompatibleMapStore q) a t h d (currentQueueStore q) (newToQueueStore q)
  (m_lfgProposalId q) (ProposalsStore q).
Definition set_current v q := mkLFGQueue (QueueDataStore q) (CompatibleMapStore q) (waitTimesAvgStore q) (waitTimesTankStore q)
  (waitTimesHealerStore q) (waitTimesDpsStore q) v (newToQueueStore q) (m_lfgProposalId q) (ProposalsStore q).
Definition set_new v q := mkLFGQueue (QueueDataStore q) (CompatibleMapStore q) (waitTimesAvgStore q) (waitTimesTankStore q)
  (waitTimesHealerStore q) (waitTimesDpsStore q) (currentQueueStore q) v (m_lfgProposalId q) (ProposalsStore q).
Definition set_proposals n v q := mkLFGQueue (QueueDataStore q) (CompatibleMapStore q) (waitTimesAvgStore q) (waitTimesTankStore q)
  (waitTimesHealerStore q) (waitTimesDpsStore q) (currentQueueStore q) (newToQueueStore q) n v.

Abbreviation QP := (prog LFGQueue LfgQueueError).

(** ** Strings of guids *)

Definition guid_string (guid : Z) : list Z := print_u64 guid.
Fixpoint join (sep : Z) (l : list (list Z)) : list Z :=
  match l with
  | [] => []
  | [s] => s
  | s :: l' => s ++ sep :: join sep l'
  end.
Definition ConcatenateGuids (check : list Z) : list Z :=
  join 124 (guid_string <$> merge_sort Z.le (elements (list_to_set check : gset Z))).
(** [find(sub) != npos] *)
Fixpoint contains (sub s : list Z) : bool :=
  bool_decide (sub `prefix_of` s) || match s with [] => false | _ :: s' => contains sub s' end.
(** How many guids a key has. *)
Definition key_size (key : list Z) : Z := uint 8 (len (filter (fun c => c = 124) key) + 1).

Fixpoint lex_le (a b : list Z) : bool :=
  match a, b with
  | [], _ => true
  | _, [] => false
  | x :: a', y :: b' => (x <? y) || ((x =? y) && lex_le a' b')
  end.
Definition string_order {V} (a b : list Z * V) : Prop := lex_le a.1 b.1 = true.
#[export] Instance string_order_dec {V} : RelDecision (@string_order V).
Proof. intros a b. unfold string_order. apply _. Defined.
Definition in_string_order {V} (m : gmap (list Z) V) : list (list Z * V) := merge_sort string_order (map_to_list m).

(** ** The queue *)

Section Queue.
Context (v : LfgView).

Definition AddToNewQueue (guid : Z) : QP unit := modify (fun q => set_new (newToQueueStore q ++ [guid]) q).
Definition AddToCurrentQueue (guid : Z) : QP unit := modify (fun q => set_current (currentQueueStore q ++ [guid]) q).
Definition list_remove (guid : Z) (l : list Z) : list Z := filter (fun x => x <> guid) l.
Definition RemoveFromNewQueue (guid : Z) : QP unit := modify (fun q => set_new (list_remove guid (newToQueueStore q)) q).
Definition RemoveFromCurrentQueue (guid : Z) : QP unit := modify (fun q => set_current (list_remove guid (currentQueueStore q)) q).

Definition AddToQueue (guid : Z) : QP unit :=
  q ← get;
  match QueueDataStore q !! guid with
  | None => mret tt
  | Some _ => AddToNewQueue guid
  end.
Definition AddQueueData (guid joinTime : Z) (dungeons : gset Z) (rolesMap : gmap Z Z) : QP unit :=
  modify (fun q => set_data (<[guid := LfgQueueData_new joinTime dungeons rolesMap]> (QueueDataStore q)) q);; AddToQueue guid.
Definition RemoveQueueData (guid : Z) : QP unit := modify (fun q => set_data (delete guid (QueueDataStore q)) q).

(** The average of [number + 1] times, in unsigned arithmetic. *)
Definition update_wait (waitTime : Z) (wt : LfgWaitTime) : LfgWaitTime :=
  let old_number := wt_number wt in
  let number := uint 32 (old_number + 1) in
  mkWaitTime (sint 32 (uint 32 (wt_time wt * old_number + waitTime) / number)) number.
Definition no_wait : LfgWaitTime := mkWaitTime (-1) 0.
Definition update_store (waitTime dungeonId : Z) (m : gmap Z LfgWaitTime) : gmap Z LfgWaitTime :=
  <[dungeonId := update_wait waitTime (default no_wait (m !! dungeonId))]> m.
(** The source divides by the new number, which wraps to 0 only after 2^32 calls. *)
Definition UpdateWaitTimeAvg (waitTime dungeonId : Z) : QP unit :=
  modify (fun q => set_waits (update_store waitTime dungeonId (waitTimesAvgStore q)) (waitTimesTankStore q) (waitTimesHealerStore q) (waitTimesDpsStore q) q).
Definition UpdateWaitTimeTank (waitTime dungeonId : Z) : QP unit :=
  modify (fun q => set_waits (waitTimesAvgStore q) (update_store waitTime dungeonId (waitTimesTankStore q)) (waitTimesHealerStore q) (waitTimesDpsStore q) q).
Definition UpdateWaitTimeHealer (waitTime dungeonId : Z) : QP unit :=
  modify (fun q => set_waits (waitTimesAvgStore q) (waitTimesTankStore q) (update_store waitTime dungeonId (waitTimesHealerStore q)) (waitTimesDpsStore q) q).
Definition UpdateWaitTimeDps (waitTime dungeonId : Z) : QP unit :=
  modify (fun q => set_waits (waitTimesAvgStore q) (waitTimesTankStore q) (waitTimesHealerStore q) (update_store waitTime dungeonId (waitTimesDpsStore q)) q).

Definition RemoveFromCompatibles (guid : Z) : QP unit :=
  modify (fun q => set_compatibles (filter (fun kd => contains (guid_string guid) kd.1 = false) (CompatibleMapStore q)) q).
Definition SetCompatibilityData (key : list Z) (data : LfgCompatibilityData) : QP unit :=
  modify (fun q => set_compatibles (<[key := data]> (CompatibleMapStore q)) q).
(** Keeps the roles of the entry. *)
Definition SetCompatibles (key : list Z) (compatibles : LfgCompatibility) : QP unit :=
  modify (fun q => set_compatibles (<[key := mkCompatibilityData compatibles (from_option cd_roles ∅ (CompatibleMapStore q !! key))]>
    (CompatibleMapStore q)) q).
Definition GetCompatibles (q : LFGQueue) (key : list Z) : LfgCompatibility :=
  from_option cd_compatibility LFG_COMPATIBILITY_PENDING (CompatibleMapStore q !! key).

Definition need_less (role : Z) (n : Z * Z * Z) : Z * Z * Z :=
  let '(t, h, d) := n in
  if has role PLAYER_ROLE_TANK then (uint 8 (t - 1), h, d)
  else if has role PLAYER_ROLE_HEALER then (t, uint 8 (h - 1), d)
  else (t, h, uint 8 (d - 1)).
Definition update_best (key : list Z) (roles : gmap Z Z) (d : LfgQueueData) : LfgQueueData :=
  let storedSize := if bool_decide (bestCompatible d = []) then 0 else key_size (bestCompatible d) in
  if key_size key <=? storedSize then d
  else
    let '(t, h, dp) := foldl (fun n e => need_less e.2 n) (LFG_TANKS_NEEDED, LFG_HEALERS_NEEDED, LFG_DPS_NEEDED) (in_order roles) in
    set_best key t h dp d.
(** The argument is an iterator to the entry of [guid]. *)
Definition UpdateBestCompatibleInQueue (guid : Z) (key : list Z) (roles : gmap Z Z) : QP unit :=
  q ← get;
  match QueueDataStore q !! guid with
  | None => throw EndIterator
  | Some d => modify (fun q => set_data (<[guid := update_best key roles d]> (QueueDataStore q)) q)
  end.
Definition find_best (m : gmap (list Z) LfgCompatibilityData) (guid : Z) (d : LfgQueueData) : LfgQueueData :=
  foldl (fun d '(key, data) =>
    if bool_decide (cd_compatibility data = LFG_COMPATIBLES_WITH_LESS_PLAYERS) && contains (guid_string guid) key
    then update_best key (cd_roles data) d else d) d (in_string_order m).
Definition FindBestCompatibleInQueue (guid : Z) : QP unit :=
  modify (fun q => set_data (alter (find_best (CompatibleMapStore q) guid) guid (QueueDataStore q)) q).

Definition clear_best (d : LfgQueueData) : LfgQueueData := set_best [] (tanks d) (healers d) (dps d) d.
Definition forget (m : gmap (list Z) LfgCompatibilityData) (guid other : Z) (d : LfgQueueData) : LfgQueueData :=
  if contains (guid_string guid) (bestCompatible d) then find_best m other (clear_best d) else d.
Definition RemoveFromQueue (guid : Z) : QP unit :=
  RemoveFromNewQueue guid;;
  RemoveFromCurrentQueue guid;;
  RemoveFromCompatibles guid;;
  modify (fun q => set_data (delete guid (map_imap (fun other d => Some (if other =? guid then d else forget (CompatibleMapStore q) guid other d))
    (QueueDataStore q))) q).

(** ** Compatibility *)

(** [QueueDataStore[guid]] *)
Definition queue_at (guid : Z) : QP LfgQueueData :=
  q ← get;
  match QueueDataStore q !! guid with
  | Some d => mret d
  | None =>
      let d := LfgQueueData_new (lv_time v) ∅ ∅ in
      modify (fun q => set_data (<[guid := d]> (QueueDataStore q)) q);; mret d
  end.

(** What the loop over the groups finds: the number of players, of groups of the
    finder, the first of these, and the group of each player. *)
Record Tally := mkTally { t_players : Z; t_lfgGroups : Z; t_group : Z; t_groups : gmap Z Z }.
Definition tally0 : Tally := mkTally 0 0 0 ∅.
Fixpoint tally_groups (l : list Z) (t : Tally) : QP (option Tally) :=
  match l with
  | [] => mret (Some t)
  | guid :: l' =>
      if (t_lfgGroups t <? 2) && (t_players t <=? MAXGROUPSIZE) then
        q ← get;
        match QueueDataStore q !! guid with
        | None => RemoveFromQueue guid;; mret None
        | Some d =>
            let groups := foldl (fun m e => <[e.1 := if IS_GROUP_GUID guid then guid else 0]> m) (t_groups t) (in_order (roles d)) in
            let numPlayers := uint 8 (t_players t + Z.of_nat (size (roles d))) in
            let t := if IsLfgGroup v guid
                     then mkTally numPlayers (uint 8 (t_lfgGroups t + 1)) (if t_lfgGroups t =? 0 then guid else t_group t) groups
                     else mkTally numPlayers (t_lfgGroups t) (t_group t) groups in
            tally_groups l' t
        end
      else mret (Some t)
  end.

(** A player joins the others unless he and one of them ignore each other. *)
Definition add_player (m : gmap Z Z) (e : Z * Z) : gmap Z Z :=
  if existsb (fun other => negb (e.1 =? other.1) && HasIgnore v e.1 other.1) (in_order m) then m else <[e.1 := e.2]> m.
Fixpoint add_players (check : list Z) (m : gmap Z Z) : QP (gmap Z Z) :=
  match check with
  | [] => mret m
  | guid :: check' => d ← queue_at guid; add_players check' (foldl add_player m (in_order (roles d)))
  end.
Fixpoint common_dungeons (check : list Z) (s : gset Z) : QP (gset Z) :=
  match check with
  | [] => mret s
  | guid :: check' => d ← queue_at guid; common_dungeons check' (s ∩ dungeons d)
  end.
Definition check_roles_map (m : gmap Z Z) : bool * gmap Z Z :=
  let '(ok, l) := CheckGroupRoles (in_order m) in (ok, list_to_map l).

(** The players, their roles and the dungeons, or why there are none. *)
Definition match_groups (check : list Z) (numPlayers : Z) : QP (LfgCompatibility + gmap Z Z * gset Z) :=
  match check with
  | [gguid] =>
      d ← queue_at gguid;
      mret (inr ((check_roles_map (roles d)).2, dungeons d))
  | first :: others =>
      proposalRoles ← add_players check ∅;
      if negb (uint 8 (numPlayers - Z.of_nat (size proposalRoles)) =? 0) then mret (inl LFG_INCOMPATIBLES_HAS_IGNORES)
      else
        let '(ok, proposalRoles) := check_roles_map proposalRoles in
        if negb ok then mret (inl LFG_INCOMPATIBLES_NO_ROLES)
        else
          d ← queue_at first;
          proposalDungeons ← common_dungeons others (dungeons d);
          if bool_decide (proposalDungeons = ∅) then mret (inl LFG_INCOMPATIBLES_NO_DUNGEONS)
          else mret (inr (proposalRoles, proposalDungeons))
  | [] => throw EndIterator
  end.

(** The leader and the players of a proposal. *)
Definition pick_leader (id : Z) (l : list (Z * Z)) : Z :=
  (foldl (fun '(leader, found) '(guid, role) =>
    if has role PLAYER_ROLE_LEADER
    then (if negb found || (leader =? 0) || lv_coin v id guid then guid else leader, true)
    else (if negb found && ((leader =? 0) || lv_coin v id guid) then guid else leader, found)) (0, false) l).1.
Definition proposal_player (t : Tally) (isNew : bool) (guid role : Z) : LfgProposalPlayer :=
  let group := default 0 (t_groups t !! guid) in
  mkProposalPlayer role (if negb isNew && negb (group =? 0) && (group =? t_group t) then LFG_ANSWER_AGREE else LFG_ANSWER_PENDING) group.

Definition make_proposal (check : list Z) (t : Tally) (proposalRoles : gmap Z Z) (proposalDungeons : gset Z) : QP unit :=
  match check with
  | [] => throw EndIterator
  | gguid :: _ =>
      let isNew := negb (t_lfgGroups t =? 1) || negb (bool_decide (lv_old_state v gguid = LFG_STATE_DUNGEON)) in
      if bool_decide (proposalDungeons = ∅) then throw EmptyDungeonSet
      else if forallb (fun e => bool_decide (is_Some (t_groups t !! e.1))) (in_order proposalRoles) then
        forM check (fun guid => RemoveFromNewQueue guid;; RemoveFromCurrentQueue guid);;
        modify (fun q =>
          let id := uint 32 (m_lfgProposalId q + 1) in
          set_proposals id (<[id := mkProposal id (lv_pick v id proposalDungeons) LFG_PROPOSAL_INITIATING (t_group t)
            (pick_leader id (in_order proposalRoles)) (lv_time v + LFG_TIME_PROPOSAL) isNew check
            (map_imap (fun guid role => Some (proposal_player t isNew guid role)) proposalRoles)]> (ProposalsStore q)) q)
      else throw EndIterator
  end.

(** [CheckCompatibility] once the groups behind the first are known to fit. *)
Definition check_whole (strGuids : list Z) (check : list Z) : QP LfgCompatibility :=
  r ← tally_groups check tally0;
  match r with
  | None => mret LFG_COMPATIBILITY_PENDING
  | Some t =>
      let numPlayers := t_players t in
      if bool_decide (length check = 1%nat) && negb (numPlayers =? MAXGROUPSIZE) then
        let front := default 0 (head check) in
        q ← get;
        match QueueDataStore q !! front with
        | None => throw EndIterator
        | Some d =>
            let rs := (check_roles_map (roles d)).2 in
            UpdateBestCompatibleInQueue front strGuids rs;;
            SetCompatibilityData strGuids (mkCompatibilityData LFG_COMPATIBLES_WITH_LESS_PLAYERS rs);;
            mret LFG_COMPATIBLES_WITH_LESS_PLAYERS
        end
      else if 1 <? t_lfgGroups t then
        SetCompatibles strGuids LFG_INCOMPATIBLES_MULTIPLE_LFG_GROUPS;; mret LFG_INCOMPATIBLES_MULTIPLE_LFG_GROUPS
      else if MAXGROUPSIZE <? numPlayers then
        SetCompatibles strGuids LFG_INCOMPATIBLES_TOO_MUCH_PLAYERS;; mret LFG_INCOMPATIBLES_TOO_MUCH_PLAYERS
      else
        found ← match_groups check numPlayers;
        match found with
        | inl no => SetCompatibles strGuids no;; mret no
        | inr (proposalRoles, proposalDungeons) =>
            if negb (numPlayers =? MAXGROUPSIZE) then
              forM check (fun guid => UpdateBestCompatibleInQueue guid strGuids proposalRoles);;
              SetCompatibilityData strGuids (mkCompatibilityData LFG_COMPATIBLES_WITH_LESS_PLAYERS proposalRoles);;
              mret LFG_COMPATIBLES_WITH_LESS_PLAYERS
            else if negb (AllQueued v check) then
              SetCompatibles strGuids LFG_COMPATIBLES_BAD_STATES;; mret LFG_COMPATIBLES_BAD_STATES
            else
              make_proposal check t proposalRoles proposalDungeons;;
              SetCompatibles strGuids LFG_COMPATIBLES_MATCH;;
              mret LFG_COMPATIBLES_MATCH
        end
  end.

Fixpoint CheckCompatibility (check : list Z) : QP LfgCompatibility :=
  let strGuids := ConcatenateGuids check in
  if (MAXGROUPSIZE <? len check) || bool_decide (check = []) then mret LFG_INCOMPATIBLES_WRONG_GROUP_SIZE
  else
    match check with
    | [] => throw EndIterator
    | frontGuid :: rest =>
        if 2 <? len check then
          child_compatibles ← CheckCompatibility rest;
          if not_compatible child_compatibles then SetCompatibles strGuids child_compatibles;; mret child_compatibles
          else check_whole strGuids check
        else check_whole strGuids check
    end.

(** ** Forming groups *)

(** [FindNewGroups(check, all)]: the result and what is left of [all]; [check] is
    as before unless the result is a match. *)
Fixpoint FindNewGroups (fuel : nat) (check all : list Z) : QP (LfgCompatibility * list Z) :=
  match fuel with
  | O => throw QueueFuel
  | S fuel =>
      let strGuids := ConcatenateGuids check in
      q ← get;
      compatibles ← (if bool_decide (GetCompatibles q strGuids = LFG_COMPATIBILITY_PENDING) then CheckCompatibility check
                     else mret (GetCompatibles q strGuids));
      if bool_decide (compatibles = LFG_COMPATIBLES_BAD_STATES) && AllQueued v check then
        SetCompatibles strGuids LFG_COMPATIBLES_MATCH;; mret (LFG_COMPATIBLES_MATCH, all)
      else if negb (bool_decide (compatibles = LFG_COMPATIBLES_WITH_LESS_PLAYERS)) then mret (compatibles, all)
      else
        (fix try_all (n : nat) (all : list Z) : QP (LfgCompatibility * list Z) :=
           match all, n with
           | [], _ => mret (compatibles, [])
           | _, O => throw QueueFuel
           | next :: all, S n =>
               r ← FindNewGroups fuel (check ++ [next]) all;
               if bool_decide (r.1 = LFG_COMPATIBLES_MATCH) then mret r else try_all n r.2
           end) fuel all
  end.

Fixpoint FindGroups_loop (fuel : nat) (proposals : Z) : QP Z :=
  q ← get;
  match newToQueueStore q with
  | [] => mret proposals
  | frontguid :: _ =>
      match fuel with
      | O => throw QueueFuel
      | S fuel =>
          RemoveFromNewQueue frontguid;;
          q ← get;
          r ← FindNewGroups (S (length (currentQueueStore q))) [frontguid] (currentQueueStore q);
          if bool_decide (r.1 = LFG_COMPATIBLES_MATCH) then FindGroups_loop fuel (uint 8 (proposals + 1))
          else AddToCurrentQueue frontguid;; FindGroups_loop fuel proposals
      end
  end.
Definition FindGroups : QP Z := q ← get; FindGroups_loop (length (newToQueueStore q)) 0.

(** ** Waiting *)

Definition GetJoinTime (q : LFGQueue) (guid : Z) : Z := from_option joinTime 0 (QueueDataStore q !! guid).

Record LfgQueueStatusData := mkQueueStatus {
  qs_queueId : Z; qs_dungeonId : Z; qs_joinTime : Z; qs_waitTime : Z; qs_waitTimeAvg : Z; qs_waitTimeTank : Z; qs_waitTimeHealer : Z;
  qs_waitTimeDps : Z; qs_queuedTime : Z; qs_tanks : Z; qs_healers : Z; qs_dps : Z
}.
Definition wait_of (m : gmap Z LfgWaitTime) (dungeonId : Z) : Z := wt_time (default no_wait (m !! dungeonId)).
Definition touch (dungeonId : Z) (m : gmap Z LfgWaitTime) : gmap Z LfgWaitTime := <[dungeonId := default no_wait (m !! dungeonId)]> m.

Definition update_timer (queueId currTime guid : Z) : QP (list (Z * LfgQueueStatusData)) :=
  q ← get;
  match QueueDataStore q !! guid with
  | None => throw EndIterator
  | Some d =>
      match head (merge_sort Z.le (elements (dungeons d))) with
      | None => throw EmptyDungeonSet
      | Some dungeonId =>
          modify (fun q => set_waits (touch dungeonId (waitTimesAvgStore q)) (touch dungeonId (waitTimesTankStore q))
            (touch dungeonId (waitTimesHealerStore q)) (touch dungeonId (waitTimesDpsStore q)) q);;
          q ← get;
          let wtTank := wait_of (waitTimesTankStore q) dungeonId in
          let wtHealer := wait_of (waitTimesHealerStore q) dungeonId in
          let wtDps := wait_of (waitTimesDpsStore q) dungeonId in
          let wtAvg := wait_of (waitTimesAvgStore q) dungeonId in
          let role := Z.ldiff (foldl (fun r e => Z.lor r e.2) PLAYER_ROLE_NONE (in_order (roles d))) PLAYER_ROLE_LEADER in
          let waitTime := if role =? PLAYER_ROLE_NONE then -1 else if role =? PLAYER_ROLE_TANK then wtTank
                          else if role =? PLAYER_ROLE_HEALER then wtHealer else if role =? PLAYER_ROLE_DAMAGE then wtDps else wtAvg in
          (if bool_decide (bestCompatible d = []) then FindBestCompatibleInQueue guid else mret tt);;
          q ← get;
          let d := default d (QueueDataStore q !! guid) in
          let data := mkQueueStatus queueId dungeonId (joinTime d) waitTime wtAvg wtTank wtHealer wtDps (uint 32 (currTime - joinTime d))
                        (tanks d) (healers d) (dps d) in
          mret ((fun e => (e.1, data)) <$> in_order (roles d))
      end
  end.
Fixpoint update_timers (queueId currTime : Z) (l : list Z) : QP (list (Z * LfgQueueStatusData)) :=
  match l with
  | [] => mret []
  | guid :: l' => sent ← update_timer queueId currTime guid; rest ← update_timers queueId currTime l'; mret (sent ++ rest)
  end.
Definition UpdateQueueTimers (queueId currTime : Z) : QP (list (Z * LfgQueueStatusData)) :=
  q ← get; update_timers queueId currTime (in_order (QueueDataStore q)).*1.
End Queue.
