(* ===== verification/LfgQueueProofs.v ===== *)
(** * The queues of the dungeon finder: what is proposed (model in LfgQueue.v)

    [FindGroups] ends, and every proposal it makes is five players of the groups it
    takes from the queue, each in a role he chose, with a dungeon all of them
    chose. *)

From S2P Require Import Prelude.
From S2P Require Import Text.
From S2P Require Import LfgRoles.
From S2P Require Import LfgQueue.
From stdpp Require Import list sorting.
Local Open Scope Z_scope.
#[local] Set Warnings "-clear-no-such-hyp".

Definition no_error (e : LfgQueueError) : Prop := False.
Abbreviation wp := (Prelude.wp no_error).

(** ** What the queue holds of a player or group *)

Definition wants (d : LfgQueueData) : gmap Z Z * gset Z := (roles d, dungeons d).
Definition store_of (q : LFGQueue) : gmap Z (gmap Z Z * gset Z) := wants <$> QueueDataStore q.

(** Groups of up to five, with roles as bytes, a dungeon, and if they are five a
    choice of roles, which the role check of the group has found. *)
Record entry_ok (w : gmap Z Z * gset Z) : Prop := {
  en_bytes : forall p r, w.1 !! p = Some r -> 0 <= r < 256;
  en_size : 0 < Z.of_nat (size w.1) <= MAXGROUPSIZE;
  en_full : Z.of_nat (size w.1) = MAXGROUPSIZE -> feasible (in_order w.1);
  en_dungeons : w.2 <> ∅
}.
Definition queue_ok (q : LFGQueue) : Prop := forall g w, store_of q !! g = Some w -> entry_ok w.

Lemma wants_update_best key rs d : wants (update_best key rs d) = wants d.
Proof. unfold update_best. cbv zeta. repeat case_match; done. Qed.
Lemma wants_find_best m g d : wants (find_best m g d) = wants d.
Proof.
  unfold find_best. generalize (in_string_order m). intros l. revert d. induction l as [|[key data] l IH]; intros d; [done|]. cbn.
  rewrite IH. case_match; [apply wants_update_best|done].
Qed.
Lemma wants_forget m g other d : wants (forget m g other d) = wants d.
Proof. unfold forget. case_match; [|done]. by rewrite wants_find_best. Qed.

(** [RemoveFromQueue] forgets one entry. *)
Lemma RemoveFromQueue_store g q : exists q', RemoveFromQueue g q = (Ok tt, q') /\ store_of q' = delete g (store_of q) /\
  ProposalsStore q' = ProposalsStore q /\ m_lfgProposalId q' = m_lfgProposalId q /\
  newToQueueStore q' = list_remove g (newToQueueStore q) /\ currentQueueStore q' = list_remove g (currentQueueStore q).
Proof.
  eexists. split; [reflexivity|]. split; [|done]. unfold store_of. cbn. rewrite <- fmap_delete. apply map_eq. intros x.
  rewrite !lookup_fmap. destruct (decide (x = g)) as [->|Hne]; [by rewrite !lookup_delete_eq|].
  rewrite !lookup_delete_ne, map_lookup_imap by done. destruct (QueueDataStore q !! x) as [d|]; [|done]. cbn.
  case_match; [done|]. by rewrite wants_forget.
Qed.

Section Proposals.
Context (v : LfgView).
Hypothesis pick_in : forall id s, s <> ∅ -> lv_pick v id s ∈ s.

Lemma ignore_sym p r : HasIgnore v p r = HasIgnore v r p.
Proof. unfold HasIgnore. by rewrite (andb_comm (lv_online v p)), orb_comm. Qed.

(** Nobody has refused yet. *)
Definition open (p : LfgProposal) : Prop :=
  p_state p = LFG_PROPOSAL_INITIATING /\ forall g pp, p_players p !! g = Some pp -> pp_accept pp <> LFG_ANSWER_DENY.
(** A proposal of the groups [p_queues] as the queue knows them. *)
Record proposal_ok (store : gmap Z (gmap Z Z * gset Z)) (p : LfgProposal) : Prop := {
  po_size : Z.of_nat (size (p_players p)) = MAXGROUPSIZE;
  po_chosen : forall guid pp, p_players p !! guid = Some pp ->
    exists g w r, g ∈ p_queues p /\ store !! g = Some w /\ w.1 !! guid = Some r /\ has r (pp_role pp) = true;
  po_roles : forall role, role ∈ the_roles -> count_role role (in_order (pp_role <$> p_players p)) = needed role;
  po_dungeon : forall g, g ∈ p_queues p -> exists w, store !! g = Some w /\ p_dungeonId p ∈ w.2;
  po_ignore : (1 < length (p_queues p))%nat -> forall guid other, is_Some (p_players p !! guid) -> is_Some (p_players p !! other) ->
    guid <> other -> HasIgnore v guid other = false;
  po_queued : forall g, g ∈ p_queues p -> lv_state v g = LFG_STATE_QUEUED;
  po_leader : is_Some (p_players p !! p_leader p);
  po_open : open p
}.

(** ** Roles as maps *)

Lemma in_order_perm {V} (m : gmap Z V) : in_order m ≡ₚ map_to_list m.
Proof. unfold in_order. apply merge_sort_Permutation. Qed.
Lemma length_in_order {V} (m : gmap Z V) : length (in_order m) = size m.
Proof. by rewrite in_order_perm, length_map_to_list. Qed.
Lemma count_role_perm role l l' : l ≡ₚ l' -> count_role role l = count_role role l'.
Proof. intros H. unfold count_role. by rewrite H. Qed.

Lemma assignment_fst l l' : assignment l l' -> l'.*1 = l.*1.
Proof.
  intros [Hp _]. induction Hp as [|e c l l' (He & _) _ IH]; [done|]. cbn. by rewrite He, IH.
Qed.

(** A successful check gives each player one of his roles. *)
Lemma check_roles_map_ok (m rs : gmap Z Z) : m <> ∅ -> Z.of_nat (size m) < 256 -> (forall p r, m !! p = Some r -> 0 <= r < 256) ->
  check_roles_map m = (true, rs) ->
  (forall p x, rs !! p = Some x -> exists r, m !! p = Some r /\ has r x = true) /\ size rs = size m /\
  Forall (fun e => e.2 ∈ the_roles) (in_order rs) /\ within_needs (in_order rs).
Proof.
  intros Hne Hsz Hb. unfold check_roles_map. pose proof (CheckGroupRoles_spec (in_order m)) as H.
  destruct (CheckGroupRoles (in_order m)) as [ok l]. intros [= -> <-].
  destruct H as [Hp Hn].
  { intros E. apply Hne, map_size_empty_inv. by rewrite <- length_in_order, E. }
  { rewrite length_in_order. lia. }
  { apply Forall_forall. intros [p r] Hpr%in_order_spec. by apply (Hb p). }
  assert (NoDup l.*1) as Hnd by (rewrite (assignment_fst (in_order m) l) by (by split); apply in_order_NoDup).
  assert (in_order (list_to_map l : gmap Z Z) ≡ₚ l) as Hperm by (by rewrite in_order_perm, map_to_list_to_map).
  split_and!.
  - intros p x Hx. apply elem_of_list_to_map in Hx; [|done]. apply list_elem_of_lookup in Hx as [i Hi].
    destruct (Forall2_lookup_r _ _ _ _ _ Hp Hi) as ([p' r] & Hr & He & _ & Hh & _). cbn in He, Hh. subst p'.
    exists r. split; [|done]. apply in_order_spec. by apply list_elem_of_lookup_2 in Hr.
  - rewrite <- (length_map_to_list (list_to_map l)), <- length_in_order, map_to_list_to_map by done. by rewrite (Forall2_length _ _ _ Hp).
  - rewrite Hperm. apply Forall_forall. intros c [i Hi]%list_elem_of_lookup. destruct (Forall2_lookup_r _ _ _ _ _ Hp Hi) as (e & _ & _ & Hc & _). done.
  - intros role Hr. rewrite (count_role_perm role _ _ Hperm). by apply Hn.
Qed.

(** Five players fill the roles exactly. *)
Lemma five_roles (rs : gmap Z Z) role : Z.of_nat (size rs) = MAXGROUPSIZE -> Forall (fun e => e.2 ∈ the_roles) (in_order rs) ->
  within_needs (in_order rs) -> role ∈ the_roles -> count_role role (in_order rs) = needed role.
Proof.
  intros Hs Ha Hw Hr. apply counts_sum in Ha. rewrite length_in_order, Hs in Ha.
  pose proof (Hw PLAYER_ROLE_TANK ltac:(by left)). pose proof (Hw PLAYER_ROLE_HEALER ltac:(by right; left)).
  pose proof (Hw PLAYER_ROLE_DAMAGE ltac:(by right; right; left)).
  unfold needed, MAXGROUPSIZE, LFG_TANKS_NEEDED, LFG_HEALERS_NEEDED, LFG_DPS_NEEDED in *. cbn in *.
  unfold the_roles in Hr. rewrite !elem_of_cons, elem_of_nil in Hr. destruct Hr as [->|[->|[->|[]]]]; cbn; lia.
Qed.

(** ** What [FindGroups] keeps *)

Section Run.
Context (q0 : LFGQueue).
Hypothesis q0_ok : queue_ok q0.
Abbreviation store := (store_of q0).

Record run_ok (n : nat) (q : LFGQueue) : Prop := {
  ro_store : store_of q = store;
  ro_props : forall id p, ProposalsStore q !! id = Some p -> ProposalsStore q0 !! id = Some p \/ proposal_ok store p;
  ro_new : (length (newToQueueStore q) <= n)%nat
}.

Lemma run_compatibles n m q : run_ok n q -> run_ok n (set_compatibles m q).
Proof. by intros []. Qed.
Lemma run_remove_new n g q : run_ok n q -> run_ok n (set_new (list_remove g (newToQueueStore q)) q).
Proof.
  intros [Hs Hp Hn]. split; try done. cbn. unfold list_remove. pose proof (length_filter (fun x : Z => x <> g) (newToQueueStore q)). lia.
Qed.
Lemma run_current n l q : run_ok n q -> run_ok n (set_current l q).
Proof. by intros []. Qed.
Lemma store_lookup n q g : run_ok n q -> wants <$> QueueDataStore q !! g = store !! g.
Proof. intros [Hs _ _]. rewrite <- Hs. unfold store_of. by rewrite lookup_fmap. Qed.
Lemma store_entry n q g d : run_ok n q -> QueueDataStore q !! g = Some d -> store !! g = Some (wants d) /\ entry_ok (wants d).
Proof.
  intros Hq Hg. pose proof (store_lookup n q g Hq) as E. rewrite Hg in E. cbn in E. split; [done|]. by apply (q0_ok g).
Qed.
Lemma store_some n q g : run_ok n q -> is_Some (store !! g) -> exists d, QueueDataStore q !! g = Some d.
Proof.
  intros Hq [w Hw]. pose proof (store_lookup n q g Hq) as E. rewrite Hw in E. destruct (QueueDataStore q !! g); [by eexists|done].
Qed.

Lemma run_data n q f g d : run_ok n q -> QueueDataStore q !! g = Some d -> wants (f d) = wants d ->
  run_ok n (set_data (<[g := f d]> (QueueDataStore q)) q).
Proof.
  intros [Hs Hp Hn] Hg Hf. split; try done. rewrite <- Hs. unfold store_of. cbn. rewrite fmap_insert, Hf.
  apply insert_id. by rewrite lookup_fmap, Hg.
Qed.

Lemma wp_best n q g key rs : run_ok n q -> is_Some (store !! g) -> wp (UpdateBestCompatibleInQueue g key rs) q (fun _ => run_ok n).
Proof.
  intros Hq Hg. destruct (store_some n q g Hq Hg) as [d Hd]. apply wp_get. rewrite Hd.
  apply (run_data n q (update_best key rs) g d Hq Hd), wants_update_best.
Qed.
Lemma wp_compatibles n q key c : run_ok n q -> wp (SetCompatibles key c) q (fun _ => run_ok n).
Proof. intros Hq. by apply run_compatibles. Qed.
Lemma wp_return n q key (c : LfgCompatibility) : run_ok n q -> wp (SetCompatibles key c;; mret c) q (fun _ => run_ok n).
Proof. intros Hq. apply wp_modify, wp_ret. by apply run_compatibles. Qed.

Lemma run_RemoveFromQueue n q g : run_ok n q -> store !! g = None -> wp (RemoveFromQueue g) q (fun _ => run_ok n).
Proof.
  intros [Hs Hp Hn] Hg. destruct (RemoveFromQueue_store g q) as (q' & Er & Hs' & Hp' & _ & Hn' & _). eapply wp_ok; [exact Er|]. split.
  - by rewrite Hs', Hs, delete_id.
  - by rewrite Hp'.
  - rewrite Hn'. unfold list_remove. pose proof (length_filter (fun x : Z => x <> g) (newToQueueStore q)). lia.
Qed.

(** *** The groups that are checked *)

Definition total (l : list Z) : Z := foldr (fun g n => from_option (fun w => Z.of_nat (size w.1)) 0 (store !! g) + n) 0 l.
Lemma total_app l l' : total (l ++ l') = total l + total l'.
Proof. induction l as [|g l IH]; [done|]. cbn. unfold total in *. lia. Qed.
Lemma total_nonneg l : 0 <= total l.
Proof. induction l as [|g l IH]; [done|]. cbn. unfold total in IH. destruct (store !! g); cbn; lia. Qed.

(** The tally of [pre], or a reason to refuse. *)
Record tally_ok (pre : list Z) (t : Tally) : Prop := {
  to_known : forall g, g ∈ pre -> is_Some (store !! g);
  to_total : t_players t = total pre;
  to_bound : 0 <= t_players t <= 2 * MAXGROUPSIZE;
  to_groups : forall g w p, g ∈ pre -> store !! g = Some w -> is_Some (w.1 !! p) -> is_Some (t_groups t !! p);
  to_lfg : 0 <= t_lfgGroups t <= Z.min 2 (len pre)
}.

Lemma foldl_insert_some (f : Z -> Z) (l : list (Z * Z)) (m : gmap Z Z) p :
  is_Some (m !! p) \/ p ∈ l.*1 -> is_Some (foldl (fun m e => <[e.1 := f e.1]> m) m l !! p).
Proof.
  revert m. induction l as [|[p' r] l IH]; intros m Hp; cbn.
  - destruct Hp as [H|H]; [done|by apply elem_of_nil in H].
  - apply IH. cbn in Hp. rewrite elem_of_cons in Hp. destruct (decide (p = p')) as [->|Hne]; [left; rewrite lookup_insert_eq; by eexists|].
    rewrite lookup_insert_ne by done. tauto.
Qed.

Lemma tally_groups_ok n l pre t q : run_ok n q -> tally_ok pre t ->
  wp (tally_groups v l t) q (fun r q' => run_ok n q' /\
    forall t', r = Some t' -> exists l1, l1 `prefix_of` pre ++ l /\ tally_ok l1 t' /\
      (l1 = pre ++ l \/ 1 < t_lfgGroups t' \/ MAXGROUPSIZE < t_players t')).
Proof.
  revert pre t q. induction l as [|g l IH]; intros pre t q Hq Ht; cbn [tally_groups].
  - apply wp_ret. split; [done|]. intros t' [= <-]. exists pre. rewrite app_nil_r. by split_and!; [|done|left].
  - destruct ((t_lfgGroups t <? 2) && (t_players t <=? MAXGROUPSIZE)) eqn:E.
    + apply andb_prop in E as [E1%Z.ltb_lt E2%Z.leb_le]. apply wp_get. destruct (QueueDataStore q !! g) as [d|] eqn:Hg.
      * destruct (store_entry n q g d Hq Hg) as [Hst [Hb Hsz Hf Hd]].
        assert (uint 8 (t_players t + Z.of_nat (size (roles d))) = t_players t + Z.of_nat (size (roles d))) as Hu.
        { apply uint_small. destruct Ht as [_ _ Hbd _ _]. cbn in Hsz. unfold MAXGROUPSIZE in *. lia. }
        assert (uint 8 (t_lfgGroups t + 1) = t_lfgGroups t + 1) as Hu' by (apply uint_small; pose proof (to_lfg _ _ Ht); lia).
        set (t1 := if IsLfgGroup v g then _ else _). 
        assert (tally_ok (pre ++ [g]) t1) as Ht1.
        { destruct Ht as [Hk Htot Hbd Hgr Hlf].
          assert (t_players t1 = t_players t + Z.of_nat (size (roles d)) /\ 0 <= t_lfgGroups t1 <= Z.min 2 (len pre + 1) /\
            t_groups t1 = foldl (fun m e => <[e.1 := if IS_GROUP_GUID g then g else 0]> m) (t_groups t) (in_order (roles d))) as (P1 & P2 & P3).
          { subst t1. rewrite Hu, Hu'. destruct (IsLfgGroup v g); cbn; split_and!; try done; lia. }
          split.
          - intros x [Hx|Hx%list_elem_of_singleton]%elem_of_app; [by apply Hk|subst x; by eexists].
          - rewrite P1, total_app, Htot. cbn. rewrite Hst. cbn. lia.
          - rewrite P1. cbn in Hsz. unfold MAXGROUPSIZE in *. lia.
          - intros x w p Hx Hw Hp. rewrite P3. apply (foldl_insert_some (fun _ => if IS_GROUP_GUID g then g else 0)).
            apply elem_of_app in Hx as [Hx|Hx%list_elem_of_singleton]; [left; by eapply Hgr|subst x]. right.
            rewrite Hst in Hw. injection Hw as <-. destruct Hp as [r Hr]. apply list_elem_of_fmap. exists (p, r). split; [done|]. by apply in_order_spec.
          - by rewrite length_app, Nat2Z.inj_add. }
        eapply wp_mono; [by apply (IH (pre ++ [g]) t1)|]. intros r q' [Hq' Hr]. split; [done|]. intros t' Et'.
        destruct (Hr t' Et') as [l1 H]. exists l1. by rewrite <- app_assoc in H.
      * pose proof (store_lookup n q g Hq) as Es. rewrite Hg in Es. apply wp_bind. eapply wp_mono; [by apply run_RemoveFromQueue|].
        intros a q' Hq'. apply wp_ret. by split.
    + apply wp_ret. split; [done|]. intros t' [= <-]. exists pre. split_and!; [by apply prefix_app_r|done|]. right. apply andb_false_iff in E as [E|E]; [apply Z.ltb_ge in E; lia|apply Z.leb_gt in E; lia].
Qed.

(** *** The players and dungeons of groups that fit *)

Lemma wp_queue_at n q g {A} (k : LfgQueueData -> prog LFGQueue LfgQueueError A) Q : run_ok n q -> is_Some (store !! g) ->
  (forall d, store !! g = Some (wants d) -> wp (k d) q Q) -> wp (queue_at v g ≫= k) q Q.
Proof.
  intros Hq Hg Hk. destruct (store_some n q g Hq Hg) as [d Hd]. apply (wp_seq no_error _ _ _ d q); [|by apply Hk, (store_entry n q g d)].
  unfold queue_at, mbind, prog_bind, get. cbn. by rewrite Hd.
Qed.

Definition comes (check : list Z) (m : gmap Z Z) : Prop :=
  forall p r, m !! p = Some r -> exists g w, g ∈ check /\ store !! g = Some w /\ w.1 !! p = Some r.
Definition friends (m : gmap Z Z) : Prop :=
  forall p o, is_Some (m !! p) -> is_Some (m !! o) -> p <> o -> HasIgnore v p o = false.

Lemma add_player_ok m e : friends m -> friends (add_player v m e) /\ (size (add_player v m e) <= S (size m))%nat /\
  forall p r, add_player v m e !! p = Some r -> m !! p = Some r \/ (p, r) = e.
Proof.
  intros Hf. unfold add_player. destruct (existsb _ (in_order m)) eqn:E; [split_and!; [done|lia|by left]|].
  assert (forall o, is_Some (m !! o) -> e.1 <> o -> HasIgnore v e.1 o = false) as He.
  { intros o [r Hr] Hne. apply not_true_iff_false in E. destruct (HasIgnore v e.1 o) eqn:Ei; [|done]. exfalso. apply E.
    apply existsb_exists. exists (o, r). split; [by apply list_elem_of_In, in_order_spec|]. cbn.
    by rewrite Ei, andb_true_r, (proj2 (Z.eqb_neq _ _) Hne). }
  split_and!.
  - intros p o Hp Ho Hne. rewrite lookup_insert_is_Some in Hp, Ho. destruct Hp as [<-|[Hp1 Hp2]], Ho as [<-|[Ho1 Ho2]]; [done|by apply He| |by apply Hf].
    rewrite ignore_sym. apply He; done.
  - destruct (m !! e.1) eqn:Em; [rewrite map_size_insert_Some by (by eexists)|rewrite map_size_insert_None by done]; lia.
  - intros p r [[<- <-]|[_ H]]%lookup_insert_Some; [right; by destruct e|by left].
Qed.

Lemma add_players_ok n q check pre m : run_ok n q -> (forall g, g ∈ check -> is_Some (store !! g)) -> comes pre m -> friends m ->
  wp (add_players v check m) q (fun m' q' => run_ok n q' /\ comes (pre ++ check) m' /\ friends m' /\
    Z.of_nat (size m') <= Z.of_nat (size m) + total check).
Proof.
  revert pre m. induction check as [|g check IH]; intros pre m Hq Hk Hc Hf; cbn [add_players].
  { apply wp_ret. rewrite app_nil_r. split_and!; [done|done|done|cbn; lia]. }
  apply (wp_queue_at n); [done|apply Hk; by left|]. intros d Hd.
  assert (forall l m, friends m -> comes (pre ++ [g]) m -> (forall p r, (p, r) ∈ l -> roles d !! p = Some r) ->
    friends (foldl (add_player v) m l) /\ comes (pre ++ [g]) (foldl (add_player v) m l) /\ (size (foldl (add_player v) m l) <= size m + length l)%nat) as Hl.
  { clear - Hd. induction l as [|e l IHl]; intros m Hf Hc Hr; cbn; [split_and!; [done|done|lia]|].
    destruct (add_player_ok m e Hf) as (H1 & H2 & H3). destruct (IHl (add_player v m e)) as (H4 & H5 & H6); [done| |intros p r Hpr; apply Hr; by right|].
    - intros p r [Hp|<-]%H3; [by apply Hc|]. exists g, (wants d). split_and!; [apply elem_of_app; right; by left|done|]. apply Hr. by left.
    - split_and!; [done|done|lia]. }
  destruct (Hl (in_order (roles d)) m) as (H1 & H2 & H3); [done| |by intros p r ?%in_order_spec|].
  { intros p r (g' & w & Hg' & H)%Hc. exists g', w. split; [apply elem_of_app; by left|done]. }
  eapply wp_mono; [apply (IH (pre ++ [g])); [done|intros g' Hg'; apply Hk; by right|done|done]|].
  intros m' q' (H4 & H5 & H6 & H7). rewrite <- app_assoc in H5. split_and!; [done|done|done|].
  rewrite length_in_order in H3. cbn. rewrite Hd. cbn. unfold total in H7. lia.
Qed.

Lemma common_dungeons_ok n q check s : run_ok n q -> (forall g, g ∈ check -> is_Some (store !! g)) ->
  wp (common_dungeons v check s) q (fun s' q' => run_ok n q' /\ s' ⊆ s /\ forall g w, g ∈ check -> store !! g = Some w -> s' ⊆ w.2).
Proof.
  revert s. induction check as [|g check IH]; intros s Hq Hk; cbn [common_dungeons].
  { apply wp_ret. split_and!; [done|done|]. by intros g w ?%elem_of_nil. }
  apply (wp_queue_at n); [done|apply Hk; by left|]. intros d Hd.
  eapply wp_mono; [apply IH; [done|intros g' Hg'; apply Hk; by right]|]. intros s' q' (H1 & H2 & H3). split_and!; [done|set_solver|].
  intros g' w [->|Hg']%elem_of_cons Hw; [|by eapply H3]. assert (w = wants d) as -> by congruence. cbn. set_solver.
Qed.

(** Roles and dungeons for the players of [check]. *)
Record fits (check : list Z) (rs : gmap Z Z) (ds : gset Z) : Prop := {
  ft_chosen : forall p x, rs !! p = Some x ->
    exists g w r, g ∈ check /\ store !! g = Some w /\ w.1 !! p = Some r /\ has r x = true;
  ft_roles : Forall (fun e => e.2 ∈ the_roles) (in_order rs);
  ft_needs : within_needs (in_order rs);
  ft_size : Z.of_nat (size rs) = total check;
  ft_some : ds <> ∅;
  ft_dungeons : forall g w, g ∈ check -> store !! g = Some w -> ds ⊆ w.2;
  ft_friends : (1 < length check)%nat -> friends rs
}.

Lemma friends_roles (m rs : gmap Z Z) : friends m -> (forall p x, rs !! p = Some x -> exists r, m !! p = Some r /\ has r x = true) -> friends rs.
Proof. intros Hf Hrs p o [x (r & Hp & _)%Hrs] [y (r' & Ho & _)%Hrs]. apply Hf; by eexists. Qed.

Lemma comes_bytes check m p r : (forall g, is_Some (store !! g) -> exists w, store !! g = Some w /\ entry_ok w) ->
  comes check m -> m !! p = Some r -> 0 <= r < 256.
Proof.
  intros Hs Hc (g & w & _ & Hw & Hp)%Hc. destruct (Hs g) as (w' & Hw' & He); [by eexists|]. assert (w = w') as -> by congruence.
  by apply (en_bytes _ He p).
Qed.
Lemma store_entries g : is_Some (store !! g) -> exists w, store !! g = Some w /\ entry_ok w.
Proof. intros [w Hw]. exists w. split; [done|]. by apply (q0_ok g). Qed.

Lemma feasible_check (m : gmap Z Z) : m <> ∅ -> Z.of_nat (size m) < 256 -> (forall p r, m !! p = Some r -> 0 <= r < 256) ->
  feasible (in_order m) -> (check_roles_map m).1 = true.
Proof.
  intros Hne Hsz Hb [c Hc]. unfold check_roles_map. pose proof (CheckGroupRoles_spec (in_order m)) as H.
  destruct (CheckGroupRoles (in_order m)) as [[|] l]; [done|]. exfalso. destruct H as [_ H]; [..|by apply (H c)].
  - intros E. apply Hne, map_size_empty_inv. by rewrite <- length_in_order, E.
  - rewrite length_in_order. lia.
  - apply Forall_forall. intros [p r] Hpr%in_order_spec. by apply (Hb p).
Qed.

(** A group of five on its own. *)
Lemma match_one n q g t : run_ok n q -> tally_ok [g] t -> t_players t = MAXGROUPSIZE ->
  wp (match_groups v [g] (t_players t)) q (fun r q' => run_ok n q' /\ forall rs ds, r = inr (rs, ds) -> fits [g] rs ds).
Proof.
  intros Hq Ht H5. cbn [match_groups]. apply (wp_queue_at n); [done|apply (to_known _ _ Ht); by left|]. intros d Hd. apply wp_ret.
  split; [done|]. intros rs ds [= <- <-]. destruct (store_entries g) as (w & Hw & He); [by eexists|].
  assert (w = wants d) as -> by congruence. pose proof (to_total _ _ Ht) as Htot. rewrite H5 in Htot. cbn in Htot. rewrite Hd in Htot. cbn in Htot.
  destruct He as [Hb Hsz Hf Hds]. cbn in *.
  assert (roles d <> ∅) as Hne by (intros E; rewrite E, map_size_empty in Hsz; lia).
  assert (Z.of_nat (size (roles d)) < 256) as H256 by (unfold MAXGROUPSIZE in *; lia).
  destruct (check_roles_map (roles d)) as [ok rs] eqn:Ec. pose proof (feasible_check (roles d) Hne H256 Hb (Hf ltac:(lia))) as Hok.
  rewrite Ec in Hok. cbn in *. subst ok. destruct (check_roles_map_ok (roles d) rs Hne H256 Hb Ec) as (H1 & H2 & H3 & H4).
  split; try done.
  - intros p x (r & Hr & Hx)%H1. exists g, (wants d), r. split_and!; [by left|done..].
  - cbn. rewrite Hd. cbn. lia.
  - intros g' w [->|Hn]%elem_of_cons Hw'; [|by apply elem_of_nil in Hn]. assert (w = wants d) as -> by congruence. done.
  - cbn. lia.
Qed.

(** Several groups. *)
Lemma match_several n q check t : run_ok n q -> tally_ok check t -> (1 < length check)%nat -> t_players t <= MAXGROUPSIZE ->
  wp (match_groups v check (t_players t)) q (fun r q' => run_ok n q' /\ forall rs ds, r = inr (rs, ds) -> fits check rs ds).
Proof.
  intros Hq Ht Hlen H5. destruct check as [|first [|second others]]; cbn [length] in Hlen; [lia|lia|].
  cbn [match_groups]. set (check := first :: second :: others) in *. apply wp_bind.
  eapply wp_mono; [apply (add_players_ok n q check [] ∅ Hq)|].
  { apply (to_known _ _ Ht). }
  { intros p r H. by rewrite lookup_empty in H. }
  { intros p o [r H]. by rewrite lookup_empty in H. }
  intros m q1 (Hq1 & Hc & Hf & Hsz). rewrite map_size_empty in Hsz. cbn [app] in Hc. pose proof (to_total _ _ Ht) as Htot.
  destruct (Z.eqb_spec (uint 8 (t_players t - Z.of_nat (size m))) 0) as [E|]; cbn [negb]; [|by apply wp_ret].
  rewrite uint_small in E by (unfold MAXGROUPSIZE in *; lia).
  destruct (check_roles_map m) as [[|] rs] eqn:Ec; cbn [negb]; [|by apply wp_ret].
  apply (wp_queue_at n); [done|apply (to_known _ _ Ht); by left|]. intros d Hd. apply wp_bind.
  eapply wp_mono; [apply (common_dungeons_ok n q1 (second :: others) (dungeons d) Hq1); intros g Hg; apply (to_known _ _ Ht); by right|].
  intros ds q2 (Hq2 & Hsub & Hall). destruct (decide (ds = ∅)) as [->|Hds]; [rewrite bool_decide_true by done; by apply wp_ret|].
  rewrite bool_decide_false by done. apply wp_ret. split; [done|]. intros rs' ds' [= <- <-].
  assert (m <> ∅) as Hne.
  { intros ->. rewrite map_size_empty in E. cbn in Htot. rewrite Hd in Htot. cbn in Htot. fold (total (second :: others)) in Htot.
    pose proof (total_nonneg (second :: others)) as Hnn. cbn in Hnn.
    destruct (store_entries first) as (w & Hw & He); [by eexists|]. assert (w = wants d) as -> by congruence. pose proof (en_size _ He) as Hp. cbn in Hp. lia. }
  destruct (check_roles_map_ok m rs Hne) as (H1 & H2 & H3 & H4); [unfold MAXGROUPSIZE in *; lia| |done|].
  { intros p r. by apply (comes_bytes check m p r store_entries). }
  split; try done.
  - intros p x (r & (g & w & Hg & Hw & Hr)%Hc & Hx)%H1. by exists g, w, r.
  - lia.
  - intros g w [->|Hg]%elem_of_cons Hw; [|by eapply Hall]. by assert (w = wants d) as -> by congruence.
  - intros _. by apply (friends_roles m).
Qed.

(** *** Proposals *)

Lemma pick_leader_in id l : l <> [] -> pick_leader v id l ∈ l.*1.
Proof.
  unfold pick_leader. set (f := fun _ => _). intros Hne.
  assert (forall l st, (foldl f st l).1 ∈ st.1 :: l.*1) as Hin.
  { clear. induction l as [|[g r] l IH]; intros [x b]; [by left|]. cbn [foldl fmap list_fmap fst]. specialize (IH (f (x, b) (g, r))).
    apply elem_of_cons in IH as [E|IH]; [|by do 2 right]. rewrite E. cbn. destruct (has r PLAYER_ROLE_LEADER); cbn;
      case_match; first [by left|by right; left]. }
  destruct l as [|[g r] l]; [done|]. cbn [foldl fmap list_fmap fst]. pose proof (Hin l (f (0, false) (g, r))) as H.
  assert ((f (0, false) (g, r)).1 = g) as E by (cbn; by destruct (has r PLAYER_ROLE_LEADER)). by rewrite E in H.
Qed.

Lemma players_role t isNew rs : pp_role <$> map_imap (fun guid role => Some (proposal_player t isNew guid role)) rs = rs.
Proof.
  apply map_eq. intros p. rewrite lookup_fmap, map_lookup_imap. by destruct (rs !! p).
Qed.
Lemma players_lookup t isNew rs p : map_imap (fun guid role => Some (proposal_player t isNew guid role)) rs !! p
  = proposal_player t isNew p <$> rs !! p.
Proof. rewrite map_lookup_imap. by destruct (rs !! p). Qed.

(** The proposal that [make_proposal] stores. *)
Lemma new_proposal_ok check t rs ds id isNew : fits check rs ds -> (forall g, g ∈ check -> is_Some (store !! g)) -> total check = MAXGROUPSIZE -> AllQueued v check = true ->
  proposal_ok store (mkProposal id (lv_pick v id ds) LFG_PROPOSAL_INITIATING (t_group t)
    (pick_leader v id (in_order rs)) (lv_time v + LFG_TIME_PROPOSAL) isNew check
    (map_imap (fun guid role => Some (proposal_player t isNew guid role)) rs)).
Proof.
  intros Hf Hk H5 Hq. assert (Z.of_nat (size rs) = MAXGROUPSIZE) as Hsz by (by rewrite (ft_size _ _ _ Hf)). split; cbn.
  - rewrite <- (map_size_fmap pp_role). by rewrite players_role.
  - intros p pp. rewrite players_lookup. destruct (rs !! p) as [x|] eqn:Hx; [|done]. intros [= <-].
    destruct (ft_chosen _ _ _ Hf p x Hx) as (g & w & r & Hg & Hw & Hr & Hh). by exists g, w, r.
  - intros role Hr. rewrite players_role. by apply five_roles; [|apply Hf|apply Hf|].
  - intros g Hg. destruct (Hk g Hg) as [w Hw]. exists w. split; [done|]. by apply (ft_dungeons _ _ _ Hf g w Hg Hw), pick_in, (ft_some _ _ _ Hf).
  - intros Hl p o. rewrite !players_lookup, !fmap_is_Some. by apply (ft_friends _ _ _ Hf).
  - intros g Hg. apply andb_prop in Hq as [_ Hq]. rewrite forallb_forall in Hq. apply (bool_decide_eq_true (lv_state v g = LFG_STATE_QUEUED)).
    by apply Hq, list_elem_of_In.
  - rewrite players_lookup, fmap_is_Some. assert (in_order rs <> []) as Hne.
    { intros E. pose proof (length_in_order rs) as El. rewrite E in El. cbn in El. unfold MAXGROUPSIZE in *. lia. }
    pose proof (pick_leader_in id _ Hne) as Hl. apply list_elem_of_fmap in Hl as ([g r] & El & Hl). rewrite El. exists r. by apply in_order_spec.
  - split; [done|]. intros p pp. cbn. rewrite players_lookup. destruct (rs !! p); [|done]. intros [= <-]. cbn. by case_match.
Qed.

Lemma make_proposal_ok n q check t rs ds : run_ok n q -> tally_ok check t -> fits check rs ds -> t_players t = MAXGROUPSIZE ->
  AllQueued v check = true -> wp (make_proposal v check t rs ds) q (fun _ => run_ok n).
Proof.
  intros Hq Ht Hf H5 Hall. destruct check as [|gguid rest]; [by apply andb_prop in Hall as [Hall _]|]. set (check := gguid :: rest) in *.
  unfold check at 1. cbn [make_proposal]. fold check. cbv zeta. rewrite bool_decide_false by apply Hf.
  assert (forallb (fun e => bool_decide (is_Some (t_groups t !! e.1))) (in_order rs) = true) as ->.
  { apply forallb_forall. intros [p x] Hp%list_elem_of_In%in_order_spec. cbn. apply bool_decide_eq_true.
    destruct (ft_chosen _ _ _ Hf p x Hp) as (g & w & r & Hg & Hw & Hr & _). by apply (to_groups _ _ Ht g w p Hg Hw). }
  apply wp_bind. eapply wp_mono; [apply (wp_forM no_error check _ (run_ok n) q Hq)|].
  { intros g q' _ Hq'. apply wp_modify. by apply run_current, run_remove_new. }
  intros [] q1 [Hs Hp Hn]. split; try done. cbn. intros id p [[<- <-]|[_ H]]%lookup_insert_Some; [|by apply Hp]. right.
  apply new_proposal_ok; [done|apply (to_known _ _ Ht)| |done]. by rewrite <- (to_total _ _ Ht).
Qed.

(** *** The check of a list of groups *)

Lemma check_whole_ok n q key check : run_ok n q -> check <> [] -> wp (check_whole v key check) q (fun _ => run_ok n).
Proof.
  intros Hq Hne. unfold check_whole. apply wp_bind. eapply wp_mono; [apply (tally_groups_ok n check [] tally0 q Hq)|].
  { split; cbn; try done. - by intros g ?%elem_of_nil. - by intros g w p ?%elem_of_nil. }
  intros [t|] q1 [Hq1 Ht]; [|by apply wp_ret]. cbv zeta. destruct (Ht t eq_refl) as (l1 & Hpre & Ht1 & Hend). clear Ht. cbn [app] in *.
  destruct (bool_decide (length check = 1%nat) && negb (t_players t =? MAXGROUPSIZE)) eqn:E1.
  { apply andb_prop in E1 as [Hlen%bool_decide_eq_true _]. destruct check as [|g [|]]; [done| |done]. change (default 0 (head [g])) with g.
    assert (is_Some (store !! g)) as Hg.
    { destruct l1 as [|g' l1]; [exfalso; destruct Hend as [?|[?|?]]; [done| |];
        pose proof (to_lfg _ _ Ht1); pose proof (to_total _ _ Ht1) as Et; cbn in *; unfold MAXGROUPSIZE in *; lia|].
      apply prefix_cons_inv_1 in Hpre as <-. apply (to_known _ _ Ht1). by left. }
    destruct (store_some n q1 g Hq1 Hg) as [d Hd]. apply wp_get. rewrite Hd. apply wp_bind.
    eapply wp_mono; [by apply wp_best|]. intros a q2 Hq2. apply wp_modify, wp_ret. by apply run_compatibles. }
  destruct (Z.ltb_spec 1 (t_lfgGroups t)); [by apply wp_return|]. destruct (Z.ltb_spec MAXGROUPSIZE (t_players t)); [by apply wp_return|].
  destruct Hend as [->|[?|?]]; [|lia|lia]. rename Ht1 into Ht. apply wp_bind.
  eapply wp_mono with (Q := fun r q' => run_ok n q' /\ forall rs ds, r = inr (rs, ds) -> fits check rs ds).
  { destruct (decide (1 < length check)%nat); [by apply match_several|]. destruct check as [|g [|]]; [done| |cbn in *; lia].
    apply match_one; [done|done|]. cbn in E1. by apply negb_false_iff, Z.eqb_eq in E1. }
  intros [no|[rs ds]] q2 [Hq2 Hf]; [by apply wp_return|]. specialize (Hf rs ds eq_refl).
  destruct (Z.eqb_spec (t_players t) MAXGROUPSIZE) as [H5|]; cbn [negb].
  - destruct (AllQueued v check) eqn:Ea; cbn [negb]; [|by apply wp_return].
    apply wp_bind. eapply wp_mono; [by apply (make_proposal_ok n q2 check t rs ds)|]. intros a q3 Hq3. by apply wp_return.
  - apply wp_bind. eapply wp_mono; [apply (wp_forM no_error check _ (run_ok n) q2 Hq2)|].
    { intros g q' Hg Hq'. apply wp_best; [done|]. by apply (to_known _ _ Ht). }
    intros [] q3 Hq3. apply wp_modify, wp_ret. by apply run_compatibles.
Qed.

Lemma CheckCompatibility_ok n check q : run_ok n q -> wp (CheckCompatibility v check) q (fun _ => run_ok n).
Proof.
  revert q. induction check as [|g rest IH]; intros q Hq; [by apply wp_ret|]. cbn [CheckCompatibility]. cbv zeta.
  destruct (_ || _); [by apply wp_ret|]. destruct (2 <? len (g :: rest)); [|by apply check_whole_ok]. apply wp_bind.
  eapply wp_mono; [by apply IH|]. intros c q1 Hq1. destruct (not_compatible c); [by apply wp_return|by apply check_whole_ok].
Qed.

(** *** The search *)

Lemma FindNewGroups_ok n fuel check all q : (length all < fuel)%nat -> run_ok n q ->
  wp (FindNewGroups v fuel check all) q (fun r q' => run_ok n q' /\ (length r.2 <= length all)%nat).
Proof.
  revert check all q. induction fuel as [|fuel IH]; intros check all q Hfuel Hq; [lia|]. cbn [FindNewGroups]. apply wp_get, wp_bind.
  eapply wp_mono with (Q := fun _ => run_ok n); [case_bool_decide; [by apply CheckCompatibility_ok|by apply wp_ret]|].
  intros c q1 Hq1. destruct (_ && _); [apply wp_modify, wp_ret; split; [by apply run_compatibles|done]|].
  destruct (negb _); [by apply wp_ret|]. match goal with |- Prelude.wp _ (?F fuel all) _ _ => set (f := F) end.
  assert (forall k all q, (length all <= k)%nat -> (k <= fuel)%nat -> run_ok n q ->
    wp (f k all) q (fun r q' => run_ok n q' /\ (length r.2 <= length all)%nat)) as Hf.
  { clear - IH. induction k as [|k IHk]; intros [|next all] q Hk Hkf Hq; cbn in Hk; try lia; try by apply wp_ret. cbn [f]. apply wp_bind.
    eapply wp_mono; [apply (IH (check ++ [next]) all q); [lia|done]|]. intros [c' all'] q' [Hq' Hl]. cbn [fst snd] in *.
    case_bool_decide; [apply wp_ret; cbn; split; [done|lia]|]. eapply wp_mono; [apply IHk; [lia|lia|done]|].
    intros r q'' [H1 H2]. split; [done|cbn; lia]. }
  apply Hf; [lia|done|done].
Qed.

Lemma FindGroups_loop_ok fuel proposals q : run_ok fuel q -> wp (FindGroups_loop v fuel proposals) q (fun _ q' => run_ok 0 q' /\ newToQueueStore q' = []).
Proof.
  revert proposals q. induction fuel as [|fuel IH]; intros proposals q Hq; cbn [FindGroups_loop]; apply wp_get.
  { pose proof (ro_new _ _ Hq). destruct (newToQueueStore q) eqn:E; [by apply wp_ret|cbn in *; lia]. }
  destruct (newToQueueStore q) as [|g l] eqn:E.
  { apply wp_ret. split; [|done]. destruct Hq as [Hs Hp Hn]. split; [done|done|]. rewrite E. cbn. lia. }
  apply wp_modify, wp_get. set (q1 := set_new _ q). assert (run_ok fuel q1) as Hq1.
  { destruct Hq as [Hs Hp Hn]. split; [done|done|]. cbn in *. rewrite E in *. unfold list_remove.
    rewrite filter_cons_False by (intros H; by apply H). pose proof (length_filter (fun x : Z => x <> g) l). cbn in Hn. lia. }
  apply wp_bind. eapply wp_mono; [apply (FindNewGroups_ok fuel); [lia|done]|]. intros [c all] q2 [Hq2 _]. cbn [fst].
  case_bool_decide; [by apply IH|]. apply wp_modify. by apply IH, run_current.
Qed.
End Run.
End Proposals.

(** C19. What a proposal has to be: five players of the groups [p_queues] as the queue
    knows them, each in a role he chose, one tank, one healer and three damage
    dealers, none of them ignoring another of another group, led by one of them, in
    a dungeon that all the groups chose. *)
Theorem FindGroups_proposals v q : (forall id s, s <> ∅ -> lv_pick v id s ∈ s) -> queue_ok q ->
  exists n q', FindGroups v q = (Ok n, q') /\ newToQueueStore q' = [] /\ store_of q' = store_of q /\
    forall id p, ProposalsStore q' !! id = Some p -> ProposalsStore q !! id = Some p \/ proposal_ok v (store_of q) p.
Proof.
  intros Hpick Hq. assert (run_ok v q (length (newToQueueStore q)) q) as Hr by (split; [done|by left|done]).
  pose proof (FindGroups_loop_ok v Hpick q Hq _ 0 q Hr) as H. unfold Prelude.wp in H. unfold FindGroups.
  rewrite (bind_ok get _ q q q eq_refl). destruct (FindGroups_loop _ _ _ q) as [[n|e] q']; [|done].
  destruct H as [[Hs Hp Hn] He]. by exists n, q'.
Qed.

(** Five players wait; the tank has been there first. *)
Definition five_view : LfgView :=
  mkLfgView 1000 (fun _ => LFG_STATE_QUEUED) (fun _ => LFG_STATE_NONE) (fun _ => true) (fun _ _ => false)
    (fun _ s => default 0 (head (elements s))) (fun _ _ => false).
Definition five_players : LFGQueue :=
  let entry r d := LfgQueueData_new 900 (list_to_set d) {[ r.1 := r.2 ]} in
  mkLFGQueue (list_to_map [(1, entry (1, 2) [18; 20]); (2, entry (2, 12) [20]); (3, entry (3, 9) [20; 30]); (4, entry (4, 12) [20; 18]); (5, entry (5, 8) [20; 40])])
    ∅ ∅ ∅ ∅ ∅ [1; 2; 3; 4] [5] 6 ∅.

Example five_players_meet : (FindGroups five_view five_players).1 = Ok 1.
Proof. vm_compute. reflexivity. Qed.
Example five_players_proposal :
  (fun p => (p_dungeonId p, p_leader p, p_queues p, (fun e => (e.1, pp_role e.2)) <$> in_order (p_players p)))
    <$> ProposalsStore (FindGroups five_view five_players).2 !! 7 = Some (20, 1, [5; 1; 2; 3; 4], [(1, 2); (2, 4); (3, 8); (4, 8); (5, 8)]).
Proof. vm_compute. reflexivity. Qed.

Lemma five_view_pick (id : Z) (s : gset Z) : s <> ∅ -> lv_pick five_view id s ∈ s.
Proof.
  intros Hs. cbn. destruct (elements s) as [|x l] eqn:E; [by apply elements_empty_inv, leibniz_equiv in E|].
  apply elem_of_elements. rewrite E. by left.
Qed.
Lemma five_players_ok : queue_ok five_players.
Proof.
  intros g w Hw. unfold store_of in Hw. apply lookup_fmap_Some in Hw as (d & <- & Hd). apply elem_of_list_to_map_2 in Hd.
  assert (forall p r (ds : gset Z) x, 0 <= r < 256 -> x ∈ ds -> entry_ok ({[p := r]}, ds)) as Hone.
  { intros p r ds x Hr Hx. split; cbn; rewrite ?map_size_singleton; try done; [|by intros ->].
    by intros p' r' [<- <-]%lookup_singleton_Some. }
  rewrite !elem_of_cons, elem_of_nil in Hd. destruct_or! Hd; try done; injection Hd as -> ->; (eapply (Hone _ _ _ 20); [lia|]); set_solver.
Qed.

Lemma FindGroups_proposals_witness :
  ProposalsStore (FindGroups five_view five_players).2 !! 7 <> None /\
  forall p, ProposalsStore (FindGroups five_view five_players).2 !! 7 = Some p -> proposal_ok five_view (store_of five_players) p.
Proof.
  destruct (FindGroups_proposals five_view five_players five_view_pick five_players_ok) as (n & q' & E & _ & _ & Hp).
  pose proof five_players_proposal as H. rewrite E in H |- *. cbn [snd] in *. split; [intros E'; rewrite E' in H; discriminate H|].
  intros p [Hold|Hok]%Hp; [vm_compute in Hold; discriminate Hold|done].
Defined.
