(* ===== verification/LfgMgr.v ===== *)
(** * The manager of the dungeon finder (src/src/serveur/jeu/DungeonFinding)

    [LFGMgr] with [LFGGroupData], [LFGPlayerData] and the hooks of [LFGScripts]: the
    state of each player and group, role checks, proposals, votes to kick, and the
    queues of LfgQueue.v.  Reading an entry of [PlayersStore] or [GroupsStore] that is
    not there makes a default one in the source; here it reads as the default.
    What is sent to players is kept in [sent]; groups, players and the tables of
    dungeons are the [LfgWorld] of an operation. *)

From S2P Require Import Prelude.
From S2P Require Import LfgRoles.
From S2P Require Import LfgQueue.
From S2P Require Import Group.
From stdpp Require Import list sorting.
Local Open Scope Z_scope.

Definition IN_MILLISECONDS := 1000.
Definition LFG_TIME_ROLECHECK := 45 * IN_MILLISECONDS.
Definition LFG_TIME_BOOT := 120.
Definition LFG_QUEUEUPDATE_INTERVAL := 15 * IN_MILLISECONDS.
Definition LFG_SPELL_DUNGEON_COOLDOWN := 71328.
Definition LFG_SPELL_DUNGEON_DESERTER := 71041.
Definition LFG_GROUP_KICK_VOTES_NEEDED := 3.
Definition LFG_GROUP_MAX_KICKS := 3.
Definition LFG_OPTION_ENABLE_DUNGEON_FINDER := 1.
Definition LFG_OPTION_ENABLE_RAID_BROWSER := 2.

Inductive LfgUpdateType :=
| LFG_UPDATETYPE_LEADER_UNK1 | LFG_UPDATETYPE_JOIN_QUEUE | LFG_UPDATETYPE_ROLECHECK_FAILED | LFG_UPDATETYPE_REMOVED_FROM_QUEUE
| LFG_UPDATETYPE_PROPOSAL_FAILED | LFG_UPDATETYPE_PROPOSAL_DECLINED | LFG_UPDATETYPE_GROUP_FOUND | LFG_UPDATETYPE_ADDED_TO_QUEUE
| LFG_UPDATETYPE_PROPOSAL_BEGIN.
#[export] Instance LfgUpdateType_eq_dec : EqDecision LfgUpdateType.
Proof. solve_decision. Defined.
Definition LFG_TYPE_NONE := 0.
Definition LFG_TYPE_DUNGEON := 1.
Definition LFG_TYPE_RAID := 2.
Definition LFG_TYPE_HEROIC := 5.
Definition LFG_TYPE_RANDOM := 6.
Inductive LfgJoinResult :=
| LFG_JOIN_OK | LFG_JOIN_FAILED | LFG_JOIN_INTERNAL_ERROR | LFG_JOIN_NOT_MEET_REQS | LFG_JOIN_MIXED_RAID_DUNGEON | LFG_JOIN_DISCONNECTED
| LFG_JOIN_DUNGEON_INVALID | LFG_JOIN_DESERTER | LFG_JOIN_PARTY_DESERTER | LFG_JOIN_RANDOM_COOLDOWN | LFG_JOIN_PARTY_RANDOM_COOLDOWN
| LFG_JOIN_TOO_MUCH_MEMBERS | LFG_JOIN_USING_BG_SYSTEM | LFG_JOIN_ROLE_CHECK_FAILED.
#[export] Instance LfgJoinResult_eq_dec : EqDecision LfgJoinResult.
Proof. solve_decision. Defined.
Inductive LfgRoleCheckState :=
| LFG_ROLECHECK_DEFAULT | LFG_ROLECHECK_FINISHED | LFG_ROLECHECK_INITIALITING | LFG_ROLECHECK_MISSING_ROLE | LFG_ROLECHECK_WRONG_ROLES
| LFG_ROLECHECK_ABORTED | LFG_ROLECHECK_NO_ROLE.
#[export] Instance LfgRoleCheckState_eq_dec : EqDecision LfgRoleCheckState.
Proof. solve_decision. Defined.

(** ** Data *)

Record LfgRoleCheck := mkRoleCheck {
  rc_cancelTime : Z; rc_roles : gmap Z Z; rc_state : LfgRoleCheckState; rc_dungeons : gset Z; rc_rDungeonId : Z; rc_leader : Z
}.
Definition rc_set_state s r := mkRoleCheck (rc_cancelTime r) (rc_roles r) s (rc_dungeons r) (rc_rDungeonId r) (rc_leader r).
Definition rc_set_roles v r := mkRoleCheck (rc_cancelTime r) v (rc_state r) (rc_dungeons r) (rc_rDungeonId r) (rc_leader r).
Record LfgPlayerBoot := mkPlayerBoot {
  pb_cancelTime : Z; pb_inProgress : bool; pb_votes : gmap Z LfgAnswer; pb_victim : Z; pb_reason : list Z
}.
Definition pb_set_inProgress v b := mkPlayerBoot (pb_cancelTime b) v (pb_votes b) (pb_victim b) (pb_reason b).
Definition pb_set_votes v b := mkPlayerBoot (pb_cancelTime b) (pb_inProgress b) v (pb_victim b) (pb_reason b).
(** Without the name and the place to teleport to. *)
Record LFGDungeonData := mkDungeonData {
  dg_id : Z; dg_map : Z; dg_type : Z; dg_expansion : Z; dg_group : Z; dg_minlevel : Z; dg_maxlevel : Z; dg_difficulty : Z; dg_seasonal : bool
}.
Definition Entry (d : LFGDungeonData) : Z := uint 32 (dg_id d + Z.shiftl (dg_type d) 24).

Record LfgPlayerData := mkPlayerData {
  pd_State : LfgState; pd_OldState : LfgState; pd_LockedDungeons : gmap Z Z; pd_Team : Z; pd_Group : Z; pd_Roles : Z;
  pd_Comment : list Z; pd_SelectedDungeons : gset Z
}.
Definition LfgPlayerData_new : LfgPlayerData := mkPlayerData LFG_STATE_NONE LFG_STATE_NONE ∅ 0 0 0 [] ∅.
Definition pd_set_states s o d := mkPlayerData s o (pd_LockedDungeons d) (pd_Team d) (pd_Group d) (pd_Roles d) (pd_Comment d) (pd_SelectedDungeons d).
Definition pd_set_group g d := mkPlayerData (pd_State d) (pd_OldState d) (pd_LockedDungeons d) (pd_Team d) g (pd_Roles d) (pd_Comment d) (pd_SelectedDungeons d).
Definition pd_set_choice r c s d := mkPlayerData (pd_State d) (pd_OldState d) (pd_LockedDungeons d) (pd_Team d) (pd_Group d) r c s.
Definition pd_set_team t d := mkPlayerData (pd_State d) (pd_OldState d) (pd_LockedDungeons d) t (pd_Group d) (pd_Roles d) (pd_Comment d) (pd_SelectedDungeons d).
Definition pd_set_locked l d := mkPlayerData (pd_State d) (pd_OldState d) l (pd_Team d) (pd_Group d) (pd_Roles d) (pd_Comment d) (pd_SelectedDungeons d).

Definition player_SetState (state : LfgState) (d : LfgPlayerData) : LfgPlayerData :=
  match state with
  | LFG_STATE_NONE | LFG_STATE_FINISHED_DUNGEON => pd_set_states state state (pd_set_choice 0 [] ∅ d)
  | LFG_STATE_DUNGEON => pd_set_states state state d
  | _ => pd_set_states state (pd_OldState d) d
  end.
Definition player_RestoreState (d : LfgPlayerData) : LfgPlayerData :=
  let d := if bool_decide (pd_OldState d = LFG_STATE_NONE) then pd_set_choice 0 (pd_Comment d) ∅ d else d in
  pd_set_states (pd_OldState d) (pd_OldState d) d.

Record LfgGroupData := mkGroupData {
  gd_State : LfgState; gd_OldState : LfgState; gd_Leader : Z; gd_Players : gset Z; gd_Dungeon : Z; gd_KicksLeft : Z
}.
Definition LfgGroupData_new : LfgGroupData := mkGroupData LFG_STATE_NONE LFG_STATE_NONE 0 ∅ 0 LFG_GROUP_MAX_KICKS.
Definition gd_set_states s o d := mkGroupData s o (gd_Leader d) (gd_Players d) (gd_Dungeon d) (gd_KicksLeft d).
Definition gd_set_leader l d := mkGroupData (gd_State d) (gd_OldState d) l (gd_Players d) (gd_Dungeon d) (gd_KicksLeft d).
Definition gd_set_players p d := mkGroupData (gd_State d) (gd_OldState d) (gd_Leader d) p (gd_Dungeon d) (gd_KicksLeft d).
Definition gd_set_dungeon n k d := mkGroupData (gd_State d) (gd_OldState d) (gd_Leader d) (gd_Players d) n k.

Definition group_SetState (state : LfgState) (d : LfgGroupData) : LfgGroupData :=
  match state with
  | LFG_STATE_NONE => gd_set_states state state (gd_set_dungeon 0 LFG_GROUP_MAX_KICKS d)
  | LFG_STATE_FINISHED_DUNGEON | LFG_STATE_DUNGEON => gd_set_states state state d
  | _ => gd_set_states state (gd_OldState d) d
  end.
Definition group_RestoreState (d : LfgGroupData) : LfgGroupData := gd_set_states (gd_OldState d) (gd_OldState d) d.
Definition group_DecreaseKicksLeft (d : LfgGroupData) : LfgGroupData :=
  if negb (gd_KicksLeft d =? 0) then gd_set_dungeon (gd_Dungeon d) (gd_KicksLeft d - 1) d else d.

(** ** The world around *)

#[export] Instance RemoveMethod_eq_dec : EqDecision RemoveMethod.
Proof. solve_decision. Defined.
(** What the manager asks of the groups (Group.v), and what they call back. *)
Inductive GroupCall :=
| CallCreate (leader : Z)
| CallAddMember (gguid guid : Z)
| CallRemoveMember (gguid guid : Z) (method : RemoveMethod).
Inductive GroupHook :=
| OnAddMember (gguid leader guid : Z)
| OnRemoveMember (gguid : Z) (isLFG : bool) (guid : Z) (method : RemoveMethod) (kicker : Z) (reason : list Z)
| OnDisband (gguid : Z)
| OnChangeLeader (gguid newLeaderGuid : Z)
| OnInviteMember (gguid leader : Z).

(** [w_group] and [w_hooks] may depend on the calls the operation has made before. *)
Record LfgWorld := mkLfgWorld {
  w_time : Z;
  w_online : Z -> bool;
  w_ignores : Z -> Z -> bool;
  w_pick : Z -> gset Z -> Z;
  w_coin : Z -> Z -> bool;
  w_options : Z;
  w_two_sides : bool;
  w_permission : Z -> bool;
  w_battleground : Z -> bool;
  w_aura : Z -> Z -> bool;
  w_in_dungeon_map : Z -> bool;
  LfgDungeonStore : Z -> option LFGDungeonData;
  CachedDungeonMapStore : Z -> gset Z;
  w_group : list GroupCall -> Z -> option Z;
  w_hooks : list GroupCall -> GroupCall -> list GroupHook;
  w_group_exists : Z -> bool;
  w_new_group : Z
}.

(** A group that joins: its members in the world, in the order of the references. *)
Record LfgParty := mkParty { pa_guid : Z; pa_isLFG : bool; pa_count : Z; pa_members : list Z }.

Record LfgUpdateData := mkUpdateData { ud_updateType : LfgUpdateType; ud_dungeons : gset Z; ud_comment : list Z }.
Inductive LfgMessage :=
| RoleChosen (guid pguid roles : Z)
| RoleCheckUpdate (guid : Z) (rc : LfgRoleCheck)
| UpdateStatus (guid : Z) (data : LfgUpdateData) (party : bool)
| JoinResult (guid : Z) (result : LfgJoinResult) (state : LfgRoleCheckState) (lockmap : gmap Z (gmap Z Z))
| BootProposalUpdate (guid : Z) (boot : LfgPlayerBoot)
| UpdateProposalMsg (guid : Z) (p : LfgProposal)
| QueueStatus (guid : Z) (data : LfgQueueStatusData)
| OfferContinue (guid dungeon : Z)
| CastSpell (guid spell : Z)
| TeleportPlayer (guid : Z) (out : bool)
| SetLfgRoles (gguid guid role : Z)
| SetDungeonDifficulty (gguid difficulty : Z)
| SendGroupUpdate (gguid : Z)
| SaveLfgData (gguid dungeon : Z) (state : LfgState).

Record LFGMgr := mkLFGMgr {
  PlayersStore : gmap Z LfgPlayerData;
  GroupsStore : gmap Z LfgGroupData;
  RoleChecksStore : gmap Z LfgRoleCheck;
  BootsStore : gmap Z LfgPlayerBoot;
  QueuesStore : gmap Z LFGQueue;
  mg_proposalId : Z;
  mg_proposals : gmap Z LfgProposal;
  m_QueueTimer : Z;
  calls : list GroupCall;
  sent : list LfgMessage
}.
Definition set_players v m := mkLFGMgr v (GroupsStore m) (RoleChecksStore m) (BootsStore m) (QueuesStore m) (mg_proposalId m) (mg_proposals m)
  (m_QueueTimer m) (calls m) (sent m).
Definition set_groups v m := mkLFGMgr (PlayersStore m) v (RoleChecksStore m) (BootsStore m) (QueuesStore m) (mg_proposalId m) (mg_proposals m)
  (m_QueueTimer m) (calls m) (sent m).
Definition set_checks v m := mkLFGMgr (PlayersStore m) (GroupsStore m) v (BootsStore m) (QueuesStore m) (mg_proposalId m) (mg_proposals m)
  (m_QueueTimer m) (calls m) (sent m).
Definition set_boots v m := mkLFGMgr (PlayersStore m) (GroupsStore m) (RoleChecksStore m) v (QueuesStore m) (mg_proposalId m) (mg_proposals m)
  (m_QueueTimer m) (calls m) (sent m).
Definition set_queues v n p m := mkLFGMgr (PlayersStore m) (GroupsStore m) (RoleChecksStore m) (BootsStore m) v n p
  (m_QueueTimer m) (calls m) (sent m).
Definition set_timer v m := mkLFGMgr (PlayersStore m) (GroupsStore m) (RoleChecksStore m) (BootsStore m) (QueuesStore m) (mg_proposalId m)
  (mg_proposals m) v (calls m) (sent m).
Definition set_calls v m := mkLFGMgr (PlayersStore m) (GroupsStore m) (RoleChecksStore m) (BootsStore m) (QueuesStore m) (mg_proposalId m)
  (mg_proposals m) (m_QueueTimer m) v (sent m).
Definition set_sent v m := mkLFGMgr (PlayersStore m) (GroupsStore m) (RoleChecksStore m) (BootsStore m) (QueuesStore m) (mg_proposalId m)
  (mg_proposals m) (m_QueueTimer m) (calls m) v.

(** What goes wrong: in a queue; the first of no selected dungeon or of no player; a
    failed [ASSERT]; a call on the group that nobody was there to form; an iterator
    used after [UpdateProposal] has erased its proposal. *)
Inductive LfgError := QueueFault (e : LfgQueueError) | NoSelection | NoPlayers | AssertDungeon | NullGroup | ErasedProposal.
Abbreviation MP := (prog LFGMgr LfgError).

(** ** Players and groups *)

Definition player_at (m : LFGMgr) (guid : Z) : LfgPlayerData := default LfgPlayerData_new (PlayersStore m !! guid).
Definition group_at (m : LFGMgr) (guid : Z) : LfgGroupData := default LfgGroupData_new (GroupsStore m !! guid).
Definition on_player (guid : Z) (f : LfgPlayerData -> LfgPlayerData) : MP unit :=
  modify (fun m => set_players (<[guid := f (player_at m guid)]> (PlayersStore m)) m).
Definition on_group (guid : Z) (f : LfgGroupData -> LfgGroupData) : MP unit :=
  modify (fun m => set_groups (<[guid := f (group_at m guid)]> (GroupsStore m)) m).

Definition GetState (m : LFGMgr) (guid : Z) : LfgState :=
  if IS_GROUP_GUID guid then gd_State (group_at m guid) else pd_State (player_at m guid).
Definition GetOldState (m : LFGMgr) (guid : Z) : LfgState :=
  if IS_GROUP_GUID guid then gd_OldState (group_at m guid) else pd_OldState (player_at m guid).
Definition GetDungeon (m : LFGMgr) (guid : Z) (asId : bool) : Z :=
  let d := gd_Dungeon (group_at m guid) in if asId then Z.land d 0x00FFFFFF else d.
Definition GetRoles (m : LFGMgr) (guid : Z) : Z := pd_Roles (player_at m guid).
Definition GetComment (m : LFGMgr) (guid : Z) : list Z := pd_Comment (player_at m guid).
Definition GetSelectedDungeons (m : LFGMgr) (guid : Z) : gset Z := pd_SelectedDungeons (player_at m guid).
Definition GetLockedDungeons (m : LFGMgr) (guid : Z) : gmap Z Z := pd_LockedDungeons (player_at m guid).
Definition GetTeam (m : LFGMgr) (guid : Z) : Z := pd_Team (player_at m guid).
Definition GetGroup (m : LFGMgr) (guid : Z) : Z := pd_Group (player_at m guid).
Definition GetPlayers (m : LFGMgr) (guid : Z) : gset Z := gd_Players (group_at m guid).
Definition GetLeader (m : LFGMgr) (guid : Z) : Z := gd_Leader (group_at m guid).
Definition GetKicksLeft (m : LFGMgr) (guid : Z) : Z := gd_KicksLeft (group_at m guid).

Definition RestoreState (guid : Z) : MP unit :=
  if IS_GROUP_GUID guid then on_group guid group_RestoreState else on_player guid player_RestoreState.
Definition SetState (guid : Z) (state : LfgState) : MP unit :=
  if IS_GROUP_GUID guid then on_group guid (group_SetState state) else on_player guid (player_SetState state).
Definition SetDungeon (guid dungeon : Z) : MP unit := on_group guid (fun d => gd_set_dungeon dungeon (gd_KicksLeft d) d).
Definition SetRoles (guid roles : Z) : MP unit := on_player guid (fun d => pd_set_choice roles (pd_Comment d) (pd_SelectedDungeons d) d).
Definition SetComment (guid : Z) (comment : list Z) : MP unit :=
  on_player guid (fun d => pd_set_choice (pd_Roles d) comment (pd_SelectedDungeons d) d).
Definition SetSelectedDungeons (guid : Z) (dungeons : gset Z) : MP unit :=
  on_player guid (fun d => pd_set_choice (pd_Roles d) (pd_Comment d) dungeons d).
Definition SetLockedDungeons (guid : Z) (lock : gmap Z Z) : MP unit := on_player guid (pd_set_locked lock).
Definition DecreaseKicksLeft (guid : Z) : MP unit := on_group guid group_DecreaseKicksLeft.
Definition AddPlayerToGroup (gguid guid : Z) : MP unit := on_group gguid (fun d => gd_set_players ({[guid]} ∪ gd_Players d) d).
(** Answers how many players are left. *)
Definition RemovePlayerFromGroup (gguid guid : Z) : MP Z :=
  on_group gguid (fun d => gd_set_players (gd_Players d ∖ {[guid]}) d);;
  m ← get; mret (uint 8 (Z.of_nat (size (GetPlayers m gguid)))).
Definition SetLeader (gguid leader : Z) : MP unit := on_group gguid (gd_set_leader leader).
Definition SetGroup (guid group : Z) : MP unit := on_player guid (pd_set_group group).
Definition RemovePlayerData (guid : Z) : MP unit := modify (fun m => set_players (delete guid (PlayersStore m)) m).

Definition zset (s : gset Z) : list Z := merge_sort Z.le (elements s).
Definition emit (msg : LfgMessage) : MP unit := modify (fun m => set_sent (sent m ++ [msg]) m).

Section Manager.
Context (w : LfgWorld).

Definition SetTeam (guid team : Z) : MP unit := on_player guid (pd_set_team (if w_two_sides w then 0 else team)).
(** The [SendLfg] functions look the player up. *)
Definition send (guid : Z) (msg : LfgMessage) : MP unit := if w_online w guid then emit msg else mret tt.
Definition SendLfgUpdateStatus (guid : Z) (data : LfgUpdateData) (party : bool) : MP unit := send guid (UpdateStatus guid data party).
Definition plain_update (t : LfgUpdateType) : LfgUpdateData := mkUpdateData t ∅ [].
Definition own_update (t : LfgUpdateType) (m : LFGMgr) (guid : Z) : LfgUpdateData := mkUpdateData t (GetSelectedDungeons m guid) (GetComment m guid).
Definition isOptionEnabled (option : Z) : bool := negb (Z.land (w_options w) option =? 0).
Definition finder_enabled : bool := isOptionEnabled (Z.lor LFG_OPTION_ENABLE_DUNGEON_FINDER LFG_OPTION_ENABLE_RAID_BROWSER).

Definition RemoveGroupData (guid : Z) : MP unit :=
  m ← get;
  match GroupsStore m !! guid with
  | None => mret tt
  | Some d =>
      let state := GetState m guid in
      forM (zset (gd_Players d)) (fun p =>
        SetGroup p 0;;
        if bool_decide (state = LFG_STATE_PROPOSAL) then mret tt
        else SetState p LFG_STATE_NONE;; SendLfgUpdateStatus p (plain_update LFG_UPDATETYPE_REMOVED_FROM_QUEUE) true);;
      modify (fun m => set_groups (delete guid (GroupsStore m)) m)
  end.

(** ** The queues *)

Definition GetQueueId (m : LFGMgr) (guid : Z) : Z :=
  if IS_GROUP_GUID guid then
    let pguid := default 0 (head (zset (GetPlayers m guid))) in
    if negb (pguid =? 0) then GetTeam m pguid else GetTeam m guid
  else GetTeam m guid.
Definition empty_queue : LFGQueue := mkLFGQueue ∅ ∅ ∅ ∅ ∅ ∅ [] [] 0 ∅.
Definition queue_of (m : LFGMgr) (id : Z) : LFGQueue :=
  set_proposals (mg_proposalId m) (mg_proposals m) (default empty_queue (QueuesStore m !! id)).
Definition store_queue (id : Z) (q : LFGQueue) (m : LFGMgr) : LFGMgr :=
  set_queues (<[id := set_proposals 0 ∅ q]> (QueuesStore m)) (m_lfgProposalId q) (ProposalsStore q) m.
Definition in_queue {A} (id : Z) (p : QP A) : MP A := fun m =>
  let '(r, q) := p (queue_of m id) in
  (match r with Ok a => Ok a | Err e => Err (QueueFault e) end, store_queue id q m).
(** [GetQueue(guid)], then an operation of it. *)
Definition at_queue {A} (guid : Z) (p : QP A) : MP A := m ← get; in_queue (GetQueueId m guid) p.
Definition view (m : LFGMgr) : LfgView :=
  mkLfgView (w_time w) (GetState m) (GetOldState m) (w_online w) (w_ignores w) (w_pick w) (w_coin w).

(** ** Dungeons *)

Definition GetLFGDungeon (id : Z) : option LFGDungeonData := LfgDungeonStore w id.
Definition GetDungeonType (dungeonId : Z) : Z := from_option dg_type LFG_TYPE_NONE (GetLFGDungeon dungeonId).
Definition GetDungeonsByRandom (randomdungeon : Z) : gset Z := CachedDungeonMapStore w (from_option dg_group 0 (GetLFGDungeon randomdungeon)).

(** The dungeons that none of the players is locked out of, and the locks met. *)
Definition take_lock (guid : Z) (st : gset Z * gmap Z (gmap Z Z)) (lock : Z * Z) : gset Z * gmap Z (gmap Z Z) :=
  let '(dungeons, lockMap) := st in
  let dungeonId := Z.land lock.1 0x00FFFFFF in
  if bool_decide (dungeonId ∈ dungeons)
  then (dungeons ∖ {[dungeonId]}, <[guid := <[dungeonId := lock.2]> (default ∅ (lockMap !! guid))]> lockMap)
  else st.
Definition GetCompatibleDungeons (m : LFGMgr) (dungeons : gset Z) (players : gset Z) : gset Z * gmap Z (gmap Z Z) :=
  let '(dungeons, lockMap) :=
    foldl (fun st guid => foldl (take_lock guid) st (in_order (GetLockedDungeons m guid))) (dungeons, ∅) (zset players) in
  (dungeons, if bool_decide (dungeons = ∅) then lockMap else ∅).

(** ** Proposals *)

Definition deny_pending (p : LfgProposalPlayer) : LfgProposalPlayer :=
  if bool_decide (pp_accept p = LFG_ANSWER_PENDING) then mkProposalPlayer (pp_role p) LFG_ANSWER_DENY (pp_group p) else p.
Definition p_set_players v s p := mkProposal (p_id p) (p_dungeonId p) s (p_group p) (p_leader p) (p_cancelTime p) (p_isNew p) (p_queues p) v.
Definition group_or_player (e : Z * LfgProposalPlayer) : Z := if negb (pp_group e.2 =? 0) then pp_group e.2 else e.1.

(** Those to be removed: with [PROPOSAL_FAILED] everybody has answered. *)
Definition to_remove (players : gmap Z LfgProposalPlayer) : gset Z :=
  list_to_set (group_or_player <$> filter (fun e => pp_accept e.2 = LFG_ANSWER_DENY) (in_order players)).

Definition notify_removed (p : LfgProposal) (toRemove : gset Z) (type : LfgUpdateType) (e : Z * LfgProposalPlayer) : MP unit :=
  let guid := e.1 in
  let gguid := group_or_player e in
  send guid (UpdateProposalMsg guid p);;
  if bool_decide (gguid ∈ toRemove) then
    let data := plain_update (if bool_decide (pp_accept e.2 = LFG_ANSWER_DENY) then type else LFG_UPDATETYPE_REMOVED_FROM_QUEUE) in
    RestoreState guid;;
    if negb (gguid =? guid) then RestoreState (pp_group e.2);; SendLfgUpdateStatus guid data true
    else SendLfgUpdateStatus guid data false
  else
    SetState guid LFG_STATE_QUEUED;;
    if negb (gguid =? guid) then
      SetState gguid LFG_STATE_QUEUED;;
      m ← get; SendLfgUpdateStatus guid (own_update LFG_UPDATETYPE_ADDED_TO_QUEUE m guid) true
    else m ← get; SendLfgUpdateStatus guid (own_update LFG_UPDATETYPE_ADDED_TO_QUEUE m guid) false.

(** [it] is the id of the proposal and the proposal. *)
Definition RemoveProposal (id : Z) (p : LfgProposal) (type : LfgUpdateType) : MP unit :=
  let players := if bool_decide (type = LFG_UPDATETYPE_PROPOSAL_FAILED) then deny_pending <$> p_players p else p_players p in
  let p := p_set_players players LFG_PROPOSAL_FAILED p in
  let toRemove := to_remove players in
  forM (in_order players) (notify_removed p toRemove type);;
  match head (in_order players) with
  | None => throw NoPlayers
  | Some e =>
      m ← get;
      in_queue (GetQueueId m e.1)
        (forM (zset toRemove) RemoveFromQueue;;
         forM (filter (fun g => g ∉ toRemove) (p_queues p)) AddToQueue);;
      modify (fun m => set_queues (QueuesStore m) (mg_proposalId m) (delete id (mg_proposals m)) m)
  end.

(** ** Role checks *)

Definition send_role (rc : LfgRoleCheck) (sendRoleChosen : bool) (guid roles : Z) (dungeons : gset Z) (e : Z * Z) : MP unit :=
  let pguid := e.1 in
  (if sendRoleChosen then send pguid (RoleChosen pguid guid roles) else mret tt);;
  send pguid (RoleCheckUpdate pguid rc);;
  match rc_state rc with
  | LFG_ROLECHECK_INITIALITING => mret tt
  | LFG_ROLECHECK_FINISHED =>
      SetState pguid LFG_STATE_QUEUED;;
      SetRoles pguid e.2;;
      m ← get; SendLfgUpdateStatus pguid (mkUpdateData LFG_UPDATETYPE_ADDED_TO_QUEUE dungeons (GetComment m pguid)) true
  | s =>
      let joinResult := match s with LFG_ROLECHECK_MISSING_ROLE | LFG_ROLECHECK_WRONG_ROLES => LFG_JOIN_ROLE_CHECK_FAILED | _ => LFG_JOIN_FAILED end in
      (if rc_leader rc =? pguid then send pguid (JoinResult pguid joinResult s ∅) else mret tt);;
      SendLfgUpdateStatus pguid (plain_update LFG_UPDATETYPE_ROLECHECK_FAILED) true;;
      RestoreState pguid
  end.

(** The check once [guid] has chosen [roles]; [guid] 0 gives up. *)
Definition choose_role (rc : LfgRoleCheck) (guid roles : Z) : LfgRoleCheck :=
  if guid =? 0 then rc_set_state LFG_ROLECHECK_ABORTED rc
  else if roles <? PLAYER_ROLE_TANK then rc_set_state LFG_ROLECHECK_NO_ROLE rc
  else
    let rc := rc_set_roles (<[guid := roles]> (rc_roles rc)) rc in
    if forallb (fun e => negb (e.2 =? PLAYER_ROLE_NONE)) (in_order (rc_roles rc))
    then rc_set_state (if (check_roles_map (rc_roles rc)).1 then LFG_ROLECHECK_FINISHED else LFG_ROLECHECK_WRONG_ROLES) rc
    else rc.

Definition UpdateRoleCheck (gguid guid roles : Z) : MP unit :=
  if gguid =? 0 then mret tt
  else
    m ← get;
    match RoleChecksStore m !! gguid with
    | None => mret tt
    | Some rc0 =>
        let sendRoleChosen := negb (bool_decide (rc_state rc0 = LFG_ROLECHECK_DEFAULT)) && negb (guid =? 0) in
        let rc := choose_role rc0 guid roles in
        modify (fun m => set_checks (<[gguid := rc]> (RoleChecksStore m)) m);;
        let dungeons := if negb (rc_rDungeonId rc =? 0) then {[ rc_rDungeonId rc ]} else rc_dungeons rc in
        forM (in_order (rc_roles rc)) (send_role rc sendRoleChosen guid roles dungeons);;
        if bool_decide (rc_state rc = LFG_ROLECHECK_FINISHED) then
          SetState gguid LFG_STATE_QUEUED;;
          at_queue gguid (AddQueueData gguid (w_time w) (rc_dungeons rc) (rc_roles rc));;
          modify (fun m => set_checks (delete gguid (RoleChecksStore m)) m)
        else if negb (bool_decide (rc_state rc = LFG_ROLECHECK_INITIALITING)) then
          RestoreState gguid;;
          modify (fun m => set_checks (delete gguid (RoleChecksStore m)) m)
        else mret tt
    end.

(** ** Leaving *)

(** The first proposal that a player is part of. *)
Definition proposal_of (m : LFGMgr) (pguid : Z) : option (Z * LfgProposal) :=
  head (filter (fun e => is_Some (p_players e.2 !! pguid)) (in_order (mg_proposals m))).
Definition deny (pguid : Z) (p : LfgProposal) : LfgProposal :=
  p_set_players (alter (fun pp => mkProposalPlayer (pp_role pp) LFG_ANSWER_DENY (pp_group pp)) pguid (p_players p)) (p_state p) p.

Definition LeaveLfg (guid : Z) : MP unit :=
  m ← get;
  let gguid := if IS_GROUP_GUID guid then guid else GetGroup m guid in
  match GetState m guid with
  | LFG_STATE_QUEUED =>
      if negb (gguid =? 0) then
        at_queue gguid (RemoveFromQueue gguid);;
        SetState gguid LFG_STATE_NONE;;
        m ← get;
        forM (zset (GetPlayers m gguid)) (fun p =>
          SetState p LFG_STATE_NONE;; SendLfgUpdateStatus p (plain_update LFG_UPDATETYPE_REMOVED_FROM_QUEUE) true)
      else
        at_queue guid (RemoveFromQueue guid);;
        SendLfgUpdateStatus guid (plain_update LFG_UPDATETYPE_REMOVED_FROM_QUEUE) false;;
        SetState guid LFG_STATE_NONE
  | LFG_STATE_ROLECHECK => if negb (gguid =? 0) then UpdateRoleCheck gguid 0 PLAYER_ROLE_NONE else mret tt
  | LFG_STATE_PROPOSAL =>
      let pguid := if gguid =? guid then GetLeader m gguid else guid in
      match proposal_of m pguid with
      | None => mret tt
      | Some (id, p) => RemoveProposal id (deny pguid p) LFG_UPDATETYPE_PROPOSAL_DECLINED
      end
  | LFG_STATE_NONE | LFG_STATE_RAIDBROWSER => mret tt
  | LFG_STATE_DUNGEON | LFG_STATE_FINISHED_DUNGEON | LFG_STATE_BOOT =>
      if negb (guid =? gguid) then SetState guid LFG_STATE_NONE else mret tt
  end.

(** ** Votes to kick *)

Definition InitBoot (gguid kicker victim : Z) (reason : list Z) : MP unit :=
  SetState gguid LFG_STATE_BOOT;;
  m ← get;
  let players := zset (GetPlayers m gguid) in
  forM players (fun guid => SetState guid LFG_STATE_BOOT);;
  let old := from_option pb_votes ∅ (BootsStore m !! gguid) in
  let votes := foldl (fun v guid => <[guid := LFG_ANSWER_PENDING]> v) old players in
  let boot := mkPlayerBoot (w_time w + LFG_TIME_BOOT) true (<[kicker := LFG_ANSWER_AGREE]> (<[victim := LFG_ANSWER_DENY]> votes)) victim reason in
  modify (fun m => set_boots (<[gguid := boot]> (BootsStore m)) m);;
  forM players (fun guid => send guid (BootProposalUpdate guid boot)).

(** ** The hooks of the groups *)

Definition run_hook (h : GroupHook) : MP unit :=
  if negb finder_enabled then mret tt
  else
    match h with
    | OnAddMember gguid leader guid =>
        (if leader =? guid then SetLeader gguid guid
         else
           m ← get;
           let gstate := GetState m gguid in
           (if bool_decide (GetState m guid = LFG_STATE_QUEUED) then LeaveLfg guid else mret tt);;
           (if bool_decide (gstate = LFG_STATE_QUEUED) then LeaveLfg gguid else mret tt));;
        SetGroup guid gguid;;
        AddPlayerToGroup gguid guid
    | OnRemoveMember gguid isLFG guid method kicker reason =>
        if isLFG && bool_decide (method = GROUP_REMOVEMETHOD_KICK) then InitBoot gguid kicker guid reason
        else
          m ← get;
          let state := GetState m gguid in
          if bool_decide (state = LFG_STATE_PROPOSAL) && bool_decide (method = GROUP_REMOVEMETHOD_DEFAULT) then
            SetGroup guid 0;;
            RemovePlayerFromGroup gguid guid;; mret tt
          else
            LeaveLfg guid;;
            SetGroup guid 0;;
            players ← RemovePlayerFromGroup gguid guid;
            (if w_online w guid then
               (if bool_decide (method = GROUP_REMOVEMETHOD_LEAVE) && bool_decide (state = LFG_STATE_DUNGEON) && (LFG_GROUP_KICK_VOTES_NEEDED <=? players)
                then emit (CastSpell guid LFG_SPELL_DUNGEON_DESERTER) else mret tt);;
               emit (UpdateStatus guid (plain_update LFG_UPDATETYPE_LEADER_UNK1) true);;
               if isLFG && w_in_dungeon_map w guid then emit (TeleportPlayer guid true) else mret tt
             else mret tt);;
            if isLFG && negb (bool_decide (state = LFG_STATE_FINISHED_DUNGEON)) then
              m ← get; send (GetLeader m gguid) (OfferContinue (GetLeader m gguid) (GetDungeon m gguid false))
            else mret tt
    | OnDisband gguid => RemoveGroupData gguid
    | OnChangeLeader gguid newLeaderGuid => SetLeader gguid newLeaderGuid
    | OnInviteMember gguid leader => if negb (leader =? 0) && (gguid =? 0) then LeaveLfg leader else mret tt
    end.
(** A call of the manager on the groups. *)
Definition do_call (c : GroupCall) : MP unit :=
  m ← get;
  modify (fun m => set_calls (calls m ++ [c]) m);;
  forM (w_hooks w (calls m) c) run_hook.

Definition vote_count (votes : gmap Z LfgAnswer) (a : LfgAnswer) : Z := len (filter (fun e => e.2 = a) (in_order votes)).
Definition UpdateBoot (guid : Z) (accept : bool) : MP unit :=
  m ← get;
  let gguid := GetGroup m guid in
  if gguid =? 0 then mret tt
  else
    match BootsStore m !! gguid with
    | None => mret tt
    | Some boot =>
        let before := default LFG_ANSWER_DENY (pb_votes boot !! guid) in
        let vote := if bool_decide (before = LFG_ANSWER_PENDING) then if accept then LFG_ANSWER_AGREE else LFG_ANSWER_DENY else before in
        let boot := pb_set_votes (<[guid := vote]> (pb_votes boot)) boot in
        modify (fun m => set_boots (<[gguid := boot]> (BootsStore m)) m);;
        if negb (bool_decide (before = LFG_ANSWER_PENDING)) then mret tt
        else
          let agreeNum := uint 8 (vote_count (pb_votes boot) LFG_ANSWER_AGREE) in
          let votesNum := uint 8 (vote_count (pb_votes boot) LFG_ANSWER_AGREE + vote_count (pb_votes boot) LFG_ANSWER_DENY) in
          if (agreeNum <? LFG_GROUP_KICK_VOTES_NEEDED) && (votesNum - agreeNum <? LFG_GROUP_KICK_VOTES_NEEDED) then mret tt
          else
            let boot := pb_set_inProgress false boot in
            modify (fun m => set_boots (<[gguid := boot]> (BootsStore m)) m);;
            forM (in_order (pb_votes boot)) (fun e =>
              if negb (e.1 =? pb_victim boot) then SetState e.1 LFG_STATE_DUNGEON;; send e.1 (BootProposalUpdate e.1 boot) else mret tt);;
            SetState gguid LFG_STATE_DUNGEON;;
            (if agreeNum =? LFG_GROUP_KICK_VOTES_NEEDED then
               (if w_group_exists w gguid then do_call (CallRemoveMember gguid (pb_victim boot) GROUP_REMOVEMETHOD_KICK_LFG) else mret tt);;
               DecreaseKicksLeft gguid
             else mret tt);;
            modify (fun m => set_boots (delete gguid (BootsStore m)) m)
    end.

(** ** A proposal that all accept *)

Definition join_player (d : LFGDungeonData) (p : LfgProposal) (grp : option Z) (pguid : Z) : MP (option Z) :=
  if negb (w_online w pguid) then mret grp
  else
    m ← get;
    let group := w_group w (calls m) pguid in
    match group with
    | Some g => if bool_decide (group = grp) then mret tt else do_call (CallRemoveMember g pguid GROUP_REMOVEMETHOD_DEFAULT)
    | None => mret tt
    end;;
    gguid ← match grp with
            | None => do_call (CallCreate pguid);; SetState (w_new_group w) LFG_STATE_PROPOSAL;; mret (w_new_group w)
            | Some g => (if bool_decide (group = grp) then mret tt else do_call (CallAddMember g pguid));; mret g
            end;
    emit (SetLfgRoles gguid pguid (from_option pp_role 0 (p_players p !! pguid)));;
    (if dg_type d =? LFG_TYPE_RANDOM then emit (CastSpell pguid LFG_SPELL_DUNGEON_COOLDOWN) else mret tt);;
    mret (Some gguid).
Fixpoint join_players (d : LFGDungeonData) (p : LfgProposal) (grp : option Z) (l : list Z) : MP (option Z) :=
  match l with
  | [] => mret grp
  | pguid :: l' => grp ← join_player d p grp pguid; join_players d p grp l'
  end.

Definition MakeNewGroup (p : LfgProposal) : MP unit :=
  m ← get;
  let guids := (in_order (p_players p)).*1 in
  let players := foldl (fun l g => if g =? p_leader p then g :: l else l ++ [g]) [] guids in
  let playersToTeleport := filter (fun g => p_isNew p = true \/ GetGroup m g <> p_group p) guids in
  match GetLFGDungeon (p_dungeonId p) with
  | None => throw AssertDungeon
  | Some d =>
      grp ← join_players d p (if negb (p_group p =? 0) && w_group_exists w (p_group p) then Some (p_group p) else None) players;
      match grp with
      | None => throw NullGroup
      | Some gguid =>
          emit (SetDungeonDifficulty gguid (dg_difficulty d));;
          SetDungeon gguid (Entry d);;
          SetState gguid LFG_STATE_DUNGEON;;
          m ← get;
          (if IS_GROUP_GUID gguid then emit (SaveLfgData gguid (GetDungeon m gguid true) (GetState m gguid)) else mret tt);;
          forM playersToTeleport (fun g => send g (TeleportPlayer g false));;
          emit (SendGroupUpdate gguid)
      end
  end.

(** The players in turn; [t] is the type that [updateData] has. *)
Definition found_group (qid : Z) (p : LfgProposal) (sendUpdate : bool) (t : LfgUpdateType) (e : Z * LfgProposalPlayer) : MP unit :=
  let pguid := e.1 in
  let gguid := pp_group e.2 in
  m ← get;
  match head (zset (GetSelectedDungeons m pguid)) with
  | None => throw NoSelection
  | Some dungeonId =>
      (if sendUpdate then send pguid (UpdateProposalMsg pguid p) else mret tt);;
      let waitTime := sint 32 (Z.quot (w_time w - GetJoinTime (queue_of m qid) (if negb (gguid =? 0) then gguid else pguid)) IN_MILLISECONDS) in
      SendLfgUpdateStatus pguid (plain_update t) false;;
      SendLfgUpdateStatus pguid (plain_update LFG_UPDATETYPE_REMOVED_FROM_QUEUE) true;;
      SendLfgUpdateStatus pguid (plain_update LFG_UPDATETYPE_REMOVED_FROM_QUEUE) false;;
      let role := Z.ldiff (GetRoles m pguid) PLAYER_ROLE_LEADER in
      in_queue qid (if role =? PLAYER_ROLE_DAMAGE then UpdateWaitTimeDps waitTime dungeonId
                    else if role =? PLAYER_ROLE_HEALER then UpdateWaitTimeHealer waitTime dungeonId
                    else if role =? PLAYER_ROLE_TANK then UpdateWaitTimeTank waitTime dungeonId
                    else UpdateWaitTimeAvg waitTime dungeonId);;
      SetState pguid LFG_STATE_DUNGEON
  end.
Fixpoint found_groups (qid : Z) (p : LfgProposal) (sendUpdate : bool) (t : LfgUpdateType) (l : list (Z * LfgProposalPlayer)) : MP unit :=
  match l with
  | [] => mret tt
  | e :: l' => found_group qid p sendUpdate t e;; found_groups qid p sendUpdate LFG_UPDATETYPE_REMOVED_FROM_QUEUE l'
  end.

Definition store_proposal (id : Z) (p : LfgProposal) : MP unit :=
  modify (fun m => set_queues (QueuesStore m) (mg_proposalId m) (<[id := p]> (mg_proposals m)) m).
Definition all_agree (players : gmap Z LfgProposalPlayer) : bool :=
  forallb (fun e => bool_decide (pp_accept e.2 = LFG_ANSWER_AGREE)) (in_order players).

Definition UpdateProposal (proposalId guid : Z) (accept : bool) : MP unit :=
  m ← get;
  match mg_proposals m !! proposalId with
  | None => mret tt
  | Some p =>
      match p_players p !! guid with
      | None => mret tt
      | Some pp =>
          let answer := if accept then LFG_ANSWER_AGREE else LFG_ANSWER_DENY in
          let p := p_set_players (<[guid := mkProposalPlayer (pp_role pp) answer (pp_group pp)]> (p_players p)) (p_state p) p in
          store_proposal proposalId p;;
          if negb accept then RemoveProposal proposalId p LFG_UPDATETYPE_PROPOSAL_DECLINED
          else if negb (all_agree (p_players p)) then
            forM (in_order (p_players p)) (fun e => send e.1 (UpdateProposalMsg e.1 p))
          else
            let sendUpdate := negb (bool_decide (p_state p = LFG_PROPOSAL_SUCCESS)) in
            let p := p_set_players (p_players p) LFG_PROPOSAL_SUCCESS p in
            store_proposal proposalId p;;
            m ← get;
            let qid := GetQueueId m guid in
            found_groups qid p sendUpdate LFG_UPDATETYPE_GROUP_FOUND (in_order (p_players p));;
            in_queue qid (forM (p_queues p) RemoveFromQueue);;
            MakeNewGroup p;;
            modify (fun m => set_queues (QueuesStore m) (mg_proposalId m) (delete proposalId (mg_proposals m)) m)
      end
  end.

(** ** Joining *)

(** The members of a group: the first reason why they may not join, how many of
    them are there, and who. *)
Fixpoint check_members (l : list Z) (result : LfgJoinResult) (memberCount : Z) (players : gset Z) : LfgJoinResult * Z * gset Z :=
  match l with
  | [] => (result, memberCount, players)
  | plrg :: l' =>
      if bool_decide (result = LFG_JOIN_OK) then
        let result := if negb (w_permission w plrg) then LFG_JOIN_INTERNAL_ERROR else result in
        let result := if w_aura w plrg LFG_SPELL_DUNGEON_DESERTER then LFG_JOIN_PARTY_DESERTER
                      else if w_aura w plrg LFG_SPELL_DUNGEON_COOLDOWN then LFG_JOIN_PARTY_RANDOM_COOLDOWN
                      else if w_battleground w plrg then LFG_JOIN_USING_BG_SYSTEM
                      else result in
        check_members l' result (uint 8 (memberCount + 1)) ({[plrg]} ∪ players)
      else (result, memberCount, players)
  end.
Definition check_joiner (guid : Z) (grp : option LfgParty) (dungeons : gset Z) : LfgJoinResult * gset Z :=
  if negb (w_permission w guid) then (LFG_JOIN_NOT_MEET_REQS, ∅)
  else if w_battleground w guid then (LFG_JOIN_USING_BG_SYSTEM, ∅)
  else if w_aura w guid LFG_SPELL_DUNGEON_DESERTER then (LFG_JOIN_DESERTER, ∅)
  else if w_aura w guid LFG_SPELL_DUNGEON_COOLDOWN then (LFG_JOIN_RANDOM_COOLDOWN, ∅)
  else if bool_decide (dungeons = ∅) then (LFG_JOIN_NOT_MEET_REQS, ∅)
  else
    match grp with
    | None => (LFG_JOIN_OK, {[guid]})
    | Some g =>
        if MAXGROUPSIZE <? pa_count g then (LFG_JOIN_TOO_MUCH_MEMBERS, ∅)
        else
          let '(result, memberCount, players) := check_members (pa_members g) LFG_JOIN_OK 0 ∅ in
          (if bool_decide (result = LFG_JOIN_OK) && negb (memberCount =? pa_count g) then LFG_JOIN_DISCONNECTED else result, players)
    end.

(** The kinds of the dungeons: the result, whether they are raids, and the random one. *)
Fixpoint check_dungeons (l : list Z) (dungeons : gset Z) (result : LfgJoinResult) (isDungeon isRaid : bool) (rDungeonId : Z)
  : LfgJoinResult * bool * Z :=
  match l with
  | [] => (result, isRaid, rDungeonId)
  | d :: l' =>
      if bool_decide (result = LFG_JOIN_OK) then
        let type := GetDungeonType d in
        if (type =? LFG_TYPE_RANDOM) || (type =? LFG_TYPE_HEROIC) || (type =? LFG_TYPE_DUNGEON) then
          let random := type =? LFG_TYPE_RANDOM in
          let many := (1 <? Z.of_nat (size dungeons)) in
          let result := if random && many then LFG_JOIN_DUNGEON_INVALID else result in
          let rDungeonId := if random && negb many then default 0 (head (zset dungeons)) else rDungeonId in
          check_dungeons l' dungeons (if isRaid then LFG_JOIN_MIXED_RAID_DUNGEON else result) true isRaid rDungeonId
        else if type =? LFG_TYPE_RAID then
          check_dungeons l' dungeons (if isDungeon then LFG_JOIN_MIXED_RAID_DUNGEON else result) isDungeon true rDungeonId
        else check_dungeons l' dungeons LFG_JOIN_DUNGEON_INVALID isDungeon isRaid rDungeonId
      else (result, isRaid, rDungeonId)
  end.

(** All the checks: the result, the locks, the dungeons, whether they are raids, and
    the random one. *)
Definition check_join (m : LFGMgr) (guid : Z) (grp : option LfgParty) (dungeons : gset Z)
  : LfgJoinResult * gmap Z (gmap Z Z) * gset Z * bool * Z :=
  let '(result, players) := check_joiner guid grp dungeons in
  if bool_decide (result = LFG_JOIN_OK) then
    let '(result, isRaid, rDungeonId) := check_dungeons (zset dungeons) dungeons LFG_JOIN_OK false false 0 in
    if bool_decide (result = LFG_JOIN_OK) then
      let dungeons := if negb (rDungeonId =? 0) then GetDungeonsByRandom rDungeonId else dungeons in
      let '(dungeons, lockmap) := GetCompatibleDungeons m dungeons players in
      if bool_decide (dungeons = ∅)
      then (match grp with Some _ => LFG_JOIN_INTERNAL_ERROR | None => LFG_JOIN_NOT_MEET_REQS end, lockmap, dungeons, isRaid, rDungeonId)
      else (LFG_JOIN_OK, lockmap, dungeons, isRaid, rDungeonId)
    else (result, ∅, dungeons, isRaid, rDungeonId)
  else (result, ∅, dungeons, false, 0).

Definition begin_role_check (g : LfgParty) (isContinue : bool) (guid roles : Z) (dungeons : gset Z) (rDungeonId : Z) (comment : list Z) : MP unit :=
  let gguid := pa_guid g in
  m ← get;
  let old := from_option rc_roles ∅ (RoleChecksStore m !! gguid) in
  let rc := mkRoleCheck (w_time w + LFG_TIME_ROLECHECK) (foldl (fun r p => <[p := 0]> r) old (pa_members g)) LFG_ROLECHECK_INITIALITING
              dungeons rDungeonId guid in
  modify (fun m => set_checks (<[gguid := rc]> (RoleChecksStore m)) m);;
  let dungeons := if negb (rDungeonId =? 0) then {[rDungeonId]} else dungeons in
  SetState gguid LFG_STATE_ROLECHECK;;
  forM (pa_members g) (fun pguid =>
    emit (UpdateStatus pguid (mkUpdateData LFG_UPDATETYPE_JOIN_QUEUE dungeons comment) true);;
    SetState pguid LFG_STATE_ROLECHECK;;
    if isContinue then mret tt else SetSelectedDungeons pguid dungeons);;
  UpdateRoleCheck gguid guid roles.

Definition JoinLfg (guid : Z) (grp : option LfgParty) (roles : Z) (dungeons : gset Z) (comment : list Z) : MP unit :=
  if bool_decide (dungeons = ∅) then mret tt
  else
    m ← get;
    let gguid := from_option pa_guid guid grp in
    let isContinue := from_option pa_isLFG false grp && negb (bool_decide (GetState m gguid = LFG_STATE_FINISHED_DUNGEON)) in
    let dungeons := if isContinue then {[GetDungeon m gguid true]} else dungeons in
    (if bool_decide (GetState m gguid = LFG_STATE_QUEUED) then at_queue gguid (RemoveFromQueue gguid) else mret tt);;
    m ← get;
    let '(result, lockmap, dungeons, isRaid, rDungeonId) := check_join m guid grp dungeons in
    if negb (bool_decide (result = LFG_JOIN_OK)) then
      emit (JoinResult guid result LFG_ROLECHECK_DEFAULT (if bool_decide (dungeons = ∅) then lockmap else ∅))
    else
      SetComment guid comment;;
      if isRaid then mret tt
      else
        match grp with
        | Some g => begin_role_check g isContinue guid roles dungeons rDungeonId comment
        | None =>
            at_queue guid (AddQueueData guid (w_time w) dungeons {[guid := roles]});;
            let dungeons := if negb (rDungeonId =? 0) then {[rDungeonId]} else dungeons in
            SetSelectedDungeons guid dungeons;;
            emit (JoinResult guid LFG_JOIN_OK LFG_ROLECHECK_DEFAULT ∅);;
            emit (UpdateStatus guid (mkUpdateData LFG_UPDATETYPE_JOIN_QUEUE dungeons comment) false);;
            SetState gguid LFG_STATE_QUEUED;;
            SetRoles guid roles
        end.

(** ** Other operations *)

Definition SetupGroupMember (guid gguid : Z) : MP unit :=
  m ← get;
  SetSelectedDungeons guid {[GetDungeon m gguid true]};;
  SetState guid (GetState m gguid);;
  SetGroup guid gguid;;
  AddPlayerToGroup gguid guid.

(** A row of the groups table: the leader's low guid, the dungeon and the state. *)
Definition LoadFromDB (guid leader dungeon state : Z) : MP unit :=
  if negb (IS_GROUP_GUID guid) then mret tt
  else
    SetLeader guid leader;;
    if (dungeon =? 0) || (state =? 0) then mret tt
    else
      SetDungeon guid dungeon;;
      if state =? 5 then SetState guid LFG_STATE_DUNGEON
      else if state =? 6 then SetState guid LFG_STATE_FINISHED_DUNGEON
      else mret tt.

(** Without the reward, which is the players' (their map, level and quests). *)
Definition FinishDungeon (gguid dungeonId : Z) : MP unit :=
  m ← get;
  if negb (GetDungeon m gguid true =? dungeonId) then mret tt
  else if bool_decide (GetState m gguid = LFG_STATE_FINISHED_DUNGEON) then mret tt
  else
    SetState gguid LFG_STATE_FINISHED_DUNGEON;;
    m ← get;
    forM (zset (GetPlayers m gguid)) (fun guid =>
      m ← get;
      if bool_decide (GetState m guid = LFG_STATE_FINISHED_DUNGEON) then mret tt else SetState guid LFG_STATE_FINISHED_DUNGEON).

(** ** The update *)

Definition expire_check (e : Z * LfgRoleCheck) : MP unit :=
  let rc := rc_set_state LFG_ROLECHECK_MISSING_ROLE e.2 in
  if w_time w <? rc_cancelTime rc then mret tt
  else
    forM (in_order (rc_roles rc)) (fun r =>
      RestoreState r.1;;
      send r.1 (RoleCheckUpdate r.1 rc);;
      if r.1 =? rc_leader rc then send r.1 (JoinResult r.1 LFG_JOIN_ROLE_CHECK_FAILED LFG_ROLECHECK_MISSING_ROLE ∅) else mret tt);;
    RestoreState e.1;;
    modify (fun m => set_checks (delete e.1 (RoleChecksStore m)) m).
Definition expire_proposal (e : Z * LfgProposal) : MP unit :=
  if p_cancelTime e.2 <? w_time w then RemoveProposal e.1 e.2 LFG_UPDATETYPE_PROPOSAL_FAILED else mret tt.
Definition expire_boot (e : Z * LfgPlayerBoot) : MP unit :=
  if pb_cancelTime e.2 <? w_time w then
    let boot := pb_set_inProgress false e.2 in
    forM (in_order (pb_votes boot)) (fun v =>
      (if negb (v.1 =? pb_victim boot) then send v.1 (BootProposalUpdate v.1 boot) else mret tt);;
      SetState v.1 LFG_STATE_DUNGEON);;
    SetState e.1 LFG_STATE_DUNGEON;;
    modify (fun m => set_boots (delete e.1 (BootsStore m)) m)
  else mret tt.

Definition announce_player (p : LfgProposal) (e : Z * LfgProposalPlayer) : MP unit :=
  let guid := e.1 in
  SetState guid LFG_STATE_PROPOSAL;;
  m ← get;
  let gguid := GetGroup m guid in
  (if negb (gguid =? 0) then
     SetState gguid LFG_STATE_PROPOSAL;;
     SendLfgUpdateStatus guid (own_update LFG_UPDATETYPE_PROPOSAL_BEGIN m guid) true
   else SendLfgUpdateStatus guid (own_update LFG_UPDATETYPE_PROPOSAL_BEGIN m guid) false);;
  send guid (UpdateProposalMsg guid p).
(** A new proposal is never [SUCCESS]; the source would go on from an erased entry. *)
Definition announce (e : Z * LfgProposal) : MP unit :=
  forM (in_order (p_players e.2)) (announce_player e.2);;
  if bool_decide (p_state e.2 = LFG_PROPOSAL_SUCCESS) then throw ErasedProposal else mret tt.

Definition find_groups (id : Z) : MP unit := m ← get; in_queue id (FindGroups (view m));; mret tt.
Definition queue_timers (id : Z) : MP unit :=
  m ← get;
  l ← in_queue id (UpdateQueueTimers id (w_time w));
  forM l (fun e => send e.1 (QueueStatus e.1 e.2)).

Definition Update (diff : Z) : MP unit :=
  if negb finder_enabled then mret tt
  else
    m ← get; forM (in_order (RoleChecksStore m)) expire_check;;
    m ← get; forM (in_order (mg_proposals m)) expire_proposal;;
    m ← get; forM (in_order (BootsStore m)) expire_boot;;
    m ← get;
    let lastProposalId := mg_proposalId m in
    forM (in_order (QueuesStore m)).*1 find_groups;;
    m ← get;
    (if negb (lastProposalId =? mg_proposalId m) && bool_decide (is_Some (mg_proposals m !! mg_proposalId m))
     then forM (filter (fun e => mg_proposalId m <= e.1) (in_order (mg_proposals m))) announce
     else mret tt);;
    m ← get;
    if LFG_QUEUEUPDATE_INTERVAL <? m_QueueTimer m then
      modify (set_timer 0);;
      m ← get; forM (in_order (QueuesStore m)).*1 queue_timers
    else modify (fun m => set_timer (uint 32 (m_QueueTimer m + diff)) m).

(** ** The client's packets and the server's calls *)

(** The group of a player and its leader. *)
Record LfgGroupView := mkGroupView { gv_party : LfgParty; gv_leader : Z }.
Definition HandleLfgJoinOpcode (guid : Z) (group : option LfgGroupView) (roles : Z) (dungeons : list Z) (comment : list Z) : MP unit :=
  let refused := match group with
                 | Some g => negb (gv_leader g =? guid) && ((pa_count (gv_party g) =? MAXGROUPSIZE) || negb (pa_isLFG (gv_party g)))
                 | None => false
                 end in
  if negb finder_enabled || refused then mret tt
  else if bool_decide (dungeons = []) then mret tt
  else JoinLfg guid (gv_party <$> group) (uint 8 roles) (list_to_set ((fun d => Z.land d 0x00FFFFFF) <$> dungeons)) comment.
Definition HandleLfgLeaveOpcode (guid : Z) (group : option LfgGroupView) : MP unit :=
  match group with
  | None => LeaveLfg guid
  | Some g => if gv_leader g =? guid then LeaveLfg (pa_guid (gv_party g)) else mret tt
  end.
Definition HandleLfgSetRolesOpcode (guid : Z) (group : option LfgGroupView) (roles : Z) : MP unit :=
  match group with
  | None => mret tt
  | Some g => UpdateRoleCheck (pa_guid (gv_party g)) guid (uint 8 roles)
  end.
Definition OnLogout (guid : Z) (group : option LfgGroupView) : MP unit :=
  if negb finder_enabled then mret tt
  else match group with None => LeaveLfg guid | Some _ => mret tt end.
Definition OnLogin (guid : Z) (group : option LfgGroupView) (team : Z) (lock : gmap Z Z) : MP unit :=
  if negb finder_enabled then mret tt
  else
    m ← get;
    match group with
    | Some g => if GetGroup m guid =? pa_guid (gv_party g) then mret tt else SetupGroupMember guid (pa_guid (gv_party g))
    | None => mret tt
    end;;
    SetLockedDungeons guid lock;;
    SetTeam guid team.

Inductive LfgCommand :=
| CmdJoin (guid : Z) (group : option LfgGroupView) (roles : Z) (dungeons : list Z) (comment : list Z)
| CmdLeave (guid : Z) (group : option LfgGroupView)
| CmdProposalResult (guid proposalId : Z) (accept : bool)
| CmdSetRoles (guid : Z) (group : option LfgGroupView) (roles : Z)
| CmdSetComment (guid : Z) (comment : list Z)
| CmdBootVote (guid : Z) (agree : bool)
| CmdLogin (guid : Z) (group : option LfgGroupView) (team : Z) (lock : gmap Z Z)
| CmdLogout (guid : Z) (group : option LfgGroupView)
| CmdHook (h : GroupHook)
| CmdFinish (gguid dungeonId : Z)
| CmdLoadGroup (guid leader dungeon state : Z)
| CmdUpdate (diff : Z).
Definition run_command (c : LfgCommand) : MP unit :=
  modify (set_calls []);;
  match c with
  | CmdJoin guid group roles dungeons comment => HandleLfgJoinOpcode guid group roles dungeons comment
  | CmdLeave guid group => HandleLfgLeaveOpcode guid group
  | CmdProposalResult guid proposalId accept => UpdateProposal proposalId guid accept
  | CmdSetRoles guid group roles => HandleLfgSetRolesOpcode guid group roles
  | CmdSetComment guid comment => SetComment guid comment
  | CmdBootVote guid agree => UpdateBoot guid agree
  | CmdLogin guid group team lock => OnLogin guid group team lock
  | CmdLogout guid group => OnLogout guid group
  | CmdHook h => run_hook h
  | CmdFinish gguid dungeonId => FinishDungeon gguid dungeonId
  | CmdLoadGroup guid leader dungeon state => LoadFromDB guid leader dungeon state
  | CmdUpdate diff => Update diff
  end.
End Manager.

Definition LFGMgr_new : LFGMgr := mkLFGMgr ∅ ∅ ∅ ∅ ∅ 1 ∅ 0 [] [].
