(* ===== verification/LfgMgrProofs.v ===== *)
(** * The manager of the dungeon finder: its invariant and what it promises (model in LfgMgr.v)

    Whatever players, groups and time do, the queues stay in order, every proposal
    is one of five players with the roles a group needs, and no operation fails but
    for one read of an empty set of dungeons. *)

From S2P Require Import Prelude.
From S2P Require Import LfgRoles.
From S2P Require Import LfgQueue.
From S2P Require Import LfgQueueProofs.
From S2P Require Import Group.
From S2P Require Import LfgMgr.
From stdpp Require Import list sorting.
Local Open Scope Z_scope.
#[local] Set Warnings "-clear-no-such-hyp".

Definition no_fault (e : LfgError) : Prop := False.
Abbreviation mwp := (Prelude.wp no_fault).
Abbreviation qwp := (Prelude.wp no_error).

(** ** The invariant *)

Section Known.
(** The dungeons that there are. *)
Context (known : Z -> Prop).
Definition all_known (s : gset Z) : Prop := forall d, d ∈ s -> known d.

(** A proposal of five players in the roles a group needs. *)
Record formed (p : LfgProposal) : Prop := {
  fo_size : Z.of_nat (size (p_players p)) = MAXGROUPSIZE;
  fo_roles : forall role, role ∈ the_roles -> count_role role (in_order (pp_role <$> p_players p)) = needed role;
  fo_leader : is_Some (p_players p !! p_leader p);
  fo_dungeon : known (p_dungeonId p)
}.
Record queue_good (q : LFGQueue) : Prop := {
  qg_entries : queue_ok q;
  qg_known : forall g wt, store_of q !! g = Some wt -> all_known wt.2
}.
Record check_ok (rc : LfgRoleCheck) : Prop := {
  ck_state : rc_state rc <> LFG_ROLECHECK_FINISHED;
  ck_bytes : forall p r, rc_roles rc !! p = Some r -> 0 <= r < 256;
  ck_some : rc_dungeons rc <> ∅;
  ck_known : all_known (rc_dungeons rc)
}.
(** Role checks and proposals are open between operations; [ex] are the check and the
    proposal that an operation works on. *)
Record mgr_ok (ex : option Z * option Z) (m : LFGMgr) : Prop := {
  mo_queues : forall id q, QueuesStore m !! id = Some q -> queue_good q;
  mo_proposals : forall id p, mg_proposals m !! id = Some p -> formed p;
  mo_open : forall id p, ex.2 <> Some id -> mg_proposals m !! id = Some p -> open p;
  mo_checks : forall g rc, ex.1 <> Some g -> RoleChecksStore m !! g = Some rc -> check_ok rc
}.

Lemma mgr_ok_new : mgr_ok (None, None) LFGMgr_new.
Proof. split; [intros ? ? H|intros ? ? H|intros ? ? _ H..]; cbn in H; by rewrite lookup_empty in H. Qed.

(** ** Operations that keep it *)

Definition good {A} (ex : option Z * option Z) (p : MP A) : Prop := forall m, mgr_ok ex m -> mwp p m (fun _ => mgr_ok ex).

Lemma good_ret ex {A} (a : A) : good ex (mret a).
Proof. by intros m Hm. Qed.
Lemma good_bind ex {A B} (p : MP A) (k : A -> MP B) : good ex p -> (forall a, good ex (k a)) -> good ex (p ≫= k).
Proof. intros Hp Hk m Hm. apply wp_bind. eapply wp_mono; [by apply Hp|]. intros a m' Hm'. by apply Hk. Qed.
Lemma good_get ex {B} (k : LFGMgr -> MP B) : (forall m, good ex (k m)) -> good ex (get ≫= k).
Proof. intros Hk m Hm. apply wp_get. by apply Hk. Qed.
Lemma good_modify ex f : (forall m, mgr_ok ex m -> mgr_ok ex (f m)) -> good ex (modify f).
Proof. intros Hf m Hm. by apply Hf. Qed.
Lemma good_forM ex {A} (l : list A) (f : A -> MP unit) : (forall x, good ex (f x)) -> good ex (forM l f).
Proof. intros Hf. induction l as [|x l IH]; cbn [forM]; [apply good_ret|by apply good_bind]. Qed.
Lemma good_if ex {A} (b : bool) (p q : MP A) : good ex p -> good ex q -> good ex (if b then p else q).
Proof. by destruct b. Qed.

(** A change of players, groups, votes, timer, calls or messages. *)
Lemma good_other ex f : (forall m, QueuesStore (f m) = QueuesStore m /\ mg_proposals (f m) = mg_proposals m /\ RoleChecksStore (f m) = RoleChecksStore m) ->
  good ex (modify f).
Proof. intros Hf. apply good_modify. intros m [Hq Hp Ho Hc]. destruct (Hf m) as (E1 & E2 & E3). split; rewrite ?E1, ?E2, ?E3; done. Qed.

Create HintDb lfg discriminated.
Hint Resolve good_ret good_if good_forM : lfg.
Hint Resolve good_bind | 5 : lfg.
Hint Resolve good_get | 4 : lfg.
Hint Extern 1 (forall _, good _ _) => intros : lfg.
Hint Extern 2 (good _ (modify _)) => apply good_other; intros; done : lfg.
Hint Extern 2 (good _ (match ?x with _ => _ end)) => destruct x : lfg.
Ltac lfg := cbv zeta; eauto 60 with lfg.

(** Where an operation runs, prove it [good]. *)
Ltac by_good := match goal with H : mgr_ok ?ex ?m |- Prelude.wp _ ?p ?m _ =>
  let G := fresh in assert (good ex p) as G by lfg; by apply G end.

Lemma good_on_player ex g f : good ex (on_player g f).
Proof. unfold on_player. lfg. Qed.
Lemma good_on_group ex g f : good ex (on_group g f).
Proof. unfold on_group. lfg. Qed.
Lemma good_emit ex msg : good ex (emit msg).
Proof. unfold emit. lfg. Qed.
Hint Resolve good_on_player good_on_group good_emit : lfg.
(** The setters are these. *)
Hint Extern 4 (good _ _) => progress unfold SetState, RestoreState, SetDungeon, SetRoles, SetComment, SetSelectedDungeons, SetLockedDungeons, SetGroup,
  SetLeader, SetTeam, AddPlayerToGroup, RemovePlayerFromGroup, DecreaseKicksLeft, send, SendLfgUpdateStatus : lfg.

(** ** Queues *)

Lemma good_store_empty : queue_good empty_queue.
Proof. split; intros g w H; by vm_compute in H. Qed.
Lemma queue_of_good ex m id : mgr_ok ex m -> queue_good (queue_of m id).
Proof.
  intros Hm. unfold queue_of. destruct (QueuesStore m !! id) as [q|] eqn:Eq; [by apply (mo_queues _ _ Hm id q) in Eq as []|].
  destruct good_store_empty. by split.
Qed.

(** An operation of a queue, if it keeps entries and proposals in order. *)
Lemma good_in_queue ex {A} id (p : QP A) m : mgr_ok ex m ->
  qwp p (queue_of m id) (fun _ q => queue_good q /\ forall i pr, ProposalsStore q !! i = Some pr -> mg_proposals m !! i = Some pr \/ formed pr /\ open pr) ->
  mwp (in_queue id p) m (fun _ => mgr_ok ex).
Proof.
  intros Hm Hp. unfold in_queue, Prelude.wp in *. destruct (p (queue_of m id)) as [[a|e] q]; [|done]. destruct Hp as [[Hq Hk] Hpr].
  destruct Hm as [H1 H2 H3 H4]. split; cbn; [|intros i pr [H|[H _]]%Hpr; [by apply (H2 i)|done]|intros i pr Hi [H|[_ H]]%Hpr; [by apply (H3 i)|done]|done].
  intros id' q' [[<- <-]|[_ H]]%lookup_insert_Some; [by split|by apply (H1 id')].
Qed.

(** Operations that leave the proposals alone. *)
Definition mild {A} (p : QP A) : Prop :=
  forall q, queue_good q -> qwp p q (fun _ q' => queue_good q' /\ ProposalsStore q' = ProposalsStore q).
Lemma good_mild ex {A} id (p : QP A) : mild p -> good ex (in_queue id p).
Proof.
  intros Hp m Hm. apply (good_in_queue ex); [done|]. eapply wp_mono; [by eapply Hp, queue_of_good|]. intros a q [Hq E]. split; [done|].
  intros i pr. rewrite E. by left.
Qed.
Lemma mild_forM {A} (l : list A) f : (forall x, mild (f x)) -> mild (forM l f).
Proof.
  intros Hf. induction l as [|x l IH]; intros q Hq; cbn [forM]; [by apply wp_ret|]. apply wp_bind. eapply wp_mono; [by apply Hf|].
  intros a q1 [Hq1 E1]. eapply wp_mono; [by apply IH|]. intros b q2 [Hq2 E2]. split; [done|by rewrite E2].
Qed.
Lemma mild_bind {A B} (p : QP A) (k : A -> QP B) : mild p -> (forall a, mild (k a)) -> mild (p ≫= k).
Proof.
  intros Hp Hk q Hq. apply wp_bind. eapply wp_mono; [by apply Hp|]. intros a q1 [Hq1 E1]. eapply wp_mono; [by apply Hk|].
  intros b q2 [Hq2 E2]. split; [done|by rewrite E2].
Qed.

Lemma queue_good_subset q q' : store_of q' ⊆ store_of q -> queue_good q -> queue_good q'.
Proof.
  intros Hs [H1 H2]. split; intros g w Hw; pose proof (lookup_weaken _ _ _ _ Hw Hs) as Hw'; [by apply (H1 g)|by apply (H2 g)].
Qed.
Lemma mild_RemoveFromQueue g : mild (RemoveFromQueue g).
Proof.
  intros q Hq. destruct (RemoveFromQueue_store g q) as (q' & Er & Hs & Hp & _). eapply wp_ok; [exact Er|]. split; [|done].
  apply (queue_good_subset q); [|done]. rewrite Hs. apply delete_subseteq.
Qed.
Lemma mild_AddToQueue g : mild (AddToQueue g).
Proof.
  intros q Hq. apply wp_get. destruct (QueueDataStore q !! g); [|by apply wp_ret]. split; [|done]. by apply (queue_good_subset q).
Qed.
Lemma mild_waits f : (forall q, store_of (f q) = store_of q /\ ProposalsStore (f q) = ProposalsStore q) -> mild (modify f).
Proof. intros Hf q Hq. destruct (Hf q) as [E1 E2]. split; [|done]. apply (queue_good_subset q); [by rewrite E1|done]. Qed.
Lemma mild_AddQueueData g t ds rs : entry_ok (rs, ds) -> all_known ds -> mild (AddQueueData g t ds rs).
Proof.
  intros He Hk. apply mild_bind; [|intros _; apply mild_AddToQueue]. intros q [H1 H2]. split; [|done].
  assert (forall g' w, store_of (set_data (<[g := LfgQueueData_new t ds rs]> (QueueDataStore q)) q) !! g' = Some w ->
    store_of q !! g' = Some w \/ w = (rs, ds)) as H.
  { intros g' w. unfold store_of. cbn. rewrite fmap_insert. intros [[_ <-]|[_ H]]%lookup_insert_Some; [by right|by left]. }
  split; intros g' w [Hw| ->]%H; [by apply (H1 g')|done|by apply (H2 g')|done].
Qed.

Definition same_store (q q' : LFGQueue) : Prop := store_of q' = store_of q /\ ProposalsStore q' = ProposalsStore q.
Lemma wp_find_best q g : qwp (FindBestCompatibleInQueue g) q (fun _ => same_store q).
Proof.
  split; [|done]. apply map_eq. intros x. unfold store_of. cbn. rewrite !lookup_fmap. destruct (decide (x = g)) as [->|Hne].
  - rewrite lookup_alter_eq. destruct (QueueDataStore q !! g); [|done]. cbn. by rewrite wants_find_best.
  - by rewrite lookup_alter_ne.
Qed.
Lemma update_timer_ok id time g q : queue_good q -> is_Some (store_of q !! g) -> qwp (update_timer id time g) q (fun _ => same_store q).
Proof.
  intros Hq [w Hw]. unfold update_timer. apply wp_get. unfold store_of in Hw. rewrite lookup_fmap in Hw.
  destruct (QueueDataStore q !! g) as [d|] eqn:Hd; [|done]. injection Hw as <-.
  destruct (head (merge_sort Z.le (elements (dungeons d)))) as [dg|] eqn:Eh.
  - apply wp_modify, wp_get, wp_bind. set (q1 := set_waits _ _ _ _ q). eapply wp_mono with (Q := fun _ => same_store q1).
    { case_bool_decide; [apply wp_find_best|by apply wp_ret]. }
    intros a q2 H2. apply wp_get, wp_ret. exact H2.
  - exfalso. apply (en_dungeons (wants d)); [apply (qg_entries _ Hq g); unfold store_of; by rewrite lookup_fmap, Hd|].
    cbn. pose proof (merge_sort_Permutation Z.le (elements (dungeons d))) as Hp. destruct (merge_sort _ _); [|done].
    apply leibniz_equiv, elements_empty_inv. by apply Permutation_nil.
Qed.
Lemma mild_UpdateQueueTimers id time : mild (UpdateQueueTimers id time).
Proof.
  intros q Hq. unfold UpdateQueueTimers. apply wp_get.
  assert (forall l q1, same_store q q1 -> (forall g, g ∈ l -> is_Some (store_of q !! g)) -> qwp (update_timers id time l) q1 (fun _ => same_store q)) as H.
  { induction l as [|g l IH]; intros q1 [E1 E2] Hl; cbn [update_timers]; [by apply wp_ret|]. apply wp_bind.
    eapply wp_mono; [apply update_timer_ok|].
    - by apply (queue_good_subset q); [rewrite E1|].
    - rewrite E1. apply Hl. by left.
    - intros a q2 [E3 E4]. apply wp_bind. eapply wp_mono; [apply IH|].
      + split; [by rewrite E3|by rewrite E4].
      + intros x Hx. apply Hl. by right.
      + intros b q3 H3. by apply wp_ret. }
  eapply wp_mono; [apply H; [done|]|].
  - intros g Hg. apply list_elem_of_fmap in Hg as ([g' d] & -> & Hd%in_order_spec). unfold store_of. cbn. rewrite lookup_fmap, Hd. by eexists.
  - intros a q1 [E1 E2]. split; [|done]. by apply (queue_good_subset q); [rewrite E1|].
Qed.

(** ** Worlds *)

(** What the manager relies on: the random choice of a dungeon is one of the set,
    and the tables name known dungeons. *)
Record world_ok (w : LfgWorld) : Prop := {
  wo_pick : forall id s, s <> ∅ -> w_pick w id s ∈ s;
  wo_known : forall d, known d <-> is_Some (LfgDungeonStore w d);
  wo_cached : forall g, all_known (CachedDungeonMapStore w g)
}.

Section World.
Context (w : LfgWorld).
Hypothesis w_ok : world_ok w.

Lemma good_find_groups ex id : good ex (find_groups w id).
Proof.
  apply good_get. intros m0 m Hm. apply wp_bind. eapply wp_mono with (Q := fun _ => mgr_ok ex); [|intros a m' Hm'; by apply wp_ret].
  apply (good_in_queue ex); [done|]. pose proof (queue_of_good ex m id Hm) as [Hq Hk].
  destruct (FindGroups_proposals (view w m0) (queue_of m id) (wo_pick w w_ok) Hq) as (n & q' & Er & _ & Es & Hp).
  eapply wp_ok; [exact Er|]. split.
  - split; intros g wt; rewrite Es; [by apply Hq|by apply Hk].
  - intros i pr [Hold|Hnew]%Hp; [by left|right]. destruct Hnew as [P1 P2 P3 P4 P5 P6 P7 P8]. split; [|done]. split; try done.
    assert (p_players pr <> ∅) as Hne by (intros E; rewrite E, map_size_empty in P1; done).
    apply map_choose in Hne as (x & pp & Hx). destruct (P2 x pp Hx) as (g & wt & r & Hg & Hw & _).
    destruct (P4 g Hg) as (wt' & Hw' & Hd). by apply (Hk g wt').
Qed.

(** ** Proposals *)

Lemma good_notify ex p r t e : good ex (notify_removed w p r t e).
Proof. unfold notify_removed. lfg. Qed.
Hint Resolve good_notify : lfg.

Lemma mgr_ok_except x id m : mgr_ok (x, None) m -> mgr_ok (x, Some id) m.
Proof. intros [H1 H2 H3 H4]. split; try done. intros i q _ Hq. by apply (H3 i). Qed.
Lemma mgr_ok_delete x id m : mgr_ok (x, Some id) m ->
  mgr_ok (x, None) (set_queues (QueuesStore m) (mg_proposalId m) (delete id (mg_proposals m)) m).
Proof.
  intros [H1 H2 H3 H4]. split; [done| | |done].
  - intros i q H. cbn in H. apply lookup_delete_Some in H as [_ H]. by apply (H2 i).
  - intros i q _ H. cbn in H. apply lookup_delete_Some in H as [Hne H]. apply (H3 i); [cbn; congruence|done].
Qed.
(** The players and queues, then the proposal is erased. *)
Definition without_proposal (id : Z) (m : LFGMgr) : LFGMgr := set_queues (QueuesStore m) (mg_proposalId m) (delete id (mg_proposals m)) m.
Lemma RemoveProposal_ok ex id p t m : p_players p <> ∅ -> mgr_ok ex m ->
  mwp (RemoveProposal w id p t) m (fun _ m' => exists m0, mgr_ok ex m0 /\ m' = without_proposal id m0).
Proof.
  intros Hne Hm. unfold RemoveProposal. cbv zeta. set (players := if bool_decide _ then _ else _). set (p' := p_set_players players _ p).
  apply wp_bind. eapply wp_mono.
  { assert (good ex (forM (in_order players) (notify_removed w p' (to_remove players) t))) as Hg by lfg. by apply Hg. }
  intros a m1 Hm1. destruct (in_order players) as [|e l] eqn:E.
  - exfalso. assert (players = ∅) as E' by (apply map_size_empty_inv; by rewrite <- length_in_order, E). subst players.
    case_bool_decide; [|done]. by apply fmap_empty_inv in E'.
  - cbn [head]. apply wp_get, wp_bind. eapply wp_mono.
    { apply (good_mild ex); [|exact Hm1]. apply mild_bind; [by apply mild_forM, mild_RemoveFromQueue|]. intros _. by apply mild_forM, mild_AddToQueue. }
    intros b m2 Hm2. by exists m2.
Qed.
Lemma RemoveProposal_closes x id p t m : p_players p <> ∅ -> mgr_ok (x, Some id) m -> mwp (RemoveProposal w id p t) m (fun _ => mgr_ok (x, None)).
Proof. intros Hne Hm. eapply wp_mono; [by apply RemoveProposal_ok|]. intros a m' (m0 & Hm0 & ->). by apply mgr_ok_delete. Qed.
Lemma good_RemoveProposal ex id p t : p_players p <> ∅ -> good ex (RemoveProposal w id p t).
Proof.
  intros Hne m Hm. eapply wp_mono; [by apply RemoveProposal_ok|]. intros a m' (m0 & [H1 H2 H3 H4] & ->). split; [done| | |done].
  - intros i q H. cbn in H. apply lookup_delete_Some in H as [_ H]. by apply (H2 i).
  - intros i q Hi H. cbn in H. apply lookup_delete_Some in H as [_ H]. by apply (H3 i).
Qed.
Lemma formed_nonempty p : formed p -> p_players p <> ∅.
Proof. intros Hp E. pose proof (fo_size _ Hp) as H. by rewrite E, map_size_empty in H. Qed.

(** ** Role checks *)

Lemma check_success (m : gmap Z Z) : (forall p r, m !! p = Some r -> 0 <= r < 256) -> Z.of_nat (size m) < 256 -> m <> ∅ ->
  (check_roles_map m).1 = true -> feasible (in_order m) /\ Z.of_nat (size m) <= MAXGROUPSIZE.
Proof.
  intros Hb Hs Hne. unfold check_roles_map. pose proof (CheckGroupRoles_spec (in_order m)) as H.
  destruct (CheckGroupRoles (in_order m)) as [ok l]. cbn. intros ->. destruct H as [Hp Hn].
  - intros E. apply Hne, map_size_empty_inv. by rewrite <- length_in_order, E.
  - rewrite length_in_order. lia.
  - apply Forall_forall. intros [p r] Hpr%in_order_spec. by apply (Hb p).
  - split; [by exists l|]. rewrite <- length_in_order, (Forall2_length _ _ _ Hp).
    assert (Forall (fun e => e.2 ∈ the_roles) l) as Ha.
    { apply Forall_forall. intros c [i Hi]%list_elem_of_lookup. destruct (Forall2_lookup_r _ _ _ _ _ Hp Hi) as (e & _ & _ & Hc & _). done. }
    apply counts_sum in Ha. rewrite <- Ha. pose proof (Hn PLAYER_ROLE_TANK ltac:(by left)). pose proof (Hn PLAYER_ROLE_HEALER ltac:(by right; left)).
    pose proof (Hn PLAYER_ROLE_DAMAGE ltac:(by right; right; left)). unfold needed, MAXGROUPSIZE in *. cbn in *.
    unfold LFG_TANKS_NEEDED, LFG_HEALERS_NEEDED, LFG_DPS_NEEDED in *. lia.
Qed.

(** After a choice the check is still open, closed, or one that [CheckGroupRoles] has passed. *)
Lemma choose_role_ok rc guid roles : check_ok rc -> 0 <= roles < 256 -> (guid <> 0 -> Z.of_nat (size (rc_roles rc)) < 255) ->
  let rc' := choose_role rc guid roles in
  rc_dungeons rc' = rc_dungeons rc /\
  if bool_decide (rc_state rc' = LFG_ROLECHECK_FINISHED) then entry_ok (rc_roles rc', rc_dungeons rc') else check_ok rc'.
Proof.
  intros [H0 H1 H2 H3] Hr Hsz. unfold choose_role. destruct (Z.eqb_spec guid 0) as [|Hg]; [by split|]. specialize (Hsz Hg).
  destruct (roles <? _); [by split|]. cbv zeta. cbn [rc_set_roles rc_roles]. set (m := <[guid := roles]> (rc_roles rc)).
  assert (forall p r, m !! p = Some r -> 0 <= r < 256) as Hb.
  { intros p r [[_ <-]|[_ H]]%lookup_insert_Some; [done|by apply (H1 p)]. }
  assert (Z.of_nat (size m) <= Z.of_nat (size (rc_roles rc)) + 1) as Hm.
  { unfold m. destruct (rc_roles rc !! guid) eqn:E; [rewrite map_size_insert_Some by (by eexists)|rewrite map_size_insert_None by done]; lia. }
  assert (m <> ∅) as Hne by apply insert_non_empty.
  destruct (forallb _ _); [|by rewrite bool_decide_false].
  destruct (check_roles_map m).1 eqn:Ec; [|by rewrite bool_decide_false]. rewrite bool_decide_true by done.
  split; [done|]. destruct (check_success m Hb) as [Hf H5]; [lia|done|done|]. split; cbn; try done.
  split; [|done]. destruct (decide (size m = 0%nat)) as [E|]; [by apply map_size_empty_inv in E|lia].
Qed.

Lemma good_send_role ex rc b g r ds e : good ex (send_role w rc b g r ds e).
Proof. unfold send_role. lfg. Qed.
Hint Resolve good_send_role : lfg.

Lemma mgr_ok_weaken m g y : mgr_ok (None, y) m -> mgr_ok (Some g, y) m.
Proof. intros [H1 H2 H3 H4]. split; [done..|]. intros g' rc _ H. by apply (H4 g'). Qed.
Lemma good_delete_check g y m : mgr_ok (Some g, y) m -> mgr_ok (None, y) (set_checks (delete g (RoleChecksStore m)) m).
Proof. intros [H1 H2 H3 H4]. split; [done..|]. intros g' rc _ H. cbn in H. apply lookup_delete_Some in H as [Hne H]. apply (H4 g'); [cbn; congruence|done]. Qed.

Lemma UpdateRoleCheck_ok y gguid guid roles m : mgr_ok (None, y) m -> 0 <= roles < 256 ->
  (guid <> 0 -> forall rc, RoleChecksStore m !! gguid = Some rc -> Z.of_nat (size (rc_roles rc)) < 255) ->
  mwp (UpdateRoleCheck w gguid guid roles) m (fun _ => mgr_ok (None, y)).
Proof.
  intros Hm Hr Hsz. unfold UpdateRoleCheck. destruct (gguid =? 0); [by apply wp_ret|]. apply wp_get.
  destruct (RoleChecksStore m !! gguid) as [rc0|] eqn:Erc; [|by apply wp_ret]. cbv zeta.
  assert (check_ok rc0) as Hrc by by apply (mo_checks _ _ Hm gguid).
  pose proof (choose_role_ok rc0 guid roles Hrc Hr (fun Hg => Hsz Hg rc0 eq_refl)) as H. cbv zeta in H. destruct H as [Hd H].
  set (rc := choose_role rc0 guid roles) in *. apply wp_modify. set (m1 := set_checks _ m).
  assert (mgr_ok (Some gguid, y) m1) as Hm1.
  { destruct Hm as [H1 H2 H3 H4]. split; [done..|]. intros g rc' Hne Hg. cbn in Hg. apply lookup_insert_Some in Hg as [[-> _]|[_ Hg]]; [by destruct Hne|by apply (H4 g)]. }
  assert (forall A (p : MP A) (k : MP unit), good (Some gguid, y) p -> (forall m', mgr_ok (Some gguid, y) m' -> mwp k m' (fun _ => mgr_ok (None, y))) ->
    forall m', mgr_ok (Some gguid, y) m' -> mwp (p;; k) m' (fun _ => mgr_ok (None, y))) as Hseq.
  { intros A p k Hp Hk m' Hm'. apply wp_bind. eapply wp_mono; [by apply Hp|]. intros a. apply Hk. }
  case_bool_decide as Es.
  - apply Hseq; [lfg| |done]. apply Hseq; [lfg|]. apply Hseq; [|intros m' Hm'; by apply good_delete_check].
    apply good_get. intros m'. apply good_mild, mild_AddQueueData; [done|]. rewrite Hd. apply Hrc.
  - assert (mgr_ok (None, y) m1) as Hm1'.
    { destruct Hm as [H1 H2 H3 H4]. split; [done..|]. intros g rc' _ Hg. cbn in Hg. apply lookup_insert_Some in Hg as [[_ <-]|[_ Hg]]; [done|by apply (H4 g)]. }
    apply wp_bind. eapply wp_mono; [assert (good (None, y) (forM (in_order (rc_roles rc)) (send_role w rc
      (negb (bool_decide (rc_state rc0 = LFG_ROLECHECK_DEFAULT)) && negb (guid =? 0)) guid roles
      (if negb (rc_rDungeonId rc =? 0) then {[rc_rDungeonId rc]} else rc_dungeons rc)))) as Hg by lfg; by apply Hg|].
    intros a m2 Hm2. destruct (negb _); [|by apply wp_ret]. revert m2 Hm2.
    assert (forall m2, mgr_ok (None, y) m2 -> mwp (RestoreState gguid;; modify (fun m => set_checks (delete gguid (RoleChecksStore m)) m)) m2 (fun _ => mgr_ok (None, y))) as Hx;
      [|done]. intros m2 Hm2. apply Hseq; [lfg| |by apply mgr_ok_weaken]. intros m' Hm'. by apply good_delete_check.
Qed.

(** ** Leaving, hooks and votes *)

Lemma deny_nonempty g p : p_players p <> ∅ -> p_players (deny g p) <> ∅.
Proof.
  intros Hne E. apply map_choose in Hne as (x & pp & Hx). cbn in E.
  destruct (lookup_alter_is_Some (fun pp => mkProposalPlayer (pp_role pp) LFG_ANSWER_DENY (pp_group pp)) (p_players p) g x) as [_ H].
  rewrite E, lookup_empty in H. destruct H as [? ?]; [by eexists|done].
Qed.

Lemma good_LeaveLfg y guid : good (None, y) (LeaveLfg w guid).
Proof.
  intros m Hm. unfold LeaveLfg. apply wp_get. cbv zeta. set (gguid := if IS_GROUP_GUID guid then _ else _).
  assert (forall g, good (None, y) (at_queue g (RemoveFromQueue g))) as Hq.
  { intros g. apply good_get. intros m'. by apply good_mild, mild_RemoveFromQueue. }
  destruct (GetState m guid).
  1,8: by apply wp_ret.
  4,5,6: by_good.
  - destruct (negb (gguid =? 0)); [|by apply wp_ret]. by apply UpdateRoleCheck_ok.
  - destruct (negb (gguid =? 0)); by_good.
  - destruct (proposal_of m _) as [[id p]|] eqn:Ep; [|by apply wp_ret]. apply good_RemoveProposal; [|done]. apply deny_nonempty, formed_nonempty.
    unfold proposal_of in Ep. apply (mo_proposals _ _ Hm id). apply head_Some_elem_of in Ep. apply list_elem_of_filter in Ep as [_ Ep].
    by apply in_order_spec in Ep.
Qed.
Hint Resolve good_LeaveLfg : lfg.

Lemma good_RemoveGroupData ex g : good ex (RemoveGroupData w g).
Proof. unfold RemoveGroupData. lfg. Qed.
Lemma good_InitBoot ex g k v r : good ex (InitBoot w g k v r).
Proof. unfold InitBoot. lfg. Qed.
Hint Resolve good_RemoveGroupData good_InitBoot : lfg.
Lemma good_run_hook y h : good (None, y) (run_hook w h).
Proof. unfold run_hook. destruct (negb _); [lfg|]. destruct h; lfg. Qed.
Hint Resolve good_run_hook : lfg.
Lemma good_do_call y c : good (None, y) (do_call w c).
Proof. unfold do_call. lfg. Qed.
Hint Resolve good_do_call : lfg.
Lemma good_UpdateBoot y g a : good (None, y) (UpdateBoot w g a).
Proof. unfold UpdateBoot. lfg. Qed.
Hint Resolve good_UpdateBoot : lfg.

(** ** A proposal that all accept *)

(** A group is there as soon as one of the players has been. *)
Lemma join_player_ok y d p grp g m : mgr_ok (None, y) m ->
  mwp (join_player w d p grp g) m (fun r m' => mgr_ok (None, y) m' /\ (is_Some grp \/ w_online w g = true -> is_Some r)).
Proof.
  intros Hm. unfold join_player. destruct (w_online w g) eqn:Eo; cbn [negb].
  - apply wp_get. cbv zeta. set (group := w_group w (calls m) g).
    match goal with |- Prelude.wp _ (?p ≫= ?k) _ _ => assert (good (None, y) p) as Hp by lfg; set (k' := k) end.
    apply wp_bind. eapply wp_mono; [by apply Hp|]. intros [] m1 Hm1. subst k'. cbv beta.
    match goal with |- Prelude.wp _ (?p ≫= ?k) _ _ => assert (good (None, y) p) as Hq by lfg; set (k' := k) end.
    apply wp_bind. eapply wp_mono; [by apply Hq|]. intros gguid m2 Hm2. subst k'. cbv beta.
    apply wp_modify. apply wp_bind. match goal with |- Prelude.wp _ ?p ?m3 _ => assert (good (None, y) p) as Hr by lfg; assert (mgr_ok (None, y) m3) as Hm3 end.
    { destruct Hm2. by split. }
    eapply wp_mono; [by apply Hr|]. intros a m4 Hm4. apply wp_ret. split; [done|]. by eexists.
  - apply wp_ret. split; [done|]. by intros [H|H].
Qed.
Lemma join_players_ok y d p l grp m : mgr_ok (None, y) m ->
  mwp (join_players w d p grp l) m (fun r m' => mgr_ok (None, y) m' /\ (is_Some grp \/ Exists (fun g => w_online w g = true) l -> is_Some r)).
Proof.
  revert grp m. induction l as [|g l IH]; intros grp m Hm; cbn [join_players].
  - apply wp_ret. split; [done|]. intros [H|H]; [done|by inversion H].
  - apply wp_bind. eapply wp_mono; [by apply (join_player_ok y)|]. intros r m1 [Hm1 Hr]. eapply wp_mono; [by apply IH|].
    intros r' m2 [Hm2 Hr']. split; [done|]. rewrite Exists_cons. intros [H|[H|H]]; apply Hr'; [left; tauto|left; tauto|by right].
Qed.

Lemma leader_first_in x l acc leader : x ∈ l \/ x ∈ acc -> x ∈ foldl (fun l g => if g =? leader then g :: l else l ++ [g]) acc l.
Proof.
  revert acc. induction l as [|g l IH]; intros acc Hx; cbn [foldl]; [destruct Hx as [H|H]; [by apply elem_of_nil in H|done]|].
  apply IH. rewrite elem_of_cons in Hx. destruct (g =? leader); [rewrite elem_of_cons|rewrite elem_of_app, list_elem_of_singleton]; tauto.
Qed.

Lemma good_MakeNewGroup y p : known (p_dungeonId p) -> (exists g, is_Some (p_players p !! g) /\ w_online w g = true) ->
  good (None, y) (MakeNewGroup w p).
Proof.
  intros Hk (g & [pp Hg] & Ho) m Hm. unfold MakeNewGroup. apply wp_get. cbv zeta. unfold GetLFGDungeon.
  destruct (proj1 (wo_known w w_ok _) Hk) as [d ->]. apply wp_bind. eapply wp_mono; [by apply (join_players_ok y)|].
  intros r m1 [Hm1 Hr]. destruct Hr as [gguid ->]; [right|by_good]. apply Exists_exists. exists g. split; [|done].
  apply leader_first_in. left. apply list_elem_of_fmap. exists (g, pp). split; [done|]. by apply in_order_spec.
Qed.

Lemma mild_if {A} (b : bool) (p q : QP A) : mild p -> mild q -> mild (if b then p else q).
Proof. by destruct b. Qed.
(** What an operation leaves alone. *)
Definition leaves {A X} (f : LFGMgr -> X) (p : MP A) : Prop := forall m, f (p m).2 = f m.
Lemma leaves_bind {A B X} (f : LFGMgr -> X) (p : MP A) (k : A -> MP B) : leaves f p -> (forall a, leaves f (k a)) -> leaves f (p ≫= k).
Proof.
  intros Hp Hk m. unfold mbind, prog_bind. specialize (Hp m). destruct (p m) as [[a|e] m']; cbn in *; [|done]. by rewrite Hk.
Qed.
Lemma leaves_forM {A X} (f : LFGMgr -> X) (l : list A) (g : A -> MP unit) : (forall x, leaves f (g x)) -> leaves f (forM l g).
Proof. intros Hf. induction l; cbn [forM]; [done|by apply leaves_bind]. Qed.
Lemma leaves_SetState g s : leaves RoleChecksStore (SetState g s).
Proof. intros m. unfold SetState. by destruct (IS_GROUP_GUID g). Qed.
Lemma wp_leaves {A X} (f : LFGMgr -> X) (p : MP A) m ex : good ex p -> leaves f p -> mgr_ok ex m ->
  mwp p m (fun _ m' => mgr_ok ex m' /\ f m' = f m).
Proof.
  intros Hg Hq Hm. specialize (Hg m Hm). specialize (Hq m). unfold Prelude.wp in *. destruct (p m) as [[a|e] m']; [|done]. done.
Qed.

(** Each player has a dungeon selected; the others' selections stay. *)
Lemma SetState_selected g s m x : s <> LFG_STATE_NONE -> s <> LFG_STATE_FINISHED_DUNGEON ->
  GetSelectedDungeons (SetState g s m).2 x = GetSelectedDungeons m x.
Proof.
  intros H1 H2. unfold SetState. destruct (IS_GROUP_GUID g); [done|]. unfold GetSelectedDungeons, player_at. cbn.
  destruct (decide (x = g)) as [->|Hne]; [|by rewrite lookup_insert_ne]. rewrite lookup_insert_eq. by destruct s.
Qed.
Lemma leaves_send x g msg : leaves (fun m => GetSelectedDungeons m x) (send w g msg).
Proof. intros m. unfold send. by destruct (w_online w g). Qed.
Lemma found_group_ok ex qid p b t e m : mgr_ok ex m -> GetSelectedDungeons m e.1 <> ∅ ->
  mwp (found_group w qid p b t e) m (fun _ m' => mgr_ok ex m' /\ forall x, GetSelectedDungeons m' x = GetSelectedDungeons m x).
Proof.
  intros Hm Hsel. unfold found_group. apply wp_get. cbv zeta.
  destruct (head (zset (GetSelectedDungeons m e.1))) as [dg|] eqn:Eh.
  - match goal with |- Prelude.wp _ ?q _ _ => assert (good ex q) as Hg; [|assert (forall x, leaves (fun m => GetSelectedDungeons m x) q) as Hs] end.
    + repeat (apply good_bind; [|intros _]); try lfg. apply good_mild. repeat apply mild_if; by apply mild_waits.
    + intros x. unfold SendLfgUpdateStatus. repeat (apply leaves_bind; [|intros _]); try apply leaves_send.
      * destruct b; [apply leaves_send|done].
      * intros m'. unfold in_queue. by destruct (_ (queue_of m' qid)).
      * intros m'. by apply SetState_selected.
    + specialize (Hg m Hm). unfold Prelude.wp. pose proof (fun x => Hs x m) as Hs'. clear Hs. unfold Prelude.wp in Hg.
      match type of Hg with context [?q m] => destruct (q m) as [[a|?] m'] end; done.
  - exfalso. apply Hsel. unfold zset in Eh. pose proof (merge_sort_Permutation Z.le (elements (GetSelectedDungeons m e.1))) as Hp.
    destruct (merge_sort _ _); [|done]. apply leibniz_equiv, elements_empty_inv. by apply Permutation_nil.
Qed.
Lemma found_groups_ok ex qid p b t l m : mgr_ok ex m -> (forall e, e ∈ l -> GetSelectedDungeons m e.1 <> ∅) ->
  mwp (found_groups w qid p b t l) m (fun _ => mgr_ok ex).
Proof.
  revert t m. induction l as [|e l IH]; intros t m Hm Hsel; cbn [found_groups]; [by apply wp_ret|]. apply wp_bind.
  eapply wp_mono; [apply found_group_ok; [done|apply Hsel; by left]|]. intros a m1 [Hm1 E]. apply IH; [done|]. intros e' He'. rewrite E.
  apply Hsel. by right.
Qed.

Lemma fmap_answers (players : gmap Z LfgProposalPlayer) g pp a : players !! g = Some pp ->
  pp_role <$> <[g := mkProposalPlayer (pp_role pp) a (pp_group pp)]> players = pp_role <$> players.
Proof. intros Hg. rewrite fmap_insert. cbn. apply insert_id. by rewrite lookup_fmap, Hg. Qed.
Lemma formed_answer p g pp a st : p_players p !! g = Some pp -> formed p ->
  formed (p_set_players (<[g := mkProposalPlayer (pp_role pp) a (pp_group pp)]> (p_players p)) st p).
Proof.
  intros Hg [H1 H2 H3 H4]. split; cbn; [|rewrite fmap_answers by done; done| |done].
  - by rewrite map_size_insert_Some by (by eexists).
  - rewrite lookup_insert_is_Some'. by right.
Qed.

Lemma store_proposal_ok x y id p m : mgr_ok (x, y) m -> formed p -> y = Some id \/ open p ->
  mgr_ok (x, y) (set_queues (QueuesStore m) (mg_proposalId m) (<[id := p]> (mg_proposals m)) m).
Proof.
  intros [H1 H2 H3 H4] Hp Hy. split; [done| | |done].
  - intros i p' H. cbn in H. apply lookup_insert_Some in H as [[_ <-]|[_ H]]; [done|by apply (H2 i)].
  - intros i p' Hi H. cbn in H. apply lookup_insert_Some in H as [[-> <-]|[_ H]]; [|by apply (H3 i)].
    destruct Hy as [->|Hy]; [by destruct Hi|done].
Qed.

(** The answer of a player who is in the world, when all have dungeons selected. *)
Definition selected (m : LFGMgr) (id : Z) : Prop :=
  forall p x, mg_proposals m !! id = Some p -> is_Some (p_players p !! x) -> GetSelectedDungeons m x <> ∅.
Lemma UpdateProposal_ok id g accept m : w_online w g = true -> selected m id -> mgr_ok (None, None) m ->
  mwp (UpdateProposal w id g accept) m (fun _ => mgr_ok (None, None)).
Proof.
  intros Ho Hsel Hm. unfold UpdateProposal. apply wp_get. destruct (mg_proposals m !! id) as [p|] eqn:Ep; [|by apply wp_ret].
  destruct (p_players p !! g) as [pp|] eqn:Epp; [|by apply wp_ret]. cbv zeta.
  set (p1 := p_set_players _ (p_state p) p). assert (formed p) as Hp by by apply (mo_proposals _ _ Hm id).
  assert (formed p1) as Hp1 by by apply formed_answer.
  destruct (mo_open _ _ Hm id p) as [Hst Hun]; [by cbn|done|].
  unfold store_proposal. apply wp_modify. set (m1 := set_queues _ _ _ m).
  assert (mgr_ok (None, Some id) m1) as Hm1 by (apply store_proposal_ok; [by apply mgr_ok_except|exact Hp1|by left]).
  destruct accept; cbn [negb]; [|apply RemoveProposal_closes; [by apply formed_nonempty|done]].
  destruct (negb (all_agree (p_players p1))).
  { assert (mgr_ok (None, None) m1) as Hm1'; [|by_good]. apply store_proposal_ok; [done|done|right; split; [done|]].
    intros x q Hq. cbn in Hq. apply lookup_insert_Some in Hq as [[_ <-]|[_ Hq]]; [done|by apply (Hun x)]. }
  cbn [p_state p1 p_set_players]. rewrite Hst. rewrite bool_decide_false by done. cbn [negb].
  set (p2 := p_set_players (p_players p1) LFG_PROPOSAL_SUCCESS p1). apply wp_modify, wp_get. set (m2 := set_queues _ _ _ m1).
  assert (mgr_ok (None, Some id) m2) as Hm2 by (apply store_proposal_ok; [done|by destruct Hp1|by left]).
  apply wp_bind. eapply wp_mono; [apply found_groups_ok; [exact Hm2|]|].
  { intros [x pq] Hx%in_order_spec. cbn in Hx. apply (Hsel p x Ep). apply lookup_insert_Some in Hx as [[<- _]|[_ Hx]]; by eexists. }
  intros a m3 Hm3.
  apply wp_bind. eapply wp_mono; [apply (good_mild (None, Some id) _ _ (mild_forM _ _ mild_RemoveFromQueue)); exact Hm3|]. intros b m4 Hm4.
  apply wp_bind. eapply wp_mono; [apply (good_MakeNewGroup (Some id) p2); [apply Hp1| |done]|].
  { exists g. split; [|done]. cbn. rewrite lookup_insert_eq. by eexists. }
  intros c m5 Hm5. by apply mgr_ok_delete.
Qed.

(** ** Joining *)

Lemma take_lock_subset g st lock : (take_lock g st lock).1 ⊆ st.1.
Proof. unfold take_lock. destruct st as [s l]. case_bool_decide; cbn; set_solver. Qed.
Lemma foldl_subset {X} (f : gset Z * gmap Z (gmap Z Z) -> X -> gset Z * gmap Z (gmap Z Z)) l st :
  (forall st x, (f st x).1 ⊆ st.1) -> (foldl f st l).1 ⊆ st.1.
Proof. intros Hf. revert st. induction l as [|x l IH]; intros st; cbn; [done|]. etrans; [apply IH|apply Hf]. Qed.
Lemma GetCompatibleDungeons_subset m ds ps : (GetCompatibleDungeons m ds ps).1 ⊆ ds.
Proof.
  unfold GetCompatibleDungeons. set (f := fun st guid => _). pose proof (foldl_subset f (zset ps) (ds, ∅)) as H.
  destruct (foldl f (ds, ∅) (zset ps)) as [s l]. apply H. intros st g. apply foldl_subset. intros st' lock. apply take_lock_subset.
Qed.

Lemma check_dungeons_known l ds isDungeon isRaid r :
  (check_dungeons w l ds LFG_JOIN_OK isDungeon isRaid r).1.1 = LFG_JOIN_OK -> Forall known l.
Proof.
  assert (forall l res b1 b2 r, res <> LFG_JOIN_OK -> (check_dungeons w l ds res b1 b2 r).1.1 = res) as Hs.
  { intros [|d l'] res b1 b2 r' Hr; cbn; [done|]. by rewrite bool_decide_false. }
  assert (forall res b1 b2 r, (check_dungeons w l ds res b1 b2 r).1.1 = LFG_JOIN_OK -> res = LFG_JOIN_OK) as Hok.
  { intros res b1 b2 r' H. destruct (decide (res = LFG_JOIN_OK)); [done|]. by rewrite Hs in H. }
  revert isDungeon isRaid r Hok. induction l as [|d l IH]; intros isDungeon isRaid r _ H; [constructor|].
  assert (forall res b1 b2 r, (check_dungeons w l ds res b1 b2 r).1.1 = LFG_JOIN_OK -> res = LFG_JOIN_OK) as Hok.
  { intros res b1 b2 r' H'. destruct (decide (res = LFG_JOIN_OK)); [done|]. by rewrite Hs in H'. }
  cbn [check_dungeons] in H. rewrite bool_decide_true in H by done. cbv zeta in H.
  assert (forall res b1 b2 r, (check_dungeons w l ds res b1 b2 r).1.1 = LFG_JOIN_OK -> Forall known l) as Hrest.
  { intros res b1 b2 r' H'. pose proof (Hok _ _ _ _ H') as ->. by eapply IH. }
  assert (GetDungeonType w d <> LFG_TYPE_NONE -> known d) as Hd.
  { unfold GetDungeonType, GetLFGDungeon. intros Ht. apply (wo_known w w_ok). destruct (LfgDungeonStore w d); [by eexists|done]. }
  destruct (_ || _) eqn:E1.
  - constructor; [|by eapply Hrest]. apply Hd. intros E. by rewrite E in E1.
  - destruct (GetDungeonType w d =? LFG_TYPE_RAID) eqn:E2; [|by apply Hok in H].
    constructor; [|by eapply Hrest]. apply Hd. intros E. by rewrite E in E2.
Qed.

Lemma check_members_stop l res n ps : res <> LFG_JOIN_OK -> check_members w l res n ps = (res, n, ps).
Proof. intros Hr. destruct l; cbn; [done|]. by rewrite bool_decide_false. Qed.

(** A join that passes the checks. *)
Lemma check_join_ok m guid grp ds lockmap ds' isRaid r : check_join w m guid grp ds = (LFG_JOIN_OK, lockmap, ds', isRaid, r) ->
  ds' <> ∅ /\ all_known ds' /\ forall g, grp = Some g -> pa_count g <= MAXGROUPSIZE.
Proof.
  unfold check_join. destruct (check_joiner w guid grp ds) as [res ps] eqn:Ej. case_bool_decide as Eres; [|by intros [=]]. subst res.
  destruct (check_dungeons w (zset ds) ds LFG_JOIN_OK false false 0) as [[res isRaid'] r'] eqn:Ed. case_bool_decide as Eres; [|by intros [=]]. subst res.
  pose proof (check_dungeons_known (zset ds) ds false false 0) as Hk. rewrite Ed in Hk. specialize (Hk eq_refl).
  set (ds1 := if negb (r' =? 0) then _ else ds). pose proof (GetCompatibleDungeons_subset m ds1 ps) as Hsub.
  destruct (GetCompatibleDungeons m ds1 ps) as [ds2 locks]. cbn in Hsub. case_bool_decide as Ee; [by destruct grp|]. intros [= <- <- <- <-].
  split_and!; [done| |].
  - intros d Hd%Hsub. subst ds1. destruct (negb (r' =? 0)); [by eapply (wo_cached w w_ok)|]. rewrite Forall_forall in Hk. apply Hk.
    unfold zset. by rewrite merge_sort_Permutation, elem_of_elements.
  - intros g ->. unfold check_joiner in Ej. destruct (negb _); [done|]. destruct (w_battleground w guid); [done|].
    do 2 (destruct (w_aura w guid _); [done|]). destruct (bool_decide _); [done|].
    destruct (Z.ltb_spec MAXGROUPSIZE (pa_count g)); [done|lia].
Qed.

(** Role checks hold few roles, which the players that a group has had since its
    check began cannot exceed soon. *)
Definition few_roles (m : LFGMgr) : Prop := forall g rc, RoleChecksStore m !! g = Some rc -> Z.of_nat (size (rc_roles rc)) <= 240.

Lemma foldl_zero (l : list Z) (rs : gmap Z Z) : (forall p r, rs !! p = Some r -> 0 <= r < 256) ->
  (forall p r, foldl (fun r p => <[p := 0]> r) rs l !! p = Some r -> 0 <= r < 256) /\
  (size (foldl (fun r p => <[p := 0%Z]> r) rs l) <= size rs + length l)%nat.
Proof.
  revert rs. induction l as [|x l IH]; intros rs Hr; cbn; [split; [done|lia]|]. destruct (IH (<[x := 0]> rs)) as [H1 H2].
  - intros p r [[_ <-]|[_ H]]%lookup_insert_Some; [lia|by apply (Hr p)].
  - split; [done|]. etrans; [exact H2|]. destruct (rs !! x) eqn:E; [rewrite map_size_insert_Some by (by eexists)|rewrite map_size_insert_None by done]; lia.
Qed.

Lemma begin_role_check_ok g isContinue guid roles ds r c m : mgr_ok (None, None) m -> few_roles m -> len (pa_members g) <= MAXGROUPSIZE ->
  0 <= roles < 256 -> ds <> ∅ -> all_known ds -> mwp (begin_role_check w g isContinue guid roles ds r c) m (fun _ => mgr_ok (None, None)).
Proof.
  intros Hm Hfew Hlen Hr Hds Hk. unfold begin_role_check. apply wp_get. cbv zeta. set (old := from_option rc_roles ∅ _).
  assert (forall p r, old !! p = Some r -> 0 <= r < 256) as Hold.
  { subst old. destruct (RoleChecksStore m !! pa_guid g) as [rc|] eqn:E; cbn; [|intros p r' H; by rewrite lookup_empty in H].
    apply ck_bytes. apply (mo_checks _ _ Hm (pa_guid g)); [by cbn|done]. }
  assert (Z.of_nat (size old) <= 240) as Hsz.
  { subst old. destruct (RoleChecksStore m !! pa_guid g) as [rc|] eqn:E; cbn; [by apply (Hfew (pa_guid g))|by rewrite map_size_empty]. }
  destruct (foldl_zero (pa_members g) old Hold) as [H1 H2]. set (rs := foldl _ old (pa_members g)) in *. apply wp_modify.
  set (rc := mkRoleCheck _ _ _ _ _ _). set (m1 := set_checks _ m). assert (mgr_ok (None, None) m1) as Hm1.
  { destruct Hm as [M1 M2 M3 M4]. split; [done..|]. intros g' rc' _ H. cbn in H. apply lookup_insert_Some in H as [[_ <-]|[_ H]]; [by split|by apply (M4 g')]. }
  apply wp_bind. eapply wp_mono; [apply (wp_leaves RoleChecksStore); [|apply leaves_SetState|exact Hm1]; lfg|]. intros a m2 [Hm2 E2].
  apply wp_bind. eapply wp_mono; [apply (wp_leaves RoleChecksStore); [| |exact Hm2]|]; [lfg| |].
  { apply leaves_forM. intros x. apply leaves_bind; [done|intros _]. apply leaves_bind; [apply leaves_SetState|intros _]. by destruct isContinue. }
  intros b m3 [Hm3 E3]. apply UpdateRoleCheck_ok; [done|done|]. intros _ rc'. rewrite E3, E2. cbn. rewrite lookup_insert_eq. intros [= <-].
  cbn. unfold MAXGROUPSIZE in *. lia.
Qed.

Lemma JoinLfg_ok guid grp roles ds c m : mgr_ok (None, None) m -> few_roles m -> (forall g, grp = Some g -> len (pa_members g) <= pa_count g) ->
  0 <= roles < 256 -> mwp (JoinLfg w guid grp roles ds c) m (fun _ => mgr_ok (None, None)).
Proof.
  intros Hm Hfew Hlen Hr. unfold JoinLfg. case_bool_decide; [by apply wp_ret|]. apply wp_get. cbv zeta.
  set (gguid := from_option pa_guid guid grp). set (isContinue := _ && _). set (ds0 := if isContinue then _ else ds).
  apply wp_bind. eapply wp_mono; [apply (wp_leaves RoleChecksStore); [| |exact Hm]|].
  { assert (forall g, good (None, None) (at_queue g (RemoveFromQueue g))) as Hq.
    { intros g. apply good_get. intros m'. by apply good_mild, mild_RemoveFromQueue. }
    lfg. }
  { case_bool_decide; [|done]. intros m'. unfold at_queue, in_queue, mbind, prog_bind, get. cbn. by destruct (RemoveFromQueue _ _). }
  intros a m1 [Hm1 E1]. apply wp_get. destruct (check_join w m1 guid grp ds0) as [[[[res lockmap] ds1] isRaid] r] eqn:Ej.
  case_bool_decide as Eres; cbn [negb]; [|by_good]. subst res. destruct (check_join_ok m1 guid grp ds0 lockmap ds1 isRaid r Ej) as (Hne & Hk & Hg).
  apply wp_bind. eapply wp_mono; [apply (wp_leaves RoleChecksStore); [| |exact Hm1]|]; [lfg|done|]. intros b m2 [Hm2 E2].
  destruct isRaid; [by apply wp_ret|]. destruct grp as [g|].
  - apply begin_role_check_ok; try done; [|specialize (Hlen g eq_refl); specialize (Hg g eq_refl); lia].
    intros g' rc. rewrite E2, E1. apply Hfew.
  - assert (entry_ok ({[guid := roles]}, ds1)) as He.
    { split; cbn; rewrite ?map_size_singleton; try done. by intros p x [<- <-]%lookup_singleton_Some. }
    assert (good (None, None) (at_queue guid (AddQueueData guid (w_time w) ds1 {[guid := roles]}))) as Hq.
    { apply good_get. intros m'. by apply good_mild, mild_AddQueueData. }
    by_good.
Qed.

(** ** The update and the other calls *)

Lemma good_forM_in ex {A} (l : list A) (f : A -> MP unit) : (forall x, x ∈ l -> good ex (f x)) -> good ex (forM l f).
Proof.
  induction l as [|x l IH]; intros Hf; cbn [forM]; [apply good_ret|]. apply good_bind; [apply Hf; by left|]. intros _. apply IH.
  intros y Hy. apply Hf. by right.
Qed.
Lemma good_expire_check ex e : good ex (expire_check w e).
Proof.
  assert (good ex (modify (fun m => set_checks (delete e.1 (RoleChecksStore m)) m))) as Hd.
  { apply good_modify. intros m [H1 H2 H3 H4]. split; [done..|]. intros g rc Hg H. cbn in H. apply lookup_delete_Some in H as [_ H]. by apply (H4 g). }
  unfold expire_check. lfg.
Qed.
Lemma good_expire_proposal ex e : formed e.2 -> good ex (expire_proposal w e).
Proof. intros He. unfold expire_proposal. destruct (_ <? _); [|lfg]. by apply good_RemoveProposal, formed_nonempty. Qed.
Lemma good_expire_boot ex e : good ex (expire_boot w e).
Proof. unfold expire_boot. lfg. Qed.
Lemma good_announce ex e : p_state e.2 = LFG_PROPOSAL_INITIATING -> good ex (announce w e).
Proof.
  intros He. unfold announce. rewrite He, bool_decide_false by done. apply good_bind; [|lfg]. apply good_forM. intros x. unfold announce_player. lfg.
Qed.
Lemma good_queue_timers ex id : good ex (queue_timers w id).
Proof. unfold queue_timers. apply good_get. intros m. apply good_bind; [by apply good_mild, mild_UpdateQueueTimers|]. lfg. Qed.
Hint Resolve good_expire_check good_expire_boot good_find_groups good_queue_timers : lfg.

Lemma good_Update diff : good (None, None) (Update w diff).
Proof.
  unfold Update. destruct (negb _); [lfg|]. apply good_get. intros m0. apply good_bind; [lfg|intros _]. intros m1 Hm1. apply wp_get. revert m1 Hm1.
  intros m1 Hm1. apply wp_bind. eapply wp_mono; [apply good_forM_in; [|exact Hm1]|].
  { intros [id p] Hp%in_order_spec. apply good_expire_proposal. by apply (mo_proposals _ _ Hm1 id). }
  intros a m2 Hm2. cbv beta in Hm2. apply wp_get, wp_bind.
  eapply wp_mono; [assert (good (None, None) (forM (in_order (BootsStore m2)) (expire_boot w))) as Hg by lfg; by apply Hg|]. intros b m3 Hm3.
  apply wp_get. cbv zeta. apply wp_bind.
  eapply wp_mono; [assert (good (None, None) (forM (in_order (QueuesStore m3)).*1 (find_groups w))) as Hg by lfg; by apply Hg|]. intros c m4 Hm4.
  apply wp_get, wp_bind. eapply wp_mono with (Q := fun _ => mgr_ok (None, None)).
  { destruct (_ && _); [|by apply wp_ret]. apply good_forM_in; [|done]. intros [id p] [_ Hp%in_order_spec]%list_elem_of_filter.
    apply good_announce. by apply (mo_open _ _ Hm4 id). }
  intros d m5 Hm5. apply wp_get. destruct (_ <? _); by_good.
Qed.

Lemma good_SetupGroupMember ex g gg : good ex (SetupGroupMember g gg).
Proof. unfold SetupGroupMember. lfg. Qed.
Lemma good_LoadFromDB ex g l d s : good ex (LoadFromDB g l d s).
Proof. unfold LoadFromDB. lfg. Qed.
Lemma good_FinishDungeon ex g d : good ex (FinishDungeon g d).
Proof. unfold FinishDungeon. lfg. Qed.
Hint Resolve good_Update good_SetupGroupMember good_LoadFromDB good_FinishDungeon : lfg.

(** What a command of the clients or the server can be. *)
Definition command_fits (m : LFGMgr) (c : LfgCommand) : Prop :=
  match c with
  | CmdJoin _ (Some g) _ _ _ => len (pa_members (gv_party g)) <= pa_count (gv_party g)
  | CmdProposalResult guid id _ => w_online w guid = true /\ selected m id
  | _ => True
  end.

Lemma lfg_command_ok c m : mgr_ok (None, None) m -> few_roles m -> command_fits m c -> mwp (run_command w c) m (fun _ => mgr_ok (None, None)).
Proof.
  intros Hm Hfew Hc. unfold run_command. apply wp_modify. set (m1 := set_calls [] m). assert (mgr_ok (None, None) m1) as Hm1 by (by destruct Hm).
  assert (forall r, 0 <= uint 8 r < 256) as Hu by (intros r; apply (uint_range 8); lia).
  destruct c as [guid grp roles ds cm|guid grp|guid id a|guid grp roles|guid cm|guid a|guid grp t lk|guid grp|h|g d|g l d st|diff].
  - unfold HandleLfgJoinOpcode. cbv zeta. destruct (_ || _); [by apply wp_ret|]. case_bool_decide; [by apply wp_ret|].
    apply JoinLfg_ok; [done|done| |done]. intros g Eg. destruct grp as [gv|]; [|done]. by injection Eg as <-.
  - unfold HandleLfgLeaveOpcode. by_good.
  - by apply UpdateProposal_ok; [apply Hc|apply Hc|].
  - unfold HandleLfgSetRolesOpcode. destruct grp as [g|]; [|by apply wp_ret]. apply UpdateRoleCheck_ok; [done|done|].
    intros _ rc Hrc. specialize (Hfew _ rc Hrc). lia.
  - by_good.
  - by_good.
  - unfold OnLogin. by_good.
  - unfold OnLogout. by_good.
  - by_good.
  - by_good.
  - by_good.
  - by_good.
Qed.
End World.
End Known.

(** ** Every run *)

Inductive lfg_reach (known : Z -> Prop) : LFGMgr -> Prop :=
| lfg_start : lfg_reach known LFGMgr_new
| lfg_step w m c m' : lfg_reach known m -> world_ok known w -> few_roles m -> command_fits w m c -> run_command w c m = (Ok tt, m') ->
    lfg_reach known m'.

Lemma lfg_reach_ok known m : lfg_reach known m -> mgr_ok known (None, None) m.
Proof.
  induction 1 as [|w m c m' _ IH Hw Hfew Hc Er]; [apply mgr_ok_new|].
  pose proof (lfg_command_ok known w Hw c m IH Hfew Hc) as H. unfold Prelude.wp in H. by rewrite Er in H.
Qed.


(** ** A run *)

Definition small_world : LfgWorld :=
  mkLfgWorld 1000 (fun _ => true) (fun _ _ => false) (fun _ s => default 0 (head (elements s))) (fun _ _ => false) 3 false
    (fun _ => true) (fun _ => false) (fun _ _ => false) (fun _ => false)
    (fun d => if d =? 20 then Some (mkDungeonData 20 540 LFG_TYPE_DUNGEON 0 0 60 70 0 false) else None) (fun g => if g =? 0 then {[20]} else ∅)
    (fun _ _ => None) (fun _ _ => []) (fun _ => false) 0x1F50000000000001.
Definition five_join : list LfgCommand :=
  [CmdJoin 1 None 2 [20] []; CmdJoin 2 None 12 [20] []; CmdJoin 3 None 8 [20] []; CmdJoin 4 None 8 [20] []; CmdJoin 5 None 9 [20] []; CmdUpdate 100].
Definition run_all (w : LfgWorld) (cs : list LfgCommand) (m : LFGMgr) : LFGMgr := foldl (fun m c => (run_command w c m).2) m cs.

Definition just_twenty (d : Z) : Prop := d = 20.
Lemma small_world_ok : world_ok just_twenty small_world.
Proof.
  split.
  - intros id s Hs. cbn. destruct (elements s) as [|x l] eqn:E; [by apply elements_empty_inv, leibniz_equiv in E|].
    apply elem_of_elements. rewrite E. by left.
  - intros d. cbn. unfold just_twenty. destruct (Z.eqb_spec d 20); split; [by eexists|done|done|by intros []].
  - intros g d. cbn. destruct (g =? 0); [by intros ->%elem_of_singleton|by intros ?%elem_of_empty].
Qed.

Lemma lfg_run cs m : lfg_reach just_twenty m ->
  (forall n c, cs !! n = Some c -> let m' := run_all small_world (take n cs) m in
    RoleChecksStore m' = ∅ /\ command_fits small_world m' c /\ (run_command small_world c m').1 = Ok tt) ->
  lfg_reach just_twenty (run_all small_world cs m).
Proof.
  revert m. induction cs as [|c cs IH]; intros m Hm Hc; [done|]. apply (IH (run_command small_world c m).2).
  - destruct (Hc 0%nat c eq_refl) as (Hr & Hf & Er). cbn in Hr, Hf, Er. apply (lfg_step _ small_world m c); [done|apply small_world_ok| |done|].
    + intros g rc. by rewrite Hr, lookup_empty.
    + rewrite <- Er. apply surjective_pairing.
  - intros n c' Hn. by apply (Hc (S n) c').
Qed.
Definition after_five : LFGMgr := run_all small_world five_join LFGMgr_new.
Lemma after_five_reach : lfg_reach just_twenty after_five.
Proof.
  apply lfg_run; [apply lfg_start|]. intros n c Hn.
  do 6 (destruct n as [|n]; [injection Hn as <-; split_and!; [vm_compute; reflexivity|done|vm_compute; reflexivity]|]). done.
Qed.
Lemma after_five_proposal : (fun p => (p_dungeonId p, p_leader p, p_queues p, (fun e => (e.1, pp_role e.2)) <$> in_order (p_players p)))
  <$> mg_proposals after_five !! 2 = Some (20, 1, [5; 1; 2; 3; 4], [(1, 2); (2, 4); (3, 8); (4, 8); (5, 8)]).
Proof. vm_compute. reflexivity. Qed.

Lemma after_five_selected : selected after_five 2.
Proof.
  assert (from_option (fun p => forallb (fun e => negb (bool_decide (GetSelectedDungeons after_five e.1 = ∅))) (in_order (p_players p))) false
    (mg_proposals after_five !! 2) = true) as H by (vm_compute; reflexivity).
  intros p x Hp [pp Hx]. rewrite Hp in H. cbn in H. rewrite forallb_forall in H. specialize (H (x, pp)). cbn in H.
  rewrite negb_true_iff, bool_decide_eq_false in H. by apply H, list_elem_of_In, in_order_spec.
Qed.

