(* ===== verification/LfgAnswers.v ===== *)
(** * The manager of the dungeon finder: what the answers of players do (model in LfgMgr.v)

    A proposal that a player refuses is given up: he and his group are out of the
    queue and back in the state they had before, the others wait again.  A vote to
    kick is decided by three votes one way. *)

From S2P Require Import Prelude.
From S2P Require Import LfgRoles.
From S2P Require Import LfgQueue.
From S2P Require Import LfgQueueProofs.
From S2P Require Import Group.
From S2P Require Import LfgMgr.
From S2P Require Import LfgMgrProofs.
From stdpp Require Import list sorting.
Local Open Scope Z_scope.
#[local] Set Warnings "-clear-no-such-hyp".

Section Answers.
Context (w : LfgWorld).

(** ** States of players *)

Definition is_player (x : Z) : Prop := IS_GROUP_GUID x = false.
Definition core (m : LFGMgr) : gmap Z LFGQueue * gmap Z LfgProposal * Z * gmap Z LfgPlayerBoot * gmap Z LfgRoleCheck :=
  (QueuesStore m, mg_proposals m, mg_proposalId m, BootsStore m, RoleChecksStore m).
(** From [m] to [m'] only states change, those of player [x] by [f x]. *)
Definition moves (f : Z -> LfgPlayerData -> LfgPlayerData) (m m' : LFGMgr) : Prop :=
  core m' = core m /\ forall x, is_player x -> player_at m' x = f x (player_at m x).

Definition at_one (g : Z) (f : LfgPlayerData -> LfgPlayerData) (x : Z) (d : LfgPlayerData) : LfgPlayerData :=
  if x =? g then f d else d.
Lemma moves_refl m : moves (fun _ d => d) m m.
Proof. by split. Qed.
Lemma moves_trans f g m m1 m2 : moves f m m1 -> moves g m1 m2 -> moves (fun x d => g x (f x d)) m m2.
Proof. intros [C1 P1] [C2 P2]. split; [by rewrite C2|]. intros x Hx. by rewrite P2, P1. Qed.

Lemma moves_on_player g f m : moves (at_one g f) m (on_player g f m).2.
Proof.
  split; [done|]. intros x _. unfold player_at, at_one. cbn. destruct (Z.eqb_spec x g) as [->|Hne]; [by rewrite lookup_insert_eq|].
  by rewrite lookup_insert_ne.
Qed.
Lemma moves_SetState g s m : moves (at_one g (player_SetState s)) m (SetState g s m).2.
Proof.
  unfold SetState. destruct (IS_GROUP_GUID g) eqn:Eg; [|apply moves_on_player]. split; [done|]. intros x Hx. unfold at_one.
  destruct (Z.eqb_spec x g) as [->|]; [by unfold is_player in Hx; rewrite Eg in Hx|done].
Qed.
Lemma moves_RestoreState g m : moves (at_one g player_RestoreState) m (RestoreState g m).2.
Proof.
  unfold RestoreState. destruct (IS_GROUP_GUID g) eqn:Eg; [|apply moves_on_player]. split; [done|]. intros x Hx. unfold at_one.
  destruct (Z.eqb_spec x g) as [->|]; [by unfold is_player in Hx; rewrite Eg in Hx|done].
Qed.
Lemma wp_SetState g s m : mwp (SetState g s) m (fun _ => moves (at_one g (player_SetState s)) m).
Proof. pose proof (moves_SetState g s m) as H. unfold SetState in *. by destruct (IS_GROUP_GUID g). Qed.
Lemma wp_RestoreState g m : mwp (RestoreState g) m (fun _ => moves (at_one g player_RestoreState) m).
Proof. pose proof (moves_RestoreState g m) as H. unfold RestoreState in *. by destruct (IS_GROUP_GUID g). Qed.
Lemma wp_lfg_send g msg m : mwp (send w g msg) m (fun _ => moves (fun _ d => d) m).
Proof. unfold send. by destruct (w_online w g). Qed.

(** One step after another. *)
Lemma wp_moves {A B} (p : MP A) (k : A -> MP B) f m Q : mwp p m (fun _ => moves f m) ->
  (forall a m1, moves f m m1 -> mwp (k a) m1 Q) -> mwp (p ≫= k) m Q.
Proof. intros Hp Hk. apply wp_bind. eapply wp_mono; [exact Hp|]. intros a m1. apply Hk. Qed.

Lemma moves_ext f g m m' : moves f m m' -> (forall x d, is_player x -> f x d = g x d) -> moves g m m'.
Proof. intros [C P] H. split; [done|]. intros x Hx. by rewrite P, H. Qed.

(** A player of a proposal: his guid is one of a player, his group's one of a group. *)
Definition party_ok (e : Z * LfgProposalPlayer) : Prop := is_player e.1 /\ (pp_group e.2 <> 0 -> IS_GROUP_GUID (pp_group e.2) = true).
Lemma other_guid e x : party_ok e -> is_player x -> negb (group_or_player e =? e.1) = true -> (x =? group_or_player e) = false.
Proof.
  intros [He Hg] Hx. unfold group_or_player. destruct (Z.eqb_spec (pp_group e.2) 0) as [|Hne]; cbn [negb]; [by rewrite Z.eqb_refl|]. intros _.
  apply Z.eqb_neq. intros ->. unfold is_player in Hx. by rewrite Hg in Hx.
Qed.
Lemma group_of_party e : party_ok e -> negb (group_or_player e =? e.1) = true -> pp_group e.2 = group_or_player e.
Proof. intros _. unfold group_or_player. destruct (pp_group e.2 =? 0); cbn; [by rewrite Z.eqb_refl|done]. Qed.

Definition after_refusal (out : gset Z) (e : Z * LfgProposalPlayer) : LfgPlayerData -> LfgPlayerData :=
  if bool_decide (group_or_player e ∈ out) then player_RestoreState else player_SetState LFG_STATE_QUEUED.
Lemma wp_notify p out t e m : party_ok e -> mwp (notify_removed w p out t e) m (fun _ => moves (at_one e.1 (after_refusal out e)) m).
Proof.
  intros He. unfold notify_removed, after_refusal. cbv zeta. eapply wp_moves; [apply wp_lfg_send|]. intros a1 m1 M1.
  assert (forall (f : LfgPlayerData -> LfgPlayerData) g m2 m3 m4, negb (group_or_player e =? e.1) = true -> moves (at_one e.1 f) m1 m2 ->
    moves (at_one (group_or_player e) g) m2 m3 -> moves (fun _ d => d) m3 m4 -> moves (at_one e.1 f) m m4) as Hgroup.
  { intros f g m2 m3 m4 Hne M2 M3 M4. eapply moves_ext; [eapply moves_trans; [exact M1|eapply moves_trans; [exact M2|eapply moves_trans; [exact M3|exact M4]]]|].
    intros x d Hx. cbn. unfold at_one at 1. by rewrite (other_guid e x). }
  assert (forall (f : LfgPlayerData -> LfgPlayerData) m2 m3, moves (at_one e.1 f) m1 m2 -> moves (fun _ d => d) m2 m3 -> moves (at_one e.1 f) m m3) as Hone.
  { intros f m2 m3 M2 M3. eapply moves_ext; [eapply moves_trans; [exact M1|eapply moves_trans; [exact M2|exact M3]]|done]. }
  destruct (bool_decide (group_or_player e ∈ out)).
  - eapply wp_moves; [apply wp_RestoreState|]. intros a2 m2 M2. destruct (negb _) eqn:En.
    + rewrite (group_of_party e He En). eapply wp_moves; [apply wp_RestoreState|]. intros a3 m3 M3. eapply wp_mono; [apply wp_lfg_send|].
      intros a4 m4. by apply (Hgroup _ player_RestoreState m2 m3).
    + eapply wp_mono; [apply wp_lfg_send|]. intros a3 m3. by apply Hone.
  - eapply wp_moves; [apply wp_SetState|]. intros a2 m2 M2. destruct (negb _) eqn:En.
    + eapply wp_moves; [apply wp_SetState|]. intros a3 m3 M3. apply wp_get. eapply wp_mono; [apply wp_lfg_send|].
      intros a4 m4. by apply (Hgroup _ (player_SetState LFG_STATE_QUEUED) m2 m3).
    + apply wp_get. eapply wp_mono; [apply wp_lfg_send|]. intros a3 m3. by apply Hone.
Qed.

(** All the players in turn. *)
Definition at_all (f : Z * LfgProposalPlayer -> LfgPlayerData -> LfgPlayerData) (l : list (Z * LfgProposalPlayer)) (x : Z) (d : LfgPlayerData) : LfgPlayerData :=
  foldl (fun d e => at_one e.1 (f e) x d) d l.
Lemma at_all_none f l x d : x ∉ l.*1 -> at_all f l x d = d.
Proof.
  unfold at_all. revert d. induction l as [|e l IH]; intros d Hx; [done|]. cbn in *. rewrite elem_of_cons in Hx.
  unfold at_one at 2. rewrite (proj2 (Z.eqb_neq x e.1)) by tauto. apply IH. tauto.
Qed.
Lemma at_all_one f l e d : NoDup l.*1 -> e ∈ l -> at_all f l e.1 d = f e d.
Proof.
  revert d. induction l as [|e' l IH]; intros d Hnd He; [by apply elem_of_nil in He|]. cbn in Hnd. inversion Hnd as [|? ? Hn Hnd']; subst.
  unfold at_all. cbn [foldl]. apply elem_of_cons in He as [->|He].
  - unfold at_one at 2. rewrite Z.eqb_refl. by apply (at_all_none f l).
  - assert (e.1 <> e'.1) as Hne by (intros E; apply Hn; rewrite <- E; by apply list_elem_of_fmap_2).
    unfold at_one at 2. rewrite (proj2 (Z.eqb_neq _ _) Hne). by apply IH.
Qed.
Lemma wp_notify_all p out t l m : (forall e, e ∈ l -> party_ok e) ->
  mwp (forM l (notify_removed w p out t)) m (fun _ => moves (at_all (after_refusal out) l) m).
Proof.
  revert m. induction l as [|e l IH]; intros m Hl; cbn [forM]; [apply moves_refl|].
  eapply wp_moves; [apply wp_notify, Hl; by left|]. intros a1 m1 M1. eapply wp_mono; [apply IH; intros e' He'; apply Hl; by right|].
  intros a2 m2 M2. eapply moves_ext; [eapply moves_trans; [exact M1|exact M2]|done].
Qed.

(** ** The queue *)

Lemma AddToQueues q l : exists q', forM l AddToQueue q = (Ok tt, q') /\ store_of q' = store_of q /\ ProposalsStore q' = ProposalsStore q /\
  m_lfgProposalId q' = m_lfgProposalId q /\ currentQueueStore q' = currentQueueStore q /\
  newToQueueStore q' = newToQueueStore q ++ filter (fun g => is_Some (store_of q !! g)) l.
Proof.
  revert q. induction l as [|g l IH]; intros q; cbn [forM].
  { exists q. split_and!; try done. by rewrite app_nil_r. }
  assert (exists q1, AddToQueue g q = (Ok tt, q1) /\ store_of q1 = store_of q /\ ProposalsStore q1 = ProposalsStore q /\
    m_lfgProposalId q1 = m_lfgProposalId q /\ currentQueueStore q1 = currentQueueStore q /\
    newToQueueStore q1 = newToQueueStore q ++ filter (fun g => is_Some (store_of q !! g)) [g]) as (q1 & E1 & S1 & P1 & I1 & C1 & N1).
  { unfold AddToQueue. rewrite (bind_ok get _ q q q eq_refl). destruct (QueueDataStore q !! g) as [d|] eqn:Ed; eexists; (split; [reflexivity|]); split_and!; try done.
    - rewrite filter_cons_True; [done|]. unfold store_of. rewrite lookup_fmap, Ed. by eexists.
    - rewrite filter_cons_False; [by rewrite app_nil_r|]. unfold store_of. rewrite lookup_fmap, Ed. by intros []. }
  destruct (IH q1) as (q2 & E2 & S2 & P2 & I2 & C2 & N2). exists q2. rewrite (bind_ok _ _ _ _ _ E1).
  split_and!; [done|congruence..|]. rewrite N2, N1, S1, <- app_assoc. f_equal. by rewrite <- filter_app.
Qed.

Lemma zset_singleton x : zset {[x]} = [x].
Proof. unfold zset. by rewrite elements_singleton. Qed.
Lemma refusal_queue q out l : exists q', (forM (zset {[out]}) RemoveFromQueue;; forM (filter (fun g => g ∉ ({[out]} : gset Z)) l) AddToQueue) q = (Ok tt, q') /\
  store_of q' = delete out (store_of q) /\ ProposalsStore q' = ProposalsStore q /\ m_lfgProposalId q' = m_lfgProposalId q /\
  currentQueueStore q' = list_remove out (currentQueueStore q) /\
  newToQueueStore q' = list_remove out (newToQueueStore q) ++ filter (fun g => g <> out /\ is_Some (store_of q !! g)) l.
Proof.
  rewrite zset_singleton. cbn [forM]. destruct (RemoveFromQueue_store out q) as (q1 & E1 & S1 & P1 & I1 & N1 & C1).
  destruct (AddToQueues q1 (filter (fun g => g ∉ ({[out]} : gset Z)) l)) as (q2 & E2 & S2 & P2 & I2 & C2 & N2). exists q2. split.
  { rewrite (bind_ok _ _ q tt q1); [exact E2|]. by rewrite (bind_ok _ _ _ _ _ E1). }
  split_and!; [by rewrite S2|by rewrite P2|by rewrite I2|by rewrite C2|]. rewrite N2, N1. f_equal. rewrite list_filter_filter. apply list_filter_iff.
  intros g. rewrite S1, not_elem_of_singleton. split; intros [H1 H2].
  - split; [done|]. by rewrite lookup_delete_ne in H1 by done.
  - split; [|done]. by rewrite lookup_delete_ne by done.
Qed.

(** ** A refusal *)

Lemma to_remove_one players guid pp : (forall g px, players !! g = Some px -> pp_accept px <> LFG_ANSWER_DENY) ->
  to_remove (<[guid := mkProposalPlayer (pp_role pp) LFG_ANSWER_DENY (pp_group pp)]> players) = {[group_or_player (guid, pp)]}.
Proof.
  intros Hun. apply set_eq. intros x. unfold to_remove. rewrite elem_of_list_to_set, elem_of_singleton, list_elem_of_fmap. split.
  - intros ([g px] & -> & Hg). apply list_elem_of_filter in Hg as [Hd Hg%in_order_spec]. cbn in Hd.
    apply lookup_insert_Some in Hg as [[<- <-]|[_ Hg]]; [done|]. by apply Hun in Hg.
  - intros ->. exists (guid, mkProposalPlayer (pp_role pp) LFG_ANSWER_DENY (pp_group pp)). split; [done|]. apply list_elem_of_filter.
    split; [done|]. apply in_order_spec. apply lookup_insert_eq.
Qed.

Lemma refusal_team out l x d : pd_Team (at_all (after_refusal out) l x d) = pd_Team d.
Proof.
  unfold at_all. revert d. induction l as [|e l IH]; intros d; [done|]. cbn [foldl]. rewrite IH. unfold at_one, after_refusal.
  destruct (x =? e.1); [|done]. destruct (bool_decide (group_or_player e ∈ out)); [|done]. unfold player_RestoreState. by case_bool_decide.
Qed.
Lemma refusal_state out e d : pd_State (after_refusal {[out]} e d) = if group_or_player e =? out then pd_OldState d else LFG_STATE_QUEUED.
Proof.
  unfold after_refusal. destruct (Z.eqb_spec (group_or_player e) out) as [->|Hne].
  - rewrite bool_decide_true by set_solver. unfold player_RestoreState. by case_bool_decide.
  - rewrite bool_decide_false by set_solver. done.
Qed.
End Answers.

(** C26. A player who refuses ends the proposal.  He, or the group he came with, is out of
    the queue and its players are back in the state they had before; everybody else of
    the proposal is queued again, behind those that are new to the queue, and the
    other queues stay as they are. *)
Theorem refusal_spec w known m id p guid pp qid : lfg_reach known m -> mg_proposals m !! id = Some p -> p_players p !! guid = Some pp ->
  (forall x px, p_players p !! x = Some px -> party_ok (x, px) /\ GetTeam m x = qid) ->
  let out := group_or_player (guid, pp) in
  let q := default empty_queue (QueuesStore m !! qid) in
  exists m' q', UpdateProposal w id guid false m = (Ok tt, m') /\ mg_proposals m' = delete id (mg_proposals m) /\
    (forall x px, p_players p !! x = Some px -> pd_State (player_at m' x) =
      if group_or_player (x, px) =? out then pd_OldState (player_at m x) else LFG_STATE_QUEUED) /\
    QueuesStore m' = <[qid := q']> (QueuesStore m) /\ store_of q' = delete out (store_of q) /\
    currentQueueStore q' = list_remove out (currentQueueStore q) /\
    newToQueueStore q' = list_remove out (newToQueueStore q) ++ filter (fun g => g <> out /\ is_Some (store_of q !! g)) (p_queues p).
Proof.
  intros Hm%lfg_reach_ok Hp Hpp Hparty out q. destruct (mo_open _ _ _ Hm id p) as [_ Hun]; [by cbn|done|].
  unfold UpdateProposal. rewrite (bind_ok get _ m m m eq_refl), Hp, Hpp. cbv zeta. cbn [negb].
  set (dp := mkProposalPlayer (pp_role pp) LFG_ANSWER_DENY (pp_group pp)). set (players := <[guid := dp]> (p_players p)).
  set (p1 := p_set_players players (p_state p) p). set (m1 := set_queues (QueuesStore m) (mg_proposalId m) (<[id := p1]> (mg_proposals m)) m).
  rewrite (bind_ok (store_proposal id p1) _ m tt m1) by done. unfold RemoveProposal. rewrite bool_decide_false by done.
  cbn [p_players p1 p_set_players]. fold p1. assert (to_remove players = {[out]}) as -> by (by apply to_remove_one).
  set (p2 := p_set_players players LFG_PROPOSAL_FAILED p1).
  assert (forall e, e ∈ in_order players -> party_ok e /\ GetTeam m e.1 = qid) as Hl.
  { intros [x px] Hx%in_order_spec. apply lookup_insert_Some in Hx as [[<- <-]|[_ Hx]]; [|by apply (Hparty x px)]. by apply (Hparty guid pp). }
  pose proof (wp_notify_all w p2 {[out]} LFG_UPDATETYPE_PROPOSAL_DECLINED (in_order players) m1 (fun e He => proj1 (Hl e He))) as Hn.
  unfold Prelude.wp in Hn. destruct (forM _ _ m1) as [[[]|?] m2] eqn:En; [|done]. rewrite (bind_ok _ _ _ _ _ En). destruct Hn as [Hc Hst].
  assert (guid ∈ (in_order players).*1) as Hin.
  { apply list_elem_of_fmap. exists (guid, dp). split; [done|]. apply in_order_spec, lookup_insert_eq. }
  destruct (in_order players) as [|e l] eqn:El; [by apply elem_of_nil in Hin|]. cbn [head]. rewrite (bind_ok get _ m2 m2 m2 eq_refl).
  destruct (Hl e) as [[He _] Hteam]; [by left|]. assert (GetQueueId m2 e.1 = qid) as ->.
  { unfold GetQueueId, GetTeam. rewrite He, Hst by done. rewrite refusal_team. exact Hteam. }
  destruct (refusal_queue (queue_of m2 qid) out (p_queues p)) as (q2 & Eq & S2 & P2 & I2 & C2 & N2).
  injection Hc as Hqs Hps Hid _ _.
  assert (queue_of m2 qid = set_proposals (mg_proposalId m) (<[id := p1]> (mg_proposals m)) q) as Hqo by (unfold queue_of, q; by rewrite Hqs, Hps, Hid).
  rewrite Hqo in S2, P2, C2, N2.
  eexists _, (set_proposals 0 ∅ q2). split.
  { assert (forall k : unit -> MP unit, (in_queue qid (forM (zset {[out]}) RemoveFromQueue;; forM (filter (fun g => g ∉ ({[out]} : gset Z)) (p_queues p2)) AddToQueue) ≫= k) m2
      = k tt (store_queue qid q2 m2)) as ->; [|reflexivity]. intros k. unfold in_queue, mbind at 1, prog_bind at 1. change (p_queues p2) with (p_queues p). by rewrite Eq. }
  split_and!; [|intros x px Hx| |exact S2|exact C2|exact N2].
  - cbn. rewrite P2. cbn. by rewrite delete_insert_eq.
  - match goal with |- pd_State (player_at ?m' x) = _ => change (player_at m' x) with (player_at m2 x) end.
    destruct (Hparty x px Hx) as [[Hxp _] _]. rewrite Hst, <- El by done.
    assert (exists ex, ex ∈ in_order players /\ ex.1 = x /\ group_or_player ex = group_or_player (x, px)) as (ex & Hex & <- & <-).
    { destruct (decide (x = guid)) as [->|Hne].
      - exists (guid, dp). split_and!; [apply in_order_spec, lookup_insert_eq|done|]. assert (px = pp) as -> by congruence. done.
      - exists (x, px). split_and!; [|done|done]. apply in_order_spec. unfold players. by rewrite lookup_insert_ne. }
    rewrite at_all_one; [|apply in_order_NoDup|done]. rewrite refusal_state. done.
  - cbn. by rewrite Hqs.
Qed.

Lemma after_five_parties p x px : mg_proposals after_five !! 2 = Some p -> p_players p !! x = Some px -> party_ok (x, px) /\ GetTeam after_five x = 0.
Proof.
  assert (from_option (fun p => forallb (fun e => negb (IS_GROUP_GUID e.1) && (pp_group e.2 =? 0) && (GetTeam after_five e.1 =? 0)) (in_order (p_players p))) false
    (mg_proposals after_five !! 2) = true) as H by (vm_compute; reflexivity).
  intros Hp Hx. rewrite Hp in H. cbn in H. rewrite forallb_forall in H. specialize (H (x, px)). cbn in H.
  rewrite !andb_true_iff, negb_true_iff, !Z.eqb_eq in H. destruct H as [[H1 H2] H3]; [by apply list_elem_of_In, in_order_spec|].
  split; [split; [exact H1|]|exact H3]. cbn. intros Hne. by destruct (Hne H2).
Qed.
Lemma refusal_spec_witness : exists m' q', UpdateProposal small_world 2 2 false after_five = (Ok tt, m') /\
  QueuesStore m' !! 0 = Some q' /\ newToQueueStore q' = [5; 1; 3; 4].
Proof.
  destruct (mg_proposals after_five !! 2) as [p|] eqn:Ep; [|exfalso; pose proof after_five_proposal as H; rewrite Ep in H; discriminate H].
  assert (from_option (fun p => (p_queues p, (fun pp => pp_group pp) <$> p_players p !! 2)) ([], None) (mg_proposals after_five !! 2)
    = ([5; 1; 2; 3; 4], Some 0)) as H by (vm_compute; reflexivity).
  rewrite Ep in H. cbn in H. injection H as Hq Hg. destruct (p_players p !! 2) as [pp|] eqn:Epp; [|discriminate Hg]. injection Hg as Hg.
  destruct (refusal_spec small_world just_twenty after_five 2 p 2 pp 0 after_five_reach Ep Epp (fun x px => after_five_parties p x px Ep))
    as (m' & q' & Er & _ & _ & Es & _ & _ & Hn).
  exists m', q'. split; [exact Er|]. split; [by rewrite Es, lookup_insert_eq|]. rewrite Hn, Hq. unfold group_or_player. cbn [fst snd]. rewrite Hg.
  vm_compute. reflexivity.
Defined.

(** ** Votes to kick *)

(** A player of the group who was not there when the vote began is not asked, but
    answering counts him as refusing. *)
Lemma stranger_denies w m guid accept boot : GetGroup m guid <> 0 -> BootsStore m !! GetGroup m guid = Some boot -> pb_votes boot !! guid = None ->
  UpdateBoot w guid accept m = (Ok tt, set_boots (<[GetGroup m guid := pb_set_votes (<[guid := LFG_ANSWER_DENY]> (pb_votes boot)) boot]> (BootsStore m)) m).
Proof.
  intros Hg Hb Hv. unfold UpdateBoot. rewrite (bind_ok get _ m m m eq_refl). cbv zeta. rewrite (proj2 (Z.eqb_neq _ _) Hg), Hb, Hv. done.
Qed.

(** ** A read of an empty set

    A group goes on in its dungeon with a fifth player who was invited by hand: he has
    no dungeon selected, and the read of his first one goes past the end. *)
Definition dungeon_group : Z := 0x1F50000000000007.
Definition dungeon_party : option LfgGroupView := Some (mkGroupView (mkParty dungeon_group true 5 [1; 2; 3; 4; 5]) 1).
Definition invited_by_hand : list LfgCommand :=
  [CmdLoadGroup dungeon_group 1 20 5; CmdLogin 1 dungeon_party 0 ∅; CmdLogin 2 dungeon_party 0 ∅; CmdLogin 3 dungeon_party 0 ∅; CmdLogin 4 dungeon_party 0 ∅;
   CmdHook (OnAddMember dungeon_group 1 5); CmdJoin 1 dungeon_party 2 [20] []; CmdSetRoles 2 dungeon_party 4; CmdSetRoles 3 dungeon_party 8;
   CmdSetRoles 4 dungeon_party 8; CmdSetRoles 5 dungeon_party 8; CmdUpdate 100].
Example invited_player_unselected : (run_command small_world (CmdProposalResult 1 2 true) (run_all small_world invited_by_hand LFGMgr_new)).1 = Err NoSelection.
Proof. vm_compute. reflexivity. Qed.

(** Only the first player, by guid, is told that a group was found. *)
Example one_is_told :
  let m := run_all small_world (five_join ++ [CmdProposalResult 1 2 true; CmdProposalResult 2 2 true; CmdProposalResult 3 2 true; CmdProposalResult 4 2 true;
                                              CmdProposalResult 5 2 true]) LFGMgr_new in
  omap (fun msg => match msg with UpdateStatus g d _ => if bool_decide (ud_updateType d = LFG_UPDATETYPE_GROUP_FOUND) then Some g else None | _ => None end)
    (sent m) = [1].
Proof. vm_compute. reflexivity. Qed.
