(* ===== verification/Economy.v ===== *)
(** * The economy (src/src/serveur/jeu/Entities, commun/Database)

    What mail and auctions share: the items in memory and the players online
    with their money, bags and mailboxes, the tables of the character database
    and the statements that change them.  A pointer to an item is its low guid,
    and following one to a deleted item is an error.  Statements are appended to
    a transaction, which is executed when it is committed, wholly or not at all.
    The configuration, the item templates, the accounts of the players who are
    offline and what the other systems answer are the [EconomyWorld] of an
    operation. *)

From S2P Require Import Prelude.
From S2P Require Import Floats.
From stdpp Require Import sorting.
Local Open Scope Z_scope.

Inductive EconomyError := DanglingItem | NoPlayer | NoTemplate | AssertFailed | FloatRange | SignedOverflow | IdsExhausted.

(** ** Items *)

Inductive ItemUpdateState := ITEM_UNCHANGED | ITEM_CHANGED | ITEM_NEW | ITEM_REMOVED.

Record Item := mkItem {
  it_entry : Z;
  it_count : Z;
  it_owner : Z;
  it_flags : Z;
  it_expiration : Z;
  it_property : Z;
  it_state : ItemUpdateState
}.
Definition item_set_count v i := mkItem (it_entry i) v (it_owner i) (it_flags i) (it_expiration i) (it_property i) (it_state i).
Definition item_set_owner v i := mkItem (it_entry i) (it_count i) v (it_flags i) (it_expiration i) (it_property i) (it_state i).
Definition item_set_flags v i := mkItem (it_entry i) (it_count i) (it_owner i) v (it_expiration i) (it_property i) (it_state i).
Definition item_set_state v i := mkItem (it_entry i) (it_count i) (it_owner i) (it_flags i) (it_expiration i) (it_property i) v.

Definition NO_BIND := 0.
Definition ITEM_FLAG_SOULBOUND := 1.
Definition ITEM_FLAG_WRAPPED := 8.
Definition ITEM_FLAG_BOP_TRADEABLE := 256.
Definition ITEM_FLAG_REFUNDABLE := 4096.
Definition ITEM_PROTO_FLAG_CONJURED := 2.
Definition ITEM_PROTO_FLAG_BIND_TO_ACCOUNT := 134217728.

Record ItemTemplate := mkItemTemplate {
  ip_Stackable : Z;
  ip_Flags : Z;
  ip_SellPrice : Z;
  ip_Duration : Z;
  ip_Bonding : Z;
  ip_Class : Z;
  ip_SubClass : Z;
  ip_InventoryType : Z;
  ip_Quality : Z;
  ip_RequiredLevel : Z
}.
Definition GetMaxStackSize (t : ItemTemplate) : Z :=
  if (ip_Stackable t =? 2147483647) || (ip_Stackable t <=? 0) then 2147483646 else u32 (ip_Stackable t).

(** [uState] after [Item::SetState]; a new item that is removed is deleted, which
    no operation here does. *)
Definition SetState (state : ItemUpdateState) (i : Item) : Item :=
  match state, it_state i with
  | ITEM_UNCHANGED, _ => item_set_state ITEM_UNCHANGED i
  | _, ITEM_NEW => i
  | _, _ => item_set_state state i
  end.
(** [Item::SetNotRefundable] *)
Definition SetNotRefundable (changestate : bool) (i : Item) : Item :=
  if has (it_flags i) ITEM_FLAG_REFUNDABLE then
    let i := item_set_flags (Z.ldiff (it_flags i) ITEM_FLAG_REFUNDABLE) i in
    if changestate then SetState ITEM_CHANGED i else i
  else i.

(** The guid of an item with no entry part. *)
Definition HIGHGUID_ITEM := 1024.
Definition HIGHGUID_CORPSE := 61697.
Definition HIGHGUID_AREATRIGGER := 61698.
Definition MAKE_NEW_GUID (l e h : Z) : Z :=
  Z.lor (Z.lor l (u64 (Z.shiftl e 32)))
    (u64 (Z.shiftl h (if (h =? HIGHGUID_CORPSE) || (h =? HIGHGUID_AREATRIGGER) then 48 else 52))).
Definition item_guid (low : Z) : Z := MAKE_NEW_GUID low 0 HIGHGUID_ITEM.

(** ** The tables *)

Record AuctionRow := mkAuctionRow {
  ar_auctioneerguid : Z;
  ar_itemguid : Z;
  ar_itemowner : Z;
  ar_buyoutprice : Z;
  ar_time : Z;
  ar_buyguid : Z;
  ar_lastbid : Z;
  ar_startbid : Z;
  ar_deposit : Z
}.
Definition row_set_bid (buyguid lastbid : Z) (r : AuctionRow) : AuctionRow :=
  mkAuctionRow (ar_auctioneerguid r) (ar_itemguid r) (ar_itemowner r) (ar_buyoutprice r) (ar_time r) buyguid lastbid
    (ar_startbid r) (ar_deposit r).

Record MailRow := mkMailRow {
  mr_messageType : Z;
  mr_stationery : Z;
  mr_mailTemplateId : Z;
  mr_sender : Z;
  mr_receiver : Z;
  mr_subject : list Z;
  mr_body : list Z;
  mr_has_items : bool;
  mr_expire_time : Z;
  mr_deliver_time : Z;
  mr_money : Z;
  mr_cod : Z;
  mr_checked : Z
}.
(** [UPDATE mail] of [CHAR_UPD_MAIL]. *)
Definition mail_row_update (has_items : bool) (expire deliver money cod checked : Z) (r : MailRow) : MailRow :=
  mkMailRow (mr_messageType r) (mr_stationery r) (mr_mailTemplateId r) (mr_sender r) (mr_receiver r) (mr_subject r) (mr_body r)
    has_items expire deliver money cod checked.
(** That of [CHAR_UPD_MAIL_RETURNED]. *)
Definition mail_row_returned (sender receiver expire deliver checked : Z) (r : MailRow) : MailRow :=
  mkMailRow (mr_messageType r) (mr_stationery r) (mr_mailTemplateId r) sender receiver (mr_subject r) (mr_body r)
    (mr_has_items r) expire deliver (mr_money r) 0 checked.

Record ItemRow := mkItemRow { ir_entry : Z; ir_owner : Z; ir_count : Z; ir_duration : Z; ir_flags : Z; ir_property : Z }.
Definition item_row (i : Item) : ItemRow :=
  mkItemRow (it_entry i) (it_owner i) (it_count i) (it_expiration i) (it_flags i) (it_property i).
Definition row_set_load (duration flags : Z) (r : ItemRow) : ItemRow :=
  mkItemRow (ir_entry r) (ir_owner r) (ir_count r) duration flags (ir_property r).
Definition row_set_owner v r := mkItemRow (ir_entry r) v (ir_count r) (ir_duration r) (ir_flags r) (ir_property r).

(** [auctionhouse], [mail], [mail_items] by item, [item_instance] and the money
    of [characters]. *)
Record CharDB := mkCharDB {
  db_auctions : gmap Z AuctionRow;
  db_mails : gmap Z MailRow;
  db_mail_items : gmap Z (Z * Z);
  db_items : gmap Z ItemRow;
  db_money : gmap Z Z
}.
Definition db_set_auctions v d := mkCharDB v (db_mails d) (db_mail_items d) (db_items d) (db_money d).
Definition db_set_mails v d := mkCharDB (db_auctions d) v (db_mail_items d) (db_items d) (db_money d).
Definition db_set_mail_items v d := mkCharDB (db_auctions d) (db_mails d) v (db_items d) (db_money d).
Definition db_set_items v d := mkCharDB (db_auctions d) (db_mails d) (db_mail_items d) v (db_money d).
Definition db_set_money v d := mkCharDB (db_auctions d) (db_mails d) (db_mail_items d) (db_items d) v.

Inductive CharStatement :=
| CHAR_INS_AUCTION (id : Z) (row : AuctionRow)
| CHAR_DEL_AUCTION (id : Z)
| CHAR_UPD_AUCTION_BID (buyguid lastbid id : Z)
| CHAR_INS_MAIL (id : Z) (row : MailRow)
| CHAR_UPD_MAIL (has_items : bool) (expire deliver money cod checked id : Z)
| CHAR_DEL_MAIL_BY_ID (id : Z)
| CHAR_UPD_MAIL_RETURNED (sender receiver expire deliver checked id : Z)
| CHAR_DEL_EMPTY_EXPIRED_MAIL (time : Z)
| CHAR_INS_MAIL_ITEM (mail_id item receiver : Z)
| CHAR_DEL_MAIL_ITEM (item : Z)
| CHAR_DEL_MAIL_ITEM_BY_ID (mail_id : Z)
| CHAR_UPD_MAIL_ITEM_RECEIVER (receiver item : Z)
| CHAR_REP_ITEM_INSTANCE (guid : Z) (row : ItemRow)
| CHAR_UPD_ITEM_INSTANCE (guid : Z) (row : ItemRow)
| CHAR_UPD_ITEM_INSTANCE_ON_LOAD (duration flags guid : Z)
| CHAR_DEL_ITEM_INSTANCE (guid : Z)
| CHAR_UPD_ITEM_OWNER (owner guid : Z)
| CHAR_UDP_CHAR_MONEY (money guid : Z).

(** One statement; an [INSERT] fails if a unique key is taken. *)
Definition exec_statement (st : CharStatement) (d : CharDB) : option CharDB :=
  match st with
  | CHAR_INS_AUCTION id row =>
      if bool_decide (is_Some (db_auctions d !! id)) ||
         existsb (fun e => ar_itemguid e.2 =? ar_itemguid row) (map_to_list (db_auctions d))
      then None else Some (db_set_auctions (<[id := row]> (db_auctions d)) d)
  | CHAR_DEL_AUCTION id => Some (db_set_auctions (delete id (db_auctions d)) d)
  | CHAR_UPD_AUCTION_BID buyguid lastbid id => Some (db_set_auctions (alter (row_set_bid buyguid lastbid) id (db_auctions d)) d)
  | CHAR_INS_MAIL id row =>
      if bool_decide (is_Some (db_mails d !! id)) then None else Some (db_set_mails (<[id := row]> (db_mails d)) d)
  | CHAR_UPD_MAIL has_items expire deliver money cod checked id =>
      Some (db_set_mails (alter (mail_row_update has_items expire deliver money cod checked) id (db_mails d)) d)
  | CHAR_DEL_MAIL_BY_ID id => Some (db_set_mails (delete id (db_mails d)) d)
  | CHAR_UPD_MAIL_RETURNED sender receiver expire deliver checked id =>
      Some (db_set_mails (alter (mail_row_returned sender receiver expire deliver checked) id (db_mails d)) d)
  | CHAR_DEL_EMPTY_EXPIRED_MAIL time =>
      Some (db_set_mails (filter (fun e => ~ (mr_expire_time e.2 < time /\ mr_has_items e.2 = false /\ mr_body e.2 = [])) (db_mails d)) d)
  | CHAR_INS_MAIL_ITEM mail_id item receiver =>
      if bool_decide (is_Some (db_mail_items d !! item)) then None
      else Some (db_set_mail_items (<[item := (mail_id, receiver)]> (db_mail_items d)) d)
  | CHAR_DEL_MAIL_ITEM item => Some (db_set_mail_items (delete item (db_mail_items d)) d)
  | CHAR_DEL_MAIL_ITEM_BY_ID mail_id => Some (db_set_mail_items (filter (fun e => e.2.1 <> mail_id) (db_mail_items d)) d)
  | CHAR_UPD_MAIL_ITEM_RECEIVER receiver item =>
      Some (db_set_mail_items (alter (fun e => (e.1, receiver)) item (db_mail_items d)) d)
  | CHAR_REP_ITEM_INSTANCE guid row => Some (db_set_items (<[guid := row]> (db_items d)) d)
  | CHAR_UPD_ITEM_INSTANCE guid row => Some (db_set_items (alter (fun _ => row) guid (db_items d)) d)
  | CHAR_UPD_ITEM_INSTANCE_ON_LOAD duration flags guid => Some (db_set_items (alter (row_set_load duration flags) guid (db_items d)) d)
  | CHAR_DEL_ITEM_INSTANCE guid => Some (db_set_items (delete guid (db_items d)) d)
  | CHAR_UPD_ITEM_OWNER owner guid => Some (db_set_items (alter (row_set_owner owner) guid (db_items d)) d)
  | CHAR_UDP_CHAR_MONEY money guid => Some (db_set_money (<[guid := money]> (db_money d)) d)
  end.
Fixpoint exec_statements (l : list CharStatement) (d : CharDB) : option CharDB :=
  match l with
  | [] => Some d
  | st :: l' => match exec_statement st d with Some d' => exec_statements l' d' | None => None end
  end.
(** [MySQLConnection::ExecuteTransaction]: rolled back if a statement fails. *)
Definition ExecuteTransaction (l : list CharStatement) (d : CharDB) : CharDB := default d (exec_statements l d).

(** ** Mails, players and auctions in memory *)

Inductive MailState := MAIL_STATE_UNCHANGED | MAIL_STATE_CHANGED | MAIL_STATE_DELETED.

(** [items] pairs the low guid of an item with its template. *)
Record Mail := mkMail {
  ml_messageID : Z;
  ml_messageType : Z;
  ml_stationery : Z;
  ml_mailTemplateId : Z;
  ml_sender : Z;
  ml_receiver : Z;
  ml_subject : list Z;
  ml_body : list Z;
  ml_items : list (Z * Z);
  ml_removedItems : list Z;
  ml_expire_time : Z;
  ml_deliver_time : Z;
  ml_money : Z;
  ml_COD : Z;
  ml_checked : Z;
  ml_state : MailState
}.
Definition mail_with (items : list (Z * Z)) (removed : list Z) (money cod checked : Z) (state : MailState) (m : Mail) : Mail :=
  mkMail (ml_messageID m) (ml_messageType m) (ml_stationery m) (ml_mailTemplateId m) (ml_sender m) (ml_receiver m) (ml_subject m)
    (ml_body m) items removed (ml_expire_time m) (ml_deliver_time m) money cod checked state.
Definition mail_set_state state m := mail_with (ml_items m) (ml_removedItems m) (ml_money m) (ml_COD m) (ml_checked m) state m.

(** [pl_bags] is what [GetItemByGuid] looks through, by position; [pl_mitems] is
    [mMitems]. *)
Record Player := mkPlayer {
  pl_money : Z;
  pl_bags : gmap Z Z;
  pl_mailsLoaded : bool;
  pl_mailsUpdated : bool;
  pl_mails : list Mail;
  pl_mitems : gset Z;
  pl_unReadMails : Z;
  pl_nextMail : Z
}.
Definition player_set_money v p :=
  mkPlayer v (pl_bags p) (pl_mailsLoaded p) (pl_mailsUpdated p) (pl_mails p) (pl_mitems p) (pl_unReadMails p) (pl_nextMail p).
Definition player_set_bags v p :=
  mkPlayer (pl_money p) v (pl_mailsLoaded p) (pl_mailsUpdated p) (pl_mails p) (pl_mitems p) (pl_unReadMails p) (pl_nextMail p).
Definition player_set_loaded v p :=
  mkPlayer (pl_money p) (pl_bags p) v (pl_mailsUpdated p) (pl_mails p) (pl_mitems p) (pl_unReadMails p) (pl_nextMail p).
Definition player_set_updated v p :=
  mkPlayer (pl_money p) (pl_bags p) (pl_mailsLoaded p) v (pl_mails p) (pl_mitems p) (pl_unReadMails p) (pl_nextMail p).
Definition player_set_mails v p :=
  mkPlayer (pl_money p) (pl_bags p) (pl_mailsLoaded p) (pl_mailsUpdated p) v (pl_mitems p) (pl_unReadMails p) (pl_nextMail p).
Definition player_set_mitems v p :=
  mkPlayer (pl_money p) (pl_bags p) (pl_mailsLoaded p) (pl_mailsUpdated p) (pl_mails p) v (pl_unReadMails p) (pl_nextMail p).
Definition player_set_unread v p :=
  mkPlayer (pl_money p) (pl_bags p) (pl_mailsLoaded p) (pl_mailsUpdated p) (pl_mails p) (pl_mitems p) v (pl_nextMail p).
Definition player_set_next v p :=
  mkPlayer (pl_money p) (pl_bags p) (pl_mailsLoaded p) (pl_mailsUpdated p) (pl_mails p) (pl_mitems p) (pl_unReadMails p) v.

Record AuctionHouseEntry := mkAuctionHouseEntry { he_houseId : Z; he_faction : Z; he_depositPercent : Z; he_cutPercent : Z }.

Record AuctionEntry := mkAuctionEntry {
  au_Id : Z;
  au_auctioneer : Z;
  au_itemGUIDLow : Z;
  au_itemEntry : Z;
  au_itemCount : Z;
  au_owner : Z;
  au_startbid : Z;
  au_bid : Z;
  au_buyout : Z;
  au_expire_time : Z;
  au_bidder : Z;
  au_deposit : Z;
  au_house : AuctionHouseEntry;
  au_factionTemplateId : Z
}.
Definition auction_set_bid (bidder bid : Z) (a : AuctionEntry) : AuctionEntry :=
  mkAuctionEntry (au_Id a) (au_auctioneer a) (au_itemGUIDLow a) (au_itemEntry a) (au_itemCount a) (au_owner a) (au_startbid a) bid
    (au_buyout a) (au_expire_time a) bidder (au_deposit a) (au_house a) (au_factionTemplateId a).

(** The three [AuctionHouseObject]s of the manager. *)
Inductive House := mHordeAuctions | mAllianceAuctions | mNeutralAuctions.
#[export] Instance house_eq_dec : EqDecision House.
Proof. solve_decision. Defined.

Inductive EconomyPacket :=
| SMSG_AUCTION_COMMAND_RESULT (data : list Z)
| SMSG_AUCTION_BIDDER_NOTIFICATION (data : list Z)
| SMSG_AUCTION_OWNER_NOTIFICATION (data : list Z)
| SMSG_AUCTION_REMOVED_NOTIFICATION (data : list Z)
| SMSG_AUCTION_LIST_RESULT (data : list Z)
| SMSG_AUCTION_BIDDER_LIST_RESULT (data : list Z)
| SMSG_AUCTION_OWNER_LIST_RESULT (data : list Z)
| SMSG_SEND_MAIL_RESULT (data : list Z)
| SMSG_RECEIVED_MAIL (data : list Z)
| SMSG_NOTIFICATION (text arg : Z)
| SMSG_MAIL_LIST_RESULT (data : list Z)
| MSG_QUERY_NEXT_MAIL_TIME (data : list Z).

Record Realm := mkRealm {
  r_items : gmap Z Item;
  r_online : gmap Z Player;
  r_auctions : House -> gmap Z AuctionEntry;
  r_aitems : gset Z;
  r_next_auction : Z;
  r_next_mail : Z;
  r_next_item : Z;
  r_db : CharDB;
  r_trans : list CharStatement;
  r_sent : list (Z * EconomyPacket)
}.
Definition set_items v s := mkRealm v (r_online s) (r_auctions s) (r_aitems s) (r_next_auction s) (r_next_mail s) (r_next_item s)
  (r_db s) (r_trans s) (r_sent s).
Definition set_online v s := mkRealm (r_items s) v (r_auctions s) (r_aitems s) (r_next_auction s) (r_next_mail s) (r_next_item s)
  (r_db s) (r_trans s) (r_sent s).
Definition set_auctions v s := mkRealm (r_items s) (r_online s) v (r_aitems s) (r_next_auction s) (r_next_mail s) (r_next_item s)
  (r_db s) (r_trans s) (r_sent s).
Definition set_aitems v s := mkRealm (r_items s) (r_online s) (r_auctions s) v (r_next_auction s) (r_next_mail s) (r_next_item s)
  (r_db s) (r_trans s) (r_sent s).
Definition set_next_auction v s := mkRealm (r_items s) (r_online s) (r_auctions s) (r_aitems s) v (r_next_mail s) (r_next_item s)
  (r_db s) (r_trans s) (r_sent s).
Definition set_next_mail v s := mkRealm (r_items s) (r_online s) (r_auctions s) (r_aitems s) (r_next_auction s) v (r_next_item s)
  (r_db s) (r_trans s) (r_sent s).
Definition set_next_item v s := mkRealm (r_items s) (r_online s) (r_auctions s) (r_aitems s) (r_next_auction s) (r_next_mail s) v
  (r_db s) (r_trans s) (r_sent s).
Definition set_db v s := mkRealm (r_items s) (r_online s) (r_auctions s) (r_aitems s) (r_next_auction s) (r_next_mail s)
  (r_next_item s) v (r_trans s) (r_sent s).
Definition set_trans v s := mkRealm (r_items s) (r_online s) (r_auctions s) (r_aitems s) (r_next_auction s) (r_next_mail s)
  (r_next_item s) (r_db s) v (r_sent s).
Definition send_packet (to : Z) (m : EconomyPacket) s := mkRealm (r_items s) (r_online s) (r_auctions s) (r_aitems s)
  (r_next_auction s) (r_next_mail s) (r_next_item s) (r_db s) (r_trans s) (r_sent s ++ [(to, m)]).

(** What an operation finds around it: the two clocks, the configuration, the
    item templates, the account of a stored player (0 if he does not exist), and
    what players, creatures and items answer. *)
Record EconomyWorld := mkEconomyWorld {
  ew_time : Z;
  ew_game_time : Z;
  ew_mail_delay : Z;
  ew_two_side : bool;
  ew_rate_time : spec_float;
  ew_rate_deposit : spec_float;
  ew_rate_cut : spec_float;
  ew_proto : Z -> option ItemTemplate;
  ew_account : Z -> Z;
  ew_gamemaster : Z -> bool;
  ew_battlemaster : Z -> bool;
  ew_mail_template : Z -> bool;
  ew_mail_loot : Z -> Z -> list (option (Z * Z));
  ew_faction_mask : Z -> option Z;
  ew_house : Z -> option AuctionHouseEntry;
  ew_creature : Z -> option Z;
  ew_creature_faction : Z -> option Z;
  ew_auctioneer : Z -> Z -> option Z;
  ew_enchantments : Z -> list (Z * Z * Z);
  ew_suffix_factor : Z -> Z;
  ew_spell_charges : Z -> Z;
  ew_can_use : Z -> Z -> bool;
  ew_name_fits : Z -> Z -> list Z -> bool;
  ew_tradable : Z -> bool -> bool;
  ew_not_empty_bag : Z -> bool
}.

Abbreviation RP := (prog Realm EconomyError).

(** ** Primitives *)

Definition deref_item (g : Z) : RP Item :=
  s ← get; match r_items s !! g with Some i => mret i | None => throw DanglingItem end.
Definition upd_item (g : Z) (f : Item -> Item) : RP unit :=
  i ← deref_item g; modify (fun s => set_items (<[g := f i]> (r_items s)) s).
Definition delete_item (g : Z) : RP unit :=
  deref_item g;; modify (fun s => set_items (delete g (r_items s)) s).
Definition deref_player (p : Z) : RP Player :=
  s ← get; match r_online s !! p with Some pl => mret pl | None => throw NoPlayer end.
Definition upd_player (p : Z) (f : Player -> Player) : RP unit :=
  pl ← deref_player p; modify (fun s => set_online (<[p := f pl]> (r_online s)) s).
(** [ObjectAccessor::FindPlayer] finds him. *)
Definition is_online (s : Realm) (p : Z) : bool := bool_decide (is_Some (r_online s !! p)).
Definition SendPacket (to : Z) (m : EconomyPacket) : RP unit := modify (send_packet to m).

Definition BeginTransaction : RP unit := modify (set_trans []).
Definition Append (st : CharStatement) : RP unit := modify (fun s => set_trans (r_trans s ++ [st]) s).
Definition CommitTransaction : RP unit :=
  modify (fun s => set_trans [] (set_db (ExecuteTransaction (r_trans s) (r_db s)) s)).
(** [CharacterDatabase.Execute] *)
Definition Execute (st : CharStatement) : RP unit := modify (fun s => set_db (ExecuteTransaction [st] (r_db s)) s).

(** The counters of [ObjectMgr]; where they run out the server shuts down. *)
Definition GenerateAuctionID : RP Z :=
  s ← get;
  if 4294967294 <=? r_next_auction s then throw IdsExhausted
  else modify (set_next_auction (r_next_auction s + 1));; mret (r_next_auction s).
Definition GenerateMailID : RP Z :=
  s ← get;
  if 4294967294 <=? r_next_mail s then throw IdsExhausted
  else modify (set_next_mail (r_next_mail s + 1));; mret (r_next_mail s).
Definition GenerateItemGuid : RP Z :=
  s ← get;
  if 4294967294 <=? r_next_item s then throw IdsExhausted
  else modify (set_next_item (r_next_item s + 1));; mret (r_next_item s).

(** *** Items *)

Definition SaveToDB (g : Z) : RP unit :=
  i ← deref_item g;
  match it_state i with
  | ITEM_NEW => Append (CHAR_REP_ITEM_INSTANCE g (item_row i));; upd_item g (SetState ITEM_UNCHANGED)
  | ITEM_CHANGED => Append (CHAR_UPD_ITEM_INSTANCE g (item_row i));; upd_item g (SetState ITEM_UNCHANGED)
  | ITEM_REMOVED => Append (CHAR_DEL_ITEM_INSTANCE g);; delete_item g
  | ITEM_UNCHANGED => upd_item g (SetState ITEM_UNCHANGED)
  end.

Section Items.
Context (w : EconomyWorld).

(** [Item::GetTemplate] where the result is used. *)
Definition GetTemplate (g : Z) : RP ItemTemplate :=
  i ← deref_item g; match ew_proto w (it_entry i) with Some t => mret t | None => throw NoTemplate end.

(** [Item::LoadFromDB] into a new object, [owner] 0 if it is not to be set. *)
Definition LoadFromDB_item (g owner : Z) (r : ItemRow) : RP bool :=
  match ew_proto w (ir_entry r) with
  | None => mret false
  | Some t =>
      let fix_duration := negb (Bool.eqb (ip_Duration t =? 0) (ir_duration r =? 0)) in
      let duration := if fix_duration then ip_Duration t else ir_duration r in
      let fix_flags := has (ir_flags r) ITEM_FLAG_SOULBOUND && (ip_Bonding t =? NO_BIND) in
      let flags := if fix_flags then Z.ldiff (ir_flags r) ITEM_FLAG_SOULBOUND else ir_flags r in
      modify (fun s => set_items (<[g := mkItem (ir_entry r) (ir_count r) owner flags duration (ir_property r) ITEM_NEW]> (r_items s)) s);;
      (if fix_duration || fix_flags then Execute (CHAR_UPD_ITEM_INSTANCE_ON_LOAD duration flags g) else mret tt);;
      mret true
  end.

(** [Item::CreateItem] for a player, whose new item has not been saved. *)
Definition CreateItem (entry count player : Z) : RP (option Z) :=
  if count <? 1 then mret None
  else
    match ew_proto w entry with
    | None => throw AssertFailed
    | Some t =>
        let count := if GetMaxStackSize t <? count then GetMaxStackSize t else count in
        if count =? 0 then throw AssertFailed
        else
          g ← GenerateItemGuid;
          modify (fun s => set_items (<[g := mkItem entry count player 0 (ip_Duration t) 0 ITEM_NEW]> (r_items s)) s);;
          mret (Some g)
    end.

Definition clone_flags (flags : Z) : Z := Z.ldiff flags (Z.lor ITEM_FLAG_REFUNDABLE ITEM_FLAG_BOP_TRADEABLE).
Definition CloneItem (g count player : Z) : RP (option Z) :=
  i ← deref_item g;
  o ← CreateItem (it_entry i) count player;
  match o with
  | None => mret None
  | Some n =>
      upd_item n (fun j => mkItem (it_entry j) (it_count j) (it_owner j) (clone_flags (it_flags i)) (it_expiration i) (it_property i)
        (it_state j));;
      mret (Some n)
  end.
End Items.

(** *** Money and bags *)

Definition MAX_MONEY_AMOUNT := 9999999999.

Definition HasEnoughMoney (pl : Player) (amount : Z) : bool := amount <=? pl_money pl.
(** [-int64(v)] and [-int32(v)] *)
Definition neg64 (v : Z) : RP Z := if s64 v =? - 2 ^ 63 then throw SignedOverflow else mret (- s64 v).
Definition neg32 (v : Z) : RP Z := if s32 v =? - 2 ^ 31 then throw SignedOverflow else mret (- s32 v).
(** [amount] is an [int64]. *)
Definition ModifyMoney (p amount : Z) : RP bool :=
  pl ← deref_player p;
  if amount =? 0 then mret true
  else if amount <? 0 then
    upd_player p (player_set_money (if u64 (- amount) <? pl_money pl then u64 (pl_money pl + amount) else 0));; mret true
  else if pl_money pl <? u64 (MAX_MONEY_AMOUNT - amount) then
    upd_player p (player_set_money (u64 (pl_money pl + amount)));; mret true
  else mret false.
Definition SaveGoldToDB (p : Z) : RP unit :=
  pl ← deref_player p; Append (CHAR_UDP_CHAR_MONEY (pl_money pl) p).

Definition GetItemByGuid (pl : Player) (guid : Z) : option Z :=
  head (filter (fun g => item_guid g = guid) (in_order (pl_bags pl)).*2).
(** [Player::MoveItemFromInventory] of the position the item says it is at. *)
Definition MoveItemFromInventory (p g : Z) : RP unit :=
  pl ← deref_player p;
  if bool_decide (g ∈ (in_order (pl_bags pl)).*2) then
    upd_player p (player_set_bags (filter (fun e => e.2 <> g) (pl_bags pl)));;
    upd_item g (SetNotRefundable false)
  else mret tt.
