(* ===== verification/EconomyProofs.v ===== *)
(** * The economy: rules for its primitives (model in Economy.v)

    What an operation may fail with, what a transaction will have done once it is
    committed, and who owns how much money. *)

From S2P Require Import Prelude.
From S2P Require Import Economy.
From stdpp Require Import list sorting.
Local Open Scope Z_scope.
#[local] Set Warnings "-clear-no-such-hyp".

(** Ids that run out and numbers out of range; never a pointer, a missing row or
    an assertion. *)
Definition limits (e : EconomyError) : Prop := e = FloatRange \/ e = SignedOverflow \/ e = IdsExhausted.
Abbreviation ewp := (Prelude.wp limits).

(** ** Transactions *)

(** The tables once the transaction is committed. *)
Definition pending (s : Realm) : option CharDB := exec_statements (r_trans s) (r_db s).

Lemma exec_app l1 l2 d : exec_statements (l1 ++ l2) d = exec_statements l1 d ≫= exec_statements l2.
Proof. revert d. induction l1 as [|st l1 IH]; intros d; [done|]. cbn. by destruct (exec_statement st d); [apply IH|]. Qed.

Lemma pending_append s st d d' : pending s = Some d -> exec_statement st d = Some d' ->
  pending (set_trans (r_trans s ++ [st]) s) = Some d'.
Proof. intros Hd Hst. unfold pending in *. cbn. rewrite exec_app, Hd. cbn. by rewrite Hst. Qed.

Lemma pending_commit s d : pending s = Some d -> ExecuteTransaction (r_trans s) (r_db s) = d.
Proof. unfold pending, ExecuteTransaction. by intros ->. Qed.

(** ** Rules *)

(** The runs of the primitives that succeed; [wp_seq] steps over them. *)
Lemma deref_item_ok g i s : r_items s !! g = Some i -> deref_item g s = (Ok i, s).
Proof. intros Hi. unfold deref_item. rewrite (bind_ok get _ s s s eq_refl). by rewrite Hi. Qed.
Lemma upd_item_ok g f i s : r_items s !! g = Some i -> upd_item g f s = (Ok tt, set_items (<[g := f i]> (r_items s)) s).
Proof. intros Hi. unfold upd_item. by rewrite (bind_ok _ _ _ _ _ (deref_item_ok g i s Hi)). Qed.
Lemma delete_item_ok g i s : r_items s !! g = Some i -> delete_item g s = (Ok tt, set_items (delete g (r_items s)) s).
Proof. intros Hi. unfold delete_item. by rewrite (bind_ok _ _ _ _ _ (deref_item_ok g i s Hi)). Qed.
Lemma deref_player_ok p pl s : r_online s !! p = Some pl -> deref_player p s = (Ok pl, s).
Proof. intros Hp. unfold deref_player. rewrite (bind_ok get _ s s s eq_refl). by rewrite Hp. Qed.
Lemma upd_player_ok p f pl s : r_online s !! p = Some pl -> upd_player p f s = (Ok tt, set_online (<[p := f pl]> (r_online s)) s).
Proof. intros Hp. unfold upd_player. by rewrite (bind_ok _ _ _ _ _ (deref_player_ok p pl s Hp)). Qed.

Lemma modify_ok f s : (modify f : RP unit) s = (Ok tt, f s).
Proof. done. Qed.

Lemma GenerateMailID_ewp s Q : Q (r_next_mail s) (set_next_mail (r_next_mail s + 1) s) -> ewp GenerateMailID s Q.
Proof.
  intros HQ. unfold GenerateMailID. apply wp_get. destruct (_ <=? _); [apply wp_throw; unfold limits; auto|done].
Qed.
Lemma GenerateAuctionID_ewp s Q : Q (r_next_auction s) (set_next_auction (r_next_auction s + 1) s) -> ewp GenerateAuctionID s Q.
Proof.
  intros HQ. unfold GenerateAuctionID. apply wp_get. destruct (_ <=? _); [apply wp_throw; unfold limits; auto|done].
Qed.
Lemma GenerateItemGuid_ewp s Q : Q (r_next_item s) (set_next_item (r_next_item s + 1) s) -> ewp GenerateItemGuid s Q.
Proof.
  intros HQ. unfold GenerateItemGuid. apply wp_get. destruct (_ <=? _); [apply wp_throw; unfold limits; auto|done].
Qed.
Lemma neg64_ewp v s Q : Q (- s64 v) s -> ewp (neg64 v) s Q.
Proof. intros HQ. unfold neg64. destruct (_ =? _); [apply wp_throw; unfold limits; auto|done]. Qed.
Lemma neg32_ewp v s Q : Q (- s32 v) s -> ewp (neg32 v) s Q.
Proof. intros HQ. unfold neg32. destruct (_ =? _); [apply wp_throw; unfold limits; auto|done]. Qed.

(** A loop over statements appends them all. *)
Lemma forM_append {X} (l : list X) (f : X -> CharStatement) s :
  forM l (fun x => Append (f x)) s = (Ok tt, set_trans (r_trans s ++ (f <$> l)) s).
Proof.
  revert s. induction l as [|x l IH]; intros s; cbn [forM].
  - cbn. rewrite app_nil_r. by destruct s.
  - rewrite (bind_ok (Append (f x)) _ s tt _ eq_refl), IH. cbn. by rewrite <- app_assoc.
Qed.
(** Deleting a list of items that are there. *)
Definition without (l : list Z) {V} (F : gmap Z V) : gmap Z V := filter (fun e => e.1 ∉ l) F.
Lemma lookup_without l {V} (F : gmap Z V) g : without l F !! g = if bool_decide (g ∈ l) then None else F !! g.
Proof.
  unfold without. case_bool_decide as Hg.
  - apply map_lookup_filter_None. right. intros x _. cbn. tauto.
  - destruct (F !! g) eqn:E; [apply map_lookup_filter_Some; by split|apply map_lookup_filter_None; by left].
Qed.
Lemma without_nil {V} (F : gmap Z V) : without [] F = F.
Proof. apply map_eq. intros g. by rewrite lookup_without. Qed.
Lemma delete_without g l {V} (F : gmap Z V) : without l (delete g F) = without (g :: l) F.
Proof.
  apply map_eq. intros x. rewrite !lookup_without. destruct (decide (x = g)) as [->|Hne].
  - rewrite lookup_delete_eq. rewrite (bool_decide_true (g ∈ g :: l)) by by left. by case_bool_decide.
  - rewrite lookup_delete_ne by done. destruct (decide (x ∈ l)).
    + by rewrite !bool_decide_true by (try right; done).
    + rewrite !bool_decide_false; [done|set_solver|done].
Qed.
Lemma forM_delete_items l s : NoDup l -> (forall g, g ∈ l -> is_Some (r_items s !! g)) ->
  forM l delete_item s = (Ok tt, set_items (without l (r_items s)) s).
Proof.
  revert s. induction l as [|g l IH]; intros s Hnd Hl; cbn [forM].
  - rewrite without_nil. by destruct s.
  - apply NoDup_cons in Hnd as [Hg Hnd]. destruct (Hl g ltac:(by left)) as [i Hi].
    rewrite (bind_ok _ _ _ _ _ (delete_item_ok g i s Hi)), IH; [cbn; by rewrite delete_without|done|].
    intros x Hx. cbn. rewrite lookup_delete_ne by (intros ->; done). apply Hl. by right.
Qed.

(** ** Loading items *)

(** The tables but for what loading an item may write. *)
Record same_tables (d d' : CharDB) : Prop := {
  st_auctions : db_auctions d' = db_auctions d;
  st_mails : db_mails d' = db_mails d;
  st_mail_items : db_mail_items d' = db_mail_items d;
  st_items : (fun r => (ir_entry r, ir_count r)) <$> db_items d' = (fun r => (ir_entry r, ir_count r)) <$> db_items d
}.
Lemma same_tables_refl d : same_tables d d.
Proof. done. Qed.
Lemma same_tables_trans d1 d2 d3 : same_tables d1 d2 -> same_tables d2 d3 -> same_tables d1 d3.
Proof. intros [] []. split; congruence. Qed.
Lemma same_row d d' g r : same_tables d d' -> db_items d !! g = Some r ->
  exists r', db_items d' !! g = Some r' /\ ir_entry r' = ir_entry r /\ ir_count r' = ir_count r.
Proof.
  intros [_ _ _ E] Hr. apply (f_equal (fun m => m !! g)) in E. rewrite !lookup_fmap, Hr in E.
  destruct (db_items d' !! g) as [r'|]; [|done]. cbn in E. eexists. by simplify_eq.
Qed.

Lemma LoadFromDB_item_run w g owner r s t : ew_proto w (ir_entry r) = Some t -> exists i d, LoadFromDB_item w g owner r s =
  (Ok true, set_db d (set_items (<[g := i]> (r_items s)) s)) /\ same_tables (r_db s) d /\
  it_entry i = ir_entry r /\ it_count i = ir_count r /\ it_state i = ITEM_NEW.
Proof.
  intros Ht. unfold LoadFromDB_item. rewrite Ht. cbv zeta. set (fix1 := negb _). set (fix2 := has _ _ && _). set (flags := if fix2 then _ else _).
  set (i := mkItem _ _ _ _ _ _ _). exists i. destruct (fix1 || fix2).
  - exists (db_set_items (alter (row_set_load (if fix1 then ip_Duration t else ir_duration r) flags) g (db_items (r_db s))) (r_db s)).
    split; [done|]. split; [|done]. split; try done. cbn. apply map_eq. intros x. rewrite !lookup_fmap. destruct (decide (x = g)) as [->|Hne].
    + rewrite lookup_alter_eq. by destruct (db_items (r_db s) !! g).
    + by rewrite lookup_alter_ne.
  - exists (r_db s). split; [by destruct s|]. done.
Qed.

(** ** Money *)

(** [ModifyMoney] of a player who has [m]. *)
Definition modified (m amount : Z) : Z :=
  if amount =? 0 then m
  else if amount <? 0 then (if u64 (- amount) <? m then u64 (m + amount) else 0)
  else if m <? u64 (MAX_MONEY_AMOUNT - amount) then u64 (m + amount) else m.

Lemma modified_range m amount : 0 <= m < 2 ^ 64 -> 0 <= modified m amount < 2 ^ 64.
Proof. intros Hm. unfold modified. repeat case_match; try done; try lia; by apply uint_range. Qed.

(** What one can pay is taken. *)
Lemma modified_pay m x : 0 <= x <= m -> x < 2 ^ 63 -> m < 2 ^ 64 -> modified m (- s64 x) = m - x.
Proof.
  intros Hx H63 Hm. rewrite sint_small by lia. unfold modified.
  destruct (Z.eqb_spec (- x) 0); [lia|]. destruct (Z.ltb_spec (- x) 0); [|lia].
  rewrite Z.opp_involutive, uint_small by lia. destruct (Z.ltb_spec x m); [|lia]. rewrite uint_small; lia.
Qed.

Lemma ModifyMoney_run p amount pl s : r_online s !! p = Some pl -> exists b,
  ModifyMoney p amount s = (Ok b, set_online (<[p := player_set_money (modified (pl_money pl) amount) pl]> (r_online s)) s).
Proof.
  intros Hp. unfold ModifyMoney, modified. rewrite (bind_ok _ _ _ _ _ (deref_player_ok p pl s Hp)).
  assert (set_online (<[p := player_set_money (pl_money pl) pl]> (r_online s)) s = s) as Hid.
  { replace (player_set_money (pl_money pl) pl) with pl by (by destruct pl). rewrite insert_id by done. by destruct s. }
  destruct (amount =? 0); [exists true; by rewrite Hid|]. destruct (amount <? 0).
  - exists true. by rewrite (bind_ok _ _ _ _ _ (upd_player_ok p _ pl s Hp)).
  - destruct (_ <? _); [|exists false; by rewrite Hid]. exists true. by rewrite (bind_ok _ _ _ _ _ (upd_player_ok p _ pl s Hp)).
Qed.
