(* ===== verification/Mail.v ===== *)
(** * Mail (src/src/serveur/jeu/Mails, the mailbox of Player.cpp)

    A mail is drafted with money and items and sent: a row in the database, and
    for a player who is online and has opened his mailbox an object in it.  The
    items travel with it: in memory in such a mailbox, and else only as rows.
    The mailbox is loaded when it is first opened and saved after each change. *)

From S2P Require Import Prelude.
From S2P Require Import Economy.
From stdpp Require Import sorting.
Local Open Scope Z_scope.

Definition MAX_MAIL_ITEMS := 12.
Definition DAY := 86400.

Definition MAIL_NORMAL := 0.
Definition MAIL_AUCTION := 2.
Definition MAIL_CREATURE := 3.
Definition MAIL_CHECK_MASK_NONE := 0.
Definition MAIL_CHECK_MASK_READ := 1.
Definition MAIL_CHECK_MASK_RETURNED := 2.
Definition MAIL_CHECK_MASK_COPIED := 4.
Definition MAIL_CHECK_MASK_COD_PAYMENT := 8.
Definition MAIL_CHECK_MASK_HAS_BODY := 16.
Definition MAIL_STATIONERY_DEFAULT := 41.
Definition MAIL_STATIONERY_GM := 61.
Definition MAIL_STATIONERY_AUCTION := 62.

Record MailSender := mkMailSender { sd_messageType : Z; sd_senderId : Z; sd_stationery : Z }.
Definition MailSender_player (w : EconomyWorld) (p : Z) : MailSender :=
  mkMailSender MAIL_NORMAL p (if ew_gamemaster w p then MAIL_STATIONERY_GM else MAIL_STATIONERY_DEFAULT).
Definition MailSender_auction (a : AuctionEntry) : MailSender :=
  mkMailSender MAIL_AUCTION (he_houseId (au_house a)) MAIL_STATIONERY_AUCTION.

Record MailDraft := mkMailDraft {
  md_mailTemplateId : Z;
  md_mailTemplateItemsNeed : bool;
  md_subject : list Z;
  md_body : list Z;
  md_money : Z;
  md_COD : Z;
  md_items : gset Z
}.
Definition MailDraft_new (subject body : list Z) : MailDraft := mkMailDraft 0 false subject body 0 0 ∅.
Definition MailDraft_template (mailTemplateId : Z) (need_items : bool) : MailDraft :=
  mkMailDraft mailTemplateId need_items [] [] 0 0 ∅.
Definition AddItem (g : Z) (d : MailDraft) : MailDraft :=
  mkMailDraft (md_mailTemplateId d) (md_mailTemplateItemsNeed d) (md_subject d) (md_body d) (md_money d) (md_COD d) ({[g]} ∪ md_items d).
Definition AddMoney (money : Z) (d : MailDraft) : MailDraft :=
  mkMailDraft (md_mailTemplateId d) (md_mailTemplateItemsNeed d) (md_subject d) (md_body d) (u64 money) (md_COD d) (md_items d).
Definition AddCOD (COD : Z) (d : MailDraft) : MailDraft :=
  mkMailDraft (md_mailTemplateId d) (md_mailTemplateItemsNeed d) (md_subject d) (md_body d) (md_money d) (u32 COD) (md_items d).
(** [m_items] is a [std::map]. *)
Definition draft_items (d : MailDraft) : list Z := merge_sort Z.le (elements (md_items d)).

Section Mail.
Context (w : EconomyWorld).

(** ** The mailbox *)

Definition GetMail (pl : Player) (id : Z) : option Mail := head (filter (fun m => ml_messageID m = id) (pl_mails pl)).
Definition GetMItem (pl : Player) (g : Z) : option Z := if bool_decide (g ∈ pl_mitems pl) then Some g else None.
Definition AddMItem (p g : Z) : RP unit := upd_player p (fun pl => player_set_mitems ({[g]} ∪ pl_mitems pl) pl).
Definition RemoveMItem (p g : Z) : RP unit := upd_player p (fun pl => player_set_mitems (pl_mitems pl ∖ {[g]}) pl).
Definition AddMail (p : Z) (m : Mail) : RP unit := upd_player p (fun pl => player_set_mails (m :: pl_mails pl) pl).
(** Without the first mail that has the id. *)
Fixpoint remove_mail (id : Z) (l : list Mail) : list Mail :=
  match l with
  | [] => []
  | m :: l' => if ml_messageID m =? id then l' else m :: remove_mail id l'
  end.
Definition RemoveMail (p id : Z) : RP unit := upd_player p (fun pl => player_set_mails (remove_mail id (pl_mails pl)) pl).

Definition SendNewMail (p : Z) : RP unit := SendPacket p (SMSG_RECEIVED_MAIL (le_bytes 4 0)).
Definition AddNewMailDeliverTime (p deliver_time : Z) : RP unit :=
  if deliver_time <=? ew_time w then
    upd_player p (fun pl => player_set_unread (u8 (pl_unReadMails pl + 1)) pl);; SendNewMail p
  else
    upd_player p (fun pl => if (pl_nextMail pl =? 0) || (deliver_time <? pl_nextMail pl) then player_set_next deliver_time pl else pl).

Definition count_mail (acc : Z * Z) (m : Mail) : Z * Z :=
  let '(next, unread) := acc in
  if ew_time w <? ml_deliver_time m then
    (if (next =? 0) || (ml_deliver_time m <? next) then ml_deliver_time m else next, unread)
  else if Z.land (ml_checked m) MAIL_CHECK_MASK_READ =? 0 then (next, u8 (unread + 1)) else acc.
Definition UpdateNextMailTimeAndUnreads (p : Z) : RP unit :=
  upd_player p (fun pl =>
    let '(next, unread) := fold_left count_mail (pl_mails pl) (0, 0) in player_set_unread unread (player_set_next next pl)).

(** *** Loading *)

(** A row of [CHAR_SEL_MAILITEMS]. *)
Definition CHAR_SEL_MAILITEMS (d : CharDB) (mail_id : Z) : list (Z * ItemRow) :=
  omap (fun e => if e.2.1 =? mail_id then (fun r => (e.1, r)) <$> db_items d !! e.1 else None) (in_order (db_mail_items d)).
Definition load_mailed_item (p : Z) (e : Z * ItemRow) : RP unit :=
  match ew_proto w (ir_entry e.2) with
  | None => Execute (CHAR_DEL_MAIL_ITEM e.1);; Execute (CHAR_DEL_ITEM_INSTANCE e.1)
  | Some _ =>
      ok ← LoadFromDB_item w e.1 (ir_owner e.2) e.2;
      if ok : bool then AddMItem p e.1 else Execute (CHAR_DEL_MAIL_ITEM e.1)
  end.
(** The items of the mail, of which those with a template get an object. *)
Definition LoadMailedItems (p mail_id : Z) : RP (list (Z * Z)) :=
  s ← get;
  let rows := CHAR_SEL_MAILITEMS (r_db s) mail_id in
  forM rows (load_mailed_item p);; mret ((fun e => (e.1, ir_entry e.2)) <$> rows).

Definition load_mail (p : Z) (e : Z * MailRow) : RP unit :=
  let r := e.2 in
  items ← (if mr_has_items r then LoadMailedItems p e.1 else mret []);
  let template := u16 (mr_mailTemplateId r) in
  upd_player p (fun pl => player_set_mails (pl_mails pl ++
    [mkMail e.1 (mr_messageType r) (u8 (mr_stationery r)) (if ew_mail_template w template then template else 0)
       (mr_sender r) (mr_receiver r) (mr_subject r) (mr_body r) items [] (u32 (mr_expire_time r)) (u32 (mr_deliver_time r))
       (mr_money r) (mr_cod r) (mr_checked r) MAIL_STATE_UNCHANGED]) pl).
(** [WHERE receiver = ? ORDER BY id DESC] *)
Definition CHAR_SEL_MAIL (d : CharDB) (receiver : Z) : list (Z * MailRow) :=
  filter (fun e => mr_receiver e.2 = receiver) (reverse (in_order (db_mails d))).
Definition LoadMail (p : Z) : RP unit :=
  upd_player p (player_set_mails []);;
  s ← get;
  forM (CHAR_SEL_MAIL (r_db s) p) (load_mail p);;
  upd_player p (player_set_loaded true).

(** *** Saving *)

Definition save_mail (m : Mail) : RP unit :=
  match ml_state m with
  | MAIL_STATE_CHANGED =>
      Append (CHAR_UPD_MAIL (negb (bool_decide (ml_items m = []))) (u32 (ml_expire_time m)) (u32 (ml_deliver_time m)) (u32 (ml_money m))
        (u32 (ml_COD m)) (u8 (ml_checked m)) (ml_messageID m));;
      forM (ml_removedItems m) (fun g => Append (CHAR_DEL_MAIL_ITEM g))
  | MAIL_STATE_DELETED =>
      forM (ml_items m) (fun i => Append (CHAR_DEL_ITEM_INSTANCE i.1));;
      Append (CHAR_DEL_MAIL_BY_ID (ml_messageID m));;
      Append (CHAR_DEL_MAIL_ITEM_BY_ID (ml_messageID m))
  | MAIL_STATE_UNCHANGED => mret tt
  end.
Definition saved_mail (m : Mail) : Mail :=
  match ml_state m with
  | MAIL_STATE_CHANGED => mail_with (ml_items m) [] (ml_money m) (ml_COD m) (ml_checked m) MAIL_STATE_UNCHANGED m
  | _ => m
  end.
Definition mail_deleted (m : Mail) : bool := match ml_state m with MAIL_STATE_DELETED => true | _ => false end.
Definition SaveMail (p : Z) : RP unit :=
  pl ← deref_player p;
  if pl_mailsLoaded pl then
    forM (pl_mails pl) save_mail;;
    upd_player p (fun pl => player_set_updated false
      (player_set_mails (filter (fun m => mail_deleted m = false) (saved_mail <$> pl_mails pl)) pl))
  else mret tt.

(** ** Sending *)

(** The loop over the slots of the loot of a mail template. *)
Fixpoint add_loot (receiver : Z) (l : list (option (Z * Z))) (d : MailDraft) : RP MailDraft :=
  match l with
  | [] => mret d
  | o :: l' =>
      if Z.of_nat (size (md_items d)) <? MAX_MAIL_ITEMS then
        match o with
        | None => add_loot receiver l' d
        | Some (entry, count) =>
            c ← CreateItem w entry count receiver;
            match c with
            | None => add_loot receiver l' d
            | Some g => SaveToDB g;; add_loot receiver l' (AddItem g d)
            end
        end
      else mret d
  end.
Definition prepareItems (receiver : Z) (d : MailDraft) : RP MailDraft :=
  if (md_mailTemplateId d =? 0) || negb (md_mailTemplateItemsNeed d) then mret d
  else add_loot receiver (ew_mail_loot w (md_mailTemplateId d) receiver)
         (mkMailDraft (md_mailTemplateId d) false (md_subject d) (md_body d) (md_money d) (md_COD d) (md_items d)).

Definition deleteIncludedItems (inDB : bool) (d : MailDraft) : RP unit :=
  forM (draft_items d) (fun g => (if inDB then Append (CHAR_DEL_ITEM_INSTANCE g) else mret tt);; delete_item g).

Definition expire_delay (s : Realm) (sender : MailSender) (d : MailDraft) : Z :=
  if (sd_messageType sender =? MAIL_AUCTION) && bool_decide (md_items d = ∅) && (md_money d =? 0) then ew_mail_delay w
  else if (sd_messageType sender =? MAIL_CREATURE) && ew_battlemaster w (sd_senderId sender) then DAY
  else if negb (md_COD d =? 0) then 3 * DAY
  else if is_online s (sd_senderId sender) && ew_gamemaster w (sd_senderId sender) then 90 * DAY
  else 30 * DAY.

Definition mail_object (mailId receiver deliver expire checked : Z) (sender : MailSender) (d : MailDraft) (items : list (Z * Z)) : Mail :=
  mkMail mailId (sd_messageType sender) (sd_stationery sender) (md_mailTemplateId d) (sd_senderId sender) receiver (md_subject d)
    (md_body d) items [] expire deliver (md_money d) (md_COD d) checked MAIL_STATE_UNCHANGED.
Definition mail_row (receiver deliver expire checked : Z) (sender : MailSender) (d : MailDraft) : MailRow :=
  mkMailRow (u8 (sd_messageType sender)) (s8 (sd_stationery sender)) (md_mailTemplateId d) (sd_senderId sender) receiver (md_subject d)
    (md_body d) (negb (bool_decide (md_items d = ∅))) (u64 expire) (u64 deliver) (u32 (md_money d)) (u32 (md_COD d)) (u8 checked).

(** The loop of [Mail::AddItem]. *)
Fixpoint item_infos (l : list Z) : RP (list (Z * Z)) :=
  match l with
  | [] => mret []
  | g :: l' => i ← deref_item g; r ← item_infos l'; mret ((g, it_entry i) :: r)
  end.
(** The part of [SendMailTo] for a receiver who is online. *)
Definition deliver_online (m : list (Z * Z) -> Mail) (receiver deliver : Z) (d : MailDraft) : RP unit :=
  AddNewMailDeliverTime receiver deliver;;
  pl ← deref_player receiver;
  if pl_mailsLoaded pl then
    infos ← item_infos (draft_items d);
    AddMail receiver (m infos);;
    forM (draft_items d) (AddMItem receiver)
  else deleteIncludedItems false d.

(** [online] says that the [MailReceiver] has a player. *)
Definition SendMailTo (online : bool) (receiver : Z) (sender : MailSender) (checked deliver_delay : Z) (d : MailDraft) : RP unit :=
  d ← (if online then prepareItems receiver d else mret d);
  mailId ← GenerateMailID;
  s ← get;
  let deliver := ew_time w + deliver_delay in
  let expire := deliver + expire_delay s sender d in
  Append (CHAR_INS_MAIL mailId (mail_row receiver deliver expire checked sender d));;
  forM (draft_items d) (fun g => Append (CHAR_INS_MAIL_ITEM mailId g receiver));;
  if online then deliver_online (mail_object mailId receiver deliver expire checked sender d) receiver deliver d
  else deleteIncludedItems false d.

(** A player who is online has an account, and a stored one the account of his row. *)
Definition player_exists (s : Realm) (p : Z) : bool := is_online s p || negb (ew_account w p =? 0).

Definition SendReturnToSender (sender_acc sender_guid receiver_guid : Z) (d : MailDraft) : RP unit :=
  s ← get;
  if player_exists s receiver_guid then
    let rc_account := if is_online s receiver_guid then 0 else ew_account w receiver_guid in
    let needItemDelay := negb (bool_decide (md_items d = ∅)) && negb (sender_acc =? rc_account) in
    forM (draft_items d) (fun g => SaveToDB g;; Append (CHAR_UPD_ITEM_OWNER receiver_guid g));;
    SendMailTo (is_online s receiver_guid) receiver_guid (mkMailSender MAIL_NORMAL sender_guid MAIL_STATIONERY_DEFAULT)
      MAIL_CHECK_MASK_RETURNED (if needItemDelay then ew_mail_delay w else 0) d
  else deleteIncludedItems true d.
End Mail.
