(* ===== verification/MailProofs.v ===== *)
(** * Mail: what sending one does (model in Mail.v)

    A mail is one row, a row for each item, and for a receiver who has his mailbox
    open an object in it; its items are then in the mailbox, and else nowhere in
    memory. *)

From S2P Require Import Prelude.
From S2P Require Import Economy.
From S2P Require Import EconomyProofs.
From S2P Require Import Mail.
From stdpp Require Import list sorting.
Local Open Scope Z_scope.
#[local] Set Warnings "-clear-no-such-hyp".

Lemma elem_of_draft_items d g : g ∈ draft_items d <-> g ∈ md_items d.
Proof. unfold draft_items. by rewrite merge_sort_Permutation, elem_of_elements. Qed.
Lemma NoDup_draft_items d : NoDup (draft_items d).
Proof. unfold draft_items. rewrite merge_sort_Permutation. apply NoDup_elements. Qed.

Lemma fst_pair_fmap {A B} (b : B) (l : list A) : ((fun g => (g, b)) <$> l).*1 = l.
Proof. induction l as [|g l IH]; [done|]. cbn. f_equal. apply IH. Qed.

(** ** The effect of a mail *)

(** A mail that carries the money and the items of the draft. *)
Record mail_of (d : MailDraft) (receiver : Z) (m : Mail) : Prop := {
  mo_receiver : ml_receiver m = receiver;
  mo_money : ml_money m = md_money d;
  mo_COD : ml_COD m = md_COD d;
  mo_items : (ml_items m).*1 = draft_items d;
  mo_state : ml_state m = MAIL_STATE_UNCHANGED
}.
(** What a player has after the mail [m], which is in his mailbox if [kept]. *)
Record player_after (d : MailDraft) (kept : option Mail) (a b : Player) : Prop := {
  pa_money : pl_money b = pl_money a;
  pa_bags : pl_bags b = pl_bags a;
  pa_loaded : pl_mailsLoaded b = pl_mailsLoaded a;
  pa_updated : pl_mailsUpdated b = pl_mailsUpdated a;
  pa_mails : pl_mails b = match kept with Some m => m :: pl_mails a | None => pl_mails a end;
  pa_mitems : pl_mitems b = match kept with Some _ => md_items d ∪ pl_mitems a | None => pl_mitems a end
}.
Record mail_effect (d : MailDraft) (receiver : Z) (kept : option Mail) (s s' : Realm) : Prop := {
  me_auctions : r_auctions s' = r_auctions s;
  me_aitems : r_aitems s' = r_aitems s;
  me_next_auction : r_next_auction s' = r_next_auction s;
  me_next_item : r_next_item s' = r_next_item s;
  me_db : r_db s' = r_db s;
  me_next_mail : r_next_mail s' = r_next_mail s + 1;
  me_trans : exists row, mr_receiver row = receiver /\ mr_money row = u32 (md_money d) /\ mr_cod row = u32 (md_COD d) /\
    r_trans s' = r_trans s ++ CHAR_INS_MAIL (r_next_mail s) row ::
                 ((fun g => CHAR_INS_MAIL_ITEM (r_next_mail s) g receiver) <$> draft_items d);
  me_items : r_items s' = match kept with Some _ => r_items s | None => without (draft_items d) (r_items s) end;
  me_kept : forall m, kept = Some m -> mail_of d receiver m /\ ml_messageID m = r_next_mail s;
  me_loaded : forall m, kept = Some m -> exists a, r_online s !! receiver = Some a /\ pl_mailsLoaded a = true;
  me_dom : dom (r_online s') = dom (r_online s);
  me_player : forall p a b, r_online s !! p = Some a -> r_online s' !! p = Some b ->
    player_after d (if bool_decide (p = receiver) then kept else None) a b
}.

Section Send.
Context (w : EconomyWorld).

Lemma item_infos_ok l s : (forall g, g ∈ l -> is_Some (r_items s !! g)) -> exists infos, item_infos l s = (Ok infos, s) /\ infos.*1 = l.
Proof.
  induction l as [|g l IH]; intros Hl; cbn [item_infos]; [by exists []|].
  destruct (Hl g ltac:(by left)) as [i Hi]. destruct IH as (infos & E & Ei); [intros x Hx; apply Hl; by right|].
  rewrite (bind_ok _ _ _ _ _ (deref_item_ok g i s Hi)), (bind_ok _ _ _ _ _ E).
  eexists. split; [done|]. cbn. by rewrite Ei.
Qed.

(** The mailbox of one player. *)
Lemma forM_AddMItem p l s pl : r_online s !! p = Some pl ->
  forM l (AddMItem p) s =
    (Ok tt, set_online (<[p := player_set_mitems (list_to_set l ∪ pl_mitems pl) pl]> (r_online s)) s).
Proof.
  revert s pl. induction l as [|g l IH]; intros s pl Hp; cbn [forM].
  - replace (player_set_mitems _ pl) with pl by (destruct pl; unfold player_set_mitems; cbn; f_equal; set_solver).
    cbn. rewrite insert_id by done. by destruct s.
  - rewrite (bind_ok (AddMItem p g) _ _ _ _ (upd_player_ok p _ pl s Hp)). rewrite (IH _ (player_set_mitems ({[g]} ∪ pl_mitems pl) pl)) by (cbn; by rewrite lookup_insert_eq).
    cbn. rewrite insert_insert_eq. unfold set_online, player_set_mitems. cbn. do 4 f_equal. set_solver.
Qed.

(** The player gets new numbers and packets, nothing else. *)
Definition same_but_clock (a b : Player) : Prop :=
  pl_money b = pl_money a /\ pl_bags b = pl_bags a /\ pl_mailsLoaded b = pl_mailsLoaded a /\
  pl_mailsUpdated b = pl_mailsUpdated a /\ pl_mails b = pl_mails a /\ pl_mitems b = pl_mitems a.
Lemma AddNewMailDeliverTime_ok p t s a : r_online s !! p = Some a ->
  exists b sent, AddNewMailDeliverTime w p t s = (Ok tt, mkRealm (r_items s) (<[p := b]> (r_online s)) (r_auctions s) (r_aitems s)
     (r_next_auction s) (r_next_mail s) (r_next_item s) (r_db s) (r_trans s) sent) /\ same_but_clock a b.
Proof.
  intros Hp. unfold AddNewMailDeliverTime. destruct (_ <=? _).
  - rewrite (bind_ok _ _ _ _ _ (upd_player_ok p _ a s Hp)). by eexists _, _.
  - rewrite (upd_player_ok p _ a s Hp). eexists _, _. split; [by unfold set_online|]. by destruct (_ || _).
Qed.

Lemma deleteIncludedItems_ok d s : (forall g, g ∈ md_items d -> is_Some (r_items s !! g)) ->
  deleteIncludedItems false d s = (Ok tt, set_items (without (draft_items d) (r_items s)) s).
Proof.
  intros Hd. assert (deleteIncludedItems false d s = forM (draft_items d) delete_item s) as ->.
  { unfold deleteIncludedItems. generalize (draft_items d). intros l. clear Hd. revert s. induction l as [|g l IH]; intros s; [done|].
    cbn [forM]. unfold mbind, prog_bind. cbn [mret prog_ret]. destruct (delete_item g s) as [[[]|e] s']; [apply IH|done]. }
  apply forM_delete_items; [apply NoDup_draft_items|]. intros g Hg. apply Hd. by apply elem_of_draft_items.
Qed.

(** What [deliver_online] leaves, [sent] aside. *)
Lemma deliver_online_ok (mk : list (Z * Z) -> Mail) p t d s a :
  r_online s !! p = Some a -> (forall g, g ∈ md_items d -> is_Some (r_items s !! g)) ->
  exists b (infos : list (Z * Z)) sent, infos.*1 = draft_items d /\
    let kept := if pl_mailsLoaded a then Some (mk infos) else None in
    player_after d kept a b /\
    deliver_online w mk p t d s = (Ok tt, mkRealm (match kept with Some _ => r_items s | None => without (draft_items d) (r_items s) end)
      (<[p := b]> (r_online s)) (r_auctions s) (r_aitems s) (r_next_auction s) (r_next_mail s) (r_next_item s) (r_db s) (r_trans s) sent).
Proof.
  intros Hp Hd. unfold deliver_online. destruct (AddNewMailDeliverTime_ok p t s a Hp) as (b & sent & E & H1 & H2 & H3 & H4 & H5 & H6).
  rewrite (bind_ok _ _ _ _ _ E). rewrite (bind_ok _ _ _ b _ (deref_player_ok p b _ (lookup_insert_eq _ _ _))), H3.
  destruct (pl_mailsLoaded a) eqn:El.
  - destruct (item_infos_ok (draft_items d) (mkRealm (r_items s) (<[p:=b]> (r_online s)) (r_auctions s) (r_aitems s) (r_next_auction s)
        (r_next_mail s) (r_next_item s) (r_db s) (r_trans s) sent)) as (infos & Ei & Hi).
    { intros g Hg%elem_of_draft_items. by apply Hd. }
    rewrite (bind_ok _ _ _ _ _ Ei).
    rewrite (bind_ok (AddMail p (mk infos)) _ _ _ _ (upd_player_ok p _ b _ (lookup_insert_eq _ _ _))).
    rewrite (forM_AddMItem p _ _ (player_set_mails (mk infos :: pl_mails b) b)) by apply lookup_insert_eq.
    eexists _, infos, sent. split; [done|]. split; [|unfold set_online; cbn; by rewrite !insert_insert_eq].
    split; cbn; try congruence. rewrite H6. f_equal. apply set_eq. intros g. by rewrite elem_of_list_to_set, elem_of_draft_items.
  - rewrite deleteIncludedItems_ok by done. exists b, ((fun g => (g, 0)) <$> draft_items d), sent.
    split; [apply fst_pair_fmap|]. cbv zeta. split; [by split; cbn; congruence|]. done.
Qed.

Definition no_loot (d : MailDraft) : Prop := md_mailTemplateId d = 0 \/ md_mailTemplateItemsNeed d = false.
Lemma prepareItems_ok p d s : no_loot d -> prepareItems w p d s = (Ok d, s).
Proof. unfold no_loot, prepareItems. intros [->| ->]; [done|]. by rewrite orb_true_r. Qed.

Lemma SendMailTo_ewp online receiver sender checked delay d s :
  no_loot d -> (online = true -> is_Some (r_online s !! receiver)) -> (forall g, g ∈ md_items d -> is_Some (r_items s !! g)) ->
  ewp (SendMailTo w online receiver sender checked delay d) s (fun _ s' => exists kept, mail_effect d receiver kept s s' /\
        (kept = None -> online = true -> exists a, r_online s !! receiver = Some a /\ pl_mailsLoaded a = false)).
Proof.
  intros Hl Ho Hd. unfold SendMailTo.
  eapply wp_seq with (a := d) (s' := s). { destruct online; [by apply prepareItems_ok|done]. }
  apply wp_bind, GenerateMailID_ewp. apply wp_get. cbv zeta. set (row := mail_row _ _ _ _ _ _).
  eapply wp_seq; [apply modify_ok|]. eapply wp_seq; [apply forM_append|].
  set (s1 := set_trans _ _). destruct online.
  - destruct (Ho eq_refl) as [a Ha].
    destruct (deliver_online_ok (mail_object (r_next_mail s) receiver (ew_time w + delay)
      (ew_time w + delay + expire_delay w (set_next_mail (r_next_mail s + 1) s) sender d) checked sender d)
      receiver (ew_time w + delay) d s1 a Ha Hd) as (b & infos & sent & Hi & Hb & E).
    eapply wp_ok; [exact E|]. exists (if pl_mailsLoaded a then Some (mail_object (r_next_mail s) receiver (ew_time w + delay)
      (ew_time w + delay + expire_delay w (set_next_mail (r_next_mail s + 1) s) sender d) checked sender d infos) else None).
    split; [|destruct (pl_mailsLoaded a) eqn:Ell; [done|intros _ _; by exists a]].
    split; try done; cbn.
    + exists row. split_and!; try done. cbn. by rewrite <- app_assoc.
    + destruct (pl_mailsLoaded a); [|done]. by intros m [= <-].
    + destruct (pl_mailsLoaded a) eqn:Ell; [|done]. intros m [= <-]. by exists a.
    + rewrite dom_insert_L. apply elem_of_dom_2 in Ha. set_solver.
    + intros p a' b' Ha' Hb'. case_bool_decide as Hpr.
      * subst p. rewrite lookup_insert_eq in Hb'. by simplify_eq.
      * rewrite lookup_insert_ne in Hb' by done. by simplify_eq.
  - eapply wp_ok; [by apply deleteIncludedItems_ok|]. exists None. split; [|done]. split; try done; cbn.
    + exists row. split_and!; try done. by rewrite <- app_assoc.
    + intros p a' b' Ha' Hb'. simplify_eq. by case_bool_decide.
Qed.
End Send.
