(* ===== verification/Auction.v ===== *)
(** * The auction house (src/src/serveur/jeu/AuctionHouse, Handlers/AuctionHouseHandler.cpp)

    An auction is in one of three houses and its item with the manager; the
    highest bid is held by the auction, and paid back by mail when it is
    overbid.  Auctions end by a buyout, by being cancelled, or when their time is
    up; every table row is written in the transaction that sends the mails. *)

From S2P Require Import Prelude.
From S2P Require Import Floats.
From S2P Require Import Text.
From S2P Require Import Economy.
From S2P Require Import Mail.
From stdpp Require Import sorting.
Local Open Scope Z_scope.

Definition AUCTION_SELL_ITEM := 0.
Definition AUCTION_CANCEL := 1.
Definition AUCTION_PLACE_BID := 2.

Definition ERR_AUCTION_OK := 0.
Definition ERR_AUCTION_INVENTORY := 1.
Definition ERR_AUCTION_DATABASE_ERROR := 2.
Definition ERR_AUCTION_NOT_ENOUGHT_MONEY := 3.
Definition ERR_AUCTION_ITEM_NOT_FOUND := 4.
Definition ERR_AUCTION_HIGHER_BID := 5.
Definition ERR_AUCTION_BID_OWN := 10.

Inductive MailAuctionAnswers :=
| AUCTION_OUTBIDDED | AUCTION_WON | AUCTION_SUCCESSFUL | AUCTION_EXPIRED | AUCTION_CANCELLED_TO_BIDDER | AUCTION_CANCELED
| AUCTION_SALE_PENDING.
Definition answer_code (r : MailAuctionAnswers) : Z :=
  match r with
  | AUCTION_OUTBIDDED => 0 | AUCTION_WON => 1 | AUCTION_SUCCESSFUL => 2 | AUCTION_EXPIRED => 3 | AUCTION_CANCELLED_TO_BIDDER => 4
  | AUCTION_CANCELED => 5 | AUCTION_SALE_PENDING => 6
  end.

Definition MIN_AUCTION_TIME := 43200.
Definition MAX_AUCTION_ITEMS := 160.
Definition AH_MINIMUM_DEPOSIT := 100.
Definition MINUTE := 60.

(** ** Prices *)

Definition of_float (o : option Z) : RP Z := match o with Some v => mret v | None => throw FloatRange end.

(** [base * static_cast<float>(pct) / 100.0f], and for a [uint32] base. *)
Definition CalculatePct (base pct : spec_float) : spec_float := fdiv (fmul base pct) (float_of_Z 100).
Definition CalculatePct32 (base pct : Z) : option Z := uint32_of_float (CalculatePct (float_of_Z base) (float_of_Z pct)).

Definition GetAuctionOutBid (a : AuctionEntry) : option Z :=
  (fun outbid => if outbid =? 0 then 1 else outbid) <$> CalculatePct32 (au_bid a) 5.

Section Auction.
Context (w : EconomyWorld).

Definition GetAuctionCut (a : AuctionEntry) : option Z :=
  match CalculatePct32 (au_bid a) (he_cutPercent (au_house a)) with
  | Some pct => Z.max 0 <$> int32_of_float (fmul (float_of_Z pct) (ew_rate_cut w))
  | None => None
  end.

Definition GetAuctionDeposit (entry : AuctionHouseEntry) (time : Z) (t : ItemTemplate) (count : Z) : option Z :=
  if ip_SellPrice t <=? 0 then Some AH_MINIMUM_DEPOSIT
  else
    let multiplier := CalculatePct (float_of_Z (he_depositPercent entry)) (float_of_Z 3) in
    let timeHr := time / 60 / 60 / 12 in
    let value := fdiv (fmul (fmul multiplier (float_of_Z (ip_SellPrice t))) (float_of_Z count)) (float_of_Z 3) in
    (fun deposit => if deposit <? AH_MINIMUM_DEPOSIT then AH_MINIMUM_DEPOSIT else deposit) <$>
      uint32_of_float (fmul (fmul (fmul value (float_of_Z timeHr)) (float_of_Z 3)) (ew_rate_deposit w)).

(** ** Houses *)

Definition FACTION_MASK_ALLIANCE := 2.
Definition FACTION_MASK_HORDE := 4.

Definition GetAuctionsMap (factionTemplateId : Z) : House :=
  if ew_two_side w then mNeutralAuctions
  else
    match ew_faction_mask w factionTemplateId with
    | None => mNeutralAuctions
    | Some mask =>
        if has mask FACTION_MASK_ALLIANCE then mAllianceAuctions
        else if has mask FACTION_MASK_HORDE then mHordeAuctions
        else mNeutralAuctions
    end.

Definition house_of_faction (factionTemplateId : Z) : Z :=
  match factionTemplateId with
  | 12 => 1 | 29 => 6 | 55 => 2 | 68 => 4 | 80 => 3 | 104 => 5 | 120 => 7 | 474 => 7 | 855 => 7 | 1604 => 6
  | _ =>
      match ew_faction_mask w factionTemplateId with
      | None => 7
      | Some mask => if has mask FACTION_MASK_ALLIANCE then 1 else if has mask FACTION_MASK_HORDE then 6 else 7
      end
  end.
Definition GetAuctionHouseEntry (factionTemplateId : Z) : option AuctionHouseEntry :=
  ew_house w (if ew_two_side w then 7 else house_of_faction factionTemplateId).

Definition GetAuction (s : Realm) (h : House) (id : Z) : option AuctionEntry := r_auctions s h !! id.
Definition upd_house (h : House) (f : gmap Z AuctionEntry -> gmap Z AuctionEntry) : RP unit :=
  modify (fun s => set_auctions (<[h := f (r_auctions s h)]> (r_auctions s)) s).
Definition AddAuction (h : House) (a : AuctionEntry) : RP unit := upd_house h (<[au_Id a := a]>).
Definition RemoveAuction (h : House) (a : AuctionEntry) : RP unit := upd_house h (delete (au_Id a)).

Definition AddAItem (g : Z) : RP unit :=
  s ← get;
  if bool_decide (g ∈ r_aitems s) then throw AssertFailed else modify (set_aitems ({[g]} ∪ r_aitems s)).
Definition RemoveAItem (g : Z) : RP unit := modify (fun s => set_aitems (r_aitems s ∖ {[g]}) s).

(** ** Rows *)

Definition auction_row (a : AuctionEntry) : AuctionRow :=
  mkAuctionRow (au_auctioneer a) (au_itemGUIDLow a) (au_owner a) (au_buyout a) (u32 (au_expire_time a)) (au_bidder a) (au_bid a)
    (au_startbid a) (au_deposit a).
Definition SaveAuctionToDB (a : AuctionEntry) : RP unit := Append (CHAR_INS_AUCTION (au_Id a) (auction_row a)).
Definition DeleteAuctionFromDB (id : Z) : RP unit := Append (CHAR_DEL_AUCTION id).

(** A row of [CHAR_SEL_AUCTIONS]: the auction and its item. *)
Definition JoinedRow : Type := Z * AuctionRow * ItemRow.
Definition CHAR_SEL_AUCTIONS (d : CharDB) : list JoinedRow :=
  omap (fun e => (fun i => (e, i)) <$> db_items d !! ar_itemguid e.2) (in_order (db_auctions d)).
Definition CHAR_SEL_EXPIRED_AUCTIONS (time : Z) (d : CharDB) : list JoinedRow :=
  filter (fun e => ar_time e.1.2 <= time) (CHAR_SEL_AUCTIONS d).
Definition row_time_le (a b : Z * AuctionRow) : Prop := ar_time a.2 <= ar_time b.2.
#[export] Instance row_time_le_dec : RelDecision row_time_le.
Proof. intros a b. unfold row_time_le. apply _. Defined.
Definition CHAR_SEL_AUCTION_BY_TIME (time : Z) (d : CharDB) : list Z :=
  (merge_sort row_time_le (filter (fun e => ar_time e.2 <= time) (in_order (db_auctions d)))).*1.

(** [AuctionEntry::LoadFromFieldList] *)
Definition LoadFromFieldList (e : JoinedRow) : option AuctionEntry :=
  let '(id, r, i) := e in
  match ew_creature w (ar_auctioneerguid r) with
  | None => None
  | Some creature =>
      match ew_creature_faction w creature with
      | None => None
      | Some faction =>
          (fun house => mkAuctionEntry id (ar_auctioneerguid r) (ar_itemguid r) (ir_entry i) (ir_count i) (ar_itemowner r)
             (ar_startbid r) (ar_lastbid r) (ar_buyoutprice r) (ar_time r) (ar_buyguid r) (ar_deposit r) house faction) <$>
            GetAuctionHouseEntry faction
      end
  end.
(** [AuctionEntry::LoadFromDB] *)
Definition LoadAuctionFromDB (aitems : gset Z) (e : JoinedRow) : option AuctionEntry :=
  match LoadFromFieldList e with
  | Some a => if bool_decide (au_itemGUIDLow a ∈ aitems) then Some a else None
  | None => None
  end.

(** ** Mails *)

Definition colon : list Z := [58].
Definition BuildAuctionMailSubject (a : AuctionEntry) (r : MailAuctionAnswers) : list Z :=
  print_u64 (au_itemEntry a) ++ [58; 48; 58] ++ print_u64 (answer_code r) ++ colon ++ print_u64 (au_Id a) ++ colon ++
  print_u64 (au_itemCount a).
Definition BuildAuctionMailBody (lowGuid bid buyout deposit cut : Z) : list Z :=
  pad_left 16 (print_hex (MAKE_NEW_GUID lowGuid 0 0)) ++ colon ++ print_u64 bid ++ colon ++ print_u64 buyout ++ colon ++
  print_u64 deposit ++ colon ++ print_u64 cut.

Definition SendAuctionBidderNotification (to location auctionId bidder bidSum diff itemEntry : Z) : RP unit :=
  SendPacket to (SMSG_AUCTION_BIDDER_NOTIFICATION (le_bytes 4 location ++ le_bytes 4 auctionId ++ le_bytes 8 bidder ++
    le_bytes 8 bidSum ++ le_bytes 8 diff ++ le_bytes 4 itemEntry ++ le_bytes 4 0)).
Definition SendAuctionOwnerNotification (to : Z) (a : AuctionEntry) : RP unit :=
  SendPacket to (SMSG_AUCTION_OWNER_NOTIFICATION (le_bytes 4 (au_Id a) ++ le_bytes 8 (au_bid a) ++ le_bytes 8 0 ++ le_bytes 8 0 ++
    le_bytes 4 (au_itemEntry a) ++ le_bytes 4 0 ++ le_bytes 4 0)).
Definition SendAuctionRemovedNotification (to auctionId itemEntry randomPropertyId : Z) : RP unit :=
  SendPacket to (SMSG_AUCTION_REMOVED_NOTIFICATION (le_bytes 4 auctionId ++ le_bytes 4 itemEntry ++
    le_bytes 4 (u32 randomPropertyId))).

(** [.SendMailTo(trans, MailReceiver(FindPlayer(p), p), auction, MAIL_CHECK_MASK_COPIED, delay)] *)
Definition auction_mail (a : AuctionEntry) (p delay : Z) (d : MailDraft) : RP unit :=
  s ← get; SendMailTo w (is_online s p) p (MailSender_auction a) MAIL_CHECK_MASK_COPIED delay d.

Definition SendAuctionWonMail (a : AuctionEntry) : RP unit :=
  s ← get;
  let g := au_itemGUIDLow a in
  if bool_decide (g ∈ r_aitems s) then
    if player_exists w s (au_bidder a) then
      deref_item g;;
      Append (CHAR_UPD_ITEM_OWNER (au_bidder a) g);;
      (if is_online s (au_bidder a) then
         SendAuctionBidderNotification (au_bidder a) (he_houseId (au_house a)) (au_Id a) (au_bidder a) 0 0 (au_itemEntry a)
       else mret tt);;
      auction_mail a (au_bidder a) 0 (AddItem g (MailDraft_new (BuildAuctionMailSubject a AUCTION_WON)
        (BuildAuctionMailBody (au_owner a) (au_bid a) (au_buyout a) 0 0)))
    else mret tt
  else mret tt.

Definition SendAuctionSalePendingMail (a : AuctionEntry) : RP unit :=
  s ← get;
  if player_exists w s (au_owner a) then
    cut ← of_float (GetAuctionCut a);
    auction_mail a (au_owner a) 0 (MailDraft_new (BuildAuctionMailSubject a AUCTION_SALE_PENDING)
      (BuildAuctionMailBody (au_bidder a) (au_bid a) (au_buyout a) (au_deposit a) cut))
  else mret tt.

Definition SendAuctionSuccessfulMail (a : AuctionEntry) : RP unit :=
  s ← get;
  if player_exists w s (au_owner a) then
    cut ← of_float (GetAuctionCut a);
    let profit := u32 (au_bid a + au_deposit a - cut) in
    (if is_online s (au_owner a) then SendAuctionOwnerNotification (au_owner a) a else mret tt);;
    auction_mail a (au_owner a) (ew_mail_delay w) (AddMoney profit (MailDraft_new (BuildAuctionMailSubject a AUCTION_SUCCESSFUL)
      (BuildAuctionMailBody (au_bidder a) (au_bid a) (au_buyout a) (au_deposit a) cut)))
  else mret tt.

Definition SendAuctionExpiredMail (a : AuctionEntry) : RP unit :=
  s ← get;
  let g := au_itemGUIDLow a in
  if bool_decide (g ∈ r_aitems s) then
    if player_exists w s (au_owner a) then
      (if is_online s (au_owner a) then SendAuctionOwnerNotification (au_owner a) a else mret tt);;
      deref_item g;;
      auction_mail a (au_owner a) 0 (AddItem g (MailDraft_new (BuildAuctionMailSubject a AUCTION_EXPIRED)
        (BuildAuctionMailBody 0 0 (au_buyout a) (au_deposit a) 0)))
    else mret tt
  else mret tt.

Definition SendAuctionOutbiddedMail (a : AuctionEntry) (newPrice newBidder : Z) : RP unit :=
  s ← get;
  if player_exists w s (au_bidder a) then
    (if is_online s (au_bidder a) then
       outbid ← of_float (GetAuctionOutBid a);
       SendAuctionBidderNotification (au_bidder a) (he_houseId (au_house a)) (au_Id a) newBidder newPrice outbid (au_itemEntry a)
     else mret tt);;
    cut ← of_float (GetAuctionCut a);
    auction_mail a (au_bidder a) 0 (AddMoney (au_bid a) (MailDraft_new (BuildAuctionMailSubject a AUCTION_OUTBIDDED)
      (BuildAuctionMailBody (au_owner a) (au_bid a) (au_buyout a) (au_deposit a) cut)))
  else mret tt.

Definition SendAuctionCancelledToBidderMail (a : AuctionEntry) (item : Z) : RP unit :=
  s ← get;
  (if is_online s (au_bidder a) then
     i ← deref_item item; SendAuctionRemovedNotification (au_bidder a) (au_Id a) (au_itemEntry a) (it_property i)
   else mret tt);;
  if player_exists w s (au_bidder a) then
    auction_mail a (au_bidder a) 0 (AddMoney (au_bid a) (MailDraft_new (BuildAuctionMailSubject a AUCTION_CANCELLED_TO_BIDDER)
      (BuildAuctionMailBody (au_owner a) (au_bid a) (au_buyout a) (au_deposit a) 0)))
  else mret tt.

(** ** The end of an auction *)

Definition finish_auction (h : House) (id : Z) : RP unit :=
  s ← get;
  match GetAuction s h id with
  | None => mret tt
  | Some a =>
      BeginTransaction;;
      (if au_bidder a =? 0 then SendAuctionExpiredMail a
       else SendAuctionSuccessfulMail a;; SendAuctionWonMail a);;
      DeleteAuctionFromDB (au_Id a);;
      CommitTransaction;;
      RemoveAItem (au_itemGUIDLow a);;
      RemoveAuction h a
  end.
(** [AuctionHouseObject::Update] *)
Definition UpdateHouse (h : House) : RP unit :=
  s ← get;
  if bool_decide (r_auctions s h = ∅) then mret tt
  else forM (CHAR_SEL_AUCTION_BY_TIME (u32 (u32 (ew_game_time w) + 60)) (r_db s)) (finish_auction h).
(** [AuctionHouseMgr::Update] *)
Definition UpdateAuctions : RP unit :=
  UpdateHouse mHordeAuctions;; UpdateHouse mAllianceAuctions;; UpdateHouse mNeutralAuctions.

(** ** Start-up *)

Definition delete_expired (e : JoinedRow) : RP unit :=
  match LoadFromFieldList e with
  | None => mret tt
  | Some a =>
      BeginTransaction;;
      (if au_bidder a =? 0 then SendAuctionExpiredMail a
       else SendAuctionSuccessfulMail a;; SendAuctionWonMail a);;
      DeleteAuctionFromDB (au_Id a);;
      CommitTransaction
  end.
Definition DeleteExpiredAuctionsAtStartup : RP unit :=
  s ← get; forM (CHAR_SEL_EXPIRED_AUCTIONS (u32 (u32 (ew_game_time w) + 60)) (r_db s)) delete_expired.

Definition load_auction_item (e : JoinedRow) : RP unit :=
  let '(_, r, i) := e in
  match ew_proto w (ir_entry i) with
  | None => mret tt
  | Some _ =>
      ok ← LoadFromDB_item w (ar_itemguid r) 0 i;
      if ok : bool then AddAItem (ar_itemguid r) else mret tt
  end.
Definition LoadAuctionItems : RP unit :=
  s ← get;
  forM (elements (r_aitems s)) delete_item;;
  modify (set_aitems ∅);;
  forM (CHAR_SEL_AUCTIONS (r_db s)) load_auction_item.

Definition load_auction (e : JoinedRow) : RP unit :=
  s ← get;
  match LoadAuctionFromDB (r_aitems s) e with
  | None => DeleteAuctionFromDB e.1.1
  | Some a => AddAuction (GetAuctionsMap (au_factionTemplateId a)) a
  end.
Definition LoadAuctions : RP unit :=
  s ← get;
  BeginTransaction;; forM (CHAR_SEL_AUCTIONS (r_db s)) load_auction;; CommitTransaction.
(** In the order of [World::SetInitialWorldSettings]. *)
Definition StartAuctions : RP unit := DeleteExpiredAuctionsAtStartup;; LoadAuctionItems;; LoadAuctions.

(** ** The handlers *)

Definition of_option {A} (o : option A) : list A := match o with Some a => [a] | None => [] end.

Definition outbid_or_0 (a : AuctionEntry) : RP Z := if au_bid a =? 0 then mret 0 else of_float (GetAuctionOutBid a).
Definition SendAuctionCommandResult (p : Z) (auction : option AuctionEntry) (action errorCode bidError : Z) : RP unit :=
  let head := le_bytes 4 (from_option au_Id 0 auction) ++ le_bytes 4 action ++ le_bytes 4 errorCode in
  tail ← (match auction with
          | Some a =>
              if (errorCode =? ERR_AUCTION_OK) && (action =? AUCTION_PLACE_BID) then
                outbid ← outbid_or_0 a; mret (le_bytes 8 outbid)
              else if errorCode =? ERR_AUCTION_HIGHER_BID then
                outbid ← outbid_or_0 a; mret (le_bytes 8 (au_bidder a) ++ le_bytes 8 (au_bid a) ++ le_bytes 8 outbid)
              else if errorCode =? ERR_AUCTION_INVENTORY then mret (le_bytes 4 bidError)
              else mret []
          | None => if errorCode =? ERR_AUCTION_INVENTORY then mret (le_bytes 4 bidError) else mret []
          end);
  SendPacket p (SMSG_AUCTION_COMMAND_RESULT (head ++ tail)).
Definition sell_error (p errorCode : Z) : RP unit := SendAuctionCommandResult p None AUCTION_SELL_ITEM errorCode 0.

(** The first loop over the items: what is sold, and how many. *)
Fixpoint check_items (p : Z) (l : list (Z * Z)) : RP (list Z * Z + Z) :=
  match l with
  | [] => mret (inl ([], 0))
  | (guid, count) :: l' =>
      pl ← deref_player p;
      match GetItemByGuid pl guid with
      | None => mret (inr ERR_AUCTION_ITEM_NOT_FOUND)
      | Some g =>
          s ← get;
          i ← deref_item g;
          t ← GetTemplate w g;
          if bool_decide (g ∈ r_aitems s) || negb (ew_tradable w g false) || ew_not_empty_bag w g ||
             has (ip_Flags t) ITEM_PROTO_FLAG_CONJURED || negb (it_expiration i =? 0) || (it_count i <? count)
          then mret (inr ERR_AUCTION_DATABASE_ERROR)
          else
            r ← check_items p l';
            match r with
            | inl (items, final) => mret (inl (g :: items, u32 (count + final)))
            | inr e => mret (inr e)
            end
      end
  end.
(** The second one: every stack could hold them all. *)
Fixpoint stacks_fit (items : list Z) (finalCount : Z) : RP bool :=
  match items with
  | [] => mret true
  | g :: items' => t ← GetTemplate w g; if GetMaxStackSize t <? finalCount then mret false else stacks_fit items' finalCount
  end.

(** What is taken from each stack when a clone is sold. *)
Definition take_stack (p : Z) (e : Z * Z) : RP unit :=
  let '(g, count) := e in
  i ← deref_item g;
  if it_count i =? count then
    MoveItemFromInventory p g;;
    BeginTransaction;; Append (CHAR_DEL_ITEM_INSTANCE g);; CommitTransaction
  else
    upd_item g (fun i => SetState ITEM_CHANGED (item_set_count (u32 (it_count i - count)) i));;
    BeginTransaction;; SaveToDB g;; CommitTransaction.

Definition new_auction (auctioneer id g owner bid buyout time deposit : Z) (i : Item) (entry : AuctionHouseEntry) : AuctionEntry :=
  mkAuctionEntry id auctioneer g (it_entry i) (it_count i) owner (u32 bid) 0 (u32 buyout) time 0 deposit entry 0.

(** The two branches of [HandleAuctionSellItem]: [mk] is the auction once its id
    and its item are known. *)
Definition sell_moved (p : Z) (h : House) (g : Z) (mk : Z -> Z -> Item -> AuctionEntry) : RP unit :=
  id ← GenerateAuctionID;
  i ← deref_item g;
  let a := mk id g i in
  AddAItem g;;
  AddAuction h a;;
  MoveItemFromInventory p g;;
  BeginTransaction;;
  SaveToDB g;;
  SaveAuctionToDB a;;
  SaveGoldToDB p;;
  CommitTransaction;;
  SendAuctionCommandResult p (Some a) AUCTION_SELL_ITEM ERR_AUCTION_OK 0.
Definition sell_clone (p : Z) (h : House) (g finalCount : Z) (stacks : list (Z * Z)) (mk : Z -> Z -> Item -> AuctionEntry) : RP bool :=
  o ← CloneItem w g finalCount p;
  match o with
  | None => sell_error p ERR_AUCTION_DATABASE_ERROR;; mret false
  | Some n =>
      id ← GenerateAuctionID;
      i ← deref_item n;
      let a := mk id n i in
      AddAItem n;;
      AddAuction h a;;
      forM stacks (take_stack p);;
      BeginTransaction;;
      SaveToDB n;;
      SaveAuctionToDB a;;
      SaveGoldToDB p;;
      CommitTransaction;;
      SendAuctionCommandResult p (Some a) AUCTION_SELL_ITEM ERR_AUCTION_OK 0;;
      mret true
  end.

(** [HandleAuctionSellItem] after the checks of the items. *)
Definition sell_items (p auctioneer faction : Z) (entry : AuctionHouseEntry) (items : list Z) (counts : list Z)
    (finalCount bid buyout etime : Z) : RP unit :=
  match items with
  | [] => mret tt
  | g :: _ =>
      t ← GetTemplate w g;
      auctionTime ← of_float (uint32_of_float (fmul (float_of_Z etime) (ew_rate_time w)));
      deposit ← of_float (GetAuctionDeposit entry etime t finalCount);
      pl ← deref_player p;
      if negb (HasEnoughMoney pl deposit) then sell_error p ERR_AUCTION_NOT_ENOUGHT_MONEY
      else
        let h := GetAuctionsMap faction in
        let npc := if ew_two_side w then 23442 else u32 auctioneer in
        let mk := fun id g i => new_auction npc id g p bid buyout (ew_time w + auctionTime) deposit i entry in
        i ← deref_item g;
        sold ← (if (length items =? 1)%nat && bool_decide (head counts = Some (it_count i))
                then sell_moved p h g mk;; mret true
                else sell_clone p h g finalCount (zip items counts) mk);
        if sold : bool then change ← neg32 deposit; ModifyMoney p change;; mret tt else mret tt
  end.

(** [items] are the guids and counts in the packet, [etime] is in minutes. *)
Definition HandleAuctionSellItem (p auctioneer : Z) (items : list (Z * Z)) (bid buyout etime : Z) : RP unit :=
  if MAX_AUCTION_ITEMS <? len items then sell_error p ERR_AUCTION_DATABASE_ERROR
  else if existsb (fun e => (e.1 =? 0) || (e.2 =? 0) || (1000 <? e.2)) items then mret tt
  else if (bid =? 0) || (etime =? 0) then mret tt
  else if (MAX_MONEY_AMOUNT <? bid) || (MAX_MONEY_AMOUNT <? buyout) then sell_error p ERR_AUCTION_DATABASE_ERROR
  else
    match ew_auctioneer w p auctioneer with
    | None => mret tt
    | Some faction =>
        match GetAuctionHouseEntry faction with
        | None => mret tt
        | Some entry =>
            let etime := u32 (etime * MINUTE) in
            if negb ((etime =? MIN_AUCTION_TIME) || (etime =? 2 * MIN_AUCTION_TIME) || (etime =? 4 * MIN_AUCTION_TIME)) then mret tt
            else
              r ← check_items p items;
              match r with
              | inr e => sell_error p e
              | inl (found, finalCount) =>
                  if finalCount =? 0 then sell_error p ERR_AUCTION_DATABASE_ERROR
                  else
                    fit ← stacks_fit found finalCount;
                    if fit : bool then sell_items p auctioneer faction entry found items.*2 finalCount bid buyout etime
                    else sell_error p ERR_AUCTION_DATABASE_ERROR
              end
        end
    end.

(** Who bids less than [buyout], which 0 says there is none. *)
Definition below_buyout (a : AuctionEntry) (price : Z) : bool := (price <? au_buyout a) || (au_buyout a =? 0).

Definition place_bid (p : Z) (h : House) (a : AuctionEntry) (price : Z) : RP unit :=
  (if 0 <? au_bidder a then
     if au_bidder a =? p then change ← neg64 (u64 (price - au_bid a)); ModifyMoney p change
     else
       SendAuctionOutbiddedMail a (u32 price) p;;
       change ← neg64 price; ModifyMoney p change
   else change ← neg64 price; ModifyMoney p change);;
  let a' := auction_set_bid p (u32 price) a in
  upd_house h (<[au_Id a := a']>);;
  Append (CHAR_UPD_AUCTION_BID p (u32 price) (au_Id a));;
  SendAuctionCommandResult p (Some a') AUCTION_PLACE_BID ERR_AUCTION_OK 0.

Definition buy_out (p : Z) (h : House) (a : AuctionEntry) : RP unit :=
  (if p =? au_bidder a then change ← neg64 (u32 (au_buyout a - au_bid a)); ModifyMoney p change;; mret tt
   else
     change ← neg64 (au_buyout a); ModifyMoney p change;;
     if negb (au_bidder a =? 0) then SendAuctionOutbiddedMail a (au_buyout a) p else mret tt);;
  let a' := auction_set_bid p (au_buyout a) a in
  upd_house h (<[au_Id a := a']>);;
  SendAuctionSalePendingMail a';;
  SendAuctionSuccessfulMail a';;
  SendAuctionWonMail a';;
  SendAuctionCommandResult p (Some a') AUCTION_PLACE_BID ERR_AUCTION_OK 0;;
  DeleteAuctionFromDB (au_Id a');;
  RemoveAItem (au_itemGUIDLow a');;
  RemoveAuction h a'.

(** [price] is a [uint64]. *)
Definition HandleAuctionPlaceBid (p auctioneer auctionId price : Z) : RP unit :=
  if (auctionId =? 0) || (price =? 0) then mret tt
  else
    match ew_auctioneer w p auctioneer with
    | None => mret tt
    | Some faction =>
        let h := GetAuctionsMap faction in
        s ← get;
        match GetAuction s h auctionId with
        | None => SendAuctionCommandResult p None AUCTION_PLACE_BID ERR_AUCTION_BID_OWN 0
        | Some a =>
            if au_owner a =? p then SendAuctionCommandResult p None AUCTION_PLACE_BID ERR_AUCTION_BID_OWN 0
            else if (price <=? au_bid a) || (price <? au_startbid a) then mret tt
            else
              low ← (if below_buyout a price then outbid ← of_float (GetAuctionOutBid a); mret (price <? u32 (au_bid a + outbid))
                     else mret false);
              pl ← deref_player p;
              if low : bool
              then SendAuctionCommandResult p (Some a) AUCTION_PLACE_BID ERR_AUCTION_HIGHER_BID 0
              else if negb (HasEnoughMoney pl price)
              then SendAuctionCommandResult p (Some a) AUCTION_PLACE_BID ERR_AUCTION_NOT_ENOUGHT_MONEY 0
              else
                BeginTransaction;;
                (if below_buyout a price then place_bid p h a price else buy_out p h a);;
                SaveGoldToDB p;;
                CommitTransaction
        end
    end.

Definition cancel_auction (p : Z) (h : House) (a : AuctionEntry) : RP unit :=
  SendAuctionCommandResult p (Some a) AUCTION_CANCEL ERR_AUCTION_OK 0;;
  SaveGoldToDB p;;
  DeleteAuctionFromDB (au_Id a);;
  CommitTransaction;;
  RemoveAItem (au_itemGUIDLow a);;
  RemoveAuction h a.
Definition HandleAuctionRemoveItem (p auctioneer auctionId : Z) : RP unit :=
  match ew_auctioneer w p auctioneer with
  | None => mret tt
  | Some faction =>
      let h := GetAuctionsMap faction in
      BeginTransaction;;
      s ← get;
      match GetAuction s h auctionId with
      | None => SendAuctionCommandResult p None AUCTION_CANCEL ERR_AUCTION_DATABASE_ERROR 0
      | Some a =>
          if au_owner a =? p then
            if bool_decide (au_itemGUIDLow a ∈ r_aitems s) then
              let mail := deref_item (au_itemGUIDLow a);;
                          auction_mail a p 0 (AddItem (au_itemGUIDLow a) (MailDraft_new (BuildAuctionMailSubject a AUCTION_CANCELED)
                            (BuildAuctionMailBody 0 0 (au_buyout a) (au_deposit a) 0))) in
              if 0 <? au_bidder a then
                cut ← of_float (GetAuctionCut a);
                pl ← deref_player p;
                if negb (HasEnoughMoney pl cut) then mret tt
                else
                  SendAuctionCancelledToBidderMail a (au_itemGUIDLow a);;
                  change ← neg64 cut; ModifyMoney p change;;
                  mail;; cancel_auction p h a
              else mail;; cancel_auction p h a
            else SendAuctionCommandResult p None AUCTION_CANCEL ERR_AUCTION_DATABASE_ERROR 0
          else SendAuctionCommandResult p None AUCTION_CANCEL ERR_AUCTION_DATABASE_ERROR 0
      end
  end.

(** ** Lists *)

(** [AuctionEntry::BuildAuctionInfo], [None] for an auction without its item. *)
Definition BuildAuctionInfo (a : AuctionEntry) : RP (option (list Z)) :=
  s ← get;
  let g := au_itemGUIDLow a in
  if bool_decide (g ∈ r_aitems s) then
    i ← deref_item g;
    outbid ← outbid_or_0 a;
    mret (Some (le_bytes 4 (au_Id a) ++ le_bytes 4 (it_entry i) ++
      flat_map (fun e => le_bytes 4 e.1.1 ++ le_bytes 4 e.1.2 ++ le_bytes 4 e.2) (firstn 10 (ew_enchantments w g)) ++
      le_bytes 4 (u32 (it_property i)) ++ le_bytes 4 (ew_suffix_factor w g) ++ le_bytes 4 (it_count i) ++
      le_bytes 4 (ew_spell_charges w g) ++ le_bytes 4 0 ++ le_bytes 8 (au_owner a) ++ le_bytes 8 (au_startbid a) ++ le_bytes 8 outbid ++
      le_bytes 8 (au_buyout a) ++ le_bytes 4 (u32 ((au_expire_time a - ew_time w) * 1000)) ++ le_bytes 8 (au_bidder a) ++
      le_bytes 8 (au_bid a)))
  else mret None.

(** The data of a list, [count] and [totalcount]. *)
Definition Listing : Type := list Z * Z * Z.
Definition list_auction (a : AuctionEntry) (acc : Listing) : RP Listing :=
  let '(data, count, total) := acc in
  o ← BuildAuctionInfo a;
  match o with
  | Some d => mret (data ++ d, u32 (count + 1), u32 (total + 1))
  | None => mret (data, count, u32 (total + 1))
  end.
Fixpoint foldM {A B} (f : A -> B -> RP B) (l : list A) (b : B) : RP B :=
  match l with
  | [] => mret b
  | a :: l' => b ← f a b; foldM f l' b
  end.
Definition BuildListBidderItems (h : House) (p : Z) (acc : Listing) : RP Listing :=
  s ← get; foldM list_auction (filter (fun a => au_bidder a = p) (in_order (r_auctions s h)).*2) acc.
Definition BuildListOwnerItems (h : House) (p : Z) (acc : Listing) : RP Listing :=
  s ← get; foldM list_auction (filter (fun a => au_owner a = p) (in_order (r_auctions s h)).*2) acc.

(** What a player looks for; [0xffffffff], and 0 for the levels and [usable],
    means anything. *)
Record AuctionSearch := mkAuctionSearch {
  as_name : list Z;
  as_levelmin : Z;
  as_levelmax : Z;
  as_usable : Z;
  as_inventoryType : Z;
  as_itemClass : Z;
  as_itemSubClass : Z;
  as_quality : Z
}.
Definition ANY := 4294967295.
Definition search_matches (p : Z) (q : AuctionSearch) (g : Z) (t : ItemTemplate) : bool :=
  let filtered (wanted actual : Z) := negb (wanted =? ANY) && negb (actual =? wanted) in
  negb (filtered (as_itemClass q) (ip_Class t)) && negb (filtered (as_itemSubClass q) (ip_SubClass t)) &&
  negb (filtered (as_inventoryType q) (ip_InventoryType t)) && negb (filtered (as_quality q) (ip_Quality t)) &&
  negb (negb (as_levelmin q =? 0) && ((ip_RequiredLevel t <? as_levelmin q) ||
          (negb (as_levelmax q =? 0) && (as_levelmax q <? ip_RequiredLevel t)))) &&
  negb (negb (as_usable q =? 0) && negb (ew_can_use w p g)) &&
  (bool_decide (as_name q = []) || ew_name_fits w p g (as_name q)).

Definition search_auction (p listfrom : Z) (q : AuctionSearch) (a : AuctionEntry) (acc : Listing) : RP Listing :=
  s ← get;
  let g := au_itemGUIDLow a in
  if bool_decide (g ∈ r_aitems s) then
    t ← GetTemplate w g;
    if search_matches p q g t then
      let '(data, count, total) := acc in
      if (count <? 50) && (listfrom <=? total) then
        o ← BuildAuctionInfo a;
        mret (data ++ default [] o, u32 (count + 1), u32 (total + 1))
      else mret (data, count, u32 (total + 1))
    else mret acc
  else mret acc.
Definition BuildListAuctionItems (h : House) (p listfrom : Z) (q : AuctionSearch) (acc : Listing) : RP Listing :=
  s ← get; foldM (search_auction p listfrom q) (in_order (r_auctions s h)).*2 acc.

Definition list_packet (l : Listing) (last : Z) : list Z :=
  let '(data, count, total) := l in le_bytes 4 count ++ data ++ le_bytes 4 total ++ le_bytes 4 last.
Definition outbidded (h : House) (id : Z) (acc : Listing) : RP Listing :=
  s ← get;
  match GetAuction s h id with
  | None => mret acc
  | Some a =>
      let '(data, count, total) := acc in
      o ← BuildAuctionInfo a;
      match o with Some d => mret (data ++ d, u32 (count + 1), u32 (total + 1)) | None => mret acc end
  end.
(** [outbids] is empty when the size of the packet does not fit its count. *)
Definition HandleAuctionListBidderItems (p auctioneer : Z) (outbids : list Z) : RP unit :=
  match ew_auctioneer w p auctioneer with
  | None => mret tt
  | Some faction =>
      let h := GetAuctionsMap faction in
      acc ← foldM (outbidded h) outbids ([], 0, 0);
      acc ← BuildListBidderItems h p acc;
      SendPacket p (SMSG_AUCTION_BIDDER_LIST_RESULT (list_packet acc 300))
  end.
Definition HandleAuctionListOwnerItems (p auctioneer : Z) : RP unit :=
  match ew_auctioneer w p auctioneer with
  | None => mret tt
  | Some faction =>
      acc ← BuildListOwnerItems (GetAuctionsMap faction) p ([], 0, 0);
      SendPacket p (SMSG_AUCTION_OWNER_LIST_RESULT (list_packet acc 0))
  end.
(** The name searched for is in lower case already. *)
Definition HandleAuctionListItems (p auctioneer listfrom : Z) (q : AuctionSearch) : RP unit :=
  match ew_auctioneer w p auctioneer with
  | None => mret tt
  | Some faction =>
      acc ← BuildListAuctionItems (GetAuctionsMap faction) p listfrom q ([], 0, 0);
      SendPacket p (SMSG_AUCTION_LIST_RESULT (list_packet acc 300))
  end.
End Auction.
