(* ===== verification/AuctionLedger.v ===== *)
(** * The ledger of the auction house (model in Auction.v)

    The abstract state of the economy: the auctions with their rows, the items
    the manager holds, the money of the players online and the money in the mail.
    [now good s d L s' d'] says where an operation that began in the state [s]
    with the tables [d] has come to: the ledger is [L], and no goods have moved
    but [good], an item that is in the mail to a player. *)

From S2P Require Import Prelude.
From S2P Require Import Economy.
From S2P Require Import EconomyProofs.
From S2P Require Import Mail.
From S2P Require Import MailProofs.
From S2P Require Import Auction.
From stdpp Require Import list sorting.
Local Open Scope Z_scope.
#[local] Set Warnings "-clear-no-such-hyp".

Record Ledger := mkLedger {
  lg_auctions : House -> gmap Z AuctionEntry;
  lg_aitems : gset Z;
  lg_rows : gmap Z AuctionRow;
  lg_cash : gmap Z Z;
  lg_mail : gmap Z Z
}.
(** The money in the mails to each player. *)
Definition credit (p v : Z) (m : gmap Z Z) : gmap Z Z := partial_alter (fun o => Some (default 0 o + v)) p m.
Definition mail_totals (d : CharDB) : gmap Z Z := map_fold (fun _ r => credit (mr_receiver r) (mr_money r)) ∅ (db_mails d).
Definition ledger_of (s : Realm) (d : CharDB) : Ledger :=
  mkLedger (r_auctions s) (r_aitems s) (db_auctions d) (pl_money <$> r_online s) (mail_totals d).

(** ** Changes of the ledger *)

Definition pay (p v : Z) (L : Ledger) : Ledger :=
  mkLedger (lg_auctions L) (lg_aitems L) (lg_rows L) (lg_cash L) (credit p v (lg_mail L)).
Definition pay_if (b : bool) (p v : Z) (L : Ledger) : Ledger := if b then pay p v L else L.
Lemma pay_if_auctions b p v L : lg_auctions (pay_if b p v L) = lg_auctions L.
Proof. by destruct b. Qed.
Lemma pay_if_aitems b p v L : lg_aitems (pay_if b p v L) = lg_aitems L.
Proof. by destruct b. Qed.
Lemma pay_if_rows b p v L : lg_rows (pay_if b p v L) = lg_rows L.
Proof. by destruct b. Qed.
Lemma pay_if_cash b p v L : lg_cash (pay_if b p v L) = lg_cash L.
Proof. by destruct b. Qed.
Create Rewrite HintDb ledger.
#[export] Hint Rewrite pay_if_auctions pay_if_aitems pay_if_rows pay_if_cash : ledger.

Definition set_cash (p v : Z) (L : Ledger) : Ledger :=
  mkLedger (lg_auctions L) (lg_aitems L) (lg_rows L) (<[p := v]> (lg_cash L)) (lg_mail L).
Definition set_auction (h : House) (id : Z) (a : AuctionEntry) (L : Ledger) : Ledger :=
  mkLedger (<[h := <[id := a]> (lg_auctions L h)]> (lg_auctions L)) (lg_aitems L) (lg_rows L) (lg_cash L) (lg_mail L).
Definition drop_auction (h : House) (id : Z) (L : Ledger) : Ledger :=
  mkLedger (<[h := delete id (lg_auctions L h)]> (lg_auctions L)) (lg_aitems L) (lg_rows L) (lg_cash L) (lg_mail L).
Definition set_held (f : gset Z -> gset Z) (L : Ledger) : Ledger :=
  mkLedger (lg_auctions L) (f (lg_aitems L)) (lg_rows L) (lg_cash L) (lg_mail L).
Definition set_rows (f : gmap Z AuctionRow -> gmap Z AuctionRow) (L : Ledger) : Ledger :=
  mkLedger (lg_auctions L) (lg_aitems L) (f (lg_rows L)) (lg_cash L) (lg_mail L).

Lemma set_cash_aitems p v L : lg_aitems (set_cash p v L) = lg_aitems L.
Proof. done. Qed.
Lemma set_auction_aitems h id a L : lg_aitems (set_auction h id a L) = lg_aitems L.
Proof. done. Qed.
#[export] Hint Rewrite set_cash_aitems set_auction_aitems : ledger.
(** The fields of a changed ledger. *)
Ltac books := repeat progress (cbn; autorewrite with ledger).
Ltac books_in H := repeat progress (cbn in H; autorewrite with ledger in H).

Lemma credit_comm p v q u m : credit p v (credit q u m) = credit q u (credit p v m).
Proof.
  unfold credit. destruct (decide (p = q)) as [->|Hne]; [|by apply partial_alter_partial_alter_ne].
  rewrite !partial_alter_partial_alter_eq. apply partial_alter_ext. intros o _. cbn. f_equal. lia.
Qed.
Lemma mail_totals_insert id r d : db_mails d !! id = None ->
  mail_totals (db_set_mails (<[id := r]> (db_mails d)) d) = credit (mr_receiver r) (mr_money r) (mail_totals d).
Proof.
  intros Hid. unfold mail_totals. cbn. rewrite map_fold_insert_L; [done| |done]. intros. apply credit_comm.
Qed.

(** ** Goods that move *)

(** The mitems, bags and rows of goods after [good] went into the mail. *)
Record moved (good : option (Z * Z)) (s : Realm) (d : CharDB) (s' : Realm) (d' : CharDB) : Prop := {
  mv_next_auction : r_next_auction s' = r_next_auction s;
  mv_next_item : r_next_item s' = r_next_item s;
  mv_items : forall x, (forall p, good <> Some (x, p)) -> r_items s' !! x = r_items s !! x;
  mv_good : forall g p, good = Some (g, p) -> r_items s' !! g = None \/ r_items s' !! g = r_items s !! g;
  mv_dom : dom (r_online s') = dom (r_online s);
  mv_player : forall p a b, r_online s !! p = Some a -> r_online s' !! p = Some b ->
    pl_bags b = pl_bags a /\ pl_mailsLoaded b = pl_mailsLoaded a /\
    forall x, x ∈ pl_mitems b <-> x ∈ pl_mitems a \/ good = Some (x, p) /\ is_Some (r_items s' !! x);
  mv_rows : (fun r => (ir_entry r, ir_count r)) <$> db_items d' = (fun r => (ir_entry r, ir_count r)) <$> db_items d;
  mv_mail_items : forall x, (forall p, good <> Some (x, p)) -> db_mail_items d' !! x = db_mail_items d !! x
}.

Lemma moved_refl s d : moved None s d s d.
Proof.
  split; try done. intros p a b Ha Hb. simplify_eq. split_and!; [done..|]. intros x. split; [by left|].
  intros [?|[? _]]; done.
Qed.

(** The player of the first state whose state is [b] in the second. *)
Lemma moved_back good s d s' d' p b : moved good s d s' d' -> r_online s' !! p = Some b -> exists a, r_online s !! p = Some a.
Proof. intros Hm Hb. apply elem_of_dom_2 in Hb. rewrite (mv_dom _ _ _ _ _ Hm) in Hb. by apply elem_of_dom in Hb. Qed.

Lemma moved_trans good s d s1 d1 s2 d2 : moved good s d s1 d1 -> moved None s1 d1 s2 d2 -> moved good s d s2 d2.
Proof.
  intros H1 H2. assert (forall x, r_items s2 !! x = r_items s1 !! x) as Hi by (intros x; by apply (mv_items _ _ _ _ _ H2)).
  split; [by rewrite (mv_next_auction _ _ _ _ _ H2), (mv_next_auction _ _ _ _ _ H1)|
          by rewrite (mv_next_item _ _ _ _ _ H2), (mv_next_item _ _ _ _ _ H1)| | | | | |].
  - intros x Hx. rewrite Hi. by apply (mv_items _ _ _ _ _ H1).
  - intros g p Hg. rewrite Hi. by apply (mv_good _ _ _ _ _ H1 g p).
  - by rewrite (mv_dom _ _ _ _ _ H2), (mv_dom _ _ _ _ _ H1).
  - intros p a b Ha Hb. destruct (moved_back _ _ _ _ _ p b H2 Hb) as [c Hc].
    destruct (mv_player _ _ _ _ _ H1 p a c Ha Hc) as (B1 & L1 & M1), (mv_player _ _ _ _ _ H2 p c b Hc Hb) as (B2 & L2 & M2).
    split_and!; [congruence..|]. intros x. rewrite M2, M1, Hi. naive_solver.
  - by rewrite (mv_rows _ _ _ _ _ H2), (mv_rows _ _ _ _ _ H1).
  - intros x Hx. rewrite (mv_mail_items _ _ _ _ _ H2) by done. by apply (mv_mail_items _ _ _ _ _ H1).
Qed.

Lemma moved_then good s d s1 d1 s2 d2 : moved None s d s1 d1 -> moved good s1 d1 s2 d2 -> moved good s d s2 d2.
Proof.
  intros H1 H2. assert (forall x, r_items s1 !! x = r_items s !! x) as Hi by (intros x; by apply (mv_items _ _ _ _ _ H1)).
  split; [by rewrite (mv_next_auction _ _ _ _ _ H2), (mv_next_auction _ _ _ _ _ H1)|
          by rewrite (mv_next_item _ _ _ _ _ H2), (mv_next_item _ _ _ _ _ H1)| | | | | |].
  - intros x Hx. rewrite (mv_items _ _ _ _ _ H2) by done. apply Hi.
  - intros g p Hg. rewrite <- Hi. by apply (mv_good _ _ _ _ _ H2 g p).
  - by rewrite (mv_dom _ _ _ _ _ H2), (mv_dom _ _ _ _ _ H1).
  - intros p a b Ha Hb. destruct (moved_back _ _ _ _ _ p b H2 Hb) as [c Hc].
    destruct (mv_player _ _ _ _ _ H1 p a c Ha Hc) as (B1 & L1 & M1), (mv_player _ _ _ _ _ H2 p c b Hc Hb) as (B2 & L2 & M2).
    split_and!; [congruence..|]. intros x. rewrite M2, M1. naive_solver.
  - by rewrite (mv_rows _ _ _ _ _ H2), (mv_rows _ _ _ _ _ H1).
  - intros x Hx. rewrite (mv_mail_items _ _ _ _ _ H2) by done. by apply (mv_mail_items _ _ _ _ _ H1).
Qed.

(** ** Where an operation has come to *)

Definition mails_fresh (s : Realm) (d : CharDB) : Prop := forall id, is_Some (db_mails d !! id) -> id < r_next_mail s.

Record now (good : option (Z * Z)) (s : Realm) (d : CharDB) (L : Ledger) (s' : Realm) (d' : CharDB) : Prop := {
  nw_moved : moved good s d s' d';
  nw_pending : pending s' = Some d';
  nw_fresh : mails_fresh s' d';
  nw_ledger : ledger_of s' d' = L
}.

(** *** Rules *)

Lemma now_start s d : pending s = Some d -> mails_fresh s d -> now None s d (ledger_of s d) s d.
Proof. intros Hp Hf. split; [apply moved_refl|done..]. Qed.

(** The next step moves no goods. *)
Lemma now_step good s d L s1 d1 s2 d2 : now good s d L s1 d1 -> moved None s1 d1 s2 d2 -> pending s2 = Some d2 ->
  mails_fresh s2 d2 -> now good s d (ledger_of s2 d2) s2 d2.
Proof. intros [Hm _ _ _] H Hp Hf. split; [by eapply moved_trans|done..]. Qed.

(** Fields of memory that the goods do not depend on. *)
Lemma moved_memory s d auctions aitems db trans sent :
  moved None s d (mkRealm (r_items s) (r_online s) auctions aitems (r_next_auction s) (r_next_mail s) (r_next_item s) db trans sent) d.
Proof. split; try done. intros p a b Ha Hb. cbn in Hb. simplify_eq. split_and!; [done..|]. naive_solver. Qed.

Lemma now_send good s d L s1 d1 p m : now good s d L s1 d1 -> now good s d L (send_packet p m s1) d1.
Proof. intros H. destruct (H) as [_ Hp Hf <-]. by apply (now_step _ _ _ _ s1 d1 (send_packet p m s1) d1 H (moved_memory _ _ _ _ _ _ _)). Qed.

Lemma now_house good s d L s1 d1 h f : now good s d L s1 d1 ->
  now good s d (mkLedger (<[h := f (lg_auctions L h)]> (lg_auctions L)) (lg_aitems L) (lg_rows L) (lg_cash L) (lg_mail L))
    (set_auctions (<[h := f (r_auctions s1 h)]> (r_auctions s1)) s1) d1.
Proof. intros H. destruct (H) as [_ Hp Hf <-]. by apply (now_step _ _ _ _ s1 d1 (set_auctions _ s1) d1 H (moved_memory _ _ _ _ _ _ _)). Qed.

Lemma now_aitems good s d L s1 d1 f : now good s d L s1 d1 -> now good s d (set_held f L) (set_aitems (f (r_aitems s1)) s1) d1.
Proof. intros H. destruct (H) as [_ Hp Hf <-]. by apply (now_step _ _ _ _ s1 d1 (set_aitems _ s1) d1 H (moved_memory _ _ _ _ _ _ _)). Qed.

Lemma now_commit good s d L s1 d1 : now good s d L s1 d1 ->
  now good s d L (set_trans [] (set_db (ExecuteTransaction (r_trans s1) (r_db s1)) s1)) d1.
Proof.
  intros H. destruct (H) as [_ Hp Hf <-]. rewrite (pending_commit s1 d1 Hp).
  by apply (now_step _ _ _ _ s1 d1 (set_trans [] (set_db d1 s1)) d1 H (moved_memory _ _ _ _ _ _ _)).
Qed.

Lemma moved_online s d p a b : r_online s !! p = Some a ->
  pl_bags b = pl_bags a -> pl_mailsLoaded b = pl_mailsLoaded a -> pl_mitems b = pl_mitems a ->
  moved None s d (set_online (<[p := b]> (r_online s)) s) d.
Proof.
  intros Hp Hb Hl Hm. split; try done; cbn.
  - rewrite dom_insert_L. apply elem_of_dom_2 in Hp. set_solver.
  - intros q a' b' Ha' Hb'. destruct (decide (q = p)) as [->|Hne]; [rewrite lookup_insert_eq in Hb'|rewrite lookup_insert_ne in Hb' by done];
      simplify_eq; (split_and!; [done..|]); intros x; [rewrite Hm|]; naive_solver.
Qed.
Lemma now_cash good s d L s1 d1 p a v : now good s d L s1 d1 -> r_online s1 !! p = Some a ->
  now good s d (set_cash p v L) (set_online (<[p := player_set_money v a]> (r_online s1)) s1) d1.
Proof.
  intros H Hp. destruct (H) as [_ Hpe Hf <-].
  replace (set_cash p v (ledger_of s1 d1)) with (ledger_of (set_online (<[p := player_set_money v a]> (r_online s1)) s1) d1)
    by (unfold ledger_of, set_cash; cbn; by rewrite fmap_insert).
  apply (now_step _ _ _ _ s1 d1 _ d1 H); [by apply (moved_online _ _ p a)|done..].
Qed.

(** A statement on the auctions or on money, which moves no goods and no mail. *)
Lemma moved_append s d st d' : db_mail_items d' = db_mail_items d ->
  (fun r => (ir_entry r, ir_count r)) <$> db_items d' = (fun r => (ir_entry r, ir_count r)) <$> db_items d ->
  moved None s d (set_trans (r_trans s ++ [st]) s) d'.
Proof.
  intros Hm Hi. split; try done; cbn; [|intros; by rewrite Hm].
  intros p a b Ha Hb. simplify_eq. split_and!; [done..|]. naive_solver.
Qed.
Lemma now_append good s d L s1 d1 st d2 : now good s d L s1 d1 -> exec_statement st d1 = Some d2 ->
  db_mail_items d2 = db_mail_items d1 -> db_mails d2 = db_mails d1 ->
  (fun r => (ir_entry r, ir_count r)) <$> db_items d2 = (fun r => (ir_entry r, ir_count r)) <$> db_items d1 ->
  now good s d (set_rows (fun _ => db_auctions d2) L) (set_trans (r_trans s1 ++ [st]) s1) d2.
Proof.
  intros H He Hm Hmm Hi. destruct (H) as [_ Hp Hf <-].
  replace (set_rows _ _) with (ledger_of (set_trans (r_trans s1 ++ [st]) s1) d2)
    by (unfold ledger_of, set_rows, mail_totals; cbn; by rewrite Hmm).
  apply (now_step _ _ _ _ s1 d1 _ d2 H); [by apply moved_append|by eapply pending_append|].
  intros id. rewrite Hmm. apply Hf.
Qed.

Lemma now_gold good s d L s1 d1 money p : now good s d L s1 d1 -> exists d2,
  now good s d L (set_trans (r_trans s1 ++ [CHAR_UDP_CHAR_MONEY money p]) s1) d2.
Proof.
  intros H. exists (db_set_money (<[p := money]> (db_money d1)) d1). pose proof (nw_ledger _ _ _ _ _ _ H) as <-.
  exact (now_append _ _ _ _ _ _ (CHAR_UDP_CHAR_MONEY money p) _ H eq_refl eq_refl eq_refl eq_refl).
Qed.
Lemma now_delete_row good s d L s1 d1 id : now good s d L s1 d1 -> exists d2,
  now good s d (set_rows (delete id) L) (set_trans (r_trans s1 ++ [CHAR_DEL_AUCTION id]) s1) d2.
Proof.
  intros H. exists (db_set_auctions (delete id (db_auctions d1)) d1). pose proof (nw_ledger _ _ _ _ _ _ H) as <-.
  exact (now_append _ _ _ _ _ _ (CHAR_DEL_AUCTION id) _ H eq_refl eq_refl eq_refl eq_refl).
Qed.
Lemma now_bid_row good s d L s1 d1 buyer bid id : now good s d L s1 d1 -> exists d2,
  now good s d (set_rows (alter (row_set_bid buyer bid) id) L) (set_trans (r_trans s1 ++ [CHAR_UPD_AUCTION_BID buyer bid id]) s1) d2.
Proof.
  intros H. exists (db_set_auctions (alter (row_set_bid buyer bid) id (db_auctions d1)) d1). pose proof (nw_ledger _ _ _ _ _ _ H) as <-.
  exact (now_append _ _ _ _ _ _ (CHAR_UPD_AUCTION_BID buyer bid id) _ H eq_refl eq_refl eq_refl eq_refl).
Qed.
Lemma now_owner good s d L s1 d1 owner g : now good s d L s1 d1 -> exists d2,
  db_mail_items d2 = db_mail_items d1 /\ now good s d L (set_trans (r_trans s1 ++ [CHAR_UPD_ITEM_OWNER owner g]) s1) d2.
Proof.
  intros H. exists (db_set_items (alter (row_set_owner owner) g (db_items d1)) d1). split; [done|].
  pose proof (nw_ledger _ _ _ _ _ _ H) as <-.
  refine (now_append _ _ _ _ _ _ (CHAR_UPD_ITEM_OWNER owner g) _ H eq_refl eq_refl eq_refl _).
  cbn. apply map_eq. intros x. rewrite !lookup_fmap. destruct (decide (x = g)) as [->|Hne].
  - rewrite lookup_alter_eq. by destruct (db_items d1 !! g).
  - by rewrite lookup_alter_ne.
Qed.

(** *** Mails *)

(** The draft carries [good], and [receiver] is to get it. *)
Definition carries (dr : MailDraft) (receiver : Z) (good : option (Z * Z)) : Prop :=
  match good with
  | None => md_items dr = ∅
  | Some (g, p) => md_items dr = {[g]} /\ p = receiver
  end.
Lemma carries_draft_items dr receiver good : carries dr receiver good ->
  draft_items dr = match good with None => [] | Some (g, _) => [g] end.
Proof.
  unfold draft_items. destruct good as [[g p]|]; cbn.
  - intros [-> _]. by rewrite elements_singleton.
  - intros ->. by rewrite elements_empty.
Qed.

Lemma exec_mail id row dr receiver good d : carries dr receiver good -> db_mails d !! id = None ->
  (forall g p, good = Some (g, p) -> db_mail_items d !! g = None) ->
  exists d', exec_statements (CHAR_INS_MAIL id row :: ((fun g => CHAR_INS_MAIL_ITEM id g receiver) <$> draft_items dr)) d = Some d' /\
    db_auctions d' = db_auctions d /\ db_items d' = db_items d /\ db_mails d' = <[id := row]> (db_mails d) /\
    forall x, (forall p, good <> Some (x, p)) -> db_mail_items d' !! x = db_mail_items d !! x.
Proof.
  intros Hc Hid Hg. rewrite (carries_draft_items _ _ _ Hc). cbn [exec_statements exec_statement].
  rewrite bool_decide_false by (rewrite Hid; by intros [? [=]]). destruct good as [[g p]|]; cbn.
  - rewrite bool_decide_false by (rewrite (Hg g p eq_refl); by intros [? [=]]).
    eexists. split_and!; try done. intros x Hx. cbn. apply lookup_insert_ne. intros ->. by apply (Hx p).
  - eexists. by split_and!.
Qed.

Lemma moved_mail s d s' d' dr receiver kept good : mail_effect dr receiver kept s s' -> carries dr receiver good ->
  db_items d' = db_items d -> (forall x, (forall p, good <> Some (x, p)) -> db_mail_items d' !! x = db_mail_items d !! x) ->
  (forall g p, good = Some (g, p) -> is_Some (r_items s !! g)) -> (forall g p a, good = Some (g, p) -> r_online s !! p = Some a -> g ∉ pl_mitems a) ->
  moved good s d s' d'.
Proof.
  intros M Hc Hi Hm Hg Hu. pose proof (carries_draft_items _ _ _ Hc) as Hl. pose proof (me_items _ _ _ _ _ M) as Ei. rewrite Hl in Ei.
  split; [apply (me_next_auction _ _ _ _ _ M)|apply (me_next_item _ _ _ _ _ M)| | |apply (me_dom _ _ _ _ _ M)| |by rewrite Hi|done].
  - intros x Hx. rewrite Ei. destruct kept; [done|]. destruct good as [[g p]|]; [|by rewrite without_nil].
    rewrite lookup_without, bool_decide_false; [done|]. rewrite list_elem_of_singleton. intros ->. by apply (Hx p).
  - intros g p ->. rewrite Ei. destruct kept; [by right|]. rewrite lookup_without, bool_decide_true; [by left|]. by left.
  - intros p a b Ha Hb. destruct (me_player _ _ _ _ _ M p a b Ha Hb) as [_ Hbg Hlo _ _ Hmi]. split_and!; [done..|].
    intros x. rewrite Hmi. case_bool_decide as Hp; [|split; [by left|]].
    + subst p. destruct kept as [m|].
      * rewrite elem_of_union, Ei. destruct good as [[g p]|]; cbn in Hc; [destruct Hc as [-> ->]|rewrite Hc; set_solver].
        rewrite elem_of_singleton. split; [|naive_solver]. intros [->|?]; [right|by left]. split; [done|]. by eapply Hg.
      * split; [by left|]. intros [?|[-> [? Hx]]]; [done|]. rewrite Ei, lookup_without, bool_decide_true in Hx by by left. done.
    + intros [?|[Hgo [i Hx]]]; [done|]. rewrite Hgo in Hc. cbn in Hc. by destruct Hc.
Qed.

(** A mail takes its money out of the game, to its receiver. *)
Lemma now_mailed good s d L s1 d1 s2 dr receiver kept :
  now None s d L s1 d1 -> mail_effect dr receiver kept s1 s2 -> carries dr receiver good ->
  (forall g p, good = Some (g, p) -> db_mail_items d1 !! g = None /\ is_Some (r_items s1 !! g)) ->
  (forall g p a, good = Some (g, p) -> r_online s1 !! p = Some a -> g ∉ pl_mitems a) ->
  exists d2, now good s d (pay receiver (u32 (md_money dr)) L) s2 d2.
Proof.
  intros [Hm Hp Hf <-] M Hc Hg Hu. destruct (me_trans _ _ _ _ _ M) as (row & Hr & Hmo & _ & Ht).
  assert (db_mails d1 !! r_next_mail s1 = None) as Hn.
  { destruct (db_mails d1 !! r_next_mail s1) eqn:E; [|done]. specialize (Hf _ (mk_is_Some _ _ E)). lia. }
  destruct (exec_mail (r_next_mail s1) row dr receiver good d1 Hc Hn) as (d2 & He & Ha & Hi & Hma & Hmi).
  { intros g p Hgo. by destruct (Hg g p Hgo). }
  exists d2. split.
  - eapply moved_then; [exact Hm|]. eapply moved_mail; try done. intros g p Hgo. by destruct (Hg g p Hgo).
  - unfold pending in *. by rewrite Ht, exec_app, (me_db _ _ _ _ _ M), Hp.
  - intros id. rewrite Hma, (me_next_mail _ _ _ _ _ M). intros Hid. apply lookup_insert_is_Some in Hid as [<-|[_ Hid]]; [lia|].
    specialize (Hf id Hid). lia.
  - unfold ledger_of, pay. cbn. rewrite (me_auctions _ _ _ _ _ M), (me_aitems _ _ _ _ _ M), Ha. f_equal.
    + apply map_eq. intros p. rewrite !lookup_fmap. pose proof (me_dom _ _ _ _ _ M) as Hd.
      destruct (r_online s1 !! p) as [a|] eqn:Ea.
      * destruct (r_online s2 !! p) as [b|] eqn:Eb; [cbn; f_equal; by apply (pa_money _ _ _ _ (me_player _ _ _ _ _ M p a b Ea Eb))|].
        apply not_elem_of_dom in Eb. rewrite Hd in Eb. by apply not_elem_of_dom in Eb; rewrite Ea in Eb.
      * apply not_elem_of_dom in Ea. rewrite <- Hd in Ea. apply not_elem_of_dom in Ea. by rewrite Ea.
    + rewrite <- Hr, <- Hmo, <- (mail_totals_insert (r_next_mail s1) row d1 Hn). unfold mail_totals. by rewrite Hma.
Qed.
