(* ===== verification/AuctionProofs.v ===== *)
(** * The auction house: its invariant (model in Auction.v)

    Every auction is in one house, holds one item that nobody else has, and is a
    row of the database; every command of a player and every update keeps this and
    fails only when ids run out or a float is out of range. *)

From S2P Require Import Prelude.
From S2P Require Import Economy.
From S2P Require Import EconomyProofs.
From S2P Require Import Mail.
From S2P Require Import MailProofs.
From S2P Require Import Auction.
From S2P Require Import AuctionLedger.
From stdpp Require Import list sorting.
Local Open Scope Z_scope.
#[local] Set Warnings "-clear-no-such-hyp".

(** ** The invariant *)

Definition listed (L : Ledger) (h : House) (id : Z) (a : AuctionEntry) : Prop := lg_auctions L h !! id = Some a.

(** Prices are [uint32]; without a bidder there is no bid, nobody bids on his own,
    and a bid is below the buyout. *)
Record entry_ok (a : AuctionEntry) : Prop := {
  en_bid : 0 <= au_bid a < 2 ^ 32;
  en_buyout : 0 <= au_buyout a < 2 ^ 32;
  en_startbid : 0 <= au_startbid a < 2 ^ 32;
  en_deposit : 0 <= au_deposit a < 2 ^ 32;
  en_bidder : 0 <= au_bidder a;
  en_none : au_bidder a = 0 -> au_bid a = 0;
  en_own : au_bidder a <> au_owner a;
  en_below : au_buyout a = 0 \/ au_bid a < au_buyout a
}.
Record houses_ok (next : Z) (L : Ledger) : Prop := {
  ho_entry : forall h id a, listed L h id a -> entry_ok a;
  ho_id : forall h id a, listed L h id a -> au_Id a = id /\ id < next;
  ho_house : forall h h' id a a', listed L h id a -> listed L h' id a' -> h = h';
  ho_item : forall h id a, listed L h id a -> au_itemGUIDLow a ∈ lg_aitems L;
  ho_items : forall h id a h' id' a', listed L h id a -> listed L h' id' a' -> au_itemGUIDLow a = au_itemGUIDLow a' -> id = id';
  ho_rows : forall id r, lg_rows L !! id = Some r <-> exists h a, listed L h id a /\ auction_row a = r
}.

(** *** Listing, bidding and ending *)

Definition ended (h : House) (a : AuctionEntry) (L : Ledger) : Ledger :=
  drop_auction h (au_Id a) (set_held (fun ai => ai ∖ {[au_itemGUIDLow a]}) (set_rows (delete (au_Id a)) L)).
Definition rebid (h : House) (a a' : AuctionEntry) (L : Ledger) : Ledger :=
  set_rows (alter (row_set_bid (au_bidder a') (au_bid a')) (au_Id a)) (set_auction h (au_Id a) a' L).
Definition put_up (h : House) (a : AuctionEntry) (L : Ledger) : Ledger :=
  set_rows (<[au_Id a := auction_row a]>) (set_auction h (au_Id a) a (set_held (fun ai => {[au_itemGUIDLow a]} ∪ ai) L)).

Lemma listed_set L h id a h' id' a' : listed (set_auction h id a L) h' id' a' <->
  (h' = h /\ id' = id /\ a' = a) \/ (~ (h' = h /\ id' = id) /\ listed L h' id' a').
Proof.
  unfold listed, set_auction. cbn. destruct (decide (h' = h)) as [->|Hne].
  - rewrite fn_lookup_insert, lookup_insert_Some. naive_solver.
  - rewrite fn_lookup_insert_ne by done. naive_solver.
Qed.
Lemma listed_drop L h id h' id' a' : listed (drop_auction h id L) h' id' a' <-> ~ (h' = h /\ id' = id) /\ listed L h' id' a'.
Proof.
  unfold listed, drop_auction. cbn. destruct (decide (h' = h)) as [->|Hne].
  - rewrite fn_lookup_insert, lookup_delete_Some. naive_solver.
  - rewrite fn_lookup_insert_ne by done. naive_solver.
Qed.

(** Money does not matter. *)
Lemma houses_ext next L L' : houses_ok next L -> lg_auctions L' = lg_auctions L -> lg_aitems L' = lg_aitems L -> lg_rows L' = lg_rows L ->
  houses_ok next L'.
Proof. destruct L, L'. cbn. intros [] -> -> ->. by split. Qed.

Lemma houses_iff next L L' : houses_ok next L -> (forall h id a, listed L' h id a <-> listed L h id a) -> lg_aitems L' = lg_aitems L ->
  lg_rows L' = lg_rows L -> houses_ok next L'.
Proof.
  intros H Hl Ha Hr. split.
  - intros h id a ?%Hl. by apply (ho_entry _ _ H h id).
  - intros h id a ?%Hl. by apply (ho_id _ _ H h).
  - intros h h' id a a' ?%Hl ?%Hl. by apply (ho_house _ _ H h h' id a a').
  - intros h id a ?%Hl. rewrite Ha. by apply (ho_item _ _ H h id).
  - intros h id a h' id' a' ?%Hl ?%Hl. by apply (ho_items _ _ H h id a h' id' a').
  - intros id r. rewrite Hr, (ho_rows _ _ H). by setoid_rewrite Hl.
Qed.

Lemma houses_ended next h a L : houses_ok next L -> listed L h (au_Id a) a -> houses_ok next (ended h a L).
Proof.
  intros H Ha. unfold ended. split.
  - intros h1 id1 a1 [_ H1]%listed_drop. by apply (ho_entry _ _ H h1 id1).
  - intros h1 id1 a1 [_ H1]%listed_drop. by apply (ho_id _ _ H h1).
  - intros h1 h2 id1 a1 a2 [_ H1]%listed_drop [_ H2]%listed_drop. by apply (ho_house _ _ H h1 h2 id1 a1 a2).
  - intros h1 id1 a1 [Hne H1]%listed_drop. cbn. apply elem_of_difference. split; [by apply (ho_item _ _ H h1 id1)|].
    rewrite elem_of_singleton. intros E. apply Hne. pose proof (ho_items _ _ H _ _ _ _ _ _ H1 Ha E) as ->.
    split; [|done]. exact (ho_house _ _ H h1 h (au_Id a) a1 a H1 Ha).
  - intros h1 id1 a1 h2 id2 a2 [_ H1]%listed_drop [_ H2]%listed_drop. by apply (ho_items _ _ H h1 id1 a1 h2 id2 a2).
  - intros id r. cbn. rewrite lookup_delete_Some, (ho_rows _ _ H). split.
    + intros (Hne & h1 & a1 & H1 & Hr). exists h1, a1. split; [|done]. apply listed_drop. split; [|done]. by intros [_ ->].
    + intros (h1 & a1 & [Hne H1]%listed_drop & Hr). split; [|by exists h1, a1]. intros <-.
      apply Hne. split; [|done]. exact (ho_house _ _ H h1 h (au_Id a) a1 a H1 Ha).
Qed.

(** A last change of the auction does not matter. *)
Lemma houses_ended_set next h a a' L : houses_ok next L -> listed L h (au_Id a) a -> au_Id a' = au_Id a ->
  au_itemGUIDLow a' = au_itemGUIDLow a -> houses_ok next (ended h a' (set_auction h (au_Id a) a' L)).
Proof.
  intros H Ha Hid Hg. apply (houses_iff next (ended h a L)); [by apply houses_ended| | |].
  - intros h1 id1 a1. unfold ended. rewrite Hid, !listed_drop. change (listed (set_held ?f (set_rows ?g ?l))) with (listed l).
    rewrite listed_set. naive_solver.
  - cbn. by rewrite Hg.
  - cbn. by rewrite Hid.
Qed.

Lemma houses_rebid next h a buyer price L : houses_ok next L -> listed L h (au_Id a) a -> entry_ok (auction_set_bid buyer price a) ->
  houses_ok next (rebid h a (auction_set_bid buyer price a) L).
Proof.
  intros H Ha He. unfold rebid. set (a' := auction_set_bid buyer price a) in *.
  assert (forall h1 id1 a1, listed (set_auction h (au_Id a) a' L) h1 id1 a1 -> exists a0, listed L h1 id1 a0 /\ au_Id a1 = au_Id a0 /\
    au_itemGUIDLow a1 = au_itemGUIDLow a0) as Hold.
  { intros h1 id1 a1 [(-> & -> & ->)|[_ H1]]%listed_set; [by exists a|by exists a1]. }
  split.
  - intros h1 id1 a1 [(-> & -> & ->)|[_ H1]]%listed_set; [done|by apply (ho_entry _ _ H h1 id1)].
  - intros h1 id1 a1 (a0 & H0 & -> & _)%Hold. by apply (ho_id _ _ H h1).
  - intros h1 h2 id1 a1 a2 (b1 & H1 & _)%Hold (b2 & H2 & _)%Hold. by apply (ho_house _ _ H h1 h2 id1 b1 b2).
  - intros h1 id1 a1 (a0 & H0 & _ & ->)%Hold. by apply (ho_item _ _ H h1 id1).
  - intros h1 id1 a1 h2 id2 a2 (b1 & H1 & _ & ->)%Hold (b2 & H2 & _ & ->)%Hold. by apply (ho_items _ _ H h1 id1 b1 h2 id2 b2).
  - intros id r. cbn. rewrite lookup_alter_Some. split.
    + intros [(<- & r0 & (h1 & a1 & H1 & <-)%(ho_rows _ _ H) & ->)|[Hne (h1 & a1 & H1 & <-)%(ho_rows _ _ H)]].
      * pose proof (ho_house _ _ H _ _ _ _ _ H1 Ha) as ->. unfold listed in *. simplify_eq. exists h, a'. split; [|done].
        apply listed_set. by left.
      * exists h1, a1. split; [|done]. apply listed_set. right. split; [|done]. by intros [_ ->].
    + intros (h1 & a1 & [(-> & -> & ->)|[Hne H1]]%listed_set & <-).
      * left. split; [done|]. exists (auction_row a). split; [|done]. apply (ho_rows _ _ H). by exists h, a.
      * right. split; [|by apply (ho_rows _ _ H); exists h1, a1]. intros <-. apply Hne. split; [|done].
        exact (ho_house _ _ H h1 h (au_Id a) a1 a H1 Ha).
Qed.

Lemma houses_put_up next h a L : houses_ok next L -> au_Id a = next -> au_itemGUIDLow a ∉ lg_aitems L -> entry_ok a ->
  houses_ok (next + 1) (put_up h a L).
Proof.
  intros H Hid Hg He. unfold put_up. set (L1 := set_held _ L).
  assert (forall h1 a1, ~ listed L h1 (au_Id a) a1) as Hnew. { intros h1 a1 H1. pose proof (ho_id _ _ H h1 _ a1 H1). lia. }
  assert (forall h1 id1 a1, listed L h1 id1 a1 -> au_itemGUIDLow a1 <> au_itemGUIDLow a) as Hitem.
  { intros h1 id1 a1 H1 E. apply Hg. rewrite <- E. by apply (ho_item _ _ H h1 id1). }
  split.
  - intros h1 id1 a1 [(-> & -> & ->)|[_ H1]]%listed_set; [done|by apply (ho_entry _ _ H h1 id1)].
  - intros h1 id1 a1 [(-> & -> & ->)|[_ H1]]%listed_set; [lia|]. pose proof (ho_id _ _ H h1 id1 a1 H1). lia.
  - intros h1 h2 id1 a1 a2 [(-> & -> & ->)|[N1 H1]]%listed_set [(-> & E & ->)|[N2 H2]]%listed_set; try done; subst.
    + by apply Hnew in H2.
    + by apply Hnew in H1.
    + by apply (ho_house _ _ H h1 h2 id1 a1 a2).
  - intros h1 id1 a1 [(-> & -> & ->)|[_ H1]]%listed_set; cbn; [set_solver|]. apply elem_of_union_r. by apply (ho_item _ _ H h1 id1).
  - intros h1 id1 a1 h2 id2 a2 [(-> & -> & ->)|[_ H1]]%listed_set [(-> & -> & ->)|[_ H2]]%listed_set E; try done.
    + symmetry in E. by apply Hitem in H2.
    + by apply Hitem in H1.
    + by apply (ho_items _ _ H h1 id1 a1 h2 id2 a2).
  - intros id r. cbn. rewrite lookup_insert_Some, (ho_rows _ _ H). split.
    + intros [[<- <-]|[Hne (h1 & a1 & H1 & <-)]]; [exists h, a|exists h1, a1]; (split; [|done]); apply listed_set; [by left|right].
      split; [|done]. by intros [_ ->].
    + intros (h1 & a1 & [(-> & -> & ->)|[Hne H1]]%listed_set & <-); [by left|right]. split; [|by exists h1, a1].
      intros <-. by apply Hnew in H1.
Qed.

Definition bag_items (a : Player) : list Z := (in_order (pl_bags a)).*2.
(** Whether the row of an item agrees with the object. *)
Definition saved (row : option ItemRow) (i : Item) : Prop :=
  match it_state i with
  | ITEM_NEW => True
  | ITEM_UNCHANGED => exists r, row = Some r /\ ir_entry r = it_entry i /\ ir_count r = it_count i
  | ITEM_CHANGED => is_Some row
  | ITEM_REMOVED => False
  end.

Section Proofs.
(** The item templates that there are. *)
Context (protos : Z -> option ItemTemplate).

(** [held] are the items of the manager and [lists] its auctions, which an operation
    may be about to change. *)
Record goods_ok (held : gset Z) (lists : House -> gmap Z AuctionEntry) (s : Realm) (d : CharDB) : Prop := {
  go_held : forall g, g ∈ held -> is_Some (r_items s !! g) /\ db_mail_items d !! g = None /\
    (forall p a, r_online s !! p = Some a -> (g ∉ bag_items a) /\ (g ∉ pl_mitems a));
  go_listed : forall h id a, lists h !! id = Some a -> au_itemGUIDLow a ∈ held /\ exists i r,
    r_items s !! au_itemGUIDLow a = Some i /\ it_entry i = au_itemEntry a /\ it_count i = au_itemCount a /\
    db_items d !! au_itemGUIDLow a = Some r /\ ir_entry r = au_itemEntry a /\ ir_count r = au_itemCount a;
  go_bag : forall p a g, r_online s !! p = Some a -> g ∈ bag_items a ->
    (exists i, r_items s !! g = Some i /\ saved (db_items d !! g) i) /\ db_mail_items d !! g = None /\
    (forall q b, r_online s !! q = Some b -> (g ∉ pl_mitems b) /\ (g ∈ bag_items b -> q = p));
  go_bag_nodup : forall p a, r_online s !! p = Some a -> NoDup (bag_items a);
  go_mitems : forall p a g, r_online s !! p = Some a -> g ∈ pl_mitems a -> is_Some (r_items s !! g) /\
    (forall q b, r_online s !! q = Some b -> g ∈ pl_mitems b -> q = p);
  go_object : forall g i, r_items s !! g = Some i -> it_state i <> ITEM_REMOVED /\ is_Some (protos (it_entry i)) /\ g < r_next_item s;
  go_mailed : forall g, is_Some (db_mail_items d !! g) -> g < r_next_item s;
  go_player : forall p a, r_online s !! p = Some a -> 0 < p /\ 0 <= pl_money a < 2 ^ 64
}.

(** Between operations no transaction is open. *)
Record market_ok (s : Realm) : Prop := {
  mk_trans : r_trans s = [];
  mk_fresh : mails_fresh s (r_db s);
  mk_houses : houses_ok (r_next_auction s) (ledger_of s (r_db s));
  mk_goods : goods_ok (r_aitems s) (r_auctions s) s (r_db s)
}.

(** ** Goods that move into the mail *)

(** Every auction of [lists'] is one of [lists] with the same item, which is in [held']. *)
Definition auctions_from (lists lists' : House -> gmap Z AuctionEntry) (held' : gset Z) : Prop :=
  forall h id a', lists' h !! id = Some a' -> exists a, lists h !! id = Some a /\
    au_itemGUIDLow a' = au_itemGUIDLow a /\ au_itemEntry a' = au_itemEntry a /\ au_itemCount a' = au_itemCount a /\
    au_itemGUIDLow a' ∈ held'.

Lemma rows_of good s d s' d' x r : moved good s d s' d' -> db_items d !! x = Some r ->
  exists r', db_items d' !! x = Some r' /\ ir_entry r' = ir_entry r /\ ir_count r' = ir_count r.
Proof.
  intros M Hr. pose proof (mv_rows _ _ _ _ _ M) as E. apply (f_equal (fun m => m !! x)) in E. rewrite !lookup_fmap, Hr in E.
  destruct (db_items d' !! x) as [r'|]; [|done]. cbn in E. eexists. by simplify_eq.
Qed.

Lemma good_or_not (good : option (Z * Z)) x : (exists p, good = Some (x, p)) \/ (forall p, good <> Some (x, p)).
Proof.
  destruct good as [[g p]|]; [|by right]. destruct (decide (g = x)) as [->|Hne]; [left; by exists p|right]. intros q [=]. by subst.
Qed.

Section Moved.
Context (good : option (Z * Z)) (s : Realm) (d : CharDB) (s' : Realm) (d' : CharDB).
Context (held held' : gset Z) (lists lists' : House -> gmap Z AuctionEntry).
Context (G : goods_ok held lists s d) (M : moved good s d s' d') (Hg : forall g p, good = Some (g, p) -> g ∈ held).
Context (Hai : held' ⊆ held) (Hgo : forall g p, good = Some (g, p) -> g ∉ held').

(** The player before, with the same bags and the mail he had. *)
Lemma player_before p b : r_online s' !! p = Some b -> exists a, r_online s !! p = Some a /\ bag_items b = bag_items a /\
  (forall x, x ∈ pl_mitems b <-> x ∈ pl_mitems a \/ good = Some (x, p) /\ is_Some (r_items s' !! x)).
Proof.
  intros Hb. destruct (moved_back _ _ _ _ _ _ _ M Hb) as [a Ha]. exists a.
  destruct (mv_player _ _ _ _ _ M p a b Ha Hb) as (Eb & _ & Em). unfold bag_items. by rewrite Eb.
Qed.
Lemma item_same x : (forall p, good <> Some (x, p)) -> r_items s' !! x = r_items s !! x /\ db_mail_items d' !! x = db_mail_items d !! x.
Proof. intros Hn. split; [by apply (mv_items _ _ _ _ _ M)|by apply (mv_mail_items _ _ _ _ _ M)]. Qed.
(** What somebody had did not go into the mail. *)
Lemma owned_stays g q a : r_online s !! q = Some a -> g ∈ bag_items a \/ g ∈ pl_mitems a -> forall p, good <> Some (g, p).
Proof. intros Ha Hin p E. destruct (go_held _ _ _ _ G g (Hg g p E)) as (_ & _ & Hn). destruct (Hn q a Ha). tauto. Qed.

Lemma held_moved g : g ∈ held' -> is_Some (r_items s' !! g) /\ db_mail_items d' !! g = None /\
  (forall p a, r_online s' !! p = Some a -> (g ∉ bag_items a) /\ (g ∉ pl_mitems a)).
Proof.
  intros Hin. destruct (item_same g) as [-> ->]; [intros p E; by apply (Hgo g p E)|].
  destruct (go_held _ _ _ _ G g (Hai g Hin)) as (Hi & Hm & Hp). split_and!; [done..|]. intros p b Hb.
  destruct (player_before p b Hb) as (a & Ha & -> & Em). destruct (Hp p a Ha) as [H1 H2]. split; [done|].
  intros [?|[E _]]%Em; [done|]. by apply (Hgo g p E).
Qed.
Lemma saved_moved g i : saved (db_items d !! g) i -> saved (db_items d' !! g) i.
Proof.
  unfold saved. destruct (it_state i); try done.
  - intros (r & Hr & H1 & H2). destruct (rows_of _ _ _ _ _ _ _ M Hr) as (r' & Hr' & H3 & H4). exists r'. split_and!; congruence.
  - intros [r Hr]. destruct (rows_of _ _ _ _ _ _ _ M Hr) as (r' & Hr' & _). by exists r'.
Qed.
Lemma bag_moved p b g : r_online s' !! p = Some b -> g ∈ bag_items b ->
  (exists i, r_items s' !! g = Some i /\ saved (db_items d' !! g) i) /\ db_mail_items d' !! g = None /\
  (forall q c, r_online s' !! q = Some c -> (g ∉ pl_mitems c) /\ (g ∈ bag_items c -> q = p)).
Proof.
  intros Hb Hbg. destruct (player_before p b Hb) as (a & Ha & Eb & _). rewrite Eb in Hbg.
  pose proof (owned_stays g p a Ha (or_introl Hbg)) as Hn. destruct (item_same g Hn) as [-> ->].
  destruct (go_bag _ _ _ _ G p a g Ha Hbg) as ((i & Hi & Hs) & Hm & Hq).
  split_and!; [exists i; split; [done|by apply saved_moved]|done|]. intros q c Hc.
  destruct (player_before q c Hc) as (c' & Hc' & -> & Em). destruct (Hq q c' Hc') as [H1 H2]. split; [|done].
  intros [?|[E _]]%Em; [done|]. by apply (Hn q).
Qed.
Lemma mitems_moved p b g : r_online s' !! p = Some b -> g ∈ pl_mitems b -> is_Some (r_items s' !! g) /\
  (forall q c, r_online s' !! q = Some c -> g ∈ pl_mitems c -> q = p).
Proof.
  intros Hb Hmi. destruct (player_before p b Hb) as (a & Ha & _ & Em).
  destruct (proj1 (Em g) Hmi) as [Hin|[E Hi]].
  - pose proof (owned_stays g p a Ha (or_intror Hin)) as Hn. destruct (go_mitems _ _ _ _ G p a g Ha Hin) as [Hi Hu].
    split; [by rewrite (proj1 (item_same g Hn))|]. intros q c Hc Hc2. destruct (player_before q c Hc) as (c' & Hc' & _ & Emc).
    destruct (proj1 (Emc g) Hc2) as [?|[E _]]; [by apply (Hu q c')|by apply Hn in E].
  - split; [done|]. intros q c Hc Hc2. destruct (player_before q c Hc) as (c' & Hc' & _ & Emc).
    destruct (proj1 (Emc g) Hc2) as [Hin|[E' _]]; [|by simplify_eq]. by apply (owned_stays g q c' Hc' (or_intror Hin)) in E.
Qed.
Lemma object_moved g i : r_items s' !! g = Some i -> it_state i <> ITEM_REMOVED /\ is_Some (protos (it_entry i)) /\ g < r_next_item s'.
Proof.
  intros Hi. rewrite (mv_next_item _ _ _ _ _ M). assert (r_items s !! g = Some i) as Hi'.
  { destruct (good_or_not good g) as [[p E]|Hn].
    - destruct (mv_good _ _ _ _ _ M g p E) as [E'|E']; [by rewrite E' in Hi|by rewrite <- E'].
    - rewrite <- (proj1 (item_same g Hn)). done. }
  by apply (go_object _ _ _ _ G g i Hi').
Qed.
Lemma mailed_moved g : is_Some (db_mail_items d' !! g) -> g < r_next_item s'.
Proof.
  intros Hm. rewrite (mv_next_item _ _ _ _ _ M). destruct (good_or_not good g) as [[p E]|Hn].
  - destruct (go_held _ _ _ _ G g (Hg g p E)) as ([i Hi] & _). by apply (go_object _ _ _ _ G g i Hi).
  - rewrite (proj2 (item_same g Hn)) in Hm. by apply (go_mailed _ _ _ _ G).
Qed.

Lemma goods_moved : auctions_from lists lists' held' -> (forall p b, r_online s' !! p = Some b -> 0 <= pl_money b < 2 ^ 64) ->
  goods_ok held' lists' s' d'.
Proof.
  intros Hau Hmo. split; [exact held_moved| |exact bag_moved| |exact mitems_moved|exact object_moved|exact mailed_moved|].
  - intros h id a' Ha'. destruct (Hau h id a' Ha') as (a & Ha & E1 & E2 & E3 & Hin). split; [done|]. rewrite E1 in *. rewrite E2, E3.
    destruct (item_same (au_itemGUIDLow a)) as [-> _]; [intros p E; by apply (Hgo _ p E)|].
    destruct (go_listed _ _ _ _ G h id a Ha) as (_ & i & r & Hi & H1 & H2 & Hr & H3 & H4).
    destruct (rows_of _ _ _ _ _ _ _ M Hr) as (r' & Hr' & H5 & H6). exists i, r'. split_and!; congruence.
  - intros p b Hb. destruct (player_before p b Hb) as (a & Ha & -> & _). by apply (go_bag_nodup _ _ _ _ G p a).
  - intros p b Hb. split; [|by apply (Hmo p)]. destruct (player_before p b Hb) as (a & Ha & _). by apply (go_player _ _ _ _ G p a).
Qed.
End Moved.

(** ** The mails of an auction *)

Section Mails.
Context (w : EconomyWorld).

Lemma of_float_ewp o s (Q : Z -> Realm -> Prop) : (forall v, o = Some v -> Q v s) -> ewp (of_float o) s Q.
Proof. intros HQ. destruct o as [v|]; [by apply HQ|]. apply wp_throw. by left. Qed.

Definition cut_of (a : AuctionEntry) : Z := default 0 (GetAuctionCut w a).
(** What the seller gets. *)
Definition profit (a : AuctionEntry) : Z := u32 (au_bid a + au_deposit a - cut_of a).

Lemma now_online good s d L s1 d1 p : now good s d L s1 d1 -> is_online s1 p = is_online s p.
Proof.
  intros H. unfold is_online. apply bool_decide_ext. rewrite <- !elem_of_dom. by rewrite (mv_dom _ _ _ _ _ (nw_moved _ _ _ _ _ _ H)).
Qed.
Lemma now_exists good s d L s1 d1 p : now good s d L s1 d1 -> player_exists w s1 p = player_exists w s p.
Proof. intros H. unfold player_exists. by rewrite (now_online _ _ _ _ _ _ p H). Qed.
Lemma now_aitems_eq good s d L s1 d1 : now good s d L s1 d1 -> r_aitems s1 = lg_aitems L.
Proof. by intros [_ _ _ <-]. Qed.
Lemma now_cash_at good s d L s1 d1 p pl : now good s d L s1 d1 -> r_online s1 !! p = Some pl -> lg_cash L !! p = Some (pl_money pl).
Proof. intros [_ _ _ <-] Hp. cbn. by rewrite lookup_fmap, Hp. Qed.
Lemma now_player good s d L s1 d1 p : now good s d L s1 d1 -> is_Some (r_online s !! p) -> exists pl, r_online s1 !! p = Some pl.
Proof. intros H Hp. apply elem_of_dom in Hp. rewrite <- (mv_dom _ _ _ _ _ (nw_moved _ _ _ _ _ _ H)) in Hp. by apply elem_of_dom in Hp. Qed.

Lemma u32_u32 v : u32 (u32 v) = u32 v.
Proof. by apply uint_idemp. Qed.

(** An item that the manager holds before the operation can be mailed once. *)
Context (s : Realm) (d : CharDB) (G : goods_ok (r_aitems s) (r_auctions s) s d).

Lemma auction_mail_now good a p delay dr L s1 d1 : now None s d L s1 d1 -> carries dr p good -> no_loot dr ->
  (forall g q, good = Some (g, q) -> g ∈ r_aitems s) ->
  ewp (auction_mail w a p delay dr) s1 (fun _ s2 => exists d2, now good s d (pay p (u32 (md_money dr)) L) s2 d2).
Proof.
  intros H Hc Hl Hg. pose proof (nw_moved _ _ _ _ _ _ H) as M.
  assert (forall g q, good = Some (g, q) -> db_mail_items d1 !! g = None /\ is_Some (r_items s1 !! g)) as Hi.
  { intros g q E. destruct (go_held _ _ _ _ G g (Hg g q E)) as (Hi & Hm & _).
    by rewrite (mv_items _ _ _ _ _ M), (mv_mail_items _ _ _ _ _ M). }
  unfold auction_mail. apply wp_get. eapply wp_mono.
  - apply SendMailTo_ewp; [done| |].
    + intros Ho. unfold is_online in Ho. by apply bool_decide_eq_true in Ho.
    + intros x. destruct good as [[g q]|]; cbn in Hc; [destruct Hc as [-> _]|rewrite Hc; set_solver].
      rewrite elem_of_singleton. intros ->. by destruct (Hi g q eq_refl).
  - intros [] s2 (kept & Me & _). eapply now_mailed; [done..|]. intros g q b E Hb.
    destruct (moved_back _ _ _ _ _ _ _ M Hb) as [b' Hb']. destruct (go_held _ _ _ _ G g (Hg g q E)) as (_ & _ & Hn).
    destruct (mv_player _ _ _ _ _ M q b' b Hb' Hb) as (_ & _ & Em). rewrite Em. intros [Hin|[E' _]]; [|done]. by apply (Hn q b').
Qed.

(** [SendPacket] when somebody is online. *)
Lemma notify_now {A} (b : bool) p m (k : unit -> RP A) L good s1 d1 Q : now good s d L s1 d1 ->
  (forall s2, now good s d L s2 d1 -> r_items s2 = r_items s1 -> r_aitems s2 = r_aitems s1 -> ewp (k tt) s2 Q) ->
  ewp ((if b then SendPacket p m else mret tt) ≫= k) s1 Q.
Proof.
  intros H Hk. destruct b; (eapply wp_seq; [done|]); apply Hk; [by apply now_send|done..].
Qed.

Lemma SalePending_now a L s1 d1 : now None s d L s1 d1 ->
  ewp (SendAuctionSalePendingMail w a) s1 (fun _ s2 => exists d2, now None s d (pay_if (player_exists w s (au_owner a)) (au_owner a) 0 L) s2 d2).
Proof.
  intros H. unfold SendAuctionSalePendingMail. apply wp_get. rewrite (now_exists _ _ _ _ _ _ _ H).
  destruct (player_exists w s (au_owner a)); [|by exists d1]. apply wp_bind, of_float_ewp. intros cut _.
  by eapply (auction_mail_now None); [done|done|by left|].
Qed.

Lemma Successful_now a L s1 d1 : now None s d L s1 d1 ->
  ewp (SendAuctionSuccessfulMail w a) s1 (fun _ s2 => exists d2,
    now None s d (pay_if (player_exists w s (au_owner a)) (au_owner a) (profit a) L) s2 d2).
Proof.
  intros H. unfold SendAuctionSuccessfulMail. apply wp_get. rewrite (now_exists _ _ _ _ _ _ _ H).
  destruct (player_exists w s (au_owner a)); [|by exists d1]. apply wp_bind, of_float_ewp. intros cut Hcut.
  cbv zeta. apply (notify_now _ _ _ _ L None s1 d1); [done|]. intros s2 H2 _ _. cbn [pay_if].
  replace (profit a) with (u32 (u64 (u32 (au_bid a + au_deposit a - cut)))).
  - by eapply (auction_mail_now None); [done|done|by left|].
  - rewrite u32_u64, u32_u32. unfold profit, cut_of. by rewrite Hcut.
Qed.

Lemma Won_now a L s1 d1 : now None s d L s1 d1 -> au_itemGUIDLow a ∈ r_aitems s -> au_itemGUIDLow a ∈ r_aitems s1 ->
  ewp (SendAuctionWonMail w a) s1 (fun _ s2 => exists d2,
    let to := player_exists w s (au_bidder a) in
    now (if to then Some (au_itemGUIDLow a, au_bidder a) else None) s d (pay_if to (au_bidder a) 0 L) s2 d2).
Proof.
  intros H Hg Hg1. unfold SendAuctionWonMail. apply wp_get. rewrite bool_decide_true by done. rewrite (now_exists _ _ _ _ _ _ _ H).
  destruct (player_exists w s (au_bidder a)); [|by exists d1]. cbv zeta.
  destruct (go_held _ _ _ _ G _ Hg) as ([i Hi] & _ & _).
  eapply wp_seq; [apply (deref_item_ok _ i); by rewrite (mv_items _ _ _ _ _ (nw_moved _ _ _ _ _ _ H))|].
  destruct (now_owner None s d L s1 d1 (au_bidder a) (au_itemGUIDLow a) H) as (d2 & _ & H2).
  eapply wp_seq; [apply modify_ok|]. apply (notify_now _ _ _ _ L None _ d2); [done|]. intros s3 H3 _ _. cbn [pay_if].
  eapply (auction_mail_now (Some (au_itemGUIDLow a, au_bidder a)) a (au_bidder a)); [done| |by left|by intros ? ? [= <- <-]].
  split; [|done]. cbn. by rewrite union_empty_r_L.
Qed.

Lemma Expired_now a L s1 d1 : now None s d L s1 d1 -> au_itemGUIDLow a ∈ r_aitems s -> au_itemGUIDLow a ∈ r_aitems s1 ->
  ewp (SendAuctionExpiredMail w a) s1 (fun _ s2 => exists d2,
    let to := player_exists w s (au_owner a) in
    now (if to then Some (au_itemGUIDLow a, au_owner a) else None) s d (pay_if to (au_owner a) 0 L) s2 d2).
Proof.
  intros H Hg Hg1. unfold SendAuctionExpiredMail. apply wp_get. rewrite bool_decide_true by done. rewrite (now_exists _ _ _ _ _ _ _ H).
  destruct (player_exists w s (au_owner a)); [|by exists d1]. cbv zeta.
  destruct (go_held _ _ _ _ G _ Hg) as ([i Hi] & _ & _).
  apply (notify_now _ _ _ _ L None s1 d1); [done|]. intros s2 H2 _ _.
  eapply wp_seq; [apply (deref_item_ok _ i); by rewrite (mv_items _ _ _ _ _ (nw_moved _ _ _ _ _ _ H2))|]. cbn [pay_if].
  eapply (auction_mail_now (Some (au_itemGUIDLow a, au_owner a)) a (au_owner a)); [done| |by left|by intros ? ? [= <- <-]].
  split; [|done]. cbn. by rewrite union_empty_r_L.
Qed.

Lemma Outbidded_now a newPrice newBidder L s1 d1 : now None s d L s1 d1 ->
  ewp (SendAuctionOutbiddedMail w a newPrice newBidder) s1 (fun _ s2 => exists d2,
    now None s d (pay_if (player_exists w s (au_bidder a)) (au_bidder a) (u32 (au_bid a)) L) s2 d2).
Proof.
  intros H. unfold SendAuctionOutbiddedMail. apply wp_get. rewrite (now_exists _ _ _ _ _ _ _ H).
  destruct (player_exists w s (au_bidder a)); [|by exists d1].
  apply wp_bind. eapply wp_mono with (Q := fun _ s2 => now None s d L s2 d1).
  - destruct (is_online s1 (au_bidder a)); [|done]. apply wp_bind, of_float_ewp. intros v _. by apply now_send.
  - intros [] s2 H2. apply wp_bind, of_float_ewp. intros cut _. cbn [pay_if]. rewrite <- u32_u64.
    by eapply (auction_mail_now None); [done|done|by left|].
Qed.

Lemma CancelledToBidder_now a L s1 d1 : now None s d L s1 d1 -> is_Some (r_items s !! au_itemGUIDLow a) ->
  ewp (SendAuctionCancelledToBidderMail w a (au_itemGUIDLow a)) s1 (fun _ s2 => exists d2,
    now None s d (pay_if (player_exists w s (au_bidder a)) (au_bidder a) (u32 (au_bid a)) L) s2 d2).
Proof.
  intros H [i Hi]. unfold SendAuctionCancelledToBidderMail. apply wp_get. rewrite (now_exists _ _ _ _ _ _ _ H).
  apply wp_bind. eapply wp_mono with (Q := fun _ s2 => now None s d L s2 d1).
  - destruct (is_online s1 (au_bidder a)); [|done].
    eapply wp_seq; [apply (deref_item_ok _ i); by rewrite (mv_items _ _ _ _ _ (nw_moved _ _ _ _ _ _ H))|]. by apply now_send.
  - intros [] s2 H2. destruct (player_exists w s (au_bidder a)); [|by exists d1]. cbn [pay_if]. rewrite <- u32_u64.
    by eapply (auction_mail_now None); [done|done|by left|].
Qed.
End Mails.
End Proofs.
