(* ===== verification/AuctionCommands.v ===== *)
(** * The auction house: what its commands do (model in Auction.v)

    Bids, buyouts, cancellations and the update, each as a change of the ledger,
    and the invariant they keep. *)

From S2P Require Import Prelude.
From S2P Require Import Economy.
From S2P Require Import EconomyProofs.
From S2P Require Import Mail.
From S2P Require Import MailProofs.
From S2P Require Import Auction.
From S2P Require Import AuctionLedger.
From S2P Require Import AuctionProofs.
From stdpp Require Import list sorting.
Local Open Scope Z_scope.
#[local] Set Warnings "-clear-no-such-hyp".

Lemma wp_end {A} (p : RP A) s Q : ewp (p ≫= mret) s Q -> ewp p s Q.
Proof. unfold wp, mbind, prog_bind. by destruct (p s) as [[a|e] s']. Qed.

(** ** Money *)

Lemma set_cash_id p v L : lg_cash L !! p = Some v -> set_cash p v L = L.
Proof. intros H. unfold set_cash. rewrite insert_id by done. by destruct L. Qed.

Lemma ModifyMoney_now good s d p amount L s1 d1 m : now good s d L s1 d1 -> lg_cash L !! p = Some m ->
  ewp (ModifyMoney p amount) s1 (fun _ s2 => now good s d (set_cash p (modified m amount) L) s2 d1).
Proof.
  intros H Hm. assert (exists pl, r_online s1 !! p = Some pl /\ pl_money pl = m) as (pl & Hpl & <-).
  { destruct H as [_ _ _ <-]. cbn in Hm. rewrite lookup_fmap in Hm. apply fmap_Some in Hm as (pl & ? & ->). by exists pl. }
  unfold ModifyMoney. eapply wp_seq; [by apply deref_player_ok|]. unfold modified.
  destruct (amount =? 0); [by rewrite set_cash_id|]. destruct (amount <? 0).
  - eapply wp_seq; [by apply (upd_player_ok p _ pl)|]. by eapply now_cash.
  - destruct (_ <? _); [|by rewrite set_cash_id]. eapply wp_seq; [by apply (upd_player_ok p _ pl)|]. by eapply now_cash.
Qed.

Section Commands.
Context (protos : Z -> option ItemTemplate) (w : EconomyWorld).
Abbreviation market_ok := (market_ok protos).

(** ** Small steps *)

Section Steps.
Context (good : option (Z * Z)) (s : Realm) (d : CharDB).

Lemma Append_now {A} st d2 L2 (k : unit -> RP A) s1 Q : now good s d L2 (set_trans (r_trans s1 ++ [st]) s1) d2 ->
  (forall s2, now good s d L2 s2 d2 -> ewp (k tt) s2 Q) -> ewp (Append st ≫= k) s1 Q.
Proof. intros H Hk. eapply wp_seq; [done|]. by apply Hk. Qed.
Lemma DeleteAuctionFromDB_now {A} id L (k : unit -> RP A) s1 d1 Q : now good s d L s1 d1 ->
  (forall s2 d2, now good s d (set_rows (delete id) L) s2 d2 -> ewp (k tt) s2 Q) -> ewp (DeleteAuctionFromDB id ≫= k) s1 Q.
Proof. intros H Hk. destruct (now_delete_row _ _ _ _ _ _ id H) as [d2 H2]. unfold DeleteAuctionFromDB. eapply Append_now; [done|]. eauto. Qed.
Lemma SaveGoldToDB_now {A} p L (k : unit -> RP A) s1 d1 Q : now good s d L s1 d1 -> is_Some (r_online s !! p) ->
  (forall s2 d2, now good s d L s2 d2 -> ewp (k tt) s2 Q) -> ewp (SaveGoldToDB p ≫= k) s1 Q.
Proof.
  intros H Hp Hk. destruct (now_player _ _ _ _ _ _ p H Hp) as [pl Hpl]. unfold SaveGoldToDB. apply wp_bind.
  eapply wp_seq; [by apply deref_player_ok|]. destruct (now_gold _ _ _ _ _ _ (pl_money pl) p H) as [d2 H2].
  eapply wp_ok; [done|]. eauto.
Qed.
Lemma Commit_now {A} L (k : unit -> RP A) s1 d1 Q : now good s d L s1 d1 ->
  (forall s2, now good s d L s2 d1 -> r_trans s2 = [] -> r_db s2 = d1 -> ewp (k tt) s2 Q) -> ewp (CommitTransaction ≫= k) s1 Q.
Proof.
  intros H Hk. eapply wp_seq; [done|]. apply Hk; [by apply now_commit|done|]. cbn. by apply pending_commit, (nw_pending _ _ _ _ _ _ H).
Qed.
Lemma CommandResult_now {A} p o action code L (k : unit -> RP A) s1 d1 Q : now good s d L s1 d1 ->
  (forall s2, now good s d L s2 d1 -> r_trans s2 = r_trans s1 -> r_db s2 = r_db s1 -> ewp (k tt) s2 Q) ->
  ewp (SendAuctionCommandResult p o action code 0 ≫= k) s1 Q.
Proof.
  intros H Hk. unfold SendAuctionCommandResult. apply wp_bind. cbv zeta. apply wp_bind.
  assert (forall tail, ewp (SendPacket p (SMSG_AUCTION_COMMAND_RESULT ((le_bytes 4 (from_option au_Id 0 o) ++ le_bytes 4 action ++ le_bytes 4 code) ++ tail)))
    s1 (fun a s2 => ewp (k a) s2 Q)) as Hsend by (intros tail; apply Hk; [by apply now_send|done..]).
  assert (forall a : AuctionEntry, forall f : Z -> list Z, ewp (outbid ← outbid_or_0 a; mret (f outbid)) s1 (fun tail s2 => s2 = s1)) as Hout.
  { intros a f. apply wp_bind. unfold outbid_or_0. destruct (_ =? 0); [done|]. by apply of_float_ewp. }
  destruct o as [a|].
  - destruct (_ && _); [eapply wp_mono; [apply Hout|]; intros tail s2 ->; apply Hsend|].
    destruct (_ =? ERR_AUCTION_HIGHER_BID); [eapply wp_mono; [apply Hout|]; intros tail s2 ->; apply Hsend|].
    destruct (_ =? ERR_AUCTION_INVENTORY); apply Hsend.
  - destruct (_ =? ERR_AUCTION_INVENTORY); apply Hsend.
Qed.
Lemma house_now {A} h f L (k : unit -> RP A) s1 d1 Q : now good s d L s1 d1 ->
  (forall s2, now good s d (mkLedger (<[h := f (lg_auctions L h)]> (lg_auctions L)) (lg_aitems L) (lg_rows L) (lg_cash L) (lg_mail L)) s2 d1 ->
     r_trans s2 = r_trans s1 -> r_db s2 = r_db s1 -> ewp (k tt) s2 Q) ->
  ewp (upd_house h f ≫= k) s1 Q.
Proof. intros H Hk. eapply wp_seq; [done|]. apply Hk; [by apply now_house|done..]. Qed.
Lemma RemoveAItem_now {A} g L (k : unit -> RP A) s1 d1 Q : now good s d L s1 d1 ->
  (forall s2, now good s d (set_held (fun ai => ai ∖ {[g]}) L) s2 d1 -> r_trans s2 = r_trans s1 -> r_db s2 = r_db s1 -> ewp (k tt) s2 Q) ->
  ewp (RemoveAItem g ≫= k) s1 Q.
Proof. intros H Hk. eapply wp_seq; [done|]. apply Hk; [by apply (now_aitems _ _ _ _ _ _ (fun ai => ai ∖ {[g]}))|done..]. Qed.
End Steps.

(** ** Bids and buyouts *)

(** The money that goes back to the last bidder, if [b]. *)
Definition refund (b : bool) (s : Realm) (a : AuctionEntry) (L : Ledger) : Ledger :=
  pay_if (b && player_exists w s (au_bidder a)) (au_bidder a) (u32 (au_bid a)) L.
Definition bid_cost (p : Z) (a : AuctionEntry) (price : Z) : Z :=
  if (0 <? au_bidder a) && (au_bidder a =? p) then u64 (price - au_bid a) else price.
Definition bid_ledger (s : Realm) (p : Z) (h : House) (a : AuctionEntry) (price m : Z) (L : Ledger) : Ledger :=
  rebid h a (auction_set_bid p (u32 price) a)
    (set_cash p (modified m (- s64 (bid_cost p a price))) (refund ((0 <? au_bidder a) && negb (au_bidder a =? p)) s a L)).

Section Base.
Context (s : Realm) (d : CharDB) (G : goods_ok protos (r_aitems s) (r_auctions s) s d).

Lemma pay_now {A} p x L m (k : bool -> RP A) s1 d1 Q : now None s d L s1 d1 -> lg_cash L !! p = Some m ->
  (forall b s2, now None s d (set_cash p (modified m (- s64 x)) L) s2 d1 -> ewp (k b) s2 Q) ->
  ewp ((change ← neg64 x; ModifyMoney p change) ≫= k) s1 Q.
Proof.
  intros H Hm Hk. apply wp_bind, wp_bind, neg64_ewp. eapply wp_mono; [by eapply ModifyMoney_now|]. eauto.
Qed.
(** The same where the result is dropped before. *)
Lemma pay_now' {A} p x L m (k : unit -> RP A) s1 d1 Q : now None s d L s1 d1 -> lg_cash L !! p = Some m ->
  (forall s2, now None s d (set_cash p (modified m (- s64 x)) L) s2 d1 -> ewp (k tt) s2 Q) ->
  ewp ((change ← neg64 x; ModifyMoney p change;; mret tt) ≫= k) s1 Q.
Proof.
  intros H Hm Hk. apply wp_bind, wp_bind, neg64_ewp. apply wp_bind. eapply wp_mono; [by eapply ModifyMoney_now|]. intros b s2 H2. by apply Hk.
Qed.

Lemma place_bid_now p h a price m L s1 d1 : now None s d L s1 d1 -> lg_cash L !! p = Some m ->
  ewp (place_bid w p h a price) s1 (fun _ s2 => exists d2, now None s d (bid_ledger s p h a price m L) s2 d2).
Proof.
  intros H Hm. unfold place_bid. apply wp_bind.
  eapply wp_mono with (Q := fun _ s2 => exists d2, now None s d (set_cash p (modified m (- s64 (bid_cost p a price)))
    (refund ((0 <? au_bidder a) && negb (au_bidder a =? p)) s a L)) s2 d2).
  - apply wp_end. unfold bid_cost, refund. destruct (0 <? au_bidder a); cbn [andb negb pay_if].
    + destruct (au_bidder a =? p); cbn [andb negb pay_if].
      * eapply pay_now; [done..|]. intros b s2 H2. by exists d1.
      * apply wp_bind, wp_bind. eapply wp_mono; [by eapply (Outbidded_now protos w s d G)|]. intros [] s2 [d2 H2].
        apply wp_bind, neg64_ewp. eapply wp_mono; [eapply ModifyMoney_now; [exact H2|by destruct (player_exists _ _ _)]|].
        intros b s3 H3. by exists d2.
    + eapply pay_now; [done..|]. intros b s2 H2. by exists d1.
  - intros _ s2 [d2 H2]. cbv zeta. set (a' := auction_set_bid p (u32 price) a).
    eapply house_now; [exact H2|]. intros s3 H3 _ _. destruct (now_bid_row _ _ _ _ _ _ p (u32 price) (au_Id a) H3) as [d4 H4].
    eapply Append_now; [exact H4|]. intros s5 H5. apply wp_end. eapply CommandResult_now; [exact H5|]. intros s6 H6 _ _. by exists d4.
Qed.

Definition buyout_cost (p : Z) (a : AuctionEntry) : Z := if p =? au_bidder a then u32 (au_buyout a - au_bid a) else au_buyout a.
(** The auction as the winner's. *)
Definition bought (p : Z) (a : AuctionEntry) : AuctionEntry := auction_set_bid p (au_buyout a) a.
(** What the end of the auction brings the seller. *)
Definition sold_ledger (s : Realm) (a : AuctionEntry) (L : Ledger) : Ledger :=
  pay_if (player_exists w s (au_owner a)) (au_owner a) (profit w a) L.
Definition buyout_ledger (s : Realm) (p : Z) (h : House) (a : AuctionEntry) (m : Z) (L : Ledger) : Ledger :=
  let to := player_exists w s p in
  ended h (bought p a) (pay_if to p 0 (sold_ledger s (bought p a) (pay_if (player_exists w s (au_owner a)) (au_owner a) 0
    (set_auction h (au_Id a) (bought p a)
       (refund (negb (p =? au_bidder a) && negb (au_bidder a =? 0)) s a (set_cash p (modified m (- s64 (buyout_cost p a))) L)))))).

Lemma buy_out_now p h a m L s1 d1 : now None s d L s1 d1 -> lg_cash L !! p = Some m ->
  au_itemGUIDLow a ∈ r_aitems s -> au_itemGUIDLow a ∈ lg_aitems L ->
  ewp (buy_out w p h a) s1 (fun _ s2 => exists d2,
    now (if player_exists w s p then Some (au_itemGUIDLow a, p) else None) s d (buyout_ledger s p h a m L) s2 d2).
Proof.
  intros H Hm Hg HgL. unfold buy_out. apply wp_bind.
  eapply wp_mono with (Q := fun _ s2 => exists d2, now None s d
    (refund (negb (p =? au_bidder a) && negb (au_bidder a =? 0)) s a (set_cash p (modified m (- s64 (buyout_cost p a))) L)) s2 d2).
  - unfold buyout_cost, refund. destruct (p =? au_bidder a); cbn [andb negb pay_if].
    + apply wp_end. eapply pay_now'; [done..|]. intros s2 H2. by exists d1.
    + apply wp_bind, neg64_ewp. apply wp_bind. eapply wp_mono; [by eapply ModifyMoney_now|]. intros b s2 H2.
      destruct (au_bidder a =? 0); cbn [andb negb pay_if]; [by exists d1|]. eapply (Outbidded_now protos w s d G); exact H2.
  - intros _ s2 [d2 H2]. cbv zeta. change (auction_set_bid p (au_buyout a) a) with (bought p a).
    eapply house_now; [exact H2|]. intros s3 H3 _ _.
    apply wp_bind. eapply wp_mono; [by eapply (SalePending_now protos w s d G (bought p a))|]. intros [] s4 [d4 H4].
    apply wp_bind. eapply wp_mono; [by eapply (Successful_now protos w s d G (bought p a))|]. intros [] s5 [d5 H5].
    apply wp_bind. eapply wp_mono; [eapply (Won_now protos w s d G (bought p a)); [exact H5|done|]|].
    { rewrite (now_aitems_eq _ _ _ _ _ _ H5). unfold refund. autorewrite with ledger. cbn [lg_aitems]. by autorewrite with ledger. }
    intros [] s6 [d6 H6]. cbv zeta in H6. cbn [bought au_bidder auction_set_bid au_itemGUIDLow] in H6.
    eapply CommandResult_now; [exact H6|]. intros s7 H7 _ _.
    eapply DeleteAuctionFromDB_now; [exact H7|]. intros s8 d8 H8.
    eapply RemoveAItem_now; [exact H8|]. intros s9 H9 _ _. apply wp_end. unfold RemoveAuction.
    eapply house_now; [exact H9|]. intros s10 H10 _ _. by exists d8.
Qed.
End Base.

(** ** Back between operations *)

Definition kept_auctions (s : Realm) (L : Ledger) : Prop :=
  forall h id a', listed L h id a' -> exists a, r_auctions s h !! id = Some a /\ au_itemGUIDLow a' = au_itemGUIDLow a /\
    au_itemEntry a' = au_itemEntry a /\ au_itemCount a' = au_itemCount a.
Definition cash_ok (L : Ledger) : Prop := forall p v, lg_cash L !! p = Some v -> 0 <= v < 2 ^ 64.

Lemma market_after good s s2 L : market_ok s -> now good s (r_db s) L s2 (r_db s2) -> r_trans s2 = [] ->
  houses_ok (r_next_auction s) L -> kept_auctions s L -> lg_aitems L ⊆ r_aitems s ->
  (forall g p, good = Some (g, p) -> g ∈ r_aitems s /\ g ∉ lg_aitems L) -> cash_ok L -> market_ok s2.
Proof.
  intros [Ht Hf Hh HG] H Ht2 Hh2 Hk Hai Hg Hc. destruct (H) as [M Hp Hf2 HL]. split; [done|done| |].
  - by rewrite (mv_next_auction _ _ _ _ _ M), HL.
  - eapply (goods_moved protos good s (r_db s)); [done|done| | | | |].
    + intros g p E. by destruct (Hg g p E).
    + by rewrite (now_aitems_eq _ _ _ _ _ _ H).
    + intros g p E. rewrite (now_aitems_eq _ _ _ _ _ _ H). by destruct (Hg g p E).
    + intros h id a' Ha'. assert (listed L h id a') as Hl by (rewrite <- HL; exact Ha').
      destruct (Hk h id a' Hl) as (a & Ha & E1 & E2 & E3). exists a. split_and!; [done..|].
      rewrite (now_aitems_eq _ _ _ _ _ _ H). by apply (ho_item _ _ Hh2 h id).
    + intros p b Hb. apply (Hc p). rewrite <- HL. cbn. by rewrite lookup_fmap, Hb.
Qed.

Lemma cash_ok_of s : market_ok s -> cash_ok (ledger_of s (r_db s)).
Proof.
  intros [_ _ _ HG] p v Hv. cbn in Hv. rewrite lookup_fmap in Hv. apply fmap_Some in Hv as (a & Ha & ->). by apply (go_player _ _ _ _ _ HG p).
Qed.
(** The operation changed only packets. *)
Lemma market_same s s2 : market_ok s -> now None s (r_db s) (ledger_of s (r_db s)) s2 (r_db s) -> r_trans s2 = [] -> r_db s2 = r_db s -> market_ok s2.
Proof.
  intros H Hn Ht Hd.
  eapply (market_after None s s2 (ledger_of s (r_db s))); [done|by rewrite Hd|done|by apply (mk_houses _ _ H)|..|done|done|].
  - intros h id a' Ha'. by exists a'.
  - by apply cash_ok_of.
Qed.

Lemma market_start s : market_ok s -> now None s (r_db s) (ledger_of s (r_db s)) s (r_db s).
Proof. intros [Ht Hf _ _]. apply now_start; [|done]. unfold pending. by rewrite Ht. Qed.
(** Beginning a transaction where none is open changes nothing. *)
Lemma Begin_ewp {A} (k : unit -> RP A) s Q : market_ok s -> ewp (k tt) s Q -> ewp (BeginTransaction ≫= k) s Q.
Proof. intros [Ht _ _ _] Hk. eapply wp_seq; [done|]. replace (set_trans [] s) with s; [done|]. destruct s; cbn in *. by subst. Qed.

Lemma cash_ok_set p v L : cash_ok L -> 0 <= v < 2 ^ 64 -> cash_ok (set_cash p v L).
Proof. intros H Hv q u. cbn. rewrite lookup_insert_Some. intros [[_ <-]|[_ Hq]]; [done|by apply (H q)]. Qed.

(** ** [HandleAuctionPlaceBid] *)

Definition outbid_of (a : AuctionEntry) : Z := default 0 (GetAuctionOutBid a).
(** The auction the player bids on, if his bid is taken. *)
Definition bid_decision (s : Realm) (p auctioneer auctionId price m : Z) : option (House * AuctionEntry) :=
  if (auctionId =? 0) || (price =? 0) then None
  else
    match ew_auctioneer w p auctioneer with
    | None => None
    | Some faction =>
        let h := GetAuctionsMap w faction in
        match r_auctions s h !! auctionId with
        | None => None
        | Some a =>
            if negb (au_owner a =? p) && (au_bid a <? price) && (au_startbid a <=? price) &&
               (negb (below_buyout a price) || (u32 (au_bid a + outbid_of a) <=? price)) && (price <=? m)
            then Some (h, a) else None
        end
    end.
Definition bid_outcome (s : Realm) (p auctioneer auctionId price m : Z) : Ledger :=
  let L := ledger_of s (r_db s) in
  match bid_decision s p auctioneer auctionId price m with
  | None => L
  | Some (h, a) => if below_buyout a price then bid_ledger s p h a price m L else buyout_ledger s p h a m L
  end.

Lemma bid_decision_listed s p npc id price m h a : market_ok s -> bid_decision s p npc id price m = Some (h, a) ->
  listed (ledger_of s (r_db s)) h (au_Id a) a /\ au_owner a <> p /\ au_bid a < price /\ au_startbid a <= price <= m /\
  (below_buyout a price = true -> u32 (au_bid a + outbid_of a) <= price).
Proof.
  intros H. unfold bid_decision. destruct (_ || _); [done|]. destruct (ew_auctioneer w p npc) as [faction|]; [|done]. cbv zeta.
  destruct (r_auctions s _ !! id) as [a'|] eqn:Ea; [|done]. destruct (_ && _) eqn:E; [|done]. intros [= <- <-].
  repeat (apply andb_prop in E as [E ?]). assert (listed (ledger_of s (r_db s)) (GetAuctionsMap w faction) id a') as Hl by exact Ea.
  rewrite (proj1 (ho_id _ _ (mk_houses _ _ H) _ _ _ Hl)). apply negb_true_iff in E. bool_lia. split_and!; try done; try lia.
  intros Hb. rewrite Hb in *. cbn in *. bool_lia.
Qed.

Lemma bid_market_ok s p h a price m s2 : market_ok s -> 0 < p -> listed (ledger_of s (r_db s)) h (au_Id a) a -> au_owner a <> p ->
  0 <= price -> below_buyout a price = true -> 0 <= m < 2 ^ 64 -> now None s (r_db s) (bid_ledger s p h a price m (ledger_of s (r_db s))) s2 (r_db s2) -> r_trans s2 = [] -> market_ok s2.
Proof.
  intros H Hp0 Hl Hown Hpr Hbe Hm Hn Ht. eapply market_after; [done..| | | | |].
  - unfold bid_ledger. apply houses_rebid.
    + eapply houses_ext; [apply (mk_houses _ _ H)|..]; unfold refund; by books.
    + unfold listed, refund, set_cash. by books.
    + pose proof (ho_entry _ _ (mk_houses _ _ H) _ _ _ Hl) as [? ? ? ? ? ? ? ?]. unfold below_buyout in Hbe.
      pose proof (uint_range 32 price ltac:(lia)).
      split; cbn; try lia; try done. apply orb_prop in Hbe as [Hbe%Z.ltb_lt|Hbe%Z.eqb_eq]; [right; rewrite uint_small; lia|by left].
  - intros h1 id1 a1 H1. unfold bid_ledger, rebid in H1. change (listed (set_rows ?f ?l)) with (listed l) in H1.
    apply listed_set in H1 as [(-> & -> & ->)|[_ H1]]; [by exists a|]. exists a1. split_and!; try done.
    unfold listed, refund, set_cash in H1. by books_in H1.
  - unfold bid_ledger, refund. by books.
  - done.
  - unfold bid_ledger, rebid, cash_ok. cbn. intros q v Hv. apply lookup_insert_Some in Hv as [[<- <-]|[_ Hq]]; [by apply modified_range|].
    unfold refund in Hq. books_in Hq. by apply (cash_ok_of _ H q).
Qed.

Lemma buyout_market_ok s p h a m s2 : market_ok s -> listed (ledger_of s (r_db s)) h (au_Id a) a -> 0 <= m < 2 ^ 64 ->
  now (if player_exists w s p then Some (au_itemGUIDLow a, p) else None) s (r_db s) (buyout_ledger s p h a m (ledger_of s (r_db s))) s2 (r_db s2) ->
  r_trans s2 = [] -> market_ok s2.
Proof.
  intros H Hl Hm Hn Ht. pose proof (mk_houses _ _ H) as Hh.
  eapply market_after; [done..| | | | |].
  - unfold buyout_ledger, sold_ledger. cbv zeta. eapply houses_ext.
    + eapply (houses_ended_set _ h a (bought p a) (ledger_of s (r_db s))); done.
    + unfold ended, drop_auction, set_held, set_rows, refund. by books.
    + unfold ended, drop_auction, set_held, set_rows, refund. by books.
    + unfold ended, drop_auction, set_held, set_rows, refund. by books.
  - intros h1 id1 a1 H1. unfold buyout_ledger, ended in H1. apply listed_drop in H1 as [Hne H1].
    unfold listed, sold_ledger in H1. books_in H1.
    change (listed (set_auction h (au_Id a) (bought p a) (refund (negb (p =? au_bidder a) && negb (au_bidder a =? 0)) s a
      (set_cash p (modified m (- s64 (buyout_cost p a))) (ledger_of s (r_db s))))) h1 id1 a1) in H1.
    apply listed_set in H1 as [(-> & -> & ->)|[_ H1]]; [by destruct Hne|]. exists a1. split_and!; try done.
    unfold listed, refund, set_cash in H1. by books_in H1.
  - unfold buyout_ledger, sold_ledger, ended, refund. books. set_solver.
  - intros g q E. destruct (player_exists w s p); [|done]. simplify_eq. split; [by apply (ho_item _ _ Hh h (au_Id a) a Hl)|].
    unfold buyout_ledger, ended. cbn. set_solver.
  - intros q v. unfold buyout_ledger, sold_ledger, ended, refund. books.
    intros Hv. apply lookup_insert_Some in Hv as [[<- <-]|[_ Hq]]; [by apply modified_range|]. by apply (cash_ok_of _ H q).
Qed.

(** A result packet and nothing else. *)
Lemma refuse_ewp s p o action code L : market_ok s -> L = ledger_of s (r_db s) ->
  ewp (SendAuctionCommandResult p o action code 0) s (fun _ s2 => market_ok s2 /\ ledger_of s2 (r_db s2) = L).
Proof.
  intros H ->. apply wp_end. eapply CommandResult_now; [by apply market_start|]. intros s2 H2 Ht Hd.
  assert (r_trans s2 = []) as Ht2 by (rewrite Ht; apply (mk_trans _ _ H)).
  split; [by eapply market_same|]. rewrite Hd. apply (nw_ledger _ _ _ _ _ _ H2).
Qed.

(** The bid is taken: the rest of the handler. *)
Lemma accept_ewp s p h a price pl : market_ok s -> r_online s !! p = Some pl -> listed (ledger_of s (r_db s)) h (au_Id a) a ->
  au_owner a <> p -> 0 <= price ->
  ewp (BeginTransaction;; (if below_buyout a price then place_bid w p h a price else buy_out w p h a);; SaveGoldToDB p;; CommitTransaction) s
    (fun _ s2 => market_ok s2 /\ ledger_of s2 (r_db s2) =
       if below_buyout a price then bid_ledger s p h a price (pl_money pl) (ledger_of s (r_db s))
       else buyout_ledger s p h a (pl_money pl) (ledger_of s (r_db s))).
Proof.
  intros H Hpl Hl Hown Hpr. destruct (go_player _ _ _ _ _ (mk_goods _ _ H) p pl Hpl) as [Hp0 Hm].
  assert (is_Some (r_online s !! p)) as Hon by by exists pl.
  assert (lg_cash (ledger_of s (r_db s)) !! p = Some (pl_money pl)) as Hcash by (cbn; by rewrite lookup_fmap, Hpl).
  apply Begin_ewp; [done|]. apply wp_bind. destruct (below_buyout a price) eqn:Hbe.
  - eapply wp_mono; [eapply (place_bid_now s (r_db s) (mk_goods _ _ H)); [by apply market_start|exact Hcash]|]. intros _ s2 [d2 H2].
    eapply SaveGoldToDB_now; [done..|]. intros s3 d3 H3. apply wp_end. eapply Commit_now; [exact H3|]. intros s4 H4 Ht Hd.
    rewrite <- Hd in H4. split; [by eapply bid_market_ok|]. apply (nw_ledger _ _ _ _ _ _ H4).
  - pose proof (ho_item _ _ (mk_houses _ _ H) _ _ _ Hl) as Hg.
    eapply wp_mono; [eapply (buy_out_now s (r_db s) (mk_goods _ _ H)); [by apply market_start|exact Hcash|done|done]|]. intros _ s2 [d2 H2].
    eapply SaveGoldToDB_now; [done..|]. intros s3 d3 H3. apply wp_end. eapply Commit_now; [exact H3|]. intros s4 H4 Ht Hd.
    rewrite <- Hd in H4. split; [by eapply buyout_market_ok|]. apply (nw_ledger _ _ _ _ _ _ H4).
Qed.

Lemma PlaceBid_ewp s p npc id price pl : market_ok s -> r_online s !! p = Some pl ->
  ewp (HandleAuctionPlaceBid w p npc id price) s
    (fun _ s2 => market_ok s2 /\ ledger_of s2 (r_db s2) = bid_outcome s p npc id price (pl_money pl)).
Proof.
  intros H Hpl. unfold HandleAuctionPlaceBid, bid_outcome, bid_decision.
  destruct (_ || _); [done|]. destruct (ew_auctioneer w p npc) as [faction|]; [|done]. cbv zeta. set (h := GetAuctionsMap w faction).
  apply wp_get. unfold GetAuction. destruct (r_auctions s h !! id) as [a|] eqn:Ea; [|by apply refuse_ewp].
  assert (listed (ledger_of s (r_db s)) h id a) as Hl by exact Ea. pose proof (ho_id _ _ (mk_houses _ _ H) _ _ _ Hl) as [Hid _].
  rewrite <- Hid in Hl. destruct (Z.eqb_spec (au_owner a) p) as [Hown|Hown]; cbn [negb andb]; [by apply refuse_ewp|].
  rewrite (Z.ltb_antisym price (au_bid a)), (Z.leb_antisym price (au_startbid a)).
  destruct (Z.leb_spec price (au_bid a)); cbn [negb orb andb]; [done|]. destruct (price <? au_startbid a); cbn [negb orb andb]; [done|].
  apply wp_bind. eapply wp_mono with (Q := fun low s2 => s2 = s /\ low = below_buyout a price && (price <? u32 (au_bid a + outbid_of a))).
  { destruct (below_buyout a price); [|done]. apply wp_bind, of_float_ewp. intros v Hv. unfold outbid_of. by rewrite Hv. }
  intros low s2 [-> ->]. eapply wp_seq; [by apply deref_player_ok|]. unfold HasEnoughMoney.
  rewrite (Z.leb_antisym price (u32 (au_bid a + outbid_of a))).
  destruct (below_buyout a price && (price <? u32 (au_bid a + outbid_of a))) eqn:El.
  - apply andb_prop in El as [-> ->]. cbn [negb orb andb]. by apply refuse_ewp.
  - apply andb_false_iff in El.
    assert (negb (below_buyout a price) || negb (price <? u32 (au_bid a + outbid_of a)) = true) as -> by (by destruct El as [-> | ->]; [|rewrite orb_true_r]).
    cbn [andb]. destruct (price <=? pl_money pl); cbn [negb]; [|by apply refuse_ewp].
    apply accept_ewp; try done. pose proof (en_bid _ (ho_entry _ _ (mk_houses _ _ H) _ _ _ Hl)). lia.
Qed.

(** ** The other ends of an auction *)

Lemma ended_market_ok s h a good L s2 : market_ok s -> listed (ledger_of s (r_db s)) h (au_Id a) a ->
  lg_auctions L = r_auctions s -> lg_aitems L = r_aitems s -> lg_rows L = db_auctions (r_db s) -> cash_ok L ->
  (forall g p, good = Some (g, p) -> g = au_itemGUIDLow a) ->
  now good s (r_db s) (ended h a L) s2 (r_db s2) -> r_trans s2 = [] -> market_ok s2.
Proof.
  intros H Hl Ha Hi Hr Hc Hg Hn Ht. pose proof (mk_houses _ _ H) as Hh. eapply market_after; [done..| | | | |].
  - apply houses_ended; [by eapply houses_ext|]. unfold listed. by rewrite Ha.
  - intros h1 id1 a1 [_ H1]%listed_drop. exists a1. split_and!; try done. unfold listed in H1. cbn in H1. by rewrite Ha in H1.
  - unfold ended. cbn. rewrite Hi. set_solver.
  - intros g p E. rewrite (Hg g p E). split; [by apply (ho_item _ _ Hh h (au_Id a) a Hl)|]. unfold ended. cbn. set_solver.
  - done.
Qed.

(** The row, the item and the auction go; the transaction is committed on the way. *)
Lemma end_auction_ewp good s h a L s1 d1 : market_ok s -> listed (ledger_of s (r_db s)) h (au_Id a) a ->
  lg_auctions L = r_auctions s -> lg_aitems L = r_aitems s -> lg_rows L = db_auctions (r_db s) -> cash_ok L ->
  (forall g p, good = Some (g, p) -> g = au_itemGUIDLow a) -> now good s (r_db s) L s1 d1 ->
  ewp (DeleteAuctionFromDB (au_Id a);; CommitTransaction;; RemoveAItem (au_itemGUIDLow a);; RemoveAuction h a) s1
    (fun _ s2 => market_ok s2 /\ ledger_of s2 (r_db s2) = ended h a L).
Proof.
  intros H Hl Ha Hi Hr Hc Hg Hn.
  eapply DeleteAuctionFromDB_now; [exact Hn|]. intros s2 d2 H2. eapply Commit_now; [exact H2|]. intros s3 H3 Ht3 Hd3.
  eapply RemoveAItem_now; [exact H3|]. intros s4 H4 Ht4 Hd4. apply wp_end. unfold RemoveAuction.
  eapply house_now; [exact H4|]. intros s5 H5 Ht5 Hd5.
  assert (now good s (r_db s) (ended h a L) s5 (r_db s5)) as H6 by (rewrite Hd5, Hd4, Hd3; exact H5).
  split; [eapply ended_market_ok; try done; by rewrite Ht5, Ht4|]. apply (nw_ledger _ _ _ _ _ _ H6).
Qed.

Definition finish_ledger (s : Realm) (h : House) (a : AuctionEntry) (L : Ledger) : Ledger :=
  ended h a (if au_bidder a =? 0 then pay_if (player_exists w s (au_owner a)) (au_owner a) 0 L
             else pay_if (player_exists w s (au_bidder a)) (au_bidder a) 0 (sold_ledger s a L)).
Lemma finish_auction_ewp s h id : market_ok s ->
  ewp (finish_auction w h id) s (fun _ s2 => market_ok s2 /\
    ledger_of s2 (r_db s2) = match r_auctions s h !! id with Some a => finish_ledger s h a (ledger_of s (r_db s)) | None => ledger_of s (r_db s) end).
Proof.
  intros H. unfold finish_auction. apply wp_get. unfold GetAuction. destruct (r_auctions s h !! id) as [a|] eqn:Ea; [|done].
  assert (listed (ledger_of s (r_db s)) h id a) as Hl by exact Ea. rewrite <- (proj1 (ho_id _ _ (mk_houses _ _ H) _ _ _ Hl)) in Hl.
  pose proof (ho_item _ _ (mk_houses _ _ H) _ _ _ Hl) as Hg. pose proof (mk_goods _ _ H) as G. pose proof (market_start s H) as H0.
  apply Begin_ewp; [done|]. apply wp_bind. unfold finish_ledger. destruct (au_bidder a =? 0).
  - eapply wp_mono; [by eapply (Expired_now protos w s (r_db s) G a)|]. intros [] s1 [d1 H1]. cbv zeta in H1.
    eapply end_auction_ewp; [done|done|..|exact H1]; try (by autorewrite with ledger).
    + intros p v. autorewrite with ledger. by apply cash_ok_of.
    + by destruct (player_exists w s (au_owner a)); intros ?? [=].
  - apply wp_bind. eapply wp_mono; [by eapply (Successful_now protos w s (r_db s) G a)|]. intros [] s1 [d1 H1].
    eapply wp_mono; [eapply (Won_now protos w s (r_db s) G a); [exact H1|done|]|].
    { rewrite (now_aitems_eq _ _ _ _ _ _ H1). by autorewrite with ledger. }
    intros [] s2 [d2 H2]. cbv zeta in H2.
    eapply end_auction_ewp; [done|done|..|exact H2]; try (by unfold sold_ledger; autorewrite with ledger).
    + intros p v. unfold sold_ledger. autorewrite with ledger. by apply cash_ok_of.
    + by destruct (player_exists w s (au_bidder a)); intros ?? [=].
Qed.

Lemma UpdateHouse_ewp s h : market_ok s -> ewp (UpdateHouse w h) s (fun _ => market_ok).
Proof.
  intros H. unfold UpdateHouse. apply wp_get. case_bool_decide; [done|]. apply wp_forM; [done|]. intros id s' _ H'.
  eapply wp_mono; [by apply finish_auction_ewp|]. by intros [] s2 [? _].
Qed.
Lemma UpdateAuctions_ewp s : market_ok s -> ewp (UpdateAuctions w) s (fun _ => market_ok).
Proof.
  intros H. unfold UpdateAuctions. apply wp_bind. eapply wp_mono; [by apply UpdateHouse_ewp|]. intros [] s1 H1.
  apply wp_bind. eapply wp_mono; [by apply UpdateHouse_ewp|]. intros [] s2 H2. by apply UpdateHouse_ewp.
Qed.

(** ** [HandleAuctionRemoveItem] *)

Definition cancel_ledger (s : Realm) (p : Z) (h : House) (a : AuctionEntry) (m : Z) (L : Ledger) : Ledger :=
  ended h a (pay p 0 (if 0 <? au_bidder a then set_cash p (modified m (- s64 (cut_of w a))) (refund true s a L) else L)).
(** The auction that the player may cancel. *)
Definition cancel_decision (s : Realm) (p npc id m : Z) : option (House * AuctionEntry) :=
  match ew_auctioneer w p npc with
  | None => None
  | Some faction =>
      let h := GetAuctionsMap w faction in
      match r_auctions s h !! id with
      | None => None
      | Some a => if (au_owner a =? p) && ((au_bidder a =? 0) || (cut_of w a <=? m)) then Some (h, a) else None
      end
  end.
Definition cancel_outcome (s : Realm) (p npc id m : Z) : Ledger :=
  let L := ledger_of s (r_db s) in
  match cancel_decision s p npc id m with Some (h, a) => cancel_ledger s p h a m L | None => L end.

(** From the mail with the item on. *)
Lemma cancel_rest_ewp s p h a L s1 d1 : market_ok s -> is_Some (r_online s !! p) -> listed (ledger_of s (r_db s)) h (au_Id a) a ->
  lg_auctions L = r_auctions s -> lg_aitems L = r_aitems s -> lg_rows L = db_auctions (r_db s) -> cash_ok L -> now None s (r_db s) L s1 d1 ->
  ewp ((deref_item (au_itemGUIDLow a);;
        auction_mail w a p 0 (AddItem (au_itemGUIDLow a) (MailDraft_new (BuildAuctionMailSubject a AUCTION_CANCELED)
          (BuildAuctionMailBody 0 0 (au_buyout a) (au_deposit a) 0))));; cancel_auction p h a) s1
    (fun _ s2 => market_ok s2 /\ ledger_of s2 (r_db s2) = ended h a (pay p 0 L)).
Proof.
  intros H Hp Hl Ha Hi Hr Hc Hn. pose proof (mk_goods _ _ H) as G. pose proof (ho_item _ _ (mk_houses _ _ H) _ _ _ Hl) as Hg.
  destruct (go_held _ _ _ _ _ G _ Hg) as ([i Hit] & _ & _). apply wp_bind.
  eapply wp_seq; [apply (deref_item_ok _ i); by rewrite (mv_items _ _ _ _ _ (nw_moved _ _ _ _ _ _ Hn))|].
  eapply wp_mono.
  { eapply (auction_mail_now protos w s (r_db s) G (Some (au_itemGUIDLow a, p)) a p); [exact Hn| |by left|by intros ? ? [= <- <-]].
    split; [|done]. cbn. by rewrite union_empty_r_L. }
  intros [] s2 [d2 H2]. unfold cancel_auction. eapply CommandResult_now; [exact H2|]. intros s3 H3 _ _.
  eapply SaveGoldToDB_now; [exact H3|done|]. intros s4 d4 H4. eapply end_auction_ewp; try done. by intros g q [= <- _].
Qed.

Lemma RemoveItem_ewp s p npc id pl : market_ok s -> r_online s !! p = Some pl ->
  ewp (HandleAuctionRemoveItem w p npc id) s
    (fun _ s2 => market_ok s2 /\ ledger_of s2 (r_db s2) = cancel_outcome s p npc id (pl_money pl)).
Proof.
  intros H Hpl. unfold HandleAuctionRemoveItem, cancel_outcome, cancel_decision.
  destruct (ew_auctioneer w p npc) as [faction|]; [|done]. cbv zeta. set (h := GetAuctionsMap w faction). apply Begin_ewp; [done|].
  apply wp_get. unfold GetAuction. destruct (r_auctions s h !! id) as [a|] eqn:Ea; [|by apply refuse_ewp].
  assert (listed (ledger_of s (r_db s)) h id a) as Hl by exact Ea. rewrite <- (proj1 (ho_id _ _ (mk_houses _ _ H) _ _ _ Hl)) in Hl.
  pose proof (mk_goods _ _ H) as G. pose proof (market_start s H) as H0. pose proof (cash_ok_of _ H) as Hc0.
  destruct (go_player _ _ _ _ _ G p pl Hpl) as [Hp0 Hm]. assert (is_Some (r_online s !! p)) as Hon by by exists pl.
  destruct (au_owner a =? p); cbn [andb]; [|by apply refuse_ewp].
  rewrite bool_decide_true by apply (ho_item _ _ (mk_houses _ _ H) _ _ _ Hl).
  pose proof (en_bidder _ (ho_entry _ _ (mk_houses _ _ H) _ _ _ Hl)) as Hb. unfold cancel_ledger.
  destruct (Z.ltb_spec 0 (au_bidder a)) as [Hlt|Hge].
  - rewrite (proj2 (Z.eqb_neq (au_bidder a) 0)) by lia. cbn [orb]. apply wp_bind, of_float_ewp. intros cut Hcut.
    eapply wp_seq; [by apply deref_player_ok|]. unfold HasEnoughMoney.
    assert (cut_of w a = cut) as Ecut by (unfold cut_of; by rewrite Hcut). rewrite Ecut.
    destruct (cut <=? pl_money pl); cbn [negb]; [|done]. apply wp_bind.
    eapply wp_mono; [eapply (CancelledToBidder_now protos w s (r_db s) G a); [exact H0|]|].
    { destruct (go_held _ _ _ _ _ G _ (ho_item _ _ (mk_houses _ _ H) _ _ _ Hl)) as (Hi & _ & _). exact Hi. }
    intros [] s1 [d1 H1]. apply wp_bind, neg64_ewp. apply wp_bind.
    eapply wp_mono; [eapply ModifyMoney_now; [exact H1|by autorewrite with ledger; cbn; rewrite lookup_fmap, Hpl]|].
    intros b s2 H2. rewrite (proj2 (Z.ltb_lt 0 (au_bidder a))), Ecut by done. eapply cancel_rest_ewp; [done|done|done|..|exact H2]; try (by unfold refund; books).
    apply cash_ok_set; [|by apply modified_range]. intros q v. unfold refund. autorewrite with ledger. by apply Hc0.
  - rewrite (proj2 (Z.eqb_eq (au_bidder a) 0)) by lia. cbn [orb].
    rewrite (proj2 (Z.ltb_ge 0 (au_bidder a))) by done. by eapply cancel_rest_ewp.
Qed.
End Commands.
