(* ===== verification/AuctionSell.v ===== *)
(** * The auction house: putting up an auction (model in Auction.v)

    A stack is moved out of the bags, or a clone of it takes units from several
    stacks; the goods stay in one place each, and the new auction is in its house,
    in the database and with its item at the manager. *)

From S2P Require Import Prelude.
From S2P Require Import Floats.
From S2P Require Import Economy.
From S2P Require Import EconomyProofs.
From S2P Require Import Mail.
From S2P Require Import MailProofs.
From S2P Require Import Auction.
From S2P Require Import AuctionLedger.
From S2P Require Import AuctionProofs.
From S2P Require Import AuctionCommands.
From stdpp Require Import list sorting.
Local Open Scope Z_scope.
#[local] Set Warnings "-clear-no-such-hyp".

(** ** Bags *)

Lemma elem_of_bag a x : x ∈ bag_items a <-> exists pos, pl_bags a !! pos = Some x.
Proof.
  unfold bag_items. rewrite list_elem_of_fmap. split.
  - intros ([pos y] & -> & H). apply in_order_spec in H. by exists pos.
  - intros [pos H]. exists (pos, x). split; [done|]. by apply in_order_spec.
Qed.
Lemma NoDup_bag a : NoDup (bag_items a) <-> forall i j x, pl_bags a !! i = Some x -> pl_bags a !! j = Some x -> i = j.
Proof.
  unfold bag_items. split.
  - intros Hnd i j x Hi%in_order_spec Hj%in_order_spec.
    apply list_elem_of_lookup in Hi as [m Hm]. apply list_elem_of_lookup in Hj as [k Hk].
    assert (m = k) as ->. { eapply NoDup_lookup; [exact Hnd| |]; rewrite list_lookup_fmap; [by rewrite Hm|by rewrite Hk]. }
    by simplify_eq.
  - intros Hu. apply NoDup_alt. intros m k x Hm Hk. rewrite list_lookup_fmap in Hm, Hk.
    apply fmap_Some in Hm as ([i y] & Hm & ->). apply fmap_Some in Hk as ([j z] & Hk & E). cbn in E. subst z.
    assert (i = j) as ->. { apply (Hu i j y); apply in_order_spec; by eapply list_elem_of_lookup_2. }
    eapply NoDup_lookup; [apply (in_order_NoDup (pl_bags a))| |]; rewrite list_lookup_fmap; [by rewrite Hm|by rewrite Hk].
Qed.

(** A player after some of his goods went: his money and his mail are the same. *)
Record shrunk (a b : Player) : Prop := {
  sk_bags : forall x, x ∈ bag_items b -> x ∈ bag_items a;
  sk_nodup : NoDup (bag_items a) -> NoDup (bag_items b);
  sk_mitems : pl_mitems b = pl_mitems a;
  sk_money : pl_money b = pl_money a
}.
Lemma shrunk_refl a : shrunk a a.
Proof. by split. Qed.
Definition take_out (g : Z) (a : Player) : Player := player_set_bags (filter (fun e => e.2 <> g) (pl_bags a)) a.
Lemma take_out_elem g a x : x ∈ bag_items (take_out g a) <-> x ∈ bag_items a /\ x <> g.
Proof. rewrite !elem_of_bag. cbn. setoid_rewrite map_lookup_filter_Some. cbn. naive_solver. Qed.
Lemma take_out_shrunk g a : shrunk a (take_out g a).
Proof.
  split; [|rewrite !NoDup_bag|done..].
  - intros x Hx%take_out_elem. tauto.
  - intros Hu i j x. cbn. rewrite !map_lookup_filter_Some. intros [Hi _] [Hj _]. by apply (Hu i j x).
Qed.

(** ** Goods that are changed and goods that are put up *)

Section Goods.
Context (protos : Z -> option ItemTemplate).
Abbreviation goods_ok := (goods_ok protos).

(** Nobody has the item. *)
Definition unowned (g : Z) (s : Realm) : Prop := forall p a, r_online s !! p = Some a -> (g ∉ bag_items a) /\ (g ∉ pl_mitems a).

(** Only the item [g], which is not at the manager, is new or changed. *)
Record touched (g : Z) (s : Realm) (d : CharDB) (s' : Realm) (d' : CharDB) : Prop := {
  to_next : r_next_item s <= r_next_item s';
  to_below : g < r_next_item s';
  to_others : forall x, x <> g -> r_items s' !! x = r_items s !! x;
  to_item : exists i, r_items s' !! g = Some i /\ it_state i <> ITEM_REMOVED /\ is_Some (protos (it_entry i)) /\
    ((exists p b, r_online s' !! p = Some b /\ g ∈ bag_items b) -> saved (db_items d' !! g) i);
  to_rows : forall x, x <> g -> db_items d' !! x = db_items d !! x;
  to_mail_items : db_mail_items d' = db_mail_items d;
  to_player : forall p b, r_online s' !! p = Some b -> exists a, r_online s !! p = Some a /\ shrunk a b
}.

Section Touch.
Context (held : gset Z) (lists : House -> gmap Z AuctionEntry) (g : Z) (s : Realm) (d : CharDB) (s' : Realm) (d' : CharDB).
Context (G : goods_ok held lists s d) (Hg : g ∉ held) (T : touched g s d s' d').

Lemma is_item_touched x : is_Some (r_items s !! x) -> is_Some (r_items s' !! x).
Proof.
  intros Hx. destruct (decide (x = g)) as [->|Hne]; [|by rewrite (to_others _ _ _ _ _ T)].
  destruct (to_item _ _ _ _ _ T) as (i & Hi & _). by exists i.
Qed.
Lemma bag_touched p b x : r_online s' !! p = Some b -> x ∈ bag_items b ->
  (exists i, r_items s' !! x = Some i /\ saved (db_items d' !! x) i) /\ db_mail_items d' !! x = None /\
  (forall q c, r_online s' !! q = Some c -> (x ∉ pl_mitems c) /\ (x ∈ bag_items c -> q = p)).
Proof.
  intros Hb Hx. destruct (to_player _ _ _ _ _ T p b Hb) as (a & Ha & K).
  destruct (go_bag _ _ _ _ _ G p a x Ha (sk_bags _ _ K x Hx)) as ((i & Hi & Hs) & Hm & Hq). split_and!.
  - destruct (decide (x = g)) as [->|Hne].
    + destruct (to_item _ _ _ _ _ T) as (j & Hj & _ & _ & Hsv). exists j. split; [done|]. apply Hsv. by exists p, b.
    + exists i. by rewrite (to_others _ _ _ _ _ T), (to_rows _ _ _ _ _ T).
  - by rewrite (to_mail_items _ _ _ _ _ T).
  - intros q c Hc. destruct (to_player _ _ _ _ _ T q c Hc) as (c' & Hc' & K'). rewrite (sk_mitems _ _ K').
    destruct (Hq q c' Hc') as [H1 H2]. split; [done|]. intros Hxc. by apply H2, (sk_bags _ _ K').
Qed.

Lemma goods_touched : goods_ok held lists s' d'.
Proof.
  pose proof (to_others _ _ _ _ _ T) as Ho. pose proof (to_rows _ _ _ _ _ T) as Hr. pose proof (to_next _ _ _ _ _ T) as Hnx. split.
  - intros x Hx. destruct (go_held _ _ _ _ _ G x Hx) as (Hi & Hm & Hn). rewrite (to_mail_items _ _ _ _ _ T).
    split_and!; [by apply is_item_touched|done|]. intros p b Hb. destruct (to_player _ _ _ _ _ T p b Hb) as (a & Ha & K).
    rewrite (sk_mitems _ _ K). destruct (Hn p a Ha) as [H1 H2]. split; [|done]. intros Hin. by apply H1, (sk_bags _ _ K).
  - intros h id a Ha. destruct (go_listed _ _ _ _ _ G h id a Ha) as (Hin & i & r & H). split; [done|].
    exists i, r. rewrite Ho, Hr by (intros <-; done). done.
  - exact bag_touched.
  - intros p b Hb. destruct (to_player _ _ _ _ _ T p b Hb) as (a & Ha & K). apply (sk_nodup _ _ K). by apply (go_bag_nodup _ _ _ _ _ G p).
  - intros p b x Hb. destruct (to_player _ _ _ _ _ T p b Hb) as (a & Ha & K). rewrite (sk_mitems _ _ K). intros Hx.
    destruct (go_mitems _ _ _ _ _ G p a x Ha Hx) as [Hi Hu]. split; [by apply is_item_touched|]. intros q c Hc.
    destruct (to_player _ _ _ _ _ T q c Hc) as (c' & Hc' & K'). rewrite (sk_mitems _ _ K'). by apply Hu.
  - intros x i Hi. destruct (decide (x = g)) as [->|Hne].
    + destruct (to_item _ _ _ _ _ T) as (j & Hj & H1 & H2 & _). simplify_eq. split_and!; [done..|]. apply (to_below _ _ _ _ _ T).
    + rewrite Ho in Hi by done. destruct (go_object _ _ _ _ _ G x i Hi) as (H1 & H2 & H3). split_and!; [done..|lia].
  - intros x Hx. rewrite (to_mail_items _ _ _ _ _ T) in Hx. pose proof (go_mailed _ _ _ _ _ G x Hx). lia.
  - intros p b Hb. destruct (to_player _ _ _ _ _ T p b Hb) as (a & Ha & K). rewrite (sk_money _ _ K). by apply (go_player _ _ _ _ _ G).
Qed.
End Touch.

(** What the goods depend on. *)
Lemma goods_same held lists s d s' d' : goods_ok held lists s d -> r_items s' = r_items s -> r_online s' = r_online s ->
  r_next_item s' = r_next_item s -> db_items d' = db_items d -> db_mail_items d' = db_mail_items d -> goods_ok held lists s' d'.
Proof. intros [] Hi Ho Hn Hr Hm. split; rewrite ?Hi, ?Ho, ?Hn, ?Hr, ?Hm; done. Qed.

(** An item of nobody is put up. *)
Lemma goods_listed held lists s d h a i r : goods_ok held lists s d -> unowned (au_itemGUIDLow a) s ->
  db_mail_items d !! au_itemGUIDLow a = None ->
  r_items s !! au_itemGUIDLow a = Some i -> it_entry i = au_itemEntry a -> it_count i = au_itemCount a ->
  db_items d !! au_itemGUIDLow a = Some r -> ir_entry r = au_itemEntry a -> ir_count r = au_itemCount a ->
  goods_ok ({[au_itemGUIDLow a]} ∪ held) (<[h := <[au_Id a := a]> (lists h)]> lists) s d.
Proof.
  intros G Hu Hm Hi E1 E2 Hr E3 E4. destruct G as [Ghe Gli Gba Gnd Gmi Gob Gma Gpl]. split; [| |done..].
  - intros x [->%elem_of_singleton|Hx]%elem_of_union; [|by apply Ghe]. split_and!; [by exists i|done|]. exact Hu.
  - intros h1 id1 a1 H1. assert (a1 = a \/ lists h1 !! id1 = Some a1) as [->|H2].
    { destruct (decide (h1 = h)) as [->|Hne]; [rewrite fn_lookup_insert in H1|rewrite fn_lookup_insert_ne in H1 by done; by right].
      apply lookup_insert_Some in H1 as [[_ <-]|[_ H1]]; [by left|by right]. }
    + split; [set_solver|]. by exists i, r.
    + destruct (Gli h1 id1 a1 H2) as [Hin H3]. split; [set_solver|done].
Qed.
End Goods.

(** ** The steps of a sale *)

(** The ledger does not see bags. *)
Lemma cash_shrunk (m : gmap Z Player) p a b : m !! p = Some a -> shrunk a b -> pl_money <$> <[p := b]> m = pl_money <$> m.
Proof. intros Hp K. rewrite fmap_insert, (sk_money _ _ K). apply insert_id. by rewrite lookup_fmap, Hp. Qed.

Lemma MoveItem_run p g a i s : r_online s !! p = Some a -> r_items s !! g = Some i -> exists b i',
  MoveItemFromInventory p g s = (Ok tt, set_items (<[g := i']> (r_items s)) (set_online (<[p := b]> (r_online s)) s)) /\
  shrunk a b /\ (g ∉ bag_items b) /\ it_entry i' = it_entry i /\ it_count i' = it_count i /\ it_state i' = it_state i.
Proof.
  intros Hp Hi. unfold MoveItemFromInventory. rewrite (bind_ok _ _ _ _ _ (deref_player_ok p a s Hp)). fold (bag_items a).
  case_bool_decide as Hg.
  - exists (take_out g a), (SetNotRefundable false i). rewrite (bind_ok _ _ _ _ _ (upd_player_ok p _ a s Hp)).
    rewrite (upd_item_ok g _ i) by done. split_and!; [done|apply take_out_shrunk|rewrite take_out_elem; tauto|..];
      unfold SetNotRefundable; by destruct (has _ _).
  - exists a, i. split_and!; try done. rewrite !insert_id by done. by destruct s.
Qed.

(** What saving an item does to the tables. *)
Record item_saved (g : Z) (i : Item) (d d' : CharDB) : Prop := {
  is_others : forall x, x <> g -> db_items d' !! x = db_items d !! x;
  is_row : saved (db_items d !! g) i -> exists r, db_items d' !! g = Some r /\ ir_entry r = it_entry i /\ ir_count r = it_count i;
  is_auctions : db_auctions d' = db_auctions d;
  is_mails : db_mails d' = db_mails d;
  is_mail_items : db_mail_items d' = db_mail_items d
}.
Lemma SaveToDB_run g i s d : pending s = Some d -> r_items s !! g = Some i -> it_state i <> ITEM_REMOVED -> exists s' d',
  SaveToDB g s = (Ok tt, s') /\ pending s' = Some d' /\ item_saved g i d d' /\
  s' = set_items (<[g := item_set_state ITEM_UNCHANGED i]> (r_items s)) (set_trans (r_trans s') s).
Proof.
  intros Hp Hi Hst. unfold SaveToDB. rewrite (bind_ok _ _ _ _ _ (deref_item_ok g i s Hi)). destruct (it_state i) eqn:Est.
  - rewrite (upd_item_ok g _ i) by done. exists (set_items (<[g := item_set_state ITEM_UNCHANGED i]> (r_items s)) s), d.
    split_and!; [done|done|split; try done; unfold saved; by rewrite Est|by destruct s].
  - eexists _, (db_set_items (alter (fun _ => item_row i) g (db_items d)) d). split_and!.
    + rewrite (bind_ok (Append _) _ s tt _ eq_refl). by rewrite (upd_item_ok g _ i).
    + by eapply pending_append.
    + split; try done; cbn.
      * intros x Hx. by rewrite lookup_alter_ne.
      * unfold saved. rewrite Est. intros [r Hr]. exists (item_row i). by rewrite lookup_alter_eq, Hr.
    + done.
  - eexists _, (db_set_items (<[g := item_row i]> (db_items d)) d). split_and!.
    + rewrite (bind_ok (Append _) _ s tt _ eq_refl). by rewrite (upd_item_ok g _ i).
    + by eapply pending_append.
    + split; try done; cbn.
      * intros x Hx. by rewrite lookup_insert_ne.
      * intros _. exists (item_row i). by rewrite lookup_insert_eq.
    + done.
  - done.
Qed.

Section Sell.
Context (w : EconomyWorld).
Abbreviation protos := (ew_proto w).
Abbreviation market_ok := (market_ok protos).

(** In the middle of a sale, between two transactions: the manager held [held] and
    [lists] when it began, and its ledger is [L]. *)
Record mid (held : gset Z) (lists : House -> gmap Z AuctionEntry) (next : Z) (L : Ledger) (s : Realm) : Prop := {
  md_trans : r_trans s = [];
  md_fresh : mails_fresh s (r_db s);
  md_goods : goods_ok protos held lists s (r_db s);
  md_ledger : ledger_of s (r_db s) = L;
  md_next : r_next_auction s = next
}.

Lemma mid_start s : market_ok s -> mid (r_aitems s) (r_auctions s) (r_next_auction s) (ledger_of s (r_db s)) s.
Proof. by intros []. Qed.
Lemma mid_market held lists next L s : mid held lists next L s -> held = lg_aitems L -> lists = lg_auctions L -> houses_ok next L -> market_ok s.
Proof. intros [Ht Hf Hg <- <-] -> -> Hh. by split. Qed.

(** A step that changes one item which is not at the manager. *)
Lemma mid_touched g held lists next L s s' : mid held lists next L s -> g ∉ held -> touched protos g s (r_db s) s' (r_db s') ->
  r_trans s' = [] -> r_auctions s' = r_auctions s -> r_aitems s' = r_aitems s -> r_next_auction s' = r_next_auction s ->
  r_next_mail s' = r_next_mail s -> db_auctions (r_db s') = db_auctions (r_db s) -> db_mails (r_db s') = db_mails (r_db s) ->
  pl_money <$> r_online s' = pl_money <$> r_online s -> mid held lists next L s'.
Proof.
  intros [Ht Hf HG HL Hn] Hg T Ht' E1 E2 E3 E4 E5 E6 E7. split; [done| |by eapply goods_touched| |by rewrite E3].
  - intros id. rewrite E6, E4. apply Hf.
  - rewrite <- HL. unfold ledger_of, mail_totals. by rewrite E1, E2, E5, E6, E7.
Qed.

Lemma player_insert (m : gmap Z Player) p a b : m !! p = Some a -> shrunk a b ->
  forall q c, <[p := b]> m !! q = Some c -> exists c', m !! q = Some c' /\ shrunk c' c /\ (c = c' /\ q <> p \/ q = p /\ c = b /\ c' = a).
Proof.
  intros Hp K q c [[<- <-]|[Hne Hc]]%lookup_insert_Some; [exists a; naive_solver|]. exists c. split_and!; [done|apply shrunk_refl|].
  left. by split.
Qed.

(** *** Taking from the stacks *)

(** The stack [g] is with [p] or with nobody. *)
Definition stack_of (p n : Z) (held : gset Z) (g : Z) (s : Realm) : Prop :=
  is_Some (r_items s !! g) /\ (g ∉ held) /\ g <> n /\ forall q b, r_online s !! q = Some b -> g ∈ bag_items b -> q = p.
Record taking (p n : Z) (i0 : Item) (held : gset Z) (lists : House -> gmap Z AuctionEntry) (next : Z) (L : Ledger) (stacks : list Z)
    (s : Realm) : Prop := {
  tk_mid : mid held lists next L s;
  tk_player : is_Some (r_online s !! p);
  tk_clone : r_items s !! n = Some i0;
  tk_unowned : unowned n s;
  tk_row : db_mail_items (r_db s) !! n = None;
  tk_stacks : forall g, g ∈ stacks -> stack_of p n held g s
}.

Lemma taking_touched p n i0 held lists next L stacks s s' g : taking p n i0 held lists next L stacks s -> g <> n ->
  touched protos g s (r_db s) s' (r_db s') -> mid held lists next L s' -> dom (r_online s) ⊆ dom (r_online s') -> 
  taking p n i0 held lists next L stacks s'.
Proof.
  intros [Hm Hp Hc Hu Hr Hs] Hne T Hm' Hd. split; [done| | | | |].
  - apply elem_of_dom, Hd. by apply elem_of_dom.
  - by rewrite (to_others _ _ _ _ _ _ T).
  - intros q b Hb. destruct (to_player _ _ _ _ _ _ T q b Hb) as (a & Ha & K). destruct (Hu q a Ha) as [H1 H2].
    rewrite (sk_mitems _ _ K). split; [|done]. intros Hin. by apply H1, (sk_bags _ _ K).
  - by rewrite (to_mail_items _ _ _ _ _ _ T).
  - intros x Hx. destruct (Hs x Hx) as (Hi & H1 & H2 & H3). split_and!; [|done|done|].
    + destruct (decide (x = g)) as [->|Hxg]; [|by rewrite (to_others _ _ _ _ _ _ T)].
      destruct (to_item _ _ _ _ _ _ T) as (i & Hi' & _). by exists i.
    + intros q b Hb Hin. destruct (to_player _ _ _ _ _ _ T q b Hb) as (a & Ha & K). by apply (H3 q a Ha), (sk_bags _ _ K).
Qed.

(** A stack is sold whole: it leaves the bags and its row goes. *)
Lemma take_whole_ewp p n i0 held lists next L stacks s g : taking p n i0 held lists next L stacks s -> g ∈ stacks ->
  ewp (MoveItemFromInventory p g;; BeginTransaction;; Append (CHAR_DEL_ITEM_INSTANCE g);; CommitTransaction) s
    (fun _ => taking p n i0 held lists next L stacks).
Proof.
  intros H Hin. destruct (tk_stacks _ _ _ _ _ _ _ _ _ H g Hin) as ([i Hi] & Hh & Hne & Hq).
  destruct (tk_player _ _ _ _ _ _ _ _ _ H) as [a Ha].
  pose proof (md_goods _ _ _ _ _ (tk_mid _ _ _ _ _ _ _ _ _ H)) as HG. destruct (go_object _ _ _ _ _ HG g i Hi) as (Hs1 & Hs2 & Hs3).
  destruct (MoveItem_run p g a i s Ha Hi) as (b & i' & Er & K & Hgb & Ee & Ec & Es).
  eapply wp_seq; [exact Er|]. eapply wp_seq; [done|]. eapply wp_seq; [done|]. eapply wp_ok; [done|].
  set (s' := set_trans [] _).
  assert (touched protos g s (r_db s) s' (r_db s')) as T.
  { split; cbn; [lia|done| | | |done|].
    - intros x Hx. by rewrite lookup_insert_ne.
    - exists i'. rewrite lookup_insert_eq, Ee, Es. split_and!; [done..|]. intros (q & c & Hc & Hgc). exfalso.
      destruct (player_insert _ p a b Ha K q c Hc) as (c' & Hc' & _ & [[-> Hqp]|(-> & -> & ->)]); [|done]. by apply Hqp, (Hq q c').
    - intros x Hx. by rewrite lookup_delete_ne.
    - intros q c Hc. destruct (player_insert _ p a b Ha K q c Hc) as (c' & Hc' & K' & _). by exists c'. }
  eapply taking_touched; [exact H|done|exact T| |].
  - eapply (mid_touched g); [apply (tk_mid _ _ _ _ _ _ _ _ _ H)|done|exact T|try done..]. cbn. by eapply cash_shrunk.
  - cbn. rewrite dom_insert_L. set_solver.
Qed.

(** A part of it is sold: the rest is saved. *)
Lemma take_part_ewp p n i0 held lists next L stacks s g v : taking p n i0 held lists next L stacks s -> g ∈ stacks ->
  ewp (upd_item g (fun i => SetState ITEM_CHANGED (item_set_count (v i) i));; BeginTransaction;; SaveToDB g;; CommitTransaction) s
    (fun _ => taking p n i0 held lists next L stacks).
Proof.
  intros H Hin. destruct (tk_stacks _ _ _ _ _ _ _ _ _ H g Hin) as ([i Hi] & Hh & Hne & Hq).
  pose proof (md_goods _ _ _ _ _ (tk_mid _ _ _ _ _ _ _ _ _ H)) as HG. destruct (go_object _ _ _ _ _ HG g i Hi) as (Hs1 & Hs2 & Hs3).
  eapply wp_seq; [by apply (upd_item_ok g _ i)|]. eapply wp_seq; [done|]. set (i1 := SetState _ _). set (s1 := set_trans [] _).
  assert (it_state i1 <> ITEM_REMOVED /\ it_entry i1 = it_entry i) as [Hst He] by (unfold i1, SetState; cbn; destruct (it_state i) eqn:E; cbn; by rewrite ?E).
  assert (forall row, saved row i -> saved row i1) as Hsv.
  { unfold i1, SetState, saved. cbn. intros row. destruct (it_state i) eqn:E; cbn; rewrite ?E; try done. intros (r & -> & _). by exists r. }
  destruct (SaveToDB_run g i1 s1 (r_db s)) as (s2 & d2 & Er & Hp & Hd & Es2); [done|by unfold s1; cbn; rewrite lookup_insert_eq|done|].
  eapply wp_seq; [exact Er|]. eapply wp_ok; [done|]. rewrite (pending_commit _ _ Hp). set (s' := set_trans [] _).
  assert (r_online s' = r_online s /\ r_items s' = <[g := item_set_state ITEM_UNCHANGED i1]> (<[g := i1]> (r_items s))) as [Eo Ei]
    by (unfold s'; cbn; by rewrite Es2).
  assert (touched protos g s (r_db s) s' (r_db s')) as T.
  { split; [unfold s'; cbn; by rewrite Es2|unfold s'; cbn; by rewrite Es2| | |apply (is_others _ _ _ _ Hd)|apply (is_mail_items _ _ _ _ Hd)|].
    - intros x Hx. by rewrite Ei, !lookup_insert_ne.
    - exists (item_set_state ITEM_UNCHANGED i1). rewrite Ei, lookup_insert_eq. cbn [it_state it_entry item_set_state]. rewrite He.
      split_and!; [done..|]. rewrite Eo. intros (q & c & Hc & Hgc). destruct (go_bag _ _ _ _ _ HG q c g Hc Hgc) as ((j & Hj & Hs) & _).
      simplify_eq. apply (is_row _ _ _ _ Hd). by apply Hsv.
    - rewrite Eo. intros q c Hc. exists c. split; [done|apply shrunk_refl]. }
  eapply taking_touched; [exact H|done|exact T| |by rewrite Eo].
  eapply (mid_touched g); [apply (tk_mid _ _ _ _ _ _ _ _ _ H)|done|exact T|..]; try (unfold s'; cbn; by rewrite Es2).
  - done.
  - apply (is_auctions _ _ _ _ Hd).
  - apply (is_mails _ _ _ _ Hd).
Qed.

Lemma take_stacks_ewp p n i0 held lists next L stacks (l : list (Z * Z)) s : taking p n i0 held lists next L stacks s -> l.*1 ⊆ stacks ->
  ewp (forM l (take_stack p)) s (fun _ => taking p n i0 held lists next L stacks).
Proof.
  intros H Hl. apply wp_forM; [done|]. intros [g count] s1 Hg H1.
  assert (g ∈ stacks) as Hin by (apply Hl, list_elem_of_fmap; by exists (g, count)).
  destruct (tk_stacks _ _ _ _ _ _ _ _ _ H1 g Hin) as ([i Hi] & _). unfold take_stack. eapply wp_seq; [by apply deref_item_ok|].
  destruct (_ =? _); [by apply take_whole_ewp|by apply take_part_ewp].
Qed.

(** *** The auction is saved *)

(** The auction [a] and its item are at the manager already. *)
Record announced (p : Z) (h : House) (a : AuctionEntry) (i : Item) (held : gset Z) (lists : House -> gmap Z AuctionEntry) (next : Z)
    (L : Ledger) (s : Realm) : Prop := {
  an_mid : mid held lists next L s;
  an_player : is_Some (r_online s !! p);
  an_item : r_items s !! au_itemGUIDLow a = Some i;
  an_goods : it_entry i = au_itemEntry a /\ it_count i = au_itemCount a;
  an_saved : saved (db_items (r_db s) !! au_itemGUIDLow a) i;
  an_unowned : unowned (au_itemGUIDLow a) s;
  an_mail : db_mail_items (r_db s) !! au_itemGUIDLow a = None;
  an_held : au_itemGUIDLow a ∉ held;
  an_aitems : lg_aitems L = {[au_itemGUIDLow a]} ∪ held;
  an_lists : lg_auctions L = <[h := <[au_Id a := a]> (lists h)]> lists;
  an_rows : lg_rows L !! au_Id a = None /\ forall id r, lg_rows L !! id = Some r -> ar_itemguid r <> au_itemGUIDLow a
}.

Lemma insert_auction d a : db_auctions d !! au_Id a = None -> (forall id r, db_auctions d !! id = Some r -> ar_itemguid r <> au_itemGUIDLow a) ->
  exec_statement (CHAR_INS_AUCTION (au_Id a) (auction_row a)) d = Some (db_set_auctions (<[au_Id a := auction_row a]> (db_auctions d)) d).
Proof.
  intros Hid Hr. cbn [exec_statement]. rewrite bool_decide_false by (rewrite Hid; by intros [? [=]]). cbn [orb].
  destruct (existsb _ _) eqn:E; [|done]. apply existsb_exists in E as ([id r] & Hin & Ei). exfalso.
  apply list_elem_of_In, elem_of_map_to_list in Hin. apply (Hr id r Hin). by apply Z.eqb_eq in Ei.
Qed.

Lemma announce_ewp {A} p h a i held lists next L s (k : unit -> RP A) Q : announced p h a i held lists next L s ->
  (forall s', mid (lg_aitems L) (lg_auctions L) next (set_rows (<[au_Id a := auction_row a]>) L) s' -> r_online s' = r_online s ->
     ewp (k tt) s' Q) ->
  ewp (BeginTransaction;; SaveToDB (au_itemGUIDLow a);; SaveAuctionToDB a;; SaveGoldToDB p;; (CommitTransaction ≫= k)) s Q.
Proof.
  intros [Hm [pl Hpl] Hi [E1 E2] Hs Hu Hmi Hh Eai Eli [Hr1 Hr2]] Hk. set (g := au_itemGUIDLow a) in *.
  destruct (Hm) as [Ht Hf HG HL Hn]. destruct (go_object _ _ _ _ _ HG g i Hi) as (Ho1 & Ho2 & Ho3).
  eapply wp_seq; [done|]. set (s1 := set_trans [] s).
  destruct (SaveToDB_run g i s1 (r_db s)) as (s2 & d2 & Er & Hp & Hd & Es2); [done..|]. eapply wp_seq; [exact Er|].
  rewrite <- HL in Hr1, Hr2. cbn in Hr1, Hr2. rewrite <- (is_auctions _ _ _ _ Hd) in Hr1, Hr2.
  pose proof (pending_append _ _ _ _ Hp (insert_auction d2 a Hr1 Hr2)) as Hp3.
  eapply wp_seq; [done|]. set (s3 := set_trans _ s2) in Hp3 |- *. unfold SaveGoldToDB. apply wp_bind.
  eapply wp_seq; [apply (deref_player_ok p pl); unfold s3; cbn; by rewrite Es2|].
  eapply wp_ok; [done|]. pose proof (pending_append s3 (CHAR_UDP_CHAR_MONEY (pl_money pl) p) _ _ Hp3 eq_refl) as Hp4.
  eapply wp_seq; [done|]. rewrite (pending_commit _ _ Hp4). set (s' := set_trans [] _).
  assert (r_online s' = r_online s /\ r_items s' = <[g := item_set_state ITEM_UNCHANGED i]> (r_items s)) as [Eo Ei]
    by (unfold s', s3; cbn; by rewrite Es2).
  assert (touched protos g s (r_db s) s' (r_db s')) as T.
  { split; [unfold s', s3; cbn; by rewrite Es2|unfold s', s3; cbn; by rewrite Es2| | |apply (is_others _ _ _ _ Hd)|apply (is_mail_items _ _ _ _ Hd)|].
    - intros x Hx. by rewrite Ei, lookup_insert_ne.
    - exists (item_set_state ITEM_UNCHANGED i). rewrite Ei, lookup_insert_eq. split_and!; [done..|]. intros _. by apply (is_row _ _ _ _ Hd).
    - rewrite Eo. intros q c Hc. exists c. split; [done|apply shrunk_refl]. }
  destruct (is_row _ _ _ _ Hd Hs) as (r & Hr & E3 & E4).
  apply Hk; [|done]. split; [done| | |unfold ledger_of, set_rows, mail_totals; cbn; rewrite <- HL|by unfold s', s3; cbn; rewrite Es2].
  - intros id. unfold s', s3. cbn. rewrite (is_mails _ _ _ _ Hd), Es2. apply Hf.
  - rewrite Eai, Eli. eapply goods_listed; [by eapply (goods_touched _ _ _ g)| | |by rewrite Ei, lookup_insert_eq|done|done|exact Hr|congruence|congruence].
    + intros q b. rewrite Eo. apply Hu.
    + by rewrite (to_mail_items _ _ _ _ _ _ T).
  - unfold s', s3. cbn. rewrite (is_mails _ _ _ _ Hd), (is_auctions _ _ _ _ Hd), Es2. by unfold mail_totals.
Qed.

(** *** The auction is announced *)

Definition announce (h : House) (a : AuctionEntry) (s : Realm) : Realm :=
  set_auctions (<[h := <[au_Id a := a]> (r_auctions s h)]> (r_auctions s)) (set_aitems ({[au_itemGUIDLow a]} ∪ r_aitems s) s).
(** The ledger once the auction is announced, before its row is written. *)
Definition announced_ledger (h : House) (a : AuctionEntry) (L : Ledger) : Ledger :=
  set_auction h (au_Id a) a (set_held (fun ai => {[au_itemGUIDLow a]} ∪ ai) L).

Lemma announce_run {A} h a s (k : unit -> RP A) Q : au_itemGUIDLow a ∉ r_aitems s -> ewp (k tt) (announce h a s) Q ->
  ewp (AddAItem (au_itemGUIDLow a);; AddAuction h a ≫= k) s Q.
Proof.
  intros Hg Hk. unfold AddAItem. apply wp_bind, wp_get. rewrite bool_decide_false by done. eapply wp_ok; [done|].
  eapply wp_seq; [done|]. exact Hk.
Qed.
Lemma mid_announce h a held lists next L s : mid held lists next L s -> mid held lists next (announced_ledger h a L) (announce h a s).
Proof.
  intros [Ht Hf HG <- Hn]. split; [done|done| |done|done]. by eapply goods_same.
Qed.
Lemma mid_next held lists next L s : mid held lists next L s -> mid held lists (next + 1) L (set_next_auction (next + 1) s).
Proof. intros [Ht Hf HG <- Hn]. split; [done|done| |done|done]. by eapply goods_same. Qed.

(** An item that is nowhere at the auction house yet. *)
Lemma rows_new next L g : houses_ok next L -> g ∉ lg_aitems L ->
  lg_rows L !! next = None /\ forall id r, lg_rows L !! id = Some r -> ar_itemguid r <> g.
Proof.
  intros H Hg. split.
  - destruct (lg_rows L !! next) as [row|] eqn:E; [|done]. apply (ho_rows _ _ H) in E as (h & a & Ha & _). pose proof (ho_id _ _ H _ _ _ Ha). lia.
  - intros id r (h & a & Ha & <-)%(ho_rows _ _ H). cbn. intros <-. apply Hg. by apply (ho_item _ _ H h id).
Qed.

(** What a sale adds to the ledger, with [units] in the packet. *)
Definition for_sale (s : Realm) (p bid buyout units : Z) (a : AuctionEntry) : Prop :=
  au_Id a = r_next_auction s /\ au_owner a = p /\ au_startbid a = u32 bid /\ au_buyout a = u32 buyout /\ au_bid a = 0 /\
  au_bidder a = 0 /\ u32 (au_itemCount a) = u32 units.

Lemma result_ewp {A} p o action code (k : unit -> RP A) s Q : market_ok s ->
  (forall s2, market_ok s2 -> ledger_of s2 (r_db s2) = ledger_of s (r_db s) -> ewp (k tt) s2 Q) ->
  ewp (SendAuctionCommandResult p o action code 0 ≫= k) s Q.
Proof.
  intros H Hk. eapply CommandResult_now; [by apply (market_start protos)|]. intros s2 H2 Ht2 Hd2. apply Hk.
  - eapply market_same; [exact H|exact H2|by rewrite Ht2; apply (mk_trans _ _ H)|done].
  - rewrite Hd2. apply (nw_ledger _ _ _ _ _ _ H2).
Qed.

Section Branches.
Context (s : Realm) (p : Z) (pl : Player) (h : House) (npc bid buyout time deposit : Z) (entry : AuctionHouseEntry).
Context (H : market_ok s) (Hpl : r_online s !! p = Some pl) (Hdep : 0 <= deposit < 2 ^ 32).
Local Abbreviation mk := (fun id g i => new_auction npc id g p bid buyout time deposit i entry).
Local Abbreviation L := (ledger_of s (r_db s)).

Lemma new_entry_ok id g i : entry_ok (mk id g i).
Proof.
  destruct (go_player _ _ _ _ _ (mk_goods _ _ H) p pl Hpl) as [Hp _].
  pose proof (uint_range 32 buyout ltac:(lia)). split; cbn; try lia; try apply uint_range; lia.
Qed.
Lemma sold_market_ok id g i s2 : id = r_next_auction s -> g ∉ r_aitems s ->
  mid ({[g]} ∪ r_aitems s) (lg_auctions (announced_ledger h (mk id g i) L)) (id + 1) (put_up h (mk id g i) L) s2 -> market_ok s2.
Proof.
  intros -> Hg Hm. eapply mid_market; [exact Hm|done|done|]. apply houses_put_up; [by apply (mk_houses _ _ H)|done|done|apply new_entry_ok].
Qed.

(** A bag item that the manager does not hold. *)
Definition sellable (g : Z) : Prop := g ∈ bag_items pl /\ g ∉ r_aitems s.

Lemma sell_moved_ewp g i : sellable g -> r_items s !! g = Some i ->
  ewp (sell_moved p h g mk) s (fun _ s2 => market_ok s2 /\ ledger_of s2 (r_db s2) = put_up h (mk (r_next_auction s) g i) L).
Proof.
  intros [Hb Hg] Hi. pose proof (mk_goods _ _ H) as HG. destruct (go_object _ _ _ _ _ HG g i Hi) as (Ho1 & Ho2 & Ho3).
  destruct (go_bag _ _ _ _ _ HG p pl g Hpl Hb) as ((i0 & Hi0 & Hs) & Hm & Hq). rewrite Hi in Hi0. injection Hi0 as <-.
  unfold sell_moved. apply wp_bind, GenerateAuctionID_ewp. set (s1 := set_next_auction _ s).
  eapply wp_seq; [by apply (deref_item_ok g i)|]. cbv zeta. set (a := mk (r_next_auction s) g i).
  change g with (au_itemGUIDLow a) at 1. apply announce_run; [done|].
  pose proof (mid_announce h a _ _ _ _ _ (mid_next _ _ _ _ _ (mid_start s H))) as H2.
  destruct (MoveItem_run p g pl i (announce h a s1) Hpl Hi) as (b & i' & Er & K & Hgb & Ee & Ec & Es).
  eapply wp_seq; [exact Er|]. set (s3 := set_items _ _).
  assert (touched protos g (announce h a s1) (r_db s) s3 (r_db s3)) as T.
  { split; cbn; [lia|done| | |done|done|].
    - intros x Hx. by rewrite lookup_insert_ne.
    - exists i'. rewrite lookup_insert_eq, Ee, Es. split_and!; [done..|]. intros (q & c & Hc & Hgc). exfalso.
      destruct (player_insert _ p pl b Hpl K q c Hc) as (c' & Hc' & _ & [[-> Hqp]|(-> & -> & ->)]); [|done]. destruct (Hq q c' Hc'). tauto.
    - intros q c Hc. destruct (player_insert _ p pl b Hpl K q c Hc) as (c' & Hc' & K' & _). by exists c'. }
  change g with (au_itemGUIDLow a). eapply (announce_ewp p h a i' (r_aitems s) (r_auctions s) (r_next_auction s + 1) (announced_ledger h a L)).
  - split; [|by exists b; cbn; rewrite lookup_insert_eq|cbn; by rewrite lookup_insert_eq|done| | |done|done|done|done|].
    + eapply (mid_touched g); [exact H2|done|exact T|exact (mk_trans _ _ H)|try done..]. cbn. by eapply cash_shrunk.
    + cbn. unfold saved in *. by rewrite Es, Ee, Ec.
    + intros q c Hc. cbn in Hc. destruct (player_insert _ p pl b Hpl K q c Hc) as (c' & Hc' & K' & Hd). rewrite (sk_mitems _ _ K').
      destruct (Hq q c' Hc') as [H3 H4]. split; [|done]. destruct Hd as [[-> Hqp]|(-> & -> & ->)]; [tauto|done].
    + apply (rows_new (r_next_auction s) L g); [apply (mk_houses _ _ H)|done].
  - intros s4 H4 Eo4. apply wp_end.
    assert (market_ok s4) as Hok by (by eapply (sold_market_ok (r_next_auction s) g i)).
    eapply result_ewp; [exact Hok|]. intros s5 H5 E5. split; [done|]. rewrite E5. apply (md_ledger _ _ _ _ _ H4).
Qed.

(** *** A clone *)

Lemma CreateItem_run entry' count t s1 : ew_proto w entry' = Some t -> 0 < count <= GetMaxStackSize t -> r_next_item s1 < 4294967294 ->
  CreateItem w entry' count p s1 = (Ok (Some (r_next_item s1)),
    set_items (<[r_next_item s1 := mkItem entry' count p 0 (ip_Duration t) 0 ITEM_NEW]> (r_items s1)) (set_next_item (r_next_item s1 + 1) s1)).
Proof.
  intros Ht Hc Hn. unfold CreateItem. rewrite (proj2 (Z.ltb_ge count 1)) by lia. rewrite Ht, (proj2 (Z.ltb_ge _ _)) by lia.
  rewrite (proj2 (Z.eqb_neq count 0)) by lia. unfold GenerateItemGuid.
  by rewrite (bind_ok _ _ s1 (r_next_item s1) (set_next_item (r_next_item s1 + 1) s1)) by
    (rewrite (bind_ok get _ s1 s1 s1 eq_refl), (proj2 (Z.leb_gt _ _)) by lia; done).
Qed.

(** The clone is there and nobody has it. *)
Lemma clone_ewp {A} g i t count (k : option Z -> RP A) Q : r_items s !! g = Some i -> ew_proto w (it_entry i) = Some t ->
  0 < count <= GetMaxStackSize t ->
  (forall s1 j, let n := r_next_item s in
     mid (r_aitems s) (r_auctions s) (r_next_auction s) L s1 -> r_online s1 = r_online s -> r_aitems s1 = r_aitems s ->
     r_next_auction s1 = r_next_auction s -> r_db s1 = r_db s -> (forall x, x <> n -> r_items s1 !! x = r_items s !! x) ->
     r_items s1 !! n = Some j -> it_state j = ITEM_NEW -> it_count j = count -> ewp (k (Some n)) s1 Q) ->
  ewp (CloneItem w g count p ≫= k) s Q.
Proof.
  intros Hi Ht Hc Hk. unfold CloneItem. apply wp_bind. eapply wp_seq; [by apply deref_item_ok|].
  destruct (Z.le_gt_cases 4294967294 (r_next_item s)) as [Hge|Hlt].
  { unfold CreateItem. rewrite (proj2 (Z.ltb_ge count 1)), Ht, (proj2 (Z.ltb_ge _ _)), (proj2 (Z.eqb_neq count 0)) by lia.
    unfold GenerateItemGuid. apply wp_bind, wp_bind, wp_get. rewrite (proj2 (Z.leb_le _ _)) by lia. apply wp_throw. unfold limits. auto. }
  eapply wp_seq; [by apply (CreateItem_run _ _ t)|]. eapply wp_seq; [apply upd_item_ok; cbn; by rewrite lookup_insert_eq|].
  apply wp_ret. eapply Hk; try done; cbn; [|intros x Hx; by rewrite !lookup_insert_ne|by rewrite lookup_insert_eq|done|done].
  pose proof (mk_goods _ _ H) as HG. set (n := r_next_item s) in *.
  eapply (mid_touched n); [apply mid_start, H| | |exact (mk_trans _ _ H)|done..].
  - intros Hin. destruct (go_held _ _ _ _ _ HG n Hin) as ([j Hj] & _). destruct (go_object _ _ _ _ _ HG n j Hj) as (_ & _ & Hlt'). unfold n in Hlt'. lia.
  - split; cbn; [lia|lia| | |done|done|intros q c Hc'; exists c; split; [done|apply shrunk_refl]].
    + intros x Hx. by rewrite !lookup_insert_ne.
    + eexists. rewrite lookup_insert_eq. cbn. split_and!; [done|done|by exists t|]. by intros _.
Qed.

Lemma next_unowned : unowned (r_next_item s) s.
Proof.
  pose proof (mk_goods _ _ H) as HG. assert (~ is_Some (r_items s !! r_next_item s)) as Hn.
  { intros [j Hj]. destruct (go_object _ _ _ _ _ HG _ j Hj) as (_ & _ & Hlt). lia. }
  intros q c Hc. split; intros Hin; apply Hn.
  - destruct (go_bag _ _ _ _ _ HG q c _ Hc Hin) as ((j & Hj & _) & _). by exists j.
  - by destruct (go_mitems _ _ _ _ _ HG q c _ Hc Hin).
Qed.
Lemma next_not_held : r_next_item s ∉ r_aitems s.
Proof.
  pose proof (mk_goods _ _ H) as HG. intros Hin. destruct (go_held _ _ _ _ _ HG _ Hin) as ([j Hj] & _).
  destruct (go_object _ _ _ _ _ HG _ j Hj) as (_ & _ & Hlt). lia.
Qed.
Lemma sellable_stack g s1 : sellable g -> r_online s1 = r_online s -> (forall x, x <> r_next_item s -> r_items s1 !! x = r_items s !! x) ->
  stack_of p (r_next_item s) (r_aitems s) g s1.
Proof.
  intros [Hb Hg] Eo Ei. pose proof (mk_goods _ _ H) as HG. destruct (go_bag _ _ _ _ _ HG p pl g Hpl Hb) as ((j & Hj & _) & _ & Hq).
  assert (g <> r_next_item s) as Hne. { intros ->. destruct (go_object _ _ _ _ _ HG _ j Hj) as (_ & _ & Hlt). lia. }
  split_and!; [rewrite Ei by done; by exists j|done|done|]. rewrite Eo. intros q c Hc. by destruct (Hq q c Hc).
Qed.

Lemma sell_clone_ewp g i t count (stacks : list (Z * Z)) : r_items s !! g = Some i -> ew_proto w (it_entry i) = Some t ->
  0 < count <= GetMaxStackSize t -> (forall x, x ∈ stacks.*1 -> sellable x) ->
  ewp (sell_clone w p h g count stacks mk) s (fun b s2 => b = true /\ market_ok s2 /\
    exists j, it_count j = count /\ ledger_of s2 (r_db s2) = put_up h (mk (r_next_auction s) (r_next_item s) j) L).
Proof.
  intros Hi Ht Hc Hst. unfold sell_clone. eapply clone_ewp; [done..|]. cbv zeta. set (n := r_next_item s).
  intros s1 j M1 Eo1 Ea1 En1 Ed1 Ei1 Hj Hnew Hcj.
  apply wp_bind, GenerateAuctionID_ewp. rewrite En1. set (s2 := set_next_auction _ s1).
  eapply wp_seq; [by apply (deref_item_ok n j)|]. cbv zeta. set (a := mk (r_next_auction s) n j).
  change n with (au_itemGUIDLow a) at 1. apply announce_run; [cbn; rewrite Ea1; apply next_not_held|]. set (s3 := announce h a s2).
  pose proof (mid_announce h a _ _ _ _ _ (mid_next _ _ _ _ _ M1)) as M3. fold s2 s3 in M3.
  assert (taking p n j (r_aitems s) (r_auctions s) (r_next_auction s + 1) (announced_ledger h a L) stacks.*1 s3) as K3.
  { split; [exact M3|cbn; rewrite Eo1; by exists pl|done|cbn; intros q c; cbn; rewrite Eo1; apply next_unowned| |].
    - cbn. rewrite Ed1. destruct (db_mail_items (r_db s) !! n) eqn:E; [|done]. pose proof (go_mailed _ _ _ _ _ (mk_goods _ _ H) n (mk_is_Some _ _ E)). unfold n in *. lia.
    - intros x Hx. by apply sellable_stack; [apply Hst|cbn|cbn]. }
  apply wp_bind. eapply wp_mono; [by eapply take_stacks_ewp|]. intros [] s4 [M4 Hp4 Hj4 Hu4 Hm4 _].
  eapply (announce_ewp p h a j (r_aitems s) (r_auctions s) (r_next_auction s + 1) (announced_ledger h a L)).
  - split; try done; [cbn; unfold saved; by rewrite Hnew|apply next_not_held|].
    apply (rows_new (r_next_auction s) L n); [apply (mk_houses _ _ H)|apply next_not_held].
  - intros s5 M5 _. assert (market_ok s5) as Hok by (eapply (sold_market_ok (r_next_auction s) n j); [done|apply next_not_held|exact M5]).
    eapply result_ewp; [exact Hok|]. intros s6 H6 E6. apply wp_ret. split_and!; [done..|]. exists j. split; [done|].
    rewrite E6. apply (md_ledger _ _ _ _ _ M5).
Qed.
End Branches.

(** ** The checks *)

Definition units (l : list (Z * Z)) : Z := foldr Z.add 0 l.*2.

Lemma check_items_ewp s p pl l : market_ok s -> r_online s !! p = Some pl ->
  ewp (check_items w p l) s (fun r s2 => s2 = s /\ match r with
    | inl (items, final) => Forall (sellable s pl) items /\ length items = length l /\ 0 <= final < 2 ^ 32 /\ final = u32 (units l)
    | inr _ => True
    end).
Proof.
  intros H Hpl. pose proof (mk_goods _ _ H) as HG. induction l as [|[guid count] l IH]; [done|]. cbn [check_items].
  eapply wp_seq; [by apply deref_player_ok|]. destruct (GetItemByGuid pl guid) as [g|] eqn:Eg; [|done].
  assert (g ∈ bag_items pl) as Hb.
  { unfold GetItemByGuid in Eg. destruct (filter _ _) as [|x l'] eqn:E; [done|]. cbn in Eg. simplify_eq.
    assert (g ∈ filter (fun g => item_guid g = guid) (in_order (pl_bags pl)).*2) as Hin by (rewrite E; by left).
    by apply list_elem_of_filter in Hin as [_ Hin]. }
  destruct (go_bag _ _ _ _ _ HG p pl g Hpl Hb) as ((i & Hi & _) & _). destruct (go_object _ _ _ _ _ HG g i Hi) as (_ & [t Ht] & _).
  apply wp_get. eapply wp_seq; [by apply deref_item_ok|].
  unfold GetTemplate. apply wp_bind. eapply wp_seq; [by apply deref_item_ok|]. rewrite Ht. apply wp_ret.
  case_bool_decide as Hg; cbn [orb]; [done|]. destruct (_ || _); [done|].
  apply wp_bind. eapply wp_mono; [exact IH|]. intros [[items final]|e] s2 [-> Hr]; [|done]. destruct Hr as (Hf & Hl & Hr & ->).
  apply wp_ret. split; [done|]. split; [by constructor|]. split; [by cbn; rewrite Hl|]. split; [apply uint_range; lia|].
  unfold units. cbn. unfold uint. by rewrite Zplus_mod_idemp_r.
Qed.
Lemma stacks_fit_ewp s items final : market_ok s -> (forall g, g ∈ items -> is_Some (r_items s !! g)) ->
  ewp (stacks_fit w items final) s (fun b s2 => s2 = s /\ (b = true -> forall g i t, g ∈ items -> r_items s !! g = Some i ->
    ew_proto w (it_entry i) = Some t -> final <= GetMaxStackSize t)).
Proof.
  intros H. pose proof (mk_goods _ _ H) as HG. induction items as [|g items IH]; intros Hit; cbn [stacks_fit].
  { apply wp_ret. split; [done|]. intros _ g i t Hin. by apply elem_of_nil in Hin. }
  destruct (Hit g ltac:(by left)) as [i Hi]. destruct (go_object _ _ _ _ _ HG g i Hi) as (_ & [t Ht] & _).
  unfold GetTemplate. apply wp_bind, wp_bind. eapply wp_ok; [by apply deref_item_ok|]. rewrite Ht. apply wp_ret.
  destruct (Z.ltb_spec (GetMaxStackSize t) final); [done|]. eapply wp_mono; [apply IH; intros x Hx; apply Hit; by right|].
  intros b s2 [-> Hb]. split; [done|]. intros E x j t' [->|Hin]%elem_of_cons Hj Ht'; [by simplify_eq|]. by eapply Hb.
Qed.

(** ** The handler *)

Lemma uint32_of_float_range x v : uint32_of_float x = Some v -> 0 <= v < 2 ^ 32.
Proof. unfold uint32_of_float. destruct x; try done; intros; repeat case_match; simplify_eq; bool_lia; lia. Qed.
Lemma GetAuctionDeposit_range entry time t count v : GetAuctionDeposit w entry time t count = Some v -> 0 <= v < 2 ^ 32.
Proof.
  unfold GetAuctionDeposit. destruct (_ <=? 0); [intros [= <-]; unfold AH_MINIMUM_DEPOSIT; lia|]. cbv zeta.
  destruct (uint32_of_float _) as [x|] eqn:E; [|done]. intros [= <-]. apply uint32_of_float_range in E.
  destruct (Z.ltb_spec x AH_MINIMUM_DEPOSIT); unfold AH_MINIMUM_DEPOSIT in *; lia.
Qed.

Lemma ModifyMoney_outside p pl amount s : r_online s !! p = Some pl ->
  ewp (ModifyMoney p amount) s (fun _ s2 => r_trans s2 = r_trans s /\ r_db s2 = r_db s).
Proof.
  intros Hp. unfold ModifyMoney. eapply wp_seq; [by apply deref_player_ok|]. destruct (amount =? 0); [done|].
  destruct (amount <? 0); [|destruct (_ <? _); [|done]]; (eapply wp_seq; [by apply (upd_player_ok p _ pl)|]); done.
Qed.
(** The deposit is paid at the end. *)
Lemma deposit_ewp s p m amount : market_ok s -> lg_cash (ledger_of s (r_db s)) !! p = Some m ->
  ewp (ModifyMoney p amount) s (fun _ s2 => market_ok s2 /\ ledger_of s2 (r_db s2) = set_cash p (modified m amount) (ledger_of s (r_db s))).
Proof.
  intros H Hm. assert (exists pl, r_online s !! p = Some pl /\ m = pl_money pl) as (pl & Hpl & ->).
  { cbn in Hm. rewrite lookup_fmap in Hm. apply fmap_Some in Hm as (pl & ? & ->). by exists pl. }
  eapply wp_mono; [apply wp_and; [by eapply (ModifyMoney_now None s); [by apply (market_start protos)|]|by eapply ModifyMoney_outside]|].
  intros b s2 [H2 [Ht Hd]]. cbn beta in *.
  split; [|rewrite Hd; apply (nw_ledger _ _ _ _ _ _ H2)].
  eapply (market_after protos None s); [exact H|rewrite Hd; exact H2|by rewrite Ht; apply (mk_trans _ _ H)|..].
  - by eapply houses_ext; [apply (mk_houses _ _ H)|..].
  - intros h id a' Ha'. by exists a'.
  - done.
  - done.
  - apply cash_ok_set; [by eapply cash_ok_of|]. apply modified_range. by apply (go_player _ _ _ _ _ (mk_goods _ _ H) p pl).
Qed.

Definition sold_outcome (s : Realm) (p m bid buyout n : Z) (L : Ledger) : Prop :=
  L = ledger_of s (r_db s) \/
  exists h a, for_sale s p bid buyout n a /\ 0 <= au_deposit a <= m /\ (au_itemGUIDLow a ∉ r_aitems s) /\
    L = set_cash p (modified m (- s32 (au_deposit a))) (put_up h a (ledger_of s (r_db s))).
Definition sell_post (s : Realm) (p m bid buyout n : Z) (s2 : Realm) : Prop :=
  market_ok s2 /\ sold_outcome s p m bid buyout n (ledger_of s2 (r_db s2)).

Lemma sell_error_ewp s p m bid buyout n code : market_ok s -> ewp (sell_error p code) s (fun _ => sell_post s p m bid buyout n).
Proof.
  intros H. apply wp_end. unfold sell_error. eapply result_ewp; [exact H|]. intros s2 H2 E2. split; [done|]. by left.
Qed.

Lemma sell_items_ewp s p pl npc faction entry items final bid buyout etime (l : list (Z * Z)) : market_ok s -> r_online s !! p = Some pl ->
  Forall (sellable s pl) items -> length items = length l -> final <> 0 -> 0 <= final < 2 ^ 32 -> final = u32 (units l) ->
  (forall g i t, g ∈ items -> r_items s !! g = Some i -> ew_proto w (it_entry i) = Some t -> final <= GetMaxStackSize t) ->
  ewp (sell_items w p npc faction entry items l.*2 final bid buyout etime) s (fun _ => sell_post s p (pl_money pl) bid buyout (units l)).
Proof.
  intros H Hpl Hf Hlen Hne Hr Hfin Hfit. pose proof (mk_goods _ _ H) as HG. unfold sell_items.
  destruct items as [|g items]; [split; [done|by left]|]. inversion_clear Hf as [|? ? Hg Hgs].
  destruct (go_bag _ _ _ _ _ HG p pl g Hpl (proj1 Hg)) as ((i & Hi & _) & _). destruct (go_object _ _ _ _ _ HG g i Hi) as (_ & [t Ht] & _).
  pose proof (Hfit g i t ltac:(by left) Hi Ht) as Hmax.
  unfold GetTemplate. apply wp_bind, wp_bind. eapply wp_ok; [by apply deref_item_ok|]. rewrite Ht. apply wp_ret.
  apply wp_bind, of_float_ewp. intros auctionTime _. apply wp_bind, of_float_ewp. intros deposit Hdep%GetAuctionDeposit_range.
  eapply wp_seq; [by apply deref_player_ok|]. unfold HasEnoughMoney. destruct (Z.leb_spec deposit (pl_money pl)) as [Hle|_]; cbn [negb];
    [|by apply sell_error_ewp].
  cbv zeta. eapply wp_seq; [by apply (deref_item_ok g i)|]. set (h := GetAuctionsMap w faction). set (npc' := if ew_two_side w then _ else _).
  apply wp_bind. eapply wp_mono with (Q := fun b s2 => b = true /\ market_ok s2 /\ exists a, for_sale s p bid buyout (units l) a /\
    au_deposit a = deposit /\ (au_itemGUIDLow a ∉ r_aitems s) /\ ledger_of s2 (r_db s2) = put_up h a (ledger_of s (r_db s))).
  - destruct ((length (g :: items) =? 1)%nat && bool_decide (head l.*2 = Some (it_count i))) eqn:Eone.
    + apply andb_prop in Eone as [El%Nat.eqb_eq Eh%bool_decide_eq_true]. apply wp_bind.
      eapply wp_mono; [by eapply (sell_moved_ewp s p pl h npc' bid buyout _ deposit entry H Hpl Hdep g i)|].
      intros [] s2 [H2 E2]. apply wp_ret. split_and!; [done..|]. eexists. split; [|split; [|split; [|exact E2]]]; [|done|apply Hg].
      unfold for_sale. cbn. split_and!; try done. destruct l as [|[x c] [|? l]]; cbn in *; try lia. simplify_eq. unfold units. cbn. f_equal. lia.
    + eapply wp_mono; [eapply (sell_clone_ewp s p pl h npc' bid buyout _ deposit entry H Hpl Hdep g i t final); [done..|lia|]|].
      * intros x Hx. apply list_elem_of_fmap in Hx as ([y c] & -> & Hin). apply elem_of_zip_l in Hin. cbn.
        eapply Forall_forall; [|exact Hin]. by constructor.
      * intros b s2 (-> & H2 & j & Hc & E2). split_and!; [done..|]. eexists.
        split; [|split; [|split; [|exact E2]]]; [|done|by apply next_not_held].
        unfold for_sale. cbn. split_and!; try done. by rewrite Hc, Hfin, u32_u32.
  - intros b s2 (-> & H2 & a & Ha & <- & Hn & E2). apply wp_bind, neg32_ewp.
    assert (lg_cash (ledger_of s2 (r_db s2)) !! p = Some (pl_money pl)) as Hm by (rewrite E2; cbn; by rewrite lookup_fmap, Hpl).
    apply wp_bind. eapply wp_mono; [by eapply deposit_ewp|]. intros b s3 [H3 E3]. apply wp_ret. split; [done|]. right.
    exists h, a. split_and!; [done|lia|done|done|]. by rewrite E3, E2.
Qed.

Lemma SellItem_ewp s p npc l bid buyout etime pl : market_ok s -> r_online s !! p = Some pl ->
  ewp (HandleAuctionSellItem w p npc l bid buyout etime) s (fun _ => sell_post s p (pl_money pl) bid buyout (units l)).
Proof.
  intros H Hpl. assert (sell_post s p (pl_money pl) bid buyout (units l) s) as Hsame by (split; [done|by left]). unfold HandleAuctionSellItem.
  destruct (_ <? _); [by apply sell_error_ewp|]. destruct (existsb _ _); [done|]. destruct (_ || _); [done|].
  destruct (_ || _); [by apply sell_error_ewp|]. destruct (ew_auctioneer w p npc) as [faction|]; [|done].
  destruct (GetAuctionHouseEntry w faction) as [entry|]; [|done]. cbv zeta. destruct (negb _); [done|].
  apply wp_bind. eapply wp_mono; [by apply check_items_ewp|]. intros [[items final]|e] s2 [-> Hr]; [|by apply sell_error_ewp].
  destruct Hr as (Hf & Hlen & Hr & Hfin). destruct (Z.eqb_spec final 0) as [_|Hne]; [by apply sell_error_ewp|].
  apply wp_bind. eapply wp_mono.
  - apply (stacks_fit_ewp s); [done|]. intros g Hg. rewrite Forall_forall in Hf. destruct (Hf g Hg) as [Hb _].
    destruct (go_bag _ _ _ _ _ (mk_goods _ _ H) p pl g Hpl Hb) as ((i & Hi & _) & _). by exists i.
  - intros b s2 [-> Hfit]. destruct b; [|by apply sell_error_ewp]. eapply sell_items_ewp; try done. by apply Hfit.
Qed.
End Sell.
