(* ===== verification/AuctionLists.v ===== *)
(** * The auction house: its lists (model in Auction.v)

    A list is what is at the house, without leaving anything out, in the order of
    the ids; a search is the page of it that was asked for. *)

From S2P Require Import Prelude.
From S2P Require Import Floats.
From S2P Require Import Economy.
From S2P Require Import EconomyProofs.
From S2P Require Import Auction.
From S2P Require Import AuctionLedger.
From S2P Require Import AuctionProofs.
From S2P Require Import AuctionCommands.
From stdpp Require Import list sorting.
Local Open Scope Z_scope.
#[local] Set Warnings "-clear-no-such-hyp".

(** The auctions of a house in the order of their ids. *)
Definition catalogue (s : Realm) (h : House) : list AuctionEntry := (in_order (r_auctions s h)).*2.

Lemma elem_of_catalogue s h a : a ∈ catalogue s h <-> exists id, r_auctions s h !! id = Some a.
Proof.
  unfold catalogue. rewrite list_elem_of_fmap. split.
  - intros ([id b] & -> & H%in_order_spec). by exists id.
  - intros [id H]. exists (id, a). split; [done|]. by apply in_order_spec.
Qed.

Section Lists.
Context (w : EconomyWorld) (s : Realm).
Abbreviation protos := (ew_proto w).
Context (H : market_ok protos s).

(** What the client is told of an auction, whose item is [i]. *)
Definition info_of (a : AuctionEntry) (i : Item) : list Z :=
  let g := au_itemGUIDLow a in
  le_bytes 4 (au_Id a) ++ le_bytes 4 (it_entry i) ++
  flat_map (fun e => le_bytes 4 e.1.1 ++ le_bytes 4 e.1.2 ++ le_bytes 4 e.2) (firstn 10 (ew_enchantments w g)) ++
  le_bytes 4 (u32 (it_property i)) ++ le_bytes 4 (ew_suffix_factor w g) ++ le_bytes 4 (it_count i) ++
  le_bytes 4 (ew_spell_charges w g) ++ le_bytes 4 0 ++ le_bytes 8 (au_owner a) ++ le_bytes 8 (au_startbid a) ++
  le_bytes 8 (if au_bid a =? 0 then 0 else outbid_of a) ++ le_bytes 8 (au_buyout a) ++
  le_bytes 4 (u32 ((au_expire_time a - ew_time w) * 1000)) ++ le_bytes 8 (au_bidder a) ++ le_bytes 8 (au_bid a).
Definition info (a : AuctionEntry) : list Z := from_option (info_of a) [] (r_items s !! au_itemGUIDLow a).

Lemma catalogue_item h a : a ∈ catalogue s h -> au_itemGUIDLow a ∈ r_aitems s /\ exists i t,
  r_items s !! au_itemGUIDLow a = Some i /\ ew_proto w (it_entry i) = Some t.
Proof.
  intros [id Ha]%elem_of_catalogue. destruct (go_listed _ _ _ _ _ (mk_goods _ _ H) h id a Ha) as (Hin & i & r & Hi & _).
  split; [done|]. destruct (go_object _ _ _ _ _ (mk_goods _ _ H) _ i Hi) as (_ & [t Ht] & _). by exists i, t.
Qed.

Lemma BuildAuctionInfo_ewp h a : a ∈ catalogue s h -> ewp (BuildAuctionInfo w a) s (fun o s2 => s2 = s /\ o = Some (info a)).
Proof.
  intros Ha. destruct (catalogue_item h a Ha) as (Hin & i & t & Hi & _). unfold BuildAuctionInfo. apply wp_get.
  rewrite bool_decide_true by done. eapply wp_seq; [by apply deref_item_ok|]. apply wp_bind.
  eapply wp_mono with (Q := fun v s2 => s2 = s /\ v = if au_bid a =? 0 then 0 else outbid_of a).
  - unfold outbid_or_0. destruct (_ =? 0); [done|]. apply of_float_ewp. intros v Hv. split; [done|]. unfold outbid_of. by rewrite Hv.
  - intros v s2 [-> ->]. unfold wp, mret, prog_ret. split; [done|]. f_equal. unfold info. by rewrite Hi.
Qed.

Lemma wp_foldM {A B} (f : A -> B -> RP B) (g : B -> A -> B) l b :
  (forall a b, a ∈ l -> ewp (f a b) s (fun b' s2 => s2 = s /\ b' = g b a)) ->
  ewp (foldM f l b) s (fun b' s2 => s2 = s /\ b' = fold_left g l b).
Proof.
  revert b. induction l as [|a l IH]; intros b Hf; [done|]. cbn [foldM fold_left]. apply wp_bind.
  eapply wp_mono; [apply Hf; by left|]. intros b' s2 [-> ->]. apply IH. intros a' b' Ha'. apply Hf. by right.
Qed.

(** ** All of some auctions *)

(** A listing of [l] with nothing left out. *)
Definition all_of (l : list AuctionEntry) : Listing := (flat_map info l, len l, len l).
Definition list_next (acc : Listing) (a : AuctionEntry) : Listing :=
  let '(data, count, total) := acc in (data ++ info a, u32 (count + 1), u32 (total + 1)).

Lemma list_all l1 l2 : len (l1 ++ l2) < 2 ^ 32 -> fold_left list_next l2 (all_of l1) = all_of (l1 ++ l2).
Proof.
  revert l1. induction l2 as [|a l2 IH]; intros l1 Hlen; [by rewrite app_nil_r|]. cbn [fold_left].
  replace (list_next (all_of l1) a) with (all_of (l1 ++ [a])).
  - rewrite IH; rewrite <- app_assoc; done.
  - unfold all_of, list_next. rewrite flat_map_app. cbn [flat_map]. rewrite app_nil_r, length_app. cbn [length].
    rewrite !length_app in Hlen. cbn [length] in Hlen. rewrite !uint_small by lia. f_equal; [f_equal|]; lia.
Qed.

(** With no more auctions than the numbers can count, none is left out. *)
Lemma list_all_packet l last : len l < 2 ^ 32 ->
  list_packet (fold_left list_next l ([], 0, 0)) last = le_bytes 4 (len l) ++ flat_map info l ++ le_bytes 4 (len l) ++ le_bytes 4 last.
Proof. intros Hl. change ([], 0, 0) with (all_of []). by rewrite list_all. Qed.

Lemma list_auction_ewp h a acc : a ∈ catalogue s h -> ewp (list_auction w a acc) s (fun acc' s2 => s2 = s /\ acc' = list_next acc a).
Proof.
  intros Ha. unfold list_auction. destruct acc as [[data count] total]. apply wp_bind. eapply wp_mono; [by eapply BuildAuctionInfo_ewp|].
  by intros o s2 [-> ->].
Qed.
Lemma list_filtered_ewp h (P : AuctionEntry -> Prop) `{!forall a, Decision (P a)} acc :
  ewp (foldM (list_auction w) (filter P (catalogue s h)) acc) s (fun acc' s2 => s2 = s /\ acc' = fold_left list_next (filter P (catalogue s h)) acc).
Proof. apply wp_foldM. intros a b [_ Ha]%list_elem_of_filter. by eapply list_auction_ewp. Qed.

Lemma ListOwnerItems_ewp p npc faction : ew_auctioneer w p npc = Some faction ->
  let l := filter (fun a => au_owner a = p) (catalogue s (GetAuctionsMap w faction)) in
  ewp (HandleAuctionListOwnerItems w p npc) s (fun _ s2 =>
    s2 = send_packet p (SMSG_AUCTION_OWNER_LIST_RESULT (list_packet (fold_left list_next l ([], 0, 0)) 0)) s).
Proof.
  intros Hf l. unfold HandleAuctionListOwnerItems. rewrite Hf. unfold BuildListOwnerItems. apply wp_bind, wp_get.
  eapply wp_mono; [apply list_filtered_ewp|]. by intros acc s2 [-> ->].
Qed.

(** The auctions the client says it was outbid on come first. *)
Definition outbid_auctions (h : House) (ids : list Z) : list AuctionEntry := omap (fun id => r_auctions s h !! id) ids.
Lemma outbidded_ewp h ids acc : ewp (foldM (outbidded w h) ids acc) s
  (fun acc' s2 => s2 = s /\ acc' = fold_left list_next (outbid_auctions h ids) acc).
Proof.
  revert acc. induction ids as [|id ids IH]; intros acc; [done|]. cbn [foldM]. unfold outbid_auctions. cbn [omap list_omap]. apply wp_bind.
  unfold outbidded. apply wp_get. unfold GetAuction. destruct (r_auctions s h !! id) as [a|] eqn:Ea; [|apply IH].
  destruct acc as [[data count] total]. apply wp_bind. eapply wp_mono; [eapply (BuildAuctionInfo_ewp h a), elem_of_catalogue; by exists id|].
  intros o s2 [-> ->]. apply IH.
Qed.
Lemma ListBidderItems_ewp p npc faction ids : ew_auctioneer w p npc = Some faction ->
  let h := GetAuctionsMap w faction in
  let l := outbid_auctions h ids ++ filter (fun a => au_bidder a = p) (catalogue s h) in
  ewp (HandleAuctionListBidderItems w p npc ids) s (fun _ s2 =>
    s2 = send_packet p (SMSG_AUCTION_BIDDER_LIST_RESULT (list_packet (fold_left list_next l ([], 0, 0)) 300)) s).
Proof.
  intros Hf h l. unfold HandleAuctionListBidderItems. rewrite Hf. cbv zeta. apply wp_bind.
  eapply wp_mono; [apply outbidded_ewp|]. intros acc s2 [-> ->]. unfold BuildListBidderItems. apply wp_bind, wp_get.
  eapply wp_mono; [apply list_filtered_ewp|]. intros acc s2 [-> ->]. by rewrite <- fold_left_app.
Qed.

(** ** Searches *)

Definition matches (p : Z) (q : AuctionSearch) (a : AuctionEntry) : Prop :=
  match r_items s !! au_itemGUIDLow a with
  | Some i => match ew_proto w (it_entry i) with Some t => search_matches w p q (au_itemGUIDLow a) t = true | None => False end
  | None => False
  end.
#[export] Instance matches_dec p q a : Decision (matches p q a).
Proof. unfold matches. destruct (r_items s !! _) as [i|]; [destruct (ew_proto w (it_entry i))|]; apply _. Defined.

(** The page of [l] that begins with entry [from]. *)
Definition page (from : Z) (l : list AuctionEntry) : list AuctionEntry := take 50 (drop (Z.to_nat from) l).
Definition page_of (from : Z) (l : list AuctionEntry) : Listing := (flat_map info (page from l), len (page from l), len l).
Definition search_next (from : Z) (acc : Listing) (a : AuctionEntry) : Listing :=
  let '(data, count, total) := acc in
  if (count <? 50) && (from <=? total) then (data ++ info a, u32 (count + 1), u32 (total + 1)) else (data, count, u32 (total + 1)).

Lemma take_snoc {X} n (l : list X) x : take n (l ++ [x]) = if decide (length l < n)%nat then take n l ++ [x] else take n l.
Proof.
  case_decide.
  - rewrite !take_ge; [done|lia|]. rewrite length_app. cbn. lia.
  - by rewrite take_app_le by lia.
Qed.
Lemma page_snoc from l a : 0 <= from -> page from (l ++ [a]) =
  if (len (page from l) <? 50) && (from <=? len l) then page from l ++ [a] else page from l.
Proof.
  intros Hf. unfold page. destruct (Z.leb_spec from (len l)) as [Hle|Hgt].
  - rewrite drop_app_le, take_snoc by lia. rewrite length_take, length_drop.
    destruct (decide _), (Z.ltb_spec (Z.of_nat (50 `min` (length l - Z.to_nat from))) 50); cbn [andb]; try done; lia.
  - rewrite andb_false_r, (drop_ge (l ++ [a])), drop_ge; [done|lia|]. rewrite length_app. cbn. lia.
Qed.
Lemma search_page from l1 l2 : 0 <= from -> len (l1 ++ l2) < 2 ^ 32 -> fold_left (search_next from) l2 (page_of from l1) = page_of from (l1 ++ l2).
Proof.
  intros Hf. revert l1. induction l2 as [|a l2 IH]; intros l1 Hlen; [by rewrite app_nil_r|]. cbn [fold_left].
  replace (search_next from (page_of from l1) a) with (page_of from (l1 ++ [a])); [rewrite IH; rewrite <- app_assoc; done|].
  unfold page_of, search_next. rewrite !length_app in Hlen. cbn [length] in Hlen.
  assert (len (l1 ++ [a]) = u32 (len l1 + 1)) as -> by (rewrite length_app, uint_small; cbn [length]; lia).
  rewrite (page_snoc from l1 a Hf). destruct (_ && _) eqn:E; [|done]. apply andb_prop in E as [E _]. apply Z.ltb_lt in E.
  rewrite flat_map_app, length_app. cbn [flat_map length]. rewrite app_nil_r. f_equal. f_equal. rewrite uint_small; lia.
Qed.

Lemma search_packet from l last : 0 <= from -> len l < 2 ^ 32 -> list_packet (fold_left (search_next from) l ([], 0, 0)) last =
  le_bytes 4 (len (page from l)) ++ flat_map info (page from l) ++ le_bytes 4 (len l) ++ le_bytes 4 last.
Proof.
  intros Hf Hl. replace ([], 0, 0) with (page_of from []) by (unfold page_of, page; by rewrite drop_nil). by rewrite search_page.
Qed.

Lemma search_auction_ewp h p from q a acc : a ∈ catalogue s h ->
  ewp (search_auction w p from q a acc) s (fun acc' s2 => s2 = s /\
    acc' = if decide (matches p q a) then search_next from acc a else acc).
Proof.
  intros Ha. destruct (catalogue_item h a Ha) as (Hin & i & t & Hi & Ht). unfold search_auction. apply wp_get. cbv zeta.
  rewrite bool_decide_true by done. unfold GetTemplate. apply wp_bind. eapply wp_seq; [by apply deref_item_ok|]. rewrite Ht. apply wp_ret.
  assert (matches p q a <-> search_matches w p q (au_itemGUIDLow a) t = true) as Hm by (unfold matches; by rewrite Hi, Ht).
  destruct (search_matches _ _ _ _ _) eqn:Es; [rewrite decide_True by (by apply Hm)|rewrite decide_False by (by intros ?%Hm)]; [|done].
  destruct acc as [[data count] total]. cbn [search_next]. destruct (_ && _); [|done]. apply wp_bind.
  eapply wp_mono; [by eapply BuildAuctionInfo_ewp|]. by intros o s2 [-> ->].
Qed.

Lemma fold_left_filter {X B} (P : X -> Prop) `{!forall x, Decision (P x)} (g : B -> X -> B) l b :
  fold_left (fun b x => if decide (P x) then g b x else b) l b = fold_left g (filter P l) b.
Proof.
  revert b. induction l as [|x l IH]; intros b; [done|]. cbn [fold_left]. rewrite IH. rewrite filter_cons. by destruct (decide (P x)).
Qed.

Lemma ListItems_ewp p npc faction from q : ew_auctioneer w p npc = Some faction ->
  let l := filter (matches p q) (catalogue s (GetAuctionsMap w faction)) in
  ewp (HandleAuctionListItems w p npc from q) s (fun _ s2 =>
    s2 = send_packet p (SMSG_AUCTION_LIST_RESULT (list_packet (fold_left (search_next from) l ([], 0, 0)) 300)) s).
Proof.
  intros Hf l. unfold HandleAuctionListItems. rewrite Hf. unfold BuildListAuctionItems. apply wp_bind, wp_get.
  eapply wp_mono; [apply (wp_foldM _ (fun acc a => if decide (matches p q a) then search_next from acc a else acc))|].
  - intros a b Ha. by eapply search_auction_ewp.
  - intros acc s2 [-> ->]. by rewrite fold_left_filter.
Qed.
End Lists.
