(* ===== verification/AuctionRestart.v ===== *)
(** * The auction house: loading it (model in Auction.v)

    After a restart the tables are all there is; loading gives every auction back
    to its house and every item to the manager. *)

From S2P Require Import Prelude.
From S2P Require Import Floats.
From S2P Require Import Economy.
From S2P Require Import EconomyProofs.
From S2P Require Import Mail.
From S2P Require Import Auction.
From S2P Require Import AuctionLedger.
From S2P Require Import AuctionProofs.
From stdpp Require Import list sorting.
Local Open Scope Z_scope.
#[local] Set Warnings "-clear-no-such-hyp".

(** What is left of a realm. *)
Definition restarted (s : Realm) : Realm :=
  mkRealm ∅ ∅ (fun _ => ∅) ∅ (r_next_auction s) (r_next_mail s) (r_next_item s) (r_db s) [] [].

Definition guid_of (e : JoinedRow) : Z := ar_itemguid e.1.2.

(** The join, when no auction is without its item. *)
Definition joined (d : CharDB) : Prop := forall id r, db_auctions d !! id = Some r -> is_Some (db_items d !! ar_itemguid r).
Lemma elem_of_joined d id r i : (id, r, i) ∈ CHAR_SEL_AUCTIONS d <-> db_auctions d !! id = Some r /\ db_items d !! ar_itemguid r = Some i.
Proof.
  unfold CHAR_SEL_AUCTIONS. rewrite list_elem_of_omap. split.
  - intros ([id' r'] & Hin%in_order_spec & E). cbn in E. destruct (db_items d !! ar_itemguid r') as [i'|] eqn:Ei; [|done]. cbn in E. by simplify_eq.
  - intros [Hr Hi]. exists (id, r). split; [by apply in_order_spec|]. cbn. by rewrite Hi.
Qed.
Lemma joined_rows d : joined d -> (CHAR_SEL_AUCTIONS d).*1 = in_order (db_auctions d).
Proof.
  intros Hj. unfold CHAR_SEL_AUCTIONS. assert (forall e, e ∈ in_order (db_auctions d) -> is_Some (db_items d !! ar_itemguid e.2)) as Hall.
  { intros [id r] Hin%in_order_spec. by eapply Hj. }
  induction (in_order (db_auctions d)) as [|e l IH]; [done|]. destruct (Hall e ltac:(by left)) as [i Hi]. cbn. rewrite Hi. cbn. f_equal.
  apply IH. intros e' He'. apply Hall. by right.
Qed.
Lemma joined_NoDup d : joined d -> NoDup (fst <$> (CHAR_SEL_AUCTIONS d).*1).
Proof. intros Hj. rewrite joined_rows by done. apply in_order_NoDup. Qed.

Section Restart.
Context (w : EconomyWorld).

(** ** The items *)

(** [r] is as the tables say, and the items of [l] are loaded. *)
Record items_loaded (s0 : Realm) (l : list JoinedRow) (s : Realm) : Prop := {
  il_online : r_online s = ∅;
  il_auctions : r_auctions s = fun _ => ∅;
  il_aitems : r_aitems s = list_to_set (guid_of <$> l);
  il_next : r_next_auction s = r_next_auction s0 /\ r_next_mail s = r_next_mail s0 /\ r_next_item s = r_next_item s0;
  il_trans : r_trans s = [];
  il_tables : same_tables (r_db s0) (r_db s);
  il_item : forall e, e ∈ l -> exists i, r_items s !! guid_of e = Some i /\ it_entry i = ir_entry e.2 /\ it_count i = ir_count e.2;
  il_object : forall g i, r_items s !! g = Some i -> it_state i = ITEM_NEW /\ exists e, e ∈ l /\ guid_of e = g /\ it_entry i = ir_entry e.2
}.

Lemma load_item_loaded s0 l s e : items_loaded s0 l s -> guid_of e ∉ guid_of <$> l -> is_Some (ew_proto w (ir_entry e.2)) ->
  exists s', load_auction_item w e s = (Ok tt, s') /\ items_loaded s0 (l ++ [e]) s'.
Proof.
  intros [Ho Ha Hai (Hn1 & Hn2 & Hn3) Ht Htb Hit Hob] Hg [t Hp]. destruct e as [[id r] row]. cbn in Hp. unfold load_auction_item. rewrite Hp.
  destruct (LoadFromDB_item_run w (ar_itemguid r) 0 row s t Hp) as (i & d & Er & Hd & E1 & E2 & E3).
  rewrite (bind_ok _ _ _ _ _ Er). unfold AddAItem. rewrite (bind_ok get _ _ _ _ eq_refl). cbn [r_aitems set_db set_items guid_of fst snd] in *.
  rewrite Hai, bool_decide_false by (by rewrite elem_of_list_to_set). eexists. split; [done|].
  split; try done.
  - cbn. rewrite fmap_app, list_to_set_app_L. cbn. set_solver.
  - by eapply same_tables_trans.
  - intros e [He| ->%list_elem_of_singleton]%elem_of_app; cbn.
    + rewrite lookup_insert_ne; [by apply Hit|]. intros E. apply Hg, list_elem_of_fmap. by exists e.
    + exists i. by rewrite lookup_insert_eq.
  - intros g j. cbn. intros [[<- <-]|[_ Hj]]%lookup_insert_Some.
    + split; [done|]. exists (id, r, row). split; [set_solver|done].
    + destruct (Hob g j Hj) as (Hs & e & He & H1). split; [done|]. exists e. split; [set_solver|done].
Qed.

Lemma load_items_loaded s0 l1 l2 s : items_loaded s0 l1 s -> NoDup (guid_of <$> l1 ++ l2) ->
  (forall e, e ∈ l2 -> is_Some (ew_proto w (ir_entry e.2))) ->
  exists s', forM l2 (load_auction_item w) s = (Ok tt, s') /\ items_loaded s0 (l1 ++ l2) s'.
Proof.
  revert l1 s. induction l2 as [|e l2 IH]; intros l1 s H Hnd Hp; cbn [forM].
  - exists s. by rewrite app_nil_r.
  - rewrite fmap_app in Hnd. cbn in Hnd. destruct (load_item_loaded s0 l1 s e H) as (s1 & Er & H1).
    + apply NoDup_app in Hnd as (_ & Hd & _). intros Hin. apply (Hd _ Hin). by left.
    + apply Hp. by left.
    + rewrite (bind_ok _ _ _ _ _ Er). destruct (IH (l1 ++ [e]) s1 H1) as (s2 & E2 & H2).
      * rewrite <- app_assoc. cbn. by rewrite fmap_app.
      * intros e' He'. apply Hp. by right.
      * exists s2. split; [exact E2|]. by rewrite <- app_assoc in H2.
Qed.

(** ** The auctions *)

(** The auction of a row, once its auctioneer is known. *)
Definition auction_of (e : JoinedRow) : option AuctionEntry := LoadFromFieldList w e.
Record auctions_loaded (s1 : Realm) (l : list JoinedRow) (s : Realm) : Prop := {
  al_same : s = set_auctions (r_auctions s) s1;
  al_auctions : forall h id a, r_auctions s h !! id = Some a <->
    exists e, e ∈ l /\ e.1.1 = id /\ auction_of e = Some a /\ GetAuctionsMap w (au_factionTemplateId a) = h
}.

Lemma load_auction_loaded s1 l s e a : auctions_loaded s1 l s -> auction_of e = Some a -> guid_of e ∈ r_aitems s1 ->
  (forall e', e' ∈ l -> e'.1.1 <> e.1.1) -> exists s', load_auction w e s = (Ok tt, s') /\ auctions_loaded s1 (l ++ [e]) s'.
Proof.
  intros [Hs Ha] He Hg Hnew. destruct e as [[id r] row]. cbn [fst snd guid_of] in *.
  assert (au_Id a = id /\ au_itemGUIDLow a = ar_itemguid r) as [Eid Eg].
  { unfold auction_of, LoadFromFieldList in He. destruct (ew_creature w _) as [c|]; [|done]. destruct (ew_creature_faction w c) as [f|]; [|done].
    destruct (GetAuctionHouseEntry w f); [|done]. cbn in He. by simplify_eq. }
  unfold load_auction. rewrite (bind_ok get _ s s s eq_refl). unfold LoadAuctionFromDB. unfold auction_of in He. rewrite He.
  rewrite bool_decide_true by (by rewrite Eg, Hs). eexists. split; [done|]. set (h := GetAuctionsMap w (au_factionTemplateId a)). split.
  - cbn. by rewrite Hs.
  - intros h' id' a'. cbn. rewrite Eid. destruct (decide (h' = h)) as [->|Hne].
    + rewrite fn_lookup_insert, lookup_insert_Some, Ha. split.
      * intros [[<- <-]|[Hne (e & Hin & H1 & H2)]]; [exists (id, r, row)|exists e]; (split; [set_solver|done]).
      * intros (e & [Hin| ->%list_elem_of_singleton]%elem_of_app & H1 & H2 & H3).
        -- right. split; [intros <-; by apply (Hnew e)|]. exists e. done.
        -- left. cbn in H1. unfold auction_of in H2. simplify_eq. done.
    + rewrite fn_lookup_insert_ne by done. rewrite Ha. split.
      * intros (e & Hin & H1). exists e. split; [set_solver|done].
      * intros (e & [Hin| ->%list_elem_of_singleton]%elem_of_app & H1 & H2 & H3); [by exists e|]. unfold auction_of in H2. by simplify_eq.
Qed.

Lemma load_auctions_loaded s1 l1 l2 s : auctions_loaded s1 l1 s -> NoDup (fst <$> (l1 ++ l2).*1) ->
  (forall e, e ∈ l2 -> is_Some (auction_of e) /\ guid_of e ∈ r_aitems s1) ->
  exists s', forM l2 (load_auction w) s = (Ok tt, s') /\ auctions_loaded s1 (l1 ++ l2) s'.
Proof.
  revert l1 s. induction l2 as [|e l2 IH]; intros l1 s H Hnd Hp; cbn [forM].
  - exists s. by rewrite app_nil_r.
  - destruct (Hp e ltac:(by left)) as [[a Ha] Hg]. destruct (load_auction_loaded s1 l1 s e a H Ha Hg) as (s2 & Er & H2).
    + intros e' He' E. rewrite !fmap_app in Hnd. apply NoDup_app in Hnd as (_ & Hd & _). apply (Hd e'.1.1).
      * apply list_elem_of_fmap. exists e'.1. split; [done|]. by apply list_elem_of_fmap_2.
      * cbn. rewrite E. by left.
    + rewrite (bind_ok _ _ _ _ _ Er). destruct (IH (l1 ++ [e]) s2 H2) as (s3 & E3 & H3).
      * by rewrite <- app_assoc.
      * intros e' He'. apply Hp. by right.
      * exists s3. split; [exact E3|]. by rewrite <- app_assoc in H3.
Qed.

(** ** All of it *)

(** An auction but for the faction template, which a sale does not set. *)
Definition but_faction (a : AuctionEntry) : AuctionEntry :=
  mkAuctionEntry (au_Id a) (au_auctioneer a) (au_itemGUIDLow a) (au_itemEntry a) (au_itemCount a) (au_owner a) (au_startbid a) (au_bid a)
    (au_buyout a) (au_expire_time a) (au_bidder a) (au_deposit a) (au_house a) 0.
(** The auctioneers are where they were, and no auction has ended. *)
Record world_fits (s : Realm) : Prop := {
  wf_faction : forall h id a, r_auctions s h !! id = Some a -> exists c f, ew_creature w (au_auctioneer a) = Some c /\
    ew_creature_faction w c = Some f /\ GetAuctionsMap w f = h /\ GetAuctionHouseEntry w f = Some (au_house a);
  wf_time : forall h id a, r_auctions s h !! id = Some a -> u32 (u32 (ew_game_time w) + 60) < au_expire_time a < 2 ^ 32
}.

Section Reload.
Context (s : Realm) (H : market_ok (ew_proto w) s) (Hw : world_fits s).
Local Abbreviation d := (r_db s).

(** Where a row and its item come from. *)
Lemma row_listed d' id r i : same_tables d d' -> db_auctions d' !! id = Some r -> db_items d' !! ar_itemguid r = Some i ->
  exists h a, r_auctions s h !! id = Some a /\ auction_row a = r /\ ir_entry i = au_itemEntry a /\ ir_count i = au_itemCount a.
Proof.
  intros Hd Hr Hi. rewrite (st_auctions _ _ Hd) in Hr.
  apply (ho_rows _ _ (mk_houses _ _ H) id r) in Hr as (h & a & Ha & <-). exists h, a. split; [exact Ha|]. split; [done|].
  destruct (go_listed _ _ _ _ _ (mk_goods _ _ H) h id a Ha) as (_ & i0 & r0 & _ & _ & _ & Hr0 & E1 & E2).
  destruct (same_row _ _ _ _ Hd Hr0) as (r' & Hr' & E3 & E4). cbn in Hi. simplify_eq. split; congruence.
Qed.
Lemma listed_row d' h id a : same_tables d d' -> r_auctions s h !! id = Some a -> db_auctions d' !! id = Some (auction_row a) /\
  exists i, db_items d' !! au_itemGUIDLow a = Some i /\ ir_entry i = au_itemEntry a /\ ir_count i = au_itemCount a.
Proof.
  intros Hd Ha. split.
  - rewrite (st_auctions _ _ Hd). apply (ho_rows _ _ (mk_houses _ _ H)). by exists h, a.
  - destruct (go_listed _ _ _ _ _ (mk_goods _ _ H) h id a Ha) as (_ & i0 & r0 & _ & _ & _ & Hr0 & E1 & E2).
    destruct (same_row _ _ _ _ Hd Hr0) as (r' & Hr' & E3 & E4). exists r'. split_and!; congruence.
Qed.
Lemma tables_joined d' : same_tables d d' -> joined d'.
Proof.
  intros Hd id r Hr. rewrite (st_auctions _ _ Hd) in Hr. apply (ho_rows _ _ (mk_houses _ _ H) id r) in Hr as (h & a & Ha & <-).
  destruct (listed_row d' h id a Hd Ha) as (_ & i & Hi & _). by exists i.
Qed.

Lemma row_loads h id a i : r_auctions s h !! id = Some a -> ir_entry i = au_itemEntry a -> ir_count i = au_itemCount a ->
  exists a', auction_of (id, auction_row a, i) = Some a' /\ but_faction a' = but_faction a /\ GetAuctionsMap w (au_factionTemplateId a') = h.
Proof.
  intros Ha E1 E2. destruct (wf_faction _ Hw h id a Ha) as (c & f & Hc & Hf & Hh & He). pose proof (wf_time _ Hw h id a Ha) as Ht.
  pose proof (proj1 (ho_id _ _ (mk_houses _ _ H) h id a Ha)) as Eid.
  unfold auction_of, LoadFromFieldList. cbn [ar_auctioneerguid auction_row]. rewrite Hc, Hf, He. eexists. split; [done|]. split; [|done].
  unfold but_faction. cbn. rewrite E1, E2, Eid, uint_small; [done|]. pose proof (uint_range 32 (u32 (ew_game_time w) + 60) ltac:(lia)). lia.
Qed.

Definition reloaded (s' : Realm) : Prop := forall h, but_faction <$> r_auctions s' h = but_faction <$> r_auctions s h.
Lemma loaded_back s1 s' : same_tables d (r_db s1) -> auctions_loaded s1 (CHAR_SEL_AUCTIONS (r_db s1)) s' -> reloaded s'.
Proof.
  intros Hd [_ Hl] h. apply map_eq. intros id. rewrite !lookup_fmap. destruct (r_auctions s h !! id) as [a|] eqn:Ea.
  - destruct (listed_row _ h id a Hd Ea) as (Hr & i & Hi & E1 & E2). destruct (row_loads h id a i Ea E1 E2) as (a' & Ha' & E & Hh).
    assert (r_auctions s' h !! id = Some a') as ->; [|cbn; by rewrite E].
    apply Hl. exists (id, auction_row a, i). split_and!; [by apply elem_of_joined|done|done|done].
  - destruct (r_auctions s' h !! id) as [a'|] eqn:Ea'; [|done]. exfalso.
    apply Hl in Ea' as ([[id' r] i] & Hin & <- & He & Hh). cbn in Ea. apply elem_of_joined in Hin as [Hr Hi].
    destruct (row_listed _ id' r i Hd Hr Hi) as (h0 & a & Ha & <- & E1 & E2).
    destruct (row_loads h0 id' a i Ha E1 E2) as (a2 & Ha2 & _ & Hh2). rewrite He in Ha2. injection Ha2 as ->. rewrite Hh in Hh2. subst h0.
    by rewrite Ha in Ea.
Qed.

(** *** Nothing fails *)

Lemma joined_guids_NoDup : NoDup (guid_of <$> CHAR_SEL_AUCTIONS d).
Proof.
  pose proof (joined_NoDup d (tables_joined d (same_tables_refl d))) as Hnd.
  apply NoDup_alt. intros m k g Hm Hk. rewrite list_lookup_fmap in Hm, Hk.
  apply fmap_Some in Hm as ([[id r] i] & Hm & ->). apply fmap_Some in Hk as ([[id' r'] i'] & Hk & E). unfold guid_of in E. cbn in E.
  assert (id = id') as <-.
  { apply list_elem_of_lookup_2, elem_of_joined in Hm as [Hr Hi]. apply list_elem_of_lookup_2, elem_of_joined in Hk as [Hr' Hi'].
    destruct (row_listed d id r i (same_tables_refl d) Hr Hi) as (h & a & Ha & <- & _).
    destruct (row_listed d id' r' i' (same_tables_refl d) Hr' Hi') as (h' & a' & Ha' & <- & _).
    by apply (ho_items _ _ (mk_houses _ _ H) h id a h' id' a'). }
  eapply NoDup_lookup; [exact Hnd| |]; rewrite !list_lookup_fmap;
    [exact (f_equal (fun o => fst <$> (fst <$> o)) Hm)|exact (f_equal (fun o => fst <$> (fst <$> o)) Hk)].
Qed.

Lemma not_expired : CHAR_SEL_EXPIRED_AUCTIONS (u32 (u32 (ew_game_time w) + 60)) d = [].
Proof.
  destruct (CHAR_SEL_EXPIRED_AUCTIONS _ d) as [|[[id r] i] l] eqn:E; [done|]. exfalso.
  assert ((id, r, i) ∈ CHAR_SEL_EXPIRED_AUCTIONS (u32 (u32 (ew_game_time w) + 60)) d) as Hin by (rewrite E; by left).
  apply list_elem_of_filter in Hin as [Hle [Hr Hi]%elem_of_joined]. cbn in Hle.
  destruct (row_listed d id r i (same_tables_refl d) Hr Hi) as (h & a & Ha & <- & _). cbn in Hle.
  pose proof (wf_time _ Hw h id a Ha). pose proof (uint_range 32 (u32 (ew_game_time w) + 60) ltac:(lia)). rewrite uint_small in Hle; lia.
Qed.

Lemma StartAuctions_run : exists s1 s', StartAuctions w (restarted s) = (Ok tt, s') /\
  items_loaded (restarted s) (CHAR_SEL_AUCTIONS d) s1 /\ s' = set_auctions (r_auctions s') s1 /\ reloaded s'.
Proof.
  unfold StartAuctions. assert (DeleteExpiredAuctionsAtStartup w (restarted s) = (Ok tt, restarted s)) as E0.
  { unfold DeleteExpiredAuctionsAtStartup. rewrite (bind_ok get _ _ _ _ eq_refl). cbn [r_db restarted]. by rewrite not_expired. }
  rewrite (bind_ok _ _ _ _ _ E0). unfold LoadAuctionItems.
  assert (items_loaded (restarted s) [] (set_aitems ∅ (restarted s))) as Hn by (split; try done; intros e He; by apply elem_of_nil in He).
  destruct (load_items_loaded (restarted s) [] (CHAR_SEL_AUCTIONS d) _ Hn joined_guids_NoDup) as (s1 & E1 & H1).
  { intros [[id r] i] [Hr Hi]%elem_of_joined. destruct (row_listed d id r i (same_tables_refl d) Hr Hi) as (h & a & Ha & <- & E & _).
    destruct (go_listed _ _ _ _ _ (mk_goods _ _ H) h id a Ha) as (_ & i0 & r0 & Hi0 & Ee & _). cbn. rewrite E, <- Ee.
    by apply (go_object _ _ _ _ _ (mk_goods _ _ H) _ i0 Hi0). }
  cbn [app] in H1. rewrite (bind_ok (s0 ← get; _) _ _ tt s1) by exact E1.
  pose proof (il_tables _ _ _ H1) as Htb. cbn [r_db restarted] in Htb.
  unfold LoadAuctions. rewrite (bind_ok get _ _ _ _ eq_refl), (bind_ok BeginTransaction _ _ tt _ eq_refl).
  assert (set_trans [] s1 = s1) as -> by (pose proof (il_trans _ _ _ H1); destruct s1; cbn in *; by subst).
  assert (auctions_loaded s1 [] s1) as Hn2.
  { split; [by destruct s1|]. intros h id a. rewrite (il_auctions _ _ _ H1). split; [done|]. by intros (e & He & _); apply elem_of_nil in He. }
  destruct (load_auctions_loaded s1 [] (CHAR_SEL_AUCTIONS (r_db s1)) s1 Hn2) as (s2 & E2 & H2).
  { apply joined_NoDup, tables_joined, Htb. }
  { intros [[id r] i] [Hr Hi]%elem_of_joined. destruct (row_listed _ id r i Htb Hr Hi) as (h & a & Ha & <- & Ee & Ec).
    destruct (row_loads h id a i Ha Ee Ec) as (a' & Ha' & _). split; [by exists a'|]. rewrite (il_aitems _ _ _ H1). apply elem_of_list_to_set.
    destruct (listed_row d h id a (same_tables_refl d) Ha) as (Hr0 & i0 & Hi0 & _).
    apply list_elem_of_fmap. exists (id, auction_row a, i0). split; [done|]. by apply elem_of_joined. }
  rewrite (bind_ok _ _ _ _ _ E2). cbn [app] in H2. exists s1, (set_trans [] (set_db (ExecuteTransaction (r_trans s2) (r_db s2)) s2)).
  pose proof (il_trans _ _ _ H1) as Ht. split; [done|]. split; [exact H1|]. split.
  - rewrite (al_same _ _ _ H2). cbn. rewrite Ht. cbn. destruct s1; cbn in *; by subst.
  - apply (loaded_back s1); [done|]. destruct H2 as [Hs2 Hl2]. split; [|exact Hl2]. rewrite Hs2. cbn. rewrite Ht. destruct s1; cbn in *; by subst.
Qed.

(** *** The invariant is back *)

Definition with_faction (f : Z) (a : AuctionEntry) : AuctionEntry :=
  mkAuctionEntry (au_Id a) (au_auctioneer a) (au_itemGUIDLow a) (au_itemEntry a) (au_itemCount a) (au_owner a) (au_startbid a) (au_bid a)
    (au_buyout a) (au_expire_time a) (au_bidder a) (au_deposit a) (au_house a) f.
Lemma with_faction_ok f a : entry_ok a -> entry_ok (with_faction f a).
Proof. by intros []. Qed.

Lemma reloaded_back s' h id a' : reloaded s' -> r_auctions s' h !! id = Some a' -> exists a f, r_auctions s h !! id = Some a /\ a' = with_faction f a.
Proof.
  intros Hr Ha. specialize (Hr h). apply (f_equal (fun m => m !! id)) in Hr. rewrite !lookup_fmap, Ha in Hr.
  destruct (r_auctions s h !! id) as [a|] eqn:Ea; [|done]. cbn in Hr. injection Hr as E1 E2 E3 E4 E5 E6 E7 E8 E9 E10 E11 E12 E13.
  exists a, (au_factionTemplateId a'). split; [done|]. destruct a, a'. cbn in *. by subst.
Qed.
Lemma reloaded_forth s' h id a : reloaded s' -> r_auctions s h !! id = Some a -> exists f, r_auctions s' h !! id = Some (with_faction f a).
Proof.
  intros Hr Ha. pose proof (Hr h) as E. apply (f_equal (fun m => m !! id)) in E. rewrite !lookup_fmap, Ha in E.
  destruct (r_auctions s' h !! id) as [a'|] eqn:Ea; [|done]. destruct (reloaded_back s' h id a' Hr Ea) as (a0 & f & Ha0 & ->).
  rewrite Ha in Ha0. injection Ha0 as <-. by exists f.
Qed.

Lemma reloaded_houses s1 s' : items_loaded (restarted s) (CHAR_SEL_AUCTIONS d) s1 -> reloaded s' -> s' = set_auctions (r_auctions s') s1 ->
  houses_ok (r_next_auction s') (ledger_of s' (r_db s')).
Proof.
  intros H1 Hr Es. pose proof (mk_houses _ _ H) as Hh. pose proof (il_tables _ _ _ H1) as Htb. cbn [r_db restarted] in Htb.
  assert (r_next_auction s' = r_next_auction s) as En by (rewrite Es; apply (il_next _ _ _ H1)).
  assert (r_aitems s' = list_to_set (guid_of <$> CHAR_SEL_AUCTIONS d)) as Eai by (rewrite Es; apply (il_aitems _ _ _ H1)).
  assert (db_auctions (r_db s') = db_auctions d) as Edb by (rewrite Es; apply (st_auctions _ _ Htb)).
  assert (forall h id a', listed (ledger_of s' (r_db s')) h id a' -> exists a f, r_auctions s h !! id = Some a /\ a' = with_faction f a) as Hback
    by (intros h id a'; by apply reloaded_back). split.
  - intros h id a' (a & f & Ha & ->)%Hback. by apply with_faction_ok, (ho_entry _ _ Hh h id).
  - intros h id a' (a & f & Ha & ->)%Hback. rewrite En. apply (ho_id _ _ Hh h id a Ha).
  - intros h h' id a b (a0 & f & Ha & _)%Hback (b0 & f' & Hb & _)%Hback. by apply (ho_house _ _ Hh h h' id a0 b0).
  - intros h id a' (a & f & Ha & ->)%Hback. cbn [lg_aitems ledger_of]. rewrite Eai. apply elem_of_list_to_set, list_elem_of_fmap.
    destruct (listed_row d h id a (same_tables_refl d) Ha) as (Hr0 & i & Hi & _). exists (id, auction_row a, i). split; [done|]. by apply elem_of_joined.
  - intros h id a h' id' a' (a0 & f & Ha & ->)%Hback (b0 & f' & Hb & ->)%Hback. cbn. by apply (ho_items _ _ Hh h id a0 h' id' b0).
  - intros id r. cbn [lg_rows ledger_of]. rewrite Edb, (ho_rows _ _ Hh id r). split.
    + intros (h & a & Ha & Er). destruct (reloaded_forth s' h id a Hr Ha) as [f Hf]. by exists h, (with_faction f a).
    + intros (h & a' & (a & f & Ha & ->)%Hback & Er). by exists h, a.
Qed.

Lemma reloaded_goods s1 s' : items_loaded (restarted s) (CHAR_SEL_AUCTIONS d) s1 -> reloaded s' -> s' = set_auctions (r_auctions s') s1 ->
  goods_ok (ew_proto w) (r_aitems s') (r_auctions s') s' (r_db s').
Proof.
  intros H1 Hr Es. pose proof (mk_goods _ _ H) as HG. pose proof (il_tables _ _ _ H1) as Htb. cbn [r_db restarted] in Htb.
  destruct (il_next _ _ _ H1) as (En1 & En2 & En3). cbn in En3.
  assert (r_aitems s' = list_to_set (guid_of <$> CHAR_SEL_AUCTIONS d)) as Eai by (rewrite Es; apply (il_aitems _ _ _ H1)).
  assert (forall e, e ∈ CHAR_SEL_AUCTIONS d -> exists h a i, r_auctions s h !! e.1.1 = Some a /\ guid_of e = au_itemGUIDLow a /\
    ir_entry e.2 = au_itemEntry a /\ ir_count e.2 = au_itemCount a /\ r_items s !! guid_of e = Some i /\ it_entry i = ir_entry e.2) as Hsel.
  { intros [[id r] i] [Hr0 Hi]%elem_of_joined. destruct (row_listed d id r i (same_tables_refl d) Hr0 Hi) as (h & a & Ha & <- & E1 & E2).
    destruct (go_listed _ _ _ _ _ HG h id a Ha) as (_ & i0 & r0 & Hi0 & E3 & _). exists h, a, i0. cbn. split_and!; congruence. }
  split.
  - intros g Hg. rewrite Eai in Hg. apply elem_of_list_to_set, list_elem_of_fmap in Hg as (e & -> & He). split_and!.
    + destruct (il_item _ _ _ H1 e He) as (i & Hi & _). rewrite Es. by exists i.
    + rewrite Es. cbn. rewrite (st_mail_items _ _ Htb). destruct (Hsel e He) as (h & a & i & Ha & -> & _).
      apply (go_held _ _ _ _ _ HG). by apply (go_listed _ _ _ _ _ HG h _ a Ha).
    + intros p b. rewrite Es. cbn. by rewrite (il_online _ _ _ H1).
  - intros h id a' Ha'. destruct (reloaded_back s' h id a' Hr Ha') as (a & f & Ha & ->). cbn [au_itemGUIDLow au_itemEntry au_itemCount with_faction].
    destruct (listed_row d h id a (same_tables_refl d) Ha) as (Hr0 & i & Hi & E1 & E2).
    assert ((id, auction_row a, i) ∈ CHAR_SEL_AUCTIONS d) as Hin by by apply elem_of_joined. split.
    + rewrite Eai. apply elem_of_list_to_set, list_elem_of_fmap. exists (id, auction_row a, i). by split.
    + destruct (il_item _ _ _ H1 _ Hin) as (j & Hj & E3 & E4). destruct (listed_row (r_db s1) h id a Htb Ha) as (_ & r' & Hr' & E5 & E6).
      exists j, r'. unfold guid_of in Hj. cbn in E3, E4, Hj. rewrite Es. cbn. split_and!; congruence.
  - intros p a g. rewrite Es. cbn. by rewrite (il_online _ _ _ H1).
  - intros p a. rewrite Es. cbn. by rewrite (il_online _ _ _ H1).
  - intros p a g. rewrite Es. cbn. by rewrite (il_online _ _ _ H1).
  - intros g i. rewrite Es. cbn. intros Hi. destruct (il_object _ _ _ H1 g i Hi) as (Est & e & He & <- & Ee).
    destruct (Hsel e He) as (h & a & j & Ha & _ & _ & _ & Hj & Ej). destruct (go_object _ _ _ _ _ HG _ j Hj) as (_ & Hp & Hlt).
    rewrite Est, Ee, <- Ej, En3. by split_and!.
  - intros g. rewrite Es. cbn. rewrite (st_mail_items _ _ Htb), En3. apply (go_mailed _ _ _ _ _ HG).
  - intros p a. rewrite Es. cbn. by rewrite (il_online _ _ _ H1).
Qed.

Lemma reloaded_ok s1 s' : items_loaded (restarted s) (CHAR_SEL_AUCTIONS d) s1 -> reloaded s' -> s' = set_auctions (r_auctions s') s1 ->
  market_ok (ew_proto w) s'.
Proof.
  intros H1 Hr Es. pose proof (il_tables _ _ _ H1) as Htb. destruct (il_next _ _ _ H1) as (_ & En2 & _). split.
  - rewrite Es. apply (il_trans _ _ _ H1).
  - intros id. rewrite Es. cbn. rewrite (st_mails _ _ Htb), En2. apply (mk_fresh _ _ H).
  - by eapply reloaded_houses.
  - by eapply reloaded_goods.
Qed.
End Reload.
End Restart.
