(* ===== verification/AuctionHouse.v ===== *)
(** * The auction house as players use it (model in Auction.v)

    Sessions give commands and players come and go; the invariant of
    AuctionProofs.v holds in every state that is reached, so no command fails but
    for lack of ids or range. *)

From S2P Require Import Prelude.
From S2P Require Import Floats.
From S2P Require Import Economy.
From S2P Require Import EconomyProofs.
From S2P Require Import Mail.
From S2P Require Import Auction.
From S2P Require Import AuctionLedger.
From S2P Require Import AuctionProofs.
From S2P Require Import AuctionCommands.
From S2P Require Import AuctionSell.
From S2P Require Import AuctionLists.
From S2P Require Import AuctionRestart.
From stdpp Require Import list sorting.
Local Open Scope Z_scope.
#[local] Set Warnings "-clear-no-such-hyp".

(** ** Commands *)

Inductive MarketCommand :=
| SellItem (p npc : Z) (items : list (Z * Z)) (bid buyout etime : Z)
| PlaceBid (p npc auctionId price : Z)
| RemoveItem (p npc auctionId : Z)
| ListItems (p npc listfrom : Z) (q : AuctionSearch)
| ListBidderItems (p npc : Z) (outbids : list Z)
| ListOwnerItems (p npc : Z)
| UpdateMarket.
(** Whose command it is. *)
Definition player_of (c : MarketCommand) : option Z :=
  match c with
  | SellItem p _ _ _ _ _ | PlaceBid p _ _ _ | RemoveItem p _ _ | ListItems p _ _ _ | ListBidderItems p _ _ | ListOwnerItems p _ => Some p
  | UpdateMarket => None
  end.
Definition handle (w : EconomyWorld) (c : MarketCommand) : RP unit :=
  match c with
  | SellItem p npc items bid buyout etime => HandleAuctionSellItem w p npc items bid buyout etime
  | PlaceBid p npc id price => HandleAuctionPlaceBid w p npc id price
  | RemoveItem p npc id => HandleAuctionRemoveItem w p npc id
  | ListItems p npc listfrom q => HandleAuctionListItems w p npc listfrom q
  | ListBidderItems p npc outbids => HandleAuctionListBidderItems w p npc outbids
  | ListOwnerItems p npc => HandleAuctionListOwnerItems w p npc
  | UpdateMarket => UpdateAuctions w
  end.
(** A session handles the packet while its player is in the world. *)
Definition run_command (w : EconomyWorld) (c : MarketCommand) : RP unit :=
  s ← get; if from_option (is_online s) true (player_of c) then handle w c else mret tt.

(** ** Players who come and go *)

Section House.
Context (protos : Z -> option ItemTemplate).
Abbreviation market_ok := (market_ok protos).

(** The player has goods that are nowhere else, and his mailbox is closed. *)
Record enters (p : Z) (pl : Player) (objects : gmap Z Item) (s : Realm) : Prop := {
  ent_new : r_online s !! p = None;
  ent_guid : 0 < p;
  ent_money : 0 <= pl_money pl < 2 ^ 64;
  ent_mitems : pl_mitems pl = ∅;
  ent_nodup : NoDup (bag_items pl);
  ent_objects : dom objects = list_to_set (bag_items pl);
  ent_item : forall g i, objects !! g = Some i -> r_items s !! g = None /\ it_state i <> ITEM_REMOVED /\ is_Some (protos (it_entry i)) /\
    saved (db_items (r_db s) !! g) i /\ db_mail_items (r_db s) !! g = None /\ g < r_next_item s
}.
Definition enter (p : Z) (pl : Player) (objects : gmap Z Item) (s : Realm) : Realm :=
  set_online (<[p := pl]> (r_online s)) (set_items (objects ∪ r_items s) s).
(** What he had goes with him. *)
Definition leave (p : Z) (s : Realm) : Realm :=
  match r_online s !! p with
  | None => s
  | Some pl => set_online (delete p (r_online s)) (set_items (filter (fun e => ~ (e.1 ∈ bag_items pl \/ e.1 ∈ pl_mitems pl)) (r_items s)) s)
  end.

(** Money is gained and spent elsewhere, and the server may be restarted. *)
Inductive market_step (s : Realm) : Realm -> Prop :=
| step_command w c : ew_proto w = protos -> (run_command w c s).1 = Ok tt -> market_step s (run_command w c s).2
| step_enter p pl objects : enters p pl objects s -> market_step s (enter p pl objects s)
| step_leave p : market_step s (leave p s)
| step_money p pl v : r_online s !! p = Some pl -> 0 <= v < 2 ^ 64 ->
    market_step s (set_online (<[p := player_set_money v pl]> (r_online s)) s)
| step_restart w : ew_proto w = protos -> world_fits w s -> market_step s (StartAuctions w (restarted s)).2.

(** *** They keep the invariant *)

Lemma market_houses s s' : market_ok s -> goods_ok protos (r_aitems s') (r_auctions s') s' (r_db s') -> r_trans s' = r_trans s ->
  r_db s' = r_db s -> r_auctions s' = r_auctions s -> r_aitems s' = r_aitems s -> r_next_auction s' = r_next_auction s ->
  r_next_mail s' = r_next_mail s -> market_ok s'.
Proof.
  intros [Ht Hf Hh _] HG E1 E2 E3 E4 E5 E6. split; [by rewrite E1|intros id; rewrite E2, E6; apply Hf| |done].
  rewrite E5. eapply houses_ext; [exact Hh|..]; cbn; by rewrite ?E2.
Qed.

Lemma enter_ok p pl objects s : market_ok s -> enters p pl objects s -> market_ok (enter p pl objects s).
Proof.
  intros H En. pose proof (mk_goods _ _ H) as G. eapply market_houses; [exact H| |done..]. unfold enter.
  assert (forall g i, r_items s !! g = Some i -> (objects ∪ r_items s) !! g = Some i) as Hold.
  { intros g i Hi. rewrite lookup_union_r; [done|]. destruct (objects !! g) as [j|] eqn:E; [|done].
    destruct (ent_item _ _ _ _ En g j E) as [Hn _]. by rewrite Hn in Hi. }
  assert (forall g, g ∈ bag_items pl -> exists i, objects !! g = Some i) as Hbag.
  { intros g Hg. apply elem_of_dom. rewrite (ent_objects _ _ _ _ En). by apply elem_of_list_to_set. }
  assert (forall g, is_Some (r_items s !! g) -> g ∉ bag_items pl) as Hnb.
  { intros g [i Hi] Hg. destruct (Hbag g Hg) as [j Hj]. destruct (ent_item _ _ _ _ En g j Hj) as [Hn _]. by rewrite Hn in Hi. }
  assert (forall q b, <[p:=pl]> (r_online s) !! q = Some b -> q = p /\ b = pl \/ q <> p /\ r_online s !! q = Some b) as Hcase.
  { intros q b [[<- <-]|[Hne Hb]]%lookup_insert_Some; [by left|by right]. }
  split; cbn.
  - intros g Hg. destruct (go_held _ _ _ _ _ G g Hg) as ([i Hi] & Hm & Hn). split_and!; [exists i; by apply Hold|done|].
    intros q b [[-> ->]|[_ Hb]]%Hcase; [|by apply (Hn q)]. rewrite (ent_mitems _ _ _ _ En). split; [|set_solver]. apply Hnb. by exists i.
  - intros h id a Ha. destruct (go_listed _ _ _ _ _ G h id a Ha) as (Hin & i & r & Hi & Hr). split; [done|]. exists i, r. split; [by apply Hold|done].
  - intros q b g [[-> ->]|[Hne Hb]]%Hcase Hg.
    + destruct (Hbag g Hg) as [i Hi]. destruct (ent_item _ _ _ _ En g i Hi) as (Hn & _ & _ & Hs & Hm & _). split_and!; [|done|].
      * exists i. split; [by apply lookup_union_Some_l|done].
      * intros r c [[-> ->]|[Hne Hc]]%Hcase; [by rewrite (ent_mitems _ _ _ _ En)|]. split.
        -- intros Hin. destruct (go_mitems _ _ _ _ _ G r c g Hc Hin) as [[j Hj] _]. by rewrite Hn in Hj.
        -- intros Hin. destruct (go_bag _ _ _ _ _ G r c g Hc Hin) as ((j & Hj & _) & _). by rewrite Hn in Hj.
    + destruct (go_bag _ _ _ _ _ G q b g Hb Hg) as ((i & Hi & Hs) & Hm & Hq). split_and!; [exists i; split; [by apply Hold|done]|done|].
      intros r c [[-> ->]|[_ Hc]]%Hcase; [|by apply (Hq r c)]. rewrite (ent_mitems _ _ _ _ En). split; [set_solver|].
      intros Hin. exfalso. apply (Hnb g); [by exists i|done].
  - intros q b [[-> ->]|[_ Hb]]%Hcase; [apply (ent_nodup _ _ _ _ En)|by apply (go_bag_nodup _ _ _ _ _ G q)].
  - intros q b g [[-> ->]|[_ Hb]]%Hcase; [rewrite (ent_mitems _ _ _ _ En); set_solver|]. intros Hg.
    destruct (go_mitems _ _ _ _ _ G q b g Hb Hg) as [[i Hi] Hu]. split; [exists i; by apply Hold|].
    intros r c [[-> ->]|[_ Hc]]%Hcase; [rewrite (ent_mitems _ _ _ _ En); set_solver|by apply Hu].
  - intros g i [Hi|[_ Hi]]%lookup_union_Some_raw; [|by apply (go_object _ _ _ _ _ G)]. by destruct (ent_item _ _ _ _ En g i Hi) as (? & ? & ? & ? & ? & ?).
  - apply (go_mailed _ _ _ _ _ G).
  - intros q b [[-> ->]|[_ Hb]]%Hcase; [|by apply (go_player _ _ _ _ _ G)]. split; [apply (ent_guid _ _ _ _ En)|apply (ent_money _ _ _ _ En)].
Qed.

Lemma leave_ok p s : market_ok s -> market_ok (leave p s).
Proof.
  intros H. pose proof (mk_goods _ _ H) as G. unfold leave. destruct (r_online s !! p) as [pl|] eqn:Ep; [|done].
  eapply market_houses; [exact H| |done..]. set (F := filter _ (r_items s)).
  assert (forall g i, r_items s !! g = Some i -> (g ∉ bag_items pl) -> (g ∉ pl_mitems pl) -> F !! g = Some i) as Hkeep.
  { intros g i Hi H1 H2. apply map_lookup_filter_Some. split; [done|]. cbn. tauto. }
  assert (forall g i, F !! g = Some i -> r_items s !! g = Some i) as Hold by (intros g i [? _]%map_lookup_filter_Some; done).
  assert (forall q b, delete p (r_online s) !! q = Some b -> q <> p /\ r_online s !! q = Some b) as Hcase.
  { intros q b [Hne Hb]%lookup_delete_Some. by split. }
  split; cbn.
  - intros g Hg. destruct (go_held _ _ _ _ _ G g Hg) as ([i Hi] & Hm & Hn). destruct (Hn p pl Ep) as [H1 H2].
    split_and!; [exists i; by apply Hkeep|done|]. intros q b [_ Hb]%Hcase. by apply (Hn q).
  - intros h id a Ha. destruct (go_listed _ _ _ _ _ G h id a Ha) as (Hin & i & r & Hi & Hr). split; [done|]. exists i, r. split; [|done].
    destruct (go_held _ _ _ _ _ G _ Hin) as (_ & _ & Hn). destruct (Hn p pl Ep). by apply Hkeep.
  - intros q b g [Hne Hb]%Hcase Hg. destruct (go_bag _ _ _ _ _ G q b g Hb Hg) as ((i & Hi & Hs) & Hm & Hq). destruct (Hq p pl Ep) as [H1 H2].
    split_and!; [exists i; split; [apply Hkeep; [done| |done]|done]|done|].
    + intros Hin. by apply Hne; symmetry; apply H2.
    + intros r c [_ Hc]%Hcase. by apply (Hq r c).
  - intros q b [_ Hb]%Hcase. by apply (go_bag_nodup _ _ _ _ _ G q).
  - intros q b g [Hne Hb]%Hcase Hg. destruct (go_mitems _ _ _ _ _ G q b g Hb Hg) as [[i Hi] Hu]. split.
    + exists i. apply Hkeep; [done| |].
      * intros Hin. destruct (go_bag _ _ _ _ _ G p pl g Ep Hin) as (_ & _ & Hq). by destruct (Hq q b Hb).
      * intros Hin. by apply Hne; symmetry; apply (Hu p pl).
    + intros r c [_ Hc]%Hcase. by apply Hu.
  - intros g i Hi%Hold. by apply (go_object _ _ _ _ _ G).
  - apply (go_mailed _ _ _ _ _ G).
  - intros q b [_ Hb]%Hcase. by apply (go_player _ _ _ _ _ G).
Qed.

Lemma money_ok p pl v s : market_ok s -> r_online s !! p = Some pl -> 0 <= v < 2 ^ 64 ->
  market_ok (set_online (<[p := player_set_money v pl]> (r_online s)) s).
Proof.
  intros H Hp Hv. eapply (market_after protos None s); [exact H|apply (now_cash None s (r_db s) (ledger_of s (r_db s)) s (r_db s) p pl v); [by apply (market_start protos)|done]|apply (mk_trans _ _ H)|..].
  - eapply houses_ext; [apply (mk_houses _ _ H)|..]; done.
  - intros h id a Ha. by exists a.
  - done.
  - done.
  - apply cash_ok_set; [by eapply cash_ok_of|done].
Qed.

(** *** Commands keep it *)

Lemma send_ok p m s : market_ok s -> market_ok (send_packet p m s).
Proof. intros H. eapply market_houses; [exact H| |done..]. eapply goods_same; [apply (mk_goods _ _ H)|done..]. Qed.

Lemma run_command_ewp w c s : ew_proto w = protos -> market_ok s -> ewp (run_command w c) s (fun _ => market_ok).
Proof.
  intros Hw H. rewrite <- Hw in H |- *. unfold run_command. apply wp_get. destruct (from_option _ _ _) eqn:Eon; [|done].
  assert (forall p, player_of c = Some p -> exists pl, r_online s !! p = Some pl) as Hon.
  { intros p E. rewrite E in Eon. cbn in Eon. unfold is_online in Eon. apply bool_decide_eq_true in Eon. by destruct Eon as [pl ?]; exists pl. }
  destruct c; cbn [handle player_of] in *; try destruct (Hon p eq_refl) as [pl Hpl].
  - eapply wp_mono; [by apply SellItem_ewp|]. by intros [] s2 [? _].
  - eapply wp_mono; [by eapply PlaceBid_ewp|]. by intros [] s2 [? _].
  - eapply wp_mono; [by eapply RemoveItem_ewp|]. by intros [] s2 [? _].
  - destruct (ew_auctioneer w p npc) as [f|] eqn:Ef; [|unfold HandleAuctionListItems; by rewrite Ef].
    eapply wp_mono; [by apply (ListItems_ewp w s H p npc f)|]. intros [] s2 ->. rewrite Hw in H |- *. by apply send_ok.
  - destruct (ew_auctioneer w p npc) as [f|] eqn:Ef; [|unfold HandleAuctionListBidderItems; by rewrite Ef].
    eapply wp_mono; [by apply (ListBidderItems_ewp w s H p npc f)|]. intros [] s2 ->. rewrite Hw in H |- *. by apply send_ok.
  - destruct (ew_auctioneer w p npc) as [f|] eqn:Ef; [|unfold HandleAuctionListOwnerItems; by rewrite Ef].
    eapply wp_mono; [by apply (ListOwnerItems_ewp w s H p npc f)|]. intros [] s2 ->. rewrite Hw in H |- *. by apply send_ok.
  - by apply UpdateAuctions_ewp.
Qed.

Lemma market_step_ok s s' : market_ok s -> market_step s s' -> market_ok s'.
Proof.
  intros H [w c Hw Hr|p pl objects En|p|p pl v Hp Hv|w Hw Hf].
  - pose proof (run_command_ewp w c s Hw H) as Hc. unfold wp in Hc. destruct (run_command w c s) as [[[]|e] s2]; [done|by cbn in Hr].
  - by apply enter_ok.
  - by apply leave_ok.
  - by apply money_ok.
  - rewrite <- Hw in H |- *. destruct (StartAuctions_run w s H Hf) as (s1 & s2 & E & H1 & Es & Hr). rewrite E. by eapply reloaded_ok.
Qed.
Lemma market_reachable s s' : market_ok s -> rtc market_step s s' -> market_ok s'.
Proof. intros H Hs. induction Hs as [|s1 s2 s3 Hst Hs IH]; [done|]. apply IH. by eapply market_step_ok. Qed.

(** A realm without goods, players and auctions, whose tables of goods are empty. *)
Definition new_realm (next_auction next_mail next_item : Z) : Realm :=
  mkRealm ∅ ∅ (fun _ => ∅) ∅ next_auction next_mail next_item (mkCharDB ∅ ∅ ∅ ∅ ∅) [] [].
Lemma new_realm_ok a m i : market_ok (new_realm a m i).
Proof.
  split; [done|..].
  - intros id [r Hr]. done.
  - split; try done. intros id r. split; [done|]. by intros (h & x & Hx & _).
  - split; try done. by intros g [r Hr].
Qed.
End House.
