(* ===== verification/AuctionMoney.v ===== *)
(** * The auction house: where the money goes (model in Auction.v)

    The wealth of a realm is what players have, what is in the mail to them and
    what auctions hold as bids. *)

From S2P Require Import Prelude.
From S2P Require Import Floats.
From S2P Require Import Economy.
From S2P Require Import EconomyProofs.
From S2P Require Import Mail.
From S2P Require Import Auction.
From S2P Require Import AuctionLedger.
From S2P Require Import AuctionProofs.
From S2P Require Import AuctionCommands.
From stdpp Require Import list sorting.
Local Open Scope Z_scope.
#[local] Set Warnings "-clear-no-such-hyp".

(** ** Sums *)

Definition total (m : gmap Z Z) : Z := map_fold (fun _ => Z.add) 0 m.
Lemma total_delete m p v : m !! p = Some v -> total m = v + total (delete p m).
Proof. intros Hp. unfold total. rewrite (map_fold_delete_L _ 0 p v m); [done| |done]. intros. lia. Qed.
Lemma total_insert m p v : total (<[p := v]> m) = total m - default 0 (m !! p) + v.
Proof.
  rewrite (total_delete (<[p:=v]> m) p v) by apply lookup_insert_eq. rewrite delete_insert_eq.
  destruct (m !! p) as [x|] eqn:E; cbn; [rewrite (total_delete m p x E)|rewrite delete_id by done]; lia.
Qed.
Lemma total_credit m p v : total (credit p v m) = total m + v.
Proof.
  replace (credit p v m) with (<[p := default 0 (m !! p) + v]> m); [rewrite total_insert; lia|].
  apply map_eq. intros q. unfold credit. destruct (decide (p = q)) as [->|Hne].
  - by rewrite lookup_insert_eq, lookup_partial_alter_eq.
  - by rewrite lookup_insert_ne, lookup_partial_alter_ne.
Qed.

(** The bids the auctions of a house hold. *)
Definition escrow (L : Ledger) (h : House) : Z := total (au_bid <$> lg_auctions L h).
Definition wealth (L : Ledger) : Z :=
  total (lg_cash L) + total (lg_mail L) + (escrow L mHordeAuctions + escrow L mAllianceAuctions + escrow L mNeutralAuctions).

Lemma wealth_pay p v L : wealth (pay p v L) = wealth L + v.
Proof. unfold wealth, escrow. cbn. rewrite total_credit. lia. Qed.
Lemma wealth_pay_if b p v L : wealth (pay_if b p v L) = wealth L + if b then v else 0.
Proof. destruct b; cbn [pay_if]; [apply wealth_pay|lia]. Qed.
Lemma wealth_set_cash p v m L : lg_cash L !! p = Some m -> wealth (set_cash p v L) = wealth L + (v - m).
Proof. intros Hm. unfold wealth, escrow. cbn. rewrite total_insert, Hm. cbn. lia. Qed.
Lemma wealth_rows f L : wealth (set_rows f L) = wealth L.
Proof. done. Qed.
Lemma wealth_held f L : wealth (set_held f L) = wealth L.
Proof. done. Qed.

(** What a change of one house adds. *)
Lemma wealth_house L L' h f v : lg_cash L' = lg_cash L -> lg_mail L' = lg_mail L -> lg_auctions L' = <[h := f]> (lg_auctions L) ->
  total (au_bid <$> f) = escrow L h + v -> wealth L' = wealth L + v.
Proof.
  intros E1 E2 E3 Ef. unfold wealth. rewrite E1, E2. unfold escrow in *. rewrite E3.
  destruct h; rewrite fn_lookup_insert, !fn_lookup_insert_ne by done; lia.
Qed.
Lemma wealth_set_auction h id a a' L : listed L h id a -> wealth (set_auction h id a' L) = wealth L + (au_bid a' - au_bid a).
Proof.
  intros Ha. eapply wealth_house; [done..|]. rewrite fmap_insert, total_insert, lookup_fmap. unfold listed in Ha. rewrite Ha. cbn.
  unfold escrow. lia.
Qed.
Lemma wealth_drop h id a L : listed L h id a -> wealth (drop_auction h id L) = wealth L - au_bid a.
Proof.
  intros Ha. rewrite (wealth_house L _ h (delete id (lg_auctions L h)) (- au_bid a)); [lia|done..|]. rewrite fmap_delete. unfold escrow.
  rewrite (total_delete (au_bid <$> lg_auctions L h) id (au_bid a)); [lia|]. unfold listed in Ha. by rewrite lookup_fmap, Ha.
Qed.
Create Rewrite HintDb wealth.
#[export] Hint Rewrite wealth_pay wealth_pay_if wealth_rows wealth_held : wealth.

(** ** Commands *)

Section Money.
Context (protos : Z -> option ItemTemplate) (w : EconomyWorld).
Abbreviation market_ok := (market_ok protos).

Lemma wealth_ended h a a0 L : listed L h (au_Id a) a0 -> wealth (ended h a L) = wealth L - au_bid a0.
Proof.
  intros Ha. unfold ended. rewrite (wealth_drop h (au_Id a) a0) by exact Ha. by autorewrite with wealth.
Qed.
Lemma wealth_rebid h a a' L : listed L h (au_Id a) a -> wealth (rebid h a a' L) = wealth L + (au_bid a' - au_bid a).
Proof. intros Ha. unfold rebid. rewrite wealth_rows. by apply wealth_set_auction. Qed.

Lemma refund_listed b s a L h id a' : listed (refund w b s a L) h id a' <-> listed L h id a'.
Proof. unfold listed, refund. by autorewrite with ledger. Qed.
Lemma refund_cash b s a L : lg_cash (refund w b s a L) = lg_cash L.
Proof. unfold refund. by autorewrite with ledger. Qed.
Lemma wealth_refund b s a L : 0 <= au_bid a < 2 ^ 32 -> (b = true -> player_exists w s (au_bidder a) = true) ->
  wealth (refund w b s a L) = wealth L + if b then au_bid a else 0.
Proof.
  intros Hb He. unfold refund. rewrite wealth_pay_if, uint_small by done. destruct b; cbn [andb]; [by rewrite He|done].
Qed.

(** A bid moves the money of the bidder to the auction, as far as it fits there. *)
Lemma bid_wealth s p h a price m : market_ok s -> listed (ledger_of s (r_db s)) h (au_Id a) a -> lg_cash (ledger_of s (r_db s)) !! p = Some m ->
  au_bid a < price <= m -> price < 2 ^ 63 -> m < 2 ^ 64 -> (au_bidder a <> 0 -> player_exists w s (au_bidder a) = true) ->
  wealth (bid_ledger w s p h a price m (ledger_of s (r_db s))) = wealth (ledger_of s (r_db s)) + (u32 price - price).
Proof.
  intros H Hl Hm Hp H63 H64 Hex. pose proof (ho_entry _ _ (mk_houses _ _ H) _ _ _ Hl) as He. pose proof (en_bid _ He) as Hb.
  unfold bid_ledger. rewrite wealth_rebid by (apply (refund_listed _ s a _ h); exact Hl).
  rewrite (wealth_set_cash p _ m) by (by rewrite refund_cash). cbn [au_bid auction_set_bid].
  rewrite wealth_refund; [|done|intros E; apply andb_prop in E as [E _]; apply Hex; bool_lia].
  unfold bid_cost. pose proof (en_none _ He) as Hn. pose proof (en_bidder _ He) as Hbd.
  destruct (Z.ltb_spec 0 (au_bidder a)); cbn [andb].
  - destruct (au_bidder a =? p); cbn [negb].
    + rewrite uint_small, modified_pay by lia. lia.
    + rewrite modified_pay by lia. lia.
  - rewrite modified_pay by lia. rewrite (Hn ltac:(lia)). lia.
Qed.

Lemma buyout_wealth s p h a m : market_ok s -> listed (ledger_of s (r_db s)) h (au_Id a) a -> lg_cash (ledger_of s (r_db s)) !! p = Some m ->
  0 < p -> au_buyout a <> 0 -> au_buyout a <= m -> m < 2 ^ 64 -> (au_bidder a <> 0 -> player_exists w s (au_bidder a) = true) ->
  wealth (buyout_ledger w s p h a m (ledger_of s (r_db s))) =
    wealth (ledger_of s (r_db s)) - au_buyout a + if player_exists w s (au_owner a) then profit w (bought p a) else 0.
Proof.
  intros H Hl Hm Hp0 Hbo Hle H64 Hex. pose proof (ho_entry _ _ (mk_houses _ _ H) _ _ _ Hl) as He. pose proof (en_bid _ He) as Hb.
  pose proof (en_buyout _ He) as Hbu. destruct (en_below _ He) as [|Hlt]; [done|].
  set (L0 := refund w (negb (p =? au_bidder a) && negb (au_bidder a =? 0)) s a
    (set_cash p (modified m (- s64 (buyout_cost p a))) (ledger_of s (r_db s)))).
  assert (listed L0 h (au_Id a) a) as Hl0 by (apply (refund_listed _ s a _ h); exact Hl).
  assert (wealth L0 = wealth (ledger_of s (r_db s)) - au_buyout a + au_bid a) as E0.
  { unfold L0. rewrite wealth_refund; [|done|intros E; apply andb_prop in E as [_ E]; apply Hex; by apply negb_true_iff, Z.eqb_neq in E].
    rewrite (wealth_set_cash p _ m) by done. unfold buyout_cost. pose proof (en_none _ He) as Hn.
    destruct (Z.eqb_spec p (au_bidder a)); cbn [negb andb].
    - rewrite uint_small, modified_pay by lia. lia.
    - rewrite modified_pay by lia. destruct (Z.eqb_spec (au_bidder a) 0) as [E|E]; cbn [negb]; [rewrite (Hn E)|]; lia. }
  unfold buyout_ledger. cbv zeta. fold L0. rewrite (wealth_ended _ _ (bought p a)).
  - unfold sold_ledger. rewrite !wealth_pay_if, (wealth_set_auction _ _ a) by done. rewrite E0. cbn [au_bid bought auction_set_bid au_owner].
    destruct (player_exists w s p), (player_exists w s (au_owner a)); lia.
  - unfold listed, sold_ledger. autorewrite with ledger. cbn. by rewrite fn_lookup_insert, lookup_insert_eq.
Qed.
End Money.
