(* ===== verification/AuctionSpec.v ===== *)
(** * The auction house: its properties (model in Auction.v)

    What holds of every state of the auction house and of each command, with the
    runs that show that the hypotheses can be met. *)

From S2P Require Import Prelude.
From S2P Require Import Floats.
From S2P Require Import Economy.
From S2P Require Import EconomyProofs.
From S2P Require Import Mail.
From S2P Require Import Auction.
From S2P Require Import AuctionLedger.
From S2P Require Import AuctionProofs.
From S2P Require Import AuctionCommands.
From S2P Require Import AuctionSell.
From S2P Require Import AuctionLists.
From S2P Require Import AuctionRestart.
From S2P Require Import AuctionHouse.
From S2P Require Import AuctionMoney.
From stdpp Require Import list sorting.
Local Open Scope Z_scope.
#[local] Set Warnings "-clear-no-such-hyp".

(** ** A day at a house of the Horde *)

Definition cloth : ItemTemplate := mkItemTemplate 20 0 50 0 0 7 5 0 1 0.
Definition one : spec_float := float_of_Z 1.
Definition orgrimmar : AuctionHouseEntry := mkAuctionHouseEntry 6 29 5 5.
Definition fair_protos (entry : Z) : option ItemTemplate := if entry =? 2589 then Some cloth else None.
(** Three players, 1, 2 and 3, have accounts, and creature 77 is an auctioneer. *)
Definition fair (now : Z) : EconomyWorld :=
  mkEconomyWorld now now 3600 false one one one fair_protos (fun p => if (1 <=? p) && (p <=? 3) then 100 + p else 0)
    (fun _ => false) (fun _ => false) (fun _ => false) (fun _ _ => []) (fun f => if f =? 29 then Some 4 else None)
    (fun h => if h =? 6 then Some orgrimmar else None) (fun g => if g =? 77 then Some 8673 else None)
    (fun c => if c =? 8673 then Some 29 else None) (fun _ npc => if npc =? 77 then Some 29 else None)
    (fun _ => []) (fun _ => 0) (fun _ => 0) (fun _ _ => true) (fun _ _ _ => true) (fun _ _ => true) (fun _ => false).

Definition trader (money : Z) (bags : gmap Z Z) : Player := mkPlayer money bags false false [] ∅ 0 0.
Definition stack (count owner : Z) : Item := mkItem 2589 count owner 0 0 0 ITEM_NEW.

Definition fair0 : Realm := new_realm 1 1 100.
Definition fair1 : Realm := enter 1 (trader 10000 {[0 := 10]}) {[10 := stack 20 1]} fair0.
Definition fair2 : Realm := enter 2 (trader 9000 ∅) ∅ fair1.
Definition fair3 : Realm := enter 3 (trader 9000 ∅) ∅ fair2.
(** Player 1 sells a part of his stack. *)
Definition sale : MarketCommand := SellItem 1 77 [(item_guid 10, 5)] 1000 4000 720.
Definition fair4 : Realm := (run_command (fair 5000) sale fair3).2.
Definition bid1 : MarketCommand := PlaceBid 2 77 1 1000.
Definition fair5 : Realm := (run_command (fair 5100) bid1 fair4).2.

Lemma fair3_steps : rtc (market_step fair_protos) fair0 fair3.
Proof.
  eapply rtc_l; [apply (step_enter fair_protos fair0 1 (trader 10000 {[0 := 10]}) {[10 := stack 20 1]})|].
  { split; try done; cbn; try lia.
    - apply NoDup_singleton.
    - intros g i [<- <-]%lookup_singleton_Some. split_and!; done. }
  eapply rtc_l; [apply (step_enter fair_protos fair1 2 (trader 9000 ∅) ∅)|].
  { split; try done; cbn; try lia. constructor. }
  apply rtc_once, (step_enter fair_protos fair2 3 (trader 9000 ∅) ∅). split; try done; cbn; try lia. constructor.
Qed.
Lemma fair5_steps : rtc (market_step fair_protos) fair0 fair5.
Proof.
  transitivity fair3; [exact fair3_steps|]. eapply rtc_l.
  - apply (step_command fair_protos fair3 (fair 5000) sale eq_refl). vm_compute. reflexivity.
  - apply rtc_once, (step_command fair_protos fair4 (fair 5100) bid1 eq_refl). vm_compute. reflexivity.
Qed.
Lemma fair_ok s : rtc (market_step fair_protos) fair0 s -> market_ok fair_protos s.
Proof. apply market_reachable, new_realm_ok. Qed.

(** ** The auction house *)

(** C1. Whatever players do at the auction house, however they come and go and
    whenever the server is restarted, every auction is in one house, is a row of
    the database, and has an item of its own that nobody else has; and no command
    fails, but for ids that run out and numbers out of the range of a float or of
    [int64]: no handler follows a pointer to an item or a player that is gone. *)
Theorem auction_house_safe protos next_auction next_mail next_item s w c :
  rtc (market_step protos) (new_realm next_auction next_mail next_item) s -> ew_proto w = protos ->
  market_ok protos s /\
  match run_command w c s with (Ok _, s') => market_ok protos s' | (Err e, _) => limits e end.
Proof.
  intros Hs Hw. assert (market_ok protos s) as H by (eapply market_reachable; [apply new_realm_ok|exact Hs]).
  split; [exact H|]. exact (run_command_ewp protos w c s Hw H).
Qed.
Lemma auction_house_safe_witness : market_ok fair_protos fair5 /\
  exists s', run_command (fair 5200) (PlaceBid 3 77 1 4000) fair5 = (Ok tt, s') /\ market_ok fair_protos s'.
Proof.
  destruct (auction_house_safe fair_protos 1 1 100 fair5 (fair 5200) (PlaceBid 3 77 1 4000) fair5_steps eq_refl) as [H1 H2].
  split; [exact H1|]. assert ((run_command (fair 5200) (PlaceBid 3 77 1 4000) fair5).1 = Ok tt) as E by (vm_compute; reflexivity).
  destruct (run_command (fair 5200) (PlaceBid 3 77 1 4000) fair5) as [r s']. cbn in E. subst r. exists s'. split; [reflexivity|exact H2].
Defined.

(** C38. Every auction that there ever is has prices and bids of 32 bits, stands in its
    house and in the database under its own id, has a bidder who is not its owner
    or no bid at all, and a bid below its buyout; its item is at the manager, with
    the entry and the count that the auction says, in memory and in the database. *)
Theorem auctions_well_formed protos next_auction next_mail next_item s h id a :
  rtc (market_step protos) (new_realm next_auction next_mail next_item) s -> r_auctions s h !! id = Some a ->
  au_Id a = id /\ entry_ok a /\ db_auctions (r_db s) !! id = Some (auction_row a) /\ au_itemGUIDLow a ∈ r_aitems s /\
  exists i r, r_items s !! au_itemGUIDLow a = Some i /\ it_entry i = au_itemEntry a /\ it_count i = au_itemCount a /\
    db_items (r_db s) !! au_itemGUIDLow a = Some r /\ ir_entry r = au_itemEntry a /\ ir_count r = au_itemCount a.
Proof.
  intros Hs Ha. assert (market_ok protos s) as H by (eapply market_reachable; [apply new_realm_ok|exact Hs]).
  pose proof (mk_houses _ _ H) as Hh. assert (listed (ledger_of s (r_db s)) h id a) as Hl by exact Ha.
  split; [apply (ho_id _ _ Hh h id a Hl)|]. split; [apply (ho_entry _ _ Hh h id a Hl)|]. split; [apply (ho_rows _ _ Hh id); by exists h, a|].
  by apply (go_listed _ _ _ _ _ (mk_goods _ _ H) h id a).
Qed.
Lemma auctions_well_formed_witness : exists a, r_auctions fair5 mHordeAuctions !! 1 = Some a /\ entry_ok a /\ au_itemGUIDLow a = 100.
Proof.
  assert (exists a, r_auctions fair5 mHordeAuctions !! 1 = Some a /\ au_itemGUIDLow a = 100) as (a & Ha & E)
    by (vm_compute; eexists; split; reflexivity).
  exists a. destruct (auctions_well_formed fair_protos 1 1 100 fair5 mHordeAuctions 1 a fair5_steps Ha) as (_ & H & _). split; [exact Ha|].
  split; [exact H|exact E].
Defined.

(** ** Bids *)

Definition in_mail (L : Ledger) (q : Z) : Z := default 0 (lg_mail L !! q).
Lemma in_mail_pay p v L q : in_mail (pay p v L) q = in_mail L q + if decide (q = p) then v else 0.
Proof.
  unfold in_mail, pay, credit. cbn. case_decide as Hq.
  - subst. by rewrite lookup_partial_alter_eq.
  - rewrite lookup_partial_alter_ne by done. lia.
Qed.
Lemma in_mail_pay_if b p v L q : in_mail (pay_if b p v L) q = in_mail L q + if b then (if decide (q = p) then v else 0) else 0.
Proof. destruct b; cbn [pay_if]; [apply in_mail_pay|lia]. Qed.

(** What a player pays who had bid on the auction before, or had not. *)
Definition to_pay (p : Z) (a : AuctionEntry) (price : Z) : Z := if au_bidder a =? p then price - au_bid a else price.
(** What goes back to the player who is outbid. *)
Definition paid_back (w : EconomyWorld) (s : Realm) (p : Z) (a : AuctionEntry) (q : Z) : Z :=
  if negb (au_bidder a =? 0) && negb (au_bidder a =? p) && player_exists w s (au_bidder a)
  then (if decide (q = au_bidder a) then au_bid a else 0) else 0.

Definition bid_effect (w : EconomyWorld) (s : Realm) (p id price m : Z) (h : House) (a : AuctionEntry) (L L2 : Ledger) : Prop :=
  let a' := auction_set_bid p (u32 price) a in
  listed L2 h id a' /\ lg_rows L2 !! id = Some (auction_row a') /\ lg_aitems L2 = lg_aitems L /\
  lg_cash L2 !! p = Some (m - to_pay p a price) /\ forall q, in_mail L2 q = in_mail L q + paid_back w s p a q.
Definition buyout_effect (w : EconomyWorld) (s : Realm) (p id m : Z) (h : House) (a : AuctionEntry) (L L2 : Ledger) : Prop :=
  lg_auctions L2 h !! id = None /\ lg_rows L2 !! id = None /\ lg_aitems L2 = lg_aitems L ∖ {[au_itemGUIDLow a]} /\
  lg_cash L2 !! p = Some (m - to_pay p a (au_buyout a)) /\
  forall q, in_mail L2 q = in_mail L q + paid_back w s p a q +
    if player_exists w s (au_owner a) then (if decide (q = au_owner a) then profit w (bought p a) else 0) else 0.

Lemma bid_ledger_effect w s p h a price m : market_ok (ew_proto w) s -> listed (ledger_of s (r_db s)) h (au_Id a) a -> 0 < p ->
  au_bid a < price <= m -> m < 2 ^ 63 ->
  bid_effect w s p (au_Id a) price m h a (ledger_of s (r_db s)) (bid_ledger w s p h a price m (ledger_of s (r_db s))).
Proof.
  intros H Hl Hp0 Hp Hm. pose proof (ho_entry _ _ (mk_houses _ _ H) _ _ _ Hl) as He. pose proof (en_bid _ He) as Hb.
  pose proof (en_bidder _ He) as Hbd. pose proof (en_none _ He) as Hn. unfold bid_effect. cbv zeta. split_and!.
  - apply listed_set. by left.
  - unfold bid_ledger, rebid. cbn. rewrite lookup_alter_Some. left. split; [done|]. exists (auction_row a). split; [|done].
    unfold refund. autorewrite with ledger. cbn. apply (ho_rows _ _ (mk_houses _ _ H)). by exists h, a.
  - unfold bid_ledger, refund. by books.
  - unfold bid_ledger, rebid. cbn. rewrite lookup_insert_eq. f_equal. unfold bid_cost, to_pay. destruct (Z.eqb_spec (au_bidder a) p).
    + rewrite andb_true_r, (proj2 (Z.ltb_lt 0 (au_bidder a))) by lia. rewrite uint_small, modified_pay by lia. lia.
    + rewrite andb_false_r, modified_pay by lia. lia.
  - intros q. unfold bid_ledger, rebid, refund, paid_back. change (in_mail (set_rows ?f ?l) q) with (in_mail l q).
    change (in_mail (set_auction ?x ?y ?z ?l) q) with (in_mail l q). change (in_mail (set_cash ?x ?y ?l) q) with (in_mail l q).
    rewrite in_mail_pay_if, uint_small by done. f_equal.
    assert ((0 <? au_bidder a) = negb (au_bidder a =? 0)) as -> by (destruct (Z.ltb_spec 0 (au_bidder a)), (Z.eqb_spec (au_bidder a) 0); lia).
    done.
Qed.
Lemma buyout_ledger_effect w s p h a m : market_ok (ew_proto w) s -> listed (ledger_of s (r_db s)) h (au_Id a) a ->
  au_buyout a <> 0 -> au_buyout a <= m -> m < 2 ^ 63 ->
  buyout_effect w s p (au_Id a) m h a (ledger_of s (r_db s)) (buyout_ledger w s p h a m (ledger_of s (r_db s))).
Proof.
  intros H Hl Hbo Hle Hm. pose proof (ho_entry _ _ (mk_houses _ _ H) _ _ _ Hl) as He. pose proof (en_bid _ He) as Hb.
  pose proof (en_buyout _ He) as Hbu. destruct (en_below _ He) as [|Hlt]; [done|]. unfold buyout_effect, buyout_ledger. cbv zeta. split_and!.
  - unfold ended. cbn. by rewrite fn_lookup_insert, lookup_delete_eq.
  - unfold ended. cbn. by rewrite lookup_delete_eq.
  - unfold ended, sold_ledger, refund. by books.
  - unfold ended, sold_ledger, refund. books. rewrite lookup_insert_eq. f_equal. unfold buyout_cost, to_pay.
    rewrite (Z.eqb_sym p). destruct (Z.eqb_spec (au_bidder a) p); [rewrite uint_small|]; rewrite ?modified_pay by lia; lia.
  - intros q. unfold ended. change (in_mail (drop_auction ?x ?y ?l) q) with (in_mail l q).
    change (in_mail (set_held ?x (set_rows ?y ?l)) q) with (in_mail l q). unfold sold_ledger, refund, paid_back. rewrite !in_mail_pay_if.
    change (in_mail (set_auction ?x ?y ?z ?l) q) with (in_mail l q). rewrite in_mail_pay_if, uint_small by done.
    change (in_mail (set_cash ?x ?y ?l) q) with (in_mail l q). cbn [au_owner bought auction_set_bid].
    rewrite (Z.eqb_sym p), (andb_comm (negb (au_bidder a =? p))). repeat case_decide; repeat case_match; lia.
Qed.

(** C3. A bid is taken when the auction is at that auctioneer's house and somebody
    else's, the price is above the bid and at least the start bid and, below the
    buyout, the next step, and the player has the money: below the buyout the
    auction and its row then carry the new bid, at it the auction, the row and
    the item leave the house; the player has paid the difference, whoever was outbid
    has his bid in the mail, and a seller his profit.  Otherwise nothing changes. *)
Theorem PlaceBid_spec w s p npc id price pl : market_ok (ew_proto w) s -> r_online s !! p = Some pl -> pl_money pl < 2 ^ 63 ->
  ewp (HandleAuctionPlaceBid w p npc id price) s (fun _ s2 =>
    let L := ledger_of s (r_db s) in let L2 := ledger_of s2 (r_db s2) in
    match bid_decision w s p npc id price (pl_money pl) with
    | None => L2 = L
    | Some (h, a) => au_Id a = id /\
        if below_buyout a price then bid_effect w s p id price (pl_money pl) h a L L2 else buyout_effect w s p id (pl_money pl) h a L L2
    end).
Proof.
  intros H Hpl Hm. eapply wp_mono; [by apply (PlaceBid_ewp (ew_proto w) w s p npc id price pl)|]. intros _ s2 [_ E]. cbv zeta. rewrite E.
  unfold bid_outcome. destruct (bid_decision w s p npc id price (pl_money pl)) as [[h a]|] eqn:Ed; [|done].
  destruct (bid_decision_listed (ew_proto w) w s p npc id price (pl_money pl) h a H Ed) as (Hl & _ & Hbid & Hpr & _).
  assert (au_Id a = id) as <-.
  { unfold bid_decision in Ed. destruct (_ || _); [done|]. destruct (ew_auctioneer w p npc) as [f|]; [|done]. cbv zeta in Ed.
    destruct (r_auctions s (GetAuctionsMap w f) !! id) as [a0|] eqn:Ea; [|done]. destruct (_ && _); [|done]. simplify_eq.
    by apply (ho_id _ _ (mk_houses _ _ H) (GetAuctionsMap w f) id a). }
  split; [done|]. destruct (below_buyout a price) eqn:Eb.
  - apply bid_ledger_effect; try done; [|lia]. by apply (go_player _ _ _ _ _ (mk_goods _ _ H) p pl).
  - unfold below_buyout in Eb. apply orb_false_iff in Eb as [Eb1%Z.ltb_ge Eb2%Z.eqb_neq]. apply buyout_ledger_effect; try done. lia.
Qed.
Lemma PlaceBid_spec_witness : exists s2, HandleAuctionPlaceBid (fair 5200) 3 77 1 4000 fair5 = (Ok tt, s2) /\
  lg_cash (ledger_of s2 (r_db s2)) !! 3 = Some 5000 /\ in_mail (ledger_of s2 (r_db s2)) 2 = 1000.
Proof.
  assert (r_online fair5 !! 3 = Some (trader 9000 ∅)) as Hpl by (vm_compute; reflexivity).
  pose proof (PlaceBid_spec (fair 5200) fair5 3 77 1 4000 _ (fair_ok _ fair5_steps) Hpl eq_refl) as H. unfold wp in H.
  assert ((HandleAuctionPlaceBid (fair 5200) 3 77 1 4000 fair5).1 = Ok tt) as E by (vm_compute; reflexivity).
  destruct (HandleAuctionPlaceBid (fair 5200) 3 77 1 4000 fair5) as [r s2]. cbn in E. subst r. exists s2. split; [reflexivity|].
  assert (exists h a, bid_decision (fair 5200) fair5 3 77 1 4000 9000 = Some (h, a) /\ below_buyout a 4000 = false /\
    to_pay 3 a (au_buyout a) = 4000 /\ paid_back (fair 5200) fair5 3 a 2 = 1000 /\ au_owner a = 1) as (h & a & Ed & Eb & Ep & Em & Eo)
    by (vm_compute; do 2 eexists; repeat split; reflexivity).
  cbv zeta in H. change (pl_money (trader 9000 ∅)) with 9000 in H. rewrite Ed, Eb in H. destruct H as (_ & _ & _ & _ & Hc & Hmail).
  split; [rewrite Hc, Ep; reflexivity|]. rewrite Hmail, Em, Eo. assert (in_mail (ledger_of fair5 (r_db fair5)) 2 = 0) as -> by (vm_compute; reflexivity).
  destruct (player_exists _ _ _); reflexivity.
Defined.

(** C4. A bid neither makes nor loses money, as long as it fits 32 bits and whoever is
    outbid still exists: what players have, what is in the mail and what the auctions
    hold is the same in all.  What a bid has above 32 bits is lost.  A buyout brings
    the seller's profit for the price: the deposit comes back and the cut goes. *)
Theorem bids_conserve_money w s p npc id price pl h a : market_ok (ew_proto w) s -> r_online s !! p = Some pl ->
  bid_decision w s p npc id price (pl_money pl) = Some (h, a) -> price < 2 ^ 63 ->
  (au_bidder a <> 0 -> player_exists w s (au_bidder a) = true) ->
  ewp (HandleAuctionPlaceBid w p npc id price) s (fun _ s2 =>
    wealth (ledger_of s2 (r_db s2)) = wealth (ledger_of s (r_db s)) +
      if below_buyout a price then u32 price - price
      else (if player_exists w s (au_owner a) then profit w (bought p a) else 0) - au_buyout a).
Proof.
  intros H Hpl Hd H63 Hex. eapply wp_mono; [by apply (PlaceBid_ewp (ew_proto w) w s p npc id price pl)|]. intros _ s2 [_ ->].
  unfold bid_outcome. rewrite Hd. destruct (bid_decision_listed (ew_proto w) w s p npc id price _ h a H Hd) as (Hl & _ & Hbid & Hpr & _).
  destruct (go_player _ _ _ _ _ (mk_goods _ _ H) p pl Hpl) as [Hp0 Hm].
  assert (lg_cash (ledger_of s (r_db s)) !! p = Some (pl_money pl)) as Hcash by (cbn; by rewrite lookup_fmap, Hpl).
  destruct (below_buyout a price) eqn:Eb.
  - rewrite (bid_wealth (ew_proto w)) by (try done; lia). lia.
  - unfold below_buyout in Eb. apply orb_false_iff in Eb as [Eb1%Z.ltb_ge Eb2%Z.eqb_neq].
    rewrite (buyout_wealth (ew_proto w)) by (try done; lia). lia.
Qed.
Lemma bids_conserve_money_witness : exists s2, HandleAuctionPlaceBid (fair 5200) 3 77 1 1100 fair5 = (Ok tt, s2) /\
  wealth (ledger_of s2 (r_db s2)) = wealth (ledger_of fair5 (r_db fair5)).
Proof.
  assert (r_online fair5 !! 3 = Some (trader 9000 ∅)) as Hpl by (vm_compute; reflexivity).
  assert (exists h a, bid_decision (fair 5200) fair5 3 77 1 1100 9000 = Some (h, a) /\ below_buyout a 1100 = true /\
    player_exists (fair 5200) fair5 (au_bidder a) = true) as (h & a & Ed & Eb & Ee) by (vm_compute; do 2 eexists; repeat split; reflexivity).
  pose proof (bids_conserve_money (fair 5200) fair5 3 77 1 1100 _ h a (fair_ok _ fair5_steps) Hpl Ed eq_refl (fun _ => Ee)) as H.
  unfold wp in H. rewrite Eb in H.
  assert ((HandleAuctionPlaceBid (fair 5200) 3 77 1 1100 fair5).1 = Ok tt) as E by (vm_compute; reflexivity).
  destruct (HandleAuctionPlaceBid (fair 5200) 3 77 1 1100 fair5) as [r s2]. cbn in E. subst r. exists s2. split; [reflexivity|].
  rewrite H. change (u32 1100 - 1100) with 0. apply Z.add_0_r.
Defined.


(** ** Lists *)

(** C40. A search shows the page of the matching auctions that begins at [listfrom], at most
    50 of them in the order of their ids, and how many match in all; it changes nothing. *)
Theorem search_spec w s p npc faction listfrom q : market_ok (ew_proto w) s -> ew_auctioneer w p npc = Some faction -> 0 <= listfrom ->
  let l := filter (matches w s p q) (catalogue s (GetAuctionsMap w faction)) in len l < 2 ^ 32 ->
  ewp (HandleAuctionListItems w p npc listfrom q) s (fun _ s2 => s2 = send_packet p (SMSG_AUCTION_LIST_RESULT
    (le_bytes 4 (len (page listfrom l)) ++ flat_map (info w s) (page listfrom l) ++ le_bytes 4 (len l) ++ le_bytes 4 300)) s).
Proof.
  intros H Hf Hfrom l Hl. eapply wp_mono; [by apply (ListItems_ewp w s H p npc faction listfrom q)|]. intros _ s2 ->. by rewrite search_packet.
Qed.
Definition anything : AuctionSearch := mkAuctionSearch [] 0 0 0 ANY ANY ANY ANY.
Lemma search_spec_witness : exists s2, HandleAuctionListItems (fair 5200) 3 77 0 anything fair5 = (Ok tt, s2) /\
  s2 = send_packet 3 (SMSG_AUCTION_LIST_RESULT (le_bytes 4 1 ++
    flat_map (info (fair 5200) fair5) (catalogue fair5 mHordeAuctions) ++ le_bytes 4 1 ++ le_bytes 4 300)) fair5.
Proof.
  assert (page 0 (filter (matches (fair 5200) fair5 3 anything) (catalogue fair5 (GetAuctionsMap (fair 5200) 29))) =
    catalogue fair5 mHordeAuctions) as Ep by (vm_compute; reflexivity).
  assert (len (filter (matches (fair 5200) fair5 3 anything) (catalogue fair5 (GetAuctionsMap (fair 5200) 29))) = 1) as El by (vm_compute; reflexivity).
  pose proof (search_spec (fair 5200) fair5 3 77 29 0 anything (fair_ok _ fair5_steps) eq_refl (Z.le_refl 0)) as H. cbv zeta in H.
  rewrite El, Ep in H. specialize (H ltac:(lia)). unfold wp in H.
  assert ((HandleAuctionListItems (fair 5200) 3 77 0 anything fair5).1 = Ok tt) as E by (vm_compute; reflexivity).
  destruct (HandleAuctionListItems (fair 5200) 3 77 0 anything fair5) as [r s2]. cbn in E. subst r. exists s2. split; [reflexivity|].
  rewrite H. assert (len (catalogue fair5 mHordeAuctions) = 1) as -> by (vm_compute; reflexivity). reflexivity.
Defined.

(** ** Restarts *)

