(* ===== verification/MailHandlers.v ===== *)
(** * The mail handlers (src/src/serveur/jeu/Handlers/MailHandler.cpp)

    What a player asks of his mailbox, each request decoded: sending a mail,
    marking one as read, deleting it, returning it, taking its items and money,
    making a letter of it, and listing what there is.  What the world answers a
    handler beside [EconomyWorld] is a [MailWorld].  The update queue of a player
    is read off the states of his items: those in his bags that are new or
    changed, and those he owned that are removed. *)

From S2P Require Import Prelude.
From S2P Require Import Floats.
From S2P Require Import Economy.
From S2P Require Import Mail.
From stdpp Require Import sorting.
Local Open Scope Z_scope.

Definition MAIL_SEND := 0.
Definition MAIL_MONEY_TAKEN := 1.
Definition MAIL_ITEM_TAKEN := 2.
Definition MAIL_RETURNED_TO_SENDER := 3.
Definition MAIL_DELETED := 4.
Definition MAIL_MADE_PERMANENT := 5.

Definition MAIL_OK := 0.
Definition MAIL_ERR_EQUIP_ERROR := 1.
Definition MAIL_ERR_CANNOT_SEND_TO_SELF := 2.
Definition MAIL_ERR_NOT_ENOUGH_MONEY := 3.
Definition MAIL_ERR_RECIPIENT_NOT_FOUND := 4.
Definition MAIL_ERR_NOT_YOUR_TEAM := 5.
Definition MAIL_ERR_INTERNAL_ERROR := 6.
Definition MAIL_ERR_RECIPIENT_CAP_REACHED := 15.
Definition MAIL_ERR_CANT_SEND_WRAPPED_COD := 16.
Definition MAIL_ERR_TOO_MANY_ATTACHMENTS := 18.
Definition MAIL_ERR_MAIL_ATTACHMENT_INVALID := 19.

Definition EQUIP_ERR_ITEM_NOT_FOUND := 23.
Definition EQUIP_ERR_DESTROY_NONEMPTY_BAG := 31.
Definition EQUIP_ERR_MAIL_BOUND_ITEM := 72.
Definition EQUIP_ERR_TOO_MUCH_GOLD := 77.
Definition EQUIP_ERR_NOT_SAME_ACCOUNT := 82.

Definition LANG_MAIL_SENDER_REQ := 6611.
Definition LANG_MAIL_RECEIVER_REQ := 6612.
Definition MAIL_BODY_ITEM_TEMPLATE := 8383.
(** Readable, and two unnamed flags. *)
Definition ITEM_FLAG_MAIL_TEXT_MASK := 786944.
Definition BIND_WHEN_PICKED_UP := 1.
Definition BIND_WHEN_EQUIPED := 2.
Definition BIND_QUEST_ITEM := 4.

(** Whether a mailbox is in reach, the level below which there is no mail, the
    levels and teams of players, the player with a name (0 if there is none), who
    may write to the other team, the account of a session, the guild perk between
    two players, where the bags have room for an item (an error code or the
    positions with counts), and the durability of an item, full and present. *)
Record MailWorld := mkMailWorld {
  mw_mailbox : Z -> Z -> bool;
  mw_level_req : Z;
  mw_level : Z -> Z;
  mw_team : Z -> Z;
  mw_by_name : list Z -> Z;
  mw_two_side_mail : Z -> bool;
  mw_session : Z -> Z;
  mw_guild_mail : Z -> Z -> bool;
  mw_CanStoreItem : Z -> Z -> Z + list (Z * Z);
  mw_durability : Z -> Z * Z
}.

Definition SendMailResult (p mailId action error equipError item_guid item_count : Z) : RP unit :=
  SendPacket p (SMSG_SEND_MAIL_RESULT (le_bytes 4 mailId ++ le_bytes 4 action ++ le_bytes 4 error ++
    (if error =? MAIL_ERR_EQUIP_ERROR then le_bytes 4 equipError
     else if action =? MAIL_ITEM_TAKEN then le_bytes 4 item_guid ++ le_bytes 4 item_count
     else []))).

(** ** Storing items *)

Definition INVENTORY_SLOT_BAG_0 := 255.
Definition is_bag_slot (slot : Z) : bool := ((19 <=? slot) && (slot <? 23)) || ((67 <=? slot) && (slot <? 74)).
Definition IsBagPos (pos : Z) : bool := (Z.shiftr pos 8 =? INVENTORY_SLOT_BAG_0) && is_bag_slot (Z.land pos 255).
Definition bag_0_pos (slot : Z) : Z := Z.lor (Z.shiftl INVENTORY_SLOT_BAG_0 8) slot.
(** The bag in a slot; that what is there is one is for [CanStoreItem]. *)
Definition GetBagByPos (pl : Player) (bag : Z) : option Z := if is_bag_slot bag then pl_bags pl !! bag_0_pos bag else None.

Definition SetBinding (i : Item) : Item := item_set_flags (Z.lor (it_flags i) ITEM_FLAG_SOULBOUND) i.
Definition binds (t : ItemTemplate) (pos : Z) : bool :=
  (ip_Bonding t =? BIND_WHEN_PICKED_UP) || (ip_Bonding t =? BIND_QUEST_ITEM) || ((ip_Bonding t =? BIND_WHEN_EQUIPED) && IsBagPos pos).
Definition ClearSoulboundTradeable (i : Item) : Item := item_set_flags (Z.ldiff (it_flags i) ITEM_FLAG_BOP_TRADEABLE) i.
(** [Item::SetState(ITEM_REMOVED)] *)
Definition remove_item (g : Z) : RP unit :=
  i ← deref_item g;
  match it_state i with
  | ITEM_NEW => delete_item g
  | _ => upd_item g (SetState ITEM_REMOVED)
  end.

Section Store.
Context (w : EconomyWorld).

(** The item in hand goes to an empty position. *)
Definition place_item (p pos g : Z) : RP unit :=
  t ← GetTemplate w g;
  (if binds t pos then upd_item g SetBinding else mret tt);;
  pl ← deref_player p;
  match GetBagByPos pl (Z.shiftr pos 8) with
  | None =>
      upd_player p (player_set_bags (<[bag_0_pos (Z.land pos 255) := g]> (pl_bags pl)));;
      upd_item g (fun i => SetState ITEM_CHANGED (item_set_owner p i))
  | Some b =>
      owner ← deref_item b;
      upd_player p (player_set_bags (<[pos := g]> (pl_bags pl)));;
      upd_item g (fun i => SetState ITEM_CHANGED (item_set_owner (it_owner owner) i));;
      upd_item b (SetState ITEM_CHANGED)
  end.
(** [Player::_StoreItem], the last argument [clone]. *)
Definition StoreItem_at (p pos g count : Z) (clone : bool) : RP (option Z) :=
  pl ← deref_player p;
  match pl_bags pl !! pos with
  | None =>
      o ← (if clone then CloneItem w g count p else upd_item g (item_set_count (u32 count));; mret (Some g));
      match o with
      | None => mret None
      | Some n => place_item p pos n;; mret (Some n)
      end
  | Some g2 =>
      t ← GetTemplate w g2;
      (if binds t pos then upd_item g2 SetBinding else mret tt);;
      upd_item g2 (fun j => item_set_count (u32 (it_count j + count)) j);;
      (if clone then mret tt
       else upd_item g (fun i => ClearSoulboundTradeable (SetNotRefundable true (item_set_owner p i)));; remove_item g);;
      upd_item g2 (SetState ITEM_CHANGED);;
      mret (Some g2)
  end.
(** [Player::StoreItem]: clones for all positions but the last. *)
Fixpoint StoreItem (p : Z) (dest : list (Z * Z)) (g : Z) : RP (option Z) :=
  match dest with
  | [] => mret (Some g)
  | [(pos, count)] => StoreItem_at p pos g count false
  | (pos, count) :: dest' => StoreItem_at p pos g count true;; StoreItem p dest' g
  end.
Definition MoveItemToInventory (p : Z) (dest : list (Z * Z)) (g : Z) : RP unit :=
  deref_item g;;
  o ← StoreItem p dest g;
  if bool_decide (o = Some g) then upd_item g (fun i => SetState ITEM_NEW (item_set_owner p i)) else mret tt.
End Store.

Definition is_queued (bags : list Z) (p : Z) (e : Z * Item) : bool :=
  match it_state e.2 with
  | ITEM_NEW | ITEM_CHANGED => bool_decide (e.1 ∈ bags)
  | ITEM_REMOVED => it_owner e.2 =? p
  | ITEM_UNCHANGED => false
  end.
(** [m_itemUpdateQueue] *)
Definition update_queue (s : Realm) (p : Z) (pl : Player) : list Z :=
  (filter (fun e => is_queued (in_order (pl_bags pl)).*2 p e = true) (in_order (r_items s))).*1.
Definition SaveInventory (p : Z) : RP unit :=
  pl ← deref_player p;
  s ← get;
  forM (update_queue s p pl) SaveToDB.
Definition SaveInventoryAndGoldToDB (p : Z) : RP unit := SaveInventory p;; SaveGoldToDB p.

(** The mail in [Player::SaveToDB]. *)
Definition SaveToDB_mail (p : Z) : RP unit :=
  pl ← deref_player p; if pl_mailsUpdated pl then SaveMail p else mret tt.

(** ** Requests *)

(** What is done through the pointer that [GetMail] returned. *)
Fixpoint change_mail (id : Z) (f : Mail -> Mail) (l : list Mail) : list Mail :=
  match l with
  | [] => []
  | m :: l' => if ml_messageID m =? id then f m :: l' else m :: change_mail id f l'
  end.
Definition upd_mail (p id : Z) (f : Mail -> Mail) : RP unit :=
  upd_player p (fun pl => player_set_mails (change_mail id f (pl_mails pl)) pl).
Definition set_updated (p : Z) : RP unit := upd_player p (player_set_updated true).

Section Handlers.
Context (w : EconomyWorld) (mw : MailWorld).

(** Neither deleted nor still on its way. *)
Definition mail_open (m : Mail) : bool := negb (mail_deleted m) && (ml_deliver_time m <=? ew_time w).
Definition find_open (pl : Player) (id : Z) : option Mail :=
  match GetMail pl id with Some m => if mail_open m then Some m else None | None => None end.

Definition mark_read (m : Mail) : Mail :=
  mail_with (ml_items m) (ml_removedItems m) (ml_money m) (ml_COD m) (Z.lor (ml_checked m) MAIL_CHECK_MASK_READ) MAIL_STATE_CHANGED m.
Definition HandleMailMarkAsRead (p mailbox mailId : Z) : RP unit :=
  if mw_mailbox mw p mailbox then
    pl ← deref_player p;
    match GetMail pl mailId with
    | Some _ =>
        upd_player p (fun pl => if pl_unReadMails pl =? 0 then pl else player_set_unread (pl_unReadMails pl - 1) pl);;
        upd_mail p mailId mark_read;;
        set_updated p
    | None => mret tt
    end
  else mret tt.

Definition HandleMailDelete (p mailbox mailId : Z) : RP unit :=
  if mw_mailbox mw p mailbox then
    set_updated p;;
    pl ← deref_player p;
    match GetMail pl mailId with
    | Some m =>
        if negb (ml_COD m =? 0) then SendMailResult p mailId MAIL_DELETED MAIL_ERR_INTERNAL_ERROR 0 0 0
        else
          upd_mail p mailId (mail_set_state MAIL_STATE_DELETED);;
          SendMailResult p mailId MAIL_DELETED MAIL_OK 0 0 0
    | None => SendMailResult p mailId MAIL_DELETED MAIL_OK 0 0 0
    end
  else mret tt.

(** The loop over the items of the mail that is returned. *)
Fixpoint take_out (p : Z) (l : list (Z * Z)) (d : MailDraft) : RP MailDraft :=
  match l with
  | [] => mret d
  | i :: l' =>
      pl ← deref_player p;
      RemoveMItem p i.1;;
      take_out p l' (match GetMItem pl i.1 with Some g => AddItem g d | None => d end)
  end.
Definition return_mail (p : Z) (m : Mail) : RP unit :=
  if (ml_messageType m =? MAIL_NORMAL) && negb (ml_sender m =? 0) then
    d ← take_out p (ml_items m)
          (if ml_mailTemplateId m =? 0 then MailDraft_new (ml_subject m) (ml_body m) else MailDraft_template (ml_mailTemplateId m) false);
    SendReturnToSender w (mw_session mw p) (ml_receiver m) (ml_sender m) (AddMoney (ml_money m) d)
  else mret tt.
Definition HandleMailReturnToSender (p mailbox mailId : Z) : RP unit :=
  if mw_mailbox mw p mailbox then
    pl ← deref_player p;
    match find_open pl mailId with
    | None => SendMailResult p mailId MAIL_RETURNED_TO_SENDER MAIL_ERR_INTERNAL_ERROR 0 0 0
    | Some m =>
        BeginTransaction;;
        Append (CHAR_DEL_MAIL_BY_ID mailId);;
        Append (CHAR_DEL_MAIL_ITEM_BY_ID mailId);;
        RemoveMail p mailId;;
        return_mail p m;;
        CommitTransaction;;
        SendMailResult p mailId MAIL_RETURNED_TO_SENDER MAIL_OK 0 0 0
    end
  else mret tt.

Definition mail_set_money money m := mail_with (ml_items m) (ml_removedItems m) money (ml_COD m) (ml_checked m) MAIL_STATE_CHANGED m.
(** [money] is what the client saw in the mail. *)
Definition HandleMailTakeMoney (p mailbox money mailId : Z) : RP unit :=
  if mw_mailbox mw p mailbox then
    pl ← deref_player p;
    match find_open pl mailId with
    | None => SendMailResult p mailId MAIL_MONEY_TAKEN MAIL_ERR_INTERNAL_ERROR 0 0 0
    | Some m =>
        if (0 <? money) && negb (ml_money m =? money) then SendMailResult p mailId MAIL_MONEY_TAKEN MAIL_ERR_INTERNAL_ERROR 0 0 0
        else
          ok ← ModifyMoney p (s64 (ml_money m));
          if negb ok then SendMailResult p mailId MAIL_MONEY_TAKEN MAIL_ERR_EQUIP_ERROR EQUIP_ERR_TOO_MUCH_GOLD 0 0
          else
            upd_mail p mailId (mail_set_money 0);;
            set_updated p;;
            SendMailResult p mailId MAIL_MONEY_TAKEN MAIL_OK 0 0 0;;
            BeginTransaction;;
            SaveGoldToDB p;;
            SaveMail p;;
            CommitTransaction
    end
  else mret tt.

(** [Mail::RemoveItem] *)
Fixpoint RemoveItem (g : Z) (l : list (Z * Z)) : list (Z * Z) :=
  match l with
  | [] => []
  | i :: l' => if i.1 =? g then l' else i :: RemoveItem g l'
  end.
Definition mail_item_removed (g : Z) (m : Mail) : Mail :=
  mail_with (RemoveItem g (ml_items m)) (ml_removedItems m ++ [g]) (ml_money m) (ml_COD m) (ml_checked m) (ml_state m) m.
Definition mail_cod_paid (m : Mail) : Mail :=
  mail_with (ml_items m) (ml_removedItems m) (ml_money m) 0 (ml_checked m) MAIL_STATE_CHANGED m.
(** The price goes to the sender, if he is still a player. *)
Definition pay_COD (p : Z) (m : Mail) : RP unit :=
  s ← get;
  (if player_exists w s (ml_sender m) then
     SendMailTo w (is_online s (ml_sender m)) (ml_sender m) (mkMailSender MAIL_NORMAL (ml_receiver m) MAIL_STATIONERY_DEFAULT)
       MAIL_CHECK_MASK_COD_PAYMENT 0 (AddMoney (ml_COD m) (MailDraft_new (ml_subject m) []))
   else mret tt);;
  amount ← neg32 (ml_COD m);
  ModifyMoney p amount;;
  mret tt.
Definition take_item (p mailId itemId g : Z) (dest : list (Z * Z)) (m : Mail) : RP unit :=
  BeginTransaction;;
  upd_mail p mailId (mail_item_removed itemId);;
  (if 0 <? ml_COD m then pay_COD p m else mret tt);;
  upd_mail p mailId mail_cod_paid;;
  set_updated p;;
  RemoveMItem p g;;
  i ← deref_item g;
  upd_item g (SetState ITEM_UNCHANGED);;
  MoveItemToInventory w p dest g;;
  SaveInventoryAndGoldToDB p;;
  SaveMail p;;
  CommitTransaction;;
  SendMailResult p mailId MAIL_ITEM_TAKEN MAIL_OK 0 itemId (it_count i).
Definition HandleMailTakeItem (p mailbox mailId itemId : Z) : RP unit :=
  if mw_mailbox mw p mailbox then
    pl ← deref_player p;
    match find_open pl mailId with
    | None => SendMailResult p mailId MAIL_ITEM_TAKEN MAIL_ERR_INTERNAL_ERROR 0 0 0
    | Some m =>
        if negb (HasEnoughMoney pl (ml_COD m)) then SendMailResult p mailId MAIL_ITEM_TAKEN MAIL_ERR_NOT_ENOUGH_MONEY 0 0 0
        else
          match GetMItem pl itemId with
          | None => SendMailResult p mailId MAIL_ITEM_TAKEN MAIL_ERR_EQUIP_ERROR EQUIP_ERR_ITEM_NOT_FOUND 0 0
          | Some g =>
              match mw_CanStoreItem mw p g with
              | inl msg => SendMailResult p mailId MAIL_ITEM_TAKEN MAIL_ERR_EQUIP_ERROR msg 0 0
              | inr dest => take_item p mailId itemId g dest m
              end
          end
    end
  else mret tt.

(** *** Letters *)

Definition mark_copied (m : Mail) : Mail :=
  mail_with (ml_items m) (ml_removedItems m) (ml_money m) (ml_COD m) (Z.lor (ml_checked m) MAIL_CHECK_MASK_COPIED) MAIL_STATE_CHANGED m.
(** The letter once it has its text, which items of the model do not have. *)
Definition store_letter (p mailId g : Z) : RP unit :=
  upd_item g (fun i => item_set_flags (Z.lor (it_flags i) ITEM_FLAG_MAIL_TEXT_MASK) i);;
  match mw_CanStoreItem mw p g with
  | inr dest =>
      upd_mail p mailId mark_copied;;
      set_updated p;;
      StoreItem w p dest g;;
      SendMailResult p mailId MAIL_MADE_PERMANENT MAIL_OK 0 0 0
  | inl msg =>
      SendMailResult p mailId MAIL_MADE_PERMANENT MAIL_ERR_EQUIP_ERROR msg 0 0;;
      delete_item g
  end.
Definition HandleMailCreateTextItem (p mailbox mailId : Z) : RP unit :=
  if mw_mailbox mw p mailbox then
    pl ← deref_player p;
    match find_open pl mailId with
    | None => SendMailResult p mailId MAIL_MADE_PERMANENT MAIL_ERR_INTERNAL_ERROR 0 0 0
    | Some m =>
        if bool_decide (ml_body m = []) && (ml_mailTemplateId m =? 0)
        then SendMailResult p mailId MAIL_MADE_PERMANENT MAIL_ERR_INTERNAL_ERROR 0 0 0
        else
          g ← GenerateItemGuid;
          match ew_proto w MAIL_BODY_ITEM_TEMPLATE with
          | None => mret tt
          | Some t =>
              modify (fun s => set_items (<[g := mkItem MAIL_BODY_ITEM_TEMPLATE 1 p 0 (ip_Duration t) 0 ITEM_NEW]> (r_items s)) s);;
              if negb (ml_mailTemplateId m =? 0) && negb (ew_mail_template w (ml_mailTemplateId m))
              then SendMailResult p mailId MAIL_MADE_PERMANENT MAIL_ERR_INTERNAL_ERROR 0 0 0
              else store_letter p mailId g
          end
    end
  else mret tt.

(** *** Lists *)

Definition MAX_INSPECTED_ENCHANTMENT_SLOT := 8%nat.
Definition mail_size (m : Mail) (item_count : Z) : Z :=
  2 + 4 + 1 + (if ml_messageType m =? MAIL_NORMAL then 8 else 4) + 4 * 8 + (len (ml_subject m) + 1) + (len (ml_body m) + 1) + 1 +
  item_count * (1 + 4 + 4 + 8 * 3 * 4 + 4 + 4 + 4 + 4 + 4 + 4 + 1).
(** A string in a packet, with its end. *)
Definition cstring (l : list Z) : list Z := l ++ [0].
Definition enchantments (o : option Z) : list Z :=
  flat_map (fun e => le_bytes 4 e.1.1 ++ le_bytes 4 e.1.2 ++ le_bytes 4 e.2)
    (firstn MAX_INSPECTED_ENCHANTMENT_SLOT (from_option (ew_enchantments w) [] o ++ repeat (0, 0, 0) MAX_INSPECTED_ENCHANTMENT_SLOT)).
Definition list_item (pl : Player) (index g : Z) : RP (list Z) :=
  let o := GetMItem pl g in
  i ← match o with Some g => i ← deref_item g; mret (Some i) | None => mret None end;
  let value (f : Item -> Z) := from_option f 0 i in
  let at_guid (f : Z -> Z) := from_option f 0 o in
  mret (le_bytes 1 index ++ le_bytes 4 (at_guid id) ++ le_bytes 4 (value it_entry) ++ enchantments o ++ le_bytes 4 (u32 (value it_property)) ++
    le_bytes 4 (at_guid (ew_suffix_factor w)) ++ le_bytes 4 (value it_count) ++ le_bytes 4 (at_guid (ew_spell_charges w)) ++
    le_bytes 4 (at_guid (fun g => (mw_durability mw g).1)) ++ le_bytes 4 (at_guid (fun g => (mw_durability mw g).2)) ++ le_bytes 1 0).
Fixpoint list_items (pl : Player) (index : Z) (l : list (Z * Z)) : RP (list Z) :=
  match l with
  | [] => mret []
  | i :: l' => d ← list_item pl index i.1; r ← list_items pl (index + 1) l'; mret (d ++ r)
  end.
(** Types of mail that the [switch] does not have send no sender. *)
Definition list_sender (m : Mail) : list Z :=
  if ml_messageType m =? MAIL_NORMAL then le_bytes 8 (ml_sender m)
  else if (2 <=? ml_messageType m) && (ml_messageType m <=? 5) then le_bytes 4 (ml_sender m)
  else [].
Definition list_mail (pl : Player) (m : Mail) (item_count : Z) : RP (list Z) :=
  items ← list_items pl 0 (firstn (Z.to_nat item_count) (ml_items m));
  mret (le_bytes 2 (u16 (mail_size m item_count)) ++ le_bytes 4 (ml_messageID m) ++ le_bytes 1 (ml_messageType m) ++ list_sender m ++
    le_bytes 8 (ml_COD m) ++ le_bytes 4 0 ++ le_bytes 4 (ml_stationery m) ++ le_bytes 8 (ml_money m) ++ le_bytes 4 (ml_checked m) ++
    le_bytes 4 (encode32 (fdiv (float_of_Z (ml_expire_time m - ew_time w)) (float_of_Z DAY))) ++ le_bytes 4 (ml_mailTemplateId m) ++
    cstring (ml_subject m) ++ cstring (ml_body m) ++ le_bytes 1 item_count ++ items).

Definition maxPacketSize := 32767.
(** The mails in the packet, those there are, and the bytes after the counts. *)
Definition MailListing : Type := Z * Z * list Z.
Definition list_step (pl : Player) (m : Mail) (acc : MailListing) : RP MailListing :=
  let '(mailsCount, realCount, data) := acc in
  if 50 <=? mailsCount then mret (mailsCount, u32 (realCount + 1), data)
  else if negb (mail_open m) then mret acc
  else
    let item_count := u8 (len (ml_items m)) in
    if maxPacketSize <? 5 + len data + mail_size m item_count then mret (mailsCount, u32 (realCount + 1), data)
    else
      d ← list_mail pl m item_count;
      mret (u32 (mailsCount + 1), u32 (realCount + 1), data ++ d).
Fixpoint list_mails (pl : Player) (l : list Mail) (acc : MailListing) : RP MailListing :=
  match l with
  | [] => mret acc
  | m :: l' => acc ← list_step pl m acc; list_mails pl l' acc
  end.
Definition HandleGetMailList (p mailbox : Z) : RP unit :=
  if mw_mailbox mw p mailbox then
    pl ← deref_player p;
    (if pl_mailsLoaded pl then mret tt else LoadMail w p);;
    pl ← deref_player p;
    r ← list_mails pl (pl_mails pl) (0, 0, []);
    SendPacket p (SMSG_MAIL_LIST_RESULT (le_bytes 4 r.1.2 ++ le_bytes 1 (u8 r.1.1) ++ r.2));;
    UpdateNextMailTimeAndUnreads w p
  else mret tt.

(** The first two senders of what is there and not read. *)
Definition next_mail_entry (m : Mail) : list Z :=
  let normal := ml_messageType m =? MAIL_NORMAL in
  le_bytes 8 (if normal then ml_sender m else 0) ++ le_bytes 4 (if normal then 0 else ml_sender m) ++ le_bytes 4 (ml_messageType m) ++
  le_bytes 4 (ml_stationery m) ++ le_bytes 4 (encode32 (float_of_Z (ml_deliver_time m - ew_time w))).
Fixpoint next_mails (l : list Mail) (sentSenders : list Z) (data : list Z) : list Z * list Z :=
  match l with
  | [] => (sentSenders, data)
  | m :: l' =>
      if has (ml_checked m) MAIL_CHECK_MASK_READ || (ew_time w <? ml_deliver_time m) || bool_decide (ml_sender m ∈ sentSenders)
      then next_mails l' sentSenders data
      else
        let sent := ml_sender m :: sentSenders in
        if len sent =? 2 then (sent, data ++ next_mail_entry m) else next_mails l' sent (data ++ next_mail_entry m)
  end.
Definition HandleQueryNextMailTime (p : Z) : RP unit :=
  pl ← deref_player p;
  (if pl_mailsLoaded pl then mret tt else LoadMail w p);;
  pl ← deref_player p;
  SendPacket p (MSG_QUERY_NEXT_MAIL_TIME
    (if 0 <? pl_unReadMails pl then
       let r := next_mails (pl_mails pl) [] [] in le_bytes 4 (encode32 (float_of_Z 0)) ++ le_bytes 4 (len r.1) ++ r.2
     else le_bytes 4 (encode32 (float_of_Z (- DAY))) ++ le_bytes 4 0)).

(** *** Sending *)

(** Whether the attachments that are there are all bound to the account. *)
Fixpoint all_bound (p : Z) (l : list Z) : RP bool :=
  match l with
  | [] => mret true
  | guid :: l' =>
      pl ← deref_player p;
      match GetItemByGuid pl guid with
      | None => all_bound p l'
      | Some g =>
          i ← deref_item g;
          match ew_proto w (it_entry i) with
          | Some t => if has (ip_Flags t) ITEM_PROTO_FLAG_BIND_TO_ACCOUNT then all_bound p l' else mret false
          | None => mret false
          end
      end
  end.

(** What is wrong with an attachment, a mail and an equipment error. *)
Definition check_attachment (p receiverAccountId COD guid : Z) : RP (Z + (Z * Z)) :=
  pl ← deref_player p;
  if guid =? 0 then mret (inr (MAIL_ERR_MAIL_ATTACHMENT_INVALID, 0))
  else
    match GetItemByGuid pl guid with
    | None => mret (inr (MAIL_ERR_MAIL_ATTACHMENT_INVALID, 0))
    | Some g =>
        t ← GetTemplate w g;
        i ← deref_item g;
        mret
          (if negb (ew_tradable w g true) then inr (MAIL_ERR_EQUIP_ERROR, EQUIP_ERR_MAIL_BOUND_ITEM)
           else if has (ip_Flags t) ITEM_PROTO_FLAG_BIND_TO_ACCOUNT && has (it_flags i) ITEM_FLAG_SOULBOUND &&
                   negb (mw_session mw p =? receiverAccountId)
           then inr (MAIL_ERR_EQUIP_ERROR, EQUIP_ERR_NOT_SAME_ACCOUNT)
           else if has (ip_Flags t) ITEM_PROTO_FLAG_CONJURED || negb (it_expiration i =? 0)
           then inr (MAIL_ERR_EQUIP_ERROR, EQUIP_ERR_MAIL_BOUND_ITEM)
           else if negb (COD =? 0) && has (it_flags i) ITEM_FLAG_WRAPPED then inr (MAIL_ERR_CANT_SEND_WRAPPED_COD, 0)
           else if ew_not_empty_bag w g then inr (MAIL_ERR_EQUIP_ERROR, EQUIP_ERR_DESTROY_NONEMPTY_BAG)
           else inl g)
    end.
Fixpoint check_attachments (p receiverAccountId COD : Z) (l : list Z) : RP (list Z + (Z * Z)) :=
  match l with
  | [] => mret (inl [])
  | guid :: l' =>
      r ← check_attachment p receiverAccountId COD guid;
      match r with
      | inr e => mret (inr e)
      | inl g =>
          r ← check_attachments p receiverAccountId COD l';
          mret (match r with inl gs => inl (g :: gs) | inr e => inr e end)
      end
  end.

(** An attachment leaves the bags. *)
Definition attach_item (p receiver g : Z) : RP unit :=
  upd_item g (SetNotRefundable true);;
  MoveItemFromInventory p g;;
  upd_item g (item_set_owner receiver);;
  SaveToDB g.
Definition receiver_account (s : Realm) (receiver : Z) : Z :=
  if is_online s receiver then mw_session mw receiver else ew_account w receiver.
(** [mailsCount], a [uint8]. *)
Definition mails_count (s : Realm) (receiver : Z) : Z :=
  match r_online s !! receiver with
  | Some pl => u8 (len (pl_mails pl))
  | None => u8 (len (CHAR_SEL_MAIL (r_db s) receiver))
  end.
Definition mail_cost (items_count : Z) : Z := if items_count =? 0 then 30 else 30 * items_count.
(** [reqmoney], a [uint64]. *)
Definition required_money (items_count money : Z) : Z := u64 (mail_cost items_count + money).

(** [HandleSendMail] once the checks are passed. *)
Definition send_mail (p receiver : Z) (subject body : list Z) (money COD : Z) (items : list Z) : RP unit :=
  SendMailResult p 0 MAIL_SEND MAIL_OK 0 0 0;;
  amount ← neg64 (required_money (len items) money);
  ModifyMoney p amount;;
  s ← get;
  let account := receiver_account s receiver in
  BeginTransaction;;
  forM items (attach_item p receiver);;
  let needItemDelay := negb (bool_decide (items = [])) && negb (mw_session mw p =? account) in
  let deliver_delay := if mw_guild_mail mw p receiver then 0 else if needItemDelay then ew_mail_delay w else 0 in
  SendMailTo w (is_online s receiver) receiver (MailSender_player w p)
    (if bool_decide (body = []) then MAIL_CHECK_MASK_COPIED else MAIL_CHECK_MASK_HAS_BODY) deliver_delay
    (AddCOD COD (AddMoney money (foldr AddItem (MailDraft_new subject body) items)));;
  SaveInventoryAndGoldToDB p;;
  CommitTransaction.

(** The checks of [HandleSendMail] of the receiver and the attachments. *)
Definition send_to (p receiver : Z) (subject body : list Z) (money COD : Z) (items : list Z) : RP unit :=
  s ← get;
  if 100 <? mails_count s receiver then SendMailResult p 0 MAIL_SEND MAIL_ERR_RECIPIENT_CAP_REACHED 0 0 0
  else
    accountBound ← (if bool_decide (items = []) then mret false else all_bound p items);
    if negb accountBound && negb (mw_team mw p =? mw_team mw receiver) && negb (mw_two_side_mail mw p)
    then SendMailResult p 0 MAIL_SEND MAIL_ERR_NOT_YOUR_TEAM 0 0 0
    else if mw_level mw receiver <? mw_level_req mw then SendPacket p (SMSG_NOTIFICATION LANG_MAIL_RECEIVER_REQ (mw_level_req mw))
    else
      r ← check_attachments p (receiver_account s receiver) COD items;
      match r with
      | inr (error, equip) => SendMailResult p 0 MAIL_SEND error equip 0 0
      | inl gs => send_mail p receiver subject body money COD gs
      end.
Definition HandleSendMail (p mailbox : Z) (receiverName subject body : list Z) (money COD : Z) (items : list Z) : RP unit :=
  if MAX_MAIL_ITEMS <? len items then SendMailResult p 0 MAIL_SEND MAIL_ERR_TOO_MANY_ATTACHMENTS 0 0 0
  else if negb (mw_mailbox mw p mailbox) || bool_decide (receiverName = []) then mret tt
  else if mw_level mw p <? mw_level_req mw then SendPacket p (SMSG_NOTIFICATION LANG_MAIL_SENDER_REQ (mw_level_req mw))
  else
    let receiver := mw_by_name mw receiverName in
    if receiver =? 0 then SendMailResult p 0 MAIL_SEND MAIL_ERR_RECIPIENT_NOT_FOUND 0 0 0
    else if p =? receiver then SendMailResult p 0 MAIL_SEND MAIL_ERR_CANNOT_SEND_TO_SELF 0 0 0
    else
      pl ← deref_player p;
      if negb (HasEnoughMoney pl (required_money (len items) money)) && negb (ew_gamemaster w p)
      then SendMailResult p 0 MAIL_SEND MAIL_ERR_NOT_ENOUGH_MONEY 0 0 0
      else send_to p receiver subject body money COD items.
End Handlers.

(** ** Old mails (src/src/serveur/jeu/Globals/ObjectMgr.cpp) *)

Definition CHAR_SEL_EXPIRED_MAIL (d : CharDB) (time : Z) : list (Z * MailRow) :=
  filter (fun e => mr_expire_time e.2 < time) (in_order (db_mails d)).
(** [itemsCache] of a mail. *)
Definition CHAR_SEL_EXPIRED_MAIL_ITEMS (d : CharDB) (time : Z) (e : Z * MailRow) : list Z :=
  if mr_expire_time e.2 <? time then (CHAR_SEL_MAILITEMS d e.1).*1 else [].

Section Old.
Context (w : EconomyWorld).

Definition box_open (s : Realm) (p : Z) : bool := match r_online s !! p with Some pl => pl_mailsLoaded pl | None => false end.
(** Neither from a creature or an auction, nor sent back before, nor a payment. *)
Definition returnable (r : MailRow) : bool :=
  (mr_messageType r =? MAIL_NORMAL) && negb (has (mr_checked r) (Z.lor MAIL_CHECK_MASK_COD_PAYMENT MAIL_CHECK_MASK_RETURNED)).
Definition return_old (id : Z) (r : MailRow) (items : list Z) : RP unit :=
  Execute (CHAR_UPD_MAIL_RETURNED (mr_receiver r) (mr_sender r) (u32 (ew_time w + 30 * DAY)) (u32 (ew_time w)) MAIL_CHECK_MASK_RETURNED id);;
  forM items (fun g => Execute (CHAR_UPD_MAIL_ITEM_RECEIVER (mr_sender r) g);; Execute (CHAR_UPD_ITEM_OWNER (mr_sender r) g)).
Definition old_mail (serveurUp : bool) (items : Z * MailRow -> list Z) (e : Z * MailRow) : RP unit :=
  let r := e.2 in
  s ← get;
  if serveurUp && box_open s (mr_receiver r) then mret tt
  else if mr_has_items r && returnable r then return_old e.1 r (items e)
  else
    (if mr_has_items r then forM (items e) (fun g => Execute (CHAR_DEL_ITEM_INSTANCE g)) else mret tt);;
    Execute (CHAR_DEL_MAIL_BY_ID e.1).
Definition ReturnOrDeleteOldMails (serveurUp : bool) : RP unit :=
  (if serveurUp then mret tt else Execute (CHAR_DEL_EMPTY_EXPIRED_MAIL (ew_time w)));;
  s ← get;
  forM (CHAR_SEL_EXPIRED_MAIL (r_db s) (ew_time w)) (old_mail serveurUp (CHAR_SEL_EXPIRED_MAIL_ITEMS (r_db s) (u32 (ew_time w)))).
End Old.
