(* ===== verification/MailboxProofs.v ===== *)
(** * The mailbox of a player and its tables (model in Mail.v, MailHandlers.v)

    What the tables hold of a mailbox, what loading makes of it, and the
    invariant that a loaded mailbox and the tables agree but for the changes
    that saving will write. *)

From S2P Require Import Prelude.
From S2P Require Import Economy.
From S2P Require Import EconomyProofs.
From S2P Require Import Mail.
From S2P Require Import MailProofs.
From S2P Require Import MailHandlers.
From stdpp Require Import list sorting.
Local Open Scope Z_scope.
#[local] Set Warnings "-clear-no-such-hyp".

(** ** Sorted lists *)

Lemma StronglySorted_filter {A} (R : A -> A -> Prop) P `{!forall x, Decision (P x)} (l : list A) :
  StronglySorted R l -> StronglySorted R (filter P l).
Proof.
  induction 1 as [|a l Hs IH Hf]; [constructor|]. rewrite filter_cons. case_decide; [|done]. constructor; [done|].
  rewrite Forall_forall in Hf |- *. intros x [_ Hx]%list_elem_of_filter. by apply Hf.
Qed.
Lemma StronglySorted_omap {A B} (R : A -> A -> Prop) (R' : B -> B -> Prop) (f : A -> option B) (l : list A) :
  (forall a b x y, R a b -> f a = Some x -> f b = Some y -> R' x y) -> StronglySorted R l -> StronglySorted R' (omap f l).
Proof.
  intros Hf. induction 1 as [|a l Hs IH Hl]; [constructor|]. cbn. destruct (f a) as [x|] eqn:E; [|done]. constructor; [done|].
  apply Forall_forall. intros y (b & Hb & Ey)%list_elem_of_omap. rewrite List.Forall_forall in Hl. eapply Hf; [by apply Hl, list_elem_of_In|done..].
Qed.
Lemma StronglySorted_reverse {A} (R : A -> A -> Prop) (l : list A) : StronglySorted R l -> StronglySorted (flip R) (reverse l).
Proof.
  induction 1 as [|a l Hs IH Hf]; [constructor|]. rewrite reverse_cons. apply StronglySorted_app_2; [|done|repeat constructor].
  intros x y Hx ->%list_elem_of_singleton. rewrite elem_of_reverse in Hx. rewrite Forall_forall in Hf. by apply Hf.
Qed.

Lemma filter_all {A} P `{!forall x, Decision (P x)} (l : list A) : (forall x, x ∈ l -> P x) -> filter P l = l.
Proof.
  induction l as [|a l IH]; intros Hl; [done|]. rewrite filter_cons, decide_True by (apply Hl; by left). f_equal.
  apply IH. intros x Hx. apply Hl. by right.
Qed.

(** ** What the tables hold *)

Lemma elem_of_mailitems d id g r : (g, r) ∈ CHAR_SEL_MAILITEMS d id <->
  (exists q, db_mail_items d !! g = Some (id, q)) /\ db_items d !! g = Some r.
Proof.
  unfold CHAR_SEL_MAILITEMS. rewrite list_elem_of_omap. split.
  - intros ([g' [i q]] & Hin%in_order_spec & E). cbn in E. destruct (Z.eqb_spec i id) as [->|]; [|done].
    destruct (db_items d !! g') eqn:Er; [|done]. cbn in E. simplify_eq. eauto.
  - intros [[q Hq] Hr]. exists (g, (id, q)). split; [by apply in_order_spec|]. cbn. rewrite Z.eqb_refl, Hr. done.
Qed.
Lemma mailitems_sorted d id : StronglySorted key_before (CHAR_SEL_MAILITEMS d id).
Proof.
  unfold CHAR_SEL_MAILITEMS. eapply StronglySorted_omap; [|apply in_order_strict]. intros a b x y Hab Ea Eb. cbn in Ea, Eb.
  destruct (a.2.1 =? id); [|done]. destruct (b.2.1 =? id); [|done]. apply fmap_Some in Ea as (? & _ & ->), Eb as (? & _ & ->). exact Hab.
Qed.
(** The items of a mail with their entries. *)
Definition mailed (d : CharDB) (id : Z) : list (Z * Z) := (fun e => (e.1, ir_entry e.2)) <$> CHAR_SEL_MAILITEMS d id.
Lemma elem_of_mailed d id g e : (g, e) ∈ mailed d id <->
  (exists q, db_mail_items d !! g = Some (id, q)) /\ exists r, db_items d !! g = Some r /\ ir_entry r = e.
Proof.
  unfold mailed. rewrite list_elem_of_fmap. split.
  - intros ([g' r] & E & Hin%elem_of_mailitems). cbn in E. simplify_eq. naive_solver.
  - intros (Hq & r & Hr & <-). exists (g, r). split; [done|]. by apply elem_of_mailitems.
Qed.
Lemma mailed_sorted d id : StronglySorted key_before (mailed d id).
Proof. unfold mailed. eapply StronglySorted_fmap; [|apply mailitems_sorted]. by intros. Qed.
(** It is sorted, and so what it holds is all there is to know. *)
Lemma mailed_ext (l : list (Z * Z)) d id : StronglySorted key_before l -> (forall g e, (g, e) ∈ l <-> (g, e) ∈ mailed d id) -> l = mailed d id.
Proof.
  intros Hl H. apply (sorted_ext key_before); [unfold key_before; lia|done|apply mailed_sorted|]. intros [g e]. apply H.
Qed.

Lemma same_mailed d d' id : same_tables d d' -> mailed d' id = mailed d id.
Proof.
  intros [_ _ Hm Hi]. apply mailed_ext; [apply mailed_sorted|]. intros g e. rewrite !elem_of_mailed, Hm.
  assert ((exists r, db_items d' !! g = Some r /\ ir_entry r = e) <-> (exists r, db_items d !! g = Some r /\ ir_entry r = e)) as E; [|naive_solver].
  apply (f_equal (fun m => m !! g)) in Hi. rewrite !lookup_fmap in Hi. destruct (db_items d !! g), (db_items d' !! g); cbn in Hi; naive_solver.
Qed.

(** ** Finding a mail *)

Lemma GetMail_Some pl id m : GetMail pl id = Some m -> m ∈ pl_mails pl /\ ml_messageID m = id.
Proof.
  unfold GetMail. intros Hm. assert (m ∈ filter (fun m => ml_messageID m = id) (pl_mails pl)) as [? ?]%list_elem_of_filter; [|done].
  destruct (filter _ _) as [|x l]; [done|]. cbn in Hm. simplify_eq. by left.
Qed.
Lemma find_open_Some w pl id m : find_open w pl id = Some m -> GetMail pl id = Some m /\ mail_open w m = true.
Proof. unfold find_open. destruct (GetMail pl id); [|done]. case_match; [|done]. naive_solver. Qed.

Section Mailbox.
(** Whether there is a mail template with an id. *)
Context (templates : Z -> bool).

(** The mail that loading makes of a row. *)
Definition stored_mail (d : CharDB) (e : Z * MailRow) : Mail :=
  let r := e.2 in
  mkMail e.1 (mr_messageType r) (u8 (mr_stationery r))
    (if templates (u16 (mr_mailTemplateId r)) then u16 (mr_mailTemplateId r) else 0)
    (mr_sender r) (mr_receiver r) (mr_subject r) (mr_body r) (if mr_has_items r then mailed d e.1 else []) []
    (u32 (mr_expire_time r)) (u32 (mr_deliver_time r)) (mr_money r) (mr_cod r) (mr_checked r) MAIL_STATE_UNCHANGED.
Definition stored_mails (d : CharDB) (p : Z) : list Mail := stored_mail d <$> CHAR_SEL_MAIL d p.

Lemma elem_of_stored d p m : m ∈ stored_mails d p <-> exists id r, db_mails d !! id = Some r /\ mr_receiver r = p /\ m = stored_mail d (id, r).
Proof.
  unfold stored_mails, CHAR_SEL_MAIL. rewrite list_elem_of_fmap. split.
  - intros ([id r] & -> & [Hp Hin]%list_elem_of_filter). apply elem_of_reverse, in_order_spec in Hin. by exists id, r.
  - intros (id & r & Hr & Hp & ->). exists (id, r). split; [done|]. apply list_elem_of_filter. split; [done|]. by apply elem_of_reverse, in_order_spec.
Qed.
(** The newest first. *)
Definition mail_before (a b : Mail) : Prop := ml_messageID b < ml_messageID a.
Lemma stored_sorted d p : StronglySorted mail_before (stored_mails d p).
Proof.
  unfold stored_mails, CHAR_SEL_MAIL. eapply StronglySorted_fmap; [|apply StronglySorted_filter, StronglySorted_reverse, in_order_strict].
  by intros [] [].
Qed.

(** What no request changes of a mail. *)
Definition same_letter (m : Mail) (r : MailRow) : Prop :=
  ml_messageType m = mr_messageType r /\ ml_stationery m = u8 (mr_stationery r) /\
  ml_mailTemplateId m = (if templates (u16 (mr_mailTemplateId r)) then u16 (mr_mailTemplateId r) else 0) /\
  ml_sender m = mr_sender r /\ ml_receiver m = mr_receiver r /\ ml_subject m = mr_subject r /\ ml_body m = mr_body r.
(** Its numbers fit their columns. *)
Definition mail_fits (m : Mail) : Prop :=
  0 <= ml_expire_time m < 2 ^ 32 /\ 0 <= ml_deliver_time m < 2 ^ 32 /\ 0 <= ml_money m < 2 ^ 32 /\ 0 <= ml_COD m < 2 ^ 32 /\
  0 <= ml_checked m < 2 ^ 8.

Record mail_agrees (d : CharDB) (p : Z) (m : Mail) (r : MailRow) : Prop := {
  ma_row : db_mails d !! ml_messageID m = Some r;
  ma_receiver : mr_receiver r = p;
  ma_letter : same_letter m r;
  ma_fits : mail_fits m;
  ma_removed : forall g, g ∈ ml_removedItems m -> exists q, db_mail_items d !! g = Some (ml_messageID m, q);
  ma_items : ml_items m = filter (fun i => i.1 ∉ ml_removedItems m) (mailed d (ml_messageID m));
  ma_unchanged : ml_state m = MAIL_STATE_UNCHANGED -> m = stored_mail d (ml_messageID m, r)
}.
(** The mailbox agrees with the tables. *)
Record mailbox_ok (d : CharDB) (p : Z) (l : list Mail) : Prop := {
  mb_sorted : StronglySorted mail_before l;
  mb_rows : forall id r, db_mails d !! id = Some r -> mr_receiver r = p -> exists m, m ∈ l /\ ml_messageID m = id;
  mb_mails : forall m, m ∈ l -> exists r, mail_agrees d p m r
}.

Lemma agrees_removed d p m r i : mail_agrees d p m r -> i ∈ ml_items m -> exists q, db_mail_items d !! i.1 = Some (ml_messageID m, q).
Proof.
  intros Ha Hi. rewrite (ma_items _ _ _ _ Ha) in Hi. apply list_elem_of_filter in Hi as [_ Hi]. destruct i as [g e].
  by apply elem_of_mailed in Hi as [Hq _].
Qed.
(** Mails with nothing to save are what loading makes of the tables. *)
Lemma mailbox_clean d p l : mailbox_ok d p l -> (forall m, m ∈ l -> ml_state m = MAIL_STATE_UNCHANGED) -> l = stored_mails d p.
Proof.
  intros H Hc. apply (sorted_ext mail_before); [unfold mail_before; lia|apply (mb_sorted _ _ _ H)|apply stored_sorted|].
  intros m. rewrite elem_of_stored. split.
  - intros Hm. destruct (mb_mails _ _ _ H m Hm) as [r Ha]. exists (ml_messageID m), r.
    split_and!; [apply (ma_row _ _ _ _ Ha)|apply (ma_receiver _ _ _ _ Ha)|]. apply (ma_unchanged _ _ _ _ Ha). by apply Hc.
  - intros (id & r & Hr & Hp & ->). destruct (mb_rows _ _ _ H id r Hr Hp) as (m & Hm & <-).
    destruct (mb_mails _ _ _ H m Hm) as [r' Ha]. pose proof (ma_row _ _ _ _ Ha) as Hr'. simplify_eq.
    by rewrite <- (ma_unchanged _ _ _ _ Ha (Hc m Hm)).
Qed.

(** ** Saving *)

Definition mail_statements (m : Mail) : list CharStatement :=
  match ml_state m with
  | MAIL_STATE_UNCHANGED => []
  | MAIL_STATE_CHANGED =>
      CHAR_UPD_MAIL (negb (bool_decide (ml_items m = []))) (u32 (ml_expire_time m)) (u32 (ml_deliver_time m)) (u32 (ml_money m))
        (u32 (ml_COD m)) (u8 (ml_checked m)) (ml_messageID m) :: (CHAR_DEL_MAIL_ITEM <$> ml_removedItems m)
  | MAIL_STATE_DELETED =>
      ((fun i : Z * Z => CHAR_DEL_ITEM_INSTANCE i.1) <$> ml_items m) ++
      [CHAR_DEL_MAIL_BY_ID (ml_messageID m); CHAR_DEL_MAIL_ITEM_BY_ID (ml_messageID m)]
  end.
Lemma save_mail_run m s : save_mail m s = (Ok tt, set_trans (r_trans s ++ mail_statements m) s).
Proof.
  unfold save_mail, mail_statements. destruct (ml_state m).
  - cbn. rewrite app_nil_r. by destruct s.
  - rewrite (bind_ok (Append _) _ _ _ _ eq_refl), forM_append. cbn. by rewrite <- app_assoc.
  - rewrite (bind_ok _ _ _ _ _ (forM_append _ _ _)), (bind_ok (Append _) _ _ _ _ eq_refl). unfold Append, modify. cbn. by rewrite <- !app_assoc.
Qed.
Lemma save_mails_run l s : forM l save_mail s = (Ok tt, set_trans (r_trans s ++ flat_map mail_statements l) s).
Proof.
  revert s. induction l as [|m l IH]; intros s; cbn [forM flat_map].
  - rewrite app_nil_r. by destruct s.
  - rewrite (bind_ok _ _ _ _ _ (save_mail_run m s)), IH. cbn. by rewrite <- app_assoc.
Qed.
(** The mail after saving, if there is one. *)
Definition kept_mail (m : Mail) : list Mail := if mail_deleted m then [] else [saved_mail m].
Definition kept_mails (l : list Mail) : list Mail := flat_map kept_mail l.
Lemma saved_mail_deleted m : mail_deleted (saved_mail m) = mail_deleted m.
Proof. unfold saved_mail, mail_deleted. by destruct (ml_state m) eqn:E; cbn; rewrite ?E. Qed.
Lemma kept_mails_spec l : filter (fun m => mail_deleted m = false) (saved_mail <$> l) = kept_mails l.
Proof.
  induction l as [|m l IH]; [done|]. change (kept_mails (m :: l)) with (kept_mail m ++ kept_mails l).
  rewrite fmap_cons, filter_cons, saved_mail_deleted, IH. unfold kept_mail. by destruct (mail_deleted m).
Qed.
Definition player_saved (pl : Player) : Player := player_set_updated false (player_set_mails (kept_mails (pl_mails pl)) pl).
Lemma SaveMail_run p s pl : r_online s !! p = Some pl -> pl_mailsLoaded pl = true ->
  SaveMail p s = (Ok tt, set_online (<[p := player_saved pl]> (r_online s))
    (set_trans (r_trans s ++ flat_map mail_statements (pl_mails pl)) s)).
Proof.
  intros Hp Hl. unfold SaveMail. rewrite (bind_ok _ _ _ _ _ (deref_player_ok p pl s Hp)), Hl, (bind_ok _ _ _ _ _ (save_mails_run _ _)).
  rewrite (upd_player_ok p _ pl) by done. by rewrite kept_mails_spec.
Qed.

(** The tables after the statements of one mail. *)
Definition saved_rows (m : Mail) (F : gmap Z MailRow) : gmap Z MailRow :=
  match ml_state m with
  | MAIL_STATE_UNCHANGED => F
  | MAIL_STATE_CHANGED =>
      alter (mail_row_update (negb (bool_decide (ml_items m = []))) (u32 (ml_expire_time m)) (u32 (ml_deliver_time m)) (u32 (ml_money m))
        (u32 (ml_COD m)) (u8 (ml_checked m))) (ml_messageID m) F
  | MAIL_STATE_DELETED => delete (ml_messageID m) F
  end.
Definition saved_mail_items (m : Mail) (F : gmap Z (Z * Z)) : gmap Z (Z * Z) :=
  match ml_state m with
  | MAIL_STATE_UNCHANGED => F
  | MAIL_STATE_CHANGED => without (ml_removedItems m) F
  | MAIL_STATE_DELETED => filter (fun e => e.2.1 <> ml_messageID m) F
  end.
Definition saved_items (m : Mail) (F : gmap Z ItemRow) : gmap Z ItemRow :=
  match ml_state m with MAIL_STATE_DELETED => without (ml_items m).*1 F | _ => F end.
Definition saved_tables (m : Mail) (d : CharDB) : CharDB :=
  mkCharDB (db_auctions d) (saved_rows m (db_mails d)) (saved_mail_items m (db_mail_items d)) (saved_items m (db_items d)) (db_money d).

Lemma exec_del_mail_items l d : exec_statements (CHAR_DEL_MAIL_ITEM <$> l) d = Some (db_set_mail_items (without l (db_mail_items d)) d).
Proof.
  revert d. induction l as [|g l IH]; intros d; cbn; [rewrite without_nil; by destruct d|]. rewrite IH. cbn. by rewrite delete_without.
Qed.
Lemma exec_del_items (l : list (Z * Z)) d :
  exec_statements ((fun i => CHAR_DEL_ITEM_INSTANCE i.1) <$> l) d = Some (db_set_items (without l.*1 (db_items d)) d).
Proof.
  revert d. induction l as [|g l IH]; intros d; cbn; [rewrite without_nil; by destruct d|]. rewrite IH. cbn. by rewrite delete_without.
Qed.
Lemma exec_mail_statements m d : exec_statements (mail_statements m) d = Some (saved_tables m d).
Proof.
  unfold mail_statements, saved_tables, saved_rows, saved_mail_items, saved_items. destruct (ml_state m).
  - by destruct d.
  - cbn. by rewrite exec_del_mail_items.
  - by rewrite exec_app, exec_del_items.
Qed.

(** *** One mail is saved *)

Section Saved.
Context (d : CharDB) (p : Z) (m : Mail) (r : MailRow) (H : mail_agrees d p m r).
Abbreviation d' := (saved_tables m d).

Lemma saved_row_other id : id <> ml_messageID m -> db_mails d' !! id = db_mails d !! id.
Proof using Type.
  intros Hid. cbn. unfold saved_rows. destruct (ml_state m); [done| |].
  - by rewrite lookup_alter_ne.
  - by rewrite lookup_delete_ne.
Qed.
(** The items of another mail stay. *)
Lemma saved_item_other g id q : db_mail_items d !! g = Some (id, q) -> id <> ml_messageID m ->
  db_mail_items d' !! g = Some (id, q) /\ db_items d' !! g = db_items d !! g.
Proof using H.
  intros Hg Hid. cbn. unfold saved_mail_items, saved_items. destruct (ml_state m); [done| |]; split.
  - rewrite lookup_without, bool_decide_false; [done|]. intros Hr. destruct (ma_removed _ _ _ _ H g Hr). congruence.
  - done.
  - apply map_lookup_filter_Some. by split.
  - rewrite lookup_without, bool_decide_false; [done|]. intros ([g' e] & -> & Hi)%list_elem_of_fmap.
    destruct (agrees_removed _ _ _ _ _ H Hi) as [q' Hq]. cbn in *. congruence.
Qed.
Lemma saved_mail_items_old g v : db_mail_items d' !! g = Some v -> db_mail_items d !! g = Some v.
Proof using Type.
  cbn. unfold saved_mail_items. destruct (ml_state m); [done| |].
  - rewrite lookup_without. by case_bool_decide.
  - by intros [? _]%map_lookup_filter_Some.
Qed.
Lemma saved_mailed_other id : id <> ml_messageID m -> mailed d' id = mailed d id.
Proof using H.
  intros Hid. apply mailed_ext; [apply mailed_sorted|]. intros g e. rewrite !elem_of_mailed. split.
  - intros [[q Hq] He]. pose proof (saved_mail_items_old _ _ Hq) as Ho. destruct (saved_item_other g id q Ho Hid) as [_ E].
    rewrite E in He. eauto.
  - intros [[q Hq] He]. destruct (saved_item_other g id q Hq Hid) as [Hq' E]. rewrite E. eauto.
Qed.
Lemma saved_agrees_other m2 r2 : ml_messageID m2 <> ml_messageID m -> mail_agrees d p m2 r2 -> mail_agrees d' p m2 r2.
Proof using H.
  intros Hid [H1 H2 H3 H4 H5 H6 H7]. split; try done.
  - by rewrite saved_row_other.
  - intros g Hg. destruct (H5 g Hg) as [q Hq]. exists q. by apply (saved_item_other g _ q Hq).
  - by rewrite saved_mailed_other.
  - intros Hs. rewrite (H7 Hs) at 1. unfold stored_mail. cbn [fst snd]. by rewrite saved_mailed_other.
Qed.

Lemma changed_mailed : ml_state m = MAIL_STATE_CHANGED -> mailed d' (ml_messageID m) = ml_items m.
Proof using H.
  intros Hs. symmetry. rewrite (ma_items _ _ _ _ H). apply mailed_ext; [apply StronglySorted_filter, mailed_sorted|].
  intros g e. rewrite list_elem_of_filter, !elem_of_mailed. cbn. unfold saved_mail_items, saved_items. rewrite Hs, lookup_without.
  case_bool_decide; naive_solver.
Qed.
Lemma changed_agrees : ml_state m = MAIL_STATE_CHANGED -> exists r', mail_agrees d' p (saved_mail m) r'.
Proof using H.
  intros Hs. pose proof (changed_mailed Hs) as Hm. pose proof (ma_fits _ _ _ _ H) as Hf. pose proof (ma_letter _ _ _ _ H) as Hl.
  destruct Hf as (F1 & F2 & F3 & F4 & F5). destruct Hl as (L1 & L2 & L3 & L4 & L5 & L6 & L7).
  eexists (mail_row_update _ _ _ _ _ _ r). unfold saved_mail. rewrite Hs. split; cbn [ml_messageID mail_with].
  - cbn. unfold saved_rows. rewrite Hs, lookup_alter_eq, (ma_row _ _ _ _ H). done.
  - apply (ma_receiver _ _ _ _ H).
  - done.
  - done.
  - by intros g ?%not_elem_of_nil.
  - cbn [ml_items ml_removedItems mail_with]. rewrite Hm. symmetry.
    apply filter_all. intros i _. apply not_elem_of_nil.
  - intros _. unfold stored_mail, mail_with. cbn [fst snd mr_messageType mr_stationery mr_mailTemplateId mr_sender mr_receiver mr_subject
      mr_body mr_has_items mr_expire_time mr_deliver_time mr_money mr_cod mr_checked mail_row_update].
    rewrite <- L1, <- L2, <- L3, <- L4, <- L5, <- L6, <- L7, Hm.
    rewrite (uint_small 32 (ml_expire_time m)), (uint_small 32 (ml_deliver_time m)), !uint_small by lia.
    f_equal. case_bool_decide as E; [by rewrite E|done].
Qed.
End Saved.

Lemma saved_mail_id m : ml_messageID (saved_mail m) = ml_messageID m.
Proof. unfold saved_mail. by destruct (ml_state m). Qed.
Lemma kept_mail_before a m x : x ∈ kept_mail m -> (mail_before a m -> mail_before a x) /\ (mail_before m a -> mail_before x a).
Proof.
  unfold kept_mail. destruct (mail_deleted m); [by intros ?%not_elem_of_nil|]. intros ->%list_elem_of_singleton. unfold mail_before.
  by rewrite saved_mail_id.
Qed.

Lemma kept_agrees d p m r x : mail_agrees d p m r -> x ∈ kept_mail m -> exists r', mail_agrees (saved_tables m d) p x r'.
Proof.
  intros Ha Hk. unfold kept_mail, mail_deleted in Hk. destruct (ml_state m) eqn:Es.
  - apply list_elem_of_singleton in Hk as ->. unfold saved_mail, saved_tables, saved_rows, saved_mail_items, saved_items. rewrite Es.
    exists r. by destruct d.
  - apply list_elem_of_singleton in Hk as ->. by apply (changed_agrees d p m r).
  - by apply not_elem_of_nil in Hk.
Qed.
Lemma mailbox_save_one d p l1 m l2 : mailbox_ok d p (l1 ++ m :: l2) -> mailbox_ok (saved_tables m d) p (l1 ++ kept_mail m ++ l2).
Proof.
  intros H. destruct (mb_mails _ _ _ H m ltac:(set_solver)) as [r Ha]. pose proof (mb_sorted _ _ _ H) as Hs.
  apply StronglySorted_app in Hs as (H12 & H1 & Hm). apply StronglySorted_inv in Hm as [H2 Hf]. rewrite Forall_forall in Hf.
  assert (forall x, x ∈ l1 \/ x ∈ l2 -> ml_messageID x <> ml_messageID m) as Hne.
  { intros x [Hx|Hx]; [specialize (H12 x m Hx ltac:(by left))|specialize (Hf x Hx)]; unfold mail_before in *; lia. }
  split.
  - apply StronglySorted_app. split_and!; [|done|apply StronglySorted_app; split_and!; [|unfold kept_mail; destruct (mail_deleted m); repeat constructor|done]].
    + intros a x Ha' [Hx|Hx]%elem_of_app; [|by apply H12; [|right]]. apply (proj1 (kept_mail_before a m x Hx)), H12; [done|by left].
    + intros x b Hx Hb. apply (proj2 (kept_mail_before b m x Hx)). by apply Hf.
  - intros id r0 Hr Hp. destruct (decide (id = ml_messageID m)) as [->|Hid].
    + exists (saved_mail m). rewrite saved_mail_id. split; [|done]. unfold kept_mail. destruct (mail_deleted m) eqn:Ed; [|set_solver].
      exfalso. cbn in Hr. unfold saved_rows, mail_deleted in *. destruct (ml_state m); [done..|]. by rewrite lookup_delete_eq in Hr.
    + rewrite (saved_row_other d m) in Hr by done. destruct (mb_rows _ _ _ H id r0 Hr Hp) as (x & Hx & <-). exists x. split; [|done].
      apply elem_of_app in Hx as [Hx|[->|Hx]%elem_of_cons]; [set_solver|done|set_solver].
  - assert (forall x, x ∈ l1 \/ x ∈ l2 -> exists r2, mail_agrees (saved_tables m d) p x r2) as Hother.
    { intros x Hx. destruct (mb_mails _ _ _ H x ltac:(set_solver)) as [r2 Hr2]. exists r2.
      apply (saved_agrees_other d p m r Ha); [by apply Hne|done]. }
    intros x [Hx|[Hx|Hx]%elem_of_app]%elem_of_app; [by apply Hother; left|by eapply kept_agrees|by apply Hother; right].
Qed.
(** Saving writes all there is to write. *)
Lemma mailbox_save d p l1 l2 : mailbox_ok d p (l1 ++ l2) -> exists d', exec_statements (flat_map mail_statements l2) d = Some d' /\
  mailbox_ok d' p (l1 ++ kept_mails l2) /\ forall g r, db_items d' !! g = Some r -> db_items d !! g = Some r.
Proof.
  revert l1 d. induction l2 as [|m l2 IH]; intros l1 d H.
  - exists d. done.
  - pose proof (mailbox_save_one d p l1 m l2 H) as H1. rewrite app_assoc in H1. destruct (IH _ _ H1) as (d' & E & H' & Hi).
    exists d'. cbn [flat_map]. rewrite exec_app, exec_mail_statements. cbn. split; [exact E|].
    change (kept_mails (m :: l2)) with (kept_mail m ++ kept_mails l2). rewrite app_assoc. split; [done|]. intros g r Hg.
    apply Hi in Hg. cbn in Hg. unfold saved_items in Hg. destruct (ml_state m); [done..|]. rewrite lookup_without in Hg. by case_bool_decide.
Qed.
Lemma kept_unchanged l m : m ∈ kept_mails l -> ml_state m = MAIL_STATE_UNCHANGED.
Proof.
  intros (x & Hx & Hm)%list_elem_of_In%in_flat_map. apply list_elem_of_In in Hm. unfold kept_mail, mail_deleted, saved_mail in Hm.
  destruct (ml_state x) eqn:E; try apply list_elem_of_singleton in Hm as ->; [done|done|by apply not_elem_of_nil in Hm].
Qed.

(** ** Changing a mail *)

(** The mail [id] of a sorted mailbox. *)
Lemma change_mail_split d p l id f m : mailbox_ok d p l -> m ∈ l -> ml_messageID m = id ->
  exists l1 l2, l = l1 ++ m :: l2 /\ change_mail id f l = l1 ++ f m :: l2.
Proof.
  intros H Hm Hid. apply list_elem_of_split in Hm as (l1 & l2 & ->). exists l1, l2. split; [done|].
  pose proof (mb_sorted _ _ _ H) as Hs. apply StronglySorted_app in Hs as (H12 & _). clear H. induction l1 as [|a l1 IH]; cbn.
  - by rewrite (proj2 (Z.eqb_eq _ _)).
  - rewrite (proj2 (Z.eqb_neq _ _)).
    + f_equal. apply IH. intros x y Hx. apply H12. by right.
    + specialize (H12 a m ltac:(by left) ltac:(by left)). unfold mail_before in H12. lia.
Qed.
Lemma sorted_replace l1 m m' l2 : StronglySorted mail_before (l1 ++ m :: l2) -> ml_messageID m' = ml_messageID m ->
  StronglySorted mail_before (l1 ++ m' :: l2).
Proof.
  intros (H12 & H1 & H2)%StronglySorted_app E. apply StronglySorted_inv in H2 as [H2 Hfa].
  apply StronglySorted_app. split_and!; [|done|constructor; [done|]].
  - intros x y Hx [->|Hy]%elem_of_cons; [|by apply H12; [|right]]. specialize (H12 x m Hx ltac:(by left)). unfold mail_before in *. lia.
  - rewrite Forall_forall in Hfa |- *. intros y Hy. specialize (Hfa y Hy). unfold mail_before in *. lia.
Qed.
Lemma mailbox_change d p l id f m : mailbox_ok d p l -> m ∈ l -> ml_messageID m = id -> ml_messageID (f m) = id ->
  (forall r, mail_agrees d p m r -> mail_agrees d p (f m) r) -> mailbox_ok d p (change_mail id f l).
Proof.
  intros H Hm Hid Hf Ha. destruct (change_mail_split d p l id f m H Hm Hid) as (l1 & l2 & -> & ->). split.
  - eapply sorted_replace; [apply (mb_sorted _ _ _ H)|congruence].
  - intros id' r Hr Hp. destruct (mb_rows _ _ _ H id' r Hr Hp) as (x & Hx & Ex).
    apply elem_of_app in Hx as [Hx|[->|Hx]%elem_of_cons]; [exists x|exists (f m)|exists x]; (split; [set_solver|congruence]).
  - intros x [Hx|[->|Hx]%elem_of_cons]%elem_of_app; [apply (mb_mails _ _ _ H); set_solver| |apply (mb_mails _ _ _ H); set_solver].
    destruct (mb_mails _ _ _ H m ltac:(set_solver)) as [r Hr]. exists r. by apply Ha.
Qed.

Lemma same_stored d d' e : same_tables d d' -> stored_mail d' e = stored_mail d e.
Proof. intros Hs. unfold stored_mail. by rewrite (same_mailed d d'). Qed.

Lemma mailbox_same d d' p l : same_tables d d' -> mailbox_ok d p l -> mailbox_ok d' p l.
Proof.
  intros Hs [H1 H2 H3]. split; [done|by rewrite (st_mails _ _ Hs)|]. intros m Hm. destruct (H3 m Hm) as [r [A1 A2 A3 A4 A5 A6 A7]]. exists r.
  split; try done.
  - by rewrite (st_mails _ _ Hs).
  - intros g. rewrite (st_mail_items _ _ Hs). apply A5.
  - by rewrite (same_mailed d d').
  - by rewrite (same_stored d d').
Qed.

(** ** Loading *)

(** Every item of the database has a template. *)
Context (protos : Z -> option ItemTemplate).
Definition templates_ok (d : CharDB) : Prop := forall g r, db_items d !! g = Some r -> is_Some (protos (ir_entry r)).
Lemma same_templates d d' : same_tables d d' -> templates_ok d -> templates_ok d'.
Proof.
  intros Hs Ht g r Hr. pose proof (st_items _ _ Hs) as E. apply (f_equal (fun m => m !! g)) in E. rewrite !lookup_fmap, Hr in E.
  destruct (db_items d !! g) as [r0|] eqn:E0; [|done]. cbn in E. injection E as E _. rewrite E. by eapply Ht.
Qed.
(** The items in the mailbox are in memory. *)
Definition mitems_ok (s : Realm) (pl : Player) : Prop := forall g, g ∈ pl_mitems pl -> is_Some (r_items s !! g).
(** [mails] have been loaded into the mailbox of [p]; his money and his bags are
    as before. *)
Record loaded (p : Z) (mails : list Mail) (s s' : Realm) : Prop := {
  ld_player : exists a b, r_online s !! p = Some a /\ r_online s' = <[p := b]> (r_online s) /\ pl_mails b = pl_mails a ++ mails /\
    pl_money b = pl_money a /\ pl_bags b = pl_bags a /\ pl_unReadMails b = pl_unReadMails a;
  ld_tables : same_tables (r_db s) (r_db s');
  ld_trans : r_trans s' = r_trans s;
  ld_mitems : forall a b, r_online s !! p = Some a -> r_online s' !! p = Some b -> mitems_ok s a -> mitems_ok s' b
}.
Lemma loaded_refl p s a : r_online s !! p = Some a -> loaded p [] s s.
Proof. intros Ha. split; [|apply same_tables_refl|done|intros; by simplify_eq]. exists a, a. rewrite insert_id, app_nil_r by done. done. Qed.
Lemma loaded_trans p l1 l2 s1 s2 s3 : loaded p l1 s1 s2 -> loaded p l2 s2 s3 -> loaded p (l1 ++ l2) s1 s3.
Proof.
  intros [(a & b & Ha & Eb & H1 & H2 & H3 & H4) T1 R1 M1] [(b' & c & Hb & Ec & K1 & K2 & K3 & K4) T2 R2 M2].
  pose proof Hb as Hb2. rewrite Eb, lookup_insert_eq in Hb. injection Hb as <-.
  split; [|by eapply same_tables_trans|congruence|intros x y Hx Hy Hxs; eapply M2; [done..|]; by eapply M1].
  exists a, c. rewrite Ec, Eb, insert_insert_eq, K1, H1, app_assoc. split_and!; congruence.
Qed.
Lemma upd_player_loaded p f l a s : r_online s !! p = Some a -> pl_mails (f a) = pl_mails a ++ l -> pl_money (f a) = pl_money a ->
  pl_bags (f a) = pl_bags a -> pl_unReadMails (f a) = pl_unReadMails a -> (mitems_ok s a -> mitems_ok s (f a)) ->
  exists s', upd_player p f s = (Ok tt, s') /\ loaded p l s s'.
Proof.
  intros Ha H1 H2 H3 H4 H5. rewrite (upd_player_ok p f a s Ha). eexists. split; [done|]. split; [by exists a, (f a)|done..|].
  intros x y Hx Hy. cbn in Hy. rewrite lookup_insert_eq in Hy. by simplify_eq.
Qed.
Lemma loaded_online p l s s' : loaded p l s s' -> is_Some (r_online s' !! p).
Proof. intros [(a & b & _ & -> & _) _ _ _]. by rewrite lookup_insert_eq. Qed.

Section Load.
Context (w : EconomyWorld) (Hproto : ew_proto w = protos) (Htemplate : ew_mail_template w = templates).

Lemma load_mailed_item_run p e s : is_Some (r_online s !! p) -> is_Some (protos (ir_entry e.2)) ->
  exists s', load_mailed_item w p e s = (Ok tt, s') /\ loaded p [] s s'.
Proof.
  intros [a Ha] [t Ht]. rewrite <- Hproto in Ht. unfold load_mailed_item. rewrite Ht. destruct (LoadFromDB_item_run w e.1 (ir_owner e.2) e.2 s t Ht) as (i & d & E & Hd & _).
  rewrite (bind_ok _ _ _ _ _ E). unfold AddMItem. rewrite (upd_player_ok p _ a) by done. eexists. split; [done|].
  split; cbn [r_db r_trans r_online r_items set_db set_items set_online]; [|done..|].
  - eexists a, _. split_and!; try done. cbn. by rewrite app_nil_r.
  - intros x y Hx Hy Hxs g. rewrite lookup_insert_eq in Hy. simplify_eq. cbn. intros [->%elem_of_singleton|Hg]%elem_of_union.
    + by rewrite lookup_insert_eq.
    + apply lookup_insert_is_Some'. right. by apply Hxs.
Qed.
Lemma load_mailed_items_run p l s : is_Some (r_online s !! p) -> (forall e, e ∈ l -> is_Some (protos (ir_entry e.2))) ->
  exists s', forM l (load_mailed_item w p) s = (Ok tt, s') /\ loaded p [] s s'.
Proof.
  revert s. induction l as [|e l IH]; intros s Hp Hl; cbn [forM].
  - destruct Hp as [a Ha]. exists s. split; [done|]. by eapply loaded_refl.
  - destruct (load_mailed_item_run p e s Hp ltac:(apply Hl; by left)) as (s1 & E1 & L1). rewrite (bind_ok _ _ _ _ _ E1).
    destruct (IH s1 (loaded_online _ _ _ _ L1)) as (s2 & E2 & L2); [intros x Hx; apply Hl; by right|].
    exists s2. split; [exact E2|]. by apply (loaded_trans p [] [] s s1 s2).
Qed.
Lemma load_mail_run p e s : is_Some (r_online s !! p) -> templates_ok (r_db s) ->
  exists s', load_mail w p e s = (Ok tt, s') /\ loaded p [stored_mail (r_db s) e] s s'.
Proof.
  intros Hp Ht. assert (exists s1, (if mr_has_items e.2 then LoadMailedItems w p e.1 else mret []) s =
    (Ok (if mr_has_items e.2 then mailed (r_db s) e.1 else []), s1) /\ loaded p [] s s1) as (s1 & E1 & L1).
  { destruct (mr_has_items e.2).
    - unfold LoadMailedItems. rewrite (bind_ok get _ s s s eq_refl). cbv zeta.
      destruct (load_mailed_items_run p (CHAR_SEL_MAILITEMS (r_db s) e.1) s Hp) as (s1 & E1 & L1).
      { intros [g r] [_ Hr]%elem_of_mailitems. by eapply Ht. }
      rewrite (bind_ok _ _ _ _ _ E1). by exists s1.
    - destruct Hp as [a Ha]. exists s. split; [done|]. by eapply loaded_refl. }
  unfold load_mail. cbv zeta. rewrite Htemplate, (bind_ok _ _ _ _ _ E1). destruct (loaded_online _ _ _ _ L1) as [a Ha].
  edestruct (upd_player_loaded p) as (s2 & E2 & L2); [exact Ha| | | | | |exists s2; split; [exact E2|]]; [done..|].
  by apply (loaded_trans p [] [stored_mail (r_db s) e] s s1 s2).
Qed.
Lemma load_mails_run p l s : is_Some (r_online s !! p) -> templates_ok (r_db s) ->
  exists s', forM l (load_mail w p) s = (Ok tt, s') /\ loaded p (stored_mail (r_db s) <$> l) s s'.
Proof.
  revert s. induction l as [|e l IH]; intros s Hp Ht; cbn [forM].
  - destruct Hp as [a Ha]. exists s. split; [done|]. by eapply loaded_refl.
  - destruct (load_mail_run p e s Hp Ht) as (s1 & E1 & L1). rewrite (bind_ok _ _ _ _ _ E1).
    destruct (IH s1 (loaded_online _ _ _ _ L1)) as (s2 & E2 & L2); [eapply same_templates; [apply (ld_tables _ _ _ _ L1)|done]|].
    exists s2. split; [exact E2|]. rewrite fmap_cons. apply (loaded_trans p [_] _ s s1 s2); [exact L1|].
    replace (stored_mail (r_db s) <$> l) with (stored_mail (r_db s1) <$> l); [done|].
    apply list_fmap_ext. intros i x _. apply same_stored, (ld_tables _ _ _ _ L1).
Qed.
Lemma LoadMail_run p s a : r_online s !! p = Some a -> templates_ok (r_db s) ->
  exists s' b, LoadMail w p s = (Ok tt, s') /\ r_online s' = <[p := b]> (r_online s) /\ pl_mails b = stored_mails (r_db s) p /\
    pl_mailsLoaded b = true /\ pl_money b = pl_money a /\ pl_bags b = pl_bags a /\ pl_unReadMails b = pl_unReadMails a /\
    same_tables (r_db s) (r_db s') /\ r_trans s' = r_trans s /\ (mitems_ok s a -> mitems_ok s' b).
Proof.
  intros Ha Ht. unfold LoadMail. rewrite (bind_ok _ _ _ _ _ (upd_player_ok p _ a s Ha)), (bind_ok get _ _ _ _ eq_refl).
  set (s1 := set_online _ s). destruct (load_mails_run p (CHAR_SEL_MAIL (r_db s1) p) s1) as (s2 & E2 & L2); [by apply lookup_insert_is_Some'; left|done|].
  rewrite (bind_ok _ _ _ _ _ E2). destruct L2 as [(a' & b & Ha' & Eb & H1 & H2 & H3 & H4) T R M].
  cbn in Ha'. rewrite lookup_insert_eq in Ha'. injection Ha' as <-. cbn in Eb. rewrite insert_insert_eq in Eb.
  rewrite (upd_player_ok p _ b) by (by rewrite Eb, lookup_insert_eq). eexists _, _. split; [done|]. cbn. rewrite Eb, insert_insert_eq.
  split; [done|]. cbn. split_and!; try done. intros Hx. apply (M (player_set_mails [] a) b); [apply lookup_insert_eq|by rewrite Eb, lookup_insert_eq|done].
Qed.

End Load.

(** Tables as the server writes them: numbers that fit, and mails that say whether
    they have items. *)
Definition mail_tables_ok (d : CharDB) : Prop := forall id r, db_mails d !! id = Some r ->
  0 <= mr_money r < 2 ^ 32 /\ 0 <= mr_cod r < 2 ^ 32 /\ 0 <= mr_checked r < 2 ^ 8 /\ (mr_has_items r = false -> mailed d id = []).
Lemma stored_ok d p : mail_tables_ok d -> mailbox_ok d p (stored_mails d p).
Proof.
  intros Hd. split; [apply stored_sorted| |].
  - intros id r Hr Hp. exists (stored_mail d (id, r)). split; [|done]. apply elem_of_stored. by exists id, r.
  - intros m (id & r & Hr & Hp & ->)%elem_of_stored. exists r. destruct (Hd id r Hr) as (H1 & H2 & H3 & H4). split; try done.
    + split_and!; cbn; try apply uint_range; lia.
    + by intros g ?%not_elem_of_nil.
    + cbn. rewrite filter_all by (intros i _; apply not_elem_of_nil). destruct (mr_has_items r); [done|by rewrite H4].
Qed.
End Mailbox.
