(* ===== verification/MailRequests.v ===== *)
(** * The mail handlers: what the requests do (model in MailHandlers.v)

    A session of a player at his mailbox: each request succeeds and keeps the
    mailbox and the tables in agreement. *)

From S2P Require Import Prelude.
From S2P Require Import Economy.
From S2P Require Import EconomyProofs.
From S2P Require Import Mail.
From S2P Require Import MailProofs.
From S2P Require Import MailHandlers.
From S2P Require Import MailboxProofs.
From stdpp Require Import list sorting.
Local Open Scope Z_scope.
#[local] Set Warnings "-clear-no-such-hyp".

(** Requests that read and empty a mailbox, and the server saving the player. *)
Inductive MailRequest :=
| MarkAsRead (mailbox mailId : Z)
| DeleteMail (mailbox mailId : Z)
| TakeMoney (mailbox money mailId : Z)
| GetMailList (mailbox : Z)
| QueryNextMailTime
| SavePlayer.
Definition run_request (w : EconomyWorld) (mw : MailWorld) (p : Z) (c : MailRequest) : RP unit :=
  match c with
  | MarkAsRead mailbox id => HandleMailMarkAsRead mw p mailbox id
  | DeleteMail mailbox id => HandleMailDelete mw p mailbox id
  | TakeMoney mailbox money id => HandleMailTakeMoney w mw p mailbox money id
  | GetMailList mailbox => HandleGetMailList w mw p mailbox
  | QueryNextMailTime => HandleQueryNextMailTime w p
  | SavePlayer => BeginTransaction;; SaveToDB_mail p;; CommitTransaction
  end.

(** Runs from a state. *)
Lemma SendMailResult_ok p id action error equip g n s : exists data,
  SendMailResult p id action error equip g n s = (Ok tt, send_packet p (SMSG_SEND_MAIL_RESULT data) s).
Proof. by eexists. Qed.
Lemma CommitTransaction_ok s d : pending s = Some d -> CommitTransaction s = (Ok tt, set_trans [] (set_db d s)).
Proof. intros H. unfold CommitTransaction, modify. by rewrite (pending_commit s d H). Qed.

Lemma SaveGoldToDB_ok p pl s : r_online s !! p = Some pl ->
  SaveGoldToDB p s = (Ok tt, set_trans (r_trans s ++ [CHAR_UDP_CHAR_MONEY (pl_money pl) p]) s).
Proof. intros Hp. unfold SaveGoldToDB. by rewrite (bind_ok _ _ _ _ _ (deref_player_ok p pl s Hp)). Qed.

Lemma exec_mails_money l d d' : exec_statements (flat_map mail_statements l) d = Some d' -> db_money d' = db_money d.
Proof.
  revert d. induction l as [|m l IH]; intros d E; cbn [flat_map] in E; [by simplify_eq/=|].
  rewrite exec_app, exec_mail_statements in E. cbn in E. by rewrite (IH _ E).
Qed.
(** The ids of a sorted mailbox are all different. *)
Lemma GetMail_in pl m : StronglySorted mail_before (pl_mails pl) -> m ∈ pl_mails pl -> GetMail pl (ml_messageID m) = Some m.
Proof.
  intros Hs Hm. unfold GetMail. apply list_elem_of_split in Hm as (l1 & l2 & E). rewrite E in Hs |- *. clear E.
  apply StronglySorted_app in Hs as (H12 & _). induction l1 as [|a l1 IH]; cbn [app].
  - by rewrite filter_cons, decide_True.
  - rewrite filter_cons, decide_False; [apply IH; intros x y Hx; apply H12; by right|].
    specialize (H12 a m ltac:(by left) ltac:(by left)). unfold mail_before in H12. lia.
Qed.

Section Session.
Context (protos : Z -> option ItemTemplate) (templates : Z -> bool).
Abbreviation mailbox_ok := (mailbox_ok templates).
Abbreviation templates_ok := (templates_ok protos).

(** All that a mailbox has to be for its player to be served: if it is loaded it
    agrees with the tables, and its mails are unchanged unless it is marked. *)
Definition mails_ok (d : CharDB) (p : Z) (pl : Player) : Prop :=
  if pl_mailsLoaded pl then
    mailbox_ok d p (pl_mails pl) /\ (pl_mailsUpdated pl = false -> forall m, m ∈ pl_mails pl -> ml_state m = MAIL_STATE_UNCHANGED)
  else pl_mails pl = [] /\ mail_tables_ok d.
Record session_ok (p : Z) (s : Realm) : Prop := {
  ss_templates : templates_ok (r_db s);
  ss_player : exists pl, r_online s !! p = Some pl /\ 0 <= pl_money pl /\ mitems_ok s pl /\ mails_ok (r_db s) p pl
}.

Lemma session_send p m s : session_ok p s -> session_ok p (send_packet p m s).
Proof. by intros []. Qed.
Lemma session_player p s pl : templates_ok (r_db s) -> 0 <= pl_money pl -> mitems_ok s pl -> mails_ok (r_db s) p pl -> session_ok p (set_online (<[p := pl]> (r_online s)) s).
Proof. intros Ht Hc Hi H. split; [done|]. exists pl. split; [apply lookup_insert_eq|done]. Qed.

(** ** Saving *)

Lemma commit_mailbox p s pl d0 : r_online s !! p = Some pl -> pl_mailsLoaded pl = true -> mailbox_ok (r_db s) p (pl_mails pl) ->
  templates_ok (r_db s) -> pending s = Some d0 -> same_tables (r_db s) d0 ->
  exists d, (SaveMail p;; CommitTransaction) s =
    (Ok tt, set_trans [] (set_db d (set_online (<[p := player_saved pl]> (r_online s))
       (set_trans (r_trans s ++ flat_map mail_statements (pl_mails pl)) s)))) /\
    mailbox_ok d p (kept_mails (pl_mails pl)) /\ templates_ok d /\ exec_statements (flat_map mail_statements (pl_mails pl)) d0 = Some d.
Proof.
  intros Hp Hl Hm Ht Hd Hs. destruct (mailbox_save templates d0 p [] (pl_mails pl)) as (d & E & Hk & Hi); [by eapply mailbox_same|].
  exists d. split_and!; [|done| |done].
  - rewrite (bind_ok _ _ _ _ _ (SaveMail_run p s pl Hp Hl)). apply CommitTransaction_ok. unfold pending in *. cbn. by rewrite exec_app, Hd.
  - intros g r Hg. apply Hi in Hg. by eapply same_templates.
Qed.
Lemma saved_session p s pl d : r_online s !! p = Some (player_saved pl) -> r_db s = d -> pl_mailsLoaded pl = true ->
  0 <= pl_money pl -> mitems_ok s pl -> mailbox_ok d p (kept_mails (pl_mails pl)) -> templates_ok d -> session_ok p s.
Proof.
  intros Hp <- Hl Hc Hi Hm Ht. split; [done|]. eexists. split; [done|]. split; [done|]. split; [done|]. unfold mails_ok. cbn. rewrite Hl. split; [done|]. intros _ m. apply kept_unchanged.
Qed.

(** ** Changing a mail *)

(** A change that saving will write. *)
Definition mail_edit (f : Mail -> Mail) : Prop := forall d p m r, mail_agrees templates d p m r -> mail_agrees templates d p (f m) r.
Lemma edit_session p id f s pl m : mail_edit f -> (forall m, ml_messageID (f m) = ml_messageID m) -> templates_ok (r_db s) ->
  mails_ok (r_db s) p pl -> GetMail pl id = Some m ->
  mails_ok (r_db s) p (player_set_updated true (player_set_mails (change_mail id f (pl_mails pl)) pl)) /\ pl_mailsLoaded pl = true.
Proof.
  intros Hf Hid Ht H Hm. apply GetMail_Some in Hm as [Hm <-]. unfold mails_ok in *. cbn. destruct (pl_mailsLoaded pl).
  - split; [|done]. split; [|done]. eapply mailbox_change; [apply H|done|done|apply Hid|apply Hf].
  - destruct H as [E _]. rewrite E in Hm. by apply not_elem_of_nil in Hm.
Qed.

Lemma lor_width n a b : 0 <= n -> 0 <= a < 2 ^ n -> 0 <= b < 2 ^ n -> 0 <= Z.lor a b < 2 ^ n.
Proof.
  intros Hn Ha Hb. rewrite <- (Z.mod_small a (2 ^ n)), <- (Z.mod_small b (2 ^ n)) by done.
  assert (Z.lor (a mod 2 ^ n) (b mod 2 ^ n) = Z.lor a b mod 2 ^ n) as ->.
  { rewrite <- !Z.land_ones by done. by rewrite Z.land_lor_distr_l. }
  apply Z.mod_pos_bound, Z.pow_pos_nonneg; lia.
Qed.
Lemma edit_mark_read : mail_edit mark_read.
Proof.
  intros d p m r [A1 A2 A3 A4 A5 A6 A7]. split; try done. destruct A4 as (F1 & F2 & F3 & F4 & F5).
  split; [exact F1|]. split; [exact F2|]. split; [exact F3|]. split; [exact F4|]. by apply lor_width.
Qed.
Lemma edit_delete : mail_edit (mail_set_state MAIL_STATE_DELETED).
Proof. intros d p m r [A1 A2 A3 A4 A5 A6 A7]. by split. Qed.
Lemma edit_money : mail_edit (mail_set_money 0).
Proof. intros d p m r [A1 A2 A3 A4 A5 A6 A7]. split; try done. unfold mail_fits in *. cbn. lia. Qed.

(** The money of a mail that a request finds. *)
Lemma find_money w p s pl id m : session_ok p s -> r_online s !! p = Some pl -> find_open w pl id = Some m -> 0 <= ml_money m < 2 ^ 32.
Proof.
  intros [Ht (pl' & Hp' & _ & _ & Hm)] Hp Hf. rewrite Hp in Hp'. injection Hp' as <-. pose proof (find_open_Some w pl id m Hf) as [Hg _].
  destruct (edit_session p id _ s pl m edit_money (fun _ => eq_refl) Ht Hm Hg) as [_ Hl]. unfold mails_ok in Hm. rewrite Hl in Hm.
  apply GetMail_Some in Hg as [Hg _]. destruct (mb_mails _ _ _ _ (proj1 Hm) m Hg) as [r Ha]. apply (ma_fits _ _ _ _ _ Ha).
Qed.
(** The mail without its money, once it is saved. *)
Lemma taken_mail p s pl id m : session_ok p s -> r_online s !! p = Some pl -> m ∈ pl_mails pl -> ml_messageID m = id ->
  forall d, mailbox_ok d p (kept_mails (change_mail id (mail_set_money 0) (pl_mails pl))) ->
  exists r, saved_mail (mail_set_money 0 m) ∈ kept_mails (change_mail id (mail_set_money 0) (pl_mails pl)) /\
    db_mails d !! id = Some r /\ mr_money r = 0.
Proof.
  intros [_ (pl' & Hp' & _ & _ & Hm)] Hp Hin Hid d Hd. rewrite Hp in Hp'. injection Hp' as <-. unfold mails_ok in Hm.
  destruct (pl_mailsLoaded pl); [|destruct Hm as [E _]; rewrite E in Hin; by apply not_elem_of_nil in Hin].
  destruct (change_mail_split templates (r_db s) p _ id (mail_set_money 0) m (proj1 Hm) Hin Hid) as (l1 & l2 & _ & E). rewrite E in Hd |- *.
  assert (saved_mail (mail_set_money 0 m) ∈ kept_mails (l1 ++ mail_set_money 0 m :: l2)) as Hk.
  { unfold kept_mails. rewrite flat_map_app. cbn. set_solver. }
  destruct (mb_mails _ _ _ _ Hd _ Hk) as [r Ha]. exists r. split; [done|]. pose proof (ma_row _ _ _ _ _ Ha) as Hr. rewrite saved_mail_id in Hr.
  cbn in Hr. rewrite Hid in Hr. split; [done|]. pose proof (ma_unchanged _ _ _ _ _ Ha eq_refl) as Eu. apply (f_equal ml_money) in Eu. cbn in Eu. done.
Qed.

Section Requests.
Context (w : EconomyWorld) (mw : MailWorld) (Hproto : ew_proto w = protos) (Htemplate : ew_mail_template w = templates).
Context (p : Z).

(** A request that succeeds and leaves a session as it should be. *)
Definition served (m : RP unit) (s : Realm) : Prop := exists s', m s = (Ok tt, s') /\ session_ok p s'.
Lemma served_ret s : session_ok p s -> served (mret tt) s.
Proof. intros H. by exists s. Qed.
Lemma served_result id action error equip g n s : session_ok p s -> served (SendMailResult p id action error equip g n) s.
Proof. intros H. destruct (SendMailResult_ok p id action error equip g n s) as [data E]. eexists. split; [exact E|]. by apply session_send. Qed.
Lemma served_step {A} (m : RP A) (k : A -> RP unit) s a s' : m s = (Ok a, s') -> served (k a) s' -> served (m ≫= k) s.
Proof. intros E (s2 & E2 & H). exists s2. by rewrite (bind_ok _ _ _ _ _ E). Qed.

Lemma MarkAsRead_served mailbox id s : session_ok p s -> served (HandleMailMarkAsRead mw p mailbox id) s.
Proof.
  intros H. unfold HandleMailMarkAsRead. destruct (mw_mailbox mw p mailbox); [|by apply served_ret]. destruct H as [Ht (pl & Hp & Hc & Hi & Hm)].
  eapply served_step; [by apply deref_player_ok|]. destruct (GetMail pl id) as [m|] eqn:Eg; [|by apply served_ret; split; [|exists pl]].
  eapply served_step; [by apply (upd_player_ok p _ pl)|]. 
  set (pl1 := if pl_unReadMails pl =? 0 then pl else player_set_unread (pl_unReadMails pl - 1) pl).
  eapply served_step; [apply (upd_player_ok p _ pl1), lookup_insert_eq|]. unfold set_updated. eexists. split; [eapply (upd_player_ok p), lookup_insert_eq|].
  apply session_player; [done|unfold pl1; by destruct (_ =? _)|unfold pl1; by destruct (_ =? _)|]. cbn [r_db set_online].
  assert (pl_mails pl1 = pl_mails pl /\ pl_mailsLoaded pl1 = pl_mailsLoaded pl) as [E1 E2] by (unfold pl1; by destruct (_ =? _)).
  destruct (edit_session p id mark_read s pl m edit_mark_read (fun _ => eq_refl) Ht Hm Eg) as [Hn _]. unfold mails_ok in *. cbn in *. by rewrite E1, E2.
Qed.
Lemma Delete_served mailbox id s : session_ok p s -> served (HandleMailDelete mw p mailbox id) s.
Proof.
  intros H. unfold HandleMailDelete. destruct (mw_mailbox mw p mailbox); [|by apply served_ret]. destruct H as [Ht (pl & Hp & Hc & Hi & Hm)].
  unfold set_updated. eapply served_step; [by apply (upd_player_ok p _ pl)|]. eapply served_step; [apply deref_player_ok, lookup_insert_eq|].
  assert (mails_ok (r_db s) p (player_set_updated true pl)) as Hu.
  { unfold mails_ok in *. cbn. destruct (pl_mailsLoaded pl); [|done]. split; [apply Hm|done]. }
  change (GetMail (player_set_updated true pl) id) with (GetMail pl id).
  destruct (GetMail pl id) as [m|] eqn:Eg; [|by apply served_result, session_player].
  destruct (negb _); [by apply served_result, session_player|].
  eapply served_step; [eapply (upd_player_ok p), lookup_insert_eq|]. apply served_result. cbn [r_online set_online]. rewrite insert_insert_eq.
  destruct (edit_session p id _ s pl m edit_delete (fun _ => eq_refl) Ht Hm Eg) as [Hn _].
  apply (session_player p s); [done|done|done|exact Hn].
Qed.

(** ** Money *)

(** Whether there is room for [a] copper in the purse. *)
Definition purse_fits (pl : Player) (a : Z) : bool := (a =? 0) || (pl_money pl <? MAX_MONEY_AMOUNT - a).
Lemma ModifyMoney_gain a pl s : r_online s !! p = Some pl -> 0 <= pl_money pl -> 0 <= a < 2 ^ 32 ->
  ModifyMoney p a s = if purse_fits pl a then (Ok true, set_online (<[p := player_set_money (pl_money pl + a) pl]> (r_online s)) s) else (Ok false, s).
Proof.
  intros Hp Hm Ha. unfold ModifyMoney, purse_fits. rewrite (bind_ok _ _ _ _ _ (deref_player_ok p pl s Hp)).
  destruct (Z.eqb_spec a 0) as [->|Hne]; cbn [orb].
  - rewrite Z.add_0_r. replace (player_set_money (pl_money pl) pl) with pl by (by destruct pl). rewrite insert_id by done. by destruct s.
  - destruct (Z.ltb_spec a 0); [lia|]. rewrite uint_small by (unfold MAX_MONEY_AMOUNT; lia).
    destruct (Z.ltb_spec (pl_money pl) (MAX_MONEY_AMOUNT - a)); [|done]. rewrite (bind_ok _ _ _ _ _ (upd_player_ok p _ pl s Hp)).
    rewrite uint_small by (unfold MAX_MONEY_AMOUNT in *; lia). done.
Qed.
(** The player once the money of the mail is his, before it is saved. *)
Definition money_taken (pl : Player) (id a : Z) : Player :=
  player_set_updated true (player_set_mails (change_mail id (mail_set_money 0) (pl_mails pl)) (player_set_money (pl_money pl + a) pl)).
Lemma TakeMoney_run mailbox money id s pl m : session_ok p s -> mw_mailbox mw p mailbox = true -> r_online s !! p = Some pl ->
  find_open w pl id = Some m -> (money = 0 \/ money = ml_money m) -> purse_fits pl (ml_money m) = true ->
  exists d sent, HandleMailTakeMoney w mw p mailbox money id s = (Ok tt, mkRealm (r_items s)
      (<[p := player_saved (money_taken pl id (ml_money m))]> (r_online s)) (r_auctions s) (r_aitems s) (r_next_auction s) (r_next_mail s)
      (r_next_item s) d [] sent) /\
    mailbox_ok d p (kept_mails (change_mail id (mail_set_money 0) (pl_mails pl))) /\ templates_ok d /\ pl_mailsLoaded pl = true /\
    exec_statements (flat_map mail_statements (change_mail id (mail_set_money 0) (pl_mails pl)))
      (db_set_money (<[p := pl_money pl + ml_money m]> (db_money (r_db s))) (r_db s)) = Some d.
Proof.
  intros [Ht (pl' & Hp' & Hc & Hi & Hm)] Hbox Hp Hf Hmoney Hfits. rewrite Hp in Hp'. injection Hp' as <-.
  pose proof (find_open_Some w pl id m Hf) as [Hg _].
  destruct (edit_session p id _ s pl m edit_money (fun _ => eq_refl) Ht Hm Hg) as [Hn Hl].
  assert (0 <= ml_money m < 2 ^ 32) as Hr by (apply (find_money w p s pl id); [split; [|exists pl]|..]; done).
  unfold HandleMailTakeMoney. rewrite Hbox, (bind_ok _ _ _ _ _ (deref_player_ok p pl s Hp)), Hf.
  replace ((0 <? money) && negb (ml_money m =? money)) with false by (destruct Hmoney as [->| ->]; [done|by rewrite Z.eqb_refl, andb_false_r]).
  rewrite sint_small by lia. rewrite (bind_ok _ _ _ _ _ (eq_trans (ModifyMoney_gain _ _ _ Hp Hc Hr) ltac:(by rewrite Hfits))). cbn [negb].
  unfold upd_mail, set_updated. rewrite (bind_ok _ _ _ _ _ (upd_player_ok p _ _ _ (lookup_insert_eq _ _ _))).
  rewrite (bind_ok _ _ _ _ _ (upd_player_ok p _ _ _ (lookup_insert_eq _ _ _))).
  unfold SendMailResult, SendPacket, BeginTransaction. rewrite (bind_ok _ _ _ _ _ (modify_ok _ _)), (bind_ok _ _ _ _ _ (modify_ok _ _)).
  set (pl1 := player_set_updated true _). set (s1 := set_trans [] _).
  assert (r_online s1 !! p = Some pl1) as Hp1 by (cbn; apply lookup_insert_eq).
  rewrite (bind_ok _ _ _ _ _ (SaveGoldToDB_ok p pl1 s1 Hp1)).
  set (s2 := set_trans (_ ++ _) s1). set (d0 := db_set_money (<[p := pl_money pl + ml_money m]> (db_money (r_db s))) (r_db s)).
  destruct (commit_mailbox p s2 pl1 d0) as (d & E & H1 & H2 & H3).
  - exact Hp1.
  - exact Hl.
  - unfold mails_ok in Hn. cbn in Hn. rewrite Hl in Hn. apply Hn.
  - exact Ht.
  - done.
  - done.
  - rewrite E. exists d. eexists. split; [|done]. do 2 f_equal. unfold s2, s1. cbn. by rewrite !insert_insert_eq.
Qed.

Lemma TakeMoney_served mailbox money id s : session_ok p s -> served (HandleMailTakeMoney w mw p mailbox money id) s.
Proof.
  intros H. destruct (mw_mailbox mw p mailbox) eqn:Eb; [|unfold HandleMailTakeMoney; rewrite Eb; by apply served_ret].
  pose proof H as [Ht (pl & Hp & Hc & Hi & Hm)]. destruct (find_open w pl id) as [m|] eqn:Ef.
  2: { unfold HandleMailTakeMoney. rewrite Eb. eapply served_step; [by apply deref_player_ok|]. rewrite Ef. by apply served_result. }
  destruct ((0 <? money) && negb (ml_money m =? money)) eqn:Em.
  { unfold HandleMailTakeMoney. rewrite Eb. eapply served_step; [by apply deref_player_ok|]. rewrite Ef, Em. by apply served_result. }
  pose proof (find_money w p s pl id m H Hp Ef) as Hr.
  destruct (purse_fits pl (ml_money m)) eqn:Ep.
  - destruct (TakeMoney_run mailbox (ml_money m) id s pl m H Eb Hp Ef ltac:(by right) Ep) as (d & sent & E & H1 & H2 & Hl & _).
    assert (HandleMailTakeMoney w mw p mailbox money id s = HandleMailTakeMoney w mw p mailbox (ml_money m) id s) as Eq.
    { unfold HandleMailTakeMoney. rewrite Eb, !(bind_ok _ _ _ _ _ (deref_player_ok p pl s Hp)), Ef, Em. by rewrite Z.eqb_refl, andb_false_r. }
    eexists. rewrite Eq. split; [exact E|]. apply (saved_session p _ (money_taken pl id (ml_money m)) d); try done; [apply lookup_insert_eq|cbn; lia].
  - unfold HandleMailTakeMoney. rewrite Eb. eapply served_step; [by apply deref_player_ok|]. rewrite Ef, Em, sint_small by lia.
    eapply served_step; [rewrite (ModifyMoney_gain _ pl) by done; by rewrite Ep|]. by apply served_result.
Qed.

(** ** Lists *)

Lemma LoadMail_session s : session_ok p s -> forall pl, r_online s !! p = Some pl -> pl_mailsLoaded pl = false ->
  exists s' b, LoadMail w p s = (Ok tt, s') /\ session_ok p s' /\ r_online s' !! p = Some b /\ pl_mailsLoaded b = true.
Proof.
  intros [Ht (pl & Hp & Hc & Hi & Hm)] pl' Hp' Hl. rewrite Hp in Hp'. injection Hp' as <-.
  destruct (LoadMail_run templates protos w Hproto Htemplate p s pl Hp Ht) as (s' & b & E & Ho & Hb & Hlb & Hcb & _ & _ & Hs & _ & Hx).
  exists s', b. split; [exact E|]. rewrite Ho, lookup_insert_eq. split; [|done]. split; [by eapply same_templates|].
  exists b. rewrite Ho, lookup_insert_eq. split; [done|]. split; [by rewrite Hcb|]. split; [by apply Hx|]. unfold mails_ok in *. rewrite Hl in Hm. rewrite Hlb, Hb.
  split; [eapply mailbox_same; [done|]; by apply stored_ok, Hm|]. intros _ m (id & r & _ & _ & ->)%elem_of_stored. done.
Qed.
Lemma load_if_needed s : session_ok p s -> forall pl, r_online s !! p = Some pl ->
  exists s' b, (if pl_mailsLoaded pl then mret tt else LoadMail w p) s = (Ok tt, s') /\ session_ok p s' /\ r_online s' !! p = Some b /\
    pl_mailsLoaded b = true.
Proof.
  intros H pl Hp. destruct (pl_mailsLoaded pl) eqn:El; [by exists s, pl|by eapply LoadMail_session].
Qed.

Lemma QueryNextMailTime_served s : session_ok p s -> served (HandleQueryNextMailTime w p) s.
Proof.
  intros H. pose proof H as [_ (pl & Hp & _)]. unfold HandleQueryNextMailTime. eapply served_step; [by apply deref_player_ok|].
  destruct (load_if_needed s H pl Hp) as (s1 & b & E & H1 & Hb & _). eapply served_step; [exact E|].
  eapply served_step; [by apply deref_player_ok|]. eexists. split; [done|]. by apply session_send.
Qed.
Lemma kept_same l : (forall m, m ∈ l -> ml_state m = MAIL_STATE_UNCHANGED) -> kept_mails l = l.
Proof.
  induction l as [|m l IH]; intros Hl; [done|]. change (kept_mails (m :: l)) with (kept_mail m ++ kept_mails l).
  rewrite IH by (intros x Hx; apply Hl; by right). unfold kept_mail, mail_deleted, saved_mail. by rewrite (Hl m) by by left.
Qed.
(** A loaded mailbox is saved whenever there is something to save. *)
Lemma SavePlayer_run s pl : session_ok p s -> r_online s !! p = Some pl -> pl_mailsLoaded pl = true ->
  exists s' b, (BeginTransaction;; SaveToDB_mail p;; CommitTransaction) s = (Ok tt, s') /\ session_ok p s' /\
    r_online s' !! p = Some b /\ pl_mailsLoaded b = true /\ pl_mailsUpdated b = false /\ pl_mails b = kept_mails (pl_mails pl).
Proof.
  intros [Ht (pl' & Hp' & Hc & Hi & Hm)] Hp Hl. rewrite Hp in Hp'. injection Hp' as <-. unfold mails_ok in Hm. rewrite Hl in Hm. destruct Hm as [Hm Hu].
  unfold BeginTransaction. rewrite (bind_ok _ _ _ _ _ (modify_ok _ _)). set (s1 := set_trans [] s). unfold SaveToDB_mail.
  assert (r_online s1 !! p = Some pl) as Hp1 by done. destruct (pl_mailsUpdated pl) eqn:Eu.
  - destruct (commit_mailbox p s1 pl (r_db s)) as (d & E & H1 & H2 & _); try done. eexists _, (player_saved pl). split_and!; try done.
    + erewrite bind_ok; [|rewrite (bind_ok _ _ _ _ _ (deref_player_ok p pl s1 Hp1)), Eu; by apply SaveMail_run].
      rewrite (bind_ok _ _ _ _ _ (SaveMail_run p s1 pl Hp1 Hl)) in E. exact E.
    + apply (saved_session p _ pl d); try done. apply lookup_insert_eq.
    + apply lookup_insert_eq.
  - exists (set_trans [] (set_db (r_db s) s1)), pl. split.
    + erewrite bind_ok; [|rewrite (bind_ok _ _ _ _ _ (deref_player_ok p pl s1 Hp1)), Eu; done]. by apply CommitTransaction_ok.
    + split; [|by rewrite (kept_same _ (Hu eq_refl))]. split; [done|]. exists pl. split; [done|]. split; [done|]. split; [done|]. unfold mails_ok.
      rewrite Hl. split; [done|]. intros _. exact (Hu eq_refl).
Qed.
Lemma SavePlayer_served s : session_ok p s -> served (BeginTransaction;; SaveToDB_mail p;; CommitTransaction) s.
Proof.
  intros H. pose proof H as [Ht (pl & Hp & Hc & Hi & Hm)]. destruct (pl_mailsLoaded pl) eqn:El.
  - destruct (SavePlayer_run s pl H Hp El) as (s' & b & E & H' & _). by exists s'.
  - eapply served_step; [apply modify_ok|]. set (s1 := set_trans [] s). unfold SaveToDB_mail.
    exists (set_trans [] (set_db (r_db s) s1)). split; [|by split; [|exists pl]].
    erewrite bind_ok; [by apply (CommitTransaction_ok s1)|]. rewrite (bind_ok _ _ _ _ _ (deref_player_ok p pl s1 Hp)).
    destruct (pl_mailsUpdated pl); [|done]. unfold SaveMail. by rewrite (bind_ok _ _ _ _ _ (deref_player_ok p pl s1 Hp)), El.
Qed.

(** Listing needs the items of the mailbox, and changes nothing. *)
Lemma list_items_run pl i l s : mitems_ok s pl -> exists data, list_items w mw pl i l s = (Ok data, s).
Proof.
  intros Hi. revert i. induction l as [|[g e] l IH]; intros i; cbn [list_items]; [by eexists|].
  assert (exists data, list_item w mw pl i g s = (Ok data, s)) as [d E].
  { unfold list_item, GetMItem. cbv zeta. case_bool_decide as Hg; [|by eexists]. destruct (Hi g Hg) as [x Hx].
    rewrite (bind_ok _ _ s (Some x) s) by (by rewrite (bind_ok _ _ _ _ _ (deref_item_ok g x s Hx))). by eexists. }
  destruct (IH (i + 1)) as [r Er]. rewrite (bind_ok _ _ _ _ _ E), (bind_ok _ _ _ _ _ Er). by eexists.
Qed.
Lemma list_mails_run pl l acc s : mitems_ok s pl -> exists r, list_mails w mw pl l acc s = (Ok r, s).
Proof.
  intros Hi. revert acc. induction l as [|m l IH]; intros acc; cbn [list_mails]; [by eexists|].
  assert (exists r, list_step w mw pl m acc s = (Ok r, s)) as [r E].
  { unfold list_step. destruct acc as [[c n] data]. repeat (case_match; [by eexists|]). unfold list_mail.
    destruct (list_items_run pl 0 (firstn (Z.to_nat (u8 (len (ml_items m)))) (ml_items m)) s Hi) as [d Ed]. eexists.
    erewrite bind_ok; [|by rewrite (bind_ok _ _ _ _ _ Ed)]. done. }
  rewrite (bind_ok _ _ _ _ _ E). apply IH.
Qed.
Lemma GetMailList_served mailbox s : session_ok p s -> served (HandleGetMailList w mw p mailbox) s.
Proof.
  intros H. unfold HandleGetMailList. destruct (mw_mailbox mw p mailbox); [|by apply served_ret]. pose proof H as [_ (pl & Hp & _)].
  eapply served_step; [by apply deref_player_ok|]. destruct (load_if_needed s H pl Hp) as (s1 & b & E & H1 & Hb & _).
  eapply served_step; [exact E|]. eapply served_step; [by apply deref_player_ok|]. destruct H1 as [Ht (b' & Hb' & Hc & Hi & Hm)].
  rewrite Hb in Hb'. injection Hb' as <-. destruct (list_mails_run b (pl_mails b) (0, 0, []) s1 Hi) as [r Er].
  eapply served_step; [exact Er|]. unfold SendPacket, UpdateNextMailTimeAndUnreads. eapply served_step; [apply modify_ok|].
  eexists. split; [by apply (upd_player_ok p _ b)|]. cbv beta.
  destruct (fold_left (count_mail w) (pl_mails b) (0, 0)) as [next unread]. by apply (session_player p (send_packet p _ s1)).
Qed.

(** Every request is served. *)
Lemma run_request_served c s : session_ok p s -> served (run_request w mw p c) s.
Proof.
  intros H. destruct c; cbn [run_request];
    [by apply MarkAsRead_served|by apply Delete_served|by apply TakeMoney_served|by apply GetMailList_served|
     by apply QueryNextMailTime_served|by apply SavePlayer_served].
Qed.
End Requests.
End Session.
