(* ===== verification/MailSending.v ===== *)
(** * The mail handlers: sending a mail (model in MailHandlers.v)

    What the checks let through, what leaves the bags of the sender, and what the
    transaction writes. *)

From S2P Require Import Prelude.
From S2P Require Import Economy.
From S2P Require Import EconomyProofs.
From S2P Require Import Mail.
From S2P Require Import MailProofs.
From S2P Require Import MailHandlers.
From stdpp Require Import list sorting.
Local Open Scope Z_scope.
#[local] Set Warnings "-clear-no-such-hyp".

(** ** Statements about items *)

Definition item_statement (st : CharStatement) : Prop :=
  match st with
  | CHAR_REP_ITEM_INSTANCE _ _ | CHAR_UPD_ITEM_INSTANCE _ _ | CHAR_DEL_ITEM_INSTANCE _ => True
  | _ => False
  end.
(** They change [item_instance] and nothing else. *)
Record same_but_items (d d' : CharDB) : Prop := {
  bi_mails : db_mails d' = db_mails d;
  bi_mail_items : db_mail_items d' = db_mail_items d;
  bi_money : db_money d' = db_money d
}.
Lemma exec_item_statements l d : Forall item_statement l -> exists d', exec_statements l d = Some d' /\ same_but_items d d'.
Proof.
  intros Hl. revert d. induction Hl as [|st l Hst Hl IH]; intros d; [by exists d|].
  assert (exists d1, exec_statement st d = Some d1 /\ same_but_items d d1) as (d1 & E1 & [A1 A2 A3]).
  { destruct st; try done; by eexists. }
  destruct (IH d1) as (d2 & E2 & [B1 B2 B3]). exists d2. cbn. rewrite E1. split; [done|]. split; congruence.
Qed.

(** Only items, and statements about them, have changed. *)
Record item_writes (s s' : Realm) : Prop := {
  iw_trans : exists l, Forall item_statement l /\ r_trans s' = r_trans s ++ l;
  iw_db : r_db s' = r_db s;
  iw_next : r_next_mail s' = r_next_mail s
}.
Lemma item_writes_none s s' : r_trans s' = r_trans s -> r_db s' = r_db s -> r_next_mail s' = r_next_mail s -> item_writes s s'.
Proof. intros E1 E2 E3. split; [|done..]. exists []. by rewrite app_nil_r. Qed.
Lemma item_writes_one st s s' : r_trans s' = r_trans s ++ [st] -> item_statement st -> r_db s' = r_db s -> r_next_mail s' = r_next_mail s ->
  item_writes s s'.
Proof. intros E1 Hst E2 E3. split; [|done..]. exists [st]. split; [by constructor|done]. Qed.
Lemma item_writes_refl s : item_writes s s.
Proof. by apply item_writes_none. Qed.
Lemma item_writes_trans s1 s2 s3 : item_writes s1 s2 -> item_writes s2 s3 -> item_writes s1 s3.
Proof.
  intros [(l1 & H1 & E1) D1 N1] [(l2 & H2 & E2) D2 N2]. split; [|congruence..]. exists (l1 ++ l2).
  split; [by apply Forall_app|]. by rewrite E2, E1, app_assoc.
Qed.
Lemma item_writes_pending s s' d : item_writes s s' -> pending s = Some d -> exists d', pending s' = Some d' /\ same_but_items d d'.
Proof.
  intros [(l & Hl & E) D N] Hd. destruct (exec_item_statements l d Hl) as (d' & Ed & H). exists d'. unfold pending in *.
  by rewrite E, D, exec_app, Hd.
Qed.

(** An item that can be saved and then still is there. *)
Definition live (s : Realm) (g : Z) : Prop := exists i, r_items s !! g = Some i /\ it_state i <> ITEM_REMOVED.

Lemma SaveToDB_writes g s : is_Some (r_items s !! g) -> exists s', SaveToDB g s = (Ok tt, s') /\ item_writes s s' /\ r_online s' = r_online s /\
  (forall x, x <> g -> r_items s' !! x = r_items s !! x) /\ (live s g -> live s' g).
Proof.
  intros [i Hi]. unfold SaveToDB. rewrite (bind_ok _ _ _ _ _ (deref_item_ok g i s Hi)). destruct (it_state i) eqn:Es.
  - rewrite (upd_item_ok g _ i s Hi). eexists. split; [done|]. split; [apply (item_writes_none s); done|]. split; [done|].
    split; [intros x Hx; cbn; by rewrite lookup_insert_ne|]. intros _. eexists. split; [apply lookup_insert_eq|done].
  - unfold Append. rewrite (bind_ok _ _ _ _ _ (modify_ok _ _)), (upd_item_ok g _ i) by done. eexists. split; [done|].
    split; [by eapply item_writes_one|]. split; [done|].
    split; [intros x Hx; cbn; by rewrite lookup_insert_ne|]. intros _. eexists. split; [apply lookup_insert_eq|done].
  - unfold Append. rewrite (bind_ok _ _ _ _ _ (modify_ok _ _)), (upd_item_ok g _ i) by done. eexists. split; [done|].
    split; [by eapply item_writes_one|]. split; [done|].
    split; [intros x Hx; cbn; by rewrite lookup_insert_ne|]. intros _. eexists. split; [apply lookup_insert_eq|done].
  - unfold Append. rewrite (bind_ok _ _ _ _ _ (modify_ok _ _)), (delete_item_ok g i) by done. eexists. split; [done|].
    split; [by eapply item_writes_one|]. split; [done|].
    split; [intros x Hx; cbn; by rewrite lookup_delete_ne|]. intros (j & Hj & Hne). congruence.
Qed.

(** Saving a list of items. *)
Lemma forM_SaveToDB l s : NoDup l -> (forall g, g ∈ l -> is_Some (r_items s !! g)) ->
  exists s', forM l SaveToDB s = (Ok tt, s') /\ item_writes s s' /\ r_online s' = r_online s /\ forall x, live s x -> live s' x.
Proof.
  revert s. induction l as [|g l IH]; intros s Hnd Hl; cbn [forM].
  - exists s. split; [done|]. split; [apply item_writes_refl|done].
  - apply NoDup_cons in Hnd as [Hg Hnd]. destruct (SaveToDB_writes g s) as (s1 & E1 & W1 & O1 & I1 & L1); [apply Hl; by left|].
    rewrite (bind_ok _ _ _ _ _ E1). destruct (IH s1 Hnd) as (s2 & E2 & W2 & O2 & L2).
    + intros x Hx. rewrite I1 by (intros ->; done). apply Hl. by right.
    + exists s2. split; [exact E2|]. split; [by eapply item_writes_trans|]. split; [congruence|]. intros x Hx. apply L2.
      destruct (decide (x = g)) as [->|Hne]; [by apply L1|]. destruct Hx as (i & Hi & Hs). exists i. by rewrite I1.
Qed.
Lemma update_queue_items s p pl : NoDup (update_queue s p pl) /\ forall g, g ∈ update_queue s p pl -> is_Some (r_items s !! g).
Proof.
  unfold update_queue. split.
  - pose proof (in_order_NoDup (r_items s)) as Hnd. induction (in_order (r_items s)) as [|e l IH]; [constructor|].
    cbn in Hnd. apply NoDup_cons in Hnd as [He Hnd]. rewrite filter_cons. case_decide; [|by apply IH]. cbn. constructor; [|by apply IH].
    intros (x & E & [_ Hx]%list_elem_of_filter)%list_elem_of_fmap. apply He, list_elem_of_fmap. by exists x.
  - intros g ([g' i] & -> & [_ Hin%in_order_spec]%list_elem_of_filter)%list_elem_of_fmap. by exists i.
Qed.
Lemma SaveInventory_run p s pl : r_online s !! p = Some pl ->
  exists s', SaveInventory p s = (Ok tt, s') /\ item_writes s s' /\ r_online s' = r_online s /\ forall x, live s x -> live s' x.
Proof.
  intros Hp. unfold SaveInventory. rewrite (bind_ok _ _ _ _ _ (deref_player_ok p pl s Hp)), (bind_ok get _ s s s eq_refl).
  destruct (update_queue_items s p pl). by apply forM_SaveToDB.
Qed.

(** ** Attachments *)

Section Attach.
Context (p receiver : Z) (pl : Player).

(** [l] has been taken out of the bags of [p], since the state [s0]. *)
Record attached (s0 : Realm) (l : list Z) (s : Realm) : Prop := {
  at_online : r_online s = <[p := player_set_bags (filter (fun e => e.2 ∉ l) (pl_bags pl)) pl]> (r_online s0);
  at_writes : item_writes s0 s;
  at_live : forall g, g ∈ (in_order (pl_bags pl)).*2 -> live s g
}.
Lemma in_bags (bags : gmap Z Z) g : g ∈ (in_order bags).*2 <-> exists pos, bags !! pos = Some g.
Proof.
  rewrite list_elem_of_fmap. split.
  - intros ([pos g'] & -> & Hin%in_order_spec). by exists pos.
  - intros [pos Hpos]. exists (pos, g). split; [done|]. by apply in_order_spec.
Qed.
Lemma bags_without_nil (bags : gmap Z Z) : filter (fun e : Z * Z => e.2 ∉ []) bags = bags.
Proof. apply map_filter_id. intros pos g _. apply not_elem_of_nil. Qed.
Lemma upd_item_live g f s : (forall i, it_state i <> ITEM_REMOVED -> it_state (f i) <> ITEM_REMOVED) -> live s g ->
  exists s', upd_item g f s = (Ok tt, s') /\ item_writes s s' /\ r_online s' = r_online s /\ forall x, live s x -> live s' x.
Proof.
  intros Hf (i & Hi & Hs). rewrite (upd_item_ok g f i s Hi). eexists. split; [done|]. split; [by apply (item_writes_none s)|].
  split; [done|]. intros x (j & Hj & Hsj). unfold live. cbn. destruct (decide (x = g)) as [->|Hx].
  - rewrite lookup_insert_eq. eexists. split; [done|]. apply Hf. congruence.
  - rewrite lookup_insert_ne by done. by exists j.
Qed.
Lemma SetNotRefundable_state b i : it_state i <> ITEM_REMOVED -> it_state (SetNotRefundable b i) <> ITEM_REMOVED.
Proof.
  intros Hi. unfold SetNotRefundable. destruct (has _ _); [|done]. destruct b; [|done]. unfold SetState. cbn.
  destruct (it_state i) eqn:E; cbn; congruence.
Qed.

Lemma attach_item_run s0 l s g : attached s0 l s -> g ∈ (in_order (pl_bags pl)).*2 ->
  exists s', attach_item p receiver g s = (Ok tt, s') /\ attached s0 (g :: l) s'.
Proof.
  intros [Ho Hw Hl] Hg. unfold attach_item. destruct (upd_item_live g _ s (SetNotRefundable_state true) (Hl g Hg)) as (s1 & E1 & W1 & O1 & L1).
  rewrite (bind_ok _ _ _ _ _ E1).
  assert (exists s2, MoveItemFromInventory p g s1 = (Ok tt, s2) /\ item_writes s1 s2 /\
    r_online s2 = <[p := player_set_bags (filter (fun e => e.2 ∉ g :: l) (pl_bags pl)) pl]> (r_online s0) /\ forall x, live s1 x -> live s2 x)
    as (s2 & E2 & W2 & O2 & L2).
  { unfold MoveItemFromInventory. set (pl1 := player_set_bags (filter (fun e => e.2 ∉ l) (pl_bags pl)) pl).
    assert (r_online s1 !! p = Some pl1) as Hp1 by (by rewrite O1, Ho, lookup_insert_eq).
    assert (forall bags : gmap Z Z, filter (fun e => e.2 <> g) (filter (fun e : Z * Z => e.2 ∉ l) bags) = filter (fun e => e.2 ∉ g :: l) bags) as Hff.
    { intros bags. rewrite map_filter_filter. apply map_filter_ext. intros i x _. cbn. rewrite not_elem_of_cons. tauto. }
    rewrite (bind_ok _ _ _ _ _ (deref_player_ok p pl1 s1 Hp1)). case_bool_decide as Hin.
    - rewrite (bind_ok _ _ _ _ _ (upd_player_ok p _ pl1 s1 Hp1)).
      set (s1' := set_online _ s1).
      destruct (upd_item_live g _ s1' (SetNotRefundable_state false) (L1 g (Hl g Hg))) as (s2 & E2 & W2 & O2 & L2).
      exists s2. split; [exact E2|]. split; [eapply item_writes_trans; [|exact W2]; by apply item_writes_none|]. split; [|exact L2].
      rewrite O2. cbn. rewrite O1, Ho, insert_insert_eq. unfold pl1, player_set_bags. cbn. by rewrite Hff.
    - exists s1. split; [done|]. split; [apply item_writes_refl|]. split; [|done]. rewrite O1, Ho. f_equal. unfold player_set_bags. f_equal.
      rewrite <- Hff. symmetry. apply map_filter_id. intros pos x Hx. cbn. intros ->. apply Hin, in_bags. by exists pos. }
  rewrite (bind_ok _ _ _ _ _ E2). destruct (upd_item_live g (item_set_owner receiver) s2 ltac:(done) (L2 _ (L1 g (Hl g Hg)))) as (s3 & E3 & W3 & O3 & L3).
  rewrite (bind_ok _ _ _ _ _ E3). assert (live s3 g) as Hg3 by auto.
  destruct (SaveToDB_writes g s3) as (s4 & E4 & W4 & O4 & I4 & L4); [destruct Hg3 as (i & Hi & _); by exists i|].
  exists s4. split; [exact E4|]. split; [by rewrite O4, O3|repeat (eapply item_writes_trans; [eassumption|]); apply item_writes_refl|].
  intros x Hx. destruct (decide (x = g)) as [->|Hne]; [by apply L4|]. destruct (L3 _ (L2 _ (L1 _ (Hl x Hx)))) as (i & Hi & Hs).
  exists i. by rewrite I4.
Qed.
Lemma attach_items_run s0 l1 l2 s : attached s0 l1 s -> (forall g, g ∈ l2 -> g ∈ (in_order (pl_bags pl)).*2) ->
  exists s', forM l2 (attach_item p receiver) s = (Ok tt, s') /\ attached s0 (reverse l2 ++ l1) s'.
Proof.
  revert l1 s. induction l2 as [|g l2 IH]; intros l1 s H Hl; cbn [forM]; [by exists s|].
  destruct (attach_item_run s0 l1 s g H ltac:(apply Hl; by left)) as (s1 & E1 & H1). rewrite (bind_ok _ _ _ _ _ E1).
  destruct (IH (g :: l1) s1 H1) as (s2 & E2 & H2); [intros x Hx; apply Hl; by right|]. exists s2. split; [exact E2|].
  by rewrite reverse_cons, <- app_assoc.
Qed.
End Attach.

(** ** The checks *)

Lemma GetItemByGuid_bags pl guid g : GetItemByGuid pl guid = Some g -> g ∈ (in_order (pl_bags pl)).*2.
Proof.
  unfold GetItemByGuid. intros H. assert (g ∈ filter (fun g => item_guid g = guid) (in_order (pl_bags pl)).*2) as [_ ?]%list_elem_of_filter; [|done].
  destruct (filter _ _) as [|x l]; [done|]. cbn in H. simplify_eq. by left.
Qed.

Section Send.
Context (w : EconomyWorld) (mw : MailWorld) (p : Z) (pl : Player).

(** The sender, whose bags hold items that are there and have templates. *)
Record sender_ok (s : Realm) : Prop := {
  sd_online : r_online s !! p = Some pl;
  sd_live : forall g, g ∈ (in_order (pl_bags pl)).*2 -> live s g;
  sd_proto : forall g i, g ∈ (in_order (pl_bags pl)).*2 -> r_items s !! g = Some i -> is_Some (ew_proto w (it_entry i))
}.
Lemma sender_item s guid g : sender_ok s -> GetItemByGuid pl guid = Some g ->
  exists i t, deref_item g s = (Ok i, s) /\ GetTemplate w g s = (Ok t, s).
Proof.
  intros [_ Hl Ht] Hg%GetItemByGuid_bags. destruct (Hl g Hg) as (i & Hi & _). destruct (Ht g i Hg Hi) as [t Et].
  exists i, t. split; [by apply deref_item_ok|]. unfold GetTemplate. by rewrite (bind_ok _ _ _ _ _ (deref_item_ok g i s Hi)), Et.
Qed.

Lemma all_bound_run l s : sender_ok s -> exists b, all_bound w p l s = (Ok b, s).
Proof.
  intros H. induction l as [|guid l IH]; cbn [all_bound]; [by eexists|]. rewrite (bind_ok _ _ _ _ _ (deref_player_ok p pl s (sd_online _ H))).
  destruct (GetItemByGuid pl guid) as [g|] eqn:Eg; [|done]. destruct (sender_item s guid g H Eg) as (i & t & Ei & _).
  rewrite (bind_ok _ _ _ _ _ Ei). destruct (ew_proto w (it_entry i)); [|by eexists]. destruct (has _ _); [done|by eexists].
Qed.
Lemma check_attachment_run account COD guid s : sender_ok s -> exists r, check_attachment w mw p account COD guid s = (Ok r, s) /\
  forall g, r = inl g -> GetItemByGuid pl guid = Some g.
Proof.
  intros H. unfold check_attachment. rewrite (bind_ok _ _ _ _ _ (deref_player_ok p pl s (sd_online _ H))).
  destruct (guid =? 0); [by eexists|]. destruct (GetItemByGuid pl guid) as [g|] eqn:Eg; [|by eexists].
  destruct (sender_item s guid g H Eg) as (i & t & Ei & Et). rewrite (bind_ok _ _ _ _ _ Et), (bind_ok _ _ _ _ _ Ei).
  eexists. split; [done|]. intros g'. repeat (case_match; [done|]). congruence.
Qed.
Lemma check_attachments_run account COD l s : sender_ok s -> exists r, check_attachments w mw p account COD l s = (Ok r, s) /\
  forall gs, r = inl gs -> Forall2 (fun guid g => GetItemByGuid pl guid = Some g) l gs.
Proof.
  intros H. induction l as [|guid l IH]; cbn [check_attachments].
  - eexists. split; [done|]. intros gs [= <-]. constructor.
  - destruct (check_attachment_run account COD guid s H) as (r & Er & Hr). rewrite (bind_ok _ _ _ _ _ Er).
    destruct r as [g|e]; [|by eexists]. destruct IH as (r' & Er' & Hr'). rewrite (bind_ok _ _ _ _ _ Er').
    eexists. split; [done|]. destruct r' as [gs|e]; [|done]. intros gs' [= <-]. constructor; auto.
Qed.

(** ** The transaction *)


Lemma exec_mail_items id receiver l d : NoDup l -> (forall g, g ∈ l -> db_mail_items d !! g = None) ->
  exists d', exec_statements ((fun g => CHAR_INS_MAIL_ITEM id g receiver) <$> l) d = Some d' /\
    db_mails d' = db_mails d /\ db_money d' = db_money d /\
    forall g, db_mail_items d' !! g = if decide (g ∈ l) then Some (id, receiver) else db_mail_items d !! g.
Proof.
  intros Hnd. revert d. induction Hnd as [|g l Hg Hnd IH]; intros d Hl; [by exists d|].
  destruct (IH (db_set_mail_items (<[g := (id, receiver)]> (db_mail_items d)) d)) as (d' & E & H1 & H2 & H3).
  { intros x Hx. cbn. rewrite lookup_insert_ne by (intros ->; done). apply Hl. by right. }
  exists d'. cbn. rewrite bool_decide_false; [|rewrite (Hl g) by (by left); by intros [? ?]]. split_and!; [done..|]. intros x. rewrite H3. cbn.
  destruct (decide (x = g)) as [->|Hne].
  - rewrite (decide_False (P := g ∈ l)), (decide_True (P := g ∈ g :: l)) by (try done; by left). by rewrite lookup_insert_eq.
  - rewrite lookup_insert_ne by done. destruct (decide (x ∈ l)); [by rewrite decide_True by by right|]. rewrite decide_False; [done|]. set_solver.
Qed.
(** The statements of a mail on tables that do not know its id and its items. *)
Lemma exec_mail_rows id row receiver l d : db_mails d !! id = None -> NoDup l -> (forall g, g ∈ l -> db_mail_items d !! g = None) ->
  exists d', exec_statements (CHAR_INS_MAIL id row :: ((fun g => CHAR_INS_MAIL_ITEM id g receiver) <$> l)) d = Some d' /\
    db_mails d' = <[id := row]> (db_mails d) /\ db_money d' = db_money d /\
    forall g, db_mail_items d' !! g = if decide (g ∈ l) then Some (id, receiver) else db_mail_items d !! g.
Proof.
  intros Hid Hnd Hl. destruct (exec_mail_items id receiver l (db_set_mails (<[id := row]> (db_mails d)) d) Hnd Hl) as (d' & E & H).
  exists d'. cbn. rewrite bool_decide_false; [|rewrite Hid; by intros [? ?]]. done.
Qed.

(** What a mail that is sent does: the money and the attachments leave the sender,
    and the mail is in the tables with them. *)
Record mail_sent (receiver money COD reqmoney : Z) (gs : list Z) (s s' : Realm) : Prop := {
  sm_sender : exists pl', r_online s' !! p = Some pl' /\ pl_money pl' = modified (pl_money pl) (- s64 reqmoney) /\
    pl_bags pl' = filter (fun e => e.2 ∉ gs) (pl_bags pl) /\ db_money (r_db s') !! p = Some (pl_money pl');
  sm_row : exists row, db_mails (r_db s') = <[r_next_mail s := row]> (db_mails (r_db s)) /\ mr_receiver row = receiver /\
    mr_money row = u32 money /\ mr_cod row = u32 COD;
  sm_items : forall g, db_mail_items (r_db s') !! g = if decide (g ∈ gs) then Some (r_next_mail s, receiver) else db_mail_items (r_db s) !! g;
  sm_trans : r_trans s' = []
}.

(** The end of the transaction. *)
Lemma save_and_commit s d pl' : pending s = Some d -> r_online s !! p = Some pl' -> exists s' d',
  (SaveInventoryAndGoldToDB p;; CommitTransaction) s = (Ok tt, s') /\ r_online s' = r_online s /\ r_trans s' = [] /\ r_db s' = d' /\
  db_mails d' = db_mails d /\ db_mail_items d' = db_mail_items d /\ db_money d' !! p = Some (pl_money pl').
Proof.
  intros Hd Hp. destruct (SaveInventory_run p s pl' Hp) as (s1 & E1 & W1 & O1 & _).
  destruct (item_writes_pending s s1 d W1 Hd) as (d1 & Hd1 & [B1 B2 B3]).
  set (s2 := set_trans (r_trans s1 ++ [CHAR_UDP_CHAR_MONEY (pl_money pl') p]) s1). set (d2 := db_set_money (<[p := pl_money pl']> (db_money d1)) d1).
  assert (pending s2 = Some d2) as Hd2 by (by apply (pending_append s1 _ d1 d2)).
  exists (set_trans [] (set_db d2 s2)), d2. split.
  - unfold SaveInventoryAndGoldToDB. rewrite (bind_ok _ _ s tt s2).
    + unfold CommitTransaction, modify. by rewrite (pending_commit s2 d2 Hd2).
    + rewrite (bind_ok _ _ _ _ _ E1). unfold SaveGoldToDB. rewrite (bind_ok _ _ _ _ _ (deref_player_ok p pl' s1 ltac:(by rewrite O1))). done.
  - split_and!; try done. cbn. apply lookup_insert_eq.
Qed.

Definition letter (subject body : list Z) (money COD : Z) (gs : list Z) : MailDraft :=
  AddCOD COD (AddMoney money (foldr AddItem (MailDraft_new subject body) gs)).
Lemma letter_items subject body money COD gs g : g ∈ draft_items (letter subject body money COD gs) <-> g ∈ gs.
Proof.
  rewrite elem_of_draft_items. cbn. induction gs as [|x gs IH]; cbn; [set_solver|]. rewrite elem_of_union, elem_of_singleton, elem_of_cons, IH. done.
Qed.
Lemma letter_fields subject body money COD gs : let d := letter subject body money COD gs in
  md_mailTemplateId d = 0 /\ md_money d = u64 money /\ md_COD d = u32 COD.
Proof. cbn. split; [|done]. induction gs; [done|]. exact IHgs. Qed.

(** The mail goes out of a state in which the attachments are taken. *)
Lemma send_letter_ewp receiver subject body money COD gs sender checked delay s0 s reqmoney b : p <> receiver ->
  attached p (player_set_money (modified (pl_money pl) (- s64 reqmoney)) pl) s0 gs s -> r_db s0 = r_db b -> r_next_mail s0 = r_next_mail b ->
  r_trans s0 = [] -> is_Some (r_online s0 !! p) -> (forall g, g ∈ gs -> g ∈ (in_order (pl_bags pl)).*2) ->
  db_mails (r_db b) !! r_next_mail b = None -> (forall g, g ∈ gs -> db_mail_items (r_db b) !! g = None) ->
  ewp (SendMailTo w (is_online s0 receiver) receiver sender checked delay (letter subject body money COD gs);; SaveInventoryAndGoldToDB p;;
       CommitTransaction) s (fun _ s' => mail_sent receiver money COD reqmoney gs b s').
Proof.
  intros Hne [Ho Hw Hl] Edb Enext Etr Hp Hgs Hid Hitems. set (d := letter subject body money COD gs).
  destruct (letter_fields subject body money COD gs) as (L1 & L2 & L3). fold d in L1, L2, L3. apply wp_bind.
  eapply wp_mono; [apply SendMailTo_ewp|].
  - by left.
  - intros Hon. unfold is_online in Hon. apply bool_decide_eq_true in Hon. rewrite Ho. by rewrite lookup_insert_ne.
  - intros g Hg. destruct (Hl g) as (i & Hi & _); [|by exists i]. apply Hgs, (letter_items subject body money COD). by apply elem_of_draft_items.
  - intros [] s1 (kept & M & _). destruct (item_writes_pending s0 s (r_db s0) Hw) as (d0 & Hd0 & [B1 B2 B3]); [unfold pending; by rewrite Etr|].
    destruct (me_trans _ _ _ _ _ M) as (row & R1 & R2 & R3 & R4). rewrite (iw_next _ _ Hw), Enext in R4.
    destruct (exec_mail_rows (r_next_mail b) row receiver (draft_items d) d0) as (d1 & E1 & D1 & D2 & D3).
    + by rewrite B1, Edb.
    + apply NoDup_draft_items.
    + intros g Hg%letter_items. rewrite B2, Edb. by apply Hitems.
    + assert (pending s1 = Some d1) as Hd1.
      { unfold pending in *. rewrite R4, exec_app, (me_db _ _ _ _ _ M), Hd0. exact E1. }
      set (pl1 := player_set_bags (filter (fun e => e.2 ∉ gs) (pl_bags pl)) (player_set_money (modified (pl_money pl) (- s64 reqmoney)) pl)).
      assert (r_online s !! p = Some pl1) as Hp1 by (by rewrite Ho, lookup_insert_eq).
      assert (exists pl2, r_online s1 !! p = Some pl2) as [pl2 Hp2].
      { apply elem_of_dom. rewrite (me_dom _ _ _ _ _ M). apply elem_of_dom. by exists pl1. }
      pose proof (me_player _ _ _ _ _ M p pl1 pl2 Hp1 Hp2) as Ha. rewrite bool_decide_false in Ha by done.
      destruct (save_and_commit s1 d1 pl2 Hd1 Hp2) as (s' & d' & E & O & T & Edb' & M1 & M2 & M3). eapply wp_ok; [exact E|]. split.
      * exists pl2. rewrite O, Edb', (pa_money _ _ _ _ Ha), (pa_bags _ _ _ _ Ha). split_and!; try done. rewrite M3, (pa_money _ _ _ _ Ha). done.
      * exists row. rewrite Edb', M1, D1, B1, Edb. split_and!; try done; [by rewrite R2, L2, u32_u64|by rewrite R3, L3, uint_idemp].
      * intros g. rewrite Edb', M2, D3, B2, Edb. destruct (decide (g ∈ gs)) as [Hg|Hg].
        -- by rewrite decide_True by by apply (letter_items subject body money COD).
        -- rewrite decide_False; [done|]. by intros Hx%letter_items.
      * exact T.
Qed.

(** ** The handler *)

(** Tables that do not know the next mail and the items in the bags. *)
Definition fresh_mail (s : Realm) : Prop :=
  db_mails (r_db s) !! r_next_mail s = None /\ forall g, g ∈ (in_order (pl_bags pl)).*2 -> db_mail_items (r_db s) !! g = None.

Lemma send_mail_ewp receiver subject body money COD gs s : sender_ok s -> fresh_mail s -> p <> receiver ->
  (forall g, g ∈ gs -> g ∈ (in_order (pl_bags pl)).*2) ->
  ewp (send_mail w mw p receiver subject body money COD gs) s
    (fun _ s' => mail_sent receiver money COD (required_money (len gs) money) gs s s').
Proof.
  intros H [Hid Hit] Hne Hgs. unfold send_mail, SendMailResult, SendPacket. eapply wp_seq; [apply modify_ok|]. set (s1 := send_packet p _ s).
  apply wp_bind, neg64_ewp. set (v := modified (pl_money pl) (- s64 (required_money (len gs) money))).
  destruct (ModifyMoney_run p (- s64 (required_money (len gs) money)) pl s1 (sd_online _ H)) as [b Eb]. eapply wp_seq; [exact Eb|]. fold v.
  apply wp_get. cbv zeta. unfold BeginTransaction. eapply wp_seq; [apply modify_ok|]. set (s2 := set_online _ s1). set (s3 := set_trans [] s2).
  destruct (attach_items_run p receiver (player_set_money v pl) s3 [] gs s3) as (s4 & E4 & [A1 A2 A3]).
  - split; [|apply item_writes_refl|].
    + cbn. rewrite bags_without_nil. rewrite insert_insert_eq. by destruct pl.
    + intros g Hg. destruct (sd_live _ H g Hg) as (i & Hi & Hs). by exists i.
  - exact Hgs.
  - eapply wp_seq; [exact E4|]. change (is_online s2 receiver) with (is_online s3 receiver).
    eapply (send_letter_ewp receiver subject body money COD gs _ _ _ s3 s4 (required_money (len gs) money) s); try done.
    + split; [|done|exact A3]. rewrite A1, app_nil_r. f_equal. unfold player_set_bags. f_equal. apply map_filter_ext. intros i x _. cbn.
      by rewrite elem_of_reverse.
    + cbn. rewrite lookup_insert_eq. by eexists.
    + intros g Hg. by apply Hit, Hgs.
Qed.

(** A packet to the player at most. *)
Definition told (s s' : Realm) : Prop := s' = s \/ exists m, s' = send_packet p m s.
(** What [HandleSendMail] ends in. *)
Definition send_outcome (receiver : Z) (money COD : Z) (items : list Z) (s s' : Realm) : Prop :=
  told s s' \/
  exists gs, Forall2 (fun guid g => GetItemByGuid pl guid = Some g) items gs /\
    mail_sent receiver money COD (required_money (len items) money) gs s s' /\
    (required_money (len items) money <= pl_money pl \/ ew_gamemaster w p = true) /\ (mails_count s receiver <= 100) /\
    len items <= MAX_MAIL_ITEMS /\ receiver <> p /\ receiver <> 0.

Lemma send_to_ewp receiver subject body money COD items s : sender_ok s -> fresh_mail s -> p <> receiver -> receiver <> 0 ->
  (required_money (len items) money <= pl_money pl \/ ew_gamemaster w p = true) -> len items <= MAX_MAIL_ITEMS ->
  ewp (send_to w mw p receiver subject body money COD items) s (fun _ s' => send_outcome receiver money COD items s s').
Proof.
  intros H Hf Hne Hr Hm Hn. assert (forall m, send_outcome receiver money COD items s (send_packet p m s)) as Htold by (intros m; left; right; by exists m).
  unfold send_to. apply wp_get. destruct (Z.ltb_spec 100 (mails_count s receiver)); [apply Htold|].
  assert (exists b, (if bool_decide (items = []) then mret false else all_bound w p items) s = (Ok b, s)) as [b Eb].
  { case_bool_decide; [by eexists|by apply all_bound_run]. }
  eapply wp_seq; [exact Eb|]. destruct (_ && _ && _); [apply Htold|]. destruct (_ <? _); [apply Htold|].
  destruct (check_attachments_run (receiver_account w mw s receiver) COD items s H) as (r & Er & Hr').
  eapply wp_seq; [exact Er|]. destruct r as [gs|[error equip]]; [|apply Htold]. specialize (Hr' gs eq_refl).
  eapply wp_mono; [apply send_mail_ewp; [done..|]|].
  - intros g Hg. apply list_elem_of_lookup_1 in Hg as [i Hi]. destruct (Forall2_lookup_r _ _ _ _ _ Hr' Hi) as (guid & _ & Hg).
    by eapply GetItemByGuid_bags.
  - intros [] s' Hs. right. exists gs. replace (len gs) with (len items) in Hs by (unfold len; by rewrite (Forall2_length _ _ _ Hr')).
    by split_and!.
Qed.
Lemma HandleSendMail_ewp mailbox receiverName subject body money COD items s : sender_ok s -> fresh_mail s ->
  ewp (HandleSendMail w mw p mailbox receiverName subject body money COD items) s
    (fun _ s' => send_outcome (mw_by_name mw receiverName) money COD items s s').
Proof.
  intros H Hf. set (receiver := mw_by_name mw receiverName).
  assert (forall m, send_outcome receiver money COD items s (send_packet p m s)) as Htold by (intros m; left; right; by exists m).
  unfold HandleSendMail. destruct (Z.ltb_spec MAX_MAIL_ITEMS (len items)); [apply Htold|]. destruct (_ || _); [by left; left|].
  destruct (_ <? _); [apply Htold|]. fold receiver. destruct (Z.eqb_spec receiver 0); [apply Htold|]. destruct (Z.eqb_spec p receiver); [apply Htold|].
  eapply wp_seq; [apply deref_player_ok, (sd_online _ H)|]. unfold HasEnoughMoney.
  destruct (Z.leb_spec (required_money (len items) money) (pl_money pl)); cbn [negb andb]; [apply send_to_ewp; auto|].
  destruct (ew_gamemaster w p) eqn:Eg; cbn [negb]; [apply send_to_ewp; auto|apply Htold].
Qed.
End Send.
