(* ===== verification/MailTaking.v ===== *)
(** * The mail handlers: taking an item (model in MailHandlers.v)

    The item goes from the mail to the bags and the price, if there is one, from
    the player to the sender of the mail, in one transaction. *)

From S2P Require Import Prelude.
From S2P Require Import Economy.
From S2P Require Import EconomyProofs.
From S2P Require Import Mail.
From S2P Require Import MailProofs.
From S2P Require Import MailHandlers.
From S2P Require Import MailboxProofs.
From S2P Require Import MailRequests.
From S2P Require Import MailSending.
From stdpp Require Import list sorting.
Local Open Scope Z_scope.
#[local] Set Warnings "-clear-no-such-hyp".

(** ** The bags *)

Lemma backpack_pos slot : 0 <= slot < 256 -> Z.shiftr (bag_0_pos slot) 8 = 255 /\ Z.land (bag_0_pos slot) 255 = slot.
Proof.
  intros Hs. unfold bag_0_pos. assert (Z.lor (Z.shiftl INVENTORY_SLOT_BAG_0 8) slot = slot + 255 * 2 ^ 8) as ->.
  { rewrite Z.lor_comm, Z.shiftl_mul_pow2 by lia. by apply lor_disjoint. }
  split.
  - rewrite Z.shiftr_div_pow2 by lia. rewrite Z.div_add by lia. rewrite Z.div_small; lia.
  - change 255 with (Z.ones 8) at 2. rewrite Z.land_ones by lia. rewrite Z.mod_add by lia. apply Z.mod_small. lia.
Qed.

Lemma live_item s g : live s g -> is_Some (r_items s !! g).
Proof. intros (i & Hi & _). by exists i. Qed.

(** ** The saved mailbox *)

(** Saving writes the row of one mail and forgets its items that were taken. *)
Lemma exec_mails l d : exists d', exec_statements (flat_map mail_statements l) d = Some d' /\ db_money d' = db_money d /\
  (forall id, (forall m, m ∈ l -> ml_messageID m <> id) -> db_mails d' !! id = db_mails d !! id) /\
  (forall g, db_mail_items d !! g = None -> db_mail_items d' !! g = None).
Proof.
  revert d. induction l as [|m l IH]; intros d; [by exists d|]. destruct (IH (saved_tables m d)) as (d' & E & H1 & H2 & H3).
  exists d'. cbn [flat_map]. rewrite exec_app, exec_mail_statements. cbn [mbind option_bind]. split; [exact E|]. split; [by rewrite H1|]. split.
  - intros id Hid. rewrite H2 by (intros x Hx; apply Hid; by right). apply saved_row_other. intros ->. by apply (Hid m); [left|].
  - intros g Hg. apply H3. destruct (db_mail_items (saved_tables m d) !! g) eqn:Eg; [|done].
    apply saved_mail_items_old in Eg. congruence.
Qed.
Lemma exec_mails_one l1 m l2 d r : (forall x, x ∈ l1 \/ x ∈ l2 -> ml_messageID x <> ml_messageID m) -> ml_state m = MAIL_STATE_CHANGED ->
  db_mails d !! ml_messageID m = Some r -> exists d' has expire deliver, exec_statements (flat_map mail_statements (l1 ++ m :: l2)) d = Some d' /\
    db_money d' = db_money d /\
    db_mails d' !! ml_messageID m = Some (mail_row_update has expire deliver (u32 (ml_money m)) (u32 (ml_COD m)) (u8 (ml_checked m)) r) /\
    (forall g, g ∈ ml_removedItems m -> db_mail_items d' !! g = None) /\
    (forall id, (forall x, x ∈ l1 ++ m :: l2 -> ml_messageID x <> id) -> db_mails d' !! id = db_mails d !! id).
Proof.
  intros Hne Hs Hr. destruct (exec_mails l1 d) as (d1 & E1 & A1 & A2 & _). destruct (exec_mails l2 (saved_tables m d1)) as (d2 & E2 & B1 & B2 & B3).
  exists d2. do 3 eexists. split_and!.
  - rewrite flat_map_app, exec_app, E1. cbn [mbind option_bind flat_map]. rewrite exec_app, exec_mail_statements. exact E2.
  - by rewrite B1.
  - rewrite B2 by (intros x Hx; apply Hne; by right). cbn. unfold saved_rows. rewrite Hs, lookup_alter_eq, A2 by (intros x Hx; apply Hne; by left).
    rewrite Hr. done.
  - intros g Hg. apply B3. cbn. unfold saved_mail_items. rewrite Hs, lookup_without. by rewrite bool_decide_true.
  - intros id Hid. rewrite B2 by (intros x Hx; apply Hid; set_solver). rewrite saved_row_other by (apply not_eq_sym, Hid; set_solver).
    apply A2. intros x Hx. apply Hid. set_solver.
Qed.
Lemma change_mail_twice id f1 f2 l : (forall m, ml_messageID (f1 m) = ml_messageID m) ->
  change_mail id f2 (change_mail id f1 l) = change_mail id (fun m => f2 (f1 m)) l.
Proof.
  intros Hf. induction l as [|m l IH]; [done|]. cbn. destruct (ml_messageID m =? id) eqn:E; cbn; [by rewrite Hf, E|]. by rewrite E, IH.
Qed.

Lemma change_mail_ids id f l : (forall m, ml_messageID (f m) = ml_messageID m) ->
  forall x, x ∈ change_mail id f l -> exists y, y ∈ l /\ ml_messageID y = ml_messageID x.
Proof.
  intros Hf x. induction l as [|m l IH]; cbn; [by intros ?%not_elem_of_nil|].
  destruct (ml_messageID m =? id); intros [->|Hx]%elem_of_cons.
  - exists m. split; [by left|done].
  - exists x. split; [by right|done].
  - exists m. split; [by left|done].
  - destruct (IH Hx) as (y & Hy & Ey). exists y. split; [by right|done].
Qed.
Lemma sorted_distinct l1 m l2 : StronglySorted mail_before (l1 ++ m :: l2) ->
  forall x, x ∈ l1 \/ x ∈ l2 -> ml_messageID x <> ml_messageID m.
Proof.
  intros (H12 & _ & H2)%StronglySorted_app. apply StronglySorted_inv in H2 as [_ H2]. rewrite Forall_forall in H2.
  intros x [Hx|Hx]; [specialize (H12 x m Hx ltac:(by left))|specialize (H2 x Hx)]; unfold mail_before in *; lia.
Qed.
Lemma kept_sorted l : StronglySorted mail_before l -> StronglySorted mail_before (kept_mails l).
Proof.
  induction 1 as [|m l Hs IH Hf]; [constructor|]. change (kept_mails (m :: l)) with (kept_mail m ++ kept_mails l). rewrite Forall_forall in Hf.
  apply StronglySorted_app. split_and!; [|unfold kept_mail; destruct (mail_deleted m); repeat constructor|done].
  intros x y Hx (z & Hz & Hy)%list_elem_of_In%in_flat_map. apply list_elem_of_In in Hz, Hy.
  apply (proj1 (kept_mail_before x z y Hy)), (proj2 (kept_mail_before z m x Hx)). by apply Hf.
Qed.

Section Take.
Context (w : EconomyWorld) (mw : MailWorld) (p : Z).

(** The item has a template. *)
Definition proto_of (s : Realm) (g : Z) : Prop := exists i t, r_items s !! g = Some i /\ ew_proto w (it_entry i) = Some t.
Lemma GetTemplate_run s g : proto_of s g -> exists t, GetTemplate w g s = (Ok t, s).
Proof. intros (i & t & Hi & Et). exists t. unfold GetTemplate. by rewrite (bind_ok _ _ _ _ _ (deref_item_ok g i s Hi)), Et. Qed.

(** An item alone in its position in the backpack. *)
Lemma MoveItemToInventory_run slot count g s pl : r_online s !! p = Some pl -> live s g -> proto_of s g -> 0 <= slot < 256 ->
  pl_bags pl !! bag_0_pos slot = None -> exists s', MoveItemToInventory w p [(bag_0_pos slot, count)] g s = (Ok tt, s') /\ item_writes s s' /\
    r_online s' = <[p := player_set_bags (<[bag_0_pos slot := g]> (pl_bags pl)) pl]> (r_online s) /\ forall x, live s x -> live s' x.
Proof.
  intros Hp Hg Ht Hs Hb. unfold MoveItemToInventory. pose proof (live_item s g Hg) as [i Hi].
  rewrite (bind_ok _ _ _ _ _ (deref_item_ok g i s Hi)). cbn [StoreItem]. unfold StoreItem_at.
  assert (exists s1, upd_item g (item_set_count (u32 count)) s = (Ok tt, s1) /\ item_writes s s1 /\ r_online s1 = r_online s /\
    (forall x, live s x -> live s1 x) /\ proto_of s1 g) as (s1 & E1 & W1 & O1 & L1 & T1).
  { destruct (upd_item_live g (item_set_count (u32 count)) s ltac:(done) Hg) as (s1 & E1 & W1 & O1 & L1). exists s1. split_and!; try done.
    destruct Ht as (i' & t & Hi' & Et). rewrite (upd_item_ok g _ i' s Hi') in E1. injection E1 as <-. eexists _, t. split; [apply lookup_insert_eq|done]. }
  destruct (GetTemplate_run s1 g T1) as [t Et]. destruct (backpack_pos slot Hs) as [Eb El].
  assert (exists s2, (if binds t (bag_0_pos slot) then upd_item g SetBinding else mret tt) s1 = (Ok tt, s2) /\ item_writes s1 s2 /\
    r_online s2 = r_online s1 /\ forall x, live s1 x -> live s2 x) as (s2 & E2 & W2 & O2 & L2).
  { destruct (binds t (bag_0_pos slot)); [by apply upd_item_live; [|auto]|]. exists s1. split; [done|]. split; [apply item_writes_refl|done]. }
  assert (r_online s2 !! p = Some pl) as Hp2 by (by rewrite O2, O1).
  set (s3 := set_online (<[p := player_set_bags (<[bag_0_pos slot := g]> (pl_bags pl)) pl]> (r_online s2)) s2).
  destruct (upd_item_live g (fun i => SetState ITEM_CHANGED (item_set_owner p i)) s3) as (s4 & E4 & W4 & O4 & L4).
  { intros j Hj. unfold SetState. cbn. destruct (it_state j) eqn:Es; cbn; congruence. }
  { apply L2, L1, Hg. }
  assert (StoreItem_at w p (bag_0_pos slot) g count false s = (Ok (Some g), s4)) as Est.
  { unfold StoreItem_at. rewrite (bind_ok _ _ _ _ _ (deref_player_ok p pl s Hp)), Hb.
    rewrite (bind_ok _ _ s (Some g) s1) by (by rewrite (bind_ok _ _ _ _ _ E1)). rewrite (bind_ok _ _ s1 tt s4); [done|].
    unfold place_item. rewrite (bind_ok _ _ _ _ _ Et), (bind_ok _ _ _ _ _ E2), (bind_ok _ _ _ _ _ (deref_player_ok p pl s2 Hp2)), Eb, El.
    change (GetBagByPos pl 255) with (@None Z). cbv iota. rewrite (bind_ok _ _ _ _ _ (upd_player_ok p _ pl s2 Hp2)). exact E4. }
  rewrite (bind_ok _ _ _ _ _ Est), bool_decide_true by done.
  destruct (upd_item_live g (fun i => SetState ITEM_NEW (item_set_owner p i)) s4) as (s5 & E5 & W5 & O5 & L5).
  { intros j Hj. unfold SetState. cbn. destruct (it_state j) eqn:Es; cbn; congruence. }
  { apply L4, L2, L1, Hg. }
  exists s5. split; [exact E5|]. split; [|split; [by rewrite O5, O4; cbn; rewrite O2, O1|intros x Hx; by apply L5, L4, L2, L1]].
  eapply item_writes_trans; [exact W1|]. eapply item_writes_trans; [exact W2|]. eapply item_writes_trans; [by apply (item_writes_none s2 s3)|].
  by eapply item_writes_trans.
Qed.

(** ** The price *)

(** [b] is [a] but for money, packets and clocks. *)
Definition same_holdings (a b : Player) : Prop :=
  pl_bags b = pl_bags a /\ pl_mails b = pl_mails a /\ pl_mitems b = pl_mitems a /\ pl_mailsLoaded b = pl_mailsLoaded a.
(** The tables after the price is paid. *)
Definition price_paid (s : Realm) (m : Mail) (d d' : CharDB) : Prop :=
  db_mail_items d' = db_mail_items d /\
  if (0 <? ml_COD m) && player_exists w s (ml_sender m)
  then exists row, db_mails d' = <[r_next_mail s := row]> (db_mails d) /\ mr_receiver row = ml_sender m /\ mr_money row = u32 (ml_COD m)
  else db_mails d' = db_mails d.
Definition purse_after (a : Z) (m : Mail) : Z := if 0 <? ml_COD m then modified a (- s32 (ml_COD m)) else a.

Lemma pay_COD_ewp m s pl : r_online s !! p = Some pl -> r_trans s = [] -> db_mails (r_db s) !! r_next_mail s = None -> ml_sender m <> p ->
  ewp (if 0 <? ml_COD m then pay_COD w p m else mret tt) s (fun _ s' => exists pl' d, r_online s' !! p = Some pl' /\ same_holdings pl pl' /\
    pl_money pl' = purse_after (pl_money pl) m /\ r_items s' = r_items s /\ pending s' = Some d /\ price_paid s m (r_db s) d).
Proof.
  intros Hp Ht Hf Hne. unfold price_paid, purse_after. destruct (0 <? ml_COD m); cbn [andb].
  2: { apply wp_ret. exists pl, (r_db s). split_and!; try done. unfold pending. by rewrite Ht. }
  unfold pay_COD. apply wp_get. apply wp_bind. set (d := AddMoney (ml_COD m) (MailDraft_new (ml_subject m) [])).
  set (s_sent := fun s' : Realm => exists pl' d', r_online s' !! p = Some pl' /\ same_holdings pl pl' /\ pl_money pl' = pl_money pl /\
    r_items s' = r_items s /\ pending s' = Some d' /\ db_mail_items d' = db_mail_items (r_db s) /\
    if player_exists w s (ml_sender m) then exists row, db_mails d' = <[r_next_mail s := row]> (db_mails (r_db s)) /\ mr_receiver row = ml_sender m /\
      mr_money row = u32 (ml_COD m) else db_mails d' = db_mails (r_db s)).
  apply (wp_mono _ _ _ (fun _ => s_sent)).
  - unfold s_sent. destruct (player_exists w s (ml_sender m)) eqn:Ee.
    + eapply wp_mono; [apply SendMailTo_ewp|]; [by left|unfold is_online; intros E; by apply bool_decide_eq_true in E|set_solver|].
      intros [] s1 (kept & M & _). destruct (me_trans _ _ _ _ _ M) as (row & R1 & R2 & R3 & R4).
      assert (exists pl1, r_online s1 !! p = Some pl1) as [pl1 Hp1].
      { apply elem_of_dom. rewrite (me_dom _ _ _ _ _ M). apply elem_of_dom. by exists pl. }
      pose proof (me_player _ _ _ _ _ M p pl pl1 Hp Hp1) as Ha. rewrite bool_decide_false in Ha by done.
      exists pl1, (db_set_mails (<[r_next_mail s := row]> (db_mails (r_db s))) (r_db s)).
      split; [done|]. split; [by split_and!; apply Ha|]. split; [apply Ha|]. split.
      * rewrite (me_items _ _ _ _ _ M). destruct kept; [done|]. by rewrite without_nil.
      * split; [|split; [done|]]; [|exists row; split_and!; try done; rewrite R2; apply u32_u64].
        unfold pending. rewrite R4, (me_db _ _ _ _ _ M), Ht. cbn. rewrite bool_decide_false; [done|]. rewrite Hf. by intros [? ?].
    + apply wp_ret. exists pl, (r_db s). split_and!; try done. unfold pending. by rewrite Ht.
  - intros [] s1 (pl1 & d1 & Hp1 & Hh & Hm & Hi & Hd & Hmi & Hrows). apply wp_bind, neg32_ewp.
    destruct (ModifyMoney_run p (- s32 (ml_COD m)) pl1 s1 Hp1) as [b Eb]. eapply wp_seq; [exact Eb|]. apply wp_ret.
    eexists _, d1. split; [apply lookup_insert_eq|]. split; [exact Hh|]. split; [cbn; by rewrite Hm|]. split; [done|]. split; [done|]. by split.
Qed.

(** ** The item *)

(** The end of the request: the item goes to the bags and all is saved. *)
Definition finish_take (mailId itemId g : Z) (dest : list (Z * Z)) : RP unit :=
  i ← deref_item g;
  upd_item g (SetState ITEM_UNCHANGED);;
  MoveItemToInventory w p dest g;;
  SaveInventoryAndGoldToDB p;;
  SaveMail p;;
  CommitTransaction;;
  SendMailResult p mailId MAIL_ITEM_TAKEN MAIL_OK 0 itemId (it_count i).

Lemma SaveInventoryAndGold_run s pl d : r_online s !! p = Some pl -> pending s = Some d -> exists s' d',
  SaveInventoryAndGoldToDB p s = (Ok tt, s') /\ r_online s' = r_online s /\ pending s' = Some d' /\ (forall x, live s x -> live s' x) /\
  db_mails d' = db_mails d /\ db_mail_items d' = db_mail_items d /\ db_money d' !! p = Some (pl_money pl).
Proof.
  intros Hp Hd. destruct (SaveInventory_run p s pl Hp) as (s1 & E1 & W1 & O1 & L1).
  destruct (item_writes_pending s s1 d W1 Hd) as (d1 & Hd1 & [B1 B2 B3]).
  exists (set_trans (r_trans s1 ++ [CHAR_UDP_CHAR_MONEY (pl_money pl) p]) s1), (db_set_money (<[p := pl_money pl]> (db_money d1)) d1).
  split; [|split; [done|split; [by apply (pending_append s1 _ d1)|split; [done|split; [done|split; [done|apply lookup_insert_eq]]]]]].
  unfold SaveInventoryAndGoldToDB. rewrite (bind_ok _ _ _ _ _ E1). apply SaveGoldToDB_ok. by rewrite O1.
Qed.

Lemma finish_take_run mailId itemId g slot count s pl d l1 m l2 r :
  r_online s !! p = Some pl -> pl_mailsLoaded pl = true -> pending s = Some d -> live s g -> proto_of s g -> 0 <= slot < 256 ->
  pl_bags pl !! bag_0_pos slot = None -> pl_mails pl = l1 ++ m :: l2 ->
  (forall x, x ∈ l1 \/ x ∈ l2 -> ml_messageID x <> ml_messageID m) -> ml_state m = MAIL_STATE_CHANGED -> db_mails d !! ml_messageID m = Some r ->
  exists s' pl' r', finish_take mailId itemId g [(bag_0_pos slot, count)] s = (Ok tt, s') /\ r_online s' !! p = Some pl' /\
    pl_bags pl' = <[bag_0_pos slot := g]> (pl_bags pl) /\ pl_mails pl' = kept_mails (pl_mails pl) /\ pl_mitems pl' = pl_mitems pl /\
    pl_money pl' = pl_money pl /\ live s' g /\ db_money (r_db s') !! p = Some (pl_money pl) /\
    db_mails (r_db s') !! ml_messageID m = Some r' /\ mr_cod r' = u32 (ml_COD m) /\ mr_money r' = u32 (ml_money m) /\
    (forall x, x ∈ ml_removedItems m -> db_mail_items (r_db s') !! x = None) /\
    (forall id, (forall x, x ∈ pl_mails pl -> ml_messageID x <> id) -> db_mails (r_db s') !! id = db_mails d !! id).
Proof.
  intros Hp Hl Hd Hg Ht Hs Hb Em Hne Hst Hr. unfold finish_take. pose proof (live_item s g Hg) as [i Hi].
  rewrite (bind_ok _ _ _ _ _ (deref_item_ok g i s Hi)).
  destruct (upd_item_live g (SetState ITEM_UNCHANGED) s) as (s1 & E1 & W1 & O1 & L1); [done|done|].
  assert (proto_of s1 g) as T1.
  { rewrite (upd_item_ok g _ i s Hi) in E1. injection E1 as <-. destruct Ht as (i' & t & Hi' & Et). simplify_eq. eexists _, t.
    split; [apply lookup_insert_eq|done]. }
  assert (r_online s1 !! p = Some pl) as Hp1 by (by rewrite O1). rewrite (bind_ok _ _ _ _ _ E1).
  destruct (MoveItemToInventory_run slot count g s1 pl Hp1 (L1 g Hg) T1 Hs Hb) as (s2 & E2 & W2 & O2 & L2). rewrite (bind_ok _ _ _ _ _ E2).
  destruct (item_writes_pending s s2 d (item_writes_trans _ _ _ W1 W2) Hd) as (d2 & Hd2 & [B1 B2 B3]).
  set (pl2 := player_set_bags (<[bag_0_pos slot := g]> (pl_bags pl)) pl).
  assert (r_online s2 !! p = Some pl2) as Hp2 by (by rewrite O2, lookup_insert_eq).
  destruct (SaveInventoryAndGold_run s2 pl2 d2 Hp2 Hd2) as (s3 & d3 & E3 & O3 & Hd3 & L3 & C1 & C2 & C3). rewrite (bind_ok _ _ _ _ _ E3).
  assert (r_online s3 !! p = Some pl2) as Hp3 by (by rewrite O3).
  rewrite (bind_ok _ _ _ _ _ (SaveMail_run p s3 pl2 Hp3 Hl)). set (s4 := set_online _ _).
  destruct (exec_mails_one l1 m l2 d3 r Hne Hst) as (d4 & has & expire & deliver & E4 & D1 & D2 & D3 & D4); [by rewrite C1, B1|].
  assert (pending s4 = Some d4) as Hd4.
  { unfold pending in *. cbn [s4 r_trans r_db set_online set_trans]. rewrite exec_app, Hd3. change (pl_mails pl2) with (pl_mails pl). rewrite Em. exact E4. }
  rewrite (bind_ok _ _ _ _ _ (CommitTransaction_ok s4 d4 Hd4)).
  destruct (SendMailResult_ok p mailId MAIL_ITEM_TAKEN MAIL_OK 0 itemId (it_count i) (set_trans [] (set_db d4 s4))) as [data E5]. rewrite E5.
  eexists _, (player_saved pl2), _. split; [done|]. split; [cbn; apply lookup_insert_eq|]. do 4 (split; [done|]).
  split; [exact (L3 _ (L2 _ (L1 _ Hg)))|]. split; [cbn; by rewrite D1|]. split; [exact D2|]. split; [done|]. split; [done|]. split; [exact D3|].
  intros id Hid. cbn. rewrite D4 by (by rewrite <- Em). by rewrite C1, B1.
Qed.

(** What taking the item [g] out of the mail [m] does. *)
Record item_taken (id g slot : Z) (m : Mail) (pl : Player) (s s' : Realm) : Prop := {
  tk_player : exists pl' m', r_online s' !! p = Some pl' /\ pl_bags pl' = <[bag_0_pos slot := g]> (pl_bags pl) /\
    pl_mitems pl' = pl_mitems pl ∖ {[g]} /\ pl_money pl' = purse_after (pl_money pl) m /\ db_money (r_db s') !! p = Some (pl_money pl') /\
    GetMail pl' id = Some m' /\ ml_COD m' = 0 /\ ml_money m' = ml_money m /\ ml_items m' = RemoveItem g (ml_items m);
  tk_live : live s' g;
  tk_row : exists r, db_mails (r_db s') !! id = Some r /\ mr_cod r = 0;
  tk_gone : db_mail_items (r_db s') !! g = None;
  tk_price : 0 < ml_COD m -> player_exists w s (ml_sender m) = true ->
    exists row, db_mails (r_db s') !! r_next_mail s = Some row /\ mr_receiver row = ml_sender m /\ mr_money row = u32 (ml_COD m)
}.

Lemma take_item_ewp templates d0 g slot count id m s pl r : r_online s !! p = Some pl -> pl_mailsLoaded pl = true -> r_db s = d0 ->
  mailbox_ok templates d0 p (pl_mails pl) -> m ∈ pl_mails pl -> ml_messageID m = id -> mail_agrees templates d0 p m r ->
  live s g -> proto_of s g -> 0 <= slot < 256 -> pl_bags pl !! bag_0_pos slot = None -> db_mails d0 !! r_next_mail s = None -> ml_sender m <> p ->
  ewp (take_item w p id g g [(bag_0_pos slot, count)] m) s (fun _ s' => item_taken id g slot m pl s s').
Proof.
  intros Hp Hl <- Hm Hin Hid Ha Hg Ht Hs Hb Hf Hne. set (f := fun m => mail_cod_paid (mail_item_removed g m)).
  destruct (change_mail_split templates (r_db s) p (pl_mails pl) id f m Hm Hin Hid) as (l1 & l2 & El & Ef).
  assert (forall x, x ∈ l1 \/ x ∈ l2 -> ml_messageID x <> ml_messageID m) as Hdist.
  { apply sorted_distinct. rewrite <- El. apply (mb_sorted _ _ _ _ Hm). }
  unfold take_item, BeginTransaction. eapply wp_seq; [apply modify_ok|]. unfold upd_mail. eapply wp_seq; [by apply (upd_player_ok p _ pl)|].
  set (pl1 := player_set_mails (change_mail id (mail_item_removed g) (pl_mails pl)) pl).
  match goal with |- ewp _ ?st _ => set (s1 := st) end. apply wp_bind.
  eapply wp_mono; [apply (pay_COD_ewp m s1 pl1); [apply lookup_insert_eq|done..]|].
  intros [] s2 (pl2 & d2 & Hp2 & (H1 & H2 & H3 & H4) & Hmon & Hit & Hd2 & Hmi & Hprice).
  eapply wp_seq; [by apply (upd_player_ok p _ pl2)|]. unfold set_updated. eapply wp_seq; [eapply upd_player_ok, lookup_insert_eq|].
  unfold RemoveMItem. eapply wp_seq; [eapply upd_player_ok, lookup_insert_eq|]. cbv beta.
  set (pl3 := player_set_mitems (pl_mitems pl2 ∖ {[g]}) (player_set_updated true (player_set_mails (change_mail id mail_cod_paid (pl_mails pl2)) pl2))).
  match goal with |- ewp _ ?st _ => set (s3 := st) end. fold (finish_take id g g [(bag_0_pos slot, count)]).
  assert (pl_mails pl3 = l1 ++ f m :: l2) as Em3.
  { change (pl_mails pl3) with (change_mail id mail_cod_paid (pl_mails pl2)). rewrite H2. cbn [pl1 pl_mails player_set_mails].
    rewrite change_mail_twice by done. exact Ef. }
  assert (db_mails d2 !! ml_messageID (f m) = Some r) as Hrow.
  { cbn [f]. change (ml_messageID (f m)) with (ml_messageID m). pose proof (ma_row _ _ _ _ _ Ha) as Hr.
    destruct (_ && _) in Hprice; [|by rewrite Hprice]. destruct Hprice as (row & E & _). rewrite E.
    rewrite lookup_insert_ne; [done|]. change (r_next_mail s1) with (r_next_mail s). congruence. }
  destruct (finish_take_run id g g slot count s3 pl3 d2 l1 (f m) l2 r) as (s' & pl' & r' & E & P1 & P2 & P3 & P4 & P5 & P6 & P7 & P8 & P9 & _ & P10 & P11);
    try done.
  - apply lookup_insert_eq.
  - cbn. by rewrite H4.
  - destruct Hg as (i & Hi & Hst). exists i. cbn. by rewrite Hit.
  - destruct Ht as (i & t & Hi & Et). exists i, t. cbn. by rewrite Hit.
  - cbn. by rewrite H1.
  - assert (StronglySorted mail_before (l1 ++ f m :: l2)) as Hsort.
    { eapply sorted_replace; [rewrite <- El; apply (mb_sorted _ _ _ _ Hm)|done]. }
    eapply wp_ok; [exact E|]. split.
    + exists pl', (saved_mail (f m)). rewrite P4, P5.
      split; [done|]. split; [rewrite P2; exact (f_equal (insert (bag_0_pos slot) g) H1)|]. split; [exact (f_equal (fun X => X ∖ {[g]}) H3)|].
      split; [exact Hmon|]. split; [exact P7|]. split; [|done]. rewrite <- Hid.
      apply (GetMail_in pl' (saved_mail (f m))); rewrite P3, Em3; [by apply kept_sorted|]. unfold kept_mails.
      rewrite flat_map_app. cbn. set_solver.
    + exact P6.
    + exists r'. rewrite <- Hid. split; [exact P8|]. by rewrite P9.
    + apply P10. cbn. set_solver.
    + intros Hc Hex. rewrite (proj2 (Z.ltb_lt _ _) Hc) in Hprice. cbn [andb] in Hprice.
      assert (player_exists w s1 (ml_sender m) = true) as Ex1.
      { unfold player_exists, is_online in *. cbn. by rewrite lookup_insert_ne. }
      rewrite Ex1 in Hprice. destruct Hprice as (row & Er & Q1 & Q2). exists row. split; [|done]. rewrite P11.
      * rewrite Er. apply lookup_insert_eq.
      * rewrite Em3, <- Ef. intros x Hx E2. destruct (change_mail_ids id f (pl_mails pl) (fun _ => eq_refl) x Hx) as (y & Hy & Ey).
        destruct (mb_mails _ _ _ _ Hm y Hy) as [ry Hry]. pose proof (ma_row _ _ _ _ _ Hry) as Hrow'. congruence.
Qed.
End Take.
