(* ===== verification/OldMails.v ===== *)
(** * Old mails: what their clean-up does (model in MailHandlers.v) *)

From S2P Require Import Prelude.
From S2P Require Import Economy.
From S2P Require Import EconomyProofs.
From S2P Require Import Mail.
From S2P Require Import MailHandlers.
From stdpp Require Import list sorting.
Local Open Scope Z_scope.
#[local] Set Warnings "-clear-no-such-hyp".

Section Old.
Context (w : EconomyWorld) (serveurUp : bool).

(** What becomes of an expired mail that is not in an open mailbox. *)
Definition old_row (r : MailRow) : option MailRow :=
  if mr_has_items r && returnable r
  then Some (mail_row_returned (mr_receiver r) (mr_sender r) (u32 (ew_time w + 30 * DAY)) (u32 (ew_time w)) MAIL_CHECK_MASK_RETURNED r)
  else None.
Definition after_cleanup (s : Realm) (r : MailRow) : option MailRow :=
  if serveurUp && box_open s (mr_receiver r) then Some r else old_row r.

(** The tables of mails, and who is online. *)
Definition same_mails (s s' : Realm) : Prop := db_mails (r_db s') = db_mails (r_db s) /\ r_online s' = r_online s.
Lemma Execute_ok st s d : exec_statement st (r_db s) = Some d -> Execute st s = (Ok tt, set_db d s).
Proof. intros E. unfold Execute, modify, ExecuteTransaction. cbn. by rewrite E. Qed.
Lemma Execute_items st s : match st with
    | CHAR_UPD_MAIL_ITEM_RECEIVER _ _ | CHAR_UPD_ITEM_OWNER _ _ | CHAR_DEL_ITEM_INSTANCE _ => True
    | _ => False
    end -> exists s', Execute st s = (Ok tt, s') /\ same_mails s s'.
Proof. intros Hst. destruct st; try done; (eexists; split; [by apply Execute_ok|done]). Qed.
Lemma forM_same_mails {X} (l : list X) (f : X -> RP unit) s : (forall x s, exists s', f x s = (Ok tt, s') /\ same_mails s s') ->
  exists s', forM l f s = (Ok tt, s') /\ same_mails s s'.
Proof.
  intros Hf. revert s. induction l as [|x l IH]; intros s; cbn [forM]; [by exists s|].
  destruct (Hf x s) as (s1 & E1 & H1 & H2). rewrite (bind_ok _ _ _ _ _ E1). destruct (IH s1) as (s2 & E2 & H3 & H4).
  exists s2. split; [exact E2|]. split; congruence.
Qed.

(** One mail. *)
Lemma old_mail_run items id r s : db_mails (r_db s) !! id = Some r -> exists s', old_mail w serveurUp items (id, r) s = (Ok tt, s') /\
  r_online s' = r_online s /\ db_mails (r_db s') !! id = after_cleanup s r /\
  forall x, x <> id -> db_mails (r_db s') !! x = db_mails (r_db s) !! x.
Proof.
  intros Hr. unfold old_mail, after_cleanup, old_row. cbn [fst snd]. rewrite (bind_ok get _ s s s eq_refl).
  destruct (serveurUp && box_open s (mr_receiver r)); [by exists s|]. destruct (mr_has_items r && returnable r).
  - unfold return_old. erewrite bind_ok by (by apply Execute_ok). set (s1 := set_db _ s).
    destruct (forM_same_mails (items (id, r)) (fun g => Execute (CHAR_UPD_MAIL_ITEM_RECEIVER (mr_sender r) g);;
      Execute (CHAR_UPD_ITEM_OWNER (mr_sender r) g)) s1) as (s2 & E2 & H1 & H2).
    { intros g t. destruct (Execute_items (CHAR_UPD_MAIL_ITEM_RECEIVER (mr_sender r) g) t I) as (t1 & F1 & K1 & K2).
      destruct (Execute_items (CHAR_UPD_ITEM_OWNER (mr_sender r) g) t1 I) as (t2 & F2 & K3 & K4). exists t2.
      rewrite (bind_ok _ _ _ _ _ F1). split; [exact F2|]. split; congruence. }
    exists s2. split; [exact E2|]. split; [exact H2|]. rewrite H1. cbn. split; [by rewrite lookup_alter_eq, Hr|].
    intros x Hx. by rewrite lookup_alter_ne.
  - assert (exists s1, (if mr_has_items r then forM (items (id, r)) (fun g => Execute (CHAR_DEL_ITEM_INSTANCE g)) else mret tt) s = (Ok tt, s1) /\
      same_mails s s1) as (s1 & E1 & H1 & H2).
    { destruct (mr_has_items r); [|by exists s]. apply forM_same_mails. intros g t. by apply Execute_items. }
    rewrite (bind_ok _ _ _ _ _ E1). erewrite Execute_ok by done. eexists. split; [done|]. split; [exact H2|]. cbn. rewrite H1.
    split; [apply lookup_delete_eq|]. intros x Hx. by rewrite lookup_delete_ne.
Qed.
Lemma old_mails_run items l s : NoDup l.*1 -> (forall id r, (id, r) ∈ l -> db_mails (r_db s) !! id = Some r) ->
  exists s', forM l (old_mail w serveurUp items) s = (Ok tt, s') /\ r_online s' = r_online s /\
    (forall id r, (id, r) ∈ l -> db_mails (r_db s') !! id = after_cleanup s r) /\
    (forall id, id ∉ l.*1 -> db_mails (r_db s') !! id = db_mails (r_db s) !! id).
Proof.
  revert s. induction l as [|[id r] l IH]; intros s Hnd Hl; cbn [forM].
  - exists s. split_and!; try done. by intros id r ?%not_elem_of_nil.
  - cbn in Hnd. apply NoDup_cons in Hnd as [Hid Hnd]. destruct (old_mail_run items id r s (Hl id r ltac:(by left))) as (s1 & E1 & O1 & A1 & B1).
    rewrite (bind_ok _ _ _ _ _ E1). assert (forall x q, (x, q) ∈ l -> x <> id) as Hne.
    { intros x q Hx ->. apply Hid, list_elem_of_fmap. by exists (id, q). }
    destruct (IH s1 Hnd) as (s2 & E2 & O2 & A2 & B2).
    { intros x q Hx. rewrite B1 by (by eapply Hne). apply Hl. by right. }
    exists s2. split; [exact E2|]. split; [congruence|]. split.
    + intros x q [[= -> ->]|Hx]%elem_of_cons; [by rewrite B2|]. rewrite (A2 x q Hx). unfold after_cleanup, box_open. by rewrite O1.
    + intros x Hx. cbn in Hx. apply not_elem_of_cons in Hx as [Hx Hxl]. by rewrite B2, B1.
Qed.

(** The mails that are there for the second query. *)
Definition swept (d : CharDB) : CharDB :=
  if serveurUp then d else default d (exec_statement (CHAR_DEL_EMPTY_EXPIRED_MAIL (ew_time w)) d).
Definition empty_row (r : MailRow) : bool := negb (mr_has_items r) && bool_decide (mr_body r = []).
Lemma swept_lookup d id r : db_mails (swept d) !! id = Some r <->
  db_mails d !! id = Some r /\ (serveurUp = true \/ ~ (mr_expire_time r < ew_time w /\ empty_row r = true)).
Proof.
  unfold swept, empty_row. destruct serveurUp; [tauto|]. cbn. rewrite map_lookup_filter_Some. cbn.
  destruct (mr_has_items r); cbn; [naive_solver|]. rewrite bool_decide_eq_true. naive_solver.
Qed.
Lemma cleanup_run s : exists s', ReturnOrDeleteOldMails w serveurUp s = (Ok tt, s') /\ r_online s' = r_online s /\
  forall id, db_mails (r_db s') !! id =
    match db_mails (r_db s) !! id with
    | Some r => if mr_expire_time r <? ew_time w then after_cleanup s r else Some r
    | None => None
    end.
Proof.
  assert (exists s1, (if serveurUp then mret tt else Execute (CHAR_DEL_EMPTY_EXPIRED_MAIL (ew_time w))) s = (Ok tt, s1) /\
    r_online s1 = r_online s /\ r_db s1 = swept (r_db s)) as (s1 & E1 & O1 & D1).
  { unfold swept. destruct serveurUp; [by exists s|]. erewrite Execute_ok by done. by eexists. }
  unfold ReturnOrDeleteOldMails. rewrite (bind_ok _ _ _ _ _ E1), (bind_ok get _ s1 s1 s1 eq_refl).
  destruct (old_mails_run (CHAR_SEL_EXPIRED_MAIL_ITEMS (r_db s1) (u32 (ew_time w))) (CHAR_SEL_EXPIRED_MAIL (r_db s1) (ew_time w)) s1)
    as (s2 & E2 & O2 & A2 & B2).
  - unfold CHAR_SEL_EXPIRED_MAIL. pose proof (in_order_NoDup (db_mails (r_db s1))) as Hnd.
    induction (in_order (db_mails (r_db s1))) as [|e l IH]; [constructor|]. cbn in Hnd. apply NoDup_cons in Hnd as [He Hnd].
    rewrite filter_cons. case_decide; [|by apply IH]. cbn. constructor; [|by apply IH].
    intros (x & E & [_ Hx]%list_elem_of_filter)%list_elem_of_fmap. apply He, list_elem_of_fmap. by exists x.
  - by intros id r [_ Hin%in_order_spec]%list_elem_of_filter.
  - exists s2. split; [exact E2|]. split; [congruence|]. intros id.
    assert (forall r, db_mails (swept (r_db s)) !! id = Some r -> db_mails (r_db s2) !! id =
      if mr_expire_time r <? ew_time w then after_cleanup s r else Some r) as Hkept.
    { intros r Hr. rewrite <- D1 in Hr. destruct (Z.ltb_spec (mr_expire_time r) (ew_time w)).
      - rewrite (A2 id r); [unfold after_cleanup, box_open; by rewrite O1|]. apply list_elem_of_filter. split; [done|]. by apply in_order_spec.
      - rewrite B2; [done|]. intros ([id' r'] & -> & [Hlt Hin%in_order_spec]%list_elem_of_filter)%list_elem_of_fmap. cbn in *. simplify_eq. lia. }
    assert (db_mails (swept (r_db s)) !! id = None -> db_mails (r_db s2) !! id = None) as Hgone.
    { intros Hr. rewrite <- D1 in Hr. rewrite B2; [done|].
      intros ([id' r'] & -> & [_ Hin%in_order_spec]%list_elem_of_filter)%list_elem_of_fmap. cbn in Hr. congruence. }
    destruct (db_mails (swept (r_db s)) !! id) as [r|] eqn:Es.
    + rewrite (Hkept r eq_refl). apply swept_lookup in Es as [-> _]. done.
    + rewrite (Hgone eq_refl). destruct (db_mails (r_db s) !! id) as [r|] eqn:Er; [|done].
      destruct serveurUp eqn:Eup; [unfold swept in Es; rewrite Eup in Es; congruence|].
      destruct (decide (mr_expire_time r < ew_time w /\ empty_row r = true)) as [[Hlt He]|Hne].
      * rewrite (proj2 (Z.ltb_lt _ _) Hlt). unfold after_cleanup, old_row. unfold empty_row in He. rewrite Eup. cbn [andb].
        destruct (mr_has_items r); [done|]. done.
      * assert (db_mails (swept (r_db s)) !! id = Some r) as Hs by (apply swept_lookup; split; [done|by right]). congruence.
Qed.
End Old.
