(* ===== verification/MailSpec.v ===== *)
(** * Mail: its properties (model in Mail.v, MailHandlers.v)

    What holds of a mailbox through a session, and of each request, with the runs
    that show that the hypotheses can be met. *)

From S2P Require Import Prelude.
From S2P Require Import Floats.
From S2P Require Import Economy.
From S2P Require Import EconomyProofs.
From S2P Require Import Mail.
From S2P Require Import MailProofs.
From S2P Require Import MailHandlers.
From S2P Require Import MailboxProofs.
From S2P Require Import MailRequests.
From S2P Require Import MailSending.
From S2P Require Import MailTaking.
From S2P Require Import OldMails.
From stdpp Require Import list sorting.
Local Open Scope Z_scope.
#[local] Set Warnings "-clear-no-such-hyp".

(** ** Sessions *)

(** A player who has just come: nothing of his mail is in memory, and the tables
    are as the server writes them. *)
Record arrived (protos : Z -> option ItemTemplate) (p : Z) (s : Realm) : Prop := {
  ar_templates : templates_ok protos (r_db s);
  ar_tables : mail_tables_ok (r_db s);
  ar_player : exists pl, r_online s !! p = Some pl /\ 0 <= pl_money pl /\ pl_mailsLoaded pl = false /\ pl_mails pl = [] /\ pl_mitems pl = ∅
}.
(** A request in some world with these templates. *)
Inductive mail_step (protos : Z -> option ItemTemplate) (templates : Z -> bool) (p : Z) : Realm -> Realm -> Prop :=
| mail_step_request w mw c s s' : ew_proto w = protos -> ew_mail_template w = templates -> run_request w mw p c s = (Ok tt, s') ->
    mail_step protos templates p s s'.

Lemma arrived_session protos templates p s : arrived protos p s -> session_ok protos templates p s.
Proof.
  intros [Ht Hm (pl & Hp & Hc & Hl & Hs & Hi)]. split; [done|]. exists pl. split; [done|]. split; [done|].
  split; [unfold mitems_ok; by rewrite Hi|]. unfold mails_ok. by rewrite Hl.
Qed.
Lemma session_reachable protos templates p s0 s : arrived protos p s0 -> rtc (mail_step protos templates p) s0 s ->
  session_ok protos templates p s.
Proof.
  intros H0 Hs. apply (arrived_session _ templates) in H0. induction Hs as [|s0 s1 s2 Hstep _ IH]; [done|]. apply IH.
  destruct Hstep as [w mw c a b Hp Ht E]. destruct (run_request_served protos templates w mw Hp Ht p c a H0) as (s3 & E3 & H3). congruence.
Qed.

(** The player leaves and comes back: his mailbox and its items are freed. *)
Definition relogged (p : Z) (s : Realm) : Realm :=
  match r_online s !! p with
  | Some pl => set_items (without (elements (pl_mitems pl)) (r_items s))
      (set_online (<[p := mkPlayer (pl_money pl) (pl_bags pl) false false [] ∅ 0 0]> (r_online s)) s)
  | None => s
  end.

(** ** The post office *)

Definition letter_paper : ItemTemplate := mkItemTemplate 20 0 50 0 0 7 5 0 1 0.
Definition no_auctions : spec_float := float_of_Z 1.
Definition post_protos (entry : Z) : option ItemTemplate := if entry =? 2589 then Some letter_paper else None.
Definition post_templates (_ : Z) : bool := false.
(** Players 1, 2 and 3 have accounts. *)
Definition post (now : Z) : EconomyWorld :=
  mkEconomyWorld now now 3600 false no_auctions no_auctions no_auctions post_protos
    (fun p => if (1 <=? p) && (p <=? 3) then 100 + p else 0)
    (fun _ => false) (fun _ => false) post_templates (fun _ _ => []) (fun _ => None)
    (fun _ => None) (fun _ => None) (fun _ => None) (fun _ _ => None)
    (fun _ => []) (fun _ => 0) (fun _ => 0) (fun _ _ => true) (fun _ _ _ => true) (fun _ _ => true) (fun _ => false).
(** Mailbox 9 is in reach, names are numbers, and a slot of the backpack is free. *)
Definition counter : MailWorld :=
  mkMailWorld (fun _ g => g =? 9) 1 (fun _ => 10) (fun _ => 67) (fun l => hd 0 l) (fun _ => false) (fun p => 100 + p) (fun _ _ => false)
    (fun _ _ => inr [(bag_0_pos 23, 3)]) (fun _ => (0, 0)).

(** Two mails to player 1, one with 500 copper and one with an item for 300. *)
Definition post_row (sender money cod : Z) (has : bool) : MailRow := mkMailRow 0 41 0 sender 1 [72] [73] has 90000 1000 money cod 16.
Definition post_db : CharDB :=
  mkCharDB ∅ {[5 := post_row 2 500 0 false; 6 := post_row 3 0 300 true]} {[40 := (6, 1)]} {[40 := mkItemRow 2589 1 3 0 0 0]} ∅.
Definition post0 : Realm :=
  mkRealm ∅ {[1 := mkPlayer 1000 ∅ false false [] ∅ 0 0]} (fun _ => ∅) ∅ 1 7 41 post_db [] [].
Definition post1 : Realm := (run_request (post 2000) counter 1 (GetMailList 9) post0).2.
Definition post2 : Realm := (run_request (post 2000) counter 1 (MarkAsRead 9 6) post1).2.

(** The player, and the mail with money in it. *)
Definition reader : Player := default (mkPlayer 0 ∅ false false [] ∅ 0 0) (r_online post2 !! 1).
Definition wages : Mail := default (stored_mail post_templates post_db (5, post_row 2 500 0 false)) (find_open (post 2000) reader 5).

Lemma post0_arrived : arrived post_protos 1 post0.
Proof.
  split.
  - intros g r Hr. cbn in Hr. apply lookup_singleton_Some in Hr as [<- <-]. by eexists.
  - intros id r Hr. cbn in Hr. apply lookup_insert_Some in Hr as [[<- <-]|[_ Hr]].
    + split_and!; cbn; try lia. intros _. vm_compute. reflexivity.
    + apply lookup_singleton_Some in Hr as [<- <-]. split_and!; cbn; lia || discriminate.
  - eexists. split; [reflexivity|]. split_and!; cbn; try lia; done.
Qed.
Lemma post2_steps : rtc (mail_step post_protos post_templates 1) post0 post2.
Proof.
  eapply rtc_l; [apply (mail_step_request _ _ 1 (post 2000) counter (GetMailList 9) post0 post1); [done..|vm_compute; reflexivity]|].
  apply rtc_once, (mail_step_request _ _ 1 (post 2000) counter (MarkAsRead 9 6) post1 post2); [done..|vm_compute; reflexivity].
Qed.

(** ** The mailbox *)


(** ** Taking money *)

Definition refused (p : Z) (s s' : Realm) : Prop := exists data, s' = send_packet p (SMSG_SEND_MAIL_RESULT data) s.
(** The money [a] of the mail [m] is the player's, in memory and in the tables, and
    no longer in the mail. *)
Definition money_moved (p id : Z) (pl : Player) (m : Mail) (s s' : Realm) : Prop := exists pl' m' r,
  r_online s' = <[p := pl']> (r_online s) /\ pl_money pl' = pl_money pl + ml_money m /\ db_money (r_db s') !! p = Some (pl_money pl') /\
  GetMail pl' id = Some m' /\ ml_money m' = 0 /\ ml_items m' = ml_items m /\ db_mails (r_db s') !! id = Some r /\ mr_money r = 0.

(** C36. Taking the money of a mail: a mail that is not there, deleted or on its way, a
    sum other than the one the player saw, and a full purse are refused and change
    nothing; else the money goes from the mail to the player, in one transaction,
    so that it is never in both and taking it again gives nothing. *)
Theorem TakeMoney_spec protos templates p s0 s w mw mailbox money id pl :
  arrived protos p s0 -> rtc (mail_step protos templates p) s0 s -> ew_proto w = protos -> ew_mail_template w = templates ->
  r_online s !! p = Some pl -> mw_mailbox mw p mailbox = true -> 0 <= money ->
  exists s', run_request w mw p (TakeMoney mailbox money id) s = (Ok tt, s') /\
    match find_open w pl id with
    | None => refused p s s'
    | Some m =>
        if bool_decide (money = 0 \/ money = ml_money m) && purse_fits pl (ml_money m) then money_moved p id pl m s s' else refused p s s'
    end.
Proof.
  intros H0 Hs Hp Ht Hpl Hbox Hmon. pose proof (session_reachable _ _ _ _ _ H0 Hs) as H. cbn [run_request].
  destruct (find_open w pl id) as [m|] eqn:Ef.
  2: { unfold HandleMailTakeMoney. rewrite Hbox, (bind_ok _ _ _ _ _ (deref_player_ok p pl s Hpl)), Ef. eexists. split; [done|]. by eexists. }
  pose proof (find_money protos templates w p s pl id m H Hpl Ef) as Hr.
  case_bool_decide as Hm; cbn [andb]; [destruct (purse_fits pl (ml_money m)) eqn:Ep|].
  - destruct (TakeMoney_run protos templates w mw p mailbox money id s pl m H Hbox Hpl Ef Hm Ep) as (d & sent & E & H1 & _ & Hl & Ed).
    eexists. split; [exact E|]. destruct (find_open_Some w pl id m Ef) as [Hg _]. apply GetMail_Some in Hg as [Hin Hid].
    destruct (taken_mail protos templates p s pl id m H Hpl Hin Hid d H1) as (r & Hk & Hrow & Hmr).
    exists (player_saved (money_taken pl id (ml_money m))), (saved_mail (mail_set_money 0 m)), r. split_and!; try done.
    + cbn. rewrite (exec_mails_money _ _ _ Ed). cbn. by rewrite lookup_insert_eq.
    + rewrite <- Hid at 2. apply (GetMail_in (player_saved (money_taken pl id (ml_money m))) (saved_mail (mail_set_money 0 m))); [|exact Hk].
      apply (mb_sorted _ _ _ _ H1).
  - unfold HandleMailTakeMoney. rewrite Hbox, (bind_ok _ _ _ _ _ (deref_player_ok p pl s Hpl)), Ef.
    replace ((0 <? money) && negb (ml_money m =? money)) with false by (destruct Hm as [->| ->]; [done|by rewrite Z.eqb_refl, andb_false_r]).
    destruct H as [_ (pl' & Hpl' & Hc & _)]. rewrite Hpl in Hpl'. injection Hpl' as <-.
    rewrite sint_small by lia. erewrite bind_ok by (rewrite (ModifyMoney_gain p _ pl) by done; by rewrite Ep). eexists. split; [done|]. by eexists.
  - unfold HandleMailTakeMoney. rewrite Hbox, (bind_ok _ _ _ _ _ (deref_player_ok p pl s Hpl)), Ef.
    replace ((0 <? money) && negb (ml_money m =? money)) with true
      by (symmetry; apply andb_true_intro; split; [apply Z.ltb_lt; lia|apply negb_true_iff, Z.eqb_neq; lia]).
    eexists. split; [done|]. by eexists.
Qed.
Lemma TakeMoney_spec_witness : exists s', pl_money reader = 1000 /\ ml_money wages = 500 /\
  run_request (post 2000) counter 1 (TakeMoney 9 500 5) post2 = (Ok tt, s') /\ money_moved 1 5 reader wages post2 s'.
Proof.
  assert (find_open (post 2000) reader 5 = Some wages) as Hf by (vm_compute; reflexivity).
  destruct (TakeMoney_spec post_protos post_templates 1 post0 post2 (post 2000) counter 9 500 5 reader post0_arrived post2_steps eq_refl eq_refl
    ltac:(vm_compute; reflexivity) eq_refl ltac:(lia)) as (s' & E & H).
  exists s'. split; [vm_compute; reflexivity|]. split; [vm_compute; reflexivity|]. split; [exact E|]. rewrite Hf in H.
  assert (bool_decide (500 = 0 \/ 500 = ml_money wages) && purse_fits reader (ml_money wages) = true) as Hb by (vm_compute; reflexivity).
  rewrite Hb in H. exact H.
Defined.

(** ** Taking items *)

Definition parcel : Mail := default wages (find_open (post 2000) reader 6).


(** ** Sending *)

Definition writer : Player := mkPlayer 1000 {[bag_0_pos 23 := 50]} false false [] ∅ 0 0.
Definition post3 : Realm := mkRealm {[50 := mkItem 2589 3 2 0 0 0 ITEM_UNCHANGED]} {[2 := writer]} (fun _ => ∅) ∅ 1 7 51 post_db [] [].


(** ** Old mails *)

(** C37. The clean-up never fails. A mail that has not expired stays as it is, and so
    does one in an open mailbox; an expired one that carries items from a player and
    was not sent back before goes back to its sender, without a price and for
    thirty days; every other expired mail is deleted. What is sent back cannot be
    sent back again. *)
Theorem old_mails_spec w serveurUp s : exists s', ReturnOrDeleteOldMails w serveurUp s = (Ok tt, s') /\ r_online s' = r_online s /\
  (forall id, db_mails (r_db s') !! id =
    match db_mails (r_db s) !! id with
    | None => None
    | Some r =>
        if (ew_time w <=? mr_expire_time r) || (serveurUp && box_open s (mr_receiver r)) then Some r
        else if mr_has_items r && returnable r
        then Some (mail_row_returned (mr_receiver r) (mr_sender r) (u32 (ew_time w + 30 * DAY)) (u32 (ew_time w)) MAIL_CHECK_MASK_RETURNED r)
        else None
    end) /\
  forall sender receiver expire deliver r, returnable (mail_row_returned sender receiver expire deliver MAIL_CHECK_MASK_RETURNED r) = false.
Proof.
  destruct (cleanup_run w serveurUp s) as (s' & E & Ho & H). exists s'. split; [exact E|]. split; [exact Ho|]. split.
  - intros id. rewrite H. destruct (db_mails (r_db s) !! id) as [r|]; [|done]. unfold after_cleanup, old_row.
    destruct (Z.leb_spec (ew_time w) (mr_expire_time r)), (Z.ltb_spec (mr_expire_time r) (ew_time w)); try lia; done.
  - intros. unfold returnable. cbn. by rewrite andb_false_r.
Qed.

(** ** What the handlers let through *)

Definition money_of (p : Z) (s : Realm) : option Z := pl_money <$> r_online s !! p.
Definition bags_of (p : Z) (s : Realm) : list Z := from_option (fun pl => (in_order (pl_bags pl)).*2) [] (r_online s !! p).

(** The item of mail 6, which costs 300, is taken with the id of mail 5, which is
    free: the item is in the bags and nothing has been paid. *)
Example COD_by_another_mail : let s := (HandleMailTakeItem (post 2000) counter 1 9 5 40 post2).2 in
  bags_of 1 s = [40] /\ money_of 1 s = Some 1000 /\ db_mail_items (r_db s) !! 40 = None.
Proof. vm_compute. split_and!; reflexivity. Qed.

(** A price of 3000000000 copper is paid to the buyer, as [int32]. *)
Definition dear_db : CharDB :=
  mkCharDB ∅ {[6 := post_row 3 0 3000000000 true]} {[40 := (6, 1)]} {[40 := mkItemRow 2589 1 3 0 0 0]} ∅.
Definition dear0 : Realm :=
  mkRealm ∅ {[1 := mkPlayer 4000000000 ∅ false false [] ∅ 0 0]} (fun _ => ∅) ∅ 1 7 41 dear_db [] [].
Example COD_pays_the_buyer : let s1 := (HandleGetMailList (post 2000) counter 1 9 dear0).2 in
  let s2 := (HandleMailTakeItem (post 2000) counter 1 9 6 40 s1).2 in
  bags_of 1 s2 = [40] /\ money_of 1 s2 = Some 5294967296.
Proof. vm_compute. split_and!; reflexivity. Qed.

(** A sum that overflows with the postage costs a copper less than the postage. *)
Example postage_overflows : let s := (HandleSendMail (post 2000) counter 2 9 [1] [72] [] (2 ^ 64 - 1) 0 [] post3).2 in
  money_of 2 s = Some 971 /\ option_map mr_money (db_mails (r_db s) !! 7) = Some 4294967295.
Proof. vm_compute. split_and!; reflexivity. Qed.

(** An auction mail that is returned is deleted with its items. *)
Definition lost_db : CharDB :=
  mkCharDB ∅ {[6 := mkMailRow 2 62 0 6 1 [72] [73] true 90000 1000 0 0 0]} {[40 := (6, 1)]} {[40 := mkItemRow 2589 1 3 0 0 0]} ∅.
Definition lost0 : Realm :=
  mkRealm ∅ {[1 := mkPlayer 1000 ∅ false false [] ∅ 0 0]} (fun _ => ∅) ∅ 1 7 41 lost_db [] [].
Example returned_to_nobody : let s1 := (HandleGetMailList (post 2000) counter 1 9 lost0).2 in
  let s2 := (HandleMailReturnToSender (post 2000) counter 1 9 6 s1).2 in
  db_mails (r_db s2) = ∅ /\ db_mail_items (r_db s2) = ∅ /\ option_map pl_mails (r_online s2 !! 1) = Some [].
Proof. vm_compute. split_and!; reflexivity. Qed.

(** A deleted mail that is marked as read is back. *)
Example read_after_deletion : let s1 := (HandleMailDelete counter 1 9 5 post2).2 in
  let s2 := (run_request (post 2000) counter 1 SavePlayer (HandleMailMarkAsRead counter 1 9 5 s1).2).2 in
  is_Some (db_mails (r_db s2) !! 5).
Proof. vm_compute. eexists. reflexivity. Qed.
