(* ===== verification/Guild.v ===== *)
(** * Guilds (src/src/serveur/jeu/Guilds/Guild.cpp)

    A guild has a leader, ranks with their rights, members of those ranks, and a
    bank with tabs and money, all of which is in the database too.  The players
    who are online carry the id of their guild and their rank in it.  Their
    money is that of [Economy], and a transaction may hold statements on both.
    Left out: the items in the bank, the logs and news, the emblem, achievements,
    perks, and what members show in the roster (class, zone, activity, flags).
    Packets are recorded by their kind. *)

From S2P Require Import Prelude.
From S2P Require Import Floats.
From S2P Require Import Economy.
From stdpp Require Import sorting.
Local Open Scope Z_scope.

(** A null [Member], the [ASSERT] of [SendGuildRanksUpdate], a guild that is
    freed, a tab out of the array of a rank, and what money may fail with. *)
Inductive GuildError :=
| NullMember
| GuildAssert
| GuildFreed
| TabOutOfRange
| GuildEconomy (e : EconomyError).

Definition GUILD_BANK_MAX_TABS := 8.
Definition GUILD_RANKS_MIN_COUNT := 2.
Definition GUILD_RANKS_MAX_COUNT := 10.
Definition GUILD_RANK_NONE := 255.
Definition GUILD_WITHDRAW_MONEY_UNLIMITED := 4294967295.
Definition GUILD_WITHDRAW_SLOT_UNLIMITED := 4294967295.
Definition GUILD_EXPERIENCE_UNCAPPED_LEVEL := 20.
Definition TAB_UNDEFINED := 255.
Definition GR_GUILDMASTER := 0.
Definition GR_OFFICER := 1.
Definition GR_INITIATE := 4.
Definition GR_RIGHT_EMPTY := 64.
Definition GR_RIGHT_GCHATLISTEN := Z.lor GR_RIGHT_EMPTY 1.
Definition GR_RIGHT_GCHATSPEAK := Z.lor GR_RIGHT_EMPTY 2.
Definition GR_RIGHT_INVITE := Z.lor GR_RIGHT_EMPTY 16.
Definition GR_RIGHT_REMOVE := Z.lor GR_RIGHT_EMPTY 32.
Definition GR_RIGHT_PROMOTE := Z.lor GR_RIGHT_EMPTY 128.
Definition GR_RIGHT_DEMOTE := Z.lor GR_RIGHT_EMPTY 256.
Definition GR_RIGHT_SETMOTD := Z.lor GR_RIGHT_EMPTY 4096.
Definition GR_RIGHT_EPNOTE := Z.lor GR_RIGHT_EMPTY 8192.
Definition GR_RIGHT_EOFFNOTE := Z.lor GR_RIGHT_EMPTY 32768.
Definition GR_RIGHT_MODIFY_GUILD_INFO := Z.lor GR_RIGHT_EMPTY 65536.
Definition GR_RIGHT_WITHDRAW_REPAIR := 262144.
Definition GR_RIGHT_WITHDRAW_GOLD := 524288.
Definition GR_RIGHT_ALL := 14548927.
Definition GUILD_BANK_RIGHT_FULL := 255.
Definition GOLD := 10000.

Inductive GuildCommandType :=
  GUILD_COMMAND_CREATE | GUILD_COMMAND_INVITE | GUILD_COMMAND_QUIT | GUILD_COMMAND_PROMOTE | GUILD_COMMAND_DEMOTE | GUILD_COMMAND_REMOVE |
  GUILD_COMMAND_CHANGE_LEADER | GUILD_COMMAND_EDIT_MOTD | GUILD_COMMAND_CHANGE_RANK | GUILD_COMMAND_PUBLIC_NOTE.
Inductive GuildCommandError :=
  ERR_GUILD_COMMAND_SUCCESS | ERR_ALREADY_INVITED_TO_GUILD_S | ERR_GUILD_NAME_INVALID | ERR_GUILD_NAME_EXISTS_S | ERR_GUILD_LEADER_LEAVE |
  ERR_GUILD_PERMISSIONS | ERR_GUILD_PLAYER_NOT_FOUND_S | ERR_GUILD_NOT_ALLIED | ERR_GUILD_RANK_TOO_HIGH_S | ERR_GUILD_RANK_TOO_LOW_S |
  ERR_GUILD_UNDELETABLE_DUE_TO_LEVEL.
Inductive GuildEvents :=
  GE_PROMOTION | GE_DEMOTION | GE_MOTD | GE_JOINED | GE_LEFT | GE_REMOVED | GE_LEADER_CHANGED | GE_DISBANDED | GE_RANK_UPDATED |
  GE_RANK_CREATED | GE_RANK_DELETED | GE_FOUNDER | GE_SIGNED_OFF | GE_BANK_TAB_PURCHASED | GE_BANK_TAB_UPDATED | GE_BANK_MONEY_CHANGED.
(** A result to a player, an event to the members of a guild, and the other
    packets that a guild sends. *)
Inductive GuildPacket :=
| SMSG_GUILD_COMMAND_RESULT (player : Z) (type : GuildCommandType) (error : GuildCommandError)
| SMSG_GUILD_EVENT (guild : Z) (event : GuildEvents)
| SMSG_GUILD_INVITE (player guild : Z)
| SMSG_GUILD_RANKS_UPDATE (setter target rank : Z)
| SMSG_GUILD_BANK_QUERY_TEXT_RESULT (guild tabId : Z)
| SMSG_GUILD_XP_GAIN (player xp : Z).

(** ** Data *)

(** [GuildBankRightsAndSlots] *)
Record TabRight := mkTabRight { tr_tabId : Z; tr_rights : Z; tr_slots : Z }.
Definition undefined_tab : TabRight := mkTabRight TAB_UNDEFINED 0 0.
Definition SetGuildMasterValues (t : TabRight) : TabRight := mkTabRight (tr_tabId t) GUILD_BANK_RIGHT_FULL GUILD_WITHDRAW_SLOT_UNLIMITED.

Record RankInfo := mkRankInfo { rk_rankId : Z; rk_name : list Z; rk_rights : Z; rk_bankMoneyPerDay : Z; rk_tabs : list TabRight }.
Definition rank_set_name v r := mkRankInfo (rk_rankId r) v (rk_rights r) (rk_bankMoneyPerDay r) (rk_tabs r).
Definition rank_set_rights v r := mkRankInfo (rk_rankId r) (rk_name r) v (rk_bankMoneyPerDay r) (rk_tabs r).
Definition rank_set_money v r := mkRankInfo (rk_rankId r) (rk_name r) (rk_rights r) v (rk_tabs r).
Definition rank_set_tabs v r := mkRankInfo (rk_rankId r) (rk_name r) (rk_rights r) (rk_bankMoneyPerDay r) v.
Definition new_rank (rankId : Z) (name : list Z) (rights money : Z) : RankInfo :=
  mkRankInfo rankId name rights money (repeat undefined_tab (Z.to_nat GUILD_BANK_MAX_TABS)).

Record BankTab := mkBankTab { bt_name : list Z; bt_icon : list Z; bt_text : list Z }.
Definition new_tab : BankTab := mkBankTab [] [] [].

(** The key of a member is his low guid.  [mb_bankWithdraw] has a number for each
    tab and the money last. *)
Record Member := mkMember { mb_rankId : Z; mb_publicNote : list Z; mb_officerNote : list Z; mb_bankWithdraw : list Z }.
Definition no_withdraw : list Z := repeat 0 (Z.to_nat (GUILD_BANK_MAX_TABS + 1)).
Definition new_member (rankId : Z) : Member := mkMember rankId [] [] no_withdraw.
Definition member_set_rank v m := mkMember v (mb_publicNote m) (mb_officerNote m) (mb_bankWithdraw m).
Definition member_set_pnote v m := mkMember (mb_rankId m) v (mb_officerNote m) (mb_bankWithdraw m).
Definition member_set_onote v m := mkMember (mb_rankId m) (mb_publicNote m) v (mb_bankWithdraw m).
Definition member_set_withdraw v m := mkMember (mb_rankId m) (mb_publicNote m) (mb_officerNote m) v.

Record Guild := mkGuild {
  gd_name : list Z;
  gd_leaderGuid : Z;
  gd_motd : list Z;
  gd_info : list Z;
  gd_createdDate : Z;
  gd_accountsNumber : Z;
  gd_bankMoney : Z;
  gd_ranks : list RankInfo;
  gd_members : gmap Z Member;
  gd_bankTabs : list BankTab;
  gd_level : Z;
  gd_experience : Z;
  gd_todayExperience : Z
}.
Definition guild_set_leader v g := mkGuild (gd_name g) v (gd_motd g) (gd_info g) (gd_createdDate g) (gd_accountsNumber g) (gd_bankMoney g)
  (gd_ranks g) (gd_members g) (gd_bankTabs g) (gd_level g) (gd_experience g) (gd_todayExperience g).
Definition guild_set_motd v g := mkGuild (gd_name g) (gd_leaderGuid g) v (gd_info g) (gd_createdDate g) (gd_accountsNumber g) (gd_bankMoney g)
  (gd_ranks g) (gd_members g) (gd_bankTabs g) (gd_level g) (gd_experience g) (gd_todayExperience g).
Definition guild_set_info v g := mkGuild (gd_name g) (gd_leaderGuid g) (gd_motd g) v (gd_createdDate g) (gd_accountsNumber g) (gd_bankMoney g)
  (gd_ranks g) (gd_members g) (gd_bankTabs g) (gd_level g) (gd_experience g) (gd_todayExperience g).
Definition guild_set_accounts v g := mkGuild (gd_name g) (gd_leaderGuid g) (gd_motd g) (gd_info g) (gd_createdDate g) v (gd_bankMoney g)
  (gd_ranks g) (gd_members g) (gd_bankTabs g) (gd_level g) (gd_experience g) (gd_todayExperience g).
Definition guild_set_money v g := mkGuild (gd_name g) (gd_leaderGuid g) (gd_motd g) (gd_info g) (gd_createdDate g) (gd_accountsNumber g) v
  (gd_ranks g) (gd_members g) (gd_bankTabs g) (gd_level g) (gd_experience g) (gd_todayExperience g).
Definition guild_set_ranks v g := mkGuild (gd_name g) (gd_leaderGuid g) (gd_motd g) (gd_info g) (gd_createdDate g) (gd_accountsNumber g)
  (gd_bankMoney g) v (gd_members g) (gd_bankTabs g) (gd_level g) (gd_experience g) (gd_todayExperience g).
Definition guild_set_members v g := mkGuild (gd_name g) (gd_leaderGuid g) (gd_motd g) (gd_info g) (gd_createdDate g) (gd_accountsNumber g)
  (gd_bankMoney g) (gd_ranks g) v (gd_bankTabs g) (gd_level g) (gd_experience g) (gd_todayExperience g).
Definition guild_set_tabs v g := mkGuild (gd_name g) (gd_leaderGuid g) (gd_motd g) (gd_info g) (gd_createdDate g) (gd_accountsNumber g)
  (gd_bankMoney g) (gd_ranks g) (gd_members g) v (gd_level g) (gd_experience g) (gd_todayExperience g).
Definition guild_set_experience level experience today g := mkGuild (gd_name g) (gd_leaderGuid g) (gd_motd g) (gd_info g) (gd_createdDate g)
  (gd_accountsNumber g) (gd_bankMoney g) (gd_ranks g) (gd_members g) (gd_bankTabs g) level experience today.

Definition GetRanksSize (g : Guild) : Z := u8 (len (gd_ranks g)).
Definition GetLowestRankId (g : Guild) : Z := u8 (len (gd_ranks g) - 1).
Definition GetPurchasedTabsSize (g : Guild) : Z := u8 (len (gd_bankTabs g)).
Definition GetRankInfo (g : Guild) (rankId : Z) : option RankInfo :=
  if rankId <? GetRanksSize g then gd_ranks g !! Z.to_nat rankId else None.
Definition GetBankTab (g : Guild) (tabId : Z) : option BankTab :=
  if tabId <? len (gd_bankTabs g) then gd_bankTabs g !! Z.to_nat tabId else None.
Definition GUID_LOPART (guid : Z) : Z := u32 guid.
Definition GetMember (g : Guild) (guid : Z) : option Member := gd_members g !! GUID_LOPART guid.
Definition GetRankRights (g : Guild) (rankId : Z) : Z := from_option rk_rights 0 (GetRankInfo g rankId).
(** An [int32]. *)
Definition GetRankBankMoneyPerDay (g : Guild) (rankId : Z) : Z := s32 (from_option rk_bankMoneyPerDay 0 (GetRankInfo g rankId)).
Definition HasRankRight (g : Guild) (player right : Z) : bool :=
  match GetMember g player with
  | Some m => negb (Z.land (GetRankRights g (mb_rankId m)) right =? GR_RIGHT_EMPTY)
  | None => false
  end.
Definition IsRank (rankId : Z) (m : Member) : bool := mb_rankId m =? rankId.
Definition IsRankNotLower (rankId : Z) (m : Member) : bool := mb_rankId m <=? rankId.
Definition IsLeader (g : Guild) (player : Z) : bool :=
  (player =? gd_leaderGuid g) || from_option (IsRank GR_GUILDMASTER) false (GetMember g player).
Definition GetGuildBankTabPrice (tabId : Z) : Z :=
  match tabId with 0 => 100 | 1 => 250 | 2 => 500 | 3 => 1000 | 4 => 2500 | 5 => 5000 | _ => 0 end.

(** ** The database *)

(** The tables [guild], [guild_rank], [guild_member], [guild_member_withdraw],
    [guild_bank_right] by tab and rank, and [guild_bank_tab]. *)
Record GuildRow := mkGuildRow {
  gw_name : list Z;
  gw_leaderguid : Z;
  gw_info : list Z;
  gw_motd : list Z;
  gw_createdate : Z;
  gw_BankMoney : Z;
  gw_level : Z;
  gw_experience : Z;
  gw_todayExperience : Z
}.
Definition guild_row_leader v r := mkGuildRow (gw_name r) v (gw_info r) (gw_motd r) (gw_createdate r) (gw_BankMoney r) (gw_level r)
  (gw_experience r) (gw_todayExperience r).
Definition guild_row_info v r := mkGuildRow (gw_name r) (gw_leaderguid r) v (gw_motd r) (gw_createdate r) (gw_BankMoney r) (gw_level r)
  (gw_experience r) (gw_todayExperience r).
Definition guild_row_motd v r := mkGuildRow (gw_name r) (gw_leaderguid r) (gw_info r) v (gw_createdate r) (gw_BankMoney r) (gw_level r)
  (gw_experience r) (gw_todayExperience r).
Definition guild_row_money v r := mkGuildRow (gw_name r) (gw_leaderguid r) (gw_info r) (gw_motd r) (gw_createdate r) v (gw_level r)
  (gw_experience r) (gw_todayExperience r).
Definition guild_row_experience level experience today r := mkGuildRow (gw_name r) (gw_leaderguid r) (gw_info r) (gw_motd r) (gw_createdate r)
  (gw_BankMoney r) level experience today.
Record RankRow := mkRankRow { rw_rname : list Z; rw_rights : Z; rw_BankMoneyPerDay : Z }.
Definition rank_row_name v r := mkRankRow v (rw_rights r) (rw_BankMoneyPerDay r).
Definition rank_row_rights v r := mkRankRow (rw_rname r) v (rw_BankMoneyPerDay r).
Definition rank_row_money v r := mkRankRow (rw_rname r) (rw_rights r) v.
Record MemberRow := mkMemberRow { mw_guildid : Z; mw_rank : Z; mw_pnote : list Z; mw_offnote : list Z }.
Definition member_row_rank v r := mkMemberRow (mw_guildid r) v (mw_pnote r) (mw_offnote r).
Definition member_row_pnote v r := mkMemberRow (mw_guildid r) (mw_rank r) v (mw_offnote r).
Definition member_row_offnote v r := mkMemberRow (mw_guildid r) (mw_rank r) (mw_pnote r) v.

Record GuildDB := mkGuildDB {
  gdb_guild : gmap Z GuildRow;
  gdb_rank : Z -> gmap Z RankRow;
  gdb_member : gmap Z MemberRow;
  gdb_withdraw : gmap Z (list Z);
  gdb_right : Z -> gmap (Z * Z) (Z * Z);
  gdb_tab : Z -> gmap Z BankTab
}.
Definition gdb_set_guild v d := mkGuildDB v (gdb_rank d) (gdb_member d) (gdb_withdraw d) (gdb_right d) (gdb_tab d).
Definition gdb_set_rank v d := mkGuildDB (gdb_guild d) v (gdb_member d) (gdb_withdraw d) (gdb_right d) (gdb_tab d).
Definition gdb_set_member v d := mkGuildDB (gdb_guild d) (gdb_rank d) v (gdb_withdraw d) (gdb_right d) (gdb_tab d).
Definition gdb_set_withdraw v d := mkGuildDB (gdb_guild d) (gdb_rank d) (gdb_member d) v (gdb_right d) (gdb_tab d).
Definition gdb_set_right v d := mkGuildDB (gdb_guild d) (gdb_rank d) (gdb_member d) (gdb_withdraw d) v (gdb_tab d).
Definition gdb_set_tab v d := mkGuildDB (gdb_guild d) (gdb_rank d) (gdb_member d) (gdb_withdraw d) (gdb_right d) v.

Inductive GuildStatement :=
| CHAR_INS_GUILD (guildid : Z) (row : GuildRow)
| CHAR_DEL_GUILD (guildid : Z)
| CHAR_UPD_GUILD_LEADER (leaderguid guildid : Z)
| CHAR_UPD_GUILD_MOTD (motd : list Z) (guildid : Z)
| CHAR_UPD_GUILD_INFO (info : list Z) (guildid : Z)
| CHAR_UPD_GUILD_BANK_MONEY (money guildid : Z)
| CHAR_UPD_GUILD_EXPERIENCE (level experience today guildid : Z)
| CHAR_UPD_GUILD_RESET_TODAY_EXPERIENCE
| CHAR_INS_GUILD_RANK (guildid rid : Z) (rname : list Z) (rights : Z)
| CHAR_DEL_GUILD_RANKS (guildid : Z)
| CHAR_DEL_GUILD_RANK (guildid rid : Z)
| CHAR_UPD_GUILD_RANK_NAME (rname : list Z) (rid guildid : Z)
| CHAR_UPD_GUILD_RANK_RIGHTS (rights rid guildid : Z)
| CHAR_UPD_GUILD_RANK_BANK_MONEY (money rid guildid : Z)
| CHAR_INS_GUILD_MEMBER (guildid guid rank : Z) (pnote offnote : list Z)
| CHAR_DEL_GUILD_MEMBER (guid : Z)
| CHAR_DEL_GUILD_MEMBERS (guildid : Z)
| CHAR_UPD_GUILD_MEMBER_RANK (rank guid : Z)
| CHAR_UPD_GUILD_MEMBER_PNOTE (pnote : list Z) (guid : Z)
| CHAR_UPD_GUILD_MEMBER_OFFNOTE (offnote : list Z) (guid : Z)
| CHAR_INS_GUILD_MEMBER_WITHDRAW (guid : Z) (values : list Z)
| CHAR_DEL_GUILD_MEMBER_WITHDRAW
| CHAR_INS_GUILD_BANK_RIGHT (guildid tabId rid gbright slotPerDay : Z)
| CHAR_DEL_GUILD_BANK_RIGHTS (guildid : Z)
| CHAR_DEL_GUILD_BANK_RIGHTS_FOR_RANK (guildid rid : Z)
| CHAR_INS_GUILD_BANK_TAB (guildid tabId : Z)
| CHAR_DEL_GUILD_BANK_TAB (guildid tabId : Z)
| CHAR_DEL_GUILD_BANK_TABS (guildid : Z)
| CHAR_UPD_GUILD_BANK_TAB_INFO (name icon : list Z) (guildid tabId : Z)
| CHAR_UPD_GUILD_BANK_TAB_TEXT (text : list Z) (guildid tabId : Z).

(** A change of the table of one guild. *)
Definition at_guild {A} (id : Z) (f : A -> A) (t : Z -> A) : Z -> A := <[id := f (t id)]> t.
(** One statement; an [INSERT] fails if its key is taken. *)
Definition exec_statement (st : GuildStatement) (d : GuildDB) : option GuildDB :=
  match st with
  | CHAR_INS_GUILD id row => if bool_decide (is_Some (gdb_guild d !! id)) then None else Some (gdb_set_guild (<[id := row]> (gdb_guild d)) d)
  | CHAR_DEL_GUILD id => Some (gdb_set_guild (delete id (gdb_guild d)) d)
  | CHAR_UPD_GUILD_LEADER v id => Some (gdb_set_guild (alter (guild_row_leader v) id (gdb_guild d)) d)
  | CHAR_UPD_GUILD_MOTD v id => Some (gdb_set_guild (alter (guild_row_motd v) id (gdb_guild d)) d)
  | CHAR_UPD_GUILD_INFO v id => Some (gdb_set_guild (alter (guild_row_info v) id (gdb_guild d)) d)
  | CHAR_UPD_GUILD_BANK_MONEY v id => Some (gdb_set_guild (alter (guild_row_money v) id (gdb_guild d)) d)
  | CHAR_UPD_GUILD_EXPERIENCE l x t id => Some (gdb_set_guild (alter (guild_row_experience l x t) id (gdb_guild d)) d)
  | CHAR_UPD_GUILD_RESET_TODAY_EXPERIENCE =>
      Some (gdb_set_guild ((fun r => guild_row_experience (gw_level r) (gw_experience r) 0 r) <$> gdb_guild d) d)
  | CHAR_INS_GUILD_RANK id rid n r =>
      if bool_decide (is_Some (gdb_rank d id !! rid)) then None
      else Some (gdb_set_rank (at_guild id (<[rid := mkRankRow n r 0]>) (gdb_rank d)) d)
  | CHAR_DEL_GUILD_RANKS id => Some (gdb_set_rank (at_guild id (fun _ => ∅) (gdb_rank d)) d)
  | CHAR_DEL_GUILD_RANK id rid => Some (gdb_set_rank (at_guild id (delete rid) (gdb_rank d)) d)
  | CHAR_UPD_GUILD_RANK_NAME v rid id => Some (gdb_set_rank (at_guild id (alter (rank_row_name v) rid) (gdb_rank d)) d)
  | CHAR_UPD_GUILD_RANK_RIGHTS v rid id => Some (gdb_set_rank (at_guild id (alter (rank_row_rights v) rid) (gdb_rank d)) d)
  | CHAR_UPD_GUILD_RANK_BANK_MONEY v rid id => Some (gdb_set_rank (at_guild id (alter (rank_row_money v) rid) (gdb_rank d)) d)
  | CHAR_INS_GUILD_MEMBER id guid rank p o =>
      if bool_decide (is_Some (gdb_member d !! guid)) then None
      else Some (gdb_set_member (<[guid := mkMemberRow id rank p o]> (gdb_member d)) d)
  | CHAR_DEL_GUILD_MEMBER guid => Some (gdb_set_member (delete guid (gdb_member d)) d)
  | CHAR_DEL_GUILD_MEMBERS id => Some (gdb_set_member (filter (fun e => mw_guildid e.2 <> id) (gdb_member d)) d)
  | CHAR_UPD_GUILD_MEMBER_RANK v guid => Some (gdb_set_member (alter (member_row_rank v) guid (gdb_member d)) d)
  | CHAR_UPD_GUILD_MEMBER_PNOTE v guid => Some (gdb_set_member (alter (member_row_pnote v) guid (gdb_member d)) d)
  | CHAR_UPD_GUILD_MEMBER_OFFNOTE v guid => Some (gdb_set_member (alter (member_row_offnote v) guid (gdb_member d)) d)
  | CHAR_INS_GUILD_MEMBER_WITHDRAW guid v => Some (gdb_set_withdraw (<[guid := v]> (gdb_withdraw d)) d)
  | CHAR_DEL_GUILD_MEMBER_WITHDRAW => Some (gdb_set_withdraw ∅ d)
  | CHAR_INS_GUILD_BANK_RIGHT id tab rid r n => Some (gdb_set_right (at_guild id (<[(tab, rid) := (r, n)]>) (gdb_right d)) d)
  | CHAR_DEL_GUILD_BANK_RIGHTS id => Some (gdb_set_right (at_guild id (fun _ => ∅) (gdb_right d)) d)
  | CHAR_DEL_GUILD_BANK_RIGHTS_FOR_RANK id rid => Some (gdb_set_right (at_guild id (filter (fun e => e.1.2 <> rid)) (gdb_right d)) d)
  | CHAR_INS_GUILD_BANK_TAB id tab =>
      if bool_decide (is_Some (gdb_tab d id !! tab)) then None else Some (gdb_set_tab (at_guild id (<[tab := new_tab]>) (gdb_tab d)) d)
  | CHAR_DEL_GUILD_BANK_TAB id tab => Some (gdb_set_tab (at_guild id (delete tab) (gdb_tab d)) d)
  | CHAR_DEL_GUILD_BANK_TABS id => Some (gdb_set_tab (at_guild id (fun _ => ∅) (gdb_tab d)) d)
  | CHAR_UPD_GUILD_BANK_TAB_INFO n i id tab =>
      Some (gdb_set_tab (at_guild id (alter (fun t => mkBankTab n i (bt_text t)) tab) (gdb_tab d)) d)
  | CHAR_UPD_GUILD_BANK_TAB_TEXT v id tab =>
      Some (gdb_set_tab (at_guild id (alter (fun t => mkBankTab (bt_name t) (bt_icon t) v) tab) (gdb_tab d)) d)
  end.
Fixpoint exec_statements (l : list GuildStatement) (d : GuildDB) : option GuildDB :=
  match l with
  | [] => Some d
  | st :: l' => match exec_statement st d with Some d' => exec_statements l' d' | None => None end
  end.

(** ** The state *)

(** A player who is online: [OBJECT_FIELD_DATA], [m_GuildIdInvited],
    [PLAYER_FIELD_GUILD_RANK_ID] and [PLAYER_FIELD_GUILD_LEVEL]. *)
Record GuildFields := mkGuildFields { gf_GuildId : Z; gf_GuildIdInvited : Z; gf_Rank : Z; gf_GuildLevel : Z }.
Definition fields_set_guild v f := mkGuildFields v (gf_GuildIdInvited f) (gf_Rank f) (gf_GuildLevel f).
Definition fields_set_invited v f := mkGuildFields (gf_GuildId f) v (gf_Rank f) (gf_GuildLevel f).
Definition fields_set_rank v f := mkGuildFields (gf_GuildId f) (gf_GuildIdInvited f) v (gf_GuildLevel f).
Definition fields_set_level v f := mkGuildFields (gf_GuildId f) (gf_GuildIdInvited f) (gf_Rank f) v.

(** [gs_realm] holds the money of the players, [gs_trans] the statements on
    guilds of the transaction whose other statements are in [gs_realm]. *)
Record GuildState := mkGuildState {
  gs_guilds : gmap Z Guild;
  gs_NextGuildId : Z;
  gs_players : gmap Z GuildFields;
  gs_db : GuildDB;
  gs_trans : list GuildStatement;
  gs_realm : Realm;
  gs_sent : list GuildPacket
}.
Definition gs_set_guilds v s := mkGuildState v (gs_NextGuildId s) (gs_players s) (gs_db s) (gs_trans s) (gs_realm s) (gs_sent s).
Definition gs_set_next v s := mkGuildState (gs_guilds s) v (gs_players s) (gs_db s) (gs_trans s) (gs_realm s) (gs_sent s).
Definition gs_set_players v s := mkGuildState (gs_guilds s) (gs_NextGuildId s) v (gs_db s) (gs_trans s) (gs_realm s) (gs_sent s).
Definition gs_set_db v s := mkGuildState (gs_guilds s) (gs_NextGuildId s) (gs_players s) v (gs_trans s) (gs_realm s) (gs_sent s).
Definition gs_set_trans v s := mkGuildState (gs_guilds s) (gs_NextGuildId s) (gs_players s) (gs_db s) v (gs_realm s) (gs_sent s).
Definition gs_set_realm v s := mkGuildState (gs_guilds s) (gs_NextGuildId s) (gs_players s) (gs_db s) (gs_trans s) v (gs_sent s).
Definition gs_send m s := mkGuildState (gs_guilds s) (gs_NextGuildId s) (gs_players s) (gs_db s) (gs_trans s) (gs_realm s) (gs_sent s ++ [m]).

Definition GP : Type -> Type := prog GuildState GuildError.

(** An operation of [Economy]. *)
Definition economy {A} (p : prog Realm EconomyError A) : GP A := fun s =>
  let '(r, t) := p (gs_realm s) in
  (match r with Ok a => Ok a | Err e => Err (GuildEconomy e) end, gs_set_realm t s).

Definition Execute (st : GuildStatement) : GP unit := modify (fun s => gs_set_db (default (gs_db s) (exec_statement st (gs_db s))) s).
Definition Append (st : GuildStatement) : GP unit := modify (fun s => gs_set_trans (gs_trans s ++ [st]) s).
Definition BeginTransaction : GP unit := modify (gs_set_trans []);; economy Economy.BeginTransaction.
(** All statements, or none of them. *)
Definition commit (s : GuildState) : GuildState :=
  let s :=
    match exec_statements (gs_trans s) (gs_db s), Economy.exec_statements (r_trans (gs_realm s)) (r_db (gs_realm s)) with
    | Some d, Some d' => gs_set_db d (gs_set_realm (set_db d' (gs_realm s)) s)
    | _, _ => s
    end in
  gs_set_trans [] (gs_set_realm (set_trans [] (gs_realm s)) s).
Definition CommitTransaction : GP unit := modify commit.
Definition SendPacket (m : GuildPacket) : GP unit := modify (gs_send m).
Definition SendCommandResult (p : Z) (type : GuildCommandType) (error : GuildCommandError) : GP unit :=
  SendPacket (SMSG_GUILD_COMMAND_RESULT p type error).
Definition BroadcastEvent (id : Z) (event : GuildEvents) : GP unit := SendPacket (SMSG_GUILD_EVENT id event).

(** [this] *)
Definition deref_guild (id : Z) : GP Guild :=
  s ← get; match gs_guilds s !! id with Some g => mret g | None => throw GuildFreed end.
Definition upd_guild (id : Z) (f : Guild -> Guild) : GP unit :=
  g ← deref_guild id; modify (fun s => gs_set_guilds (<[id := f g]> (gs_guilds s)) s).
(** What is done to a player if he is online. *)
Definition upd_fields (p : Z) (f : GuildFields -> GuildFields) : GP unit := modify (fun s => gs_set_players (alter f p (gs_players s)) s).
Definition upd_member (id guid : Z) (f : Member -> Member) : GP unit := upd_guild id (fun g => guild_set_members (alter f guid (gd_members g)) g).
Definition upd_rank (id rankId : Z) (f : RankInfo -> RankInfo) : GP unit :=
  upd_guild id (fun g => guild_set_ranks (alter f (Z.to_nat rankId) (gd_ranks g)) g).

(** ** What the world answers

    The time; the account of a player, his team, his name, whether his row in
    [characters] is sane; who has a name and is online; who ignores whom; the
    configuration; the order in which the map of the members is walked. *)
Record GuildWorld := mkGuildWorld {
  wd_time : Z;
  wd_account : Z -> Z;
  wd_team : Z -> Z;
  wd_name : Z -> list Z;
  wd_character : Z -> bool;
  wd_online_name : list Z -> option Z;
  wd_ignores : Z -> Z -> bool;
  wd_two_side : bool;
  wd_undeletable_level : Z;
  wd_leveling : bool;
  wd_max_level : Z;
  wd_daily_cap : Z;
  wd_xp_for_level : Z -> Z;
  wd_multiple_masters : bool;
  wd_rank_names : list (list Z);
  wd_truncate : list Z -> list Z;
  wd_bank : Z -> Z -> bool;
  wd_order : gmap Z Member -> list (Z * Member)
}.

(** ** Members *)

Definition is_online (s : GuildState) (p : Z) : bool := bool_decide (is_Some (gs_players s !! p)).
(** [Member::ChangeRank] *)
Definition ChangeRank (id guid newRank : Z) : GP unit :=
  upd_member id guid (member_set_rank newRank);;
  upd_fields guid (fields_set_rank newRank);;
  Execute (CHAR_UPD_GUILD_MEMBER_RANK newRank guid).
Definition SetPublicNote (id guid : Z) (note : list Z) : GP unit :=
  g ← deref_guild id;
  match gd_members g !! guid with
  | Some m =>
      if bool_decide (mb_publicNote m = note) then mret tt
      else upd_member id guid (member_set_pnote note);; Execute (CHAR_UPD_GUILD_MEMBER_PNOTE note guid)
  | None => throw NullMember
  end.
Definition SetOfficerNote (id guid : Z) (note : list Z) : GP unit :=
  g ← deref_guild id;
  match gd_members g !! guid with
  | Some m =>
      if bool_decide (mb_officerNote m = note) then mret tt
      else upd_member id guid (member_set_onote note);; Execute (CHAR_UPD_GUILD_MEMBER_OFFNOTE note guid)
  | None => throw NullMember
  end.
(** [amount] is a [uint32], added to an [int32]. *)
Definition withdraw_more (tabId amount : Z) (m : Member) : Member :=
  member_set_withdraw (alter (fun v => s32 (v + amount)) (Z.to_nat tabId) (mb_bankWithdraw m)) m.
Definition UpdateBankWithdrawValue (id guid tabId amount : Z) : GP unit :=
  upd_member id guid (withdraw_more tabId (u32 amount));;
  g ← deref_guild id;
  match gd_members g !! guid with
  | Some m => Append (CHAR_INS_GUILD_MEMBER_WITHDRAW guid (u32 <$> mb_bankWithdraw m))
  | None => throw NullMember
  end.
Definition GetBankWithdrawValue (m : Member) (tabId : Z) : Z :=
  if IsRank GR_GUILDMASTER m then s32 GUILD_WITHDRAW_MONEY_UNLIMITED else nth (Z.to_nat tabId) (mb_bankWithdraw m) 0.

(** ** Ranks *)

(** [RankInfo::CreateMissingTabsIfNeeded]: the rank and the statements. *)
Definition missing_tab (id i : Z) (a : RankInfo * list GuildStatement) : RankInfo * list GuildStatement :=
  let (r, l) := a in
  match rk_tabs r !! Z.to_nat i with
  | Some t =>
      if s8 (tr_tabId t) =? i then a
      else
        let t := mkTabRight i (tr_rights t) (tr_slots t) in
        let t := if rk_rankId r =? GR_GUILDMASTER then SetGuildMasterValues t else t in
        (rank_set_tabs (<[Z.to_nat i := t]> (rk_tabs r)) r, l ++ [CHAR_INS_GUILD_BANK_RIGHT id i (rk_rankId r) (u8 (tr_rights t)) (tr_slots t)])
  | None => a
  end.
Definition CreateMissingTabs (id tabs : Z) (r : RankInfo) : RankInfo * list GuildStatement :=
  foldl (fun a i => missing_tab id i a) (r, []) (seqZ 0 tabs).
(** The same for the rank at an index. *)
Definition CreateMissingTabsIfNeeded (id tabs rankId : Z) : GP unit :=
  g ← deref_guild id;
  match gd_ranks g !! Z.to_nat rankId with
  | Some r => upd_rank id rankId (fun _ => (CreateMissingTabs id tabs r).1);; forM (CreateMissingTabs id tabs r).2 Append
  | None => mret tt
  end.
Definition SetName (id rankId : Z) (name : list Z) : GP unit :=
  g ← deref_guild id;
  match GetRankInfo g rankId with
  | Some r =>
      if bool_decide (rk_name r = name) then mret tt
      else upd_rank id rankId (rank_set_name name);; Execute (CHAR_UPD_GUILD_RANK_NAME name (rk_rankId r) id)
  | None => mret tt
  end.
Definition SetRights (id rankId rights : Z) : GP unit :=
  g ← deref_guild id;
  match GetRankInfo g rankId with
  | Some r =>
      let rights := if rk_rankId r =? GR_GUILDMASTER then GR_RIGHT_ALL else rights in
      if rk_rights r =? rights then mret tt
      else upd_rank id rankId (rank_set_rights rights);; Execute (CHAR_UPD_GUILD_RANK_RIGHTS rights (rk_rankId r) id)
  | None => mret tt
  end.
Definition SetRankBankMoneyPerDay (id rankId money : Z) : GP unit :=
  g ← deref_guild id;
  match GetRankInfo g rankId with
  | Some r =>
      let money := if rk_rankId r =? GR_GUILDMASTER then GUILD_WITHDRAW_MONEY_UNLIMITED else money in
      if rk_bankMoneyPerDay r =? money then mret tt
      else upd_rank id rankId (rank_set_money money);; Execute (CHAR_UPD_GUILD_RANK_BANK_MONEY money (rk_rankId r) id)
  | None => mret tt
  end.
(** [_SetRankBankTabRightsAndSlots] and [RankInfo::SetBankTabSlotsAndRights]; a
    tab from 128 on is negative as [int8]. *)
Definition SetRankBankTabRightsAndSlots (id rankId : Z) (t : TabRight) (saveToDB : bool) : GP unit :=
  g ← deref_guild id;
  if GetPurchasedTabsSize g <=? s8 (tr_tabId t) then mret tt
  else
    match GetRankInfo g rankId with
    | None => mret tt
    | Some r =>
        let t := if rk_rankId r =? GR_GUILDMASTER then SetGuildMasterValues t else t in
        if s8 (tr_tabId t) <? 0 then throw TabOutOfRange
        else
          upd_rank id rankId (fun r => rank_set_tabs (<[Z.to_nat (tr_tabId t) := t]> (rk_tabs r)) r);;
          if saveToDB then Execute (CHAR_INS_GUILD_BANK_RIGHT id (tr_tabId t) (rk_rankId r) (tr_rights t) (tr_slots t)) else mret tt
    end.

Section Guilds.
Context (w : GuildWorld).

Definition UpdateAccountsNumber (id : Z) : GP unit :=
  upd_guild id (fun g => guild_set_accounts (len (elements (list_to_set (C := gset Z) ((fun e => wd_account w e.1) <$> wd_order w (gd_members g))))) g).
(** [_CreateRank]: the rank is copied into the list before its tabs are made. *)
Definition CreateRank (id : Z) (name : list Z) (rights : Z) : GP bool :=
  g ← deref_guild id;
  let newRankId := GetRanksSize g in
  if GUILD_RANKS_MAX_COUNT <=? newRankId then mret false
  else
    let info := new_rank newRankId name rights 0 in
    upd_guild id (guild_set_ranks (gd_ranks g ++ [info]));;
    BeginTransaction;;
    forM (CreateMissingTabs id (GetPurchasedTabsSize g) info).2 Append;;
    Append (CHAR_INS_GUILD_RANK id newRankId name rights);;
    CommitTransaction;;
    mret true.
Definition default_rights : list Z :=
  let chat := Z.lor GR_RIGHT_GCHATLISTEN GR_RIGHT_GCHATSPEAK in [GR_RIGHT_ALL; GR_RIGHT_ALL; chat; chat; chat].
Definition CreateDefaultGuildRanks (id : Z) : GP unit :=
  Execute (CHAR_DEL_GUILD_RANKS id);;
  Execute (CHAR_DEL_GUILD_BANK_RIGHTS id);;
  forM (zip (wd_rank_names w) default_rights) (fun e => CreateRank id e.1 e.2;; mret tt).
Definition CreateNewBankTab (id : Z) : GP unit :=
  g ← deref_guild id;
  let tabId := GetPurchasedTabsSize g in
  upd_guild id (guild_set_tabs (gd_bankTabs g ++ [new_tab]));;
  BeginTransaction;;
  Append (CHAR_DEL_GUILD_BANK_TAB id tabId);;
  Append (CHAR_INS_GUILD_BANK_TAB id tabId);;
  forM (seqZ 0 (len (gd_ranks g))) (CreateMissingTabsIfNeeded id (u8 (tabId + 1)));;
  CommitTransaction.
Definition SetLeaderGUID (id guid : Z) : GP unit :=
  upd_guild id (guild_set_leader guid);;
  ChangeRank id guid GR_GUILDMASTER;;
  Execute (CHAR_UPD_GUILD_LEADER guid id).
Definition ModifyBankMoney (id amount : Z) (add : bool) : GP bool :=
  g ← deref_guild id;
  if negb add && (gd_bankMoney g <? amount) then mret false
  else
    let money := u64 (if add then gd_bankMoney g + amount else gd_bankMoney g - amount) in
    upd_guild id (guild_set_money money);;
    Append (CHAR_UPD_GUILD_BANK_MONEY money id);;
    mret true.
(** An [int32]; the subtraction may overflow. *)
Definition GetMemberRemainingMoney (g : Guild) (m : Member) : GP Z :=
  if mb_rankId m =? GR_GUILDMASTER then mret (s32 GUILD_WITHDRAW_MONEY_UNLIMITED)
  else if has (GetRankRights g (mb_rankId m)) (Z.lor GR_RIGHT_WITHDRAW_REPAIR GR_RIGHT_WITHDRAW_GOLD) then
    let remaining := GetRankBankMoneyPerDay g (mb_rankId m) - GetBankWithdrawValue m GUILD_BANK_MAX_TABS in
    if s32 remaining =? remaining then mret (if 0 <? remaining then remaining else 0)
    else throw (GuildEconomy SignedOverflow)
  else mret 0.
End Guilds.
