(* ===== verification/GuildRequests.v ===== *)
(** * Guilds: what players ask of them, and loading (model, after Guild.v)

    The members that come and go, the handlers of Guild.cpp with the checks that
    src/src/serveur/jeu/Handlers/GuildHandler.cpp makes before them, the founding
    of a guild, logging in and out, the daily reset, and [GuildMgr::LoadGuilds]
    with [Guild::Validate]. *)

From S2P Require Import Prelude.
From S2P Require Import Floats.
From S2P Require Import Economy.
From S2P Require Import Guild.
From stdpp Require Import sorting.
Local Open Scope Z_scope.

Section Guilds.
Context (w : GuildWorld).

(** ** Members *)

Definition AddMember (id guid rankId : Z) : GP bool :=
  s ← get;
  let in_guild :=
    match gs_players s !! guid with
    | Some f => negb (gf_GuildId f =? 0)
    | None => negb (from_option mw_guildid 0 (gdb_member (gs_db s) !! GUID_LOPART guid) =? 0)
    end in
  if in_guild then mret false
  else
    g ← deref_guild id;
    let lowguid := GUID_LOPART guid in
    let rankId := if rankId =? GUILD_RANK_NONE then GetLowestRankId g else rankId in
    if negb (is_online s guid) && negb (wd_character w lowguid) then mret false
    else
      upd_guild id (fun g => guild_set_members (<[lowguid := new_member rankId]> (gd_members g)) g);;
      upd_fields guid (fun f => fields_set_level (gd_level g) (fields_set_rank rankId (fields_set_invited 0 (fields_set_guild id f))));;
      Execute (CHAR_INS_GUILD_MEMBER id lowguid rankId [] []);;
      UpdateAccountsNumber w id;;
      BroadcastEvent id GE_JOINED;;
      mret true.

(** [DeleteMember] from where the member is removed. *)
Definition remove_member (id guid : Z) (isDisbanding : bool) : GP unit :=
  upd_guild id (fun g => guild_set_members (delete (GUID_LOPART guid) (gd_members g)) g);;
  upd_fields guid (fun f => fields_set_level 0 (fields_set_rank 0 (fields_set_guild 0 f)));;
  Execute (CHAR_DEL_GUILD_MEMBER (GUID_LOPART guid));;
  if isDisbanding then mret tt else UpdateAccountsNumber w id.
Definition Disband (id : Z) : GP unit :=
  BroadcastEvent id GE_DISBANDED;;
  g ← deref_guild id;
  forM (wd_order w (gd_members g)) (fun e => remove_member id e.1 true);;
  BeginTransaction;;
  forM [CHAR_DEL_GUILD id; CHAR_DEL_GUILD_RANKS id; CHAR_DEL_GUILD_BANK_TABS id; CHAR_DEL_GUILD_BANK_RIGHTS id] Append;;
  CommitTransaction;;
  modify (fun s => gs_set_guilds (delete id (gs_guilds s)) s).
(** The first of those with the highest rank, but for [lowguid]. *)
Definition pick_leader (lowguid : Z) (l : list (Z * Member)) : option (Z * Member) :=
  foldl (fun best e =>
    if e.1 =? lowguid then best
    else match best with
         | Some b => if mb_rankId e.2 <? mb_rankId b.2 then Some e else best
         | None => Some e
         end) None l.
Definition DeleteMember (id guid : Z) : GP unit :=
  g ← deref_guild id;
  if gd_leaderGuid g =? guid then
    match pick_leader (GUID_LOPART guid) (wd_order w (gd_members g)) with
    | None => Disband id
    | Some e =>
        SetLeaderGUID id e.1;;
        upd_fields e.1 (fields_set_rank GR_GUILDMASTER);;
        (if bool_decide (is_Some (gd_members g !! GUID_LOPART guid))
         then BroadcastEvent id GE_LEADER_CHANGED;; BroadcastEvent id GE_LEFT else mret tt);;
        remove_member id guid false
    end
  else remove_member id guid false.

(** ** Founding *)

Definition toupper (c : Z) : Z := if (97 <=? c) && (c <=? 122) then c - 32 else c.
Definition same_name (a b : list Z) : bool := bool_decide (toupper <$> a = toupper <$> b).
Definition GetGuildByName (s : GuildState) (name : list Z) : bool := existsb (fun e => same_name (gd_name e.2) name) (in_order (gs_guilds s)).
Definition GenerateGuildId : GP Z :=
  s ← get;
  if 4294967294 <=? gs_NextGuildId s then throw (GuildEconomy IdsExhausted)
  else modify (gs_set_next (gs_NextGuildId s + 1));; mret (gs_NextGuildId s).
Definition no_message : list Z := [78; 111; 32; 109; 101; 115; 115; 97; 103; 101; 32; 115; 101; 116; 46].
Definition guild_row (g : Guild) : GuildRow :=
  mkGuildRow (gd_name g) (GUID_LOPART (gd_leaderGuid g)) (gd_info g) (gd_motd g) (gd_createdDate g) (gd_bankMoney g) 1 0 0.
(** [Guild::Create] and [AddGuild], or the guild is deleted; it is looked up by
    nobody before. *)
Definition Create (leader : Z) (name : list Z) : GP (option Z) :=
  s ← get;
  if GetGuildByName s name then mret None
  else
    id ← GenerateGuildId;
    let g := mkGuild name leader no_message [] (wd_time w) 0 0 [] ∅ [] 1 0 0 in
    modify (fun s => gs_set_guilds (<[id := g]> (gs_guilds s)) s);;
    BeginTransaction;;
    Append (CHAR_DEL_GUILD_MEMBERS id);;
    Append (CHAR_INS_GUILD id (guild_row g));;
    CommitTransaction;;
    CreateDefaultGuildRanks w id;;
    added ← AddMember id leader GR_GUILDMASTER;
    if (added : bool) then BroadcastEvent id GE_FOUNDER;; mret (Some id)
    else modify (fun s => gs_set_guilds (delete id (gs_guilds s)) s);; mret None.
(** The end of [HandleTurnInPetitionOpcode], the petition signed. *)
Definition HandleTurnInPetition (p : Z) (name : list Z) (signatures : list Z) : GP unit :=
  s ← get;
  match gs_players s !! p with
  | Some f =>
      if negb (gf_GuildId f =? 0) then mret tt
      else if GetGuildByName s name then SendCommandResult p GUILD_COMMAND_CREATE ERR_GUILD_NAME_EXISTS_S
      else
        o ← Create p name;
        match o with
        | None => mret tt
        | Some id =>
            SendCommandResult p GUILD_COMMAND_CREATE ERR_GUILD_COMMAND_SUCCESS;;
            forM signatures (fun guid => AddMember id guid GUILD_RANK_NONE;; mret tt)
        end
  | None => mret tt
  end.

(** ** The handlers of the guild [id], for the player [p] *)

Definition HandleSetMOTD (id p : Z) (motd : list Z) : GP unit :=
  g ← deref_guild id;
  if bool_decide (gd_motd g = motd) then mret tt
  else if negb (HasRankRight g p GR_RIGHT_SETMOTD) then SendCommandResult p GUILD_COMMAND_EDIT_MOTD ERR_GUILD_PERMISSIONS
  else upd_guild id (guild_set_motd motd);; Execute (CHAR_UPD_GUILD_MOTD motd id);; BroadcastEvent id GE_MOTD.
Definition HandleSetInfo (id p : Z) (info : list Z) : GP unit :=
  g ← deref_guild id;
  if bool_decide (gd_info g = info) then mret tt
  else if HasRankRight g p GR_RIGHT_MODIFY_GUILD_INFO then upd_guild id (guild_set_info info);; Execute (CHAR_UPD_GUILD_INFO info id)
  else mret tt.
Definition GetMemberByName (g : Guild) (name : list Z) : option Z :=
  fst <$> head (filter (fun e => wd_name w e.1 = name) (wd_order w (gd_members g))).
Definition HandleSetNewGuildMaster (id p : Z) (name : list Z) : GP unit :=
  g ← deref_guild id;
  if negb (IsLeader g p) then SendCommandResult p GUILD_COMMAND_CHANGE_LEADER ERR_GUILD_PERMISSIONS
  else
    match GetMember g p, GetMemberByName g name with
    | Some _, Some n => SetLeaderGUID id n;; ChangeRank id (GUID_LOPART p) GR_INITIATE;; BroadcastEvent id GE_LEADER_CHANGED
    | _, _ => mret tt
    end.
Definition HandleSetBankTabInfo (id tabId : Z) (name icon : list Z) : GP unit :=
  g ← deref_guild id;
  match GetBankTab g tabId with
  | None => mret tt
  | Some t =>
      (if bool_decide (bt_name t = name) && bool_decide (bt_icon t = icon) then mret tt
       else
         upd_guild id (guild_set_tabs (<[Z.to_nat tabId := mkBankTab name icon (bt_text t)]> (gd_bankTabs g)));;
         Execute (CHAR_UPD_GUILD_BANK_TAB_INFO name icon id tabId));;
      BroadcastEvent id GE_BANK_TAB_UPDATED
  end.
Definition SetBankTabText (id tabId : Z) (text : list Z) : GP unit :=
  g ← deref_guild id;
  match GetBankTab g tabId with
  | None => mret tt
  | Some t =>
      (if bool_decide (bt_text t = text) then mret tt
       else
         upd_guild id (guild_set_tabs (<[Z.to_nat tabId := mkBankTab (bt_name t) (bt_icon t) (wd_truncate w text)]> (gd_bankTabs g)));;
         Execute (CHAR_UPD_GUILD_BANK_TAB_TEXT (wd_truncate w text) id tabId));;
      SendPacket (SMSG_GUILD_BANK_QUERY_TEXT_RESULT id tabId)
  end.
Definition HandleSetMemberNote (id p : Z) (note : list Z) (guid : Z) (isPublic : bool) : GP unit :=
  g ← deref_guild id;
  if negb (HasRankRight g p (if isPublic then GR_RIGHT_EPNOTE else GR_RIGHT_EOFFNOTE))
  then SendCommandResult p GUILD_COMMAND_PUBLIC_NOTE ERR_GUILD_PERMISSIONS
  else
    match GetMember g guid with
    | Some _ => if isPublic then SetPublicNote id (GUID_LOPART guid) note else SetOfficerNote id (GUID_LOPART guid) note
    | None => mret tt
    end.
Definition HandleSetRankInfo (id p rankId : Z) (name : list Z) (rights moneyPerDay : Z) (rightsAndSlots : list TabRight) : GP unit :=
  g ← deref_guild id;
  if negb (IsLeader g p) then SendCommandResult p GUILD_COMMAND_CHANGE_RANK ERR_GUILD_PERMISSIONS
  else
    match GetRankInfo g rankId with
    | Some _ =>
        SetName id rankId name;;
        SetRights id rankId rights;;
        SetRankBankMoneyPerDay id rankId moneyPerDay;;
        forM rightsAndSlots (fun t => SetRankBankTabRightsAndSlots id rankId t true);;
        BroadcastEvent id GE_RANK_UPDATED
    | None => mret tt
    end.
Definition buy_tab (id : Z) : GP unit := CreateNewBankTab id;; BroadcastEvent id GE_BANK_TAB_PURCHASED.
Definition HandleBuyBankTab (id p tabId : Z) : GP unit :=
  g ← deref_guild id;
  match GetMember g p with
  | None => mret tt
  | Some _ =>
      if GUILD_BANK_MAX_TABS <=? GetPurchasedTabsSize g then mret tt
      else if negb (tabId =? GetPurchasedTabsSize g) then mret tt
      else if tabId <? GUILD_BANK_MAX_TABS - 2 then
        let tabCost := u32 (GetGuildBankTabPrice tabId * GOLD) in
        if tabCost =? 0 then mret tt
        else
          pl ← economy (deref_player p);
          if negb (HasEnoughMoney pl tabCost) then mret tt
          else
            economy (amount ← neg64 tabCost; ModifyMoney p amount);;
            buy_tab id
      else buy_tab id
  end.
Definition HandleInviteMember (id p : Z) (name : list Z) : GP unit :=
  s ← get;
  g ← deref_guild id;
  match wd_online_name w name with
  | None => SendCommandResult p GUILD_COMMAND_INVITE ERR_GUILD_PLAYER_NOT_FOUND_S
  | Some q =>
      if wd_ignores w q p then mret tt
      else if negb (wd_two_side w) && negb (wd_team w q =? wd_team w p) then SendCommandResult p GUILD_COMMAND_INVITE ERR_GUILD_NOT_ALLIED
      else if negb (from_option gf_GuildIdInvited 0 (gs_players s !! q) =? 0)
      then SendCommandResult p GUILD_COMMAND_INVITE ERR_ALREADY_INVITED_TO_GUILD_S
      else if negb (HasRankRight g p GR_RIGHT_INVITE) then SendCommandResult p GUILD_COMMAND_INVITE ERR_GUILD_PERMISSIONS
      else
        SendCommandResult p GUILD_COMMAND_INVITE ERR_GUILD_COMMAND_SUCCESS;;
        upd_fields q (fields_set_invited id);;
        SendPacket (SMSG_GUILD_INVITE q id)
  end.
Definition HandleAcceptMember (id p : Z) : GP unit :=
  g ← deref_guild id;
  if negb (wd_two_side w) && negb (wd_team w p =? wd_team w (gd_leaderGuid g)) then mret tt
  else AddMember id p GUILD_RANK_NONE;; mret tt.
Definition HandleLeaveMember (id p : Z) : GP unit :=
  g ← deref_guild id;
  if IsLeader g p then
    if 1 <? Z.of_nat (size (gd_members g)) then SendCommandResult p GUILD_COMMAND_QUIT ERR_GUILD_LEADER_LEAVE
    else if wd_undeletable_level w <=? gd_level g then SendCommandResult p GUILD_COMMAND_QUIT ERR_GUILD_UNDELETABLE_DUE_TO_LEVEL
    else Disband id
  else
    DeleteMember id p;;
    BroadcastEvent id GE_LEFT;;
    SendCommandResult p GUILD_COMMAND_QUIT ERR_GUILD_COMMAND_SUCCESS.
Definition HandleDisband (id p : Z) : GP unit := g ← deref_guild id; if IsLeader g p then Disband id else mret tt.
Definition HandleRemoveMember (id p guid : Z) : GP unit :=
  g ← deref_guild id;
  if negb (HasRankRight g p GR_RIGHT_REMOVE) then SendCommandResult p GUILD_COMMAND_REMOVE ERR_GUILD_PERMISSIONS
  else
    match GetMember g guid with
    | None => mret tt
    | Some m =>
        if IsRank GR_GUILDMASTER m then SendCommandResult p GUILD_COMMAND_REMOVE ERR_GUILD_LEADER_LEAVE
        else
          match GetMember g p with
          | None => SendCommandResult p GUILD_COMMAND_REMOVE ERR_GUILD_RANK_TOO_HIGH_S
          | Some me =>
              if IsRankNotLower (mb_rankId me) m then SendCommandResult p GUILD_COMMAND_REMOVE ERR_GUILD_RANK_TOO_HIGH_S
              else
                DeleteMember id guid;;
                BroadcastEvent id GE_REMOVED;;
                SendCommandResult p GUILD_COMMAND_REMOVE ERR_GUILD_COMMAND_SUCCESS
          end
    end.
(** The last check of [HandleUpdateMemberRank], or the new rank. *)
Definition next_rank (g : Guild) (me m : Member) (demote : bool) : Z + GuildCommandError :=
  if demote then
    if IsRankNotLower (mb_rankId me) m then inr ERR_GUILD_RANK_TOO_HIGH_S
    else if GetLowestRankId g <=? mb_rankId m then inr ERR_GUILD_RANK_TOO_LOW_S
    else inl (mb_rankId m + 1)
  else if IsRankNotLower (u8 (mb_rankId me + 1)) m then inr ERR_GUILD_RANK_TOO_HIGH_S
  else inl (mb_rankId m - 1).
Definition HandleUpdateMemberRank (id p guid : Z) (demote : bool) : GP unit :=
  g ← deref_guild id;
  let type := if demote then GUILD_COMMAND_DEMOTE else GUILD_COMMAND_PROMOTE in
  if negb (HasRankRight g p (if demote then GR_RIGHT_DEMOTE else GR_RIGHT_PROMOTE)) then SendCommandResult p type ERR_GUILD_PERMISSIONS
  else
    match GetMember g guid with
    | None => mret tt
    | Some m =>
        if GUID_LOPART guid =? p then SendCommandResult p type ERR_GUILD_NAME_INVALID
        else
          match GetMember g p with
          | None => throw NullMember
          | Some me =>
              match next_rank g me m demote with
              | inr e => SendCommandResult p type e
              | inl newRankId =>
                  ChangeRank id (GUID_LOPART guid) (u8 newRankId);;
                  BroadcastEvent id (if demote then GE_DEMOTION else GE_PROMOTION)
              end
          end
    end.
Definition SendGuildRanksUpdate (id setterGuid targetGuid rank : Z) : GP unit :=
  g ← deref_guild id;
  match GetMember g targetGuid with
  | None => throw GuildAssert
  | Some _ => SendPacket (SMSG_GUILD_RANKS_UPDATE setterGuid targetGuid rank);; ChangeRank id (GUID_LOPART targetGuid) (u8 rank)
  end.
Definition HandleSetMemberRank (id p targetGuid rank : Z) : GP unit :=
  g ← deref_guild id;
  match GetMember g targetGuid with
  | None => mret tt
  | Some m =>
      let demote := mb_rankId m <? rank in
      let type := if demote then GUILD_COMMAND_DEMOTE else GUILD_COMMAND_PROMOTE in
      if negb (HasRankRight g p (if demote then GR_RIGHT_DEMOTE else GR_RIGHT_PROMOTE)) then SendCommandResult p type ERR_GUILD_PERMISSIONS
      else if GUID_LOPART targetGuid =? p then SendCommandResult p type ERR_GUILD_NAME_INVALID
      else SendGuildRanksUpdate id p targetGuid rank
  end.
Definition HandleAddNewRank (id p : Z) (name : list Z) : GP unit :=
  g ← deref_guild id;
  if GUILD_RANKS_MAX_COUNT <=? GetRanksSize g then mret tt
  else if IsLeader g p then
    ok ← CreateRank id name (Z.lor GR_RIGHT_GCHATLISTEN GR_RIGHT_GCHATSPEAK);
    if (ok : bool) then BroadcastEvent id GE_RANK_CREATED else mret tt
  else mret tt.
Definition HandleRemoveRank (id p rankId : Z) : GP unit :=
  g ← deref_guild id;
  if (GetRanksSize g <=? GUILD_RANKS_MIN_COUNT) || (GetRanksSize g <=? rankId) || negb (IsLeader g p) then mret tt
  else
    Execute (CHAR_DEL_GUILD_BANK_RIGHTS_FOR_RANK id rankId);;
    Execute (CHAR_DEL_GUILD_RANK id rankId);;
    upd_guild id (guild_set_ranks (delete (Z.to_nat rankId) (gd_ranks g)));;
    BroadcastEvent id GE_RANK_DELETED.
Definition HandleMemberDepositMoney (id p amount : Z) (cashFlow : bool) : GP unit :=
  BeginTransaction;;
  ModifyBankMoney id amount true;;
  (if cashFlow then mret tt
   else economy (amount ← neg64 amount; ModifyMoney p amount;; SaveGoldToDB p));;
  CommitTransaction;;
  BroadcastEvent id GE_BANK_MONEY_CHANGED.
Definition HandleMemberWithdrawMoney (id p amount : Z) (repair : bool) : GP bool :=
  let amount := Z.min amount MAX_MONEY_AMOUNT in
  g ← deref_guild id;
  if gd_bankMoney g <? amount then mret false
  else
    match GetMember g p with
    | None => mret false
    | Some m =>
        remaining ← GetMemberRemainingMoney g m;
        if u64 remaining <? amount then mret false
        else
          BeginTransaction;;
          ok ← (if repair then mret true
                else ok ← economy (ModifyMoney p (s64 amount)); if (ok : bool) then economy (SaveGoldToDB p);; mret true else mret false);
          if negb ok then mret false
          else
            UpdateBankWithdrawValue id (GUID_LOPART p) GUILD_BANK_MAX_TABS amount;;
            ModifyBankMoney id amount false;;
            CommitTransaction;;
            BroadcastEvent id GE_BANK_MONEY_CHANGED;;
            mret true
    end.

(** ** Experience *)

Definition SaveToDB (id : Z) : GP unit :=
  g ← deref_guild id;
  BeginTransaction;;
  Append (CHAR_UPD_GUILD_EXPERIENCE (gd_level g) (gd_experience g) (gd_todayExperience g) id);;
  CommitTransaction.
(** The loop over the levels; each turn is one level up, and [wd_max_level] many
    are enough ([GuildSafety.level_up_enough]). *)
Fixpoint level_up (fuel : nat) (id : Z) : GP unit :=
  match fuel with
  | O => mret tt
  | S fuel =>
      g ← deref_guild id;
      if (wd_xp_for_level w (gd_level g) <=? gd_experience g) && (gd_level g <? wd_max_level w) then
        let level := u8 (gd_level g + 1) in
        upd_guild id (guild_set_experience level (u64 (gd_experience g - wd_xp_for_level w (gd_level g))) (gd_todayExperience g));;
        forM (wd_order w (gd_members g)) (fun e => upd_fields e.1 (fields_set_level level));;
        level_up fuel id
      else mret tt
  end.
Definition GiveXP (id xp source : Z) : GP unit :=
  if negb (wd_leveling w) then mret tt
  else
    g ← deref_guild id;
    let xp := if wd_max_level w <=? gd_level g then 0 else xp in
    let xp := if gd_level g <? GUILD_EXPERIENCE_UNCAPPED_LEVEL then Z.min xp (u32 (wd_daily_cap w - gd_todayExperience g)) else xp in
    SendPacket (SMSG_GUILD_XP_GAIN source xp);;
    upd_guild id (guild_set_experience (gd_level g) (u64 (gd_experience g + xp)) (u64 (gd_todayExperience g + xp)));;
    if xp =? 0 then mret tt else level_up (Z.to_nat (wd_max_level w)) id.

(** ** Opcodes *)

(** [Player::GetGuild] *)
Definition GetGuild (s : GuildState) (p : Z) : option Z :=
  match gs_players s !! p with
  | Some f => if gf_GuildId f =? 0 then None else if bool_decide (is_Some (gs_guilds s !! gf_GuildId f)) then Some (gf_GuildId f) else None
  | None => None
  end.
Definition in_guild (p : Z) (k : Z -> GP unit) : GP unit :=
  s ← get; match GetGuild s p with Some id => k id | None => mret tt end.
Definition HandleGuildAccept (p : Z) : GP unit :=
  s ← get;
  match gs_players s !! p with
  | Some f =>
      if (gf_GuildId f =? 0) && bool_decide (is_Some (gs_guilds s !! gf_GuildIdInvited f)) then HandleAcceptMember (gf_GuildIdInvited f) p else mret tt
  | None => mret tt
  end.
Definition HandleGuildDecline (p : Z) : GP unit := upd_fields p (fun f => fields_set_guild 0 (fields_set_invited 0 f)).
Definition HandleGuildBankDepositMoney (p banker money : Z) : GP unit :=
  if wd_bank w p banker && negb (money =? 0) then
    pl ← economy (deref_player p);
    if HasEnoughMoney pl money then in_guild p (fun id => HandleMemberDepositMoney id p money false) else mret tt
  else mret tt.
Definition HandleGuildBankWithdrawMoney (p banker money : Z) : GP unit :=
  if negb (money =? 0) && wd_bank w p banker then in_guild p (fun id => HandleMemberWithdrawMoney id p money false;; mret tt) else mret tt.
Definition HandleGuildBankUpdateTab (p banker tabId : Z) (name icon : list Z) : GP unit :=
  if negb (bool_decide (name = [])) && negb (bool_decide (icon = [])) && wd_bank w p banker
  then in_guild p (fun id => HandleSetBankTabInfo id tabId name icon) else mret tt.

(** ** Logging in and out *)

(** [pl] is what is loaded of the player besides. *)
Definition Login (p : Z) (pl : Player) : GP unit :=
  s ← get;
  let f := match gdb_member (gs_db s) !! p with
           | Some r => mkGuildFields (mw_guildid r) 0 (mw_rank r) (from_option gd_level 0 (gs_guilds s !! mw_guildid r))
           | None => mkGuildFields 0 0 0 0
           end in
  let f := if bool_decide (is_Some (gs_guilds s !! gf_GuildId f)) then f else fields_set_guild 0 f in
  modify (gs_set_players (<[p := f]> (gs_players s)));;
  economy (modify (fun t => set_online (<[p := pl]> (r_online t)) t)).
Definition HandleMemberLogout (id : Z) : GP unit := BroadcastEvent id GE_SIGNED_OFF;; SaveToDB id.
Definition Logout (p : Z) : GP unit :=
  in_guild p HandleMemberLogout;;
  modify (fun s => gs_set_players (delete p (gs_players s)) s);;
  economy (modify (fun t => set_online (delete p (r_online t)) t)).
(** [HandleCharDeleteOpcode] and the guild in [Player::DeleteFromDB]. *)
Definition HandleCharDelete (guid : Z) : GP unit :=
  s ← get;
  if is_online s guid || existsb (fun e => gd_leaderGuid e.2 =? guid) (in_order (gs_guilds s)) then mret tt
  else
    match gdb_member (gs_db s) !! guid with
    | Some r => if bool_decide (is_Some (gs_guilds s !! mw_guildid r)) then DeleteMember (mw_guildid r) guid else mret tt
    | None => mret tt
    end.
(** [GuildMgr::ResetTimes] *)
Definition ResetTimes : GP unit :=
  Execute CHAR_UPD_GUILD_RESET_TODAY_EXPERIENCE;;
  Execute CHAR_DEL_GUILD_MEMBER_WITHDRAW;;
  modify (fun s => gs_set_guilds ((fun g =>
    guild_set_members (member_set_withdraw no_withdraw <$> gd_members g) (guild_set_experience (gd_level g) (gd_experience g) 0 g)) <$> gs_guilds s) s).

(** ** Requests

    What may be asked of the guilds: the opcodes of a player, logging in and out,
    the deletion of a character and the daily reset.  The numbers are of the width
    that the packet has, and are cut down to that of the parameters. *)

Inductive Request :=
| CMSG_TURN_IN_PETITION (p : Z) (name : list Z) (signatures : list Z)
| CMSG_GUILD_MOTD (p : Z) (motd : list Z)
| CMSG_GUILD_INFO_TEXT (p : Z) (info : list Z)
| CMSG_GUILD_SET_GUILD_MASTER (p : Z) (name : list Z)
| CMSG_GUILD_BANK_UPDATE_TAB (p banker tabId : Z) (name icon : list Z)
| CMSG_SET_GUILD_BANK_TEXT (p tabId : Z) (text : list Z)
| CMSG_GUILD_SET_NOTE (p : Z) (note : list Z) (guid : Z) (isPublic : bool)
| CMSG_GUILD_SET_RANK_PERMISSIONS (p rankId : Z) (name : list Z) (rights moneyPerDay : Z) (rightsAndSlots : list TabRight)
| CMSG_GUILD_BANK_BUY_TAB (p tabId : Z)
| CMSG_GUILD_INVITE (p : Z) (name : list Z)
| CMSG_GUILD_ACCEPT (p : Z)
| CMSG_GUILD_DECLINE (p : Z)
| CMSG_GUILD_LEAVE (p : Z)
| CMSG_GUILD_DISBAND (p : Z)
| CMSG_GUILD_REMOVE (p guid : Z)
| CMSG_GUILD_PROMOTE (p guid : Z)
| CMSG_GUILD_DEMOTE (p guid : Z)
| CMSG_GUILD_ASSIGN_MEMBER_RANK (p guid rankId : Z)
| CMSG_GUILD_ADD_RANK (p : Z) (name : list Z)
| CMSG_GUILD_DEL_RANK (p rankId : Z)
| CMSG_GUILD_BANK_DEPOSIT_MONEY (p banker money : Z)
| CMSG_GUILD_BANK_WITHDRAW_MONEY (p banker money : Z)
| GainXP (p xp : Z)
| PlayerLogin (p : Z) (pl : Player)
| PlayerLogout (p : Z)
| CMSG_CHAR_DELETE (guid : Z)
| DailyReset.
Definition handle (r : Request) : GP unit :=
  match r with
  | CMSG_TURN_IN_PETITION p name signatures => HandleTurnInPetition p name signatures
  | CMSG_GUILD_MOTD p motd => in_guild p (fun id => HandleSetMOTD id p motd)
  | CMSG_GUILD_INFO_TEXT p info => in_guild p (fun id => HandleSetInfo id p info)
  | CMSG_GUILD_SET_GUILD_MASTER p name => in_guild p (fun id => HandleSetNewGuildMaster id p name)
  | CMSG_GUILD_BANK_UPDATE_TAB p banker tabId name icon => HandleGuildBankUpdateTab p banker (u8 tabId) name icon
  | CMSG_SET_GUILD_BANK_TEXT p tabId text => in_guild p (fun id => SetBankTabText id (u8 tabId) text)
  | CMSG_GUILD_SET_NOTE p note guid isPublic => in_guild p (fun id => HandleSetMemberNote id p note guid isPublic)
  | CMSG_GUILD_SET_RANK_PERMISSIONS p rankId name rights moneyPerDay l =>
      in_guild p (fun id => HandleSetRankInfo id p (u8 rankId) name rights moneyPerDay l)
  | CMSG_GUILD_BANK_BUY_TAB p tabId => in_guild p (fun id => HandleBuyBankTab id p (u8 tabId))
  | CMSG_GUILD_INVITE p name => in_guild p (fun id => HandleInviteMember id p name)
  | CMSG_GUILD_ACCEPT p => HandleGuildAccept p
  | CMSG_GUILD_DECLINE p => HandleGuildDecline p
  | CMSG_GUILD_LEAVE p => in_guild p (fun id => HandleLeaveMember id p)
  | CMSG_GUILD_DISBAND p => in_guild p (fun id => HandleDisband id p)
  | CMSG_GUILD_REMOVE p guid => in_guild p (fun id => HandleRemoveMember id p guid)
  | CMSG_GUILD_PROMOTE p guid => in_guild p (fun id => HandleUpdateMemberRank id p guid false)
  | CMSG_GUILD_DEMOTE p guid => in_guild p (fun id => HandleUpdateMemberRank id p guid true)
  | CMSG_GUILD_ASSIGN_MEMBER_RANK p guid rankId => in_guild p (fun id => HandleSetMemberRank id p guid rankId)
  | CMSG_GUILD_ADD_RANK p name => in_guild p (fun id => HandleAddNewRank id p name)
  | CMSG_GUILD_DEL_RANK p rankId => in_guild p (fun id => HandleRemoveRank id p (u8 rankId))
  | CMSG_GUILD_BANK_DEPOSIT_MONEY p banker money => HandleGuildBankDepositMoney p banker money
  | CMSG_GUILD_BANK_WITHDRAW_MONEY p banker money => HandleGuildBankWithdrawMoney p banker money
  | GainXP p xp => in_guild p (fun id => GiveXP id xp p)
  | PlayerLogin p pl => Login p pl
  | PlayerLogout p => Logout p
  | CMSG_CHAR_DELETE guid => HandleCharDelete guid
  | DailyReset => ResetTimes
  end.

(** ** Loading *)

(** [Guild::LoadFromDB] with the number of tabs in the table. *)
Definition load_guild (d : GuildDB) (id : Z) (r : GuildRow) : Guild :=
  mkGuild (gw_name r) (gw_leaderguid r) (gw_motd r) (gw_info r) (gw_createdate r) 0 (gw_BankMoney r) [] ∅
    (repeat new_tab (Z.to_nat (Z.min (u8 (Z.of_nat (size (gdb_tab d id)))) GUILD_BANK_MAX_TABS)))
    (u8 (gw_level r)) (gw_experience r) (gw_todayExperience r).
(** [LoadRankFromDB] of the ranks of a guild. *)
Definition load_rank (rid : Z) (r : RankRow) : RankInfo :=
  new_rank rid (rw_rname r) (if rid =? GR_GUILDMASTER then Z.lor (rw_rights r) GR_RIGHT_ALL else rw_rights r) (rw_BankMoneyPerDay r).
Definition load_member (d : GuildDB) (guid : Z) (r : MemberRow) : Member :=
  mkMember (mw_rank r) (mw_pnote r) (mw_offnote r)
    (match gdb_withdraw d !! guid with Some v => s32 <$> v | None => no_withdraw end).
Definition LoadMemberFromDB (d : GuildDB) (id guid : Z) (r : MemberRow) : GP unit :=
  if wd_character w guid then upd_guild id (fun g => guild_set_members (<[guid := load_member d guid r]> (gd_members g)) g)
  else Execute (CHAR_DEL_GUILD_MEMBER guid).
Definition LoadBankTabFromDB (id tabId : Z) (t : BankTab) : GP unit :=
  upd_guild id (fun g => if GetPurchasedTabsSize g <=? tabId then g else guild_set_tabs (<[Z.to_nat tabId := t]> (gd_bankTabs g)) g).

(** Each rank that is not of its index makes a default set, after all. *)
Definition broken_rank (ranks : list RankInfo) (rankId : Z) : bool :=
  match ranks !! Z.to_nat rankId with Some r => negb (rk_rankId r =? rankId) | None => true end.
Definition validate_ranks (id : Z) : GP unit :=
  g ← deref_guild id;
  let ranks := GetRanksSize g in
  let bad_size := (ranks <? GUILD_RANKS_MIN_COUNT) || (GUILD_RANKS_MAX_COUNT <? ranks) in
  (if bad_size then mret tt
   else forM (seqZ 0 ranks) (fun rankId =>
     if broken_rank (gd_ranks g) rankId then mret tt
     else BeginTransaction;; CreateMissingTabsIfNeeded id (GetPurchasedTabsSize g) rankId;; CommitTransaction));;
  if bad_size || existsb (broken_rank (gd_ranks g)) (seqZ 0 ranks)
  then upd_guild id (guild_set_ranks []);; CreateDefaultGuildRanks w id
  else mret tt.
(** A guild that [DeleteMember] has disbanded for lack of members is not disbanded
    again, which would do nothing. *)
Definition validate_leader (id : Z) : GP bool :=
  g ← deref_guild id;
  match GetMember g (gd_leaderGuid g) with
  | None =>
      DeleteMember id (gd_leaderGuid g);;
      s ← get;
      match gs_guilds s !! id with
      | Some g => if bool_decide (gd_members g = ∅) then Disband id;; mret false else mret true
      | None => mret false
      end
  | Some m => (if IsRank GR_GUILDMASTER m then mret tt else SetLeaderGUID id (GUID_LOPART (gd_leaderGuid g)));; mret true
  end.
Definition Validate (id : Z) : GP unit :=
  validate_ranks id;;
  g ← deref_guild id;
  forM (wd_order w (gd_members g)) (fun e => if GetRanksSize g <? mb_rankId e.2 then ChangeRank id e.1 (GetLowestRankId g) else mret tt);;
  ok ← validate_leader id;
  if negb ok then mret tt
  else
    g ← deref_guild id;
    (if wd_multiple_masters w then mret tt
     else forM (wd_order w (gd_members g)) (fun e =>
       if (mb_rankId e.2 =? GR_GUILDMASTER) && negb (e.1 =? gd_leaderGuid g) then ChangeRank id e.1 GR_OFFICER else mret tt));;
    UpdateAccountsNumber w id.
(** The rows of guilds that do not exist. *)
Definition drop_orphans {A} `{Empty A} (d : GuildDB) (t : Z -> A) : Z -> A :=
  fun id => if bool_decide (is_Some (gdb_guild d !! id)) then t id else ∅.
(** [GuildMgr::LoadGuilds] once it has read a guild; the rights of a tab are loaded
    in any order, since each row sets its own entry. *)
Definition load_tables : GP unit :=
  modify (fun s => gs_set_guilds (map_imap (fun id r => Some (load_guild (gs_db s) id r)) (gdb_guild (gs_db s))) s);;
  modify (fun s => gs_set_db (gdb_set_rank (drop_orphans (gs_db s) (gdb_rank (gs_db s))) (gs_db s)) s);;
  modify (fun s => gs_set_guilds (map_imap (fun id g =>
    Some (guild_set_ranks ((fun e => load_rank e.1 e.2) <$> in_order (gdb_rank (gs_db s) id)) g)) (gs_guilds s)) s);;
  modify (fun s => gs_set_db (gdb_set_member (filter (fun e => is_Some (gdb_guild (gs_db s) !! mw_guildid e.2)) (gdb_member (gs_db s))) (gs_db s)) s);;
  modify (fun s => gs_set_db (gdb_set_withdraw (filter (fun e => is_Some (gdb_member (gs_db s) !! e.1)) (gdb_withdraw (gs_db s))) (gs_db s)) s);;
  s ← get;
  forM (in_order (gdb_member (gs_db s))) (fun e => LoadMemberFromDB (gs_db s) (mw_guildid e.2) e.1 e.2);;
  modify (fun s => gs_set_db (gdb_set_right (drop_orphans (gs_db s) (gdb_right (gs_db s))) (gs_db s)) s);;
  s ← get;
  forM (in_order (gs_guilds s)) (fun e => forM (map_to_list (gdb_right (gs_db s) e.1))
    (fun r => SetRankBankTabRightsAndSlots e.1 r.1.2 (mkTabRight r.1.1 r.2.1 r.2.2) false));;
  modify (fun s => gs_set_db (gdb_set_tab (drop_orphans (gs_db s) (gdb_tab (gs_db s))) (gs_db s)) s);;
  s ← get;
  forM (in_order (gs_guilds s)) (fun e => forM (in_order (gdb_tab (gs_db s) e.1)) (fun t => LoadBankTabFromDB e.1 t.1 t.2));;
  forM (in_order (gs_guilds s)) (fun e => Validate e.1).
Definition LoadGuilds : GP unit :=
  s ← get; if bool_decide (gdb_guild (gs_db s) = ∅) then mret tt else load_tables.
End Guilds.
