(* ===== verification/GuildProofs.v ===== *)
(** * Guilds: memory and database agree (model in Guild.v, GuildRequests.v)

    The invariant that ties the guilds in memory, the tables and the players who
    are online, and that every operation keeps it. *)

From S2P Require Import Prelude.
From S2P Require Import Floats.
From S2P Require Import Economy.
From S2P Require Import EconomyProofs.
From S2P Require Import Guild.
From S2P Require Import GuildRequests.
From stdpp Require Import list sorting.
Local Open Scope Z_scope.
#[local] Set Warnings "-clear-no-such-hyp".

(** Ids that run out and numbers out of range. *)
Definition guild_limits (e : GuildError) : Prop := exists e', e = GuildEconomy e' /\ limits e'.
Abbreviation gwp := (Prelude.wp guild_limits).

(** ** The invariant *)

Definition at_index {A} (l : list A) (k : Z) : option A := if 0 <=? k then l !! Z.to_nat k else None.
Definition rank_row (r : RankInfo) : RankRow := mkRankRow (rk_name r) (rk_rights r) (rk_bankMoneyPerDay r).
Definition member_row (id : Z) (m : Member) : MemberRow := mkMemberRow id (mb_rankId m) (mb_publicNote m) (mb_officerNote m).
(** The row of a guild, whose level and experience are saved from time to time. *)
Definition row_of (g : Guild) (level experience today : Z) : GuildRow :=
  mkGuildRow (gd_name g) (gd_leaderGuid g) (gd_info g) (gd_motd g) (gd_createdDate g) (gd_bankMoney g) level experience today.
Definition right_row (t : TabRight) : Z * Z := (tr_rights t, tr_slots t).
(** The rights of rank [k] on tab [i], of [n] tabs. *)
Definition right_at (ranks : list RankInfo) (n i k : Z) : option (Z * Z) :=
  r ← at_index ranks k; if (0 <=? i) && (i <? n) then right_row <$> rk_tabs r !! Z.to_nat i else None.

(** A tab of rank [k] that is bought, or not yet; the guild master has all rights. *)
Definition tab_ok (n k i : Z) (t : TabRight) : Prop :=
  0 <= tr_rights t < 256 /\
  if i <? n then (tr_tabId t = i \/ tr_tabId t = TAB_UNDEFINED) /\
                 (k = GR_GUILDMASTER -> t = mkTabRight i GUILD_BANK_RIGHT_FULL GUILD_WITHDRAW_SLOT_UNLIMITED)
  else t = undefined_tab.
Record rank_ok (n k : Z) (r : RankInfo) : Prop := {
  ro_id : rk_rankId r = k;
  ro_master : k = GR_GUILDMASTER -> rk_rights r = GR_RIGHT_ALL;
  ro_tabs : length (rk_tabs r) = 8%nat;
  ro_tab : forall i t, rk_tabs r !! i = Some t -> tab_ok n k (Z.of_nat i) t
}.
Record guild_ok (d : GuildDB) (id : Z) (g : Guild) : Prop := {
  ok_ranks_size : len (gd_ranks g) <= 10;
  ok_tabs_size : len (gd_bankTabs g) <= 8;
  ok_ranks : forall k r, gd_ranks g !! k = Some r -> rank_ok (len (gd_bankTabs g)) (Z.of_nat k) r;
  ok_row : exists level experience today, gdb_guild d !! id = Some (row_of g level experience today);
  ok_rank_rows : forall k, gdb_rank d id !! k = rank_row <$> at_index (gd_ranks g) k;
  ok_right_rows : forall i k, gdb_right d id !! (i, k) = right_at (gd_ranks g) (len (gd_bankTabs g)) i k;
  ok_tab_rows : forall i, gdb_tab d id !! i = at_index (gd_bankTabs g) i
}.
(** Nothing in the tables of a guild. *)
Definition no_rows (d : GuildDB) (id : Z) : Prop :=
  gdb_guild d !! id = None /\ gdb_rank d id = ∅ /\ gdb_right d id = ∅ /\ gdb_tab d id = ∅.
(** The row of a member, in whatever guild he is. *)
Definition member_of (G : gmap Z Guild) (p : Z) (row : MemberRow) : Prop :=
  exists g m, G !! mw_guildid row = Some g /\ gd_members g !! p = Some m /\ row = member_row (mw_guildid row) m.
Definition fields_ok (d : GuildDB) (p : Z) (f : GuildFields) : Prop :=
  match gdb_member d !! p with
  | Some row => gf_GuildId f = mw_guildid row /\ gf_Rank f = mw_rank row
  | None => gf_GuildId f = 0
  end.
Record guilds_ok (G : gmap Z Guild) (next : Z) (P : gmap Z GuildFields) (d : GuildDB) (online : gmap Z Player) : Prop := {
  gi_guild : forall id g, G !! id = Some g -> 0 < id < next /\ guild_ok d id g;
  gi_none : forall id, G !! id = None -> no_rows d id;
  gi_members : forall p row, gdb_member d !! p = Some row <-> member_of G p row;
  gi_players : forall p f, P !! p = Some f -> fields_ok d p f /\ is_Some (online !! p);
  gi_guids : forall p, is_Some (P !! p) \/ is_Some (gdb_member d !! p) -> 0 <= p < 2 ^ 32;
  gi_next : 0 < next
}.
Definition tables_ok (s : GuildState) : Prop := guilds_ok (gs_guilds s) (gs_NextGuildId s) (gs_players s) (gs_db s) (r_online (gs_realm s)).
(** A guild that is founded, and not being disbanded, has its leader and ranks. *)
Definition settled (g : Guild) : Prop := is_Some (gd_members g !! gd_leaderGuid g) /\ 2 <= len (gd_ranks g).
Definition state_ok (s : GuildState) : Prop := tables_ok s /\ map_Forall (fun _ => settled) (gs_guilds s).

(** ** What an operation on one guild leaves alone *)

Definition same_rows (d d' : GuildDB) (id : Z) : Prop :=
  gdb_guild d' !! id = gdb_guild d !! id /\ gdb_rank d' id = gdb_rank d id /\ gdb_right d' id = gdb_right d id /\ gdb_tab d' id = gdb_tab d id.
Lemma guild_ok_same d d' id g : same_rows d d' id -> guild_ok d id g -> guild_ok d' id g.
Proof. intros (E1 & E2 & E3 & E4) [? ? ? ? ? ? ?]. split; try done; rewrite ?E1, ?E2, ?E3, ?E4; done. Qed.
Lemma no_rows_same d d' id : same_rows d d' id -> no_rows d id -> no_rows d' id.
Proof. intros (E1 & E2 & E3 & E4). unfold no_rows. by rewrite E1, E2, E3, E4. Qed.

(** The guild [id] and its rows change, but not who is in it. *)
Lemma guilds_ok_update G n P d online id g g' d' : guilds_ok G n P d online -> G !! id = Some g -> gd_members g' = gd_members g ->
  guild_ok d' id g' -> gdb_member d' = gdb_member d -> (forall j, j <> id -> same_rows d d' j) -> guilds_ok (<[id := g']> G) n P d' online.
Proof.
  intros [H1 H2 H3 H4 H5 H6] Hg Em Hok Ed Hs. split; [| | | | |done].
  - intros j h Hj. apply lookup_insert_Some in Hj as [[<- <-]|[Hne Hj]]; [split; [by eapply H1|done]|].
    split; [by eapply H1|]. eapply guild_ok_same; [apply Hs; congruence|]. by apply H1.
  - intros j Hj. apply lookup_insert_None in Hj as [Hj Hne]. eapply no_rows_same; [apply Hs; congruence|]. by apply H2.
  - intros p row. rewrite Ed, H3. unfold member_of. split; intros (h & m & Hh & Hm & E).
    + destruct (decide (mw_guildid row = id)) as [E'|Hne].
      * exists g', m. rewrite E' in Hh. rewrite Hg in Hh. injection Hh as <-. rewrite E', lookup_insert_eq, Em. by rewrite <- E'.
      * exists h, m. by rewrite lookup_insert_ne by congruence.
    + apply lookup_insert_Some in Hh as [[E' <-]|[Hne Hh]]; [|by exists h, m]. exists g, m. rewrite <- E'. rewrite Em in Hm. by rewrite <- E' in E.
  - intros p f Hf. unfold fields_ok. rewrite Ed. by apply H4.
  - rewrite Ed. exact H5.
Qed.

(** ** Rules *)

Lemma deref_guild_ok id g s : gs_guilds s !! id = Some g -> deref_guild id s = (Ok g, s).
Proof. intros Hg. unfold deref_guild. rewrite (bind_ok get _ s s s eq_refl). by rewrite Hg. Qed.
Lemma upd_guild_ok id f g s : gs_guilds s !! id = Some g -> upd_guild id f s = (Ok tt, gs_set_guilds (<[id := f g]> (gs_guilds s)) s).
Proof. intros Hg. unfold upd_guild. by rewrite (bind_ok _ _ _ _ _ (deref_guild_ok id g s Hg)). Qed.
Lemma gwp_guild {A} id g s (k : Guild -> GP A) Q : gs_guilds s !! id = Some g -> gwp (k g) s Q -> gwp (deref_guild id ≫= k) s Q.
Proof. intros Hg. apply wp_seq. by apply deref_guild_ok. Qed.
Lemma gwp_upd {A} id f g s (k : unit -> GP A) Q : gs_guilds s !! id = Some g ->
  gwp (k tt) (gs_set_guilds (<[id := f g]> (gs_guilds s)) s) Q -> gwp (upd_guild id f ≫= k) s Q.
Proof. intros Hg. apply wp_seq. by apply upd_guild_ok. Qed.
Lemma gwp_economy {A} (p : prog Realm EconomyError A) s Q :
  ewp p (gs_realm s) (fun a t => Q a (gs_set_realm t s)) -> gwp (economy p) s Q.
Proof. unfold Prelude.wp, economy. destruct (p (gs_realm s)) as [[a|e] t]; [done|]. intros He. by exists e. Qed.
(** The end of a program that has nothing left to do. *)
Lemma gwp_last {A} (p : GP A) s (Q : A -> GuildState -> Prop) : gwp (p ≫= mret) s Q -> gwp p s Q.
Proof. unfold Prelude.wp, mbind, prog_bind. by destruct (p s) as [[a|e] s']. Qed.

(** Sending changes nothing that the invariant is about. *)
Lemma state_ok_send m s : state_ok s -> state_ok (gs_send m s).
Proof. done. Qed.
Lemma state_ok_trans l s : state_ok s -> state_ok (gs_set_trans l s).
Proof. done. Qed.
Create HintDb guilds.
#[export] Hint Resolve state_ok_send state_ok_trans : guilds.

(** ** The rows of one guild *)

Lemma at_index_insert {A} (l : list A) (k : nat) x j : (k < length l)%nat ->
  at_index (<[k := x]> l) j = if decide (j = Z.of_nat k) then Some x else at_index l j.
Proof.
  intros Hk. unfold at_index. destruct (Z.leb_spec 0 j) as [H0|H0].
  - destruct (decide (j = Z.of_nat k)) as [->|Hne]; [rewrite Nat2Z.id; by apply list_lookup_insert_eq|].
    apply list_lookup_insert_ne. intros ->. apply Hne. lia.
  - rewrite decide_False by lia. done.
Qed.
Lemma at_index_of_nat {A} (l : list A) (k : nat) : at_index l (Z.of_nat k) = l !! k.
Proof. unfold at_index. rewrite (proj2 (Z.leb_le _ _)) by lia. by rewrite Nat2Z.id. Qed.
Lemma at_index_Some {A} (l : list A) k x : at_index l k = Some x -> 0 <= k < len l /\ l !! Z.to_nat k = Some x.
Proof.
  unfold at_index. destruct (Z.leb_spec 0 k); [|done]. intros H1. split; [|done]. apply lookup_lt_Some in H1. lia.
Qed.
Lemma at_index_app {A} (l : list A) x j : at_index (l ++ [x]) j = if decide (j = len l) then Some x else at_index l j.
Proof.
  unfold at_index. destruct (Z.leb_spec 0 j) as [H0|H0]; [|by rewrite decide_False by lia].
  destruct (decide (j = len l)) as [->|Hne]; [by rewrite Nat2Z.id, list_lookup_middle|].
  destruct (decide (j < len l)); [by rewrite lookup_app_l by lia|].
  rewrite !lookup_ge_None_2; [done|lia|rewrite length_app; cbn; lia].
Qed.
Lemma alter_insert {A} (f : A -> A) (k : nat) (l : list A) x : l !! k = Some x -> alter f k l = <[k := f x]> l.
Proof.
  intros Hk. apply list_eq. intros j. destruct (decide (j = k)) as [->|Hne].
  - rewrite list_lookup_alter_eq, Hk, list_lookup_insert_eq; [done|]. by eapply lookup_lt_Some.
  - by rewrite list_lookup_alter_ne, list_lookup_insert_ne.
Qed.

Ltac other_rows := let j := fresh "j" in let Hj := fresh "Hj" in intros j Hj; unfold same_rows; cbn; unfold at_guild;
  rewrite ?lookup_alter_ne, ?fn_lookup_insert_ne by congruence; done.

(** The row of the guild changes as the guild does. *)
Lemma guild_ok_row d id g g' f : guild_ok d id g -> gd_ranks g' = gd_ranks g ->
  gd_bankTabs g' = gd_bankTabs g -> (forall l x t, f (row_of g l x t) = row_of g' l x t) ->
  guild_ok (gdb_set_guild (alter f id (gdb_guild d)) d) id g'.
Proof.
  intros [H2 H3 H5 (l & x & t & H6) H7 H8 H9] Er Et Ef. split; rewrite ?Er, ?Et; try done.
  exists l, x, t. cbn. by rewrite lookup_alter_eq, H6, <- Ef.
Qed.
(** A rank changes as its row does. *)
Lemma guild_ok_rank d id g k r r' f : guild_ok d id g -> gd_ranks g !! k = Some r -> rank_ok (len (gd_bankTabs g)) (Z.of_nat k) r' ->
  rk_tabs r' = rk_tabs r -> f (rank_row r) = rank_row r' ->
  guild_ok (gdb_set_rank (at_guild id (alter f (Z.of_nat k)) (gdb_rank d)) d) id (guild_set_ranks (<[k := r']> (gd_ranks g)) g).
Proof.
  intros [H2 H3 H5 H6 H7 H8 H9] Hk Hr Et Ef. pose proof (lookup_lt_Some _ _ _ Hk) as Hlt. split; try done; cbn.
  - by rewrite length_insert.
  - intros j q Hq. apply list_lookup_insert_Some in Hq as [(<- & <- & _)|[_ Hq]]; [done|by apply H5].
  - intros j. unfold at_guild. rewrite fn_lookup_insert, at_index_insert by done. destruct (decide (j = Z.of_nat k)) as [->|Hne].
    + by rewrite lookup_alter_eq, H7, at_index_of_nat, Hk; cbn; rewrite Ef.
    + by rewrite lookup_alter_ne.
  - intros i j. rewrite H8. unfold right_at. rewrite at_index_insert by done. destruct (decide (j = Z.of_nat k)) as [->|Hne]; [|done].
    rewrite at_index_of_nat, Hk. cbn. by rewrite Et.
Qed.
(** The rights of a rank on a tab that is bought. *)
Lemma guild_ok_right d id g k r i t : guild_ok d id g -> gd_ranks g !! k = Some r -> (i < length (gd_bankTabs g))%nat ->
  tab_ok (len (gd_bankTabs g)) (Z.of_nat k) (Z.of_nat i) t ->
  guild_ok (gdb_set_right (at_guild id (<[(Z.of_nat i, Z.of_nat k) := right_row t]>) (gdb_right d)) d) id
    (guild_set_ranks (<[k := rank_set_tabs (<[i := t]> (rk_tabs r)) r]> (gd_ranks g)) g).
Proof.
  intros [H2 H3 H5 H6 H7 H8 H9] Hk Hi Ht. pose proof (lookup_lt_Some _ _ _ Hk) as Hlt. pose proof (H5 k r Hk) as [R1 R2 R3 R4].
  split; try done; cbn.
  - by rewrite length_insert.
  - intros j q Hq. apply list_lookup_insert_Some in Hq as [(<- & <- & _)|[_ Hq]]; [|by apply H5].
    split; cbn; try done; [by rewrite length_insert|]. intros x u Hu.
    apply list_lookup_insert_Some in Hu as [(<- & <- & _)|[_ Hu]]; [done|by apply R4].
  - intros j. rewrite H7, at_index_insert by done. destruct (decide (j = Z.of_nat k)) as [->|Hne]; [|done].
    by rewrite at_index_of_nat, Hk.
  - intros x j. unfold at_guild. rewrite fn_lookup_insert. unfold right_at. rewrite at_index_insert by done.
    destruct (decide ((Z.of_nat i, Z.of_nat k) = (x, j))) as [[= <- <-]|Hne].
    + rewrite lookup_insert_eq, decide_True by done. cbn. rewrite Nat2Z.id, list_lookup_insert_eq by lia.
      rewrite (proj2 (Z.leb_le _ _)), (proj2 (Z.ltb_lt _ _)) by lia. done.
    + rewrite lookup_insert_ne, H8 by done. unfold right_at. destruct (decide (j = Z.of_nat k)) as [->|Hj]; [|done].
      rewrite at_index_of_nat, Hk. cbn. destruct (Z.leb_spec 0 x); [|done]. cbn [andb]. destruct (x <? _); [|done].
      rewrite list_lookup_insert_ne; [done|]. intros ->. apply Hne. f_equal. lia.
Qed.
Lemma guild_ok_tab d id g i t t' f : guild_ok d id g -> gd_bankTabs g !! i = Some t -> f t = t' ->
  guild_ok (gdb_set_tab (at_guild id (alter f (Z.of_nat i)) (gdb_tab d)) d) id (guild_set_tabs (<[i := t']> (gd_bankTabs g)) g).
Proof.
  intros [H2 H3 H5 H6 H7 H8 H9] Hi <-. pose proof (lookup_lt_Some _ _ _ Hi) as Hlt.
  split; cbn; rewrite ?length_insert; try done. intros j. unfold at_guild. rewrite fn_lookup_insert, at_index_insert by done.
  destruct (decide (j = Z.of_nat i)) as [->|Hne]; [by rewrite lookup_alter_eq, H9, at_index_of_nat, Hi|by rewrite lookup_alter_ne].
Qed.

Lemma tab_ok_undefined n k i : n <= i -> tab_ok n k i undefined_tab.
Proof. intros Hi. split; [cbn; lia|]. by rewrite (proj2 (Z.ltb_ge _ _)). Qed.
Lemma rank_ok_new n k name rights : 0 < k -> rank_ok n k (new_rank k name rights 0).
Proof.
  intros Hk. split; cbn; try done; [unfold GR_GUILDMASTER; lia|]. intros i t Ht.
  assert (t = undefined_tab) as ->.
  { apply list_elem_of_lookup_2 in Ht. change (t ∈ repeat undefined_tab 8) in Ht. by apply list_elem_of_In, repeat_spec in Ht. }
  split; [cbn; lia|]. destruct (_ <? n); [|done]. split; [by right|unfold GR_GUILDMASTER; lia].
Qed.

(** ** The tabs that ranks have not heard of *)

(** What [CreateMissingTabsIfNeeded] makes of the tab [i] of a rank. *)
Definition fixed (r : RankInfo) (i : Z) (t : TabRight) : TabRight :=
  if s8 (tr_tabId t) =? i then t
  else
    let t := mkTabRight i (tr_rights t) (tr_slots t) in
    if rk_rankId r =? GR_GUILDMASTER then SetGuildMasterValues t else t.
(** Only the rights of the guild [id] change. *)
Record rights_only (d d' : GuildDB) (id : Z) : Prop := {
  rt_guild : gdb_guild d' = gdb_guild d;
  rt_rank : gdb_rank d' = gdb_rank d;
  rt_member : gdb_member d' = gdb_member d;
  rt_tab : gdb_tab d' = gdb_tab d;
  rt_other : forall j, j <> id -> gdb_right d' j = gdb_right d j
}.
Lemma rights_only_refl d id : rights_only d d id.
Proof. done. Qed.
Lemma rights_only_trans d d1 d2 id : rights_only d d1 id -> rights_only d1 d2 id -> rights_only d d2 id.
Proof. intros [? ? ? ? H1] [? ? ? ? H2]. split; try congruence. intros j Hj. by rewrite H2, H1. Qed.
Lemma rights_only_same d d' id j : rights_only d d' id -> j <> id -> same_rows d d' j.
Proof. intros [E1 E2 E3 E4 E5] Hj. unfold same_rows. rewrite E1, E2, E4, E5 by done. done. Qed.

(** The row of tab [x] and rank [k] once the first [n] tabs of [r] are made. *)
Definition made_row (r : RankInfo) (n x k : Z) (old : option (Z * Z)) : option (Z * Z) :=
  match (if (k =? rk_rankId r) && (x <? n) then at_index (rk_tabs r) x else None) with
  | Some t => if s8 (tr_tabId t) =? x then old else Some (right_row (fixed r x t))
  | None => old
  end.

Lemma gexec_app l1 l2 d : exec_statements (l1 ++ l2) d = exec_statements l1 d ≫= exec_statements l2.
Proof. revert d. induction l1 as [|st l1 IH]; intros d; [done|]. cbn. by destruct (exec_statement st d); [apply IH|]. Qed.

Lemma missing_spec id r d (n : nat) : length (rk_tabs r) = 8%nat -> (n <= 8)%nat -> (forall i t, rk_tabs r !! i = Some t -> 0 <= tr_rights t < 256) ->
  exists tabs l d', CreateMissingTabs id (Z.of_nat n) r = (rank_set_tabs tabs r, l) /\ length tabs = 8%nat /\
    (forall i, tabs !! i = if decide (i < n)%nat then fixed r (Z.of_nat i) <$> rk_tabs r !! i else rk_tabs r !! i) /\
    exec_statements l d = Some d' /\ rights_only d d' id /\
    forall x k, gdb_right d' id !! (x, k) = made_row r (Z.of_nat n) x k (gdb_right d id !! (x, k)).
Proof.
  intros Hlen Hn Hbyte. unfold CreateMissingTabs. induction n as [|n IH].
  - exists (rk_tabs r), [], d. split_and!; try done; [by destruct r|]. change (Z.of_nat 0) with 0. intros x k. unfold made_row.
    destruct (Z.ltb_spec x 0); [|by rewrite andb_false_r]. unfold at_index. rewrite (proj2 (Z.leb_gt _ _)) by lia. by destruct (_ && _).
  - destruct IH as (tabs & l & d' & E & Hl & Ht & Ex & Ho & Hr); [lia|]. rewrite seqZ_S, foldl_app. rewrite E. cbn [foldl].
    rewrite Z.add_0_l. destruct (lookup_lt_is_Some_2 (rk_tabs r) n) as [t Et]; [lia|].
    assert (tabs !! n = Some t) as Etn by (by rewrite Ht, decide_False by lia).
    unfold missing_tab. cbn [rk_tabs rank_set_tabs rk_rankId]. rewrite Nat2Z.id, Etn.
    assert (forall i, (if decide (i < S n)%nat then fixed r (Z.of_nat i) <$> rk_tabs r !! i else rk_tabs r !! i) =
      <[n := fixed r (Z.of_nat n) t]> tabs !! i) as Htabs.
    { intros i. destruct (decide (i = n)) as [->|Hne].
      - rewrite list_lookup_insert_eq by lia. by rewrite decide_True, Et by lia.
      - rewrite list_lookup_insert_ne, Ht by done. destruct (decide (i < n)%nat); [by rewrite decide_True by lia|by rewrite decide_False by lia]. }
    assert (forall x k, made_row r (Z.of_nat (S n)) x k (gdb_right d id !! (x, k)) =
      if decide (x = Z.of_nat n /\ k = rk_rankId r /\ s8 (tr_tabId t) <> x) then Some (right_row (fixed r x t)) else gdb_right d' id !! (x, k)) as Hmade.
    { intros x k. rewrite Hr. unfold made_row. destruct (Z.eqb_spec k (rk_rankId r)) as [->|Hk]; [|by rewrite decide_False by tauto]. cbn [andb].
      destruct (decide (x = Z.of_nat n)) as [->|Hx].
      - rewrite (proj2 (Z.ltb_lt _ _)), (proj2 (Z.ltb_ge _ _)) by lia. rewrite at_index_of_nat, Et.
        destruct (Z.eqb_spec (s8 (tr_tabId t)) (Z.of_nat n)); [by rewrite decide_False by tauto|by rewrite decide_True by tauto].
      - rewrite decide_False by tauto. destruct (Z.ltb_spec x (Z.of_nat (S n))), (Z.ltb_spec x (Z.of_nat n)); try done; lia. }
    destruct (Z.eqb_spec (s8 (tr_tabId t)) (Z.of_nat n)) as [Eid|Eid].
    + exists tabs, l, d'. split_and!; try done; [|by intros x k; rewrite Hmade, decide_False by naive_solver].
      intros i. rewrite Htabs. assert (fixed r (Z.of_nat n) t = t) as -> by (unfold fixed; by rewrite (proj2 (Z.eqb_eq _ _) Eid)).
      by rewrite list_insert_id.
    + assert ((if rk_rankId r =? GR_GUILDMASTER then SetGuildMasterValues (mkTabRight (Z.of_nat n) (tr_rights t) (tr_slots t))
               else mkTabRight (Z.of_nat n) (tr_rights t) (tr_slots t)) = fixed r (Z.of_nat n) t) as ->
        by (unfold fixed; by rewrite (proj2 (Z.eqb_neq _ _) Eid)).
      assert (u8 (tr_rights (fixed r (Z.of_nat n) t)) = tr_rights (fixed r (Z.of_nat n) t)) as ->.
      { apply uint_small. unfold fixed. rewrite (proj2 (Z.eqb_neq _ _) Eid). destruct (_ =? _); cbn; [unfold GUILD_BANK_RIGHT_FULL; lia|by eapply Hbyte]. }
      eexists (<[n := fixed r (Z.of_nat n) t]> tabs), _, (gdb_set_right (at_guild id (<[(Z.of_nat n, rk_rankId r) := right_row (fixed r (Z.of_nat n) t)]>) (gdb_right d')) d').
      split; [by destruct r|]. split; [by rewrite length_insert|]. split; [intros i; by rewrite Htabs|].
      split; [by rewrite gexec_app, Ex|]. split.
      * eapply rights_only_trans; [exact Ho|]. split; try done. intros j Hj. cbn. unfold at_guild. by rewrite fn_lookup_insert_ne.
      * intros x k. rewrite Hmade. cbn. unfold at_guild. rewrite fn_lookup_insert.
        destruct (decide (x = Z.of_nat n /\ k = rk_rankId r /\ s8 (tr_tabId t) <> x)) as [(-> & -> & _)|Hd]; [by rewrite lookup_insert_eq|].
        rewrite lookup_insert_ne; [done|]. intros [= <- <-]. by apply Hd.
Qed.
