(* ===== verification/GuildRanks.v ===== *)
(** * Guilds: ranks, tabs and the small changes keep memory and tables in step

    The operations of Guild.v and GuildRequests.v that leave the members of a
    guild alone, or change one of them. *)

From S2P Require Import Prelude.
From S2P Require Import Floats.
From S2P Require Import Economy.
From S2P Require Import EconomyProofs.
From S2P Require Import Guild.
From S2P Require Import GuildRequests.
From S2P Require Import GuildProofs.
From stdpp Require Import list sorting.
Local Open Scope Z_scope.
#[local] Set Warnings "-clear-no-such-hyp".

(** ** One guild changes, and its rows *)

Lemma gwp_change {A} id f st g d s (k : unit -> GP A) Q : gs_guilds s !! id = Some g -> exec_statement st (gs_db s) = Some d ->
  gwp (k tt) (gs_set_db d (gs_set_guilds (<[id := f g]> (gs_guilds s)) s)) Q -> gwp (upd_guild id f ≫= fun _ => Execute st ≫= k) s Q.
Proof. intros Hg Hd HQ. eapply gwp_upd; [exact Hg|]. apply wp_modify. cbn. by rewrite Hd. Qed.

Lemma gwp_last2 {A B} (m : GP A) (n : A -> GP B) s (Q : B -> GuildState -> Prop) :
  gwp (m ≫= fun a => n a ≫= mret) s Q -> gwp (m ≫= n) s Q.
Proof. unfold Prelude.wp, mbind, prog_bind. destruct (m s) as [[a|e] s']; [|done]. by destruct (n a s') as [[b|e] s'']. Qed.

Lemma settled_map (G : gmap Z Guild) id g' : map_Forall (fun _ => settled) G -> settled g' -> map_Forall (fun _ => settled) (<[id := g']> G).
Proof. intros HG Hg j h. rewrite lookup_insert_Some. intros [[_ <-]|[_ Hj]]; [done|by apply (HG j)]. Qed.
Lemma state_ok_update s id g g' d : state_ok s -> gs_guilds s !! id = Some g -> gd_members g' = gd_members g -> settled g' -> guild_ok d id g' ->
  gdb_member d = gdb_member (gs_db s) -> (forall j, j <> id -> same_rows (gs_db s) d j) ->
  state_ok (gs_set_db d (gs_set_guilds (<[id := g']> (gs_guilds s)) s)).
Proof.
  intros [Hs Hset] Hg Em Hg' Hok Ed Ho. split; [by eapply guilds_ok_update|by apply settled_map].
Qed.
Lemma state_ok_guild s id g : state_ok s -> gs_guilds s !! id = Some g -> 0 < id /\ guild_ok (gs_db s) id g /\ settled g.
Proof. intros [Hs Hset] Hg. destruct (gi_guild _ _ _ _ _ Hs id g Hg) as [? ?]. split_and!; [lia|done|by apply (Hset id)]. Qed.

(** The guild is there yet, with as many ranks and tabs. *)
Definition still (id : Z) (g : Guild) (s : GuildState) : Prop := state_ok s /\ exists g', gs_guilds s !! id = Some g' /\
  length (gd_ranks g') = length (gd_ranks g) /\ length (gd_bankTabs g') = length (gd_bankTabs g).
Lemma still_same id g s : state_ok s -> gs_guilds s !! id = Some g -> still id g s.
Proof. intros Hs Hg. split; [done|by exists g]. Qed.

Lemma GetRankInfo_Some d id g k r : guild_ok d id g -> 0 <= k -> GetRankInfo g k = Some r ->
  exists n, k = Z.of_nat n /\ gd_ranks g !! n = Some r /\ rank_ok (len (gd_bankTabs g)) k r.
Proof.
  intros Hok Hk. unfold GetRankInfo. destruct (_ <? _); [|done]. intros Hr. exists (Z.to_nat k). rewrite Z2Nat.id by done.
  split_and!; try done. rewrite <- (Z2Nat.id k) by done. by apply (ok_ranks _ _ _ Hok).
Qed.
Lemma GetRankInfo_of_nat d id g (k : nat) : guild_ok d id g -> GetRankInfo g (Z.of_nat k) = gd_ranks g !! k.
Proof.
  intros Hok. unfold GetRankInfo, GetRanksSize. pose proof (ok_ranks_size _ _ _ Hok). rewrite uint_small by lia. rewrite Nat2Z.id.
  destruct (Z.ltb_spec (Z.of_nat k) (len (gd_ranks g))); [done|]. by rewrite lookup_ge_None_2 by lia.
Qed.
Lemma purchased d id g : guild_ok d id g -> GetPurchasedTabsSize g = len (gd_bankTabs g).
Proof. intros Hok. pose proof (ok_tabs_size _ _ _ Hok). unfold GetPurchasedTabsSize. by rewrite uint_small by lia. Qed.
Lemma ranks_size d id g : guild_ok d id g -> GetRanksSize g = len (gd_ranks g).
Proof. intros Hok. pose proof (ok_ranks_size _ _ _ Hok). unfold GetRanksSize. by rewrite uint_small by lia. Qed.

(** A rank is set, with its row. *)
Lemma set_rank_gwp {A} s id g k r f st fr (c : unit -> GP A) Q : state_ok s -> gs_guilds s !! id = Some g -> gd_ranks g !! k = Some r ->
  (forall d, exec_statement st d = Some (gdb_set_rank (at_guild id (alter fr (Z.of_nat k)) (gdb_rank d)) d)) ->
  rank_ok (len (gd_bankTabs g)) (Z.of_nat k) (f r) -> rk_tabs (f r) = rk_tabs r -> fr (rank_row r) = rank_row (f r) ->
  (forall s', still id g s' -> gwp (c tt) s' Q) -> gwp (upd_rank id (Z.of_nat k) f ≫= fun _ => Execute st ≫= c) s Q.
Proof.
  intros Hs Hg Hk Hst Hr Et Ef HQ. pose proof (state_ok_guild s id g Hs Hg) as (_ & Hok & Hl & Hn). unfold upd_rank. eapply gwp_change; [exact Hg|apply Hst|].
  apply HQ. rewrite Nat2Z.id, (alter_insert _ _ _ r) by done. split.
  - eapply state_ok_update; try done; [| |other_rows].
    + split; [done|]. cbn. by rewrite length_insert.
    + by eapply guild_ok_rank.
  - eexists. cbn. rewrite lookup_insert_eq. split; [done|]. cbn. by rewrite length_insert.
Qed.
Lemma SetName_gwp s id g k name : state_ok s -> gs_guilds s !! id = Some g -> 0 <= k -> gwp (SetName id k name) s (fun _ => still id g).
Proof.
  intros Hs Hg Hk. pose proof (state_ok_guild s id g Hs Hg) as (_ & Hok & Hl). unfold SetName. eapply gwp_guild; [exact Hg|].
  destruct (GetRankInfo g k) as [r|] eqn:Er; [|apply wp_ret; by apply still_same].
  destruct (GetRankInfo_Some _ _ _ _ _ Hok Hk Er) as (n & -> & Hn & [E1 E2 E3 E4]). case_bool_decide; [apply wp_ret; by apply still_same|].
  apply gwp_last2.
  eapply (set_rank_gwp s id g n r _ _ (rank_row_name name) (fun u => mret u)); try done.
  intros d. cbn. by rewrite E1.
Qed.
Lemma SetRights_gwp s id g k rights : state_ok s -> gs_guilds s !! id = Some g -> 0 <= k -> gwp (SetRights id k rights) s (fun _ => still id g).
Proof.
  intros Hs Hg Hk. pose proof (state_ok_guild s id g Hs Hg) as (_ & Hok & Hl). unfold SetRights. eapply gwp_guild; [exact Hg|].
  destruct (GetRankInfo g k) as [r|] eqn:Er; [|apply wp_ret; by apply still_same].
  destruct (GetRankInfo_Some _ _ _ _ _ Hok Hk Er) as (n & -> & Hn & [E1 E2 E3 E4]). cbv zeta.
  set (v := if rk_rankId r =? GR_GUILDMASTER then GR_RIGHT_ALL else rights). destruct (rk_rights r =? v); [apply wp_ret; by apply still_same|].
  apply gwp_last2. eapply (set_rank_gwp s id g n r _ _ (rank_row_rights v) (fun u => mret u)); try done; [intros d; cbn; by rewrite E1|].
  split; try done. intros E. cbn. unfold v. rewrite E1. by rewrite (proj2 (Z.eqb_eq _ _) E).
Qed.
Lemma SetRankBankMoneyPerDay_gwp s id g k money : state_ok s -> gs_guilds s !! id = Some g -> 0 <= k ->
  gwp (SetRankBankMoneyPerDay id k money) s (fun _ => still id g).
Proof.
  intros Hs Hg Hk. pose proof (state_ok_guild s id g Hs Hg) as (_ & Hok & Hl). unfold SetRankBankMoneyPerDay. eapply gwp_guild; [exact Hg|].
  destruct (GetRankInfo g k) as [r|] eqn:Er; [|apply wp_ret; by apply still_same].
  destruct (GetRankInfo_Some _ _ _ _ _ Hok Hk Er) as (n & -> & Hn & [E1 E2 E3 E4]). cbv zeta.
  set (v := if rk_rankId r =? GR_GUILDMASTER then GUILD_WITHDRAW_MONEY_UNLIMITED else money). destruct (rk_bankMoneyPerDay r =? v); [apply wp_ret; by apply still_same|].
  apply gwp_last2. eapply (set_rank_gwp s id g n r _ _ (rank_row_money v) (fun u => mret u)); try done. intros d. cbn. by rewrite E1.
Qed.

(** A tab that a request names, and the rights it gives. *)
Definition tab_request (t : TabRight) : Prop := 0 <= tr_tabId t < 8 /\ 0 <= tr_rights t < 256.
Lemma s8_small i : 0 <= i < 128 -> s8 i = i.
Proof. intros Hi. apply sint_small; lia. Qed.
Lemma SetRankBankTab_gwp s id g k t : state_ok s -> gs_guilds s !! id = Some g -> 0 <= k -> tab_request t ->
  gwp (SetRankBankTabRightsAndSlots id k t true) s (fun _ => still id g).
Proof.
  intros Hs Hg Hk [Ht Hb]. pose proof (state_ok_guild s id g Hs Hg) as (_ & Hok & Hl & Hsz). unfold SetRankBankTabRightsAndSlots.
  eapply gwp_guild; [exact Hg|]. rewrite (purchased _ _ _ Hok), s8_small by lia.
  destruct (Z.leb_spec (len (gd_bankTabs g)) (tr_tabId t)) as [|Hlt]; [apply wp_ret; by apply still_same|].
  destruct (GetRankInfo g k) as [r|] eqn:Er; [|apply wp_ret; by apply still_same].
  destruct (GetRankInfo_Some _ _ _ _ _ Hok Hk Er) as (n & -> & Hn & [E1 E2 E3 E4]). cbv zeta.
  set (u := if rk_rankId r =? GR_GUILDMASTER then SetGuildMasterValues t else t).
  assert (tr_tabId u = tr_tabId t) as Eu by (unfold u; by destruct (_ =? _)).
  assert (tab_ok (len (gd_bankTabs g)) (Z.of_nat n) (Z.of_nat (Z.to_nat (tr_tabId t))) u) as Hu.
  { rewrite Z2Nat.id by lia. unfold tab_ok. rewrite (proj2 (Z.ltb_lt _ _) Hlt). unfold u. rewrite E1. unfold GR_GUILDMASTER.
    destruct (Z.eqb_spec (Z.of_nat n) 0) as [E0|E0]; cbn; unfold GUILD_BANK_RIGHT_FULL.
    - split_and!; [lia|lia|by left|done].
    - split_and!; [lia|lia|by left|by intros ?]. }
  rewrite Eu, s8_small by lia. rewrite (proj2 (Z.ltb_ge _ _)) by lia. unfold upd_rank. apply gwp_last2.
  eapply gwp_change; [exact Hg|cbn; done|]. apply wp_ret. rewrite Nat2Z.id, (alter_insert _ _ _ r) by done. rewrite E1. cbn. split.
  - eapply state_ok_update; try done; [| |other_rows].
    + split; [done|]. cbn. by rewrite length_insert.
    + replace (tr_tabId t) with (Z.of_nat (Z.to_nat (tr_tabId t))) at 1 by lia. eapply guild_ok_right; try done. lia.
  - eexists. cbn. rewrite lookup_insert_eq. split; [done|]. cbn. by rewrite length_insert.
Qed.

(** ** Transactions *)

Definition opened (s : GuildState) : GuildState := gs_set_realm (set_trans [] (gs_realm s)) (gs_set_trans [] s).
Lemma begin_gwp {A} s (k : unit -> GP A) Q : gwp (k tt) (opened s) Q -> gwp (BeginTransaction ≫= k) s Q.
Proof. done. Qed.
Lemma append_gwp {A} st s (k : unit -> GP A) Q : gwp (k tt) (gs_set_trans (gs_trans s ++ [st]) s) Q -> gwp (Append st ≫= k) s Q.
Proof. done. Qed.
Lemma gforM_append l s : forM l Append s = (Ok tt, gs_set_trans (gs_trans s ++ l) s).
Proof.
  revert s. induction l as [|st l IH]; intros s; cbn [forM]; [rewrite app_nil_r; by destruct s|].
  rewrite (bind_ok (Append st) _ s tt (gs_set_trans (gs_trans s ++ [st]) s)) by done. rewrite IH. cbn. by rewrite <- app_assoc.
Qed.
Lemma appends_gwp {A} l s (k : unit -> GP A) Q : gwp (k tt) (gs_set_trans (gs_trans s ++ l) s) Q -> gwp (forM l Append ≫= k) s Q.
Proof. apply wp_seq, gforM_append. Qed.
Definition committed (d : GuildDB) (d' : CharDB) (s : GuildState) : GuildState :=
  gs_set_trans [] (gs_set_realm (set_trans [] (set_db d' (gs_realm s))) (gs_set_db d s)).
Lemma commit_ok s d d' : exec_statements (gs_trans s) (gs_db s) = Some d ->
  Economy.exec_statements (r_trans (gs_realm s)) (r_db (gs_realm s)) = Some d' -> commit s = committed d d' s.
Proof. intros E E'. unfold commit. by rewrite E, E'. Qed.
Lemma commit_gwp {A} s d d' (k : unit -> GP A) Q : exec_statements (gs_trans s) (gs_db s) = Some d ->
  Economy.exec_statements (r_trans (gs_realm s)) (r_db (gs_realm s)) = Some d' -> gwp (k tt) (committed d d' s) Q ->
  gwp (CommitTransaction ≫= k) s Q.
Proof. intros E E' HQ. unfold CommitTransaction. apply wp_modify. by rewrite (commit_ok s d d'). Qed.

(** ** Ranks and tabs that are made *)

Lemma at_index_end {A} (l : list A) : at_index l (len l) = None.
Proof. unfold at_index. case_match; [|done]. apply lookup_ge_None_2. lia. Qed.
Lemma new_rank_tabs k name rights i : (i < 8)%nat -> rk_tabs (new_rank k name rights 0) !! i = Some undefined_tab.
Proof. intros Hi. change (repeat undefined_tab 8 !! i = Some undefined_tab). do 8 (destruct i as [|i]; [done|]). lia. Qed.
(** The rights of a new rank, on the tabs there are. *)
Lemma made_row_new n k name rights x j old : (k = 0 -> n = 0) -> n <= 8 -> (x < 0 \/ n <= x -> old = None) ->
  made_row (new_rank k name rights 0) n x j old = if decide (j = k) then (if (0 <=? x) && (x <? n) then Some (0, 0) else old) else old.
Proof.
  intros Hk Hn Hold. unfold made_row. cbn [rk_rankId new_rank]. destruct (Z.eqb_spec j k) as [->|Hne]; [|by rewrite decide_False].
  rewrite decide_True by done. cbn [andb]. destruct (Z.ltb_spec x n) as [Hx|Hx]; [|by rewrite andb_false_r].
  unfold at_index. destruct (Z.leb_spec 0 x) as [H0|H0]; [|done]. rewrite new_rank_tabs by lia. cbn [andb].
  change (s8 (tr_tabId undefined_tab)) with (-1). rewrite (proj2 (Z.eqb_neq _ _)) by lia. unfold fixed. change (s8 (tr_tabId undefined_tab)) with (-1).
  rewrite (proj2 (Z.eqb_neq _ _)) by lia. cbn [rk_rankId new_rank]. unfold GR_GUILDMASTER. rewrite (proj2 (Z.eqb_neq k 0)) by lia. done.
Qed.
Lemma guild_ok_new_rank d id g name rights : guild_ok d id g -> len (gd_ranks g) < 10 ->
  (gd_ranks g = [] -> gd_bankTabs g = [] /\ rights = GR_RIGHT_ALL) ->
  let info := new_rank (len (gd_ranks g)) name rights 0 in exists d',
  exec_statements ((CreateMissingTabs id (len (gd_bankTabs g)) info).2 ++ [CHAR_INS_GUILD_RANK id (len (gd_ranks g)) name rights]) d = Some d' /\
  guild_ok d' id (guild_set_ranks (gd_ranks g ++ [info]) g) /\ gdb_member d' = gdb_member d /\ forall j, j <> id -> same_rows d d' j.
Proof.
  intros [H2 H3 H5 H6 H7 H8 H9] Hlt H0 info. set (k := len (gd_ranks g)) in *.
  assert (k = 0 -> len (gd_bankTabs g) = 0 /\ rights = GR_RIGHT_ALL) as Hk0.
  { intros Ek. destruct H0 as [-> ?]; [|done]. apply length_zero_iff_nil. lia. }
  destruct (missing_spec id info d (length (gd_bankTabs g))) as (tabs & l & d1 & E & _ & _ & Ex & Ho & Hr); [done|lia| |].
  { intros i t Hi. pose proof (lookup_lt_Some _ _ _ Hi). change (length _) with 8%nat in H. unfold info in Hi. rewrite new_rank_tabs in Hi by done.
    injection Hi as <-. cbn. lia. }
  rewrite E. cbn [snd]. rewrite gexec_app, Ex. cbn. destruct Ho as [E1 E2 E3 E4 E5].
  assert (at_index (gd_ranks g) k = None) as Hend by apply at_index_end.
  rewrite E2, H7, Hend. cbn [fmap option_fmap option_map]. rewrite bool_decide_false by (by intros [? ?]). eexists. split; [done|].
  split; [|split; [done|]]; [|intros j Hj; unfold same_rows; cbn; unfold at_guild; rewrite fn_lookup_insert_ne, E1, E4, E5 by congruence; done].
  split; cbn; try done.
  - rewrite length_app. cbn. lia.
  - intros j r Hj. apply lookup_app_Some in Hj as [Hj|[Hge Hj]]; [by apply H5|].
    assert (j = length (gd_ranks g)) as -> by (destruct (j - length (gd_ranks g))%nat eqn:Ed; [lia|done]). rewrite Nat.sub_diag in Hj. injection Hj as <-.
    destruct (decide (k = 0)) as [Ek|Ek]; [|apply rank_ok_new; lia]. destruct (Hk0 Ek) as [En ->]. rewrite En. unfold info.
    split; try done. intros i t Ht. pose proof (lookup_lt_Some _ _ _ Ht : (i < 8)%nat) as Hlt8. rewrite new_rank_tabs in Ht by done. injection Ht as <-.
    apply tab_ok_undefined. lia.
  - by rewrite E1.
  - intros j. unfold at_guild. rewrite fn_lookup_insert, at_index_app. fold k. destruct (decide (j = k)) as [->|Hne]; [by rewrite lookup_insert_eq|].
    by rewrite lookup_insert_ne.
  - intros x j. rewrite Hr, H8. unfold info. rewrite made_row_new; [|tauto|lia|].
    + unfold right_at. rewrite at_index_app. fold k. destruct (decide (j = k)) as [->|Hne]; [|done]. cbn [mbind option_bind].
      destruct (Z.leb_spec 0 x) as [Hx|Hx]; cbn [andb]; [|by rewrite Hend].
      destruct (Z.ltb_spec x (len (gd_bankTabs g))); [|by rewrite Hend].
      rewrite new_rank_tabs by lia. done.
    + intros Hx. unfold right_at. destruct (at_index (gd_ranks g) j) as [r|]; cbn; [|done].
      destruct (Z.leb_spec 0 x), (Z.ltb_spec x (len (gd_bankTabs g))); try done; lia.
  - by rewrite E4.
Qed.
Lemma tables_ok_committed d d' s : tables_ok (gs_set_db d s) -> tables_ok (committed d d' s).
Proof. done. Qed.
Lemma CreateRank_gwp s id g name rights : tables_ok s -> gs_guilds s !! id = Some g -> len (gd_ranks g) < 10 ->
  (gd_ranks g = [] -> gd_bankTabs g = [] /\ rights = GR_RIGHT_ALL) -> gwp (CreateRank id name rights) s (fun b s' => b = true /\ tables_ok s' /\
    gs_guilds s' = <[id := guild_set_ranks (gd_ranks g ++ [new_rank (len (gd_ranks g)) name rights 0]) g]> (gs_guilds s) /\
    gs_players s' = gs_players s /\ gs_NextGuildId s' = gs_NextGuildId s /\ gdb_member (gs_db s') = gdb_member (gs_db s)).
Proof.
  intros Hs Hg Hlt H0. destruct (gi_guild _ _ _ _ _ Hs id g Hg) as [Hid Hok]. unfold CreateRank. eapply gwp_guild; [exact Hg|]. cbv zeta.
  rewrite (ranks_size _ _ _ Hok), (purchased _ _ _ Hok). unfold GUILD_RANKS_MAX_COUNT. rewrite (proj2 (Z.leb_gt _ _)) by lia.
  destruct (guild_ok_new_rank (gs_db s) id g name rights Hok Hlt H0) as (d & Ex & Hok' & Em & Ho).
  eapply gwp_upd; [exact Hg|]. apply begin_gwp, appends_gwp, append_gwp. eapply commit_gwp; [exact Ex|done|].
  apply wp_ret. split_and!; try done. eapply guilds_ok_update; [exact Hs|exact Hg|done|exact Hok'|exact Em|exact Ho].
Qed.

(** The statements of a list of ranks, each at its index. *)
Lemma missing_rows id (n : nat) (off : Z) l d : (n <= 8)%nat ->
  (forall i r, l !! i = Some r -> rk_rankId r = off + Z.of_nat i /\ length (rk_tabs r) = 8%nat /\ forall j t, rk_tabs r !! j = Some t -> 0 <= tr_rights t < 256) ->
  exists d', exec_statements (concat ((fun r => (CreateMissingTabs id (Z.of_nat n) r).2) <$> l)) d = Some d' /\ rights_only d d' id /\
    forall x j, gdb_right d' id !! (x, j) = from_option (fun r => made_row r (Z.of_nat n) x j (gdb_right d id !! (x, j))) (gdb_right d id !! (x, j)) (at_index l (j - off)).
Proof.
  intros Hn. revert off d. induction l as [|r l IH]; intros off d Hl.
  - exists d. split_and!; try done. intros x j. unfold at_index. by case_match.
  - destruct (Hl 0%nat r eq_refl) as (Er & H8 & Hb). cbn [fmap list_fmap concat].
    destruct (missing_spec id r d n H8 Hn Hb) as (tabs & l1 & d1 & E & _ & _ & Ex & Ho & Hr).
    destruct (IH (off + 1) d1) as (d2 & Ex2 & Ho2 & Hr2).
    { intros i q Hq. destruct (Hl (S i) q Hq) as (Eq & ?). split; [lia|done]. }
    exists d2. rewrite E. cbn [snd]. rewrite gexec_app, Ex. split; [exact Ex2|]. split; [by eapply rights_only_trans|].
    intros x j. rewrite Hr2, Hr. destruct (decide (j = off)) as [->|Hne].
    + replace (off - (off + 1)) with (-1) by lia. replace (off - off) with 0 by lia. done.
    + assert (made_row r (Z.of_nat n) x j (gdb_right d id !! (x, j)) = gdb_right d id !! (x, j)) as ->.
      { unfold made_row. rewrite (proj2 (Z.eqb_neq j _)) by lia. done. }
      replace (j - (off + 1)) with (j - off - 1) by lia. unfold at_index. destruct (Z.leb_spec 0 (j - off)), (Z.leb_spec 0 (j - off - 1)); try lia; [|done].
      by replace (Z.to_nat (j - off)) with (S (Z.to_nat (j - off - 1))) by lia.
Qed.
Lemma missing_loop id n l1 l2 s g : gs_guilds s !! id = Some g -> gd_ranks g = l1 ++ l2 ->
  forM (seqZ (len l1) (len l2)) (CreateMissingTabsIfNeeded id n) s =
  (Ok tt, gs_set_trans (gs_trans s ++ concat ((fun r => (CreateMissingTabs id n r).2) <$> l2))
    (gs_set_guilds (<[id := guild_set_ranks (l1 ++ ((fun r => (CreateMissingTabs id n r).1) <$> l2)) g]> (gs_guilds s)) s)).
Proof.
  revert l1 s g. induction l2 as [|r l2 IH]; intros l1 s g Hg Er.
  - cbn. rewrite !app_nil_r in *. rewrite <- Er. replace (guild_set_ranks (gd_ranks g) g) with g by (by destruct g).
    rewrite insert_id by done. by destruct s.
  - cbn [length fmap list_fmap concat]. rewrite Nat2Z.inj_succ, <- Z.add_1_l, seqZ_cons by lia. cbn [forM].
    replace (Z.pred (1 + len l2)) with (len l2) by lia.
    assert (gd_ranks g !! Z.to_nat (len l1) = Some r) as Hr by (rewrite Nat2Z.id, Er; by apply list_lookup_middle).
    erewrite bind_ok; [|unfold CreateMissingTabsIfNeeded; rewrite (bind_ok _ _ _ _ _ (deref_guild_ok id g s Hg)), Hr;
      unfold upd_rank; rewrite (bind_ok _ _ _ _ _ (upd_guild_ok id _ g s Hg)); apply gforM_append].
    rewrite Nat2Z.id, (alter_insert _ _ _ r) by (by rewrite Nat2Z.id in Hr). rewrite Er, insert_app_r_alt, Nat.sub_diag by lia. cbn [insert list_insert].
    replace (Z.succ (len l1)) with (len (l1 ++ [(CreateMissingTabs id n r).1])) by (rewrite length_app; cbn; lia).
    erewrite IH; [|cbn; by rewrite lookup_insert_eq|cbn; by rewrite <- app_assoc].
    cbn. rewrite insert_insert_eq. by rewrite <- !app_assoc.
Qed.

Lemma at_guild_eq {A} id (f : A -> A) (t : Z -> A) : at_guild id f t id = f (t id).
Proof. apply fn_lookup_insert. Qed.
Lemma at_guild_ne {A} id (f : A -> A) (t : Z -> A) j : j <> id -> at_guild id f t j = t j.
Proof. intros Hj. unfold at_guild. by rewrite fn_lookup_insert_ne. Qed.
Definition made_ranks (id n : Z) (l : list RankInfo) : list RankInfo := (fun r => (CreateMissingTabs id n r).1) <$> l.
(** [CreateMissingTabs] of a rank, tab by tab. *)
Lemma made_rank id r (n : nat) : length (rk_tabs r) = 8%nat -> (n <= 8)%nat -> (forall i t, rk_tabs r !! i = Some t -> 0 <= tr_rights t < 256) ->
  exists tabs, (CreateMissingTabs id (Z.of_nat n) r).1 = rank_set_tabs tabs r /\ length tabs = 8%nat /\
    forall i, tabs !! i = if decide (i < n)%nat then fixed r (Z.of_nat i) <$> rk_tabs r !! i else rk_tabs r !! i.
Proof.
  intros H8 Hn Hb. destruct (missing_spec id r (mkGuildDB ∅ (fun _ => ∅) ∅ ∅ (fun _ => ∅) (fun _ => ∅)) n H8 Hn Hb) as (tabs & l & d & E & Hl & Ht & _).
  exists tabs. by rewrite E.
Qed.
Lemma rank_bytes n k r : rank_ok n k r -> forall i t, rk_tabs r !! i = Some t -> 0 <= tr_rights t < 256.
Proof. intros [_ _ _ H] i t Hi. by destruct (H i t Hi). Qed.
(** A rank after one more tab is bought. *)
Lemma fixed_ok n k r i t : rank_ok n k r -> rk_tabs r !! i = Some t -> 0 <= n < 8 ->
  tab_ok (n + 1) k (Z.of_nat i) (if decide (Z.of_nat i < n + 1) then fixed r (Z.of_nat i) t else t).
Proof.
  intros [E1 E2 E3 E4] Ht Hn. pose proof (lookup_lt_Some _ _ _ Ht). destruct (E4 i t Ht) as [Hb Hi].
  destruct (decide (Z.of_nat i < n + 1)) as [Hlt|Hge].
  - unfold tab_ok. rewrite (proj2 (Z.ltb_lt _ _) Hlt). unfold fixed. rewrite E1. unfold GR_GUILDMASTER in *.
    destruct (Z.ltb_spec (Z.of_nat i) n) as [Hin|Hin].
    + destruct Hi as [[Hi|Hi] Hk]; rewrite Hi.
      * rewrite s8_small, Z.eqb_refl by lia. split; [done|]. split; [by left|done].
      * change (s8 TAB_UNDEFINED) with (-1). rewrite (proj2 (Z.eqb_neq _ _)) by lia. destruct (Z.eqb_spec k 0) as [E0|]; cbn.
        -- unfold GUILD_BANK_RIGHT_FULL. split_and!; [lia|lia|by left|done].
        -- split_and!; [lia|lia|by left|done].
    + subst t. change (s8 (tr_tabId undefined_tab)) with (-1). rewrite (proj2 (Z.eqb_neq _ _)) by lia. destruct (Z.eqb_spec k 0) as [E0|]; cbn.
      * unfold GUILD_BANK_RIGHT_FULL. split_and!; [lia|lia|by left|done].
      * split_and!; [lia|lia|by left|done].
  - split; [done|]. rewrite (proj2 (Z.ltb_ge _ _)) by lia. rewrite (proj2 (Z.ltb_ge _ _)) in Hi by lia. done.
Qed.
Lemma made_rank_ok id n k r : rank_ok (Z.of_nat n) k r -> (n < 8)%nat -> rank_ok (Z.of_nat (S n)) k (CreateMissingTabs id (Z.of_nat (S n)) r).1.
Proof.
  intros Hr Hn. pose proof Hr as [E1 E2 E3 E4]. destruct (made_rank id r (S n) E3) as (tabs & -> & Hl & Ht); [lia|by eapply rank_bytes|].
  split; try done. intros i t. cbn. rewrite Ht. intros Hi. replace (Z.of_nat (S n)) with (Z.of_nat n + 1) by lia.
  destruct (decide (i < S n)%nat) as [Hlt|Hge]; [apply fmap_Some in Hi as (u & Hu & ->)|].
  - pose proof (fixed_ok _ _ _ _ _ Hr Hu) as H. rewrite decide_True in H by lia. apply H. lia.
  - pose proof (fixed_ok _ _ _ _ _ Hr Hi) as H. rewrite decide_False in H by lia. apply H. lia.
Qed.
(** Its row for a tab. *)
Lemma made_right id (n : nat) k r x old : rank_ok (Z.of_nat n) k r -> (n < 8)%nat ->
  old = (if (0 <=? x) && (x <? Z.of_nat n) then right_row <$> rk_tabs r !! Z.to_nat x else None) ->
  made_row r (Z.of_nat (S n)) x k old =
    if (0 <=? x) && (x <? Z.of_nat (S n)) then right_row <$> rk_tabs (CreateMissingTabs id (Z.of_nat (S n)) r).1 !! Z.to_nat x else None.
Proof.
  intros Hr Hn ->. pose proof Hr as [E1 E2 E3 E4]. destruct (made_rank id r (S n) E3) as (tabs & -> & Hl & Ht); [lia|by eapply rank_bytes|].
  cbn [rk_tabs rank_set_tabs]. unfold made_row. rewrite E1, Z.eqb_refl. cbn [andb]. unfold at_index.
  destruct (Z.leb_spec 0 x) as [H0|H0]; cbn [andb]; [|by destruct (_ <? _)]. destruct (Z.ltb_spec x (Z.of_nat (S n))) as [Hx|Hx].
  - rewrite Ht, decide_True by lia. rewrite Z2Nat.id by done. destruct (lookup_lt_is_Some_2 (rk_tabs r) (Z.to_nat x)) as [t Et]; [lia|].
    rewrite Et. cbn [fmap option_fmap option_map]. unfold fixed at 2. destruct (Z.eqb_spec (s8 (tr_tabId t)) x) as [Ex|Ex].
    + rewrite (proj2 (Z.ltb_lt _ _)); [done|]. destruct (decide (x = Z.of_nat n)) as [->|]; [|lia].
      destruct (E4 _ _ Et) as [_ Hi]. rewrite Z2Nat.id, Z.ltb_irrefl in Hi by done. subst t. change (-1 = Z.of_nat n) in Ex. lia.
    + unfold fixed. by rewrite (proj2 (Z.eqb_neq _ _) Ex).
  - by rewrite (proj2 (Z.ltb_ge _ _)) by lia.
Qed.
Lemma guild_ok_new_tab d id g (n := length (gd_bankTabs g)) : guild_ok d id g -> (n < 8)%nat -> exists d',
  exec_statements ([CHAR_DEL_GUILD_BANK_TAB id (Z.of_nat n); CHAR_INS_GUILD_BANK_TAB id (Z.of_nat n)] ++
    concat ((fun r => (CreateMissingTabs id (Z.of_nat (S n)) r).2) <$> gd_ranks g)) d = Some d' /\
  guild_ok d' id (guild_set_ranks (made_ranks id (Z.of_nat (S n)) (gd_ranks g)) (guild_set_tabs (gd_bankTabs g ++ [new_tab]) g)) /\
  gdb_member d' = gdb_member d /\ forall j, j <> id -> same_rows d d' j.
Proof.
  intros [H2 H3 H5 H6 H7 H8 H9] Hn. rewrite gexec_app. cbn [exec_statements exec_statement]. cbn [gdb_tab gdb_set_tab].
  rewrite at_guild_eq, lookup_delete_eq. rewrite bool_decide_false by (by intros [? ?]). cbn [mbind option_bind].
  set (d1 := gdb_set_tab _ _). destruct (missing_rows id (S n) 0 (gd_ranks g) d1) as (d2 & -> & [E1 E2 E3 E4 E5] & Hr); [lia| |].
  { intros i r Hi. destruct (H5 i r Hi) as [R1 R2 R3 R4]. split_and!; try done. by apply (rank_bytes _ _ _ (H5 i r Hi)). }
  exists d2. split; [done|]. assert (forall j, j <> id -> gdb_tab d1 j = gdb_tab d j) as Ej.
  { intros j Hj. cbn. unfold at_guild. by rewrite !fn_lookup_insert_ne. }
  split; [|split; [done|]]; [|intros j Hj; unfold same_rows; by rewrite E1, E2, E4, E5, Ej by done].
  assert (forall j, at_index (made_ranks id (Z.of_nat (S n)) (gd_ranks g)) j = (fun r => (CreateMissingTabs id (Z.of_nat (S n)) r).1) <$> at_index (gd_ranks g) j) as Hmr.
  { intros j. unfold at_index, made_ranks. case_match; [apply list_lookup_fmap|done]. }
  split; cbn [gd_ranks gd_bankTabs guild_set_ranks guild_set_tabs]; rewrite ?length_app; cbn [length]; replace (Z.of_nat (length (gd_bankTabs g) + 1)) with (Z.of_nat (S n)) by lia.
  - unfold made_ranks. by rewrite length_fmap.
  - lia.
  - intros k r. unfold made_ranks. rewrite list_lookup_fmap. intros Hk. apply fmap_Some in Hk as (r0 & Hk & ->). apply made_rank_ok; [by apply H5|lia].
  - by rewrite E1.
  - intros k. rewrite E2, Hmr. change (gdb_rank d1 id) with (gdb_rank d id). rewrite H7. destruct (at_index (gd_ranks g) k) as [r|] eqn:Ek; [|done].
    apply at_index_Some in Ek as [Hk Ek]. destruct (H5 _ _ Ek) as [R1 R2 R3 R4]. cbn. f_equal.
    destruct (made_rank id r (S n) R3) as (tabs & -> & _); [lia|by apply (rank_bytes _ _ _ (H5 _ _ Ek))|done].
  - intros x j. rewrite Hr, Z.sub_0_r. change (gdb_right d1 id) with (gdb_right d id). unfold right_at. rewrite Hmr, H8. unfold right_at.
    destruct (at_index (gd_ranks g) j) as [r|] eqn:Ek; [|done]. apply at_index_Some in Ek as [Hk Ek]. pose proof (H5 _ _ Ek) as Hro.
    rewrite Z2Nat.id in Hro by lia. cbn [from_option mbind option_bind fmap option_fmap option_map]. by apply made_right.
  - intros i. rewrite E4. unfold d1. cbn. unfold at_guild. rewrite !fn_lookup_insert, at_index_app. fold n. destruct (decide (i = Z.of_nat n)) as [->|Hne].
    + by rewrite lookup_insert_eq.
    + by rewrite lookup_insert_ne, lookup_delete_ne, H9.
Qed.
Lemma CreateNewBankTab_gwp s id g : state_ok s -> gs_guilds s !! id = Some g -> len (gd_bankTabs g) < 8 ->
  gwp (CreateNewBankTab id) s (fun _ => state_ok).
Proof.
  intros Hs Hg Hn. pose proof (state_ok_guild s id g Hs Hg) as (_ & Hok & Hset). unfold CreateNewBankTab. eapply gwp_guild; [exact Hg|]. cbv zeta.
  rewrite (purchased _ _ _ Hok). eapply gwp_upd; [exact Hg|]. apply begin_gwp, append_gwp, append_gwp.
  destruct (guild_ok_new_tab (gs_db s) id g Hok) as (d & Ex & Hok' & Em & Ho); [lia|].
  replace (u8 (len (gd_bankTabs g) + 1)) with (Z.of_nat (S (length (gd_bankTabs g)))) by (rewrite uint_small; lia).
  apply gwp_last2. eapply wp_seq.
  - apply (missing_loop id _ [] (gd_ranks g) _ (guild_set_tabs (gd_bankTabs g ++ [new_tab]) g)); [cbn; by rewrite lookup_insert_eq|done].
  - eapply commit_gwp; [exact Ex|done|]. apply wp_ret. cbn. rewrite insert_insert_eq. eapply (state_ok_update s id g); try done.
    destruct Hset as [? ?]. split; [done|]. cbn. unfold made_ranks. by rewrite length_fmap.
Qed.

(** ** Bank, message, info, tabs *)

Lemma row_change_gwp {A} s id g f fr st (k : unit -> GP A) Q : state_ok s -> gs_guilds s !! id = Some g ->
  (forall d, exec_statement st d = Some (gdb_set_guild (alter fr id (gdb_guild d)) d)) -> (forall l x t, fr (row_of g l x t) = row_of (f g) l x t) ->
  gd_members (f g) = gd_members g -> gd_leaderGuid (f g) = gd_leaderGuid g -> gd_ranks (f g) = gd_ranks g -> gd_bankTabs (f g) = gd_bankTabs g ->
  (forall s', state_ok s' -> gwp (k tt) s' Q) -> gwp (upd_guild id f ≫= fun _ => Execute st ≫= k) s Q.
Proof.
  intros Hs Hg Hst Hfr Em El Er Et HQ. pose proof (state_ok_guild s id g Hs Hg) as (_ & Hok & Hl & Hn). eapply gwp_change; [exact Hg|apply Hst|].
  apply HQ. eapply state_ok_update; try done; [|by apply guild_ok_row with (g := g)|other_rows]. split; [by rewrite Em, El|by rewrite Er].
Qed.
Lemma HandleSetMOTD_gwp s id p motd : state_ok s -> is_Some (gs_guilds s !! id) -> gwp (HandleSetMOTD id p motd) s (fun _ => state_ok).
Proof.
  intros Hs [g Hg]. unfold HandleSetMOTD. eapply gwp_guild; [exact Hg|]. case_bool_decide; [done|]. destruct (negb _); [done|].
  by eapply row_change_gwp.
Qed.
Lemma HandleSetInfo_gwp s id p info : state_ok s -> is_Some (gs_guilds s !! id) -> gwp (HandleSetInfo id p info) s (fun _ => state_ok).
Proof.
  intros Hs [g Hg]. unfold HandleSetInfo. eapply gwp_guild; [exact Hg|]. case_bool_decide; [done|]. destruct (HasRankRight _ _ _); [|done].
  apply gwp_last2. by eapply row_change_gwp.
Qed.
Lemma tab_change_gwp {A} s id g (i : nat) t t' st (k : unit -> GP A) Q : state_ok s -> gs_guilds s !! id = Some g -> gd_bankTabs g !! i = Some t ->
  (exists f, f t = t' /\ forall d, exec_statement st d = Some (gdb_set_tab (at_guild id (alter f (Z.of_nat i)) (gdb_tab d)) d)) ->
  (forall s', state_ok s' -> gwp (k tt) s' Q) ->
  gwp (upd_guild id (guild_set_tabs (<[i := t']> (gd_bankTabs g))) ≫= fun _ => Execute st ≫= k) s Q.
Proof.
  intros Hs Hg Hi (f & Hf & Hst) HQ. pose proof (state_ok_guild s id g Hs Hg) as (_ & Hok & Hl). eapply gwp_change; [exact Hg|apply Hst|].
  apply HQ. eapply state_ok_update; try done; [by eapply guild_ok_tab|other_rows].
Qed.
Lemma GetBankTab_Some d id g k t : guild_ok d id g -> 0 <= k -> GetBankTab g k = Some t -> exists i, k = Z.of_nat i /\ gd_bankTabs g !! i = Some t.
Proof.
  intros Hok Hk. unfold GetBankTab. destruct (_ <? _); [|done]. intros Ht. exists (Z.to_nat k). by rewrite Z2Nat.id.
Qed.
Lemma gwp_state {A} (p : GP A) s (k : A -> GP unit) : gwp p s (fun _ => state_ok) -> (forall a s', state_ok s' -> gwp (k a) s' (fun _ => state_ok)) ->
  gwp (p ≫= k) s (fun _ => state_ok).
Proof. intros Hp Hk. apply wp_bind. eapply wp_mono; [exact Hp|]. intros a s'. apply Hk. Qed.
Lemma HandleSetBankTabInfo_gwp s id k name icon : state_ok s -> is_Some (gs_guilds s !! id) -> 0 <= k ->
  gwp (HandleSetBankTabInfo id k name icon) s (fun _ => state_ok).
Proof.
  intros Hs [g Hg] Hk. pose proof (state_ok_guild s id g Hs Hg) as (_ & Hok & _). unfold HandleSetBankTabInfo. eapply gwp_guild; [exact Hg|].
  destruct (GetBankTab g k) as [t|] eqn:Et; [|done]. destruct (GetBankTab_Some _ _ _ _ _ Hok Hk Et) as (i & -> & Hi). apply gwp_state; [|done].
  destruct (_ && _); [done|]. rewrite Nat2Z.id. apply gwp_last2. eapply tab_change_gwp; try done.
  exists (fun t => mkBankTab name icon (bt_text t)). done.
Qed.
Lemma SetBankTabText_gwp w s id k text : state_ok s -> is_Some (gs_guilds s !! id) -> 0 <= k -> gwp (SetBankTabText w id k text) s (fun _ => state_ok).
Proof.
  intros Hs [g Hg] Hk. pose proof (state_ok_guild s id g Hs Hg) as (_ & Hok & _). unfold SetBankTabText. eapply gwp_guild; [exact Hg|].
  destruct (GetBankTab g k) as [t|] eqn:Et; [|done]. destruct (GetBankTab_Some _ _ _ _ _ Hok Hk Et) as (i & -> & Hi). apply gwp_state; [|done].
  case_bool_decide; [done|]. rewrite Nat2Z.id. apply gwp_last2. eapply tab_change_gwp; try done.
  exists (fun t => mkBankTab (bt_name t) (bt_icon t) (wd_truncate w text)). done.
Qed.

(** ** Ranks *)

Lemma still_trans id g g' s : still id g' s -> length (gd_ranks g') = length (gd_ranks g) -> length (gd_bankTabs g') = length (gd_bankTabs g) -> still id g s.
Proof. intros (Hs & h & Hh & E1 & E2) E1' E2'. split; [done|]. exists h. split; [done|]. by rewrite E1, E2. Qed.
Lemma still_bind {A} id g (p : GP A) s (k : A -> GP unit) : gwp p s (fun _ => still id g) -> (forall a s' g', state_ok s' -> gs_guilds s' !! id = Some g' ->
  gwp (k a) s' (fun _ => state_ok)) -> gwp (p ≫= k) s (fun _ => state_ok).
Proof. intros Hp Hk. apply wp_bind. eapply wp_mono; [exact Hp|]. intros a s' (Hs' & g' & Hg' & _). by apply (Hk a s' g'). Qed.
Lemma HandleSetRankInfo_gwp s id p k name rights money l : state_ok s -> is_Some (gs_guilds s !! id) -> 0 <= k -> Forall tab_request l ->
  gwp (HandleSetRankInfo id p k name rights money l) s (fun _ => state_ok).
Proof.
  intros Hs [g Hg] Hk Hl. unfold HandleSetRankInfo. eapply gwp_guild; [exact Hg|]. destruct (negb _); [done|].
  destruct (GetRankInfo g k); [|done]. eapply still_bind; [by eapply SetName_gwp|]. intros [] s1 g1 Hs1 Hg1.
  eapply still_bind; [by eapply SetRights_gwp|]. intros [] s2 g2 Hs2 Hg2.
  eapply still_bind; [by eapply SetRankBankMoneyPerDay_gwp|]. intros [] s3 g3 Hs3 Hg3.
  eapply (still_bind id g3); [|done]. apply wp_forM; [by apply still_same|]. intros t s4 Ht (Hs4 & g4 & Hg4 & E1 & E2).
  eapply wp_mono; [eapply SetRankBankTab_gwp; [done|exact Hg4|done|by eapply Forall_forall in Hl]|].
  intros [] s5 H5. by eapply still_trans.
Qed.
Lemma HandleAddNewRank_gwp s id p name : state_ok s -> is_Some (gs_guilds s !! id) -> gwp (HandleAddNewRank id p name) s (fun _ => state_ok).
Proof.
  intros Hs [g Hg]. pose proof (state_ok_guild s id g Hs Hg) as (_ & Hok & Hl & Hn). unfold HandleAddNewRank. eapply gwp_guild; [exact Hg|].
  rewrite (ranks_size _ _ _ Hok). unfold GUILD_RANKS_MAX_COUNT. destruct (Z.leb_spec 10 (len (gd_ranks g))); [done|]. destruct (IsLeader g p); [|done].
  destruct Hs as [Hs Hset]. apply gwp_state; [|by intros [] s'].
  eapply wp_mono; [eapply CreateRank_gwp; [exact Hs|exact Hg|lia|intros E; rewrite E in Hn; cbn in Hn; lia]|].
  intros b s' (_ & Ht & EG & _). split; [exact Ht|]. rewrite EG. apply settled_map; [done|]. split; [done|]. cbn. rewrite length_app. cbn. lia.
Qed.
Lemma delete_end {A} (l : list A) (k : nat) j : length l = S k -> at_index (delete k l) j = if decide (j = Z.of_nat k) then None else at_index l j.
Proof.
  intros Hl. rewrite delete_take_drop, drop_ge, app_nil_r by lia. unfold at_index. destruct (Z.leb_spec 0 j); [|by case_decide].
  destruct (decide (j = Z.of_nat k)) as [->|Hne]; [apply lookup_ge_None_2; rewrite length_take; lia|].
  destruct (decide (j < Z.of_nat k)); [by rewrite lookup_take_lt by lia|]. rewrite lookup_take_ge by lia. by rewrite lookup_ge_None_2 by lia.
Qed.
(** The lowest rank is dropped, and its rows. *)
Lemma guild_ok_drop_rank d id g (k : nat) : guild_ok d id g -> length (gd_ranks g) = S k ->
  guild_ok (gdb_set_rank (at_guild id (delete (Z.of_nat k)) (gdb_rank d))
    (gdb_set_right (at_guild id (filter (fun e => e.1.2 <> Z.of_nat k)) (gdb_right d)) d)) id (guild_set_ranks (delete k (gd_ranks g)) g).
Proof.
  intros [H2 H3 H5 H6 H7 H8 H9] Hk. split; cbn; try done.
  - rewrite delete_take_drop, drop_ge, app_nil_r, length_take by lia. lia.
  - intros j r Hj. apply H5. rewrite delete_take_drop, drop_ge, app_nil_r in Hj by lia. by apply lookup_take_Some in Hj as [Hj _].
  - intros j. rewrite at_guild_eq, delete_end by done. destruct (decide (j = Z.of_nat k)) as [->|Hne]; [by rewrite lookup_delete_eq|].
    by rewrite lookup_delete_ne, H7.
  - intros x j. rewrite at_guild_eq. unfold right_at. rewrite delete_end by done. destruct (decide (j = Z.of_nat k)) as [->|Hne].
    + apply map_lookup_filter_None. right. intros y _. cbn. tauto.
    + rewrite map_lookup_filter, H8. unfold right_at.
      destruct (x0 ← at_index (gd_ranks g) j; _) as [v|] eqn:Ev; [|done]. cbn. by rewrite option_guard_True.
Qed.
(** Only the last rank goes. *)
Lemma HandleRemoveRank_gwp s id p k : state_ok s -> is_Some (gs_guilds s !! id) ->
  (forall g, gs_guilds s !! id = Some g -> GetLowestRankId g <= k) -> gwp (HandleRemoveRank id p k) s (fun _ => state_ok).
Proof.
  intros Hs [g Hg] Hk. pose proof (state_ok_guild s id g Hs Hg) as (_ & Hok & Hl & Hn). pose proof (ok_ranks_size _ _ _ Hok) as Hsz.
  specialize (Hk g Hg). unfold GetLowestRankId in Hk. rewrite uint_small in Hk by lia.
  unfold HandleRemoveRank. eapply gwp_guild; [exact Hg|]. rewrite (ranks_size _ _ _ Hok). unfold GUILD_RANKS_MIN_COUNT.
  destruct (Z.leb_spec (len (gd_ranks g)) 2); cbn [orb]; [done|]. destruct (Z.leb_spec (len (gd_ranks g)) k); cbn [orb]; [done|].
  destruct (negb _); [done|]. apply wp_modify, wp_modify. eapply gwp_upd; [exact Hg|].
  assert (k = Z.of_nat (length (gd_ranks g) - 1)) as -> by lia. rewrite Nat2Z.id.
  change (state_ok (gs_set_db (gdb_set_rank (at_guild id (delete (Z.of_nat (length (gd_ranks g) - 1))) (gdb_rank (gs_db s)))
    (gdb_set_right (at_guild id (filter (fun e => e.1.2 <> Z.of_nat (length (gd_ranks g) - 1))) (gdb_right (gs_db s))) (gs_db s)))
    (gs_set_guilds (<[id := guild_set_ranks (delete (length (gd_ranks g) - 1)%nat (gd_ranks g)) g]> (gs_guilds s)) s))).
  eapply (state_ok_update s id g); try done; [|apply guild_ok_drop_rank; [done|lia]|other_rows].
  split; [done|]. cbn. rewrite delete_take_drop, drop_ge, app_nil_r, length_take by lia. lia.
Qed.
