(* ===== verification/GuildMembers.v ===== *)
(** * Guilds: members come, go and change (model in Guild.v, GuildRequests.v)

    Ranks, notes and withdrawals of members, joining, leaving, disbanding and
    founding keep memory and tables in step. *)

From S2P Require Import Prelude.
From S2P Require Import Floats.
From S2P Require Import Economy.
From S2P Require Import EconomyProofs.
From S2P Require Import Guild.
From S2P Require Import GuildRequests.
From S2P Require Import GuildProofs.
From S2P Require Import GuildRanks.
From stdpp Require Import list sorting.
Local Open Scope Z_scope.
#[local] Set Warnings "-clear-no-such-hyp".

(** ** The tables when a member is put, dropped, or a guild goes *)

Lemma map_alter_insert {A} (f : A -> A) (i : Z) (m : gmap Z A) x : m !! i = Some x -> alter f i m = <[i := f x]> m.
Proof.
  intros Hi. apply map_eq. intros j. destruct (decide (j = i)) as [->|Hne]; [by rewrite lookup_alter_eq, lookup_insert_eq, Hi|].
  by rewrite lookup_alter_ne, lookup_insert_ne.
Qed.
Lemma guild_ok_members d id g F : guild_ok d id g -> guild_ok d id (guild_set_members F g).
Proof. by intros [? ? ? ? ? ? ?]. Qed.
Lemma guild_ok_member_rows d F id g : guild_ok d id g -> guild_ok (gdb_set_member F d) id g.
Proof. by apply guild_ok_same. Qed.

Definition put_row (id guid : Z) (m : Member) (d : GuildDB) : GuildDB := gdb_set_member (<[guid := member_row id m]> (gdb_member d)) d.
Definition drop_row (guid : Z) (d : GuildDB) : GuildDB := gdb_set_member (delete guid (gdb_member d)) d.
Definition put_member (guid : Z) (m : Member) (g : Guild) : Guild := guild_set_members (<[guid := m]> (gd_members g)) g.
Definition drop_member (guid : Z) (g : Guild) : Guild := guild_set_members (delete guid (gd_members g)) g.

(** What is done to the fields of one player. *)
Lemma fields_alter (P : gmap Z GuildFields) d d' guid f : (forall p x, P !! p = Some x -> fields_ok d p x) ->
  (forall p, p <> guid -> gdb_member d' !! p = gdb_member d !! p) -> (forall y, P !! guid = Some y -> fields_ok d' guid (f y)) ->
  forall p x, alter f guid P !! p = Some x -> is_Some (P !! p) /\ fields_ok d' p x.
Proof.
  intros HP Ho Hf p x Hx. destruct (decide (p = guid)) as [->|Hne].
  - rewrite lookup_alter_eq in Hx. apply fmap_Some in Hx as (y & Hy & ->). split; [by exists y|by apply Hf].
  - rewrite lookup_alter_ne in Hx by done. split; [by exists x|]. unfold fields_ok. rewrite Ho by done. by apply HP.
Qed.

Section Tables.
Context (G : gmap Z Guild) (n : Z) (P : gmap Z GuildFields) (d : GuildDB) (online : gmap Z Player).
Hypothesis HG : guilds_ok G n P d online.

(** Nobody is in two guilds. *)
Lemma member_row_of id g guid m : G !! id = Some g -> gd_members g !! guid = Some m -> gdb_member d !! guid = Some (member_row id m).
Proof. intros Hg Hm. apply (gi_members _ _ _ _ _ HG). by exists g, m. Qed.
Lemma member_here id g guid m row : G !! id = Some g -> gd_members g !! guid = Some m -> gdb_member d !! guid = Some row -> mw_guildid row = id.
Proof. intros Hg Hm Hr. rewrite (member_row_of id g guid m Hg Hm) in Hr. by injection Hr as <-. Qed.

Lemma guilds_ok_put id g guid m P' : G !! id = Some g -> 0 <= guid < 2 ^ 32 ->
  (forall row, gdb_member d !! guid = Some row -> mw_guildid row = id) ->
  (forall p f, P' !! p = Some f -> is_Some (P !! p) /\ fields_ok (put_row id guid m d) p f) ->
  guilds_ok (<[id := put_member guid m g]> G) n P' (put_row id guid m d) online.
Proof.
  intros Hg Hguid Hrow HP. destruct HG as [H1 H2 H3 H4 H5 H6]. split; [| | | | |done].
  - intros j h Hj. apply lookup_insert_Some in Hj as [[<- <-]|[_ Hj]]; (split; [by eapply H1|]).
    + apply guild_ok_members, guild_ok_member_rows. by apply H1.
    + apply guild_ok_member_rows. by apply H1.
  - intros j Hj. apply lookup_insert_None in Hj as [Hj _]. eapply no_rows_same; [|by apply H2]. done.
  - intros p row. cbn. destruct (decide (p = guid)) as [->|Hne].
    + rewrite lookup_insert_eq. split.
      * intros [= <-]. exists (put_member guid m g), m. cbn. by rewrite !lookup_insert_eq.
      * intros (h & m' & Hh & Hm & E). apply lookup_insert_Some in Hh as [[Eid <-]|[Hne Hh]].
        -- cbn in Hm. rewrite lookup_insert_eq in Hm. injection Hm as <-. by rewrite E, <- Eid.
        -- exfalso. apply Hne. symmetry. apply Hrow, H3. by exists h, m'.
    + rewrite lookup_insert_ne, H3 by done. unfold member_of. split; intros (h & m' & Hh & Hm & E).
      * destruct (decide (mw_guildid row = id)) as [E'|Hne'].
        -- exists (put_member guid m g), m'. rewrite E' in *. rewrite Hg in Hh. injection Hh as <-. cbn. by rewrite lookup_insert_eq, lookup_insert_ne.
        -- exists h, m'. by rewrite lookup_insert_ne by congruence.
      * apply lookup_insert_Some in Hh as [[E' <-]|[_ Hh]]; [|by exists h, m']. cbn in Hm. rewrite lookup_insert_ne in Hm by done.
        exists g, m'. rewrite <- E'. by rewrite <- E' in E.
  - intros p f Hf. destruct (HP p f Hf) as [[f' Hf'] Hok]. split; [done|by eapply H4].
  - intros p [Hp|Hp]; [destruct Hp as [f Hf]; apply H5; left; by eapply HP|]. cbn in Hp. apply lookup_insert_is_Some in Hp as [<-|[_ Hp]]; [done|]. apply H5. by right.
Qed.
Lemma guilds_ok_drop id g guid P' : G !! id = Some g -> (forall row, gdb_member d !! guid = Some row -> mw_guildid row = id) ->
  (forall p f, P' !! p = Some f -> is_Some (P !! p) /\ fields_ok (drop_row guid d) p f) ->
  guilds_ok (<[id := drop_member guid g]> G) n P' (drop_row guid d) online.
Proof.
  intros Hg Hrow HP. destruct HG as [H1 H2 H3 H4 H5 H6]. split; [| | | | |done].
  - intros j h Hj. apply lookup_insert_Some in Hj as [[<- <-]|[_ Hj]]; (split; [by eapply H1|]).
    + apply guild_ok_members, guild_ok_member_rows. by apply H1.
    + apply guild_ok_member_rows. by apply H1.
  - intros j Hj. apply lookup_insert_None in Hj as [Hj _]. eapply no_rows_same; [|by apply H2]. done.
  - intros p row. cbn. destruct (decide (p = guid)) as [->|Hne].
    + rewrite lookup_delete_eq. split; [done|]. intros (h & m' & Hh & Hm & E). apply lookup_insert_Some in Hh as [[Eid <-]|[Hne Hh]].
      * cbn in Hm. by rewrite lookup_delete_eq in Hm.
      * exfalso. apply Hne. symmetry. apply Hrow, H3. by exists h, m'.
    + rewrite lookup_delete_ne, H3 by done. unfold member_of. split; intros (h & m' & Hh & Hm & E).
      * destruct (decide (mw_guildid row = id)) as [E'|Hne'].
        -- exists (drop_member guid g), m'. rewrite E' in *. rewrite Hg in Hh. injection Hh as <-. cbn. by rewrite lookup_insert_eq, lookup_delete_ne.
        -- exists h, m'. by rewrite lookup_insert_ne by congruence.
      * apply lookup_insert_Some in Hh as [[E' <-]|[_ Hh]]; [|by exists h, m']. cbn in Hm. rewrite lookup_delete_ne in Hm by done.
        exists g, m'. rewrite <- E'. by rewrite <- E' in E.
  - intros p f Hf. destruct (HP p f Hf) as [[f' Hf'] Hok]. split; [done|by eapply H4].
  - intros p [Hp|Hp]; [destruct Hp as [f Hf]; apply H5; left; by eapply HP|]. cbn in Hp. apply lookup_delete_is_Some in Hp as [_ Hp]. apply H5. by right.
Qed.
(** A guild without members goes, with its rows. *)
Lemma guilds_ok_delete id g d' : G !! id = Some g -> gd_members g = ∅ -> no_rows d' id -> gdb_member d' = gdb_member d ->
  (forall j, j <> id -> same_rows d d' j) -> guilds_ok (delete id G) n P d' online.
Proof.
  intros Hg Em Hno Ed Hs. destruct HG as [H1 H2 H3 H4 H5 H6]. split; [| | | | |done].
  - intros j h Hj. apply lookup_delete_Some in Hj as [Hne Hj]. split; [by eapply H1|]. eapply guild_ok_same; [by apply Hs, not_eq_sym|]. by apply H1.
  - intros j Hj. destruct (decide (j = id)) as [->|Hne]; [done|]. rewrite lookup_delete_ne in Hj by done. eapply no_rows_same; [by apply Hs|]. by apply H2.
  - intros p row. rewrite Ed, H3. unfold member_of. split; intros (h & m & Hh & Hm & E); exists h, m.
    + rewrite lookup_delete_ne; [done|]. intros E'. rewrite <- E', Hg in Hh. injection Hh as <-. by rewrite Em in Hm.
    + by apply lookup_delete_Some in Hh as [_ Hh].
  - intros p f Hf. unfold fields_ok. rewrite Ed. by apply H4.
  - rewrite Ed. exact H5.
Qed.
End Tables.

(** ** Ranks, notes, withdrawals *)

Lemma tables_fields s p f : tables_ok s -> gs_players s !! p = Some f -> fields_ok (gs_db s) p f.
Proof. intros Hs Hf. by apply (gi_players _ _ _ _ _ Hs). Qed.
(** A member of a guild changes, and the row of him, and his fields if he is online. *)
Lemma tables_put s id g guid m f r : tables_ok s -> gs_guilds s !! id = Some g -> is_Some (gd_members g !! guid) ->
  (forall y, gf_GuildId (f y) = gf_GuildId y) -> (forall y, gs_players s !! guid = Some y -> gf_Rank (f y) = mb_rankId m) -> r = put_row id guid m (gs_db s) ->
  tables_ok (gs_set_db r (gs_set_players (alter f guid (gs_players s)) (gs_set_guilds (<[id := put_member guid m g]> (gs_guilds s)) s))).
Proof.
  intros Hs Hg [m0 Hm0] Hfid Hfr ->. pose proof (member_row_of _ _ _ _ _ Hs id g guid m0 Hg Hm0) as Hrow.
  apply (guilds_ok_put _ _ _ _ _ Hs); [done| |intros row; by apply (member_here _ _ _ _ _ Hs id g guid m0)|].
  - apply (gi_guids _ _ _ _ _ Hs). right. by eexists.
  - apply (fields_alter _ (gs_db s)); [intros p x; by apply tables_fields|intros p Hp; by apply lookup_insert_ne|].
    intros y Hy. pose proof (tables_fields _ _ _ Hs Hy) as Hf. unfold fields_ok in Hf |- *. rewrite Hrow in Hf. destruct Hf as [E1 E2].
    cbn. rewrite lookup_insert_eq. split; [by rewrite Hfid|by apply Hfr].
Qed.
Lemma ChangeRank_gwp {A} s id g guid m r (k : unit -> GP A) Q : tables_ok s -> gs_guilds s !! id = Some g -> gd_members g !! guid = Some m ->
  (forall s', tables_ok s' -> gs_guilds s' = <[id := put_member guid (member_set_rank r m) g]> (gs_guilds s) -> gwp (k tt) s' Q) ->
  gwp (ChangeRank id guid r ≫= k) s Q.
Proof.
  intros Hs Hg Hm HQ. apply wp_bind. unfold ChangeRank, upd_member. eapply gwp_upd; [exact Hg|]. apply wp_modify.
  rewrite (map_alter_insert _ _ _ m) by done. unfold Execute. cbn. apply HQ; [|done].
  eapply (tables_put s id g guid (member_set_rank r m) (fields_set_rank r)); try done. unfold put_row. cbn.
  by rewrite (map_alter_insert _ _ _ _ (member_row_of _ _ _ _ _ Hs id g guid m Hg Hm)).
Qed.
Lemma put_member_settled g guid m : settled g -> settled (put_member guid m g).
Proof. intros [Hl Hn]. split; [|done]. cbn. apply lookup_insert_is_Some. destruct (decide (guid = gd_leaderGuid g)); [by left|by right]. Qed.
Lemma settled_put (G : gmap Z Guild) id g guid m : map_Forall (fun _ => settled) G -> G !! id = Some g -> map_Forall (fun _ => settled) (<[id := put_member guid m g]> G).
Proof. intros HG Hg. apply settled_map; [done|]. apply put_member_settled. by apply (HG id). Qed.
Lemma ChangeRank_state {A} s id g guid m r (k : unit -> GP A) Q : state_ok s -> gs_guilds s !! id = Some g -> gd_members g !! guid = Some m ->
  (forall s', state_ok s' -> gwp (k tt) s' Q) -> gwp (ChangeRank id guid r ≫= k) s Q.
Proof.
  intros [Hs Hset] Hg Hm HQ. eapply ChangeRank_gwp; [done..|]. intros s' Hs' EG. apply HQ. split; [done|]. rewrite EG. by apply settled_put.
Qed.
Lemma alter_rank_same s p m : tables_ok s -> (exists id g, gs_guilds s !! id = Some g /\ gd_members g !! p = Some m) ->
  alter (fields_set_rank (mb_rankId m)) p (gs_players s) = gs_players s.
Proof.
  intros Hs (id & g & Hg & Hm). apply map_eq. intros q. destruct (decide (q = p)) as [->|Hne]; [|by rewrite lookup_alter_ne].
  rewrite lookup_alter_eq. destruct (gs_players s !! p) as [f|] eqn:Ef; [|done]. cbn. f_equal.
  pose proof (tables_fields _ _ _ Hs Ef) as Hf. unfold fields_ok in Hf. rewrite (member_row_of _ _ _ _ _ Hs id g p m Hg Hm) in Hf. destruct Hf as [_ E].
  destruct f as [a b c e]. cbn in E |- *. unfold fields_set_rank. cbn. by rewrite E.
Qed.
(** A change that leaves the rank alone. *)
Lemma put_same_rank s id g guid m m' d : state_ok s -> gs_guilds s !! id = Some g -> gd_members g !! guid = Some m -> mb_rankId m' = mb_rankId m ->
  d = put_row id guid m' (gs_db s) -> state_ok (gs_set_db d (gs_set_guilds (<[id := put_member guid m' g]> (gs_guilds s)) s)).
Proof.
  intros [Hs Hset] Hg Hm Er ->. split; [|by apply settled_put].
  pose proof (tables_put s id g guid m' (fields_set_rank (mb_rankId m)) _ Hs Hg (mk_is_Some _ _ Hm) (fun _ => eq_refl) (fun _ _ => eq_sym Er) eq_refl) as H.
  rewrite (alter_rank_same s guid m) in H; [exact H|done|by exists id, g].
Qed.
Lemma SetPublicNote_gwp s id g guid note : state_ok s -> gs_guilds s !! id = Some g -> is_Some (gd_members g !! guid) ->
  gwp (SetPublicNote id guid note) s (fun _ => state_ok).
Proof.
  intros Hs Hg [m Hm]. unfold SetPublicNote. eapply gwp_guild; [exact Hg|]. rewrite Hm. case_bool_decide; [done|].
  apply gwp_last2. unfold upd_member. eapply gwp_change; [exact Hg|done|]. apply wp_ret. rewrite (map_alter_insert _ _ _ m) by done.
  eapply (put_same_rank s id g guid m); try done. unfold put_row. destruct Hs as [Hs _].
  by rewrite (map_alter_insert _ _ _ _ (member_row_of _ _ _ _ _ Hs id g guid m Hg Hm)).
Qed.
Lemma SetOfficerNote_gwp s id g guid note : state_ok s -> gs_guilds s !! id = Some g -> is_Some (gd_members g !! guid) ->
  gwp (SetOfficerNote id guid note) s (fun _ => state_ok).
Proof.
  intros Hs Hg [m Hm]. unfold SetOfficerNote. eapply gwp_guild; [exact Hg|]. rewrite Hm. case_bool_decide; [done|].
  apply gwp_last2. unfold upd_member. eapply gwp_change; [exact Hg|done|]. apply wp_ret. rewrite (map_alter_insert _ _ _ m) by done.
  eapply (put_same_rank s id g guid m); try done. unfold put_row. destruct Hs as [Hs _].
  by rewrite (map_alter_insert _ _ _ _ (member_row_of _ _ _ _ _ Hs id g guid m Hg Hm)).
Qed.
Lemma SetLeaderGUID_gwp {A} s id g guid m (k : unit -> GP A) Q : state_ok s -> gs_guilds s !! id = Some g -> gd_members g !! guid = Some m ->
  (forall s', state_ok s' -> gs_guilds s' = <[id := put_member guid (member_set_rank GR_GUILDMASTER m) (guild_set_leader guid g)]> (gs_guilds s) -> gwp (k tt) s' Q) ->
  gwp (SetLeaderGUID id guid ≫= k) s Q.
Proof.
  intros Hs Hg Hm HQ. pose proof (state_ok_guild s id g Hs Hg) as (_ & Hok & Hset). apply wp_bind. unfold SetLeaderGUID.
  eapply gwp_upd; [exact Hg|]. apply wp_bind. unfold ChangeRank, upd_member. eapply gwp_upd; [cbn; by rewrite lookup_insert_eq|]. apply wp_modify.
  cbn. rewrite (map_alter_insert _ _ _ m) by done. unfold Execute, Prelude.wp. cbn. rewrite insert_insert_eq. 
  set (s1 := gs_set_db (gdb_set_guild (alter (guild_row_leader guid) id (gdb_guild (gs_db s))) (gs_db s)) (gs_set_guilds (<[id := guild_set_leader guid g]> (gs_guilds s)) s)).
  assert (state_ok s1) as Hs1.
  { eapply state_ok_update; try done; [split; [by exists m|by apply Hset]| |other_rows]. by apply guild_ok_row with (g := g). }
  pose proof (tables_put s1 id (guild_set_leader guid g) guid (member_set_rank GR_GUILDMASTER m) (fields_set_rank GR_GUILDMASTER)
    (put_row id guid (member_set_rank GR_GUILDMASTER m) (gs_db s1)) (proj1 Hs1)) as Hput.
  apply HQ; [|done]. split.
  - unfold s1 in Hput. cbn in Hput. rewrite lookup_insert_eq, insert_insert_eq in Hput.
    rewrite (map_alter_insert _ _ _ _ (member_row_of _ _ _ _ _ (proj1 Hs) id g guid m Hg Hm)). by eapply Hput.
  - cbn. apply settled_map; [apply Hs|]. split; [cbn; by rewrite lookup_insert_eq; eexists|apply Hset].
Qed.

(** ** Joining *)

Lemma lopart_small guid : 0 <= guid < 2 ^ 32 -> GUID_LOPART guid = guid.
Proof. intros H. by apply uint_small. Qed.
Lemma member_id_pos s p row : tables_ok s -> gdb_member (gs_db s) !! p = Some row -> 0 < mw_guildid row /\ is_Some (gs_guilds s !! mw_guildid row).
Proof.
  intros Hs Hr. apply (gi_members _ _ _ _ _ Hs) in Hr as (g & m & Hg & _). split; [|by exists g]. by apply (gi_guild _ _ _ _ _ Hs) in Hg as [[? ?] _].
Qed.
(** Who is in no guild has no row. *)
Lemma no_guild s p f : tables_ok s -> gs_players s !! p = Some f -> gf_GuildId f = 0 -> gdb_member (gs_db s) !! p = None.
Proof.
  intros Hs Hf E. pose proof (tables_fields _ _ _ Hs Hf) as H. unfold fields_ok in H. destruct (gdb_member (gs_db s) !! p) as [row|] eqn:Er; [|done].
  destruct (member_id_pos s p row Hs Er). destruct H. lia.
Qed.
Lemma tables_accounts s id g v : tables_ok s -> gs_guilds s !! id = Some g -> tables_ok (gs_set_guilds (<[id := guild_set_accounts v g]> (gs_guilds s)) s).
Proof.
  intros Hs Hg. unfold tables_ok. eapply (guilds_ok_update _ _ _ (gs_db s) _ id g); try done.
  apply (gi_guild _ _ _ _ _ Hs) in Hg as [_ [? ? ? ? ? ? ?]]. by split.
Qed.
Lemma UpdateAccountsNumber_gwp {A} w s id g (k : unit -> GP A) Q : tables_ok s -> gs_guilds s !! id = Some g ->
  (forall v s', tables_ok s' -> s' = gs_set_guilds (<[id := guild_set_accounts v g]> (gs_guilds s)) s -> gwp (k tt) s' Q) ->
  gwp (UpdateAccountsNumber w id ≫= k) s Q.
Proof. intros Hs Hg HQ. unfold UpdateAccountsNumber. eapply gwp_upd; [exact Hg|]. eapply HQ; [|done]. by apply tables_accounts. Qed.

Lemma AddMember_gwp w s id g guid rankId : tables_ok s -> gs_guilds s !! id = Some g -> 0 <= guid < 2 ^ 32 ->
  gwp (AddMember w id guid rankId) s (fun b s' => if b then tables_ok s' /\ gs_NextGuildId s' = gs_NextGuildId s /\
      exists rk v, gs_guilds s' = <[id := guild_set_accounts v (put_member guid (new_member rk) g)]> (gs_guilds s)
    else s' = s /\ forall f, gs_players s !! guid = Some f -> gf_GuildId f <> 0).
Proof.
  intros Hs Hg Hguid. unfold AddMember. apply wp_get. cbv zeta. rewrite lopart_small by done.
  set (b := match gs_players s !! guid with Some f => _ | None => _ end). destruct b eqn:Eb; unfold b in Eb.
  { apply wp_ret. split; [done|]. intros f Hf E. rewrite Hf, E in Eb. done. }
  eapply gwp_guild; [exact Hg|]. set (rk := if rankId =? _ then _ else _).
  destruct (negb (is_online s guid) && negb (wd_character w guid)) eqn:Ec.
  { apply wp_ret. split; [done|]. intros f Hf. apply andb_true_iff in Ec as [Ec _]. unfold is_online in Ec. by rewrite Hf in Ec. }
  assert (gdb_member (gs_db s) !! guid = None) as Hnone.
  { destruct (gs_players s !! guid) as [f|] eqn:Ef.
    - apply (no_guild s guid f); try done. by destruct (Z.eqb_spec (gf_GuildId f) 0).
    - destruct (gdb_member (gs_db s) !! guid) as [row|] eqn:Er; [|done]. destruct (member_id_pos s guid row Hs Er) as [? _].
      cbn in Eb. destruct (Z.eqb_spec (mw_guildid row) 0); [lia|done]. }
  eapply gwp_upd; [exact Hg|]. apply wp_modify. unfold Execute at 1. apply wp_modify. cbn. rewrite Hnone, bool_decide_false by (by intros [? ?]). cbn.
  eapply UpdateAccountsNumber_gwp; [|cbn; by rewrite lookup_insert_eq|].
  - cbn. unfold tables_ok. cbn. change (gdb_set_member _ _) with (put_row id guid (new_member rk) (gs_db s)).
    apply (guilds_ok_put _ _ _ _ _ Hs id g guid (new_member rk)); [done|done|by rewrite Hnone|].
    apply (fields_alter _ (gs_db s)); [intros p x; by apply tables_fields|intros p Hp; by apply lookup_insert_ne|].
    intros y _. unfold fields_ok. cbn. by rewrite lookup_insert_eq.
  - intros v s' Hs' Es'. apply wp_modify, wp_ret. subst s'. split; [done|]. split; [done|]. exists rk, v. cbn. by rewrite insert_insert_eq.
Qed.

(** ** Leaving *)

Lemma drop_member_settled g guid : settled g -> guid <> gd_leaderGuid g -> settled (drop_member guid g).
Proof. intros [Hl Hn] Hne. split; [|done]. cbn. by rewrite lookup_delete_ne. Qed.
(** [remove_member] up to the count of accounts. *)
Lemma tables_drop s id g guid : tables_ok s -> gs_guilds s !! id = Some g ->
  (forall row, gdb_member (gs_db s) !! guid = Some row -> mw_guildid row = id) ->
  tables_ok (gs_set_db (drop_row guid (gs_db s)) (gs_set_players (alter (fun f => fields_set_level 0 (fields_set_rank 0 (fields_set_guild 0 f))) guid (gs_players s))
    (gs_set_guilds (<[id := drop_member guid g]> (gs_guilds s)) s))).
Proof.
  intros Hs Hg Hrow. apply (guilds_ok_drop _ _ _ _ _ Hs id g guid); [done|done|].
  apply (fields_alter _ (gs_db s)); [intros p x; by apply tables_fields|intros p Hp; by apply lookup_delete_ne|].
  intros y _. unfold fields_ok. cbn. by rewrite lookup_delete_eq.
Qed.
Lemma remove_member_gwp {A} w s id g guid (k : unit -> GP A) Q : tables_ok s -> gs_guilds s !! id = Some g -> 0 <= guid < 2 ^ 32 ->
  (forall row, gdb_member (gs_db s) !! guid = Some row -> mw_guildid row = id) ->
  (forall v s', tables_ok s' -> gs_guilds s' = <[id := guild_set_accounts v (drop_member guid g)]> (gs_guilds s) -> gwp (k tt) s' Q) ->
  gwp (remove_member w id guid false ≫= k) s Q.
Proof.
  intros Hs Hg Hguid Hrow HQ. apply wp_bind. unfold remove_member. rewrite lopart_small by done. eapply gwp_upd; [exact Hg|].
  apply wp_modify, wp_modify. cbn. apply gwp_last. eapply UpdateAccountsNumber_gwp; [|cbn; by rewrite lookup_insert_eq|].
  - by apply tables_drop.
  - intros v s' Hs' ->. apply wp_ret, (HQ v); [done|]. cbn. by rewrite insert_insert_eq.
Qed.
Lemma remove_disbanding_gwp w s id g guid Q : tables_ok s -> gs_guilds s !! id = Some g -> 0 <= guid < 2 ^ 32 ->
  (forall row, gdb_member (gs_db s) !! guid = Some row -> mw_guildid row = id) ->
  (forall s', tables_ok s' -> gs_guilds s' = <[id := drop_member guid g]> (gs_guilds s) -> Q tt s') -> gwp (remove_member w id guid true) s Q.
Proof.
  intros Hs Hg Hguid Hrow HQ. unfold remove_member. rewrite lopart_small by done. eapply gwp_upd; [exact Hg|].
  apply wp_modify, wp_modify. cbn. apply HQ; [by apply tables_drop|done].
Qed.

Section Leaving.
Context (w : GuildWorld) (Horder : forall M, wd_order w M ≡ₚ map_to_list M).

Lemma order_lookup M p m : (p, m) ∈ wd_order w M <-> M !! p = Some m.
Proof. by rewrite Horder, elem_of_map_to_list. Qed.
Lemma disband_loop id l : forall s g, tables_ok s -> gs_guilds s !! id = Some g -> NoDup l.*1 -> (forall p m, gd_members g !! p = Some m <-> (p, m) ∈ l) ->
  gwp (forM l (fun e => remove_member w id e.1 true)) s (fun _ s' => tables_ok s' /\
    exists g', gs_guilds s' = <[id := g']> (gs_guilds s) /\ gd_members g' = ∅).
Proof.
  induction l as [|[p m] l IH]; intros s g Hs Hg Hnd Hl; cbn [forM].
  - apply wp_ret. split; [done|]. exists g. rewrite insert_id by done. split; [done|]. apply map_empty. intros p.
    destruct (gd_members g !! p) as [m|] eqn:E; [|done]. apply Hl in E. by apply elem_of_nil in E.
  - apply NoDup_cons in Hnd as [Hp Hnd]. assert (gd_members g !! p = Some m) as Hm by (apply Hl; by left).
    apply wp_bind. eapply remove_disbanding_gwp; [exact Hs|exact Hg| |by intros row; eapply member_here|].
    { apply (gi_guids _ _ _ _ _ Hs). right. eexists. by eapply member_row_of. }
    intros s' Hs' EG. eapply wp_mono; [eapply (IH s' (drop_member p g)); [done|by rewrite EG, lookup_insert_eq|done|]|].
    + intros q n. cbn. rewrite lookup_delete_Some, Hl, elem_of_cons. split; [by intros [? [[= -> ->]|?]]|].
      intros Hin. split; [|by right]. intros <-. apply Hp. apply list_elem_of_fmap. by exists (p, n).
    + intros _ s2 (Hs2 & g' & EG2 & Em). split; [done|]. exists g'. by rewrite EG2, EG, insert_insert_eq.
Qed.
Lemma Disband_gwp s id : state_ok s -> is_Some (gs_guilds s !! id) -> gwp (Disband w id) s (fun _ s' => state_ok s' /\ gs_guilds s' = delete id (gs_guilds s)).
Proof.
  intros [Hs Hset] [g Hg]. unfold Disband. apply wp_modify. eapply gwp_guild; [exact Hg|]. apply wp_bind.
  eapply wp_mono; [apply (disband_loop id _ _ g); [exact Hs|exact Hg| |by intros p m; rewrite order_lookup]|].
  { rewrite Horder. apply NoDup_fst_map_to_list. }
  intros [] s1 (Hs1 & g' & EG & Em). cbn beta in *. apply begin_gwp, appends_gwp. eapply commit_gwp; [done|done|].
  assert (forall s', gs_guilds s' = delete id (gs_guilds s) -> tables_ok s' -> state_ok s' /\ gs_guilds s' = delete id (gs_guilds s)) as Hfin.
  { intros s' E Ht. split; [|done]. split; [done|]. rewrite E. by apply map_Forall_delete. }
  assert (delete id (gs_guilds s1) = delete id (gs_guilds s)) as Edel by (by rewrite EG, delete_insert_eq).
  apply Hfin; [done|]. eapply (guilds_ok_delete _ _ _ _ _ Hs1 id g'); [by rewrite EG, lookup_insert_eq|done| |done|cbn].
  - unfold no_rows. cbn. rewrite !at_guild_eq, lookup_delete_eq. done.
  - intros j Hj. unfold same_rows. cbn. rewrite lookup_delete_ne, !at_guild_ne by done. done.
Qed.
Lemma guild_leader_in lowguid l e : pick_leader lowguid l = Some e -> e ∈ l /\ e.1 <> lowguid.
Proof.
  unfold pick_leader. induction l as [|x l IH] using rev_ind; [done|]. rewrite foldl_app. cbn. destruct (Z.eqb_spec x.1 lowguid) as [E|E].
  - intros H. destruct (IH H). split; [|done]. apply elem_of_app. by left.
  - destruct (foldl _ _ _) as [b|] eqn:Eb.
    + case_match; intros [= <-]; [split; [apply elem_of_app; right; by left|done]|]. destruct (IH eq_refl). split; [|done]. apply elem_of_app. by left.
    + intros [= <-]. split; [apply elem_of_app; right; by left|done].
Qed.
Lemma DeleteMember_gwp s id g guid : state_ok s -> gs_guilds s !! id = Some g -> 0 <= guid < 2 ^ 32 ->
  (forall row, gdb_member (gs_db s) !! guid = Some row -> mw_guildid row = id) -> gwp (DeleteMember w id guid) s (fun _ => state_ok).
Proof.
  intros Hs Hg Hguid Hrow. pose proof (state_ok_guild s id g Hs Hg) as (_ & _ & Hset). unfold DeleteMember. eapply gwp_guild; [exact Hg|].
  destruct (Z.eqb_spec (gd_leaderGuid g) guid) as [El|El].
  - rewrite lopart_small by done. destruct (pick_leader guid (wd_order w (gd_members g))) as [[p m]|] eqn:Ep.
    + apply guild_leader_in in Ep as [Hin Hne]. apply order_lookup in Hin. cbn in Hne. cbn [fst]. eapply SetLeaderGUID_gwp; [done..|].
      intros s1 [Hs1 Hset1] EG. apply wp_modify.
      assert (alter (fields_set_rank GR_GUILDMASTER) p (gs_players s1) = gs_players s1) as Ealt.
      { apply (alter_rank_same s1 p (member_set_rank GR_GUILDMASTER m) Hs1). eexists id, _. rewrite EG, lookup_insert_eq. split; [done|]. cbn. by rewrite lookup_insert_eq. }
      rewrite Ealt. set (s1' := gs_set_players (gs_players s1) s1). assert (tables_ok s1' /\ gdb_member (gs_db s1') = gdb_member (gs_db s1)) as [Hs1' Ed] by done.
      apply wp_bind. eapply (wp_mono _ _ _ (fun _ s2 => tables_ok s2 /\ gs_db s2 = gs_db s1 /\ gs_guilds s2 = gs_guilds s1)); [by case_bool_decide|].
      intros [] s2 (Hs2 & Ed2 & EG2). apply gwp_last. eapply remove_member_gwp; [done|by rewrite EG2, EG, lookup_insert_eq|done| |].
      * rewrite Ed2. intros row Hr. destruct (member_id_pos s1 guid row Hs1 Hr) as [_ _]. apply (gi_members _ _ _ _ _ Hs1) in Hr as (h & m' & Hh & Hm' & E).
        destruct (decide (mw_guildid row = id)) as [|Hid]; [done|]. rewrite EG, lookup_insert_ne in Hh by done.
        apply Hrow. apply (gi_members _ _ _ _ _ (proj1 Hs)). by exists h, m'.
      * intros v s3 Hs3 EG3. apply wp_ret. split; [done|]. rewrite EG3, EG2, EG, insert_insert_eq. apply settled_map; [apply Hs|].
        split; [|apply Hset]. cbn. rewrite lookup_delete_ne, lookup_insert_eq by congruence. by eexists.
    + eapply wp_mono; [apply Disband_gwp; [done|by exists g]|]. by intros _ s' [H _].
  - apply gwp_last. destruct Hs as [Hs HsetG]. eapply remove_member_gwp; [done..|]. intros v s' Hs' EG. apply wp_ret. split; [done|]. rewrite EG.
    apply settled_map; [done|]. destruct (drop_member_settled g guid Hset (not_eq_sym El)). done.
Qed.
End Leaving.

(** ** Founding *)

Lemma tables_same_rows s d : tables_ok s -> gdb_member d = gdb_member (gs_db s) -> (forall j, same_rows (gs_db s) d j) -> tables_ok (gs_set_db d s).
Proof.
  intros [H1 H2 H3 H4 H5 H6] Ed Hs. split; cbn; rewrite ?Ed; try done.
  - intros id g Hg. destruct (H1 id g Hg) as [? Hok]. split; [done|]. by eapply guild_ok_same.
  - intros id Hg. eapply no_rows_same; [done|by apply H2].
  - intros p f Hf. unfold fields_ok. rewrite Ed. by apply H4.
Qed.
Lemma at_index_nil {A} k : at_index (@nil A) k = None.
Proof. unfold at_index. by case_match. Qed.
Lemma right_at_nil n i k : right_at [] n i k = None.
Proof. unfold right_at. by rewrite at_index_nil. Qed.
Lemma AddMember_state w s id g guid rankId : state_ok s -> gs_guilds s !! id = Some g -> 0 <= guid < 2 ^ 32 ->
  gwp (AddMember w id guid rankId) s (fun b s' => state_ok s' /\ is_Some (gs_guilds s' !! id)).
Proof.
  intros [Hs Hset] Hg Hguid. eapply wp_mono; [by eapply AddMember_gwp|]. intros [] s'.
  - intros (Hs' & _ & rk & v & EG). split; [split; [done|]|by rewrite EG, lookup_insert_eq; eexists]. rewrite EG. apply settled_map; [done|].
    by apply (put_member_settled g guid (new_member rk)), (Hset id).
  - intros [-> _]. split; [by split|by exists g].
Qed.
Lemma default_ranks_loop id l : forall s g, tables_ok s -> gs_guilds s !! id = Some g -> len (gd_ranks g) + len l <= 10 ->
  (gd_ranks g = [] -> gd_bankTabs g = [] /\ from_option snd GR_RIGHT_ALL (head l) = GR_RIGHT_ALL) ->
  gwp (forM l (fun e => CreateRank id e.1 e.2;; mret tt)) s (fun _ s' => tables_ok s' /\ gs_players s' = gs_players s /\
    gs_NextGuildId s' = gs_NextGuildId s /\ gdb_member (gs_db s') = gdb_member (gs_db s) /\
    exists ranks, gs_guilds s' = <[id := guild_set_ranks ranks g]> (gs_guilds s) /\ len ranks = len (gd_ranks g) + len l).
Proof.
  induction l as [|[name rights] l IH]; intros s g Hs Hg Hlen H0; cbn [forM].
  - apply wp_ret. split_and!; try done. exists (gd_ranks g). replace (guild_set_ranks (gd_ranks g) g) with g by (by destruct g).
    rewrite insert_id by done. split; [done|cbn; lia].
  - cbn [length fst snd] in *. apply wp_bind, wp_bind. eapply wp_mono; [eapply CreateRank_gwp; [done|done|lia|done]|].
    intros b s1 (_ & Hs1 & EG & EP & EN & Em). apply wp_ret. eapply wp_mono; [eapply (IH s1); [done|by rewrite EG, lookup_insert_eq| |]|].
    + cbn. rewrite length_app. cbn. lia.
    + cbn. intros E. by destruct (gd_ranks g).
    + intros _ s2 (Hs2 & EP2 & EN2 & Em2 & ranks & EG2 & El). split; [done|]. do 3 (split; [congruence|]). exists ranks.
      rewrite EG2, EG, insert_insert_eq. split; [done|]. rewrite El. cbn. rewrite length_app. cbn. lia.
Qed.
Lemma CreateDefaultGuildRanks_gwp w s id g : tables_ok s -> gs_guilds s !! id = Some g -> gd_ranks g = [] -> gd_bankTabs g = [] ->
  gwp (CreateDefaultGuildRanks w id) s (fun _ s' => tables_ok s' /\ gs_players s' = gs_players s /\
    gs_NextGuildId s' = gs_NextGuildId s /\ gdb_member (gs_db s') = gdb_member (gs_db s) /\
    exists ranks, gs_guilds s' = <[id := guild_set_ranks ranks g]> (gs_guilds s) /\ len ranks = Z.min (len (wd_rank_names w)) 5).
Proof.
  intros Hs Hg Er Et. unfold CreateDefaultGuildRanks. apply wp_modify, wp_modify.
  destruct (gi_guild _ _ _ _ _ Hs id g Hg) as [_ Hok].
  set (d := gdb_set_right (at_guild id (fun _ => ∅) (gdb_right (gs_db s))) (gdb_set_rank (at_guild id (fun _ => ∅) (gdb_rank (gs_db s))) (gs_db s))).
  set (s1 := gs_set_db d s).
  assert (tables_ok s1) as Hs1.
  { apply (tables_same_rows s d Hs); [done|]. intros j. unfold same_rows, d. cbn. destruct (decide (j = id)) as [->|Hj]; [|by rewrite !at_guild_ne].
    rewrite !at_guild_eq. split_and!; try done; symmetry; apply map_empty.
    - intros k. rewrite (ok_rank_rows _ _ _ Hok), Er. by rewrite at_index_nil.
    - intros [i k]. rewrite (ok_right_rows _ _ _ Hok), Er. by rewrite right_at_nil. }
  eapply wp_mono; [eapply (default_ranks_loop id _ s1 g); [done|done| |]|].
  - rewrite Er, length_zip_with. cbn. lia.
  - intros _. split; [done|]. by destruct (wd_rank_names w).
  - intros _ s' (Hs' & EP & EN & Em & ranks & EG & El). split_and!; try done. exists ranks. split; [done|]. rewrite El, Er, length_zip_with. cbn. lia.
Qed.
(** A guild without members, ranks or tabs. *)
Lemma guilds_ok_new G n P d online g l x t : guilds_ok G n P d online -> gd_members g = ∅ -> gd_ranks g = [] -> gd_bankTabs g = [] ->
  guilds_ok (<[n := g]> G) (n + 1) P (gdb_set_guild (<[n := row_of g l x t]> (gdb_guild d)) d) online.
Proof.
  intros [H1 H2 H3 H4 H5 H6] Em Er Et.
  assert (G !! n = None) as Hn by (destruct (G !! n) as [h|] eqn:E; [apply H1 in E as [? _]; lia|done]).
  destruct (H2 n Hn) as (N1 & N2 & N3 & N4). split; [| | | | |lia].
  - intros j h Hj. apply lookup_insert_Some in Hj as [[<- <-]|[Hne Hj]].
    + split; [lia|]. split; cbn; rewrite ?Er, ?Et, ?N2, ?N3, ?N4; try done; [exists l, x, t; by rewrite lookup_insert_eq| | |].
      * intros k. by rewrite at_index_nil.
      * intros i k. by rewrite right_at_nil.
      * intros k. by rewrite at_index_nil.
    + destruct (H1 j h Hj). split; [lia|]. eapply guild_ok_same; [|done]. unfold same_rows. cbn. by rewrite lookup_insert_ne.
  - intros j Hj. apply lookup_insert_None in Hj as [Hj Hne]. destruct (H2 j Hj) as (? & ? & ? & ?). unfold no_rows. cbn. by rewrite lookup_insert_ne.
  - intros p row. cbn. rewrite H3. unfold member_of. split; intros (h & m & Hh & Hm & E).
    + exists h, m. rewrite lookup_insert_ne; [done|]. intros E'. rewrite <- E', Hn in Hh. done.
    + apply lookup_insert_Some in Hh as [[_ <-]|[_ Hh]]; [by rewrite Em in Hm|by exists h, m].
  - intros p f Hf. by apply H4.
  - done.
Qed.

Section Founding.
Context (w : GuildWorld) (Hnames : length (wd_rank_names w) = 5%nat).

Lemma GenerateGuildId_gwp {A} s (k : Z -> GP A) Q : gwp (k (gs_NextGuildId s)) (gs_set_next (gs_NextGuildId s + 1) s) Q -> gwp (GenerateGuildId ≫= k) s Q.
Proof.
  intros HQ. apply wp_bind. unfold GenerateGuildId. apply wp_get. destruct (_ <=? _); [|done].
  apply wp_throw. exists IdsExhausted. split; [done|]. by right; right.
Qed.
Lemma Create_gwp s leader f name : state_ok s -> gs_players s !! leader = Some f -> gf_GuildId f = 0 ->
  gwp (Create w leader name) s (fun o s' => state_ok s' /\ forall id, o = Some id -> is_Some (gs_guilds s' !! id)).
Proof.
  intros [Hs Hset] Hf Hz. unfold Create. apply wp_get. destruct (GetGuildByName s name); [by apply wp_ret|]. apply GenerateGuildId_gwp. cbv zeta.
  set (id := gs_NextGuildId s). set (g := mkGuild _ _ _ _ _ _ _ _ _ _ _ _ _).
  assert (0 <= leader < 2 ^ 32) as Hleader by (apply (gi_guids _ _ _ _ _ Hs); left; by eexists).
  assert (guild_row g = row_of g 1 0 0) as -> by (unfold guild_row, row_of; cbn; by rewrite lopart_small).
  apply wp_modify, begin_gwp, append_gwp, append_gwp.
  assert (filter (fun e => mw_guildid e.2 <> id) (gdb_member (gs_db s)) = gdb_member (gs_db s)) as Efil.
  { apply map_filter_id. intros p row Hr. cbn. apply (gi_members _ _ _ _ _ Hs) in Hr as (h & m & Hh & _).
    apply (gi_guild _ _ _ _ _ Hs) in Hh as [? _]. unfold id. lia. }
  assert (gs_guilds s !! id = None) as Hnew.
  { destruct (gs_guilds s !! id) as [h|] eqn:E; [|done]. apply (gi_guild _ _ _ _ _ Hs) in E as [? _]. unfold id in *. lia. }
  eapply (commit_gwp _ (gdb_set_guild (<[id := row_of g 1 0 0]> (gdb_guild (gs_db s))) (gs_db s))); [|done|].
  { cbn. rewrite (proj1 (gi_none _ _ _ _ _ Hs id Hnew)). rewrite bool_decide_false by (by intros [? ?]). unfold gdb_set_member. cbn. rewrite Efil. by destruct (gs_db s). }
  set (s1 := committed _ _ _). assert (tables_ok s1) as Hs1.
  { by apply (guilds_ok_new _ _ _ _ _ g 1 0 0 Hs). }
  apply wp_bind. eapply wp_mono; [apply (CreateDefaultGuildRanks_gwp w s1 id g); [done|cbn; by rewrite lookup_insert_eq|done|done]|].
  intros [] s2 (Hs2 & EP & _ & _ & ranks & EG & El). rewrite Hnames in El. cbn in EG. rewrite insert_insert_eq in EG.
  apply wp_bind. eapply wp_mono; [eapply (AddMember_gwp w s2 id _ leader GR_GUILDMASTER); [done|by rewrite EG, lookup_insert_eq|done]|].
  intros b s3 H3. destruct b; [|destruct H3 as [_ H3]; rewrite EP in H3; by destruct (H3 f)].
  destruct H3 as (Hs3 & _ & rk & v & EG3). apply wp_modify, wp_ret. split.
  - split; [done|]. change (gs_guilds (gs_send (SMSG_GUILD_EVENT id GE_FOUNDER) s3)) with (gs_guilds s3). rewrite EG3, EG, insert_insert_eq. apply settled_map; [done|].
    split; cbn; [by rewrite lookup_insert_eq; eexists|lia].
  - intros id' [= <-]. change (gs_guilds (gs_send (SMSG_GUILD_EVENT id GE_FOUNDER) s3)) with (gs_guilds s3). rewrite EG3, lookup_insert_eq. by eexists.
Qed.
Lemma HandleTurnInPetition_gwp s p name signatures : state_ok s -> (forall guid, guid ∈ signatures -> 0 <= guid < 2 ^ 32) ->
  gwp (HandleTurnInPetition w p name signatures) s (fun _ => state_ok).
Proof.
  intros Hs Hsig. unfold HandleTurnInPetition. apply wp_get. destruct (gs_players s !! p) as [f|] eqn:Ef; [|done].
  destruct (Z.eqb_spec (gf_GuildId f) 0) as [Hz|]; [cbn [negb]|done]. destruct (GetGuildByName s name); [done|]. apply wp_bind.
  eapply wp_mono; [by eapply Create_gwp|]. intros [id|] s1 [Hs1 Hid]; [|done]. specialize (Hid id eq_refl). apply wp_modify.
  eapply (wp_mono _ _ _ (fun _ s' => state_ok s' /\ is_Some (gs_guilds s' !! id))); [|by intros _ s' [? _]].
  apply (wp_forM _ _ _ (fun s' => state_ok s' /\ is_Some (gs_guilds s' !! id))); [by split|].
  intros guid s2 Hg [Hs2 [g2 Hg2]]. apply wp_bind. eapply wp_mono; [eapply AddMember_state; [done|exact Hg2|by apply Hsig]|]. done.
Qed.
End Founding.
