(* ===== verification/GuildMoney.v ===== *)
(** * Guilds: the money in the bank (model in Guild.v, GuildRequests.v)

    Deposits and withdrawals move money between a player and his guild, in memory
    and in the tables at once. *)

From S2P Require Import Prelude.
From S2P Require Import Floats.
From S2P Require Import Economy.
From S2P Require Import EconomyProofs.
From S2P Require Import Guild.
From S2P Require Import GuildRequests.
From S2P Require Import GuildProofs.
From S2P Require Import GuildRanks.
From S2P Require Import GuildMembers.
From stdpp Require Import list sorting.
Local Open Scope Z_scope.
#[local] Set Warnings "-clear-no-such-hyp".

Lemma state_ok_realm s r : state_ok s -> (forall p, is_Some (r_online (gs_realm s) !! p) -> is_Some (r_online r !! p)) -> state_ok (gs_set_realm r s).
Proof. intros [[H1 H2 H3 H4 H5 H6] Hset] Hon. split; [|done]. split; try done. intros p f Hf. destruct (H4 p f Hf). split; [done|by apply Hon]. Qed.

(** The bank holds [bank] now and the player [purse], in memory and in the tables. *)
Record moved (s s' : GuildState) (id p : Z) (g : Guild) (pl : Player) (f : Guild -> Guild) (bank purse : Z) : Prop := {
  mv_ok : state_ok s';
  mv_guilds : gs_guilds s' = <[id := guild_set_money bank (f g)]> (gs_guilds s);
  mv_online : r_online (gs_realm s') = <[p := player_set_money purse pl]> (r_online (gs_realm s));
  mv_row : gw_BankMoney <$> gdb_guild (gs_db s') !! id = Some bank;
  mv_money : db_money (r_db (gs_realm s')) !! p = Some purse
}.

Lemma ModifyBankMoney_gwp {A} s id g a add (k : bool -> GP A) Q : gs_guilds s !! id = Some g -> (add = false -> a <= gd_bankMoney g) ->
  let money := u64 (if add then gd_bankMoney g + a else gd_bankMoney g - a) in
  gwp (k true) (gs_set_trans (gs_trans s ++ [CHAR_UPD_GUILD_BANK_MONEY money id]) (gs_set_guilds (<[id := guild_set_money money g]> (gs_guilds s)) s)) Q ->
  gwp (ModifyBankMoney id a add ≫= k) s Q.
Proof.
  intros Hg Ha money HQ. apply wp_bind. unfold ModifyBankMoney. eapply gwp_guild; [exact Hg|].
  assert (negb add && (gd_bankMoney g <? a) = false) as ->.
  { destruct add; [done|]. cbn. apply Z.ltb_ge. by apply Ha. }
  cbv zeta. eapply gwp_upd; [exact Hg|]. by apply append_gwp, wp_ret.
Qed.
Definition purse_saved (p money : Z) (pl : Player) (r : Realm) : Realm :=
  set_trans (r_trans r ++ [CHAR_UDP_CHAR_MONEY money p]) (set_online (<[p := player_set_money money pl]> (r_online r)) r).
Lemma SaveGold_run r p money pl : r_online r !! p = Some (player_set_money money pl) ->
  SaveGoldToDB p r = (Ok tt, set_trans (r_trans r ++ [CHAR_UDP_CHAR_MONEY money p]) r).
Proof. intros Hp. unfold SaveGoldToDB. by rewrite (bind_ok _ _ _ _ _ (deref_player_ok p _ r Hp)). Qed.
Lemma pay_gwp {A} s p pl a (k : unit -> GP A) Q : r_online (gs_realm s) !! p = Some pl ->
  gwp (k tt) (gs_set_realm (purse_saved p (modified (pl_money pl) (- s64 a)) pl (gs_realm s)) s) Q ->
  gwp (economy (amount ← neg64 a; ModifyMoney p amount;; SaveGoldToDB p) ≫= k) s Q.
Proof.
  intros Hp HQ. apply wp_bind, gwp_economy, wp_bind, neg64_ewp. destruct (ModifyMoney_run p (- s64 a) pl _ Hp) as [b Er].
  eapply wp_seq; [exact Er|]. eapply wp_ok; [apply (SaveGold_run _ _ (modified (pl_money pl) (- s64 a)) pl); cbn; by rewrite lookup_insert_eq|].
  exact HQ.
Qed.

(** The end of both: what is committed. *)
Lemma money_moved s s' id p g pl f bank purse : state_ok (gs_set_guilds (<[id := f g]> (gs_guilds s)) s) -> gs_guilds s !! id = Some g ->
  gs_guilds s' = <[id := guild_set_money bank (f g)]> (gs_guilds s) -> gs_players s' = gs_players s -> gs_NextGuildId s' = gs_NextGuildId s ->
  gdb_guild (gs_db s') = alter (guild_row_money bank) id (gdb_guild (gs_db s)) -> gdb_rank (gs_db s') = gdb_rank (gs_db s) ->
  gdb_member (gs_db s') = gdb_member (gs_db s) -> gdb_right (gs_db s') = gdb_right (gs_db s) -> gdb_tab (gs_db s') = gdb_tab (gs_db s) ->
  r_online (gs_realm s') = <[p := player_set_money purse pl]> (r_online (gs_realm s)) -> db_money (r_db (gs_realm s')) !! p = Some purse ->
  moved s s' id p g pl f bank purse.
Proof.
  intros Hs Hg EG EP EN E1 E2 E3 E4 E5 Eo Em. pose proof (state_ok_guild _ id (f g) Hs ltac:(cbn; by rewrite lookup_insert_eq)) as (_ & Hok & Hl & Hn).
  set (sf := gs_set_guilds _ s) in Hs. set (d := gdb_set_guild (alter (guild_row_money bank) id (gdb_guild (gs_db s))) (gs_db s)).
  assert (state_ok (gs_set_db (gs_db s') (gs_set_guilds (<[id := guild_set_money bank (f g)]> (gs_guilds sf)) sf))) as Hs'.
  { eapply state_ok_update; [exact Hs|cbn; by rewrite lookup_insert_eq|done|done| |done|].
    - apply (guild_ok_same d); [|by apply guild_ok_row with (g := f g)]. unfold same_rows. rewrite E1, E2, E4, E5. done.
    - intros j Hj. unfold same_rows. rewrite E1, E2, E4, E5. cbn. by rewrite lookup_alter_ne. }
  destruct (ok_row _ _ _ Hok) as (l & x & t & Er). split; try done.
  - apply (state_ok_realm _ (gs_realm s')) in Hs'; [|intros q Hq; rewrite Eo; apply lookup_insert_is_Some; destruct (decide (p = q)); [by left|by right]].
    destruct Hs' as [Ht Hset]. cbn in Ht, Hset. rewrite insert_insert_eq in Hset. unfold tables_ok in Ht. cbn in Ht. rewrite insert_insert_eq in Ht.
    split; [unfold tables_ok; by rewrite EG, EP, EN|by rewrite EG].
  - rewrite E1, lookup_alter_eq. cbn in Er. by rewrite Er.
Qed.
Lemma deposit_run s id p g pl a : state_ok s -> gs_guilds s !! id = Some g -> r_online (gs_realm s) !! p = Some pl ->
  gwp (HandleMemberDepositMoney id p a false) s (fun _ s' => moved s s' id p g pl (fun g => g) (u64 (gd_bankMoney g + a)) (modified (pl_money pl) (- s64 a))).
Proof.
  intros Hs Hg Hp. unfold HandleMemberDepositMoney. apply begin_gwp. eapply ModifyBankMoney_gwp; [exact Hg|done|]. eapply pay_gwp; [exact Hp|].
  eapply commit_gwp; [done|done|].
  eapply (money_moved s _ id p g pl (fun g => g)); try done; [|cbn; by rewrite lookup_insert_eq]. rewrite insert_id by done. by destruct s.
Qed.

(** ** Withdrawals *)

Lemma remaining_gwp {A} g m s (k : Z -> GP A) Q : (forall v, GetMemberRemainingMoney g m s = (Ok v, s) -> gwp (k v) s Q) ->
  gwp (GetMemberRemainingMoney g m ≫= k) s Q.
Proof.
  intros HQ. destruct (GetMemberRemainingMoney g m s) as [[v|e] s'] eqn:E.
  - assert (s' = s) as -> by (unfold GetMemberRemainingMoney, mret, prog_ret, throw in E; repeat case_match; congruence). eapply wp_seq; [exact E|by apply HQ].
  - apply wp_bind. unfold Prelude.wp. rewrite E.
    assert (e = GuildEconomy SignedOverflow) as -> by (unfold GetMemberRemainingMoney, mret, prog_ret, throw in E; repeat case_match; congruence).
    exists SignedOverflow. split; [done|]. by right; left.
Qed.
Definition fits (m a : Z) : bool := (a =? 0) || (m <? MAX_MONEY_AMOUNT - a).
Lemma ModifyMoney_add p a pl r : r_online r !! p = Some pl -> 0 <= a <= MAX_MONEY_AMOUNT ->
  ModifyMoney p (s64 a) r = (Ok (fits (pl_money pl) a),
    if fits (pl_money pl) a then set_online (<[p := player_set_money (modified (pl_money pl) a) pl]> (r_online r)) r else r).
Proof.
  unfold MAX_MONEY_AMOUNT. intros Hp Ha. rewrite sint_small by lia. unfold ModifyMoney, modified, fits, MAX_MONEY_AMOUNT. rewrite (bind_ok _ _ _ _ _ (deref_player_ok p pl r Hp)).
  destruct (Z.eqb_spec a 0) as [->|Hne]; cbn [orb].
  - replace (player_set_money (pl_money pl) pl) with pl by (by destruct pl). rewrite insert_id by done. by destruct r.
  - rewrite (proj2 (Z.ltb_ge _ _)) by lia. rewrite uint_small by lia. destruct (Z.ltb_spec (pl_money pl) (9999999999 - a)) as [H|H]; [|done].
    by rewrite (bind_ok _ _ _ _ _ (upd_player_ok p _ pl r Hp)).
Qed.
Definition withdrawn (p a : Z) (g : Guild) : Guild :=
  guild_set_members (alter (withdraw_more GUILD_BANK_MAX_TABS (u32 a)) p (gd_members g)) g.
(** Nothing but the packets and the transaction that was not committed. *)
Definition untouched (s s' : GuildState) : Prop := gs_guilds s' = gs_guilds s /\ gs_NextGuildId s' = gs_NextGuildId s /\ gs_players s' = gs_players s /\
  gs_db s' = gs_db s /\ r_online (gs_realm s') = r_online (gs_realm s) /\ r_db (gs_realm s') = r_db (gs_realm s).
Lemma untouched_ok s s' : state_ok s -> untouched s s' -> state_ok s'.
Proof.
  intros [Ht Hset] (E1 & E2 & E3 & E4 & E5 & _). split; [|by rewrite E1]. unfold tables_ok. by rewrite E1, E2, E3, E4, E5.
Qed.
Lemma withdrawn_ok s id g p a m : state_ok s -> gs_guilds s !! id = Some g -> gd_members g !! p = Some m ->
  state_ok (gs_set_guilds (<[id := withdrawn p a g]> (gs_guilds s)) s).
Proof.
  intros Hs Hg Hm. pose proof (put_same_rank s id g p m (withdraw_more GUILD_BANK_MAX_TABS (u32 a) m) _ Hs Hg Hm eq_refl eq_refl) as H.
  unfold withdrawn. rewrite (map_alter_insert _ _ _ m) by done. unfold put_row in H. cbn in H.
  change (member_row id (withdraw_more _ _ _)) with (member_row id m) in H.
  rewrite insert_id in H by exact (member_row_of _ _ _ _ _ (proj1 Hs) id g p m Hg Hm). by destruct s as [? ? ? [] ? ? ?].
Qed.
Definition withdraw_post (s : GuildState) (id p : Z) (g : Guild) (pl : Player) (a : Z) (b : bool) (s' : GuildState) : Prop :=
  if b then
    moved s s' id p g pl (withdrawn p a) (u64 (gd_bankMoney g - a)) (modified (pl_money pl) a) /\ a <= gd_bankMoney g /\ fits (pl_money pl) a = true /\
    exists m v, gd_members g !! p = Some m /\ GetMemberRemainingMoney g m s = (Ok v, s) /\ a <= u64 v
  else untouched s s'.
Lemma withdraw_run s id p g pl a : state_ok s -> gs_guilds s !! id = Some g -> r_online (gs_realm s) !! p = Some pl -> 0 <= p < 2 ^ 32 -> 0 <= a ->
  gwp (HandleMemberWithdrawMoney id p a false) s (withdraw_post s id p g pl (Z.min a MAX_MONEY_AMOUNT)).
Proof.
  intros Hs Hg Hp Hguid Ha. assert (0 <= Z.min a MAX_MONEY_AMOUNT <= MAX_MONEY_AMOUNT) as Hmax by (unfold MAX_MONEY_AMOUNT; lia).
  unfold HandleMemberWithdrawMoney. cbv zeta. set (c := Z.min a MAX_MONEY_AMOUNT) in *. clearbody c.
  eapply gwp_guild; [exact Hg|]. destruct (Z.ltb_spec (gd_bankMoney g) c) as [|Hbank]; [by apply wp_ret|].
  unfold GetMember. rewrite lopart_small by done. destruct (gd_members g !! p) as [m|] eqn:Em; [|by apply wp_ret].
  apply remaining_gwp. intros v Ev. destruct (Z.ltb_spec (u64 v) c) as [|Hv]; [by apply wp_ret|]. apply begin_gwp.
  apply wp_bind, wp_bind, gwp_economy. eapply wp_ok; [apply (ModifyMoney_add p c pl); [exact Hp|done]|].
  destruct (fits (pl_money pl) c) eqn:Ef; [|by apply wp_ret].
  apply wp_bind, gwp_economy. eapply wp_ok; [apply (SaveGold_run _ _ (modified (pl_money pl) c) pl); cbn; by rewrite lookup_insert_eq|].
  apply wp_ret. cbn [negb]. apply wp_bind. unfold UpdateBankWithdrawValue, upd_member. eapply gwp_upd; [exact Hg|].
  eapply gwp_guild; [cbn; by rewrite lookup_insert_eq|]. cbn [gd_members guild_set_members]. rewrite lookup_alter_eq, Em. cbn [fmap option_fmap option_map].
  unfold Append at 1. cbv beta iota delta [Prelude.wp modify].
  eapply ModifyBankMoney_gwp; [cbn; by rewrite lookup_insert_eq|done|]. eapply commit_gwp; [done|done|]. apply wp_modify, wp_ret.
  split; [|split; [done|split; [done|by exists m, v]]].
  eapply (money_moved s _ id p g pl (withdrawn p c)); try done; [by eapply withdrawn_ok|cbn; by rewrite insert_insert_eq|cbn; by rewrite lookup_insert_eq].
Qed.
