(* ===== verification/GuildSafety.v ===== *)
(** * Guilds: every request keeps memory and tables in step

    The handlers of GuildRequests.v, one after the other, then all of them as the
    steps of a server, with what the requests must not do. *)

From S2P Require Import Prelude.
From S2P Require Import Floats.
From S2P Require Import Economy.
From S2P Require Import EconomyProofs.
From S2P Require Import Guild.
From S2P Require Import GuildRequests.
From S2P Require Import GuildProofs.
From S2P Require Import GuildRanks.
From S2P Require Import GuildMembers.
From S2P Require Import GuildMoney.
From stdpp Require Import list sorting.
Local Open Scope Z_scope.
#[local] Set Warnings "-clear-no-such-hyp".

Section Safety.
Context (w : GuildWorld) (Horder : forall M, wd_order w M ≡ₚ map_to_list M) (Hnames : length (wd_rank_names w) = 5%nat).
Abbreviation keeps p s := (gwp p s (fun _ => state_ok)).

Lemma player_guid s p : state_ok s -> is_Some (gs_players s !! p) -> 0 <= p < 2 ^ 32.
Proof. intros [Hs _] Hp. apply (gi_guids _ _ _ _ _ Hs). by left. Qed.
Lemma player_online s p : state_ok s -> is_Some (gs_players s !! p) -> is_Some (r_online (gs_realm s) !! p).
Proof. intros [Hs _] [f Hf]. by apply (gi_players _ _ _ _ _ Hs) in Hf as [_ ?]. Qed.
Lemma member_guid s id g p m : state_ok s -> gs_guilds s !! id = Some g -> gd_members g !! p = Some m -> 0 <= p < 2 ^ 32.
Proof. intros [Hs _] Hg Hm. apply (gi_guids _ _ _ _ _ Hs). right. eexists. by eapply member_row_of. Qed.
(** Whose fields name a guild is a member of it. *)
Lemma GetGuild_member s p id : state_ok s -> GetGuild s p = Some id -> 0 <= p < 2 ^ 32 /\
  exists g m, gs_guilds s !! id = Some g /\ gd_members g !! p = Some m /\ GetMember g p = Some m.
Proof.
  intros Hs Hid. unfold GetGuild in Hid. destruct (gs_players s !! p) as [f|] eqn:Ef; [|done].
  assert (0 <= p < 2 ^ 32) as Hp by (apply (player_guid s); [done|by exists f]). split; [done|].
  destruct (Z.eqb_spec (gf_GuildId f) 0) as [|Hne]; [done|]. destruct (bool_decide _); [|done]. injection Hid as <-.
  pose proof (tables_fields s p f (proj1 Hs) Ef) as Hf. unfold fields_ok in Hf. destruct (gdb_member (gs_db s) !! p) as [row|] eqn:Er; [|done].
  destruct Hf as [-> _]. apply (gi_members _ _ _ _ _ (proj1 Hs)) in Er as (g & m & Hg & Hm & _). exists g, m.
  unfold GetMember. by rewrite lopart_small.
Qed.
Lemma in_guild_gwp s p k : state_ok s -> (forall id, GetGuild s p = Some id -> keeps (k id) s) -> keeps (in_guild p k) s.
Proof. intros Hs Hk. unfold in_guild. apply wp_get. destruct (GetGuild s p) as [id|]; [by apply Hk|by apply wp_ret]. Qed.
Lemma GetMember_Some g guid m : GetMember g guid = Some m -> gd_members g !! GUID_LOPART guid = Some m.
Proof. done. Qed.

Lemma HandleSetNewGuildMaster_gwp s id p name : state_ok s -> is_Some (gs_guilds s !! id) -> keeps (HandleSetNewGuildMaster w id p name) s.
Proof.
  intros Hs [g Hg]. unfold HandleSetNewGuildMaster. eapply gwp_guild; [exact Hg|]. destruct (negb _); [done|].
  destruct (GetMember g p) as [m|] eqn:Em; [|done]. destruct (GetMemberByName w g name) as [n|] eqn:En; [|done].
  assert (exists mn, gd_members g !! n = Some mn) as [mn Hmn].
  { unfold GetMemberByName in En. destruct (head _) as [[n' mn]|] eqn:Eh; [|done]. injection En as <-. apply head_Some_elem_of, list_elem_of_filter in Eh as [_ Eh].
    apply (order_lookup w Horder) in Eh. by exists mn. }
  eapply SetLeaderGUID_gwp; [done..|]. intros s1 Hs1 EG.
  assert (exists m', gd_members (put_member n (member_set_rank GR_GUILDMASTER mn) (guild_set_leader n g)) !! GUID_LOPART p = Some m') as [m' Hm'].
  { cbn. apply lookup_insert_is_Some. destruct (decide (n = GUID_LOPART p)); [by left|right; by split; [|exists m]]. }
  eapply ChangeRank_state; [done|by rewrite EG, lookup_insert_eq|exact Hm'|]. by intros s2 Hs2.
Qed.
Lemma HandleSetMemberNote_gwp s id p note guid isPublic : state_ok s -> is_Some (gs_guilds s !! id) -> keeps (HandleSetMemberNote id p note guid isPublic) s.
Proof.
  intros Hs [g Hg]. unfold HandleSetMemberNote. eapply gwp_guild; [exact Hg|]. destruct (negb _); [done|].
  destruct (GetMember g guid) as [m|] eqn:Em; [|done]. apply GetMember_Some in Em.
  destruct isPublic; [eapply SetPublicNote_gwp; [done|exact Hg|by exists m]|eapply SetOfficerNote_gwp; [done|exact Hg|by exists m]].
Qed.
Lemma buy_tab_gwp s id g : state_ok s -> gs_guilds s !! id = Some g -> len (gd_bankTabs g) < 8 -> keeps (buy_tab id) s.
Proof. intros Hs Hg Hn. unfold buy_tab. apply gwp_state; [by eapply CreateNewBankTab_gwp|by intros [] s']. Qed.
Lemma HandleBuyBankTab_gwp s id p tabId : state_ok s -> is_Some (gs_guilds s !! id) -> is_Some (r_online (gs_realm s) !! p) -> keeps (HandleBuyBankTab id p tabId) s.
Proof.
  intros Hs [g Hg] [pl Hp]. pose proof (state_ok_guild s id g Hs Hg) as (_ & Hok & _). unfold HandleBuyBankTab. eapply gwp_guild; [exact Hg|].
  destruct (GetMember g p); [|done]. rewrite (purchased _ _ _ Hok). unfold GUILD_BANK_MAX_TABS. destruct (Z.leb_spec 8 (len (gd_bankTabs g))); [done|].
  destruct (negb _); [done|]. destruct (_ <? _); [|by eapply buy_tab_gwp]. cbv zeta. destruct (_ =? 0); [done|].
  apply wp_bind, gwp_economy. eapply wp_ok; [by apply deref_player_ok|]. destruct (negb _).
  { apply wp_ret. by destruct s. }
  apply wp_bind, gwp_economy, wp_bind, neg64_ewp. destruct (ModifyMoney_run p (- s64 (u32 (GetGuildBankTabPrice tabId * GOLD))) pl (gs_realm s) Hp) as [b Er].
  replace (gs_realm (gs_set_realm (gs_realm s) s)) with (gs_realm s) by done. eapply wp_ok; [exact Er|].
  eapply buy_tab_gwp; [|exact Hg|done]. apply state_ok_realm; [by apply state_ok_realm|]. intros q Hq. cbn in *. apply lookup_insert_is_Some.
  destruct (decide (p = q)); [by left|by right].
Qed.
(** What is done to the fields of a player that leaves his guild and rank alone. *)
Lemma state_ok_fields s p f : state_ok s -> (forall y, gs_players s !! p = Some y -> gf_GuildId (f y) = gf_GuildId y /\ gf_Rank (f y) = gf_Rank y) ->
  state_ok (gs_set_players (alter f p (gs_players s)) s).
Proof.
  intros [Hs Hset] Hf. split; [|done]. destruct Hs as [H1 H2 H3 H4 H5 H6].
  assert (forall q x, alter f p (gs_players s) !! q = Some x -> is_Some (gs_players s !! q) /\ fields_ok (gs_db s) q x) as Hq.
  { apply (fields_alter _ (gs_db s)); [intros q x Hx; by apply H4|done|]. intros y Hy. destruct (H4 p y Hy) as [Hok _]. destruct (Hf y Hy) as [E1 E2].
    unfold fields_ok in *. by rewrite E1, E2. }
  split; try done.
  - intros q x Hx. destruct (Hq q x Hx) as [[x0 H0] ?]. split; [done|by eapply H4].
  - intros q [[x Hx]|Hq']; apply H5; [left; by eapply Hq|by right].
Qed.
Lemma HandleInviteMember_gwp s id p name : state_ok s -> is_Some (gs_guilds s !! id) -> keeps (HandleInviteMember w id p name) s.
Proof.
  intros Hs [g Hg]. unfold HandleInviteMember. apply wp_get. eapply gwp_guild; [exact Hg|]. destruct (wd_online_name w name) as [q|]; [|done].
  repeat (case_match; [done|]). apply wp_modify, wp_modify. by apply (state_ok_fields s q).
Qed.
Lemma HandleAcceptMember_gwp s id p : state_ok s -> is_Some (gs_guilds s !! id) -> 0 <= p < 2 ^ 32 -> keeps (HandleAcceptMember w id p) s.
Proof.
  intros Hs [g Hg] Hp. unfold HandleAcceptMember. eapply gwp_guild; [exact Hg|]. destruct (_ && _); [done|]. apply wp_bind.
  eapply wp_mono; [by eapply AddMember_state|]. by intros b s' [? _].
Qed.
Lemma HandleLeaveMember_gwp s id p : state_ok s -> GetGuild s p = Some id -> keeps (HandleLeaveMember w id p) s.
Proof.
  intros Hs Hid. destruct (GetGuild_member s p id Hs Hid) as (Hp & g & m & Hg & Hm & _). unfold HandleLeaveMember. eapply gwp_guild; [exact Hg|].
  destruct (IsLeader g p).
  - destruct (_ <? _); [done|]. destruct (_ <=? _); [done|]. eapply wp_mono; [apply (Disband_gwp w Horder); [done|by exists g]|]. by intros _ s' [? _].
  - apply gwp_state; [|by intros [] s']. eapply (DeleteMember_gwp w Horder); [done|exact Hg|done|].
    intros row. by apply (member_here _ _ _ _ _ (proj1 Hs) id g p m).
Qed.
Lemma HandleRemoveMember_gwp s id p guid : state_ok s -> is_Some (gs_guilds s !! id) -> 0 <= guid < 2 ^ 32 -> keeps (HandleRemoveMember w id p guid) s.
Proof.
  intros Hs [g Hg] Hguid. unfold HandleRemoveMember. eapply gwp_guild; [exact Hg|]. destruct (negb _); [done|].
  destruct (GetMember g guid) as [m|] eqn:Em; [|done]. apply GetMember_Some in Em. rewrite lopart_small in Em by done.
  destruct (IsRank _ _); [done|]. destruct (GetMember g p); [|done]. destruct (IsRankNotLower _ _); [done|].
  apply gwp_state; [|by intros [] s']. eapply (DeleteMember_gwp w Horder); [done|exact Hg|done|].
  intros row. by apply (member_here _ _ _ _ _ (proj1 Hs) id g guid m).
Qed.
Lemma HandleUpdateMemberRank_gwp s id p guid demote : state_ok s -> GetGuild s p = Some id -> keeps (HandleUpdateMemberRank id p guid demote) s.
Proof.
  intros Hs Hid. destruct (GetGuild_member s p id Hs Hid) as (Hp & g & m & Hg & _ & Hm). unfold HandleUpdateMemberRank. eapply gwp_guild; [exact Hg|]. cbv zeta.
  destruct (negb _); [done|]. destruct (GetMember g guid) as [t|] eqn:Et; [|done]. destruct (_ =? p); [done|]. rewrite Hm. destruct (next_rank _ _ _ _); [|done].
  eapply ChangeRank_state; [done|exact Hg|exact Et|]. intros s' Hs'. done.
Qed.
Lemma HandleSetMemberRank_gwp s id p guid rank : state_ok s -> is_Some (gs_guilds s !! id) -> keeps (HandleSetMemberRank id p guid rank) s.
Proof.
  intros Hs [g Hg]. unfold HandleSetMemberRank. eapply gwp_guild; [exact Hg|]. destruct (GetMember g guid) as [t|] eqn:Et; [|done]. cbv zeta.
  destruct (negb _); [done|]. destruct (_ =? p); [done|]. unfold SendGuildRanksUpdate. eapply gwp_guild; [exact Hg|]. rewrite Et. apply wp_modify.
  apply gwp_last. eapply ChangeRank_state; [by apply state_ok_send|exact Hg|exact Et|]. intros s' Hs'. done.
Qed.

(** ** Experience *)

(** The guild changes where no row does. *)
Lemma state_ok_experience s id g level experience today : state_ok s -> gs_guilds s !! id = Some g ->
  state_ok (gs_set_guilds (<[id := guild_set_experience level experience today g]> (gs_guilds s)) s).
Proof.
  intros Hs Hg. pose proof (state_ok_guild s id g Hs Hg) as (_ & [? ? ? ? ? ? ?] & Hset). destruct Hs as [Hs HG]. split; [|by apply settled_map].
  by apply (guilds_ok_update _ _ _ _ _ id g _ _ Hs Hg).
Qed.
Lemma fields_level_loop v (l : list (Z * Member)) s : state_ok s ->
  gwp (forM l (fun e => upd_fields e.1 (fields_set_level v))) s (fun _ s' => state_ok s' /\ gs_guilds s' = gs_guilds s).
Proof.
  intros Hs. apply (wp_forM _ _ _ (fun s' => state_ok s' /\ gs_guilds s' = gs_guilds s)); [done|]. intros e s' _ [Hs' E].
  split; [by apply state_ok_fields|done].
Qed.
Lemma level_up_gwp fuel : forall s id, state_ok s -> is_Some (gs_guilds s !! id) -> keeps (level_up w fuel id) s.
Proof.
  induction fuel as [|fuel IH]; intros s id Hs [g Hg]; cbn [level_up]; [done|]. eapply gwp_guild; [exact Hg|]. destruct (_ && _); [|done]. cbv zeta.
  eapply gwp_upd; [exact Hg|]. apply wp_bind. eapply wp_mono; [apply fields_level_loop; by apply state_ok_experience|].
  intros [] s' [Hs' E]. apply IH; [done|]. rewrite E. cbn. rewrite lookup_insert_eq. by eexists.
Qed.
(** Each turn is a level, so [GiveXP] has fuel for all of them: more changes
    nothing. *)
Lemma fields_loop_run level (l : list (Z * Member)) : forall s, exists s', forM l (fun e => upd_fields e.1 (fields_set_level level)) s = (Ok tt, s') /\
  gs_guilds s' = gs_guilds s.
Proof.
  induction l as [|e l IH]; intros s; cbn [forM]; [by exists s|].
  edestruct IH as (s' & E & EG). exists s'. split; [erewrite bind_ok by reflexivity; exact E|exact EG].
Qed.
Lemma level_up_turn id g s : gs_guilds s !! id = Some g -> exists g' s', gs_guilds s' !! id = Some g' /\ gd_level g' = u8 (gd_level g + 1) /\
  forall n, level_up w (S n) id s =
    if (wd_xp_for_level w (gd_level g) <=? gd_experience g) && (gd_level g <? wd_max_level w) then level_up w n id s' else (Ok tt, s).
Proof.
  intros Hg. set (g' := guild_set_experience (u8 (gd_level g + 1)) (u64 (gd_experience g - wd_xp_for_level w (gd_level g))) (gd_todayExperience g) g).
  destruct (fields_loop_run (u8 (gd_level g + 1)) (wd_order w (gd_members g)) (gs_set_guilds (<[id := g']> (gs_guilds s)) s)) as (s' & E & EG).
  exists g', s'. split; [rewrite EG; apply lookup_insert_eq|]. split; [done|]. intros n. cbn [level_up].
  rewrite (bind_ok _ _ _ _ _ (deref_guild_ok id g s Hg)). destruct (_ && _); [|done]. cbv zeta.
  rewrite (bind_ok _ _ _ _ _ (upd_guild_ok id _ g s Hg)). by rewrite (bind_ok _ _ _ _ _ E).
Qed.
Lemma level_up_enough n : forall id g s, gs_guilds s !! id = Some g -> 0 <= gd_level g -> wd_max_level w < 256 ->
  wd_max_level w - gd_level g <= Z.of_nat n -> level_up w (S n) id s = level_up w n id s.
Proof.
  induction n as [|n IH]; intros id g s Hg Hl Hmax Hn; destruct (level_up_turn id g s Hg) as (g' & s' & Hg' & El & Hrun).
  - rewrite Hrun, (proj2 (Z.ltb_ge _ _)) by lia. by rewrite andb_false_r.
  - rewrite !Hrun. destruct (_ && _) eqn:E; [|done]. apply andb_prop in E as [_ E%Z.ltb_lt].
    apply (IH id g' s' Hg'); rewrite ?El, ?uint_small; lia.
Qed.
Lemma GiveXP_gwp s id xp source : state_ok s -> is_Some (gs_guilds s !! id) -> keeps (GiveXP w id xp source) s.
Proof.
  intros Hs [g Hg]. unfold GiveXP. destruct (negb _); [done|]. eapply gwp_guild; [exact Hg|]. cbv zeta. apply wp_modify.
  eapply gwp_upd; [exact Hg|]. match goal with |- gwp _ ?t _ => assert (state_ok t /\ is_Some (gs_guilds t !! id)) as [Ht Hid] end.
  { split; [by apply (state_ok_experience (gs_send _ s))|]. cbn. rewrite lookup_insert_eq. by eexists. }
  match goal with |- gwp (if ?b then _ else _) _ _ => destruct b end; [done|by apply level_up_gwp].
Qed.
Lemma SaveToDB_gwp s id : state_ok s -> is_Some (gs_guilds s !! id) -> keeps (SaveToDB id) s.
Proof.
  intros Hs [g Hg]. pose proof (state_ok_guild s id g Hs Hg) as (_ & Hok & Hset). unfold SaveToDB. eapply gwp_guild; [exact Hg|].
  apply begin_gwp, append_gwp, gwp_last. eapply commit_gwp; [done|done|]. apply wp_ret. cbn.
  assert (guild_ok (gdb_set_guild (alter (guild_row_experience (gd_level g) (gd_experience g) (gd_todayExperience g)) id (gdb_guild (gs_db s))) (gs_db s)) id g) as Hok'.
  { destruct Hok as [H2 H3 H5 (l & x & t & H6) H7 H8 H9]. split; try done. exists (gd_level g), (gd_experience g), (gd_todayExperience g).
    cbn. by rewrite lookup_alter_eq, H6. }
  assert (state_ok (gs_set_db (gdb_set_guild (alter (guild_row_experience (gd_level g) (gd_experience g) (gd_todayExperience g)) id (gdb_guild (gs_db s))) (gs_db s))
    (gs_set_guilds (<[id := g]> (gs_guilds s)) s))) as H by (eapply state_ok_update; try done; other_rows).
  unfold state_ok, tables_ok in *. cbn in *. by rewrite insert_id in H.
Qed.

(** ** Opcodes, logging in and out *)

Lemma HandleGuildAccept_gwp s p : state_ok s -> keeps (HandleGuildAccept w p) s.
Proof.
  intros Hs. unfold HandleGuildAccept. apply wp_get. destruct (gs_players s !! p) as [f|] eqn:Ef; [|done].
  destruct (Z.eqb_spec (gf_GuildId f) 0); cbn [andb]; [|done]. case_bool_decide; [|done]. apply HandleAcceptMember_gwp; [done|done|].
  apply (player_guid s); [done|by exists f].
Qed.
Lemma HandleGuildDecline_gwp s p : state_ok s -> (forall f, gs_players s !! p = Some f -> gf_GuildId f = 0) -> keeps (HandleGuildDecline p) s.
Proof. intros Hs Hf. apply (state_ok_fields s p); [done|]. intros y Hy. by rewrite (Hf y Hy). Qed.
Lemma HandleGuildBankDepositMoney_gwp s p banker money : state_ok s -> is_Some (gs_players s !! p) -> keeps (HandleGuildBankDepositMoney w p banker money) s.
Proof.
  intros Hs Hp. destruct (player_online s p Hs Hp) as [pl Hpl]. unfold HandleGuildBankDepositMoney. destruct (_ && _); [|done].
  apply wp_bind, gwp_economy. eapply wp_ok; [by apply deref_player_ok|]. replace (gs_set_realm (gs_realm s) s) with s by (by destruct s).
  destruct (HasEnoughMoney _ _); [|done]. apply in_guild_gwp; [done|]. intros id Hid. destruct (GetGuild_member s p id Hs Hid) as (_ & g & m & Hg & _).
  eapply wp_mono; [by eapply deposit_run|]. intros [] s' H. apply H.
Qed.
Lemma HandleGuildBankWithdrawMoney_gwp s p banker money : state_ok s -> is_Some (gs_players s !! p) -> 0 <= money ->
  keeps (HandleGuildBankWithdrawMoney w p banker money) s.
Proof.
  intros Hs Hp Hm. destruct (player_online s p Hs Hp) as [pl Hpl]. unfold HandleGuildBankWithdrawMoney. destruct (_ && _); [|done].
  apply in_guild_gwp; [done|]. intros id Hid. destruct (GetGuild_member s p id Hs Hid) as (Hguid & g & m & Hg & _).
  apply wp_bind. eapply wp_mono; [by eapply withdraw_run|]. intros [] s' H; [apply H|]. by eapply untouched_ok.
Qed.
Lemma tables_logout s p : state_ok s -> state_ok (gs_set_realm (set_online (delete p (r_online (gs_realm s))) (gs_realm s)) (gs_set_players (delete p (gs_players s)) s)).
Proof.
  intros [[H1 H2 H3 H4 H5 H6] Hset]. split; [|done]. split; try done; cbn.
  - intros q f Hf. apply lookup_delete_Some in Hf as [Hne Hf]. destruct (H4 q f Hf). by rewrite lookup_delete_ne.
  - intros q [Hq|Hq]; [apply lookup_delete_is_Some in Hq as [_ Hq]|]; apply H5; tauto.
Qed.
Lemma Logout_gwp s p : state_ok s -> keeps (Logout p) s.
Proof.
  intros Hs. unfold Logout. apply gwp_state.
  - apply in_guild_gwp; [done|]. intros id Hid. destruct (GetGuild_member s p id Hs Hid) as (_ & g & m & Hg & _).
    unfold HandleMemberLogout. apply wp_modify. apply SaveToDB_gwp; [by apply state_ok_send|by exists g].
  - intros [] s' Hs'. apply wp_modify, gwp_economy. exact (tables_logout s' p Hs').
Qed.
Lemma tables_login s p f pl : state_ok s -> 0 <= p < 2 ^ 32 -> fields_ok (gs_db s) p f ->
  state_ok (gs_set_realm (set_online (<[p := pl]> (r_online (gs_realm s))) (gs_realm s)) (gs_set_players (<[p := f]> (gs_players s)) s)).
Proof.
  intros [[H1 H2 H3 H4 H5 H6] Hset] Hp Hf. split; [|done]. split; try done; cbn.
  - intros q x Hx. apply lookup_insert_Some in Hx as [[<- <-]|[Hne Hx]]; [split; [done|]; rewrite lookup_insert_eq; by eexists|].
    rewrite lookup_insert_ne by done. by apply H4.
  - intros q [Hq|Hq]; [apply lookup_insert_is_Some in Hq as [<-|[_ Hq]]; [done|apply H5; by left]|apply H5; by right].
Qed.
Lemma Login_gwp s p pl : state_ok s -> 0 <= p < 2 ^ 32 -> keeps (Login p pl) s.
Proof.
  intros Hs Hp. unfold Login. apply wp_get. cbv zeta. apply wp_modify, gwp_economy. apply (tables_login s); [done|done|].
  unfold fields_ok. destruct (gdb_member (gs_db s) !! p) as [row|] eqn:Er; [|by case_match].
  destruct (member_id_pos s p row (proj1 Hs) Er) as [_ Hid]. cbn. by rewrite bool_decide_true.
Qed.
Lemma HandleCharDelete_gwp s guid : state_ok s -> keeps (HandleCharDelete w guid) s.
Proof.
  intros Hs. unfold HandleCharDelete. apply wp_get. destruct (_ || _); [done|]. destruct (gdb_member (gs_db s) !! guid) as [row|] eqn:Er; [|done].
  case_bool_decide as Hid; [|done]. destruct Hid as [g Hg]. eapply (DeleteMember_gwp w Horder); [done|exact Hg| |].
  - apply (gi_guids _ _ _ _ _ (proj1 Hs)). right. by exists row.
  - intros row' Hr. by simplify_eq.
Qed.
Lemma HandleDisband_gwp s id p : state_ok s -> is_Some (gs_guilds s !! id) -> keeps (HandleDisband w id p) s.
Proof.
  intros Hs [g Hg]. unfold HandleDisband. eapply gwp_guild; [exact Hg|]. destruct (IsLeader g p); [|done].
  eapply wp_mono; [apply (Disband_gwp w Horder); [done|by exists g]|]. by intros _ s' [? _].
Qed.

(** ** The daily reset *)

Definition reset_guild (g : Guild) : Guild :=
  guild_set_members (member_set_withdraw no_withdraw <$> gd_members g) (guild_set_experience (gd_level g) (gd_experience g) 0 g).
Lemma reset_member_of G p row : member_of (reset_guild <$> G) p row <-> member_of G p row.
Proof.
  unfold member_of. split.
  - intros (g & m & Hg & Hm & E). rewrite lookup_fmap in Hg. apply fmap_Some in Hg as (h & Hh & ->). cbn in Hm. rewrite lookup_fmap in Hm.
    apply fmap_Some in Hm as (n & Hn & ->). by exists h, n.
  - intros (g & m & Hg & Hm & E). exists (reset_guild g), (member_set_withdraw no_withdraw m). rewrite lookup_fmap, Hg. cbn. rewrite lookup_fmap, Hm. done.
Qed.
Lemma reset_guild_ok d id g : guild_ok d id g ->
  guild_ok (gdb_set_withdraw ∅ (gdb_set_guild ((fun r => guild_row_experience (gw_level r) (gw_experience r) 0 r) <$> gdb_guild d) d)) id (reset_guild g).
Proof.
  intros [H2 H3 H5 (l & x & t & H6) H7 H8 H9]. split; try done. exists l, x, 0. cbn. by rewrite lookup_fmap, H6.
Qed.
Lemma ResetTimes_gwp s : state_ok s -> keeps ResetTimes s.
Proof.
  intros [[H1 H2 H3 H4 H5 H6] Hset]. unfold ResetTimes. apply wp_modify, wp_modify.
  set (s1 := gs_set_guilds (reset_guild <$> gs_guilds s) (gs_set_db (gdb_set_withdraw ∅
    (gdb_set_guild ((fun r => guild_row_experience (gw_level r) (gw_experience r) 0 r) <$> gdb_guild (gs_db s)) (gs_db s))) s)).
  change (state_ok s1). split; [split; try done|].
  - intros id g Hg. cbn in Hg. rewrite lookup_fmap in Hg. apply fmap_Some in Hg as (h & Hh & ->). destruct (H1 id h Hh). split; [done|]. by apply reset_guild_ok.
  - intros id Hg. cbn in Hg. rewrite lookup_fmap in Hg. apply fmap_None in Hg. destruct (H2 id Hg) as (E1 & E2). split; [cbn; by rewrite lookup_fmap, E1|done].
  - intros p row. cbn. by rewrite reset_member_of, H3.
  - intros id g Hg. cbn in Hg. rewrite lookup_fmap in Hg. apply fmap_Some in Hg as (h & Hh & ->). destruct (Hset id h Hh) as [[m Hm] Hn].
    split; [|done]. cbn. rewrite lookup_fmap, Hm. by eexists.
Qed.

(** ** All requests *)

(** What a request is sent by and what it names; a player who declines is in no
    guild, and only the lowest rank is removed. *)
Definition allowed (s : GuildState) (r : Request) : Prop :=
  match r with
  | CMSG_TURN_IN_PETITION p name signatures => forall guid, guid ∈ signatures -> 0 <= guid < 2 ^ 32
  | CMSG_GUILD_SET_RANK_PERMISSIONS p rankId name rights money l => Forall tab_request l
  | CMSG_GUILD_BANK_BUY_TAB p tabId => is_Some (gs_players s !! p)
  | CMSG_GUILD_DECLINE p => forall f, gs_players s !! p = Some f -> gf_GuildId f = 0
  | CMSG_GUILD_REMOVE p guid => 0 <= guid < 2 ^ 32
  | CMSG_GUILD_DEL_RANK p rankId => forall id g, GetGuild s p = Some id -> gs_guilds s !! id = Some g -> GetLowestRankId g <= u8 rankId
  | CMSG_GUILD_BANK_DEPOSIT_MONEY p banker money => is_Some (gs_players s !! p)
  | CMSG_GUILD_BANK_WITHDRAW_MONEY p banker money => is_Some (gs_players s !! p) /\ 0 <= money
  | PlayerLogin p pl => 0 <= p < 2 ^ 32
  | _ => True
  end.
Lemma u8_pos v : 0 <= u8 v.
Proof. by apply uint_range. Qed.
Lemma handle_gwp s r : state_ok s -> allowed s r -> keeps (handle w r) s.
Proof.
  intros Hs Hr. assert (forall p k, (forall id, is_Some (gs_guilds s !! id) -> GetGuild s p = Some id -> keeps (k id) s) -> keeps (in_guild p k) s) as Hin.
  { intros p k Hk. apply in_guild_gwp; [done|]. intros id Hid. destruct (GetGuild_member s p id Hs Hid) as (_ & g & m & Hg & _). apply Hk; [by exists g|done]. }
  destruct r; cbn [handle allowed] in *.
  - by apply HandleTurnInPetition_gwp.
  - apply Hin. intros id Hid _. by apply HandleSetMOTD_gwp.
  - apply Hin. intros id Hid _. by apply HandleSetInfo_gwp.
  - apply Hin. intros id Hid _. by apply HandleSetNewGuildMaster_gwp.
  - unfold HandleGuildBankUpdateTab. destruct (_ && _); [|by apply wp_ret]. apply Hin. intros id Hid _. apply HandleSetBankTabInfo_gwp; [done|done|apply u8_pos].
  - apply Hin. intros id Hid _. apply SetBankTabText_gwp; [done|done|apply u8_pos].
  - apply Hin. intros id Hid _. by apply HandleSetMemberNote_gwp.
  - apply Hin. intros id Hid _. apply HandleSetRankInfo_gwp; [done|done|apply u8_pos|done].
  - apply Hin. intros id Hid _. apply HandleBuyBankTab_gwp; [done|done|by apply player_online].
  - apply Hin. intros id Hid _. by apply HandleInviteMember_gwp.
  - by apply HandleGuildAccept_gwp.
  - by apply HandleGuildDecline_gwp.
  - apply Hin. intros id _ Hid. by apply HandleLeaveMember_gwp.
  - apply Hin. intros id Hid _. by apply HandleDisband_gwp.
  - apply Hin. intros id Hid _. by apply HandleRemoveMember_gwp.
  - apply Hin. intros id _ Hid. by apply HandleUpdateMemberRank_gwp.
  - apply Hin. intros id _ Hid. by apply HandleUpdateMemberRank_gwp.
  - apply Hin. intros id Hid _. by apply HandleSetMemberRank_gwp.
  - apply Hin. intros id Hid _. by apply HandleAddNewRank_gwp.
  - apply Hin. intros id Hid Hget. apply HandleRemoveRank_gwp; [done|done|]. intros g Hg. by apply (Hr id).
  - by apply HandleGuildBankDepositMoney_gwp.
  - destruct Hr. by apply HandleGuildBankWithdrawMoney_gwp.
  - apply Hin. intros id Hid _. by apply GiveXP_gwp.
  - by apply Login_gwp.
  - by apply Logout_gwp.
  - by apply HandleCharDelete_gwp.
  - by apply ResetTimes_gwp.
Qed.

(** The states of a server that starts without guilds. *)
Definition no_tables (d : GuildDB) : Prop := gdb_guild d = ∅ /\ gdb_member d = ∅ /\ forall id, gdb_rank d id = ∅ /\ gdb_right d id = ∅ /\ gdb_tab d id = ∅.
Inductive reachable : GuildState -> Prop :=
| reach_start s : gs_guilds s = ∅ -> gs_players s = ∅ -> 0 < gs_NextGuildId s -> no_tables (gs_db s) -> reachable s
| reach_step s r u s' : reachable s -> allowed s r -> handle w r s = (Ok u, s') -> reachable s'.
Lemma guild_reachable_ok s : reachable s -> state_ok s.
Proof.
  induction 1 as [s EG EP Hn (E1 & E2 & E3)|s r u s' Hr IH Ha Er].
  - split; [|by rewrite EG]. split; rewrite ?EG, ?EP, ?E2; try done.
    + intros id _. split; [by rewrite E1|]. apply E3.
    + intros p row. rewrite lookup_empty. split; [done|]. by intros (g & m & Hg & _).
    + intros p [[? Hp]|[? Hp]]; by rewrite lookup_empty in Hp.
  - pose proof (handle_gwp s r IH Ha) as H. unfold Prelude.wp in H. by rewrite Er in H.
Qed.
End Safety.
