(* ===== verification/GuildLoading.v ===== *)
(** * Guilds: what [LoadGuilds] reads (model in GuildRequests.v)

    The loops of [GuildMgr::LoadGuilds] over the tables of a server whose guilds
    were in step with them make the same guilds again. *)

From S2P Require Import Prelude.
From S2P Require Import Floats.
From S2P Require Import Economy.
From S2P Require Import EconomyProofs.
From S2P Require Import Guild.
From S2P Require Import GuildRequests.
From S2P Require Import GuildProofs.
From S2P Require Import GuildRanks.
From S2P Require Import GuildMembers.
From stdpp Require Import list sorting.
Local Open Scope Z_scope.
#[local] Set Warnings "-clear-no-such-hyp".

(** ** Lists in tables *)

(** A table that holds a list reads as the list. *)
Definition numbered {A} (l : list A) : list (Z * A) := imap (fun i x => (Z.of_nat i, x)) l.
Lemma numbered_lookup {A} (l : list A) (i : nat) : numbered l !! i = (fun x => (Z.of_nat i, x)) <$> l !! i.
Proof. unfold numbered. by rewrite list_lookup_imap. Qed.
Lemma numbered_in {A} (l : list A) k x : (k, x) ∈ numbered l <-> at_index l k = Some x.
Proof.
  rewrite list_elem_of_lookup. setoid_rewrite numbered_lookup. split.
  - intros (i & (y & Hy & [= -> ->])%fmap_Some). by rewrite at_index_of_nat.
  - intros [Hk Hx]%at_index_Some. exists (Z.to_nat k). rewrite Hx. cbn. by rewrite Z2Nat.id by lia.
Qed.
Lemma numbered_sorted {A} (l : list A) : StronglySorted key_before (numbered l).
Proof.
  induction l as [|x l IH] using rev_ind; [constructor|]. unfold numbered. rewrite imap_app. apply StronglySorted_app. split_and!; [|done|cbn; repeat constructor].
  intros a b Ha Hb. cbn in Hb. rewrite list_elem_of_singleton in Hb. subst b. unfold key_before. cbn.
  destruct a as [k y]. apply numbered_in, at_index_Some in Ha. cbn. lia.
Qed.
Lemma in_order_list {A} (F : gmap Z A) (l : list A) : (forall k, F !! k = at_index l k) -> in_order F = numbered l.
Proof.
  intros HF. apply (sorted_ext key_before); [unfold key_before; intros; lia|apply in_order_strict|apply numbered_sorted|].
  intros [k x]. by rewrite in_order_spec, numbered_in, HF.
Qed.
Lemma size_list {A} (F : gmap Z A) (l : list A) : (forall k, F !! k = at_index l k) -> size F = length l.
Proof.
  intros HF. transitivity (length (in_order F)).
  - unfold in_order. rewrite merge_sort_Permutation. symmetry. apply length_map_to_list.
  - rewrite (in_order_list F l HF). unfold numbered. by rewrite length_imap.
Qed.

(** ** Loops over the guilds *)

Lemma set_guilds_same s : gs_set_guilds (gs_guilds s) s = s.
Proof. by destruct s. Qed.
(** A loop whose turns change one guild each, and nothing else. *)
Lemma per_guild (f : Z -> GP unit) (R : Z -> Guild -> Guild -> Prop) (l : list (Z * Guild)) (b : GuildState) :
  (forall G id g, G !! id = Some g -> gs_guilds b !! id = Some g ->
    gwp (f id) (gs_set_guilds G b) (fun _ s' => exists g', s' = gs_set_guilds (<[id := g']> G) b /\ R id g g')) ->
  forall G, NoDup l.*1 -> (forall id g, (id, g) ∈ l -> G !! id = gs_guilds b !! id /\ is_Some (gs_guilds b !! id)) ->
  gwp (forM l (fun e => f e.1)) (gs_set_guilds G b) (fun _ s' => exists G', s' = gs_set_guilds G' b /\
    (forall id, id ∉ l.*1 -> G' !! id = G !! id) /\
    forall id g, id ∈ l.*1 -> gs_guilds b !! id = Some g -> exists g', G' !! id = Some g' /\ R id g g').
Proof.
  intros Hf. induction l as [|[id g0] l IH]; intros G Hnd Hl; cbn [forM].
  - apply wp_ret. exists G. split_and!; try done. intros id g Hid. by apply not_elem_of_nil in Hid.
  - cbn in Hnd. apply NoDup_cons in Hnd as [Hni Hnd]. destruct (Hl id g0) as [EG [g Hg]]; [by left|].
    apply wp_bind. eapply wp_mono; [apply (Hf G id g); [by rewrite EG|done]|]. intros [] s' (g' & -> & HR).
    eapply wp_mono; [apply (IH (<[id := g']> G) Hnd)|].
    + intros j h Hj. rewrite lookup_insert_ne; [apply (Hl j h); by right|]. intros <-. apply Hni, list_elem_of_fmap. by exists (id, h).
    + intros [] s'' (G' & -> & Ho & Hin). exists G'. split; [done|]. split.
      * intros j Hj. cbn in Hj. apply not_elem_of_cons in Hj as [Hj1 Hj2]. rewrite Ho by done. by rewrite lookup_insert_ne.
      * intros j h Hj Hh. cbn in Hj. apply elem_of_cons in Hj as [->|Hj]; [|by apply Hin]. rewrite Hg in Hh. injection Hh as <-.
        exists g'. by rewrite Ho, lookup_insert_eq.
Qed.

(** ** The ranks with their rights *)

Definition named (n : Z) (i : nat) (t : TabRight) : TabRight :=
  if Z.of_nat i <? n then mkTabRight (Z.of_nat i) (tr_rights t) (tr_slots t) else undefined_tab.
(** What is read of the rank [k] while the rows [rem] are not yet read. *)
Record rank_read (n : Z) (rem : list (Z * Z)) (k : nat) (r0 r : RankInfo) : Prop := {
  rr_row : rank_row r = rank_row r0;
  rr_id : rk_rankId r = Z.of_nat k;
  rr_tabs : length (rk_tabs r) = 8%nat;
  rr_tab : forall i t, rk_tabs r0 !! i = Some t ->
    rk_tabs r !! i = Some (named n i t) \/ rk_tabs r !! i = Some undefined_tab /\ (Z.of_nat i, Z.of_nat k) ∈ rem
}.
Definition ranks_read (n : Z) (rem : list (Z * Z)) (l0 l : list RankInfo) : Prop :=
  length l = length l0 /\ forall k r0 r, l0 !! k = Some r0 -> l !! k = Some r -> rank_read n rem k r0 r.

Lemma SetRankBankTab_load id g G b k i t r : G !! id = Some g -> len (gd_bankTabs g) <= 8 -> 0 <= len (gd_ranks g) <= 10 ->
  gd_ranks g !! k = Some r -> (i < length (gd_bankTabs g))%nat -> tr_tabId t = Z.of_nat i ->
  SetRankBankTabRightsAndSlots id (Z.of_nat k) t false (gs_set_guilds G b) =
  (Ok tt, gs_set_guilds (<[id := guild_set_ranks (<[k := rank_set_tabs (<[i := if rk_rankId r =? GR_GUILDMASTER then SetGuildMasterValues t else t]> (rk_tabs r)) r]> (gd_ranks g)) g]> G) b).
Proof.
  intros Hg Ht Hn Hk Hi Et. unfold SetRankBankTabRightsAndSlots. rewrite (bind_ok _ _ _ _ _ (deref_guild_ok id g (gs_set_guilds G b) Hg)).
  unfold GetPurchasedTabsSize. rewrite uint_small by lia. rewrite Et, s8_small by lia. rewrite (proj2 (Z.leb_gt _ _)) by lia.
  unfold GetRankInfo, GetRanksSize. rewrite uint_small by lia. pose proof (lookup_lt_Some _ _ _ Hk). rewrite (proj2 (Z.ltb_lt _ _)) by lia.
  rewrite Nat2Z.id, Hk. cbv zeta. set (u := if rk_rankId r =? GR_GUILDMASTER then SetGuildMasterValues t else t).
  assert (tr_tabId u = Z.of_nat i) as -> by (unfold u; by destruct (_ =? _)). rewrite s8_small by lia. rewrite (proj2 (Z.ltb_ge _ _)) by lia.
  unfold upd_rank. rewrite (bind_ok _ _ _ _ _ (upd_guild_ok id _ g (gs_set_guilds G b) Hg)). cbn. rewrite !Nat2Z.id, (alter_insert _ _ _ r) by done. done.
Qed.
(** A row of the rights of a guild. *)
Lemma right_row_inv d id g x y v : guild_ok d id g -> gdb_right d id !! (x, y) = Some v -> exists i k r0 t0,
  x = Z.of_nat i /\ y = Z.of_nat k /\ (i < length (gd_bankTabs g))%nat /\ gd_ranks g !! k = Some r0 /\ rk_tabs r0 !! i = Some t0 /\ v = right_row t0.
Proof.
  intros Hok Hv. rewrite (ok_right_rows _ _ _ Hok) in Hv. unfold right_at in Hv. destruct (at_index (gd_ranks g) y) as [r0|] eqn:Ey; [|done].
  apply at_index_Some in Ey as [Hy Ey]. cbn in Hv. destruct (Z.leb_spec 0 x); [|done]. destruct (Z.ltb_spec x (len (gd_bankTabs g))); [|done].
  cbn [andb] in Hv. apply fmap_Some in Hv as (t0 & Ht & ->). exists (Z.to_nat x), (Z.to_nat y), r0, t0. rewrite !Z2Nat.id by lia. split_and!; try done. lia.
Qed.
(** One more row is read. *)
Lemma rank_read_set n k r0 r i t0 rem : rank_read n ((Z.of_nat i, Z.of_nat k) :: rem) k r0 r -> rk_tabs r0 !! i = Some t0 ->
  rank_read n rem k r0 (rank_set_tabs (<[i := named n i t0]> (rk_tabs r)) r).
Proof.
  intros [R1 R2 R3 R4] Ht0. split; try done; cbn [rk_tabs rank_set_tabs]; [by rewrite length_insert|]. intros j t Hj.
  destruct (decide (j = i)) as [->|Hne].
  - left. destruct (R4 i t Hj) as [E|[E _]]; apply lookup_lt_Some in E; rewrite list_lookup_insert_eq by lia; by simplify_eq.
  - rewrite list_lookup_insert_ne by done. destruct (R4 j t Hj) as [?|[? Hin]]; [by left|right]. split; [done|].
    apply elem_of_cons in Hin as [[= E]|?]; [lia|done].
Qed.
Lemma rank_read_other n k r0 r x y rem : rank_read n ((x, y) :: rem) k r0 r -> y <> Z.of_nat k -> rank_read n rem k r0 r.
Proof.
  intros [R1 R2 R3 R4] Hne. split; try done. intros j t Hj. destruct (R4 j t Hj) as [?|[? Hin]]; [by left|right]. split; [done|].
  apply elem_of_cons in Hin as [[= _ E]|?]; [by destruct Hne|done].
Qed.
Lemma rights_loop d id g b l : guild_ok d id g -> (forall e, e ∈ l -> gdb_right d id !! e.1 = Some e.2) -> forall G h, G !! id = Some h ->
  length (gd_bankTabs h) = length (gd_bankTabs g) -> ranks_read (len (gd_bankTabs g)) l.*1 (gd_ranks g) (gd_ranks h) ->
  gwp (forM l (fun r => SetRankBankTabRightsAndSlots id r.1.2 (mkTabRight r.1.1 r.2.1 r.2.2) false)) (gs_set_guilds G b) (fun _ s' =>
    exists ranks, s' = gs_set_guilds (<[id := guild_set_ranks ranks h]> G) b /\ ranks_read (len (gd_bankTabs g)) [] (gd_ranks g) ranks).
Proof.
  intros Hok. pose proof (ok_tabs_size _ _ _ Hok) as Htabs. pose proof (ok_ranks_size _ _ _ Hok) as Hranks.
  induction l as [|[[x y] [a c]] l IH]; intros Hl G h Hh Et [Hlen Hread]; cbn [forM].
  { apply wp_ret. exists (gd_ranks h). split; [|done]. replace (guild_set_ranks (gd_ranks h) h) with h by (by destruct h). by rewrite insert_id. }
  destruct (right_row_inv d id g x y (a, c) Hok) as (i & k & r0 & t0 & -> & -> & Hi & Hk & Ht0 & [= -> ->]); [apply (Hl (_, _)); by left|].
  destruct (lookup_lt_is_Some_2 (gd_ranks h) k) as [r Hr]; [rewrite Hlen; by eapply lookup_lt_Some|].
  pose proof (Hread k r0 r Hk Hr) as Hrr. apply wp_bind. cbn [fst snd]. eapply wp_ok.
  { eapply (SetRankBankTab_load id h G b k i); [exact Hh|lia|lia|exact Hr|lia|done]. }
  set (u := if rk_rankId r =? GR_GUILDMASTER then _ else _). assert (u = named (len (gd_bankTabs g)) i t0) as ->.
  { unfold u. rewrite (rr_id _ _ _ _ _ Hrr). unfold named. rewrite (proj2 (Z.ltb_lt _ _)) by lia. unfold GR_GUILDMASTER.
    destruct (Z.eqb_spec (Z.of_nat k) 0) as [Ek|]; [|done]. destruct (ro_tab _ _ _ (ok_ranks _ _ _ Hok k r0 Hk) i t0 Ht0) as [_ Hto].
    rewrite (proj2 (Z.ltb_lt _ _)) in Hto by lia. destruct Hto as [_ Hto]. by rewrite (Hto Ek). }
  eapply wp_mono; [apply (IH (fun e He => Hl e ltac:(by right))); [apply lookup_insert_eq|done|]|].
  - cbn [gd_ranks guild_set_ranks]. split; [by rewrite length_insert|]. intros j q0 q Hq0 Hq.
    apply list_lookup_insert_Some in Hq as [(<- & <- & _)|[Hne Hq]].
    + assert (q0 = r0) as -> by congruence. by apply rank_read_set.
    + eapply rank_read_other; [by apply Hread|lia].
  - intros [] s' (ranks & -> & Hfin). exists ranks. split; [|done]. by rewrite insert_insert_eq.
Qed.

(** ** The tabs *)

Lemma tabs_loop id b (l0 : list BankTab) l : (forall e, e ∈ l -> at_index l0 e.1 = Some e.2) -> len l0 <= 8 -> forall G h, G !! id = Some h ->
  length (gd_bankTabs h) = length l0 -> (forall i t, l0 !! i = Some t -> gd_bankTabs h !! i = Some t \/ Z.of_nat i ∈ l.*1) ->
  gwp (forM l (fun t => LoadBankTabFromDB id t.1 t.2)) (gs_set_guilds G b) (fun _ s' => s' = gs_set_guilds (<[id := guild_set_tabs l0 h]> G) b).
Proof.
  intros Hl Hn. induction l as [|[x t] l IH]; intros G h Hh Elen Hread; cbn [forM].
  { apply wp_ret. replace (guild_set_tabs l0 h) with h; [by rewrite insert_id|]. assert (gd_bankTabs h = l0) as <-; [|by destruct h].
    apply list_eq_same_length with (n := length l0); [done|done|]. intros i t t' _ Ht Ht'. destruct (Hread i t' Ht') as [E|Hin]; [congruence|].
    by apply not_elem_of_nil in Hin. }
  assert (at_index l0 x = Some t) as Hx by (apply (Hl (x, t)); by left). apply at_index_Some in Hx as [Hx Ht].
  apply wp_bind. unfold LoadBankTabFromDB. eapply wp_ok; [by apply upd_guild_ok|]. cbn [fst snd]. unfold GetPurchasedTabsSize. rewrite uint_small by lia.
  rewrite (proj2 (Z.leb_gt _ _)) by lia. eapply wp_mono; [apply (IH (fun e He => Hl e ltac:(by right))); [apply lookup_insert_eq|cbn; by rewrite length_insert|]|].
  - intros i t' Ht'. cbn [gd_bankTabs guild_set_tabs]. destruct (decide (i = Z.to_nat x)) as [->|Hne].
    + left. rewrite list_lookup_insert_eq by lia. congruence.
    + rewrite list_lookup_insert_ne by done. destruct (Hread i t' Ht') as [?|Hin]; [by left|right]. cbn in Hin. apply elem_of_cons in Hin as [Hin|?]; [lia|done].
  - intros [] s' ->. cbn. by rewrite insert_insert_eq.
Qed.

(** ** The members *)

Lemma members_loop w d b l : (forall p row, (p, row) ∈ l -> wd_character w p = true) -> NoDup l.*1 -> forall G,
  (forall p row, (p, row) ∈ l -> is_Some (G !! mw_guildid row)) ->
  gwp (forM l (fun e => LoadMemberFromDB w d (mw_guildid e.2) e.1 e.2)) (gs_set_guilds G b) (fun _ s' => exists G', s' = gs_set_guilds G' b /\
    forall id, match G !! id with
      | None => G' !! id = None
      | Some g => exists M, G' !! id = Some (guild_set_members M g) /\ forall p m, M !! p = Some m <->
          (exists row, (p, row) ∈ l /\ mw_guildid row = id /\ m = load_member d p row) \/
          (gd_members g !! p = Some m /\ forall row, (p, row) ∈ l -> mw_guildid row <> id)
      end).
Proof.
  intros Hw. induction l as [|[p row] l IH]; intros Hnd G HG; cbn [forM].
  { apply wp_ret. exists G. split; [done|]. intros id. destruct (G !! id) as [g|] eqn:Eg; [|done]. exists (gd_members g).
    replace (guild_set_members (gd_members g) g) with g by (by destruct g). split; [done|]. intros p m. split.
    - intros Hm. right. split; [done|]. intros row Hr. by apply elem_of_nil in Hr.
    - intros [(row & Hr & _)|[Hm _]]; [by apply elem_of_nil in Hr|done]. }
  cbn in Hnd. apply NoDup_cons in Hnd as [Hp Hnd]. assert (forall r, (p, r) ∉ l) as Hni by (intros r Hr; apply Hp, list_elem_of_fmap; by exists (p, r)).
  destruct (HG p row) as [g Hg]; [by left|]. apply wp_bind. unfold LoadMemberFromDB at 1. cbn [fst snd]. rewrite (Hw p row) by by left.
  eapply wp_ok; [by apply (upd_guild_ok _ _ g)|].
  eapply wp_mono; [apply (IH (fun q r Hq => Hw q r ltac:(by right)) Hnd (<[mw_guildid row := guild_set_members (<[p := load_member d p row]> (gd_members g)) g]> G))|].
  { intros q r Hq. apply lookup_insert_is_Some. destruct (decide (mw_guildid row = mw_guildid r)); [by left|right; split; [done|apply (HG q); by right]]. }
  intros [] s' (G' & -> & HG'). exists G'. split; [done|]. intros id. specialize (HG' id). destruct (decide (id = mw_guildid row)) as [->|Hne].
  - rewrite lookup_insert_eq in HG'. rewrite Hg. destruct HG' as (M & EM & HM). exists M. split; [exact EM|]. intros q m. rewrite HM. cbn [gd_members guild_set_members].
    setoid_rewrite elem_of_cons. destruct (decide (q = p)) as [->|Hq].
    + rewrite lookup_insert_eq. split.
      * intros [(r & Hr & _)|[[= <-] _]]; [by destruct (Hni r)|]. left. exists row. split; [by left|done].
      * intros [(r & [[= ->]|Hr] & _ & ->)|[_ H]]; [|by destruct (Hni r)|by destruct (H row); [left|]]. right. split; [done|]. intros r Hr. by destruct (Hni r).
    + rewrite lookup_insert_ne by done. split.
      * intros [(r & Hr & ?)|[Hm H]]; [left; exists r; split; [by right|done]|right]. split; [done|]. intros r [[= -> ->]|Hr]; [done|by apply H].
      * intros [(r & [[= -> ->]|Hr] & ?)|[Hm H]]; [done|left; by exists r|right]. split; [done|]. intros r Hr. apply H. by right.
  - rewrite lookup_insert_ne in HG' by done. destruct (G !! id) as [h|]; [|done]. destruct HG' as (M & EM & HM). exists M. split; [done|].
    intros q m. rewrite HM. setoid_rewrite elem_of_cons. split.
    + intros [(r & Hr & ?)|[Hm H]]; [left; exists r; split; [by right|done]|right]. split; [done|]. intros r [[= -> ->]|Hr]; [done|by apply H].
    + intros [(r & [[= -> ->]|Hr] & E & ?)|[Hm H]]; [by destruct Hne|left; by exists r|right]. split; [done|]. intros r Hr. apply H. by right.
Qed.

(** ** The rows of the guilds and their ranks *)

(** The fields that the row of a guild has. *)
Definition same_fields (d : GuildDB) (id : Z) (g h : Guild) : Prop := exists level experience today,
  gdb_guild d !! id = Some (row_of g level experience today) /\ row_of h level experience today = row_of g level experience today /\
  gd_level h = u8 level /\ gd_experience h = experience /\ gd_todayExperience h = today.
Record begun (d : GuildDB) (id : Z) (g h : Guild) : Prop := {
  bg_fields : same_fields d id g h;
  bg_ranks : ranks_read (len (gd_bankTabs g)) (map_to_list (gdb_right d id)).*1 (gd_ranks g) (gd_ranks h);
  bg_tabs : gd_bankTabs h = repeat new_tab (length (gd_bankTabs g));
  bg_members : gd_members h = ∅
}.
Definition first_read (d : GuildDB) (id : Z) (r : GuildRow) : Guild :=
  guild_set_ranks ((fun e => load_rank e.1 e.2) <$> in_order (gdb_rank d id)) (load_guild d id r).
Lemma load_ranks_list d id g : guild_ok d id g ->
  (fun e => load_rank e.1 e.2) <$> in_order (gdb_rank d id) = imap (fun k r => load_rank (Z.of_nat k) (rank_row r)) (gd_ranks g).
Proof.
  intros Hok. rewrite (in_order_list _ (rank_row <$> gd_ranks g)).
  - apply list_eq. intros k. rewrite list_lookup_fmap, numbered_lookup, list_lookup_fmap, list_lookup_imap. by destruct (gd_ranks g !! k).
  - intros k. rewrite (ok_rank_rows _ _ _ Hok). unfold at_index. case_match; [by rewrite list_lookup_fmap|done].
Qed.
Lemma load_rank_read d id g k r0 : guild_ok d id g -> gd_ranks g !! k = Some r0 ->
  rank_read (len (gd_bankTabs g)) (map_to_list (gdb_right d id)).*1 k r0 (load_rank (Z.of_nat k) (rank_row r0)).
Proof.
  intros Hok Hk. destruct (ok_ranks _ _ _ Hok k r0 Hk) as [R1 R2 R3 R4]. split; try done.
  - unfold rank_row, load_rank. cbn. f_equal. destruct (Z.eqb_spec (Z.of_nat k) GR_GUILDMASTER) as [E|]; [|done]. by rewrite R2.
  - intros i t Ht. pose proof (lookup_lt_Some _ _ _ Ht) as Hi. rewrite R3 in Hi.
    assert (rk_tabs (load_rank (Z.of_nat k) (rank_row r0)) !! i = Some undefined_tab) as Hu by (apply (new_rank_tabs (Z.of_nat k) [] 0); done).
    destruct (decide (Z.of_nat i < len (gd_bankTabs g))) as [Hlt|Hge].
    + right. split; [exact Hu|]. apply list_elem_of_fmap. exists ((Z.of_nat i, Z.of_nat k), right_row t). split; [done|].
      apply elem_of_map_to_list. rewrite (ok_right_rows _ _ _ Hok). unfold right_at. rewrite at_index_of_nat, Hk. cbn.
      rewrite (proj2 (Z.leb_le _ _)), (proj2 (Z.ltb_lt _ _)) by lia. cbn. by rewrite Nat2Z.id, Ht.
    + left. unfold named. rewrite (proj2 (Z.ltb_ge _ _)) by lia. exact Hu.
Qed.
Lemma first_read_begun d id g level experience today : guild_ok d id g -> gdb_guild d !! id = Some (row_of g level experience today) ->
  begun d id g (first_read d id (row_of g level experience today)).
Proof.
  intros Hok Hrow. pose proof (ok_tabs_size _ _ _ Hok) as Hn. split; try done.
  - by exists level, experience, today.
  - cbn [first_read gd_ranks guild_set_ranks]. rewrite (load_ranks_list d id g Hok). split; [by rewrite length_imap|]. intros k r0 r Hk Hr.
    rewrite list_lookup_imap, Hk in Hr. injection Hr as <-. by apply (load_rank_read d id).
  - cbn. rewrite (size_list _ (gd_bankTabs g) (ok_tab_rows _ _ _ Hok)). unfold GUILD_BANK_MAX_TABS. rewrite uint_small by lia. f_equal. lia.
Qed.

(** ** All of it *)

Definition same_member (m n : Member) : Prop := mb_rankId n = mb_rankId m /\ mb_publicNote n = mb_publicNote m /\ mb_officerNote n = mb_officerNote m.
(** A guild of which the rows [rem] and the tabs are left to read, or nothing is. *)
Record reading (d : GuildDB) (id : Z) (rem : list (Z * Z)) (tabs : list BankTab) (g h : Guild) : Prop := {
  rg_fields : same_fields d id g h;
  rg_ranks : ranks_read (len (gd_bankTabs g)) rem (gd_ranks g) (gd_ranks h);
  rg_tabs : gd_bankTabs h = tabs;
  rg_members : forall p, option_Forall2 same_member (gd_members g !! p) (gd_members h !! p)
}.
Definition read_guild (d : GuildDB) (id : Z) (g h : Guild) : Prop := reading d id [] (gd_bankTabs g) g h.
Lemma ranks_read_at n l0 l j : ranks_read n [] l0 l -> rank_row <$> at_index l j = rank_row <$> at_index l0 j.
Proof.
  intros [El Hr]. unfold at_index. case_match; [|done]. destruct (l0 !! Z.to_nat j) as [r0|] eqn:E0.
  - destruct (lookup_lt_is_Some_2 l (Z.to_nat j)) as [r Er]; [rewrite El; by eapply lookup_lt_Some|]. rewrite Er. cbn. f_equal. by apply (Hr _ _ _ E0 Er).
  - apply lookup_ge_None in E0. by rewrite lookup_ge_None_2 by lia.
Qed.
Lemma rank_read_done n k r0 r i t : rank_read n [] k r0 r -> rk_tabs r0 !! i = Some t -> rk_tabs r !! i = Some (named n i t).
Proof. intros [R1 R2 R3 R4] Ht. destruct (R4 i t Ht) as [?|[_ Hin]]; [done|by apply not_elem_of_nil in Hin]. Qed.
Lemma rank_read_ok n k r0 r : rank_ok n (Z.of_nat k) r0 -> rank_read n [] k r0 r -> rank_ok n (Z.of_nat k) r.
Proof.
  intros [O1 O2 O3 O4] Hr. pose proof Hr as [R1 R2 R3 R4]. split; try done.
  - intros Ek. assert (rk_rights r = rk_rights r0) as -> by (by injection R1). by apply O2.
  - intros i t Ht. destruct (lookup_lt_is_Some_2 (rk_tabs r0) i) as [t0 Ht0]; [apply lookup_lt_Some in Ht; lia|].
    pose proof (rank_read_done n k r0 r i t0 Hr Ht0) as Et. rewrite Et in Ht. injection Ht as <-. destruct (O4 i t0 Ht0) as [Hb Ho]. unfold named, tab_ok.
    destruct (Z.of_nat i <? n); [|split; [cbn; lia|done]]. destruct Ho as [_ Ho]. split; [done|]. split; [by left|]. intros Ek. by rewrite (Ho Ek).
Qed.
Lemma read_guild_ok d id g h : guild_ok d id g -> read_guild d id g h -> guild_ok d id h.
Proof.
  intros [H2 H3 H5 H6 H7 H8 H9] [(l & x & t & Er & Eh & _) [El Hr] Et _]. split; rewrite ?Et, ?El; try done.
  - intros k r Hk. destruct (lookup_lt_is_Some_2 (gd_ranks g) k) as [r0 Hr0]; [rewrite <- El; by eapply lookup_lt_Some|].
    eapply rank_read_ok; [by apply H5|by apply Hr].
  - exists l, x, t. by rewrite Eh.
  - intros k. rewrite H7. symmetry. by eapply ranks_read_at.
  - intros i k. rewrite H8. unfold right_at, at_index. destruct (0 <=? k); [|cbn; done]. destruct (gd_ranks g !! Z.to_nat k) as [r0|] eqn:E0.
    + destruct (lookup_lt_is_Some_2 (gd_ranks h) (Z.to_nat k)) as [r Ek]; [rewrite El; by eapply lookup_lt_Some|]. rewrite Ek. cbn.
      destruct (Z.leb_spec 0 i); [|done]. destruct (Z.ltb_spec i (len (gd_bankTabs g))); [|done]. cbn.
      destruct (lookup_lt_is_Some_2 (rk_tabs r0) (Z.to_nat i)) as [t0 Ht0]; [rewrite (ro_tabs _ _ _ (H5 _ _ E0)); lia|].
      rewrite Ht0, (rank_read_done _ _ _ _ _ _ (Hr _ _ _ E0 Ek) Ht0). cbn. unfold named. by rewrite (proj2 (Z.ltb_lt _ _)) by lia.
    + apply lookup_ge_None in E0. by rewrite lookup_ge_None_2 by lia.
Qed.
Lemma orphans_same {A} `{Empty A} d (t : Z -> A) j : (gdb_guild d !! j = None -> t j = ∅) -> drop_orphans d t j = t j.
Proof. intros Hj. unfold drop_orphans. case_bool_decide as Hd; [done|]. symmetry. apply Hj. by apply eq_None_not_Some. Qed.

(** The guilds [G] of memory when the guilds [T] are in the tables. *)
Definition each (R : Z -> Guild -> Guild -> Prop) (T G : gmap Z Guild) : Prop := forall id, option_Forall2 (R id) (T !! id) (G !! id).
Lemma each_some R T G id h : each R T G -> G !! id = Some h -> exists g, T !! id = Some g /\ R id g h.
Proof. intros HR Hh. specialize (HR id). rewrite Hh in HR. inversion HR as [g h' Hgh Eg|]; subst. by exists g. Qed.
Lemma each_dom R T G id : each R T G -> is_Some (G !! id) <-> is_Some (T !! id).
Proof. intros HR. specialize (HR id). destruct HR; split; intros [? ?]; try done; by eexists. Qed.

(** The turns of a loop over all guilds. *)
Lemma per_guild_all (f : Z -> GP unit) (R R' : Z -> Guild -> Guild -> Prop) T A b : each R T A ->
  (forall G id g h, T !! id = Some g -> R id g h -> G !! id = Some h -> gwp (f id) (gs_set_guilds G b) (fun _ s' => exists h', s' = gs_set_guilds (<[id := h']> G) b /\ R' id g h')) ->
  gwp (forM (in_order A) (fun e => f e.1)) (gs_set_guilds A b) (fun _ s' => exists G', s' = gs_set_guilds G' b /\ each R' T G').
Proof.
  intros HA Hf. eapply wp_mono; [eapply (per_guild f (fun id h h' => forall g, T !! id = Some g -> R' id g h') (in_order A) (gs_set_guilds A b))|].
  - intros G id h Hh Hb. cbn in Hb. destruct (each_some R T A id h HA Hb) as (g & Hg & HR). eapply wp_mono; [by apply (Hf G id g h)|].
    intros [] s' (h' & -> & HR'). exists h'. split; [done|]. intros g' Hg'. by simplify_eq.
  - apply in_order_NoDup.
  - intros id h Hin. apply in_order_spec in Hin. cbn. rewrite Hin. split; [done|by eexists].
  - intros [] s' (G' & -> & Ho & Hin). cbn in Ho, Hin. exists G'. split; [done|]. intros id.
    assert (id ∈ (in_order A).*1 <-> is_Some (A !! id)) as Hdom.
    { rewrite list_elem_of_fmap. split; [intros ([j h] & -> & Hj); apply in_order_spec in Hj; by exists h|].
      intros [h Hh]. exists (id, h). split; [done|by apply in_order_spec]. }
    pose proof (HA id) as HAid. destruct (A !! id) as [h|] eqn:Eh.
    + inversion HAid as [g h' HR Eg|]; subst. destruct (Hin id h) as (h' & -> & HR'); [by apply Hdom|done|]. constructor. by apply HR'.
    + inversion HAid; subst. rewrite Ho; [by rewrite Eh; constructor|]. rewrite Hdom. by intros [? ?].
Qed.

Section Load.
Context (w : GuildWorld) (t : GuildState) (Ht : state_ok t).
Context (Hchar : forall p row, gdb_member (gs_db t) !! p = Some row -> wd_character w p = true).
Abbreviation d := (gs_db t).
Abbreviation T := (gs_guilds t).

Lemma guild_row_in id : is_Some (gdb_guild d !! id) <-> is_Some (T !! id).
Proof.
  split.
  - intros [r Hr]. destruct (T !! id) as [g|] eqn:Eg; [by exists g|]. destruct (gi_none _ _ _ _ _ (proj1 Ht) id Eg) as [E _]. congruence.
  - intros [g Hg]. destruct (state_ok_guild t id g Ht Hg) as (_ & Hok & _). destruct (ok_row _ _ _ Hok) as (l & x & y & ->). by eexists.
Qed.
Lemma row_guild p row : gdb_member d !! p = Some row -> is_Some (T !! mw_guildid row).
Proof. intros Hr. by destruct (member_id_pos t p row (proj1 Ht) Hr). Qed.
(** First the guilds and their ranks. *)
Lemma begun_all : each (begun d) T (map_imap (fun id r => Some (first_read d id r)) (gdb_guild d)).
Proof.
  intros id. rewrite map_lookup_imap. destruct (T !! id) as [g|] eqn:Eg.
  - destruct (state_ok_guild t id g Ht Eg) as (_ & Hok & _). destruct (ok_row _ _ _ Hok) as (l & x & y & Er). rewrite Er. cbn. constructor.
    by apply first_read_begun.
  - destruct (gi_none _ _ _ _ _ (proj1 Ht) id Eg) as [-> _]. constructor.
Qed.
(** Then the members. *)
Lemma members_all (A : gmap Z Guild) (b : GuildState) dw : each (begun d) T A ->
  gwp (forM (in_order (gdb_member d)) (fun e => LoadMemberFromDB w dw (mw_guildid e.2) e.1 e.2)) (gs_set_guilds A b)
    (fun _ s' => exists G, s' = gs_set_guilds G b /\
      each (fun id g h => reading d id (map_to_list (gdb_right d id)).*1 (repeat new_tab (length (gd_bankTabs g))) g h) T G).
Proof.
  intros HA. eapply wp_mono; [apply members_loop|].
  - intros p row Hin. apply in_order_spec in Hin. by eapply Hchar.
  - apply in_order_NoDup.
  - intros p row Hin. apply in_order_spec in Hin. apply (each_dom _ _ _ _ HA). by eapply row_guild.
  - intros [] s' (G & -> & HG). exists G. split; [done|]. intros id. specialize (HG id). specialize (HA id).
    destruct (A !! id) as [h|]; inversion HA as [g h' [Hf Hr Htabs Hm] Eg|Eg]; subst.
    + destruct HG as (M & -> & HM). constructor. split; cbn; try done. intros p. destruct (gd_members g !! p) as [m|] eqn:Em.
      * pose proof (member_row_of _ _ _ _ _ (proj1 Ht) id g p m (eq_sym Eg) Em) as Hrow.
        assert (M !! p = Some (load_member dw p (member_row id m))) as ->.
        { apply HM. left. exists (member_row id m). split; [by apply in_order_spec|done]. }
        constructor. done.
      * destruct (M !! p) as [m|] eqn:EM; [|constructor]. exfalso. apply HM in EM as [(row & Hin & Eid & _)|[Hin _]].
        -- apply in_order_spec, (gi_members _ _ _ _ _ (proj1 Ht)) in Hin as (g' & m' & Hg' & Hm' & _). rewrite Eid in Hg'. rewrite <- Eg in Hg'. congruence.
        -- by rewrite Hm in Hin.
    + rewrite HG. constructor.
Qed.
(** Then the rights, and at last the tabs. *)
Lemma rights_all (A : gmap Z Guild) (b : GuildState) (R : Z -> gmap (Z * Z) (Z * Z)) : (forall id, is_Some (T !! id) -> R id = gdb_right d id) ->
  each (fun id g h => reading d id (map_to_list (gdb_right d id)).*1 (repeat new_tab (length (gd_bankTabs g))) g h) T A ->
  gwp (forM (in_order A) (fun e => forM (map_to_list (R e.1)) (fun r => SetRankBankTabRightsAndSlots e.1 r.1.2 (mkTabRight r.1.1 r.2.1 r.2.2) false)))
    (gs_set_guilds A b) (fun _ s' => exists G, s' = gs_set_guilds G b /\
      each (fun id g h => reading d id [] (repeat new_tab (length (gd_bankTabs g))) g h) T G).
Proof.
  intros HR HA. apply (per_guild_all (fun id => forM (map_to_list (R id)) (fun r => SetRankBankTabRightsAndSlots id r.1.2 (mkTabRight r.1.1 r.2.1 r.2.2) false)) _ _ T A b HA).
  intros G id g h Hg [Hf Hr Htabs Hm] Hh. destruct (state_ok_guild t id g Ht Hg) as (_ & Hok & _). rewrite HR by by exists g.
  eapply wp_mono; [eapply (rights_loop d id g); [exact Hok| |exact Hh|by rewrite Htabs, repeat_length|exact Hr]|].
  - intros e He. by apply elem_of_map_to_list; destruct e.
  - intros [] s' (ranks & -> & Hread). eexists. split; [done|]. by split.
Qed.
Lemma tabs_all (A : gmap Z Guild) (b : GuildState) (R : Z -> gmap Z BankTab) : (forall id, is_Some (T !! id) -> R id = gdb_tab d id) ->
  each (fun id g h => reading d id [] (repeat new_tab (length (gd_bankTabs g))) g h) T A ->
  gwp (forM (in_order A) (fun e => forM (in_order (R e.1)) (fun t => LoadBankTabFromDB e.1 t.1 t.2))) (gs_set_guilds A b)
    (fun _ s' => exists G, s' = gs_set_guilds G b /\ each (read_guild d) T G).
Proof.
  intros HR HA. apply (per_guild_all (fun id => forM (in_order (R id)) (fun t => LoadBankTabFromDB id t.1 t.2)) _ _ T A b HA).
  intros G id g h Hg [Hf Hr Htabs Hm] Hh. destruct (state_ok_guild t id g Ht Hg) as (_ & Hok & _). rewrite HR by by exists g.
  eapply wp_mono; [eapply (tabs_loop id b (gd_bankTabs g)); [|apply (ok_tabs_size _ _ _ Hok)|exact Hh|by rewrite Htabs, repeat_length|]|].
  - intros [k x] He. apply in_order_spec in He. by rewrite (ok_tab_rows _ _ _ Hok) in He.
  - intros i x Hi. right. apply list_elem_of_fmap. exists (Z.of_nat i, x). split; [done|]. apply in_order_spec.
    by rewrite (ok_tab_rows _ _ _ Hok), at_index_of_nat.
  - intros [] s' ->. eexists. split; [done|]. by split.
Qed.
(** The tables stay what they were. *)
Definition loaded (s' : GuildState) : Prop := state_ok s' /\ gs_players s' = ∅ /\ each (read_guild d) T (gs_guilds s').
Lemma loaded_ok G s' : each (read_guild d) T G -> gs_guilds s' = G -> gs_players s' = ∅ -> gdb_member (gs_db s') = gdb_member d ->
  (forall j, same_rows d (gs_db s') j) -> 0 < gs_NextGuildId s' -> (forall id g, T !! id = Some g -> id < gs_NextGuildId s') -> loaded s'.
Proof.
  intros HG EG EP Em Hsame Hn Hids. split; [|split; [done|by rewrite EG]]. split; [split|]; rewrite ?EG, ?EP.
  - intros id h Hh. destruct (each_some _ _ _ _ _ HG Hh) as (g & Hg & Hr). destruct (state_ok_guild t id g Ht Hg) as (? & Hok & _).
    split; [split; [lia|by eapply Hids]|]. eapply guild_ok_same; [apply Hsame|]. by eapply read_guild_ok.
  - intros id Hid. eapply no_rows_same; [apply Hsame|]. apply (gi_none _ _ _ _ _ (proj1 Ht)). specialize (HG id). rewrite Hid in HG. by inversion HG.
  - intros p row. rewrite Em, (gi_members _ _ _ _ _ (proj1 Ht)). unfold member_of. pose proof (HG (mw_guildid row)) as Hid. split; intros (g & m & Hg & Hm & E).
    + rewrite Hg in Hid. inversion Hid as [g' h Hr|]; subst. pose proof (rg_members _ _ _ _ _ _ Hr p) as Hp. rewrite Hm in Hp.
      inversion Hp as [m' m2 (E1 & E2 & E3)|]; subst. exists h, m2. split; [done|]. split; [done|]. unfold member_row. by rewrite E1, E2, E3.
    + rewrite Hg in Hid. inversion Hid as [g' h Hr|]; subst. pose proof (rg_members _ _ _ _ _ _ Hr p) as Hp. rewrite Hm in Hp.
      inversion Hp as [m' m2 (E1 & E2 & E3)|]; subst. exists g', m'. split; [done|]. split; [done|]. unfold member_row. by rewrite <- E1, <- E2, <- E3.
  - intros p f Hf. by rewrite lookup_empty in Hf.
  - intros p [[? Hp]|Hp]; [by rewrite lookup_empty in Hp|]. rewrite Em in Hp. apply (gi_guids _ _ _ _ _ (proj1 Ht)). by right.
  - done.
  - intros id h Hh. destruct (each_some _ _ _ _ _ HG Hh) as (g & Hg & [(l & x & y & _ & Er & _) [El _] _ Hm]). destruct (state_ok_guild t id g Ht Hg) as (_ & _ & [[m Hl] Hsz]).
    split; [|by rewrite El]. injection Er as _ -> _ _ _ _. specialize (Hm (gd_leaderGuid g)). rewrite Hl in Hm. inversion Hm. by eexists.
Qed.

(** The tables without rows that belong to no guild. *)
Definition d_ranks : GuildDB := gdb_set_rank (drop_orphans d (gdb_rank d)) d.
Definition d_members : GuildDB := gdb_set_member (filter (fun e => is_Some (gdb_guild d_ranks !! mw_guildid e.2)) (gdb_member d_ranks)) d_ranks.
Definition d_withdraw : GuildDB := gdb_set_withdraw (filter (fun e => is_Some (gdb_member d_members !! e.1)) (gdb_withdraw d_members)) d_members.
Definition d_rights : GuildDB := gdb_set_right (drop_orphans d_withdraw (gdb_right d_withdraw)) d_withdraw.
Definition d_tabs : GuildDB := gdb_set_tab (drop_orphans d_rights (gdb_tab d_rights)) d_rights.
Lemma no_guild_rows id : gdb_guild d !! id = None -> no_rows d id.
Proof.
  intros Hid. apply (gi_none _ _ _ _ _ (proj1 Ht)), eq_None_not_Some. rewrite <- guild_row_in. by rewrite Hid; intros [? ?].
Qed.
Lemma d_members_same : gdb_member d_members = gdb_member d.
Proof. apply map_filter_id. intros p row Hr. apply guild_row_in. by eapply row_guild. Qed.
Lemma d_tabs_same j : same_rows d d_tabs j.
Proof.
  unfold same_rows, d_tabs, d_rights, d_withdraw, d_members, d_ranks. cbn. split; [done|]. split_and!; apply orphans_same; intros Hj; by apply no_guild_rows in Hj as (_ & ? & ? & ?).
Qed.
Lemma first_all : map_imap (fun id g => Some (guild_set_ranks ((fun e => load_rank e.1 e.2) <$> in_order (gdb_rank d_ranks id)) g))
  (map_imap (fun id r => Some (load_guild d id r)) (gdb_guild d)) = map_imap (fun id r => Some (first_read d id r)) (gdb_guild d).
Proof.
  apply map_eq. intros id. rewrite !map_lookup_imap. destruct (gdb_guild d !! id) as [r|] eqn:Er; [|done]. cbn.
  unfold drop_orphans. by rewrite bool_decide_true by (by exists r).
Qed.
Lemma load_tables_gwp s Q : gs_db s = d -> gs_players s = ∅ -> 0 < gs_NextGuildId s -> (forall id g, T !! id = Some g -> id < gs_NextGuildId s) ->
  (forall (A : gmap Z Guild) s', loaded s' -> (forall id, is_Some (A !! id) <-> is_Some (gs_guilds s' !! id)) -> gwp (forM (in_order A) (fun e => Validate w e.1)) s' Q) ->
  gwp (load_tables w) s Q.
Proof.
  destruct s as [G0 next P0 d0 tr realm sent]. cbn. intros -> -> Hn Hids HQ. unfold load_tables. do 5 apply wp_modify.
  set (b := mkGuildState ∅ next ∅ d_withdraw tr realm sent).
  match goal with |- gwp _ ?s _ => change s with (gs_set_guilds (map_imap (fun id g => Some (guild_set_ranks ((fun e => load_rank e.1 e.2) <$> in_order (gdb_rank d_ranks id)) g))
    (map_imap (fun id r => Some (load_guild d id r)) (gdb_guild d))) b) end.
  rewrite first_all. apply wp_get, wp_bind. change (gs_db (gs_set_guilds _ b)) with d_withdraw.
  change (gdb_member d_withdraw) with (gdb_member d_members). rewrite d_members_same.
  eapply wp_mono; [apply (members_all _ b d_withdraw), begun_all|]. intros [] s1 (G1 & -> & HG1).
  apply wp_modify. set (b1 := mkGuildState ∅ next ∅ d_rights tr realm sent).
  match goal with |- gwp _ ?s _ => change s with (gs_set_guilds G1 b1) end. apply wp_get, wp_bind.
  eapply wp_mono; [apply (rights_all G1 b1 (gdb_right d_rights)); [|exact HG1]|].
  { intros id Hid. apply orphans_same. intros Hnone. by apply no_guild_rows in Hnone as (_ & _ & ? & _). }
  intros [] s2 (G2 & -> & HG2). apply wp_modify. set (b2 := mkGuildState ∅ next ∅ d_tabs tr realm sent).
  match goal with |- gwp _ ?s _ => change s with (gs_set_guilds G2 b2) end. apply wp_get, wp_bind.
  eapply wp_mono; [apply (tabs_all G2 b2 (gdb_tab d_tabs)); [|exact HG2]|].
  { intros id Hid. apply orphans_same. intros Hnone. by apply no_guild_rows in Hnone as (_ & _ & _ & ?). }
  intros [] s3 (G3 & -> & HG3). apply HQ.
  - apply (loaded_ok G3); try done; [by apply d_members_same|by apply d_tabs_same].
  - intros id. by rewrite (each_dom _ _ _ _ HG2), (each_dom _ _ _ _ HG3).
Qed.
End Load.
