(* ===== verification/GuildReload.v ===== *)
(** * Guilds: what [Validate] makes of a guild that was loaded

    The ranks need nothing, the members may be given other ranks, and after a
    restart each guild is what it was but for these. *)

From S2P Require Import Prelude.
From S2P Require Import Floats.
From S2P Require Import Economy.
From S2P Require Import EconomyProofs.
From S2P Require Import Guild.
From S2P Require Import GuildRequests.
From S2P Require Import GuildProofs.
From S2P Require Import GuildRanks.
From S2P Require Import GuildMembers.
From S2P Require Import GuildLoading.
From stdpp Require Import list sorting.
Local Open Scope Z_scope.
#[local] Set Warnings "-clear-no-such-hyp".

(** ** Ranks *)

(** All tabs of a rank are known. *)
Definition complete (h : Guild) : Prop := forall k r i t, gd_ranks h !! k = Some r -> rk_tabs r !! i = Some t -> Z.of_nat i < len (gd_bankTabs h) ->
  tr_tabId t = Z.of_nat i.
Lemma read_complete d id g h : guild_ok d id g -> read_guild d id g h -> complete h.
Proof.
  intros Hok [_ [El Hr] Et _] k r i t Hk Hi Hlt. rewrite Et in Hlt.
  destruct (lookup_lt_is_Some_2 (gd_ranks g) k) as [r0 Hr0]; [rewrite <- El; by eapply lookup_lt_Some|]. pose proof (Hr k r0 r Hr0 Hk) as Hread.
  destruct (lookup_lt_is_Some_2 (rk_tabs r0) i) as [t0 Ht0].
  { rewrite (ro_tabs _ _ _ (ok_ranks _ _ _ Hok k r0 Hr0)), <- (rr_tabs _ _ _ _ _ Hread). by eapply lookup_lt_Some. }
  rewrite (rank_read_done _ _ _ _ _ _ Hread Ht0) in Hi. injection Hi as <-. unfold named. by rewrite (proj2 (Z.ltb_lt _ _)).
Qed.
Lemma CreateMissingTabs_none id (n : nat) r : (n <= 8)%nat -> (forall i t, rk_tabs r !! i = Some t -> Z.of_nat i < Z.of_nat n -> tr_tabId t = Z.of_nat i) ->
  CreateMissingTabs id (Z.of_nat n) r = (r, []).
Proof.
  intros Hn Hr. unfold CreateMissingTabs. induction n as [|n IH]; [done|]. rewrite seqZ_S, foldl_app, IH; [|lia|intros i t Hi Hlt; apply (Hr i t Hi); lia].
  cbn [foldl]. unfold missing_tab. rewrite Z.add_0_l, Nat2Z.id. destruct (rk_tabs r !! n) as [t|] eqn:Et; [|done].
  rewrite (Hr n t Et) by lia. by rewrite s8_small, Z.eqb_refl by lia.
Qed.
(** What leaves the guilds and the players alone. *)
Definition same_guilds (s s' : GuildState) : Prop := state_ok s' /\ gs_guilds s' = gs_guilds s.
Lemma missing_none_gwp s id h k : state_ok s -> gs_guilds s !! id = Some h -> complete h ->
  gwp (BeginTransaction;; CreateMissingTabsIfNeeded id (GetPurchasedTabsSize h) k;; CommitTransaction) s (fun _ s' => same_guilds s s').
Proof.
  intros Hs Hh Hc. pose proof (state_ok_guild s id h Hs Hh) as (_ & Hok & _). apply begin_gwp, wp_bind. rewrite (purchased _ _ _ Hok).
  assert (forall s', gs_guilds s' = gs_guilds s -> gs_trans s' = [] -> r_trans (gs_realm s') = [] -> gs_players s' = gs_players s -> gs_db s' = gs_db s ->
    gs_NextGuildId s' = gs_NextGuildId s -> r_online (gs_realm s') = r_online (gs_realm s) -> gwp CommitTransaction s' (fun _ s'' => same_guilds s s'')) as Hcommit.
  { intros s' EG Etr Er EP Ed En Eo. apply gwp_last. eapply commit_gwp; [by rewrite Etr|by rewrite Er|]. split; [|done].
    destruct Hs as [Hs Hset]. split; [|cbn; by rewrite EG]. unfold tables_ok. cbn. by rewrite EG, EP, Ed, En, Eo. }
  unfold CreateMissingTabsIfNeeded. eapply gwp_guild; [exact Hh|]. destruct (gd_ranks h !! Z.to_nat k) as [r|] eqn:Ek; [|by apply wp_ret, Hcommit].
  pose proof (ok_tabs_size _ _ _ Hok). rewrite CreateMissingTabs_none; [|lia|intros i t Hi Hlt; by eapply Hc]. cbn [fst snd forM]. unfold upd_rank. eapply gwp_upd; [exact Hh|].
  apply wp_ret, Hcommit; try done. cbn. rewrite (alter_insert _ _ _ r) by done. rewrite list_insert_id by done.
  apply insert_id. rewrite Hh. by destruct h.
Qed.
Lemma validate_ranks_gwp w s id h : state_ok s -> gs_guilds s !! id = Some h -> complete h -> gwp (validate_ranks w id) s (fun _ s' => same_guilds s s').
Proof.
  intros Hs Hh Hc. pose proof (state_ok_guild s id h Hs Hh) as (_ & Hok & _ & Hn). pose proof (ok_ranks_size _ _ _ Hok) as Hsz.
  unfold validate_ranks. eapply gwp_guild; [exact Hh|]. cbv zeta. rewrite (ranks_size _ _ _ Hok). unfold GUILD_RANKS_MIN_COUNT, GUILD_RANKS_MAX_COUNT.
  rewrite (proj2 (Z.ltb_ge (len (gd_ranks h)) 2)), (proj2 (Z.ltb_ge 10 (len (gd_ranks h)))) by lia. cbn [orb].
  assert (forall k, k ∈ seqZ 0 (len (gd_ranks h)) -> broken_rank (gd_ranks h) k = false) as Hbroken.
  { intros k Hk. apply elem_of_seqZ in Hk. unfold broken_rank. destruct (lookup_lt_is_Some_2 (gd_ranks h) (Z.to_nat k)) as [r Hr]; [lia|].
    rewrite Hr, (ro_id _ _ _ (ok_ranks _ _ _ Hok _ _ Hr)), Z2Nat.id by lia. by rewrite Z.eqb_refl. }
  apply wp_bind. eapply wp_mono; [apply (wp_forM _ _ _ (same_guilds s))|].
  - done.
  - intros k s' Hk [Hs' EG]. rewrite (Hbroken k Hk). eapply wp_mono; [eapply missing_none_gwp; [exact Hs'|by rewrite EG|done]|].
    intros _ s'' [Hs'' EG']. split; [done|congruence].
  - intros [] s' Hs'. assert (existsb (broken_rank (gd_ranks h)) (seqZ 0 (len (gd_ranks h))) = false) as ->; [|by apply wp_ret].
    apply not_true_is_false. intros (k & Hk & Eb)%existsb_exists. apply list_elem_of_In in Hk. by rewrite (Hbroken k Hk) in Eb.
Qed.

(** ** Members *)

Definition reranked (v : Z) (P : Z * Member -> bool) (p : Z) (m : Member) : Member := if P (p, m) then member_set_rank v m else m.
Lemma rerank_loop id v (P : Z * Member -> bool) (l : list (Z * Member)) : forall s h, state_ok s -> gs_guilds s !! id = Some h -> NoDup l.*1 -> (forall p m, (p, m) ∈ l -> gd_members h !! p = Some m) ->
  gwp (forM l (fun e => if P e then ChangeRank id e.1 v else mret tt)) s (fun _ s' => state_ok s' /\
    exists F, gs_guilds s' = <[id := guild_set_members F h]> (gs_guilds s) /\
      forall p, F !! p = if decide (p ∈ l.*1) then reranked v P p <$> gd_members h !! p else gd_members h !! p).
Proof.
  induction l as [|[p m] l IH]; intros s h Hs Hh Hnd Hl; cbn [forM].
  - apply wp_ret. split; [done|]. exists (gd_members h). split; [|done]. symmetry. apply insert_id. rewrite Hh. by destruct h.
  - cbn in Hnd. apply NoDup_cons in Hnd as [Hp Hnd]. pose proof (Hl p m ltac:(by left)) as Hm. cbn [fst].
    apply wp_bind. eapply (wp_mono _ _ _ (fun _ s' => state_ok s' /\ gs_guilds s' = <[id := put_member p (reranked v P p m) h]> (gs_guilds s))).
    { unfold reranked. destruct (P (p, m)).
      - apply gwp_last. eapply ChangeRank_gwp; [apply Hs|done|done|]. intros s' Hs' EG. split; [split; [done|]|done]. rewrite EG. apply settled_put; [apply Hs|done].
      - apply wp_ret. split; [done|]. symmetry. apply insert_id. rewrite Hh. unfold put_member. rewrite insert_id by done. by destruct h. }
    intros [] s1 [Hs1 EG]. eapply wp_mono; [eapply (IH s1 (put_member p (reranked v P p m) h)); [done|by rewrite EG, lookup_insert_eq|done|]|].
    + intros q n Hq. cbn. rewrite lookup_insert_ne; [apply Hl; by right|]. intros <-. apply Hp, list_elem_of_fmap. by exists (p, n).
    + intros [] s2 [Hs2 (F & EG2 & HF)]. split; [done|]. exists F. rewrite EG2, EG, insert_insert_eq. split; [done|]. intros q. rewrite HF. cbn [fst fmap list_fmap gd_members put_member guild_set_members].
      destruct (decide (q = p)) as [->|Hne].
      * rewrite decide_False, decide_True, lookup_insert_eq, Hm by (done || by left). done.
      * rewrite lookup_insert_ne by done. destruct (decide (q ∈ l.*1)); [by rewrite decide_True by (by right)|].
        rewrite decide_False; [done|]. intros [?|?]%elem_of_cons; done.
Qed.

(** What [Validate] does to a member: a rank that is too large becomes the lowest,
    the leader becomes guild master, and other guild masters become officers. *)
Definition too_low (h : Guild) (e : Z * Member) : bool := GetRanksSize h <? mb_rankId e.2.
Definition usurper (h : Guild) (e : Z * Member) : bool := (mb_rankId e.2 =? GR_GUILDMASTER) && negb (e.1 =? gd_leaderGuid h).
Definition repaired (multiple : bool) (h : Guild) (p : Z) (m : Member) : Member :=
  let m := reranked (GetLowestRankId h) (too_low h) p m in
  if p =? gd_leaderGuid h then member_set_rank GR_GUILDMASTER m
  else if multiple then m else reranked GR_OFFICER (usurper h) p m.

Section Validate.
Context (w : GuildWorld) (Horder : forall M, wd_order w M ≡ₚ map_to_list M).

Lemma order_NoDup M : NoDup (wd_order w M).*1.
Proof. rewrite Horder. apply NoDup_fst_map_to_list. Qed.
Lemma rerank_all id v (P : Z * Member -> bool) s h : state_ok s -> gs_guilds s !! id = Some h ->
  gwp (forM (wd_order w (gd_members h)) (fun e => if P e then ChangeRank id e.1 v else mret tt)) s (fun _ s' => state_ok s' /\
    exists F, gs_guilds s' = <[id := guild_set_members F h]> (gs_guilds s) /\ forall p, F !! p = reranked v P p <$> gd_members h !! p).
Proof.
  intros Hs Hh. eapply wp_mono; [apply rerank_loop; [done|exact Hh|apply order_NoDup|by intros p m; rewrite (order_lookup w Horder)]|].
  intros [] s' [Hs' (F & EG & HF)]. split; [done|]. exists F. split; [done|]. intros p. rewrite HF. destruct (decide _) as [|Hn]; [done|].
  destruct (gd_members h !! p) as [m|] eqn:Em; [|done]. destruct Hn. apply list_elem_of_fmap. exists (p, m). split; [done|]. by rewrite (order_lookup w Horder).
Qed.
Lemma leader_guid s id h : state_ok s -> gs_guilds s !! id = Some h -> GUID_LOPART (gd_leaderGuid h) = gd_leaderGuid h.
Proof.
  intros Hs Hh. destruct (state_ok_guild s id h Hs Hh) as (_ & _ & [[m Hm] _]). apply lopart_small. apply (gi_guids _ _ _ _ _ (proj1 Hs)). right.
  eexists. by apply (member_row_of _ _ _ _ _ (proj1 Hs) id h).
Qed.
Lemma validate_leader_gwp s id h : state_ok s -> gs_guilds s !! id = Some h -> gwp (validate_leader w id) s (fun b s' => b = true /\ state_ok s' /\
  exists F, gs_guilds s' = <[id := guild_set_members F h]> (gs_guilds s) /\
    forall p, F !! p = (fun m => if p =? gd_leaderGuid h then member_set_rank GR_GUILDMASTER m else m) <$> gd_members h !! p).
Proof.
  intros Hs Hh. destruct (state_ok_guild s id h Hs Hh) as (_ & _ & [[m Hm] _]). unfold validate_leader. eapply gwp_guild; [exact Hh|].
  unfold GetMember. rewrite (leader_guid s id h Hs Hh), Hm. apply wp_bind. unfold IsRank. destruct (Z.eqb_spec (mb_rankId m) GR_GUILDMASTER) as [Er|Er].
  - apply wp_ret, wp_ret. split; [done|]. split; [done|]. exists (gd_members h). split; [symmetry; apply insert_id; rewrite Hh; by destruct h|].
    intros p. destruct (Z.eqb_spec p (gd_leaderGuid h)) as [->|]; [|by destruct (gd_members h !! p)]. rewrite Hm. cbn. f_equal. destruct m. cbn in Er. by subst.
  - apply gwp_last. eapply SetLeaderGUID_gwp; [done..|]. intros s' Hs' EG. apply wp_ret, wp_ret. split; [done|]. split; [done|].
    exists (<[gd_leaderGuid h := member_set_rank GR_GUILDMASTER m]> (gd_members h)). split; [rewrite EG; by destruct h|]. intros p.
    destruct (Z.eqb_spec p (gd_leaderGuid h)) as [->|]; [by rewrite lookup_insert_eq, Hm|]. rewrite lookup_insert_ne by done. by destruct (gd_members h !! p).
Qed.
Lemma Validate_gwp s id h : state_ok s -> gs_guilds s !! id = Some h -> complete h -> gwp (Validate w id) s (fun _ s' => state_ok s' /\
  exists F v, gs_guilds s' = <[id := guild_set_accounts v (guild_set_members F h)]> (gs_guilds s) /\
    forall p, F !! p = repaired (wd_multiple_masters w) h p <$> gd_members h !! p).
Proof.
  intros Hs Hh Hc. unfold Validate. apply wp_bind. eapply wp_mono; [by apply (validate_ranks_gwp w s id h)|]. intros [] s1 [Hs1 EG1]. rewrite <- EG1 in Hh.
  eapply gwp_guild; [exact Hh|]. apply wp_bind. eapply wp_mono; [by apply (rerank_all id _ (too_low h))|]. intros [] s2 [Hs2 (F2 & EG2 & HF2)].
  apply wp_bind. eapply wp_mono; [apply (validate_leader_gwp s2 id (guild_set_members F2 h)); [done|by rewrite EG2, lookup_insert_eq]|].
  intros b s3 (-> & Hs3 & F3 & EG3 & HF3). cbn [negb]. assert (gs_guilds s3 !! id = Some (guild_set_members F3 h)) as Hh3 by (by rewrite EG3, lookup_insert_eq).
  eapply gwp_guild; [exact Hh3|]. apply wp_bind.
  eapply (wp_mono _ _ _ (fun _ s4 => state_ok s4 /\ exists F4, gs_guilds s4 = <[id := guild_set_members F4 h]> (gs_guilds s3) /\
    forall p, F4 !! p = (if wd_multiple_masters w then fun m => m else reranked GR_OFFICER (usurper h) p) <$> F3 !! p)).
  { destruct (wd_multiple_masters w); [apply wp_ret; split; [done|]; exists F3; split; [by rewrite insert_id|]; intros p; by destruct (F3 !! p)|].
    eapply wp_mono; [by apply (rerank_all id _ (usurper h) s3 (guild_set_members F3 h))|]. intros [] s4 [Hs4 (F4 & EG4 & HF4)]. split; [done|]. by exists F4. }
  intros [] s4 [Hs4 (F4 & EG4 & HF4)]. apply gwp_last. eapply UpdateAccountsNumber_gwp; [apply Hs4|by rewrite EG4, lookup_insert_eq|].
  intros v s5 Hs5 ->. apply wp_ret. assert (gs_guilds s4 !! id = Some (guild_set_members F4 h)) as Hh4 by (by rewrite EG4, lookup_insert_eq). split.
  - split; [done|]. apply settled_map; [apply Hs4|]. apply (proj2 Hs4 id _ Hh4).
  - exists F4, v. cbn. rewrite EG4, EG3, EG2, EG1, !insert_insert_eq. split; [done|]. intros p. rewrite HF4, HF3. cbn [gd_members guild_set_members gd_leaderGuid].
    rewrite HF2. destruct (gd_members h !! p) as [m|]; [|done]. cbn. f_equal. unfold repaired.
    destruct (Z.eqb_spec p (gd_leaderGuid h)) as [->|Hne]; [|by destruct (wd_multiple_masters w)].
    destruct (wd_multiple_masters w); [done|]. unfold reranked at 1, usurper. cbn. by rewrite Z.eqb_refl.
Qed.
(** All guilds. *)
Definition validated (h h' : Guild) : Prop := exists F v, h' = guild_set_accounts v (guild_set_members F h) /\
  forall p, F !! p = repaired (wd_multiple_masters w) h p <$> gd_members h !! p.
Lemma validate_loop (l : list (Z * Guild)) : forall s, state_ok s -> NoDup l.*1 -> (forall id, id ∈ l.*1 -> exists h, gs_guilds s !! id = Some h /\ complete h) ->
  gwp (forM l (fun e => Validate w e.1)) s (fun _ s' => state_ok s' /\ (forall id, id ∉ l.*1 -> gs_guilds s' !! id = gs_guilds s !! id) /\
    forall id h, id ∈ l.*1 -> gs_guilds s !! id = Some h -> exists h', gs_guilds s' !! id = Some h' /\ validated h h').
Proof.
  induction l as [|[id g] l IH]; intros s Hs Hnd Hl; cbn [forM].
  { apply wp_ret. split_and!; try done. intros id h Hid. by apply not_elem_of_nil in Hid. }
  cbn in Hnd. apply NoDup_cons in Hnd as [Hni Hnd]. destruct (Hl id) as (h & Hh & Hc); [by left|]. cbn [fst].
  apply wp_bind. eapply wp_mono; [by apply (Validate_gwp s id h)|]. intros [] s1 [Hs1 (F & v & EG & HF)].
  eapply wp_mono; [apply (IH s1 Hs1 Hnd)|].
  - intros j Hj. rewrite EG, lookup_insert_ne by (intros <-; done). apply Hl. by right.
  - intros [] s2 (Hs2 & Ho & Hin). split; [done|]. cbn [fmap list_fmap fst]. split.
    + intros j [Hj1 Hj2]%not_elem_of_cons. rewrite Ho by done. by rewrite EG, lookup_insert_ne.
    + intros j k Hj Hk. apply elem_of_cons in Hj as [->|Hj]; [|apply Hin; [done|]; rewrite EG, lookup_insert_ne; [done|by intros <-]].
      rewrite Hh in Hk. injection Hk as <-. rewrite Ho, EG, lookup_insert_eq by done. eexists. split; [done|]. by exists F, v.
Qed.
End Validate.

(** ** After a restart *)

(** A guild [g] comes back as [h]. *)
Record restored (multiple : bool) (d : GuildDB) (id : Z) (g h : Guild) : Prop := {
  rs_fields : same_fields d id g h;
  rs_tabs : gd_bankTabs h = gd_bankTabs g;
  rs_ranks : ranks_read (len (gd_bankTabs g)) [] (gd_ranks g) (gd_ranks h);
  rs_members : forall p, option_Forall2 (fun m n => same_member (repaired multiple g p m) n) (gd_members g !! p) (gd_members h !! p)
}.
Lemma repaired_same multiple g h p m n : len (gd_ranks h) = len (gd_ranks g) -> gd_leaderGuid h = gd_leaderGuid g -> same_member m n ->
  same_member (repaired multiple g p m) (repaired multiple h p n).
Proof.
  intros El Eg [E1 [E2 E3]]. unfold repaired, reranked, too_low, usurper, GetRanksSize, GetLowestRankId. rewrite El, Eg. cbn [fst snd]. rewrite E1.
  unfold same_member. repeat case_match; cbn in *; try done; congruence.
Qed.
(** Without any row there is no guild to load, and nothing is wrong. *)
Lemma no_guilds_ok t s : state_ok t -> gs_db s = gs_db t -> gs_players s = ∅ -> gs_guilds s = ∅ -> 0 < gs_NextGuildId s -> gdb_guild (gs_db t) = ∅ ->
  gs_guilds t = ∅ /\ state_ok s.
Proof.
  intros Ht Ed EP EG Hn Hd. assert (gs_guilds t = ∅) as Et.
  { apply map_empty. intros id. apply eq_None_not_Some. rewrite <- (guild_row_in t Ht), Hd, lookup_empty. by intros [? ?]. }
  split; [done|]. destruct Ht as [[H1 H2 H3 H4 H5 H6] _]. unfold state_ok, tables_ok. rewrite EG, EP, Ed. rewrite Et in *.
  split; [|apply map_Forall_empty]. split; try done.
  intros p [[? Hp]|Hp]; [by rewrite lookup_empty in Hp|apply H5; by right].
Qed.
Lemma reload_gwp w (Horder : forall M, wd_order w M ≡ₚ map_to_list M) t s : state_ok t -> (forall p row, gdb_member (gs_db t) !! p = Some row -> wd_character w p = true) ->
  gs_db s = gs_db t -> gs_players s = ∅ -> gs_guilds s = ∅ -> 0 < gs_NextGuildId s -> (forall id g, gs_guilds t !! id = Some g -> id < gs_NextGuildId s) ->
  gwp (LoadGuilds w) s (fun _ s' => state_ok s' /\ each (restored (wd_multiple_masters w) (gs_db t)) (gs_guilds t) (gs_guilds s')).
Proof.
  intros Ht Hchar Ed EP EG Hn Hids. apply wp_get. case_bool_decide as Hd.
  { rewrite Ed in Hd. destruct (no_guilds_ok t s Ht Ed EP EG Hn Hd) as [Et Hs]. apply wp_ret. split; [done|]. intros id.
    rewrite Et, EG, lookup_empty. constructor. }
  apply (load_tables_gwp w t Ht Hchar s _ Ed EP Hn Hids). intros A s1 (Hs1 & _ & Heach) Hdom.
  assert (forall id, id ∈ (in_order A).*1 <-> is_Some (A !! id)) as HA.
  { intros id. rewrite list_elem_of_fmap. split; [intros ([j h] & -> & Hj); apply in_order_spec in Hj; by exists h|].
    intros [h Hh]. exists (id, h). split; [done|by apply in_order_spec]. }
  eapply wp_mono; [apply (validate_loop w Horder); [exact Hs1|apply in_order_NoDup|]|].
  - intros id Hid. apply HA, Hdom in Hid as [h Hh]. exists h. split; [done|]. destruct (each_some _ _ _ _ _ Heach Hh) as (g & Hg & Hr).
    destruct (state_ok_guild t id g Ht Hg) as (_ & Hok & _). by eapply read_complete.
  - intros [] s2 (Hs2 & Ho & Hin). split; [done|]. intros id. pose proof (Heach id) as Hid. destruct (gs_guilds s1 !! id) as [h|] eqn:Eh.
    + inversion Hid as [g h' [Hf Hr Htabs Hm] Eg|]; subst. destruct (Hin id h) as (h' & -> & (F & v & -> & HF)); [apply HA, Hdom; by exists h|done|].
      constructor. split; [exact Hf|done|done|]. intros p. cbn. rewrite HF. destruct (Hm p) as [m n Hmn|]; constructor.
      apply repaired_same; [by destruct Hr as [-> _]|by destruct Hf as (l & x & y & _ & [= _ ? _ _ _ _] & _)|done].
    + rewrite Ho, Eh; [by inversion Hid; constructor|]. rewrite HA, Hdom, Eh. by intros [? ?].
Qed.
