(* ===== verification/GuildSpec.v ===== *)
(** * Guilds: what holds of them (model in Guild.v, GuildRequests.v)

    The theorems on guilds, with a small world to try them in, and the ways in
    which the code lets more happen than it means to. *)

From S2P Require Import Prelude.
From S2P Require Import Floats.
From S2P Require Import Economy.
From S2P Require Import EconomyProofs.
From S2P Require Import Guild.
From S2P Require Import GuildRequests.
From S2P Require Import GuildProofs.
From S2P Require Import GuildRanks.
From S2P Require Import GuildMembers.
From S2P Require Import GuildMoney.
From S2P Require Import GuildSafety.
From S2P Require Import GuildLoading.
From S2P Require Import GuildReload.
From stdpp Require Import list sorting.
Local Open Scope Z_scope.
#[local] Set Warnings "-clear-no-such-hyp".

(** ** A small world

    Player 7 founds a guild with player 8, sets rank 4 to withdraw 300 a day, and
    pays in 500. *)

Definition demo_world : GuildWorld := mkGuildWorld 1000 (fun p => p) (fun _ => 0) (fun p => [p]) (fun _ => true) (fun _ => None) (fun _ _ => false)
  false 25 true 25 1000 (fun _ => 100) false [[71]; [79]; [86]; [77]; [73]] (fun l => l) (fun _ _ => true) map_to_list.
Definition demo_player : Player := mkPlayer 1000 ∅ true false [] ∅ 0 0.
Definition demo_start : GuildState :=
  mkGuildState ∅ 1 ∅ (mkGuildDB ∅ (fun _ => ∅) ∅ ∅ (fun _ => ∅) (fun _ => ∅)) [] (mkRealm ∅ ∅ (fun _ => ∅) ∅ 1 1 1 (mkCharDB ∅ ∅ ∅ ∅ ∅) [] []) [].
Definition after (s : GuildState) (r : Request) : GuildState := (handle demo_world r s).2.
Definition demo_guild : GuildState := after (after (after demo_start (PlayerLogin 7 demo_player)) (PlayerLogin 8 demo_player)) (CMSG_TURN_IN_PETITION 7 [65] [8]).
Definition demo_bank : GuildState :=
  after (after demo_guild (CMSG_GUILD_SET_RANK_PERMISSIONS 7 4 [73] (Z.lor GR_RIGHT_EMPTY (Z.lor GR_RIGHT_WITHDRAW_GOLD GR_RIGHT_WITHDRAW_REPAIR)) 300 []))
    (CMSG_GUILD_BANK_DEPOSIT_MONEY 7 1 500).
Lemma demo_order M : wd_order demo_world M ≡ₚ map_to_list M.
Proof. done. Qed.
Lemma reach_after s r : reachable demo_world s -> allowed s r -> (handle demo_world r s).1 = Ok tt -> reachable demo_world (after s r).
Proof. intros Hs Hr Er. apply (reach_step _ s r tt); [done|done|]. unfold after. destruct (handle demo_world r s) as [x y]. cbn in *. by subst. Qed.
Lemma demo_guild_reachable : reachable demo_world demo_guild.
Proof.
  apply reach_after; [apply reach_after; [apply reach_after; [apply reach_start; [done|done|done|by split_and!]|done|done]|done|done]| |by vm_compute].
  intros guid Hg. apply list_elem_of_singleton in Hg as ->. lia.
Qed.
Lemma demo_bank_reachable : reachable demo_world demo_bank.
Proof.
  apply reach_after; [apply reach_after; [apply demo_guild_reachable|by constructor|by vm_compute]| |by vm_compute].
  vm_compute. by eexists.
Qed.

(** ** Memory, tables and players agree *)

(** What the invariant says, in words of the tables: each member has one row, that
    of his guild; the players who are online carry what it says; each guild that
    is there has a leader, the ranks and rights that its rows say, and none else
    has rows. *)
Record in_step (s : GuildState) : Prop := {
  is_member_rows : forall p row, gdb_member (gs_db s) !! p = Some row <-> exists g m, gs_guilds s !! mw_guildid row = Some g /\
    gd_members g !! p = Some m /\ row = mkMemberRow (mw_guildid row) (mb_rankId m) (mb_publicNote m) (mb_officerNote m);
  is_one_guild : forall p i j g h, gs_guilds s !! i = Some g -> gs_guilds s !! j = Some h -> is_Some (gd_members g !! p) -> is_Some (gd_members h !! p) -> i = j;
  is_fields : forall p f, gs_players s !! p = Some f -> match gdb_member (gs_db s) !! p with
    | Some row => gf_GuildId f = mw_guildid row /\ gf_Rank f = mw_rank row
    | None => gf_GuildId f = 0
    end;
  is_rows : forall id, is_Some (gdb_guild (gs_db s) !! id) <-> is_Some (gs_guilds s !! id);
  is_guild : forall id g, gs_guilds s !! id = Some g -> is_Some (gd_members g !! gd_leaderGuid g) /\ 2 <= len (gd_ranks g) <= 10 /\
    gw_BankMoney <$> gdb_guild (gs_db s) !! id = Some (gd_bankMoney g) /\ gw_leaderguid <$> gdb_guild (gs_db s) !! id = Some (gd_leaderGuid g);
  is_ranks : forall id g k, gs_guilds s !! id = Some g ->
    gdb_rank (gs_db s) id !! k = (fun r => mkRankRow (rk_name r) (rk_rights r) (rk_bankMoneyPerDay r)) <$> at_index (gd_ranks g) k;
  is_rights : forall id g i k, gs_guilds s !! id = Some g -> gdb_right (gs_db s) id !! (i, k) = right_at (gd_ranks g) (len (gd_bankTabs g)) i k;
  is_master : forall id g r, gs_guilds s !! id = Some g -> gd_ranks g !! 0%nat = Some r -> rk_rights r = GR_RIGHT_ALL
}.
Lemma state_ok_in_step s : state_ok s -> in_step s.
Proof.
  intros Hs. pose proof Hs as [Ht Hset]. split.
  - apply (gi_members _ _ _ _ _ Ht).
  - intros p i j g h Hg Hh [m Hm] [n Hn]. pose proof (member_row_of _ _ _ _ _ Ht i g p m Hg Hm) as E. rewrite (member_row_of _ _ _ _ _ Ht j h p n Hh Hn) in E. by injection E.
  - intros p f Hf. by apply (tables_fields s).
  - apply (guild_row_in s Hs).
  - intros id g Hg. destruct (state_ok_guild s id g Hs Hg) as (_ & Hok & Hl & Hn). destruct (ok_row _ _ _ Hok) as (l & x & t & ->).
    pose proof (ok_ranks_size _ _ _ Hok). by split_and!.
  - intros id g k Hg. destruct (state_ok_guild s id g Hs Hg) as (_ & Hok & _). apply (ok_rank_rows _ _ _ Hok).
  - intros id g i k Hg. destruct (state_ok_guild s id g Hs Hg) as (_ & Hok & _). apply (ok_right_rows _ _ _ Hok).
  - intros id g r Hg Hr. destruct (state_ok_guild s id g Hs Hg) as (_ & Hok & _). by apply (ro_master _ _ _ (ok_ranks _ _ _ Hok 0%nat r Hr)).
Qed.


(** ** Restarting *)

Definition restart (s : GuildState) : GuildState := gs_set_guilds ∅ (gs_set_players ∅ s).
Lemma restart_db s : gs_db (restart s) = gs_db s.
Proof. done. Qed.
Lemma restart_players s : gs_players (restart s) = ∅.
Proof. done. Qed.
Lemma restart_guilds s : gs_guilds (restart s) = ∅.
Proof. done. Qed.
Lemma restart_next s : gs_NextGuildId (restart s) = gs_NextGuildId s.
Proof. done. Qed.
Lemma ids_below_next s id : state_ok s -> is_Some (gdb_guild (gs_db s) !! id) -> id < gs_NextGuildId s.
Proof. intros Hs Hid. apply (guild_row_in s Hs) in Hid as [g Hg]. exact (proj2 (proj1 (gi_guild _ _ _ _ _ (proj1 Hs) id g Hg))). Qed.


(** ** Who may move whom *)

(** C12. A member whose rank exists moves another by one rank only if his
    rank has the right to, and only one who is below him, who stays below him and,
    if demoted, does not fall under the lowest rank; the row of the member says
    the same.  Whatever else is asked for is answered and changes nothing. *)
Theorem HandleUpdateMemberRank_spec s id p g me guid demote : state_ok s -> GetGuild s p = Some id -> gs_guilds s !! id = Some g -> GetMember g p = Some me ->
  0 <= mb_rankId me < 255 -> (forall q m, gd_members g !! q = Some m -> mb_rankId m < 256) ->
  gwp (HandleUpdateMemberRank id p guid demote) s (fun _ s' =>
    let refused := s' = s \/ exists type e, s' = gs_send (SMSG_GUILD_COMMAND_RESULT p type e) s in
    match GetMember g guid with
    | Some m =>
        let new := if demote then mb_rankId m + 1 else mb_rankId m - 1 in
        if HasRankRight g p (if demote then GR_RIGHT_DEMOTE else GR_RIGHT_PROMOTE) && negb (GUID_LOPART guid =? p) && (mb_rankId me <? mb_rankId m) &&
           (mb_rankId me <? new) && (negb demote || (new <=? GetLowestRankId g))
        then state_ok s' /\ gs_guilds s' = <[id := put_member (GUID_LOPART guid) (member_set_rank new m) g]> (gs_guilds s) /\
             gdb_member (gs_db s') !! GUID_LOPART guid = Some (member_row id (member_set_rank new m))
        else refused
    | None => refused
    end).
Proof.
  intros Hs Hid Hg Hme Hrank Hbytes. unfold HandleUpdateMemberRank. eapply gwp_guild; [exact Hg|]. cbv zeta.
  destruct (HasRankRight g p (if demote then _ else _)); cbn [negb andb]; [|destruct (GetMember g guid); right; by do 2 eexists].
  destruct (GetMember g guid) as [m|] eqn:Em; [|by left]. destruct (GUID_LOPART guid =? p); cbn [negb andb]; [right; by do 2 eexists|]. rewrite Hme.
  assert (GetLowestRankId g < 256) as Hlow by (apply uint_range; done). apply GetMember_Some in Em. pose proof (Hbytes _ _ Em) as Hb.
  assert (forall new, 0 <= new < 256 -> gwp (ChangeRank id (GUID_LOPART guid) (u8 new);; BroadcastEvent id (if demote then GE_DEMOTION else GE_PROMOTION)) s
    (fun _ s' => state_ok s' /\ gs_guilds s' = <[id := put_member (GUID_LOPART guid) (member_set_rank new m) g]> (gs_guilds s) /\
      gdb_member (gs_db s') !! GUID_LOPART guid = Some (member_row id (member_set_rank new m)))) as Hchange.
  { intros new Hnew. rewrite uint_small by lia. eapply ChangeRank_gwp; [apply Hs|exact Hg|exact Em|]. intros s1 Hs1 EG.
    assert (state_ok s1) as Hok1 by (split; [done|]; rewrite EG; apply settled_put; [apply Hs|done]).
    split; [done|]. split; [done|]. apply (member_row_of _ _ _ _ _ Hs1 id (put_member (GUID_LOPART guid) (member_set_rank new m) g)).
    - by rewrite EG, lookup_insert_eq.
    - cbn. by rewrite lookup_insert_eq. }
  unfold next_rank, IsRankNotLower. destruct demote; cbn [negb orb].
  - destruct (Z.leb_spec (mb_rankId m) (mb_rankId me)); [rewrite (proj2 (Z.ltb_ge _ _)) by lia; right; by do 2 eexists|].
    rewrite (proj2 (Z.ltb_lt (mb_rankId me) (mb_rankId m))), (proj2 (Z.ltb_lt _ (mb_rankId m + 1))) by lia. cbn [andb].
    destruct (Z.leb_spec (GetLowestRankId g) (mb_rankId m)); [rewrite (proj2 (Z.leb_gt _ _)) by lia; right; by do 2 eexists|].
    rewrite (proj2 (Z.leb_le (mb_rankId m + 1) _)) by lia. apply Hchange. lia.
  - rewrite uint_small by lia. destruct (Z.leb_spec (mb_rankId m) (mb_rankId me + 1)).
    + rewrite (proj2 (Z.ltb_ge _ (mb_rankId m - 1))) by lia. rewrite andb_false_r. right. by do 2 eexists.
    + rewrite (proj2 (Z.ltb_lt (mb_rankId me) (mb_rankId m))), (proj2 (Z.ltb_lt _ (mb_rankId m - 1))) by lia. cbn [andb]. apply Hchange. lia.
Qed.
Definition demo_of (s : GuildState) : Guild := default (mkGuild [] 0 [] [] 0 0 0 [] ∅ [] 0 0 0) (gs_guilds s !! 1).
Lemma HandleUpdateMemberRank_spec_witness : exists g me, GetMember g 7 = Some me /\ gwp (HandleUpdateMemberRank 1 7 8 false) demo_guild (fun _ s' =>
  state_ok s' /\ gs_guilds s' = <[1 := put_member 8 (new_member 3) g]> (gs_guilds demo_guild) /\
  gdb_member (gs_db s') !! 8 = Some (mkMemberRow 1 3 [] [])).
Proof.
  exists (demo_of demo_guild), (new_member 0). split; [by vm_compute|].
  refine (HandleUpdateMemberRank_spec demo_guild 1 7 (demo_of demo_guild) (new_member 0) 8 false (guild_reachable_ok demo_world demo_order eq_refl _ demo_guild_reachable) _ _ _ _ _).
  - by vm_compute.
  - by vm_compute.
  - by vm_compute.
  - done.
  - assert (map_Forall (fun _ m => mb_rankId m < 256) (gd_members (demo_of demo_guild))) as H by (apply (bool_decide_unpack _); by vm_compute).
    intros q m Hq. exact (H q m Hq).
Defined.

(** ** The bank *)

(** What a rank lets its members take a day, if its number is one for an [int32]. *)
Definition allowance (g : Guild) (m : Member) : option Z :=
  if mb_rankId m =? GR_GUILDMASTER then None
  else Some (if has (GetRankRights g (mb_rankId m)) (Z.lor GR_RIGHT_WITHDRAW_REPAIR GR_RIGHT_WITHDRAW_GOLD) then GetRankBankMoneyPerDay g (mb_rankId m) else 0).
Definition taken (m : Member) : Z := nth (Z.to_nat GUILD_BANK_MAX_TABS) (mb_bankWithdraw m) 0.
Lemma remaining_limit g m s v c : GetMemberRemainingMoney g m s = (Ok v, s) -> 0 <= taken m -> 0 < c -> c <= u64 v ->
  match allowance g m with Some limit => taken m + c <= limit | None => True end.
Proof.
  intros Ev Ht Hc Hv. unfold allowance. unfold GetMemberRemainingMoney, mret, prog_ret, throw, GetBankWithdrawValue, IsRank in Ev.
  destruct (mb_rankId m =? GR_GUILDMASTER); [done|]. fold (taken m) in Ev. destruct (has _ _).
  - cbv zeta in Ev. destruct (_ =? _) eqn:Es in Ev; [|done]. injection Ev as <-. destruct (Z.ltb_spec 0 (GetRankBankMoneyPerDay g (mb_rankId m) - taken m)) as [Hpos|].
    + pose proof (sint_range 32 (from_option rk_bankMoneyPerDay 0 (GetRankInfo g (mb_rankId m))) ltac:(lia)). unfold GetRankBankMoneyPerDay in *.
      rewrite uint_small in Hv by lia. lia.
    + change (u64 0) with 0 in Hv. lia.
  - injection Ev as <-. change (u64 0) with 0 in Hv. lia.
Qed.
Lemma modified_add m a : 0 <= m < 2 ^ 64 -> 0 <= a -> fits m a = true -> modified m a = m + a.
Proof.
  unfold fits, modified, MAX_MONEY_AMOUNT. intros Hm Ha Hf. destruct (Z.eqb_spec a 0) as [->|Hne]; [lia|]. cbn [orb] in Hf.
  rewrite (proj2 (Z.ltb_ge a 0)) by lia. apply Z.ltb_lt in Hf. rewrite uint_small by lia. rewrite (proj2 (Z.ltb_lt _ _)) by lia. rewrite uint_small; lia.
Qed.

(** C11. A withdrawal either changes nothing, or moves exactly what was
    asked for, up to the money one may have, from the bank to the player, in memory
    and in the tables at once; the bank has that much, and what the member has
    taken that day, with this, is not more than his rank allows. *)
Theorem HandleMemberWithdrawMoney_spec s id p g m pl a : state_ok s -> gs_guilds s !! id = Some g -> gd_members g !! p = Some m ->
  r_online (gs_realm s) !! p = Some pl -> 0 <= p < 2 ^ 32 -> 0 < a -> 0 <= gd_bankMoney g < 2 ^ 64 -> 0 <= pl_money pl < 2 ^ 64 ->
  length (mb_bankWithdraw m) = 9%nat -> 0 <= taken m ->
  gwp (HandleMemberWithdrawMoney id p a false) s (fun done s' =>
    let c := Z.min a MAX_MONEY_AMOUNT in
    if done then exists g' m', state_ok s' /\ gs_guilds s' !! id = Some g' /\ gd_members g' !! p = Some m' /\
        c <= gd_bankMoney g /\ gd_bankMoney g' = gd_bankMoney g - c /\ gw_BankMoney <$> gdb_guild (gs_db s') !! id = Some (gd_bankMoney g - c) /\
        pl_money <$> r_online (gs_realm s') !! p = Some (pl_money pl + c) /\ db_money (r_db (gs_realm s')) !! p = Some (pl_money pl + c) /\
        match allowance g m with Some limit => taken m' = taken m + c /\ taken m' <= limit | None => True end
    else untouched s s').
Proof.
  intros Hs Hg Hm Hp Hguid Ha Hbank Hmoney Hlen Ht. eapply wp_mono; [by apply (withdraw_run s id p g pl a); try done; lia|].
  intros b s' H. cbv zeta. set (c := Z.min a MAX_MONEY_AMOUNT) in *. assert (0 < c <= MAX_MONEY_AMOUNT) as Hc by (unfold c, MAX_MONEY_AMOUNT; lia).
  destruct b; [|exact H]. destruct H as ([Mok MG Mon Mrow Mmoney] & Hcb & Hf & m0 & v & Hm0 & Ev & Hv). assert (m0 = m) as -> by congruence.
  rewrite (modified_add (pl_money pl) c Hmoney ltac:(lia) Hf) in Mon, Mmoney. rewrite uint_small in MG, Mrow by lia.
  exists (guild_set_money (gd_bankMoney g - c) (withdrawn p c g)), (withdraw_more GUILD_BANK_MAX_TABS (u32 c) m).
  split; [done|]. split; [by rewrite MG, lookup_insert_eq|]. split; [cbn; by rewrite lookup_alter_eq, Hm|]. split; [done|]. split; [done|]. split; [done|].
  split; [by rewrite Mon, lookup_insert_eq|]. split; [done|]. pose proof (remaining_limit g m s v c Ev Ht ltac:(lia) Hv) as Hlim.
  destruct (allowance g m) as [limit|] eqn:El; [|done].
  assert (limit < 2 ^ 31) as Hl31.
  { unfold allowance in El. destruct (_ =? _); [done|]. injection El as <-. destruct (has _ _); [|lia]. unfold GetRankBankMoneyPerDay.
    pose proof (sint_range 32 (from_option rk_bankMoneyPerDay 0 (GetRankInfo g (mb_rankId m))) ltac:(lia)). lia. }
  assert (taken (withdraw_more GUILD_BANK_MAX_TABS (u32 c) m) = taken m + c) as ->; [|done].
  unfold taken, withdraw_more, GUILD_BANK_MAX_TABS in *. cbn [mb_bankWithdraw member_set_withdraw] in *. rewrite uint_small by lia. change (Z.to_nat 8) with 8%nat in *.
  rewrite !nth_lookup in *. rewrite list_lookup_alter_eq. destruct (lookup_lt_is_Some_2 (mb_bankWithdraw m) 8) as [x Hx]; [lia|]. rewrite Hx in *. cbn in *.
  apply sint_small; lia.
Qed.
Lemma HandleMemberWithdrawMoney_spec_witness : allowance (demo_of demo_bank) (new_member 4) = Some 300 /\ exists s', HandleMemberWithdrawMoney 1 8 200 false demo_bank = (Ok true, s') /\
  exists g' m', state_ok s' /\ gs_guilds s' !! 1 = Some g' /\ gd_members g' !! 8 = Some m' /\ gd_bankMoney g' = 300 /\ pl_money <$> r_online (gs_realm s') !! 8 = Some 1200 /\
    taken m' = 200.
Proof.
  split; [by vm_compute|]. exists (HandleMemberWithdrawMoney 1 8 200 false demo_bank).2. split.
  { assert ((HandleMemberWithdrawMoney 1 8 200 false demo_bank).1 = Ok true) as E by by vm_compute.
    destruct (HandleMemberWithdrawMoney 1 8 200 false demo_bank) as [r s']. cbn in E |- *. by rewrite E. }
  pose proof (HandleMemberWithdrawMoney_spec demo_bank 1 8 (demo_of demo_bank) (new_member 4) demo_player 200
    (guild_reachable_ok demo_world demo_order eq_refl _ demo_bank_reachable)) as H.
  assert ((HandleMemberWithdrawMoney 1 8 200 false demo_bank).1 = Ok true) as E by by vm_compute.
  unfold Prelude.wp in H. destruct (HandleMemberWithdrawMoney 1 8 200 false demo_bank) as [r s']. cbn in E. subst r. cbn [snd].
  destruct H as (g' & m' & H1 & H2 & H3 & _ & H5 & _ & H7 & _ & H9 & _).
  - by vm_compute.
  - by vm_compute.
  - by vm_compute.
  - lia.
  - lia.
  - by vm_compute.
  - by vm_compute.
  - done.
  - by vm_compute.
  - exists g', m'. split; [exact H1|]. split; [exact H2|]. split; [exact H3|]. split; [rewrite H5; by vm_compute|]. split; [rewrite H7; by vm_compute|].
    rewrite H9. by vm_compute.
Defined.
(** A deposit moves money the other way. *)
Lemma HandleMemberDepositMoney_spec s id p g pl a : state_ok s -> gs_guilds s !! id = Some g -> r_online (gs_realm s) !! p = Some pl ->
  0 <= a <= pl_money pl -> a < 2 ^ 63 -> pl_money pl < 2 ^ 64 -> 0 <= gd_bankMoney g -> gd_bankMoney g + a < 2 ^ 64 ->
  gwp (HandleMemberDepositMoney id p a false) s (fun _ s' => state_ok s' /\
    gs_guilds s' = <[id := guild_set_money (gd_bankMoney g + a) g]> (gs_guilds s) /\ gw_BankMoney <$> gdb_guild (gs_db s') !! id = Some (gd_bankMoney g + a) /\
    pl_money <$> r_online (gs_realm s') !! p = Some (pl_money pl - a) /\ db_money (r_db (gs_realm s')) !! p = Some (pl_money pl - a)).
Proof.
  intros Hs Hg Hp Ha H63 Hm Hb Hsum. eapply wp_mono; [by apply (deposit_run s id p g pl a)|]. intros _ s' [Mok MG Mon Mrow Mmoney].
  rewrite uint_small in MG, Mrow by lia. rewrite modified_pay in Mon, Mmoney by lia. split_and!; try done. by rewrite Mon, lookup_insert_eq.
Qed.

(** ** More than is meant *)

(** Who has a rank that is not there, because it was removed, has every right. *)
Theorem missing_rank_has_all_rights g p m right : GetMember g p = Some m -> GetRankInfo g (mb_rankId m) = None -> HasRankRight g p right = true.
Proof. intros Hm Hr. unfold HasRankRight, GetRankRights. by rewrite Hm, Hr. Qed.
(** Declining an invitation takes one out of one's guild, for all but the guild. *)
Theorem decline_leaves_member s p : state_ok s -> is_Some (gs_players s !! p) ->
  GetGuild (HandleGuildDecline p s).2 p = None /\ gs_guilds (HandleGuildDecline p s).2 = gs_guilds s /\ gs_db (HandleGuildDecline p s).2 = gs_db s.
Proof. intros Hs [f Hf]. split; [|done]. unfold GetGuild. cbn. by rewrite lookup_alter_eq, Hf. Qed.
Definition two_guilds : GuildState :=
  let s := after (after demo_guild (CMSG_GUILD_DECLINE 8)) (CMSG_TURN_IN_PETITION 8 [66] []) in s.
Theorem decline_makes_two_guilds : (fun g => bool_decide (is_Some (gd_members g !! 8))) <$> (in_order (gs_guilds two_guilds)).*2 = [true; true].
Proof. by vm_compute. Qed.
(** Who may promote may make anybody guild master, and anybody else: the ranks of
    the two are not compared. *)
Theorem SetMemberRank_any_rank s id p g m guid rank : state_ok s -> gs_guilds s !! id = Some g -> GetMember g guid = Some m -> GUID_LOPART guid <> p ->
  HasRankRight g p GR_RIGHT_PROMOTE = true -> HasRankRight g p GR_RIGHT_DEMOTE = true -> 0 <= rank < 256 ->
  gwp (HandleSetMemberRank id p guid rank) s (fun _ s' => gs_guilds s' = <[id := put_member (GUID_LOPART guid) (member_set_rank rank m) g]> (gs_guilds s)).
Proof.
  intros Hs Hg Hm Hp Hpro Hdem Hr. unfold HandleSetMemberRank. eapply gwp_guild; [exact Hg|]. rewrite Hm. cbv zeta.
  assert (HasRankRight g p (if mb_rankId m <? rank then GR_RIGHT_DEMOTE else GR_RIGHT_PROMOTE) = true) as -> by (by destruct (_ <? _)).
  cbn [negb]. rewrite (proj2 (Z.eqb_neq _ _) Hp). unfold SendGuildRanksUpdate. eapply gwp_guild; [exact Hg|]. rewrite Hm. apply wp_modify.
  rewrite uint_small by lia. apply gwp_last. eapply ChangeRank_gwp; [apply (proj1 Hs)|exact Hg|by apply GetMember_Some|]. intros s' _ EG. by apply wp_ret.
Qed.
(** A limit from 2^31 on is negative as it is read, and nothing may be taken. *)
Theorem large_limit_gives_nothing g m s v : mb_rankId m <> GR_GUILDMASTER -> 2 ^ 31 <= from_option rk_bankMoneyPerDay 0 (GetRankInfo g (mb_rankId m)) < 2 ^ 32 ->
  0 <= taken m -> GetMemberRemainingMoney g m s = (Ok v, s) -> v = 0.
Proof.
  intros Hne Hlim Ht Ev. unfold GetMemberRemainingMoney, GetBankWithdrawValue, IsRank, mret, prog_ret, throw in Ev. rewrite (proj2 (Z.eqb_neq _ _) Hne) in Ev.
  fold (taken m) in Ev. destruct (has _ _); [|by injection Ev]. cbv zeta in Ev. destruct (_ =? _) in Ev; [|done]. injection Ev as <-.
  rewrite (proj2 (Z.ltb_ge _ _)); [done|]. unfold GetRankBankMoneyPerDay, sint. set (x := from_option _ _ _) in *.
  rewrite <- (Z.mod_add _ (-1)) by lia. rewrite Z.mod_small by lia. lia.
Qed.
